(* ===== verification/_CoqProject ===== *)
-Q . S2P
Prelude.v
CInt.v
BitField.v
Bytes.v
CFloat.v
Wasm.v
Isa.v
Inst.v
Expand.v
Ubh.v
Memory.v
UModule.v
DataSegs.v
Machine.v
Handlers.v
Exec.v
Frames.v
Windows.v
Safety.v
Loading.v
StrTab.v
TypeEncoder.v
Encoder.v
Code.v
CodeSec.v
Labels.v
Writing.v
Leb128.v
Winst.v
Splitting.v
LocalTable.v
Graph.v
Converter.v
Convert.v
Alloc.v
Straight.v
Creation.v
Building.v
Translation.v
Structured.v
Blocks.v
Jumping.v
Branching.v
Emission.v
Flow.v
Calls.v
Layout.v
File.v
Saved.v
Functions.v
SysCalls.v
System.v
Tracing.v
Command.v
Options.v
Debugger.v
Sample.v
Reachable.v
Typed.v
Hosted.v
Imports.v
Arguments.v
HostCalls.v
Debugging.v
Starting.v
Written.v
Linker.v
Linked.v
Ops.v
Execution.v
Format.v
Instructions.v
Running.v
Compiled.v
Loops.v
Loaded.v
Ending.v
Conversion.v
Deployed.v
Programs.v
