(* ===== verification/Prelude.v ===== *)
(** * uwasm-vm: a verification development

  uwasm-vm runs programs of a register machine that are translated from WebAssembly.
  The library models the interpreter and everything on the way to it: the translation
  of WebAssembly functions, the writing of a module file, its linking with native
  code, its loading, the run of the program from the command line, the functions it
  calls on the host, and the debugger.

  ** The program's parts

  - The converter ([src/wasm/]) takes a function's WebAssembly bytes, splits them into
    instructions, builds the graph of its blocks, gives registers to locals and operands
    and asks the encoder for instructions.
  - The encoder ([src/encoder/], [src/utilities/u_str_tab.*]) collects types, functions,
    names, code with labels and data, and writes the file.  The file is made of packed
    records ([include/ubh/ubh.h]) and of instruction words ([src/ubh/u_inst.*]).
  - The static linker ([src/static_linker/]) reads a file and a shared object and writes
    a file with the shared object's text and the places of the imported symbols in it.
  - The loader ([src/ubh/u_module.*]) finds the sections in a file, decodes types and
    expands the code to the form the interpreter dispatches on.
  - The machine ([src/interpreter/exec_unit*]) has four register files with windows that
    slide at calls, a stack of contexts, a memory block and one handler per instruction.
  - The runtime ([src/runtime/]) binds imports to functions of the host, loads files
    into a machine, finds the start function and runs it; [src/main.cxx] reads the
    command line or the commands of the debugger ([src/interpreter/exec_debug.*]).

  ** Files

  Foundations:
  - [Prelude]: outcomes (a value, or the way the program stops or its behaviour is
    undefined), the build, the state monad [M] of the stateful components, its
    frame and preservation rules, and the hint database [monad].  [CInt], [BitField], [Bytes], [CFloat]: the C++ integers,
    bit-fields, object bytes and floats.  [Wasm]: WebAssembly's integer operators, from
    its specification, to compare with.

  The machine:
  - [Isa], [Inst], [Expand]: opcodes ([.def] lists of [src/ubh/]), instruction words,
    expanded instructions.  [Memory]: the memory block.  [Ubh]: the records of the file.
  - [UModule], [File]: [U_MODULE], the tables of a loaded file, type caches, code
    expansion, data segments; the file as bytes, read and written.
  - [Machine], [Handlers], [Exec]: state and calls ([exec_unit.h], [exec_unit.cxx]), the
    handlers ([exec_unit_func.h]), the loop and its step relation.
  - [Frames], [Windows], [Safety], [Loading], [Typed], [Reachable]: what instructions
    leave alone; the invariant of the register windows, its preservation and its
    establishment by the loader; the types of registers; the reachable states.
  - [Ops], [Execution], [Instructions]: theorems about instructions and runs.

  Writing modules:
  - [StrTab], [TypeEncoder], [Encoder]: string tables, signatures, code bodies and the
    encoder.  [Code], [CodeSec], [Labels], [Writing], [Layout], [Saved], [Functions],
    [DataSegs]: what is written is read back; theorems in [Format].

  Translation:
  - [Leb128], [Winst], [Splitting]: numbers and instructions of WebAssembly's binary
    format.  [LocalTable], [Graph], [Converter], [Convert]: tables, blocks, and the
    conversion, a definition per case of its switch.
  - [Alloc], [Straight], [Creation], [Building], [Translation], [Calls]: registers of the
    operand stack, what is emitted, the code of a straight-line function.  [Running],
    [Compiled], [Ending]: that code on the machine, between the start and the end of a
    program.  Theorems in [Conversion].
  - [Structured]: code with blocks, loops, conditionals, branches and returns, which such
    code fits the converter ([check_code]), and what is emitted for it ([items]).
    [Blocks]: the graph and the labels that [Build_block_hierarchy] makes; [Jumping],
    [Branching]: the label a branch goes to, and each case of the switch for control
    flow; [Emission], [Flow]: the code of the function.  [Loops]: its semantics ([eval])
    and the machine's run of the code; [Loaded]: the labels when it is loaded.
    [Written]: the functions of a written file.  Theorems in [Programs].

  Running programs:
  - [SysCalls], [Hosted], [Imports], [Arguments]: the functions of the runtime
    ([u_runtime.cxx]) over an abstract host, and the table of imports; theorems in
    [HostCalls].  [Tracing]: trace options.
  - [System], [Command], [Options]: [UWASM_SYSTEM], the C interface and the run of a
    program with options; the command line as text.
  - [Linker], [Linked], [Starting]: the linker, and what the start function of a file is.
    Theorems in [Deployed].
  - [Debugger], [Debugging]: breakpoints, frames, the loops with breakpoints, the commands.
  - [Sample]: a program of two functions, whose states the theorems are applied to.

  Interfaces are type classes: [Build] and [Platform] (compiler flags and target),
  [FloatEnv] (which NaN), [Runtime] (what the machine asks of host calls) with the laws
  [RuntimeFrame] and [RuntimeTyped], which [Hosted] proves of the runtime's functions,
  [Host] (C library, dlmalloc, libffi and native code), [VectorGrowth], [ConvBuild],
  [FloatText].  Theorems on runs are proved for every instance.

  ** What the theorems show

  - Runs ([Execution]): in every reachable state the windows are in place, declared
    registers can be accessed, calls pass arguments and results and restore the caller;
    the loop refines the step relation and its outcome does not depend on the fuel.
  - Instructions ([Instructions]): integer operators, division, shifts, jumps, loads and
    stores against WebAssembly's meaning, with what is done on the operands on which they
    differ; growth of the memory; the address of a stack variable and its check.
  - Files ([Format]): files, code, signatures, strings, data segments and instructions
    that are written are read back; what the encoder refuses; functions requested by name;
    the caches of the loader.
  - Translation ([Conversion]): splitting and LEB128 (and in [Splitting] that a whole file
    of WebAssembly is never read); the exact code of straight-line
    functions and its result on the machine; moves around calls; distinct registers.
  - Structured programs ([Programs]): the exact code of functions with blocks, loops,
    conditionals, branches and returns; its run simulates WebAssembly's semantics; and a
    program with such a function, converted, written, loaded and run, ends with the
    function's value if the function returns and does not end if it does not.  The
    blocks of these functions have no results, and their other instructions are constants,
    locals and total integer operators; calls, loads and stores, [br_table], [select] and
    floats are in the model of the converter and have their own theorems only.
  - Programs ([HostCalls], [Deployed], [Options], [Debugging]): imports run the function
    of their name; arguments in memory; [malloc] and [free]; the start function; linked
    files; a straight-line program ends with its value; command lines are read as
    written; what breakpoints do, that a session never has one, and the frames shown.

  ** Bounds and fuel

  C++ loops that are not structural have fuel.  [Exec_start]'s is the number of
  iterations: any amount that is enough gives the same outcome, and
  [straight_line_program_ends] gives one.  The semantics of structured code has as fuel
  the iterations of each loop; when they are not enough the machine makes as many steps.  Loops over words, bytes or list elements have
  as many iterations as there are of them and one more, because each takes one at least;
  the loop over the command line as many as there are arguments; the encoders of LEB128
  and the counts of bits as many as the width of the number asks for.  [FuelOut] is never an
  outcome of the program.  Integers are wrapped at their width wherever the code stores or
  converts them; bounds in hypotheses (numbers of locals below 127, 512 labels in a function, files below 2^26
  bytes, tables below 2^16 entries) are those of the fields of the format.

  ** Not modelled

  What is traced, performance counters and everything that prints a module or an instruction:
  output only.  The reading of a WebAssembly module's sections and of ELF files: vendored
  (wabt, elfio), here parameters or data.  dlmalloc, libffi, the C library and native
  code: the class [Host].  The words of a line in the interactive mode ([sscanf]), and
  the help text.  The build with [DIRECT_ACC_MEM], in which addresses are pointers of the
  host.  Signed overflow is taken to wrap, and the end of a function without its return
  statement ([Build_block_hierarchy]) to be a return.  Threads started by [pthread_create]
  are answers of the host: the machine itself runs one thread. *)

From stdpp Require Export base option list numbers gmap.

#[global] Set Default Goal Selector "!".

(** ** Outcomes

  A C++ operation of the program either yields a value or stops the process
  (a failing [Is_True], which prints and calls [exit(1)]; a hardware trap) or
  has undefined behaviour.  The second kind of result is a [fault]. *)

Inductive fault : Set :=
  | AssertFail    (** [Is_True]/[Is_True_Rel] failed: [exit(1)] *)
  | DivTrap       (** integer division by zero, or the overflowing quotient *)
  | ShiftRange    (** shift count negative or not below the operand width *)
  | ConvRange     (** float to integer conversion out of the target's range *)
  | MemFault      (** access outside the linear memory block, or to a freed one *)
  | RegFault      (** access outside the allocated cells of a register file *)
  | StackFault    (** access outside the vector of the context stack *)
  | CodeFault     (** a code, label, function or table index out of range *)
  | NullFault     (** dereference of a null pointer *)
  | OutOfRange    (** [vector::at] threw *)
  | Uninit        (** use of an indeterminate value *)
  | Exited (status : Z) (** the program called [exit(status)] *)
  | FuelOut.      (** not a behaviour of the program: the model's bound on a
                      loop was reached *)

#[export] Instance fault_eq_dec : EqDecision fault.
Proof. solve_decision. Defined.

Inductive outcome (A : Type) : Type :=
  | Ok (a : A)
  | Err (f : fault).
Arguments Ok {A} a.
Arguments Err {A} f.

#[export] Instance outcome_ret : MRet outcome := fun A a => Ok a.
#[export] Instance outcome_bind : MBind outcome := fun A B k o =>
  match o with Ok a => k a | Err f => Err f end.

(** Computing with a first step that succeeds. *)
Lemma bind_ok {A B} (a : A) (k : A -> outcome B) : (Ok a ≫= k) = k a.
Proof. reflexivity. Qed.

Lemma outcome_bind_inv {A B} (o : outcome A) (k : A -> outcome B) b : (o ≫= k) = Ok b -> exists a, o = Ok a /\ k a = Ok b.
Proof. destruct o as [a|]; [eauto | discriminate]. Qed.

Definition of_option {A} (f : fault) (o : option A) : outcome A :=
  match o with Some a => Ok a | None => Err f end.

Definition is_ok {A} (o : outcome A) : bool :=
  match o with Ok _ => true | Err _ => false end.

(** ** The build

  [CMakeLists.txt] and [src/trace/u_trace.h]: a release build
  ([UWASM_VM_RELEASE]) compiles [Is_True] and [Is_True_Rel] away, otherwise both
  stop the process when their condition is false.  [UWASM_MEM_CHECK]
  ([ENABLE_MEM_CHECK]) selects the checked form of [Get_base_addr]. *)
Class Build : Type := {
  release : bool;
  mem_check : bool;
}.

Section Assertions.
Context {bd : Build}.

Definition Is_True (cond : bool) : outcome unit :=
  if negb release && negb cond then Err AssertFail else Ok tt.
Definition Is_True_Rel (cond : bool) : outcome unit :=
  if negb release && negb cond then Err AssertFail else Ok tt.

Lemma Is_True_true : Is_True true = Ok tt.
Proof. unfold Is_True. now rewrite andb_false_r. Qed.
Lemma Is_True_Rel_true : Is_True_Rel true = Ok tt.
Proof. unfold Is_True_Rel. now rewrite andb_false_r. Qed.
Lemma Is_True_Rel_Ok c u : Is_True_Rel c = Ok u -> release = false -> c = true.
Proof. unfold Is_True_Rel. intros H E. rewrite E in H. destruct c; [reflexivity | discriminate]. Qed.
Lemma Is_True_Ok c u : Is_True c = Ok u -> release = false -> c = true.
Proof. apply Is_True_Rel_Ok. Qed.
End Assertions.

Definition debug_build : Build := {| release := false; mem_check := false |}.
Definition debug_check_build : Build := {| release := false; mem_check := true |}.
Definition release_build : Build := {| release := true; mem_check := false |}.

(** [vector::at]. *)
Definition vec_at {A} (l : list A) (i : nat) : outcome A :=
  match l !! i with Some a => Ok a | None => Err OutOfRange end.

(** ** Stateful computations that may fault *)

Definition M (St A : Type) : Type := St -> outcome (A * St).

#[export] Instance M_ret {St} : MRet (M St) := fun A a s => Ok (a, s).
#[export] Instance M_bind {St} : MBind (M St) := fun A B k m s =>
  match m s with Ok (a, s') => k a s' | Err f => Err f end.

Section Operations.
Context {St : Type}.

Definition get : M St St := fun s => Ok (s, s).
Definition gets {A} (f : St -> A) : M St A := fun s => Ok (f s, s).
Definition put (s : St) : M St unit := fun _ => Ok (tt, s).
Definition modify (f : St -> St) : M St unit := fun s => Ok (tt, f s).
Definition throw {A} (f : fault) : M St A := fun _ => Err f.
Definition lift {A} (o : outcome A) : M St A := fun s =>
  match o with Ok a => Ok (a, s) | Err f => Err f end.
Definition guard_or (f : fault) (b : bool) : M St unit :=
  if b then mret tt else throw f.
Definition when (b : bool) (m : M St unit) : M St unit :=
  if b then m else mret tt.
End Operations.

(** ** Equations of the monad, and inversion of a successful run *)

Section Equations.
Context {St : Type}.

Lemma bind_ret {A B} (a : A) (k : A -> M St B) (s : St) :
  (mret a ≫= k) s = k a s.
Proof. reflexivity. Qed.

Lemma bind_bind {A B C} (m : M St A) (k : A -> M St B) (l : B -> M St C) (s : St) :
  ((m ≫= k) ≫= l) s = (m ≫= (fun a => k a ≫= l)) s.
Proof. unfold mbind, M_bind. destruct (m s) as [[a s']|]; reflexivity. Qed.

Lemma bind_Ok {A B} (m : M St A) (k : A -> M St B) (s : St) (r : B * St) :
  (m ≫= k) s = Ok r <-> exists a s', m s = Ok (a, s') /\ k a s' = Ok r.
Proof.
  unfold mbind, M_bind. split.
  - destruct (m s) as [[a s']|]; [eauto | discriminate].
  - intros (a & s' & -> & H). exact H.
Qed.

Lemma bind_run {A B} (m : M St A) (k : A -> M St B) (s s' : St) (a : A) :
  m s = Ok (a, s') -> (m ≫= k) s = k a s'.
Proof. intros H. unfold mbind, M_bind. now rewrite H. Qed.

Lemma bind_Err {A B} (m : M St A) (k : A -> M St B) (s : St) (f : fault) :
  m s = Err f -> (m ≫= k) s = Err f.
Proof. intros H. unfold mbind, M_bind. now rewrite H. Qed.

Lemma get_run (s : St) : get s = Ok (s, s).
Proof. reflexivity. Qed.
Lemma gets_run {A} (f : St -> A) (s : St) : gets f s = Ok (f s, s).
Proof. reflexivity. Qed.
Lemma put_run (s s' : St) : put s s' = Ok (tt, s).
Proof. reflexivity. Qed.
Lemma modify_run (f : St -> St) (s : St) : modify f s = Ok (tt, f s).
Proof. reflexivity. Qed.
Lemma lift_Ok {A} (o : outcome A) (s s' : St) (a : A) :
  lift o s = Ok (a, s') <-> o = Ok a /\ s' = s.
Proof. destruct o; cbn; split; [intros [= <- <-]; auto | intros [[= ->] ->]; auto | discriminate | intros [[=] _]]. Qed.
Lemma guard_or_Ok (f : fault) (b : bool) (s s' : St) (u : unit) :
  guard_or f b s = Ok (u, s') <-> b = true /\ s' = s.
Proof. destruct b, u; cbn; split; [intros [= <-]; auto | intros [_ ->]; auto | discriminate | intros [[=] _]]. Qed.
End Equations.

(** ** Preservation of a predicate and of a relation along computations

  [preserves P m] : whenever [m] succeeds from a state in [P] it ends in [P].
  [frames R m] : the state before and after a successful [m] are in [R]. *)

Section Preservation.
Context {St : Type}.

Definition preserves {A} (P : St -> Prop) (m : M St A) : Prop :=
  forall s a s', P s -> m s = Ok (a, s') -> P s'.

Definition frames {A} (R : St -> St -> Prop) (m : M St A) : Prop :=
  forall s a s', m s = Ok (a, s') -> R s s'.

Lemma preserves_bind {A B} P (m : M St A) (k : A -> M St B) :
  preserves P m -> (forall a, preserves P (k a)) -> preserves P (m ≫= k).
Proof. intros Hm Hk s b s' Hs (a & s1 & H1 & H2)%bind_Ok. exact (Hk a s1 b s' (Hm s a s1 Hs H1) H2). Qed.

Lemma preserves_ret {A} P (a : A) : preserves P (mret a : M St A).
Proof. intros s b s' Hs [= _ ->]. exact Hs. Qed.

Lemma preserves_throw {A} P f : preserves P (throw f : M St A).
Proof. intros s b s' _ [=]. Qed.

Lemma preserves_gets {A} P (f : St -> A) : preserves P (gets f).
Proof. intros s b s' Hs [= _ ->]. exact Hs. Qed.

Lemma preserves_lift {A} P (o : outcome A) : preserves P (lift o).
Proof. intros s a s' Hs [_ ->]%lift_Ok. exact Hs. Qed.

Lemma preserves_guard P f b : preserves P (guard_or f b).
Proof. intros s a s' Hs [_ ->]%guard_or_Ok. exact Hs. Qed.

Lemma preserves_if {A} P (b : bool) (m1 m2 : M St A) :
  preserves P m1 -> preserves P m2 -> preserves P (if b then m1 else m2).
Proof. now destruct b. Qed.

Lemma frames_bind {A B} R (m : M St A) (k : A -> M St B) :
  Transitive R -> frames R m -> (forall a, frames R (k a)) -> frames R (m ≫= k).
Proof.
  intros HT Hm Hk s b s' (a & s1 & H1 & H2)%bind_Ok.
  exact (HT _ _ _ (Hm _ _ _ H1) (Hk _ _ _ _ H2)).
Qed.

Lemma frames_ret {A} R (a : A) : Reflexive R -> frames R (mret a : M St A).
Proof. intros HR s b s' [= _ ->]. reflexivity. Qed.

Lemma frames_gets {A} R (f : St -> A) : Reflexive R -> frames R (gets f).
Proof. intros HR s b s' [= _ ->]. reflexivity. Qed.

Lemma frames_throw {A} R f : frames R (throw f : M St A).
Proof. intros s b s' [=]. Qed.

Lemma frames_lift {A} R (o : outcome A) : Reflexive R -> frames R (lift o).
Proof. intros HR s a s' [_ ->]%lift_Ok. reflexivity. Qed.

Lemma frames_guard R f b : Reflexive R -> frames R (guard_or f b).
Proof. intros HR s a s' [_ ->]%guard_or_Ok. reflexivity. Qed.

Lemma frames_if {A} R (b : bool) (m1 m2 : M St A) :
  frames R m1 -> frames R m2 -> frames R (if b then m1 else m2).
Proof. now destruct b. Qed.
End Preservation.

Create HintDb monad.
#[export] Hint Resolve preserves_bind preserves_ret preserves_throw preserves_gets
  preserves_lift preserves_guard preserves_if : monad.
#[export] Hint Resolve frames_bind frames_ret frames_throw frames_gets
  frames_lift frames_guard frames_if : monad.
Create Rewrite HintDb monad.
#[export] Hint Rewrite @bind_ret @get_run @gets_run @put_run @modify_run
  : monad.

(** [minv] takes a hypothesis [m s = Ok r] apart along the binds of [m]. *)
Ltac minv_step :=
  match goal with
  | H : (mbind _ _) _ = Ok _ |- _ =>
      let a := fresh "a" in let s := fresh "s" in
      let H1 := fresh "H" in let H2 := fresh "H" in
      apply bind_Ok in H as (a & s & H1 & H2)
  | H : lift _ _ = Ok (_, _) |- _ => apply lift_Ok in H as [H ->]
  | H : guard_or _ _ _ = Ok (_, _) |- _ => apply guard_or_Ok in H as [H ->]
  | H : gets _ _ = Ok _ |- _ => rewrite gets_run in H
  | H : get _ = Ok _ |- _ => rewrite get_run in H
  | H : put _ _ = Ok _ |- _ => rewrite put_run in H
  | H : modify _ _ = Ok _ |- _ => rewrite modify_run in H
  | H : throw _ _ = Ok _ |- _ => discriminate H
  | H : mret _ _ = Ok _ |- _ => unfold mret, M_ret in H
  | H : Ok _ = Ok _ |- _ => injection H as H; subst
  | H : Err _ = Ok _ |- _ => discriminate H
  | u : unit |- _ => destruct u
  end.
Ltac minv := repeat minv_step; simplify_eq/=.

(** ** Loops with a bound

  [fuel_loop n body s] runs [body] until it answers [inr] ; the bound [n] is
  shown to be enough where the loop is used. *)
Fixpoint fuel_loop {A B} (n : nat) (body : A -> outcome (A + B)) (a : A) : outcome B :=
  match n with
  | O => Err FuelOut
  | S n => match body a with
           | Ok (inl a') => fuel_loop n body a'
           | Ok (inr b) => Ok b
           | Err f => Err f
           end
  end.

(** More fuel never changes a result that was reached. *)
Lemma fuel_loop_mono {A B} (body : A -> outcome (A + B)) n n' a r :
  fuel_loop n body a = r -> r <> Err FuelOut -> (n <= n')%nat -> fuel_loop n' body a = r.
Proof.
  revert n' a. induction n as [|n IH]; intros n' a H Hr Hle; simpl in H; [congruence|].
  destruct n' as [|n']; [lia|]. simpl.
  destruct (body a) as [[a'|b]|f]; try exact H. apply IH; [exact H | exact Hr | lia].
Qed.
