(* ===== verification/CInt.v ===== *)
(** * Machine integers of the program

  [include/u_types.h] names the C++ integer types; the model keeps every
  value as a [Z] in the range of its type and writes the conversions out:
  [wrapu w] is conversion to an unsigned type of [w] bits, [wraps w] to a signed
  one (two's complement, what every supported compiler does).  Signed addition,
  subtraction and multiplication are taken to wrap as well; division that traps
  and shifts by a count outside [0, w) are faults. *)

From S2P Require Import Prelude.
From Stdlib Require Import ZArith Lia.
Local Open Scope Z_scope.

Definition wrapu (w z : Z) : Z := z mod 2 ^ w.
Definition wraps (w z : Z) : Z := (z + 2 ^ (w - 1)) mod 2 ^ w - 2 ^ (w - 1).

Definition in_u (w z : Z) : Prop := 0 <= z < 2 ^ w.
Definition in_s (w z : Z) : Prop := - 2 ^ (w - 1) <= z < 2 ^ (w - 1).

#[export] Instance in_u_dec w z : Decision (in_u w z).
Proof. unfold in_u. apply _. Defined.
#[export] Instance in_s_dec w z : Decision (in_s w z).
Proof. unfold in_s. apply _. Defined.

(** The typedefs of [u_types.h] as conversions. *)
Definition UINT8 : Z -> Z := wrapu 8.
Definition UINT16 : Z -> Z := wrapu 16.
Definition UINT32 : Z -> Z := wrapu 32.
Definition UINT64 : Z -> Z := wrapu 64.
Definition INT16 : Z -> Z := wraps 16.
Definition INT32 : Z -> Z := wraps 32.
Definition INT64 : Z -> Z := wraps 64.

(** C++ [bool] converted to an arithmetic type. *)
Definition b2z (b : bool) : Z := if b then 1 else 0.

Section Ranges.
Lemma pow2_pos w : 0 <= w -> 0 < 2 ^ w.
Proof. intros. apply Z.pow_pos_nonneg; lia. Qed.

Lemma pow2_half w : 0 < w -> 2 ^ w = 2 * 2 ^ (w - 1).
Proof.
  intros. rewrite <- Z.pow_succ_r by lia. f_equal. lia.
Qed.

Lemma wrapu_range w z : 0 <= w -> in_u w (wrapu w z).
Proof. intros. apply Z.mod_pos_bound, pow2_pos; lia. Qed.

Lemma wraps_range w z : 0 < w -> in_s w (wraps w z).
Proof.
  intros Hw. unfold in_s, wraps. pose proof (pow2_pos w ltac:(lia)) as Hp.
  pose proof (Z.mod_pos_bound (z + 2 ^ (w - 1)) (2 ^ w) Hp).
  rewrite (pow2_half w) in * by lia. lia.
Qed.

Lemma wrapu_id w z : in_u w z -> wrapu w z = z.
Proof. intros H. apply Z.mod_small, H. Qed.

Lemma wraps_id w z : 0 < w -> in_s w z -> wraps w z = z.
Proof.
  intros Hw [H1 H2]. unfold wraps. rewrite Z.mod_small; [lia|].
  rewrite (pow2_half w) by lia. lia.
Qed.

Lemma wraps_eq_mod w z : 0 <= w -> wraps w z mod 2 ^ w = z mod 2 ^ w.
Proof.
  intros Hw. unfold wraps. rewrite Zminus_mod_idemp_l. f_equal. lia.
Qed.

Lemma wrapu_wraps w z : 0 <= w -> wrapu w (wraps w z) = wrapu w z.
Proof. apply wraps_eq_mod. Qed.

Lemma wraps_wrapu w z : 0 <= w -> wraps w (wrapu w z) = wraps w z.
Proof.
  intros Hw. unfold wraps, wrapu. now rewrite Zplus_mod_idemp_l.
Qed.

Lemma wraps_mod_congr w x y : x mod 2 ^ w = y mod 2 ^ w -> wraps w x = wraps w y.
Proof.
  intros H. unfold wraps. rewrite <- (Zplus_mod_idemp_l x), H, Zplus_mod_idemp_l.
  reflexivity.
Qed.

(** Truncation to [w] bits sees only the low [w] bits. *)
Lemma mod_pow2_le w n z : 0 <= w <= n -> (z mod 2 ^ n) mod 2 ^ w = z mod 2 ^ w.
Proof.
  intros H. apply Z.mod_mod_divide. exists (2 ^ (n - w)).
  rewrite <- Z.pow_add_r by lia. f_equal. lia.
Qed.

Lemma wraps_wraps_le w n z : 0 <= w <= n -> wraps w (wraps n z) = wraps w z.
Proof.
  intros H. apply wraps_mod_congr.
  rewrite <- (mod_pow2_le w n (wraps n z)), wraps_eq_mod by lia. apply mod_pow2_le, H.
Qed.

Lemma wrapu_wrapu_le w n z : 0 <= w <= n -> wrapu w (wrapu n z) = wrapu w z.
Proof. apply mod_pow2_le. Qed.

Lemma wrapu_wrapu w z : 0 <= w -> wrapu w (wrapu w z) = wrapu w z.
Proof. intros. apply wrapu_id, wrapu_range; lia. Qed.

Lemma wraps_wraps w z : 0 < w -> wraps w (wraps w z) = wraps w z.
Proof. intros. apply wraps_id, wraps_range; lia. Qed.

(** A signed value and its unsigned reading. *)
Lemma wrapu_signed w z : 0 < w -> in_s w z ->
  wrapu w z = if z <? 0 then z + 2 ^ w else z.
Proof.
  intros Hw [H1 H2]. pose proof (pow2_half w Hw). unfold wrapu.
  destruct (Z.ltb_spec z 0).
  - rewrite <- (Z_mod_plus_full z 1), Z.mod_small by lia. lia.
  - apply Z.mod_small. lia.
Qed.

Lemma wraps_unsigned w z : 0 < w -> in_u w z ->
  wraps w z = if z <? 2 ^ (w - 1) then z else z - 2 ^ w.
Proof.
  intros Hw [H1 H2]. pose proof (pow2_half w Hw). pose proof (pow2_pos (w-1) ltac:(lia)).
  unfold wraps. destruct (Z.ltb_spec z (2 ^ (w - 1))).
  - rewrite Z.mod_small by lia. lia.
  - replace (z + 2 ^ (w - 1)) with (z - 2 ^ (w-1) + 1 * 2 ^ w) by lia.
    rewrite Z_mod_plus_full, Z.mod_small by lia. lia.
Qed.

Lemma in_u_mono w w' z : 0 <= w <= w' -> in_u w z -> in_u w' z.
Proof.
  intros Hw [H1 H2]. split; [lia|].
  pose proof (Z.pow_le_mono_r 2 w w'). lia.
Qed.

Lemma in_s_mono w w' z : 0 < w <= w' -> in_s w z -> in_s w' z.
Proof.
  intros Hw [H1 H2]. pose proof (Z.pow_le_mono_r 2 (w-1) (w'-1)). split; lia.
Qed.

Lemma in_u_in_s w w' z : 0 <= w < w' -> in_u w z -> in_s w' z.
Proof.
  intros Hw [H1 H2]. pose proof (Z.pow_le_mono_r 2 w (w'-1)).
  pose proof (pow2_pos (w'-1) ltac:(lia)). split; lia.
Qed.
End Ranges.

Create HintDb cint.
#[export] Hint Resolve wrapu_range wraps_range : cint.
Create Rewrite HintDb cint.
#[export] Hint Rewrite wrapu_wrapu wraps_wraps wrapu_wraps wraps_wrapu using lia : cint.

(** ** C++ operators at a width *)

Definition sadd w x y := wraps w (x + y).
Definition ssub w x y := wraps w (x - y).
Definition smul w x y := wraps w (x * y).

(** [/] and [%] on signed operands: truncation towards zero.  The quotient
  [INT_MIN / -1] is not representable: the hardware traps. *)
Definition sdiv w x y : outcome Z :=
  if (y =? 0) || ((x =? - 2 ^ (w - 1)) && (y =? -1)) then Err DivTrap
  else Ok (Z.quot x y).
Definition srem w x y : outcome Z :=
  if (y =? 0) || ((x =? - 2 ^ (w - 1)) && (y =? -1)) then Err DivTrap
  else Ok (Z.rem x y).

(** Shifts: [k] is the value of the right operand. *)
Definition shift_ok w k : bool := (0 <=? k) && (k <? w).
Definition ushl w x k : outcome Z :=
  if shift_ok w k then Ok (wrapu w (Z.shiftl x k)) else Err ShiftRange.
Definition ushr w x k : outcome Z :=
  if shift_ok w k then Ok (Z.shiftr x k) else Err ShiftRange.
Definition sshl w x k : outcome Z :=
  if shift_ok w k then Ok (wraps w (Z.shiftl x k)) else Err ShiftRange.
Definition sshr w x k : outcome Z :=
  if shift_ok w k then Ok (Z.shiftr x k) else Err ShiftRange.

Section Operators.
Lemma sdiv_ok w x y : 0 < w -> in_s w x -> in_s w y -> y <> 0 ->
  ~ (x = - 2 ^ (w - 1) /\ y = -1) -> sdiv w x y = Ok (Z.quot x y) /\ in_s w (Z.quot x y).
Proof.
  intros Hw Hx Hy H0 Hov. unfold sdiv.
  destruct (Z.eqb_spec y 0); [contradiction|].
  assert (((x =? - 2 ^ (w - 1)) && (y =? -1)) = false) as ->.
  { apply andb_false_iff. destruct (Z.eqb_spec x (- 2 ^ (w - 1))); [|now left].
    destruct (Z.eqb_spec y (-1)); [|now right]. exfalso. tauto. }
  split; [reflexivity|]. unfold in_s in *.
  pose proof (Z.quot_rem' x y). pose proof (Z.rem_bound_abs x y H0).
  pose proof (pow2_pos (w-1) ltac:(lia)).
  assert (Z.abs (Z.quot x y) <= Z.abs x) as Hq.
  { rewrite <- Z.quot_abs by lia. apply Z.quot_le_upper_bound; nia. }
  destruct (Z.eq_dec x (- 2 ^ (w - 1))) as [->|]; [|lia].
  assert (y <> -1) by tauto.
  destruct (Z.eq_dec (Z.quot (- 2 ^ (w - 1)) y) (2 ^ (w - 1))) as [E|]; [|lia].
  rewrite E in *. exfalso.
  assert (y <= -2 \/ 1 <= y) as [|] by lia; nia.
Qed.

Lemma srem_ok w x y : y <> 0 -> ~ (x = - 2 ^ (w - 1) /\ y = -1) ->
  srem w x y = Ok (Z.rem x y).
Proof.
  intros H0 Hov. unfold srem. destruct (Z.eqb_spec y 0); [contradiction|].
  destruct (Z.eqb_spec x (- 2 ^ (w - 1))), (Z.eqb_spec y (-1)); try reflexivity.
  exfalso. tauto.
Qed.

Lemma ushr_range w x k z : 0 <= w -> in_u w x -> ushr w x k = Ok z -> in_u w z.
Proof.
  intros Hw [H1 H2]. unfold ushr, shift_ok.
  destruct (Z.leb_spec 0 k), (Z.ltb_spec k w); simpl; intros [= <-].
  rewrite Z.shiftr_div_pow2 by lia. pose proof (pow2_pos k ltac:(lia)). split.
  - apply Z.div_pos; lia.
  - apply Z.div_lt_upper_bound; nia.
Qed.
End Operators.

(** Values of a type are kept by the conversion to it. *)
Lemma UINT32_id z : 0 <= z < 2 ^ 32 -> UINT32 z = z.
Proof. apply (wrapu_id 32). Qed.
Lemma INT32_id z : - 2 ^ 31 <= z < 2 ^ 31 -> INT32 z = z.
Proof. apply (wraps_id 32). lia. Qed.
