(* ===== verification/BitField.v ===== *)
(** * C++ bit-fields

  The file format ([include/ubh/ubh.h]) and the instruction words
  ([src/ubh/u_inst.h]) are structs and unions of bit-fields.  A word is a [Z];
  the field of [w] bits at bit offset [off] is read by [bf_get] (unsigned
  declared type) or [bf_gets] (signed declared type) and assigned by [bf_set],
  which keeps the low [w] bits of the assigned value, as the language does.
  Offsets follow the little-endian ABI the code requires. *)

From S2P Require Import Prelude CInt.
From Stdlib Require Import ZArith Lia.
Local Open Scope Z_scope.

Definition bf_get (off w x : Z) : Z := Z.land (Z.shiftr x off) (Z.ones w).
Definition bf_gets (off w x : Z) : Z := wraps w (bf_get off w x).
Definition bf_set (off w v x : Z) : Z :=
  Z.lor (Z.ldiff x (Z.shiftl (Z.ones w) off)) (Z.shiftl (wrapu w v) off).

Lemma wrapu_land w z : 0 <= w -> wrapu w z = Z.land z (Z.ones w).
Proof. intros. now rewrite Z.land_ones. Qed.

Lemma wrapu_testbit w z i : 0 <= w -> 0 <= i ->
  Z.testbit (wrapu w z) i = (i <? w) && Z.testbit z i.
Proof.
  intros Hw Hi. rewrite wrapu_land, Z.land_spec by lia.
  destruct (Z.ltb_spec i w).
  - rewrite Z.ones_spec_low by lia. now rewrite andb_true_r.
  - rewrite Z.ones_spec_high by lia. now rewrite andb_false_r.
Qed.

(** A value below [2^n] is one whose bits from [n] on are clear. *)
Lemma in_u_testbit n z : 0 <= n -> 0 <= z ->
  (forall i, n <= i -> Z.testbit z i = false) -> in_u n z.
Proof.
  intros Hn Hz H. assert (wrapu n z = z) as E.
  { apply Z.bits_inj'. intros i Hi. rewrite wrapu_testbit by lia.
    destruct (Z.ltb_spec i n); [reflexivity|]. now rewrite H by lia. }
  rewrite <- E. apply wrapu_range; lia.
Qed.

Lemma testbit_in_u n z i : in_u n z -> 0 <= n <= i -> Z.testbit z i = false.
Proof.
  intros H Hi. rewrite <- (wrapu_id n z H), wrapu_testbit by lia.
  destruct (Z.ltb_spec i n); [lia | reflexivity].
Qed.

Section Fields.
Variables off w : Z.
Hypothesis Hoff : 0 <= off.
Hypothesis Hw : 0 <= w.

Lemma bf_get_testbit x i : 0 <= i ->
  Z.testbit (bf_get off w x) i = (i <? w) && Z.testbit x (i + off).
Proof.
  intros Hi. unfold bf_get. rewrite <- wrapu_land, wrapu_testbit by lia.
  now rewrite Z.shiftr_spec by lia.
Qed.

Lemma bf_set_testbit v x i : 0 <= i ->
  Z.testbit (bf_set off w v x) i =
    if (off <=? i) && (i <? off + w) then Z.testbit v (i - off) else Z.testbit x i.
Proof.
  intros Hi. unfold bf_set.
  rewrite Z.lor_spec, Z.ldiff_spec, !Z.shiftl_spec by lia.
  destruct (Z.leb_spec off i) as [Ho|Ho]; simpl.
  - rewrite wrapu_testbit by lia.
    destruct (Z.ltb_spec i (off + w)), (Z.ltb_spec (i - off) w); try lia; simpl.
    + rewrite Z.ones_spec_low by lia. now rewrite andb_false_r.
    + rewrite Z.ones_spec_high by lia. now rewrite andb_true_r, orb_false_r.
  - rewrite !(Z.testbit_neg_r _ (i - off)) by lia. simpl. now rewrite andb_true_r, orb_false_r.
Qed.

Lemma bf_get_range x : in_u w (bf_get off w x).
Proof. unfold bf_get. rewrite <- wrapu_land by lia. apply wrapu_range; lia. Qed.

Lemma bf_get_set_same v x : bf_get off w (bf_set off w v x) = wrapu w v.
Proof.
  apply Z.bits_inj'. intros i Hi.
  rewrite bf_get_testbit, bf_set_testbit, wrapu_testbit by lia.
  destruct (Z.ltb_spec i w); [|reflexivity]. simpl.
  destruct (Z.leb_spec off (i + off)), (Z.ltb_spec (i + off) (off + w)); try lia.
  simpl. f_equal. lia.
Qed.

Lemma bf_get_zero : bf_get off w 0 = 0.
Proof. unfold bf_get. now rewrite Z.shiftr_0_l. Qed.

Lemma bf_set_nonneg v x : 0 <= x -> 0 <= bf_set off w v x.
Proof.
  intros. unfold bf_set. apply Z.lor_nonneg. split.
  - apply Z.ldiff_nonneg. now left.
  - apply Z.shiftl_nonneg. apply wrapu_range; lia.
Qed.

Lemma bf_set_range n v x : off + w <= n -> in_u n x -> in_u n (bf_set off w v x).
Proof.
  intros Hn Hx. apply in_u_testbit; [lia | apply bf_set_nonneg, Hx |].
  intros i Hi. rewrite bf_set_testbit by lia.
  destruct (Z.ltb_spec i (off + w)); [lia|]. rewrite andb_false_r.
  apply (testbit_in_u n); [exact Hx | lia].
Qed.
End Fields.

(** Fields that do not overlap are independent. *)
Lemma bf_get_set_other off w off' w' v x :
  0 <= off -> 0 <= w -> 0 <= off' -> 0 <= w' ->
  off + w <= off' \/ off' + w' <= off ->
  bf_get off w (bf_set off' w' v x) = bf_get off w x.
Proof.
  intros H1 H2 H3 H4 Hd. apply Z.bits_inj'. intros i Hi.
  rewrite !bf_get_testbit, bf_set_testbit by lia.
  destruct (Z.ltb_spec i w); [|reflexivity]. simpl.
  destruct (Z.leb_spec off' (i + off)), (Z.ltb_spec (i + off) (off' + w')); try reflexivity.
  lia.
Qed.

(** Narrower reads of a truncated word: taking the low [n] bits of a word does
  not change a field that lies inside them. *)
Lemma bf_get_wrapu off w n x : 0 <= off -> 0 <= w -> off + w <= n ->
  bf_get off w (wrapu n x) = bf_get off w x.
Proof.
  intros. apply Z.bits_inj'. intros i Hi.
  rewrite !bf_get_testbit, wrapu_testbit by lia.
  destruct (Z.ltb_spec i w); [|reflexivity].
  destruct (Z.ltb_spec (i + off) n); [reflexivity | lia].
Qed.

(** Reading a field of one half of a double word. *)
Lemma bf_get_shiftr off w k x : 0 <= off -> 0 <= w -> 0 <= k ->
  bf_get off w (Z.shiftr x k) = bf_get (off + k) w x.
Proof. intros. unfold bf_get. rewrite Z.shiftr_shiftr by lia. do 2 f_equal. lia. Qed.

(** ** Declared bit-fields

  [Field off w s] is the member of [w] bits at bit [off], of a signed type when
  [s].  [fget] is its use as a value, [fset] an assignment to it. *)
Record field : Set := Field { fd_off : Z; fd_w : Z; fd_signed : bool }.

Definition fget (f : field) (x : Z) : Z :=
  if fd_signed f then bf_gets (fd_off f) (fd_w f) x else bf_get (fd_off f) (fd_w f) x.
Definition fset (f : field) (v x : Z) : Z := bf_set (fd_off f) (fd_w f) v x.

(** What a field keeps of an assigned value, and the values it keeps whole. *)
Definition fkeep (f : field) (v : Z) : Z :=
  if fd_signed f then wraps (fd_w f) v else wrapu (fd_w f) v.
Definition ffits (f : field) (v : Z) : Prop :=
  if fd_signed f then in_s (fd_w f) v else in_u (fd_w f) v.

Definition fvalid (f : field) : bool := (0 <=? fd_off f) && (0 <? fd_w f).
Definition fdisjoint (f g : field) : bool :=
  (fd_off f + fd_w f <=? fd_off g) || (fd_off g + fd_w g <=? fd_off f).

#[export] Instance ffits_dec f v : Decision (ffits f v).
Proof. unfold ffits. destruct (fd_signed f); apply _. Defined.

Section DeclaredFields.
Variables (f g : field).
Hypothesis (Hf : fvalid f = true).

Lemma fvalid_bounds : 0 <= fd_off f /\ 0 < fd_w f.
Proof.
  apply andb_true_iff in Hf as [H1%Z.leb_le H2%Z.ltb_lt]. lia.
Qed.

Lemma fget_fset_same v x : fget f (fset f v x) = fkeep f v.
Proof.
  pose proof fvalid_bounds. unfold fget, fset, fkeep, bf_gets.
  rewrite bf_get_set_same by lia. destruct (fd_signed f); [|reflexivity].
  apply wraps_wrapu. lia.
Qed.

Lemma fkeep_fits v : ffits f v -> fkeep f v = v.
Proof.
  pose proof fvalid_bounds. unfold ffits, fkeep.
  destruct (fd_signed f); intros; [apply wraps_id | apply wrapu_id]; auto; lia.
Qed.

Lemma fget_fits x : ffits f (fget f x).
Proof.
  pose proof fvalid_bounds. unfold ffits, fget, bf_gets. destruct (fd_signed f).
  - apply wraps_range. lia.
  - apply bf_get_range; lia.
Qed.

Lemma fset_range n v x : fd_off f + fd_w f <= n -> in_u n x -> in_u n (fset f v x).
Proof. pose proof fvalid_bounds. apply bf_set_range; lia. Qed.

Lemma fget_fset_other v x : fvalid g = true -> fdisjoint f g = true ->
  fget f (fset g v x) = fget f x.
Proof.
  intros [H1%Z.leb_le H2%Z.ltb_lt]%andb_true_iff Hd. pose proof fvalid_bounds.
  unfold fget, fset, bf_gets. unfold fdisjoint in Hd.
  apply orb_true_iff in Hd. rewrite !Z.leb_le in Hd.
  now rewrite bf_get_set_other by lia.
Qed.

Lemma fget_zero : fget f 0 = 0.
Proof.
  pose proof fvalid_bounds as [? ?]. unfold fget, bf_gets. rewrite bf_get_zero.
  destruct (fd_signed f); [|reflexivity]. apply wraps_id; [lia|].
  pose proof (pow2_pos (fd_w f - 1) ltac:(lia)). split; lia.
Qed.
End DeclaredFields.

(** Clearing a field clears the fields inside it. *)
Definition fwithin (f g : field) : bool :=
  (fd_off g <=? fd_off f) && (fd_off f + fd_w f <=? fd_off g + fd_w g).

Lemma fget_fset_clear f g x : fvalid f = true -> fvalid g = true -> fwithin f g = true ->
  fget f (fset g 0 x) = 0.
Proof.
  intros Hf Hg [H1%Z.leb_le H2%Z.leb_le]%andb_true_iff.
  pose proof (fvalid_bounds f Hf). pose proof (fvalid_bounds g Hg).
  assert (bf_get (fd_off f) (fd_w f) (fset g 0 x) = 0) as E.
  { apply Z.bits_inj'. intros i Hi. unfold fset.
    rewrite bf_get_testbit, bf_set_testbit, !Z.bits_0 by lia.
    destruct (Z.ltb_spec i (fd_w f)); [|reflexivity].
    destruct (Z.leb_spec (fd_off g) (i + fd_off f)),
      (Z.ltb_spec (i + fd_off f) (fd_off g + fd_w g)); try lia. reflexivity. }
  transitivity (fget f 0); [|apply fget_zero, Hf].
  unfold fget, bf_gets. now rewrite E, bf_get_zero.
Qed.

(** Tactics: evaluate reads of a chain of writes at literal offsets. *)
Ltac bf_step :=
  first [ rewrite bf_get_set_same by lia
        | rewrite bf_get_set_other by lia
        | rewrite bf_get_zero ].
Ltac bf_simpl := repeat bf_step.
Ltac field_step :=
  first [ rewrite fget_fset_same by reflexivity
        | rewrite fget_fset_other by reflexivity
        | rewrite fget_fset_clear by reflexivity
        | rewrite fget_zero by reflexivity ].
Ltac field_simpl := repeat field_step.

(** Or-ing a value into a clear field assigns it. *)
Lemma bf_set_lor off w v x : 0 <= off -> 0 <= w -> bf_get off w x = 0 -> in_u w v ->
  Z.lor x (Z.shiftl v off) = bf_set off w v x.
Proof.
  intros Ho Hw Hx Hv. apply Z.bits_inj'. intros i Hi.
  rewrite Z.lor_spec, Z.shiftl_spec, bf_set_testbit by lia.
  destruct (Z.leb_spec off i) as [H1|H1]; simpl.
  - destruct (Z.ltb_spec i (off + w)) as [H2|H2].
    + assert (Z.testbit (bf_get off w x) (i - off) = false) as E by (rewrite Hx; apply Z.bits_0).
      rewrite bf_get_testbit in E by lia. destruct (Z.ltb_spec (i - off) w); [|lia].
      simpl in E. replace (i - off + off) with i in E by lia. now rewrite E.
    + rewrite (testbit_in_u w v) by (auto; lia). now rewrite orb_false_r.
  - rewrite (Z.testbit_neg_r v) by lia. now rewrite orb_false_r.
Qed.

Lemma fset_lor f v x : fvalid f = true -> fd_signed f = false -> fget f x = 0 -> in_u (fd_w f) v ->
  Z.lor x (Z.shiftl v (fd_off f)) = fset f v x.
Proof.
  intros Hf Hs. pose proof (fvalid_bounds f Hf). unfold fget. rewrite Hs. apply bf_set_lor; lia.
Qed.
