(* ===== verification/Bytes.v ===== *)
(** * Bytes of objects

  An object of [n] bytes is a [Z] of [8 * n] bits; a buffer is the list of its bytes.
  Writing objects to a buffer ([memcpy]), and the objects that a pointer into a buffer
  points at. *)

From S2P Require Import Prelude CInt BitField.
From Stdlib Require Import ZArith Lia.
Local Open Scope Z_scope.

(** The bytes of an object, least significant first, and back. *)
Fixpoint bytes_of (n : nat) (x : Z) : list Z :=
  match n with
  | O => []
  | S n => UINT8 x :: bytes_of n (Z.shiftr x 8)
  end.
Fixpoint of_bytes (l : list Z) : Z :=
  match l with
  | [] => 0
  | b :: l => b + 256 * of_bytes l
  end.

(** The bytes of a table of objects. *)
Definition table_bytes (size : nat) (tab : list Z) : list Z := concat (map (bytes_of size) tab).

(** The objects of [size] bytes from a pointer on, [n] of them at most and as many as are in
  the buffer. *)
Fixpoint objects (size n : nat) (p : list Z) : list Z :=
  match n with
  | O => []
  | S n => if decide (length (take size p) = size)
           then of_bytes (take size p) :: objects size n (drop size p) else []
  end.
Definition words_from (p : list Z) : list Z := objects 4 (length p / 4) p.

Definition memcpy (buf : list Z) (off : Z) (src : list Z) : outcome (list Z) :=
  let o := Z.to_nat off in
  if decide (o + length src <= length buf)%nat
  then Ok (take o buf ++ src ++ drop (o + length src) buf) else Err MemFault.

(** [n] bytes at a pointer. *)
Definition bytes_at (p : list Z) (n : Z) : outcome (list Z) :=
  if decide (Z.to_nat n <= length p)%nat then Ok (take (Z.to_nat n) p) else Err MemFault.

Lemma bytes_of_length n x : length (bytes_of n x) = n.
Proof. revert x. induction n as [|n IH]; intros x; [reflexivity|]. cbn. now rewrite IH. Qed.

Lemma of_bytes_of n x : in_u (8 * Z.of_nat n) x -> of_bytes (bytes_of n x) = x.
Proof.
  revert x. induction n as [|n IH]; intros x [H1 H2].
  - change (2 ^ (8 * Z.of_nat 0)) with 1 in H2. cbn. lia.
  - replace (8 * Z.of_nat (S n)) with (8 + 8 * Z.of_nat n) in H2 by lia. rewrite Z.pow_add_r in H2 by lia.
    cbn [bytes_of of_bytes]. rewrite Z.shiftr_div_pow2 by lia. change (2 ^ 8) with 256 in *. rewrite IH.
    + unfold UINT8, wrapu. change (2 ^ 8) with 256. pose proof (Z.div_mod x 256). lia.
    + split; [apply Z.div_pos; lia | apply Z.div_lt_upper_bound; lia].
Qed.

Lemma table_bytes_cons size x tab : table_bytes size (x :: tab) = bytes_of size x ++ table_bytes size tab.
Proof. reflexivity. Qed.

Lemma table_bytes_app size tab tab' : table_bytes size (tab ++ tab') = table_bytes size tab ++ table_bytes size tab'.
Proof. unfold table_bytes. now rewrite map_app, concat_app. Qed.

Lemma table_bytes_length size tab : length (table_bytes size tab) = (size * length tab)%nat.
Proof.
  induction tab as [|x tab IH]; [cbn; lia|]. rewrite table_bytes_cons, length_app, bytes_of_length, IH. cbn. lia.
Qed.

(** Single bytes. *)
Lemma table_bytes_1 tab : Forall (in_u 8) tab -> table_bytes 1 tab = tab.
Proof.
  induction 1 as [|x tab Hx Ht IH]; [reflexivity|]. rewrite table_bytes_cons, IH. cbn.
  now rewrite (wrapu_id 8 x Hx : UINT8 x = x).
Qed.

Lemma objects_run size tab rest : Forall (in_u (8 * Z.of_nat size)) tab ->
  objects size (length tab) (table_bytes size tab ++ rest) = tab.
Proof.
  induction 1 as [|x tab Hx Ht IH]; [reflexivity|].
  rewrite table_bytes_cons, <- (assoc_L (++)). cbn [length objects].
  rewrite (take_app_length' (bytes_of size x)) by now rewrite bytes_of_length.
  rewrite (drop_app_length' (bytes_of size x)) by now rewrite bytes_of_length.
  rewrite bytes_of_length, decide_True by reflexivity. now rewrite of_bytes_of, IH.
Qed.

Lemma objects_run' size n tab rest : Forall (in_u (8 * Z.of_nat size)) tab -> n = length tab ->
  objects size n (table_bytes size tab ++ rest) = tab.
Proof. intros H ->. now apply objects_run. Qed.

(** More objects than the table has: the table comes first. *)
Lemma objects_prefix size n tab rest : Forall (in_u (8 * Z.of_nat size)) tab -> (length tab <= n)%nat ->
  exists post, objects size n (table_bytes size tab ++ rest) = tab ++ post.
Proof.
  intros H. revert n. induction H as [|x tab Hx Ht IH]; intros n Hn; [now eexists|].
  destruct n as [|n]; [cbn in Hn; lia|]. cbn in Hn. destruct (IH n ltac:(lia)) as (post & E). exists post.
  rewrite table_bytes_cons, <- (assoc_L (++)). cbn [objects].
  rewrite (take_app_length' (bytes_of size x)) by now rewrite bytes_of_length.
  rewrite (drop_app_length' (bytes_of size x)) by now rewrite bytes_of_length.
  rewrite bytes_of_length, decide_True by reflexivity. now rewrite of_bytes_of, E.
Qed.

Lemma words_from_run tab rest : Forall (in_u 32) tab ->
  exists post, words_from (table_bytes 4 tab ++ rest) = tab ++ post.
Proof.
  intros H. apply objects_prefix; [exact H|]. rewrite length_app, table_bytes_length.
  apply Nat.div_le_lower_bound; lia.
Qed.

(** Writing at the end of what is written. *)
Lemma memcpy_run pre src old : (length src <= length old)%nat ->
  memcpy (pre ++ old) (Z.of_nat (length pre)) src = Ok ((pre ++ src) ++ drop (length src) old).
Proof.
  intros H. unfold memcpy. rewrite Nat2Z.id, length_app, decide_True by lia.
  rewrite take_app_length, drop_app_add, <- (assoc_L (++)). reflexivity.
Qed.

Lemma bytes_at_all l n : n = Z.of_nat (length l) -> bytes_at l n = Ok l.
Proof. intros ->. unfold bytes_at. rewrite Nat2Z.id, decide_True by lia. now rewrite take_ge by lia. Qed.
