(* ===== verification/CFloat.v ===== *)
(** * FLOAT32 and FLOAT64

  A floating-point register holds the bit pattern of an IEEE-754 binary32 or
  binary64 number, so that moves, loads, stores and reinterpretations keep the
  payload of a NaN.  Arithmetic decodes to the standard library's [spec_float],
  applies its correctly rounded operation and encodes the result.  Which NaN an
  operation produces is left by the language to the hardware: it is the field
  [float_nan] of [FloatEnv]. *)

From S2P Require Import Prelude CInt BitField.
From Stdlib Require Import ZArith Lia SpecFloat.
Local Open Scope Z_scope.

(** Width of the mantissa field and of the exponent field. *)
Record format := Format { f_mw : Z; f_ew : Z }.

Definition FLOAT32 : format := Format 23 8.
Definition FLOAT64 : format := Format 52 11.

Definition f_width (f : format) : Z := 1 + f_ew f + f_mw f.
Definition f_prec (f : format) : Z := f_mw f + 1.
Definition f_emax (f : format) : Z := 2 ^ (f_ew f - 1).
Definition f_emin (f : format) : Z := emin (f_prec f) (f_emax f).

Class wf_format (f : format) : Prop := {
  wf_mw : 0 < f_mw f;
  wf_ew : 1 < f_ew f;
}.
#[export] Instance wf_FLOAT32 : wf_format FLOAT32.
Proof. split; cbv; reflexivity. Qed.
#[export] Instance wf_FLOAT64 : wf_format FLOAT64.
Proof. split; cbv; reflexivity. Qed.

Section Codec.
Variable f : format.

Definition f_sign (x : Z) : bool := Z.testbit x (f_mw f + f_ew f).
Definition f_exp (x : Z) : Z := bf_get (f_mw f) (f_ew f) x.
Definition f_man (x : Z) : Z := bf_get 0 (f_mw f) x.
Definition sign_bit (s : bool) : Z := b2z s * 2 ^ (f_mw f + f_ew f).

Definition is_nan (x : Z) : bool :=
  (f_exp x =? 2 ^ f_ew f - 1) && negb (f_man x =? 0).

Definition of_bits (x : Z) : spec_float :=
  if f_exp x =? 2 ^ f_ew f - 1 then
    if f_man x =? 0 then S754_infinity (f_sign x) else S754_nan
  else if f_exp x =? 0 then
    match f_man x with
    | Zpos m => S754_finite (f_sign x) m (f_emin f)
    | _ => S754_zero (f_sign x)
    end
  else
    match f_man x + 2 ^ f_mw f with
    | Zpos m => S754_finite (f_sign x) m (f_emin f + f_exp x - 1)
    | _ => S754_nan
    end.

Definition to_bits (nan : Z) (x : spec_float) : Z :=
  wrapu (f_width f)
    match x with
    | S754_zero s => sign_bit s
    | S754_infinity s => sign_bit s + (2 ^ f_ew f - 1) * 2 ^ f_mw f
    | S754_nan => nan
    | S754_finite s m e =>
        if Zpos m <? 2 ^ f_mw f then sign_bit s + Zpos m
        else sign_bit s + (e - f_emin f + 1) * 2 ^ f_mw f + (Zpos m - 2 ^ f_mw f)
    end.
End Codec.

(** The hardware's choice of NaN, from the format and the operands. *)
Class FloatEnv := {
  float_nan : format -> list Z -> Z;
  float_nan_is_nan : forall f l, f = FLOAT32 \/ f = FLOAT64 -> is_nan f (float_nan f l) = true;
}.

(** The environment that always answers the positive quiet NaN. *)
#[export] Program Instance quiet_nan : FloatEnv := {|
  float_nan f _ := (2 ^ f_ew f - 1) * 2 ^ f_mw f + 2 ^ (f_mw f - 1)
|}.
Next Obligation. by intros f _ [-> | ->]. Qed.

Section Arithmetic.
Context `{FloatEnv}.

Definition fbin (op : Z -> Z -> spec_float -> spec_float -> spec_float)
    (f : format) (x y : Z) : Z :=
  to_bits f (float_nan f [x; y])
    (op (f_prec f) (f_emax f) (of_bits f x) (of_bits f y)).

Definition fadd : format -> Z -> Z -> Z := fbin SFadd.
Definition fsub : format -> Z -> Z -> Z := fbin SFsub.
Definition fmul : format -> Z -> Z -> Z := fbin SFmul.
Definition fdiv : format -> Z -> Z -> Z := fbin SFdiv.

Definition fsqrt (f : format) (x : Z) : Z :=
  to_bits f (float_nan f [x]) (SFsqrt (f_prec f) (f_emax f) (of_bits f x)).

(** Integer to float, rounded to nearest. *)
Definition of_int (f : format) (z : Z) : Z :=
  to_bits f 0 (binary_normalize (f_prec f) (f_emax f) z 0 false).

(** Conversion between the two formats. *)
Definition fconv (f g : format) (x : Z) : Z :=
  to_bits g (float_nan g [x])
    match of_bits f x with
    | S754_finite s m e =>
        binary_normalize (f_prec g) (f_emax g) (cond_Zopp s (Zpos m)) e s
    | y => y
    end.

(** [fmin]/[fmax] of <cmath>: a NaN operand is dropped if the other is a
  number. *)
Definition fmin (f : format) (x y : Z) : Z :=
  if is_nan f x then (if is_nan f y then float_nan f [x; y] else y)
  else if is_nan f y then x
  else if SFltb (of_bits f y) (of_bits f x) then y else x.
Definition fmax (f : format) (x y : Z) : Z :=
  if is_nan f x then (if is_nan f y then float_nan f [x; y] else y)
  else if is_nan f y then x
  else if SFltb (of_bits f x) (of_bits f y) then y else x.

(** [ceil] and [floor]: [up] says whether a positive inexact magnitude is
  rounded away from zero. *)
Definition round_int (f : format) (up : bool -> bool) (x : Z) : Z :=
  match of_bits f x with
  | S754_nan => float_nan f [x]
  | S754_finite s m e =>
      if 0 <=? e then x
      else
        let q := Z.shiftr (Zpos m) (- e) in
        let r := Zpos m - Z.shiftl q (- e) in
        let q' := if (r =? 0) || negb (up s) then q else q + 1 in
        to_bits f 0 (binary_normalize (f_prec f) (f_emax f) (cond_Zopp s q') 0 s)
  | _ => x
  end.
Definition fceil (f : format) : Z -> Z := round_int f negb.
Definition ffloor (f : format) : Z -> Z := round_int f (fun s => s).
End Arithmetic.

Definition feqb (f : format) (x y : Z) : bool := SFeqb (of_bits f x) (of_bits f y).
Definition fltb (f : format) (x y : Z) : bool := SFltb (of_bits f x) (of_bits f y).
Definition fleb (f : format) (x y : Z) : bool := SFleb (of_bits f x) (of_bits f y).

(** [fabs] clears the sign. *)
Definition fabs (f : format) (x : Z) : Z := bf_set (f_mw f + f_ew f) 1 0 x.

(** Float to integer: the value truncated towards zero, if it is a number. *)
Definition ftrunc (f : format) (x : Z) : option Z :=
  match of_bits f x with
  | S754_zero _ => Some 0
  | S754_finite s m e =>
      let q := if 0 <=? e then Z.shiftl (Zpos m) e else Z.shiftr (Zpos m) (- e) in
      Some (cond_Zopp s q)
  | _ => None
  end.

Definition fto_s (f : format) (w x : Z) : outcome Z :=
  match ftrunc f x with
  | Some z => if bool_decide (in_s w z) then Ok z else Err ConvRange
  | None => Err ConvRange
  end.
Definition fto_u (f : format) (w x : Z) : outcome Z :=
  match ftrunc f x with
  | Some z => if bool_decide (in_u w z) then Ok z else Err ConvRange
  | None => Err ConvRange
  end.

(** ** The codec *)

Section CodecLaws.
Context (f : format) `{!wf_format f}.

Lemma to_bits_range nan x : in_u (f_width f) (to_bits f nan x).
Proof.
  apply wrapu_range. pose proof wf_mw. pose proof wf_ew. unfold f_width. lia.
Qed.

(** A bit pattern is its sign, exponent and mantissa fields. *)
Lemma bits_split x : in_u (f_width f) x ->
  x = sign_bit f (f_sign f x) + f_exp f x * 2 ^ f_mw f + f_man f x.
Proof.
  intros Hx. pose proof wf_mw as Hm. pose proof wf_ew as He.
  unfold sign_bit, f_sign, f_exp, f_man, bf_get, f_width in *.
  rewrite Z.shiftr_0_r, !Z.land_ones, Z.shiftr_div_pow2 by lia.
  pose proof (pow2_pos (f_mw f) ltac:(lia)) as Pm.
  pose proof (pow2_pos (f_ew f) ltac:(lia)) as Pe.
  rewrite Z.testbit_eqb, Z.pow_add_r by lia.
  unfold in_u in Hx.
  replace (2 ^ (1 + f_ew f + f_mw f)) with (2 * (2 ^ f_ew f * 2 ^ f_mw f)) in Hx
    by (rewrite !Z.pow_add_r by lia; lia).
  rewrite <- Z.div_div by lia.
  set (a := x / 2 ^ f_mw f) in *.
  pose proof (Z.div_mod x (2 ^ f_mw f) ltac:(lia)) as E1.
  pose proof (Z.div_mod a (2 ^ f_ew f) ltac:(lia)) as E2.
  assert (0 <= a < 2 * 2 ^ f_ew f) as Ha.
  { split; [apply Z.div_pos; lia | apply Z.div_lt_upper_bound; lia]. }
  assert (0 <= a / 2 ^ f_ew f < 2) as Hd.
  { split; [apply Z.div_pos; lia | apply Z.div_lt_upper_bound; lia]. }
  rewrite (Z.mod_small (a / 2 ^ f_ew f) 2) by lia.
  fold a in E1. destruct (Z.eqb_spec (a / 2 ^ f_ew f) 1); unfold b2z; nia.
Qed.

Lemma f_man_range x : 0 <= f_man f x < 2 ^ f_mw f.
Proof. pose proof wf_mw. apply (bf_get_range 0 (f_mw f)); lia. Qed.
Lemma f_exp_range x : 0 <= f_exp f x < 2 ^ f_ew f.
Proof. pose proof wf_mw. pose proof wf_ew. apply (bf_get_range (f_mw f) (f_ew f)); lia. Qed.

(** Decoding then encoding gives the bits back, except for the payload of a
  NaN, for which the given one is used. *)
Lemma to_of_bits nan x : in_u (f_width f) x -> is_nan f x = false ->
  to_bits f nan (of_bits f x) = x.
Proof.
  intros Hx Hnan. pose proof (bits_split x Hx) as E.
  pose proof (f_man_range x) as Hm. pose proof (f_exp_range x) as He.
  assert (forall y, y = x -> wrapu (f_width f) y = x) as W.
  { intros y ->. apply wrapu_id, Hx. }
  unfold is_nan in Hnan. unfold to_bits, of_bits.
  destruct (Z.eqb_spec (f_exp f x) (2 ^ f_ew f - 1)) as [E1|E1].
  - simpl in Hnan. destruct (Z.eqb_spec (f_man f x) 0) as [E2|]; [|discriminate].
    apply W. rewrite E1, E2 in E. lia.
  - destruct (Z.eqb_spec (f_exp f x) 0) as [E2|E2].
    + rewrite E2 in E. destruct (f_man f x) as [|m|m] eqn:Em; [apply W; lia | | lia].
      apply W. destruct (Z.ltb_spec (Z.pos m) (2 ^ f_mw f)); lia.
    + destruct (f_man f x + 2 ^ f_mw f) as [|m|m] eqn:Em; [lia | | lia].
      apply W. destruct (Z.ltb_spec (Z.pos m) (2 ^ f_mw f)); [lia|].
      replace (f_emin f + f_exp f x - 1 - f_emin f + 1) with (f_exp f x) by lia. lia.
Qed.
End CodecLaws.

(** Truncation of an integer converted to a format wide enough is the integer. *)
Example f64_of_int_trunc : ftrunc FLOAT64 (of_int FLOAT64 (-2147483648)) = Some (-2147483648).
Proof. vm_compute. reflexivity. Qed.
Example f32_add : fadd FLOAT32 (of_int FLOAT32 3) (of_int FLOAT32 4) = of_int FLOAT32 7.
Proof. vm_compute. reflexivity. Qed.
Example f64_half_floor : ffloor FLOAT64 (fdiv FLOAT64 (of_int FLOAT64 (-7)) (of_int FLOAT64 2))
  = of_int FLOAT64 (-4).
Proof. vm_compute. reflexivity. Qed.
