(* ===== verification/Wasm.v ===== *)
(** * Integer operators of WebAssembly

  The numerics of the WebAssembly specification on integers of [N] bits, given as
  unsigned values: what the integer instructions of the VM are compared with.  The
  lemmas relate them to the C++ operators on the signed values that the integer
  registers hold. *)

From S2P Require Import Prelude CInt BitField.
From Stdlib Require Import ZArith Lia.
Local Open Scope Z_scope.

Module Wasm.
Section Numerics.
Variable N : Z.

Definition signed (i : Z) : Z := if i <? 2 ^ (N - 1) then i else i - 2 ^ N.

Definition iadd (i j : Z) : Z := (i + j) mod 2 ^ N.
Definition isub (i j : Z) : Z := (i - j + 2 ^ N) mod 2 ^ N.
Definition imul (i j : Z) : Z := (i * j) mod 2 ^ N.
Definition iand (i j : Z) : Z := Z.land i j.
Definition ior (i j : Z) : Z := Z.lor i j.
Definition ixor (i j : Z) : Z := Z.lxor i j.

(** Partial operators: [None] is a trap. *)
Definition idiv_u (i j : Z) : option Z := if j =? 0 then None else Some (i / j).
Definition idiv_s (i j : Z) : option Z :=
  if j =? 0 then None
  else if Z.quot (signed i) (signed j) =? 2 ^ (N - 1) then None
  else Some (Z.quot (signed i) (signed j) mod 2 ^ N).
Definition irem_u (i j : Z) : option Z := if j =? 0 then None else Some (i - j * (i / j)).
Definition irem_s (i j : Z) : option Z :=
  if j =? 0 then None else Some (Z.rem (signed i) (signed j) mod 2 ^ N).

(** Shift counts are taken modulo [N]. *)
Definition ishl (i j : Z) : Z := (i * 2 ^ (j mod N)) mod 2 ^ N.
Definition ishr_u (i j : Z) : Z := i / 2 ^ (j mod N).
Definition ishr_s (i j : Z) : Z := (signed i / 2 ^ (j mod N)) mod 2 ^ N.

(** Comparisons, as truth values. *)
Definition ieqz (i : Z) : bool := i =? 0.
Definition ieq (i j : Z) : bool := i =? j.
Definition ine (i j : Z) : bool := negb (i =? j).
Definition ilt_u (i j : Z) : bool := i <? j.
Definition ilt_s (i j : Z) : bool := signed i <? signed j.
Definition igt_u (i j : Z) : bool := j <? i.
Definition igt_s (i j : Z) : bool := signed j <? signed i.
Definition ile_u (i j : Z) : bool := i <=? j.
Definition ile_s (i j : Z) : bool := signed i <=? signed j.
Definition ige_u (i j : Z) : bool := j <=? i.
Definition ige_s (i j : Z) : bool := signed j <=? signed i.
End Numerics.

(** ** On the values that registers hold *)
Section Representation.
Variable N : Z.
Hypothesis HN : 0 < N.

Lemma signed_unsigned a : in_s N a -> signed N (wrapu N a) = a.
Proof.
  intros Ha. unfold signed. rewrite <- wraps_unsigned by (lia || (apply wrapu_range; lia)).
  rewrite wraps_wrapu by lia. now apply wraps_id.
Qed.

(** Unsigned values are equal when the signed ones are. *)
Lemma unsigned_inj a b : in_s N a -> in_s N b -> wrapu N a = wrapu N b -> a = b.
Proof. intros Ha Hb E. rewrite <- (signed_unsigned a Ha), <- (signed_unsigned b Hb). now rewrite E. Qed.

Lemma unsigned_eqb a b : in_s N a -> in_s N b -> (wrapu N a =? wrapu N b) = (a =? b).
Proof.
  intros Ha Hb. destruct (Z.eqb_spec a b) as [->|Hne]; [apply Z.eqb_refl|].
  apply Z.eqb_neq. intros E. apply Hne. now apply unsigned_inj.
Qed.

Lemma unsigned_zero a : in_s N a -> (wrapu N a =? 0) = (a =? 0).
Proof.
  intros Ha. rewrite <- (unsigned_eqb a 0 Ha).
  - unfold wrapu at 3. now rewrite Z.mod_0_l by lia.
  - pose proof (pow2_pos (N - 1) ltac:(lia)). split; lia.
Qed.

Lemma iadd_sadd a b : wraps N (iadd N (wrapu N a) (wrapu N b)) = sadd N a b.
Proof.
  unfold sadd, iadd. change ((wrapu N a + wrapu N b) mod 2 ^ N) with (wrapu N (wrapu N a + wrapu N b)).
  rewrite wraps_wrapu by lia. apply wraps_mod_congr. unfold wrapu.
  now rewrite <- Zplus_mod.
Qed.

Lemma isub_ssub a b : wraps N (isub N (wrapu N a) (wrapu N b)) = ssub N a b.
Proof.
  unfold ssub, isub. pose proof (pow2_pos N ltac:(lia)).
  change ((wrapu N a - wrapu N b + 2 ^ N) mod 2 ^ N) with (wrapu N (wrapu N a - wrapu N b + 2 ^ N)).
  rewrite wraps_wrapu by lia. apply wraps_mod_congr. unfold wrapu.
  replace (a mod 2 ^ N - b mod 2 ^ N + 2 ^ N) with (a mod 2 ^ N - b mod 2 ^ N + 1 * 2 ^ N) by lia.
  now rewrite Z_mod_plus_full, <- Zminus_mod.
Qed.

Lemma imul_smul a b : wraps N (imul N (wrapu N a) (wrapu N b)) = smul N a b.
Proof.
  unfold smul, imul. change ((wrapu N a * wrapu N b) mod 2 ^ N) with (wrapu N (wrapu N a * wrapu N b)).
  rewrite wraps_wrapu by lia. apply wraps_mod_congr. unfold wrapu. now rewrite <- Zmult_mod.
Qed.

(** Bitwise operators work on the low [N] bits. *)
Lemma bitwise_wraps (f : Z -> Z -> Z) (g : bool -> bool -> bool) a b :
  (forall x y i, 0 <= i -> Z.testbit (f x y) i = g (Z.testbit x i) (Z.testbit y i)) ->
  wraps N (f (wrapu N a) (wrapu N b)) = wraps N (f a b).
Proof.
  intros Hf. apply wraps_mod_congr. change (wrapu N (f (wrapu N a) (wrapu N b)) = wrapu N (f a b)).
  apply Z.bits_inj'. intros i Hi. rewrite !wrapu_testbit, !Hf, !wrapu_testbit by lia.
  now destruct (i <? N).
Qed.

Lemma iand_land a b : wraps N (iand (wrapu N a) (wrapu N b)) = wraps N (Z.land a b).
Proof. apply (bitwise_wraps Z.land andb). intros. apply Z.land_spec. Qed.
Lemma ior_lor a b : wraps N (ior (wrapu N a) (wrapu N b)) = wraps N (Z.lor a b).
Proof. apply (bitwise_wraps Z.lor orb). intros. apply Z.lor_spec. Qed.
Lemma ixor_lxor a b : wraps N (ixor (wrapu N a) (wrapu N b)) = wraps N (Z.lxor a b).
Proof. apply (bitwise_wraps Z.lxor xorb). intros. apply Z.lxor_spec. Qed.

(** Signed division traps in the same cases. *)
Lemma quot_overflow a b : in_s N a -> in_s N b -> b <> 0 ->
  Z.quot a b = 2 ^ (N - 1) <-> a = - 2 ^ (N - 1) /\ b = -1.
Proof.
  intros Ha Hb H0. pose proof (pow2_pos (N - 1) ltac:(lia)). split.
  - intros E. destruct (Z.eq_dec a (- 2 ^ (N - 1))) as [->|Na], (Z.eq_dec b (-1)) as [->|Nb]; [auto | exfalso..].
    all: destruct (sdiv_ok N _ _ HN Ha Hb H0 ltac:(tauto)) as [_ [_ Hq]]; lia.
  - intros [-> ->]. change (-1) with (- (1)). rewrite Z.quot_opp_r, Z.quot_1_r by lia. lia.
Qed.

Lemma idiv_s_sdiv a b : in_s N a -> in_s N b ->
  match idiv_s N (wrapu N a) (wrapu N b) with Some q => Ok (wraps N q) | None => Err DivTrap end = sdiv N a b.
Proof.
  intros Ha Hb. unfold idiv_s. rewrite unsigned_zero, !signed_unsigned by assumption.
  unfold sdiv. destruct (Z.eqb_spec b 0) as [->|H0]; [reflexivity|]. cbn [orb].
  pose proof (quot_overflow a b Ha Hb H0) as Hq.
  destruct (Z.eqb_spec (Z.quot a b) (2 ^ (N - 1))) as [E|E].
  - apply Hq in E as [-> ->]. now rewrite !Z.eqb_refl.
  - assert (((a =? - 2 ^ (N - 1)) && (b =? -1)) = false) as ->.
    { apply andb_false_iff. destruct (Z.eqb_spec a (- 2 ^ (N - 1))); [|now left].
      destruct (Z.eqb_spec b (-1)); [|now right]. exfalso. tauto. }
    change (Z.quot a b mod 2 ^ N) with (wrapu N (Z.quot a b)). rewrite wraps_wrapu by lia. f_equal.
    apply wraps_id; [lia|]. destruct (sdiv_ok N a b HN Ha Hb H0 ltac:(tauto)) as [_ H]. exact H.
Qed.

(** The remainder: the same but for the most negative value and -1, where
  WebAssembly gives 0 and the C++ operator traps. *)
Lemma irem_s_srem a b : in_s N a -> in_s N b -> ~ (a = - 2 ^ (N - 1) /\ b = -1) ->
  match irem_s N (wrapu N a) (wrapu N b) with Some q => Ok (wraps N q) | None => Err DivTrap end = srem N a b.
Proof.
  intros Ha Hb Hov. unfold irem_s. rewrite unsigned_zero, !signed_unsigned by assumption.
  destruct (Z.eqb_spec b 0) as [->|H0]; [reflexivity|]. rewrite srem_ok by assumption.
  change (Z.rem a b mod 2 ^ N) with (wrapu N (Z.rem a b)). rewrite wraps_wrapu by lia. f_equal.
  apply wraps_id; [lia|]. pose proof (Z.rem_bound_abs a b H0). unfold in_s in *.
  destruct (Z_lt_le_dec a 0).
  - pose proof (Z.rem_nonpos a b H0 ltac:(lia)). lia.
  - pose proof (Z.rem_nonneg a b H0 ltac:(lia)). lia.
Qed.

(** Shifts by less than [N]. *)
Lemma ishl_sshl a k : in_s N a -> 0 <= k < N -> Ok (wraps N (ishl N (wrapu N a) k)) = sshl N a k.
Proof.
  intros Ha Hk. unfold sshl, shift_ok, ishl. rewrite (proj2 (Z.leb_le _ _)), (proj2 (Z.ltb_lt _ _)) by lia. cbn [andb].
  rewrite (Z.mod_small k), Z.shiftl_mul_pow2 by lia. f_equal.
  change ((wrapu N a * 2 ^ k) mod 2 ^ N) with (wrapu N (wrapu N a * 2 ^ k)). rewrite wraps_wrapu by lia.
  apply wraps_mod_congr. unfold wrapu. now rewrite Zmult_mod_idemp_l.
Qed.

Lemma ishr_s_sshr a k : in_s N a -> 0 <= k < N -> Ok (wraps N (ishr_s N (wrapu N a) k)) = sshr N a k.
Proof.
  intros Ha Hk. unfold sshr, shift_ok, ishr_s. rewrite (proj2 (Z.leb_le _ _)), (proj2 (Z.ltb_lt _ _)) by lia. cbn [andb].
  rewrite signed_unsigned, (Z.mod_small k), Z.shiftr_div_pow2 by (assumption || lia). f_equal.
  change ((a / 2 ^ k) mod 2 ^ N) with (wrapu N (a / 2 ^ k)). rewrite wraps_wrapu by lia.
  apply wraps_id; [lia|]. pose proof (pow2_pos k ltac:(lia)). destruct Ha as [H1 H2]. split.
  - apply Z.div_le_lower_bound; [lia|]. generalize dependent (2 ^ (N - 1)). intros p. nia.
  - apply Z.div_lt_upper_bound; [lia|]. generalize dependent (2 ^ (N - 1)). intros p. nia.
Qed.

Lemma ishr_u_ushr a k : 0 <= k < N -> Ok (ishr_u N (wrapu N a) k) = ushr N (wrapu N a) k.
Proof.
  intros Hk. unfold ushr, shift_ok, ishr_u. rewrite (proj2 (Z.leb_le _ _)), (proj2 (Z.ltb_lt _ _)) by lia. cbn [andb].
  now rewrite (Z.mod_small k), Z.shiftr_div_pow2 by lia.
Qed.
End Representation.
End Wasm.
