(* ===== verification/Isa.v ===== *)
(** * The instruction set

  [include/u_am.h] (value types, address modes), [src/ubh/u_opcode.h] with its
  lists [u_opcode_list.def], [u_opcode_list_l.def] and [u_builtin_list.def].
  An opcode is 8 bits; together with the 2-bit value type it gives the long
  opcode, on which the interpreter dispatches. *)

From S2P Require Import Prelude CInt.
From Stdlib Require Import ZArith Lia String.
Local Open Scope Z_scope.

(** ** Value types and address modes *)

Inductive VALTYPE : Set := I32 | I64 | F32 | F64 | VALTY_UNKNOWN.
#[export] Instance VALTYPE_eq_dec : EqDecision VALTYPE.
Proof. solve_decision. Defined.

Definition VALTY_SZ : Z := 2.
Definition VALTY_COUNT : Z := 4.

Definition valty_num (t : VALTYPE) : Z :=
  match t with I32 => 0 | I64 => 1 | F32 => 2 | F64 => 3 | VALTY_UNKNOWN => 10 end.
(** [(VALTYPE) z]. *)
Definition valty_of_num (z : Z) : VALTYPE :=
  if z =? 0 then I32 else if z =? 1 then I64 else if z =? 2 then F32
  else if z =? 3 then F64 else VALTY_UNKNOWN.

Lemma valty_of_num_num t : valty_of_num (valty_num t) = t.
Proof. destruct t; reflexivity. Qed.
Lemma valty_num_range t : t <> VALTY_UNKNOWN -> 0 <= valty_num t < 4.
Proof. destruct t; simpl; congruence || lia. Qed.
Lemma valty_num_of_num z : 0 <= z < 4 -> valty_num (valty_of_num z) = z.
Proof.
  intros H. assert (z = 0 \/ z = 1 \/ z = 2 \/ z = 3) as [->|[->|[->| ->]]] by lia; reflexivity.
Qed.

Inductive TY_AM : Set :=
  | TY_AM32 | TY_AM32_OFS | TY_AM32_R | TY_AM32_R_IMM | TY_AM32_R_OFS | TY_AM32_R_R
  | TY_AM32S_R_R_IMM | TY_AM32S_R_R_OFS | TY_AM32S_R_R_R
  | TY_AM64_R_IMM | TY_AM64_R_OFS | TY_AM64_R_R_IMM | TY_AM64_R_R_OFS | TY_AM64_R_R_R.
#[export] Instance TY_AM_eq_dec : EqDecision TY_AM.
Proof. solve_decision. Defined.

(** ** Opcodes *)

Module Opcode.
Definition NOP : Z := 0.
Definition UNREACH : Z := 1.
Definition RETURN : Z := 2.
Definition CALL : Z := 3.
Definition JMP : Z := 4.
Definition CALL_INDIRECT : Z := 5.
Definition JMP_INDIRECT : Z := 6.
Definition MEMORYSIZE : Z := 7.
Definition MEMORYGROW : Z := 8.
Definition ADD_RI : Z := 9.
Definition JEZ : Z := 10.
Definition JNZ : Z := 11.
Definition JLZ : Z := 12.
Definition JLEZ : Z := 13.
Definition JGZ : Z := 14.
Definition JGEZ : Z := 15.
Definition LLDA : Z := 16.
Definition GLDA : Z := 17.
Definition MOV : Z := 18.
Definition ADD_RR : Z := 19.
Definition CONST : Z := 20.
Definition ADDS_I : Z := 21.
Definition JEQ : Z := 22.
Definition JNE : Z := 23.
Definition JLT : Z := 24.
Definition JLE : Z := 25.
Definition JGT : Z := 26.
Definition JGE : Z := 27.
Definition JLT_U : Z := 28.
Definition JLE_U : Z := 29.
Definition JGT_U : Z := 30.
Definition JGE_U : Z := 31.
Definition LOAD_RROFS : Z := 32.
Definition LOAD8_RROFS : Z := 33.
Definition LOAD8_U_RROFS : Z := 34.
Definition LOAD16_RROFS : Z := 35.
Definition LOAD16_U_RROFS : Z := 36.
Definition LOAD32_RROFS : Z := 37.
Definition LOAD32_U_RROFS : Z := 38.
Definition STORE : Z := 39.
Definition STORE8 : Z := 40.
Definition STORE16 : Z := 41.
Definition STORE32 : Z := 42.
Definition LLOAD_ROFS : Z := 43.
Definition LLOAD8_ROFS : Z := 44.
Definition LLOAD8_U_ROFS : Z := 45.
Definition LLOAD16_ROFS : Z := 46.
Definition LLOAD16_U_ROFS : Z := 47.
Definition LLOAD32_ROFS : Z := 48.
Definition LLOAD32_U_ROFS : Z := 49.
Definition LSTORE : Z := 50.
Definition LSTORE8 : Z := 51.
Definition LSTORE16 : Z := 52.
Definition LSTORE32 : Z := 53.
Definition ADDS : Z := 54.
Definition SUBS : Z := 55.
Definition ROTL : Z := 56.
Definition ROTR : Z := 57.
Definition CONV_I32 : Z := 58.
Definition CONV_I32_U : Z := 59.
Definition CONV_I64 : Z := 60.
Definition CONV_F32 : Z := 61.
Definition CONV_F64 : Z := 62.
Definition EQZ : Z := 63.
Definition CEIL : Z := 64.
Definition FLOOR : Z := 65.
Definition SQRT : Z := 66.
Definition NEG : Z := 67.
Definition REINTERPRET_F32 : Z := 68.
Definition REINTERPRET_F64 : Z := 69.
Definition REINTERPRET_I32 : Z := 70.
Definition REINTERPRET_I64 : Z := 71.
Definition BREAK : Z := 72.
Definition UNUSED14 : Z := 73.
Definition UNUSED15 : Z := 74.
Definition UNUSED16 : Z := 75.
Definition UNUSED17 : Z := 76.
Definition UNUSED18 : Z := 77.
Definition UNUSED19 : Z := 78.
Definition UNUSED20 : Z := 79.
Definition UNUSED21 : Z := 80.
Definition UNUSED22 : Z := 81.
Definition UNUSED23 : Z := 82.
Definition UNUSED24 : Z := 83.
Definition UNUSED25 : Z := 84.
Definition UNUSED26 : Z := 85.
Definition UNUSED27 : Z := 86.
Definition UNUSED28 : Z := 87.
Definition UNUSED29 : Z := 88.
Definition UNUSED30 : Z := 89.
Definition UNUSED31 : Z := 90.
Definition UNUSED32 : Z := 91.
Definition UNUSED33 : Z := 92.
Definition UNUSED34 : Z := 93.
Definition UNUSED35 : Z := 94.
Definition UNUSED36 : Z := 95.
Definition UNUSED37 : Z := 96.
Definition UNUSED38 : Z := 97.
Definition UNUSED39 : Z := 98.
Definition UNUSED40 : Z := 99.
Definition UNUSED41 : Z := 100.
Definition UNUSED42 : Z := 101.
Definition UNUSED43 : Z := 102.
Definition UNUSED44 : Z := 103.
Definition UNUSED45 : Z := 104.
Definition UNUSED46 : Z := 105.
Definition UNUSED47 : Z := 106.
Definition UNUSED48 : Z := 107.
Definition UNUSED49 : Z := 108.
Definition UNUSED50 : Z := 109.
Definition UNUSED51 : Z := 110.
Definition UNUSED52 : Z := 111.
Definition UNUSED53 : Z := 112.
Definition UNUSED54 : Z := 113.
Definition UNUSED55 : Z := 114.
Definition UNUSED56 : Z := 115.
Definition UNUSED57 : Z := 116.
Definition UNUSED58 : Z := 117.
Definition UNUSED59 : Z := 118.
Definition UNUSED60 : Z := 119.
Definition UNUSED61 : Z := 120.
Definition UNUSED62 : Z := 121.
Definition UNUSED63 : Z := 122.
Definition UNUSED64 : Z := 123.
Definition UNUSED65 : Z := 124.
Definition UNUSED66 : Z := 125.
Definition UNUSED67 : Z := 126.
Definition UNUSED68 : Z := 127.
Definition CONST_L : Z := 128.
Definition CONST_L_HIGH : Z := 129.
Definition CTZ : Z := 130.
Definition POPCNT : Z := 131.
Definition ADD_RRI : Z := 132.
Definition JEQ_L : Z := 133.
Definition JNE_L : Z := 134.
Definition JLT_L : Z := 135.
Definition JLE_L : Z := 136.
Definition JGT_L : Z := 137.
Definition JGE_L : Z := 138.
Definition JLT_U_L : Z := 139.
Definition JLE_U_L : Z := 140.
Definition JGT_U_L : Z := 141.
Definition JGE_U_L : Z := 142.
Definition LOAD_RROFS_L : Z := 143.
Definition LOAD8_RROFS_L : Z := 144.
Definition LOAD8_U_RROFS_L : Z := 145.
Definition LOAD16_RROFS_L : Z := 146.
Definition LOAD16_U_RROFS_L : Z := 147.
Definition LOAD32_RROFS_L : Z := 148.
Definition LOAD32_U_RROFS_L : Z := 149.
Definition STORE_L : Z := 150.
Definition STORE8_L : Z := 151.
Definition STORE16_L : Z := 152.
Definition STORE32_L : Z := 153.
Definition SELECT : Z := 154.
Definition LLOAD_ROFS_L : Z := 155.
Definition LLOAD8_ROFS_L : Z := 156.
Definition LLOAD8_U_ROFS_L : Z := 157.
Definition LLOAD16_ROFS_L : Z := 158.
Definition LLOAD16_U_ROFS_L : Z := 159.
Definition LLOAD32_ROFS_L : Z := 160.
Definition LLOAD32_U_ROFS_L : Z := 161.
Definition LSTORE_L : Z := 162.
Definition LSTORE8_L : Z := 163.
Definition LSTORE16_L : Z := 164.
Definition LSTORE32_L : Z := 165.
Definition EQ : Z := 166.
Definition NE : Z := 167.
Definition LT : Z := 168.
Definition LT_U : Z := 169.
Definition GT : Z := 170.
Definition GT_U : Z := 171.
Definition LE : Z := 172.
Definition LE_U : Z := 173.
Definition GE : Z := 174.
Definition GE_U : Z := 175.
Definition ADD : Z := 176.
Definition SUB : Z := 177.
Definition MUL : Z := 178.
Definition DIV : Z := 179.
Definition DIV_U : Z := 180.
Definition REM : Z := 181.
Definition REM_U : Z := 182.
Definition AND : Z := 183.
Definition OR : Z := 184.
Definition XOR : Z := 185.
Definition SHL : Z := 186.
Definition SHR : Z := 187.
Definition SHR_U : Z := 188.
Definition MIN : Z := 189.
Definition MAX : Z := 2846.
Definition LLDA_L : Z := 191.
Definition BUILTIN : Z := 192.
Definition GGET : Z := 193.
Definition GSET : Z := 194.
End Opcode.

(** The rows of [u_opcode_list.def]: value, mnemonic, address mode. *)
Definition u_opcode_list : list (Z * string * TY_AM) := [
  (0, "nop"%string, TY_AM32);
  (1, "unreach"%string, TY_AM32);
  (2, "return"%string, TY_AM32);
  (3, "call"%string, TY_AM32_OFS);
  (4, "jmp"%string, TY_AM32_OFS);
  (5, "call_indirect"%string, TY_AM32_R);
  (6, "jmp_indirect"%string, TY_AM32_R);
  (7, "memorysize"%string, TY_AM32_R);
  (8, "memorygrow"%string, TY_AM32_R_R);
  (9, "add"%string, TY_AM32_R_IMM);
  (10, "jez"%string, TY_AM32_R_OFS);
  (11, "jnz"%string, TY_AM32_R_OFS);
  (12, "jlz"%string, TY_AM32_R_OFS);
  (13, "jlez"%string, TY_AM32_R_OFS);
  (14, "jgz"%string, TY_AM32_R_OFS);
  (15, "jgez"%string, TY_AM32_R_OFS);
  (16, "llda"%string, TY_AM32_R_OFS);
  (17, "glda"%string, TY_AM32_R_OFS);
  (18, "mov"%string, TY_AM32_R_R);
  (19, "add"%string, TY_AM32_R_R);
  (20, "const"%string, TY_AM32_R_IMM);
  (21, "add"%string, TY_AM32S_R_R_IMM);
  (22, "jeq"%string, TY_AM32S_R_R_OFS);
  (23, "jne"%string, TY_AM32S_R_R_OFS);
  (24, "jlt"%string, TY_AM32S_R_R_OFS);
  (25, "jle"%string, TY_AM32S_R_R_OFS);
  (26, "jgt"%string, TY_AM32S_R_R_OFS);
  (27, "jge"%string, TY_AM32S_R_R_OFS);
  (28, "jlt_u"%string, TY_AM32S_R_R_OFS);
  (29, "jle_u"%string, TY_AM32S_R_R_OFS);
  (30, "jgt_u"%string, TY_AM32S_R_R_OFS);
  (31, "jge_u"%string, TY_AM32S_R_R_OFS);
  (32, "load"%string, TY_AM32S_R_R_IMM);
  (33, "load8"%string, TY_AM32S_R_R_IMM);
  (34, "load8_u"%string, TY_AM32S_R_R_IMM);
  (35, "load16"%string, TY_AM32S_R_R_IMM);
  (36, "load16_u"%string, TY_AM32S_R_R_IMM);
  (37, "load32"%string, TY_AM32S_R_R_IMM);
  (38, "load32_u"%string, TY_AM32S_R_R_IMM);
  (39, "store"%string, TY_AM32S_R_R_IMM);
  (40, "store8"%string, TY_AM32S_R_R_IMM);
  (41, "store16"%string, TY_AM32S_R_R_IMM);
  (42, "store32"%string, TY_AM32S_R_R_IMM);
  (43, "lload"%string, TY_AM32_R_IMM);
  (44, "lload8"%string, TY_AM32_R_IMM);
  (45, "lload8_u"%string, TY_AM32_R_IMM);
  (46, "lload16"%string, TY_AM32_R_IMM);
  (47, "lload16_u"%string, TY_AM32_R_IMM);
  (48, "lload32"%string, TY_AM32_R_IMM);
  (49, "lload32_u"%string, TY_AM32_R_IMM);
  (50, "lstore"%string, TY_AM32_R_IMM);
  (51, "lstore8"%string, TY_AM32_R_IMM);
  (52, "lstore16"%string, TY_AM32_R_IMM);
  (53, "lstore32"%string, TY_AM32_R_IMM);
  (54, "add"%string, TY_AM32S_R_R_R);
  (55, "sub"%string, TY_AM32S_R_R_R);
  (56, "rotl"%string, TY_AM32S_R_R_R);
  (57, "rotr"%string, TY_AM32S_R_R_R);
  (58, "conv_i32"%string, TY_AM32_R_R);
  (59, "conv_i32_u"%string, TY_AM32_R_R);
  (60, "conv_i64"%string, TY_AM32_R_R);
  (61, "conv_f32"%string, TY_AM32_R_R);
  (62, "conv_f64"%string, TY_AM32_R_R);
  (63, "eqz"%string, TY_AM32_R_R);
  (64, "ceil"%string, TY_AM32_R_R);
  (65, "floor"%string, TY_AM32_R_R);
  (66, "sqrt"%string, TY_AM32_R_R);
  (67, "neg"%string, TY_AM32_R_R);
  (68, "reIntr_f32"%string, TY_AM32_R_R);
  (69, "reIntr_f64"%string, TY_AM32_R_R);
  (70, "reIntr_i32"%string, TY_AM32_R_R);
  (71, "reIntr_i64"%string, TY_AM32_R_R);
  (72, "break"%string, TY_AM32);
  (73, "-"%string, TY_AM32);
  (74, "-"%string, TY_AM32);
  (75, "-"%string, TY_AM32);
  (76, "-"%string, TY_AM32);
  (77, "-"%string, TY_AM32);
  (78, "-"%string, TY_AM32);
  (79, "-"%string, TY_AM32);
  (80, "-"%string, TY_AM32);
  (81, "-"%string, TY_AM32);
  (82, "-"%string, TY_AM32);
  (83, "-"%string, TY_AM32);
  (84, "-"%string, TY_AM32);
  (85, "-"%string, TY_AM32);
  (86, "-"%string, TY_AM32);
  (87, "-"%string, TY_AM32);
  (88, "-"%string, TY_AM32);
  (89, "-"%string, TY_AM32);
  (90, "-"%string, TY_AM32);
  (91, "-"%string, TY_AM32);
  (92, "-"%string, TY_AM32);
  (93, "-"%string, TY_AM32);
  (94, "-"%string, TY_AM32);
  (95, "-"%string, TY_AM32);
  (96, "-"%string, TY_AM32);
  (97, "-"%string, TY_AM32);
  (98, "-"%string, TY_AM32);
  (99, "-"%string, TY_AM32);
  (100, "-"%string, TY_AM32);
  (101, "-"%string, TY_AM32);
  (102, "-"%string, TY_AM32);
  (103, "-"%string, TY_AM32);
  (104, "-"%string, TY_AM32);
  (105, "-"%string, TY_AM32);
  (106, "-"%string, TY_AM32);
  (107, "-"%string, TY_AM32);
  (108, "-"%string, TY_AM32);
  (109, "-"%string, TY_AM32);
  (110, "-"%string, TY_AM32);
  (111, "-"%string, TY_AM32);
  (112, "-"%string, TY_AM32);
  (113, "-"%string, TY_AM32);
  (114, "-"%string, TY_AM32);
  (115, "-"%string, TY_AM32);
  (116, "-"%string, TY_AM32);
  (117, "-"%string, TY_AM32);
  (118, "-"%string, TY_AM32);
  (119, "-"%string, TY_AM32);
  (120, "-"%string, TY_AM32);
  (121, "-"%string, TY_AM32);
  (122, "-"%string, TY_AM32);
  (123, "-"%string, TY_AM32);
  (124, "-"%string, TY_AM32);
  (125, "-"%string, TY_AM32);
  (126, "-"%string, TY_AM32);
  (127, "-"%string, TY_AM32);
  (128, "const_l"%string, TY_AM64_R_IMM);
  (129, "const_l_high"%string, TY_AM64_R_IMM);
  (130, "ctz"%string, TY_AM64_R_OFS);
  (131, "popcnt"%string, TY_AM64_R_OFS);
  (132, "add"%string, TY_AM64_R_R_IMM);
  (133, "jeq"%string, TY_AM64_R_R_OFS);
  (134, "jne"%string, TY_AM64_R_R_OFS);
  (135, "jlt"%string, TY_AM64_R_R_OFS);
  (136, "jle"%string, TY_AM64_R_R_OFS);
  (137, "jgt"%string, TY_AM64_R_R_OFS);
  (138, "jge"%string, TY_AM64_R_R_OFS);
  (139, "jlt_u"%string, TY_AM64_R_R_OFS);
  (140, "jle_u"%string, TY_AM64_R_R_OFS);
  (141, "jgt_u"%string, TY_AM64_R_R_OFS);
  (142, "jge_u"%string, TY_AM64_R_R_OFS);
  (143, "load"%string, TY_AM64_R_R_IMM);
  (144, "load8"%string, TY_AM64_R_R_IMM);
  (145, "load8_u"%string, TY_AM64_R_R_IMM);
  (146, "load16"%string, TY_AM64_R_R_IMM);
  (147, "load16_u"%string, TY_AM64_R_R_IMM);
  (148, "load32"%string, TY_AM64_R_R_IMM);
  (149, "load32_u"%string, TY_AM64_R_R_IMM);
  (150, "store"%string, TY_AM64_R_R_IMM);
  (151, "store8"%string, TY_AM64_R_R_IMM);
  (152, "store16"%string, TY_AM64_R_R_IMM);
  (153, "store32"%string, TY_AM64_R_R_IMM);
  (154, "select"%string, TY_AM64_R_R_OFS);
  (155, "lload"%string, TY_AM64_R_IMM);
  (156, "lload8"%string, TY_AM64_R_IMM);
  (157, "lload8_u"%string, TY_AM64_R_IMM);
  (158, "lload16"%string, TY_AM64_R_IMM);
  (159, "lload16_u"%string, TY_AM64_R_IMM);
  (160, "lload32"%string, TY_AM64_R_IMM);
  (161, "lload32_u"%string, TY_AM64_R_IMM);
  (162, "lstore"%string, TY_AM64_R_IMM);
  (163, "lstore8"%string, TY_AM64_R_IMM);
  (164, "lstore16"%string, TY_AM64_R_IMM);
  (165, "lstore32"%string, TY_AM64_R_IMM);
  (166, "eq"%string, TY_AM64_R_R_R);
  (167, "ne"%string, TY_AM64_R_R_R);
  (168, "lt"%string, TY_AM64_R_R_R);
  (169, "lt_u"%string, TY_AM64_R_R_R);
  (170, "gt"%string, TY_AM64_R_R_R);
  (171, "gt_u"%string, TY_AM64_R_R_R);
  (172, "le"%string, TY_AM64_R_R_R);
  (173, "le_u"%string, TY_AM64_R_R_R);
  (174, "ge"%string, TY_AM64_R_R_R);
  (175, "ge_u"%string, TY_AM64_R_R_R);
  (176, "add"%string, TY_AM64_R_R_R);
  (177, "sub"%string, TY_AM64_R_R_R);
  (178, "mul"%string, TY_AM64_R_R_R);
  (179, "div"%string, TY_AM64_R_R_R);
  (180, "div_u"%string, TY_AM64_R_R_R);
  (181, "rem"%string, TY_AM64_R_R_R);
  (182, "rem_u"%string, TY_AM64_R_R_R);
  (183, "and"%string, TY_AM64_R_R_R);
  (184, "or"%string, TY_AM64_R_R_R);
  (185, "xor"%string, TY_AM64_R_R_R);
  (186, "shl"%string, TY_AM64_R_R_R);
  (187, "shr"%string, TY_AM64_R_R_R);
  (188, "shr_u"%string, TY_AM64_R_R_R);
  (189, "min"%string, TY_AM64_R_R_R);
  (2846, "max"%string, TY_AM64_R_R_R);
  (191, "llda"%string, TY_AM64_R_OFS);
  (192, "builtin"%string, TY_AM64_R_R_IMM);
  (193, "globalget"%string, TY_AM64_R_OFS);
  (194, "globalset"%string, TY_AM64_R_OFS)
].

(** [UWINST_TY_AM[opcode]]: an array indexed by position in the list.  Reading
  past its end is undefined. *)
Definition UWINST_TY_AM (opcode : Z) : outcome TY_AM :=
  if opcode <? 0 then Err CodeFault else
  match u_opcode_list !! Z.to_nat opcode with
  | Some (_, _, am) => Ok am
  | None => Err CodeFault
  end.

(** [Opcode_to_opcode_l]: the position in the list of long opcodes. *)
Definition Opcode_to_opcode_l (opcode : Z) (t : VALTYPE) : Z :=
  UINT32 (Z.shiftl opcode VALTY_SZ + valty_num t).

(** ** Long opcodes *)

Inductive U_OPCODE_LONG : Set :=
  | NOP_AM32_L | NOP_AM321_L | NOP_AM322_L | NOP_AM323_L
  | UNREACH_AM32_L | UNREACH_AM321_L | UNREACH_AM322_L | UNREACH_AM323_L
  | RETURN_AM32_L | RETURN_AM321_L | RETURN_AM322_L | RETURN_AM323_L
  | CALL_AM32_OFS_L | CALL_AM32_OFS1_L | CALL_AM32_OFS2_L | CALL_AM32_OFS3_L
  | JMP_AM32_OFS_L | JMP_AM32_OFS1_L | JMP_AM32_OFS2_L | JMP_AM32_OFS3_L
  | CALL_INDIRECT_AM32_R_L | CALL_INDIRECT_AM32_R1_L | CALL_INDIRECT_AM32_R2_L | CALL_INDIRECT_AM32_R3_L
  | JMP_INDIRECT_AM32_R_L | JMP_INDIRECT_AM32_R1_L | JMP_INDIRECT_AM32_R2_L | JMP_INDIRECT_AM32_R3_L
  | MEMORYSIZE_AM32_R_L | MEMORYSIZE_AM32_R1_L | MEMORYSIZE_AM32_R2_L | MEMORYSIZE_AM32_R3_L
  | MEMORYGROW_AM32_R_R_L | MEMORYGROW_AM32_R_R1_L | MEMORYGROW_AM32_R_R2_L | MEMORYGROW_AM32_R_R3_L
  | ADD_I32_AM32_R_IMM_L | ADD_I64_AM32_R_IMM_L | UNUSED1_L | UNUSED2_L
  | JEZ_I32_AM32_R_OFS_L | JEZ_I64_AM32_R_OFS_L | JEZ_F32_AM32_R_OFS_L | JEZ_F64_AM32_R_OFS_L
  | JNZ_I32_AM32_R_OFS_L | JNZ_I64_AM32_R_OFS_L | JNZ_F32_AM32_R_OFS_L | JNZ_F64_AM32_R_OFS_L
  | JLZ_I32_AM32_R_OFS_L | JLZ_I64_AM32_R_OFS_L | JLZ_F32_AM32_R_OFS_L | JLZ_F64_AM32_R_OFS_L
  | JLEZ_I32_AM32_R_OFS_L | JLEZ_I64_AM32_R_OFS_L | JLEZ_F32_AM32_R_OFS_L | JLEZ_F64_AM32_R_OFS_L
  | JGZ_I32_AM32_R_OFS_L | JGZ_I64_AM32_R_OFS_L | JGZ_F32_AM32_R_OFS_L | JGZ_F64_AM32_R_OFS_L
  | JGEZ_I32_AM32_R_OFS_L | JGEZ_I64_AM32_R_OFS_L | JGEZ_F32_AM32_R_OFS_L | JGEZ_F64_AM32_R_OFS_L
  | LLDA_I32_AM32_R_OFS_L | LLDA_I64_AM32_R_OFS_L | UNUSED3_L | UNUSED4_L
  | GLDA_I32_AM32_R_OFS_L | GLDA_I64_AM32_R_OFS_L | UNUSED5_L | UNUSED6_L
  | MOV_I32_AM32_R_R_L | MOV_I64_AM32_R_R_L | MOV_F32_AM32_R_R_L | MOV_F64_AM32_R_R_L
  | ADD_I32_AM32_R_R_L | ADD_I64_AM32_R_R_L | ADD_F32_AM32_R_R_L | ADD_F64_AM32_R_R_L
  | CONST_I32_AM32_R_IMM_L | CONST_I64_AM32_R_IMM_L | UNUSED7_L | UNUSED8_L
  | ADD_I32_AM32S_R_R_IMM_L | ADD_I64_AM32S_R_R_IMM_L | UNUSED9_L | UNUSED10_L
  | JEQ_I32_AM32S_R_R_OFS_L | JEQ_I64_AM32S_R_R_OFS_L | JEQ_F32_AM32S_R_R_OFS_L | JEQ_F64_AM32S_R_R_OFS_L
  | JNE_I32_AM32S_R_R_OFS_L | JNE_I64_AM32S_R_R_OFS_L | JNE_F32_AM32S_R_R_OFS_L | JNE_F64_AM32S_R_R_OFS_L
  | JLT_I32_AM32S_R_R_OFS_L | JLT_I64_AM32S_R_R_OFS_L | JLT_F32_AM32S_R_R_OFS_L | JLT_F64_AM32S_R_R_OFS_L
  | JLE_I32_AM32S_R_R_OFS_L | JLE_I64_AM32S_R_R_OFS_L | JLE_F32_AM32S_R_R_OFS_L | JLE_F64_AM32S_R_R_OFS_L
  | JGT_I32_AM32S_R_R_OFS_L | JGT_I64_AM32S_R_R_OFS_L | JGT_F32_AM32S_R_R_OFS_L | JGT_F64_AM32S_R_R_OFS_L
  | JGE_I32_AM32S_R_R_OFS_L | JGE_I64_AM32S_R_R_OFS_L | JGE_F32_AM32S_R_R_OFS_L | JGE_F64_AM32S_R_R_OFS_L
  | JLT_U_I32_AM32S_R_R_OFS_L | JLT_U_I64_AM32S_R_R_OFS_L | UNUSED11_L | UNUSED12_L
  | JLE_U_I32_AM32S_R_R_OFS_L | JLE_U_I64_AM32S_R_R_OFS_L | UNUSED13_L | UNUSED14_L
  | JGT_U_I32_AM32S_R_R_OFS_L | JGT_U_I64_AM32S_R_R_OFS_L | UNUSED15_L | UNUSED16_L
  | JGE_U_I32_AM32S_R_R_OFS_L | JGE_U_I64_AM32S_R_R_OFS_L | UNUSED17_L | UNUSED18_L
  | LOAD_I32_AM32S_R_R_IMM_L | LOAD_I64_AM32S_R_R_IMM_L | LOAD_F32_AM32S_R_R_IMM_L | LOAD_F64_AM32S_R_R_IMM_L
  | LOAD8_I32_AM32S_R_R_IMM_L | LOAD8_I64_AM32S_R_R_IMM_L | UNUSED19_L | UNUSED20_L
  | LOAD8_U_I32_AM32S_R_R_IMM_L | LOAD8_U_I64_AM32S_R_R_IMM_L | UNUSED21_L | UNUSED22_L
  | LOAD16_I32_AM32S_R_R_IMM_L | LOAD16_I64_AM32S_R_R_IMM_L | UNUSED23_L | UNUSED24_L
  | LOAD16_U_I32_AM32S_R_R_IMM_L | LOAD16_U_I64_AM32S_R_R_IMM_L | UNUSED25_L | UNUSED26_L
  | UNUSED27_L | LOAD32_I64_AM32S_R_R_IMM_L | UNUSED28_L | UNUSED29_L
  | UNUSED30_L | LOAD32_U_I64_AM32S_R_R_IMM_L | UNUSED31_L | UNUSED32_L
  | STORE_I32_AM32S_R_R_IMM_L | STORE_I64_AM32S_R_R_IMM_L | STORE_F32_AM32S_R_R_IMM_L | STORE_F64_AM32S_R_R_IMM_L
  | STORE8_I32_AM32S_R_R_IMM_L | STORE8_I64_AM32S_R_R_IMM_L | UNUSED33_L | UNUSED34_L
  | STORE16_I32_AM32S_R_R_IMM_L | STORE16_I64_AM32S_R_R_IMM_L | UNUSED35_L | UNUSED36_L
  | UNUSED37_L | STORE32_I64_AM32S_R_R_IMM_L | UNUSED38_L | UNUSED39_L
  | LLOAD_I32_AM32_R_IMM_L | LLOAD_I64_AM32_R_IMM_L | LLOAD_F32_AM32_R_IMM_L | LLOAD_F64_AM32_R_IMM_L
  | LLOAD8_I32_AM32_R_IMM_L | LLOAD8_I64_AM32_R_IMM_L | UNUSED40_L | UNUSED41_L
  | LLOAD8_U_I32_AM32_R_IMM_L | LLOAD8_U_I64_AM32_R_IMM_L | UNUSED42_L | UNUSED43_L
  | LLOAD16_I32_AM32_R_IMM_L | LLOAD16_I64_AM32_R_IMM_L | UNUSED44_L | UNUSED45_L
  | LLOAD16_U_I32_AM32_R_IMM_L | LLOAD16_U_I64_AM32_R_IMM_L | UNUSED46_L | UNUSED47_L
  | UNUSED48_L | LLOAD32_I64_AM32_R_IMM_L | UNUSED49_L | UNUSED50_L
  | UNUSED51_L | LLOAD32_U_I64_AM32_R_IMM_L | UNUSED52_L | UNUSED53_L
  | LSTORE_I32_AM32_R_IMM_L | LSTORE_I64_AM32_R_IMM_L | LSTORE_F32_AM32_R_IMM_L | LSTORE_F64_AM32_R_IMM_L
  | LSTORE8_I32_AM32_R_IMM_L | LSTORE8_I64_AM32_R_IMM_L | UNUSED54_L | UNUSED55_L
  | LSTORE16_I32_AM32_R_IMM_L | LSTORE16_I64_AM32_R_IMM_L | UNUSED56_L | UNUSED57_L
  | UNUSED58_L | LSTORE32_I64_AM32_R_IMM_L | UNUSED59_L | UNUSED60_L
  | ADD_I32_AM32S_R_R_R_L | ADD_I64_AM32S_R_R_R_L | ADD_F32_AM32S_R_R_R_L | ADD_F64_AM32S_R_R_R_L
  | SUB_I32_AM32S_R_R_R_L | SUB_I64_AM32S_R_R_R_L | SUB_F32_AM32S_R_R_R_L | SUB_F64_AM32S_R_R_R_L
  | ROTL_I32_AM32S_R_R_R_L | ROTL_I64_AM32S_R_R_R_L | UNUSED61_L | UNUSED62_L
  | ROTR_I32_AM32S_R_R_R_L | ROTR_I64_AM32S_R_R_R_L | UNUSED63_L | UNUSED64_L
  | UNUSED65_L | CONV_I32_I64_AM32_R_R_L | CONV_I32_F32_AM32_R_R_L | CONV_I32_F64_AM32_R_R_L
  | UNUSED66_L | CONV_I32_U_I64_AM32_R_R_L | UNUSED67_L | UNUSED68_L
  | CONV_I64_I32_AM32_R_R_L | UNUSED69_L | CONV_I64_F32_AM32_R_R_L | CONV_I64_F64_AM32_R_R_L
  | CONV_F32_I32_AM32_R_R_L | CONV_F32_I64_AM32_R_R_L | UNUSED70_L | CONV_F32_F64_AM32_R_R_L
  | CONV_F64_I32_AM32_R_R_L | CONV_F64_I64_AM32_R_R_L | CONV_F64_F32_AM32_R_R_L | UNUSED71_L
  | EQZ_I32_AM32_R_R_L | EQZ_I64_AM32_R_R_L | EQZ_F32_AM32_R_R_L | EQZ_F64_AM32_R_R_L
  | UNUSED72_L | UNUSED73_L | CEIL_F32_AM32_R_R_L | CEIL_F64_AM32_R_R_L
  | UNUSED74_L | UNUSED75_L | FLOOR_F32_AM32_R_R_L | FLOOR_F64_AM32_R_R_L
  | UNUSED76_L | UNUSED77_L | SQRT_F32_AM32_R_R_L | SQRT_F64_AM32_R_R_L
  | UNUSED78_L | UNUSED79_L | NEG_F32_AM32_R_R_L | NEG_F64_AM32_R_R_L
  | REINTR_F32_I32_AM32_R_R_L | UNUSED80_L | UNUSED81_L | UNUSED82_L
  | UNUSED83_L | REINTR_F64_I64_AM32_R_R_L | UNUSED84_L | UNUSED85_L
  | UNUSED86_L | UNUSED87_L | REINTR_I32_F32_AM32_R_R_L | UNUSED88_L
  | UNUSED89_L | UNUSED90_L | UNUSED91_L | REINTR_I64_F64_AM32_R_R_L
  | BREAK_AM32_L | BREAK_AM321_L | BREAK_AM322_L | BREAK_AM323_L
  | UNUSED92_L | UNUSED93_L | UNUSED94_L | UNUSED95_L
  | UNUSED96_L | UNUSED97_L | UNUSED98_L | UNUSED99_L
  | UNUSED100_L | UNUSED101_L | UNUSED102_L | UNUSED103_L
  | UNUSED104_L | UNUSED105_L | UNUSED106_L | UNUSED107_L
  | UNUSED108_L | UNUSED109_L | UNUSED110_L | UNUSED111_L
  | UNUSED112_L | UNUSED113_L | UNUSED114_L | UNUSED115_L
  | UNUSED116_L | UNUSED117_L | UNUSED118_L | UNUSED119_L
  | UNUSED120_L | UNUSED121_L | UNUSED122_L | UNUSED123_L
  | UNUSED124_L | UNUSED125_L | UNUSED126_L | UNUSED127_L
  | UNUSED128_L | UNUSED129_L | UNUSED130_L | UNUSED131_L
  | UNUSED132_L | UNUSED133_L | UNUSED134_L | UNUSED135_L
  | UNUSED136_L | UNUSED137_L | UNUSED138_L | UNUSED139_L
  | UNUSED140_L | UNUSED141_L | UNUSED142_L | UNUSED143_L
  | UNUSED144_L | UNUSED145_L | UNUSED146_L | UNUSED147_L
  | UNUSED148_L | UNUSED149_L | UNUSED150_L | UNUSED151_L
  | UNUSED152_L | UNUSED153_L | UNUSED154_L | UNUSED155_L
  | UNUSED156_L | UNUSED157_L | UNUSED158_L | UNUSED159_L
  | UNUSED160_L | UNUSED161_L | UNUSED162_L | UNUSED163_L
  | UNUSED164_L | UNUSED165_L | UNUSED166_L | UNUSED167_L
  | UNUSED168_L | UNUSED169_L | UNUSED170_L | UNUSED171_L
  | UNUSED172_L | UNUSED173_L | UNUSED174_L | UNUSED175_L
  | UNUSED176_L | UNUSED177_L | UNUSED178_L | UNUSED179_L
  | UNUSED180_L | UNUSED181_L | UNUSED182_L | UNUSED183_L
  | UNUSED184_L | UNUSED185_L | UNUSED186_L | UNUSED187_L
  | UNUSED188_L | UNUSED189_L | UNUSED190_L | UNUSED191_L
  | UNUSED192_L | UNUSED193_L | UNUSED194_L | UNUSED195_L
  | UNUSED196_L | UNUSED197_L | UNUSED198_L | UNUSED199_L
  | UNUSED200_L | UNUSED201_L | UNUSED202_L | UNUSED203_L
  | UNUSED204_L | UNUSED205_L | UNUSED206_L | UNUSED207_L
  | UNUSED208_L | UNUSED209_L | UNUSED210_L | UNUSED211_L
  | UNUSED212_L | UNUSED213_L | UNUSED214_L | UNUSED215_L
  | UNUSED216_L | UNUSED217_L | UNUSED218_L | UNUSED219_L
  | UNUSED220_L | UNUSED221_L | UNUSED222_L | UNUSED223_L
  | UNUSED224_L | UNUSED225_L | UNUSED226_L | UNUSED227_L
  | UNUSED228_L | UNUSED229_L | UNUSED230_L | UNUSED231_L
  | UNUSED232_L | UNUSED233_L | UNUSED234_L | UNUSED235_L
  | UNUSED236_L | UNUSED237_L | UNUSED238_L | UNUSED239_L
  | UNUSED240_L | UNUSED241_L | UNUSED242_L | UNUSED243_L
  | UNUSED244_L | UNUSED245_L | UNUSED246_L | UNUSED247_L
  | UNUSED248_L | UNUSED249_L | UNUSED250_L | UNUSED251_L
  | UNUSED252_L | UNUSED253_L | UNUSED254_L | UNUSED255_L
  | UNUSED256_L | UNUSED257_L | UNUSED258_L | UNUSED259_L
  | UNUSED260_L | UNUSED261_L | UNUSED262_L | UNUSED263_L
  | UNUSED264_L | UNUSED265_L | UNUSED266_L | UNUSED267_L
  | UNUSED268_L | UNUSED269_L | UNUSED270_L | UNUSED271_L
  | UNUSED272_L | UNUSED273_L | UNUSED274_L | UNUSED275_L
  | UNUSED276_L | UNUSED277_L | UNUSED278_L | UNUSED279_L
  | UNUSED280_L | UNUSED281_L | UNUSED282_L | UNUSED283_L
  | UNUSED284_L | UNUSED285_L | UNUSED286_L | UNUSED287_L
  | UNUSED288_L | UNUSED289_L | UNUSED290_L | UNUSED291_L
  | UNUSED292_L | UNUSED293_L | UNUSED294_L | UNUSED295_L
  | UNUSED296_L | UNUSED297_L | UNUSED298_L | UNUSED299_L
  | UNUSED300_L | UNUSED301_L | UNUSED302_L | UNUSED303_L
  | UNUSED304_L | UNUSED305_L | UNUSED306_L | UNUSED307_L
  | UNUSED308_L | UNUSED309_L | UNUSED310_L | UNUSED311_L
  | CONST_L_I32_AM64_R_IMM_L | CONST_L_I64_AM64_R_IMM_L | CONST_L_F32_AM64_R_IMM_L | CONST_L_F64_AM64_R_IMM_L
  | UNUSED312_L | CONST_L_HIGH_I64_AM64_R_IMM_L | UNUSED313_L | CONST_L_HIGH_F64_AM64_R_IMM_L
  | CTZ_I32_AM64_R_OFS_L | CTZ_I64_AM64_R_OFS_L | UNUSED314_L | UNUSED315_L
  | POPCNT_I32_AM64_R_OFS_L | POPCNT_I64_AM64_R_OFS_L | UNUSED316_L | UNUSED317_L
  | ADD_I32_AM64_R_R_IMM_L | ADD_I64_AM64_R_R_IMM_L | UNUSED318_L | UNUSED319_L
  | JEQ_I32_AM64_R_R_OFS_L | JEQ_I64_AM64_R_R_OFS_L | JEQ_F32_AM64_R_R_OFS_L | JEQ_F64_AM64_R_R_OFS_L
  | JNE_I32_AM64_R_R_OFS_L | JNE_I64_AM64_R_R_OFS_L | JNE_F32_AM64_R_R_OFS_L | JNE_F64_AM64_R_R_OFS_L
  | JLT_I32_AM64_R_R_OFS_L | JLT_I64_AM64_R_R_OFS_L | JLT_F32_AM64_R_R_OFS_L | JLT_F64_AM64_R_R_OFS_L
  | JLE_I32_AM64_R_R_OFS_L | JLE_I64_AM64_R_R_OFS_L | JLE_F32_AM64_R_R_OFS_L | JLE_F64_AM64_R_R_OFS_L
  | JGT_I32_AM64_R_R_OFS_L | JGT_I64_AM64_R_R_OFS_L | JGT_F32_AM64_R_R_OFS_L | JGT_F64_AM64_R_R_OFS_L
  | JGE_I32_AM64_R_R_OFS_L | JGE_I64_AM64_R_R_OFS_L | JGE_F32_AM64_R_R_OFS_L | JGE_F64_AM64_R_R_OFS_L
  | JLT_U_I32_AM64_R_R_OFS_L | JLT_U_I64_AM64_R_R_OFS_L | UNUSED320_L | UNUSED321_L
  | JLE_U_I32_AM64_R_R_OFS_L | JLE_U_I64_AM64_R_R_OFS_L | UNUSED322_L | UNUSED323_L
  | JGT_U_I32_AM64_R_R_OFS_L | JGT_U_I64_AM64_R_R_OFS_L | UNUSED324_L | UNUSED325_L
  | JGE_U_I32_AM64_R_R_OFS_L | JGE_U_I64_AM64_R_R_OFS_L | UNUSED326_L | UNUSED327_L
  | LOAD_I32_AM64_R_R_IMM_L | LOAD_I64_AM64_R_R_IMM_L | LOAD_F32_AM64_R_R_IMM_L | LOAD_F64_AM64_R_R_IMM_L
  | LOAD8_I32_AM64_R_R_IMM_L | LOAD8_I64_AM64_R_R_IMM_L | UNUSED328_L | UNUSED329_L
  | LOAD8_U_I32_AM64_R_R_IMM_L | LOAD8_U_I64_AM64_R_R_IMM_L | UNUSED330_L | UNUSED331_L
  | LOAD16_I32_AM64_R_R_IMM_L | LOAD16_I64_AM64_R_R_IMM_L | UNUSED332_L | UNUSED333_L
  | LOAD16_U_I32_AM64_R_R_IMM_L | LOAD16_U_I64_AM64_R_R_IMM_L | UNUSED334_L | UNUSED335_L
  | UNUSED336_L | LOAD32_I64_AM64_R_R_IMM_L | UNUSED337_L | UNUSED338_L
  | UNUSED339_L | LOAD32_U_I64_AM64_R_R_IMM_L | UNUSED340_L | UNUSED341_L
  | STORE_I32_AM64_R_R_IMM_L | STORE_I64_AM64_R_R_IMM_L | STORE_F32_AM64_R_R_IMM_L | STORE_F64_AM64_R_R_IMM_L
  | STORE8_I32_AM64_R_R_IMM_L | STORE8_I64_AM64_R_R_IMM_L | UNUSED342_L | UNUSED343_L
  | STORE16_I32_AM64_R_R_IMM_L | STORE16_I64_AM64_R_R_IMM_L | UNUSED344_L | UNUSED345_L
  | UNUSED346_L | STORE32_I64_AM64_R_R_IMM_L | UNUSED347_L | UNUSED348_L
  | SELECT_I32_AM64_R_R_OFS_L | SELECT_I64_AM64_R_R_OFS_L | SELECT_F32_AM64_R_R_OFS_L | SELECT_F64_AM64_R_R_OFS_L
  | LLOAD_I32_AM64_R_IMM_L | LLOAD_I64_AM64_R_IMM_L | LLOAD_F32_AM64_R_IMM_L | LLOAD_F64_AM64_R_IMM_L
  | LLOAD8_I32_AM64_R_IMM_L | LLOAD8_I64_AM64_R_IMM_L | UNUSED349_L | UNUSED350_L
  | LLOAD8_U_I32_AM64_R_IMM_L | LLOAD8_U_I64_AM64_R_IMM_L | UNUSED351_L | UNUSED352_L
  | LLOAD16_I32_AM64_R_IMM_L | LLOAD16_I64_AM64_R_IMM_L | UNUSED353_L | UNUSED354_L
  | LLOAD16_U_I32_AM64_R_IMM_L | LLOAD16_U_I64_AM64_R_IMM_L | UNUSED355_L | UNUSED356_L
  | UNUSED357_L | LLOAD32_I64_AM64_R_IMM_L | UNUSED358_L | UNUSED359_L
  | UNUSED360_L | LLOAD32_U_I64_AM64_R_IMM_L | UNUSED361_L | UNUSED362_L
  | LSTORE_I32_AM64_R_IMM_L | LSTORE_I64_AM64_R_IMM_L | LSTORE_F32_AM64_R_IMM_L | LSTORE_F64_AM64_R_IMM_L
  | LSTORE8_I32_AM64_R_IMM_L | LSTORE8_I64_AM64_R_IMM_L | UNUSED363_L | UNUSED364_L
  | LSTORE16_I32_AM64_R_IMM_L | LSTORE16_I64_AM64_R_IMM_L | UNUSED365_L | UNUSED366_L
  | UNUSED367_L | LSTORE32_I64_AM64_R_IMM_L | UNUSED368_L | UNUSED369_L
  | EQ_I32_AM64_R_R_R_L | EQ_I64_AM64_R_R_R_L | EQ_F32_AM64_R_R_R_L | EQ_F64_AM64_R_R_R_L
  | NE_I32_AM64_R_R_R_L | NE_I64_AM64_R_R_R_L | NE_F32_AM64_R_R_R_L | NE_F64_AM64_R_R_R_L
  | LT_I32_AM64_R_R_R_L | LT_I64_AM64_R_R_R_L | LT_F32_AM64_R_R_R_L | LT_F64_AM64_R_R_R_L
  | LT_U_I32_AM64_R_R_R_L | LT_U_I64_AM64_R_R_R_L | UNUSED370_L | UNUSED371_L
  | GT_I32_AM64_R_R_R_L | GT_I64_AM64_R_R_R_L | GT_F32_AM64_R_R_R_L | GT_F64_AM64_R_R_R_L
  | GT_U_I32_AM64_R_R_R_L | GT_U_I64_AM64_R_R_R_L | UNUSED372_L | UNUSED373_L
  | LE_I32_AM64_R_R_R_L | LE_I64_AM64_R_R_R_L | LE_F32_AM64_R_R_R_L | LE_F64_AM64_R_R_R_L
  | LE_U_I32_AM64_R_R_R_L | LE_U_I64_AM64_R_R_R_L | UNUSED374_L | UNUSED375_L
  | GE_I32_AM64_R_R_R_L | GE_I64_AM64_R_R_R_L | GE_F32_AM64_R_R_R_L | GE_F64_AM64_R_R_R_L
  | GE_U_I32_AM64_R_R_R_L | GE_U_I64_AM64_R_R_R_L | UNUSED376_L | UNUSED377_L
  | ADD_I32_AM64_R_R_R_L | ADD_I64_AM64_R_R_R_L | ADD_F32_AM64_R_R_R_L | ADD_F64_AM64_R_R_R_L
  | SUB_I32_AM64_R_R_R_L | SUB_I64_AM64_R_R_R_L | SUB_F32_AM64_R_R_R_L | SUB_F64_AM64_R_R_R_L
  | MUL_I32_AM64_R_R_R_L | MUL_I64_AM64_R_R_R_L | MUL_F32_AM64_R_R_R_L | MUL_F64_AM64_R_R_R_L
  | DIV_I32_AM64_R_R_R_L | DIV_I64_AM64_R_R_R_L | DIV_F32_AM64_R_R_R_L | DIV_F64_AM64_R_R_R_L
  | DIV_U_I32_AM64_R_R_R_L | DIV_U_I64_AM64_R_R_R_L | UNUSED378_L | UNUSED379_L
  | REM_I32_AM64_R_R_R_L | REM_I64_AM64_R_R_R_L | UNUSED380_L | UNUSED381_L
  | REM_U_I32_AM64_R_R_R_L | REM_U_I64_AM64_R_R_R_L | UNUSED382_L | UNUSED383_L
  | AND_I32_AM64_R_R_R_L | AND_I64_AM64_R_R_R_L | UNUSED384_L | UNUSED385_L
  | OR_I32_AM64_R_R_R_L | OR_I64_AM64_R_R_R_L | UNUSED386_L | UNUSED387_L
  | XOR_I32_AM64_R_R_R_L | XOR_I64_AM64_R_R_R_L | UNUSED388_L | UNUSED389_L
  | SHL_I32_AM64_R_R_R_L | SHL_I64_AM64_R_R_R_L | UNUSED390_L | UNUSED391_L
  | SHR_I32_AM64_R_R_R_L | SHR_I64_AM64_R_R_R_L | UNUSED392_L | UNUSED393_L
  | SHR_U_I32_AM64_R_R_R_L | SHR_U_I64_AM64_R_R_R_L | UNUSED394_L | UNUSED395_L
  | UNUSED396_L | UNUSED397_L | MIN_F32_AM64_R_R_R_L | MIN_F64_AM64_R_R_R_L
  | UNUSED398_L | UNUSED399_L | MAX_F32_AM64_R_R_R_L | MAX_F64_AM64_R_R_R_L
  | LLDA_I32_AM64_R_OFS_L | LLDA_I64_AM64_R_OFS_L | UNUSED400_L | UNUSED401_L
  | BUILTIN_I32_AM64_R_R_IMM_L | BUILTIN_I64_AM64_R_R_IMM_L | BUILTIN_F32_AM64_R_R_IMM_L | BUILTIN_F64_AM64_R_R_IMM_L
  | GLOBALGET_I32_AM64_R_OFS_L | GLOBALGET_I64_AM64_R_OFS_L | GLOBALGET_F32_AM64_R_OFS_L | GLOBALGET_F64_AM64_R_OFS_L
  | GLOBALSET_I32_AM64_R_OFS_L | GLOBALSET_I64_AM64_R_OFS_L | GLOBALSET_F32_AM64_R_OFS_L | GLOBALSET_F64_AM64_R_OFS_L.

Definition U_OPCODE_LONG_list : list U_OPCODE_LONG := [
  NOP_AM32_L; NOP_AM321_L; NOP_AM322_L; NOP_AM323_L;
  UNREACH_AM32_L; UNREACH_AM321_L; UNREACH_AM322_L; UNREACH_AM323_L;
  RETURN_AM32_L; RETURN_AM321_L; RETURN_AM322_L; RETURN_AM323_L;
  CALL_AM32_OFS_L; CALL_AM32_OFS1_L; CALL_AM32_OFS2_L; CALL_AM32_OFS3_L;
  JMP_AM32_OFS_L; JMP_AM32_OFS1_L; JMP_AM32_OFS2_L; JMP_AM32_OFS3_L;
  CALL_INDIRECT_AM32_R_L; CALL_INDIRECT_AM32_R1_L; CALL_INDIRECT_AM32_R2_L; CALL_INDIRECT_AM32_R3_L;
  JMP_INDIRECT_AM32_R_L; JMP_INDIRECT_AM32_R1_L; JMP_INDIRECT_AM32_R2_L; JMP_INDIRECT_AM32_R3_L;
  MEMORYSIZE_AM32_R_L; MEMORYSIZE_AM32_R1_L; MEMORYSIZE_AM32_R2_L; MEMORYSIZE_AM32_R3_L;
  MEMORYGROW_AM32_R_R_L; MEMORYGROW_AM32_R_R1_L; MEMORYGROW_AM32_R_R2_L; MEMORYGROW_AM32_R_R3_L;
  ADD_I32_AM32_R_IMM_L; ADD_I64_AM32_R_IMM_L; UNUSED1_L; UNUSED2_L;
  JEZ_I32_AM32_R_OFS_L; JEZ_I64_AM32_R_OFS_L; JEZ_F32_AM32_R_OFS_L; JEZ_F64_AM32_R_OFS_L;
  JNZ_I32_AM32_R_OFS_L; JNZ_I64_AM32_R_OFS_L; JNZ_F32_AM32_R_OFS_L; JNZ_F64_AM32_R_OFS_L;
  JLZ_I32_AM32_R_OFS_L; JLZ_I64_AM32_R_OFS_L; JLZ_F32_AM32_R_OFS_L; JLZ_F64_AM32_R_OFS_L;
  JLEZ_I32_AM32_R_OFS_L; JLEZ_I64_AM32_R_OFS_L; JLEZ_F32_AM32_R_OFS_L; JLEZ_F64_AM32_R_OFS_L;
  JGZ_I32_AM32_R_OFS_L; JGZ_I64_AM32_R_OFS_L; JGZ_F32_AM32_R_OFS_L; JGZ_F64_AM32_R_OFS_L;
  JGEZ_I32_AM32_R_OFS_L; JGEZ_I64_AM32_R_OFS_L; JGEZ_F32_AM32_R_OFS_L; JGEZ_F64_AM32_R_OFS_L;
  LLDA_I32_AM32_R_OFS_L; LLDA_I64_AM32_R_OFS_L; UNUSED3_L; UNUSED4_L;
  GLDA_I32_AM32_R_OFS_L; GLDA_I64_AM32_R_OFS_L; UNUSED5_L; UNUSED6_L;
  MOV_I32_AM32_R_R_L; MOV_I64_AM32_R_R_L; MOV_F32_AM32_R_R_L; MOV_F64_AM32_R_R_L;
  ADD_I32_AM32_R_R_L; ADD_I64_AM32_R_R_L; ADD_F32_AM32_R_R_L; ADD_F64_AM32_R_R_L;
  CONST_I32_AM32_R_IMM_L; CONST_I64_AM32_R_IMM_L; UNUSED7_L; UNUSED8_L;
  ADD_I32_AM32S_R_R_IMM_L; ADD_I64_AM32S_R_R_IMM_L; UNUSED9_L; UNUSED10_L;
  JEQ_I32_AM32S_R_R_OFS_L; JEQ_I64_AM32S_R_R_OFS_L; JEQ_F32_AM32S_R_R_OFS_L; JEQ_F64_AM32S_R_R_OFS_L;
  JNE_I32_AM32S_R_R_OFS_L; JNE_I64_AM32S_R_R_OFS_L; JNE_F32_AM32S_R_R_OFS_L; JNE_F64_AM32S_R_R_OFS_L;
  JLT_I32_AM32S_R_R_OFS_L; JLT_I64_AM32S_R_R_OFS_L; JLT_F32_AM32S_R_R_OFS_L; JLT_F64_AM32S_R_R_OFS_L;
  JLE_I32_AM32S_R_R_OFS_L; JLE_I64_AM32S_R_R_OFS_L; JLE_F32_AM32S_R_R_OFS_L; JLE_F64_AM32S_R_R_OFS_L;
  JGT_I32_AM32S_R_R_OFS_L; JGT_I64_AM32S_R_R_OFS_L; JGT_F32_AM32S_R_R_OFS_L; JGT_F64_AM32S_R_R_OFS_L;
  JGE_I32_AM32S_R_R_OFS_L; JGE_I64_AM32S_R_R_OFS_L; JGE_F32_AM32S_R_R_OFS_L; JGE_F64_AM32S_R_R_OFS_L;
  JLT_U_I32_AM32S_R_R_OFS_L; JLT_U_I64_AM32S_R_R_OFS_L; UNUSED11_L; UNUSED12_L;
  JLE_U_I32_AM32S_R_R_OFS_L; JLE_U_I64_AM32S_R_R_OFS_L; UNUSED13_L; UNUSED14_L;
  JGT_U_I32_AM32S_R_R_OFS_L; JGT_U_I64_AM32S_R_R_OFS_L; UNUSED15_L; UNUSED16_L;
  JGE_U_I32_AM32S_R_R_OFS_L; JGE_U_I64_AM32S_R_R_OFS_L; UNUSED17_L; UNUSED18_L;
  LOAD_I32_AM32S_R_R_IMM_L; LOAD_I64_AM32S_R_R_IMM_L; LOAD_F32_AM32S_R_R_IMM_L; LOAD_F64_AM32S_R_R_IMM_L;
  LOAD8_I32_AM32S_R_R_IMM_L; LOAD8_I64_AM32S_R_R_IMM_L; UNUSED19_L; UNUSED20_L;
  LOAD8_U_I32_AM32S_R_R_IMM_L; LOAD8_U_I64_AM32S_R_R_IMM_L; UNUSED21_L; UNUSED22_L;
  LOAD16_I32_AM32S_R_R_IMM_L; LOAD16_I64_AM32S_R_R_IMM_L; UNUSED23_L; UNUSED24_L;
  LOAD16_U_I32_AM32S_R_R_IMM_L; LOAD16_U_I64_AM32S_R_R_IMM_L; UNUSED25_L; UNUSED26_L;
  UNUSED27_L; LOAD32_I64_AM32S_R_R_IMM_L; UNUSED28_L; UNUSED29_L;
  UNUSED30_L; LOAD32_U_I64_AM32S_R_R_IMM_L; UNUSED31_L; UNUSED32_L;
  STORE_I32_AM32S_R_R_IMM_L; STORE_I64_AM32S_R_R_IMM_L; STORE_F32_AM32S_R_R_IMM_L; STORE_F64_AM32S_R_R_IMM_L;
  STORE8_I32_AM32S_R_R_IMM_L; STORE8_I64_AM32S_R_R_IMM_L; UNUSED33_L; UNUSED34_L;
  STORE16_I32_AM32S_R_R_IMM_L; STORE16_I64_AM32S_R_R_IMM_L; UNUSED35_L; UNUSED36_L;
  UNUSED37_L; STORE32_I64_AM32S_R_R_IMM_L; UNUSED38_L; UNUSED39_L;
  LLOAD_I32_AM32_R_IMM_L; LLOAD_I64_AM32_R_IMM_L; LLOAD_F32_AM32_R_IMM_L; LLOAD_F64_AM32_R_IMM_L;
  LLOAD8_I32_AM32_R_IMM_L; LLOAD8_I64_AM32_R_IMM_L; UNUSED40_L; UNUSED41_L;
  LLOAD8_U_I32_AM32_R_IMM_L; LLOAD8_U_I64_AM32_R_IMM_L; UNUSED42_L; UNUSED43_L;
  LLOAD16_I32_AM32_R_IMM_L; LLOAD16_I64_AM32_R_IMM_L; UNUSED44_L; UNUSED45_L;
  LLOAD16_U_I32_AM32_R_IMM_L; LLOAD16_U_I64_AM32_R_IMM_L; UNUSED46_L; UNUSED47_L;
  UNUSED48_L; LLOAD32_I64_AM32_R_IMM_L; UNUSED49_L; UNUSED50_L;
  UNUSED51_L; LLOAD32_U_I64_AM32_R_IMM_L; UNUSED52_L; UNUSED53_L;
  LSTORE_I32_AM32_R_IMM_L; LSTORE_I64_AM32_R_IMM_L; LSTORE_F32_AM32_R_IMM_L; LSTORE_F64_AM32_R_IMM_L;
  LSTORE8_I32_AM32_R_IMM_L; LSTORE8_I64_AM32_R_IMM_L; UNUSED54_L; UNUSED55_L;
  LSTORE16_I32_AM32_R_IMM_L; LSTORE16_I64_AM32_R_IMM_L; UNUSED56_L; UNUSED57_L;
  UNUSED58_L; LSTORE32_I64_AM32_R_IMM_L; UNUSED59_L; UNUSED60_L;
  ADD_I32_AM32S_R_R_R_L; ADD_I64_AM32S_R_R_R_L; ADD_F32_AM32S_R_R_R_L; ADD_F64_AM32S_R_R_R_L;
  SUB_I32_AM32S_R_R_R_L; SUB_I64_AM32S_R_R_R_L; SUB_F32_AM32S_R_R_R_L; SUB_F64_AM32S_R_R_R_L;
  ROTL_I32_AM32S_R_R_R_L; ROTL_I64_AM32S_R_R_R_L; UNUSED61_L; UNUSED62_L;
  ROTR_I32_AM32S_R_R_R_L; ROTR_I64_AM32S_R_R_R_L; UNUSED63_L; UNUSED64_L;
  UNUSED65_L; CONV_I32_I64_AM32_R_R_L; CONV_I32_F32_AM32_R_R_L; CONV_I32_F64_AM32_R_R_L;
  UNUSED66_L; CONV_I32_U_I64_AM32_R_R_L; UNUSED67_L; UNUSED68_L;
  CONV_I64_I32_AM32_R_R_L; UNUSED69_L; CONV_I64_F32_AM32_R_R_L; CONV_I64_F64_AM32_R_R_L;
  CONV_F32_I32_AM32_R_R_L; CONV_F32_I64_AM32_R_R_L; UNUSED70_L; CONV_F32_F64_AM32_R_R_L;
  CONV_F64_I32_AM32_R_R_L; CONV_F64_I64_AM32_R_R_L; CONV_F64_F32_AM32_R_R_L; UNUSED71_L;
  EQZ_I32_AM32_R_R_L; EQZ_I64_AM32_R_R_L; EQZ_F32_AM32_R_R_L; EQZ_F64_AM32_R_R_L;
  UNUSED72_L; UNUSED73_L; CEIL_F32_AM32_R_R_L; CEIL_F64_AM32_R_R_L;
  UNUSED74_L; UNUSED75_L; FLOOR_F32_AM32_R_R_L; FLOOR_F64_AM32_R_R_L;
  UNUSED76_L; UNUSED77_L; SQRT_F32_AM32_R_R_L; SQRT_F64_AM32_R_R_L;
  UNUSED78_L; UNUSED79_L; NEG_F32_AM32_R_R_L; NEG_F64_AM32_R_R_L;
  REINTR_F32_I32_AM32_R_R_L; UNUSED80_L; UNUSED81_L; UNUSED82_L;
  UNUSED83_L; REINTR_F64_I64_AM32_R_R_L; UNUSED84_L; UNUSED85_L;
  UNUSED86_L; UNUSED87_L; REINTR_I32_F32_AM32_R_R_L; UNUSED88_L;
  UNUSED89_L; UNUSED90_L; UNUSED91_L; REINTR_I64_F64_AM32_R_R_L;
  BREAK_AM32_L; BREAK_AM321_L; BREAK_AM322_L; BREAK_AM323_L;
  UNUSED92_L; UNUSED93_L; UNUSED94_L; UNUSED95_L;
  UNUSED96_L; UNUSED97_L; UNUSED98_L; UNUSED99_L;
  UNUSED100_L; UNUSED101_L; UNUSED102_L; UNUSED103_L;
  UNUSED104_L; UNUSED105_L; UNUSED106_L; UNUSED107_L;
  UNUSED108_L; UNUSED109_L; UNUSED110_L; UNUSED111_L;
  UNUSED112_L; UNUSED113_L; UNUSED114_L; UNUSED115_L;
  UNUSED116_L; UNUSED117_L; UNUSED118_L; UNUSED119_L;
  UNUSED120_L; UNUSED121_L; UNUSED122_L; UNUSED123_L;
  UNUSED124_L; UNUSED125_L; UNUSED126_L; UNUSED127_L;
  UNUSED128_L; UNUSED129_L; UNUSED130_L; UNUSED131_L;
  UNUSED132_L; UNUSED133_L; UNUSED134_L; UNUSED135_L;
  UNUSED136_L; UNUSED137_L; UNUSED138_L; UNUSED139_L;
  UNUSED140_L; UNUSED141_L; UNUSED142_L; UNUSED143_L;
  UNUSED144_L; UNUSED145_L; UNUSED146_L; UNUSED147_L;
  UNUSED148_L; UNUSED149_L; UNUSED150_L; UNUSED151_L;
  UNUSED152_L; UNUSED153_L; UNUSED154_L; UNUSED155_L;
  UNUSED156_L; UNUSED157_L; UNUSED158_L; UNUSED159_L;
  UNUSED160_L; UNUSED161_L; UNUSED162_L; UNUSED163_L;
  UNUSED164_L; UNUSED165_L; UNUSED166_L; UNUSED167_L;
  UNUSED168_L; UNUSED169_L; UNUSED170_L; UNUSED171_L;
  UNUSED172_L; UNUSED173_L; UNUSED174_L; UNUSED175_L;
  UNUSED176_L; UNUSED177_L; UNUSED178_L; UNUSED179_L;
  UNUSED180_L; UNUSED181_L; UNUSED182_L; UNUSED183_L;
  UNUSED184_L; UNUSED185_L; UNUSED186_L; UNUSED187_L;
  UNUSED188_L; UNUSED189_L; UNUSED190_L; UNUSED191_L;
  UNUSED192_L; UNUSED193_L; UNUSED194_L; UNUSED195_L;
  UNUSED196_L; UNUSED197_L; UNUSED198_L; UNUSED199_L;
  UNUSED200_L; UNUSED201_L; UNUSED202_L; UNUSED203_L;
  UNUSED204_L; UNUSED205_L; UNUSED206_L; UNUSED207_L;
  UNUSED208_L; UNUSED209_L; UNUSED210_L; UNUSED211_L;
  UNUSED212_L; UNUSED213_L; UNUSED214_L; UNUSED215_L;
  UNUSED216_L; UNUSED217_L; UNUSED218_L; UNUSED219_L;
  UNUSED220_L; UNUSED221_L; UNUSED222_L; UNUSED223_L;
  UNUSED224_L; UNUSED225_L; UNUSED226_L; UNUSED227_L;
  UNUSED228_L; UNUSED229_L; UNUSED230_L; UNUSED231_L;
  UNUSED232_L; UNUSED233_L; UNUSED234_L; UNUSED235_L;
  UNUSED236_L; UNUSED237_L; UNUSED238_L; UNUSED239_L;
  UNUSED240_L; UNUSED241_L; UNUSED242_L; UNUSED243_L;
  UNUSED244_L; UNUSED245_L; UNUSED246_L; UNUSED247_L;
  UNUSED248_L; UNUSED249_L; UNUSED250_L; UNUSED251_L;
  UNUSED252_L; UNUSED253_L; UNUSED254_L; UNUSED255_L;
  UNUSED256_L; UNUSED257_L; UNUSED258_L; UNUSED259_L;
  UNUSED260_L; UNUSED261_L; UNUSED262_L; UNUSED263_L;
  UNUSED264_L; UNUSED265_L; UNUSED266_L; UNUSED267_L;
  UNUSED268_L; UNUSED269_L; UNUSED270_L; UNUSED271_L;
  UNUSED272_L; UNUSED273_L; UNUSED274_L; UNUSED275_L;
  UNUSED276_L; UNUSED277_L; UNUSED278_L; UNUSED279_L;
  UNUSED280_L; UNUSED281_L; UNUSED282_L; UNUSED283_L;
  UNUSED284_L; UNUSED285_L; UNUSED286_L; UNUSED287_L;
  UNUSED288_L; UNUSED289_L; UNUSED290_L; UNUSED291_L;
  UNUSED292_L; UNUSED293_L; UNUSED294_L; UNUSED295_L;
  UNUSED296_L; UNUSED297_L; UNUSED298_L; UNUSED299_L;
  UNUSED300_L; UNUSED301_L; UNUSED302_L; UNUSED303_L;
  UNUSED304_L; UNUSED305_L; UNUSED306_L; UNUSED307_L;
  UNUSED308_L; UNUSED309_L; UNUSED310_L; UNUSED311_L;
  CONST_L_I32_AM64_R_IMM_L; CONST_L_I64_AM64_R_IMM_L; CONST_L_F32_AM64_R_IMM_L; CONST_L_F64_AM64_R_IMM_L;
  UNUSED312_L; CONST_L_HIGH_I64_AM64_R_IMM_L; UNUSED313_L; CONST_L_HIGH_F64_AM64_R_IMM_L;
  CTZ_I32_AM64_R_OFS_L; CTZ_I64_AM64_R_OFS_L; UNUSED314_L; UNUSED315_L;
  POPCNT_I32_AM64_R_OFS_L; POPCNT_I64_AM64_R_OFS_L; UNUSED316_L; UNUSED317_L;
  ADD_I32_AM64_R_R_IMM_L; ADD_I64_AM64_R_R_IMM_L; UNUSED318_L; UNUSED319_L;
  JEQ_I32_AM64_R_R_OFS_L; JEQ_I64_AM64_R_R_OFS_L; JEQ_F32_AM64_R_R_OFS_L; JEQ_F64_AM64_R_R_OFS_L;
  JNE_I32_AM64_R_R_OFS_L; JNE_I64_AM64_R_R_OFS_L; JNE_F32_AM64_R_R_OFS_L; JNE_F64_AM64_R_R_OFS_L;
  JLT_I32_AM64_R_R_OFS_L; JLT_I64_AM64_R_R_OFS_L; JLT_F32_AM64_R_R_OFS_L; JLT_F64_AM64_R_R_OFS_L;
  JLE_I32_AM64_R_R_OFS_L; JLE_I64_AM64_R_R_OFS_L; JLE_F32_AM64_R_R_OFS_L; JLE_F64_AM64_R_R_OFS_L;
  JGT_I32_AM64_R_R_OFS_L; JGT_I64_AM64_R_R_OFS_L; JGT_F32_AM64_R_R_OFS_L; JGT_F64_AM64_R_R_OFS_L;
  JGE_I32_AM64_R_R_OFS_L; JGE_I64_AM64_R_R_OFS_L; JGE_F32_AM64_R_R_OFS_L; JGE_F64_AM64_R_R_OFS_L;
  JLT_U_I32_AM64_R_R_OFS_L; JLT_U_I64_AM64_R_R_OFS_L; UNUSED320_L; UNUSED321_L;
  JLE_U_I32_AM64_R_R_OFS_L; JLE_U_I64_AM64_R_R_OFS_L; UNUSED322_L; UNUSED323_L;
  JGT_U_I32_AM64_R_R_OFS_L; JGT_U_I64_AM64_R_R_OFS_L; UNUSED324_L; UNUSED325_L;
  JGE_U_I32_AM64_R_R_OFS_L; JGE_U_I64_AM64_R_R_OFS_L; UNUSED326_L; UNUSED327_L;
  LOAD_I32_AM64_R_R_IMM_L; LOAD_I64_AM64_R_R_IMM_L; LOAD_F32_AM64_R_R_IMM_L; LOAD_F64_AM64_R_R_IMM_L;
  LOAD8_I32_AM64_R_R_IMM_L; LOAD8_I64_AM64_R_R_IMM_L; UNUSED328_L; UNUSED329_L;
  LOAD8_U_I32_AM64_R_R_IMM_L; LOAD8_U_I64_AM64_R_R_IMM_L; UNUSED330_L; UNUSED331_L;
  LOAD16_I32_AM64_R_R_IMM_L; LOAD16_I64_AM64_R_R_IMM_L; UNUSED332_L; UNUSED333_L;
  LOAD16_U_I32_AM64_R_R_IMM_L; LOAD16_U_I64_AM64_R_R_IMM_L; UNUSED334_L; UNUSED335_L;
  UNUSED336_L; LOAD32_I64_AM64_R_R_IMM_L; UNUSED337_L; UNUSED338_L;
  UNUSED339_L; LOAD32_U_I64_AM64_R_R_IMM_L; UNUSED340_L; UNUSED341_L;
  STORE_I32_AM64_R_R_IMM_L; STORE_I64_AM64_R_R_IMM_L; STORE_F32_AM64_R_R_IMM_L; STORE_F64_AM64_R_R_IMM_L;
  STORE8_I32_AM64_R_R_IMM_L; STORE8_I64_AM64_R_R_IMM_L; UNUSED342_L; UNUSED343_L;
  STORE16_I32_AM64_R_R_IMM_L; STORE16_I64_AM64_R_R_IMM_L; UNUSED344_L; UNUSED345_L;
  UNUSED346_L; STORE32_I64_AM64_R_R_IMM_L; UNUSED347_L; UNUSED348_L;
  SELECT_I32_AM64_R_R_OFS_L; SELECT_I64_AM64_R_R_OFS_L; SELECT_F32_AM64_R_R_OFS_L; SELECT_F64_AM64_R_R_OFS_L;
  LLOAD_I32_AM64_R_IMM_L; LLOAD_I64_AM64_R_IMM_L; LLOAD_F32_AM64_R_IMM_L; LLOAD_F64_AM64_R_IMM_L;
  LLOAD8_I32_AM64_R_IMM_L; LLOAD8_I64_AM64_R_IMM_L; UNUSED349_L; UNUSED350_L;
  LLOAD8_U_I32_AM64_R_IMM_L; LLOAD8_U_I64_AM64_R_IMM_L; UNUSED351_L; UNUSED352_L;
  LLOAD16_I32_AM64_R_IMM_L; LLOAD16_I64_AM64_R_IMM_L; UNUSED353_L; UNUSED354_L;
  LLOAD16_U_I32_AM64_R_IMM_L; LLOAD16_U_I64_AM64_R_IMM_L; UNUSED355_L; UNUSED356_L;
  UNUSED357_L; LLOAD32_I64_AM64_R_IMM_L; UNUSED358_L; UNUSED359_L;
  UNUSED360_L; LLOAD32_U_I64_AM64_R_IMM_L; UNUSED361_L; UNUSED362_L;
  LSTORE_I32_AM64_R_IMM_L; LSTORE_I64_AM64_R_IMM_L; LSTORE_F32_AM64_R_IMM_L; LSTORE_F64_AM64_R_IMM_L;
  LSTORE8_I32_AM64_R_IMM_L; LSTORE8_I64_AM64_R_IMM_L; UNUSED363_L; UNUSED364_L;
  LSTORE16_I32_AM64_R_IMM_L; LSTORE16_I64_AM64_R_IMM_L; UNUSED365_L; UNUSED366_L;
  UNUSED367_L; LSTORE32_I64_AM64_R_IMM_L; UNUSED368_L; UNUSED369_L;
  EQ_I32_AM64_R_R_R_L; EQ_I64_AM64_R_R_R_L; EQ_F32_AM64_R_R_R_L; EQ_F64_AM64_R_R_R_L;
  NE_I32_AM64_R_R_R_L; NE_I64_AM64_R_R_R_L; NE_F32_AM64_R_R_R_L; NE_F64_AM64_R_R_R_L;
  LT_I32_AM64_R_R_R_L; LT_I64_AM64_R_R_R_L; LT_F32_AM64_R_R_R_L; LT_F64_AM64_R_R_R_L;
  LT_U_I32_AM64_R_R_R_L; LT_U_I64_AM64_R_R_R_L; UNUSED370_L; UNUSED371_L;
  GT_I32_AM64_R_R_R_L; GT_I64_AM64_R_R_R_L; GT_F32_AM64_R_R_R_L; GT_F64_AM64_R_R_R_L;
  GT_U_I32_AM64_R_R_R_L; GT_U_I64_AM64_R_R_R_L; UNUSED372_L; UNUSED373_L;
  LE_I32_AM64_R_R_R_L; LE_I64_AM64_R_R_R_L; LE_F32_AM64_R_R_R_L; LE_F64_AM64_R_R_R_L;
  LE_U_I32_AM64_R_R_R_L; LE_U_I64_AM64_R_R_R_L; UNUSED374_L; UNUSED375_L;
  GE_I32_AM64_R_R_R_L; GE_I64_AM64_R_R_R_L; GE_F32_AM64_R_R_R_L; GE_F64_AM64_R_R_R_L;
  GE_U_I32_AM64_R_R_R_L; GE_U_I64_AM64_R_R_R_L; UNUSED376_L; UNUSED377_L;
  ADD_I32_AM64_R_R_R_L; ADD_I64_AM64_R_R_R_L; ADD_F32_AM64_R_R_R_L; ADD_F64_AM64_R_R_R_L;
  SUB_I32_AM64_R_R_R_L; SUB_I64_AM64_R_R_R_L; SUB_F32_AM64_R_R_R_L; SUB_F64_AM64_R_R_R_L;
  MUL_I32_AM64_R_R_R_L; MUL_I64_AM64_R_R_R_L; MUL_F32_AM64_R_R_R_L; MUL_F64_AM64_R_R_R_L;
  DIV_I32_AM64_R_R_R_L; DIV_I64_AM64_R_R_R_L; DIV_F32_AM64_R_R_R_L; DIV_F64_AM64_R_R_R_L;
  DIV_U_I32_AM64_R_R_R_L; DIV_U_I64_AM64_R_R_R_L; UNUSED378_L; UNUSED379_L;
  REM_I32_AM64_R_R_R_L; REM_I64_AM64_R_R_R_L; UNUSED380_L; UNUSED381_L;
  REM_U_I32_AM64_R_R_R_L; REM_U_I64_AM64_R_R_R_L; UNUSED382_L; UNUSED383_L;
  AND_I32_AM64_R_R_R_L; AND_I64_AM64_R_R_R_L; UNUSED384_L; UNUSED385_L;
  OR_I32_AM64_R_R_R_L; OR_I64_AM64_R_R_R_L; UNUSED386_L; UNUSED387_L;
  XOR_I32_AM64_R_R_R_L; XOR_I64_AM64_R_R_R_L; UNUSED388_L; UNUSED389_L;
  SHL_I32_AM64_R_R_R_L; SHL_I64_AM64_R_R_R_L; UNUSED390_L; UNUSED391_L;
  SHR_I32_AM64_R_R_R_L; SHR_I64_AM64_R_R_R_L; UNUSED392_L; UNUSED393_L;
  SHR_U_I32_AM64_R_R_R_L; SHR_U_I64_AM64_R_R_R_L; UNUSED394_L; UNUSED395_L;
  UNUSED396_L; UNUSED397_L; MIN_F32_AM64_R_R_R_L; MIN_F64_AM64_R_R_R_L;
  UNUSED398_L; UNUSED399_L; MAX_F32_AM64_R_R_R_L; MAX_F64_AM64_R_R_R_L;
  LLDA_I32_AM64_R_OFS_L; LLDA_I64_AM64_R_OFS_L; UNUSED400_L; UNUSED401_L;
  BUILTIN_I32_AM64_R_R_IMM_L; BUILTIN_I64_AM64_R_R_IMM_L; BUILTIN_F32_AM64_R_R_IMM_L; BUILTIN_F64_AM64_R_R_IMM_L;
  GLOBALGET_I32_AM64_R_OFS_L; GLOBALGET_I64_AM64_R_OFS_L; GLOBALGET_F32_AM64_R_OFS_L; GLOBALGET_F64_AM64_R_OFS_L;
  GLOBALSET_I32_AM64_R_OFS_L; GLOBALSET_I64_AM64_R_OFS_L; GLOBALSET_F32_AM64_R_OFS_L; GLOBALSET_F64_AM64_R_OFS_L
].

(** The enumerator of a value. *)
Definition opcode_long (z : Z) : option U_OPCODE_LONG :=
  if z <? 0 then None else U_OPCODE_LONG_list !! Z.to_nat z.

(** The value of an enumerator. *)
Definition opcode_long_num (o : U_OPCODE_LONG) : Z :=
  match o with
  | NOP_AM32_L => 0 | NOP_AM321_L => 1 | NOP_AM322_L => 2 | NOP_AM323_L => 3
  | UNREACH_AM32_L => 4 | UNREACH_AM321_L => 5 | UNREACH_AM322_L => 6 | UNREACH_AM323_L => 7
  | RETURN_AM32_L => 8 | RETURN_AM321_L => 9 | RETURN_AM322_L => 10 | RETURN_AM323_L => 11
  | CALL_AM32_OFS_L => 12 | CALL_AM32_OFS1_L => 13 | CALL_AM32_OFS2_L => 14 | CALL_AM32_OFS3_L => 15
  | JMP_AM32_OFS_L => 16 | JMP_AM32_OFS1_L => 17 | JMP_AM32_OFS2_L => 18 | JMP_AM32_OFS3_L => 19
  | CALL_INDIRECT_AM32_R_L => 20 | CALL_INDIRECT_AM32_R1_L => 21 | CALL_INDIRECT_AM32_R2_L => 22 | CALL_INDIRECT_AM32_R3_L => 23
  | JMP_INDIRECT_AM32_R_L => 24 | JMP_INDIRECT_AM32_R1_L => 25 | JMP_INDIRECT_AM32_R2_L => 26 | JMP_INDIRECT_AM32_R3_L => 27
  | MEMORYSIZE_AM32_R_L => 28 | MEMORYSIZE_AM32_R1_L => 29 | MEMORYSIZE_AM32_R2_L => 30 | MEMORYSIZE_AM32_R3_L => 31
  | MEMORYGROW_AM32_R_R_L => 32 | MEMORYGROW_AM32_R_R1_L => 33 | MEMORYGROW_AM32_R_R2_L => 34 | MEMORYGROW_AM32_R_R3_L => 35
  | ADD_I32_AM32_R_IMM_L => 36 | ADD_I64_AM32_R_IMM_L => 37 | UNUSED1_L => 38 | UNUSED2_L => 39
  | JEZ_I32_AM32_R_OFS_L => 40 | JEZ_I64_AM32_R_OFS_L => 41 | JEZ_F32_AM32_R_OFS_L => 42 | JEZ_F64_AM32_R_OFS_L => 43
  | JNZ_I32_AM32_R_OFS_L => 44 | JNZ_I64_AM32_R_OFS_L => 45 | JNZ_F32_AM32_R_OFS_L => 46 | JNZ_F64_AM32_R_OFS_L => 47
  | JLZ_I32_AM32_R_OFS_L => 48 | JLZ_I64_AM32_R_OFS_L => 49 | JLZ_F32_AM32_R_OFS_L => 50 | JLZ_F64_AM32_R_OFS_L => 51
  | JLEZ_I32_AM32_R_OFS_L => 52 | JLEZ_I64_AM32_R_OFS_L => 53 | JLEZ_F32_AM32_R_OFS_L => 54 | JLEZ_F64_AM32_R_OFS_L => 55
  | JGZ_I32_AM32_R_OFS_L => 56 | JGZ_I64_AM32_R_OFS_L => 57 | JGZ_F32_AM32_R_OFS_L => 58 | JGZ_F64_AM32_R_OFS_L => 59
  | JGEZ_I32_AM32_R_OFS_L => 60 | JGEZ_I64_AM32_R_OFS_L => 61 | JGEZ_F32_AM32_R_OFS_L => 62 | JGEZ_F64_AM32_R_OFS_L => 63
  | LLDA_I32_AM32_R_OFS_L => 64 | LLDA_I64_AM32_R_OFS_L => 65 | UNUSED3_L => 66 | UNUSED4_L => 67
  | GLDA_I32_AM32_R_OFS_L => 68 | GLDA_I64_AM32_R_OFS_L => 69 | UNUSED5_L => 70 | UNUSED6_L => 71
  | MOV_I32_AM32_R_R_L => 72 | MOV_I64_AM32_R_R_L => 73 | MOV_F32_AM32_R_R_L => 74 | MOV_F64_AM32_R_R_L => 75
  | ADD_I32_AM32_R_R_L => 76 | ADD_I64_AM32_R_R_L => 77 | ADD_F32_AM32_R_R_L => 78 | ADD_F64_AM32_R_R_L => 79
  | CONST_I32_AM32_R_IMM_L => 80 | CONST_I64_AM32_R_IMM_L => 81 | UNUSED7_L => 82 | UNUSED8_L => 83
  | ADD_I32_AM32S_R_R_IMM_L => 84 | ADD_I64_AM32S_R_R_IMM_L => 85 | UNUSED9_L => 86 | UNUSED10_L => 87
  | JEQ_I32_AM32S_R_R_OFS_L => 88 | JEQ_I64_AM32S_R_R_OFS_L => 89 | JEQ_F32_AM32S_R_R_OFS_L => 90 | JEQ_F64_AM32S_R_R_OFS_L => 91
  | JNE_I32_AM32S_R_R_OFS_L => 92 | JNE_I64_AM32S_R_R_OFS_L => 93 | JNE_F32_AM32S_R_R_OFS_L => 94 | JNE_F64_AM32S_R_R_OFS_L => 95
  | JLT_I32_AM32S_R_R_OFS_L => 96 | JLT_I64_AM32S_R_R_OFS_L => 97 | JLT_F32_AM32S_R_R_OFS_L => 98 | JLT_F64_AM32S_R_R_OFS_L => 99
  | JLE_I32_AM32S_R_R_OFS_L => 100 | JLE_I64_AM32S_R_R_OFS_L => 101 | JLE_F32_AM32S_R_R_OFS_L => 102 | JLE_F64_AM32S_R_R_OFS_L => 103
  | JGT_I32_AM32S_R_R_OFS_L => 104 | JGT_I64_AM32S_R_R_OFS_L => 105 | JGT_F32_AM32S_R_R_OFS_L => 106 | JGT_F64_AM32S_R_R_OFS_L => 107
  | JGE_I32_AM32S_R_R_OFS_L => 108 | JGE_I64_AM32S_R_R_OFS_L => 109 | JGE_F32_AM32S_R_R_OFS_L => 110 | JGE_F64_AM32S_R_R_OFS_L => 111
  | JLT_U_I32_AM32S_R_R_OFS_L => 112 | JLT_U_I64_AM32S_R_R_OFS_L => 113 | UNUSED11_L => 114 | UNUSED12_L => 115
  | JLE_U_I32_AM32S_R_R_OFS_L => 116 | JLE_U_I64_AM32S_R_R_OFS_L => 117 | UNUSED13_L => 118 | UNUSED14_L => 119
  | JGT_U_I32_AM32S_R_R_OFS_L => 120 | JGT_U_I64_AM32S_R_R_OFS_L => 121 | UNUSED15_L => 122 | UNUSED16_L => 123
  | JGE_U_I32_AM32S_R_R_OFS_L => 124 | JGE_U_I64_AM32S_R_R_OFS_L => 125 | UNUSED17_L => 126 | UNUSED18_L => 127
  | LOAD_I32_AM32S_R_R_IMM_L => 128 | LOAD_I64_AM32S_R_R_IMM_L => 129 | LOAD_F32_AM32S_R_R_IMM_L => 130 | LOAD_F64_AM32S_R_R_IMM_L => 131
  | LOAD8_I32_AM32S_R_R_IMM_L => 132 | LOAD8_I64_AM32S_R_R_IMM_L => 133 | UNUSED19_L => 134 | UNUSED20_L => 135
  | LOAD8_U_I32_AM32S_R_R_IMM_L => 136 | LOAD8_U_I64_AM32S_R_R_IMM_L => 137 | UNUSED21_L => 138 | UNUSED22_L => 139
  | LOAD16_I32_AM32S_R_R_IMM_L => 140 | LOAD16_I64_AM32S_R_R_IMM_L => 141 | UNUSED23_L => 142 | UNUSED24_L => 143
  | LOAD16_U_I32_AM32S_R_R_IMM_L => 144 | LOAD16_U_I64_AM32S_R_R_IMM_L => 145 | UNUSED25_L => 146 | UNUSED26_L => 147
  | UNUSED27_L => 148 | LOAD32_I64_AM32S_R_R_IMM_L => 149 | UNUSED28_L => 150 | UNUSED29_L => 151
  | UNUSED30_L => 152 | LOAD32_U_I64_AM32S_R_R_IMM_L => 153 | UNUSED31_L => 154 | UNUSED32_L => 155
  | STORE_I32_AM32S_R_R_IMM_L => 156 | STORE_I64_AM32S_R_R_IMM_L => 157 | STORE_F32_AM32S_R_R_IMM_L => 158 | STORE_F64_AM32S_R_R_IMM_L => 159
  | STORE8_I32_AM32S_R_R_IMM_L => 160 | STORE8_I64_AM32S_R_R_IMM_L => 161 | UNUSED33_L => 162 | UNUSED34_L => 163
  | STORE16_I32_AM32S_R_R_IMM_L => 164 | STORE16_I64_AM32S_R_R_IMM_L => 165 | UNUSED35_L => 166 | UNUSED36_L => 167
  | UNUSED37_L => 168 | STORE32_I64_AM32S_R_R_IMM_L => 169 | UNUSED38_L => 170 | UNUSED39_L => 171
  | LLOAD_I32_AM32_R_IMM_L => 172 | LLOAD_I64_AM32_R_IMM_L => 173 | LLOAD_F32_AM32_R_IMM_L => 174 | LLOAD_F64_AM32_R_IMM_L => 175
  | LLOAD8_I32_AM32_R_IMM_L => 176 | LLOAD8_I64_AM32_R_IMM_L => 177 | UNUSED40_L => 178 | UNUSED41_L => 179
  | LLOAD8_U_I32_AM32_R_IMM_L => 180 | LLOAD8_U_I64_AM32_R_IMM_L => 181 | UNUSED42_L => 182 | UNUSED43_L => 183
  | LLOAD16_I32_AM32_R_IMM_L => 184 | LLOAD16_I64_AM32_R_IMM_L => 185 | UNUSED44_L => 186 | UNUSED45_L => 187
  | LLOAD16_U_I32_AM32_R_IMM_L => 188 | LLOAD16_U_I64_AM32_R_IMM_L => 189 | UNUSED46_L => 190 | UNUSED47_L => 191
  | UNUSED48_L => 192 | LLOAD32_I64_AM32_R_IMM_L => 193 | UNUSED49_L => 194 | UNUSED50_L => 195
  | UNUSED51_L => 196 | LLOAD32_U_I64_AM32_R_IMM_L => 197 | UNUSED52_L => 198 | UNUSED53_L => 199
  | LSTORE_I32_AM32_R_IMM_L => 200 | LSTORE_I64_AM32_R_IMM_L => 201 | LSTORE_F32_AM32_R_IMM_L => 202 | LSTORE_F64_AM32_R_IMM_L => 203
  | LSTORE8_I32_AM32_R_IMM_L => 204 | LSTORE8_I64_AM32_R_IMM_L => 205 | UNUSED54_L => 206 | UNUSED55_L => 207
  | LSTORE16_I32_AM32_R_IMM_L => 208 | LSTORE16_I64_AM32_R_IMM_L => 209 | UNUSED56_L => 210 | UNUSED57_L => 211
  | UNUSED58_L => 212 | LSTORE32_I64_AM32_R_IMM_L => 213 | UNUSED59_L => 214 | UNUSED60_L => 215
  | ADD_I32_AM32S_R_R_R_L => 216 | ADD_I64_AM32S_R_R_R_L => 217 | ADD_F32_AM32S_R_R_R_L => 218 | ADD_F64_AM32S_R_R_R_L => 219
  | SUB_I32_AM32S_R_R_R_L => 220 | SUB_I64_AM32S_R_R_R_L => 221 | SUB_F32_AM32S_R_R_R_L => 222 | SUB_F64_AM32S_R_R_R_L => 223
  | ROTL_I32_AM32S_R_R_R_L => 224 | ROTL_I64_AM32S_R_R_R_L => 225 | UNUSED61_L => 226 | UNUSED62_L => 227
  | ROTR_I32_AM32S_R_R_R_L => 228 | ROTR_I64_AM32S_R_R_R_L => 229 | UNUSED63_L => 230 | UNUSED64_L => 231
  | UNUSED65_L => 232 | CONV_I32_I64_AM32_R_R_L => 233 | CONV_I32_F32_AM32_R_R_L => 234 | CONV_I32_F64_AM32_R_R_L => 235
  | UNUSED66_L => 236 | CONV_I32_U_I64_AM32_R_R_L => 237 | UNUSED67_L => 238 | UNUSED68_L => 239
  | CONV_I64_I32_AM32_R_R_L => 240 | UNUSED69_L => 241 | CONV_I64_F32_AM32_R_R_L => 242 | CONV_I64_F64_AM32_R_R_L => 243
  | CONV_F32_I32_AM32_R_R_L => 244 | CONV_F32_I64_AM32_R_R_L => 245 | UNUSED70_L => 246 | CONV_F32_F64_AM32_R_R_L => 247
  | CONV_F64_I32_AM32_R_R_L => 248 | CONV_F64_I64_AM32_R_R_L => 249 | CONV_F64_F32_AM32_R_R_L => 250 | UNUSED71_L => 251
  | EQZ_I32_AM32_R_R_L => 252 | EQZ_I64_AM32_R_R_L => 253 | EQZ_F32_AM32_R_R_L => 254 | EQZ_F64_AM32_R_R_L => 255
  | UNUSED72_L => 256 | UNUSED73_L => 257 | CEIL_F32_AM32_R_R_L => 258 | CEIL_F64_AM32_R_R_L => 259
  | UNUSED74_L => 260 | UNUSED75_L => 261 | FLOOR_F32_AM32_R_R_L => 262 | FLOOR_F64_AM32_R_R_L => 263
  | UNUSED76_L => 264 | UNUSED77_L => 265 | SQRT_F32_AM32_R_R_L => 266 | SQRT_F64_AM32_R_R_L => 267
  | UNUSED78_L => 268 | UNUSED79_L => 269 | NEG_F32_AM32_R_R_L => 270 | NEG_F64_AM32_R_R_L => 271
  | REINTR_F32_I32_AM32_R_R_L => 272 | UNUSED80_L => 273 | UNUSED81_L => 274 | UNUSED82_L => 275
  | UNUSED83_L => 276 | REINTR_F64_I64_AM32_R_R_L => 277 | UNUSED84_L => 278 | UNUSED85_L => 279
  | UNUSED86_L => 280 | UNUSED87_L => 281 | REINTR_I32_F32_AM32_R_R_L => 282 | UNUSED88_L => 283
  | UNUSED89_L => 284 | UNUSED90_L => 285 | UNUSED91_L => 286 | REINTR_I64_F64_AM32_R_R_L => 287
  | BREAK_AM32_L => 288 | BREAK_AM321_L => 289 | BREAK_AM322_L => 290 | BREAK_AM323_L => 291
  | UNUSED92_L => 292 | UNUSED93_L => 293 | UNUSED94_L => 294 | UNUSED95_L => 295
  | UNUSED96_L => 296 | UNUSED97_L => 297 | UNUSED98_L => 298 | UNUSED99_L => 299
  | UNUSED100_L => 300 | UNUSED101_L => 301 | UNUSED102_L => 302 | UNUSED103_L => 303
  | UNUSED104_L => 304 | UNUSED105_L => 305 | UNUSED106_L => 306 | UNUSED107_L => 307
  | UNUSED108_L => 308 | UNUSED109_L => 309 | UNUSED110_L => 310 | UNUSED111_L => 311
  | UNUSED112_L => 312 | UNUSED113_L => 313 | UNUSED114_L => 314 | UNUSED115_L => 315
  | UNUSED116_L => 316 | UNUSED117_L => 317 | UNUSED118_L => 318 | UNUSED119_L => 319
  | UNUSED120_L => 320 | UNUSED121_L => 321 | UNUSED122_L => 322 | UNUSED123_L => 323
  | UNUSED124_L => 324 | UNUSED125_L => 325 | UNUSED126_L => 326 | UNUSED127_L => 327
  | UNUSED128_L => 328 | UNUSED129_L => 329 | UNUSED130_L => 330 | UNUSED131_L => 331
  | UNUSED132_L => 332 | UNUSED133_L => 333 | UNUSED134_L => 334 | UNUSED135_L => 335
  | UNUSED136_L => 336 | UNUSED137_L => 337 | UNUSED138_L => 338 | UNUSED139_L => 339
  | UNUSED140_L => 340 | UNUSED141_L => 341 | UNUSED142_L => 342 | UNUSED143_L => 343
  | UNUSED144_L => 344 | UNUSED145_L => 345 | UNUSED146_L => 346 | UNUSED147_L => 347
  | UNUSED148_L => 348 | UNUSED149_L => 349 | UNUSED150_L => 350 | UNUSED151_L => 351
  | UNUSED152_L => 352 | UNUSED153_L => 353 | UNUSED154_L => 354 | UNUSED155_L => 355
  | UNUSED156_L => 356 | UNUSED157_L => 357 | UNUSED158_L => 358 | UNUSED159_L => 359
  | UNUSED160_L => 360 | UNUSED161_L => 361 | UNUSED162_L => 362 | UNUSED163_L => 363
  | UNUSED164_L => 364 | UNUSED165_L => 365 | UNUSED166_L => 366 | UNUSED167_L => 367
  | UNUSED168_L => 368 | UNUSED169_L => 369 | UNUSED170_L => 370 | UNUSED171_L => 371
  | UNUSED172_L => 372 | UNUSED173_L => 373 | UNUSED174_L => 374 | UNUSED175_L => 375
  | UNUSED176_L => 376 | UNUSED177_L => 377 | UNUSED178_L => 378 | UNUSED179_L => 379
  | UNUSED180_L => 380 | UNUSED181_L => 381 | UNUSED182_L => 382 | UNUSED183_L => 383
  | UNUSED184_L => 384 | UNUSED185_L => 385 | UNUSED186_L => 386 | UNUSED187_L => 387
  | UNUSED188_L => 388 | UNUSED189_L => 389 | UNUSED190_L => 390 | UNUSED191_L => 391
  | UNUSED192_L => 392 | UNUSED193_L => 393 | UNUSED194_L => 394 | UNUSED195_L => 395
  | UNUSED196_L => 396 | UNUSED197_L => 397 | UNUSED198_L => 398 | UNUSED199_L => 399
  | UNUSED200_L => 400 | UNUSED201_L => 401 | UNUSED202_L => 402 | UNUSED203_L => 403
  | UNUSED204_L => 404 | UNUSED205_L => 405 | UNUSED206_L => 406 | UNUSED207_L => 407
  | UNUSED208_L => 408 | UNUSED209_L => 409 | UNUSED210_L => 410 | UNUSED211_L => 411
  | UNUSED212_L => 412 | UNUSED213_L => 413 | UNUSED214_L => 414 | UNUSED215_L => 415
  | UNUSED216_L => 416 | UNUSED217_L => 417 | UNUSED218_L => 418 | UNUSED219_L => 419
  | UNUSED220_L => 420 | UNUSED221_L => 421 | UNUSED222_L => 422 | UNUSED223_L => 423
  | UNUSED224_L => 424 | UNUSED225_L => 425 | UNUSED226_L => 426 | UNUSED227_L => 427
  | UNUSED228_L => 428 | UNUSED229_L => 429 | UNUSED230_L => 430 | UNUSED231_L => 431
  | UNUSED232_L => 432 | UNUSED233_L => 433 | UNUSED234_L => 434 | UNUSED235_L => 435
  | UNUSED236_L => 436 | UNUSED237_L => 437 | UNUSED238_L => 438 | UNUSED239_L => 439
  | UNUSED240_L => 440 | UNUSED241_L => 441 | UNUSED242_L => 442 | UNUSED243_L => 443
  | UNUSED244_L => 444 | UNUSED245_L => 445 | UNUSED246_L => 446 | UNUSED247_L => 447
  | UNUSED248_L => 448 | UNUSED249_L => 449 | UNUSED250_L => 450 | UNUSED251_L => 451
  | UNUSED252_L => 452 | UNUSED253_L => 453 | UNUSED254_L => 454 | UNUSED255_L => 455
  | UNUSED256_L => 456 | UNUSED257_L => 457 | UNUSED258_L => 458 | UNUSED259_L => 459
  | UNUSED260_L => 460 | UNUSED261_L => 461 | UNUSED262_L => 462 | UNUSED263_L => 463
  | UNUSED264_L => 464 | UNUSED265_L => 465 | UNUSED266_L => 466 | UNUSED267_L => 467
  | UNUSED268_L => 468 | UNUSED269_L => 469 | UNUSED270_L => 470 | UNUSED271_L => 471
  | UNUSED272_L => 472 | UNUSED273_L => 473 | UNUSED274_L => 474 | UNUSED275_L => 475
  | UNUSED276_L => 476 | UNUSED277_L => 477 | UNUSED278_L => 478 | UNUSED279_L => 479
  | UNUSED280_L => 480 | UNUSED281_L => 481 | UNUSED282_L => 482 | UNUSED283_L => 483
  | UNUSED284_L => 484 | UNUSED285_L => 485 | UNUSED286_L => 486 | UNUSED287_L => 487
  | UNUSED288_L => 488 | UNUSED289_L => 489 | UNUSED290_L => 490 | UNUSED291_L => 491
  | UNUSED292_L => 492 | UNUSED293_L => 493 | UNUSED294_L => 494 | UNUSED295_L => 495
  | UNUSED296_L => 496 | UNUSED297_L => 497 | UNUSED298_L => 498 | UNUSED299_L => 499
  | UNUSED300_L => 500 | UNUSED301_L => 501 | UNUSED302_L => 502 | UNUSED303_L => 503
  | UNUSED304_L => 504 | UNUSED305_L => 505 | UNUSED306_L => 506 | UNUSED307_L => 507
  | UNUSED308_L => 508 | UNUSED309_L => 509 | UNUSED310_L => 510 | UNUSED311_L => 511
  | CONST_L_I32_AM64_R_IMM_L => 512 | CONST_L_I64_AM64_R_IMM_L => 513 | CONST_L_F32_AM64_R_IMM_L => 514 | CONST_L_F64_AM64_R_IMM_L => 515
  | UNUSED312_L => 516 | CONST_L_HIGH_I64_AM64_R_IMM_L => 517 | UNUSED313_L => 518 | CONST_L_HIGH_F64_AM64_R_IMM_L => 519
  | CTZ_I32_AM64_R_OFS_L => 520 | CTZ_I64_AM64_R_OFS_L => 521 | UNUSED314_L => 522 | UNUSED315_L => 523
  | POPCNT_I32_AM64_R_OFS_L => 524 | POPCNT_I64_AM64_R_OFS_L => 525 | UNUSED316_L => 526 | UNUSED317_L => 527
  | ADD_I32_AM64_R_R_IMM_L => 528 | ADD_I64_AM64_R_R_IMM_L => 529 | UNUSED318_L => 530 | UNUSED319_L => 531
  | JEQ_I32_AM64_R_R_OFS_L => 532 | JEQ_I64_AM64_R_R_OFS_L => 533 | JEQ_F32_AM64_R_R_OFS_L => 534 | JEQ_F64_AM64_R_R_OFS_L => 535
  | JNE_I32_AM64_R_R_OFS_L => 536 | JNE_I64_AM64_R_R_OFS_L => 537 | JNE_F32_AM64_R_R_OFS_L => 538 | JNE_F64_AM64_R_R_OFS_L => 539
  | JLT_I32_AM64_R_R_OFS_L => 540 | JLT_I64_AM64_R_R_OFS_L => 541 | JLT_F32_AM64_R_R_OFS_L => 542 | JLT_F64_AM64_R_R_OFS_L => 543
  | JLE_I32_AM64_R_R_OFS_L => 544 | JLE_I64_AM64_R_R_OFS_L => 545 | JLE_F32_AM64_R_R_OFS_L => 546 | JLE_F64_AM64_R_R_OFS_L => 547
  | JGT_I32_AM64_R_R_OFS_L => 548 | JGT_I64_AM64_R_R_OFS_L => 549 | JGT_F32_AM64_R_R_OFS_L => 550 | JGT_F64_AM64_R_R_OFS_L => 551
  | JGE_I32_AM64_R_R_OFS_L => 552 | JGE_I64_AM64_R_R_OFS_L => 553 | JGE_F32_AM64_R_R_OFS_L => 554 | JGE_F64_AM64_R_R_OFS_L => 555
  | JLT_U_I32_AM64_R_R_OFS_L => 556 | JLT_U_I64_AM64_R_R_OFS_L => 557 | UNUSED320_L => 558 | UNUSED321_L => 559
  | JLE_U_I32_AM64_R_R_OFS_L => 560 | JLE_U_I64_AM64_R_R_OFS_L => 561 | UNUSED322_L => 562 | UNUSED323_L => 563
  | JGT_U_I32_AM64_R_R_OFS_L => 564 | JGT_U_I64_AM64_R_R_OFS_L => 565 | UNUSED324_L => 566 | UNUSED325_L => 567
  | JGE_U_I32_AM64_R_R_OFS_L => 568 | JGE_U_I64_AM64_R_R_OFS_L => 569 | UNUSED326_L => 570 | UNUSED327_L => 571
  | LOAD_I32_AM64_R_R_IMM_L => 572 | LOAD_I64_AM64_R_R_IMM_L => 573 | LOAD_F32_AM64_R_R_IMM_L => 574 | LOAD_F64_AM64_R_R_IMM_L => 575
  | LOAD8_I32_AM64_R_R_IMM_L => 576 | LOAD8_I64_AM64_R_R_IMM_L => 577 | UNUSED328_L => 578 | UNUSED329_L => 579
  | LOAD8_U_I32_AM64_R_R_IMM_L => 580 | LOAD8_U_I64_AM64_R_R_IMM_L => 581 | UNUSED330_L => 582 | UNUSED331_L => 583
  | LOAD16_I32_AM64_R_R_IMM_L => 584 | LOAD16_I64_AM64_R_R_IMM_L => 585 | UNUSED332_L => 586 | UNUSED333_L => 587
  | LOAD16_U_I32_AM64_R_R_IMM_L => 588 | LOAD16_U_I64_AM64_R_R_IMM_L => 589 | UNUSED334_L => 590 | UNUSED335_L => 591
  | UNUSED336_L => 592 | LOAD32_I64_AM64_R_R_IMM_L => 593 | UNUSED337_L => 594 | UNUSED338_L => 595
  | UNUSED339_L => 596 | LOAD32_U_I64_AM64_R_R_IMM_L => 597 | UNUSED340_L => 598 | UNUSED341_L => 599
  | STORE_I32_AM64_R_R_IMM_L => 600 | STORE_I64_AM64_R_R_IMM_L => 601 | STORE_F32_AM64_R_R_IMM_L => 602 | STORE_F64_AM64_R_R_IMM_L => 603
  | STORE8_I32_AM64_R_R_IMM_L => 604 | STORE8_I64_AM64_R_R_IMM_L => 605 | UNUSED342_L => 606 | UNUSED343_L => 607
  | STORE16_I32_AM64_R_R_IMM_L => 608 | STORE16_I64_AM64_R_R_IMM_L => 609 | UNUSED344_L => 610 | UNUSED345_L => 611
  | UNUSED346_L => 612 | STORE32_I64_AM64_R_R_IMM_L => 613 | UNUSED347_L => 614 | UNUSED348_L => 615
  | SELECT_I32_AM64_R_R_OFS_L => 616 | SELECT_I64_AM64_R_R_OFS_L => 617 | SELECT_F32_AM64_R_R_OFS_L => 618 | SELECT_F64_AM64_R_R_OFS_L => 619
  | LLOAD_I32_AM64_R_IMM_L => 620 | LLOAD_I64_AM64_R_IMM_L => 621 | LLOAD_F32_AM64_R_IMM_L => 622 | LLOAD_F64_AM64_R_IMM_L => 623
  | LLOAD8_I32_AM64_R_IMM_L => 624 | LLOAD8_I64_AM64_R_IMM_L => 625 | UNUSED349_L => 626 | UNUSED350_L => 627
  | LLOAD8_U_I32_AM64_R_IMM_L => 628 | LLOAD8_U_I64_AM64_R_IMM_L => 629 | UNUSED351_L => 630 | UNUSED352_L => 631
  | LLOAD16_I32_AM64_R_IMM_L => 632 | LLOAD16_I64_AM64_R_IMM_L => 633 | UNUSED353_L => 634 | UNUSED354_L => 635
  | LLOAD16_U_I32_AM64_R_IMM_L => 636 | LLOAD16_U_I64_AM64_R_IMM_L => 637 | UNUSED355_L => 638 | UNUSED356_L => 639
  | UNUSED357_L => 640 | LLOAD32_I64_AM64_R_IMM_L => 641 | UNUSED358_L => 642 | UNUSED359_L => 643
  | UNUSED360_L => 644 | LLOAD32_U_I64_AM64_R_IMM_L => 645 | UNUSED361_L => 646 | UNUSED362_L => 647
  | LSTORE_I32_AM64_R_IMM_L => 648 | LSTORE_I64_AM64_R_IMM_L => 649 | LSTORE_F32_AM64_R_IMM_L => 650 | LSTORE_F64_AM64_R_IMM_L => 651
  | LSTORE8_I32_AM64_R_IMM_L => 652 | LSTORE8_I64_AM64_R_IMM_L => 653 | UNUSED363_L => 654 | UNUSED364_L => 655
  | LSTORE16_I32_AM64_R_IMM_L => 656 | LSTORE16_I64_AM64_R_IMM_L => 657 | UNUSED365_L => 658 | UNUSED366_L => 659
  | UNUSED367_L => 660 | LSTORE32_I64_AM64_R_IMM_L => 661 | UNUSED368_L => 662 | UNUSED369_L => 663
  | EQ_I32_AM64_R_R_R_L => 664 | EQ_I64_AM64_R_R_R_L => 665 | EQ_F32_AM64_R_R_R_L => 666 | EQ_F64_AM64_R_R_R_L => 667
  | NE_I32_AM64_R_R_R_L => 668 | NE_I64_AM64_R_R_R_L => 669 | NE_F32_AM64_R_R_R_L => 670 | NE_F64_AM64_R_R_R_L => 671
  | LT_I32_AM64_R_R_R_L => 672 | LT_I64_AM64_R_R_R_L => 673 | LT_F32_AM64_R_R_R_L => 674 | LT_F64_AM64_R_R_R_L => 675
  | LT_U_I32_AM64_R_R_R_L => 676 | LT_U_I64_AM64_R_R_R_L => 677 | UNUSED370_L => 678 | UNUSED371_L => 679
  | GT_I32_AM64_R_R_R_L => 680 | GT_I64_AM64_R_R_R_L => 681 | GT_F32_AM64_R_R_R_L => 682 | GT_F64_AM64_R_R_R_L => 683
  | GT_U_I32_AM64_R_R_R_L => 684 | GT_U_I64_AM64_R_R_R_L => 685 | UNUSED372_L => 686 | UNUSED373_L => 687
  | LE_I32_AM64_R_R_R_L => 688 | LE_I64_AM64_R_R_R_L => 689 | LE_F32_AM64_R_R_R_L => 690 | LE_F64_AM64_R_R_R_L => 691
  | LE_U_I32_AM64_R_R_R_L => 692 | LE_U_I64_AM64_R_R_R_L => 693 | UNUSED374_L => 694 | UNUSED375_L => 695
  | GE_I32_AM64_R_R_R_L => 696 | GE_I64_AM64_R_R_R_L => 697 | GE_F32_AM64_R_R_R_L => 698 | GE_F64_AM64_R_R_R_L => 699
  | GE_U_I32_AM64_R_R_R_L => 700 | GE_U_I64_AM64_R_R_R_L => 701 | UNUSED376_L => 702 | UNUSED377_L => 703
  | ADD_I32_AM64_R_R_R_L => 704 | ADD_I64_AM64_R_R_R_L => 705 | ADD_F32_AM64_R_R_R_L => 706 | ADD_F64_AM64_R_R_R_L => 707
  | SUB_I32_AM64_R_R_R_L => 708 | SUB_I64_AM64_R_R_R_L => 709 | SUB_F32_AM64_R_R_R_L => 710 | SUB_F64_AM64_R_R_R_L => 711
  | MUL_I32_AM64_R_R_R_L => 712 | MUL_I64_AM64_R_R_R_L => 713 | MUL_F32_AM64_R_R_R_L => 714 | MUL_F64_AM64_R_R_R_L => 715
  | DIV_I32_AM64_R_R_R_L => 716 | DIV_I64_AM64_R_R_R_L => 717 | DIV_F32_AM64_R_R_R_L => 718 | DIV_F64_AM64_R_R_R_L => 719
  | DIV_U_I32_AM64_R_R_R_L => 720 | DIV_U_I64_AM64_R_R_R_L => 721 | UNUSED378_L => 722 | UNUSED379_L => 723
  | REM_I32_AM64_R_R_R_L => 724 | REM_I64_AM64_R_R_R_L => 725 | UNUSED380_L => 726 | UNUSED381_L => 727
  | REM_U_I32_AM64_R_R_R_L => 728 | REM_U_I64_AM64_R_R_R_L => 729 | UNUSED382_L => 730 | UNUSED383_L => 731
  | AND_I32_AM64_R_R_R_L => 732 | AND_I64_AM64_R_R_R_L => 733 | UNUSED384_L => 734 | UNUSED385_L => 735
  | OR_I32_AM64_R_R_R_L => 736 | OR_I64_AM64_R_R_R_L => 737 | UNUSED386_L => 738 | UNUSED387_L => 739
  | XOR_I32_AM64_R_R_R_L => 740 | XOR_I64_AM64_R_R_R_L => 741 | UNUSED388_L => 742 | UNUSED389_L => 743
  | SHL_I32_AM64_R_R_R_L => 744 | SHL_I64_AM64_R_R_R_L => 745 | UNUSED390_L => 746 | UNUSED391_L => 747
  | SHR_I32_AM64_R_R_R_L => 748 | SHR_I64_AM64_R_R_R_L => 749 | UNUSED392_L => 750 | UNUSED393_L => 751
  | SHR_U_I32_AM64_R_R_R_L => 752 | SHR_U_I64_AM64_R_R_R_L => 753 | UNUSED394_L => 754 | UNUSED395_L => 755
  | UNUSED396_L => 756 | UNUSED397_L => 757 | MIN_F32_AM64_R_R_R_L => 758 | MIN_F64_AM64_R_R_R_L => 759
  | UNUSED398_L => 760 | UNUSED399_L => 761 | MAX_F32_AM64_R_R_R_L => 762 | MAX_F64_AM64_R_R_R_L => 763
  | LLDA_I32_AM64_R_OFS_L => 764 | LLDA_I64_AM64_R_OFS_L => 765 | UNUSED400_L => 766 | UNUSED401_L => 767
  | BUILTIN_I32_AM64_R_R_IMM_L => 768 | BUILTIN_I64_AM64_R_R_IMM_L => 769 | BUILTIN_F32_AM64_R_R_IMM_L => 770 | BUILTIN_F64_AM64_R_R_IMM_L => 771
  | GLOBALGET_I32_AM64_R_OFS_L => 772 | GLOBALGET_I64_AM64_R_OFS_L => 773 | GLOBALGET_F32_AM64_R_OFS_L => 774 | GLOBALGET_F64_AM64_R_OFS_L => 775
  | GLOBALSET_I32_AM64_R_OFS_L => 776 | GLOBALSET_I64_AM64_R_OFS_L => 777 | GLOBALSET_F32_AM64_R_OFS_L => 778 | GLOBALSET_F64_AM64_R_OFS_L => 779
  end.

(** ** Builtin codes ([UBT_F64ABS] and [UBT_I32TRUNCF64S] share a value) *)

Module Builtin.
Definition UBT_NOP : Z := 0.
Definition UBT_I64EXTEND32S : Z := 1.
Definition UBT_I64EXTEND32U : Z := 2.
Definition UBT_I32WRAPI64 : Z := 3.
Definition UBT_F64CVTI32S : Z := 4.
Definition UBT_F64CVTI32U : Z := 5.
Definition UBT_I32TRUNCF64U : Z := 6.
Definition UBT_I64REINTEPRETF64 : Z := 7.
Definition UBT_I32REINTEPRETF32 : Z := 8.
Definition UBT_F64REINTEPRETI64 : Z := 9.
Definition UBT_F32REINTEPRETI32 : Z := 10.
Definition UBT_F64ABS : Z := 11.
Definition UBT_I32TRUNCF64S : Z := 11.
Definition UBT_UNKNOWN : Z := 127.
End Builtin.

(** ** The tables are consistent *)

Lemma opcode_long_num_long o : opcode_long (opcode_long_num o) = Some o.
Proof. destruct o; vm_compute; reflexivity. Qed.

#[export] Instance opcode_long_num_inj : Inj (=) (=) opcode_long_num.
Proof.
  intros o1 o2 H. apply (f_equal opcode_long) in H.
  rewrite !opcode_long_num_long in H. congruence.
Qed.

#[export] Instance U_OPCODE_LONG_eq_dec : EqDecision U_OPCODE_LONG :=
  fun o1 o2 => match decide (opcode_long_num o1 = opcode_long_num o2) with
               | left H => left (opcode_long_num_inj o1 o2 H)
               | right H => right (fun E => H (f_equal opcode_long_num E))
               end.

Lemma opcode_long_length : List.length U_OPCODE_LONG_list = (List.length u_opcode_list * 4)%nat.
Proof. vm_compute. reflexivity. Qed.

Lemma UWINST_TY_AM_def opcode am : UWINST_TY_AM opcode = Ok am -> 0 <= opcode < 195.
Proof.
  unfold UWINST_TY_AM. destruct (Z.ltb_spec opcode 0); [discriminate|].
  destruct (u_opcode_list !! Z.to_nat opcode) as [[[? ?] ?]|] eqn:E; [|discriminate].
  intros _. apply lookup_lt_Some in E.
  change (List.length u_opcode_list) with 195%nat in E. lia.
Qed.

Lemma UWINST_TY_AM_total opcode : 0 <= opcode < 195 -> exists am, UWINST_TY_AM opcode = Ok am.
Proof.
  intros H. unfold UWINST_TY_AM. destruct (Z.ltb_spec opcode 0); [lia|].
  destruct (u_opcode_list !! Z.to_nat opcode) as [[[? ?] am]|] eqn:E; [eauto|].
  apply lookup_ge_None in E. change (List.length u_opcode_list) with 195%nat in E. lia.
Qed.

(** A boolean property of every opcode, checked by evaluation. *)
Lemma forall_opcode (P : Z -> bool) :
  forallb P (seqZ 0 195) = true -> forall opcode, 0 <= opcode < 195 -> P opcode = true.
Proof.
  intros H opcode Hr. rewrite forallb_forall in H. apply H.
  apply list_elem_of_In, elem_of_seqZ. lia.
Qed.
