(* ===== verification/Inst.v ===== *)
(** * Instruction words

  [src/ubh/u_inst.h], [src/ubh/u_inst.cxx]: the unions [U_INST32] and [U_INST64]
  (a module each, with a declared bit-field per member), the checks and the
  encoders of [U_INST_UTIL], and [U_INST_ITER], which walks a table of 32-bit
  words in which 64-bit instructions take two. *)

From S2P Require Import Prelude CInt BitField Isa.
From Stdlib Require Import ZArith Lia.
Local Open Scope Z_scope.

Definition _7BIT_REG_MAX : Z := 128.
Definition _10BIT_REG_MAX : Z := 1024.

(** ** The unions *)

Module U_INST32.
Definition _opcode := Field 0 8 false.
Definition _ty := Field 8 2 false.
Definition OFS_ofs := Field 10 22 false.
Definition R_r1 := Field 22 10 false.
Definition R_IMM_r1 := Field 10 10 false.
Definition R_IMM_imm := Field 22 10 true.
Definition R_OFS_r1 := Field 10 10 false.
Definition R_OFS_ofs := Field 22 10 true.
Definition R_R_r1 := Field 10 10 false.
Definition R_R_r2 := Field 22 10 false.
Definition R_R_IMM_r1 := Field 10 7 false.
Definition R_R_IMM_r2 := Field 17 7 false.
Definition R_R_IMM_imm := Field 24 8 true.
Definition R_R_OFS_r1 := Field 10 7 false.
Definition R_R_OFS_r2 := Field 17 7 false.
Definition R_R_OFS_ofs := Field 24 8 false.
Definition R_R_R_r1 := Field 10 7 false.
Definition R_R_R_r2 := Field 17 7 false.
Definition R_R_R_r3 := Field 25 7 false.

(** [U_INST32(UINT64)] keeps the low word. *)
Definition U_INST32 (inst : Z) : Z := UINT32 inst.
Definition Opcode (inst : Z) : Z := fget _opcode inst.
Definition Valtype (inst : Z) : VALTYPE := valty_of_num (fget _ty inst).
Definition Ty_am (inst : Z) : outcome TY_AM := UWINST_TY_AM (Opcode inst).
End U_INST32.

Module U_INST64.
Definition _opcode := Field 0 8 false.
Definition _ty := Field 8 2 false.
Definition R_IMM_r1 := Field 10 10 false.
Definition R_IMM_imm := Field 32 32 true.
Definition R_OFS_r1 := Field 10 10 false.
Definition R_OFS_ofs := Field 32 32 false.
Definition R_R_IMM_r1 := Field 10 10 false.
Definition R_R_IMM_imm := Field 32 22 true.
Definition R_R_IMM_r2 := Field 54 10 false.
Definition R_R_OFS_r1 := Field 10 10 false.
Definition R_R_OFS_ofs := Field 32 22 false.
Definition R_R_OFS_r2 := Field 54 10 false.
Definition R_R_R_r1 := Field 34 10 false.
Definition R_R_R_r2 := Field 44 10 false.
Definition R_R_R_r3 := Field 54 10 false.

Definition Opcode (inst : Z) : Z := fget _opcode inst.
Definition Valtype (inst : Z) : VALTYPE := valty_of_num (fget _ty inst).
Definition Ty_am (inst : Z) : outcome TY_AM := UWINST_TY_AM (Opcode inst).
End U_INST64.

(** ** [U_INST_UTIL] *)

Definition Is_32bit_am (am : TY_AM) : bool :=
  match am with
  | TY_AM32 | TY_AM32_OFS | TY_AM32_R | TY_AM32_R_IMM | TY_AM32_R_OFS | TY_AM32_R_R
  | TY_AM32S_R_R_IMM | TY_AM32S_R_R_OFS | TY_AM32S_R_R_R => true
  | TY_AM64_R_IMM | TY_AM64_R_OFS | TY_AM64_R_R_IMM | TY_AM64_R_R_OFS | TY_AM64_R_R_R => false
  end.

(** [((UINT8) opcode & 0x80u) == 0]. *)
Definition Is_32bit (opcode : Z) : bool := Z.land (UINT8 opcode) 128 =? 0.

Section Encode.
Context {bd : Build}.

Definition Check_content_size (required actual : Z) : outcome unit :=
  Is_True_Rel (required =? actual).

(** [imm] is unsigned: it is compared with the unsigned bound, and its
  conversion to [INT32] with the signed ones.  [1 << 31] is [INT_MIN], and
  [-1 * INT_MIN] wraps to itself. *)
Definition Check_imm (bit imm : Z) : outcome unit :=
  let u_upper_bound := UINT64 (Z.shiftl 1 bit) in
  let i_upper_bound := INT32 (Z.shiftl 1 (bit - 1)) in
  let i_lower_bound := smul 32 (-1) i_upper_bound in
  let in_u_bound := imm <? u_upper_bound in
  let in_i_bound := (i_lower_bound <=? INT32 imm) && (INT32 imm <? i_upper_bound) in
  Is_True_Rel (in_u_bound || in_i_bound).

Definition Check_reg (max_idx reg_idx : Z) : outcome unit :=
  Is_True_Rel (reg_idx <=? max_idx).

(** One operand: the check, then the assignment of [content.at(i)]. *)
Definition put_operand (check : Z -> outcome unit) (f : field) (content : list Z)
    (i : nat) (inst : Z) : outcome Z :=
  v ← vec_at content i; _ ← check v; mret (fset f v inst).
Definition reg10 := put_operand (Check_reg _10BIT_REG_MAX).
Definition reg7 := put_operand (Check_reg _7BIT_REG_MAX).
Definition imm_of (bit : Z) := put_operand (Check_imm bit).

Definition Init_inst32 (inst : Z) (am : TY_AM) (opcode : Z) (t : VALTYPE)
    (content : list Z) : outcome Z :=
  let inst := fset U_INST32._ty (valty_num t) (fset U_INST32._opcode opcode inst) in
  let content_size := UINT32 (Z.of_nat (length content)) in
  match am with
  | TY_AM32 => _ ← Check_content_size 0 content_size; mret inst
  | TY_AM32_OFS =>
      _ ← Check_content_size 1 content_size;
      imm_of 22 U_INST32.OFS_ofs content 0 inst
  | TY_AM32_R =>
      _ ← Check_content_size 1 content_size;
      reg10 U_INST32.R_r1 content 0 inst
  | TY_AM32_R_IMM =>
      _ ← Check_content_size 2 content_size;
      inst ← reg10 U_INST32.R_IMM_r1 content 0 inst;
      imm_of 22 U_INST32.R_IMM_imm content 1 inst
  | TY_AM32_R_OFS =>
      _ ← Check_content_size 2 content_size;
      inst ← reg10 U_INST32.R_OFS_r1 content 0 inst;
      imm_of 22 U_INST32.R_OFS_ofs content 1 inst
  | TY_AM32_R_R =>
      _ ← Check_content_size 2 content_size;
      inst ← reg10 U_INST32.R_R_r1 content 0 inst;
      reg10 U_INST32.R_R_r2 content 1 inst
  | TY_AM32S_R_R_IMM =>
      _ ← Check_content_size 3 content_size;
      inst ← reg7 U_INST32.R_R_IMM_r1 content 0 inst;
      inst ← reg7 U_INST32.R_R_IMM_r2 content 1 inst;
      imm_of 8 U_INST32.R_R_IMM_imm content 2 inst
  | TY_AM32S_R_R_OFS =>
      _ ← Check_content_size 3 content_size;
      inst ← reg7 U_INST32.R_R_OFS_r1 content 0 inst;
      inst ← reg7 U_INST32.R_R_OFS_r2 content 1 inst;
      imm_of 8 U_INST32.R_R_OFS_ofs content 2 inst
  | TY_AM32S_R_R_R =>
      _ ← Check_content_size 3 content_size;
      inst ← reg7 U_INST32.R_R_R_r1 content 0 inst;
      inst ← reg7 U_INST32.R_R_R_r2 content 1 inst;
      reg7 U_INST32.R_R_R_r3 content 2 inst
  | _ => _ ← Is_True false; mret inst
  end.

Definition Init_inst64 (inst : Z) (am : TY_AM) (opcode : Z) (t : VALTYPE)
    (content : list Z) : outcome Z :=
  let inst := fset U_INST64._ty (valty_num t) (fset U_INST64._opcode opcode inst) in
  let content_size := UINT32 (Z.of_nat (length content)) in
  match am with
  | TY_AM64_R_IMM =>
      _ ← Check_content_size 2 content_size;
      inst ← reg10 U_INST64.R_IMM_r1 content 0 inst;
      imm_of 32 U_INST64.R_IMM_imm content 1 inst
  | TY_AM64_R_OFS =>
      _ ← Check_content_size 2 content_size;
      inst ← reg10 U_INST64.R_OFS_r1 content 0 inst;
      imm_of 32 U_INST64.R_OFS_ofs content 1 inst
  | TY_AM64_R_R_IMM =>
      _ ← Check_content_size 3 content_size;
      inst ← reg10 U_INST64.R_R_IMM_r1 content 0 inst;
      inst ← reg10 U_INST64.R_R_IMM_r2 content 1 inst;
      imm_of 22 U_INST64.R_R_IMM_imm content 2 inst
  | TY_AM64_R_R_OFS =>
      _ ← Check_content_size 3 content_size;
      inst ← reg10 U_INST64.R_R_OFS_r1 content 0 inst;
      inst ← reg10 U_INST64.R_R_OFS_r2 content 1 inst;
      imm_of 22 U_INST64.R_R_OFS_ofs content 2 inst
  | TY_AM64_R_R_R =>
      _ ← Check_content_size 3 content_size;
      inst ← reg10 U_INST64.R_R_R_r1 content 0 inst;
      inst ← reg10 U_INST64.R_R_R_r2 content 1 inst;
      reg10 U_INST64.R_R_R_r3 content 2 inst
  | _ => _ ← Is_True false; mret inst
  end.
End Encode.

(** ** [U_INST_ITER]

  A position [p] in a table of 32-bit words.  [operator*] answers whether the
  instruction at [p] is a 32-bit one, and its word or double word (little
  endian). *)
Module U_INST_ITER.
Definition word (tab : list Z) (p : nat) : outcome Z :=
  match tab !! p with Some w => Ok w | None => Err CodeFault end.

Definition deref (tab : list Z) (p : nat) : outcome (bool * Z) :=
  w ← word tab p;
  if Is_32bit (fget U_INST32._opcode w) then mret (true, w)
  else hi ← word tab (S p); mret (false, w + Z.shiftl hi 32).

Definition incr (tab : list Z) (p : nat) : outcome nat :=
  w ← word tab p;
  mret (if Is_32bit (fget U_INST32._opcode w) then p + 1 else p + 2)%nat.
End U_INST_ITER.
