(* ===== verification/Expand.v ===== *)
(** * Expanded instructions

  [AM_EXPAND] of [src/ubh/u_module.h] and the decoding of one instruction word
  by [U_MODULE::Expand_code] ([src/ubh/u_module.cxx]), with the theorems that tie
  the decoder to the encoder [U_INST_UTIL::Init_inst32/64]. *)

From S2P Require Import Prelude CInt BitField Isa Inst.
From Stdlib Require Import ZArith Lia.
Local Open Scope Z_scope.

(** The members are 32-bit unsigned integers. *)
Record AM_EXPAND : Set := mkAM_EXPAND {
  _opcode : Z;
  _expand1 : Z;
  _expand2 : Z;
  _expand3 : Z;
}.

#[export] Instance AM_EXPAND_eq_dec : EqDecision AM_EXPAND.
Proof. solve_decision. Defined.

Definition Get_opcode_l (e : AM_EXPAND) : Z := _opcode e.
Definition Get_rd (e : AM_EXPAND) : Z := _expand1 e.
Definition Get_rs (e : AM_EXPAND) : Z := _expand2 e.
Definition Get_ofs (e : AM_EXPAND) : Z := _expand3 e.
Definition Get_imm (e : AM_EXPAND) : Z := INT32 (_expand3 e).
Definition Get_rt (e : AM_EXPAND) : Z := _expand3 e.

Definition Set_opcode (v : Z) (e : AM_EXPAND) : AM_EXPAND :=
  mkAM_EXPAND (UINT32 v) (_expand1 e) (_expand2 e) (_expand3 e).
Definition Set_rd (v : Z) (e : AM_EXPAND) : AM_EXPAND :=
  mkAM_EXPAND (_opcode e) (UINT32 v) (_expand2 e) (_expand3 e).
Definition Set_rs (v : Z) (e : AM_EXPAND) : AM_EXPAND :=
  mkAM_EXPAND (_opcode e) (_expand1 e) (UINT32 v) (_expand3 e).
Definition Set_rt (v : Z) (e : AM_EXPAND) : AM_EXPAND :=
  mkAM_EXPAND (_opcode e) (_expand1 e) (_expand2 e) (UINT32 v).
Definition Set_ofs (v : Z) (e : AM_EXPAND) : AM_EXPAND :=
  mkAM_EXPAND (_opcode e) (_expand1 e) (_expand2 e) (UINT32 v).
Definition Set_imm (v : Z) (e : AM_EXPAND) : AM_EXPAND :=
  mkAM_EXPAND (_opcode e) (_expand1 e) (_expand2 e) (UINT32 v).

Section Decode.
Context {bd : Build}.

(** The branch for 32-bit instructions.  [e] is the slot of the table: its
  members start indeterminate, and the members an address mode does not use
  stay so. *)
Definition Expand_inst32 (word : Z) (e : AM_EXPAND) : outcome AM_EXPAND :=
  let inst := U_INST32.U_INST32 word in
  let e := Set_opcode (Opcode_to_opcode_l (U_INST32.Opcode inst) (U_INST32.Valtype inst)) e in
  am ← U_INST32.Ty_am inst;
  match am with
  | TY_AM32 => mret e
  | TY_AM32_OFS => mret (Set_ofs (fget U_INST32.OFS_ofs inst) e)
  | TY_AM32_R => mret (Set_rd (fget U_INST32.R_r1 inst) e)
  | TY_AM32_R_IMM =>
      mret (Set_imm (fget U_INST32.R_IMM_imm inst)
           (Set_rd (fget U_INST32.R_IMM_r1 inst) e))
  | TY_AM32_R_OFS =>
      mret (Set_ofs (fget U_INST32.R_OFS_ofs inst)
           (Set_rd (fget U_INST32.R_OFS_r1 inst) e))
  | TY_AM32_R_R =>
      mret (Set_rs (fget U_INST32.R_R_r2 inst)
           (Set_rd (fget U_INST32.R_R_r1 inst) e))
  | TY_AM32S_R_R_IMM =>
      mret (Set_imm (fget U_INST32.R_R_IMM_imm inst)
           (Set_rs (fget U_INST32.R_R_IMM_r2 inst)
           (Set_rd (fget U_INST32.R_R_IMM_r1 inst) e)))
  | TY_AM32S_R_R_OFS =>
      mret (Set_ofs (fget U_INST32.R_R_OFS_ofs inst)
           (Set_rs (fget U_INST32.R_R_OFS_r2 inst)
           (Set_rd (fget U_INST32.R_R_OFS_r1 inst) e)))
  | TY_AM32S_R_R_R =>
      mret (Set_rt (fget U_INST32.R_R_R_r3 inst)
           (Set_rs (fget U_INST32.R_R_R_r2 inst)
           (Set_rd (fget U_INST32.R_R_R_r1 inst) e)))
  | _ => _ ← Is_True false; mret e
  end.

Definition Expand_inst64 (inst : Z) (e : AM_EXPAND) : outcome AM_EXPAND :=
  am ← U_INST64.Ty_am inst;
  let e := Set_opcode (Opcode_to_opcode_l (U_INST64.Opcode inst) (U_INST64.Valtype inst)) e in
  match am with
  | TY_AM64_R_IMM =>
      mret (Set_imm (fget U_INST64.R_IMM_imm inst)
           (Set_rd (fget U_INST64.R_IMM_r1 inst) e))
  | TY_AM64_R_OFS =>
      mret (Set_ofs (fget U_INST64.R_OFS_ofs inst)
           (Set_rd (fget U_INST64.R_OFS_r1 inst) e))
  | TY_AM64_R_R_IMM =>
      mret (Set_imm (fget U_INST64.R_R_IMM_imm inst)
           (Set_rs (fget U_INST64.R_R_IMM_r2 inst)
           (Set_rd (fget U_INST64.R_R_IMM_r1 inst) e)))
  | TY_AM64_R_R_OFS =>
      mret (Set_ofs (fget U_INST64.R_R_OFS_ofs inst)
           (Set_rs (fget U_INST64.R_R_OFS_r2 inst)
           (Set_rd (fget U_INST64.R_R_OFS_r1 inst) e)))
  | TY_AM64_R_R_R =>
      mret (Set_rt (fget U_INST64.R_R_R_r3 inst)
           (Set_rs (fget U_INST64.R_R_R_r2 inst)
           (Set_rd (fget U_INST64.R_R_R_r1 inst) e)))
  | _ => _ ← Is_True false; mret e
  end.

Definition Expand_inst (is_inst32 : bool) (word : Z) (e : AM_EXPAND) : outcome AM_EXPAND :=
  if is_inst32 then Expand_inst32 word e else Expand_inst64 word e.
End Decode.

(** ** What the encoded form of an instruction keeps of its operands

  The operand fields of each address mode, in the order of the operands. *)
Definition am_fields (am : TY_AM) : list field :=
  match am with
  | TY_AM32 => []
  | TY_AM32_OFS => [U_INST32.OFS_ofs]
  | TY_AM32_R => [U_INST32.R_r1]
  | TY_AM32_R_IMM => [U_INST32.R_IMM_r1; U_INST32.R_IMM_imm]
  | TY_AM32_R_OFS => [U_INST32.R_OFS_r1; U_INST32.R_OFS_ofs]
  | TY_AM32_R_R => [U_INST32.R_R_r1; U_INST32.R_R_r2]
  | TY_AM32S_R_R_IMM => [U_INST32.R_R_IMM_r1; U_INST32.R_R_IMM_r2; U_INST32.R_R_IMM_imm]
  | TY_AM32S_R_R_OFS => [U_INST32.R_R_OFS_r1; U_INST32.R_R_OFS_r2; U_INST32.R_R_OFS_ofs]
  | TY_AM32S_R_R_R => [U_INST32.R_R_R_r1; U_INST32.R_R_R_r2; U_INST32.R_R_R_r3]
  | TY_AM64_R_IMM => [U_INST64.R_IMM_r1; U_INST64.R_IMM_imm]
  | TY_AM64_R_OFS => [U_INST64.R_OFS_r1; U_INST64.R_OFS_ofs]
  | TY_AM64_R_R_IMM => [U_INST64.R_R_IMM_r1; U_INST64.R_R_IMM_r2; U_INST64.R_R_IMM_imm]
  | TY_AM64_R_R_OFS => [U_INST64.R_R_OFS_r1; U_INST64.R_R_OFS_r2; U_INST64.R_R_OFS_ofs]
  | TY_AM64_R_R_R => [U_INST64.R_R_R_r1; U_INST64.R_R_R_r2; U_INST64.R_R_R_r3]
  end.

(** The expanded instruction an instruction stands for: operands in order, an
  immediate, offset or third register in the last member. *)
Definition am_expand (am : TY_AM) (opcode : Z) (t : VALTYPE) (vs : list Z) (e : AM_EXPAND) : AM_EXPAND :=
  let e := Set_opcode (Opcode_to_opcode_l opcode t) e in
  match am, vs with
  | TY_AM32_OFS, [v] => Set_ofs v e
  | TY_AM32_R, [v] => Set_rd v e
  | TY_AM32_R_R, [v; w] => Set_rs w (Set_rd v e)
  | (TY_AM32_R_IMM | TY_AM32_R_OFS | TY_AM64_R_IMM | TY_AM64_R_OFS), [v; w] =>
      Set_imm w (Set_rd v e)
  | _, [u; v; w] => Set_imm w (Set_rs v (Set_rd u e))
  | _, _ => e
  end.

(** Operands as the encoder takes them are unsigned; a signed field holds their
  conversion to [INT32]. *)
Definition operand (f : field) (v : Z) : Z := if fd_signed f then INT32 v else v.

(** The operands fit the fields. *)
Definition operands_fit (am : TY_AM) (content : list Z) : bool :=
  bool_decide (Forall2 (fun f v => in_u 32 v /\ ffits f (operand f v)) (am_fields am) content).

Lemma operand_keep f v : fvalid f = true -> fd_w f <= 32 -> in_u 32 v ->
  ffits f (operand f v) -> UINT32 (fkeep f v) = v.
Proof.
  intros Hf Hw Hv Hfit. pose proof (fvalid_bounds f Hf) as [_ Hpos].
  assert (fkeep f v = operand f v) as ->.
  { rewrite <- (fkeep_fits f Hf _ Hfit). unfold fkeep, operand.
    destruct (fd_signed f); [|reflexivity]. unfold INT32. symmetry. apply wraps_wraps_le. lia. }
  unfold operand, UINT32, INT32. destruct (fd_signed f).
  - rewrite wrapu_wraps by lia. now apply wrapu_id.
  - now apply wrapu_id.
Qed.

Section RoundTrip.
Context {bd : Build}.

Lemma put_operand_run check f content i inst v :
  content !! i = Some v -> check v = Ok tt ->
  put_operand check f content i inst = Ok (fset f v inst).
Proof. intros H1 H2. unfold put_operand, vec_at. rewrite H1. simpl. now rewrite H2. Qed.

(** Operands that fit their fields pass the checks. *)
Lemma Check_reg_fits m w v : 2 ^ w <= m -> in_u w v -> Check_reg m v = Ok tt.
Proof.
  intros Hm [_ Hv]. unfold Check_reg. replace (v <=? m) with true; [apply Is_True_Rel_true|].
  symmetry. apply Z.leb_le. lia.
Qed.

Lemma Check_imm_fits bit f v : In bit [8; 22; 32] -> 0 < fd_w f <= bit ->
  in_u 32 v -> ffits f (operand f v) -> Check_imm bit v = Ok tt.
Proof.
  intros Hbit Hw Hv Hfit. unfold Check_imm.
  assert (UINT64 (Z.shiftl 1 bit) = 2 ^ bit) as ->
    by (destruct Hbit as [<-|[<-|[<-|[]]]]; reflexivity).
  assert (smul 32 (-1) (INT32 (Z.shiftl 1 (bit - 1))) = - 2 ^ (bit - 1)) as ->
    by (destruct Hbit as [<-|[<-|[<-|[]]]]; reflexivity).
  assert (bit = 32 \/ INT32 (Z.shiftl 1 (bit - 1)) = 2 ^ (bit - 1)) as Hu
    by (destruct Hbit as [<-|[<-|[<-|[]]]]; auto).
  match goal with |- Is_True_Rel ?b = _ => replace b with true; [apply Is_True_Rel_true|] end.
  symmetry. apply orb_true_iff. rewrite andb_true_iff, Z.leb_le, !Z.ltb_lt.
  pose proof (Z.pow_le_mono_r 2 (fd_w f) bit ltac:(lia) ltac:(lia)).
  pose proof (Z.pow_le_mono_r 2 (fd_w f - 1) (bit - 1) ltac:(lia) ltac:(lia)).
  unfold ffits, operand, in_u, in_s in *.
  destruct Hu as [-> | ->]; [left; lia|]. destruct (fd_signed f); lia.
Qed.

(** The word of an instruction: opcode, type, then the operand fields. *)
Fixpoint fset_all (fs : list field) (vs : list Z) (x : Z) : Z :=
  match fs, vs with
  | f :: fs, v :: vs => fset_all fs vs (fset f v x)
  | _, _ => x
  end.
Definition encoded (am : TY_AM) (opcode : Z) (t : VALTYPE) (content : list Z) : Z :=
  fset_all (am_fields am) content
    (fset U_INST32._ty (valty_num t) (fset U_INST32._opcode opcode 0)).

Lemma operands_fit_inv am content : operands_fit am content = true ->
  Forall2 (fun f v => in_u 32 v /\ ffits f (operand f v)) (am_fields am) content.
Proof. apply bool_decide_eq_true_1. Qed.

Lemma fset_all_range n fs vs x :
  Forall (fun f => fvalid f = true /\ fd_off f + fd_w f <= n) fs ->
  in_u n x -> in_u n (fset_all fs vs x).
Proof.
  revert vs x. induction fs as [|f fs IH]; intros [|v vs] x H Hx; simpl; auto.
  apply Forall_cons in H as [[H1 H2] H]. apply IH; [exact H|]. now apply fset_range.
Qed.

Lemma am_fields_wf am :
  Forall (fun f => fvalid f = true /\ fd_w f <= 32 /\
    fd_off f + fd_w f <= if Is_32bit_am am then 32 else 64) (am_fields am).
Proof. destruct am; repeat constructor; discriminate. Qed.

Lemma encoded_range am o t content :
  in_u (if Is_32bit_am am then 32 else 64) (encoded am o t content).
Proof.
  apply fset_all_range.
  - eapply Forall_impl; [apply am_fields_wf|]. simpl. tauto.
  - assert (in_u 32 (fset U_INST32._ty (valty_num t) (fset U_INST32._opcode o 0))) as H.
    { repeat (apply fset_range; [reflexivity | discriminate |]). split; reflexivity || discriminate. }
    destruct (Is_32bit_am am); [exact H|]. now apply (in_u_mono 32); [lia|].
Qed.
End RoundTrip.

(** [fit_inv H] splits [operands_fit am content] for a concrete [am]. *)
Ltac fit_inv H :=
  apply operands_fit_inv in H; cbn [am_fields] in H;
  repeat match goal with
  | H : Forall2 _ (_ :: _) _ |- _ =>
      let v := fresh "v" in let l := fresh "l" in
      let H1 := fresh "Hu" in let H2 := fresh "Hfit" in let H' := fresh "H" in
      apply Forall2_cons_inv_l in H as (v & l & [H1 H2] & H' & ->)
  | H : Forall2 _ [] _ |- _ => apply Forall2_nil_inv_l in H as ->
  end.

Section Encoding.
Context {bd : Build}.

Ltac run_operand :=
  match goal with
  | |- context [put_operand ?c ?f ?l ?i ?x] =>
      let H := fresh in
      eassert (put_operand c f l i x = _) as H;
      [ eapply put_operand_run; [reflexivity|];
        first
          [ apply (Check_reg_fits _ 10); [discriminate | assumption]
          | apply (Check_reg_fits _ 7); [discriminate | assumption]
          | apply (Check_imm_fits _ f);
              [simpl; auto | split; reflexivity || discriminate | assumption | assumption] ]
      | rewrite H; clear H ]
  end.

Lemma Init_inst32_run am o t content : Is_32bit_am am = true ->
  operands_fit am content = true ->
  Init_inst32 0 am o t content = Ok (encoded am o t content).
Proof.
  intros Ham H. destruct am; try discriminate Ham; fit_inv H;
    unfold Init_inst32, Check_content_size, reg10, reg7, imm_of, encoded; cbn [length];
    match goal with |- context [Is_True_Rel ?b] => change b with true end;
    rewrite Is_True_Rel_true; cbn [mbind outcome_bind mret outcome_ret am_fields fset_all];
    repeat (run_operand; cbn [mbind outcome_bind]); reflexivity.
Qed.

Lemma Init_inst64_run am o t content : Is_32bit_am am = false ->
  operands_fit am content = true ->
  Init_inst64 0 am o t content = Ok (encoded am o t content).
Proof.
  intros Ham H. destruct am; try discriminate Ham; fit_inv H;
    unfold Init_inst64, Check_content_size, reg10, reg7, imm_of, encoded; cbn [length];
    match goal with |- context [Is_True_Rel ?b] => change b with true end;
    rewrite Is_True_Rel_true; cbn [mbind outcome_bind mret outcome_ret am_fields fset_all];
    repeat (run_operand; cbn [mbind outcome_bind]); reflexivity.
Qed.
End Encoding.

Section Decoding.
Context {bd : Build}.

(** Opcode and type survive the operand fields. *)
Lemma fset_all_other f fs vs x : fvalid f = true ->
  Forall (fun g => fvalid g = true /\ fdisjoint f g = true) fs ->
  fget f (fset_all fs vs x) = fget f x.
Proof.
  intros Hf. revert vs x. induction fs as [|g fs IH]; intros [|v vs] x H; simpl; auto.
  apply Forall_cons in H as [[H1 H2] H]. rewrite IH by exact H.
  now rewrite fget_fset_other.
Qed.

Lemma am_fields_disjoint_head am : Forall (fun g => fvalid g = true /\
  fdisjoint U_INST32._opcode g = true) (am_fields am) /\
  Forall (fun g => fvalid g = true /\ fdisjoint U_INST32._ty g = true) (am_fields am).
Proof. destruct am; split; repeat constructor. Qed.

Lemma encoded_opcode am o t content : in_u 8 o ->
  fget U_INST32._opcode (encoded am o t content) = o.
Proof.
  intros Ho. unfold encoded.
  rewrite fset_all_other by (reflexivity || apply am_fields_disjoint_head).
  field_simpl. now apply fkeep_fits.
Qed.

Lemma encoded_ty am o t content : t <> VALTY_UNKNOWN ->
  valty_of_num (fget U_INST32._ty (encoded am o t content)) = t.
Proof.
  intros Ht. unfold encoded.
  rewrite fset_all_other by (reflexivity || apply am_fields_disjoint_head).
  field_simpl. destruct t; try reflexivity. contradiction.
Qed.

Lemma in_u_opcode o am : UWINST_TY_AM o = Ok am -> in_u 8 o.
Proof. intros H%UWINST_TY_AM_def. split; simpl; lia. Qed.

(** The encoded operand fields read back what they keep. *)
Lemma encoded_fields am o t content : operands_fit am content = true ->
  Forall2 (fun f v => UINT32 (fget f (encoded am o t content)) = v) (am_fields am) content.
Proof.
  intros H. destruct am; fit_inv H; unfold encoded; cbn [am_fields fset_all];
    repeat constructor; field_simpl; apply operand_keep; try assumption; try reflexivity; discriminate.
Qed.

Lemma Set_norm v e :
  Set_rd (UINT32 v) e = Set_rd v e /\ Set_rs (UINT32 v) e = Set_rs v e /\
  Set_imm (UINT32 v) e = Set_imm v e.
Proof. unfold Set_rd, Set_rs, Set_imm, UINT32. now rewrite !wrapu_wrapu by lia. Qed.

Lemma Expand_encoded am o t content e :
  UWINST_TY_AM o = Ok am -> t <> VALTY_UNKNOWN -> operands_fit am content = true ->
  Expand_inst (Is_32bit_am am) (encoded am o t content) e = Ok (am_expand am o t content e).
Proof.
  intros Hop Ht Hfit. pose proof (in_u_opcode _ _ Hop) as Ho.
  pose proof (encoded_opcode am o t content Ho) as E1.
  pose proof (encoded_ty am o t content Ht) as E2.
  pose proof (encoded_fields am o t content Hfit) as E3.
  pose proof (encoded_range am o t content) as E4.
  generalize dependent (encoded am o t content). intros w E1 E2 E3 E4.
  unfold Expand_inst, Expand_inst32, Expand_inst64.
  destruct (Is_32bit_am am) eqn:Ham.
  - replace (U_INST32.U_INST32 w) with w by (symmetry; apply wrapu_id, E4).
    unfold U_INST32.Ty_am, U_INST32.Opcode, U_INST32.Valtype. rewrite E1, E2, Hop.
    destruct am; try discriminate Ham; fit_inv Hfit; cbn [am_fields] in E3;
      repeat (apply Forall2_cons in E3 as [<- E3]); simpl;
      unfold Set_ofs, Set_imm, Set_rd, Set_rs, Set_rt, UINT32; simpl;
      now rewrite ?wrapu_wrapu by lia.
  - unfold U_INST64.Ty_am, U_INST64.Opcode, U_INST64.Valtype.
    change U_INST64._opcode with U_INST32._opcode. change U_INST64._ty with U_INST32._ty.
    rewrite E1, E2, Hop.
    destruct am; try discriminate Ham; fit_inv Hfit; cbn [am_fields] in E3;
      repeat (apply Forall2_cons in E3 as [<- E3]); simpl;
      unfold Set_ofs, Set_imm, Set_rd, Set_rs, Set_rt, UINT32; simpl;
      now rewrite ?wrapu_wrapu by lia.
Qed.
End Decoding.
