(* ===== verification/Ubh.v ===== *)
(** * The UBH file format

  [include/ubh/ubh.h], [src/ubh/ubh.cxx].  Every class of the format is a struct
  of bit-fields that is copied to and from the file byte by byte, so an object is
  modelled by its representation, a [Z] of [8 * sizeof] bits, and a member by the
  bit-field it occupies; each class is a module. *)

From S2P Require Import Prelude CInt BitField Isa.
From Stdlib Require Import ZArith Lia.
Local Open Scope Z_scope.

(** ** Enumerations *)

Module SEC_TAG.
Definition SEC_CUST := 0.
Definition SEC_TYPE := 1.
Definition SEC_IMPORT := 2.
Definition SEC_FUNC := 3.
Definition SEC_TAB := 4.
Definition SEC_MEM := 5.
Definition SEC_GLBL := 6.
Definition SEC_EXPORT := 7.
Definition SEC_START := 8.
Definition SEC_ELEM := 9.
Definition SEC_CODE := 10.
Definition SEC_BIN := 11.
Definition SEC_DEBUG := 12.
End SEC_TAG.

Inductive SECTION_ID : Set :=
  | S_TYPE | S_IMPORT | S_FUNC | S_DATA | S_GLBL | S_EXPORT | S_EXPORT_GLBL | S_CODE
  | S_NN_STR | S_MODULE_NAME | S_GLBL_NAME | S_RELOC | S_IMP_NAT | S_NAT | S_COUNT.
#[export] Instance SECTION_ID_eq_dec : EqDecision SECTION_ID.
Proof. solve_decision. Defined.

Definition K_MODULE_NAME := 0.
Definition K_GLBL_NAME := 1.
Definition K_NON_NULL_STR := 2.
Definition K_IMPORT_MODULE := 0.
Definition K_IMPORT_NATIVE := 1.
Definition K_EXPORT := 0.
Definition K_EXPORT_GLBL := 1.
Definition K_FUNC := 0.
Definition MEM_DATA := 0.
Definition MEM_RELOC := 1.

Definition F_EXTERN := 1.
Definition F_NATIVE := 2.
Definition F_EXPORT := 4.
Definition F_IMPORT_WASM := 8.

Definition RET_RANGE := 2.
Definition PARAM_RANGE := 4.
Definition MAX_TYPE_ELEM_RANGE := 32 - RET_RANGE - PARAM_RANGE.
Definition MAX_TYPE_ELEM_NUM := MAX_TYPE_ELEM_RANGE / VALTY_SZ + 1.
Definition TYPE_MASK := Z.shiftl 1 VALTY_SZ - 1.

(** ** Module header (12 bytes) *)
Module UBH_MHDR.
Definition sizeof := 12.
Definition _uMagic := Field 0 32 false.
Definition _uOther := Field 32 32 false.
Definition _shdr_num := Field 64 6 false.
Definition _shdr_off := Field 70 26 false.
(** [UBH_MAGIC], the characters "uASM"; [strncpy] copies the four of them, and pads the
  empty string with zeros. *)
Definition UBH_MAGIC : list Z := [117; 65; 83; 77].
Definition magic_word : Z := 1297301877.
Definition Get_umagic (h : Z) : Z := fget _uMagic h.
Definition Set_magic (v h : Z) := fset _uMagic v h.
Definition Set_other (v h : Z) := fset _uOther v h.
Definition Get_shdr_num (h : Z) := fget _shdr_num h.
Definition Get_shdr_off (h : Z) := fget _shdr_off h.
Definition Set_shdr_num (v h : Z) := fset _shdr_num v h.
Definition Set_shdr_off (v h : Z) := fset _shdr_off v h.
End UBH_MHDR.

(** ** Section header (8 bytes): a union whose layout depends on the tag *)
Module UBH_SHDR.
Definition sizeof := 8.
Definition S1_sec_tag := Field 0 4 false.
Definition S1_kind := Field 4 12 false.
Definition S1_elem_num := Field 16 16 false.
Definition S2_kind := Field 4 4 false.
Definition S2_elem_num := Field 8 24 false.
Definition S3_dummy := Field 4 28 false.
Definition _idx := Field 32 32 false.

Section Ops.
Context {bd : Build}.

Definition Get_sec_tag (h : Z) : Z := fget S1_sec_tag h.
Definition Get_idx (h : Z) : Z := fget _idx h.

Definition Select_struct (h : Z) : outcome Z :=
  let t := Get_sec_tag h in
  if existsb (Z.eqb t) [SEC_TAG.SEC_TYPE; SEC_TAG.SEC_FUNC; SEC_TAG.SEC_MEM;
                        SEC_TAG.SEC_CODE; SEC_TAG.SEC_CUST; SEC_TAG.SEC_BIN] then mret 1
  else if existsb (Z.eqb t) [SEC_TAG.SEC_IMPORT; SEC_TAG.SEC_TAB; SEC_TAG.SEC_GLBL;
                             SEC_TAG.SEC_EXPORT] then mret 2
  else if existsb (Z.eqb t) [SEC_TAG.SEC_START; SEC_TAG.SEC_DEBUG] then mret 3
  else _ ← Is_True false; mret 0.

Definition Get_elem_num (h : Z) : outcome Z :=
  s ← Select_struct h;
  if s =? 1 then mret (fget S1_elem_num h)
  else if s =? 2 then mret (fget S2_elem_num h)
  else _ ← Is_True false; mret 0.

Definition Get_kind (h : Z) : outcome Z :=
  s ← Select_struct h;
  if s =? 1 then mret (fget S1_kind h)
  else if s =? 2 then mret (fget S2_kind h)
  else _ ← Is_True false; mret 0.

(** The parameter is 16 bits wide, also for the layout with 24. *)
Definition Set_elem_num (elem_num h : Z) : outcome Z :=
  s ← Select_struct h;
  if s =? 1 then mret (fset S1_elem_num (UINT16 elem_num) h)
  else if s =? 2 then mret (fset S2_elem_num (UINT16 elem_num) h)
  else mret h.

Definition Set_kind (kind h : Z) : outcome Z :=
  s ← Select_struct h;
  if s =? 1 then mret (fset S1_kind (UINT16 kind) h)
  else if s =? 2 then mret (fset S2_kind (UINT16 kind) h)
  else _ ← Is_True false; mret h.

Definition UBH_SHDR (sec_tag elem_num idx : Z) : outcome Z :=
  let h := fset _idx idx 0 in
  let h := fset S3_dummy 0 (fset S1_sec_tag 0 h) in
  Set_elem_num (UINT16 elem_num) (fset S1_sec_tag (UINT16 sec_tag) h).

Definition Have_sec (h : Z) : bool := negb (Get_sec_tag h =? SEC_TAG.SEC_START).
End Ops.
End UBH_SHDR.

(** ** Function prototypes (4 bytes) *)
Module UBH_TYPE.
Definition sizeof := 4.
Definition _ret_num := Field 0 2 false.
Definition _param_num := Field 2 4 false.
Definition _elem := Field 6 26 false.
Definition UBH_TYPE (ret_num param_num elem : Z) : Z :=
  fset _elem elem (fset _param_num (UINT16 param_num) (fset _ret_num (UINT16 ret_num) 0)).
Definition Get_ret_num (t : Z) := fget _ret_num t.
Definition Get_param_num (t : Z) := fget _param_num t.
Definition Get_elem (t : Z) := fget _elem t.
Definition Is_stored_local (t : Z) : bool := negb (fget _param_num t =? Z.shiftl 1 PARAM_RANGE - 1).
Definition eqb (s t : Z) : bool :=
  (Get_ret_num s =? Get_ret_num t) && (Get_param_num s =? Get_param_num t)
  && (Get_elem s =? Get_elem t).
End UBH_TYPE.

(** ** Imports, exports and native imports *)
Module UBH_IMPORT.
Definition sizeof := 4.
Definition _desc_tag := Field 0 4 false.
Definition _func_idx := Field 4 28 false.
Definition UBH_IMPORT (desc_tag func_idx : Z) : Z :=
  fset _func_idx func_idx (fset _desc_tag (UINT8 desc_tag) 0).
Definition Get_desc_tag (x : Z) := fget _desc_tag x.
Definition Get_func_idx (x : Z) := fget _func_idx x.
End UBH_IMPORT.

Module UBH_EXPORT.
Definition sizeof := 4.
Definition _desc_tag := Field 0 4 false.
Definition _func_idx := Field 4 28 false.
Definition UBH_EXPORT (desc_tag func_idx : Z) : Z :=
  fset _func_idx func_idx (fset _desc_tag (UINT8 desc_tag) 0).
Definition Get_desc_tag (x : Z) := fget _desc_tag x.
Definition Get_func_idx (x : Z) := fget _func_idx x.
End UBH_EXPORT.

Module UBH_IMP_NAT.
Definition sizeof := 12.
Definition _desc_tag := Field 0 4 false.
Definition _func_idx := Field 4 28 false.
Definition _ntype_off := Field 32 32 false.
Definition _nat_idx := Field 64 8 false.
Definition _nat_off := Field 72 24 false.
(** [_nat_idx] is not initialized: [garbage] is what the storage held. *)
Definition UBH_IMP_NAT (garbage desc_tag func_idx ntype_off : Z) : Z :=
  fset _nat_off 16777215 (fset _nat_idx garbage (fset _ntype_off ntype_off
    (fset _func_idx func_idx (fset _desc_tag (UINT8 desc_tag) 0)))).
Definition Get_func_idx (x : Z) := fget _func_idx x.
Definition Get_ntype_off (x : Z) := fget _ntype_off x.
Definition Get_nat_idx (x : Z) := fget _nat_idx x.
Definition Get_nat_off (x : Z) := fget _nat_off x.
Definition Set_nat_idx (v x : Z) := fset _nat_idx v x.
Definition Set_nat_off (v x : Z) := fset _nat_off v x.
End UBH_IMP_NAT.

(** ** Globals (16 bytes) *)
Module UBH_GLBL.
Definition sizeof := 16.
Definition _mut := Field 0 4 false.
Definition _ty := Field 4 2 false.
Definition _data_idx := Field 32 32 false.
Definition _init_val := Field 64 64 false.
Definition Is_mut (g : Z) := fget _mut g.
Definition Get_ty (g : Z) := fget _ty g.
Definition Get_data_idx (g : Z) := fget _data_idx g.
Definition Get_init_val (g : Z) := fget _init_val g.
Definition Set_mutable (m : bool) (g : Z) := fset _mut (b2z m) g.
Definition Set_ty (v g : Z) := fset _ty v g.
Definition Set_data_idx (v g : Z) := fset _data_idx v g.
Definition Set_init_val (v g : Z) := fset _init_val v g.
End UBH_GLBL.

(** ** Functions (8 bytes) *)
Module UBH_FUNC.
Definition sizeof := 8.
Definition _type_idx := Field 0 16 false.
Definition _name_idx := Field 16 16 false.
Definition _flags := Field 32 16 false.
Definition _code_idx := Field 48 16 false.
Definition UBH_FUNC (type_idx name_idx flags : Z) : Z :=
  fset _code_idx 0 (fset _flags flags (fset _name_idx name_idx (fset _type_idx type_idx 0))).
Definition Get_type_idx (x : Z) := fget _type_idx x.
Definition Get_name_idx (x : Z) := fget _name_idx x.
Definition Get_flags (x : Z) := fget _flags x.
Definition Set_code_idx (v x : Z) := fset _code_idx (UINT16 v) x.
Definition Is_set_flag (flag x : Z) : bool := negb (Z.land (fget _flags x) flag =? 0).
Definition Get_code_idx {bd : Build} (x : Z) : outcome Z :=
  _ ← Is_True (negb (Is_set_flag F_EXTERN x)); mret (fget _code_idx x).
End UBH_FUNC.

(** ** Code entries (40 bytes) *)
Module UBH_CODE.
Definition sizeof := 40.
Definition _i32_local := Field 0 10 false.
Definition _i64_local := Field 10 10 false.
Definition _f32_local := Field 20 10 false.
Definition _f64_local := Field 32 10 false.
Definition _stack_size := Field 42 22 false.
Definition _i32_io := Field 64 8 false.
Definition _i64_io := Field 72 8 false.
Definition _f32_io := Field 80 8 false.
Definition _f64_io := Field 88 8 false.
Definition _label_num := Field 96 12 false.
Definition _code_size := Field 108 20 false.
Definition _inst_tab_checksum := Field 128 32 false.
Definition _label_tab_checksum := Field 160 32 false.
Definition _inst_tab_off := Field 192 64 false.
Definition _label_tab_off := Field 256 64 false.

(** [Update_ubh_code]; the arrays hold the i32, i64, f32, f64 numbers. *)
Definition Update_ubh_code (local_regs io_regs : Z * Z * Z * Z) (stack_size c : Z) : Z :=
  let '(l0, l1, l2, l3) := local_regs in
  let '(i0, i1, i2, i3) := io_regs in
  fset _f64_io i3 (fset _f32_io i2 (fset _i64_io i1 (fset _i32_io i0
    (fset _stack_size stack_size (fset _f64_local l3 (fset _f32_local l2
      (fset _i64_local l1 (fset _i32_local l0 c)))))))).
Definition UBH_CODE (local_regs io_regs : Z * Z * Z * Z) (stack_size : Z) : Z :=
  Update_ubh_code local_regs io_regs stack_size 0.

Definition Set_label_num (v c : Z) := fset _label_num v c.
Definition Set_code_size (v c : Z) := fset _code_size v c.
Definition Set_label_tab_off (v c : Z) := fset _label_tab_off v c.
Definition Set_inst_tab_off (v c : Z) := fset _inst_tab_off v c.
Definition Get_i32_local (c : Z) := fget _i32_local c.
Definition Get_i64_local (c : Z) := fget _i64_local c.
Definition Get_f32_local (c : Z) := fget _f32_local c.
Definition Get_f64_local (c : Z) := fget _f64_local c.
Definition Get_stack_size (c : Z) := fget _stack_size c.
Definition Get_i32_io (c : Z) := fget _i32_io c.
Definition Get_i64_io (c : Z) := fget _i64_io c.
Definition Get_f32_io (c : Z) := fget _f32_io c.
Definition Get_f64_io (c : Z) := fget _f64_io c.
Definition Get_label_num (c : Z) := fget _label_num c.
Definition Get_code_size (c : Z) := fget _code_size c.
Definition Get_inst_tab_off (c : Z) := fget _inst_tab_off c.
Definition Get_label_tab_off (c : Z) := fget _label_tab_off c.
End UBH_CODE.

(** ** Data segments: a count and (offset, size) pairs before the bytes *)
Module UBH_DATA_SEGMENTS.
Definition sizeof := 16.
Definition sizeof_dseg_info := 8.

Record UBH_DSEG_INFO : Set := { _mem_offset : Z; _size : Z }.

(** [segs] are the first [_elements] entries of [_infos]. *)
Definition Calc_size (segs : list UBH_DSEG_INFO) : Z :=
  UINT32 (Z.of_nat (length segs) * sizeof_dseg_info + sizeof).

Definition Calc_total_space (segs : list UBH_DSEG_INFO) : Z :=
  fold_left (fun total s => UINT32 (total + _size s)) segs (Calc_size segs).

Definition Calc_max_ofs (segs : list UBH_DSEG_INFO) : Z :=
  fold_left (fun max s => if max <? UINT32 (_size s + _mem_offset s)
                          then UINT32 (_size s + _mem_offset s) else max) segs 0.

(** The maximum is one: no segment ends after it, and some segment ends there
  (in 32-bit arithmetic). *)
Lemma Calc_max_ofs_spec segs :
  Forall (fun s => UINT32 (_size s + _mem_offset s) <= Calc_max_ofs segs) segs /\
  (Calc_max_ofs segs = 0 \/
   Exists (fun s => UINT32 (_size s + _mem_offset s) = Calc_max_ofs segs) segs).
Proof.
  unfold Calc_max_ofs.
  assert (forall m0, 0 <= m0 -> let m := fold_left (fun max s =>
      if max <? UINT32 (_size s + _mem_offset s) then UINT32 (_size s + _mem_offset s)
      else max) segs m0 in
    m0 <= m /\ Forall (fun s => UINT32 (_size s + _mem_offset s) <= m) segs /\
    (m = m0 \/ Exists (fun s => UINT32 (_size s + _mem_offset s) = m) segs)) as H.
  { induction segs as [|s segs IH]; intros m0 H0 m; subst m; simpl.
    - repeat split; auto; lia.
    - pose proof (wrapu_range 32 (_size s + _mem_offset s) ltac:(lia)) as [Hr _].
      fold (UINT32 (_size s + _mem_offset s)) in Hr.
      destruct (Z.ltb_spec m0 (UINT32 (_size s + _mem_offset s))).
      + destruct (IH (UINT32 (_size s + _mem_offset s)) Hr) as (H1 & H2 & [H3|H3]);
          (split; [lia|]; split; [constructor; auto; lia|]); right.
        * left. auto.
        * now right.
      + destruct (IH m0 H0) as (H1 & H2 & H3).
        split; [lia|]; split; [constructor; auto; lia|].
        destruct H3; [now left | right; now right]. }
  destruct (H 0 ltac:(lia)) as (_ & H1 & H2). auto.
Qed.
End UBH_DATA_SEGMENTS.

(** ** Laws of the section header *)
Section ShdrLaws.
Context {bd : Build}.

(** The tags whose headers carry an element number. *)
Definition sized_tag (t : Z) : bool :=
  existsb (Z.eqb t) [SEC_TAG.SEC_TYPE; SEC_TAG.SEC_FUNC; SEC_TAG.SEC_MEM; SEC_TAG.SEC_CODE;
    SEC_TAG.SEC_CUST; SEC_TAG.SEC_BIN; SEC_TAG.SEC_IMPORT; SEC_TAG.SEC_TAB;
    SEC_TAG.SEC_GLBL; SEC_TAG.SEC_EXPORT].

Lemma sized_tag_cases t : sized_tag t = true -> In t [0; 1; 2; 3; 4; 5; 6; 7; 10; 11].
Proof.
  unfold sized_tag. rewrite existsb_exists. intros (x & Hx & ->%Z.eqb_eq).
  simpl in *. tauto.
Qed.

Lemma UBH_SHDR_run t n idx : sized_tag t = true -> exists h,
  UBH_SHDR.UBH_SHDR t n idx = Ok h /\
  UBH_SHDR.Get_sec_tag h = t /\ UBH_SHDR.Get_elem_num h = Ok (UINT16 n) /\
  UBH_SHDR.Get_kind h = Ok 0 /\ UBH_SHDR.Get_idx h = UINT32 idx.
Proof.
  intros Ht%sized_tag_cases. unfold UBH_SHDR.UBH_SHDR, UBH_SHDR.Set_elem_num.
  set (h0 := fset UBH_SHDR.S1_sec_tag _ _).
  assert (UBH_SHDR.Get_sec_tag h0 = t) as E0.
  { unfold h0, UBH_SHDR.Get_sec_tag. field_simpl.
    repeat destruct Ht as [<-|Ht]; try reflexivity. destruct Ht. }
  assert (forall s f, UBH_SHDR.Select_struct h0 = Ok s -> fvalid f = true ->
    fdisjoint UBH_SHDR.S1_sec_tag f = true ->
    UBH_SHDR.Select_struct (fset f (UINT16 (UINT16 n)) h0) = Ok s) as Hsel.
  { intros s f. unfold UBH_SHDR.Select_struct, UBH_SHDR.Get_sec_tag. intros H H1 H2.
    now rewrite fget_fset_other. }
  assert (UBH_SHDR.Select_struct h0 = Ok 1 \/ UBH_SHDR.Select_struct h0 = Ok 2) as Hs.
  { unfold UBH_SHDR.Select_struct. rewrite E0.
    repeat destruct Ht as [<-|Ht]; auto. destruct Ht. }
  assert (UINT16 (UINT16 n) = UINT16 n) as En by (unfold UINT16; now rewrite wrapu_wrapu).
  assert (wrapu 24 (UINT16 n) = UINT16 n) as En'.
  { apply wrapu_id, (in_u_mono 16); [lia | apply wrapu_range; lia]. }
  destruct Hs as [Hs|Hs]; rewrite Hs; cbn [mbind outcome_bind Z.eqb Pos.eqb];
    eexists; (split; [reflexivity|]); unfold UBH_SHDR.Get_elem_num, UBH_SHDR.Get_kind;
    rewrite (Hsel _ _ Hs) by reflexivity; cbn [mbind outcome_bind Z.eqb Pos.eqb];
    unfold UBH_SHDR.Get_idx, UBH_SHDR.Get_sec_tag;
    rewrite fget_fset_same, !fget_fset_other by reflexivity;
    (split; [exact E0|]); unfold h0; (split; [|split]); field_simpl;
    rewrite ?En; unfold fkeep; simpl; rewrite ?En'; try reflexivity.
  now rewrite wrapu_wrapu.
Qed.
End ShdrLaws.
