(* ===== verification/Memory.v ===== *)
(** * The linear memory block

  The buffer [mem_p] that the host gives to [UWASM_MACHINE::Init_memory]: a block
  of bytes at an address of the host.  Positions are offsets from [mem_p].  An
  access outside the block, or to a block that [realloc] has moved away, is a
  fault.  Multi-byte accesses are little endian. *)

From S2P Require Import Prelude CInt.
From Stdlib Require Import ZArith Lia.
Local Open Scope Z_scope.

Record BLOCK : Type := mkBLOCK {
  b_addr : Z;                (** host address of the first byte *)
  b_size : Z;                (** bytes allocated *)
  b_live : bool;             (** not yet released by [realloc] *)
  b_init : Z -> Z;           (** what the bytes held when the block was handed over *)
  b_bytes : gmap Z Z;        (** the bytes written since *)
}.

(** Byte values are octets. *)
Record wf_block (b : BLOCK) : Prop := {
  wf_init : forall i, in_u 8 (b_init b i);
  wf_bytes : forall i v, b_bytes b !! i = Some v -> in_u 8 v;
}.

Definition byte_at (b : BLOCK) (i : Z) : Z := default (b_init b i) (b_bytes b !! i).
Definition set_byte (i v : Z) (b : BLOCK) : BLOCK :=
  mkBLOCK (b_addr b) (b_size b) (b_live b) (b_init b) (<[i := UINT8 v]> (b_bytes b)).

(** [n] bytes from [i], least significant first. *)
Fixpoint le_read (b : BLOCK) (i : Z) (n : nat) : Z :=
  match n with
  | O => 0
  | S n => byte_at b i + 256 * le_read b (i + 1) n
  end.
Fixpoint le_write (i v : Z) (n : nat) (b : BLOCK) : BLOCK :=
  match n with
  | O => b
  | S n => le_write (i + 1) (Z.shiftr v 8) n (set_byte i v b)
  end.

Definition in_block (b : BLOCK) (i : Z) (n : nat) : bool :=
  b_live b && (0 <=? i) && (i + Z.of_nat n <=? b_size b).

Definition load (n : nat) (i : Z) (b : BLOCK) : outcome Z :=
  if in_block b i n then Ok (le_read b i n) else Err MemFault.
Definition store (n : nat) (i v : Z) (b : BLOCK) : outcome BLOCK :=
  if in_block b i n then Ok (le_write i v n b) else Err MemFault.

(** [memcpy] of a list of bytes. *)
Fixpoint put_bytes (i : Z) (l : list Z) (b : BLOCK) : BLOCK :=
  match l with
  | [] => b
  | v :: l => put_bytes (i + 1) l (set_byte i v b)
  end.
Definition copy_in (i : Z) (l : list Z) (b : BLOCK) : outcome BLOCK :=
  if (match l with [] => true | _ => in_block b i (length l) end)
  then Ok (put_bytes i l b) else Err MemFault.

Section Laws.
Lemma byte_at_set_same i v b : byte_at (set_byte i v b) i = UINT8 v.
Proof. unfold byte_at, set_byte. simpl. now rewrite lookup_insert_eq. Qed.

Lemma byte_at_set_other i j v b : i <> j -> byte_at (set_byte i v b) j = byte_at b j.
Proof. intros H. unfold byte_at, set_byte. simpl. now rewrite lookup_insert_ne. Qed.

Lemma byte_at_range b i : wf_block b -> in_u 8 (byte_at b i).
Proof.
  intros [H1 H2]. unfold byte_at. destruct (b_bytes b !! i) eqn:E; simpl; eauto.
Qed.

Lemma wf_set_byte i v b : wf_block b -> wf_block (set_byte i v b).
Proof.
  intros [H1 H2]. split; [exact H1|]. intros j w. simpl.
  destruct (decide (i = j)) as [->|].
  - rewrite lookup_insert_eq. intros [= <-]. apply wrapu_range. lia.
  - rewrite lookup_insert_ne by assumption. apply H2.
Qed.

Lemma byte_at_write_other i v n b j : j < i \/ i + Z.of_nat n <= j ->
  byte_at (le_write i v n b) j = byte_at b j.
Proof.
  revert i v b. induction n as [|n IH]; intros i v b H; simpl; [reflexivity|].
  rewrite IH by lia. apply byte_at_set_other. lia.
Qed.

Lemma le_read_ext b c i n :
  (forall j, i <= j < i + Z.of_nat n -> byte_at b j = byte_at c j) ->
  le_read b i n = le_read c i n.
Proof.
  revert i. induction n as [|n IH]; intros i H; simpl; [reflexivity|].
  rewrite (H i) by lia. rewrite IH; [reflexivity|]. intros j Hj. apply H. lia.
Qed.

Lemma le_read_range b i n : wf_block b -> in_u (8 * Z.of_nat n) (le_read b i n).
Proof.
  intros Hb. revert i. induction n as [|n IH]; intros i; [split; simpl; lia|].
  simpl le_read. pose proof (byte_at_range b i Hb) as [H1 H2].
  destruct (IH (i + 1)) as [H3 H4].
  split; [lia|].
  replace (8 * Z.of_nat (S n)) with (8 + 8 * Z.of_nat n) by lia.
  rewrite Z.pow_add_r by lia. lia.
Qed.

(** Splitting a value into its low octet and the rest. *)
Lemma wrapu_octet n v : wrapu (8 * Z.of_nat (S n)) v
  = UINT8 v + 256 * wrapu (8 * Z.of_nat n) (Z.shiftr v 8).
Proof.
  unfold UINT8, wrapu. rewrite Z.shiftr_div_pow2 by lia. change (2 ^ 8) with 256.
  replace (8 * Z.of_nat (S n)) with (8 + 8 * Z.of_nat n) by lia.
  rewrite Z.pow_add_r by lia. change (2 ^ 8) with 256.
  pose proof (pow2_pos (8 * Z.of_nat n) ltac:(lia)).
  rewrite Z.rem_mul_r by lia. reflexivity.
Qed.

Lemma le_read_write_same i v n b : le_read (le_write i v n b) i n = wrapu (8 * Z.of_nat n) v.
Proof.
  revert i v b. induction n as [|n IH]; intros i v b.
  - simpl. unfold wrapu. now rewrite Z.mod_1_r.
  - cbn [le_write le_read].
    rewrite IH, byte_at_write_other, byte_at_set_same by lia.
    symmetry. apply wrapu_octet.
Qed.

Lemma le_read_write_other i v n j m b :
  j + Z.of_nat m <= i \/ i + Z.of_nat n <= j ->
  le_read (le_write i v n b) j m = le_read b j m.
Proof. intros H. apply le_read_ext. intros k Hk. apply byte_at_write_other. lia. Qed.

(** What a write leaves alone. *)
Lemma le_write_frame i v n b :
  b_size (le_write i v n b) = b_size b /\ b_live (le_write i v n b) = b_live b /\
  b_addr (le_write i v n b) = b_addr b.
Proof.
  revert i v b. induction n as [|n IH]; intros i v b; simpl; [auto|].
  destruct (IH (i + 1) (Z.shiftr v 8) (set_byte i v b)) as (H1 & H2 & H3).
  rewrite H1, H2, H3. auto.
Qed.

Lemma wf_le_write i v n b : wf_block b -> wf_block (le_write i v n b).
Proof.
  revert i v b. induction n as [|n IH]; intros i v b H; simpl; [exact H|].
  apply IH. now apply wf_set_byte.
Qed.

Lemma put_bytes_frame i l b :
  b_size (put_bytes i l b) = b_size b /\ b_live (put_bytes i l b) = b_live b /\
  b_addr (put_bytes i l b) = b_addr b.
Proof.
  revert i b. induction l as [|v l IH]; intros i b; simpl; [auto|].
  destruct (IH (i + 1) (set_byte i v b)) as (H1 & H2 & H3). rewrite H1, H2, H3. auto.
Qed.

Lemma byte_at_put_bytes i l b j :
  byte_at (put_bytes i l b) j =
    if (i <=? j) && (j <? i + Z.of_nat (length l))
    then UINT8 (nth (Z.to_nat (j - i)) l 0) else byte_at b j.
Proof.
  revert i b. induction l as [|v l IH]; intros i b; cbn [put_bytes length].
  - destruct (Z.leb_spec i j), (Z.ltb_spec j (i + Z.of_nat 0)); simpl; auto; lia.
  - rewrite IH. destruct (Z.eq_dec i j) as [->|Hne].
    + destruct (Z.leb_spec (j + 1) j); [lia|].
      rewrite byte_at_set_same, Z.leb_refl, Z.sub_diag.
      destruct (Z.ltb_spec j (j + Z.of_nat (S (length l)))); [reflexivity|lia].
    + rewrite byte_at_set_other by exact Hne.
      destruct (Z.leb_spec (i + 1) j), (Z.ltb_spec j (i + 1 + Z.of_nat (length l))),
        (Z.leb_spec i j), (Z.ltb_spec j (i + Z.of_nat (S (length l)))); try lia; simpl; auto.
      replace (Z.to_nat (j - i)) with (S (Z.to_nat (j - (i + 1)))) by lia. reflexivity.
Qed.

Lemma wf_put_bytes i l b : wf_block b -> wf_block (put_bytes i l b).
Proof.
  revert i b. induction l as [|v l IH]; intros i b H; simpl; [exact H|].
  apply IH. now apply wf_set_byte.
Qed.

Lemma load_store_same n i v b b' : store n i v b = Ok b' ->
  load n i b' = Ok (wrapu (8 * Z.of_nat n) v).
Proof.
  unfold store, load. destruct (in_block b i n) eqn:E; [|discriminate].
  intros [= <-]. unfold in_block in *.
  destruct (le_write_frame i v n b) as (-> & -> & _). rewrite E.
  now rewrite le_read_write_same.
Qed.

Lemma load_store_other n i v m j b b' : store n i v b = Ok b' ->
  j + Z.of_nat m <= i \/ i + Z.of_nat n <= j -> load m j b' = load m j b.
Proof.
  unfold store, load. destruct (in_block b i n) eqn:E; [|discriminate].
  intros [= <-] H. unfold in_block in *.
  destruct (le_write_frame i v n b) as (-> & -> & _).
  now rewrite le_read_write_other.
Qed.

Lemma store_Ok n i v b b' : store n i v b = Ok b' ->
  b_size b' = b_size b /\ b_live b' = b_live b /\ b_addr b' = b_addr b /\
  (wf_block b -> wf_block b').
Proof.
  unfold store. destruct (in_block b i n); [|discriminate]. intros [= <-].
  destruct (le_write_frame i v n b) as (H1 & H2 & H3).
  do 3 (split; [assumption|]). apply wf_le_write.
Qed.

Lemma load_range n i b v : wf_block b -> load n i b = Ok v -> in_u (8 * Z.of_nat n) v.
Proof.
  intros Hb. unfold load. destruct (in_block b i n); [|discriminate].
  intros [= <-]. now apply le_read_range.
Qed.

Lemma copy_in_Ok i l b b' : copy_in i l b = Ok b' ->
  b_size b' = b_size b /\ b_live b' = b_live b /\ b_addr b' = b_addr b /\
  (wf_block b -> wf_block b') /\
  forall j, byte_at b' j =
    if (i <=? j) && (j <? i + Z.of_nat (length l))
    then UINT8 (nth (Z.to_nat (j - i)) l 0) else byte_at b j.
Proof.
  unfold copy_in. destruct (match l with [] => true | _ => _ end); [|discriminate].
  intros [= <-]. destruct (put_bytes_frame i l b) as (H1 & H2 & H3).
  do 3 (split; [assumption|]). split; [apply wf_put_bytes|].
  intros j. apply byte_at_put_bytes.
Qed.
End Laws.
