(* ===== verification/UModule.v ===== *)
(** * The module

  [src/ubh/u_module.h], [src/ubh/u_module.cxx]: the sections of a loaded UBH file,
  the caches built from them ([Decode_type_and_cache], [Expand_code]) and the
  preparation of the memory block ([Fix_up_reloc], [Prepare_before_run]).

  A code entry carries the words that its instruction and label tables point at.
  Arrays are lists or finite maps; a read outside them is [CodeFault], of an
  element never written [Uninit].  The pc is an index into the expanded table. *)

From S2P Require Import Prelude CInt BitField Isa Inst Expand Ubh Memory.
From Stdlib Require Import ZArith Lia.
Local Open Scope Z_scope.

Record CODE_ENTRY : Set := mkCODE {
  ce_code : Z;             (** the [UBH_CODE] *)
  ce_insts : list Z;       (** [Get_inst_tab], [Get_code_size] words *)
  ce_labels : list Z;      (** [Get_label_tab], [Get_label_num] words *)
}.

(** What the file gives. *)
Record SECTIONS : Type := mkSECTIONS {
  _shdr_tab : list Z;
  _sec_sec_header_map : list (SECTION_ID * Z);
  _type_sec : list Z;
  _func_sec : list Z;
  _code_sec : list CODE_ENTRY;
  _glbl_sec : list Z;
  _data_sec : list Z;
  _reloc_sec : list Z;
  _non_null_str_sec : list Z;
}.

(** The caches. *)
Record TYPE_CACHE : Type := mkTYPES {
  _param_tab : list (list Z);
  _ret_tab : list (list Z);
  _fp_shs_tab : list Z;
  _reg_num_tab : list Z;
}.
Record CODE_CACHE : Type := mkCODES {
  _expanded_table : gmap Z AM_EXPAND;
  _expanded_func_base : gmap Z Z;
  _lab_tab : gmap Z (list Z);
  _origin_pc_map : gmap Z Z;
  _expanded_pc_map : gmap Z Z;
  _end_pc : Z;
}.

(** What the language leaves open: the contents of a fresh table slot and the
  signedness of [char]. *)
Class Platform : Type := {
  fresh_slot : Z -> AM_EXPAND;
  char_signed : bool;
}.
Definition x86_platform : Platform :=
  {| fresh_slot := fun _ => mkAM_EXPAND 0 0 0 0; char_signed := true |}.

(** Array access by a 32-bit index. *)
Definition nthZ {A} (l : list A) (i : Z) : outcome A :=
  if i <? 0 then Err CodeFault else of_option CodeFault (l !! Z.to_nat i).

Lemma nthZ_Ok {A} (l : list A) i a : nthZ l i = Ok a <-> 0 <= i /\ l !! Z.to_nat i = Some a.
Proof.
  unfold nthZ. destruct (Z.ltb_spec i 0); [split; [discriminate | lia]|].
  destruct (l !! Z.to_nat i); simpl; split; [intros [= ->]; auto | intros [_ [= ->]]; auto
    | discriminate | intros [_ [=]]].
Qed.

Section Sections.
Context {bd : Build}.
Variable s : SECTIONS.

Definition Contains_section (id : SECTION_ID) : bool :=
  existsb (fun p => bool_decide (p.1 = id)) (_sec_sec_header_map s).

(** The map keeps the header assigned last. *)
Definition Get_shdr_idx (id : SECTION_ID) : outcome Z :=
  _ ← Is_True (Contains_section id);
  match find (fun p => bool_decide (p.1 = id)) (rev (_sec_sec_header_map s)) with
  | Some (_, i) => mret i
  | None => Err Uninit
  end.
Definition Get_shdr_by_sec_id (id : SECTION_ID) : outcome Z :=
  i ← Get_shdr_idx id; nthZ (_shdr_tab s) i.
Definition sec_elem_num (id : SECTION_ID) : outcome Z :=
  h ← Get_shdr_by_sec_id id; UBH_SHDR.Get_elem_num h.

Definition Get_func (i : Z) : outcome Z := nthZ (_func_sec s) i.
Definition Get_type (i : Z) : outcome Z := nthZ (_type_sec s) i.
Definition Get_glbl (i : Z) : outcome Z := nthZ (_glbl_sec s) i.
Definition Get_code (i : Z) : outcome CODE_ENTRY := nthZ (_code_sec s) i.
End Sections.

(** ** Which section a header describes, and the table of headers *)
Section SectionMap.
Context {bd : Build}.

Definition Get_sec_id_from_header (h : Z) : outcome SECTION_ID :=
  let t := UBH_SHDR.Get_sec_tag h in
  if t =? SEC_TAG.SEC_TYPE then mret S_TYPE
  else if t =? SEC_TAG.SEC_FUNC then mret S_FUNC
  else if t =? SEC_TAG.SEC_GLBL then mret S_GLBL
  else if t =? SEC_TAG.SEC_TAB then
    kind ← UBH_SHDR.Get_kind h;
    if kind =? K_MODULE_NAME then mret S_MODULE_NAME
    else if kind =? K_GLBL_NAME then mret S_GLBL_NAME
    else if kind =? K_NON_NULL_STR then mret S_NN_STR
    else _ ← Is_True false; mret S_COUNT
  else if t =? SEC_TAG.SEC_MEM then
    kind ← UBH_SHDR.Get_kind h;
    if kind =? MEM_DATA then mret S_DATA else mret S_RELOC
  else if t =? SEC_TAG.SEC_IMPORT then
    kind ← UBH_SHDR.Get_kind h;
    if kind =? K_IMPORT_MODULE then mret S_IMPORT
    else if kind =? K_IMPORT_NATIVE then mret S_IMP_NAT
    else _ ← Is_True false; mret S_COUNT
  else if t =? SEC_TAG.SEC_EXPORT then
    kind ← UBH_SHDR.Get_kind h;
    if kind =? K_EXPORT_GLBL then mret S_EXPORT_GLBL
    else if kind =? K_EXPORT then mret S_EXPORT
    else _ ← Is_True false; mret S_COUNT
  else if t =? SEC_TAG.SEC_CODE then mret S_CODE
  else if t =? SEC_TAG.SEC_BIN then mret S_NAT
  else _ ← Is_True false; mret S_COUNT.

(** The loop of [Set_shdr_tab]; [i] is the index of the first header. *)
Fixpoint section_map (i : Z) (hs : list Z) : outcome (list (SECTION_ID * Z)) :=
  match hs with
  | [] => mret []
  | h :: hs =>
      if UBH_SHDR.Have_sec h then
        id ← Get_sec_id_from_header h;
        rest ← section_map (i + 1) hs;
        mret ((id, i) :: rest)
      else section_map (i + 1) hs
  end.
Definition Set_shdr_tab (hs : list Z) (s : SECTIONS) : outcome SECTIONS :=
  m ← section_map 0 hs;
  mret (mkSECTIONS hs m (_type_sec s) (_func_sec s) (_code_sec s) (_glbl_sec s)
          (_data_sec s) (_reloc_sec s) (_non_null_str_sec s)).
End SectionMap.

(** ** Register numbers packed in a [UINT64] seen as [UINT16[4]] *)
Definition u16x4 (k : Z) : field := Field (16 * k) 16 false.
Definition pack16 (a b c d : Z) : Z :=
  fset (u16x4 3) d (fset (u16x4 2) c (fset (u16x4 1) b (fset (u16x4 0) a 0))).
Definition arr16 (x k : Z) : Z := fget (u16x4 k) x.

(** ** [Decode_type_and_cache] *)
Module Types.
Section Decode.
Context {bd : Build}.

(** A decoded list of value types with its four counters. *)
Record TYPE_LIST : Set := mkTL { tl_list : list Z; tl_num : list Z }.
Definition tl_empty : TYPE_LIST := mkTL [] [0; 0; 0; 0].
Definition tl_push (valty : Z) (l : TYPE_LIST) : TYPE_LIST :=
mkTL (tl_list l ++ [valty]) (alter (fun n => UINT32 (n + 1)) (Z.to_nat valty) (tl_num l)).

(** [n] iterations of the loop body [get j] from [j]. *)
Fixpoint decode_loop (get : Z -> outcome Z) (j : Z) (n : nat) (l : TYPE_LIST) : outcome TYPE_LIST :=
match n with
| O => mret l
| S n => valty ← get j; decode_loop get (j + 1) n (tl_push valty l)
end.

(** [(type_list >> (MAX_TYPE_ELEM_RANGE - (j + 1) * VALTY_SZ)) & TYPE_MASK]. *)
Definition local_valty (type_list j : Z) : outcome Z :=
v ← ushr 32 type_list (UINT32 (MAX_TYPE_ELEM_RANGE - (j + 1) * VALTY_SZ));
mret (UINT8 (Z.land v TYPE_MASK)).

(** [(elem >> (CHAR_BIT - (off + 1u) * 2u)) & TYPE_MASK], [elem] the byte of the
string that holds the type. *)
Definition byte_valty (elem off : Z) : outcome Z :=
v ← ushr 32 elem (UINT32 (8 - (off + 1) * 2));
mret (UINT8 (Z.land v TYPE_MASK)).

Definition Decode_type (nn_str : list Z) (type : Z) : outcome (TYPE_LIST * TYPE_LIST) :=
let ret_num := UBH_TYPE.Get_ret_num type in
if UBH_TYPE.Is_stored_local type then
  let type_list := UBH_TYPE.Get_elem type in
  let param_num := UBH_TYPE.Get_param_num type in
  rets ← decode_loop (local_valty type_list) 0 (Z.to_nat ret_num) tl_empty;
  params ← decode_loop (local_valty type_list) ret_num (Z.to_nat param_num) tl_empty;
  mret (rets, params)
else
  let nn_str_idx := UBH_TYPE.Get_elem type in
  b0 ← nthZ nn_str nn_str_idx;
  b1 ← nthZ nn_str (nn_str_idx + 1);
  let param_num := UINT8 (b0 + 256 * b1) in
  rets ← decode_loop (fun j => elem ← nthZ nn_str (nn_str_idx + 2); byte_valty elem j)
           0 (Z.to_nat ret_num) tl_empty;
  params ← decode_loop (fun j => elem ← nthZ nn_str (nn_str_idx + 2 + j / 4);
                                 byte_valty elem (j mod 4))
           ret_num (Z.to_nat param_num) tl_empty;
  mret (rets, params).

Fixpoint map_outcome {A B} (f : A -> outcome B) (l : list A) : outcome (list B) :=
match l with
| [] => mret []
| a :: l => b ← f a; bs ← map_outcome f l; mret (b :: bs)
end.

(** Register numbers of one function: [reg_num] and [fp_shs]; both stay 0 for an
external one. *)
Definition Func_regs (s : SECTIONS) (func : Z) : outcome (Z * Z) :=
if UBH_FUNC.Is_set_flag F_EXTERN func then mret (0, 0)
else
  idx ← UBH_FUNC.Get_code_idx func;
  entry ← Get_code s idx;
  let code := ce_code entry in
  mret (pack16 (UBH_CODE.Get_i32_local code + UBH_CODE.Get_i32_io code)
               (UBH_CODE.Get_i64_local code + UBH_CODE.Get_i64_io code)
               (UBH_CODE.Get_f32_local code + UBH_CODE.Get_f32_io code)
               (UBH_CODE.Get_f64_local code + UBH_CODE.Get_f64_io code),
        pack16 (UBH_CODE.Get_i32_local code) (UBH_CODE.Get_i64_local code)
               (UBH_CODE.Get_f32_local code) (UBH_CODE.Get_f64_local code)).

Definition Decode_type_and_cache (s : SECTIONS) : outcome TYPE_CACHE :=
type_num ← sec_elem_num s S_TYPE;
func_num ← sec_elem_num s S_FUNC;
types ← map_outcome (fun i => t ← Get_type s i; Decode_type (_non_null_str_sec s) t)
          (seqZ 0 type_num);
regs ← map_outcome (fun i => f ← Get_func s i; Func_regs s f) (seqZ 0 func_num);
mret {| _param_tab := map (fun p => tl_list p.2) types;
        _ret_tab := map (fun p => tl_list p.1) types;
        _reg_num_tab := map fst regs;
        _fp_shs_tab := map snd regs |}.
End Decode.
End Types.

(** ** [Expand_code] *)
Module Expansion.
Section Expand.
Context {bd : Build} {pf : Platform}.

(** The state of the second pass. *)
Record PASS : Type := mkPASS {
p_table : gmap Z AM_EXPAND;
p_origin : gmap Z Z;
p_expanded : gmap Z Z;
p_func_base : gmap Z Z;
p_lab_tab : gmap Z (list Z);
p_code_base : Z;           (** [code_base_idx] *)
p_inst_num : Z;            (** [inst_num], and the index of [e_inst_p] *)
}.

(** First pass: the words of all functions with code. *)
Fixpoint total_code_size (s : SECTIONS) (funcs : list Z) (acc : Z) : outcome Z :=
match funcs with
| [] => mret acc
| f :: funcs =>
    if UBH_FUNC.Is_set_flag F_EXTERN f then total_code_size s funcs acc
    else
      idx ← UBH_FUNC.Get_code_idx f;
      entry ← Get_code s idx;
      total_code_size s funcs (UINT32 (acc + UBH_CODE.Get_code_size (ce_code entry)))
end.

(** The instructions of a function: [p] is the iterator, [code_sz] the end; every
iteration advances [p], so [S code_sz] of them are enough. *)
Fixpoint expand_insts (fuel : nat) (words : list Z) (p code_sz : nat) (st : PASS) : outcome PASS :=
if decide (p = code_sz) then mret st else
match fuel with
| O => Err CodeFault
| S fuel =>
    '(is_inst32, inst) ← U_INST_ITER.deref words p;
    e ← Expand_inst is_inst32 inst (fresh_slot (p_inst_num st));
    q ← U_INST_ITER.incr words p;
    expand_insts fuel words q code_sz
      {| p_table := <[p_inst_num st := e]> (p_table st);
         p_origin := <[p_code_base st + Z.of_nat p := p_inst_num st]> (p_origin st);
         p_expanded := <[p_inst_num st := p_code_base st + Z.of_nat p]> (p_expanded st);
         p_func_base := p_func_base st;
         p_lab_tab := p_lab_tab st;
         p_code_base := p_code_base st;
         p_inst_num := p_inst_num st + 1 |}
end.

Definition read_map (m : gmap Z Z) (i : Z) : outcome Z := of_option Uninit (m !! i).

Definition expand_func (s : SECTIONS) (i func : Z) (st : PASS) : outcome PASS :=
if UBH_FUNC.Is_set_flag F_EXTERN func then mret st
else
  idx ← UBH_FUNC.Get_code_idx func;
  entry ← Get_code s idx;
  let code_sz := UBH_CODE.Get_code_size (ce_code entry) in
  let lab_num := UBH_CODE.Get_label_num (ce_code entry) in
  st ← expand_insts (S (Z.to_nat code_sz)) (ce_insts entry) 0 (Z.to_nat code_sz) st;
  labels ← Types.map_outcome
             (fun j => lab ← nthZ (ce_labels entry) j;
                       read_map (p_origin st) (UINT32 (p_code_base st + lab)))
             (seqZ 0 lab_num);
  base ← read_map (p_origin st) (p_code_base st);
  mret {| p_table := p_table st; p_origin := p_origin st; p_expanded := p_expanded st;
          p_func_base := <[i := base]> (p_func_base st);
          p_lab_tab := <[i := labels]> (p_lab_tab st);
          p_code_base := UINT32 (p_code_base st + code_sz);
          p_inst_num := p_inst_num st |}.

Fixpoint expand_funcs (s : SECTIONS) (i : Z) (funcs : list Z) (st : PASS) : outcome PASS :=
match funcs with
| [] => mret st
| f :: funcs => st ← expand_func s i f st; expand_funcs s (i + 1) funcs st
end.

Definition pass0 : PASS := mkPASS ∅ ∅ ∅ ∅ ∅ 0 0.

(** The break instruction goes into the slot after [_end_pc]; its operands and
the slot at [_end_pc] stay as they are. *)
Definition Expand_code (s : SECTIONS) : outcome CODE_CACHE :=
func_num ← sec_elem_num s S_FUNC;
funcs ← Types.map_outcome (Get_func s) (seqZ 0 func_num);
_ ← total_code_size s funcs 0;
st ← expand_funcs s 0 funcs pass0;
let _end_pc := p_inst_num st in
let brk := Set_opcode (UINT32 (Z.shiftl Opcode.BREAK VALTY_SZ)) (fresh_slot (_end_pc + 1)) in
mret {| _expanded_table := <[_end_pc + 1 := brk]> (p_table st);
        _expanded_func_base := p_func_base st;
        _lab_tab := p_lab_tab st;
        _origin_pc_map := p_origin st;
        _expanded_pc_map := p_expanded st;
        _end_pc := _end_pc |}.
End Expand.
End Expansion.

(** ** The memory block before the run *)
Module Data.
Section Init.
Context {bd : Build}.

Definition NUM_SUCC := 0.
Definition ERR_NOT_ENOUGH_MEM_BUF := 1.

(** [DATA_SEGMENT_MAGIC_PREFIX], 8 bytes. *)
Definition magic : list Z := [85; 68; 83; 118; 48; 46; 49; 0].

(** [memcmp(data_sec, magic, 8) != 0]: stops at the first difference. *)
Fixpoint differs (data pat : list Z) : outcome bool :=
match pat, data with
| [], _ => mret false
| _ :: _, [] => Err MemFault
| p :: pat, d :: data => if d =? p then differs data pat else mret true
end.

(** [n] bytes of the section at [i], little endian. *)
Fixpoint le_at (data : list Z) (i : nat) (n : nat) : outcome Z :=
match n with
| O => mret 0
| S n => b ← of_option MemFault (data !! i); hi ← le_at data (S i) n; mret (b + 256 * hi)
end.

(** The [count] entries of [_infos] at [i]; [fuel] bounds them by the length of
the section, beyond which the read is out of the section. *)
Fixpoint read_infos (fuel : nat) (data : list Z) (i : nat) (count : Z)
  : outcome (list UBH_DATA_SEGMENTS.UBH_DSEG_INFO) :=
if count <=? 0 then mret [] else
match fuel with
| O => Err MemFault
| S fuel =>
    ofs ← le_at data i 4; sz ← le_at data (i + 4) 4;
    rest ← read_infos fuel data (i + 8) (count - 1);
    mret ({| UBH_DATA_SEGMENTS._mem_offset := ofs; UBH_DATA_SEGMENTS._size := sz |} :: rest)
end.

Definition slice (data : list Z) (i n : Z) : outcome (list Z) :=
let l := take (Z.to_nat n) (drop (Z.to_nat i) data) in
if Z.of_nat (length l) =? n then Ok l else Err MemFault.

(** The copying loop. *)
Fixpoint copy_segs (mem_size : Z) (data : list Z) (total_copied : Z)
  (segs : list UBH_DATA_SEGMENTS.UBH_DSEG_INFO) (b : BLOCK) : outcome BLOCK :=
match segs with
| [] => mret b
| sg :: segs =>
    let ofs := UBH_DATA_SEGMENTS._mem_offset sg in
    let sz := UBH_DATA_SEGMENTS._size sg in
    _ ← Is_True_Rel (UINT32 (ofs + sz) <? mem_size);
    src ← slice data total_copied sz;
    b ← copy_in ofs src b;
    copy_segs mem_size data (UINT32 (total_copied + sz)) segs b
end.

Definition Init_mem_with_data_segs (mem_size : Z) (data : list Z) (data_sec_size : Z)
  (b : BLOCK) : outcome BLOCK :=
_ ← (if release then mret tt else
     prefix ← le_at data 0 8; wanted ← le_at magic 0 8; Is_True (prefix =? wanted));
elements ← le_at data 8 8;
segs ← read_infos (length data) data 16 elements;
_ ← Is_True_Rel (UBH_DATA_SEGMENTS.Calc_total_space segs =? data_sec_size);
let max_ofs := UBH_DATA_SEGMENTS.Calc_max_ofs segs in
if mem_size <? max_ofs then _ ← Is_True_Rel false; mret b
else copy_segs mem_size data (UBH_DATA_SEGMENTS.Calc_size segs) segs b.

(** One relocation entry per three words: position, symbol, offset; the value
patched in is a host pointer (8 bytes). *)
Fixpoint patch (fuel : nat) (reloc : list Z) (i n : Z) (b : BLOCK) : outcome BLOCK :=
if n <=? i then mret b else
match fuel with
| O => Err FuelOut
| S fuel =>
    patch_pos ← nthZ reloc i; ref_idx ← nthZ reloc (i + 1); ref_off ← nthZ reloc (i + 2);
    b ← store 8 patch_pos (b_addr b + ref_idx + ref_off) b;
    patch fuel reloc (i + 3) n b
end.

Definition Fix_up_reloc (s : SECTIONS) (mem_size : Z) (mem : option BLOCK)
  : outcome (Z * option BLOCK) :=
if negb (Contains_section s S_DATA) then mret (NUM_SUCC, mem) else
data_sec_size ← sec_elem_num s S_DATA;
if data_sec_size =? 0 then mret (NUM_SUCC, mem) else
_ ← Is_True (bool_decide (is_Some mem));
b ← of_option NullFault mem;
plain ← differs (_data_sec s) magic;
b ← (if (plain : bool) then
       _ ← Is_True_Rel (data_sec_size <=? mem_size);
       src ← slice (_data_sec s) 0 data_sec_size;
       copy_in 0 src b
     else Init_mem_with_data_segs mem_size (_data_sec s) data_sec_size b);
if negb (Contains_section s S_RELOC) then mret (NUM_SUCC, Some b) else
reloc_num ← sec_elem_num s S_RELOC;
if reloc_num =? 0 then mret (NUM_SUCC, Some b) else
_ ← Is_True (data_sec_size <=? mem_size);
if mem_size <=? data_sec_size then mret (ERR_NOT_ENOUGH_MEM_BUF, Some b) else
b ← patch (Z.to_nat reloc_num) (_reloc_sec s) 0 reloc_num b;
mret (NUM_SUCC, Some b).

Definition Prepare_before_run {pf : Platform} (s : SECTIONS) (mem_size : Z) (mem : option BLOCK)
  : outcome (Z * option BLOCK * option CODE_CACHE) :=
r ← Fix_up_reloc s mem_size mem;
let '(ret, mem) := r in
if negb (ret =? NUM_SUCC) then mret (ret, mem, (None : option CODE_CACHE))
else c ← Expansion.Expand_code s; mret (NUM_SUCC, mem, Some c).
End Init.
End Data.
