(* ===== verification/DataSegs.v ===== *)
(** * Data segments

  The data section of a converted module: the prefix, a count, pairs of an offset
  and a size, and the bytes of the segments one after the other.  What
  [U_MODULE::Init_mem_with_data_segs] puts into the memory for it. *)

From S2P Require Import Prelude CInt BitField Isa Inst Expand Ubh Memory UModule.
From Stdlib Require Import ZArith Lia.
Local Open Scope Z_scope.

(** ** The format *)
Record SEGMENT : Type := mkSEG { sg_ofs : Z; sg_bytes : list Z }.

Fixpoint le_bytes (n : nat) (v : Z) : list Z :=
  match n with O => [] | S n => UINT8 v :: le_bytes n (Z.shiftr v 8) end.

Definition seg_len (s : SEGMENT) : Z := Z.of_nat (length (sg_bytes s)).
Definition info_bytes (s : SEGMENT) : list Z := le_bytes 4 (sg_ofs s) ++ le_bytes 4 (seg_len s).
Definition data_section (segs : list SEGMENT) : list Z :=
  Data.magic ++ le_bytes 8 (Z.of_nat (length segs)) ++ concat (map info_bytes segs) ++ concat (map sg_bytes segs).

Definition info_of (s : SEGMENT) : UBH_DATA_SEGMENTS.UBH_DSEG_INFO :=
  {| UBH_DATA_SEGMENTS._mem_offset := sg_ofs s; UBH_DATA_SEGMENTS._size := seg_len s |}.

(** What a byte of the memory is after the segments: the last that covers it wins. *)
Definition covers (s : SEGMENT) (j : Z) : bool := (sg_ofs s <=? j) && (j <? sg_ofs s + seg_len s).
Definition overlay (segs : list SEGMENT) (j d : Z) : Z :=
  fold_left (fun d s => if covers s j then nth (Z.to_nat (j - sg_ofs s)) (sg_bytes s) 0 else d) segs d.

(** The segments end before the end of the memory, and hold bytes. *)
Definition seg_ok (mem_size : Z) (s : SEGMENT) : Prop :=
  0 <= sg_ofs s /\ sg_ofs s + seg_len s < mem_size /\ Forall (in_u 8) (sg_bytes s).
Definition payload (segs : list SEGMENT) : Z := Z.of_nat (length (concat (map sg_bytes segs))).

(** ** Reading it *)
Lemma le_bytes_length n v : length (le_bytes n v) = n.
Proof. revert v. induction n as [|n IH]; intros v; cbn; [reflexivity | now rewrite IH]. Qed.

Lemma le_at_bytes n : forall pre v post,
  Data.le_at (pre ++ le_bytes n v ++ post) (length pre) n = Ok (wrapu (8 * Z.of_nat n) v).
Proof.
  induction n as [|n IH]; intros pre v post.
  - cbn [Data.le_at]. unfold wrapu. now rewrite Z.mod_1_r.
  - cbn [Data.le_at le_bytes app]. rewrite list_lookup_middle by reflexivity. cbn [of_option mbind outcome_bind].
    specialize (IH (pre ++ [UINT8 v]) (Z.shiftr v 8) post). rewrite <- (assoc_L (++)), length_app in IH.
    cbn [app length] in IH. rewrite Nat.add_1_r in IH. rewrite IH. cbn [mbind outcome_bind mret outcome_ret].
    f_equal. symmetry. apply wrapu_octet.
Qed.

Lemma info_length s : length (info_bytes s) = 8%nat.
Proof. unfold info_bytes. now rewrite length_app, !le_bytes_length. Qed.

Lemma infos_length segs : length (concat (map info_bytes segs)) = (8 * length segs)%nat.
Proof.
  induction segs as [|s segs IH]; [reflexivity|]. cbn [map concat length]. rewrite length_app, info_length, IH. lia.
Qed.

Lemma read_infos_run segs : forall fuel pre post, (length segs <= fuel)%nat ->
  Forall (fun s => in_u 32 (sg_ofs s) /\ in_u 32 (seg_len s)) segs ->
  Data.read_infos fuel (pre ++ concat (map info_bytes segs) ++ post) (length pre) (Z.of_nat (length segs))
  = Ok (map info_of segs).
Proof.
  induction segs as [|s segs IH]; intros fuel pre post Hf H; [destruct fuel; reflexivity|].
  destruct fuel as [|fuel]; [cbn in Hf; lia|]. apply Forall_cons in H as [[H1 H2] H].
  cbn [Data.read_infos]. rewrite (proj2 (Z.leb_gt _ _)) by (cbn [length]; lia).
  cbn [map concat]. change (info_bytes s) with (le_bytes 4 (sg_ofs s) ++ le_bytes 4 (seg_len s)). rewrite <- !(assoc_L (++)).
  rewrite le_at_bytes. cbn [mbind outcome_bind].
  rewrite (assoc_L (++) pre). replace (length pre + 4)%nat with (length (pre ++ le_bytes 4 (sg_ofs s)))
    by (rewrite length_app, le_bytes_length; lia).
  rewrite le_at_bytes. cbn [mbind outcome_bind].
  rewrite (assoc_L (++) (pre ++ _)). replace (length pre + 8)%nat with (length ((pre ++ le_bytes 4 (sg_ofs s)) ++ le_bytes 4 (seg_len s)))
    by (rewrite !length_app, !le_bytes_length; lia).
  replace (Z.of_nat (length (s :: segs)) - 1) with (Z.of_nat (length segs)) by (cbn [length]; lia).
  rewrite IH; [|cbn in Hf; lia | exact H]. cbn [mbind outcome_bind mret outcome_ret].
  change (8 * Z.of_nat 4) with 32. now rewrite !wrapu_id.
Qed.

Section Copy.
Context {bd : Build}.

Lemma prefix_asserted segs : (if release then mret tt else
  prefix ← Data.le_at (data_section segs) 0 8; wanted ← Data.le_at Data.magic 0 8; Is_True (prefix =? wanted)) = Ok tt.
Proof.
  destruct release; [reflexivity|]. unfold data_section. cbn [app Data.magic Data.le_at lookup list_lookup of_option mbind outcome_bind mret outcome_ret].
  now rewrite Z.eqb_refl, Is_True_true.
Qed.

Lemma slice_mid (pre ws post : list Z) i n : i = Z.of_nat (length pre) -> n = Z.of_nat (length ws) ->
  Data.slice (pre ++ ws ++ post) i n = Ok ws.
Proof.
  intros -> ->. unfold Data.slice. rewrite !Nat2Z.id, drop_app_length, take_app_length. now rewrite Z.eqb_refl.
Qed.

Lemma nth_range l k : Forall (in_u 8) l -> UINT8 (nth k l 0) = nth k l 0.
Proof.
  intros H. apply wrapu_id. destruct (nth_in_or_default k l 0) as [Hin| ->]; [|split; reflexivity || discriminate].
  rewrite Forall_forall in H. apply H, list_elem_of_In, Hin.
Qed.

Lemma copy_in_run i l b : b_live b = true -> 0 <= i -> i + Z.of_nat (length l) <= b_size b -> exists b',
  copy_in i l b = Ok b' /\ b_live b' = true /\ b_size b' = b_size b /\
  forall j, byte_at b' j = if (i <=? j) && (j <? i + Z.of_nat (length l)) then UINT8 (nth (Z.to_nat (j - i)) l 0) else byte_at b j.
Proof.
  intros Hl Hi Hsz. unfold copy_in, in_block. rewrite Hl, (proj2 (Z.leb_le 0 i)), (proj2 (Z.leb_le _ (b_size b))) by lia.
  cbn [andb]. exists (put_bytes i l b). split; [now destruct l|].
  destruct (put_bytes_frame i l b) as (H1 & H2 & _). split; [congruence|]. split; [exact H1|].
  intros j. apply byte_at_put_bytes.
Qed.

Lemma copy_segs_run mem_size segs : forall pre b, Forall (seg_ok mem_size) segs -> mem_size <= 2 ^ 32 ->
  b_live b = true -> mem_size <= b_size b -> Z.of_nat (length pre) + payload segs < 2 ^ 32 -> exists b',
  Data.copy_segs mem_size (pre ++ concat (map sg_bytes segs)) (Z.of_nat (length pre)) (map info_of segs) b = Ok b' /\
  b_live b' = true /\ b_size b' = b_size b /\ forall j, byte_at b' j = overlay segs j (byte_at b j).
Proof.
  induction segs as [|s segs IH]; intros pre b Hok Hm Hl Hsz Hp; [now exists b|].
  apply Forall_cons in Hok as [(O1 & O2 & O3) Hok]. unfold payload in Hp. cbn [map concat] in Hp. rewrite length_app in Hp.
  cbn [map Data.copy_segs info_of UBH_DATA_SEGMENTS._mem_offset UBH_DATA_SEGMENTS._size concat]. unfold seg_len in *.
  rewrite (UINT32_id (sg_ofs s + _)) by lia. rewrite (proj2 (Z.ltb_lt _ mem_size)), Is_True_Rel_true by lia. cbn [mbind outcome_bind].
  rewrite slice_mid by reflexivity. cbn [mbind outcome_bind].
  destruct (copy_in_run (sg_ofs s) (sg_bytes s) b Hl O1 ltac:(lia)) as (b1 & -> & L1 & S1 & B1). cbn [mbind outcome_bind].
  rewrite UINT32_id by lia.
  destruct (IH (pre ++ sg_bytes s) b1 Hok Hm L1 ltac:(lia)) as (b' & Hc & L' & S' & B').
  { rewrite length_app. unfold payload. lia. }
  rewrite <- (assoc_L (++)), length_app, Nat2Z.inj_add in Hc. exists b'. split; [exact Hc|].
  split; [exact L'|]. split; [congruence|]. intros j. rewrite B', B1. unfold overlay, covers, seg_len. cbn [fold_left].
  now rewrite nth_range by exact O3.
Qed.

(** The sizes the header announces. *)
Lemma Calc_size_run segs : 16 + 8 * Z.of_nat (length segs) < 2 ^ 32 ->
  UBH_DATA_SEGMENTS.Calc_size (map info_of segs) = 16 + 8 * Z.of_nat (length segs).
Proof.
  intros H. unfold UBH_DATA_SEGMENTS.Calc_size, UBH_DATA_SEGMENTS.sizeof, UBH_DATA_SEGMENTS.sizeof_dseg_info.
  rewrite length_map. rewrite UINT32_id by lia. lia.
Qed.

Lemma Calc_total_run segs : 16 + 8 * Z.of_nat (length segs) + payload segs < 2 ^ 32 ->
  UBH_DATA_SEGMENTS.Calc_total_space (map info_of segs) = 16 + 8 * Z.of_nat (length segs) + payload segs.
Proof.
  intros H. unfold UBH_DATA_SEGMENTS.Calc_total_space. rewrite Calc_size_run by (unfold payload in H; lia).
  revert H. generalize (16 + 8 * Z.of_nat (length segs)) (ltac:(lia) : 0 <= 16 + 8 * Z.of_nat (length segs)).
  induction segs as [|s segs IH]; intros n Hn H; [unfold payload; cbn; lia|].
  unfold payload in *. cbn [map concat fold_left info_of UBH_DATA_SEGMENTS._size] in *. rewrite length_app in *. unfold seg_len.
  rewrite UINT32_id by lia. rewrite IH by lia. lia.
Qed.

Lemma Calc_max_run mem_size segs : Forall (seg_ok mem_size) segs -> 0 <= mem_size -> mem_size <= 2 ^ 32 ->
  UBH_DATA_SEGMENTS.Calc_max_ofs (map info_of segs) <= mem_size.
Proof.
  intros H H0 Hm. unfold UBH_DATA_SEGMENTS.Calc_max_ofs. generalize dependent 0. intros max Hmax. revert max Hmax.
  induction H as [|s segs (O1 & O2 & _) _ IH]; intros max H1; cbn; [exact H1|]. apply IH.
  destruct (_ <? _); [|exact H1]. unfold seg_len in *. rewrite UINT32_id by lia. lia.
Qed.

Lemma Init_mem_run segs mem_size b : Forall (seg_ok mem_size) segs -> 0 <= mem_size -> mem_size <= 2 ^ 32 ->
  b_live b = true -> mem_size <= b_size b -> Z.of_nat (length (data_section segs)) < 2 ^ 32 -> exists b',
  Data.Init_mem_with_data_segs mem_size (data_section segs) (Z.of_nat (length (data_section segs))) b = Ok b' /\
  b_live b' = true /\ b_size b' = b_size b /\ forall j, byte_at b' j = overlay segs j (byte_at b j).
Proof.
  intros Hok H0 Hm Hl Hsz Hlen. unfold Data.Init_mem_with_data_segs. rewrite prefix_asserted, bind_ok.
  assert (Z.of_nat (length (data_section segs)) = 16 + 8 * Z.of_nat (length segs) + payload segs) as Elen.
  { unfold data_section, payload. rewrite !length_app, le_bytes_length, infos_length. cbn [length Data.magic]. lia. }
  assert (length segs <= length (data_section segs))%nat as Hfuel by (unfold data_section; rewrite !length_app, infos_length; lia).
  rewrite Elen in *. unfold payload in Hlen.
  assert (Data.le_at (data_section segs) 8 8 = Ok (Z.of_nat (length segs))) as ->.
  { unfold data_section. change 8%nat with (length Data.magic) at 1. rewrite le_at_bytes. f_equal. apply wrapu_id.
    change (8 * Z.of_nat 8) with 64. split; [lia|]. change (2 ^ 64) with (2 ^ 32 * 2 ^ 32). lia. }
  cbn [mbind outcome_bind].
  assert (Data.read_infos (length (data_section segs)) (data_section segs) 16 (Z.of_nat (length segs)) = Ok (map info_of segs)) as ->.
  { unfold data_section at 2. rewrite (assoc_L (++)).
    change 16%nat with (8 + 8)%nat. replace (8 + 8)%nat with (length (Data.magic ++ le_bytes 8 (Z.of_nat (length segs))))
      by (rewrite length_app, le_bytes_length; reflexivity).
    apply read_infos_run; [exact Hfuel|]. eapply Forall_impl; [exact Hok|]. intros s (O1 & O2 & _). unfold in_u, seg_len in *. lia. }
  cbn [mbind outcome_bind].
  rewrite Calc_total_run by (unfold payload; lia). rewrite Z.eqb_refl, Is_True_Rel_true. cbn [mbind outcome_bind].
  rewrite (proj2 (Z.ltb_ge _ _)) by now apply Calc_max_run. rewrite Calc_size_run by lia.
  assert (data_section segs = (Data.magic ++ le_bytes 8 (Z.of_nat (length segs)) ++ concat (map info_bytes segs)) ++ concat (map sg_bytes segs)) as ->
    by (unfold data_section; now rewrite <- !(assoc_L (++))).
  set (pre := Data.magic ++ _).
  assert (16 + 8 * Z.of_nat (length segs) = Z.of_nat (length pre)) as ->
    by (unfold pre; rewrite !length_app, le_bytes_length, infos_length; cbn [length Data.magic]; lia).
  apply copy_segs_run; auto. unfold pre, payload. rewrite !length_app, le_bytes_length, infos_length. cbn [length Data.magic]. lia.
Qed.
End Copy.
