(* ===== verification/Machine.v ===== *)
(** * The machine

  [src/interpreter/exec_unit.h], [src/interpreter/exec_unit.cxx]: the execution
  context, the register files with their sliding windows, the context stack, the
  machine, its initialization, and the function prologue and epilogue.

  Pointers: the pc is an index into the expanded table, the label table a function
  index, the stack pointer an offset from [_mem_p]; [None] is the null pointer. *)

From S2P Require Import Prelude CInt BitField CFloat Isa Inst Expand Ubh Memory UModule.
From Stdlib Require Import ZArith Lia.
Local Open Scope Z_scope.

Definition DEFAULT_STACK_SIZE : Z := 1024.
Definition INITIAL_REG_SIZE : Z := 16 * 1024.
Definition PAGE_SIZE : Z := 4096.
Definition MEM_PAGE_SIZE : Z := 65536.

(** ** [EXEC_CONTEXT] *)
Record EXEC_CONTEXT : Set := mkCTX {
  _fp_i32 : Z; _fp_i64 : Z; _fp_f32 : Z; _fp_f64 : Z;
  _func_idx : Z;
  _pc : option Z;
  _label_tab : option Z;
  _sp : option Z;
}.
Definition ctx0 : EXEC_CONTEXT := mkCTX 0 0 0 0 0 None None None.

Definition ctx_set_pc (v : option Z) (c : EXEC_CONTEXT) : EXEC_CONTEXT :=
  mkCTX (_fp_i32 c) (_fp_i64 c) (_fp_f32 c) (_fp_f64 c) (_func_idx c) v (_label_tab c) (_sp c).
Definition ctx_set_func_idx (v : Z) (c : EXEC_CONTEXT) : EXEC_CONTEXT :=
  mkCTX (_fp_i32 c) (_fp_i64 c) (_fp_f32 c) (_fp_f64 c) v (_pc c) (_label_tab c) (_sp c).
Definition ctx_set_label_tab (v : option Z) (c : EXEC_CONTEXT) : EXEC_CONTEXT :=
  mkCTX (_fp_i32 c) (_fp_i64 c) (_fp_f32 c) (_fp_f64 c) (_func_idx c) (_pc c) v (_sp c).
Definition ctx_set_sp (v : option Z) (c : EXEC_CONTEXT) : EXEC_CONTEXT :=
  mkCTX (_fp_i32 c) (_fp_i64 c) (_fp_f32 c) (_fp_f64 c) (_func_idx c) (_pc c) (_label_tab c) v.
(** [Fp_i32] .. [Fp_f64] and [Set_fp_i32] .. [Set_fp_f64], by value type. *)
Definition ctx_fp (t : VALTYPE) (c : EXEC_CONTEXT) : Z :=
  match t with I32 => _fp_i32 c | I64 => _fp_i64 c | F32 => _fp_f32 c | _ => _fp_f64 c end.
Definition ctx_set_fp (t : VALTYPE) (v : Z) (c : EXEC_CONTEXT) : EXEC_CONTEXT :=
  match t with
  | I32 => mkCTX v (_fp_i64 c) (_fp_f32 c) (_fp_f64 c) (_func_idx c) (_pc c) (_label_tab c) (_sp c)
  | I64 => mkCTX (_fp_i32 c) v (_fp_f32 c) (_fp_f64 c) (_func_idx c) (_pc c) (_label_tab c) (_sp c)
  | F32 => mkCTX (_fp_i32 c) (_fp_i64 c) v (_fp_f64 c) (_func_idx c) (_pc c) (_label_tab c) (_sp c)
  | _ => mkCTX (_fp_i32 c) (_fp_i64 c) (_fp_f32 c) v (_func_idx c) (_pc c) (_label_tab c) (_sp c)
  end.

(** ** [REGISTER<T>]

  The array [_register_begin] has [_cur_mem_size] cells; the first
  [INITIAL_REG_SIZE] were zeroed by the constructor, the others are indeterminate
  until written.  [_register_cur] is [_register_begin + _fp].  [realloc] is taken
  to succeed and keeps the cells. *)
Module REGISTER.
Record t : Type := mk {
  _fp : Z;
  _cur_mem_size : Z;
  cells : gmap Z Z;
}.
Definition init : t := mk 0 INITIAL_REG_SIZE ∅.

Definition Get (i : Z) (r : t) : outcome Z :=
  let k := _fp r + i in
  if (0 <=? k) && (k <? _cur_mem_size r) then
    match cells r !! k with
    | Some v => Ok v
    | None => if k <? INITIAL_REG_SIZE then Ok 0 else Err Uninit
    end
  else Err RegFault.

Definition Set_ (i v : Z) (r : t) : outcome t :=
  let k := _fp r + i in
  if (0 <=? k) && (k <? _cur_mem_size r)
  then Ok (mk (_fp r) (_cur_mem_size r) (<[k := v]> (cells r)))
  else Err RegFault.

Definition Alloc (len : Z) (r : t) : t :=
  if _cur_mem_size r <? UINT32 (_fp r + len)
  then mk (_fp r) (UINT32 (UINT32 (_cur_mem_size r + _fp r + len) * 2)) (cells r)
  else r.

Definition Set_fp (fp : Z) (r : t) : t := mk (UINT32 fp) (_cur_mem_size r) (cells r).
Definition Increment (size : Z) (r : t) : t :=
  mk (UINT32 (_fp r + size)) (_cur_mem_size r) (cells r).
End REGISTER.

(** ** [CONTEXT_STACK]

  The vector has [st_size] elements, those not in [st_vec] being default
  constructed; its capacity is the size asked for. *)
Module CONTEXT_STACK.
Record t : Type := mk {
  st_vec : gmap Z EXEC_CONTEXT;
  st_size : Z;
  _capacity : Z;
  _sta_top_idx : Z;
}.
Definition init : t := mk ∅ DEFAULT_STACK_SIZE DEFAULT_STACK_SIZE (-1).

Definition Push (c : EXEC_CONTEXT) (s : t) : outcome t :=
  let s := if _sta_top_idx s =? _capacity s
           then mk (st_vec s) (INT32 (_capacity s * 2)) (INT32 (_capacity s * 2)) (_sta_top_idx s)
           else s in
  let top := _sta_top_idx s + 1 in
  if (0 <=? top) && (top <? st_size s)
  then Ok (mk (<[top := c]> (st_vec s)) (st_size s) (_capacity s) top)
  else Err StackFault.

Definition Top (s : t) : outcome EXEC_CONTEXT :=
  let i := _sta_top_idx s in
  if (0 <=? i) && (i <? st_size s) then Ok (default ctx0 (st_vec s !! i)) else Err StackFault.

(** The reference that [Pop] returns is not used by its callers. *)
Definition Pop {bd : Build} (s : t) : outcome t :=
  _ ← Is_True (0 <=? _sta_top_idx s);
  mret (mk (st_vec s) (st_size s) (_capacity s) (_sta_top_idx s - 1)).
End CONTEXT_STACK.

(** ** What the program asks of the host

  A call of a C library or system function, with its arguments and the bytes that it is
  given.  What the host answers is a function of the calls made before. *)
Inductive HOST_FN : Set :=
  | Putchar | Printf | Scanf | Random | Clock_gettime | Pthread_create | Pthread_join | Writev | Ffi_native.
Record HOST_CALL : Set := mkHOST {
  host_fn : HOST_FN;
  host_args : list Z;
  host_data : list (list Z);
}.

(** ** [UWASM_MACHINE] *)
Record UWASM_MACHINE : Type := mkMACHINE {
  _reg_i32 : REGISTER.t;
  _reg_i64 : REGISTER.t;
  _reg_f32 : REGISTER.t;
  _reg_f64 : REGISTER.t;
  _ctx_stack : CONTEXT_STACK.t;
  _sections : SECTIONS;              (** [_module], its sections and caches *)
  _types : TYPE_CACHE;
  _codes : CODE_CACHE;
  _mem : option BLOCK;               (** what [_mem_p] points to *)
  _sta_off : option Z;               (** [_sta_p - _mem_p] *)
  _mem_size : Z;
  _hea_off : Z;
  _hea_size : Z;
  _global_start : option (list Z);   (** 8-byte entries *)
  _current : EXEC_CONTEXT;
  _host : list HOST_CALL;            (** not in the code: what was asked of the host *)
}.

Definition set_current (c : EXEC_CONTEXT) (m : UWASM_MACHINE) : UWASM_MACHINE :=
  mkMACHINE (_reg_i32 m) (_reg_i64 m) (_reg_f32 m) (_reg_f64 m) (_ctx_stack m) (_sections m)
    (_types m) (_codes m) (_mem m) (_sta_off m) (_mem_size m) (_hea_off m) (_hea_size m)
    (_global_start m) c (_host m).
Definition set_ctx_stack (s : CONTEXT_STACK.t) (m : UWASM_MACHINE) : UWASM_MACHINE :=
  mkMACHINE (_reg_i32 m) (_reg_i64 m) (_reg_f32 m) (_reg_f64 m) s (_sections m)
    (_types m) (_codes m) (_mem m) (_sta_off m) (_mem_size m) (_hea_off m) (_hea_size m)
    (_global_start m) (_current m) (_host m).
Definition set_codes (c : CODE_CACHE) (m : UWASM_MACHINE) : UWASM_MACHINE :=
  mkMACHINE (_reg_i32 m) (_reg_i64 m) (_reg_f32 m) (_reg_f64 m) (_ctx_stack m) (_sections m)
    (_types m) c (_mem m) (_sta_off m) (_mem_size m) (_hea_off m) (_hea_size m)
    (_global_start m) (_current m) (_host m).
Definition set_memory (b : option BLOCK) (sta : option Z) (size off hsize : Z)
    (m : UWASM_MACHINE) : UWASM_MACHINE :=
  mkMACHINE (_reg_i32 m) (_reg_i64 m) (_reg_f32 m) (_reg_f64 m) (_ctx_stack m) (_sections m)
    (_types m) (_codes m) b sta size off hsize (_global_start m) (_current m) (_host m).
Definition set_globals (g : option (list Z)) (m : UWASM_MACHINE) : UWASM_MACHINE :=
  mkMACHINE (_reg_i32 m) (_reg_i64 m) (_reg_f32 m) (_reg_f64 m) (_ctx_stack m) (_sections m)
    (_types m) (_codes m) (_mem m) (_sta_off m) (_mem_size m) (_hea_off m) (_hea_size m)
    g (_current m) (_host m).
Definition set_host (h : list HOST_CALL) (m : UWASM_MACHINE) : UWASM_MACHINE :=
  mkMACHINE (_reg_i32 m) (_reg_i64 m) (_reg_f32 m) (_reg_f64 m) (_ctx_stack m) (_sections m)
    (_types m) (_codes m) (_mem m) (_sta_off m) (_mem_size m) (_hea_off m) (_hea_size m)
    (_global_start m) (_current m) h.
Definition set_mem (b : BLOCK) (m : UWASM_MACHINE) : UWASM_MACHINE :=
  set_memory (Some b) (_sta_off m) (_mem_size m) (_hea_off m) (_hea_size m) m.

(** The register file of a value type. *)
Definition regs (t : VALTYPE) (m : UWASM_MACHINE) : REGISTER.t :=
  match t with I32 => _reg_i32 m | I64 => _reg_i64 m | F32 => _reg_f32 m | _ => _reg_f64 m end.
Definition set_regs (t : VALTYPE) (r : REGISTER.t) (m : UWASM_MACHINE) : UWASM_MACHINE :=
  let mk r1 r2 r3 r4 := mkMACHINE r1 r2 r3 r4 (_ctx_stack m) (_sections m)
    (_types m) (_codes m) (_mem m) (_sta_off m) (_mem_size m) (_hea_off m) (_hea_size m)
    (_global_start m) (_current m) (_host m) in
  match t with
  | I32 => mk r (_reg_i64 m) (_reg_f32 m) (_reg_f64 m)
  | I64 => mk (_reg_i32 m) r (_reg_f32 m) (_reg_f64 m)
  | F32 => mk (_reg_i32 m) (_reg_i64 m) r (_reg_f64 m)
  | _ => mk (_reg_i32 m) (_reg_i64 m) (_reg_f32 m) r
  end.

Abbreviation MM := (M UWASM_MACHINE).

(** ** What the machine calls

  The system call dispatcher [U_RUNTIME::Call_sys_call] (host functions), the
  initialization of the heap by dlmalloc, and [realloc] on the memory block. *)
Inductive REALLOC : Set := RNull | RInPlace | RMoved.

Class Runtime : Type := {
  Call_sys_call : Z -> MM unit;
  heap_initialize : Z -> Z -> BLOCK -> outcome BLOCK;
  mem_realloc : option BLOCK -> Z -> REALLOC;
}.

Section Primitives.
Context {bd : Build}.

(** Register access at the current window.  A value is converted to the type of
  the register file. *)
Definition reg_norm (t : VALTYPE) (v : Z) : Z :=
  match t with I32 => INT32 v | I64 => INT64 v | F32 => UINT32 v | _ => UINT64 v end.
Definition reg_get (t : VALTYPE) (i : Z) : MM Z :=
  fun m => lift (REGISTER.Get i (regs t m)) m.
Definition reg_set (t : VALTYPE) (i v : Z) : MM unit := fun m =>
  match REGISTER.Set_ i (reg_norm t v) (regs t m) with
  | Ok r => Ok (tt, set_regs t r m)
  | Err f => Err f
  end.
Definition update_regs (t : VALTYPE) (f : REGISTER.t -> REGISTER.t) : MM unit :=
  modify (fun m => set_regs t (f (regs t m)) m).
Definition update_current (f : EXEC_CONTEXT -> EXEC_CONTEXT) : MM unit :=
  modify (fun m => set_current (f (_current m)) m).

Definition Set_pc (pc : option Z) : MM unit := update_current (ctx_set_pc pc).
Definition Inc_pc : MM unit :=
  update_current (fun c => ctx_set_pc (option_map (fun p => p + 1) (_pc c)) c).

(** [_label_tab[lab_idx]]. *)
Definition Get_label (lab_idx : Z) : MM (option Z) := fun m => lift
  (f ← of_option NullFault (_label_tab (_current m));
   tab ← of_option Uninit (_lab_tab (_codes m) !! f);
   l ← nthZ tab lab_idx; mret (Some l)) m.

(** The instruction the pc points to. *)
Definition Get_inst : MM AM_EXPAND := fun m => lift
  (p ← of_option NullFault (_pc (_current m));
   of_option CodeFault (_expanded_table (_codes m) !! p)) m.
(** [*inst = e], for the instruction being executed. *)
Definition Put_inst (e : AM_EXPAND) : MM unit := fun m =>
  match _pc (_current m) with
  | Some p =>
      let c := _codes m in
      Ok (tt, set_codes {| _expanded_table := <[p := e]> (_expanded_table c);
            _expanded_func_base := _expanded_func_base c; _lab_tab := _lab_tab c;
            _origin_pc_map := _origin_pc_map c; _expanded_pc_map := _expanded_pc_map c;
            _end_pc := _end_pc c |} m)
  | None => Err NullFault
  end.

(** Loads and stores of [n] bytes at an offset from [_mem_p]. *)
Definition mem_load (n : nat) (ofs : Z) : MM Z := fun m => lift
  (b ← of_option NullFault (_mem m); load n ofs b) m.
Definition mem_store (n : nat) (ofs v : Z) : MM unit := fun m =>
  match (b ← of_option NullFault (_mem m); store n ofs v b) with
  | Ok b => Ok (tt, set_mem b m)
  | Err f => Err f
  end.

Definition Get_sp : MM Z := fun m => lift (of_option NullFault (_sp (_current m))) m.

(** [Get_ofst_addr]. *)
Definition Get_ofst_addr (ofst : Z) (is_stack : bool) : MM Z := fun m => lift
  (if is_stack then
     sp ← of_option NullFault (_sp (_current m));
     sta ← of_option NullFault (_sta_off m);
     mret (INT32 (sp + ofst - sta))
   else
     g ← Get_glbl (_sections m) (INT32 ofst);
     mret (INT32 (UBH_GLBL.Get_data_idx g))) m.

(** [Get_base_addr]: the offset from [_mem_p] of the address in a register. *)
Definition Get_base_addr (reg_idx : Z) : MM Z :=
  ptr_ofs ← reg_get I32 reg_idx;
  m ← get;
  let in_range := UINT32 (INT32 (Z.abs ptr_ofs)) <? _mem_size m in
  if mem_check then
    _ ← lift (Is_True_Rel in_range); mret ptr_ofs
  else
    _ ← lift (Is_True in_range);
    if 0 <? ptr_ofs then mret ptr_ofs
    else sta ← lift (of_option NullFault (_sta_off m)); mret (sta + ptr_ofs).

(** The entry of the global table at [ofst]: its low 32 bits are accessed. *)
Definition global_load32 (ofst : Z) : MM Z := fun m => lift
  (g ← of_option NullFault (_global_start m); v ← nthZ g ofst; mret (INT32 v)) m.
Definition global_store32 (ofst v : Z) : MM unit := fun m =>
  match (g ← of_option NullFault (_global_start m); old ← nthZ g ofst; mret (g, old)) with
  | Ok (g, old) => Ok (tt, set_globals (Some (<[Z.to_nat ofst := bf_set 0 32 v old]> g)) m)
  | Err f => Err f
  end.
End Primitives.

(** ** Calls and returns *)
Section Calls.
Context {bd : Build} {rt : Runtime}.

Definition push_context : MM unit := fun m =>
  match CONTEXT_STACK.Push (_current m) (_ctx_stack m) with
  | Ok s => Ok (tt, set_ctx_stack s m)
  | Err f => Err f
  end.

Definition Allocate_stack (func_idx : Z) : MM unit := fun m =>
  match (func ← Get_func (_sections m) func_idx; idx ← UBH_FUNC.Get_code_idx func;
         Get_code (_sections m) idx) with
  | Ok entry =>
      let stack_size := UBH_CODE.Get_stack_size (ce_code entry) in
      if 0 <? stack_size
      then update_current (fun c => ctx_set_sp (option_map (fun sp => sp - stack_size) (_sp c)) c) m
      else Ok (tt, m)
  | Err f => Err f
  end.

(** [Reg_t().Increment(n); Cur_env().Set_fp_t(Reg_t().Fp())]. *)
Definition advance (t : VALTYPE) (n : Z) : MM unit :=
  _ ← update_regs t (REGISTER.Increment n);
  modify (fun m => set_current (ctx_set_fp t (REGISTER._fp (regs t m)) (_current m)) m).

Definition advance_window (fp_shs : Z) : MM unit :=
  if 65535 <? fp_shs then
    _ ← advance I32 (arr16 fp_shs 0);
    _ ← when (negb (arr16 fp_shs 1 =? 0)) (advance I64 (arr16 fp_shs 1));
    _ ← when (negb (arr16 fp_shs 2 =? 0)) (advance F32 (arr16 fp_shs 2));
    when (negb (arr16 fp_shs 3 =? 0)) (advance F64 (arr16 fp_shs 3))
  else advance I32 fp_shs.

Definition alloc (t : VALTYPE) (n : Z) : MM unit := update_regs t (REGISTER.Alloc n).
Definition alloc_window (reg_num : Z) : MM unit :=
  if 65535 <? reg_num then
    _ ← alloc I32 (arr16 reg_num 0);
    _ ← when (negb (arr16 reg_num 1 =? 0)) (alloc I64 (arr16 reg_num 1));
    _ ← when (negb (arr16 reg_num 2 =? 0)) (alloc F32 (arr16 reg_num 2));
    when (negb (arr16 reg_num 3 =? 0)) (alloc F64 (arr16 reg_num 3))
  else alloc I32 reg_num.

Definition Func_epilogue : MM unit :=
  m ← get;
  prev_ctx ← lift (CONTEXT_STACK.Top (_ctx_stack m));
  _ ← modify (set_current prev_ctx);
  s ← lift (CONTEXT_STACK.Pop (_ctx_stack m));
  _ ← modify (set_ctx_stack s);
  fp_shs ← lift (nthZ (_fp_shs_tab (_types m)) (_func_idx prev_ctx));
  _ ← update_regs I32 (REGISTER.Set_fp (ctx_fp I32 prev_ctx));
  when (65535 <? fp_shs)
    (_ ← update_regs I64 (REGISTER.Set_fp (ctx_fp I64 prev_ctx));
     _ ← update_regs F32 (REGISTER.Set_fp (ctx_fp F32 prev_ctx));
     update_regs F64 (REGISTER.Set_fp (ctx_fp F64 prev_ctx))).

(** [Cur_env().Set_cur_label_tab(..)] and [Set_pc(..)] for a function. *)
Definition enter_code (func_idx : Z) : MM unit :=
  _ ← update_current (ctx_set_label_tab (Some func_idx));
  m ← get;
  base ← lift (of_option Uninit (_expanded_func_base (_codes m) !! func_idx));
  Set_pc (Some base).

Definition Func_prologue (callee_idx : Z) : MM unit :=
  m ← get;
  let caller_func_idx := _func_idx (_current m) in
  _ ← push_context;
  _ ← update_current (ctx_set_func_idx callee_idx);
  fp_shs ← lift (nthZ (_fp_shs_tab (_types m)) caller_func_idx);
  _ ← advance_window fp_shs;
  callee ← lift (Get_func (_sections m) (INT32 callee_idx));
  if UBH_FUNC.Is_set_flag F_EXTERN callee || UBH_FUNC.Is_set_flag F_NATIVE callee then
    _ ← Call_sys_call callee_idx;
    _ ← Func_epilogue;
    Inc_pc
  else
    _ ← enter_code callee_idx;
    _ ← Allocate_stack callee_idx;
    reg_num ← lift (nthZ (_reg_num_tab (_types m)) callee_idx);
    alloc_window reg_num.

(** [Init_env]: the entry frame, whose pc makes the return from the entry
  function reach the break instruction, then the entry function itself. *)
Definition Init_env (func_idx : Z) : MM unit :=
  _ ← update_current (ctx_set_func_idx func_idx);
  m ← get;
  _ ← Set_pc (Some (_end_pc (_codes m)));
  _ ← push_context;
  _ ← update_current (ctx_set_func_idx func_idx);
  _ ← enter_code func_idx;
  _ ← update_current (ctx_set_sp (_sta_off m));
  reg_num ← lift (nthZ (_reg_num_tab (_types m)) func_idx);
  _ ← when (negb (arr16 reg_num 0 =? 0)) (alloc I32 (arr16 reg_num 0));
  _ ← when (negb (arr16 reg_num 1 =? 0)) (alloc I64 (arr16 reg_num 1));
  _ ← when (negb (arr16 reg_num 2 =? 0)) (alloc F32 (arr16 reg_num 2));
  _ ← when (negb (arr16 reg_num 3 =? 0)) (alloc F64 (arr16 reg_num 3));
  Allocate_stack func_idx.

(** [Grow_memory]: the pointer [realloc] returns is not kept. *)
Definition Grow_memory (target_size_bytes : Z) : MM Z :=
  m ← get;
  _ ← lift (Is_True (_mem_size m <=? target_size_bytes));
  _ ← lift (Is_True (target_size_bytes mod MEM_PAGE_SIZE =? 0));
  if (target_size_bytes <? _mem_size m) || negb (target_size_bytes mod MEM_PAGE_SIZE =? 0)
  then mret (UINT32 (-1))
  else
    let grown := set_memory (option_map (fun b => mkBLOCK (b_addr b) target_size_bytes
                   (b_live b) (b_init b) (b_bytes b)) (_mem m)) (_sta_off m)
                   target_size_bytes (_hea_off m) (_hea_size m) m in
    let freed := set_memory (option_map (fun b => mkBLOCK (b_addr b) (b_size b)
                   false (b_init b) (b_bytes b)) (_mem m)) (_sta_off m)
                   target_size_bytes (_hea_off m) (_hea_size m) m in
    match mem_realloc (_mem m) target_size_bytes with
    | RNull => mret (UINT32 (-1))
    | RInPlace => _ ← modify (fun _ => grown); mret target_size_bytes
    | RMoved => _ ← modify (fun _ => freed); mret target_size_bytes
    end.
End Calls.

(** ** [Init_memory] *)
Section InitMemory.
Context {bd : Build} {pf : Platform} {rt : Runtime} {fe : FloatEnv}.

(** [0.8f]. *)
Definition HEAP_MEM_PERCENT : Z := 1061997773.

Definition page_round_up (n : Z) : Z :=
  if n mod PAGE_SIZE =? 0 then n else UINT32 (UINT32 (n / PAGE_SIZE + 1) * PAGE_SIZE).

Definition heap_size (free : Z) : outcome Z :=
  sz ← fto_u FLOAT32 32 (fmul FLOAT32 (of_int FLOAT32 free) HEAP_MEM_PERCENT);
  mret (page_round_up sz).

Definition init_globals (s : SECTIONS) : outcome (list Z) :=
  glbl_cnt ← sec_elem_num s S_GLBL;
  Types.map_outcome (fun i => g ← Get_glbl s i; mret (UBH_GLBL.Get_init_val g)) (seqZ 0 glbl_cnt).

Definition Init_memory (mem_p : option BLOCK) (mem_size : Z) : MM Z :=
  _ ← modify (fun m => set_memory mem_p (_sta_off m) mem_size (_hea_off m) (_hea_size m) m);
  m ← get;
  r ← lift (Data.Prepare_before_run (_sections m) mem_size mem_p);
  let '(ret, mem, codes) := r in
  _ ← modify (fun m => set_memory mem (_sta_off m) mem_size (_hea_off m) (_hea_size m) m);
  _ ← match codes with Some c => modify (set_codes c) | None => mret tt end;
  if negb (ret =? Data.NUM_SUCC) then mret ret else
  if mem_size =? 0 then mret ret else
  hea_off ← lift (if Contains_section (_sections m) S_DATA
                  then sec_elem_num (_sections m) S_DATA else mret 0);
  let hea_off := page_round_up hea_off in
  _ ← lift (Is_True (hea_off <=? mem_size));
  hea_size ← lift (heap_size (UINT32 (mem_size - hea_off)));
  _ ← modify (fun m => set_memory (_mem m) (Some mem_size) mem_size hea_off hea_size m);
  _ ← (if Contains_section (_sections m) S_GLBL then
         g ← lift (init_globals (_sections m)); modify (set_globals (Some g))
       else mret tt);
  b ← lift (of_option NullFault mem);
  b ← lift (heap_initialize hea_off hea_size b);
  _ ← modify (set_mem b);
  mret ret.
End InitMemory.
