(* ===== verification/Handlers.v ===== *)
(** * The instruction handlers

  [src/interpreter/exec_unit_func.h], one definition per handler under its name.
  A handler receives the expanded instruction the pc points to.  [INT8] is [char]:
  its signedness is the platform's.  [fmin], [fmax] and [sqrt] of an integer
  argument work in [double], as the overloads of <cmath> do. *)

From S2P Require Import Prelude CInt BitField CFloat Isa Inst Expand Ubh Memory UModule Machine.
From Stdlib Require Import ZArith Lia.
Local Open Scope Z_scope.

Definition UINT32_MAX : Z := 4294967295.

Section Handlers.
Context {bd : Build} {pf : Platform} {rt : Runtime} {fe : FloatEnv}.

Definition INT8 (v : Z) : Z := if char_signed then wraps 8 v else wrapu 8 v.

Definition is_double (f : format) : bool := f_mw f =? f_mw FLOAT64.
Definition to_double (f : format) (x : Z) : Z := if is_double f then x else fconv f FLOAT64 x.
Definition of_double (f : format) (x : Z) : Z := if is_double f then x else fconv FLOAT64 f x.
Definition fmin_mixed (f : format) (a b : Z) : Z :=
  of_double f (fmin FLOAT64 (to_double f a) (of_int FLOAT64 b)).
Definition fmax_mixed (f : format) (a b : Z) : Z :=
  of_double f (fmax FLOAT64 (to_double f a) (of_int FLOAT64 b)).
Definition fsqrt_of_int (f : format) (n : Z) : Z :=
  of_double f (fsqrt FLOAT64 (of_int FLOAT64 n)).

(** [while (ofs << k) k++;] from [k], on [UINT32]: the shift by 32 that an odd
  [ofs] leads to is undefined, so 33 iterations decide. *)
Fixpoint count_shifts (fuel : nat) (ofs k : Z) : outcome Z :=
  match fuel with
  | O => Err FuelOut
  | S fuel =>
      v ← ushl 32 ofs k;
      if v =? 0 then mret k else count_shifts fuel ofs (k + 1)
  end.

(** [for (i = 0; i < n; i++) one_bit += (ofs >> i) & 1;] *)
Definition count_ones (ofs : Z) (n : nat) : Z :=
  fold_left (fun acc i => acc + Z.land (Z.shiftr ofs i) 1) (seqZ 0 (Z.of_nat n)) 0.


Definition Nop_am32 (inst : AM_EXPAND) : MM unit :=
  mret tt.
Definition Unreach_am32 (inst : AM_EXPAND) : MM unit :=
  lift (Is_True false).
Definition Return_am32 (inst : AM_EXPAND) : MM unit :=
  Func_epilogue.
Definition Call_am32_ofs (inst : AM_EXPAND) : MM unit :=
  Func_prologue (Get_ofs inst).
Definition Jmp_am32_ofs (inst : AM_EXPAND) : MM unit :=
  label ← Get_label (Get_ofs inst); Set_pc label.
(** [if (b) Jmp_am32_ofs(inst); else Cur_env().Inc_pc();] *)
Definition jump_if (b : bool) (inst : AM_EXPAND) : MM unit :=
  if b then Jmp_am32_ofs inst else Inc_pc.

Definition Call_indirect_am32_r (inst : AM_EXPAND) : MM unit :=
  v ← reg_get I32 (Get_rd inst);
  let inst := Set_ofs v inst in
  _ ← Put_inst inst;
  Call_am32_ofs inst.
Definition Jmp_indirect_am32_r (inst : AM_EXPAND) : MM unit :=
  v ← reg_get I32 (Get_rd inst);
  let inst := Set_ofs v inst in
  _ ← Put_inst inst;
  Jmp_am32_ofs inst.
Definition Add_i32_am32_r_imm (inst : AM_EXPAND) : MM unit :=
  a ← reg_get I32 (Get_rd inst);
  reg_set I32 (Get_rd inst) (sadd 32 a (Get_imm inst)).
Definition Add_i64_am32_r_imm (inst : AM_EXPAND) : MM unit :=
  a ← reg_get I64 (Get_rd inst);
  reg_set I64 (Get_rd inst) (sadd 64 a (Get_imm inst)).
Definition Jez_i32_am32_r_ofs (inst : AM_EXPAND) : MM unit :=
  a ← reg_get I32 (Get_rd inst);
  jump_if (a =? 0) inst.
Definition Jez_i64_am32_r_ofs (inst : AM_EXPAND) : MM unit :=
  a ← reg_get I64 (Get_rd inst);
  jump_if (a =? 0) inst.
Definition Jez_f32_am32_r_ofs (inst : AM_EXPAND) : MM unit :=
  a ← reg_get F32 (Get_rd inst);
  jump_if (feqb FLOAT32 a 0) inst.
Definition Jez_f64_am32_r_ofs (inst : AM_EXPAND) : MM unit :=
  a ← reg_get F64 (Get_rd inst);
  jump_if (feqb FLOAT64 a 0) inst.
Definition Jnz_i32_am32_r_ofs (inst : AM_EXPAND) : MM unit :=
  a ← reg_get I32 (Get_rd inst);
  jump_if (negb (a =? 0)) inst.
Definition Jnz_i64_am32_r_ofs (inst : AM_EXPAND) : MM unit :=
  a ← reg_get I64 (Get_rd inst);
  jump_if (negb (a =? 0)) inst.
Definition Jnz_f32_am32_r_ofs (inst : AM_EXPAND) : MM unit :=
  a ← reg_get F32 (Get_rd inst);
  jump_if (negb (feqb FLOAT32 a 0)) inst.
Definition Jnz_f64_am32_r_ofs (inst : AM_EXPAND) : MM unit :=
  a ← reg_get F64 (Get_rd inst);
  jump_if (negb (feqb FLOAT64 a 0)) inst.
Definition Jlz_i32_am32_r_ofs (inst : AM_EXPAND) : MM unit :=
  a ← reg_get I32 (Get_rd inst);
  jump_if (a <? 0) inst.
Definition Jlz_i64_am32_r_ofs (inst : AM_EXPAND) : MM unit :=
  a ← reg_get I64 (Get_rd inst);
  jump_if (a <? 0) inst.
Definition Jlz_f32_am32_r_ofs (inst : AM_EXPAND) : MM unit :=
  a ← reg_get F32 (Get_rd inst);
  jump_if (fltb FLOAT32 a 0) inst.
Definition Jlz_f64_am32_r_ofs (inst : AM_EXPAND) : MM unit :=
  a ← reg_get F64 (Get_rd inst);
  jump_if (fltb FLOAT64 a 0) inst.
Definition Jlez_i32_am32_r_ofs (inst : AM_EXPAND) : MM unit :=
  a ← reg_get I32 (Get_rd inst);
  jump_if (a <=? 0) inst.
Definition Jlez_i64_am32_r_ofs (inst : AM_EXPAND) : MM unit :=
  a ← reg_get I64 (Get_rd inst);
  jump_if (a <=? 0) inst.
Definition Jlez_f32_am32_r_ofs (inst : AM_EXPAND) : MM unit :=
  a ← reg_get F32 (Get_rd inst);
  jump_if (fleb FLOAT32 a 0) inst.
Definition Jlez_f64_am32_r_ofs (inst : AM_EXPAND) : MM unit :=
  a ← reg_get F64 (Get_rd inst);
  jump_if (fleb FLOAT64 a 0) inst.
Definition Jgz_i32_am32_r_ofs (inst : AM_EXPAND) : MM unit :=
  a ← reg_get I32 (Get_rd inst);
  jump_if (0 <? a) inst.
Definition Jgz_i64_am32_r_ofs (inst : AM_EXPAND) : MM unit :=
  a ← reg_get I64 (Get_rd inst);
  jump_if (0 <? a) inst.
Definition Jgz_f32_am32_r_ofs (inst : AM_EXPAND) : MM unit :=
  a ← reg_get F32 (Get_rd inst);
  jump_if (fltb FLOAT32 0 a) inst.
Definition Jgz_f64_am32_r_ofs (inst : AM_EXPAND) : MM unit :=
  a ← reg_get F64 (Get_rd inst);
  jump_if (fltb FLOAT64 0 a) inst.
Definition Jgez_i32_am32_r_ofs (inst : AM_EXPAND) : MM unit :=
  a ← reg_get I32 (Get_rd inst);
  jump_if (0 <=? a) inst.
Definition Jgez_i64_am32_r_ofs (inst : AM_EXPAND) : MM unit :=
  a ← reg_get I64 (Get_rd inst);
  jump_if (0 <=? a) inst.
Definition Jgez_f32_am32_r_ofs (inst : AM_EXPAND) : MM unit :=
  a ← reg_get F32 (Get_rd inst);
  jump_if (fleb FLOAT32 0 a) inst.
Definition Jgez_f64_am32_r_ofs (inst : AM_EXPAND) : MM unit :=
  a ← reg_get F64 (Get_rd inst);
  jump_if (fleb FLOAT64 0 a) inst.
Definition Llda_i32_am32_r_ofs (inst : AM_EXPAND) : MM unit :=
  v ← Get_ofst_addr (Get_ofs inst) true;
  reg_set I32 (Get_rd inst) v.
Definition Llda_i64_am32_r_ofs (inst : AM_EXPAND) : MM unit :=
  v ← Get_ofst_addr (Get_ofs inst) true;
  reg_set I64 (Get_rd inst) v.
Definition Glda_i32_am32_r_ofs (inst : AM_EXPAND) : MM unit :=
  v ← Get_ofst_addr (Get_ofs inst) false;
  reg_set I32 (Get_rd inst) v.
Definition Glda_i64_am32_r_ofs (inst : AM_EXPAND) : MM unit :=
  v ← Get_ofst_addr (Get_ofs inst) false;
  reg_set I64 (Get_rd inst) v.
Definition Globalget_i32_am64_r_ofs (inst : AM_EXPAND) : MM unit :=
  v ← global_load32 (Get_ofs inst);
  reg_set I32 (Get_rd inst) v.
Definition Globalget_i64_am64_r_ofs (inst : AM_EXPAND) : MM unit :=
  lift (Is_True false).
Definition Globalget_f32_am64_r_ofs (inst : AM_EXPAND) : MM unit :=
  lift (Is_True false).
Definition Globalget_f64_am64_r_ofs (inst : AM_EXPAND) : MM unit :=
  lift (Is_True false).
Definition Globalset_i32_am64_r_ofs (inst : AM_EXPAND) : MM unit :=
  v ← reg_get I32 (Get_rd inst);
  global_store32 (Get_ofs inst) v.
Definition Globalset_i64_am64_r_ofs (inst : AM_EXPAND) : MM unit :=
  lift (Is_True false).
Definition Globalset_f32_am64_r_ofs (inst : AM_EXPAND) : MM unit :=
  lift (Is_True false).
Definition Globalset_f64_am64_r_ofs (inst : AM_EXPAND) : MM unit :=
  lift (Is_True false).
Definition Mov_i32_am32_r_r (inst : AM_EXPAND) : MM unit :=
  v ← reg_get I32 (Get_rs inst);
  reg_set I32 (Get_rd inst) v.
Definition Mov_i64_am32_r_r (inst : AM_EXPAND) : MM unit :=
  v ← reg_get I64 (Get_rs inst);
  reg_set I64 (Get_rd inst) v.
Definition Mov_f32_am32_r_r (inst : AM_EXPAND) : MM unit :=
  v ← reg_get F32 (Get_rs inst);
  reg_set F32 (Get_rd inst) v.
Definition Mov_f64_am32_r_r (inst : AM_EXPAND) : MM unit :=
  v ← reg_get F64 (Get_rs inst);
  reg_set F64 (Get_rd inst) v.
Definition Add_i32_am32_r_r (inst : AM_EXPAND) : MM unit :=
  a ← reg_get I32 (Get_rd inst);
  b ← reg_get I32 (Get_rs inst);
  reg_set I32 (Get_rd inst) (sadd 32 a b).
Definition Add_i64_am32_r_r (inst : AM_EXPAND) : MM unit :=
  a ← reg_get I64 (Get_rd inst);
  b ← reg_get I64 (Get_rs inst);
  reg_set I64 (Get_rd inst) (sadd 64 a b).
Definition Add_f32_am32_r_r (inst : AM_EXPAND) : MM unit :=
  a ← reg_get F32 (Get_rd inst);
  b ← reg_get F32 (Get_rs inst);
  reg_set F32 (Get_rd inst) (fadd FLOAT32 a b).
Definition Add_f64_am32_r_r (inst : AM_EXPAND) : MM unit :=
  a ← reg_get F64 (Get_rd inst);
  b ← reg_get F64 (Get_rs inst);
  reg_set F64 (Get_rd inst) (fadd FLOAT64 a b).
Definition Const_i32_am32_r_imm (inst : AM_EXPAND) : MM unit :=
  reg_set I32 (Get_rd inst) (Get_imm inst).
Definition Const_i64_am32_r_imm (inst : AM_EXPAND) : MM unit :=
  reg_set I64 (Get_rd inst) (Get_imm inst).
Definition Add_i32_am32s_r_r_imm (inst : AM_EXPAND) : MM unit :=
  a ← reg_get I32 (Get_rs inst);
  reg_set I32 (Get_rd inst) (sadd 32 a (Get_imm inst)).
Definition Add_i64_am32s_r_r_imm (inst : AM_EXPAND) : MM unit :=
  a ← reg_get I64 (Get_rs inst);
  reg_set I64 (Get_rd inst) (sadd 64 a (Get_imm inst)).
Definition Jeq_i32_am32s_r_r_ofs (inst : AM_EXPAND) : MM unit :=
  a ← reg_get I32 (Get_rd inst);
  b ← reg_get I32 (Get_rs inst);
  jump_if (a =? b) inst.
Definition Jeq_i64_am32s_r_r_ofs (inst : AM_EXPAND) : MM unit :=
  a ← reg_get I64 (Get_rd inst);
  b ← reg_get I64 (Get_rs inst);
  jump_if (a =? b) inst.
Definition Jeq_f32_am32s_r_r_ofs (inst : AM_EXPAND) : MM unit :=
  a ← reg_get F32 (Get_rd inst);
  b ← reg_get F32 (Get_rs inst);
  jump_if (feqb FLOAT32 a b) inst.
Definition Jeq_f64_am32s_r_r_ofs (inst : AM_EXPAND) : MM unit :=
  a ← reg_get F64 (Get_rd inst);
  b ← reg_get F64 (Get_rs inst);
  jump_if (feqb FLOAT64 a b) inst.
Definition Jne_i32_am32s_r_r_ofs (inst : AM_EXPAND) : MM unit :=
  a ← reg_get I32 (Get_rd inst);
  b ← reg_get I32 (Get_rs inst);
  jump_if (negb (a =? b)) inst.
Definition Jne_i64_am32s_r_r_ofs (inst : AM_EXPAND) : MM unit :=
  a ← reg_get I64 (Get_rd inst);
  b ← reg_get I64 (Get_rs inst);
  jump_if (negb (a =? b)) inst.
Definition Jne_f32_am32s_r_r_ofs (inst : AM_EXPAND) : MM unit :=
  a ← reg_get F32 (Get_rd inst);
  b ← reg_get F32 (Get_rs inst);
  jump_if (negb (feqb FLOAT32 a b)) inst.
Definition Jne_f64_am32s_r_r_ofs (inst : AM_EXPAND) : MM unit :=
  a ← reg_get F64 (Get_rd inst);
  b ← reg_get F64 (Get_rs inst);
  jump_if (negb (feqb FLOAT64 a b)) inst.
Definition Jlt_i32_am32s_r_r_ofs (inst : AM_EXPAND) : MM unit :=
  a ← reg_get I32 (Get_rd inst);
  b ← reg_get I32 (Get_rs inst);
  jump_if (a <? b) inst.
Definition Jlt_i64_am32s_r_r_ofs (inst : AM_EXPAND) : MM unit :=
  a ← reg_get I64 (Get_rd inst);
  b ← reg_get I64 (Get_rs inst);
  jump_if (a <? b) inst.
Definition Jlt_f32_am32s_r_r_ofs (inst : AM_EXPAND) : MM unit :=
  a ← reg_get F32 (Get_rd inst);
  b ← reg_get F32 (Get_rs inst);
  jump_if (fltb FLOAT32 a b) inst.
Definition Jlt_f64_am32s_r_r_ofs (inst : AM_EXPAND) : MM unit :=
  a ← reg_get F64 (Get_rd inst);
  b ← reg_get F64 (Get_rs inst);
  jump_if (fltb FLOAT64 a b) inst.
Definition Jle_i32_am32s_r_r_ofs (inst : AM_EXPAND) : MM unit :=
  a ← reg_get I32 (Get_rd inst);
  b ← reg_get I32 (Get_rs inst);
  jump_if (a <=? b) inst.
Definition Jle_i64_am32s_r_r_ofs (inst : AM_EXPAND) : MM unit :=
  a ← reg_get I64 (Get_rd inst);
  b ← reg_get I64 (Get_rs inst);
  jump_if (a <=? b) inst.
Definition Jle_f32_am32s_r_r_ofs (inst : AM_EXPAND) : MM unit :=
  a ← reg_get F32 (Get_rd inst);
  b ← reg_get F32 (Get_rs inst);
  jump_if (fleb FLOAT32 a b) inst.
Definition Jle_f64_am32s_r_r_ofs (inst : AM_EXPAND) : MM unit :=
  a ← reg_get F64 (Get_rd inst);
  b ← reg_get F64 (Get_rs inst);
  jump_if (fleb FLOAT64 a b) inst.
Definition Jgt_i32_am32s_r_r_ofs (inst : AM_EXPAND) : MM unit :=
  a ← reg_get I32 (Get_rd inst);
  b ← reg_get I32 (Get_rs inst);
  jump_if (b <? a) inst.
Definition Jgt_i64_am32s_r_r_ofs (inst : AM_EXPAND) : MM unit :=
  a ← reg_get I64 (Get_rd inst);
  b ← reg_get I64 (Get_rs inst);
  jump_if (b <? a) inst.
Definition Jgt_f32_am32s_r_r_ofs (inst : AM_EXPAND) : MM unit :=
  a ← reg_get F32 (Get_rd inst);
  b ← reg_get F32 (Get_rs inst);
  jump_if (fltb FLOAT32 b a) inst.
Definition Jgt_f64_am32s_r_r_ofs (inst : AM_EXPAND) : MM unit :=
  a ← reg_get F64 (Get_rd inst);
  b ← reg_get F64 (Get_rs inst);
  jump_if (fltb FLOAT64 b a) inst.
Definition Jge_i32_am32s_r_r_ofs (inst : AM_EXPAND) : MM unit :=
  a ← reg_get I32 (Get_rd inst);
  b ← reg_get I32 (Get_rs inst);
  jump_if (b <=? a) inst.
Definition Jge_i64_am32s_r_r_ofs (inst : AM_EXPAND) : MM unit :=
  a ← reg_get I64 (Get_rd inst);
  b ← reg_get I64 (Get_rs inst);
  jump_if (b <=? a) inst.
Definition Jge_f32_am32s_r_r_ofs (inst : AM_EXPAND) : MM unit :=
  a ← reg_get F32 (Get_rd inst);
  b ← reg_get F32 (Get_rs inst);
  jump_if (fleb FLOAT32 b a) inst.
Definition Jge_f64_am32s_r_r_ofs (inst : AM_EXPAND) : MM unit :=
  a ← reg_get F64 (Get_rd inst);
  b ← reg_get F64 (Get_rs inst);
  jump_if (fleb FLOAT64 b a) inst.
Definition Jlt_u_i32_am32s_r_r_ofs (inst : AM_EXPAND) : MM unit :=
  a ← reg_get I32 (Get_rd inst);
  b ← reg_get I32 (Get_rs inst);
  jump_if (UINT32 a <? UINT32 b) inst.
Definition Jlt_u_i64_am32s_r_r_ofs (inst : AM_EXPAND) : MM unit :=
  a ← reg_get I64 (Get_rd inst);
  b ← reg_get I64 (Get_rs inst);
  jump_if (UINT64 a <? UINT64 b) inst.
Definition Jle_u_i32_am32s_r_r_ofs (inst : AM_EXPAND) : MM unit :=
  a ← reg_get I32 (Get_rd inst);
  b ← reg_get I32 (Get_rs inst);
  jump_if (UINT32 a <=? UINT32 b) inst.
Definition Jle_u_i64_am32s_r_r_ofs (inst : AM_EXPAND) : MM unit :=
  a ← reg_get I64 (Get_rd inst);
  b ← reg_get I64 (Get_rs inst);
  jump_if (UINT64 a <=? UINT64 b) inst.
Definition Jgt_u_i32_am32s_r_r_ofs (inst : AM_EXPAND) : MM unit :=
  a ← reg_get I32 (Get_rd inst);
  b ← reg_get I32 (Get_rs inst);
  jump_if (UINT32 b <? UINT32 a) inst.
Definition Jgt_u_i64_am32s_r_r_ofs (inst : AM_EXPAND) : MM unit :=
  a ← reg_get I64 (Get_rd inst);
  b ← reg_get I64 (Get_rs inst);
  jump_if (UINT64 b <? UINT64 a) inst.
Definition Jge_u_i32_am32s_r_r_ofs (inst : AM_EXPAND) : MM unit :=
  a ← reg_get I32 (Get_rd inst);
  b ← reg_get I32 (Get_rs inst);
  jump_if (UINT32 b <=? UINT32 a) inst.
Definition Jge_u_i64_am32s_r_r_ofs (inst : AM_EXPAND) : MM unit :=
  a ← reg_get I64 (Get_rd inst);
  b ← reg_get I64 (Get_rs inst);
  jump_if (UINT64 b <=? UINT64 a) inst.
Definition Load_i32_am32s_r_r_imm (inst : AM_EXPAND) : MM unit :=
  base_addr ← Get_base_addr (Get_rs inst);
  v ← mem_load 4 (base_addr + Get_imm inst);
  reg_set I32 (Get_rd inst) (INT32 v).
Definition Load_i64_am32s_r_r_imm (inst : AM_EXPAND) : MM unit :=
  base_addr ← Get_base_addr (Get_rs inst);
  v ← mem_load 8 (base_addr + Get_imm inst);
  reg_set I64 (Get_rd inst) (INT64 v).
Definition Load_f32_am32s_r_r_imm (inst : AM_EXPAND) : MM unit :=
  base_addr ← Get_base_addr (Get_rs inst);
  v ← mem_load 4 (base_addr + Get_imm inst);
  reg_set F32 (Get_rd inst) v.
Definition Load_f64_am32s_r_r_imm (inst : AM_EXPAND) : MM unit :=
  base_addr ← Get_base_addr (Get_rs inst);
  v ← mem_load 8 (base_addr + Get_imm inst);
  reg_set F64 (Get_rd inst) v.
Definition Load8_i32_am32s_r_r_imm (inst : AM_EXPAND) : MM unit :=
  base_addr ← Get_base_addr (Get_rs inst);
  v ← mem_load 1 (base_addr + Get_imm inst);
  reg_set I32 (Get_rd inst) (INT8 v).
Definition Load8_i64_am32s_r_r_imm (inst : AM_EXPAND) : MM unit :=
  base_addr ← Get_base_addr (Get_rs inst);
  v ← mem_load 1 (base_addr + Get_imm inst);
  reg_set I64 (Get_rd inst) (INT8 v).
Definition Load8_u_i32_am32s_r_r_imm (inst : AM_EXPAND) : MM unit :=
  base_addr ← Get_base_addr (Get_rs inst);
  v ← mem_load 1 (base_addr + Get_imm inst);
  reg_set I32 (Get_rd inst) v.
Definition Load8_u_i64_am32s_r_r_imm (inst : AM_EXPAND) : MM unit :=
  base_addr ← Get_base_addr (Get_rs inst);
  v ← mem_load 1 (base_addr + Get_imm inst);
  reg_set I64 (Get_rd inst) v.
Definition Load16_i32_am32s_r_r_imm (inst : AM_EXPAND) : MM unit :=
  base_addr ← Get_base_addr (Get_rs inst);
  v ← mem_load 2 (base_addr + Get_imm inst);
  reg_set I32 (Get_rd inst) (INT16 v).
Definition Load16_i64_am32s_r_r_imm (inst : AM_EXPAND) : MM unit :=
  base_addr ← Get_base_addr (Get_rs inst);
  v ← mem_load 2 (base_addr + Get_imm inst);
  reg_set I64 (Get_rd inst) (INT16 v).
Definition Load16_u_i32_am32s_r_r_imm (inst : AM_EXPAND) : MM unit :=
  base_addr ← Get_base_addr (Get_rs inst);
  v ← mem_load 2 (base_addr + Get_imm inst);
  reg_set I32 (Get_rd inst) v.
Definition Load16_u_i64_am32s_r_r_imm (inst : AM_EXPAND) : MM unit :=
  base_addr ← Get_base_addr (Get_rs inst);
  v ← mem_load 2 (base_addr + Get_imm inst);
  reg_set I64 (Get_rd inst) v.
Definition Load32_i64_am32s_r_r_imm (inst : AM_EXPAND) : MM unit :=
  base_addr ← Get_base_addr (Get_rs inst);
  v ← mem_load 4 (base_addr + Get_imm inst);
  reg_set I64 (Get_rd inst) (INT32 v).
Definition Load32_u_i64_am32s_r_r_imm (inst : AM_EXPAND) : MM unit :=
  base_addr ← Get_base_addr (Get_rs inst);
  v ← mem_load 4 (base_addr + Get_imm inst);
  reg_set I64 (Get_rd inst) v.
Definition Store_i32_am32s_r_r_imm (inst : AM_EXPAND) : MM unit :=
  base_addr ← Get_base_addr (Get_rs inst);
  v ← reg_get I32 (Get_rd inst);
  mem_store 4 (base_addr + Get_imm inst) v.
Definition Store_i64_am32s_r_r_imm (inst : AM_EXPAND) : MM unit :=
  base_addr ← Get_base_addr (Get_rs inst);
  v ← reg_get I64 (Get_rd inst);
  mem_store 8 (base_addr + Get_imm inst) v.
Definition Store_f32_am32s_r_r_imm (inst : AM_EXPAND) : MM unit :=
  base_addr ← Get_base_addr (Get_rs inst);
  v ← reg_get F32 (Get_rd inst);
  mem_store 4 (base_addr + Get_imm inst) v.
Definition Store_f64_am32s_r_r_imm (inst : AM_EXPAND) : MM unit :=
  base_addr ← Get_base_addr (Get_rs inst);
  v ← reg_get F64 (Get_rd inst);
  mem_store 8 (base_addr + Get_imm inst) v.
Definition Store8_i32_am32s_r_r_imm (inst : AM_EXPAND) : MM unit :=
  base_addr ← Get_base_addr (Get_rs inst);
  v ← reg_get I32 (Get_rd inst);
  mem_store 1 (base_addr + Get_imm inst) v.
Definition Store8_i64_am32s_r_r_imm (inst : AM_EXPAND) : MM unit :=
  base_addr ← Get_base_addr (Get_rs inst);
  v ← reg_get I64 (Get_rd inst);
  mem_store 1 (base_addr + Get_imm inst) v.
Definition Store16_i32_am32s_r_r_imm (inst : AM_EXPAND) : MM unit :=
  base_addr ← Get_base_addr (Get_rs inst);
  v ← reg_get I32 (Get_rd inst);
  mem_store 2 (base_addr + Get_imm inst) v.
Definition Store16_i64_am32s_r_r_imm (inst : AM_EXPAND) : MM unit :=
  base_addr ← Get_base_addr (Get_rs inst);
  v ← reg_get I64 (Get_rd inst);
  mem_store 2 (base_addr + Get_imm inst) v.
Definition Store32_i64_am32s_r_r_imm (inst : AM_EXPAND) : MM unit :=
  base_addr ← Get_base_addr (Get_rs inst);
  v ← reg_get I64 (Get_rd inst);
  mem_store 4 (base_addr + Get_imm inst) v.
Definition Lload_i32_am32_r_imm (inst : AM_EXPAND) : MM unit :=
  sp ← Get_sp;
  v ← mem_load 4 (sp + Get_imm inst);
  reg_set I32 (Get_rd inst) (INT32 v).
Definition Lload_i64_am32_r_imm (inst : AM_EXPAND) : MM unit :=
  sp ← Get_sp;
  v ← mem_load 8 (sp + Get_imm inst);
  reg_set I64 (Get_rd inst) (INT64 v).
Definition Lload_f32_am32_r_imm (inst : AM_EXPAND) : MM unit :=
  sp ← Get_sp;
  v ← mem_load 4 (sp + Get_imm inst);
  reg_set F32 (Get_rd inst) v.
Definition Lload_f64_am32_r_imm (inst : AM_EXPAND) : MM unit :=
  sp ← Get_sp;
  v ← mem_load 8 (sp + Get_imm inst);
  reg_set F64 (Get_rd inst) v.
Definition Lload8_i32_am32_r_imm (inst : AM_EXPAND) : MM unit :=
  sp ← Get_sp;
  v ← mem_load 1 (sp + Get_imm inst);
  reg_set I32 (Get_rd inst) (INT8 v).
Definition Lload8_i64_am32_r_imm (inst : AM_EXPAND) : MM unit :=
  sp ← Get_sp;
  v ← mem_load 1 (sp + Get_imm inst);
  reg_set I64 (Get_rd inst) (INT8 v).
Definition Lload8_u_i32_am32_r_imm (inst : AM_EXPAND) : MM unit :=
  sp ← Get_sp;
  v ← mem_load 1 (sp + Get_imm inst);
  reg_set I32 (Get_rd inst) v.
Definition Lload8_u_i64_am32_r_imm (inst : AM_EXPAND) : MM unit :=
  sp ← Get_sp;
  v ← mem_load 1 (sp + Get_imm inst);
  reg_set I64 (Get_rd inst) v.
Definition Lload16_i32_am32_r_imm (inst : AM_EXPAND) : MM unit :=
  sp ← Get_sp;
  v ← mem_load 2 (sp + Get_imm inst);
  reg_set I32 (Get_rd inst) (INT16 v).
Definition Lload16_i64_am32_r_imm (inst : AM_EXPAND) : MM unit :=
  sp ← Get_sp;
  v ← mem_load 2 (sp + Get_imm inst);
  reg_set I64 (Get_rd inst) (INT16 v).
Definition Lload16_u_i32_am32_r_imm (inst : AM_EXPAND) : MM unit :=
  sp ← Get_sp;
  v ← mem_load 2 (sp + Get_imm inst);
  reg_set I32 (Get_rd inst) v.
Definition Lload16_u_i64_am32_r_imm (inst : AM_EXPAND) : MM unit :=
  sp ← Get_sp;
  v ← mem_load 2 (sp + Get_imm inst);
  reg_set I64 (Get_rd inst) v.
Definition Lload32_i64_am32_r_imm (inst : AM_EXPAND) : MM unit :=
  sp ← Get_sp;
  v ← mem_load 4 (sp + Get_imm inst);
  reg_set I64 (Get_rd inst) (INT32 v).
Definition Lload32_u_i64_am32_r_imm (inst : AM_EXPAND) : MM unit :=
  sp ← Get_sp;
  v ← mem_load 4 (sp + Get_imm inst);
  reg_set I64 (Get_rd inst) v.
Definition Lstore_i32_am32_r_imm (inst : AM_EXPAND) : MM unit :=
  sp ← Get_sp;
  v ← reg_get I32 (Get_rd inst);
  mem_store 4 (sp + Get_imm inst) v.
Definition Lstore_i64_am32_r_imm (inst : AM_EXPAND) : MM unit :=
  sp ← Get_sp;
  v ← reg_get I64 (Get_rd inst);
  mem_store 8 (sp + Get_imm inst) v.
Definition Lstore_f32_am32_r_imm (inst : AM_EXPAND) : MM unit :=
  sp ← Get_sp;
  v ← reg_get F32 (Get_rd inst);
  mem_store 4 (sp + Get_imm inst) v.
Definition Lstore_f64_am32_r_imm (inst : AM_EXPAND) : MM unit :=
  sp ← Get_sp;
  v ← reg_get F64 (Get_rd inst);
  mem_store 8 (sp + Get_imm inst) v.
Definition Lstore8_i32_am32_r_imm (inst : AM_EXPAND) : MM unit :=
  sp ← Get_sp;
  v ← reg_get I32 (Get_rd inst);
  mem_store 1 (sp + Get_imm inst) v.
Definition Lstore8_i64_am32_r_imm (inst : AM_EXPAND) : MM unit :=
  sp ← Get_sp;
  v ← reg_get I64 (Get_rd inst);
  mem_store 1 (sp + Get_imm inst) v.
Definition Lstore16_i32_am32_r_imm (inst : AM_EXPAND) : MM unit :=
  sp ← Get_sp;
  v ← reg_get I32 (Get_rd inst);
  mem_store 2 (sp + Get_imm inst) v.
Definition Lstore16_i64_am32_r_imm (inst : AM_EXPAND) : MM unit :=
  sp ← Get_sp;
  v ← reg_get I64 (Get_rd inst);
  mem_store 2 (sp + Get_imm inst) v.
Definition Lstore32_i64_am32_r_imm (inst : AM_EXPAND) : MM unit :=
  sp ← Get_sp;
  v ← reg_get I64 (Get_rd inst);
  mem_store 4 (sp + Get_imm inst) v.
Definition Add_i32_am32s_r_r_r (inst : AM_EXPAND) : MM unit :=
  a ← reg_get I32 (Get_rs inst);
  b ← reg_get I32 (Get_rt inst);
  reg_set I32 (Get_rd inst) (sadd 32 a b).
Definition Add_i64_am32s_r_r_r (inst : AM_EXPAND) : MM unit :=
  a ← reg_get I64 (Get_rs inst);
  b ← reg_get I64 (Get_rt inst);
  reg_set I64 (Get_rd inst) (sadd 64 a b).
Definition Add_f32_am32s_r_r_r (inst : AM_EXPAND) : MM unit :=
  a ← reg_get F32 (Get_rs inst);
  b ← reg_get F32 (Get_rt inst);
  reg_set F32 (Get_rd inst) (fadd FLOAT32 a b).
Definition Add_f64_am32s_r_r_r (inst : AM_EXPAND) : MM unit :=
  a ← reg_get F64 (Get_rs inst);
  b ← reg_get F64 (Get_rt inst);
  reg_set F64 (Get_rd inst) (fadd FLOAT64 a b).
Definition Sub_i32_am32s_r_r_r (inst : AM_EXPAND) : MM unit :=
  a ← reg_get I32 (Get_rs inst);
  b ← reg_get I32 (Get_rt inst);
  reg_set I32 (Get_rd inst) (ssub 32 a b).
Definition Sub_i64_am32s_r_r_r (inst : AM_EXPAND) : MM unit :=
  a ← reg_get I64 (Get_rs inst);
  b ← reg_get I64 (Get_rt inst);
  reg_set I64 (Get_rd inst) (ssub 64 a b).
Definition Sub_f32_am32s_r_r_r (inst : AM_EXPAND) : MM unit :=
  a ← reg_get F32 (Get_rs inst);
  b ← reg_get F32 (Get_rt inst);
  reg_set F32 (Get_rd inst) (fsub FLOAT32 a b).
Definition Sub_f64_am32s_r_r_r (inst : AM_EXPAND) : MM unit :=
  a ← reg_get F64 (Get_rs inst);
  b ← reg_get F64 (Get_rt inst);
  reg_set F64 (Get_rd inst) (fsub FLOAT64 a b).
Definition Rotl_i32_am32s_r_r_r (inst : AM_EXPAND) : MM unit :=
  num ← reg_get I32 (Get_rt inst);
  let num_bit := UINT32 num in
  lo ← lift (ushl 32 num_bit num_bit);
  hi ← lift (ushr 32 num_bit (UINT32 (32 - num_bit)));
  reg_set I32 (Get_rd inst) (Z.lor lo hi).
Definition Rotl_i64_am32s_r_r_r (inst : AM_EXPAND) : MM unit :=
  num ← reg_get I32 (Get_rt inst);
  let num_bit := UINT32 num in
  lo ← lift (ushl 32 num_bit num_bit);
  hi ← lift (ushr 32 num_bit (UINT32 (64 - num_bit)));
  reg_set I64 (Get_rd inst) (Z.lor lo hi).
Definition Rotr_i32_am32s_r_r_r (inst : AM_EXPAND) : MM unit :=
  num ← reg_get I32 (Get_rt inst);
  let num_bit := UINT32 num in
  lo ← lift (ushr 32 num_bit num_bit);
  hi ← lift (ushl 32 num_bit (UINT32 (32 - num_bit)));
  reg_set I32 (Get_rd inst) (Z.lor lo hi).
Definition Rotr_i64_am32s_r_r_r (inst : AM_EXPAND) : MM unit :=
  num ← reg_get I32 (Get_rt inst);
  let num_bit := UINT32 num in
  lo ← lift (ushr 32 num_bit num_bit);
  hi ← lift (ushl 32 num_bit (UINT32 (64 - num_bit)));
  reg_set I64 (Get_rd inst) (Z.lor lo hi).
Definition Conv_i32_i64_am32_r_r (inst : AM_EXPAND) : MM unit :=
  v ← reg_get I32 (Get_rs inst);
  reg_set I64 (Get_rd inst) v.
Definition Conv_i32_f32_am32_r_r (inst : AM_EXPAND) : MM unit :=
  v ← reg_get I32 (Get_rs inst);
  reg_set F32 (Get_rd inst) (of_int FLOAT32 v).
Definition Conv_i32_f64_am32_r_r (inst : AM_EXPAND) : MM unit :=
  v ← reg_get I32 (Get_rs inst);
  reg_set F64 (Get_rd inst) (of_int FLOAT64 v).
Definition Conv_i32_u_i64_am32_r_r (inst : AM_EXPAND) : MM unit :=
  v ← reg_get I32 (Get_rs inst);
  reg_set I64 (Get_rd inst) (INT64 (UINT32 v)).
Definition Conv_i64_i32_am32_r_r (inst : AM_EXPAND) : MM unit :=
  v ← reg_get I64 (Get_rs inst);
  reg_set I32 (Get_rd inst) (INT32 v).
Definition Conv_i64_f32_am32_r_r (inst : AM_EXPAND) : MM unit :=
  v ← reg_get I64 (Get_rs inst);
  reg_set F32 (Get_rd inst) (of_int FLOAT32 v).
Definition Conv_i64_f64_am32_r_r (inst : AM_EXPAND) : MM unit :=
  v ← reg_get I64 (Get_rs inst);
  reg_set F64 (Get_rd inst) (of_int FLOAT64 v).
Definition Conv_f32_i32_am32_r_r (inst : AM_EXPAND) : MM unit :=
  v ← reg_get F32 (Get_rs inst);
  n ← lift (fto_s FLOAT32 32 v);
  reg_set I32 (Get_rd inst) n.
Definition Conv_f32_i64_am32_r_r (inst : AM_EXPAND) : MM unit :=
  v ← reg_get F32 (Get_rs inst);
  n ← lift (fto_s FLOAT32 64 v);
  reg_set I64 (Get_rd inst) n.
Definition Conv_f32_f64_am32_r_r (inst : AM_EXPAND) : MM unit :=
  v ← reg_get F32 (Get_rs inst);
  reg_set F64 (Get_rd inst) (fconv FLOAT32 FLOAT64 v).
Definition Conv_f64_i32_am32_r_r (inst : AM_EXPAND) : MM unit :=
  v ← reg_get F64 (Get_rs inst);
  n ← lift (fto_s FLOAT64 32 v);
  reg_set I32 (Get_rd inst) n.
Definition Conv_f64_i64_am32_r_r (inst : AM_EXPAND) : MM unit :=
  v ← reg_get F64 (Get_rs inst);
  n ← lift (fto_s FLOAT64 64 v);
  reg_set I64 (Get_rd inst) n.
Definition Conv_f64_f32_am32_r_r (inst : AM_EXPAND) : MM unit :=
  v ← reg_get F64 (Get_rs inst);
  reg_set F32 (Get_rd inst) (fconv FLOAT64 FLOAT32 v).
Definition Eqz_i32_am32_r_r (inst : AM_EXPAND) : MM unit :=
  a ← reg_get I32 (Get_rs inst);
  reg_set I32 (Get_rd inst) (b2z (a =? 0)).
Definition Eqz_i64_am32_r_r (inst : AM_EXPAND) : MM unit :=
  a ← reg_get I64 (Get_rs inst);
  reg_set I64 (Get_rd inst) (b2z (a =? 0)).
Definition Eqz_f32_am32_r_r (inst : AM_EXPAND) : MM unit :=
  a ← reg_get F32 (Get_rs inst);
  reg_set F32 (Get_rd inst) (of_int FLOAT32 (b2z (feqb FLOAT32 a 0))).
Definition Eqz_f64_am32_r_r (inst : AM_EXPAND) : MM unit :=
  a ← reg_get F64 (Get_rs inst);
  reg_set F64 (Get_rd inst) (of_int FLOAT64 (b2z (feqb FLOAT64 a 0))).
Definition Ceil_f32_am32_r_r (inst : AM_EXPAND) : MM unit :=
  v ← reg_get F32 (Get_rs inst);
  reg_set F32 (Get_rd inst) (fceil FLOAT32 v).
Definition Ceil_f64_am32_r_r (inst : AM_EXPAND) : MM unit :=
  v ← reg_get F64 (Get_rs inst);
  reg_set F64 (Get_rd inst) (fceil FLOAT64 v).
Definition Floor_f32_am32_r_r (inst : AM_EXPAND) : MM unit :=
  v ← reg_get F32 (Get_rs inst);
  reg_set F32 (Get_rd inst) (ffloor FLOAT32 v).
Definition Floor_f64_am32_r_r (inst : AM_EXPAND) : MM unit :=
  v ← reg_get F64 (Get_rs inst);
  reg_set F64 (Get_rd inst) (ffloor FLOAT64 v).
Definition Sqrt_f32_am32_r_r (inst : AM_EXPAND) : MM unit :=
  reg_set F32 (Get_rd inst) (fsqrt_of_int FLOAT32 (Get_rs inst)).
Definition Sqrt_f64_am32_r_r (inst : AM_EXPAND) : MM unit :=
  reg_set F64 (Get_rd inst) (fsqrt_of_int FLOAT64 (Get_rs inst)).
Definition Neg_f32_am32_r_r (inst : AM_EXPAND) : MM unit :=
  v ← reg_get I32 (Get_rs inst);
  reg_set F32 (Get_rd inst) (of_int FLOAT32 (ssub 32 0 v)).
Definition Neg_f64_am32_r_r (inst : AM_EXPAND) : MM unit :=
  v ← reg_get I64 (Get_rs inst);
  reg_set F64 (Get_rd inst) (of_int FLOAT64 (ssub 64 0 v)).
Definition Reintr_f32_i32_am32_r_r (inst : AM_EXPAND) : MM unit :=
  value ← reg_get F32 (Get_rs inst);
  reg_set I32 (Get_rd inst) value.
Definition Reintr_f64_i64_am32_r_r (inst : AM_EXPAND) : MM unit :=
  value ← reg_get F64 (Get_rs inst);
  reg_set I64 (Get_rd inst) value.
Definition Reintr_i32_f32_am32_r_r (inst : AM_EXPAND) : MM unit :=
  value ← reg_get I32 (Get_rs inst);
  reg_set F32 (Get_rd inst) value.
Definition Reintr_i64_f64_am32_r_r (inst : AM_EXPAND) : MM unit :=
  value ← reg_get I64 (Get_rs inst);
  reg_set F64 (Get_rd inst) value.
Definition Break_am32 (inst : AM_EXPAND) : MM unit :=
  mret tt.
Definition Const_l_i32_am64_r_imm (inst : AM_EXPAND) : MM unit :=
  reg_set I32 (Get_rd inst) (Get_imm inst).
Definition Const_l_i64_am64_r_imm (inst : AM_EXPAND) : MM unit :=
  reg_set I64 (Get_rd inst) (Get_imm inst).
Definition Const_l_f32_am64_r_imm (inst : AM_EXPAND) : MM unit :=
  let value := Get_ofs inst in
  reg_set F32 (Get_rd inst) value.
Definition Const_l_f64_am64_r_imm (inst : AM_EXPAND) : MM unit :=
  val ← reg_get F64 (Get_rd inst);
  let const_imm := Get_ofs inst in
  let val := Z.land (UINT64 val) (Z.shiftl 4294967295 32) in
  reg_set F64 (Get_rd inst) (Z.lor val const_imm).
Definition Const_l_high_i64_am64_r_imm (inst : AM_EXPAND) : MM unit :=
  val ← reg_get I64 (Get_rd inst);
  let const_imm := Get_ofs inst in
  let val := Z.land val 4294967295 in
  reg_set I64 (Get_rd inst) (Z.lor val (UINT64 (Z.shiftl const_imm 32))).
Definition Const_l_high_f64_am64_r_imm (inst : AM_EXPAND) : MM unit :=
  val ← reg_get F64 (Get_rd inst);
  let const_imm := Get_ofs inst in
  let val := Z.land (UINT64 val) 4294967295 in
  reg_set F64 (Get_rd inst) (Z.lor val (UINT64 (Z.shiftl const_imm 32))).
Definition Ctz_i32_am64_r_ofs (inst : AM_EXPAND) : MM unit :=
  non_zero ← lift (count_shifts 33 (Get_ofs inst) 0);
  reg_set I32 (Get_rd inst) (UINT32 (32 - non_zero)).
Definition Ctz_i64_am64_r_ofs (inst : AM_EXPAND) : MM unit :=
  non_zero ← lift (count_shifts 33 (Get_ofs inst) 0);
  reg_set I64 (Get_rd inst) (UINT64 (64 - non_zero)).
Definition Popcnt_i32_am64_r_ofs (inst : AM_EXPAND) : MM unit :=
  let one_bit := count_ones (Get_ofs inst) 32 in
  reg_set I32 (Get_rd inst) one_bit.
Definition Popcnt_i64_am64_r_ofs (inst : AM_EXPAND) : MM unit :=
  let one_bit := count_ones (Get_ofs inst) 64 in
  reg_set I64 (Get_rd inst) one_bit.
Definition Add_i32_am64_r_r_imm (inst : AM_EXPAND) : MM unit :=
  a ← reg_get I32 (Get_rs inst);
  reg_set I32 (Get_rd inst) (sadd 32 a (Get_imm inst)).
Definition Add_i64_am64_r_r_imm (inst : AM_EXPAND) : MM unit :=
  a ← reg_get I64 (Get_rs inst);
  reg_set I64 (Get_rd inst) (sadd 64 a (Get_imm inst)).
Definition Jeq_i32_am64_r_r_ofs (inst : AM_EXPAND) : MM unit :=
  a ← reg_get I32 (Get_rd inst);
  b ← reg_get I32 (Get_rs inst);
  jump_if (a =? b) inst.
Definition Jeq_i64_am64_r_r_ofs (inst : AM_EXPAND) : MM unit :=
  a ← reg_get I64 (Get_rd inst);
  b ← reg_get I64 (Get_rs inst);
  jump_if (a =? b) inst.
Definition Jeq_f32_am64_r_r_ofs (inst : AM_EXPAND) : MM unit :=
  a ← reg_get F32 (Get_rd inst);
  b ← reg_get F32 (Get_rs inst);
  jump_if (feqb FLOAT32 a b) inst.
Definition Jeq_f64_am64_r_r_ofs (inst : AM_EXPAND) : MM unit :=
  a ← reg_get F64 (Get_rd inst);
  b ← reg_get F64 (Get_rs inst);
  jump_if (feqb FLOAT64 a b) inst.
Definition Jne_i32_am64_r_r_ofs (inst : AM_EXPAND) : MM unit :=
  a ← reg_get I32 (Get_rd inst);
  b ← reg_get I32 (Get_rs inst);
  jump_if (negb (a =? b)) inst.
Definition Jne_i64_am64_r_r_ofs (inst : AM_EXPAND) : MM unit :=
  a ← reg_get I64 (Get_rd inst);
  b ← reg_get I64 (Get_rs inst);
  jump_if (negb (a =? b)) inst.
Definition Jne_f32_am64_r_r_ofs (inst : AM_EXPAND) : MM unit :=
  a ← reg_get F32 (Get_rd inst);
  b ← reg_get F32 (Get_rs inst);
  jump_if (negb (feqb FLOAT32 a b)) inst.
Definition Jne_f64_am64_r_r_ofs (inst : AM_EXPAND) : MM unit :=
  a ← reg_get F64 (Get_rd inst);
  b ← reg_get F64 (Get_rs inst);
  jump_if (negb (feqb FLOAT64 a b)) inst.
Definition Jlt_i32_am64_r_r_ofs (inst : AM_EXPAND) : MM unit :=
  a ← reg_get I32 (Get_rd inst);
  b ← reg_get I32 (Get_rs inst);
  jump_if (a <? b) inst.
Definition Jlt_i64_am64_r_r_ofs (inst : AM_EXPAND) : MM unit :=
  a ← reg_get I64 (Get_rd inst);
  b ← reg_get I64 (Get_rs inst);
  jump_if (a <? b) inst.
Definition Jlt_f32_am64_r_r_ofs (inst : AM_EXPAND) : MM unit :=
  a ← reg_get F32 (Get_rd inst);
  b ← reg_get F32 (Get_rs inst);
  jump_if (fltb FLOAT32 a b) inst.
Definition Jlt_f64_am64_r_r_ofs (inst : AM_EXPAND) : MM unit :=
  a ← reg_get F64 (Get_rd inst);
  b ← reg_get F64 (Get_rs inst);
  jump_if (fltb FLOAT64 a b) inst.
Definition Jle_i32_am64_r_r_ofs (inst : AM_EXPAND) : MM unit :=
  a ← reg_get I32 (Get_rd inst);
  b ← reg_get I32 (Get_rs inst);
  jump_if (a <=? b) inst.
Definition Jle_i64_am64_r_r_ofs (inst : AM_EXPAND) : MM unit :=
  a ← reg_get I64 (Get_rd inst);
  b ← reg_get I64 (Get_rs inst);
  jump_if (a <=? b) inst.
Definition Jle_f32_am64_r_r_ofs (inst : AM_EXPAND) : MM unit :=
  a ← reg_get F32 (Get_rd inst);
  b ← reg_get F32 (Get_rs inst);
  jump_if (fleb FLOAT32 a b) inst.
Definition Jle_f64_am64_r_r_ofs (inst : AM_EXPAND) : MM unit :=
  a ← reg_get F64 (Get_rd inst);
  b ← reg_get F64 (Get_rs inst);
  jump_if (fleb FLOAT64 a b) inst.
Definition Jgt_i32_am64_r_r_ofs (inst : AM_EXPAND) : MM unit :=
  a ← reg_get I32 (Get_rd inst);
  b ← reg_get I32 (Get_rs inst);
  jump_if (b <? a) inst.
Definition Jgt_i64_am64_r_r_ofs (inst : AM_EXPAND) : MM unit :=
  a ← reg_get I64 (Get_rd inst);
  b ← reg_get I64 (Get_rs inst);
  jump_if (b <? a) inst.
Definition Jgt_f32_am64_r_r_ofs (inst : AM_EXPAND) : MM unit :=
  a ← reg_get F32 (Get_rd inst);
  b ← reg_get F32 (Get_rs inst);
  jump_if (fltb FLOAT32 b a) inst.
Definition Jgt_f64_am64_r_r_ofs (inst : AM_EXPAND) : MM unit :=
  a ← reg_get F64 (Get_rd inst);
  b ← reg_get F64 (Get_rs inst);
  jump_if (fltb FLOAT64 b a) inst.
Definition Jge_i32_am64_r_r_ofs (inst : AM_EXPAND) : MM unit :=
  a ← reg_get I32 (Get_rd inst);
  b ← reg_get I32 (Get_rs inst);
  jump_if (b <=? a) inst.
Definition Jge_i64_am64_r_r_ofs (inst : AM_EXPAND) : MM unit :=
  a ← reg_get I64 (Get_rd inst);
  b ← reg_get I64 (Get_rs inst);
  jump_if (b <=? a) inst.
Definition Jge_f32_am64_r_r_ofs (inst : AM_EXPAND) : MM unit :=
  a ← reg_get F32 (Get_rd inst);
  b ← reg_get F32 (Get_rs inst);
  jump_if (fleb FLOAT32 b a) inst.
Definition Jge_f64_am64_r_r_ofs (inst : AM_EXPAND) : MM unit :=
  a ← reg_get F64 (Get_rd inst);
  b ← reg_get F64 (Get_rs inst);
  jump_if (fleb FLOAT64 b a) inst.
Definition Jlt_u_i32_am64_r_r_ofs (inst : AM_EXPAND) : MM unit :=
  a ← reg_get I32 (Get_rd inst);
  b ← reg_get I32 (Get_rs inst);
  jump_if (UINT32 a <? UINT32 b) inst.
Definition Jlt_u_i64_am64_r_r_ofs (inst : AM_EXPAND) : MM unit :=
  a ← reg_get I64 (Get_rd inst);
  b ← reg_get I64 (Get_rs inst);
  jump_if (UINT64 a <? UINT64 b) inst.
Definition Jle_u_i32_am64_r_r_ofs (inst : AM_EXPAND) : MM unit :=
  a ← reg_get I32 (Get_rd inst);
  b ← reg_get I32 (Get_rs inst);
  jump_if (UINT32 a <=? UINT32 b) inst.
Definition Jle_u_i64_am64_r_r_ofs (inst : AM_EXPAND) : MM unit :=
  a ← reg_get I64 (Get_rd inst);
  b ← reg_get I64 (Get_rs inst);
  jump_if (UINT64 a <=? UINT64 b) inst.
Definition Jgt_u_i32_am64_r_r_ofs (inst : AM_EXPAND) : MM unit :=
  a ← reg_get I32 (Get_rd inst);
  b ← reg_get I32 (Get_rs inst);
  jump_if (UINT32 b <? UINT32 a) inst.
Definition Jgt_u_i64_am64_r_r_ofs (inst : AM_EXPAND) : MM unit :=
  a ← reg_get I64 (Get_rd inst);
  b ← reg_get I64 (Get_rs inst);
  jump_if (UINT64 b <? UINT64 a) inst.
Definition Jge_u_i32_am64_r_r_ofs (inst : AM_EXPAND) : MM unit :=
  a ← reg_get I32 (Get_rd inst);
  b ← reg_get I32 (Get_rs inst);
  jump_if (UINT32 b <=? UINT32 a) inst.
Definition Jge_u_i64_am64_r_r_ofs (inst : AM_EXPAND) : MM unit :=
  a ← reg_get I64 (Get_rd inst);
  b ← reg_get I64 (Get_rs inst);
  jump_if (UINT64 b <=? UINT64 a) inst.
Definition Load_i32_am64_r_r_imm (inst : AM_EXPAND) : MM unit :=
  base_addr ← Get_base_addr (Get_rs inst);
  v ← mem_load 4 (base_addr + Get_imm inst);
  reg_set I32 (Get_rd inst) (INT32 v).
Definition Load_i64_am64_r_r_imm (inst : AM_EXPAND) : MM unit :=
  base_addr ← Get_base_addr (Get_rs inst);
  v ← mem_load 8 (base_addr + Get_imm inst);
  reg_set I64 (Get_rd inst) (INT64 v).
Definition Load_f32_am64_r_r_imm (inst : AM_EXPAND) : MM unit :=
  base_addr ← Get_base_addr (Get_rs inst);
  v ← mem_load 4 (base_addr + Get_imm inst);
  reg_set F32 (Get_rd inst) v.
Definition Load_f64_am64_r_r_imm (inst : AM_EXPAND) : MM unit :=
  base_addr ← Get_base_addr (Get_rs inst);
  v ← mem_load 8 (base_addr + Get_imm inst);
  reg_set F64 (Get_rd inst) v.
Definition Load8_i32_am64_r_r_imm (inst : AM_EXPAND) : MM unit :=
  base_addr ← Get_base_addr (Get_rs inst);
  v ← mem_load 1 (base_addr + Get_imm inst);
  reg_set I32 (Get_rd inst) (INT8 v).
Definition Load8_i64_am64_r_r_imm (inst : AM_EXPAND) : MM unit :=
  base_addr ← Get_base_addr (Get_rs inst);
  v ← mem_load 1 (base_addr + Get_imm inst);
  reg_set I64 (Get_rd inst) (INT8 v).
Definition Load8_u_i32_am64_r_r_imm (inst : AM_EXPAND) : MM unit :=
  base_addr ← Get_base_addr (Get_rs inst);
  v ← mem_load 1 (base_addr + Get_imm inst);
  reg_set I32 (Get_rd inst) v.
Definition Load8_u_i64_am64_r_r_imm (inst : AM_EXPAND) : MM unit :=
  base_addr ← Get_base_addr (Get_rs inst);
  v ← mem_load 1 (base_addr + Get_imm inst);
  reg_set I64 (Get_rd inst) v.
Definition Load16_i32_am64_r_r_imm (inst : AM_EXPAND) : MM unit :=
  base_addr ← Get_base_addr (Get_rs inst);
  v ← mem_load 2 (base_addr + Get_imm inst);
  reg_set I32 (Get_rd inst) (INT16 v).
Definition Load16_i64_am64_r_r_imm (inst : AM_EXPAND) : MM unit :=
  base_addr ← Get_base_addr (Get_rs inst);
  v ← mem_load 2 (base_addr + Get_imm inst);
  reg_set I64 (Get_rd inst) (INT16 v).
Definition Load16_u_i32_am64_r_r_imm (inst : AM_EXPAND) : MM unit :=
  base_addr ← Get_base_addr (Get_rs inst);
  v ← mem_load 2 (base_addr + Get_imm inst);
  reg_set I32 (Get_rd inst) v.
Definition Load16_u_i64_am64_r_r_imm (inst : AM_EXPAND) : MM unit :=
  base_addr ← Get_base_addr (Get_rs inst);
  v ← mem_load 2 (base_addr + Get_imm inst);
  reg_set I64 (Get_rd inst) v.
Definition Load32_i64_am64_r_r_imm (inst : AM_EXPAND) : MM unit :=
  base_addr ← Get_base_addr (Get_rs inst);
  v ← mem_load 4 (base_addr + Get_imm inst);
  reg_set I64 (Get_rd inst) (INT32 v).
Definition Load32_u_i64_am64_r_r_imm (inst : AM_EXPAND) : MM unit :=
  base_addr ← Get_base_addr (Get_rs inst);
  v ← mem_load 4 (base_addr + Get_imm inst);
  reg_set I64 (Get_rd inst) v.
Definition Store_i32_am64_r_r_imm (inst : AM_EXPAND) : MM unit :=
  base_addr ← Get_base_addr (Get_rs inst);
  v ← reg_get I32 (Get_rd inst);
  mem_store 4 (base_addr + Get_imm inst) v.
Definition Store_i64_am64_r_r_imm (inst : AM_EXPAND) : MM unit :=
  base_addr ← Get_base_addr (Get_rs inst);
  v ← reg_get I64 (Get_rd inst);
  mem_store 8 (base_addr + Get_imm inst) v.
Definition Store_f32_am64_r_r_imm (inst : AM_EXPAND) : MM unit :=
  base_addr ← Get_base_addr (Get_rs inst);
  v ← reg_get F32 (Get_rd inst);
  mem_store 4 (base_addr + Get_imm inst) v.
Definition Store_f64_am64_r_r_imm (inst : AM_EXPAND) : MM unit :=
  base_addr ← Get_base_addr (Get_rs inst);
  v ← reg_get F64 (Get_rd inst);
  mem_store 8 (base_addr + Get_imm inst) v.
Definition Store8_i32_am64_r_r_imm (inst : AM_EXPAND) : MM unit :=
  base_addr ← Get_base_addr (Get_rs inst);
  v ← reg_get I32 (Get_rd inst);
  mem_store 1 (base_addr + Get_imm inst) v.
Definition Store8_i64_am64_r_r_imm (inst : AM_EXPAND) : MM unit :=
  base_addr ← Get_base_addr (Get_rs inst);
  v ← reg_get I64 (Get_rd inst);
  mem_store 1 (base_addr + Get_imm inst) v.
Definition Store16_i32_am64_r_r_imm (inst : AM_EXPAND) : MM unit :=
  base_addr ← Get_base_addr (Get_rs inst);
  v ← reg_get I32 (Get_rd inst);
  mem_store 2 (base_addr + Get_imm inst) v.
Definition Store16_i64_am64_r_r_imm (inst : AM_EXPAND) : MM unit :=
  base_addr ← Get_base_addr (Get_rs inst);
  v ← reg_get I64 (Get_rd inst);
  mem_store 2 (base_addr + Get_imm inst) v.
Definition Store32_i64_am64_r_r_imm (inst : AM_EXPAND) : MM unit :=
  base_addr ← Get_base_addr (Get_rs inst);
  v ← reg_get I64 (Get_rd inst);
  mem_store 4 (base_addr + Get_imm inst) v.
Definition Lload_i32_am64_r_imm (inst : AM_EXPAND) : MM unit :=
  Lload_i32_am32_r_imm inst.
Definition Lload_i64_am64_r_imm (inst : AM_EXPAND) : MM unit :=
  Lload_i64_am32_r_imm inst.
Definition Lload_f32_am64_r_imm (inst : AM_EXPAND) : MM unit :=
  Lload_f32_am32_r_imm inst.
Definition Lload_f64_am64_r_imm (inst : AM_EXPAND) : MM unit :=
  Lload_f64_am32_r_imm inst.
Definition Lload8_i32_am64_r_imm (inst : AM_EXPAND) : MM unit :=
  Lload8_i32_am32_r_imm inst.
Definition Lload8_i64_am64_r_imm (inst : AM_EXPAND) : MM unit :=
  Lload8_i64_am32_r_imm inst.
Definition Lload8_u_i32_am64_r_imm (inst : AM_EXPAND) : MM unit :=
  Lload8_u_i32_am32_r_imm inst.
Definition Lload8_u_i64_am64_r_imm (inst : AM_EXPAND) : MM unit :=
  Lload8_u_i64_am32_r_imm inst.
Definition Lload16_i32_am64_r_imm (inst : AM_EXPAND) : MM unit :=
  Lload16_i32_am32_r_imm inst.
Definition Lload16_i64_am64_r_imm (inst : AM_EXPAND) : MM unit :=
  Lload16_i64_am32_r_imm inst.
Definition Lload16_u_i32_am64_r_imm (inst : AM_EXPAND) : MM unit :=
  Lload16_u_i32_am32_r_imm inst.
Definition Lload16_u_i64_am64_r_imm (inst : AM_EXPAND) : MM unit :=
  Lload16_u_i64_am32_r_imm inst.
Definition Lload32_i64_am64_r_imm (inst : AM_EXPAND) : MM unit :=
  Lload32_i64_am32_r_imm inst.
Definition Lload32_u_i64_am64_r_imm (inst : AM_EXPAND) : MM unit :=
  Lload32_u_i64_am32_r_imm inst.
Definition Lstore_i32_am64_r_imm (inst : AM_EXPAND) : MM unit :=
  Lstore_i32_am32_r_imm inst.
Definition Lstore_i64_am64_r_imm (inst : AM_EXPAND) : MM unit :=
  Lstore_i64_am32_r_imm inst.
Definition Lstore_f32_am64_r_imm (inst : AM_EXPAND) : MM unit :=
  Lstore_f32_am32_r_imm inst.
Definition Lstore_f64_am64_r_imm (inst : AM_EXPAND) : MM unit :=
  Lstore_f64_am32_r_imm inst.
Definition Lstore8_i32_am64_r_imm (inst : AM_EXPAND) : MM unit :=
  Lstore8_i32_am32_r_imm inst.
Definition Lstore8_i64_am64_r_imm (inst : AM_EXPAND) : MM unit :=
  Lstore8_i64_am32_r_imm inst.
Definition Lstore16_i32_am64_r_imm (inst : AM_EXPAND) : MM unit :=
  Lstore16_i32_am32_r_imm inst.
Definition Lstore16_i64_am64_r_imm (inst : AM_EXPAND) : MM unit :=
  Lstore16_i64_am32_r_imm inst.
Definition Lstore32_i64_am64_r_imm (inst : AM_EXPAND) : MM unit :=
  Lstore32_i64_am32_r_imm inst.
Definition Eq_i32_am64_r_r_r (inst : AM_EXPAND) : MM unit :=
  a ← reg_get I32 (Get_rs inst);
  b ← reg_get I32 (Get_rt inst);
  reg_set I32 (Get_rd inst) (b2z (a =? b)).
Definition Eq_i64_am64_r_r_r (inst : AM_EXPAND) : MM unit :=
  a ← reg_get I64 (Get_rs inst);
  b ← reg_get I64 (Get_rt inst);
  reg_set I64 (Get_rd inst) (b2z (a =? b)).
Definition Eq_f32_am64_r_r_r (inst : AM_EXPAND) : MM unit :=
  a ← reg_get F32 (Get_rs inst);
  b ← reg_get F32 (Get_rt inst);
  reg_set F32 (Get_rd inst) (of_int FLOAT32 (b2z (feqb FLOAT32 a b))).
Definition Eq_f64_am64_r_r_r (inst : AM_EXPAND) : MM unit :=
  a ← reg_get F64 (Get_rs inst);
  b ← reg_get F64 (Get_rt inst);
  reg_set F64 (Get_rd inst) (of_int FLOAT64 (b2z (feqb FLOAT64 a b))).
Definition Ne_i32_am64_r_r_r (inst : AM_EXPAND) : MM unit :=
  a ← reg_get I32 (Get_rs inst);
  b ← reg_get I32 (Get_rt inst);
  reg_set I32 (Get_rd inst) (b2z (negb (a =? b))).
Definition Ne_i64_am64_r_r_r (inst : AM_EXPAND) : MM unit :=
  a ← reg_get I64 (Get_rs inst);
  b ← reg_get I64 (Get_rt inst);
  reg_set I64 (Get_rd inst) (b2z (negb (a =? b))).
Definition Ne_f32_am64_r_r_r (inst : AM_EXPAND) : MM unit :=
  a ← reg_get F32 (Get_rs inst);
  b ← reg_get F32 (Get_rt inst);
  reg_set F32 (Get_rd inst) (of_int FLOAT32 (b2z (negb (feqb FLOAT32 a b)))).
Definition Ne_f64_am64_r_r_r (inst : AM_EXPAND) : MM unit :=
  a ← reg_get F64 (Get_rs inst);
  b ← reg_get F64 (Get_rt inst);
  reg_set F64 (Get_rd inst) (of_int FLOAT64 (b2z (negb (feqb FLOAT64 a b)))).
Definition Lt_i32_am64_r_r_r (inst : AM_EXPAND) : MM unit :=
  a ← reg_get I32 (Get_rs inst);
  b ← reg_get I32 (Get_rt inst);
  reg_set I32 (Get_rd inst) (b2z (a <? b)).
Definition Lt_i64_am64_r_r_r (inst : AM_EXPAND) : MM unit :=
  a ← reg_get I64 (Get_rs inst);
  b ← reg_get I64 (Get_rt inst);
  reg_set I64 (Get_rd inst) (b2z (a <? b)).
Definition Lt_f32_am64_r_r_r (inst : AM_EXPAND) : MM unit :=
  a ← reg_get F32 (Get_rs inst);
  b ← reg_get F32 (Get_rt inst);
  reg_set F32 (Get_rd inst) (of_int FLOAT32 (b2z (fltb FLOAT32 a b))).
Definition Lt_f64_am64_r_r_r (inst : AM_EXPAND) : MM unit :=
  a ← reg_get F64 (Get_rs inst);
  b ← reg_get F64 (Get_rt inst);
  reg_set F64 (Get_rd inst) (of_int FLOAT64 (b2z (fltb FLOAT64 a b))).
Definition Lt_u_i32_am64_r_r_r (inst : AM_EXPAND) : MM unit :=
  a ← reg_get I32 (Get_rs inst);
  b ← reg_get I32 (Get_rt inst);
  reg_set I32 (Get_rd inst) (b2z (UINT32 a <? UINT32 b)).
Definition Lt_u_i64_am64_r_r_r (inst : AM_EXPAND) : MM unit :=
  a ← reg_get I64 (Get_rs inst);
  b ← reg_get I64 (Get_rt inst);
  reg_set I64 (Get_rd inst) (b2z (UINT64 a <? UINT64 b)).
Definition Gt_i32_am64_r_r_r (inst : AM_EXPAND) : MM unit :=
  a ← reg_get I32 (Get_rs inst);
  b ← reg_get I32 (Get_rt inst);
  reg_set I32 (Get_rd inst) (b2z (b <? a)).
Definition Gt_i64_am64_r_r_r (inst : AM_EXPAND) : MM unit :=
  a ← reg_get I64 (Get_rs inst);
  b ← reg_get I64 (Get_rt inst);
  reg_set I64 (Get_rd inst) (b2z (b <? a)).
Definition Gt_f32_am64_r_r_r (inst : AM_EXPAND) : MM unit :=
  a ← reg_get F32 (Get_rs inst);
  b ← reg_get F32 (Get_rt inst);
  reg_set F32 (Get_rd inst) (of_int FLOAT32 (b2z (fltb FLOAT32 b a))).
Definition Gt_f64_am64_r_r_r (inst : AM_EXPAND) : MM unit :=
  a ← reg_get F64 (Get_rs inst);
  b ← reg_get F64 (Get_rt inst);
  reg_set F64 (Get_rd inst) (of_int FLOAT64 (b2z (fltb FLOAT64 b a))).
Definition Gt_u_i32_am64_r_r_r (inst : AM_EXPAND) : MM unit :=
  a ← reg_get I32 (Get_rs inst);
  b ← reg_get I32 (Get_rt inst);
  reg_set I32 (Get_rd inst) (b2z (UINT32 b <? UINT32 a)).
Definition Gt_u_i64_am64_r_r_r (inst : AM_EXPAND) : MM unit :=
  a ← reg_get I64 (Get_rs inst);
  b ← reg_get I64 (Get_rt inst);
  reg_set I64 (Get_rd inst) (b2z (UINT64 b <? UINT64 a)).
Definition Le_i32_am64_r_r_r (inst : AM_EXPAND) : MM unit :=
  a ← reg_get I32 (Get_rs inst);
  b ← reg_get I32 (Get_rt inst);
  reg_set I32 (Get_rd inst) (b2z (a <=? b)).
Definition Le_i64_am64_r_r_r (inst : AM_EXPAND) : MM unit :=
  a ← reg_get I64 (Get_rs inst);
  b ← reg_get I64 (Get_rt inst);
  reg_set I64 (Get_rd inst) (b2z (a <=? b)).
Definition Le_f32_am64_r_r_r (inst : AM_EXPAND) : MM unit :=
  a ← reg_get F32 (Get_rs inst);
  b ← reg_get F32 (Get_rt inst);
  reg_set I32 (Get_rd inst) (b2z (fleb FLOAT32 a b)).
Definition Le_f64_am64_r_r_r (inst : AM_EXPAND) : MM unit :=
  a ← reg_get F64 (Get_rs inst);
  b ← reg_get F64 (Get_rt inst);
  reg_set F64 (Get_rd inst) (of_int FLOAT64 (b2z (fleb FLOAT64 a b))).
Definition Le_u_i32_am64_r_r_r (inst : AM_EXPAND) : MM unit :=
  a ← reg_get I32 (Get_rs inst);
  b ← reg_get I32 (Get_rt inst);
  reg_set I32 (Get_rd inst) (b2z (UINT32 a <=? UINT32 b)).
Definition Le_u_i64_am64_r_r_r (inst : AM_EXPAND) : MM unit :=
  a ← reg_get I64 (Get_rs inst);
  b ← reg_get I64 (Get_rt inst);
  reg_set I64 (Get_rd inst) (b2z (UINT64 a <=? UINT64 b)).
Definition Ge_i32_am64_r_r_r (inst : AM_EXPAND) : MM unit :=
  a ← reg_get I32 (Get_rs inst);
  b ← reg_get I32 (Get_rt inst);
  reg_set I32 (Get_rd inst) (b2z (b <=? a)).
Definition Ge_i64_am64_r_r_r (inst : AM_EXPAND) : MM unit :=
  a ← reg_get I64 (Get_rs inst);
  b ← reg_get I64 (Get_rt inst);
  reg_set I64 (Get_rd inst) (b2z (b <=? a)).
Definition Ge_f32_am64_r_r_r (inst : AM_EXPAND) : MM unit :=
  a ← reg_get F32 (Get_rs inst);
  b ← reg_get F32 (Get_rt inst);
  reg_set F32 (Get_rd inst) (of_int FLOAT32 (b2z (fleb FLOAT32 b a))).
Definition Ge_f64_am64_r_r_r (inst : AM_EXPAND) : MM unit :=
  a ← reg_get F64 (Get_rs inst);
  b ← reg_get F64 (Get_rt inst);
  reg_set F64 (Get_rd inst) (of_int FLOAT64 (b2z (fleb FLOAT64 b a))).
Definition Ge_u_i32_am64_r_r_r (inst : AM_EXPAND) : MM unit :=
  a ← reg_get I32 (Get_rs inst);
  b ← reg_get I32 (Get_rt inst);
  reg_set I32 (Get_rd inst) (b2z (UINT32 b <=? UINT32 a)).
Definition Ge_u_i64_am64_r_r_r (inst : AM_EXPAND) : MM unit :=
  a ← reg_get I64 (Get_rs inst);
  b ← reg_get I64 (Get_rt inst);
  reg_set I64 (Get_rd inst) (b2z (UINT64 b <=? UINT64 a)).
Definition Add_i32_am64_r_r_r (inst : AM_EXPAND) : MM unit :=
  a ← reg_get I32 (Get_rs inst);
  b ← reg_get I32 (Get_rt inst);
  reg_set I32 (Get_rd inst) (sadd 32 a b).
Definition Add_i64_am64_r_r_r (inst : AM_EXPAND) : MM unit :=
  a ← reg_get I64 (Get_rs inst);
  b ← reg_get I64 (Get_rt inst);
  reg_set I64 (Get_rd inst) (sadd 64 a b).
Definition Add_f32_am64_r_r_r (inst : AM_EXPAND) : MM unit :=
  a ← reg_get F32 (Get_rs inst);
  b ← reg_get F32 (Get_rt inst);
  reg_set F32 (Get_rd inst) (fadd FLOAT32 a b).
Definition Add_f64_am64_r_r_r (inst : AM_EXPAND) : MM unit :=
  a ← reg_get F64 (Get_rs inst);
  b ← reg_get F64 (Get_rt inst);
  reg_set F64 (Get_rd inst) (fadd FLOAT64 a b).
Definition Sub_i32_am64_r_r_r (inst : AM_EXPAND) : MM unit :=
  a ← reg_get I32 (Get_rs inst);
  b ← reg_get I32 (Get_rt inst);
  reg_set I32 (Get_rd inst) (ssub 32 a b).
Definition Sub_i64_am64_r_r_r (inst : AM_EXPAND) : MM unit :=
  a ← reg_get I64 (Get_rs inst);
  b ← reg_get I64 (Get_rt inst);
  reg_set I64 (Get_rd inst) (ssub 64 a b).
Definition Sub_f32_am64_r_r_r (inst : AM_EXPAND) : MM unit :=
  a ← reg_get F32 (Get_rs inst);
  b ← reg_get F32 (Get_rt inst);
  reg_set F32 (Get_rd inst) (fsub FLOAT32 a b).
Definition Sub_f64_am64_r_r_r (inst : AM_EXPAND) : MM unit :=
  a ← reg_get F64 (Get_rs inst);
  b ← reg_get F64 (Get_rt inst);
  reg_set F64 (Get_rd inst) (fsub FLOAT64 a b).
Definition Mul_i32_am64_r_r_r (inst : AM_EXPAND) : MM unit :=
  a ← reg_get I32 (Get_rs inst);
  b ← reg_get I32 (Get_rt inst);
  reg_set I32 (Get_rd inst) (smul 32 a b).
Definition Mul_i64_am64_r_r_r (inst : AM_EXPAND) : MM unit :=
  a ← reg_get I64 (Get_rs inst);
  b ← reg_get I64 (Get_rt inst);
  reg_set I64 (Get_rd inst) (smul 64 a b).
Definition Mul_f32_am64_r_r_r (inst : AM_EXPAND) : MM unit :=
  a ← reg_get F32 (Get_rs inst);
  b ← reg_get F32 (Get_rt inst);
  reg_set F32 (Get_rd inst) (fmul FLOAT32 a b).
Definition Mul_f64_am64_r_r_r (inst : AM_EXPAND) : MM unit :=
  a ← reg_get F64 (Get_rs inst);
  b ← reg_get F64 (Get_rt inst);
  reg_set F64 (Get_rd inst) (fmul FLOAT64 a b).
Definition Div_i32_am64_r_r_r (inst : AM_EXPAND) : MM unit :=
  a ← reg_get I32 (Get_rs inst);
  b ← reg_get I32 (Get_rt inst);
  q ← lift (sdiv 32 a b);
  reg_set I32 (Get_rd inst) q.
Definition Div_i64_am64_r_r_r (inst : AM_EXPAND) : MM unit :=
  a ← reg_get I64 (Get_rs inst);
  b ← reg_get I64 (Get_rt inst);
  q ← lift (sdiv 64 a b);
  reg_set I64 (Get_rd inst) q.
Definition Div_f32_am64_r_r_r (inst : AM_EXPAND) : MM unit :=
  a ← reg_get F32 (Get_rs inst);
  b ← reg_get F32 (Get_rt inst);
  reg_set F32 (Get_rd inst) (fdiv FLOAT32 a b).
Definition Div_f64_am64_r_r_r (inst : AM_EXPAND) : MM unit :=
  a ← reg_get F64 (Get_rs inst);
  b ← reg_get F64 (Get_rt inst);
  reg_set F64 (Get_rd inst) (fdiv FLOAT64 a b).
Definition Div_u_i32_am64_r_r_r (inst : AM_EXPAND) : MM unit :=
  a ← reg_get I32 (Get_rs inst);
  b ← reg_get I32 (Get_rt inst);
  q ← lift (sdiv 32 a b);
  reg_set I32 (Get_rd inst) q.
Definition Div_u_i64_am64_r_r_r (inst : AM_EXPAND) : MM unit :=
  a ← reg_get I64 (Get_rs inst);
  b ← reg_get I64 (Get_rt inst);
  q ← lift (sdiv 64 a b);
  reg_set I64 (Get_rd inst) q.
Definition Rem_i32_am64_r_r_r (inst : AM_EXPAND) : MM unit :=
  a ← reg_get I32 (Get_rs inst);
  b ← reg_get I32 (Get_rt inst);
  q ← lift (srem 32 a b);
  reg_set I32 (Get_rd inst) q.
Definition Rem_i64_am64_r_r_r (inst : AM_EXPAND) : MM unit :=
  a ← reg_get I64 (Get_rs inst);
  b ← reg_get I64 (Get_rt inst);
  q ← lift (srem 64 a b);
  reg_set I64 (Get_rd inst) q.
Definition Rem_u_i32_am64_r_r_r (inst : AM_EXPAND) : MM unit :=
  a ← reg_get I32 (Get_rs inst);
  b ← reg_get I32 (Get_rt inst);
  q ← lift (srem 32 a b);
  reg_set I32 (Get_rd inst) q.
Definition Rem_u_i64_am64_r_r_r (inst : AM_EXPAND) : MM unit :=
  a ← reg_get I64 (Get_rs inst);
  b ← reg_get I64 (Get_rt inst);
  q ← lift (srem 64 a b);
  reg_set I64 (Get_rd inst) q.
Definition And_i32_am64_r_r_r (inst : AM_EXPAND) : MM unit :=
  a ← reg_get I32 (Get_rs inst);
  b ← reg_get I32 (Get_rt inst);
  reg_set I32 (Get_rd inst) (Z.land a b).
Definition And_i64_am64_r_r_r (inst : AM_EXPAND) : MM unit :=
  a ← reg_get I64 (Get_rs inst);
  b ← reg_get I64 (Get_rt inst);
  reg_set I64 (Get_rd inst) (Z.land a b).
Definition Or_i32_am64_r_r_r (inst : AM_EXPAND) : MM unit :=
  a ← reg_get I32 (Get_rs inst);
  b ← reg_get I32 (Get_rt inst);
  reg_set I32 (Get_rd inst) (Z.lor a b).
Definition Or_i64_am64_r_r_r (inst : AM_EXPAND) : MM unit :=
  a ← reg_get I64 (Get_rs inst);
  b ← reg_get I64 (Get_rt inst);
  reg_set I64 (Get_rd inst) (Z.lor a b).
Definition Xor_i32_am64_r_r_r (inst : AM_EXPAND) : MM unit :=
  a ← reg_get I32 (Get_rs inst);
  b ← reg_get I32 (Get_rt inst);
  reg_set I32 (Get_rd inst) (Z.lxor a b).
Definition Xor_i64_am64_r_r_r (inst : AM_EXPAND) : MM unit :=
  a ← reg_get I64 (Get_rs inst);
  b ← reg_get I64 (Get_rt inst);
  reg_set I64 (Get_rd inst) (Z.lxor a b).
Definition Shl_i32_am64_r_r_r (inst : AM_EXPAND) : MM unit :=
  a ← reg_get I32 (Get_rs inst);
  b ← reg_get I32 (Get_rt inst);
  r ← lift (sshl 32 a (UINT32 b));
  reg_set I32 (Get_rd inst) r.
Definition Shl_i64_am64_r_r_r (inst : AM_EXPAND) : MM unit :=
  a ← reg_get I64 (Get_rs inst);
  b ← reg_get I32 (Get_rt inst);
  r ← lift (sshl 64 a (UINT32 b));
  reg_set I64 (Get_rd inst) r.
Definition Shr_i32_am64_r_r_r (inst : AM_EXPAND) : MM unit :=
  a ← reg_get I32 (Get_rs inst);
  b ← reg_get I32 (Get_rt inst);
  r ← lift (sshr 32 a (UINT32 b));
  reg_set I32 (Get_rd inst) r.
Definition Shr_i64_am64_r_r_r (inst : AM_EXPAND) : MM unit :=
  a ← reg_get I64 (Get_rs inst);
  b ← reg_get I32 (Get_rt inst);
  r ← lift (sshr 64 a (UINT32 b));
  reg_set I64 (Get_rd inst) r.
Definition Shr_u_i32_am64_r_r_r (inst : AM_EXPAND) : MM unit :=
  a ← reg_get I32 (Get_rs inst);
  b ← reg_get I32 (Get_rt inst);
  r ← lift (ushr 32 (UINT32 a) (UINT32 b));
  reg_set I32 (Get_rd inst) r.
Definition Shr_u_i64_am64_r_r_r (inst : AM_EXPAND) : MM unit :=
  a ← reg_get I64 (Get_rs inst);
  b ← reg_get I32 (Get_rt inst);
  r ← lift (ushr 64 (UINT64 a) (UINT32 b));
  reg_set I64 (Get_rd inst) r.
Definition Min_f32_am64_r_r_r (inst : AM_EXPAND) : MM unit :=
  a ← reg_get F32 (Get_rs inst);
  b ← reg_get I32 (Get_rs inst);
  reg_set F32 (Get_rd inst) (fmin_mixed FLOAT32 a b).
Definition Min_f64_am64_r_r_r (inst : AM_EXPAND) : MM unit :=
  a ← reg_get F64 (Get_rs inst);
  b ← reg_get I32 (Get_rs inst);
  reg_set F64 (Get_rd inst) (fmin_mixed FLOAT64 a b).
Definition Max_f32_am64_r_r_r (inst : AM_EXPAND) : MM unit :=
  a ← reg_get F32 (Get_rs inst);
  b ← reg_get I32 (Get_rs inst);
  reg_set F32 (Get_rd inst) (fmax_mixed FLOAT32 a b).
Definition Max_f64_am64_r_r_r (inst : AM_EXPAND) : MM unit :=
  a ← reg_get F64 (Get_rs inst);
  b ← reg_get I32 (Get_rs inst);
  reg_set F64 (Get_rd inst) (fmax_mixed FLOAT64 a b).
Definition Llda_i32_am64_r_ofs (inst : AM_EXPAND) : MM unit :=
  Llda_i32_am32_r_ofs inst.
Definition Llda_i64_am64_r_ofs (inst : AM_EXPAND) : MM unit :=
  Llda_i32_am64_r_ofs inst.
Definition Builtin_i32_am64_r_r_imm (inst : AM_EXPAND) : MM unit :=
  let builtin_code := UINT16 (Get_imm inst) in
  if builtin_code =? Builtin.UBT_I32WRAPI64 then
    v ← reg_get I64 (Get_rs inst);
    reg_set I32 (Get_rd inst) (INT32 v)
  else if builtin_code =? Builtin.UBT_I32TRUNCF64U then
    v ← reg_get F64 (Get_rs inst);
    n ← lift (fto_u FLOAT64 32 v);
    reg_set I32 (Get_rd inst) n
  else if builtin_code =? Builtin.UBT_I32TRUNCF64S then
    v ← reg_get F64 (Get_rs inst);
    n ← lift (fto_s FLOAT64 32 v);
    reg_set I32 (Get_rd inst) n
  else if builtin_code =? Builtin.UBT_I32REINTEPRETF32 then
    n ← reg_get F32 (Get_rs inst);
    reg_set I32 (Get_rd inst) n
  else lift (Is_True false).
Definition Builtin_i64_am64_r_r_imm (inst : AM_EXPAND) : MM unit :=
  let builtin_code := UINT16 (Get_imm inst) in
  if builtin_code =? Builtin.UBT_I64EXTEND32S then
    v ← reg_get I32 (Get_rs inst);
    reg_set I64 (Get_rd inst) v
  else if builtin_code =? Builtin.UBT_I64EXTEND32U then
    v ← reg_get I32 (Get_rs inst);
    reg_set I64 (Get_rd inst) (UINT32 v)
  else if builtin_code =? Builtin.UBT_I64REINTEPRETF64 then
    n ← reg_get F64 (Get_rs inst);
    reg_set I64 (Get_rd inst) n
  else lift (Is_True false).
Definition Builtin_f32_am64_r_r_imm (inst : AM_EXPAND) : MM unit :=
  let builtin_code := UINT16 (Get_imm inst) in
  if builtin_code =? Builtin.UBT_F32REINTEPRETI32 then
    n ← reg_get I32 (Get_rs inst);
    reg_set F32 (Get_rd inst) n
  else lift (Is_True false).
Definition Builtin_f64_am64_r_r_imm (inst : AM_EXPAND) : MM unit :=
  let builtin_code := UINT16 (Get_imm inst) in
  if builtin_code =? Builtin.UBT_F64CVTI32S then
    v ← reg_get I32 (Get_rs inst);
    reg_set F64 (Get_rd inst) (of_int FLOAT64 v)
  else if builtin_code =? Builtin.UBT_F64CVTI32U then
    v ← reg_get I32 (Get_rs inst);
    reg_set F64 (Get_rd inst) (of_int FLOAT64 (UINT32 v))
  else if builtin_code =? Builtin.UBT_F64REINTEPRETI64 then
    n ← reg_get I64 (Get_rs inst);
    reg_set F64 (Get_rd inst) n
  else if builtin_code =? Builtin.UBT_F64ABS then
    n ← reg_get F64 (Get_rs inst);
    reg_set F64 (Get_rd inst) (fabs FLOAT64 n)
  else lift (Is_True false).
Definition Memorysize_am32_r (inst : AM_EXPAND) : MM unit :=
  m ← get;
  _ ← lift (Is_True (_mem_size m mod MEM_PAGE_SIZE =? 0));
  reg_set I32 (Get_rd inst) (_mem_size m / MEM_PAGE_SIZE).
Definition Memorygrow_am32_r_r (inst : AM_EXPAND) : MM unit :=
  m ← get;
  _ ← lift (Is_True (_mem_size m mod MEM_PAGE_SIZE =? 0));
  v ← reg_get I32 (Get_rs inst);
  let pages_cnt := UINT32 v in
  _ ← lift (Is_True (pages_cnt <? UINT32_MAX / MEM_PAGE_SIZE));
  let pages_cnt := UINT32 (pages_cnt + _mem_size m / MEM_PAGE_SIZE) in
  _ ← lift (Is_True (pages_cnt <? UINT32_MAX / MEM_PAGE_SIZE));
  result ← Grow_memory (UINT32 (pages_cnt * MEM_PAGE_SIZE));
  reg_set I32 (Get_rd inst) result.
Definition Select_i32_am64_r_r_ofs (inst : AM_EXPAND) : MM unit :=
  lift (Is_True false).
Definition Select_i64_am64_r_r_ofs (inst : AM_EXPAND) : MM unit :=
  lift (Is_True false).
Definition Select_f32_am64_r_r_ofs (inst : AM_EXPAND) : MM unit :=
  lift (Is_True false).
Definition Select_f64_am64_r_r_ofs (inst : AM_EXPAND) : MM unit :=
  lift (Is_True false).
End Handlers.
