(* ===== verification/Exec.v ===== *)
(** * The execution loop

  [UWASM_MACHINE::Exec_start] and [Control_start] of
  [src/interpreter/exec_unit.cxx], with the switch of
  [src/interpreter/exec_unit_op.def].  Breakpoints, tracing and performance
  counters are off ([Debugger.v] has the loops with breakpoints).  Beside the loop: the
  step relation it implements. *)

From S2P Require Import Prelude CInt CFloat Isa Inst Expand UModule Machine Handlers.
From Stdlib Require Import ZArith Lia.
Local Open Scope Z_scope.

(** How a case of the switch ends: [continue], [break] (the pc is then
  incremented), or [goto exec_end]. *)
Inductive FLOW : Set := CONTINUE | BREAK | EXEC_END.

Section Exec.
Context {bd : Build} {pf : Platform} {rt : Runtime} {fe : FloatEnv}.

Definition continue_ (h : MM unit) : MM FLOW := _ ← h; mret CONTINUE.
Definition break_ (h : MM unit) : MM FLOW := _ ← h; mret BREAK.

(** [exec_unit_op.def]. *)
Definition exec_op (op : U_OPCODE_LONG) (inst : AM_EXPAND) : MM FLOW :=
  match op with
  | BREAK_AM32_L | BREAK_AM321_L | BREAK_AM322_L | BREAK_AM323_L => mret EXEC_END
  | CALL_AM32_OFS_L | CALL_AM32_OFS1_L | CALL_AM32_OFS2_L | CALL_AM32_OFS3_L => continue_ (Call_am32_ofs inst)
  | CALL_INDIRECT_AM32_R_L | CALL_INDIRECT_AM32_R1_L | CALL_INDIRECT_AM32_R2_L | CALL_INDIRECT_AM32_R3_L => continue_ (Call_indirect_am32_r inst)
  | JMP_AM32_OFS_L | JMP_AM32_OFS1_L | JMP_AM32_OFS2_L | JMP_AM32_OFS3_L => continue_ (Jmp_am32_ofs inst)
  | JMP_INDIRECT_AM32_R_L | JMP_INDIRECT_AM32_R1_L | JMP_INDIRECT_AM32_R2_L | JMP_INDIRECT_AM32_R3_L => continue_ (Jmp_indirect_am32_r inst)
  | JEZ_I32_AM32_R_OFS_L => continue_ (Jez_i32_am32_r_ofs inst)
  | JEZ_I64_AM32_R_OFS_L => continue_ (Jez_i64_am32_r_ofs inst)
  | JEZ_F32_AM32_R_OFS_L => continue_ (Jez_f32_am32_r_ofs inst)
  | JEZ_F64_AM32_R_OFS_L => continue_ (Jez_f64_am32_r_ofs inst)
  | JNZ_I32_AM32_R_OFS_L => continue_ (Jnz_i32_am32_r_ofs inst)
  | JNZ_I64_AM32_R_OFS_L => continue_ (Jnz_i64_am32_r_ofs inst)
  | JNZ_F32_AM32_R_OFS_L => continue_ (Jnz_f32_am32_r_ofs inst)
  | JNZ_F64_AM32_R_OFS_L => continue_ (Jnz_f64_am32_r_ofs inst)
  | JLZ_I32_AM32_R_OFS_L => continue_ (Jlz_i32_am32_r_ofs inst)
  | JLZ_I64_AM32_R_OFS_L => continue_ (Jlz_i64_am32_r_ofs inst)
  | JLZ_F32_AM32_R_OFS_L => continue_ (Jlz_f32_am32_r_ofs inst)
  | JLZ_F64_AM32_R_OFS_L => continue_ (Jlz_f64_am32_r_ofs inst)
  | JLEZ_I32_AM32_R_OFS_L => continue_ (Jlez_i32_am32_r_ofs inst)
  | JLEZ_I64_AM32_R_OFS_L => continue_ (Jlez_i64_am32_r_ofs inst)
  | JLEZ_F32_AM32_R_OFS_L => continue_ (Jlez_f32_am32_r_ofs inst)
  | JLEZ_F64_AM32_R_OFS_L => continue_ (Jlez_f64_am32_r_ofs inst)
  | JGZ_I32_AM32_R_OFS_L => continue_ (Jgz_i32_am32_r_ofs inst)
  | JGZ_I64_AM32_R_OFS_L => continue_ (Jgz_i64_am32_r_ofs inst)
  | JGZ_F32_AM32_R_OFS_L => continue_ (Jgz_f32_am32_r_ofs inst)
  | JGZ_F64_AM32_R_OFS_L => continue_ (Jgz_f64_am32_r_ofs inst)
  | JGEZ_I32_AM32_R_OFS_L => continue_ (Jgez_i32_am32_r_ofs inst)
  | JGEZ_I64_AM32_R_OFS_L => continue_ (Jgez_i64_am32_r_ofs inst)
  | JGEZ_F32_AM32_R_OFS_L => continue_ (Jgez_f32_am32_r_ofs inst)
  | JGEZ_F64_AM32_R_OFS_L => continue_ (Jgez_f64_am32_r_ofs inst)
  | JEQ_I32_AM32S_R_R_OFS_L => continue_ (Jeq_i32_am32s_r_r_ofs inst)
  | JEQ_I64_AM32S_R_R_OFS_L => continue_ (Jeq_i64_am32s_r_r_ofs inst)
  | JEQ_F32_AM32S_R_R_OFS_L => continue_ (Jeq_f32_am32s_r_r_ofs inst)
  | JEQ_F64_AM32S_R_R_OFS_L => continue_ (Jeq_f64_am32s_r_r_ofs inst)
  | JNE_I32_AM32S_R_R_OFS_L => continue_ (Jne_i32_am32s_r_r_ofs inst)
  | JNE_I64_AM32S_R_R_OFS_L => continue_ (Jne_i64_am32s_r_r_ofs inst)
  | JNE_F32_AM32S_R_R_OFS_L => continue_ (Jne_f32_am32s_r_r_ofs inst)
  | JNE_F64_AM32S_R_R_OFS_L => continue_ (Jne_f64_am32s_r_r_ofs inst)
  | JLT_I32_AM32S_R_R_OFS_L => continue_ (Jlt_i32_am32s_r_r_ofs inst)
  | JLT_I64_AM32S_R_R_OFS_L => continue_ (Jlt_i64_am32s_r_r_ofs inst)
  | JLT_F32_AM32S_R_R_OFS_L => continue_ (Jlt_f32_am32s_r_r_ofs inst)
  | JLT_F64_AM32S_R_R_OFS_L => continue_ (Jlt_f64_am32s_r_r_ofs inst)
  | JLE_I32_AM32S_R_R_OFS_L => continue_ (Jle_i32_am32s_r_r_ofs inst)
  | JLE_I64_AM32S_R_R_OFS_L => continue_ (Jle_i64_am32s_r_r_ofs inst)
  | JLE_F32_AM32S_R_R_OFS_L => continue_ (Jle_f32_am32s_r_r_ofs inst)
  | JLE_F64_AM32S_R_R_OFS_L => continue_ (Jle_f64_am32s_r_r_ofs inst)
  | JGT_I32_AM32S_R_R_OFS_L => continue_ (Jgt_i32_am32s_r_r_ofs inst)
  | JGT_I64_AM32S_R_R_OFS_L => continue_ (Jgt_i64_am32s_r_r_ofs inst)
  | JGT_F32_AM32S_R_R_OFS_L => continue_ (Jgt_f32_am32s_r_r_ofs inst)
  | JGT_F64_AM32S_R_R_OFS_L => continue_ (Jgt_f64_am32s_r_r_ofs inst)
  | JGE_I32_AM32S_R_R_OFS_L => continue_ (Jge_i32_am32s_r_r_ofs inst)
  | JGE_I64_AM32S_R_R_OFS_L => continue_ (Jge_i64_am32s_r_r_ofs inst)
  | JGE_F32_AM32S_R_R_OFS_L => continue_ (Jge_f32_am32s_r_r_ofs inst)
  | JGE_F64_AM32S_R_R_OFS_L => continue_ (Jge_f64_am32s_r_r_ofs inst)
  | JLT_U_I32_AM32S_R_R_OFS_L => continue_ (Jlt_u_i32_am32s_r_r_ofs inst)
  | JLT_U_I64_AM32S_R_R_OFS_L => continue_ (Jlt_u_i64_am32s_r_r_ofs inst)
  | JLE_U_I32_AM32S_R_R_OFS_L => continue_ (Jle_u_i32_am32s_r_r_ofs inst)
  | JLE_U_I64_AM32S_R_R_OFS_L => continue_ (Jle_u_i64_am32s_r_r_ofs inst)
  | JGT_U_I32_AM32S_R_R_OFS_L => continue_ (Jgt_u_i32_am32s_r_r_ofs inst)
  | JGT_U_I64_AM32S_R_R_OFS_L => continue_ (Jgt_u_i64_am32s_r_r_ofs inst)
  | JGE_U_I32_AM32S_R_R_OFS_L => continue_ (Jge_u_i32_am32s_r_r_ofs inst)
  | JGE_U_I64_AM32S_R_R_OFS_L => continue_ (Jge_u_i64_am32s_r_r_ofs inst)
  | JEQ_I32_AM64_R_R_OFS_L => continue_ (Jeq_i32_am64_r_r_ofs inst)
  | JEQ_I64_AM64_R_R_OFS_L => continue_ (Jeq_i64_am64_r_r_ofs inst)
  | JEQ_F32_AM64_R_R_OFS_L => continue_ (Jeq_f32_am64_r_r_ofs inst)
  | JEQ_F64_AM64_R_R_OFS_L => continue_ (Jeq_f64_am64_r_r_ofs inst)
  | JNE_I32_AM64_R_R_OFS_L => continue_ (Jne_i32_am64_r_r_ofs inst)
  | JNE_I64_AM64_R_R_OFS_L => continue_ (Jne_i64_am64_r_r_ofs inst)
  | JNE_F32_AM64_R_R_OFS_L => continue_ (Jne_f32_am64_r_r_ofs inst)
  | JNE_F64_AM64_R_R_OFS_L => continue_ (Jne_f64_am64_r_r_ofs inst)
  | JLT_I32_AM64_R_R_OFS_L => continue_ (Jlt_i32_am64_r_r_ofs inst)
  | JLT_I64_AM64_R_R_OFS_L => continue_ (Jlt_i64_am64_r_r_ofs inst)
  | JLT_F32_AM64_R_R_OFS_L => continue_ (Jlt_f32_am64_r_r_ofs inst)
  | JLT_F64_AM64_R_R_OFS_L => continue_ (Jlt_f64_am64_r_r_ofs inst)
  | JLE_I32_AM64_R_R_OFS_L => continue_ (Jle_i32_am64_r_r_ofs inst)
  | JLE_I64_AM64_R_R_OFS_L => continue_ (Jle_i64_am64_r_r_ofs inst)
  | JLE_F32_AM64_R_R_OFS_L => continue_ (Jle_f32_am64_r_r_ofs inst)
  | JLE_F64_AM64_R_R_OFS_L => continue_ (Jle_f64_am64_r_r_ofs inst)
  | JGT_I32_AM64_R_R_OFS_L => continue_ (Jgt_i32_am64_r_r_ofs inst)
  | JGT_I64_AM64_R_R_OFS_L => continue_ (Jgt_i64_am64_r_r_ofs inst)
  | JGT_F32_AM64_R_R_OFS_L => continue_ (Jgt_f32_am64_r_r_ofs inst)
  | JGT_F64_AM64_R_R_OFS_L => continue_ (Jgt_f64_am64_r_r_ofs inst)
  | JGE_I32_AM64_R_R_OFS_L => continue_ (Jge_i32_am64_r_r_ofs inst)
  | JGE_I64_AM64_R_R_OFS_L => continue_ (Jge_i64_am64_r_r_ofs inst)
  | JGE_F32_AM64_R_R_OFS_L => continue_ (Jge_f32_am64_r_r_ofs inst)
  | JGE_F64_AM64_R_R_OFS_L => continue_ (Jge_f64_am64_r_r_ofs inst)
  | JLT_U_I32_AM64_R_R_OFS_L => continue_ (Jlt_u_i32_am64_r_r_ofs inst)
  | JLT_U_I64_AM64_R_R_OFS_L => continue_ (Jlt_u_i64_am64_r_r_ofs inst)
  | JLE_U_I32_AM64_R_R_OFS_L => continue_ (Jle_u_i32_am64_r_r_ofs inst)
  | JLE_U_I64_AM64_R_R_OFS_L => continue_ (Jle_u_i64_am64_r_r_ofs inst)
  | JGT_U_I32_AM64_R_R_OFS_L => continue_ (Jgt_u_i32_am64_r_r_ofs inst)
  | JGT_U_I64_AM64_R_R_OFS_L => continue_ (Jgt_u_i64_am64_r_r_ofs inst)
  | JGE_U_I32_AM64_R_R_OFS_L => continue_ (Jge_u_i32_am64_r_r_ofs inst)
  | JGE_U_I64_AM64_R_R_OFS_L => continue_ (Jge_u_i64_am64_r_r_ofs inst)
  | NOP_AM32_L | NOP_AM321_L | NOP_AM322_L | NOP_AM323_L => break_ (Nop_am32 inst)
  | UNREACH_AM32_L | UNREACH_AM321_L | UNREACH_AM322_L | UNREACH_AM323_L => break_ (Unreach_am32 inst)
  | RETURN_AM32_L | RETURN_AM321_L | RETURN_AM322_L | RETURN_AM323_L => break_ (Return_am32 inst)
  | MEMORYSIZE_AM32_R_L | MEMORYSIZE_AM32_R1_L | MEMORYSIZE_AM32_R2_L | MEMORYSIZE_AM32_R3_L => break_ (Memorysize_am32_r inst)
  | MEMORYGROW_AM32_R_R_L | MEMORYGROW_AM32_R_R1_L | MEMORYGROW_AM32_R_R2_L | MEMORYGROW_AM32_R_R3_L => break_ (Memorygrow_am32_r_r inst)
  | ADD_I32_AM32_R_IMM_L => break_ (Add_i32_am32_r_imm inst)
  | ADD_I64_AM32_R_IMM_L => break_ (Add_i64_am32_r_imm inst)
  | LLDA_I32_AM32_R_OFS_L => break_ (Llda_i32_am32_r_ofs inst)
  | LLDA_I64_AM32_R_OFS_L => break_ (Llda_i64_am32_r_ofs inst)
  | GLDA_I32_AM32_R_OFS_L => break_ (Glda_i32_am32_r_ofs inst)
  | GLDA_I64_AM32_R_OFS_L => break_ (Glda_i64_am32_r_ofs inst)
  | MOV_I32_AM32_R_R_L => break_ (Mov_i32_am32_r_r inst)
  | MOV_I64_AM32_R_R_L => break_ (Mov_i64_am32_r_r inst)
  | MOV_F32_AM32_R_R_L => break_ (Mov_f32_am32_r_r inst)
  | MOV_F64_AM32_R_R_L => break_ (Mov_f64_am32_r_r inst)
  | ADD_I32_AM32_R_R_L => break_ (Add_i32_am32_r_r inst)
  | ADD_I64_AM32_R_R_L => break_ (Add_i64_am32_r_r inst)
  | ADD_F32_AM32_R_R_L => break_ (Add_f32_am32_r_r inst)
  | ADD_F64_AM32_R_R_L => break_ (Add_f64_am32_r_r inst)
  | CONST_I32_AM32_R_IMM_L => break_ (Const_i32_am32_r_imm inst)
  | CONST_I64_AM32_R_IMM_L => break_ (Const_i64_am32_r_imm inst)
  | ADD_I32_AM32S_R_R_IMM_L => break_ (Add_i32_am32s_r_r_imm inst)
  | ADD_I64_AM32S_R_R_IMM_L => break_ (Add_i64_am32s_r_r_imm inst)
  | LOAD_I32_AM32S_R_R_IMM_L => break_ (Load_i32_am32s_r_r_imm inst)
  | LOAD_I64_AM32S_R_R_IMM_L => break_ (Load_i64_am32s_r_r_imm inst)
  | LOAD_F32_AM32S_R_R_IMM_L => break_ (Load_f32_am32s_r_r_imm inst)
  | LOAD_F64_AM32S_R_R_IMM_L => break_ (Load_f64_am32s_r_r_imm inst)
  | LOAD8_I32_AM32S_R_R_IMM_L => break_ (Load8_i32_am32s_r_r_imm inst)
  | LOAD8_I64_AM32S_R_R_IMM_L => break_ (Load8_i64_am32s_r_r_imm inst)
  | LOAD8_U_I32_AM32S_R_R_IMM_L => break_ (Load8_u_i32_am32s_r_r_imm inst)
  | LOAD8_U_I64_AM32S_R_R_IMM_L => break_ (Load8_u_i64_am32s_r_r_imm inst)
  | LOAD16_I32_AM32S_R_R_IMM_L => break_ (Load16_i32_am32s_r_r_imm inst)
  | LOAD16_I64_AM32S_R_R_IMM_L => break_ (Load16_i64_am32s_r_r_imm inst)
  | LOAD16_U_I32_AM32S_R_R_IMM_L => break_ (Load16_u_i32_am32s_r_r_imm inst)
  | LOAD16_U_I64_AM32S_R_R_IMM_L => break_ (Load16_u_i64_am32s_r_r_imm inst)
  | LOAD32_I64_AM32S_R_R_IMM_L => break_ (Load32_i64_am32s_r_r_imm inst)
  | LOAD32_U_I64_AM32S_R_R_IMM_L => break_ (Load32_u_i64_am32s_r_r_imm inst)
  | STORE_I32_AM32S_R_R_IMM_L => break_ (Store_i32_am32s_r_r_imm inst)
  | STORE_I64_AM32S_R_R_IMM_L => break_ (Store_i64_am32s_r_r_imm inst)
  | STORE_F32_AM32S_R_R_IMM_L => break_ (Store_f32_am32s_r_r_imm inst)
  | STORE_F64_AM32S_R_R_IMM_L => break_ (Store_f64_am32s_r_r_imm inst)
  | STORE8_I32_AM32S_R_R_IMM_L => break_ (Store8_i32_am32s_r_r_imm inst)
  | STORE8_I64_AM32S_R_R_IMM_L => break_ (Store8_i64_am32s_r_r_imm inst)
  | STORE16_I32_AM32S_R_R_IMM_L => break_ (Store16_i32_am32s_r_r_imm inst)
  | STORE16_I64_AM32S_R_R_IMM_L => break_ (Store16_i64_am32s_r_r_imm inst)
  | STORE32_I64_AM32S_R_R_IMM_L => break_ (Store32_i64_am32s_r_r_imm inst)
  | LLOAD_I32_AM32_R_IMM_L => break_ (Lload_i32_am32_r_imm inst)
  | LLOAD_I64_AM32_R_IMM_L => break_ (Lload_i64_am32_r_imm inst)
  | LLOAD_F32_AM32_R_IMM_L => break_ (Lload_f32_am32_r_imm inst)
  | LLOAD_F64_AM32_R_IMM_L => break_ (Lload_f64_am32_r_imm inst)
  | LLOAD8_I32_AM32_R_IMM_L => break_ (Lload8_i32_am32_r_imm inst)
  | LLOAD8_I64_AM32_R_IMM_L => break_ (Lload8_i64_am32_r_imm inst)
  | LLOAD8_U_I32_AM32_R_IMM_L => break_ (Lload8_u_i32_am32_r_imm inst)
  | LLOAD8_U_I64_AM32_R_IMM_L => break_ (Lload8_u_i64_am32_r_imm inst)
  | LLOAD16_I32_AM32_R_IMM_L => break_ (Lload16_i32_am32_r_imm inst)
  | LLOAD16_I64_AM32_R_IMM_L => break_ (Lload16_i64_am32_r_imm inst)
  | LLOAD16_U_I32_AM32_R_IMM_L => break_ (Lload16_u_i32_am32_r_imm inst)
  | LLOAD16_U_I64_AM32_R_IMM_L => break_ (Lload16_u_i64_am32_r_imm inst)
  | LLOAD32_I64_AM32_R_IMM_L => break_ (Lload32_i64_am32_r_imm inst)
  | LLOAD32_U_I64_AM32_R_IMM_L => break_ (Lload32_u_i64_am32_r_imm inst)
  | LSTORE_I32_AM32_R_IMM_L => break_ (Lstore_i32_am32_r_imm inst)
  | LSTORE_I64_AM32_R_IMM_L => break_ (Lstore_i64_am32_r_imm inst)
  | LSTORE_F32_AM32_R_IMM_L => break_ (Lstore_f32_am32_r_imm inst)
  | LSTORE_F64_AM32_R_IMM_L => break_ (Lstore_f64_am32_r_imm inst)
  | LSTORE8_I32_AM32_R_IMM_L => break_ (Lstore8_i32_am32_r_imm inst)
  | LSTORE8_I64_AM32_R_IMM_L => break_ (Lstore8_i64_am32_r_imm inst)
  | LSTORE16_I32_AM32_R_IMM_L => break_ (Lstore16_i32_am32_r_imm inst)
  | LSTORE16_I64_AM32_R_IMM_L => break_ (Lstore16_i64_am32_r_imm inst)
  | LSTORE32_I64_AM32_R_IMM_L => break_ (Lstore32_i64_am32_r_imm inst)
  | ADD_I32_AM32S_R_R_R_L => break_ (Add_i32_am32s_r_r_r inst)
  | ADD_I64_AM32S_R_R_R_L => break_ (Add_i64_am32s_r_r_r inst)
  | ADD_F32_AM32S_R_R_R_L => break_ (Add_f32_am32s_r_r_r inst)
  | ADD_F64_AM32S_R_R_R_L => break_ (Add_f64_am32s_r_r_r inst)
  | SUB_I32_AM32S_R_R_R_L => break_ (Sub_i32_am32s_r_r_r inst)
  | SUB_I64_AM32S_R_R_R_L => break_ (Sub_i64_am32s_r_r_r inst)
  | SUB_F32_AM32S_R_R_R_L => break_ (Sub_f32_am32s_r_r_r inst)
  | SUB_F64_AM32S_R_R_R_L => break_ (Sub_f64_am32s_r_r_r inst)
  | ROTL_I32_AM32S_R_R_R_L => break_ (Rotl_i32_am32s_r_r_r inst)
  | ROTL_I64_AM32S_R_R_R_L => break_ (Rotl_i64_am32s_r_r_r inst)
  | ROTR_I32_AM32S_R_R_R_L => break_ (Rotr_i32_am32s_r_r_r inst)
  | ROTR_I64_AM32S_R_R_R_L => break_ (Rotr_i64_am32s_r_r_r inst)
  | CONV_I32_I64_AM32_R_R_L => break_ (Conv_i32_i64_am32_r_r inst)
  | CONV_I32_F32_AM32_R_R_L => break_ (Conv_i32_f32_am32_r_r inst)
  | CONV_I32_F64_AM32_R_R_L => break_ (Conv_i32_f64_am32_r_r inst)
  | CONV_I32_U_I64_AM32_R_R_L => break_ (Conv_i32_u_i64_am32_r_r inst)
  | CONV_I64_I32_AM32_R_R_L => break_ (Conv_i64_i32_am32_r_r inst)
  | CONV_I64_F32_AM32_R_R_L => break_ (Conv_i64_f32_am32_r_r inst)
  | CONV_I64_F64_AM32_R_R_L => break_ (Conv_i64_f64_am32_r_r inst)
  | CONV_F32_I32_AM32_R_R_L => break_ (Conv_f32_i32_am32_r_r inst)
  | CONV_F32_I64_AM32_R_R_L => break_ (Conv_f32_i64_am32_r_r inst)
  | CONV_F32_F64_AM32_R_R_L => break_ (Conv_f32_f64_am32_r_r inst)
  | CONV_F64_I32_AM32_R_R_L => break_ (Conv_f64_i32_am32_r_r inst)
  | CONV_F64_I64_AM32_R_R_L => break_ (Conv_f64_i64_am32_r_r inst)
  | CONV_F64_F32_AM32_R_R_L => break_ (Conv_f64_f32_am32_r_r inst)
  | EQZ_I32_AM32_R_R_L => break_ (Eqz_i32_am32_r_r inst)
  | EQZ_I64_AM32_R_R_L => break_ (Eqz_i64_am32_r_r inst)
  | EQZ_F32_AM32_R_R_L => break_ (Eqz_f32_am32_r_r inst)
  | EQZ_F64_AM32_R_R_L => break_ (Eqz_f64_am32_r_r inst)
  | CEIL_F32_AM32_R_R_L => break_ (Ceil_f32_am32_r_r inst)
  | CEIL_F64_AM32_R_R_L => break_ (Ceil_f64_am32_r_r inst)
  | FLOOR_F32_AM32_R_R_L => break_ (Floor_f32_am32_r_r inst)
  | FLOOR_F64_AM32_R_R_L => break_ (Floor_f64_am32_r_r inst)
  | SQRT_F32_AM32_R_R_L => break_ (Sqrt_f32_am32_r_r inst)
  | SQRT_F64_AM32_R_R_L => break_ (Sqrt_f64_am32_r_r inst)
  | NEG_F32_AM32_R_R_L => break_ (Neg_f32_am32_r_r inst)
  | NEG_F64_AM32_R_R_L => break_ (Neg_f64_am32_r_r inst)
  | REINTR_F32_I32_AM32_R_R_L => break_ (Reintr_f32_i32_am32_r_r inst)
  | REINTR_F64_I64_AM32_R_R_L => break_ (Reintr_f64_i64_am32_r_r inst)
  | REINTR_I32_F32_AM32_R_R_L => break_ (Reintr_i32_f32_am32_r_r inst)
  | REINTR_I64_F64_AM32_R_R_L => break_ (Reintr_i64_f64_am32_r_r inst)
  | CONST_L_I32_AM64_R_IMM_L => break_ (Const_l_i32_am64_r_imm inst)
  | CONST_L_I64_AM64_R_IMM_L => break_ (Const_l_i64_am64_r_imm inst)
  | CONST_L_F32_AM64_R_IMM_L => break_ (Const_l_f32_am64_r_imm inst)
  | CONST_L_F64_AM64_R_IMM_L => break_ (Const_l_f64_am64_r_imm inst)
  | CONST_L_HIGH_I64_AM64_R_IMM_L => break_ (Const_l_high_i64_am64_r_imm inst)
  | CONST_L_HIGH_F64_AM64_R_IMM_L => break_ (Const_l_high_f64_am64_r_imm inst)
  | CTZ_I32_AM64_R_OFS_L => break_ (Ctz_i32_am64_r_ofs inst)
  | CTZ_I64_AM64_R_OFS_L => break_ (Ctz_i64_am64_r_ofs inst)
  | POPCNT_I32_AM64_R_OFS_L => break_ (Popcnt_i32_am64_r_ofs inst)
  | POPCNT_I64_AM64_R_OFS_L => break_ (Popcnt_i64_am64_r_ofs inst)
  | ADD_I32_AM64_R_R_IMM_L => break_ (Add_i32_am64_r_r_imm inst)
  | ADD_I64_AM64_R_R_IMM_L => break_ (Add_i64_am64_r_r_imm inst)
  | LOAD_I32_AM64_R_R_IMM_L => break_ (Load_i32_am64_r_r_imm inst)
  | LOAD_I64_AM64_R_R_IMM_L => break_ (Load_i64_am64_r_r_imm inst)
  | LOAD_F32_AM64_R_R_IMM_L => break_ (Load_f32_am64_r_r_imm inst)
  | LOAD_F64_AM64_R_R_IMM_L => break_ (Load_f64_am64_r_r_imm inst)
  | LOAD8_I32_AM64_R_R_IMM_L => break_ (Load8_i32_am64_r_r_imm inst)
  | LOAD8_I64_AM64_R_R_IMM_L => break_ (Load8_i64_am64_r_r_imm inst)
  | LOAD8_U_I32_AM64_R_R_IMM_L => break_ (Load8_u_i32_am64_r_r_imm inst)
  | LOAD8_U_I64_AM64_R_R_IMM_L => break_ (Load8_u_i64_am64_r_r_imm inst)
  | LOAD16_I32_AM64_R_R_IMM_L => break_ (Load16_i32_am64_r_r_imm inst)
  | LOAD16_I64_AM64_R_R_IMM_L => break_ (Load16_i64_am64_r_r_imm inst)
  | LOAD16_U_I32_AM64_R_R_IMM_L => break_ (Load16_u_i32_am64_r_r_imm inst)
  | LOAD16_U_I64_AM64_R_R_IMM_L => break_ (Load16_u_i64_am64_r_r_imm inst)
  | LOAD32_I64_AM64_R_R_IMM_L => break_ (Load32_i64_am64_r_r_imm inst)
  | LOAD32_U_I64_AM64_R_R_IMM_L => break_ (Load32_u_i64_am64_r_r_imm inst)
  | STORE_I32_AM64_R_R_IMM_L => break_ (Store_i32_am64_r_r_imm inst)
  | STORE_I64_AM64_R_R_IMM_L => break_ (Store_i64_am64_r_r_imm inst)
  | STORE_F32_AM64_R_R_IMM_L => break_ (Store_f32_am64_r_r_imm inst)
  | STORE_F64_AM64_R_R_IMM_L => break_ (Store_f64_am64_r_r_imm inst)
  | STORE8_I32_AM64_R_R_IMM_L => break_ (Store8_i32_am64_r_r_imm inst)
  | STORE8_I64_AM64_R_R_IMM_L => break_ (Store8_i64_am64_r_r_imm inst)
  | STORE16_I32_AM64_R_R_IMM_L => break_ (Store16_i32_am64_r_r_imm inst)
  | STORE16_I64_AM64_R_R_IMM_L => break_ (Store16_i64_am64_r_r_imm inst)
  | STORE32_I64_AM64_R_R_IMM_L => break_ (Store32_i64_am64_r_r_imm inst)
  | SELECT_I32_AM64_R_R_OFS_L => break_ (Select_i32_am64_r_r_ofs inst)
  | SELECT_I64_AM64_R_R_OFS_L => break_ (Select_i64_am64_r_r_ofs inst)
  | SELECT_F32_AM64_R_R_OFS_L => break_ (Select_f32_am64_r_r_ofs inst)
  | SELECT_F64_AM64_R_R_OFS_L => break_ (Select_f64_am64_r_r_ofs inst)
  | LLOAD_I32_AM64_R_IMM_L => break_ (Lload_i32_am64_r_imm inst)
  | LLOAD_I64_AM64_R_IMM_L => break_ (Lload_i64_am64_r_imm inst)
  | LLOAD_F32_AM64_R_IMM_L => break_ (Lload_f32_am64_r_imm inst)
  | LLOAD_F64_AM64_R_IMM_L => break_ (Lload_f64_am64_r_imm inst)
  | LLOAD8_I32_AM64_R_IMM_L => break_ (Lload8_i32_am64_r_imm inst)
  | LLOAD8_I64_AM64_R_IMM_L => break_ (Lload8_i64_am64_r_imm inst)
  | LLOAD8_U_I32_AM64_R_IMM_L => break_ (Lload8_u_i32_am64_r_imm inst)
  | LLOAD8_U_I64_AM64_R_IMM_L => break_ (Lload8_u_i64_am64_r_imm inst)
  | LLOAD16_I32_AM64_R_IMM_L => break_ (Lload16_i32_am64_r_imm inst)
  | LLOAD16_I64_AM64_R_IMM_L => break_ (Lload16_i64_am64_r_imm inst)
  | LLOAD16_U_I32_AM64_R_IMM_L => break_ (Lload16_u_i32_am64_r_imm inst)
  | LLOAD16_U_I64_AM64_R_IMM_L => break_ (Lload16_u_i64_am64_r_imm inst)
  | LLOAD32_I64_AM64_R_IMM_L => break_ (Lload32_i64_am64_r_imm inst)
  | LLOAD32_U_I64_AM64_R_IMM_L => break_ (Lload32_u_i64_am64_r_imm inst)
  | LSTORE_I32_AM64_R_IMM_L => break_ (Lstore_i32_am64_r_imm inst)
  | LSTORE_I64_AM64_R_IMM_L => break_ (Lstore_i64_am64_r_imm inst)
  | LSTORE_F32_AM64_R_IMM_L => break_ (Lstore_f32_am64_r_imm inst)
  | LSTORE_F64_AM64_R_IMM_L => break_ (Lstore_f64_am64_r_imm inst)
  | LSTORE8_I32_AM64_R_IMM_L => break_ (Lstore8_i32_am64_r_imm inst)
  | LSTORE8_I64_AM64_R_IMM_L => break_ (Lstore8_i64_am64_r_imm inst)
  | LSTORE16_I32_AM64_R_IMM_L => break_ (Lstore16_i32_am64_r_imm inst)
  | LSTORE16_I64_AM64_R_IMM_L => break_ (Lstore16_i64_am64_r_imm inst)
  | LSTORE32_I64_AM64_R_IMM_L => break_ (Lstore32_i64_am64_r_imm inst)
  | EQ_I32_AM64_R_R_R_L => break_ (Eq_i32_am64_r_r_r inst)
  | EQ_I64_AM64_R_R_R_L => break_ (Eq_i64_am64_r_r_r inst)
  | EQ_F32_AM64_R_R_R_L => break_ (Eq_f32_am64_r_r_r inst)
  | EQ_F64_AM64_R_R_R_L => break_ (Eq_f64_am64_r_r_r inst)
  | NE_I32_AM64_R_R_R_L => break_ (Ne_i32_am64_r_r_r inst)
  | NE_I64_AM64_R_R_R_L => break_ (Ne_i64_am64_r_r_r inst)
  | NE_F32_AM64_R_R_R_L => break_ (Ne_f32_am64_r_r_r inst)
  | NE_F64_AM64_R_R_R_L => break_ (Ne_f64_am64_r_r_r inst)
  | LT_I32_AM64_R_R_R_L => break_ (Lt_i32_am64_r_r_r inst)
  | LT_I64_AM64_R_R_R_L => break_ (Lt_i64_am64_r_r_r inst)
  | LT_F32_AM64_R_R_R_L => break_ (Lt_f32_am64_r_r_r inst)
  | LT_F64_AM64_R_R_R_L => break_ (Lt_f64_am64_r_r_r inst)
  | LT_U_I32_AM64_R_R_R_L => break_ (Lt_u_i32_am64_r_r_r inst)
  | LT_U_I64_AM64_R_R_R_L => break_ (Lt_u_i64_am64_r_r_r inst)
  | GT_I32_AM64_R_R_R_L => break_ (Gt_i32_am64_r_r_r inst)
  | GT_I64_AM64_R_R_R_L => break_ (Gt_i64_am64_r_r_r inst)
  | GT_F32_AM64_R_R_R_L => break_ (Gt_f32_am64_r_r_r inst)
  | GT_F64_AM64_R_R_R_L => break_ (Gt_f64_am64_r_r_r inst)
  | GT_U_I32_AM64_R_R_R_L => break_ (Gt_u_i32_am64_r_r_r inst)
  | GT_U_I64_AM64_R_R_R_L => break_ (Gt_u_i64_am64_r_r_r inst)
  | LE_I32_AM64_R_R_R_L => break_ (Le_i32_am64_r_r_r inst)
  | LE_I64_AM64_R_R_R_L => break_ (Le_i64_am64_r_r_r inst)
  | LE_F32_AM64_R_R_R_L => break_ (Le_f32_am64_r_r_r inst)
  | LE_F64_AM64_R_R_R_L => break_ (Le_f64_am64_r_r_r inst)
  | LE_U_I32_AM64_R_R_R_L => break_ (Le_u_i32_am64_r_r_r inst)
  | LE_U_I64_AM64_R_R_R_L => break_ (Le_u_i64_am64_r_r_r inst)
  | GE_I32_AM64_R_R_R_L => break_ (Ge_i32_am64_r_r_r inst)
  | GE_I64_AM64_R_R_R_L => break_ (Ge_i64_am64_r_r_r inst)
  | GE_F32_AM64_R_R_R_L => break_ (Ge_f32_am64_r_r_r inst)
  | GE_F64_AM64_R_R_R_L => break_ (Ge_f64_am64_r_r_r inst)
  | GE_U_I32_AM64_R_R_R_L => break_ (Ge_u_i32_am64_r_r_r inst)
  | GE_U_I64_AM64_R_R_R_L => break_ (Ge_u_i64_am64_r_r_r inst)
  | ADD_I32_AM64_R_R_R_L => break_ (Add_i32_am64_r_r_r inst)
  | ADD_I64_AM64_R_R_R_L => break_ (Add_i64_am64_r_r_r inst)
  | ADD_F32_AM64_R_R_R_L => break_ (Add_f32_am64_r_r_r inst)
  | ADD_F64_AM64_R_R_R_L => break_ (Add_f64_am64_r_r_r inst)
  | SUB_I32_AM64_R_R_R_L => break_ (Sub_i32_am64_r_r_r inst)
  | SUB_I64_AM64_R_R_R_L => break_ (Sub_i64_am64_r_r_r inst)
  | SUB_F32_AM64_R_R_R_L => break_ (Sub_f32_am64_r_r_r inst)
  | SUB_F64_AM64_R_R_R_L => break_ (Sub_f64_am64_r_r_r inst)
  | MUL_I32_AM64_R_R_R_L => break_ (Mul_i32_am64_r_r_r inst)
  | MUL_I64_AM64_R_R_R_L => break_ (Mul_i64_am64_r_r_r inst)
  | MUL_F32_AM64_R_R_R_L => break_ (Mul_f32_am64_r_r_r inst)
  | MUL_F64_AM64_R_R_R_L => break_ (Mul_f64_am64_r_r_r inst)
  | DIV_I32_AM64_R_R_R_L => break_ (Div_i32_am64_r_r_r inst)
  | DIV_I64_AM64_R_R_R_L => break_ (Div_i64_am64_r_r_r inst)
  | DIV_F32_AM64_R_R_R_L => break_ (Div_f32_am64_r_r_r inst)
  | DIV_F64_AM64_R_R_R_L => break_ (Div_f64_am64_r_r_r inst)
  | DIV_U_I32_AM64_R_R_R_L => break_ (Div_u_i32_am64_r_r_r inst)
  | DIV_U_I64_AM64_R_R_R_L => break_ (Div_u_i64_am64_r_r_r inst)
  | REM_I32_AM64_R_R_R_L => break_ (Rem_i32_am64_r_r_r inst)
  | REM_I64_AM64_R_R_R_L => break_ (Rem_i64_am64_r_r_r inst)
  | REM_U_I32_AM64_R_R_R_L => break_ (Rem_u_i32_am64_r_r_r inst)
  | REM_U_I64_AM64_R_R_R_L => break_ (Rem_u_i64_am64_r_r_r inst)
  | AND_I32_AM64_R_R_R_L => break_ (And_i32_am64_r_r_r inst)
  | AND_I64_AM64_R_R_R_L => break_ (And_i64_am64_r_r_r inst)
  | OR_I32_AM64_R_R_R_L => break_ (Or_i32_am64_r_r_r inst)
  | OR_I64_AM64_R_R_R_L => break_ (Or_i64_am64_r_r_r inst)
  | XOR_I32_AM64_R_R_R_L => break_ (Xor_i32_am64_r_r_r inst)
  | XOR_I64_AM64_R_R_R_L => break_ (Xor_i64_am64_r_r_r inst)
  | SHL_I32_AM64_R_R_R_L => break_ (Shl_i32_am64_r_r_r inst)
  | SHL_I64_AM64_R_R_R_L => break_ (Shl_i64_am64_r_r_r inst)
  | SHR_I32_AM64_R_R_R_L => break_ (Shr_i32_am64_r_r_r inst)
  | SHR_I64_AM64_R_R_R_L => break_ (Shr_i64_am64_r_r_r inst)
  | SHR_U_I32_AM64_R_R_R_L => break_ (Shr_u_i32_am64_r_r_r inst)
  | SHR_U_I64_AM64_R_R_R_L => break_ (Shr_u_i64_am64_r_r_r inst)
  | MIN_F32_AM64_R_R_R_L => break_ (Min_f32_am64_r_r_r inst)
  | MIN_F64_AM64_R_R_R_L => break_ (Min_f64_am64_r_r_r inst)
  | MAX_F32_AM64_R_R_R_L => break_ (Max_f32_am64_r_r_r inst)
  | MAX_F64_AM64_R_R_R_L => break_ (Max_f64_am64_r_r_r inst)
  | LLDA_I32_AM64_R_OFS_L => break_ (Llda_i32_am64_r_ofs inst)
  | LLDA_I64_AM64_R_OFS_L => break_ (Llda_i64_am64_r_ofs inst)
  | BUILTIN_I32_AM64_R_R_IMM_L => break_ (Builtin_i32_am64_r_r_imm inst)
  | BUILTIN_I64_AM64_R_R_IMM_L => break_ (Builtin_i64_am64_r_r_imm inst)
  | BUILTIN_F32_AM64_R_R_IMM_L => break_ (Builtin_f32_am64_r_r_imm inst)
  | BUILTIN_F64_AM64_R_R_IMM_L => break_ (Builtin_f64_am64_r_r_imm inst)
  | GLOBALGET_I32_AM64_R_OFS_L => break_ (Globalget_i32_am64_r_ofs inst)
  | GLOBALGET_I64_AM64_R_OFS_L => break_ (Globalget_i64_am64_r_ofs inst)
  | GLOBALGET_F32_AM64_R_OFS_L => break_ (Globalget_f32_am64_r_ofs inst)
  | GLOBALGET_F64_AM64_R_OFS_L => break_ (Globalget_f64_am64_r_ofs inst)
  | GLOBALSET_I32_AM64_R_OFS_L => break_ (Globalset_i32_am64_r_ofs inst)
  | GLOBALSET_I64_AM64_R_OFS_L => break_ (Globalset_i64_am64_r_ofs inst)
  | GLOBALSET_F32_AM64_R_OFS_L => break_ (Globalset_f32_am64_r_ofs inst)
  | GLOBALSET_F64_AM64_R_OFS_L => break_ (Globalset_f64_am64_r_ofs inst)
  | _ => break_ (lift (Is_True false))
  end.

(** The switch on a 32-bit value: one that is no enumerator goes to the default. *)
Definition switch (inst : AM_EXPAND) : MM FLOW :=
  match opcode_long (Get_opcode_l inst) with
  | Some op => exec_op op inst
  | None => break_ (lift (Is_True false))
  end.

(** One iteration of the loop; [true] when it left by [goto exec_end]. *)
Definition exec_one : MM bool :=
  inst ← Get_inst;
  flow ← switch inst;
  match flow with
  | EXEC_END => mret true
  | CONTINUE => mret false
  | BREAK => _ ← Inc_pc; mret false
  end.

(** [while (true)], for at most [fuel] iterations. *)
Fixpoint Exec_start (fuel : nat) (m : UWASM_MACHINE) : outcome UWASM_MACHINE :=
  match fuel with
  | O => Err FuelOut
  | S fuel =>
      match exec_one m with
      | Ok (true, m) => Ok m
      | Ok (false, m) => Exec_start fuel m
      | Err f => Err f
      end
  end.

(** [while (instr_count--)]. *)
Fixpoint Control_start (instr_count : nat) (m : UWASM_MACHINE) : outcome UWASM_MACHINE :=
  match instr_count with
  | O => Ok m
  | S n =>
      match exec_one m with
      | Ok (true, m) => Ok m
      | Ok (false, m) => Control_start n m
      | Err f => Err f
      end
  end.

Definition Get_ret_val : MM Z := reg_get I32 0.

(** ** The step relation *)
Inductive step : UWASM_MACHINE -> UWASM_MACHINE -> Prop :=
  | step_continue m inst m' :
      Get_inst m = Ok (inst, m) -> switch inst m = Ok (CONTINUE, m') -> step m m'
  | step_break m inst m1 m' :
      Get_inst m = Ok (inst, m) -> switch inst m = Ok (BREAK, m1) ->
      Inc_pc m1 = Ok (tt, m') -> step m m'.

Inductive stops : UWASM_MACHINE -> UWASM_MACHINE -> Prop :=
  | stops_intro m inst m' :
      Get_inst m = Ok (inst, m) -> switch inst m = Ok (EXEC_END, m') -> stops m m'.

Inductive steps : nat -> UWASM_MACHINE -> UWASM_MACHINE -> Prop :=
  | steps_0 m : steps 0 m m
  | steps_S n m m1 m2 : step m m1 -> steps n m1 m2 -> steps (S n) m m2.

Lemma Get_inst_frame m inst m' : Get_inst m = Ok (inst, m') -> m' = m.
Proof. unfold Get_inst. intros [_ H]%lift_Ok. exact H. Qed.

Lemma exec_one_step m m' : exec_one m = Ok (false, m') <-> step m m'.
Proof.
  unfold exec_one. split.
  - intros (inst & m1 & H1 & (flow & m2 & H2 & H3)%bind_Ok)%bind_Ok.
    pose proof (Get_inst_frame _ _ _ H1) as ->.
    destruct flow; minv; eauto using step.
  - intros H. rewrite bind_Ok. destruct H as [m inst m' H1 H2 | m inst m1 m' H1 H2 H3];
      exists inst, m; (split; [exact H1|]); rewrite bind_Ok.
    + exists CONTINUE, m'. auto.
    + exists BREAK, m1. split; [exact H2|]. rewrite bind_Ok. exists tt, m'. auto.
Qed.

Lemma exec_one_stops m m' : exec_one m = Ok (true, m') <-> stops m m'.
Proof.
  unfold exec_one. split.
  - intros (inst & m1 & H1 & (flow & m2 & H2 & H3)%bind_Ok)%bind_Ok.
    pose proof (Get_inst_frame _ _ _ H1) as ->.
    destruct flow; minv; eauto using stops.
  - intros H. rewrite bind_Ok. destruct H as [m inst m' H1 H2].
    exists inst, m. split; [exact H1|]. rewrite bind_Ok. exists EXEC_END, m'. auto.
Qed.

Lemma steps_app n1 n2 m1 m2 m3 : steps n1 m1 m2 -> steps n2 m2 m3 -> steps (n1 + n2) m1 m3.
Proof. induction 1; simpl; eauto using steps. Qed.

Lemma step_deterministic m m1 m2 : step m m1 -> step m m2 -> m1 = m2.
Proof. rewrite <- !exec_one_step. congruence. Qed.

Lemma steps_preserve (P : UWASM_MACHINE -> Prop) :
  (forall m m', P m -> step m m' -> P m') ->
  forall n m m', steps n m m' -> P m -> P m'.
Proof. intros H n m m' Hs. induction Hs; eauto. Qed.

Lemma Exec_start_steps fuel m m' : Exec_start fuel m = Ok m' <->
  exists n m1, (n < fuel)%nat /\ steps n m m1 /\ stops m1 m'.
Proof.
  revert m. induction fuel as [|fuel IH]; intros m; simpl.
  - split; [discriminate | intros (n & ? & Hn & _); lia].
  - destruct (exec_one m) as [[[] m1]|f] eqn:E.
    + apply exec_one_stops in E as E'. split.
      * intros [= <-]. exists O, m. eauto using steps with lia.
      * intros (n & m2 & _ & Hs & Hstop). destruct Hs as [|n m m2 m3 Hs _].
        -- apply exec_one_stops in Hstop. congruence.
        -- apply exec_one_step in Hs. congruence.
    + apply exec_one_step in E as E'. rewrite IH. split.
      * intros (n & m2 & Hn & Hs & Hstop). exists (S n), m2.
        split; [lia|]. eauto using steps.
      * intros (n & m2 & Hn & Hs & Hstop). destruct Hs as [|n m m2 m3 Hs Hss].
        -- apply exec_one_stops in Hstop. congruence.
        -- apply exec_one_step in Hs. assert (m2 = m1) as -> by congruence.
           exists n, m3. split; [lia|]. auto.
    + split; [discriminate|]. intros (n & m2 & _ & Hs & Hstop).
      destruct Hs as [|n m m2 m3 Hs _].
      * apply exec_one_stops in Hstop. congruence.
      * apply exec_one_step in Hs. congruence.
Qed.

(** More fuel does not change the result of a loop that ended. *)
Lemma Exec_start_mono fuel fuel' m r : (fuel <= fuel')%nat ->
  Exec_start fuel m = r -> r <> Err FuelOut -> Exec_start fuel' m = r.
Proof.
  revert fuel' m. induction fuel as [|fuel IH]; intros fuel' m Hle H Hr; simpl in H; [congruence|].
  destruct fuel' as [|fuel']; [lia|]. simpl.
  destruct (exec_one m) as [[[] m1]|f]; auto. apply IH; auto. lia.
Qed.
End Exec.
