(* ===== verification/Frames.v ===== *)
(** * What an instruction leaves alone

  [env_frame m m'] : from [m] to [m'] the context stack, the module (but for the
  operands of an indirect call or jump), the position of the register windows, the
  current function, label table and stack pointer are the same.  Every handler
  other than calls and returns keeps it; a host function is asked to. *)

From S2P Require Import Prelude CInt CFloat Isa Inst Expand UModule Machine Handlers Exec.
From Stdlib Require Import ZArith Lia.
Local Open Scope Z_scope.

Record env_frame (m m' : UWASM_MACHINE) : Prop := {
  ef_stack : _ctx_stack m' = _ctx_stack m;
  ef_sections : _sections m' = _sections m;
  ef_types : _types m' = _types m;
  ef_func_base : _expanded_func_base (_codes m') = _expanded_func_base (_codes m);
  ef_lab_tab : _lab_tab (_codes m') = _lab_tab (_codes m);
  ef_end_pc : _end_pc (_codes m') = _end_pc (_codes m);
  ef_fp : forall t, REGISTER._fp (regs t m') = REGISTER._fp (regs t m);
  ef_size : forall t, REGISTER._cur_mem_size (regs t m') = REGISTER._cur_mem_size (regs t m);
  ef_ctx_fp : forall t, ctx_fp t (_current m') = ctx_fp t (_current m);
  ef_func : _func_idx (_current m') = _func_idx (_current m);
  ef_label : _label_tab (_current m') = _label_tab (_current m);
  ef_sp : _sp (_current m') = _sp (_current m);
  ef_sta : _sta_off m' = _sta_off m;
}.

#[export] Instance env_frame_refl : Reflexive env_frame.
Proof. intros m. constructor; auto. Qed.
#[export] Instance env_frame_trans : Transitive env_frame.
Proof.
  intros m1 m2 m3 [] []. constructor; intros; etransitivity; eauto.
Qed.

(** A host function keeps the frame: it writes registers and memory. *)
Class RuntimeFrame (rt : Runtime) : Prop :=
  call_frame : forall callee, frames env_frame (Call_sys_call callee).

(** Registers of one type are untouched by a write to another. *)
Lemma regs_set_same t r m : regs t (set_regs t r m) = r.
Proof. destruct t; reflexivity. Qed.
Lemma regs_set_other t u r m : regs t (set_regs t r m) = r /\
  (regs u (set_regs t r m) = regs u m \/ regs u (set_regs t r m) = r /\ regs u m = regs t m).
Proof. destruct t, u; simpl; auto. Qed.

Lemma env_frame_set_regs t r m :
  REGISTER._fp r = REGISTER._fp (regs t m) ->
  REGISTER._cur_mem_size r = REGISTER._cur_mem_size (regs t m) ->
  env_frame m (set_regs t r m).
Proof.
  intros H1 H2. constructor; try (destruct t; reflexivity); intros u;
    destruct t, u; simpl in *; auto.
Qed.

Section Primitives.
Context {bd : Build}.

Lemma frames_reg_get t i : frames env_frame (reg_get t i).
Proof. intros m a m' [_ ->]%lift_Ok. reflexivity. Qed.

Lemma frames_reg_set t i v : frames env_frame (reg_set t i v).
Proof.
  intros m a m'. unfold reg_set, REGISTER.Set_. destruct (_ && _); [|discriminate].
  intros [= _ <-]. now apply env_frame_set_regs.
Qed.

Lemma frames_get : frames env_frame (@get UWASM_MACHINE).
Proof. intros m a m' [= _ <-]. reflexivity. Qed.

Lemma frames_update_pc f :
  frames env_frame (update_current (fun c => ctx_set_pc (f c) c)).
Proof. intros m a m' [= _ <-]. constructor; try reflexivity; intros []; reflexivity. Qed.

Lemma frames_Set_pc pc : frames env_frame (Set_pc pc).
Proof. apply (frames_update_pc (fun _ => pc)). Qed.
Lemma frames_Inc_pc : frames env_frame Inc_pc.
Proof. apply frames_update_pc. Qed.

Lemma frames_Get_label l : frames env_frame (Get_label l).
Proof. intros m a m' [_ ->]%lift_Ok. reflexivity. Qed.
Lemma frames_mem_load n o : frames env_frame (mem_load n o).
Proof. intros m a m' [_ ->]%lift_Ok. reflexivity. Qed.
Lemma frames_Get_sp : frames env_frame Get_sp.
Proof. intros m a m' [_ ->]%lift_Ok. reflexivity. Qed.
Lemma frames_Get_ofst_addr o b : frames env_frame (Get_ofst_addr o b).
Proof. intros m a m' [_ ->]%lift_Ok. reflexivity. Qed.
Lemma frames_global_load32 o : frames env_frame (global_load32 o).
Proof. intros m a m' [_ ->]%lift_Ok. reflexivity. Qed.

Lemma frames_mem_store n o v : frames env_frame (mem_store n o v).
Proof.
  intros m a m'. unfold mem_store. destruct (_ ≫= _); [|discriminate].
  intros [= _ <-]. constructor; try reflexivity; intros []; reflexivity.
Qed.
Lemma frames_global_store32 o v : frames env_frame (global_store32 o v).
Proof.
  intros m a m'. unfold global_store32. destruct (_ ≫= _) as [[g old]|]; [|discriminate].
  intros [= _ <-]. constructor; try reflexivity; intros []; reflexivity.
Qed.
Lemma frames_Put_inst e : frames env_frame (Put_inst e).
Proof.
  intros m a m'. unfold Put_inst. destruct (_pc _); [|discriminate].
  intros [= _ <-]. constructor; try reflexivity; intros []; reflexivity.
Qed.
Lemma frames_Get_inst : frames env_frame Get_inst.
Proof. intros m a m' H. apply Get_inst_frame in H as ->. reflexivity. Qed.
End Primitives.

#[export] Hint Resolve frames_reg_get frames_reg_set frames_get frames_Set_pc frames_Inc_pc
  frames_Get_label frames_mem_load frames_Get_sp frames_Get_ofst_addr frames_global_load32
  frames_mem_store frames_global_store32 frames_Put_inst frames_Get_inst : monad.

(** [frame_tac]: follow the binds, conditionals and handler calls of a computation
  down to the primitives. *)
Ltac unfold_head t :=
  match t with
  | ?f _ => unfold_head f
  | ?f => unfold f
  end.
Ltac frame_tac :=
  lazymatch goal with
  | |- frames _ (mbind _ _) =>
      apply frames_bind; [exact _ | frame_tac | let a := fresh "a" in intros a; frame_tac]
  | |- frames _ (if ?b then _ else _) => apply frames_if; frame_tac
  | |- frames _ (match ?x with _ => _ end) => destruct x; frame_tac
  | |- frames _ (let _ := _ in _) => cbv zeta; frame_tac
  | |- _ =>
      first
        [ solve [eauto 3 with monad typeclass_instances]
        | lazymatch goal with |- frames _ ?m => unfold_head m; cbv beta zeta; frame_tac end ]
  end.

Section Handlers.
Context {bd : Build} {pf : Platform} {rt : Runtime} {fe : FloatEnv}.

Lemma frames_Get_base_addr i : frames env_frame (Get_base_addr i).
Proof. unfold Get_base_addr. frame_tac. Qed.

Lemma frames_Grow_memory n : frames env_frame (Grow_memory n).
Proof.
  intros s a s'. unfold Grow_memory. intros H. minv.
  destruct (_ || _); [minv; reflexivity|].
  destruct (mem_realloc _ _); minv; try reflexivity;
    constructor; try reflexivity; intros []; reflexivity.
Qed.

(** The opcodes that enter or leave a function. *)
Definition is_call (op : U_OPCODE_LONG) : bool :=
  match op with
  | CALL_AM32_OFS_L | CALL_AM32_OFS1_L | CALL_AM32_OFS2_L | CALL_AM32_OFS3_L
  | CALL_INDIRECT_AM32_R_L | CALL_INDIRECT_AM32_R1_L | CALL_INDIRECT_AM32_R2_L
  | CALL_INDIRECT_AM32_R3_L => true
  | _ => false
  end.
Definition is_return (op : U_OPCODE_LONG) : bool :=
  match op with
  | RETURN_AM32_L | RETURN_AM321_L | RETURN_AM322_L | RETURN_AM323_L => true
  | _ => false
  end.
End Handlers.

#[export] Hint Resolve frames_Get_base_addr frames_Grow_memory : monad.

Section ExecFrames.
Context {bd : Build} {pf : Platform} {rt : Runtime} {fe : FloatEnv}.

Lemma frames_exec_op op inst : is_call op = false -> is_return op = false ->
  frames env_frame (exec_op op inst).
Proof.
  destruct op; intros H1 H2; try discriminate H1; try discriminate H2;
    cbv beta iota delta [exec_op continue_ break_]; frame_tac.
Qed.
End ExecFrames.
