(* ===== verification/Windows.v ===== *)
(** * The register windows

  Each function owns a window of every register file: its locals, followed by the
  registers through which it passes arguments, which are the first registers of
  its callees.  [windows_ok] says that the four windows are where the current
  context says, that each saved context is linked to the one above it, and that
  the windows of all active functions are allocated.  Every step keeps it, so a
  return restores the caller's windows and register operands that a function
  declares are never out of bounds. *)

From S2P Require Import Prelude CInt BitField CFloat Isa Inst Expand Ubh UModule Machine Handlers Exec Frames.
From Stdlib Require Import ZArith Lia.
Local Open Scope Z_scope.

(** Position of a type in a [UINT16[4]] table entry. *)
Definition tnum (t : VALTYPE) : Z :=
  match t with I32 => 0 | I64 => 1 | F32 => 2 | _ => 3 end.

Definition tab16 (tab : list Z) (f : Z) (t : VALTYPE) : Z :=
  match nthZ tab f with Ok v => arr16 v (tnum t) | Err _ => 0 end.
(** Window shift and window size of a function. *)
Definition shs (ty : TYPE_CACHE) : Z -> VALTYPE -> Z := tab16 (_fp_shs_tab ty).
Definition rnum (ty : TYPE_CACHE) : Z -> VALTYPE -> Z := tab16 (_reg_num_tab ty).

(** The bounds that the widths of the fields of [UBH_CODE] give. *)
Definition MAX_SHS : Z := 1023.
Definition MAX_RNUM : Z := 1278.
Record wf_types (ty : TYPE_CACHE) : Prop := {
  wt_shs : Forall (fun v => in_u 64 v /\ forall t, arr16 v (tnum t) <= MAX_SHS) (_fp_shs_tab ty);
  wt_rnum : Forall (fun v => in_u 64 v /\ forall t, arr16 v (tnum t) <= MAX_RNUM) (_reg_num_tab ty);
}.

(** ** The stack as a list, last frame first *)
Fixpoint frames_from (vec : gmap Z EXEC_CONTEXT) (n : nat) : list EXEC_CONTEXT :=
  match n with
  | O => []
  | S k => default ctx0 (vec !! Z.of_nat k) :: frames_from vec k
  end.
Definition stack_frames (s : CONTEXT_STACK.t) : list EXEC_CONTEXT :=
  frames_from (CONTEXT_STACK.st_vec s) (Z.to_nat (CONTEXT_STACK._sta_top_idx s + 1)).

Record wf_stack (s : CONTEXT_STACK.t) : Prop := {
  ws_size : CONTEXT_STACK.st_size s = DEFAULT_STACK_SIZE;
  ws_cap : CONTEXT_STACK._capacity s = DEFAULT_STACK_SIZE;
  ws_top : -1 <= CONTEXT_STACK._sta_top_idx s < DEFAULT_STACK_SIZE;
}.

Lemma frames_from_insert vec n k c : (n <= k)%nat ->
  frames_from (<[Z.of_nat k := c]> vec) n = frames_from vec n.
Proof.
  induction n as [|n IH]; intros H; simpl; [reflexivity|].
  rewrite lookup_insert_ne by lia. f_equal. apply IH. lia.
Qed.

Lemma frames_from_length vec n : length (frames_from vec n) = n.
Proof. induction n; simpl; congruence. Qed.

Lemma stack_frames_length s : wf_stack s ->
  Z.of_nat (length (stack_frames s)) = CONTEXT_STACK._sta_top_idx s + 1.
Proof. intros [_ _ H]. unfold stack_frames. rewrite frames_from_length. lia. Qed.

(** A push succeeds exactly when fewer than 1024 frames are active. *)
Lemma Push_wf c s : wf_stack s ->
  if CONTEXT_STACK._sta_top_idx s + 1 <? DEFAULT_STACK_SIZE then
    exists s', CONTEXT_STACK.Push c s = Ok s' /\ wf_stack s' /\ stack_frames s' = c :: stack_frames s
  else CONTEXT_STACK.Push c s = Err StackFault.
Proof.
  intros [H1 H2 [H3 H4]]. unfold CONTEXT_STACK.Push.
  rewrite H2. destruct (Z.eqb_spec (CONTEXT_STACK._sta_top_idx s) DEFAULT_STACK_SIZE); [lia|].
  rewrite H1. destruct (Z.leb_spec 0 (CONTEXT_STACK._sta_top_idx s + 1)); [|lia]. simpl.
  destruct (Z.ltb_spec (CONTEXT_STACK._sta_top_idx s + 1) DEFAULT_STACK_SIZE); [|reflexivity].
  eexists. split; [reflexivity|]. split; [split; simpl; auto; lia|].
  unfold stack_frames. cbn [CONTEXT_STACK._sta_top_idx CONTEXT_STACK.st_vec].
  set (i := CONTEXT_STACK._sta_top_idx s + 1) in *.
  replace (Z.to_nat (i + 1)) with (S (Z.to_nat i)) by lia. cbn [frames_from].
  rewrite Z2Nat.id by lia. rewrite lookup_insert_eq. cbn [default]. f_equal.
  rewrite <- (Z2Nat.id i) at 1 by lia. apply frames_from_insert. lia.
Qed.

Lemma Top_frames s c : wf_stack s -> CONTEXT_STACK.Top s = Ok c ->
  exists fs, stack_frames s = c :: fs.
Proof.
  intros [H1 H2 [H3 H4]]. unfold CONTEXT_STACK.Top, stack_frames. rewrite H1.
  destruct (Z.leb_spec 0 (CONTEXT_STACK._sta_top_idx s)); [|discriminate].
  destruct (Z.ltb_spec (CONTEXT_STACK._sta_top_idx s) DEFAULT_STACK_SIZE); [|lia].
  intros [= <-]. rewrite Z2Nat.inj_add, Nat.add_1_r by lia. cbn [frames_from].
  rewrite Z2Nat.id by lia. eauto.
Qed.

Lemma Pop_frames {bd : Build} s s' c fs : wf_stack s -> stack_frames s = c :: fs ->
  CONTEXT_STACK.Pop s = Ok s' -> wf_stack s' /\ stack_frames s' = fs.
Proof.
  intros Hw Hf H. pose proof (stack_frames_length s Hw) as Hl. rewrite Hf in Hl. cbn [length] in Hl.
  destruct Hw as [H1 H2 H3]. unfold CONTEXT_STACK.Pop in H.
  destruct (Is_True _) as [[]|]; [|discriminate]. injection H as <-.
  split; [split; simpl; auto; lia|]. unfold stack_frames in *. cbn [CONTEXT_STACK._sta_top_idx CONTEXT_STACK.st_vec].
  replace (Z.to_nat (CONTEXT_STACK._sta_top_idx s + 1))
    with (S (Z.to_nat (CONTEXT_STACK._sta_top_idx s - 1 + 1))) in Hf by lia.
  cbn [frames_from] in Hf. congruence.
Qed.

(** ** The invariant *)

(** A saved context [f] and the one above it: the windows have moved by the shift
  of [f]'s function, or (above the entry frame, the last one) not at all. *)
Definition linked (ty : TYPE_CACHE) (c f : EXEC_CONTEXT) (fs : list EXEC_CONTEXT) : Prop :=
  (fs = [] /\ forall t, ctx_fp t c = ctx_fp t f) \/
  (forall t, ctx_fp t c = ctx_fp t f + shs ty (_func_idx f) t).

Fixpoint chain (ty : TYPE_CACHE) (c : EXEC_CONTEXT) (below : list EXEC_CONTEXT) : Prop :=
  (forall t, 0 <= ctx_fp t c <= MAX_SHS * Z.of_nat (length below)) /\
  match below with [] => True | f :: fs => linked ty c f fs /\ chain ty f fs end.

Definition allocated (ty : TYPE_CACHE) (size : VALTYPE -> Z) (c : EXEC_CONTEXT) : Prop :=
  forall t, rnum ty (_func_idx c) t = 0 \/ ctx_fp t c + rnum ty (_func_idx c) t <= size t.

Definition sizes (m : UWASM_MACHINE) (t : VALTYPE) : Z := REGISTER._cur_mem_size (regs t m).

Record windows_pre (m : UWASM_MACHINE) : Prop := {
  w_types : wf_types (_types m);
  w_stack : wf_stack (_ctx_stack m);
  w_cur : forall t, REGISTER._fp (regs t m) = ctx_fp t (_current m);
  w_chain : chain (_types m) (_current m) (stack_frames (_ctx_stack m));
  w_size : forall t, INITIAL_REG_SIZE <= sizes m t <= 2 ^ 23;
  w_frames : Forall (allocated (_types m) (sizes m)) (stack_frames (_ctx_stack m));
}.

Record windows_ok (m : UWASM_MACHINE) : Prop := {
  w_pre : windows_pre m;
  w_current : allocated (_types m) (sizes m) (_current m);
}.

Lemma chain_ext ty c c' below : (forall t, ctx_fp t c' = ctx_fp t c) ->
  chain ty c below -> chain ty c' below.
Proof.
  intros H. destruct below as [|f fs]; simpl; intros [H1 H2]; (split; [intros t; rewrite H; apply H1|]); auto.
  destruct H2 as [[[E H2]|H2] H3]; (split; [|exact H3]); [left; split; [exact E|]|right]; intros t; now rewrite H.
Qed.

Lemma allocated_mono ty s s' c : (forall t, s t <= s' t) -> allocated ty s c -> allocated ty s' c.
Proof. intros Hs H t. specialize (Hs t). destruct (H t); [now left | right; lia]. Qed.

Lemma allocated_ext ty s s' c c' : (forall t, s' t = s t) -> (forall t, ctx_fp t c' = ctx_fp t c) ->
  _func_idx c' = _func_idx c -> allocated ty s c -> allocated ty s' c'.
Proof. intros Hs Hc Hf H t. rewrite Hs, Hc, Hf. apply H. Qed.

(** The part of the state the invariant is about. *)
Record win_eq (m m' : UWASM_MACHINE) : Prop := {
  we_stack : _ctx_stack m' = _ctx_stack m;
  we_types : _types m' = _types m;
  we_fp : forall t, REGISTER._fp (regs t m') = REGISTER._fp (regs t m);
  we_size : forall t, sizes m' t = sizes m t;
  we_ctx : forall t, ctx_fp t (_current m') = ctx_fp t (_current m);
  we_func : _func_idx (_current m') = _func_idx (_current m);
}.
#[export] Instance win_eq_refl : Reflexive win_eq.
Proof. intros m. split; auto. Qed.
#[export] Instance win_eq_trans : Transitive win_eq.
Proof. intros m1 m2 m3 [] []. split; intros; etransitivity; eauto. Qed.

Lemma env_frame_win m m' : env_frame m m' -> win_eq m m'.
Proof. intros []. split; auto. Qed.

Lemma windows_pre_frame m m' : win_eq m m' -> windows_pre m -> windows_pre m'.
Proof.
  intros [Es Et Ef Ez Ec Eu] []. split; rewrite ?Et, ?Es; auto.
  - intros t. now rewrite Ef, Ec.
  - eapply chain_ext; eassumption.
  - intros t. rewrite Ez. apply w_size0.
  - eapply Forall_impl; [eassumption|]. intros c. now apply allocated_ext.
Qed.

Lemma windows_ok_frame m m' : win_eq m m' -> windows_ok m -> windows_ok m'.
Proof.
  intros E [H1 H2]. split; [now apply (windows_pre_frame m)|].
  destruct E as [Es Et Ef Ez Ec Eu]. rewrite Et. now apply (allocated_ext _ (sizes m) _ (_current m)).
Qed.

(** ** Packed register numbers *)
Lemma tnum_range t : 0 <= tnum t <= 3.
Proof. destruct t; simpl; lia. Qed.

Lemma arr16_range v k : 0 <= k -> 0 <= arr16 v k < 65536.
Proof.
  intros H. apply (bf_get_range (16 * k) 16); lia.
Qed.

(** A packed number not above [0xffff] is its first entry. *)
Lemma arr16_small v : 0 <= v <= 65535 -> forall t, arr16 v (tnum t) = if decide (t = I32) then v else 0.
Proof.
  intros Hv t. unfold arr16, u16x4, fget. cbn [fd_signed fd_off fd_w]. unfold bf_get.
  rewrite Z.land_ones by lia. pose proof (tnum_range t).
  destruct (decide (t = I32)) as [->|Ht].
  - simpl tnum. rewrite Z.shiftr_0_r. apply Z.mod_small. lia.
  - assert (1 <= tnum t) by (destruct t; simpl; congruence || lia).
    rewrite Z.shiftr_div_pow2, Z.div_small, Z.mod_0_l; try lia.
    split; [lia|]. pose proof (Z.pow_le_mono_r 2 16 (16 * tnum t) ltac:(lia) ltac:(lia)). lia.
Qed.

Lemma tab16_Ok tab f v t : nthZ tab f = Ok v -> tab16 tab f t = arr16 v (tnum t).
Proof. intros H. unfold tab16. now rewrite H. Qed.

Lemma tab_wf (tab : list Z) f v P : Forall P tab -> nthZ tab f = Ok v -> P v.
Proof. rewrite Forall_lookup. intros H [_ E]%nthZ_Ok. eauto. Qed.

#[local] Arguments arr16 : simpl never.
#[local] Arguments Z.pow : simpl never.
#[local] Arguments UINT32 : simpl never.

(** ** Moving the windows *)

(** What the phases of a call do not touch. *)
Record same_rest (m m' : UWASM_MACHINE) : Prop := {
  sr_stack : _ctx_stack m' = _ctx_stack m;
  sr_sections : _sections m' = _sections m;
  sr_types : _types m' = _types m;
  sr_codes : _codes m' = _codes m;
  sr_sta : _sta_off m' = _sta_off m;
  sr_func : _func_idx (_current m') = _func_idx (_current m);
}.
Lemma same_rest_refl m : same_rest m m.
Proof. now split. Qed.
Lemma same_rest_trans m1 m2 m3 : same_rest m1 m2 -> same_rest m2 m3 -> same_rest m1 m3.
Proof. intros [] []. split; etransitivity; eauto. Qed.

Definition windows_at (m : UWASM_MACHINE) (fp : VALTYPE -> Z) : Prop :=
  forall t, REGISTER._fp (regs t m) = fp t /\ ctx_fp t (_current m) = fp t.

Lemma ctx_fp_set t u v c : ctx_fp u (ctx_set_fp t v c) =
  if decide (tnum u = tnum t) then v else ctx_fp u c.
Proof. destruct t, u; reflexivity. Qed.
Lemma regs_set t u r m : regs u (set_regs t r m) =
  if decide (tnum u = tnum t) then r else regs u m.
Proof. destruct t, u; reflexivity. Qed.

Lemma advance_run t n m fp : windows_at m fp ->
  exists m', advance t n m = Ok (tt, m') /\ same_rest m m' /\
    windows_at m' (fun u => if decide (tnum u = tnum t) then UINT32 (fp u + n) else fp u) /\
    (forall u, sizes m' u = sizes m u).
Proof.
  intros H. eexists. split; [reflexivity|].
  set (r := REGISTER.Increment n (regs t m)). split; [|split].
  - split; try (destruct t; reflexivity).
  - intros u. destruct (H u) as [H1 H2]. destruct (H t) as [H3 H4].
    rewrite regs_set_same. destruct t, u; simpl in *; split; try assumption; congruence.
  - intros u. destruct t, u; reflexivity.
Qed.

Lemma when_advance_run t n m fp : windows_at m fp ->
  0 <= n -> (forall u, 0 <= fp u) -> fp t + n < 2 ^ 32 ->
  (forall u, tnum u = tnum t -> fp u = fp t) ->
  exists m', when (negb (n =? 0)) (advance t n) m = Ok (tt, m') /\ same_rest m m' /\
    windows_at m' (fun u => if decide (tnum u = tnum t) then fp u + n else fp u) /\
    (forall u, sizes m' u = sizes m u).
Proof.
  intros H Hn H0 Hlt Hu. destruct (Z.eqb_spec n 0) as [->|E]; cbn [negb when].
  - exists m. split; [reflexivity|]. split; [apply same_rest_refl|]. split; [|reflexivity].
    intros u. destruct (decide _); rewrite ?Z.add_0_r; apply H.
  - destruct (advance_run t n m fp H) as (m' & H1 & H2 & H3 & H4).
    exists m'. repeat (split; [assumption|]). split; [|assumption].
    intros u. specialize (H3 u). specialize (H0 u). cbv beta in H3. destruct (decide _) as [Ed|]; [|exact H3].
    unfold UINT32 in H3. rewrite wrapu_id in H3; [exact H3|]. rewrite (Hu u Ed) in *. split; lia.
Qed.

Lemma windows_at_ext m f g : (forall t, f t = g t) -> windows_at m f -> windows_at m g.
Proof. intros E H t. rewrite <- E. apply H. Qed.

Lemma advance_window_run v m fp : 0 <= v -> windows_at m fp -> fp VALTY_UNKNOWN = fp F64 ->
  (forall t, 0 <= fp t) -> (forall t, fp t + arr16 v (tnum t) < 2 ^ 32) ->
  exists m', advance_window v m = Ok (tt, m') /\ same_rest m m' /\
    windows_at m' (fun t => fp t + arr16 v (tnum t)) /\ (forall t, sizes m' t = sizes m t).
Proof.
  intros Hv Hw HU H0 Hlt. unfold advance_window.
  pose proof (fun k => arr16_range v k) as Ha.
  destruct (Z.ltb_spec 65535 v) as [Hbig|Hsmall].
  - pose proof (Hlt I32); pose proof (Hlt I64); pose proof (Hlt F32); pose proof (Hlt F64).
    pose proof (H0 I32); pose proof (H0 I64); pose proof (H0 F32); pose proof (H0 F64).
    pose proof (Ha 0 ltac:(lia)); pose proof (Ha 1 ltac:(lia)).
    pose proof (Ha 2 ltac:(lia)); pose proof (Ha 3 ltac:(lia)). simpl tnum in *.
    destruct (advance_run I32 (arr16 v 0) m fp Hw) as (m1 & E1 & R1 & W1 & S1).
    apply (windows_at_ext _ _ (fun u => if decide (tnum u = 0) then fp u + arr16 v 0 else fp u)) in W1.
    2: { intros []; simpl; try reflexivity. apply wrapu_id. split; lia. }
    destruct (when_advance_run I64 (arr16 v 1) m1 _ W1) as (m2 & E2 & R2 & W2 & S2);
      [lia | intros []; simpl; lia | simpl; lia | intros []; simpl; congruence |].
    destruct (when_advance_run F32 (arr16 v 2) m2 _ W2) as (m3 & E3 & R3 & W3 & S3);
      [lia | intros []; simpl; lia | simpl; lia | intros []; simpl; congruence |].
    destruct (when_advance_run F64 (arr16 v 3) m3 _ W3) as (m4 & E4 & R4 & W4 & S4);
      [lia | intros []; simpl; lia | simpl; lia | intros []; simpl; congruence |].
    exists m4. split; [|split; [|split]].
    + rewrite (bind_run _ _ _ _ _ E1), (bind_run _ _ _ _ _ E2), (bind_run _ _ _ _ _ E3). exact E4.
    + eauto using same_rest_trans.
    + eapply windows_at_ext; [|exact W4]. intros []; reflexivity.
    + intros t. now rewrite S4, S3, S2, S1.
  - destruct (advance_run I32 v m fp Hw) as (m1 & E1 & R1 & W1 & S1).
    exists m1. split; [exact E1|]. split; [exact R1|]. split; [|exact S1].
    pose proof (arr16_small v ltac:(lia)) as Hs.
    eapply windows_at_ext; [|exact W1]. intros t. rewrite Hs. specialize (Hlt t). rewrite Hs in Hlt.
    specialize (H0 t). destruct t; simpl in *; try lia. apply wrapu_id. split; lia.
Qed.

(** ** Allocating a window *)

(** A window that ends below 2^20 + 2^11 is allocated without the doubling of the
  array overflowing. *)
Definition WINDOW_END : Z := 2 ^ 20 + 2 ^ 11.

Lemma Alloc_size n r : 0 <= REGISTER._fp r -> 0 <= n -> REGISTER._fp r + n <= WINDOW_END ->
  INITIAL_REG_SIZE <= REGISTER._cur_mem_size r <= 2 ^ 23 ->
  let r' := REGISTER.Alloc n r in
  REGISTER._fp r' = REGISTER._fp r /\
  REGISTER._cur_mem_size r <= REGISTER._cur_mem_size r' <= 2 ^ 23 /\
  REGISTER._fp r + n <= REGISTER._cur_mem_size r'.
Proof.
  intros Hf Hn He Hs. unfold REGISTER.Alloc.
  change WINDOW_END with 1050624 in He. change INITIAL_REG_SIZE with 16384 in Hs.
  change (2 ^ 23) with 8388608 in *.
  assert (forall z, 0 <= z < 4294967296 -> UINT32 z = z) as U by (intros z Hz; apply wrapu_id, Hz).
  rewrite (U (REGISTER._fp r + n)) by lia.
  destruct (Z.ltb_spec (REGISTER._cur_mem_size r) (REGISTER._fp r + n)); cbn -[UINT32];
    [|split; [reflexivity | lia]].
  rewrite (U (REGISTER._cur_mem_size r + REGISTER._fp r + n)), U by lia.
  split; [reflexivity | lia].
Qed.

(** Registers grow, and the windows [n] starts at [fp] are covered. *)
Record grown (n : VALTYPE -> Z) (m m' : UWASM_MACHINE) : Prop := {
  gr_rest : same_rest m m';
  gr_fp : forall t, REGISTER._fp (regs t m') = REGISTER._fp (regs t m);
  gr_ctx : _current m' = _current m;
  gr_size : forall t, sizes m t <= sizes m' t <= 2 ^ 23;
  gr_cover : forall t, n t = 0 \/ REGISTER._fp (regs t m) + n t <= sizes m' t;
}.

Lemma grown_trans n1 n2 m1 m2 m3 : grown n1 m1 m2 -> grown n2 m2 m3 ->
  grown (fun t => Z.max (n1 t) (n2 t)) m1 m3.
Proof.
  intros [A1 A2 A3 A4 A5] [B1 B2 B3 B4 B5]. split.
  - eauto using same_rest_trans.
  - intros t. now rewrite B2, A2.
  - now rewrite B3, A3.
  - intros t. specialize (A4 t). specialize (B4 t). lia.
  - intros t. specialize (A4 t); specialize (A5 t); specialize (B4 t); specialize (B5 t).
    rewrite A2 in B5. lia.
Qed.

Definition alloc_ready (n : VALTYPE -> Z) (m : UWASM_MACHINE) : Prop :=
  forall t, INITIAL_REG_SIZE <= sizes m t <= 2 ^ 23 /\ 0 <= REGISTER._fp (regs t m) /\ 0 <= n t /\
    REGISTER._fp (regs t m) + n t <= WINDOW_END.

Definition at_type (t : VALTYPE) (n : Z) (u : VALTYPE) : Z :=
  if decide (tnum u = tnum t) then n else 0.

Lemma regs_tnum t u m : tnum u = tnum t -> regs u m = regs t m.
Proof. destruct t, u; simpl; intros; congruence || discriminate. Qed.

Lemma alloc_run t k m : alloc_ready k m ->
  exists m', alloc t (k t) m = Ok (tt, m') /\ grown (at_type t (k t)) m m' /\ alloc_ready k m'.
Proof.
  intros Hk. destruct (Hk t) as (Hs & Hf & Hn & He).
  destruct (Alloc_size (k t) (regs t m) Hf Hn He Hs) as (A1 & A2 & A3).
  eexists. split; [reflexivity|]. set (r := REGISTER.Alloc (k t) (regs t m)) in *. clearbody r.
  assert (forall u, REGISTER._fp (regs u (set_regs t r m)) = REGISTER._fp (regs u m)) as Hfp.
  { intros u. rewrite regs_set. destruct (decide _) as [E|]; [|reflexivity].
    now rewrite (regs_tnum t u). }
  assert (forall u, sizes m u <= sizes (set_regs t r m) u <= 2 ^ 23) as Hsz.
  { intros u. destruct (Hk u) as [Hu _]. unfold sizes in *. rewrite regs_set.
    destruct (decide _) as [E|]; [|lia]. now rewrite (regs_tnum t u). }
  split.
  - split; auto; try (split; destruct t; reflexivity); [destruct t; reflexivity|].
    intros u. unfold at_type, sizes in *. rewrite regs_set. destruct (decide _) as [E|]; [|now left].
    right. now rewrite (regs_tnum t u).
  - intros u. destruct (Hk u) as (B1 & B2 & B3 & B4). specialize (Hsz u). rewrite Hfp.
    repeat split; lia.
Qed.

Lemma when_alloc_run t k m : alloc_ready k m ->
  exists m', when (negb (k t =? 0)) (alloc t (k t)) m = Ok (tt, m') /\
    grown (at_type t (k t)) m m' /\ alloc_ready k m'.
Proof.
  intros Hk. destruct (Z.eqb_spec (k t) 0) as [E|E]; cbn [negb when]; [|now apply alloc_run].
  exists m. split; [reflexivity|]. split; [|exact Hk]. split; try reflexivity.
  - apply same_rest_refl.
  - intros u. destruct (Hk u) as [? _]. lia.
  - intros u. unfold at_type. rewrite E. destruct (decide _); auto.
Qed.

Lemma grown_weaken n n' m m' : (forall t, n' t = 0 \/ n' t <= n t /\ n t <> 0) ->
  grown n m m' -> grown n' m m'.
Proof.
  intros H []. split; auto. intros t. specialize (gr_cover0 t). destruct (H t); lia.
Qed.

Lemma at_types_max v t :
  Z.max (Z.max (Z.max (at_type I32 (arr16 v 0) t) (at_type I64 (arr16 v 1) t))
    (at_type F32 (arr16 v 2) t)) (at_type F64 (arr16 v 3) t) = arr16 v (tnum t).
Proof.
  pose proof (arr16_range v 0 ltac:(lia)); pose proof (arr16_range v 1 ltac:(lia)).
  pose proof (arr16_range v 2 ltac:(lia)); pose proof (arr16_range v 3 ltac:(lia)).
  destruct t; unfold at_type; simpl; lia.
Qed.

(** The four allocations of [Init_env]. *)
Definition alloc_each (v : Z) : MM unit :=
  _ ← when (negb (arr16 v 0 =? 0)) (alloc I32 (arr16 v 0));
  _ ← when (negb (arr16 v 1 =? 0)) (alloc I64 (arr16 v 1));
  _ ← when (negb (arr16 v 2 =? 0)) (alloc F32 (arr16 v 2));
  when (negb (arr16 v 3 =? 0)) (alloc F64 (arr16 v 3)).

Lemma alloc_each_run v m : alloc_ready (fun t => arr16 v (tnum t)) m ->
  exists m', alloc_each v m = Ok (tt, m') /\ grown (fun t => arr16 v (tnum t)) m m'.
Proof.
  intros Hr. unfold alloc_each.
  destruct (when_alloc_run I32 _ m Hr) as (m1 & E1 & G1 & R1).
  destruct (when_alloc_run I64 _ m1 R1) as (m2 & E2 & G2 & R2).
  destruct (when_alloc_run F32 _ m2 R2) as (m3 & E3 & G3 & R3).
  destruct (when_alloc_run F64 _ m3 R3) as (m4 & E4 & G4 & R4). simpl tnum in *.
  exists m4. split.
  - rewrite (bind_run _ _ _ _ _ E1), (bind_run _ _ _ _ _ E2), (bind_run _ _ _ _ _ E3). exact E4.
  - pose proof (grown_trans _ _ _ _ _ (grown_trans _ _ _ _ _ (grown_trans _ _ _ _ _ G1 G2) G3) G4) as G.
    eapply grown_weaken; [|exact G]. intros t. cbv beta. rewrite at_types_max.
    destruct (Z.eq_dec (arr16 v (tnum t)) 0); [now left | right; lia].
Qed.

Lemma alloc_window_run v m : 0 <= v -> alloc_ready (fun t => arr16 v (tnum t)) m ->
  exists m', alloc_window v m = Ok (tt, m') /\ grown (fun t => arr16 v (tnum t)) m m'.
Proof.
  intros Hv Hr. unfold alloc_window. destruct (Z.ltb_spec 65535 v) as [Hbig|Hsmall].
  - destruct (alloc_run I32 _ m Hr) as (m1 & E1 & G1 & R1). simpl tnum in E1.
    destruct (when_alloc_run I64 _ m1 R1) as (m2 & E2 & G2 & R2).
    destruct (when_alloc_run F32 _ m2 R2) as (m3 & E3 & G3 & R3).
    destruct (when_alloc_run F64 _ m3 R3) as (m4 & E4 & G4 & R4). simpl tnum in *.
    exists m4. split.
    + rewrite (bind_run _ _ _ _ _ E1), (bind_run _ _ _ _ _ E2), (bind_run _ _ _ _ _ E3). exact E4.
    + pose proof (grown_trans _ _ _ _ _ (grown_trans _ _ _ _ _ (grown_trans _ _ _ _ _ G1 G2) G3) G4) as G.
      eapply grown_weaken; [|exact G]. intros t. cbv beta. rewrite at_types_max.
      destruct (Z.eq_dec (arr16 v (tnum t)) 0); [now left | right; lia].
  - pose proof (arr16_small v ltac:(lia)) as Hs.
    destruct (alloc_run I32 _ m Hr) as (m1 & E1 & G1 & R1).
    exists m1. split; [rewrite (Hs I32) in E1; exact E1|].
    eapply grown_weaken; [|exact G1]. intros t. unfold at_type. cbv beta. rewrite !Hs.
    destruct (decide (t = I32)) as [->|]; [|now left].
    rewrite !decide_True by reflexivity. lia.
Qed.

(** ** Calls and returns keep the windows *)
Section Calls.
Context {bd : Build} {rt : Runtime} {rf : RuntimeFrame rt}.

Lemma chain_bound ty c fs t : chain ty c fs ->
  0 <= ctx_fp t c <= MAX_SHS * Z.of_nat (length fs).
Proof. destruct fs; simpl; intros [H _]; apply H. Qed.

Lemma frames_bounded m : windows_pre m ->
  Z.of_nat (length (stack_frames (_ctx_stack m))) <= DEFAULT_STACK_SIZE.
Proof.
  intros H. pose proof (w_stack _ H) as Hs. rewrite stack_frames_length by exact Hs.
  destruct Hs. lia.
Qed.

Lemma shs_bound ty f v : wf_types ty -> nthZ (_fp_shs_tab ty) f = Ok v ->
  0 <= v /\ (forall t, 0 <= arr16 v (tnum t) <= MAX_SHS) /\ forall t, shs ty f t = arr16 v (tnum t).
Proof.
  intros [H _] E. pose proof (tab_wf _ _ _ _ H E) as [[Hv _] Ht]. split; [exact Hv|].
  split; [|intros t; apply tab16_Ok, E].
  intros t. pose proof (arr16_range v (tnum t)). pose proof (tnum_range t). specialize (Ht t). lia.
Qed.

Lemma rnum_bound ty f v : wf_types ty -> nthZ (_reg_num_tab ty) f = Ok v ->
  0 <= v /\ (forall t, 0 <= arr16 v (tnum t) <= MAX_RNUM) /\ forall t, rnum ty f t = arr16 v (tnum t).
Proof.
  intros [_ H] E. pose proof (tab_wf _ _ _ _ H E) as [[Hv _] Ht]. split; [exact Hv|].
  split; [|intros t; apply tab16_Ok, E].
  intros t. pose proof (arr16_range v (tnum t)). pose proof (tnum_range t). specialize (Ht t). lia.
Qed.

(** The windows that [Func_epilogue] leaves: those of the restored context. *)
Lemma Func_epilogue_windows m m' : windows_pre m -> Func_epilogue m = Ok (tt, m') ->
  windows_ok m' /\ exists fs, stack_frames (_ctx_stack m) = _current m' :: fs /\
    stack_frames (_ctx_stack m') = fs.
Proof.
  intros [Hty Hst Hcur Hch Hsz Hal] H. unfold Func_epilogue in H.
  apply bind_Ok in H as (m0 & s0 & [= <- <-] & H).
  apply bind_Ok in H as (f & s1 & [Htop ->]%lift_Ok & H).
  apply bind_Ok in H as ([] & s2 & [= <-] & H).
  apply bind_Ok in H as (s & s3 & [Hpop ->]%lift_Ok & H).
  apply bind_Ok in H as ([] & s4 & [= <-] & H).
  apply bind_Ok in H as (v & s5 & [Hv ->]%lift_Ok & H).
  change (nthZ (_fp_shs_tab (_types m)) (_func_idx f) = Ok v) in Hv.
  destruct (Top_frames _ _ Hst Htop) as (fs & Efs).
  destruct (Pop_frames _ _ _ _ Hst Efs Hpop) as (Hst' & Efs').
  rewrite Efs in Hch, Hal. destruct Hch as (Hb & Hl & Hch).
  apply Forall_cons in Hal as [Haf Hal].
  destruct (shs_bound _ _ _ Hty Hv) as (Hv0 & Hva & Hshs).
  assert (Z.of_nat (length fs) <= 1023) as Hlen.
  { pose proof (stack_frames_length _ Hst) as E. rewrite Efs in E. cbn [length] in E.
    destruct Hst as [_ _ [_ Ht]]. unfold DEFAULT_STACK_SIZE in Ht. lia. }
  assert (forall t, UINT32 (ctx_fp t f) = ctx_fp t f) as Hid.
  { intros t. apply wrapu_id. pose proof (chain_bound _ _ _ t Hch). unfold MAX_SHS in *.
    split; [lia|]. change (2 ^ 32) with 4294967296. lia. }
  assert (_types m' = _types m /\ _ctx_stack m' = s /\
    _current m' = f /\ (forall t, sizes m' t = sizes m t) /\
    (forall t, REGISTER._fp (regs t m') = ctx_fp t f)) as Em.
  { apply bind_Ok in H as ([] & s6 & [= <-] & H).
    destruct (Z.ltb_spec 65535 v) as [Hbig|Hsmall]; cbn [when] in H.
    - apply bind_Ok in H as ([] & s7 & [= <-] & H).
      apply bind_Ok in H as ([] & s8 & [= <-] & H). injection H as <-.
      do 3 (split; [reflexivity|]). split; intros t; [destruct t; reflexivity|].
      specialize (Hid t). destruct t; exact Hid.
    - injection H as <-. do 3 (split; [reflexivity|]).
      split; [intros []; reflexivity|].
      pose proof (arr16_small v ltac:(lia)) as Hs.
      intros t. destruct (decide (t = I32)) as [->|Ht]; [exact (Hid I32)|].
      transitivity (ctx_fp t (_current m)).
      + rewrite <- Hcur. destruct t; try congruence; reflexivity.
      + destruct Hl as [[_ E]|E]; rewrite E; [reflexivity|].
        rewrite Hshs, Hs, decide_False by exact Ht. lia. }
  destruct Em as (E1 & E2 & E3 & E4 & E5).
  split; [|exists fs; rewrite E2, E3; auto]. split; [split|].
  - now rewrite E1.
  - now rewrite E2.
  - intros t. now rewrite E5, E3.
  - now rewrite E1, E2, E3, Efs'.
  - intros t. rewrite E4. apply Hsz.
  - rewrite E1, E2, Efs'. eapply Forall_impl; [exact Hal|].
    intros c. now apply allocated_ext.
  - rewrite E1, E3. eapply allocated_ext; [..|exact Haf]; auto.
Qed.

Lemma frames_enter_code f : frames win_eq (enter_code f).
Proof.
  intros m a m' H. unfold enter_code, Set_pc in H. minv.
  repeat match goal with E : update_current _ _ = Ok _ |- _ => injection E as <- end.
  split; first [reflexivity | intros []; reflexivity].
Qed.

Lemma frames_Allocate_stack f : frames win_eq (Allocate_stack f).
Proof.
  intros m a m'. unfold Allocate_stack. destruct (_ ≫= _) as [e|]; [|discriminate].
  destruct (0 <? _); intros [= _ <-]; [|reflexivity].
  split; first [reflexivity | intros []; reflexivity].
Qed.

Lemma frames_win_weaken {A} (h : MM A) : frames env_frame h -> frames win_eq h.
Proof. intros H m a m' E. apply env_frame_win. eauto. Qed.

(** Covering the current function's window completes the invariant. *)
Lemma grown_windows n m m' : windows_pre m -> grown n m m' ->
  (forall t, rnum (_types m) (_func_idx (_current m)) t = n t) -> windows_ok m'.
Proof.
  intros [Hty Hst Hcur Hch Hsz Hal] [[R1 R2 R3 R4 R5 R6] Gf Gc Gs Gv] Hn.
  split; [split|]; rewrite ?R1, ?R3, ?Gc; auto.
  - intros t. now rewrite Gf.
  - intros t. specialize (Hsz t). specialize (Gs t). lia.
  - eapply Forall_impl; [exact Hal|]. intros c. apply allocated_mono. intros t. apply Gs.
  - intros t. rewrite Hn, <- Hcur. apply Gv.
Qed.

(** Room for the window of any function above any stack. *)
Lemma windows_alloc_ready m f v : windows_pre m -> nthZ (_reg_num_tab (_types m)) f = Ok v ->
  alloc_ready (fun t => arr16 v (tnum t)) m.
Proof.
  intros H E t. destruct (rnum_bound _ _ _ (w_types _ H) E) as (_ & Ha & _). specialize (Ha t).
  pose proof (chain_bound _ _ _ t (w_chain _ H)) as Hb. pose proof (frames_bounded _ H) as Hl.
  unfold MAX_SHS, MAX_RNUM, DEFAULT_STACK_SIZE in *. rewrite (w_cur _ H).
  split; [apply (w_size _ H)|]. change WINDOW_END with 1050624. lia.
Qed.

(** The state of a call after the context is pushed and the windows moved. *)
Lemma call_windows m s callee v m3 : windows_ok m ->
  CONTEXT_STACK.Push (_current m) (_ctx_stack m) = Ok s ->
  nthZ (_fp_shs_tab (_types m)) (_func_idx (_current m)) = Ok v ->
  advance_window v (set_current (ctx_set_func_idx callee (_current m)) (set_ctx_stack s m)) = Ok (tt, m3) ->
  windows_pre m3 /\ _func_idx (_current m3) = callee /\ _types m3 = _types m /\
  stack_frames (_ctx_stack m3) = _current m :: stack_frames (_ctx_stack m) /\
  (forall t, sizes m3 t = sizes m t) /\
  (forall t, REGISTER._fp (regs t m3) =
     REGISTER._fp (regs t m) + shs (_types m) (_func_idx (_current m)) t).
Proof.
  intros [[Hty Hst Hcur Hch Hsz Hal] Hac] Hpush Hv H3.
  pose proof (Push_wf (_current m) _ Hst) as HP.
  destruct (_ <? _); [|congruence]. destruct HP as (s' & Es & Hst' & Efs).
  rewrite Hpush in Es. injection Es as <-.
  destruct (shs_bound _ _ _ Hty Hv) as (Hv0 & Hva & Hshs).
  pose proof (fun t => chain_bound _ _ _ t Hch) as Hb.
  pose proof (stack_frames_length _ Hst') as Hlen. rewrite Efs in Hlen. cbn [length] in Hlen.
  pose proof (ws_top _ Hst') as Htop. unfold DEFAULT_STACK_SIZE, MAX_SHS in *.
  set (m2 := set_current _ _) in H3.
  destruct (advance_window_run v m2 (fun t => ctx_fp t (_current m))) as (m3' & E3 & R & W & S).
  - exact Hv0.
  - intros t. split; [rewrite <- (Hcur t)|]; destruct t; reflexivity.
  - reflexivity.
  - intros t. apply Hb.
  - intros t. specialize (Hb t). specialize (Hva t). change (2 ^ 32) with 4294967296. lia.
  - rewrite E3 in H3. injection H3 as ->. destruct R as [R1 R2 R3 R4 R5 R6].
    assert (forall t, sizes m3 t = sizes m t) as S' by (intros t; rewrite S; destruct t; reflexivity).
    split; [split|split; [exact R6|split; [exact R3|split; [|split; [exact S'|]]]]]; rewrite ?R1, ?R3; auto.
    + intros t. destruct (W t) as [-> ->]. reflexivity.
    + cbn [_ctx_stack set_current set_ctx_stack m2]. rewrite Efs. cbn [chain]. split; [|split].
      * intros t. destruct (W t) as [_ ->]. specialize (Hb t). specialize (Hva t).
        unfold MAX_SHS. cbn [length]. lia.
      * right. intros t. destruct (W t) as [_ ->]. rewrite <- Hshs. reflexivity.
      * exact Hch.
    + intros t. rewrite S'. apply Hsz.
    + cbn [_ctx_stack set_current set_ctx_stack m2]. rewrite Efs.
      apply Forall_cons. split; [|eapply Forall_impl; [exact Hal|]; intros c H];
        (eapply allocated_ext; [exact S' | | | eassumption]; reflexivity).
    + intros t. destruct (W t) as [-> _]. now rewrite Hshs, Hcur.
Qed.

(** What a call to a function of the module achieves. *)
Record called (callee : Z) (m m' : UWASM_MACHINE) : Prop := {
  cd_windows : windows_ok m';
  cd_frames : stack_frames (_ctx_stack m') = _current m :: stack_frames (_ctx_stack m);
  cd_func : _func_idx (_current m') = callee;
  cd_types : _types m' = _types m;
  cd_size : forall t, sizes m t <= sizes m' t;
  cd_fp : forall t, REGISTER._fp (regs t m') =
    REGISTER._fp (regs t m) + shs (_types m) (_func_idx (_current m)) t;
}.

(** A function whose code the module does not have. *)
Definition is_external (m : UWASM_MACHINE) (callee : Z) : bool :=
  match Get_func (_sections m) (INT32 callee) with
  | Ok f => UBH_FUNC.Is_set_flag F_EXTERN f || UBH_FUNC.Is_set_flag F_NATIVE f
  | Err _ => false
  end.

Lemma Func_prologue_inv callee m m' : windows_ok m -> Func_prologue callee m = Ok (tt, m') ->
  if is_external m callee then windows_ok m' else called callee m m'.
Proof.
  intros Hok H. unfold Func_prologue, update_current in H.
  apply bind_Ok in H as (m0 & s0 & [= <- <-] & H).
  apply bind_Ok in H as ([] & m1 & H1 & H). unfold push_context in H1.
  destruct (CONTEXT_STACK.Push _ _) as [s|] eqn:Hpush; [|discriminate]. injection H1 as <-.
  apply bind_Ok in H as ([] & m2 & [= <-] & H).
  apply bind_Ok in H as (v & m2' & [Hv ->]%lift_Ok & H).
  apply bind_Ok in H as ([] & m3 & H3 & H).
  destruct (call_windows _ _ _ _ _ Hok Hpush Hv H3) as (Hpre & Hf & Ht & Hfr & Hsz & Hfp).
  apply bind_Ok in H as (func & m3' & [Ef ->]%lift_Ok & H).
  unfold is_external. change (Get_func (_sections m) (INT32 callee) = Ok func) in Ef. rewrite Ef.
  destruct (_ || _).
  - apply bind_Ok in H as ([] & m4 & H4 & H). apply bind_Ok in H as ([] & m5 & H5 & H).
    apply (windows_pre_frame _ m4) in Hpre; [|eapply frames_win_weaken; [apply call_frame | exact H4]].
    destruct (Func_epilogue_windows _ _ Hpre H5) as [Hok5 _].
    eapply windows_ok_frame; [|exact Hok5]. eapply frames_win_weaken; [apply frames_Inc_pc | exact H].
  - apply bind_Ok in H as ([] & m4 & H4 & H). apply bind_Ok in H as ([] & m5 & H5 & H).
    apply bind_Ok in H as (n & m5' & [Hn ->]%lift_Ok & H).
    pose proof (frames_enter_code _ _ _ _ H4) as F4. pose proof (frames_Allocate_stack _ _ _ _ H5) as F5.
    assert (win_eq m3 m5) as F by (etransitivity; eassumption).
    apply (windows_pre_frame _ m5) in Hpre; [|exact F].
    assert (_types m5 = _types m) as Ht5 by (rewrite (we_types _ _ F); exact Ht).
    change (nthZ (_reg_num_tab (_types m)) callee = Ok n) in Hn. rewrite <- Ht5 in Hn.
    destruct (rnum_bound _ _ _ (w_types _ Hpre) Hn) as (Hn0 & _ & Hr).
    destruct (alloc_window_run n m5 Hn0 (windows_alloc_ready _ _ _ Hpre Hn)) as (m6 & E6 & G).
    rewrite E6 in H. injection H as <-. split.
    + eapply grown_windows; [exact Hpre | exact G |]. intros t. now rewrite (we_func _ _ F), Hf, Hr.
    + now rewrite (sr_stack _ _ (gr_rest _ _ _ G)), (we_stack _ _ F).
    + now rewrite (gr_ctx _ _ _ G), (we_func _ _ F).
    + now rewrite (sr_types _ _ (gr_rest _ _ _ G)).
    + intros t. rewrite <- Hsz, <- (we_size _ _ F). apply (gr_size _ _ _ G).
    + intros t. now rewrite (gr_fp _ _ _ G), (we_fp _ _ F), Hfp.
Qed.

Lemma Func_prologue_windows callee m m' : windows_ok m -> Func_prologue callee m = Ok (tt, m') ->
  windows_ok m'.
Proof.
  intros Hok H. pose proof (Func_prologue_inv _ _ _ Hok H) as Hc.
  destruct (is_external m callee); [exact Hc | apply Hc].
Qed.
End Calls.
