(* ===== verification/Safety.v ===== *)
(** * Safety of execution: the register windows stay in place

  The invariant of [Windows.v] holds when execution starts and after every step,
  so the operands a function declares are always inside the register files, and a
  call followed by its return leaves the caller's windows as they were. *)

From S2P Require Import Prelude CInt BitField CFloat Isa Inst Expand Ubh Memory UModule Machine Handlers Exec Frames Windows.
From Stdlib Require Import ZArith Lia.
Local Open Scope Z_scope.

#[local] Arguments arr16 : simpl never.
#[local] Arguments Z.pow : simpl never.

(** ** The machine the constructor makes *)

(** [UWASM_MACHINE::UWASM_MACHINE]: fresh register files, an empty context stack
  and the context of [EXEC_CONTEXT::Init]. *)
Definition UWASM_MACHINE_new (secs : SECTIONS) (types : TYPE_CACHE) (codes : CODE_CACHE) : UWASM_MACHINE :=
  mkMACHINE REGISTER.init REGISTER.init REGISTER.init REGISTER.init CONTEXT_STACK.init
    secs types codes None None 0 0 0 None ctx0 [].

Lemma UWASM_MACHINE_new_windows secs types codes : wf_types types ->
  windows_pre (UWASM_MACHINE_new secs types codes).
Proof.
  intros H. split; auto.
  - split; try reflexivity. unfold DEFAULT_STACK_SIZE. simpl. lia.
  - intros []; reflexivity.
  - split; [|exact I]. intros []; simpl; lia.
  - intros []; change (INITIAL_REG_SIZE <= 16384 <= 8388608); unfold INITIAL_REG_SIZE; lia.
Qed.

Section Safety.
Context {bd : Build} {pf : Platform} {rt : Runtime} {rf : RuntimeFrame rt} {fe : FloatEnv}.

(** ** Starting *)

(** The tail of [Init_env] is [alloc_each], then [Allocate_stack]. *)
Lemma bind_four {St} (a b c d h : M St unit) (s : St) :
  (_ ← a; _ ← b; _ ← c; _ ← d; h) s = (_ ← (_ ← a; _ ← b; _ ← c; d); h) s.
Proof.
  unfold mbind, M_bind. destruct (a s) as [[? s1]|]; [|reflexivity].
  destruct (b s1) as [[? s2]|]; [|reflexivity]. now destruct (c s2) as [[? s3]|].
Qed.

(** A context with the windows of [f] can be put above the first frame. *)
Lemma chain_same ty f c : (forall t, ctx_fp t c = ctx_fp t f) ->
  chain ty f [] -> chain ty c [f].
Proof.
  intros E H. split; [|split; [now left | exact H]].
  intros t. rewrite E. pose proof (chain_bound _ _ _ t H). unfold MAX_SHS in *. cbn [length] in *. lia.
Qed.

(** From [m] to [m6] the context [entry], of the current function and with the
  windows of [m], was pushed. *)
Record entered (entry : EXEC_CONTEXT) (m m6 : UWASM_MACHINE) : Prop := {
  en_stack : wf_stack (_ctx_stack m6);
  en_idle : stack_frames (_ctx_stack m) = [];
  en_frames : stack_frames (_ctx_stack m6) = [entry];
  en_types : _types m6 = _types m;
  en_entry : forall t, ctx_fp t entry = ctx_fp t (_current m);
  en_func : _func_idx entry = _func_idx (_current m6);
  en_ctx : forall t, ctx_fp t (_current m6) = ctx_fp t (_current m);
  en_fp : forall t, REGISTER._fp (regs t m6) = REGISTER._fp (regs t m);
  en_size : forall t, sizes m6 t = sizes m t;
}.

Lemma entered_alloc entry m m6 v m7 : windows_pre m -> entered entry m m6 ->
  nthZ (_reg_num_tab (_types m)) (_func_idx (_current m6)) = Ok v ->
  alloc_each v m6 = Ok (tt, m7) -> windows_ok m7.
Proof.
  intros Hpre [E1 E0 E2 E3 E4 E5 E6 E7 E8] Hv H7.
  assert (alloc_ready (fun t => arr16 v (tnum t)) m6) as Hr.
  { intros t. rewrite E7, E8. exact (windows_alloc_ready _ _ _ Hpre Hv t). }
  destruct (alloc_each_run v m6 Hr) as (m7' & H7' & G). rewrite H7 in H7'. injection H7' as <-.
  destruct Hpre as [Hty Hst Hcur Hch Hsz Hal].
  destruct (rnum_bound _ _ _ Hty Hv) as (_ & _ & Hn).
  destruct G as [[R1 R2 R3 R4 R5 R6] Gf Gc Gs Gv].
  assert (allocated (_types m) (sizes m7) entry) as Hen.
  { intros t. rewrite E4, E5, Hn, <- Hcur, <- E7. apply Gv. }
  split; [split|]; rewrite ?R1, ?R3, ?Gc, ?E3, ?E2; auto.
  - intros t. now rewrite Gf, E7, Hcur, E6.
  - apply chain_same; [intros t; now rewrite E6, E4|]. rewrite E0 in Hch. apply (chain_ext _ (_current m)); auto.
  - intros t. specialize (Gs t). specialize (Hsz t). rewrite E8 in Gs. lia.
  - eapply allocated_ext; [reflexivity | | symmetry; exact E5 | exact Hen].
    intros t. now rewrite E6, E4.
Qed.

Lemma Init_env_run func_idx m m' : windows_pre m -> stack_frames (_ctx_stack m) = [] ->
  Init_env func_idx m = Ok (tt, m') -> windows_ok m'.
Proof.
  intros Hpre Hidle H. unfold Init_env in H.
  apply bind_Ok in H as ([] & m1 & [= <-] & H).
  apply bind_Ok in H as (? & ? & [= <- <-] & H).
  apply bind_Ok in H as ([] & m2 & [= <-] & H).
  apply bind_Ok in H as ([] & m3 & Hp & H). unfold push_context in Hp.
  destruct (CONTEXT_STACK.Push _ _) as [s|] eqn:Hpush; [|discriminate]. injection Hp as <-.
  apply bind_Ok in H as ([] & m4 & [= <-] & H).
  apply bind_Ok in H as ([] & m5 & H5 & H). apply frames_enter_code in H5 as [W1 W2 W3 W4 W5 W6].
  apply bind_Ok in H as ([] & m6 & [= <-] & H).
  apply bind_Ok in H as (v & m6 & [Hv ->]%lift_Ok & H).
  rewrite bind_four in H. fold (alloc_each v) in H. apply bind_Ok in H as ([] & m7 & H7 & H8).
  apply (windows_ok_frame m7); [eapply frames_Allocate_stack, H8|].
  pose proof (fun c => Push_wf c _ (w_stack _ Hpre)) as HP. cbn [_current set_current _ctx_stack] in Hpush.
  match type of Hpush with CONTEXT_STACK.Push ?c _ = _ => set (entry := c) in *; specialize (HP entry) end.
  destruct (_ <? _); [|congruence]. destruct HP as (s' & Es & Hst' & Efs).
  rewrite Hpush in Es. injection Es as <-.
  eapply (entered_alloc entry m); [exact Hpre | | | exact H7].
  - split.
    + change (wf_stack (_ctx_stack m5)). rewrite W1. exact Hst'.
    + exact Hidle.
    + change (stack_frames (_ctx_stack m5) = [entry]). rewrite W1. rewrite Hidle in Efs. exact Efs.
    + exact W2.
    + intros []; reflexivity.
    + symmetry. exact W6.
    + intros t. transitivity (ctx_fp t (_current m5)); [destruct t; reflexivity|].
      rewrite W5. destruct t; reflexivity.
    + intros t. transitivity (REGISTER._fp (regs t m5)); [destruct t; reflexivity|].
      rewrite W3. destruct t; reflexivity.
    + intros t. transitivity (sizes m5 t); [destruct t; reflexivity|].
      rewrite W4. destruct t; reflexivity.
  - cbn [_current set_current ctx_set_sp _func_idx]. rewrite W6. exact Hv.
Qed.

(** ** Stepping *)

Lemma Call_am32_ofs_windows inst : preserves windows_ok (Call_am32_ofs inst).
Proof. intros m [] m' Hok H. exact (Func_prologue_windows _ _ _ Hok H). Qed.

Lemma frames_windows {A} (h : MM A) : frames env_frame h -> preserves windows_ok h.
Proof. intros Hf m a m' Hok H. exact (windows_ok_frame _ _ (env_frame_win _ _ (Hf _ _ _ H)) Hok). Qed.

Lemma Call_indirect_windows inst : preserves windows_ok (Call_indirect_am32_r inst).
Proof.
  apply preserves_bind; [apply frames_windows; auto with monad|]. intros v.
  apply preserves_bind; [apply frames_windows; auto with monad|]. intros _.
  apply Call_am32_ofs_windows.
Qed.

Lemma Return_windows inst : preserves windows_ok (Return_am32 inst).
Proof. intros m [] m' [Hok _] H. now destruct (Func_epilogue_windows _ _ Hok H). Qed.

Lemma exec_op_windows op inst : preserves windows_ok (exec_op op inst).
Proof.
  destruct (is_call op) eqn:Hc; [|destruct (is_return op) eqn:Hr].
  - destruct op; try discriminate Hc; cbv beta iota delta [exec_op continue_];
      (apply preserves_bind; [|intros; apply preserves_ret]);
      apply Call_am32_ofs_windows || apply Call_indirect_windows.
  - destruct op; try discriminate Hr; cbv beta iota delta [exec_op break_];
      (apply preserves_bind; [|intros; apply preserves_ret]); apply Return_windows.
  - apply frames_windows. now apply frames_exec_op.
Qed.

Lemma switch_windows inst : preserves windows_ok (switch inst).
Proof.
  unfold switch. destruct (opcode_long _) as [op|]; [apply exec_op_windows|].
  apply frames_windows. unfold break_. frame_tac.
Qed.

Lemma exec_one_windows : preserves windows_ok exec_one.
Proof.
  apply preserves_bind; [apply frames_windows; auto with monad|]. intros inst.
  apply preserves_bind; [apply switch_windows|]. intros [].
  - apply preserves_ret.
  - apply preserves_bind; [apply frames_windows; auto with monad|]. intros _. apply preserves_ret.
  - apply preserves_ret.
Qed.

(** Every state of an execution keeps the windows in place. *)
Theorem steps_windows n m m' : steps n m m' -> windows_ok m -> windows_ok m'.
Proof.
  apply steps_preserve. intros m1 m2 Hok Hs. apply exec_one_step in Hs.
  exact (exec_one_windows _ _ _ Hok Hs).
Qed.

(** ** Register access *)

Lemma window_access m t i v : windows_ok m ->
  0 <= i < rnum (_types m) (_func_idx (_current m)) t ->
  reg_get t i m <> Err RegFault /\
  exists m', reg_set t i v m = Ok (tt, m') /\ reg_get t i m' = Ok (reg_norm t v, m').
Proof.
  intros [Hpre Hac] Hi. pose proof (w_cur _ Hpre t) as Hf.
  pose proof (chain_bound _ _ _ t (w_chain _ Hpre)) as [H0 _]. rewrite <- Hf in H0.
  destruct (Hac t) as [E|Hle]; [lia|]. rewrite <- Hf in Hle. unfold sizes in Hle.
  unfold reg_get, reg_set, REGISTER.Get, REGISTER.Set_.
  destruct (Z.leb_spec 0 (REGISTER._fp (regs t m) + i)); [|lia].
  destruct (Z.ltb_spec (REGISTER._fp (regs t m) + i) (REGISTER._cur_mem_size (regs t m))); [|lia].
  cbn [andb]. split.
  - destruct (_ !! _); [discriminate|]. destruct (_ <? _); discriminate.
  - eexists. split; [reflexivity|]. rewrite regs_set_same.
    cbn [REGISTER._fp REGISTER._cur_mem_size REGISTER.cells].
    rewrite lookup_insert_eq, (proj2 (Z.leb_le _ _)), (proj2 (Z.ltb_lt _ _)) by lia. reflexivity.
Qed.

(** ** The registers of calls and returns *)
Definition cells_eq (m m' : UWASM_MACHINE) : Prop :=
  forall t, REGISTER.cells (regs t m') = REGISTER.cells (regs t m).
#[local] Instance cells_eq_refl : Reflexive cells_eq.
Proof. now intros m t. Qed.
#[local] Instance cells_eq_trans : Transitive cells_eq.
Proof. intros m1 m2 m3 H1 H2 t. now rewrite H2. Qed.

Lemma cells_modify (f : UWASM_MACHINE -> UWASM_MACHINE) :
  (forall m, cells_eq m (f m)) -> frames cells_eq (modify f).
Proof. intros H m a m' [= _ <-]. apply H. Qed.

Lemma cells_update_regs t f : (forall r, REGISTER.cells (f r) = REGISTER.cells r) ->
  frames cells_eq (update_regs t f).
Proof.
  intros H. apply cells_modify. intros m u.
  destruct (regs_set_other t u (f (regs t m)) m) as [_ [->|[-> ->]]]; auto.
Qed.

Lemma cells_advance t n : frames cells_eq (advance t n).
Proof.
  apply frames_bind; [exact _ | now apply cells_update_regs|]. intros _.
  apply cells_modify. now intros m [].
Qed.

Lemma cells_alloc t n : frames cells_eq (alloc t n).
Proof. apply cells_update_regs. intros r. unfold REGISTER.Alloc. now destruct (_ <? _). Qed.

Lemma cells_win_ops f n : frames cells_eq (enter_code f) /\ frames cells_eq (Allocate_stack f) /\
  frames cells_eq (advance_window n) /\ frames cells_eq (alloc_window n) /\ frames cells_eq push_context.
Proof.
  unfold enter_code, advance_window, alloc_window, when.
  repeat match goal with |- _ /\ _ => split end.
  - apply frames_bind; [exact _ | apply cells_modify; now intros m []|]. intros _.
    apply frames_bind; [exact _ | now intros m a m' [= _ <-]|]. intros m.
    apply frames_bind; [exact _ | apply frames_lift; exact _|]. intros b.
    apply cells_modify. now intros ? [].
  - intros m a m'. unfold Allocate_stack. destruct (_ ≫= _); [|discriminate].
    destruct (_ <? _); intros [= _ <-]; [|reflexivity]. now intros [].
  - repeat first [ apply cells_advance | apply frames_if | apply frames_bind; [exact _ | | intros _]
      | apply frames_ret; exact _ ].
  - repeat first [ apply cells_alloc | apply frames_if | apply frames_bind; [exact _ | | intros _]
      | apply frames_ret; exact _ ].
  - intros m a m'. unfold push_context. destruct (CONTEXT_STACK.Push _ _); [|discriminate].
    intros [= _ <-]. now intros [].
Qed.

Lemma cells_prologue callee m m' : is_external m callee = false ->
  Func_prologue callee m = Ok (tt, m') -> cells_eq m m'.
Proof.
  intros He H. unfold Func_prologue in H.
  apply bind_Ok in H as (m0 & s0 & [= <- <-] & H).
  apply bind_Ok in H as ([] & m1 & H1 & H).
  apply bind_Ok in H as ([] & m2 & [= <-] & H).
  apply bind_Ok in H as (v & m2' & [Hv ->]%lift_Ok & H).
  apply bind_Ok in H as ([] & m3 & H3 & H).
  apply bind_Ok in H as (func & m3' & [Ef ->]%lift_Ok & H).
  unfold is_external in He. rewrite Ef in He. rewrite He in H.
  apply bind_Ok in H as ([] & m4 & H4 & H). apply bind_Ok in H as ([] & m5 & H5 & H).
  apply bind_Ok in H as (n & m5' & [Hn ->]%lift_Ok & H6).
  destruct (cells_win_ops callee v) as (Ae & As & Av & _ & Ap).
  destruct (cells_win_ops callee n) as (_ & _ & _ & An & _).
  apply Ap in H1. apply Av in H3. apply Ae in H4. apply As in H5. apply An in H6.
  intros t. rewrite H6, H5, H4, H3. rewrite <- H1. destruct t; reflexivity.
Qed.

Lemma epilogue_rest m m' : Func_epilogue m = Ok (tt, m') ->
  cells_eq m m' /\ (forall t, sizes m' t = sizes m t) /\ _types m' = _types m.
Proof.
  intros H. unfold Func_epilogue in H.
  apply bind_Ok in H as (m0 & s0 & [= <- <-] & H).
  apply bind_Ok in H as (f & s1 & [Htop ->]%lift_Ok & H).
  apply bind_Ok in H as ([] & s2 & [= <-] & H).
  apply bind_Ok in H as (s & s3 & [Hpop ->]%lift_Ok & H).
  apply bind_Ok in H as ([] & s4 & [= <-] & H).
  apply bind_Ok in H as (v & s5 & [Hv ->]%lift_Ok & H).
  apply bind_Ok in H as ([] & s6 & [= <-] & H).
  destruct (65535 <? v); cbn [when] in H.
  - apply bind_Ok in H as ([] & s7 & [= <-] & H). apply bind_Ok in H as ([] & s8 & [= <-] & H).
    injection H as <-. split; [intros []; reflexivity|]. split; [intros []; reflexivity | reflexivity].
  - injection H as <-. split; [intros []; reflexivity|]. split; [intros []; reflexivity | reflexivity].
Qed.

(** A register of the callee is the caller's one past its locals. *)
Lemma callee_register t i v m m' :
  REGISTER._fp (regs t m') = REGISTER._fp (regs t m) + shs (_types m) (_func_idx (_current m)) t ->
  cells_eq m m' -> sizes m t <= sizes m' t ->
  reg_get t (shs (_types m) (_func_idx (_current m)) t + i) m = Ok (v, m) ->
  reg_get t i m' = Ok (v, m').
Proof.
  intros Hfp Hc Hs. unfold reg_get, REGISTER.Get. rewrite Hfp, (Hc t), <- Z.add_assoc.
  unfold sizes in Hs. set (k := _ + (_ + i)).
  destruct (Z.leb_spec 0 k); [|discriminate]. destruct (Z.ltb_spec k (REGISTER._cur_mem_size (regs t m))); [|discriminate].
  rewrite (proj2 (Z.ltb_lt k (REGISTER._cur_mem_size (regs t m')))) by lia. cbn [andb].
  destruct (_ !! k); [|destruct (_ <? _)]; cbn; congruence.
Qed.

Lemma caller_register t i v m m' :
  REGISTER._fp (regs t m) = REGISTER._fp (regs t m') + shs (_types m') (_func_idx (_current m')) t ->
  cells_eq m m' -> sizes m' t = sizes m t ->
  reg_get t i m = Ok (v, m) ->
  reg_get t (shs (_types m') (_func_idx (_current m')) t + i) m' = Ok (v, m').
Proof.
  intros Hfp Hc Hs. unfold reg_get, REGISTER.Get. rewrite Hfp, (Hc t), <- Z.add_assoc.
  unfold sizes in Hs. rewrite Hs. destruct (_ && _); [|discriminate].
  destruct (_ !! _); [|destruct (_ <? _)]; cbn; congruence.
Qed.

(** Arguments: what the caller reads past its locals, the callee reads from 0. *)
Lemma call_args callee m m' t i v : windows_ok m -> is_external m callee = false ->
  Func_prologue callee m = Ok (tt, m') ->
  reg_get t (shs (_types m) (_func_idx (_current m)) t + i) m = Ok (v, m) ->
  reg_get t i m' = Ok (v, m').
Proof.
  intros Hok He H. pose proof (Func_prologue_inv _ _ _ Hok H) as Hc. rewrite He in Hc. destruct Hc.
  eapply callee_register; eauto. eapply cells_prologue; eassumption.
Qed.

Lemma frame_restored callee m m1 n m2 m3 : windows_ok m -> is_external m callee = false ->
  Func_prologue callee m = Ok (tt, m1) -> steps n m1 m2 ->
  stack_frames (_ctx_stack m2) = stack_frames (_ctx_stack m1) ->
  Func_epilogue m2 = Ok (tt, m3) ->
  windows_ok m3 /\ _current m3 = _current m /\
  stack_frames (_ctx_stack m3) = stack_frames (_ctx_stack m) /\
  forall t, REGISTER._fp (regs t m3) = REGISTER._fp (regs t m).
Proof.
  intros Hok He H1 Hs Hst H3.
  pose proof (Func_prologue_inv _ _ _ Hok H1) as Hc. rewrite He in Hc.
  destruct Hc as [Hok1 Hfr _ _ _ _]. pose proof (steps_windows _ _ _ Hs Hok1) as Hok2.
  destruct (Func_epilogue_windows _ _ (w_pre _ Hok2) H3) as [Hok3 (fs & E1 & E2)].
  rewrite Hst, Hfr in E1. injection E1 as E1 <-.
  split; [exact Hok3|]. split; [congruence|]. split; [exact E2|].
  intros t. rewrite (w_cur _ (w_pre _ Hok3)), (w_cur _ (w_pre _ Hok)). congruence.
Qed.

(** Results: what the callee leaves in its first registers, the caller finds past
  its locals. *)
Lemma return_results m2 m3 t i v : windows_ok m2 -> Func_epilogue m2 = Ok (tt, m3) ->
  stack_frames (_ctx_stack m3) <> [] ->
  reg_get t i m2 = Ok (v, m2) ->
  reg_get t (shs (_types m3) (_func_idx (_current m3)) t + i) m3 = Ok (v, m3).
Proof.
  intros [Hpre _] H3 Hne. destruct (epilogue_rest _ _ H3) as (Hc & Hs & Ht).
  destruct (Func_epilogue_windows _ _ Hpre H3) as [Hok3 (fs & E1 & E2)].
  apply caller_register; auto.
  pose proof (w_chain _ Hpre) as Hch. rewrite E1 in Hch. destruct Hch as (_ & [[E _]|E] & _);
    [congruence|].
  rewrite (w_cur _ Hpre), (w_cur _ (w_pre _ Hok3)), Ht. apply E.
Qed.

(** The stack depth at which a call stops the process. *)
Lemma call_depth callee m : wf_stack (_ctx_stack m) ->
  Z.of_nat (length (stack_frames (_ctx_stack m))) = DEFAULT_STACK_SIZE ->
  Func_prologue callee m = Err StackFault.
Proof.
  intros Hst Hl. rewrite stack_frames_length in Hl by exact Hst.
  unfold Func_prologue. erewrite bind_run by reflexivity. apply bind_Err. unfold push_context.
  pose proof (Push_wf (_current m) _ Hst) as HP. rewrite (proj2 (Z.ltb_ge _ _)) in HP by lia.
  now rewrite HP.
Qed.
End Safety.
