(* ===== verification/Loading.v ===== *)
(** * From the module to the machine

  The caches that [Decode_type_and_cache] builds are well formed for every module,
  and [Init_memory] leaves registers, windows and caches of types alone: so the
  invariant of [Windows.v] needs no assumption on the module. *)

From S2P Require Import Prelude CInt BitField CFloat Isa Inst Expand Ubh Memory UModule Machine Handlers Exec Frames Windows Safety.
From Stdlib Require Import ZArith Lia.
Local Open Scope Z_scope.

(** ** Packed register numbers *)
Lemma u16x4_valid k : 0 <= k -> fvalid (u16x4 k) = true.
Proof. intros H. apply andb_true_iff. cbn [u16x4 fd_off fd_w]. rewrite Z.leb_le. split; [lia | reflexivity]. Qed.

Lemma pack16_arr a b c d t : arr16 (pack16 a b c d) (tnum t) =
  wrapu 16 (match t with I32 => a | I64 => b | F32 => c | _ => d end).
Proof. unfold arr16, pack16. destruct t; cbn [tnum]; field_simpl; reflexivity. Qed.

Lemma pack16_range a b c d : in_u 64 (pack16 a b c d).
Proof.
  unfold pack16. repeat (apply fset_range; [reflexivity | discriminate|]). split; reflexivity || discriminate.
Qed.

Lemma pack16_wf a b c d m : 0 <= m < 2 ^ 16 ->
  0 <= a <= m -> 0 <= b <= m -> 0 <= c <= m -> 0 <= d <= m ->
  in_u 64 (pack16 a b c d) /\ forall t, arr16 (pack16 a b c d) (tnum t) <= m.
Proof.
  intros Hm Ha Hb Hc Hd. split; [apply pack16_range|].
  intros t. rewrite pack16_arr. destruct t; rewrite wrapu_id by (split; lia); lia.
Qed.

(** ** [map_outcome] *)
Lemma map_outcome_Forall {A B} (f : A -> outcome B) (P : B -> Prop) l r :
  (forall a b, f a = Ok b -> P b) -> Types.map_outcome f l = Ok r -> Forall P r.
Proof.
  intros Hf. revert r. induction l as [|a l IH]; intros r H; simpl in H; [injection H as <-; constructor|].
  destruct (f a) as [b|] eqn:E; [|discriminate]. cbn in H.
  destruct (Types.map_outcome f l) as [bs|]; [|discriminate]. injection H as <-. constructor; eauto.
Qed.

Lemma map_outcome_lookup {A B} (f : A -> outcome B) l r k a :
  Types.map_outcome f l = Ok r -> l !! k = Some a -> exists b, f a = Ok b /\ r !! k = Some b.
Proof.
  revert r k. induction l as [|x l IH]; intros r k H Hk; simpl in H; [discriminate|].
  destruct (f x) as [b|] eqn:E; [|discriminate]. cbn in H.
  destruct (Types.map_outcome f l) as [bs|]; [|discriminate]. injection H as <-.
  destruct k as [|k]; cbn in Hk; [injection Hk as <-; eauto | exact (IH _ _ eq_refl Hk)].
Qed.

Section Loading.
Context {bd : Build} {pf : Platform} {rt : Runtime} {rf : RuntimeFrame rt} {fe : FloatEnv}.

(** Register numbers come from fields of 10 and 8 bits. *)
Lemma Func_regs_wf s func rn sh : Types.Func_regs s func = Ok (rn, sh) ->
  (in_u 64 sh /\ forall t, arr16 sh (tnum t) <= MAX_SHS) /\
  (in_u 64 rn /\ forall t, arr16 rn (tnum t) <= MAX_RNUM).
Proof.
  unfold Types.Func_regs. destruct (UBH_FUNC.Is_set_flag F_EXTERN func).
  { intros [= <- <-]. split; (split; [split; reflexivity || discriminate|]); intros []; reflexivity || discriminate. }
  destruct (UBH_FUNC.Get_code_idx func) as [idx|]; [|discriminate]. cbn.
  destruct (Get_code s idx) as [e|]; [|discriminate]. cbn [mbind outcome_bind mret outcome_ret]. cbv zeta.
  set (c := ce_code e). intros [= <- <-].
  assert (forall f, fd_signed f = false -> fvalid f = true -> fd_w f = 10 -> 0 <= fget f c < 1024) as H10.
  { intros f Hs Hv Hw. pose proof (fget_fits f Hv c) as H. unfold ffits in H. now rewrite Hs, Hw in H. }
  assert (forall f, fd_signed f = false -> fvalid f = true -> fd_w f = 8 -> 0 <= fget f c < 256) as H8.
  { intros f Hs Hv Hw. pose proof (fget_fits f Hv c) as H. unfold ffits in H. now rewrite Hs, Hw in H. }
  pose proof (H10 UBH_CODE._i32_local eq_refl eq_refl eq_refl).
  pose proof (H10 UBH_CODE._i64_local eq_refl eq_refl eq_refl).
  pose proof (H10 UBH_CODE._f32_local eq_refl eq_refl eq_refl).
  pose proof (H10 UBH_CODE._f64_local eq_refl eq_refl eq_refl).
  pose proof (H8 UBH_CODE._i32_io eq_refl eq_refl eq_refl).
  pose proof (H8 UBH_CODE._i64_io eq_refl eq_refl eq_refl).
  pose proof (H8 UBH_CODE._f32_io eq_refl eq_refl eq_refl).
  pose proof (H8 UBH_CODE._f64_io eq_refl eq_refl eq_refl).
  unfold fget, bf_gets in *. cbn [fd_signed fd_off fd_w UBH_CODE._i32_local UBH_CODE._i64_local UBH_CODE._f32_local
    UBH_CODE._f64_local UBH_CODE._i32_io UBH_CODE._i64_io UBH_CODE._f32_io UBH_CODE._f64_io] in *.
  unfold MAX_SHS, MAX_RNUM.
  split; apply pack16_wf; change (2 ^ 16) with 65536;
    unfold UBH_CODE.Get_i32_local, UBH_CODE.Get_i64_local, UBH_CODE.Get_f32_local, UBH_CODE.Get_f64_local,
      UBH_CODE.Get_i32_io, UBH_CODE.Get_i64_io, UBH_CODE.Get_f32_io, UBH_CODE.Get_f64_io; lia.
Qed.

Lemma Decode_wf s ty : Types.Decode_type_and_cache s = Ok ty -> wf_types ty.
Proof.
  unfold Types.Decode_type_and_cache. intros H.
  destruct (sec_elem_num s S_TYPE) as [tn|]; [|discriminate]. cbn in H.
  destruct (sec_elem_num s S_FUNC) as [fn|]; [|discriminate]. cbn in H.
  destruct (Types.map_outcome _ (seqZ 0 tn)) as [types|]; [|discriminate]. cbn in H.
  destruct (Types.map_outcome _ (seqZ 0 fn)) as [regs|] eqn:E; [|discriminate]. injection H as <-.
  apply (map_outcome_Forall _ (fun r => (in_u 64 r.2 /\ forall t, arr16 r.2 (tnum t) <= MAX_SHS) /\
    (in_u 64 r.1 /\ forall t, arr16 r.1 (tnum t) <= MAX_RNUM))) in E.
  - split; cbn [_fp_shs_tab _reg_num_tab]; apply Forall_fmap; (eapply Forall_impl; [exact E|]); cbn; tauto.
  - intros i [rn sh] Hi. destruct (Get_func s i) as [f|]; [|discriminate]. cbn in Hi.
    exact (Func_regs_wf _ _ _ _ Hi).
Qed.

(** ** [Init_memory] *)
Lemma frames_modify_win (f : UWASM_MACHINE -> UWASM_MACHINE) :
  (forall m, win_eq m (f m)) -> frames win_eq (modify f).
Proof. intros H m a m' [= _ <-]. apply H. Qed.

Lemma Init_memory_win mem_p mem_size : frames win_eq (Init_memory mem_p mem_size).
Proof.
  assert (forall (f : UWASM_MACHINE -> UWASM_MACHINE),
    (forall m, exists b sta size off hsize, f m = set_memory b sta size off hsize m) -> frames win_eq (modify f)) as Hmem.
  { intros f H. apply frames_modify_win. intros m. destruct (H m) as (b & sta & sz & off & hs & ->).
    split; first [reflexivity | intros []; reflexivity]. }
  unfold Init_memory.
  repeat first
    [ apply frames_bind; [exact _ | | let a := fresh "a" in intros a]
    | apply Hmem; intros m; now repeat eexists
    | apply frames_lift; exact _ | apply frames_ret; exact _
    | apply frames_modify_win; intros m; split; first [reflexivity | intros []; reflexivity]
    | now intros m a' m' [= _ <-]
    | apply frames_if
    | match goal with |- frames _ (let '(_, _) := ?x in _) => destruct x end
    | match goal with |- frames _ (match ?x with _ => _ end) => destruct x end
    | progress cbv zeta ].
Qed.

(** ** The tables of the caches *)
Lemma Decode_tables s ty : Types.Decode_type_and_cache s = Ok ty ->
  (forall i n, sec_elem_num s S_TYPE = Ok n -> 0 <= i < n -> exists t r p,
    Get_type s i = Ok t /\ Types.Decode_type (_non_null_str_sec s) t = Ok (r, p) /\
    nthZ (_ret_tab ty) i = Ok (Types.tl_list r) /\ nthZ (_param_tab ty) i = Ok (Types.tl_list p)) /\
  (forall i n, sec_elem_num s S_FUNC = Ok n -> 0 <= i < n -> exists f rn sh,
    Get_func s i = Ok f /\ Types.Func_regs s f = Ok (rn, sh) /\
    nthZ (_reg_num_tab ty) i = Ok rn /\ nthZ (_fp_shs_tab ty) i = Ok sh).
Proof.
  unfold Types.Decode_type_and_cache. intros H.
  destruct (sec_elem_num s S_TYPE) as [tn|]; [|discriminate]. cbn [mbind outcome_bind] in H.
  destruct (sec_elem_num s S_FUNC) as [fn|]; [|discriminate]. cbn [mbind outcome_bind] in H.
  destruct (Types.map_outcome _ (seqZ 0 tn)) as [types|] eqn:Et; [|discriminate]. cbn [mbind outcome_bind] in H.
  destruct (Types.map_outcome _ (seqZ 0 fn)) as [regs|] eqn:Ef; [|discriminate]. injection H as <-.
  cbn [_ret_tab _param_tab _reg_num_tab _fp_shs_tab]. split; intros i n [= <-] Hi.
  - assert (seqZ 0 tn !! Z.to_nat i = Some i) as Hk by (apply lookup_seqZ; lia).
    destruct (map_outcome_lookup _ _ _ _ _ Et Hk) as ([r p] & Hf & Hr). cbv beta in Hf.
    destruct (Get_type s i) as [t|]; [|discriminate]. cbn [mbind outcome_bind] in Hf. exists t, r, p.
    split; [reflexivity|]. split; [exact Hf|].
    split; apply nthZ_Ok; (split; [lia|]); now rewrite list_lookup_fmap, Hr.
  - assert (seqZ 0 fn !! Z.to_nat i = Some i) as Hk by (apply lookup_seqZ; lia).
    destruct (map_outcome_lookup _ _ _ _ _ Ef Hk) as ([rn sh] & Hf & Hr). cbv beta in Hf.
    destruct (Get_func s i) as [f|]; [|discriminate]. cbn [mbind outcome_bind] in Hf. exists f, rn, sh.
    split; [reflexivity|]. split; [exact Hf|].
    split; apply nthZ_Ok; (split; [lia|]); now rewrite list_lookup_fmap, Hr.
Qed.

(** The counts of a function with code. *)
Definition locals (t : VALTYPE) (code : Z) : Z :=
  match t with
  | I32 => UBH_CODE.Get_i32_local code | I64 => UBH_CODE.Get_i64_local code
  | F32 => UBH_CODE.Get_f32_local code | _ => UBH_CODE.Get_f64_local code
  end.
Definition ios (t : VALTYPE) (code : Z) : Z :=
  match t with
  | I32 => UBH_CODE.Get_i32_io code | I64 => UBH_CODE.Get_i64_io code
  | F32 => UBH_CODE.Get_f32_io code | _ => UBH_CODE.Get_f64_io code
  end.

Lemma counts_range t code : 0 <= locals t code < 1024 /\ 0 <= ios t code < 256.
Proof.
  assert (forall f w, fd_signed f = false -> fvalid f = true -> fd_w f = w -> 0 <= fget f code < 2 ^ w) as H.
  { intros f w Hs Hv Hw. pose proof (fget_fits f Hv code) as H. unfold ffits in H. now rewrite Hs, Hw in H. }
  destruct t; cbn [locals ios]; (split; [apply (H _ 10) | apply (H _ 8)]); reflexivity.
Qed.

Lemma Func_regs_run s f e : UBH_FUNC.Is_set_flag F_EXTERN f = false ->
  Get_code s (fget UBH_FUNC._code_idx f) = Ok e -> exists rn sh, Types.Func_regs s f = Ok (rn, sh) /\
  forall t, arr16 rn (tnum t) = locals t (ce_code e) + ios t (ce_code e) /\ arr16 sh (tnum t) = locals t (ce_code e).
Proof.
  intros Hx He. unfold Types.Func_regs, UBH_FUNC.Get_code_idx. rewrite Hx. cbn [negb]. rewrite Is_True_true.
  cbn [mbind outcome_bind mret outcome_ret]. rewrite He. cbn [mbind outcome_bind]. cbv zeta.
  do 2 eexists. split; [reflexivity|]. intros t. rewrite !pack16_arr.
  destruct (counts_range t (ce_code e)) as [H1 H2]. destruct t; cbn [locals ios] in *; split; apply wrapu_id; split; lia.
Qed.
End Loading.
