(* ===== verification/StrTab.v ===== *)
(** * String tables

  [src/utilities/u_str_tab.h], [src/utilities/u_str_tab.cxx]: [U_STR_TAB] keeps
  strings one after the other in [_raw_buf], their places in [_entry_vec], and a
  [std::map] from strings to entries.  The keys of the map are pointers into
  [_raw_buf] ordered by [COMPARATOR], which looks at the contents: since the
  buffer only grows, a key is modelled by its bytes.  [COMPARATOR_spec] shows that
  the comparator is a strict order that separates exactly the different strings,
  which is what [std::map] needs. *)

From S2P Require Import Prelude CInt UModule.
From Stdlib Require Import ZArith Lia.
Local Open Scope Z_scope.

(** Whether appending [n] bytes to a vector with these contents moves it. *)
Class VectorGrowth : Type := vector_moves : list Z -> nat -> bool.

(** ** [COMPARATOR] *)
Section Comparator.
Context {pf : Platform}.

(** The value of a byte seen as a [char]. *)
Definition char_of (b : Z) : Z := if char_signed then wraps 8 b else wrapu 8 b.

(** The loop: the last difference decides. *)
Fixpoint compare_loop (comp_r : bool) (s1 s2 : list Z) : bool :=
  match s1, s2 with
  | a :: s1, b :: s2 =>
      compare_loop (if char_of a =? char_of b then comp_r else char_of a <? char_of b) s1 s2
  | _, _ => comp_r
  end.

Definition COMPARATOR (s1 s2 : list Z) : bool :=
  let comp_r := (length s1 <? length s2)%nat in
  if (length s1 =? length s2)%nat then compare_loop comp_r s1 s2 else comp_r.

Lemma char_of_inj a b : in_u 8 a -> in_u 8 b -> char_of a = char_of b -> a = b.
Proof.
  intros Ha Hb. unfold char_of. destruct char_signed.
  - intros H. rewrite <- (wrapu_id 8 a Ha), <- (wrapu_id 8 b Hb).
    rewrite <- (wrapu_wraps 8 a), <- (wrapu_wraps 8 b) by lia. now rewrite H.
  - now rewrite !wrapu_id.
Qed.

Lemma compare_loop_snoc r s1 s2 a b : length s1 = length s2 ->
  compare_loop r (s1 ++ [a]) (s2 ++ [b]) =
  if char_of a =? char_of b then compare_loop r s1 s2 else char_of a <? char_of b.
Proof.
  revert r s2. induction s1 as [|c s1 IH]; intros r [|d s2]; intros [=]; simpl; [reflexivity|].
  now rewrite IH.
Qed.

Lemma COMPARATOR_snoc s1 s2 a b : length s1 = length s2 ->
  COMPARATOR (s1 ++ [a]) (s2 ++ [b]) =
  if char_of a =? char_of b then COMPARATOR s1 s2 else char_of a <? char_of b.
Proof.
  intros H. unfold COMPARATOR. rewrite !length_app. simpl. rewrite H, !Nat.eqb_refl.
  rewrite !(proj2 (Nat.ltb_ge _ _)) by lia. now apply compare_loop_snoc.
Qed.

Lemma COMPARATOR_length s1 s2 : length s1 <> length s2 ->
  COMPARATOR s1 s2 = (length s1 <? length s2)%nat.
Proof. intros H%Nat.eqb_neq. unfold COMPARATOR. now rewrite H. Qed.

(** Strings of one length are compared from the end. *)
Lemma same_length_ind (P : list Z -> list Z -> Prop) :
  P [] [] -> (forall s1 s2 a b, length s1 = length s2 -> P s1 s2 -> P (s1 ++ [a]) (s2 ++ [b])) ->
  forall s1 s2, length s1 = length s2 -> P s1 s2.
Proof.
  intros H0 HS s1. induction s1 as [|a s1 IH] using rev_ind; intros s2 E.
  - now destruct s2.
  - destruct s2 as [|b s2 _] using rev_ind; rewrite length_app in E; simpl in E; [lia|].
    rewrite length_app in E. simpl in E. apply HS; [lia|]. apply IH. lia.
Qed.

Lemma COMPARATOR_irrefl s : COMPARATOR s s = false.
Proof.
  induction s as [|a s IH] using rev_ind; [reflexivity|].
  rewrite COMPARATOR_snoc by reflexivity. now rewrite Z.eqb_refl.
Qed.

Lemma COMPARATOR_trans s1 s2 s3 :
  COMPARATOR s1 s2 = true -> COMPARATOR s2 s3 = true -> COMPARATOR s1 s3 = true.
Proof.
  destruct (Nat.eq_dec (length s1) (length s2)) as [E12|N12].
  - destruct (Nat.eq_dec (length s2) (length s3)) as [E23|N23].
    + revert s3 E23. pattern s1, s2. apply same_length_ind; [|clear|exact E12].
      * intros s3 E H. discriminate H.
      * intros s1 s2 a b E12 IH s3 E23.
        destruct s3 as [|c s3 _] using rev_ind; rewrite length_app in E23; simpl in E23; [lia|].
        rewrite length_app in E23. simpl in E23. rewrite !COMPARATOR_snoc by lia.
        specialize (IH s3 ltac:(lia)).
        destruct (Z.eqb_spec (char_of a) (char_of b)), (Z.eqb_spec (char_of b) (char_of c)),
          (Z.eqb_spec (char_of a) (char_of c)); rewrite ?Z.ltb_lt; auto; lia || congruence.
    + rewrite !(COMPARATOR_length _ s3) by lia. rewrite !Nat.ltb_lt. lia.
  - rewrite (COMPARATOR_length s1 s2) by exact N12.
    destruct (Nat.eq_dec (length s2) (length s3)) as [E23|N23].
    + rewrite (COMPARATOR_length s1 s3) by lia. rewrite !Nat.ltb_lt. lia.
    + rewrite (COMPARATOR_length s2 s3) by lia. rewrite !Nat.ltb_lt. intros H1 H2.
      rewrite COMPARATOR_length by lia. apply Nat.ltb_lt. lia.
Qed.

Lemma COMPARATOR_total s1 s2 : Forall (in_u 8) s1 -> Forall (in_u 8) s2 ->
  COMPARATOR s1 s2 = false -> COMPARATOR s2 s1 = false -> s1 = s2.
Proof.
  intros H1 H2. destruct (Nat.eq_dec (length s1) (length s2)) as [E|N].
  - revert H1 H2. pattern s1, s2. apply same_length_ind; [auto| |exact E]. clear.
    intros s1 s2 a b E IH [H1 Ha]%Forall_app [H2 Hb]%Forall_app.
    apply Forall_cons in Ha as [Ha _], Hb as [Hb _].
    rewrite !COMPARATOR_snoc by lia. rewrite (Z.eqb_sym (char_of b)).
    destruct (Z.eqb_spec (char_of a) (char_of b)) as [Eab|]; rewrite ?Z.ltb_ge; [|lia].
    intros H3 H4. apply char_of_inj in Eab; auto. subst. f_equal. auto.
  - rewrite !COMPARATOR_length by lia. rewrite !Nat.ltb_ge. lia.
Qed.
End Comparator.

(** ** [U_STR_TAB] *)
Record U_STR_TAB : Type := mkSTR_TAB {
  _entry_vec : list (Z * Z);
  _raw_buf : list Z;
  _cache : gmap (list Z) Z;
}.
Definition str_tab0 : U_STR_TAB := mkSTR_TAB [] [] ∅.

Definition slice_of (raw : list Z) (e : Z * Z) : list Z :=
  take (Z.to_nat e.2) (drop (Z.to_nat e.1) raw).

Section StrTab.
Context {bd : Build} {vg : VectorGrowth}.

Definition Contains (buf : list Z) (t : U_STR_TAB) : bool :=
  match _cache t !! buf with Some _ => true | None => false end.
Definition Get_idx (buf : list Z) (t : U_STR_TAB) : Z := default 0 (_cache t !! buf).

(** The loop that fills the map again: [insert] keeps the entry of a key it finds. *)
Fixpoint fill_cache (raw : list Z) (i : Z) (es : list (Z * Z)) (c : gmap (list Z) Z)
    : gmap (list Z) Z :=
  match es with
  | [] => c
  | e :: es =>
      fill_cache raw (i + 1) es
        (match c !! slice_of raw e with Some _ => c | None => <[slice_of raw e := i]> c end)
  end.

Definition Add (buf : list Z) : M U_STR_TAB Z := fun t =>
  let len := Z.of_nat (length buf) in
  let es := _entry_vec t ++ [(UINT32 (Z.of_nat (length (_raw_buf t))), UINT32 len)] in
  let entry_idx := UINT32 (Z.of_nat (length es) - 1) in
  let raw := _raw_buf t ++ buf in
  let same := match _raw_buf t with [] => true | _ => negb (vector_moves (_raw_buf t) (length buf)) end in
  let c := if same then <[buf := entry_idx]> (_cache t) else fill_cache raw 0 es ∅ in
  Ok (entry_idx, mkSTR_TAB es raw c).

Definition Get_off (idx : Z) (t : U_STR_TAB) : outcome Z :=
  _ ← Is_True (idx <? Z.of_nat (length (_entry_vec t)));
  e ← nthZ (_entry_vec t) idx; mret e.1.

Definition Request (buf : list Z) : M U_STR_TAB Z := fun t =>
  match _cache t !! buf with Some i => Ok (i, t) | None => Add buf t end.

Definition Pad (align : Z) : M U_STR_TAB unit := fun t =>
  let size := Z.of_nat (length (_raw_buf t)) in
  if size mod align =? 0 then Ok (tt, t)
  else match Add (repeat 0 (Z.to_nat (align - size mod align))) t with
       | Ok (_, t) => Ok (tt, t)
       | Err f => Err f
       end.

(** ** The invariant *)

(** The string of an entry. *)
Definition string_at (t : U_STR_TAB) (i : Z) : option (list Z) :=
  e ← (if i <? 0 then None else _entry_vec t !! Z.to_nat i); mret (slice_of (_raw_buf t) e).

Definition entry_ok (raw : list Z) (e : Z * Z) : Prop :=
  0 <= e.1 /\ 0 <= e.2 /\ e.1 + e.2 <= Z.of_nat (length raw).

Record wf_tab (t : U_STR_TAB) : Prop := {
  wf_entries : Forall (entry_ok (_raw_buf t)) (_entry_vec t);
  wf_cache : forall s i, _cache t !! s = Some i -> string_at t i = Some s;
  wf_found : forall i s, string_at t i = Some s -> is_Some (_cache t !! s);
}.

(** There is room for one more string of [n] bytes. *)
Definition has_room (n : nat) (t : U_STR_TAB) : Prop :=
  Z.of_nat (length (_raw_buf t) + n) < 2 ^ 32 /\ Z.of_nat (length (_entry_vec t)) + 1 < 2 ^ 32.

Lemma wf_tab0 : wf_tab str_tab0.
Proof.
  split; [apply Forall_nil_2 | intros s i; cbn [_cache str_tab0]; rewrite lookup_empty; discriminate |].
  intros i s. unfold string_at. simpl. now destruct (i <? 0).
Qed.

Lemma slice_of_app raw buf e : entry_ok raw e -> slice_of (raw ++ buf) e = slice_of raw e.
Proof.
  intros (H1 & H2 & H3). unfold slice_of. rewrite drop_app_le by lia.
  apply take_app_le. rewrite length_drop. lia.
Qed.

Lemma slice_of_end raw buf :
  slice_of (raw ++ buf) (Z.of_nat (length raw), Z.of_nat (length buf)) = buf.
Proof. unfold slice_of. simpl. rewrite !Nat2Z.id, drop_app_length. apply take_ge. lia. Qed.

Lemma entry_ok_app raw buf e : entry_ok raw e -> entry_ok (raw ++ buf) e.
Proof. unfold entry_ok. rewrite length_app. lia. Qed.

Lemma string_at_lookup t i s : string_at t (Z.of_nat i) = Some s <->
  exists e, _entry_vec t !! i = Some e /\ slice_of (_raw_buf t) e = s.
Proof.
  unfold string_at. rewrite (proj2 (Z.ltb_ge _ _)) by lia. rewrite Nat2Z.id.
  destruct (_ !! i); simpl; split; [intros [= <-]; eauto | intros (? & [= <-] & <-); auto
    | discriminate | intros (? & [=] & _)].
Qed.

Lemma string_at_nonneg t i s : string_at t i = Some s -> 0 <= i.
Proof. unfold string_at. destruct (Z.ltb_spec i 0); [discriminate | lia]. Qed.

(** The refilled map: the first entry of each string. *)
Lemma fill_cache_spec raw es : forall i c s j, fill_cache raw i es c !! s = Some j <->
  c !! s = Some j \/ (c !! s = None /\ exists k e, es !! k = Some e /\ j = i + Z.of_nat k /\
    slice_of raw e = s /\ forall k' e', (k' < k)%nat -> es !! k' = Some e' -> slice_of raw e' <> s).
Proof.
  induction es as [|e es IH]; intros i c s j; simpl.
  - split; [auto|]. intros [H|(_ & k & e & H & _)]; [exact H | discriminate H].
  - rewrite IH. destruct (decide (slice_of raw e = s)) as [<-|Hne].
    + destruct (c !! slice_of raw e) as [j0|] eqn:E.
      * rewrite E. split; [intros [H|[[=] _]]; auto | intros [H|[[=] _]]; auto].
      * rewrite lookup_insert_eq. split.
        -- intros [[= <-]|[[=] _]]. right. split; [reflexivity|]. exists O, e.
           repeat split; [lia|]. intros k' e' Hk. lia.
        -- intros [[=]|(_ & k & e1 & Hk & -> & Hs & Hf)]. left. destruct k as [|k].
           ++ f_equal. lia.
           ++ exfalso. exact (Hf O e ltac:(lia) eq_refl eq_refl).
    + replace (match c !! slice_of raw e with Some _ => c | None => <[slice_of raw e:=i]> c end !! s)
        with (c !! s) by (destruct (c !! slice_of raw e); [reflexivity | now rewrite lookup_insert_ne]).
      split; (intros [H|(Hn & k & e1 & Hk & Hj & Hs & Hf)]; [now left|right; split; [exact Hn|]]).
      * exists (S k), e1. repeat split; auto; [lia|]. intros [|k'] e' Hlt Hk'; simpl in Hk'; [congruence|].
        apply (Hf k'); [lia | exact Hk'].
      * destruct k as [|k]; simpl in Hk; [congruence|].
        exists k, e1. repeat split; auto; [lia|]. intros k' e' Hlt Hk'. apply (Hf (S k')); [lia | exact Hk'].
Qed.

Lemma fill_cache_found raw es k e : es !! k = Some e ->
  is_Some (fill_cache raw 0 es ∅ !! slice_of raw e).
Proof.
  revert e. induction k as [k IH] using lt_wf_ind. intros e Hk.
  destruct (decide (Exists (fun e' => slice_of raw e' = slice_of raw e) (take k es))) as [H|H].
  - apply Exists_exists in H as (e' & Hin & Hs). apply list_elem_of_lookup_1 in Hin as (k' & Hk').
    apply lookup_take_Some in Hk' as [Hk' Hlt]. rewrite <- Hs. eauto.
  - exists (0 + Z.of_nat k). apply fill_cache_spec. right. split; [apply lookup_empty|].
    exists k, e. repeat split; auto. intros k' e' Hlt Hk' Hs. apply H, Exists_exists.
    exists e'. split; [|exact Hs]. apply list_elem_of_lookup_2 with k', lookup_take_Some. auto.
Qed.

Lemma string_at_app t t' buf e : Forall (entry_ok (_raw_buf t)) (_entry_vec t) ->
  _raw_buf t' = _raw_buf t ++ buf -> _entry_vec t' = _entry_vec t ++ [e] ->
  slice_of (_raw_buf t') e = buf -> forall i s,
  string_at t' (Z.of_nat i) = Some s <->
  string_at t (Z.of_nat i) = Some s \/ i = length (_entry_vec t) /\ s = buf.
Proof.
  intros Hw Hr He Hs i s. rewrite !string_at_lookup, He. setoid_rewrite lookup_app_Some. split.
  - intros (e' & [Hi|[Hl Hi]] & <-).
    + left. exists e'. split; [exact Hi|]. rewrite Hr. symmetry. apply slice_of_app.
      exact (Forall_lookup_1 _ _ _ _ Hw Hi).
    + right. apply list_lookup_singleton_Some in Hi as [Hi <-]. split; [lia | exact Hs].
  - intros [(e' & Hi & <-)|[-> ->]].
    + exists e'. split; [now left|]. rewrite Hr. apply slice_of_app. exact (Forall_lookup_1 _ _ _ _ Hw Hi).
    + exists e. split; [|exact Hs]. right. split; [lia|]. now rewrite Nat.sub_diag.
Qed.

Record added (buf : list Z) (t : U_STR_TAB) (i : Z) (t' : U_STR_TAB) : Prop := {
  ad_wf : wf_tab t';
  ad_new : string_at t' i = Some buf;
  ad_old : forall j s, string_at t j = Some s -> string_at t' j = Some s;
  ad_size : (length (_raw_buf t') <= length (_raw_buf t) + length buf)%nat;
  ad_raw : _raw_buf t `prefix_of` _raw_buf t';
  ad_entries : _entry_vec t `prefix_of` _entry_vec t';
}.

Lemma Add_spec buf t : wf_tab t -> has_room (length buf) t -> exists t',
  Add buf t = Ok (Z.of_nat (length (_entry_vec t)), t') /\
  added buf t (Z.of_nat (length (_entry_vec t))) t'.
Proof.
  intros [W1 W2 W3] [R1 R2]. unfold Add.
  rewrite length_app. cbn [length].
  rewrite !UINT32_id by lia.
  replace (Z.of_nat (length (_entry_vec t) + 1) - 1) with (Z.of_nat (length (_entry_vec t))) by lia.
  set (e := (Z.of_nat (length (_raw_buf t)), Z.of_nat (length buf))).
  set (c := if match _raw_buf t with [] => true | _ => _ end then _ else _).
  set (t' := mkSTR_TAB _ _ c). exists t'. split; [reflexivity|].
  pose proof (string_at_app t t' buf e W1 eq_refl eq_refl (slice_of_end _ _)) as Hat.
  assert (forall j s, string_at t j = Some s -> string_at t' j = Some s) as Hold.
  { intros j s Hj. pose proof (string_at_nonneg _ _ _ Hj) as H0. rewrite <- (Z2Nat.id j H0) in *.
    apply Hat. now left. }
  assert (string_at t' (Z.of_nat (length (_entry_vec t))) = Some buf) as Hnew by (apply Hat; now right).
  split; auto; [|cbn [t' _raw_buf]; rewrite length_app; lia | now eexists | now eexists].
  split.
  - unfold t'. cbn [_raw_buf _entry_vec]. apply Forall_app. split.
    + eapply Forall_impl; [exact W1|]. intros x. apply entry_ok_app.
    + apply Forall_singleton. unfold entry_ok, e. cbn [fst snd]. rewrite length_app. lia.
  - intros s i. change (_cache t') with c. unfold c. destruct (match _raw_buf t with [] => _ | _ => _ end).
    + intros [[<- <-]|[Hne Hs]]%lookup_insert_Some; auto.
    + intros [H|(_ & k & e' & Hk & -> & Hs & _)]%fill_cache_spec; [now rewrite lookup_empty in H|].
      rewrite Z.add_0_l. apply string_at_lookup. eauto.
  - intros i s Hi. pose proof (string_at_nonneg _ _ _ Hi) as H0. rewrite <- (Z2Nat.id i H0) in *.
    change (_cache t') with c. unfold c. destruct (match _raw_buf t with [] => _ | _ => _ end).
    + apply Hat in Hi as [Hi|[_ ->]]; [|rewrite lookup_insert_eq; eauto].
      destruct (decide (buf = s)) as [->|Hne]; [rewrite lookup_insert_eq; eauto|].
      rewrite lookup_insert_ne by exact Hne. eauto.
    + apply string_at_lookup in Hi as (e' & Hk & <-). exact (fill_cache_found _ _ _ _ Hk).
Qed.

(** [Request]: the entry found or made holds the string, earlier entries stay, and
  asking again gives the same entry. *)
Lemma Request_spec buf t : wf_tab t -> has_room (length buf) t -> exists i t',
  Request buf t = Ok (i, t') /\ added buf t i t' /\ Request buf t' = Ok (i, t').
Proof.
  intros Hw Hr. unfold Request. destruct (_cache t !! buf) as [i|] eqn:E.
  - exists i, t. split; [reflexivity|]. rewrite E. split; [|reflexivity].
    split; auto; [now apply (wf_cache _ Hw) | lia].
  - destruct (Add_spec buf t Hw Hr) as (t' & H & Ha). rewrite H. do 2 eexists. split; [reflexivity|].
    split; [exact Ha|]. destruct Ha as [Hw' Hn Ho _ _ _].
    destruct (wf_found _ Hw' _ _ Hn) as [j Hj]. rewrite Hj. do 2 f_equal.
    pose proof (wf_cache _ Hw' _ _ Hj) as Hs. pose proof (string_at_nonneg _ _ _ Hs) as H0.
    unfold Add in H. injection H as H1 H2.
    rewrite <- (Z2Nat.id j H0) in *. clear H1.
    assert (string_at t' (Z.of_nat (Z.to_nat j)) = Some buf -> j = Z.of_nat (length (_entry_vec t))) as Hj'.
    { intros Hs'. destruct (decide (Z.to_nat j < length (_entry_vec t))%nat) as [Hlt|Hge].
      - exfalso. destruct (lookup_lt_is_Some_2 _ _ Hlt) as [e He].
        assert (string_at t (Z.of_nat (Z.to_nat j)) = Some (slice_of (_raw_buf t) e)) as Ht
          by (apply string_at_lookup; eauto).
        apply Ho in Ht as Ht'. rewrite Ht' in Hs'. injection Hs' as Hs'. rewrite Hs' in Ht.
        destruct (wf_found _ Hw _ _ Ht) as [? Hc]. congruence.
      - apply string_at_lookup in Hs' as (e & He & _). apply lookup_lt_Some in He.
        rewrite <- H2 in He. cbn [_entry_vec] in He. rewrite length_app in He. cbn in He. lia. }
    rewrite Z2Nat.id by exact H0. auto.
Qed.

(** The offset of an entry is where its bytes are. *)
Lemma Get_off_spec t i s : wf_tab t -> string_at t i = Some s -> exists off,
  Get_off i t = Ok off /\ 0 <= off /\ off + Z.of_nat (length s) <= Z.of_nat (length (_raw_buf t)) /\
  slice_of (_raw_buf t) (off, Z.of_nat (length s)) = s.
Proof.
  intros Hw Hi. pose proof (string_at_nonneg _ _ _ Hi) as H0. rewrite <- (Z2Nat.id i H0) in *.
  apply string_at_lookup in Hi as (e & He & <-). exists e.1. unfold Get_off.
  pose proof (lookup_lt_Some _ _ _ He) as Hl.
  rewrite (proj2 (Z.ltb_lt _ _)) by lia. rewrite Is_True_true. cbn [mbind outcome_bind].
  destruct (Forall_lookup_1 _ _ _ _ (wf_entries _ Hw) He) as (E1 & E2 & E3).
  assert (Z.of_nat (length (slice_of (_raw_buf t) e)) = e.2) as El.
  { unfold slice_of. rewrite length_take, length_drop. lia. }
  split; [|rewrite El; repeat split; auto; now destruct e].
  unfold nthZ. rewrite (proj2 (Z.ltb_ge _ _)) by lia. rewrite Nat2Z.id, He. reflexivity.
Qed.
End StrTab.
