(* ===== verification/TypeEncoder.v ===== *)
(** * The type encoder

  [src/encoder/u_type_encoder.h], [src/encoder/u_type_encoder.cxx], and
  [Type_to_number] of [src/encoder/u_encoder.cxx]: a signature with few types is
  packed in a [UBH_TYPE], a longer one in a string of the non-null table.  The
  theorem is the round trip with [U_MODULE::Decode_type_and_cache]. *)

From S2P Require Import Prelude CInt BitField Isa Ubh UModule StrTab.
From Stdlib Require Import ZArith Lia.
Local Open Scope Z_scope.

Record U_TYPE_ENCODER : Type := mkTYPE_ENCODER {
  _type_list : list Z;
  _nn_tab : U_STR_TAB;
}.

Section TypeEncoder.
Context {bd : Build} {vg : VectorGrowth}.

(** The loops of [Type_to_number]; [base] is what is subtracted beside [i]. *)
Fixpoint number_loop (base i : Z) (l : list VALTYPE) (elem : Z) : outcome Z :=
  match l with
  | [] => mret elem
  | t :: l =>
      let tmp := Z.land (valty_num t) TYPE_MASK in
      x ← ushl 32 tmp (UINT32 (VALTY_SZ * (MAX_TYPE_ELEM_NUM - VALTY_SZ - i - base)));
      number_loop base (i + 1) l (Z.lor elem x)
  end.

Definition Type_to_number (ret_type_list param_type_list : list VALTYPE) : outcome Z :=
  let ret_num := UINT16 (Z.of_nat (length ret_type_list)) in
  elem ← number_loop 0 0 ret_type_list 0;
  number_loop ret_num 0 param_type_list elem.

(** [buf[k] |= (v & 0x03) << sh]. *)
Definition or_byte (k v sh : Z) (buf : list Z) : outcome (list Z) :=
  b ← (if k <? 0 then Err MemFault else of_option MemFault (buf !! Z.to_nat k));
  x ← sshl 32 (Z.land v 3) sh;
  mret (<[Z.to_nat k := UINT8 (Z.lor b x)]> buf).

Fixpoint ret_bytes (i : Z) (l : list VALTYPE) (buf : list Z) : outcome (list Z) :=
  match l with
  | [] => mret buf
  | t :: l =>
      buf ← or_byte 2 (valty_num t) (UINT32 (8 - (i + 1) * 2)) buf;
      ret_bytes (i + 1) l buf
  end.
Fixpoint param_bytes (i : Z) (l : list VALTYPE) (buf : list Z) : outcome (list Z) :=
  match l with
  | [] => mret buf
  | t :: l =>
      let buf_idx := i / 4 in
      let bi := i mod 4 in
      buf ← or_byte (2 + buf_idx) (valty_num t) (8 - (bi + 1) * 2) buf;
      param_bytes (i + 1) l buf
  end.

(** The bytes of a signature kept in the string table. *)
Definition type_bytes (ret_type_list param_type_list : list VALTYPE) : outcome (list Z) :=
  let ret_num := Z.of_nat (length ret_type_list) in
  let param_num := Z.of_nat (length param_type_list) in
  let byte_num := (ret_num + param_num) * 2 / 8 in
  let byte_num := if (ret_num + param_num) * 2 mod 8 =? 0 then byte_num else byte_num + 1 in
  let buf := repeat 0 (Z.to_nat (byte_num + 2)) in
  let buf := <[0%nat := UINT8 param_num]> (<[1%nat := UINT8 (param_num / 256)]> buf) in
  buf ← ret_bytes 0 ret_type_list buf;
  param_bytes ret_num param_type_list buf.

(** The loop that looks for an equal entry. *)
Fixpoint find_type (i : Z) (l : list Z) (type : Z) : option Z :=
  match l with
  | [] => None
  | t :: l => if UBH_TYPE.eqb t type then Some i else find_type (i + 1) l type
  end.

Definition enter_type (type : Z) (st : U_TYPE_ENCODER) : Z * U_TYPE_ENCODER :=
  match find_type 0 (_type_list st) type with
  | Some i => (i, st)
  | None => (Z.of_nat (length (_type_list st)), mkTYPE_ENCODER (_type_list st ++ [type]) (_nn_tab st))
  end.

(** The numbers are those of [vector::size], below [2^32]. *)
Definition Add_type (ret_type_list param_type_list : list VALTYPE) : M U_TYPE_ENCODER Z := fun st =>
  let ret_num := Z.of_nat (length ret_type_list) in
  let param_num := Z.of_nat (length param_type_list) in
  if ret_num + param_num <? MAX_TYPE_ELEM_NUM then
    match Type_to_number ret_type_list param_type_list with
    | Ok elem => Ok (enter_type (UBH_TYPE.UBH_TYPE ret_num param_num elem) st)
    | Err f => Err f
    end
  else
    match (buf ← type_bytes ret_type_list param_type_list;
           r ← Request buf (_nn_tab st);
           let '(idx, tab) := r in
           off ← Get_off idx tab; mret (off, tab)) with
    | Ok (off, tab) =>
        Ok (enter_type (UBH_TYPE.UBH_TYPE ret_num 255 off) (mkTYPE_ENCODER (_type_list st) tab))
    | Err f => Err f
    end.
End TypeEncoder.

Example add_type_1 : Type_to_number [I64] [F32; I32] = Ok (Z.lor (Z.shiftl 1 24) (Z.shiftl 2 22)).
Proof. reflexivity. Qed.

(** ** What decoding gives *)

(** The decoded list and counters of a list of types. *)
Definition tl_of (l : list VALTYPE) : Types.TYPE_LIST :=
  fold_left (fun tl t => Types.tl_push (valty_num t) tl) l Types.tl_empty.

Definition real_types : list VALTYPE -> Prop := Forall (fun t => t <> VALTY_UNKNOWN).

Lemma real_num t : t <> VALTY_UNKNOWN -> in_u 2 (valty_num t).
Proof. intros H. destruct (valty_num_range t H). split; simpl; lia. Qed.

Lemma decode_loop_run get l j tl :
  (forall k t, l !! k = Some t -> get (j + Z.of_nat k) = Ok (valty_num t)) ->
  Types.decode_loop get j (length l) tl = Ok (fold_left (fun tl t => Types.tl_push (valty_num t) tl) l tl).
Proof.
  revert j tl. induction l as [|t l IH]; intros j tl H; [reflexivity|]. simpl.
  pose proof (H O t eq_refl) as H0. rewrite Z.add_0_r in H0. rewrite H0. simpl. apply IH.
  intros k t' Hk. rewrite <- (H (S k) t' Hk). f_equal. lia.
Qed.

(** ** The packed form *)
Definition elem_field (j : nat) : field := Field (24 - 2 * Z.of_nat j) 2 false.

Record packed (vs : list VALTYPE) (elem : Z) : Prop := {
  pk_range : in_u 26 elem;
  pk_field : forall j, (j < 13)%nat ->
    fget (elem_field j) elem = match vs !! j with Some t => valty_num t | None => 0 end;
}.

Lemma elem_field_valid j : (j < 13)%nat -> fvalid (elem_field j) = true.
Proof. intros H. apply andb_true_iff. simpl. rewrite Z.leb_le. split; [lia | reflexivity]. Qed.

Lemma elem_field_disjoint i j : i <> j -> fdisjoint (elem_field i) (elem_field j) = true.
Proof. intros H. apply orb_true_iff. simpl. rewrite !Z.leb_le. lia. Qed.

Lemma packed_nil : packed [] 0.
Proof.
  split; [split; reflexivity || discriminate|]. intros j Hj. rewrite lookup_nil.
  apply fget_zero, elem_field_valid, Hj.
Qed.

Lemma packed_snoc vs t elem : packed vs elem -> (length vs < 13)%nat -> t <> VALTY_UNKNOWN ->
  packed (vs ++ [t]) (fset (elem_field (length vs)) (valty_num t) elem).
Proof.
  intros [H1 H2] Hl Ht. split.
  - apply fset_range; [now apply elem_field_valid | simpl; lia | exact H1].
  - intros j Hj. destruct (decide (j = length vs)) as [->|Hne].
    + rewrite fget_fset_same by now apply elem_field_valid.
      rewrite lookup_app_r, Nat.sub_diag by lia. cbn [lookup list_lookup].
      apply (fkeep_fits (elem_field (length vs))); [now apply elem_field_valid | now apply real_num].
    + rewrite fget_fset_other by auto using elem_field_valid, elem_field_disjoint.
      rewrite H2 by exact Hj. destruct (decide (j < length vs)%nat).
      * now rewrite lookup_app_l.
      * rewrite !lookup_ge_None_2; [reflexivity | rewrite length_app; simpl; lia | lia].
Qed.

Lemma number_loop_run base i l : forall vs elem, packed vs elem -> real_types l ->
  base + i = Z.of_nat (length vs) -> (length vs + length l <= 13)%nat ->
  exists elem', number_loop base i l elem = Ok elem' /\ packed (vs ++ l) elem'.
Proof.
  revert i. induction l as [|t l IH]; intros i vs elem Hp Hl Hi Hlen.
  - exists elem. rewrite app_nil_r. auto.
  - apply Forall_cons in Hl as [Ht Hl]. simpl length in Hlen.
    assert (Z.land (valty_num t) TYPE_MASK = valty_num t) as Em.
    { change TYPE_MASK with (Z.ones 2). rewrite <- wrapu_land by lia. now apply wrapu_id, real_num. }
    cbn [number_loop]. rewrite Em. unfold ushl, shift_ok.
    assert (UINT32 (VALTY_SZ * (MAX_TYPE_ELEM_NUM - VALTY_SZ - i - base)) = fd_off (elem_field (length vs))) as ->.
    { change VALTY_SZ with 2. change MAX_TYPE_ELEM_NUM with 14. simpl. rewrite UINT32_id; lia. }
    pose proof (real_num t Ht) as Hr. change (2 ^ 2) with 4 in Hr.
    assert (0 <= fd_off (elem_field (length vs)) < 25) as Ho by (simpl; lia).
    rewrite (proj2 (Z.leb_le 0 _)), (proj2 (Z.ltb_lt _ 32)) by lia. cbn [andb mbind outcome_bind].
    assert (wrapu 32 (Z.shiftl (valty_num t) (fd_off (elem_field (length vs)))) =
            Z.shiftl (valty_num t) (fd_off (elem_field (length vs)))) as ->.
    { apply wrapu_id. rewrite Z.shiftl_mul_pow2 by lia.
      pose proof (Z.pow_le_mono_r 2 (fd_off (elem_field (length vs))) 24 ltac:(lia) ltac:(lia)).
      pose proof (pow2_pos (fd_off (elem_field (length vs))) ltac:(lia)).
      unfold in_u in *. change (2 ^ 24) with 16777216 in *. change (2 ^ 32) with 4294967296. nia. }
    rewrite fset_lor; [|now apply elem_field_valid; lia | reflexivity | | exact Hr].
    2: { rewrite (pk_field _ _ Hp) by lia. now rewrite lookup_ge_None_2 by lia. }
    destruct (IH (i + 1) (vs ++ [t]) (fset (elem_field (length vs)) (valty_num t) elem)) as (e & He & Hp').
    + apply packed_snoc; [exact Hp | lia | exact Ht].
    + exact Hl.
    + rewrite length_app. simpl. lia.
    + rewrite length_app. simpl. lia.
    + exists e. split; [exact He|]. now rewrite <- app_assoc in Hp'.
Qed.

Lemma local_valty_packed vs elem j t : packed vs elem -> vs !! j = Some t -> (j < 13)%nat ->
  Types.local_valty elem (Z.of_nat j) = Ok (valty_num t).
Proof.
  intros [H1 H2] Hj Hl. unfold Types.local_valty, ushr, shift_ok.
  change (MAX_TYPE_ELEM_RANGE - (Z.of_nat j + 1) * VALTY_SZ) with (26 - (Z.of_nat j + 1) * 2).
  rewrite UINT32_id by lia.
  rewrite (proj2 (Z.leb_le 0 _)), (proj2 (Z.ltb_lt _ 32)) by lia. cbn [andb mbind outcome_bind mret outcome_ret].
  f_equal. specialize (H2 j Hl). rewrite Hj in H2.
  change TYPE_MASK with (Z.ones 2).
  replace (Z.land (Z.shiftr elem (26 - (Z.of_nat j + 1) * 2)) (Z.ones 2)) with (valty_num t).
  - apply wrapu_id. destruct t; split; simpl; lia.
  - rewrite <- H2. unfold fget, elem_field, bf_get. cbn [fd_signed fd_off fd_w]. do 2 f_equal. lia.
Qed.

(** ** The string form *)
Definition byte_field (j : nat) : field := Field (6 - 2 * Z.of_nat (j mod 4)) 2 false.
Definition byte_pos (j : nat) : nat := 2 + j / 4.

Lemma byte_pos_Z j : Z.of_nat (byte_pos j) = 2 + Z.of_nat j / 4.
Proof. unfold byte_pos. now rewrite Nat2Z.inj_add, Nat2Z.inj_div. Qed.

Lemma byte_field_valid j : fvalid (byte_field j) = true.
Proof.
  apply andb_true_iff. cbn [byte_field fd_off fd_w]. rewrite Z.leb_le. split; [|reflexivity].
  pose proof (Nat.mod_upper_bound j 4). lia.
Qed.

Lemma byte_field_disjoint i j : i <> j -> byte_pos i = byte_pos j ->
  fdisjoint (byte_field i) (byte_field j) = true.
Proof.
  unfold byte_pos. intros H E. apply orb_true_iff. cbn [byte_field fd_off fd_w]. rewrite !Z.leb_le.
  pose proof (Nat.div_mod_eq i 4). pose proof (Nat.div_mod_eq j 4).
  assert (i / 4 = j / 4)%nat by lia. lia.
Qed.

Record filled (n : nat) (vs : list VALTYPE) (buf : list Z) : Prop := {
  fl_length : length buf = n;
  fl_range : Forall (in_u 8) buf;
  fl_field : forall j b, buf !! byte_pos j = Some b ->
    fget (byte_field j) b = match vs !! j with Some t => valty_num t | None => 0 end;
}.

Lemma or_byte_run n vs t buf : filled n vs buf -> t <> VALTY_UNKNOWN ->
  (byte_pos (length vs) < n)%nat -> exists buf',
  or_byte (Z.of_nat (byte_pos (length vs))) (valty_num t) (fd_off (byte_field (length vs))) buf = Ok buf' /\
  filled n (vs ++ [t]) buf' /\ buf' !! 0%nat = buf !! 0%nat /\ buf' !! 1%nat = buf !! 1%nat.
Proof.
  intros [H1 H2 H3] Ht Hn. destruct (lookup_lt_is_Some_2 buf (byte_pos (length vs)) ltac:(lia)) as [b Hb].
  pose proof (real_num t Ht) as Hr. pose proof (byte_field_valid (length vs)) as Hv.
  assert (0 <= fd_off (byte_field (length vs)) < 7) as Ho.
  { cbn [byte_field fd_off]. pose proof (Nat.mod_upper_bound (length vs) 4). lia. }
  unfold or_byte. rewrite (proj2 (Z.ltb_ge _ 0)) by lia. rewrite Nat2Z.id, Hb.
  cbn [of_option mbind outcome_bind]. unfold sshl, shift_ok.
  rewrite (proj2 (Z.leb_le 0 _)), (proj2 (Z.ltb_lt _ 32)) by lia. cbn [andb mbind outcome_bind mret outcome_ret].
  assert (Z.land (valty_num t) 3 = valty_num t) as ->.
  { change 3 with (Z.ones 2). rewrite <- wrapu_land by lia. now apply wrapu_id. }
  assert (wraps 32 (Z.shiftl (valty_num t) (fd_off (byte_field (length vs)))) =
          Z.shiftl (valty_num t) (fd_off (byte_field (length vs)))) as ->.
  { apply wraps_id; [lia|]. rewrite Z.shiftl_mul_pow2 by lia.
    pose proof (Z.pow_le_mono_r 2 (fd_off (byte_field (length vs))) 6 ltac:(lia) ltac:(lia)).
    pose proof (pow2_pos (fd_off (byte_field (length vs))) ltac:(lia)).
    unfold in_u, in_s in *. change (2 ^ 2) with 4 in *. change (2 ^ 6) with 64 in *.
    change (2 ^ (32 - 1)) with 2147483648 in *. nia. }
  rewrite fset_lor; [|exact Hv | reflexivity | | exact Hr].
  2: { rewrite (H3 _ _ Hb). now rewrite lookup_ge_None_2 by lia. }
  pose proof (Forall_lookup_1 _ _ _ _ H2 Hb) as Hbr.
  assert (in_u 8 (fset (byte_field (length vs)) (valty_num t) b)) as Hbr'.
  { apply fset_range; [exact Hv | cbn [byte_field fd_off fd_w]; pose proof (Nat.mod_upper_bound (length vs) 4); lia | exact Hbr]. }
  assert (UINT8 (fset (byte_field (length vs)) (valty_num t) b) =
          fset (byte_field (length vs)) (valty_num t) b) as -> by now apply wrapu_id.
  eexists. split; [reflexivity|].
  split; [split|split; now rewrite list_lookup_insert_ne by (unfold byte_pos; lia)].
  - now rewrite length_insert.
  - now apply Forall_insert.
  - intros j b' Hj. destruct (decide (byte_pos (length vs) = byte_pos j)) as [E|E].
    + rewrite E, list_lookup_insert_eq in Hj by lia. injection Hj as <-.
      destruct (decide (j = length vs)) as [->|Hne].
      * rewrite fget_fset_same by exact Hv.
        rewrite lookup_app_r, Nat.sub_diag by lia. cbn [lookup list_lookup].
        now apply (fkeep_fits (byte_field (length vs))).
      * rewrite fget_fset_other by (auto using byte_field_valid; now apply byte_field_disjoint).
        rewrite E in Hb. rewrite (H3 _ _ Hb). destruct (decide (j < length vs)%nat).
        -- now rewrite lookup_app_l.
        -- rewrite !lookup_ge_None_2; [reflexivity | rewrite length_app; simpl; lia | lia].
    + rewrite list_lookup_insert_ne in Hj by exact E. rewrite (H3 _ _ Hj).
      assert (j <> length vs) by congruence. destruct (decide (j < length vs)%nat).
      * now rewrite lookup_app_l.
      * rewrite !lookup_ge_None_2; [reflexivity | rewrite length_app; simpl; lia | lia].
Qed.

(** Both loops put the next type at its place. *)
Lemma param_bytes_run n l : forall i vs buf, filled n vs buf -> real_types l -> i = Z.of_nat (length vs) ->
  (byte_pos (length vs + length l - 1) < n)%nat -> exists buf',
  param_bytes i l buf = Ok buf' /\ filled n (vs ++ l) buf' /\
  buf' !! 0%nat = buf !! 0%nat /\ buf' !! 1%nat = buf !! 1%nat.
Proof.
  induction l as [|t l IH]; intros i vs buf Hf Hl -> Hn.
  - exists buf. rewrite app_nil_r. auto.
  - apply Forall_cons in Hl as [Ht Hl]. cbn [length] in Hn.
    assert (byte_pos (length vs) <= byte_pos (length vs + S (length l) - 1))%nat as Hle.
    { unfold byte_pos. apply Nat.add_le_mono_l, Nat.Div0.div_le_mono. lia. }
    destruct (or_byte_run n vs t buf Hf Ht ltac:(lia)) as (b1 & E1 & F1 & Z1 & Z2).
    cbn [param_bytes].
    replace (2 + Z.of_nat (length vs) / 4) with (Z.of_nat (byte_pos (length vs)))
      by now rewrite byte_pos_Z.
    replace (8 - (Z.of_nat (length vs) mod 4 + 1) * 2) with (fd_off (byte_field (length vs)))
      by (unfold byte_field, fd_off; rewrite Nat2Z.inj_mod; lia).
    rewrite E1. cbn [mbind outcome_bind].
    destruct (IH (Z.of_nat (length vs) + 1) (vs ++ [t]) b1 F1 Hl) as (b2 & E2 & F2 & Z3 & Z4).
    + rewrite length_app. cbn [length]. lia.
    + rewrite length_app. cbn [length]. replace (length vs + 1 + length l - 1)%nat with (length vs + S (length l) - 1)%nat by lia. exact Hn.
    + exists b2. rewrite <- app_assoc in F2. split; [exact E2|]. split; [exact F2|]. split; congruence.
Qed.

Lemma ret_bytes_param l : forall i buf, 0 <= i -> i + Z.of_nat (length l) <= 4 ->
  ret_bytes i l buf = param_bytes i l buf.
Proof.
  induction l as [|t l IH]; intros i buf Hi Hl; [reflexivity|]. cbn [ret_bytes param_bytes length] in *.
  rewrite Z.div_small, Z.mod_small by lia. rewrite UINT32_id by lia. change (2 + 0) with 2.
  destruct (or_byte _ _ _ _); cbn [mbind outcome_bind]; [|reflexivity]. apply IH; lia.
Qed.

Lemma byte_valty_run n vs buf j t b : filled n vs buf -> vs !! j = Some t -> buf !! byte_pos j = Some b ->
  Types.byte_valty b (Z.of_nat (j mod 4)) = Ok (valty_num t).
Proof.
  intros [_ _ H3] Ht Hb. specialize (H3 _ _ Hb). rewrite Ht in H3.
  pose proof (Nat.mod_upper_bound j 4 ltac:(lia)). unfold Types.byte_valty, ushr, shift_ok.
  rewrite UINT32_id by lia. rewrite (proj2 (Z.leb_le 0 _)), (proj2 (Z.ltb_lt _ 32)) by lia.
  cbn [andb mbind outcome_bind mret outcome_ret]. f_equal. change TYPE_MASK with (Z.ones 2).
  replace (Z.land (Z.shiftr b (8 - (Z.of_nat (j mod 4) + 1) * 2)) (Z.ones 2)) with (valty_num t).
  - apply wrapu_id. destruct t; split; simpl; lia.
  - rewrite <- H3. unfold fget, byte_field, bf_get. cbn [fd_signed fd_off fd_w]. do 2 f_equal. lia.
Qed.

(** Reading the string at its offset in the table. *)
Lemma nth_slice raw off buf k b : 0 <= off -> slice_of raw (off, Z.of_nat (length buf)) = buf ->
  buf !! k = Some b -> nthZ raw (off + Z.of_nat k) = Ok b.
Proof.
  intros Ho Hs Hk. apply nthZ_Ok. split; [lia|]. rewrite <- Hs in Hk. unfold slice_of in Hk.
  apply lookup_take_Some in Hk as [Hk _]. rewrite lookup_drop in Hk.
  rewrite <- Hk. f_equal. simpl. lia.
Qed.

Section RoundTrip.
Context {bd : Build} {vg : VectorGrowth}.

(** A signature the format can hold: at most three results. *)
Record encodable (rets params : list VALTYPE) : Prop := {
  ec_rets : real_types rets;
  ec_params : real_types params;
  ec_ret_num : (length rets <= 3)%nat;
  ec_num : (length rets + length params < 255)%nat;
}.

Lemma type_bytes_run rets params : encodable rets params ->
  (14 <= length rets + length params)%nat -> exists n buf,
  type_bytes rets params = Ok buf /\ filled n (rets ++ params) buf /\ (n <= 66)%nat /\
  (byte_pos (length rets + length params - 1) < n)%nat /\
  buf !! 0%nat = Some (Z.of_nat (length params)) /\ buf !! 1%nat = Some 0.
Proof.
  intros [Hr Hp H3 Hn] H14. unfold type_bytes.
  set (q := Z.of_nat (length rets) + Z.of_nat (length params)).
  set (bn := if _ =? 0 then _ else _). set (n := Z.to_nat (bn + 2)).
  assert (q <= bn * 4 /\ bn * 4 <= q + 3) as Hbn.
  { unfold bn. pose proof (Z.div_mod (q * 2) 8 ltac:(lia)). pose proof (Z.mod_pos_bound (q * 2) 8 ltac:(lia)).
    destruct (Z.eqb_spec (q * 2 mod 8) 0); lia. }
  set (b0 := <[0%nat := _]> _).
  assert (n = S (S (Z.to_nat bn))) as En by lia.
  assert (b0 = UINT8 (Z.of_nat (length params)) :: UINT8 (Z.of_nat (length params) / 256) :: repeat 0 (Z.to_nat bn)) as Eb.
  { unfold b0. rewrite En. reflexivity. }
  assert (UINT8 (Z.of_nat (length params)) = Z.of_nat (length params)) as E0
    by (apply wrapu_id; split; [lia | change (2 ^ 8) with 256; lia]).
  assert (UINT8 (Z.of_nat (length params) / 256) = 0) as E1 by (rewrite Z.div_small by lia; reflexivity).
  rewrite E0, E1 in Eb.
  assert (filled n [] b0) as F0.
  { rewrite Eb. split.
    - cbn [length]. rewrite repeat_length. lia.
    - repeat constructor; [lia | change (2 ^ 8) with 256; lia | discriminate|].
      apply Forall_forall. intros x Hx%list_elem_of_In%repeat_spec. subst. split; reflexivity || discriminate.
    - intros j b Hj. rewrite lookup_nil. unfold byte_pos in Hj. cbn in Hj.
      assert (b = 0) as ->; [|apply fget_zero, byte_field_valid].
      apply list_elem_of_lookup_2, list_elem_of_In, repeat_spec in Hj. exact Hj. }
  assert (byte_pos (length rets + length params - 1) < n)%nat as Hpos.
  { unfold byte_pos. rewrite En. pose proof (Nat.div_mod_eq (length rets + length params - 1) 4). lia. }
  rewrite ret_bytes_param by lia.
  assert (exists b1, param_bytes 0 rets b0 = Ok b1 /\ filled n rets b1 /\
    b1 !! 0%nat = b0 !! 0%nat /\ b1 !! 1%nat = b0 !! 1%nat) as (b1 & R1 & F1 & Z1 & Z2).
  { apply (param_bytes_run n rets 0 [] b0 F0 Hr eq_refl). cbn [length Nat.add].
    unfold byte_pos in *. rewrite Nat.div_small by lia. lia. }
  rewrite R1. cbn [mbind outcome_bind].
  destruct (param_bytes_run n params (Z.of_nat (length rets)) rets b1 F1 Hp eq_refl Hpos) as (b2 & R2 & F2 & Z3 & Z4).
  exists n, b2. split; [exact R2|]. split; [exact F2|]. split; [lia|]. split; [exact Hpos|].
  rewrite Z3, Z1, Z4, Z2, Eb. auto.
Qed.

Lemma decode_local rets params elem : encodable rets params ->
  (length rets + length params <= 13)%nat -> packed (rets ++ params) elem ->
  forall nn, Types.Decode_type nn (UBH_TYPE.UBH_TYPE (Z.of_nat (length rets)) (Z.of_nat (length params)) elem)
    = Ok (tl_of rets, tl_of params).
Proof.
  intros [Hr Hp H3 _] Hl Hpk nn. unfold Types.Decode_type.
  assert (forall w z, 0 <= w -> 0 <= z < 2 ^ w -> wrapu w z = z) as W by (intros; now apply wrapu_id).
  assert (UBH_TYPE.Get_ret_num (UBH_TYPE.UBH_TYPE (Z.of_nat (length rets)) (Z.of_nat (length params)) elem) = Z.of_nat (length rets)) as ->.
  { unfold UBH_TYPE.Get_ret_num, UBH_TYPE.UBH_TYPE. field_simpl. unfold fkeep, UINT16. simpl.
    rewrite (W 16) by lia. apply W; lia. }
  assert (UBH_TYPE.Get_param_num (UBH_TYPE.UBH_TYPE (Z.of_nat (length rets)) (Z.of_nat (length params)) elem) = Z.of_nat (length params)) as Ep.
  { unfold UBH_TYPE.Get_param_num, UBH_TYPE.UBH_TYPE. field_simpl. unfold fkeep, UINT16. simpl.
    rewrite (W 16) by lia. apply W; lia. }
  assert (UBH_TYPE.Get_elem (UBH_TYPE.UBH_TYPE (Z.of_nat (length rets)) (Z.of_nat (length params)) elem) = elem) as ->.
  { unfold UBH_TYPE.Get_elem, UBH_TYPE.UBH_TYPE. field_simpl. apply wrapu_id, (pk_range _ _ Hpk). }
  unfold UBH_TYPE.Is_stored_local. fold (UBH_TYPE.Get_param_num (UBH_TYPE.UBH_TYPE (Z.of_nat (length rets)) (Z.of_nat (length params)) elem)).
  rewrite Ep. change (Z.shiftl 1 PARAM_RANGE - 1) with 15.
  destruct (Z.eqb_spec (Z.of_nat (length params)) 15); [lia|]. cbn [negb]. rewrite !Nat2Z.id.
  rewrite (decode_loop_run _ rets).
  2: { intros k t Hk. rewrite Z.add_0_l. pose proof (lookup_lt_Some _ _ _ Hk).
       apply (local_valty_packed (rets ++ params)); [exact Hpk | now apply lookup_app_l_Some | lia]. }
  cbn [mbind outcome_bind]. rewrite (decode_loop_run _ params); [reflexivity|].
  intros k t Hk. pose proof (lookup_lt_Some _ _ _ Hk). rewrite <- Nat2Z.inj_add.
  apply (local_valty_packed (rets ++ params)); [exact Hpk | | lia].
  rewrite lookup_app_r by lia. rewrite <- Hk. f_equal. lia.
Qed.

Lemma decode_string rets params n buf raw off : encodable rets params ->
  filled n (rets ++ params) buf -> (byte_pos (length rets + length params - 1) < n)%nat ->
  buf !! 0%nat = Some (Z.of_nat (length params)) -> buf !! 1%nat = Some 0 ->
  0 <= off < 2 ^ 26 -> slice_of raw (off, Z.of_nat (length buf)) = buf ->
  Types.Decode_type raw (UBH_TYPE.UBH_TYPE (Z.of_nat (length rets)) 255 off)
    = Ok (tl_of rets, tl_of params).
Proof.
  intros [Hr Hp H3 Hn] Hf Hpos Hb0 Hb1 Hoff Hs. unfold Types.Decode_type.
  assert (UBH_TYPE.Get_ret_num (UBH_TYPE.UBH_TYPE (Z.of_nat (length rets)) 255 off) = Z.of_nat (length rets)) as ->.
  { unfold UBH_TYPE.Get_ret_num, UBH_TYPE.UBH_TYPE. field_simpl. unfold fkeep, UINT16. simpl.
    rewrite (wrapu_id 16) by (split; lia). apply wrapu_id. split; lia. }
  assert (UBH_TYPE.Is_stored_local (UBH_TYPE.UBH_TYPE (Z.of_nat (length rets)) 255 off) = false) as ->.
  { unfold UBH_TYPE.Is_stored_local, UBH_TYPE.UBH_TYPE. field_simpl. reflexivity. }
  assert (UBH_TYPE.Get_elem (UBH_TYPE.UBH_TYPE (Z.of_nat (length rets)) 255 off) = off) as ->.
  { unfold UBH_TYPE.Get_elem, UBH_TYPE.UBH_TYPE. field_simpl. apply wrapu_id, Hoff. }
  pose proof (fun k b => nth_slice raw off buf k b ltac:(lia) Hs) as Hnth.
  pose proof (Hnth O _ Hb0) as N0. rewrite Z.add_0_r in N0. rewrite N0.
  cbn [mbind outcome_bind]. change 1 with (Z.of_nat 1). rewrite (Hnth 1%nat _ Hb1). cbn [mbind outcome_bind].
  assert (UINT8 (Z.of_nat (length params) + 256 * 0) = Z.of_nat (length params)) as ->.
  { rewrite Z.mul_0_r, Z.add_0_r. apply wrapu_id. split; [lia | change (2 ^ 8) with 256; lia]. }
  rewrite !Nat2Z.id.
  assert (forall j t, (rets ++ params) !! j = Some t ->
    (elem ← nthZ raw (off + Z.of_nat (byte_pos j)); Types.byte_valty elem (Z.of_nat (j mod 4))) = Ok (valty_num t)) as Hget.
  { intros j t Hj. pose proof (lookup_lt_Some _ _ _ Hj) as Hl. rewrite length_app in Hl.
    assert (byte_pos j < length buf)%nat as Hlt.
    { rewrite (fl_length _ _ _ Hf). unfold byte_pos in *.
      pose proof (Nat.Div0.div_le_mono j (length rets + length params - 1) 4 ltac:(lia)). lia. }
    destruct (lookup_lt_is_Some_2 _ _ Hlt) as [b Hb]. rewrite (Hnth _ _ Hb). cbn [mbind outcome_bind].
    exact (byte_valty_run _ _ _ _ _ _ Hf Hj Hb). }
  rewrite (decode_loop_run _ rets).
  2: { intros k t Hk. pose proof (lookup_lt_Some _ _ _ Hk). rewrite Z.add_0_l.
       rewrite <- (Hget k t) by now apply lookup_app_l_Some.
       unfold byte_pos. rewrite Nat.div_small, Nat.mod_small by lia. reflexivity. }
  cbn [mbind outcome_bind]. rewrite (decode_loop_run _ params); [reflexivity|].
  intros k t Hk. rewrite <- Nat2Z.inj_add. rewrite <- (Hget (length rets + k)%nat t).
  - rewrite byte_pos_Z, (Nat2Z.inj_mod _ 4), Z.add_assoc. reflexivity.
  - rewrite lookup_app_r by lia. rewrite <- Hk. f_equal. lia.
Qed.

Lemma find_type_spec l ty i : match find_type i l ty with
  | Some j => exists k t, j = i + Z.of_nat k /\ l !! k = Some t /\ UBH_TYPE.eqb t ty = true
  | None => Forall (fun t => UBH_TYPE.eqb t ty = false) l
  end.
Proof.
  revert i. induction l as [|t l IH]; intros i; simpl; [constructor|].
  destruct (UBH_TYPE.eqb t ty) eqn:E.
  - exists O, t. split; [lia|]. auto.
  - specialize (IH (i + 1)). destruct (find_type (i + 1) l ty) as [j|].
    + destruct IH as (k & t' & -> & Hk & He). exists (S k), t'. split; [lia|]. auto.
    + now constructor.
Qed.

Lemma eqb_decode t ty nn : UBH_TYPE.eqb t ty = true -> Types.Decode_type nn t = Types.Decode_type nn ty.
Proof.
  unfold UBH_TYPE.eqb. rewrite !andb_true_iff, !Z.eqb_eq. intros [[H1 H2] H3].
  unfold Types.Decode_type, UBH_TYPE.Is_stored_local. unfold UBH_TYPE.Get_param_num in *. now rewrite H1, H2, H3.
Qed.

Lemma enter_type_spec ty st : exists i t, enter_type ty st = (i, (enter_type ty st).2) /\
  _nn_tab (enter_type ty st).2 = _nn_tab st /\
  _type_list st `prefix_of` _type_list (enter_type ty st).2 /\
  nthZ (_type_list (enter_type ty st).2) i = Ok t /\
  forall nn, Types.Decode_type nn t = Types.Decode_type nn ty.
Proof.
  unfold enter_type. pose proof (find_type_spec (_type_list st) ty 0) as H.
  destruct (find_type 0 _ ty) as [j|].
  - destruct H as (k & t & -> & Hk & He). exists (0 + Z.of_nat k), t.
    repeat split; [reflexivity | | intros; now apply eqb_decode].
    apply nthZ_Ok. split; [lia|]. rewrite <- Hk. simpl. f_equal. lia.
  - eexists _, ty. repeat split; [now eexists|]. apply nthZ_Ok. split; [lia|].
    rewrite Nat2Z.id. cbn [snd _type_list]. now rewrite lookup_app_r, Nat.sub_diag by lia.
Qed.

(** The table has room for the string form of any signature. *)
Definition type_room (st : U_TYPE_ENCODER) : Prop :=
  Z.of_nat (length (_raw_buf (_nn_tab st)) + 66) < 2 ^ 26 /\
  Z.of_nat (length (_entry_vec (_nn_tab st))) + 1 < 2 ^ 32.

Lemma Add_type_run rets params st : encodable rets params -> wf_tab (_nn_tab st) -> type_room st ->
  exists i st' ty, Add_type rets params st = Ok (i, st') /\ wf_tab (_nn_tab st') /\
    nthZ (_type_list st') i = Ok ty /\ _type_list st `prefix_of` _type_list st' /\
    _raw_buf (_nn_tab st) `prefix_of` _raw_buf (_nn_tab st') /\
    forall raw, _raw_buf (_nn_tab st') `prefix_of` raw ->
      Types.Decode_type raw ty = Ok (tl_of rets, tl_of params).
Proof.
  intros He Hw [R1 R2]. unfold Add_type. change MAX_TYPE_ELEM_NUM with 14.
  destruct (Z.ltb_spec (Z.of_nat (length rets) + Z.of_nat (length params)) 14) as [Hs|Hb].
  - destruct (number_loop_run 0 0 rets [] 0 packed_nil (ec_rets _ _ He) eq_refl ltac:(simpl; lia)) as (e1 & E1 & P1).
    assert (UINT16 (Z.of_nat (length rets)) = Z.of_nat (length rets)) as E16.
    { pose proof (ec_ret_num _ _ He). apply wrapu_id. split; lia. }
    destruct (number_loop_run (Z.of_nat (length rets)) 0 params rets e1 P1 (ec_params _ _ He) ltac:(lia) ltac:(lia)) as (e2 & E2 & P2).
    unfold Type_to_number. rewrite E1. cbn [mbind outcome_bind]. rewrite E16, E2.
    destruct (enter_type_spec (UBH_TYPE.UBH_TYPE (Z.of_nat (length rets)) (Z.of_nat (length params)) e2) st)
      as (i & ty & Hi & Hn & Hl & Ht & Hd).
    eexists i, _, ty. rewrite Hi. cbn [snd]. split; [reflexivity|]. rewrite Hn.
    repeat (split; [assumption || reflexivity|]). intros raw _. rewrite Hd.
    apply decode_local; [exact He | lia | exact P2].
  - destruct (type_bytes_run rets params He ltac:(lia)) as (n & buf & E1 & F & Hn66 & Hpos & B0 & B1).
    pose proof (fl_length _ _ _ F) as Hlen.
    destruct (Request_spec buf (_nn_tab st) Hw) as (idx & tab & E2 & [W' Hnew Hold Hsize Hraw Hent] & _).
    { split; [|exact R2]. change (2 ^ 26) with 67108864 in R1. change (2 ^ 32) with 4294967296. lia. }
    destruct (Get_off_spec tab idx buf W' Hnew) as (off & E3 & O1 & O2 & O3).
    rewrite E1. cbn [mbind outcome_bind]. rewrite E2. cbn [mbind outcome_bind]. rewrite E3. cbn [mbind outcome_bind mret outcome_ret].
    destruct (enter_type_spec (UBH_TYPE.UBH_TYPE (Z.of_nat (length rets)) 255 off)
      (mkTYPE_ENCODER (_type_list st) tab)) as (i & ty & Hi & Hn & Hl & Ht & Hd).
    eexists i, _, ty. rewrite Hi. cbn [snd]. split; [reflexivity|]. rewrite Hn.
    repeat (split; [assumption|]). intros raw [rest ->]. rewrite Hd. cbn [_nn_tab].
    eapply decode_string; [exact He | exact F | exact Hpos | exact B0 | exact B1 | lia|].
    rewrite slice_of_app; [exact O3|]. unfold entry_ok. cbn [fst snd]. lia.
Qed.
End RoundTrip.
