(* ===== verification/Encoder.v ===== *)
(** * The encoder

  [src/encoder/u_inst_encoder.h], [src/encoder/u_inst_encoder.cxx]: the code of one
  function ([U_CODE_BODY]) and of a module ([U_INST_ENCODER]);
  [include/encoder/u_encoder.h], [src/encoder/u_encoder.cxx]: the tables of a module
  being written ([U_ENCODER]).  Tracing is off.

  A C string is the list of its bytes, without the final zero; a section is written
  as the list of its 32-bit words. *)

From S2P Require Import Prelude CInt BitField Isa Inst Ubh UModule StrTab TypeEncoder.
From Stdlib Require Import ZArith Lia.
Local Open Scope Z_scope.

Definition UNINIT_LABEL_IDX : Z := -1.
Definition cstr (s : list Z) : list Z := s ++ [0].

(** ** [U_CODE_BODY] *)
Module U_CODE_BODY.
Record t : Type := mk {
  _ubh_code : Z;
  _inst_tab : list Z;
  _lab_tab : list Z;
  _lab_name_tab : U_STR_TAB;
}.

Section Ops.
Context {bd : Build} {vg : VectorGrowth}.

Definition create (local_regs io_regs : Z * Z * Z * Z) (stack_size : Z) : t :=
  mk (UBH_CODE.UBH_CODE local_regs io_regs stack_size) [] [] str_tab0.

Definition Add_inst32 (inst : Z) (c : t) : t :=
  mk (_ubh_code c) (_inst_tab c ++ [inst]) (_lab_tab c) (_lab_name_tab c).
Definition Add_inst64 (inst : Z) (c : t) : t :=
  mk (_ubh_code c) (_inst_tab c ++ [UINT32 inst; UINT32 (Z.shiftr inst 32)]) (_lab_tab c) (_lab_name_tab c).

Definition Request_label (label_name : list Z) : M t Z := fun c =>
  if Contains (cstr label_name) (_lab_name_tab c)
  then Ok (Get_idx (cstr label_name) (_lab_name_tab c), c)
  else match Add (cstr label_name) (_lab_name_tab c) with
       | Ok (label_name_idx, tab) =>
           let c := mk (_ubh_code c) (_inst_tab c) (_lab_tab c ++ [UNINIT_LABEL_IDX]) tab in
           match Is_True (length (_entry_vec tab) =? length (_lab_tab c))%nat with
           | Ok _ => Ok (label_name_idx, c)
           | Err f => Err f
           end
       | Err f => Err f
       end.

Definition Set_label (label_idx : Z) : M t unit := fun c =>
  match (_ ← Is_True (label_idx <? Z.of_nat (length (_lab_tab c)));
         vec_at (_lab_tab c) (Z.to_nat label_idx)) with
  | Ok _ => Ok (tt, mk (_ubh_code c) (_inst_tab c)
              (<[Z.to_nat label_idx := INT32 (Z.of_nat (length (_inst_tab c)))]> (_lab_tab c)) (_lab_name_tab c))
  | Err f => Err f
  end.

(** The loop that looks for a label never set. *)
Fixpoint check_labels (labs : list Z) : outcome unit :=
  match labs with
  | [] => mret tt
  | l :: labs => _ ← Is_True (negb (l =? UNINIT_LABEL_IDX)); check_labels labs
  end.

Definition Finish (entry_off : Z) (c : t) : outcome t :=
  _ ← check_labels (_lab_tab c);
  let code := UBH_CODE.Set_label_num (Z.of_nat (length (_lab_tab c))) (_ubh_code c) in
  let code := UBH_CODE.Set_code_size (Z.of_nat (length (_inst_tab c))) code in
  let off := entry_off + UBH_CODE.sizeof in
  let code := UBH_CODE.Set_inst_tab_off off code in
  let off := off + 4 * Z.of_nat (length (_inst_tab c)) in
  let code := UBH_CODE.Set_label_tab_off off code in
  mret (mk code (_inst_tab c) (_lab_tab c) (_lab_name_tab c)).

Definition Entry_size (c : t) : Z :=
  UINT32 (UBH_CODE.sizeof + 4 * Z.of_nat (length (_inst_tab c) + length (_lab_tab c))).

Definition Update_ubh_code (local_regs io_regs : Z * Z * Z * Z) (stack_size : Z) (c : t) : t :=
  mk (UBH_CODE.Update_ubh_code local_regs io_regs stack_size (_ubh_code c))
    (_inst_tab c) (_lab_tab c) (_lab_name_tab c).
End Ops.
End U_CODE_BODY.

(** ** [U_INST_ENCODER]: the code bodies *)
Module U_INST_ENCODER.
Definition t : Type := list U_CODE_BODY.t.

Section Ops.
Context {bd : Build}.

Definition Allocate_code_body (local_regs io_regs : Z * Z * Z * Z) (stack_size : Z) (v : t) : Z * t :=
  (Z.of_nat (length v), v ++ [U_CODE_BODY.create local_regs io_regs stack_size]).

(** [Cur_code_body] returns a reference: what is done with it. *)
Definition on_Cur_code_body {A} (h : M U_CODE_BODY.t A) : M t A := fun v =>
  match Is_True (0 <? length v)%nat with
  | Ok _ =>
      match last v with
      | Some c => match h c with
                  | Ok (a, c) => Ok (a, <[(length v - 1)%nat := c]> v)
                  | Err f => Err f
                  end
      | None => Err CodeFault
      end
  | Err f => Err f
  end.

Fixpoint Finish_from (entry_off : Z) (v : t) : outcome t :=
  match v with
  | [] => mret []
  | c :: v =>
      c ← U_CODE_BODY.Finish entry_off c;
      v ← Finish_from (UINT32 (entry_off + U_CODE_BODY.Entry_size c)) v;
      mret (c :: v)
  end.
Definition Finish (v : t) : outcome t := Finish_from 0 v.

Definition Code_sec_size (v : t) : Z :=
  fold_left (fun size c => UINT32 (size + U_CODE_BODY.Entry_size c)) v 0.

(** The ten words of a [UBH_CODE]. *)
Definition code_words (code : Z) : list Z :=
  map (fun k => fget (Field (32 * k) 32 false) code) (seqZ 0 10).

Definition Write_to_buf (v : t) : list Z :=
  concat (map (fun c => code_words (U_CODE_BODY._ubh_code c) ++ U_CODE_BODY._inst_tab c
                          ++ map UINT32 (U_CODE_BODY._lab_tab c)) v).
End Ops.
End U_INST_ENCODER.

(** ** Reading a code section: [U_MODULE::Set_code_sec] *)
Module Code_section.
(** [n] words at a byte offset. *)
Definition words_at (sec : list Z) (off n : Z) : outcome (list Z) :=
  if (off mod 4 =? 0) && (0 <=? off) then
    let l := take (Z.to_nat n) (drop (Z.to_nat (off / 4)) sec) in
    if Z.of_nat (length l) =? n then Ok l else Err CodeFault
  else Err CodeFault.

Fixpoint join_words (ws : list Z) : Z :=
  match ws with [] => 0 | w :: ws => w + Z.shiftl (join_words ws) 32 end.

(** [n] entries from the byte offset [p]. *)
Fixpoint read_entries (sec : list Z) (p : Z) (n : nat) : outcome (list CODE_ENTRY) :=
  match n with
  | O => mret []
  | S n =>
      ws ← words_at sec p 10;
      let code := join_words ws in
      insts ← words_at sec (UBH_CODE.Get_inst_tab_off code) (UBH_CODE.Get_code_size code);
      labels ← words_at sec (UBH_CODE.Get_label_tab_off code) (UBH_CODE.Get_label_num code);
      rest ← read_entries sec
               (p + UBH_CODE.sizeof + UBH_CODE.Get_code_size code * 4 + UBH_CODE.Get_label_num code * 4) n;
      mret (mkCODE code insts labels :: rest)
  end.

Definition Set_code_sec {bd : Build} (sec : list Z) (s : SECTIONS) : outcome SECTIONS :=
  if negb (Contains_section s S_CODE) then mret s else
  code_elem_num ← sec_elem_num s S_CODE;
  codes ← read_entries sec 0 (Z.to_nat code_elem_num);
  mret (mkSECTIONS (_shdr_tab s) (_sec_sec_header_map s) (_type_sec s) (_func_sec s) codes
          (_glbl_sec s) (_data_sec s) (_reloc_sec s) (_non_null_str_sec s)).
End Code_section.

(** ** [U_ENCODER] *)
Inductive NTYPE : Set := NTYPE_V | NTYPE_U1 | NTYPE_I1 | NTYPE_U2 | NTYPE_I2 | NTYPE_U4 | NTYPE_I4
  | NTYPE_U8 | NTYPE_I8 | NTYPE_F4 | NTYPE_F8 | NTYPE_PTR | NTYPE_NUM.
Definition ntype_num (n : NTYPE) : Z :=
  match n with
  | NTYPE_V => 0 | NTYPE_U1 => 1 | NTYPE_I1 => 2 | NTYPE_U2 => 3 | NTYPE_I2 => 4 | NTYPE_U4 => 5
  | NTYPE_I4 => 6 | NTYPE_U8 => 7 | NTYPE_I8 => 8 | NTYPE_F4 => 9 | NTYPE_F8 => 10 | NTYPE_PTR => 11
  | NTYPE_NUM => 12
  end.

Module U_ENCODER.
(** [_const_data] and [_reloc_data] are the bytes and words given. *)
Record t : Type := mk {
  _cur_func_idx : Z;
  _import_tab : list Z;
  _imp_nat_tab : list Z;
  _export_tab : list Z;
  _u_type_encoder : U_TYPE_ENCODER;
  _func_tab : list Z;
  _glbl_tab : list Z;
  _u_inst_encoder : U_INST_ENCODER.t;
  _const_data : list Z;
  _reloc_data : list Z;
  _module_string_tab : U_STR_TAB;
  _global_name_tab : U_STR_TAB;
}.

Definition set_import v e := mk (_cur_func_idx e) v (_imp_nat_tab e) (_export_tab e) (_u_type_encoder e)
  (_func_tab e) (_glbl_tab e) (_u_inst_encoder e) (_const_data e) (_reloc_data e) (_module_string_tab e) (_global_name_tab e).
Definition set_imp_nat v e := mk (_cur_func_idx e) (_import_tab e) v (_export_tab e) (_u_type_encoder e)
  (_func_tab e) (_glbl_tab e) (_u_inst_encoder e) (_const_data e) (_reloc_data e) (_module_string_tab e) (_global_name_tab e).
Definition set_export v e := mk (_cur_func_idx e) (_import_tab e) (_imp_nat_tab e) v (_u_type_encoder e)
  (_func_tab e) (_glbl_tab e) (_u_inst_encoder e) (_const_data e) (_reloc_data e) (_module_string_tab e) (_global_name_tab e).
Definition set_types v e := mk (_cur_func_idx e) (_import_tab e) (_imp_nat_tab e) (_export_tab e) v
  (_func_tab e) (_glbl_tab e) (_u_inst_encoder e) (_const_data e) (_reloc_data e) (_module_string_tab e) (_global_name_tab e).
Definition set_funcs v e := mk (_cur_func_idx e) (_import_tab e) (_imp_nat_tab e) (_export_tab e) (_u_type_encoder e)
  v (_glbl_tab e) (_u_inst_encoder e) (_const_data e) (_reloc_data e) (_module_string_tab e) (_global_name_tab e).
Definition set_glbls v e := mk (_cur_func_idx e) (_import_tab e) (_imp_nat_tab e) (_export_tab e) (_u_type_encoder e)
  (_func_tab e) v (_u_inst_encoder e) (_const_data e) (_reloc_data e) (_module_string_tab e) (_global_name_tab e).
Definition set_codes i v e := mk i (_import_tab e) (_imp_nat_tab e) (_export_tab e) (_u_type_encoder e)
  (_func_tab e) (_glbl_tab e) v (_const_data e) (_reloc_data e) (_module_string_tab e) (_global_name_tab e).
Definition set_data d r e := mk (_cur_func_idx e) (_import_tab e) (_imp_nat_tab e) (_export_tab e) (_u_type_encoder e)
  (_func_tab e) (_glbl_tab e) (_u_inst_encoder e) d r (_module_string_tab e) (_global_name_tab e).
Definition set_names m g e := mk (_cur_func_idx e) (_import_tab e) (_imp_nat_tab e) (_export_tab e) (_u_type_encoder e)
  (_func_tab e) (_glbl_tab e) (_u_inst_encoder e) (_const_data e) (_reloc_data e) m g.

Section Ops.
Context {bd : Build} {vg : VectorGrowth}.

Abbreviation EM := (M t).

(** An operation on a part of the encoder. *)
Definition on_part {A S : Type} (get : t -> S) (set : S -> t -> t) (h : M S A) : EM A := fun e =>
  match h (get e) with Ok (a, s) => Ok (a, set s e) | Err f => Err f end.
Definition on_types {A} : M U_TYPE_ENCODER A -> EM A := on_part _u_type_encoder set_types.
Definition on_nn {A} (h : M U_STR_TAB A) : EM A :=
  on_part (fun e => _nn_tab (_u_type_encoder e))
    (fun tab e => set_types (mkTYPE_ENCODER (_type_list (_u_type_encoder e)) tab) e) h.
Definition on_module_names {A} : M U_STR_TAB A -> EM A :=
  on_part _module_string_tab (fun m e => set_names m (_global_name_tab e) e).
Definition on_global_names {A} : M U_STR_TAB A -> EM A :=
  on_part _global_name_tab (fun g e => set_names (_module_string_tab e) g e).
Definition on_codes {A} : M U_INST_ENCODER.t A -> EM A :=
  on_part _u_inst_encoder (fun v e => set_codes (_cur_func_idx e) v e).

(** The constructor: the three string tables start with an empty string;
  [_const_data] is null. *)
Definition create : outcome t :=
  r1 ← Add [0] str_tab0; r2 ← Add [0] str_tab0; r3 ← Add [0] str_tab0;
  mret (mk (-1) [] [] [] (mkTYPE_ENCODER [] (snd r3)) [] [] [] [] [] (snd r1) (snd r2)).

Definition Set_data_section (data : list Z) : EM unit :=
  _ ← lift (Is_True (Z.of_nat (length data) <? 2 ^ 32 - 1));
  modify (fun e => set_data data (_reloc_data e) e).
Definition Set_reloc_section (reloc : list Z) : EM unit :=
  modify (fun e => set_data (_const_data e) reloc e).

(** The three overloads of [Add_global].  [emplace_back()] value-initializes the
  new [UBH_GLBL] to zero. *)
Definition Add_global_name (sym_name : list Z) : EM Z := on_global_names (Request (cstr sym_name)).
Definition Add_global_value (mut : bool) (valty val : Z) (sym_name : list Z) : EM Z :=
  e ← get;
  _ ← lift (Is_True (negb (Contains (cstr sym_name) (_global_name_tab e))));
  _ ← on_global_names (Add (cstr sym_name));
  let g := UBH_GLBL.Set_mutable mut (UBH_GLBL.Set_ty valty
             (UBH_GLBL.Set_init_val val (UBH_GLBL.Set_data_idx 0 0))) in
  _ ← modify (fun e => set_glbls (_glbl_tab e ++ [g]) e);
  gets (fun e => Z.of_nat (length (_glbl_tab e)) - 1).
Definition Add_global_data (mut : bool) (val : Z) (sym_name : list Z) : EM Z :=
  e ← get;
  _ ← lift (Is_True (negb (Contains (cstr sym_name) (_global_name_tab e))));
  _ ← on_global_names (Add (cstr sym_name));
  let g := UBH_GLBL.Set_mutable mut (UBH_GLBL.Set_init_val val (UBH_GLBL.Set_data_idx val 0)) in
  _ ← modify (fun e => set_glbls (_glbl_tab e ++ [g]) e);
  gets (fun e => Z.of_nat (length (_glbl_tab e)) - 1).

Definition Start_func (func_idx : Z) (local_regs io_regs : Z * Z * Z * Z) (stack_size : Z) : EM Z :=
  _ ← modify (fun e => set_codes (INT32 func_idx) (_u_inst_encoder e) e);
  code_idx ← on_codes (fun v => Ok (U_INST_ENCODER.Allocate_code_body local_regs io_regs stack_size v));
  e ← get;
  f ← lift (vec_at (_func_tab e) (Z.to_nat func_idx));
  _ ← modify (fun e => set_funcs (<[Z.to_nat func_idx := UBH_FUNC.Set_code_idx code_idx f]> (_func_tab e)) e);
  mret code_idx.

Definition Add_to_import_tab (func_idx : Z) : EM unit :=
  modify (fun e => set_import (_import_tab e ++ [UBH_IMPORT.UBH_IMPORT K_FUNC func_idx]) e).
Definition Add_to_export_tab (func_idx : Z) : EM unit :=
  modify (fun e => set_export (_export_tab e ++ [UBH_EXPORT.UBH_EXPORT K_FUNC func_idx]) e).

(** The loop over [_func_tab]. *)
Fixpoint find_func (i : Z) (funcs : list Z) (name_idx : Z) : option Z :=
  match funcs with
  | [] => None
  | f :: funcs => if UBH_FUNC.Get_name_idx f =? name_idx then Some i else find_func (i + 1) funcs name_idx
  end.

(** The function's index, and whether it was there. *)
Definition Inner_request_func (func_name : list Z) (type_idx flags : Z) : EM (Z * bool) :=
  e ← get;
  if Contains (cstr func_name) (_module_string_tab e) then
    let func_name_idx := Get_idx (cstr func_name) (_module_string_tab e) in
    match find_func 0 (_func_tab e) func_name_idx with
    | Some i => mret (i, true)
    | None => _ ← lift (Is_True false); mret (UINT32 (-1), true)
    end
  else
    entry_idx ← on_module_names (Add (cstr func_name));
    e ← get;
    name_idx ← lift (Get_off entry_idx (_module_string_tab e));
    _ ← modify (fun e => set_funcs (_func_tab e ++ [UBH_FUNC.UBH_FUNC type_idx name_idx flags]) e);
    n ← gets (fun e => Z.of_nat (length (_func_tab e)));
    mret (n - 1, false).

Definition Request_func (func_name : list Z) (type_idx flags : Z) : EM Z :=
  r ← Inner_request_func func_name type_idx flags;
  let '(func_idx, existed) := r in
  _ ← lift (Is_True (Z.land flags F_NATIVE =? 0));
  n ← gets (fun e => Z.of_nat (length (_func_tab e)));
  _ ← when (negb existed && negb (Z.land flags F_EXTERN =? 0)) (Add_to_import_tab (n - 1));
  _ ← when (negb existed && negb (Z.land flags F_EXPORT =? 0)) (Add_to_export_tab (n - 1));
  mret func_idx.

Definition Encode_and_save_ntype (ret_ntype : NTYPE) (param_ntype_vec : list NTYPE) : EM Z :=
  _ ← lift (Is_True (ntype_num ret_ntype <? ntype_num NTYPE_NUM));
  let ntype_arr := match ret_ntype with NTYPE_V => [] | _ => [ntype_num ret_ntype] end
                   ++ map ntype_num param_ntype_vec in
  nn_entry_idx ← on_nn (Request ntype_arr);
  e ← get; lift (Get_off nn_entry_idx (_nn_tab (_u_type_encoder e))).

(** [garbage] is what the storage of the new entry held. *)
Definition Add_to_import_native_tab (garbage func_idx ntype_off : Z) : EM unit :=
  modify (fun e => set_imp_nat (_imp_nat_tab e ++ [UBH_IMP_NAT.UBH_IMP_NAT garbage K_FUNC func_idx ntype_off]) e).

Definition Request_native_func (garbage : Z) (func_name : list Z) (type_idx : Z) (ret_ntype : NTYPE)
    (param_ntype_vec : list NTYPE) : EM Z :=
  r ← Inner_request_func func_name type_idx (Z.lor F_EXTERN F_NATIVE);
  let '(func_idx, existed) := r in
  _ ← when (negb existed)
        (ntype_off ← Encode_and_save_ntype ret_ntype param_ntype_vec;
         n ← gets (fun e => Z.of_nat (length (_func_tab e)));
         Add_to_import_native_tab garbage (n - 1) ntype_off);
  mret func_idx.

Definition Add_inst (opcode : Z) (valtype : VALTYPE) (ty_am : TY_AM) (content : list Z) : EM Z :=
  _ ← on_codes (U_INST_ENCODER.on_Cur_code_body (fun c =>
        if Is_32bit_am ty_am then
          match Init_inst32 0 ty_am opcode valtype content with
          | Ok inst => Ok (tt, U_CODE_BODY.Add_inst32 inst c)
          | Err f => Err f
          end
        else
          match Init_inst64 0 ty_am opcode valtype content with
          | Ok inst => Ok (tt, U_CODE_BODY.Add_inst64 inst c)
          | Err f => Err f
          end));
  mret 0.

Definition check_valtypes (l : list VALTYPE) : outcome unit :=
  fold_left (fun o t => _ ← o; Is_True (valty_num t <? 4)) l (Ok tt).

Definition Add_type (ret_type_list param_type_list : list VALTYPE) : EM Z :=
  _ ← lift (Is_True (Z.of_nat (length ret_type_list + length param_type_list) <? 255));
  _ ← lift (check_valtypes ret_type_list);
  _ ← lift (check_valtypes param_type_list);
  on_types (TypeEncoder.Add_type ret_type_list param_type_list).

Definition Request_label (label_name : list Z) : EM Z :=
  on_codes (U_INST_ENCODER.on_Cur_code_body (U_CODE_BODY.Request_label label_name)).

Definition Add_label (label_name : list Z) : EM Z :=
  on_codes (U_INST_ENCODER.on_Cur_code_body
    (label_idx ← U_CODE_BODY.Request_label label_name;
     _ ← U_CODE_BODY.Set_label label_idx; mret label_idx)).

Definition STR_TAB_ALIGN : Z := 16.
Definition Finish : EM unit :=
  _ ← on_codes (fun v => match U_INST_ENCODER.Finish v with Ok v => Ok (tt, v) | Err f => Err f end);
  _ ← on_module_names (Pad STR_TAB_ALIGN);
  _ ← on_global_names (Pad STR_TAB_ALIGN);
  on_nn (Pad STR_TAB_ALIGN).

(** [SEC_INFO_ARR]: section, tag, kind, size of an element in bytes. *)
Record SEC_INFO : Set := { _sec_id : SECTION_ID; _shdr_tag : Z; _sec_kind : Z; _elem_size : Z }.
Definition SEC_INFO_ARR : list SEC_INFO := [
  Build_SEC_INFO S_TYPE SEC_TAG.SEC_TYPE (-1) UBH_TYPE.sizeof;
  Build_SEC_INFO S_EXPORT SEC_TAG.SEC_EXPORT K_EXPORT UBH_EXPORT.sizeof;
  Build_SEC_INFO S_IMPORT SEC_TAG.SEC_IMPORT K_IMPORT_MODULE UBH_IMPORT.sizeof;
  Build_SEC_INFO S_IMP_NAT SEC_TAG.SEC_IMPORT K_IMPORT_NATIVE UBH_IMP_NAT.sizeof;
  Build_SEC_INFO S_FUNC SEC_TAG.SEC_FUNC (-1) UBH_FUNC.sizeof;
  Build_SEC_INFO S_CODE SEC_TAG.SEC_CODE (-1) 0;
  Build_SEC_INFO S_DATA SEC_TAG.SEC_MEM MEM_DATA 1;
  Build_SEC_INFO S_GLBL SEC_TAG.SEC_GLBL (-1) UBH_GLBL.sizeof;
  Build_SEC_INFO S_NN_STR SEC_TAG.SEC_TAB K_NON_NULL_STR 1;
  Build_SEC_INFO S_MODULE_NAME SEC_TAG.SEC_TAB K_MODULE_NAME 1;
  Build_SEC_INFO S_GLBL_NAME SEC_TAG.SEC_TAB K_GLBL_NAME 1;
  Build_SEC_INFO S_RELOC SEC_TAG.SEC_MEM MEM_RELOC 4 ].

Definition len {A} (l : list A) : Z := UINT32 (Z.of_nat (length l)).

(** The switch of the loop: elements of a section; other identifiers stop. *)
Definition sec_elems (e : t) (id : SECTION_ID) : outcome Z :=
  match id with
  | S_TYPE => mret (len (_type_list (_u_type_encoder e)))
  | S_IMPORT => mret (len (_import_tab e))
  | S_IMP_NAT => mret (len (_imp_nat_tab e))
  | S_FUNC => mret (len (_func_tab e))
  | S_DATA => mret (len (_const_data e))
  | S_GLBL => mret (len (_glbl_tab e))
  | S_EXPORT => mret (len (_export_tab e))
  | S_CODE => mret (len (_u_inst_encoder e))
  | S_NN_STR => mret (len (_raw_buf (_nn_tab (_u_type_encoder e))))
  | S_MODULE_NAME => mret (len (_raw_buf (_module_string_tab e)))
  | S_GLBL_NAME => mret (len (_raw_buf (_global_name_tab e)))
  | S_RELOC => mret (len (_reloc_data e))
  | _ => _ ← Is_True false; mret 0
  end.

Record WRITE_INFO : Type := mkWI {
  sec_id_vec : list (SECTION_ID * Z);
  ubh_shdr_vec : list Z;
  wi_size : Z;
}.

(** The loop over the sections. *)
Fixpoint collect (e : t) (infos : list SEC_INFO) (w : WRITE_INFO) : outcome WRITE_INFO :=
  match infos with
  | [] => mret w
  | info :: infos =>
      elem_num ← sec_elems e (_sec_id info);
      if elem_num =? 0 then collect e infos w
      else
        shdr ← UBH_SHDR.UBH_SHDR (_shdr_tag info) elem_num (wi_size w);
        shdr ← (if _sec_kind info =? -1 then mret shdr else UBH_SHDR.Set_kind (_sec_kind info) shdr);
        let sec_size := if decide (_sec_id info = S_CODE) then U_INST_ENCODER.Code_sec_size (_u_inst_encoder e)
                        else UINT32 (elem_num * _elem_size info) in
        collect e infos (mkWI (sec_id_vec w ++ [(_sec_id info, sec_size)]) (ubh_shdr_vec w ++ [shdr])
                           (UINT32 (wi_size w + sec_size)))
  end.

(** ["main"], and [strcmp] with it: equal when its bytes and a zero are there. *)
Definition START_FUNC_NAME : list Z := [109; 97; 105; 110].
Definition name_is (name : list Z) (raw : list Z) (off : Z) : outcome bool :=
  _ ← vec_at raw (Z.to_nat off);
  mret (bool_decide (take (length name + 1) (drop (Z.to_nat off) raw) = cstr name)).

(** The loop that looks for the start function. *)
Fixpoint find_start (raw : list Z) (i : Z) (funcs : list Z) : outcome (option Z) :=
  match funcs with
  | [] => mret None
  | f :: funcs =>
      found ← name_is START_FUNC_NAME raw (UBH_FUNC.Get_name_idx f);
      if (found : bool) then mret (Some i) else find_start raw (i + 1) funcs
  end.

Definition Collect_write_info (e : t) : outcome (WRITE_INFO * Z) :=
  w ← collect e SEC_INFO_ARR (mkWI [] [] UBH_MHDR.sizeof);
  start ← find_start (_raw_buf (_module_string_tab e)) 0 (_func_tab e);
  shdrs ← match start with
          | Some i => h ← UBH_SHDR.UBH_SHDR SEC_TAG.SEC_START 0 i; mret (ubh_shdr_vec w ++ [h])
          | None => mret (ubh_shdr_vec w)
          end;
  mret (mkWI (sec_id_vec w) shdrs (wi_size w),
        UINT32 (wi_size w + UBH_SHDR.sizeof * Z.of_nat (length shdrs))).

(** [Get_inst_encoder], for converted modules: imported functions come first and
  have no code. *)
Fixpoint num_imports (funcs : list Z) : Z :=
  match funcs with
  | [] => 0
  | f :: funcs =>
      if negb (Z.land (UBH_FUNC.Get_flags f) F_NATIVE =? 0)
         || negb (Z.land (UBH_FUNC.Get_flags f) F_IMPORT_WASM =? 0)
      then 1 + num_imports funcs else 0
  end.
Definition Get_inst_encoder (func_idx : Z) (e : t) : outcome U_CODE_BODY.t :=
  let num_import_funcs := num_imports (_func_tab e) in
  _ ← Is_True (num_import_funcs <=? func_idx);
  _ ← Is_True (UINT32 (func_idx - num_import_funcs) <? Z.of_nat (length (_u_inst_encoder e)));
  vec_at (_u_inst_encoder e) (Z.to_nat (UINT32 (func_idx - num_import_funcs))).
End Ops.
End U_ENCODER.
