(* ===== verification/Code.v ===== *)
(** * From instructions to code and back

  What the encoder appends for an instruction, the loader expands to the same
  instruction: for one instruction, for the code of a function with its labels, and
  for all functions of a module. *)

From S2P Require Import Prelude CInt BitField Isa Inst Expand Ubh UModule StrTab TypeEncoder Encoder.
From Stdlib Require Import ZArith Lia.
Local Open Scope Z_scope.

(** An instruction as it is given to [U_ENCODER::Add_inst]. *)
Record INST : Set := mkINST {
  i_opcode : Z;
  i_valtype : VALTYPE;
  i_am : TY_AM;
  i_content : list Z;
}.

(** The address mode is the opcode's, and the operands fit their fields. *)
Definition inst_ok (i : INST) : bool :=
  match UWINST_TY_AM (i_opcode i) with Ok am => bool_decide (am = i_am i) | Err _ => false end && bool_decide (i_valtype i <> VALTY_UNKNOWN)
  && operands_fit (i_am i) (i_content i).

Definition inst_word (i : INST) : Z := encoded (i_am i) (i_opcode i) (i_valtype i) (i_content i).
Definition inst_words (i : INST) : list Z :=
  if Is_32bit_am (i_am i) then [inst_word i] else [UINT32 (inst_word i); UINT32 (Z.shiftr (inst_word i) 32)].
Definition code_of (is_ : list INST) : list Z := concat (map inst_words is_).
Definition inst_expand (i : INST) (e : AM_EXPAND) : AM_EXPAND :=
  am_expand (i_am i) (i_opcode i) (i_valtype i) (i_content i) e.

Lemma inst_ok_inv i : inst_ok i = true ->
  UWINST_TY_AM (i_opcode i) = Ok (i_am i) /\ i_valtype i <> VALTY_UNKNOWN /\
  operands_fit (i_am i) (i_content i) = true.
Proof.
  unfold inst_ok. destruct (UWINST_TY_AM _) as [am|]; [|discriminate].
  rewrite !andb_true_iff, !bool_decide_eq_true. intros [[-> H1] H2]. auto.
Qed.

(** ** Widths *)

(** The first byte tells the width of the instruction: bit 7 of the opcode agrees
  with its address mode. *)
Lemma width_of_opcode o am : UWINST_TY_AM o = Ok am -> Is_32bit o = Is_32bit_am am.
Proof.
  intros H. pose proof (UWINST_TY_AM_def _ _ H) as Hr.
  pose proof (forall_opcode (fun o => match UWINST_TY_AM o with
    | Ok am => Bool.eqb (Is_32bit o) (Is_32bit_am am) | Err _ => true end)
    ltac:(vm_compute; reflexivity) o Hr) as Hb. cbv beta in Hb. rewrite H in Hb.
  now apply Bool.eqb_prop in Hb.
Qed.

Section Words.
Context {bd : Build}.

Lemma inst_words_length i : length (inst_words i) = if Is_32bit_am (i_am i) then 1%nat else 2%nat.
Proof. unfold inst_words. now destruct (Is_32bit_am _). Qed.

Lemma inst_word_range i : in_u (if Is_32bit_am (i_am i) then 32 else 64) (inst_word i).
Proof. apply encoded_range. Qed.

Lemma low_word i : wrapu 32 (inst_word i) + Z.shiftl (Z.shiftr (inst_word i) 32) 32 = inst_word i.
Proof.
  rewrite Z.shiftl_mul_pow2, Z.shiftr_div_pow2 by lia. unfold wrapu.
  pose proof (Z.div_mod (inst_word i) (2 ^ 32) ltac:(lia)). lia.
Qed.

Lemma high_word i : Is_32bit_am (i_am i) = false ->
  UINT32 (Z.shiftr (inst_word i) 32) = Z.shiftr (inst_word i) 32.
Proof.
  intros H. pose proof (inst_word_range i) as Hr. rewrite H in Hr. apply wrapu_id.
  unfold in_u in *. rewrite Z.shiftr_div_pow2 by lia. split; [apply Z.div_pos; lia|].
  apply Z.div_lt_upper_bound; lia.
Qed.

(** The opcode is in the first word. *)
Lemma first_word_opcode i w rest : inst_ok i = true -> inst_words i = w :: rest ->
  Is_32bit (fget U_INST32._opcode w) = Is_32bit_am (i_am i).
Proof.
  intros (Ho & _ & _)%inst_ok_inv Hw.
  assert (fget U_INST32._opcode w = i_opcode i) as ->; [|now apply width_of_opcode].
  pose proof (encoded_opcode (i_am i) (i_opcode i) (i_valtype i) (i_content i) (in_u_opcode _ _ Ho)) as E.
  unfold inst_words in Hw. destruct (Is_32bit_am _); injection Hw as <- _; [exact E|].
  rewrite <- E. unfold UINT32, fget. cbn [U_INST32._opcode fd_signed fd_off fd_w].
  apply bf_get_wrapu; lia.
Qed.

(** Reading an instruction in the middle of a table. *)
Lemma lookup_words (pre ws post : list Z) k w : ws !! k = Some w ->
  (pre ++ ws ++ post) !! (length pre + k)%nat = Some w.
Proof.
  intros H. rewrite lookup_app_r by lia. replace (length pre + k - length pre)%nat with k by lia.
  now apply lookup_app_l_Some.
Qed.

Lemma deref_words i pre post : inst_ok i = true ->
  U_INST_ITER.deref (pre ++ inst_words i ++ post) (length pre) = Ok (Is_32bit_am (i_am i), inst_word i) /\
  U_INST_ITER.incr (pre ++ inst_words i ++ post) (length pre) = Ok (length pre + length (inst_words i))%nat.
Proof.
  intros Hok. pose proof (first_word_opcode i) as Hf.
  assert (exists w, inst_words i !! 0%nat = Some w /\ Is_32bit (fget U_INST32._opcode w) = Is_32bit_am (i_am i)) as (w & Hw & Hi).
  { unfold inst_words in *. destruct (Is_32bit_am _); eexists; (split; [reflexivity|]); eapply Hf; eauto. }
  pose proof (lookup_words pre _ post 0 w Hw) as H0. rewrite Nat.add_0_r in H0.
  unfold U_INST_ITER.deref, U_INST_ITER.incr, U_INST_ITER.word. rewrite H0. cbn [mbind outcome_bind].
  rewrite Hi. pose proof (high_word i) as Hh. pose proof (low_word i) as Hl.
  unfold inst_words in *. destruct (Is_32bit_am (i_am i)).
  - injection Hw as <-. split; [reflexivity|]. cbn. do 2 f_equal; lia.
  - injection Hw as <-. pose proof (lookup_words pre [UINT32 (inst_word i); UINT32 (Z.shiftr (inst_word i) 32)] post 1 _ eq_refl) as H1.
    rewrite Nat.add_1_r in H1. rewrite H1. cbn [mbind outcome_bind mret outcome_ret].
    rewrite Hh by reflexivity. unfold UINT32. rewrite Hl. split; [reflexivity|]. cbn. do 2 f_equal; lia.
Qed.

(** [Add_inst] appends the words of the instruction to the current function. *)
Lemma Init_inst_run i : inst_ok i = true ->
  (if Is_32bit_am (i_am i) then Init_inst32 0 (i_am i) (i_opcode i) (i_valtype i) (i_content i)
   else Init_inst64 0 (i_am i) (i_opcode i) (i_valtype i) (i_content i)) = Ok (inst_word i).
Proof.
  intros (_ & _ & H)%inst_ok_inv. destruct (Is_32bit_am (i_am i)) eqn:E.
  - now apply Init_inst32_run.
  - now apply Init_inst64_run.
Qed.

Lemma expand_word i e : inst_ok i = true ->
  Expand_inst (Is_32bit_am (i_am i)) (inst_word i) e = Ok (inst_expand i e).
Proof. intros (H1 & H2 & H3)%inst_ok_inv. now apply Expand_encoded. Qed.
End Words.

(** ** The code of a function *)
Section Body.
Context {bd : Build} {pf : Platform}.
Import Expansion.

Lemma code_of_app l l' : code_of (l ++ l') = code_of l ++ code_of l'.
Proof. unfold code_of. now rewrite map_app, concat_app. Qed.

Lemma code_of_cons i l : code_of (i :: l) = inst_words i ++ code_of l.
Proof. reflexivity. Qed.

Lemma inst_words_pos i : (1 <= length (inst_words i))%nat.
Proof. rewrite inst_words_length. destruct (Is_32bit_am _); lia. Qed.

Lemma code_of_length_ge l : (length l <= length (code_of l))%nat.
Proof.
  induction l as [|i l IH]; [simpl; lia|]. rewrite code_of_cons, length_app. cbn [length].
  pose proof (inst_words_pos i). lia.
Qed.

(** The word at which the instruction number [k] starts. *)
Definition word_off (l : list INST) (k : nat) : nat := length (code_of (take k l)).

Lemma word_off_mono l k k' : (k < k' <= length l)%nat -> (word_off l k < word_off l k')%nat.
Proof.
  intros H. unfold word_off.
  replace k' with (k + (k' - k))%nat by lia. rewrite <- take_take_drop, code_of_app, length_app.
  pose proof (code_of_length_ge (take (k' - k) (drop k l))) as Hl.
  rewrite length_take, length_drop in Hl. lia.
Qed.

Lemma word_off_lt l k : (k < length l)%nat -> (word_off l k < length (code_of l))%nat.
Proof.
  intros H. pose proof (word_off_mono l k (length l) ltac:(lia)) as Hw.
  unfold word_off in *. now rewrite (firstn_all l) in Hw.
Qed.

(** What the loop adds for [todo] after the instructions [done]. *)
Record expanded (done todo : list INST) (st st' : PASS) : Prop := {
  ex_num : p_inst_num st' = p_inst_num st + Z.of_nat (length todo);
  ex_table : forall k i, todo !! k = Some i ->
    p_table st' !! (p_inst_num st + Z.of_nat k) = Some (inst_expand i (fresh_slot (p_inst_num st + Z.of_nat k)));
  ex_origin : forall k, (k < length todo)%nat ->
    p_origin st' !! (p_code_base st + Z.of_nat (length (code_of done) + word_off todo k)) = Some (p_inst_num st + Z.of_nat k);
  ex_expanded : forall k, (k < length todo)%nat ->
    p_expanded st' !! (p_inst_num st + Z.of_nat k) = Some (p_code_base st + Z.of_nat (length (code_of done) + word_off todo k));
  ex_table_old : forall j, j < p_inst_num st -> p_table st' !! j = p_table st !! j;
  ex_origin_old : forall j, j < p_code_base st + Z.of_nat (length (code_of done)) -> p_origin st' !! j = p_origin st !! j;
  ex_expanded_old : forall j, j < p_inst_num st -> p_expanded st' !! j = p_expanded st !! j;
  ex_rest : p_func_base st' = p_func_base st /\ p_lab_tab st' = p_lab_tab st /\ p_code_base st' = p_code_base st;
}.

(** The state after the iteration for [i]. *)
Definition push_inst (i : INST) (p : nat) (st : PASS) : PASS :=
  {| p_table := <[p_inst_num st := inst_expand i (fresh_slot (p_inst_num st))]> (p_table st);
     p_origin := <[p_code_base st + Z.of_nat p := p_inst_num st]> (p_origin st);
     p_expanded := <[p_inst_num st := p_code_base st + Z.of_nat p]> (p_expanded st);
     p_func_base := p_func_base st; p_lab_tab := p_lab_tab st;
     p_code_base := p_code_base st; p_inst_num := p_inst_num st + 1 |}.

Lemma code_of_snoc done i : length (code_of (done ++ [i])) = (length (code_of done) + length (inst_words i))%nat.
Proof. rewrite code_of_app, length_app, code_of_cons. cbn. now rewrite app_nil_r. Qed.

Lemma expanded_cons done i todo st st' :
  expanded (done ++ [i]) todo (push_inst i (length (code_of done)) st) st' -> expanded done (i :: todo) st st'.
Proof.
  intros [E1 E2 E3 E4 E5 E6 E7 E8]. rewrite code_of_snoc in *. pose proof (inst_words_pos i) as Hp.
  assert (forall k, word_off (i :: todo) (S k) = (length (inst_words i) + word_off todo k)%nat) as Hoff
    by (intros k; unfold word_off; cbn [take]; now rewrite code_of_cons, length_app).
  assert (forall k, p_inst_num st + Z.of_nat (S k) = p_inst_num st + 1 + Z.of_nat k) as Hnum by lia.
  assert (word_off (i :: todo) 0 = 0%nat) as H0 by reflexivity.
  cbn [push_inst p_inst_num p_table p_origin p_expanded p_func_base p_lab_tab p_code_base] in *.
  split; [rewrite E1; cbn [length]; lia | | | | | | | exact E8].
  - intros [|k] j Hk; cbn in Hk; [|rewrite Hnum; now apply E2].
    injection Hk as <-. rewrite E5, Z.add_0_r by lia. apply lookup_insert_eq.
  - intros [|k] Hk; cbn in Hk; [|rewrite Hoff, Hnum, Nat.add_assoc; apply E3; lia].
    rewrite H0, E6, Z.add_0_r, Nat.add_0_r by lia. apply lookup_insert_eq.
  - intros [|k] Hk; cbn in Hk; [|rewrite Hoff, Hnum, Nat.add_assoc; apply E4; lia].
    rewrite H0, E7, Z.add_0_r, Nat.add_0_r by lia. apply lookup_insert_eq.
  - intros j Hj. rewrite E5 by lia. apply lookup_insert_ne. lia.
  - intros j Hj. rewrite E6 by lia. apply lookup_insert_ne. lia.
  - intros j Hj. rewrite E7 by lia. apply lookup_insert_ne. lia.
Qed.

Lemma expand_insts_run todo : Forall (fun i => inst_ok i = true) todo -> forall done st fuel,
  (length todo < fuel)%nat -> exists st',
  expand_insts fuel (code_of (done ++ todo)) (length (code_of done)) (length (code_of (done ++ todo))) st = Ok st' /\
  expanded done todo st st'.
Proof.
  induction 1 as [|i todo Hi Hl IH]; intros done st fuel Hf; (destruct fuel as [|fuel]; [simpl in Hf; lia|]).
  - exists st. rewrite app_nil_r. cbn [expand_insts]. rewrite decide_True by reflexivity.
    split; [reflexivity|]. split; cbn [length]; try easy; intros; lia.
  - pose proof (inst_words_pos i) as Hp.
    assert (code_of (done ++ i :: todo) = code_of done ++ inst_words i ++ code_of todo) as Hw
      by (rewrite code_of_app, code_of_cons; reflexivity).
    destruct (deref_words i (code_of done) (code_of todo) Hi) as [Hd Hn]. rewrite <- Hw in Hd, Hn.
    cbn [expand_insts]. rewrite decide_False by (rewrite Hw, !length_app; lia).
    rewrite Hd. cbn [mbind outcome_bind]. rewrite expand_word by exact Hi. cbn [mbind outcome_bind].
    rewrite Hn. cbn [mbind outcome_bind].
    destruct (IH (done ++ [i]) (push_inst i (length (code_of done)) st) fuel ltac:(cbn in Hf; lia)) as (st' & Hrun & He).
    rewrite code_of_snoc, <- (assoc_L (++)) in Hrun.
    exists st'. split; [exact Hrun | now apply expanded_cons].
Qed.

(** ** A function and its labels

  [labs] are the instructions the labels of the function stand before. *)
Record BODY : Type := mkBODY { b_insts : list INST; b_labs : list nat }.

Definition body_ok (b : BODY) : bool :=
  forallb inst_ok (b_insts b) && (0 <? length (b_insts b))%nat
  && forallb (fun k => k <? length (b_insts b))%nat (b_labs b).

Definition entry_of (b : BODY) (e : CODE_ENTRY) : Prop :=
  ce_insts e = code_of (b_insts b) /\
  ce_labels e = map (fun k => Z.of_nat (word_off (b_insts b) k)) (b_labs b) /\
  UBH_CODE.Get_code_size (ce_code e) = Z.of_nat (length (code_of (b_insts b))) /\
  UBH_CODE.Get_label_num (ce_code e) = Z.of_nat (length (b_labs b)).

(** What a function contributes: its instructions from the slot [p_inst_num st],
  the first of which is its base, and the slots of its labels. *)
Record function_expanded (i : Z) (b : BODY) (st st' : PASS) : Prop := {
  fe_num : p_inst_num st' = p_inst_num st + Z.of_nat (length (b_insts b));
  fe_words : p_code_base st' = p_code_base st + Z.of_nat (length (code_of (b_insts b)));
  fe_table : forall k j, b_insts b !! k = Some j ->
    p_table st' !! (p_inst_num st + Z.of_nat k) = Some (inst_expand j (fresh_slot (p_inst_num st + Z.of_nat k)));
  fe_base : p_func_base st' = <[i := p_inst_num st]> (p_func_base st);
  fe_labels : p_lab_tab st' = <[i := map (fun k => p_inst_num st + Z.of_nat k) (b_labs b)]> (p_lab_tab st);
  fe_table_old : forall j, j < p_inst_num st -> p_table st' !! j = p_table st !! j;
}.

Lemma map_outcome_map {A B} (f : A -> outcome B) (g : A -> B) l :
  (forall a, a ∈ l -> f a = Ok (g a)) -> Types.map_outcome f l = Ok (map g l).
Proof.
  induction l as [|a l IH]; intros H; [reflexivity|]. cbn. rewrite (H a) by left. cbn.
  rewrite IH by (intros; apply H; now right). reflexivity.
Qed.

Lemma map_outcome_seqZ {A B} (f : A -> outcome B) (g : A -> B) l n :
  n = Z.of_nat (length l) -> (forall a, a ∈ l -> f a = Ok (g a)) ->
  Types.map_outcome (fun j => a ← nthZ l j; f a) (seqZ 0 n) = Ok (map g l).
Proof.
  intros -> H.
  assert (forall pre l, (forall a, a ∈ l -> f a = Ok (g a)) ->
    Types.map_outcome (fun j => a ← nthZ (pre ++ l) j; f a) (seqZ (Z.of_nat (length pre)) (Z.of_nat (length l))) = Ok (map g l)) as G;
    [|exact (G [] l H)].
  clear. intros pre l. revert pre. induction l as [|a l IH]; intros pre H; [reflexivity|].
  rewrite seqZ_cons by (cbn [length]; lia). cbn [Types.map_outcome map].
  assert (nthZ (pre ++ a :: l) (Z.of_nat (length pre)) = Ok a) as ->.
  { apply nthZ_Ok. split; [lia|]. rewrite Nat2Z.id, lookup_app_r, Nat.sub_diag by lia. reflexivity. }
  cbn [mbind outcome_bind]. rewrite H by left. cbn [mbind outcome_bind].
  specialize (IH (pre ++ [a]) ltac:(intros; apply H; now right)).
  rewrite <- (assoc_L (++)), length_app in IH. cbn [app length] in IH.
  replace (Z.succ (Z.of_nat (length pre))) with (Z.of_nat (length pre + 1)) by lia.
  replace (Z.pred (Z.of_nat (length (a :: l)))) with (Z.of_nat (length l)) by (cbn [length]; lia).
  rewrite IH. reflexivity.
Qed.

Lemma expand_func_run s i f b e st : body_ok b = true ->
  UBH_FUNC.Is_set_flag F_EXTERN f = false -> Get_code s (fget UBH_FUNC._code_idx f) = Ok e -> entry_of b e ->
  0 <= p_code_base st -> p_code_base st + Z.of_nat (length (code_of (b_insts b))) < 2 ^ 32 ->
  exists st', expand_func s i f st = Ok st' /\ function_expanded i b st st'.
Proof.
  unfold body_ok. rewrite !andb_true_iff, !forallb_forall. intros [[Hok Hpos%Nat.ltb_lt] Hlabs] Hext Hcode (E1 & E2 & E3 & E4) Hb0 Hb.
  unfold expand_func, UBH_FUNC.Get_code_idx. rewrite Hext. cbn [negb]. rewrite Is_True_true. cbn [mbind outcome_bind mret outcome_ret].
  rewrite Hcode. cbn [mbind outcome_bind]. rewrite E1, E3, E4, Nat2Z.id.
  destruct (expand_insts_run (b_insts b) ltac:(apply Forall_forall; intros; now apply Hok, list_elem_of_In) [] st
    (S (length (code_of (b_insts b)))) ltac:(pose proof (code_of_length_ge (b_insts b)); lia)) as (st1 & Hrun & [X1 X2 X3 X4 X5 X6 X7 (X8 & X9 & X10)]).
  change (length (code_of [])) with 0%nat in *. cbn [app Nat.add] in *. rewrite Hrun. cbn [mbind outcome_bind].
  assert (read_map (p_origin st1) (p_code_base st1) = Ok (p_inst_num st)) as Hbase.
  { unfold read_map. rewrite X10. specialize (X3 0%nat Hpos). change (word_off (b_insts b) 0) with 0%nat in X3.
    rewrite !Z.add_0_r in X3. now rewrite X3. }
  rewrite E2.
  rewrite (map_outcome_seqZ _ (fun lab => default 0 (p_origin st1 !! (p_code_base st + lab)))).
  2: { now rewrite length_map. }
  2: { intros lab (k & -> & Hk)%list_elem_of_fmap. apply list_elem_of_In in Hk.
       pose proof (proj1 (Nat.ltb_lt _ _) (Hlabs k Hk)) as Hlt. pose proof (word_off_lt (b_insts b) k Hlt).
       unfold read_map. rewrite X10, UINT32_id by lia. now rewrite X3. }
  cbn [mbind outcome_bind]. rewrite Hbase. cbn [mbind outcome_bind mret outcome_ret]. eexists. split; [reflexivity|].
  split; cbn [p_inst_num p_table p_origin p_expanded p_func_base p_lab_tab p_code_base]; auto.
  - rewrite X10. apply UINT32_id. lia.
  - now rewrite X8.
  - rewrite X9. f_equal. rewrite map_map. apply map_ext_in. intros k Hk.
    rewrite X3 by (apply Nat.ltb_lt, Hlabs, Hk). reflexivity.
Qed.

(** ** All functions

  A function of the module is external, or has a body. *)
Definition insts_of (b : option BODY) : nat := match b with Some b => length (b_insts b) | None => 0%nat end.
Definition words_of (b : option BODY) : nat := match b with Some b => length (code_of (b_insts b)) | None => 0%nat end.
Definition insts_num (bs : list (option BODY)) : Z := Z.of_nat (sum_list_with insts_of bs).
Definition words_num (bs : list (option BODY)) : Z := Z.of_nat (sum_list_with words_of bs).

Definition func_matches (s : SECTIONS) (f : Z) (b : option BODY) : Prop :=
  match b with
  | None => UBH_FUNC.Is_set_flag F_EXTERN f = true
  | Some b => UBH_FUNC.Is_set_flag F_EXTERN f = false /\ body_ok b = true /\
      exists e, Get_code s (fget UBH_FUNC._code_idx f) = Ok e /\ entry_of b e
  end.

(** Where the code of the function [k] starts in the table. *)
Definition base_of (bs : list (option BODY)) (k : nat) : Z := insts_num (take k bs).

Record functions_expanded (i : Z) (bs : list (option BODY)) (st st' : PASS) : Prop := {
  ms_num : p_inst_num st' = p_inst_num st + insts_num bs;
  ms_base : forall k b, bs !! k = Some (Some b) ->
    p_func_base st' !! (i + Z.of_nat k) = Some (p_inst_num st + base_of bs k);
  ms_labels : forall k b, bs !! k = Some (Some b) ->
    p_lab_tab st' !! (i + Z.of_nat k) = Some (map (fun j => p_inst_num st + base_of bs k + Z.of_nat j) (b_labs b));
  ms_table : forall k b j x, bs !! k = Some (Some b) -> b_insts b !! j = Some x ->
    p_table st' !! (p_inst_num st + base_of bs k + Z.of_nat j) =
      Some (inst_expand x (fresh_slot (p_inst_num st + base_of bs k + Z.of_nat j)));
  ms_table_old : forall j, j < p_inst_num st -> p_table st' !! j = p_table st !! j;
  ms_base_old : forall j, j < i -> p_func_base st' !! j = p_func_base st !! j;
  ms_labels_old : forall j, j < i -> p_lab_tab st' !! j = p_lab_tab st !! j;
}.

Lemma base_of_cons b bs k : base_of (b :: bs) (S k) = Z.of_nat (insts_of b) + base_of bs k.
Proof. unfold base_of, insts_num. cbn. lia. Qed.

Lemma insts_num_cons b bs : insts_num (b :: bs) = Z.of_nat (insts_of b) + insts_num bs.
Proof. unfold insts_num. cbn. lia. Qed.

Lemma words_num_cons b bs : words_num (b :: bs) = Z.of_nat (words_of b) + words_num bs.
Proof. unfold words_num. cbn. lia. Qed.

Lemma base_of_nonneg bs k : 0 <= base_of bs k.
Proof. unfold base_of, insts_num. lia. Qed.

(** A function without code adds nothing. *)
Lemma functions_expanded_extern i bs st st' :
  functions_expanded (i + 1) bs st st' -> functions_expanded i (None :: bs) st st'.
Proof.
  intros [M1 M2 M3 M4 M5 M6 M7].
  assert (forall k, i + Z.of_nat (S k) = i + 1 + Z.of_nat k) as Hk by lia.
  split.
  - rewrite M1, insts_num_cons. cbn. lia.
  - intros [|k] b H; cbn in H; [discriminate|]. rewrite base_of_cons, Hk. cbn [insts_of]. now rewrite (M2 k b H).
  - intros [|k] b H; cbn in H; [discriminate|]. rewrite base_of_cons, Hk. cbn [insts_of]. now rewrite (M3 k b H).
  - intros [|k] b j x H Hx; cbn in H; [discriminate|]. rewrite base_of_cons. exact (M4 k b j x H Hx).
  - exact M5.
  - intros j Hj. apply M6. lia.
  - intros j Hj. apply M7. lia.
Qed.

Lemma functions_expanded_body i b bs st st1 st' : function_expanded i b st st1 ->
  functions_expanded (i + 1) bs st1 st' -> functions_expanded i (Some b :: bs) st st'.
Proof.
  intros [F1 F2 F3 F4 F5 F6] [M1 M2 M3 M4 M5 M6 M7].
  assert (forall k, i + Z.of_nat (S k) = i + 1 + Z.of_nat k) as Hk by lia.
  assert (forall k, p_inst_num st1 + base_of bs k = p_inst_num st + base_of (Some b :: bs) (S k)) as Hb
    by (intros; rewrite base_of_cons, F1; cbn [insts_of]; lia).
  assert (p_inst_num st + base_of (Some b :: bs) 0 = p_inst_num st) as H0
    by (unfold base_of, insts_num; cbn; lia).
  split.
  - rewrite M1, F1, insts_num_cons. cbn [insts_of]. lia.
  - intros [|k] c H; cbn in H; [|rewrite Hk, <- Hb; now apply (M2 k c)].
    rewrite H0, Z.add_0_r, M6, F4 by lia. apply lookup_insert_eq.
  - intros [|k] c H; cbn in H; [|rewrite Hk, <- Hb; now apply (M3 k c)].
    injection H as <-. rewrite H0, Z.add_0_r, M7, F5 by lia. apply lookup_insert_eq.
  - intros [|k] c j x H Hx; cbn in H; [|rewrite <- Hb; now apply (M4 k c)].
    injection H as <-. rewrite H0, M5; [now apply F3|]. apply lookup_lt_Some in Hx. lia.
  - intros j Hj. rewrite M5 by lia. now apply F6.
  - intros j Hj. rewrite M6, F4 by lia. apply lookup_insert_ne. lia.
  - intros j Hj. rewrite M7, F5 by lia. apply lookup_insert_ne. lia.
Qed.

Lemma expand_funcs_run s funcs bs : Forall2 (func_matches s) funcs bs -> forall i st,
  0 <= p_code_base st -> p_code_base st + words_num bs < 2 ^ 32 ->
  exists st', expand_funcs s i funcs st = Ok st' /\ functions_expanded i bs st st'.
Proof.
  induction 1 as [|f b funcs bs Hf Hfs IH]; intros i st H0 Hw.
  { exists st. split; [reflexivity|]. split; try easy. unfold insts_num. cbn. lia. }
  rewrite words_num_cons in Hw. assert (0 <= words_num bs) by (unfold words_num; lia).
  cbn [expand_funcs]. destruct b as [b|]; cbn [func_matches words_of] in *.
  - destruct Hf as (Hext & Hok & e & Hc & He).
    destruct (expand_func_run s i f b e st Hok Hext Hc He H0 ltac:(lia)) as (st1 & -> & Hst). cbn [mbind outcome_bind].
    pose proof (fe_words _ _ _ _ Hst) as Hw1.
    destruct (IH (i + 1) st1 ltac:(lia) ltac:(lia)) as (st' & Hr & Hst'). exists st'. split; [exact Hr|].
    eapply functions_expanded_body; eauto.
  - unfold expand_func. rewrite Hf. cbn [mbind outcome_bind mret outcome_ret].
    destruct (IH (i + 1) st ltac:(lia) ltac:(lia)) as (st' & Hr & Hst'). exists st'. split; [exact Hr|].
    now apply functions_expanded_extern.
Qed.

Lemma total_code_size_run s funcs bs : Forall2 (func_matches s) funcs bs ->
  forall acc, exists n, total_code_size s funcs acc = Ok n.
Proof.
  induction 1 as [|f b funcs bs Hf Hfs IH]; intros acc; cbn [total_code_size]; [now eexists|].
  destruct b as [b|]; cbn [func_matches] in Hf.
  - destruct Hf as (Hext & _ & e & Hc & _). unfold UBH_FUNC.Get_code_idx. rewrite Hext. cbn [negb].
    rewrite Is_True_true. cbn [mbind outcome_bind mret outcome_ret]. rewrite Hc. cbn [mbind outcome_bind]. apply IH.
  - rewrite Hf. apply IH.
Qed.

Lemma map_outcome_nthZ {A} (l : list A) : Types.map_outcome (nthZ l) (seqZ 0 (Z.of_nat (length l))) = Ok l.
Proof.
  pose proof (map_outcome_seqZ (fun a => Ok a) (fun a => a) l _ eq_refl (fun _ _ => eq_refl)) as H.
  rewrite map_id in H. rewrite <- H. generalize (seqZ 0 (Z.of_nat (length l))).
  induction l0 as [|j js IHj]; [reflexivity|]. cbn. rewrite IHj. now destruct (nthZ l j).
Qed.

(** The loaded code: one table for all functions, their starts and label tables. *)
Record code_loaded (bs : list (option BODY)) (c : CODE_CACHE) : Prop := {
  cl_end : _end_pc c = insts_num bs;
  cl_base : forall k b, bs !! k = Some (Some b) -> _expanded_func_base c !! Z.of_nat k = Some (base_of bs k);
  cl_labels : forall k b, bs !! k = Some (Some b) ->
    _lab_tab c !! Z.of_nat k = Some (map (fun j => base_of bs k + Z.of_nat j) (b_labs b));
  cl_table : forall k b j x, bs !! k = Some (Some b) -> b_insts b !! j = Some x ->
    _expanded_table c !! (base_of bs k + Z.of_nat j) = Some (inst_expand x (fresh_slot (base_of bs k + Z.of_nat j)));
}.

Lemma base_of_le bs k b j : bs !! k = Some (Some b) -> (j < length (b_insts b))%nat ->
  base_of bs k + Z.of_nat j < insts_num bs.
Proof.
  revert k. induction bs as [|c bs IH]; intros [|k] H Hj; cbn in H; try discriminate.
  - injection H as ->. unfold base_of, insts_num. cbn. lia.
  - rewrite base_of_cons, insts_num_cons. specialize (IH k H Hj). lia.
Qed.

Lemma Expand_code_run s bs : sec_elem_num s S_FUNC = Ok (Z.of_nat (length (_func_sec s))) ->
  Forall2 (func_matches s) (_func_sec s) bs -> words_num bs < 2 ^ 32 ->
  exists c, Expand_code s = Ok c /\ code_loaded bs c.
Proof.
  intros Hn Hm Hw. unfold Expand_code. rewrite Hn. cbn [mbind outcome_bind].
  change (Get_func s) with (nthZ (_func_sec s)). rewrite map_outcome_nthZ. cbn [mbind outcome_bind].
  destruct (total_code_size_run s _ _ Hm 0) as [n ->]. cbn [mbind outcome_bind].
  destruct (expand_funcs_run s _ _ Hm 0 pass0 ltac:(reflexivity) ltac:(cbn; lia)) as (st & -> & [M1 M2 M3 M4 M5 M6 M7]).
  cbn [mbind outcome_bind mret outcome_ret pass0 p_inst_num] in *. eexists. split; [reflexivity|].
  split; cbn [_end_pc _expanded_func_base _lab_tab _expanded_table].
  - exact M1.
  - intros k b H. exact (M2 k b H).
  - intros k b H. exact (M3 k b H).
  - intros k b j x H Hx. rewrite lookup_insert_ne.
    + exact (M4 k b j x H Hx).
    + rewrite M1. pose proof (base_of_le bs k b j H ltac:(now apply lookup_lt_Some in Hx)). lia.
Qed.
End Body.
