(* ===== verification/CodeSec.v ===== *)
(** * The code section

  What [U_INST_ENCODER::Write_to_buf] writes for the functions of a module,
  [U_MODULE::Set_code_sec] reads back. *)

From S2P Require Import Prelude CInt BitField Isa Inst Expand Ubh UModule StrTab TypeEncoder Encoder.
From Stdlib Require Import ZArith Lia.
Local Open Scope Z_scope.

(** ** Words of a section *)
Lemma words_at_mid (pre ws post : list Z) off n :
  off = 4 * Z.of_nat (length pre) -> n = Z.of_nat (length ws) ->
  Code_section.words_at (pre ++ ws ++ post) off n = Ok ws.
Proof.
  intros -> ->. unfold Code_section.words_at.
  replace (4 * Z.of_nat (length pre)) with (Z.of_nat (length pre) * 4) by lia.
  rewrite Z.mod_mul, Z.div_mul, !Nat2Z.id by lia. cbn [Z.eqb andb].
  replace (0 <=? Z.of_nat (length pre) * 4) with true by (symmetry; apply Z.leb_le; lia).
  rewrite drop_app_length, take_app_length. now rewrite Z.eqb_refl.
Qed.

(** The words of a value of [32 * n] bits. *)
Lemma join_words_split n x k : in_u (32 * Z.of_nat n) (Z.shiftr x (32 * k)) -> 0 <= k ->
  Code_section.join_words (map (fun k => fget (Field (32 * k) 32 false) x) (seqZ k (Z.of_nat n))) = Z.shiftr x (32 * k).
Proof.
  revert k. induction n as [|n IH]; intros k Hx Hk.
  - destruct Hx as [H1 H2]. change (2 ^ (32 * Z.of_nat 0)) with 1 in H2. cbn [seqZ map Code_section.join_words]. change (0 = Z.shiftr x (32 * k)). lia.
  - rewrite seqZ_cons by lia. cbn [map Code_section.join_words].
    replace (Z.pred (Z.of_nat (S n))) with (Z.of_nat n) by lia.
    assert (Z.shiftr x (32 * Z.succ k) = Z.shiftr (Z.shiftr x (32 * k)) 32) as Es
      by (rewrite Z.shiftr_shiftr by lia; f_equal; lia).
    rewrite IH; [| |lia].
    + rewrite Es. unfold fget. cbn [fd_signed fd_off fd_w]. unfold bf_get.
      rewrite <- wrapu_land by lia. generalize (Z.shiftr x (32 * k)). intros y.
      unfold wrapu. rewrite Z.shiftl_mul_pow2, Z.shiftr_div_pow2 by lia.
      pose proof (Z.div_mod y (2 ^ 32) ltac:(lia)). lia.
    + rewrite Es. destruct Hx as [H1 H2]. rewrite Z.shiftr_div_pow2 by lia. split; [apply Z.div_pos; lia|].
      apply Z.div_lt_upper_bound; [lia|]. rewrite <- Z.pow_add_r by lia.
      replace (32 + 32 * Z.of_nat n) with (32 * Z.of_nat (S n)) by lia. exact H2.
Qed.

Lemma join_code_words c : in_u 320 c -> Code_section.join_words (U_INST_ENCODER.code_words c) = c.
Proof.
  intros H. transitivity (Z.shiftr c (32 * 0)); [|apply Z.shiftr_0_r].
  apply (join_words_split 10 c 0); [|lia]. change (32 * 0) with 0. now rewrite Z.shiftr_0_r.
Qed.

Lemma code_words_length c : length (U_INST_ENCODER.code_words c) = 10%nat.
Proof. reflexivity. Qed.

Section CodeSection.
Context {bd : Build}.
Import U_CODE_BODY.

(** A code body as the encoder makes it: the [UBH_CODE] is one, the counts fit its
  fields of 20 and 12 bits. *)
Definition body_fits (c : t) : bool :=
  bool_decide (in_u 320 (_ubh_code c)) && (Z.of_nat (length (_inst_tab c)) <? 2 ^ 20)
  && (Z.of_nat (length (_lab_tab c)) <? 2 ^ 12).

Definition body_size (c : t) : Z := 40 + 4 * Z.of_nat (length (_inst_tab c) + length (_lab_tab c)).
Definition bodies_size (v : list t) : Z := foldr (fun c n => body_size c + n) 0 v.

Lemma bodies_size_nonneg v : 0 <= bodies_size v.
Proof.
  induction v as [|c v IH]; [reflexivity|]. change (0 <= body_size c + bodies_size v). unfold body_size. lia.
Qed.

(** The entry that stands for a body in the loaded module. *)
Definition entry_of_body (c : t) : CODE_ENTRY := mkCODE (_ubh_code c) (_inst_tab c) (map UINT32 (_lab_tab c)).

(** [Finish] writes the counts and offsets. *)
Record finished (off : Z) (c c' : t) : Prop := {
  fin_tabs : _inst_tab c' = _inst_tab c /\ _lab_tab c' = _lab_tab c /\ _lab_name_tab c' = _lab_name_tab c;
  fin_range : in_u 320 (_ubh_code c');
  fin_code_size : UBH_CODE.Get_code_size (_ubh_code c') = Z.of_nat (length (_inst_tab c));
  fin_label_num : UBH_CODE.Get_label_num (_ubh_code c') = Z.of_nat (length (_lab_tab c));
  fin_inst_off : UBH_CODE.Get_inst_tab_off (_ubh_code c') = off + 40;
  fin_label_off : UBH_CODE.Get_label_tab_off (_ubh_code c') = off + 40 + 4 * Z.of_nat (length (_inst_tab c));
}.

Lemma Finish_body off c c' : body_fits c = true -> 0 <= off < 2 ^ 32 -> Finish off c = Ok c' -> finished off c c'.
Proof.
  unfold body_fits. rewrite !andb_true_iff, bool_decide_eq_true, !Z.ltb_lt. intros [[Hr Hi] Hl] Ho.
  unfold Finish. destruct (check_labels _); [|discriminate]. cbn [mbind outcome_bind]. intros [= <-].
  assert (forall w z, 0 < w -> 0 <= z < 2 ^ w -> wrapu w z = z) as Hw by (intros; apply wrapu_id; auto).
  split; cbn [_ubh_code _inst_tab _lab_tab _lab_name_tab]; auto.
  - unfold UBH_CODE.Set_label_tab_off, UBH_CODE.Set_inst_tab_off, UBH_CODE.Set_code_size, UBH_CODE.Set_label_num.
    repeat (apply fset_range; [reflexivity | discriminate|]). exact Hr.
  - unfold UBH_CODE.Get_code_size, UBH_CODE.Set_label_tab_off, UBH_CODE.Set_inst_tab_off, UBH_CODE.Set_code_size. field_simpl.
    unfold fkeep. cbn. apply Hw; lia.
  - unfold UBH_CODE.Get_label_num, UBH_CODE.Set_label_tab_off, UBH_CODE.Set_inst_tab_off, UBH_CODE.Set_code_size, UBH_CODE.Set_label_num.
    field_simpl. unfold fkeep. cbn. apply Hw; lia.
  - unfold UBH_CODE.Get_inst_tab_off, UBH_CODE.Set_label_tab_off, UBH_CODE.Set_inst_tab_off. field_simpl.
    unfold fkeep. cbn [fd_signed UBH_CODE._inst_tab_off fd_w]. change UBH_CODE.sizeof with 40. apply Hw; lia.
  - unfold UBH_CODE.Get_label_tab_off, UBH_CODE.Set_label_tab_off. field_simpl.
    unfold fkeep. cbn [fd_signed UBH_CODE._label_tab_off fd_w]. change UBH_CODE.sizeof with 40. apply Hw; lia.
Qed.

Definition body_words (c : t) : list Z :=
  U_INST_ENCODER.code_words (_ubh_code c) ++ _inst_tab c ++ map UINT32 (_lab_tab c).

Lemma body_words_length c : 4 * Z.of_nat (length (body_words c)) = body_size c.
Proof. unfold body_words, body_size. rewrite !length_app, length_map, code_words_length. lia. Qed.

Lemma body_size_eq c c' : _inst_tab c' = _inst_tab c -> _lab_tab c' = _lab_tab c -> body_size c' = body_size c.
Proof. unfold body_size. now intros -> ->. Qed.

(** One entry in the middle of the section. *)
Lemma read_entry_words pre c c' post : finished (4 * Z.of_nat (length pre)) c c' ->
  let sec := pre ++ body_words c' ++ post in
  Code_section.words_at sec (4 * Z.of_nat (length pre)) 10 = Ok (U_INST_ENCODER.code_words (_ubh_code c')) /\
  Code_section.words_at sec (UBH_CODE.Get_inst_tab_off (_ubh_code c')) (UBH_CODE.Get_code_size (_ubh_code c')) = Ok (_inst_tab c') /\
  Code_section.words_at sec (UBH_CODE.Get_label_tab_off (_ubh_code c')) (UBH_CODE.Get_label_num (_ubh_code c'))
    = Ok (map UINT32 (_lab_tab c')).
Proof.
  intros [(T1 & T2 & _) _ F1 F2 F3 F4] sec. subst sec. unfold body_words.
  rewrite F1, F2, F3, F4, T1, T2, <- !(assoc_L (++)).
  split; [|split].
  - now apply words_at_mid.
  - rewrite (assoc_L (++) pre). apply words_at_mid; [|reflexivity]. rewrite length_app, code_words_length. lia.
  - rewrite (assoc_L (++) pre), (assoc_L (++) (pre ++ _)). apply words_at_mid; [|now rewrite length_map].
    rewrite !length_app, code_words_length. lia.
Qed.

Lemma read_entries_run v post : forall pre v', Forall (fun c => body_fits c = true) v ->
  4 * Z.of_nat (length pre) + bodies_size v < 2 ^ 32 ->
  U_INST_ENCODER.Finish_from (4 * Z.of_nat (length pre)) v = Ok v' ->
  Code_section.read_entries (pre ++ U_INST_ENCODER.Write_to_buf v' ++ post) (4 * Z.of_nat (length pre)) (length v)
    = Ok (map entry_of_body v').
Proof.
  induction v as [|c v IH]; intros pre v' Hv Hsz Hfin; [now injection Hfin as <-|].
  apply Forall_cons in Hv as [Hc Hv]. cbn [U_INST_ENCODER.Finish_from] in Hfin.
  pose proof (bodies_size_nonneg v) as Hn. cbn [bodies_size foldr] in Hsz. fold (bodies_size v) in Hsz.
  pose proof (body_words_length c) as Hbw.
  destruct (Finish _ c) as [c'|] eqn:Ec; [|discriminate]. cbn [mbind outcome_bind] in Hfin.
  apply Finish_body in Ec as Hf; [|exact Hc|lia].
  destruct (U_INST_ENCODER.Finish_from _ v) as [vs|] eqn:Ev; [|discriminate]. injection Hfin as <-.
  pose proof (body_words_length c') as Hbw'.
  destruct Hf as [HT Hr Hcs Hln Hio Hlo]. pose proof HT as (T1 & T2 & _).
  pose proof (body_size_eq c c' T1 T2) as Hbs.
  assert (Entry_size c' = body_size c') as He
    by (unfold Entry_size; change UBH_CODE.sizeof with 40; fold (body_size c'); apply UINT32_id; lia).
  assert (4 * Z.of_nat (length pre) + body_size c' = 4 * Z.of_nat (length (pre ++ body_words c'))) as Hlen
    by (rewrite length_app; lia).
  rewrite He, UINT32_id, Hlen in Ev by lia.
  specialize (IH (pre ++ body_words c') vs Hv ltac:(lia) Ev).
  change (U_INST_ENCODER.Write_to_buf (c' :: vs)) with (body_words c' ++ U_INST_ENCODER.Write_to_buf vs).
  destruct (read_entry_words pre c c' (U_INST_ENCODER.Write_to_buf vs ++ post) (Build_finished _ _ _ HT Hr Hcs Hln Hio Hlo)) as (R1 & R2 & R3).
  rewrite <- (assoc_L (++)). cbn [length Code_section.read_entries]. rewrite R1. cbn [mbind outcome_bind].
  rewrite join_code_words by exact Hr. rewrite R2. cbn [mbind outcome_bind]. rewrite R3. cbn [mbind outcome_bind].
  rewrite Hcs, Hln. change UBH_CODE.sizeof with 40.
  replace (4 * Z.of_nat (length pre) + 40 + Z.of_nat (length (_inst_tab c)) * 4 + Z.of_nat (length (_lab_tab c)) * 4)
    with (4 * Z.of_nat (length (pre ++ body_words c'))) by (rewrite <- Hlen; unfold body_size; rewrite T1, T2; lia).
  rewrite <- (assoc_L (++)) in IH. rewrite IH. reflexivity.
Qed.

(** The size written for the section header is the number of bytes written. *)
Lemma Code_sec_size_eq v : bodies_size v < 2 ^ 32 -> U_INST_ENCODER.Code_sec_size v = bodies_size v.
Proof.
  unfold U_INST_ENCODER.Code_sec_size. intros H.
  assert (forall n, 0 <= n -> n + bodies_size v < 2 ^ 32 ->
    fold_left (fun size c => UINT32 (size + Entry_size c)) v n = n + bodies_size v) as G; [|rewrite G; lia].
  clear H. induction v as [|c v IH]; intros n Hn H; cbn [fold_left bodies_size foldr] in *; [lia|].
  fold (bodies_size v) in *. pose proof (bodies_size_nonneg v).
  assert (0 < body_size c) by (unfold body_size; lia).
  assert (Entry_size c = body_size c) as ->
    by (unfold Entry_size; change UBH_CODE.sizeof with 40; fold (body_size c); apply UINT32_id; lia).
  rewrite UINT32_id by lia. rewrite IH by lia. lia.
Qed.

Lemma Finish_size v v' off : U_INST_ENCODER.Finish_from off v = Ok v' -> bodies_size v' = bodies_size v.
Proof.
  revert v' off. induction v as [|c v IH]; intros v' off Hf; cbn in Hf; [now injection Hf as <-|].
  destruct (Finish off c) as [c'|] eqn:E; [|discriminate]. cbn in Hf.
  destruct (U_INST_ENCODER.Finish_from _ v) as [vs|] eqn:Ev; [|discriminate]. injection Hf as <-.
  change (body_size c' + bodies_size vs = body_size c + bodies_size v). rewrite (IH _ _ Ev). f_equal.
  unfold Finish in E. destruct (check_labels _); [|discriminate]. now injection E as <-.
Qed.

Lemma Write_to_buf_length v : 4 * Z.of_nat (length (U_INST_ENCODER.Write_to_buf v)) = bodies_size v.
Proof.
  induction v as [|c v IH]; [reflexivity|].
  change (U_INST_ENCODER.Write_to_buf (c :: v)) with (body_words c ++ U_INST_ENCODER.Write_to_buf v).
  rewrite length_app. pose proof (body_words_length c). cbn [bodies_size foldr]. fold (bodies_size v). lia.
Qed.
End CodeSection.
