(* ===== verification/Labels.v ===== *)
(** * Labels of a function being written

  [U_CODE_BODY::Request_label] and [Set_label] implement a map from names to word
  offsets: a name asked for is unset until its label is added, and [Finish] accepts
  exactly the maps in which every name is set. *)

From S2P Require Import Prelude CInt BitField Isa Inst Expand Ubh UModule StrTab TypeEncoder Encoder.
From Stdlib Require Import ZArith Lia.
Local Open Scope Z_scope.

Section Labels.
Context {bd : Build} {vg : VectorGrowth}.
Import U_CODE_BODY.

(** The names of the table are pairwise different. *)
Definition names_differ (t : U_STR_TAB) : Prop := forall i j s,
  string_at t i = Some s -> string_at t j = Some s -> i = j.

(** The body [c] stands for the map [m]. *)
Record label_map (c : t) (m : gmap (list Z) Z) : Prop := {
  lm_tab : wf_tab (_lab_name_tab c);
  lm_differ : names_differ (_lab_name_tab c);
  lm_length : length (_entry_vec (_lab_name_tab c)) = length (_lab_tab c);
  lm_lookup : forall name off, m !! name = Some off <-> exists i,
    string_at (_lab_name_tab c) (Z.of_nat i) = Some (cstr name) /\ _lab_tab c !! i = Some off;
  lm_cstr : forall i s, string_at (_lab_name_tab c) i = Some s -> exists name, s = cstr name;
}.

Lemma cstr_inj a b : cstr a = cstr b -> a = b.
Proof. unfold cstr. intros H. now apply app_inj_tail in H. Qed.

Lemma label_map_create l io sz : label_map (create l io sz) ∅.
Proof.
  assert (forall i s, string_at str_tab0 i = Some s -> False) as H0
    by (intros i s; unfold string_at; cbn; now destruct (i <? 0)).
  split; cbn [create _lab_name_tab _lab_tab].
  - apply wf_tab0.
  - intros i j s H. now apply H0 in H.
  - reflexivity.
  - intros name off. rewrite lookup_empty. split; [discriminate|]. intros (i & H & _). now apply H0 in H.
  - intros i s H. now apply H0 in H.
Qed.

Lemma string_at_lt t i s : string_at t (Z.of_nat i) = Some s -> (i < length (_entry_vec t))%nat.
Proof. intros (e & H & _)%string_at_lookup. now apply lookup_lt_Some in H. Qed.

(** The strings after [Add]: the old ones and the new one. *)
Lemma Add_strings buf t t' : wf_tab t -> has_room (length buf) t ->
  Add buf t = Ok (Z.of_nat (length (_entry_vec t)), t') -> forall i s,
  string_at t' (Z.of_nat i) = Some s <-> string_at t (Z.of_nat i) = Some s \/ i = length (_entry_vec t) /\ s = buf.
Proof.
  intros Hw [R1 R2] H. injection H as _ <-.
  eapply string_at_app; [apply Hw | reflexivity | reflexivity|]. cbn [_raw_buf].
  rewrite !UINT32_id by lia. apply slice_of_end.
Qed.

Lemma Contains_iff buf t : wf_tab t -> Contains buf t = true <-> exists i, string_at t i = Some buf.
Proof.
  intros Hw. unfold Contains. split.
  - destruct (_cache t !! buf) as [i|] eqn:E; [|discriminate]. intros _. exists i. now apply (wf_cache _ Hw).
  - intros [i Hi]. destruct (wf_found _ Hw _ _ Hi) as [j ->]. reflexivity.
Qed.

(** Asking for a label. *)
Definition request (name : list Z) (m : gmap (list Z) Z) : gmap (list Z) Z :=
  match m !! name with Some _ => m | None => <[name := UNINIT_LABEL_IDX]> m end.

Lemma names_differ_add buf t t' : wf_tab t -> has_room (length buf) t -> names_differ t ->
  Contains buf t = false -> Add buf t = Ok (Z.of_nat (length (_entry_vec t)), t') -> names_differ t'.
Proof.
  intros Hw Hr Hd Hc H i j s Hi Hj.
  pose proof (string_at_nonneg _ _ _ Hi). pose proof (string_at_nonneg _ _ _ Hj).
  rewrite <- (Z2Nat.id i) in Hi by lia. rewrite <- (Z2Nat.id j) in Hj by lia.
  pose proof (Add_strings buf t t' Hw Hr H) as Hs. apply Hs in Hi, Hj.
  assert (forall k, string_at t k = Some buf -> False) as Hno.
  { intros k Hk. assert (Contains buf t = true) by (apply Contains_iff; eauto). congruence. }
  destruct Hi as [Hi|[Hi ->]], Hj as [Hj|[Hj E]].
  - pose proof (Hd _ _ _ Hi Hj). lia.
  - subst s. now apply Hno in Hi.
  - now apply Hno in Hj.
  - lia.
Qed.

Lemma label_map_add name c m t' : label_map c m -> has_room (length (cstr name)) (_lab_name_tab c) ->
  Contains (cstr name) (_lab_name_tab c) = false ->
  Add (cstr name) (_lab_name_tab c) = Ok (Z.of_nat (length (_entry_vec (_lab_name_tab c))), t') -> wf_tab t' ->
  length (_entry_vec t') = S (length (_lab_tab c)) ->
  label_map (mk (_ubh_code c) (_inst_tab c) (_lab_tab c ++ [UNINIT_LABEL_IDX]) t') (<[name := UNINIT_LABEL_IDX]> m).
Proof.
  intros [W D L Q HS] Hr Ec Ha W' Hl. pose proof (Add_strings _ _ _ W Hr Ha) as Hs.
  split; cbn [_lab_name_tab _lab_tab]; auto.
  - exact (names_differ_add _ _ _ W Hr D Ec Ha).
  - rewrite length_app, Hl. cbn. lia.
  - intros nm off. setoid_rewrite Hs. destruct (decide (nm = name)) as [->|Hne].
    + rewrite lookup_insert_eq. split.
      * intros [= <-]. exists (length (_entry_vec (_lab_name_tab c))). split; [now right|].
        rewrite L. now rewrite lookup_app_r, Nat.sub_diag by lia.
      * intros (i & [Hi|[-> _]] & Hoff).
        -- exfalso. assert (Contains (cstr name) (_lab_name_tab c) = true) by (apply Contains_iff; eauto). congruence.
        -- rewrite L, lookup_app_r, Nat.sub_diag in Hoff by lia. now injection Hoff as <-.
    + rewrite lookup_insert_ne by congruence. rewrite Q. split.
      * intros (i & Hi & Hoff). exists i. split; [now left|]. now apply lookup_app_l_Some.
      * intros (i & [Hi|[_ E]] & Hoff); [|now apply cstr_inj in E]. exists i. split; [exact Hi|].
        pose proof (string_at_lt _ _ _ Hi). now rewrite lookup_app_l in Hoff by lia.
  - intros i s Hi. pose proof (string_at_nonneg _ _ _ Hi). rewrite <- (Z2Nat.id i) in Hi by lia.
    apply Hs in Hi as [Hi|[_ ->]]; eauto.
Qed.

Lemma Request_label_run name c m : label_map c m -> has_room (length (cstr name)) (_lab_name_tab c) -> exists i c',
  Request_label name c = Ok (Z.of_nat i, c') /\ label_map c' (request name m) /\
  string_at (_lab_name_tab c') (Z.of_nat i) = Some (cstr name) /\ _inst_tab c' = _inst_tab c /\
  _ubh_code c' = _ubh_code c.
Proof.
  intros Hm Hr. pose proof Hm as [W D L Q HS]. unfold Request_label. destruct (Contains (cstr name) (_lab_name_tab c)) eqn:Ec.
  - unfold Contains in Ec. unfold Get_idx. destruct (_cache _ !! cstr name) as [i|] eqn:Ei; [|discriminate]. cbn [default].
    pose proof (wf_cache _ W _ _ Ei) as Hs. pose proof (string_at_nonneg _ _ _ Hs).
    exists (Z.to_nat i), c. rewrite Z2Nat.id by lia. repeat (split; [|auto]); auto.
    unfold request. rewrite <- (Z2Nat.id i) in Hs by lia. pose proof (string_at_lt _ _ _ Hs) as Hlt. rewrite L in Hlt.
    destruct (lookup_lt_is_Some_2 _ _ Hlt) as [off Ho].
    assert (m !! name = Some off) as -> by (apply Q; eauto). exact Hm.
  - destruct (Add_spec _ _ W Hr) as (t' & Ha & [W' Hn _ _ _ _]). rewrite Ha. cbn [_entry_vec _lab_tab].
    assert (length (_entry_vec t') = S (length (_lab_tab c))) as Hl
      by (unfold Add in Ha; injection Ha as _ <-; cbn [_entry_vec]; rewrite length_app; cbn; lia).
    rewrite length_app, Hl. cbn [length]. rewrite Nat.add_comm, Nat.eqb_refl, Is_True_true.
    do 2 eexists. split; [reflexivity|]. cbn [_lab_name_tab _inst_tab _ubh_code]. repeat (split; [|auto]); auto.
    unfold request. destruct (m !! name) eqn:Em; [|now apply label_map_add].
    apply Q in Em as (i & Hi & _).
    assert (Contains (cstr name) (_lab_name_tab c) = true) by (apply Contains_iff; eauto). congruence.
Qed.

(** Setting it: the offset is the number of words so far. *)
Lemma Set_label_run name i c m : label_map c m -> string_at (_lab_name_tab c) (Z.of_nat i) = Some (cstr name) ->
  Z.of_nat (length (_inst_tab c)) < 2 ^ 31 -> exists c',
  Set_label (Z.of_nat i) c = Ok (tt, c') /\ label_map c' (<[name := Z.of_nat (length (_inst_tab c))]> m) /\
  _inst_tab c' = _inst_tab c /\ _ubh_code c' = _ubh_code c /\ _lab_name_tab c' = _lab_name_tab c.
Proof.
  intros [W D L Q HS] Hi Hsz. unfold Set_label. pose proof (string_at_lt _ _ _ Hi) as Hlt. rewrite L in Hlt.
  rewrite (proj2 (Z.ltb_lt _ _)), Is_True_true by lia. cbn [mbind outcome_bind].
  destruct (lookup_lt_is_Some_2 _ _ Hlt) as [off Ho]. unfold vec_at. rewrite Nat2Z.id, Ho.
  rewrite INT32_id by lia. eexists. split; [reflexivity|]. repeat (split; [|auto]); auto.
  split; cbn [_lab_name_tab _lab_tab]; auto; [now rewrite length_insert|].
  intros nm o. destruct (decide (nm = name)) as [->|Hne].
  - rewrite lookup_insert_eq. split.
    + intros [= <-]. exists i. split; [exact Hi|]. now apply list_lookup_insert_eq.
    + intros (j & Hj & Hoff). assert (j = i) as -> by (apply Nat2Z.inj; eapply D; eauto).
      now rewrite list_lookup_insert_eq in Hoff by exact Hlt.
  - rewrite lookup_insert_ne by congruence. rewrite Q.
    assert (forall j, string_at (_lab_name_tab c) (Z.of_nat j) = Some (cstr nm) -> i <> j) as Hij
      by (intros j Hj <-; rewrite Hi in Hj; injection Hj as Hj; apply cstr_inj in Hj; congruence).
    split; intros (j & Hj & Hoff); exists j; (split; [exact Hj|]); pose proof (Hij j Hj).
    + now rewrite list_lookup_insert_ne.
    + now rewrite list_lookup_insert_ne in Hoff.
Qed.

(** [Finish] checks that every label is set. *)
Lemma check_labels_iff l : release = false ->
  is_ok (check_labels l) = forallb (fun x => negb (x =? UNINIT_LABEL_IDX)) l.
Proof.
  intros Hr. induction l as [|x l IH]; [reflexivity|]. cbn [check_labels forallb].
  unfold Is_True. rewrite Hr. cbn [negb andb]. destruct (x =? UNINIT_LABEL_IDX); [reflexivity | exact IH].
Qed.

Lemma Finish_labels off c m : release = false -> label_map c m ->
  is_ok (Finish off c) = true <-> map_Forall (fun _ o => o <> UNINIT_LABEL_IDX) m.
Proof.
  intros Hr [W D L Q HS].
  assert (is_ok (Finish off c) = is_ok (check_labels (_lab_tab c))) as ->
    by (unfold Finish; now destruct (check_labels _)).
  rewrite check_labels_iff, forallb_forall by exact Hr. split.
  - intros H name o (i & Hi & Ho)%Q. apply list_elem_of_lookup_2, list_elem_of_In, H in Ho.
    now apply negb_true_iff, Z.eqb_neq in Ho.
  - intros H o Ho. apply list_elem_of_In, list_elem_of_lookup_1 in Ho as [i Ho]. apply negb_true_iff, Z.eqb_neq.
    pose proof (lookup_lt_Some _ _ _ Ho) as Hlt. rewrite <- L in Hlt.
    destruct (lookup_lt_is_Some_2 _ _ Hlt) as [e He].
    assert (string_at (_lab_name_tab c) (Z.of_nat i) = Some (slice_of (_raw_buf (_lab_name_tab c)) e)) as Hs
      by (apply string_at_lookup; eauto).
    destruct (HS _ _ Hs) as [name Hn]. rewrite Hn in Hs. apply (H name). apply Q. eauto.
Qed.
End Labels.
