(* ===== verification/Writing.v ===== *)
(** * Writing a function and loading it

  A client of [U_ENCODER] writes the code of a function by [Add_inst],
  [Request_label] and [Add_label].  The entry that results is the one of the
  instructions given, with each label at the instruction it was added before: so
  [Code.v] says what the loader makes of it. *)

From S2P Require Import Prelude CInt BitField Isa Inst Expand Ubh UModule StrTab TypeEncoder Encoder Code CodeSec Labels.
From Stdlib Require Import ZArith Lia.
Local Open Scope Z_scope.

(** A call of the client while a function is written. *)
Inductive CALL : Type :=
  | CALL_Add_inst (i : INST)
  | CALL_Request_label (name : list Z)
  | CALL_Add_label (name : list Z).

Section Writing.
Context {bd : Build} {vg : VectorGrowth}.
Import U_CODE_BODY.

Definition perform (op : CALL) : M U_ENCODER.t Z :=
  match op with
  | CALL_Add_inst i => U_ENCODER.Add_inst (i_opcode i) (i_valtype i) (i_am i) (i_content i)
  | CALL_Request_label name => U_ENCODER.Request_label name
  | CALL_Add_label name => U_ENCODER.Add_label name
  end.

Fixpoint perform_all (ops : list CALL) : M U_ENCODER.t unit :=
  match ops with
  | [] => mret tt
  | op :: ops => _ ← perform op; perform_all ops
  end.

(** ** What the calls mean

  The instructions so far, and for each name asked for the instruction its label
  stands before, once it is added. *)
Definition meaning : Type := list INST * gmap (list Z) (option nat).

Definition call_meaning (op : CALL) (m : meaning) : meaning :=
  match op with
  | CALL_Add_inst i => (m.1 ++ [i], m.2)
  | CALL_Request_label name => (m.1, match m.2 !! name with Some _ => m.2 | None => <[name := None]> m.2 end)
  | CALL_Add_label name => (m.1, <[name := Some (length m.1)]> m.2)
  end.
Definition calls_meaning (ops : list CALL) : meaning := fold_left (fun m op => call_meaning op m) ops ([], ∅).

Definition offset_of (is_ : list INST) (k : option nat) : Z :=
  match k with Some k => Z.of_nat (word_off is_ k) | None => UNINIT_LABEL_IDX end.

(** The body being written stands for a meaning. *)
Record stands_for (m : meaning) (c : t) : Prop := {
  sf_insts : _inst_tab c = code_of m.1;
  sf_labels : label_map c (offset_of m.1 <$> m.2);
  sf_bound : map_Forall (fun _ k => match k with Some k => (k <= length m.1)%nat | None => True end) m.2;
}.

(** What a call needs: an instruction whose operands fit, room for a name. *)
Definition call_ok (op : CALL) (c : t) : Prop :=
  match op with
  | CALL_Add_inst i => inst_ok i = true
  | CALL_Request_label name | CALL_Add_label name =>
      has_room (length (cstr name)) (_lab_name_tab c) /\ Z.of_nat (length (_inst_tab c)) < 2 ^ 31
  end.

Lemma word_off_app (is_ : list INST) (i : INST) k : (k <= length is_)%nat -> word_off (is_ ++ [i]) k = word_off is_ k.
Proof. intros H. unfold word_off. now rewrite take_app_le. Qed.

Lemma offset_of_app (is_ : list INST) (i : INST) (pos : gmap (list Z) (option nat)) :
  map_Forall (fun _ k => match k with Some k => (k <= length is_)%nat | None => True end) pos ->
  offset_of (is_ ++ [i]) <$> pos = offset_of is_ <$> pos.
Proof.
  intros H. apply map_eq. intros name. rewrite !lookup_fmap. destruct (pos !! name) as [[k|]|] eqn:E; cbn; auto.
  do 2 f_equal. apply word_off_app. exact (H _ _ E).
Qed.

Lemma word_off_full (is_ : list INST) : word_off is_ (length is_) = length (code_of is_).
Proof. unfold word_off. now rewrite firstn_all. Qed.

(** ** The code body under a call *)
Definition on_body (op : CALL) : M t Z :=
  match op with
  | CALL_Add_inst i => fun c =>
      Ok (0, mk (_ubh_code c) (_inst_tab c ++ inst_words i) (_lab_tab c) (_lab_name_tab c))
  | CALL_Request_label name => Request_label name
  | CALL_Add_label name => label_idx ← Request_label name; _ ← Set_label label_idx; mret label_idx
  end.

Lemma request_offset (is_ : list INST) (pos : gmap (list Z) (option nat)) name :
  offset_of is_ <$> match pos !! name with Some _ => pos | None => <[name := None]> pos end
  = request name (offset_of is_ <$> pos).
Proof.
  unfold request. rewrite lookup_fmap. destruct (pos !! name); [reflexivity|]. cbn. now rewrite fmap_insert.
Qed.

Lemma label_map_ext c c' m : _lab_tab c' = _lab_tab c -> _lab_name_tab c' = _lab_name_tab c ->
  label_map c m -> label_map c' m.
Proof. intros E1 E2 [? ? ? ? ?]. split; rewrite ?E1, ?E2; auto. Qed.

Lemma on_body_run op c m : stands_for m c -> call_ok op c -> exists r c',
  on_body op c = Ok (r, c') /\ stands_for (call_meaning op m) c' /\ _ubh_code c' = _ubh_code c.
Proof.
  intros [S1 S2 S3] Hok. destruct m as [is_ pos], op as [i|name|name]; cbn [call_ok on_body call_meaning fst snd] in *.
  - do 2 eexists. split; [reflexivity|]. split; [|reflexivity]. split; cbn [_inst_tab fst snd].
    + now rewrite S1, code_of_app, code_of_cons, app_nil_r.
    + rewrite offset_of_app by exact S3. now eapply label_map_ext; [| |exact S2].
    + intros nm [k|] H; [|exact I]. rewrite length_app. specialize (S3 _ _ H). cbn in S3. lia.
  - destruct Hok as [Hr _]. destruct (Request_label_run name c _ S2 Hr) as (i & c' & Hq & Hm & _ & Hi & Hu).
    do 2 eexists. split; [exact Hq|]. split; [|exact Hu]. split; cbn [fst snd].
    + congruence.
    + now rewrite request_offset.
    + destruct (pos !! name); [exact S3|]. now apply map_Forall_insert_2.
  - destruct Hok as [Hr Hsz]. destruct (Request_label_run name c _ S2 Hr) as (i & c1 & Hq & Hm & Hs & Hi & Hu).
    rewrite <- Hi in Hsz. destruct (Set_label_run name i c1 _ Hm Hs Hsz) as (c' & Hset & Hm' & Hi' & Hu' & _).
    exists (Z.of_nat i), c'. split; [unfold mbind, M_bind; now rewrite Hq, Hset|]. split; [|congruence]. split; cbn [fst snd].
    + congruence.
    + rewrite fmap_insert. cbn [offset_of]. rewrite word_off_full, <- S1, <- Hi.
      replace (<[name := Z.of_nat (length (_inst_tab c1))]> (offset_of is_ <$> pos))
        with (<[name := Z.of_nat (length (_inst_tab c1))]> (request name (offset_of is_ <$> pos))); [exact Hm'|].
      unfold request. destruct (_ !! name); [reflexivity | apply insert_insert_eq].
    + apply map_Forall_insert_2; [lia | exact S3].
Qed.

(** ** The encoder under a call: the last body *)
Lemma on_codes_last {A} (h : M t A) e v c r c' : U_ENCODER._u_inst_encoder e = v ++ [c] -> h c = Ok (r, c') ->
  exists e', U_ENCODER.on_codes (U_INST_ENCODER.on_Cur_code_body h) e = Ok (r, e') /\
  U_ENCODER._u_inst_encoder e' = v ++ [c'].
Proof.
  intros He Hh. unfold U_ENCODER.on_codes, U_ENCODER.on_part, U_INST_ENCODER.on_Cur_code_body. rewrite He, length_app.
  cbn [length]. rewrite (proj2 (Nat.ltb_lt _ _)), Is_True_true, last_snoc, Hh by lia. eexists. split; [reflexivity|].
  cbn [U_ENCODER.set_codes U_ENCODER._u_inst_encoder]. replace (length v + 1 - 1)%nat with (length v + 0)%nat by lia.
  exact (insert_app_r v [c] 0 c').
Qed.

Lemma perform_run op e v c r c' : U_ENCODER._u_inst_encoder e = v ++ [c] -> call_ok op c ->
  on_body op c = Ok (r, c') -> exists e', perform op e = Ok (r, e') /\ U_ENCODER._u_inst_encoder e' = v ++ [c'].
Proof.
  intros He Hok Hb. destruct op as [i|name|name]; cbn [perform on_body call_ok] in *.
  - injection Hb as <- <-. unfold U_ENCODER.Add_inst. pose proof (Init_inst_run i Hok) as Hi.
    match goal with |- context [U_INST_ENCODER.on_Cur_code_body ?h] =>
      assert (h c = Ok (tt, mk (_ubh_code c) (_inst_tab c ++ inst_words i) (_lab_tab c) (_lab_name_tab c))) as Hh
        by (cbv beta; unfold inst_words; destruct (Is_32bit_am (i_am i)); rewrite Hi; reflexivity);
      destruct (on_codes_last h e v c _ _ He Hh) as (e' & H1 & H2)
    end.
    exists e'. split; [|exact H2]. unfold mbind, M_bind. rewrite H1. reflexivity.
  - now apply (on_codes_last _ e v c).
  - now apply (on_codes_last _ e v c).
Qed.

(** The calls are in order and each has what it needs. *)
Fixpoint calls_ok (ops : list CALL) (c : t) : Prop :=
  match ops with
  | [] => True
  | op :: ops => call_ok op c /\ forall r c', on_body op c = Ok (r, c') -> calls_ok ops c'
  end.

(** ** The entry of a finished body *)

(** The labels in the order of the table. *)
Definition labels_ok (m : meaning) (labs : list nat) (c : t) : Prop :=
  forall name k, m.2 !! name = Some (Some k) <-> exists i,
    string_at (_lab_name_tab c) (Z.of_nat i) = Some (cstr name) /\ labs !! i = Some k.

Lemma word_off_inj (is_ : list INST) k k' : (k <= length is_)%nat -> (k' <= length is_)%nat ->
  word_off is_ k = word_off is_ k' -> k = k'.
Proof.
  intros H H' E. destruct (Nat.lt_trichotomy k k') as [Hlt|[Heq|Hgt]]; [|exact Heq|].
  - pose proof (word_off_mono is_ k k' ltac:(lia)). lia.
  - pose proof (word_off_mono is_ k' k ltac:(lia)). lia.
Qed.

(** Each offset in the table is the one of an instruction number. *)
Lemma labels_positions m c : stands_for m c -> Forall (fun o => o <> UNINIT_LABEL_IDX) (_lab_tab c) ->
  exists labs, _lab_tab c = map (fun k => Z.of_nat (word_off m.1 k)) labs /\
    Forall (fun k => (k <= length m.1)%nat) labs /\ labels_ok m labs c.
Proof.
  intros [S1 [W D L Q HS] S3] Hset.
  assert (Forall (fun o => exists k, (k <= length m.1)%nat /\ o = Z.of_nat (word_off m.1 k)) (_lab_tab c)) as Hall.
  { apply Forall_lookup_2. intros i o Ho. pose proof (lookup_lt_Some _ _ _ Ho) as Hlt. rewrite <- L in Hlt.
    destruct (lookup_lt_is_Some_2 _ _ Hlt) as [e He].
    assert (string_at (_lab_name_tab c) (Z.of_nat i) = Some (slice_of (_raw_buf (_lab_name_tab c)) e)) as Hs
      by (apply string_at_lookup; eauto).
    destruct (HS _ _ Hs) as [name Hn]. rewrite Hn in Hs.
    assert ((offset_of m.1 <$> m.2) !! name = Some o) as Hm by (apply Q; eauto).
    rewrite lookup_fmap in Hm. destruct (m.2 !! name) as [[k|]|] eqn:E; cbn in Hm; [| |discriminate].
    - injection Hm as <-. exists k. split; [exact (S3 _ _ E) | reflexivity].
    - injection Hm as <-. exfalso. exact (Forall_lookup_1 _ _ _ _ Hset Ho eq_refl). }
  assert (exists labs, _lab_tab c = map (fun k => Z.of_nat (word_off m.1 k)) labs /\
    Forall (fun k => (k <= length m.1)%nat) labs) as (labs & El & Hl).
  { clear - Hall. induction Hall as [|o l (k & Hk & ->) _ (labs & -> & Hl)]; [now exists []|].
    exists (k :: labs). split; [reflexivity | now constructor]. }
  exists labs. split; [exact El|]. split; [exact Hl|]. intros name k. split.
  - intros Hk. assert ((offset_of m.1 <$> m.2) !! name = Some (Z.of_nat (word_off m.1 k))) as Ho
      by (now rewrite lookup_fmap, Hk). apply Q in Ho as (i & Hi & Ho). exists i. split; [exact Hi|].
    rewrite El in Ho. apply list_lookup_fmap_Some in Ho as (k' & E & Hk').
    rewrite Hk'. f_equal. apply Nat2Z.inj in E. symmetry. eapply word_off_inj; [| |exact E].
    + exact (S3 _ _ Hk).
    + exact (Forall_lookup_1 _ _ _ _ Hl Hk').
  - intros (i & Hi & Hk).
    assert (_lab_tab c !! i = Some (Z.of_nat (word_off m.1 k))) as Ho
      by (rewrite El; apply list_lookup_fmap_Some; eauto).
    assert ((offset_of m.1 <$> m.2) !! name = Some (Z.of_nat (word_off m.1 k))) as Hm by (apply Q; eauto).
    rewrite lookup_fmap in Hm. destruct (m.2 !! name) as [[k'|]|] eqn:E; cbn in Hm; [| |discriminate].
    + injection Hm as Hm. apply Nat2Z.inj in Hm. do 2 f_equal. eapply word_off_inj; [| |exact Hm].
      * exact (S3 _ _ E).
      * exact (Forall_lookup_1 _ _ _ _ Hl Hk).
    + injection Hm as Hm. unfold UNINIT_LABEL_IDX in Hm. lia.
Qed.

(** ** Calls that fit

  Sizes are bounded by what the calls ask for, whatever the state. *)
Definition op_words (op : CALL) : nat := match op with CALL_Add_inst i => length (inst_words i) | _ => 0%nat end.
Definition op_bytes (op : CALL) : nat :=
  match op with CALL_Add_inst _ => 0%nat | CALL_Request_label n | CALL_Add_label n => length (cstr n) end.
Definition op_ok (op : CALL) : bool := match op with CALL_Add_inst i => inst_ok i | _ => true end.
Definition calls_fit (ops : list CALL) : bool :=
  forallb op_ok ops && (Z.of_nat (sum_list_with op_words ops) <? 2 ^ 31)
  && (Z.of_nat (sum_list_with op_bytes ops) <? 2 ^ 32) && (Z.of_nat (length ops) + 1 <? 2 ^ 32).

Lemma Add_sizes buf t i t' : Add buf t = Ok (i, t') ->
  length (_raw_buf t') = (length (_raw_buf t) + length buf)%nat /\ length (_entry_vec t') = S (length (_entry_vec t)).
Proof. unfold Add. intros [= _ <-]. cbn [_raw_buf _entry_vec]. rewrite !length_app. cbn. lia. Qed.

Definition grows (op : CALL) (c c' : t) : Prop :=
  (length (_inst_tab c') <= length (_inst_tab c) + op_words op)%nat /\
  (length (_raw_buf (_lab_name_tab c')) <= length (_raw_buf (_lab_name_tab c)) + op_bytes op)%nat /\
  (length (_entry_vec (_lab_name_tab c')) <= length (_entry_vec (_lab_name_tab c)) + 1)%nat.

Lemma Request_label_grows name c i c' : Request_label name c = Ok (i, c') ->
  grows (CALL_Request_label name) c c'.
Proof.
  unfold Request_label, grows, op_bytes, op_words. destruct (Contains _ _).
  - intros [= _ <-]. lia.
  - destruct (Add _ _) as [[j t']|] eqn:E; [|discriminate]. apply Add_sizes in E as [E1 E2].
    cbn [_entry_vec _lab_tab]. destruct (Is_True _); [|discriminate]. intros [= _ <-].
    cbn [_inst_tab _lab_name_tab]. lia.
Qed.

Lemma on_body_grows op c r c' : on_body op c = Ok (r, c') -> grows op c c'.
Proof.
  destruct op as [i|name|name]; cbn [on_body].
  - intros [= _ <-]. unfold grows. cbn [_inst_tab _lab_name_tab op_words op_bytes]. rewrite length_app. lia.
  - intros H. exact (Request_label_grows _ _ _ _ H).
  - intros (i & c1 & H1%Request_label_grows & H2)%bind_Ok. apply bind_Ok in H2 as (u & c2 & H2 & [= _ <-]).
    unfold Set_label in H2. destruct (_ ← Is_True _; _); [|discriminate]. injection H2 as _ <-.
    unfold grows in *. cbn [_inst_tab _lab_name_tab op_words op_bytes] in *. lia.
Qed.

Lemma calls_fit_ok ops : forall c, forallb op_ok ops = true ->
  Z.of_nat (length (_inst_tab c) + sum_list_with op_words ops) < 2 ^ 31 ->
  Z.of_nat (length (_raw_buf (_lab_name_tab c)) + sum_list_with op_bytes ops) < 2 ^ 32 ->
  Z.of_nat (length (_entry_vec (_lab_name_tab c)) + length ops) + 1 < 2 ^ 32 -> calls_ok ops c.
Proof.
  induction ops as [|op ops IH]; intros c Hop H1 H2 H3; [exact I|]. cbn [forallb] in Hop.
  apply andb_true_iff in Hop as [Hop Hops]. cbn [sum_list_with length] in *. split.
  - destruct op; cbn [call_ok op_ok op_bytes op_words] in *; [exact Hop | |]; unfold has_room; lia.
  - intros r c' (G1 & G2 & G3)%on_body_grows. apply IH; [exact Hops | lia..].
Qed.

Lemma stands_for_create l io sz : stands_for ([], ∅) (create l io sz).
Proof.
  split; [reflexivity| |apply map_Forall_empty]. cbn [fst snd]. rewrite fmap_empty. apply label_map_create.
Qed.

(** ** From the calls to the entry *)
Definition labels_set (m : meaning) : Prop := map_Forall (fun _ k => is_Some k) m.2.

Lemma labels_set_tab m c : stands_for m c -> labels_set m -> Forall (fun o => o <> UNINIT_LABEL_IDX) (_lab_tab c).
Proof.
  intros [S1 [W D L Q HS] S3] Hset. apply Forall_lookup_2. intros i o Ho.
  pose proof (lookup_lt_Some _ _ _ Ho) as Hlt. rewrite <- L in Hlt. destruct (lookup_lt_is_Some_2 _ _ Hlt) as [e He].
  assert (string_at (_lab_name_tab c) (Z.of_nat i) = Some (slice_of (_raw_buf (_lab_name_tab c)) e)) as Hs
    by (apply string_at_lookup; eauto).
  destruct (HS _ _ Hs) as [name Hn]. rewrite Hn in Hs.
  assert ((offset_of m.1 <$> m.2) !! name = Some o) as Hm by (apply Q; eauto).
  rewrite lookup_fmap in Hm. destruct (m.2 !! name) as [k|] eqn:E; [|discriminate].
  destruct (Hset _ _ E) as [j ->]. injection Hm as <-. unfold UNINIT_LABEL_IDX. lia.
Qed.

Lemma check_labels_Ok labs : Forall (fun o => o <> UNINIT_LABEL_IDX) labs -> check_labels labs = Ok tt.
Proof.
  induction 1 as [|o labs Ho _ IH]; [reflexivity|]. cbn [check_labels]. apply Z.eqb_neq in Ho. rewrite Ho.
  cbn [negb]. rewrite Is_True_true. exact IH.
Qed.

Lemma create_range l io sz : in_u 320 (_ubh_code (create l io sz)).
Proof.
  destruct l as [[[l0 l1] l2] l3], io as [[[i0 i1] i2] i3]. cbn [create _ubh_code].
  unfold UBH_CODE.UBH_CODE, UBH_CODE.Update_ubh_code.
  repeat (apply fset_range; [reflexivity | discriminate|]). split; reflexivity || discriminate.
Qed.

(** The entry of the finished body is the one of the instructions and labels. *)
Lemma entry_of_written m c off : stands_for m c -> labels_set m -> in_u 320 (_ubh_code c) ->
  Z.of_nat (length (_inst_tab c)) < 2 ^ 20 -> Z.of_nat (length (_lab_tab c)) < 2 ^ 12 -> 0 <= off < 2 ^ 32 ->
  exists c' labs, Finish off c = Ok c' /\ entry_of (mkBODY m.1 labs) (entry_of_body c') /\
    labels_ok m labs c' /\ Forall (fun k => (k <= length m.1)%nat) labs.
Proof.
  intros Hm Hset Hr Hi Hl Ho. pose proof (labels_set_tab m c Hm Hset) as Htab.
  destruct (labels_positions m c Hm Htab) as (labs & El & Hk & Hlabs).
  assert (exists c', Finish off c = Ok c') as [c' Hf]
    by (unfold Finish; rewrite check_labels_Ok by exact Htab; eexists; reflexivity).
  assert (body_fits c = true) as Hfit
    by (unfold body_fits; rewrite !andb_true_iff, bool_decide_eq_true, !Z.ltb_lt; auto).
  destruct (Finish_body off c c' Hfit Ho Hf) as [(T1 & T2 & T3) _ F1 F2 _ _].
  exists c', labs. split; [exact Hf|]. split; [|split; [|exact Hk]].
  - unfold entry_of, entry_of_body. cbn [ce_insts ce_labels ce_code b_insts b_labs].
    rewrite T1, T2, F1, F2, (sf_insts _ _ Hm). split; [reflexivity|]. split; [|split; [reflexivity|]].
    + rewrite El, map_map. apply map_ext_in. intros k Hin. apply UINT32_id.
      apply list_elem_of_In in Hin. rewrite Forall_forall in Hk. specialize (Hk k Hin).
      assert (word_off m.1 k <= length (_inst_tab c))%nat; [|lia].
      rewrite (sf_insts _ _ Hm). unfold word_off. rewrite <- (firstn_skipn k m.1) at 2.
      rewrite code_of_app, length_app. lia.
    + rewrite El. now rewrite length_map.
  - unfold labels_ok in *. now rewrite T3.
Qed.

Definition op_labels (op : CALL) : nat := match op with CALL_Add_inst _ => 0%nat | _ => 1%nat end.

Lemma on_body_labels op c r c' : on_body op c = Ok (r, c') ->
  (length (_lab_tab c') <= length (_lab_tab c) + op_labels op)%nat.
Proof.
  assert (forall n i c c', Request_label n c = Ok (i, c') -> (length (_lab_tab c') <= length (_lab_tab c) + 1)%nat) as Hreq.
  { clear. intros n i c c'. unfold Request_label. destruct (Contains _ _); [intros [= _ <-]; lia|].
    destruct (Add _ _) as [[j t']|]; [|discriminate]. destruct (Is_True _); [|discriminate]. intros [= _ <-].
    cbn [_lab_tab]. rewrite length_app. cbn. lia. }
  destruct op as [i|name|name]; cbn [on_body].
  - intros [= _ <-]. cbn [_lab_tab op_labels]. lia.
  - apply Hreq.
  - intros (i & c1 & H1%Hreq & H2)%bind_Ok. apply bind_Ok in H2 as (u & c2 & H2 & [= _ <-]).
    unfold Set_label in H2. destruct (_ ← Is_True _; _); [|discriminate]. injection H2 as _ <-.
    cbn [_lab_tab op_labels]. rewrite length_insert. exact H1.
Qed.

(** All calls, with the sizes reached. *)
Lemma perform_all_sizes ops : forall e v c m, U_ENCODER._u_inst_encoder e = v ++ [c] -> stands_for m c -> calls_ok ops c ->
  exists e' c', perform_all ops e = Ok (tt, e') /\ U_ENCODER._u_inst_encoder e' = v ++ [c'] /\
  stands_for (fold_left (fun m op => call_meaning op m) ops m) c' /\ _ubh_code c' = _ubh_code c /\
  (length (_inst_tab c') <= length (_inst_tab c) + sum_list_with op_words ops)%nat /\
  (length (_lab_tab c') <= length (_lab_tab c) + sum_list_with op_labels ops)%nat.
Proof.
  induction ops as [|op ops IH]; intros e v c m He Hm Hok; [exists e, c; cbn; auto with lia|].
  destruct Hok as [Hop Hok]. destruct (on_body_run op c m Hm Hop) as (r & c1 & Hb & Hm1 & Hu).
  destruct (perform_run op e v c r c1 He Hop Hb) as (e1 & Hp & He1).
  destruct (IH e1 v c1 _ He1 Hm1 (Hok _ _ Hb)) as (e' & c' & Ha & He' & Hm' & Hu' & Hi & Hl).
  destruct (on_body_grows _ _ _ _ Hb) as (G1 & _ & _). pose proof (on_body_labels _ _ _ _ Hb).
  exists e', c'. cbn [sum_list_with].
  split; [|split; [exact He' | split; [exact Hm' | split; [congruence | split; lia]]]].
  cbn [perform_all]. unfold mbind, M_bind. now rewrite Hp.
Qed.
End Writing.
