(* ===== verification/Leb128.v ===== *)
(** * LEB128 numbers

  [src/wasm/u_leb128.h] (the encoders to a buffer and the decoders), and the readers of
  [src/wasm/reader.cxx] on which the instruction reader and the converter rely.  A
  [CONST_BUFFER] is the list of the bytes from the pointer on. *)

From S2P Require Import Prelude CInt.
From Stdlib Require Import ZArith Lia.
Local Open Scope Z_scope.

(** ** The encoders

  The result is the bytes written; the C++ function answers their number.  A 64-bit
  value takes at most ten iterations. *)
Fixpoint sleb_loop (fuel : nat) (Value Count PadTo : Z) : outcome (list Z * Z * Z) :=
  match fuel with
  | O => Err FuelOut
  | S fuel =>
      let Byte := Z.land Value 0x7f in
      let Value := Z.shiftr Value 7 in
      let More := negb (((Value =? 0) && (Z.land Byte 0x40 =? 0)) || ((Value =? -1) && negb (Z.land Byte 0x40 =? 0))) in
      let Count := Count + 1 in
      let Byte := if More || (Count <? PadTo) then Z.lor Byte 0x80 else Byte in
      if More then '(bs, Value, Count) ← sleb_loop fuel Value Count PadTo; mret (Byte :: bs, Value, Count)
      else mret ([Byte], Value, Count)
  end.

Definition encodeSLEB128 (Value PadTo : Z) : outcome (list Z) :=
  '(bs, Value, Count) ← sleb_loop 10 (INT64 Value) 0 PadTo;
  mret (if Count <? PadTo then
          let PadValue := if Value <? 0 then 0x7f else 0 in
          bs ++ repeat (Z.lor PadValue 0x80) (Z.to_nat (PadTo - 1 - Count)) ++ [PadValue]
        else bs).

Fixpoint uleb_loop (fuel : nat) (Value Count PadTo : Z) : outcome (list Z * Z) :=
  match fuel with
  | O => Err FuelOut
  | S fuel =>
      let Byte := Z.land Value 0x7f in
      let Value := Z.shiftr Value 7 in
      let Count := Count + 1 in
      let Byte := if negb (Value =? 0) || (Count <? PadTo) then Z.lor Byte 0x80 else Byte in
      if negb (Value =? 0) then '(bs, Count) ← uleb_loop fuel Value Count PadTo; mret (Byte :: bs, Count)
      else mret ([Byte], Count)
  end.

Definition encodeULEB128 (Value PadTo : Z) : outcome (list Z) :=
  '(bs, Count) ← uleb_loop 10 (UINT64 Value) 0 PadTo;
  mret (if Count <? PadTo then bs ++ repeat 0x80 (Z.to_nat (PadTo - 1 - Count)) ++ [0] else bs).

(** ** The decoders

  [end_] is the number of bytes up to [end], or nothing for a null [end], which the
  pointer never reaches.  The result: the value, [*n], and [*error]. *)
Inductive LEB_ERROR : Set := EXTENDS_PAST_END | TOO_BIG.
Definition DECODED : Type := Z * Z * option LEB_ERROR.

Definition at_end (end_ : option nat) : bool := match end_ with Some O => true | _ => false end.

Fixpoint uleb_decode (p : list Z) (end_ : option nat) (Value Shift n : Z) : outcome DECODED :=
  if at_end end_ then Ok (0, n, Some EXTENDS_PAST_END) else
  match p with
  | [] => Err MemFault
  | byte :: p =>
      let Slice := Z.land byte 0x7f in
      if (64 <=? Shift) && negb (Slice =? 0) then Ok (0, n, Some TOO_BIG) else
      s ← ushl 64 Slice Shift;
      s' ← ushr 64 s Shift;
      if negb (s' =? Slice) then Ok (0, n, Some TOO_BIG) else
      let Value := UINT64 (Value + s) in
      let Shift := UINT32 (Shift + 7) in
      if 128 <=? byte then uleb_decode p (pred <$> end_) Value Shift (n + 1)
      else Ok (Value, n + 1, None)
  end.
Definition decodeULEB128 (p : list Z) (end_ : option nat) : outcome DECODED := uleb_decode p end_ 0 0 0.

Fixpoint sleb_decode (p : list Z) (end_ : option nat) (Value Shift n : Z) : outcome DECODED :=
  if at_end end_ then Ok (0, n, Some EXTENDS_PAST_END) else
  match p with
  | [] => Err MemFault
  | Byte :: p =>
      let Slice := Z.land Byte 0x7f in
      if ((64 <=? Shift) && negb (Slice =? (if Value <? 0 then 0x7f else 0)))
         || ((Shift =? 63) && negb (Slice =? 0) && negb (Slice =? 0x7f))
      then Ok (0, n, Some TOO_BIG) else
      s ← ushl 64 Slice Shift;
      let Value := INT64 (Z.lor (UINT64 Value) s) in
      let Shift := UINT32 (Shift + 7) in
      if 128 <=? Byte then sleb_decode p (pred <$> end_) Value Shift (n + 1)
      else
        Value ← (if (Shift <? 64) && negb (Z.land Byte 0x40 =? 0)
                 then s ← ushl 64 (UINT64 (-1)) Shift; mret (INT64 (Z.lor (UINT64 Value) s))
                 else mret Value);
        Ok (Value, n + 1, None)
  end.
Definition decodeSLEB128 (p : list Z) (end_ : option nat) : outcome DECODED := sleb_decode p end_ 0 0 0.

(** ** The readers of [reader.cxx] *)
Definition Read_signed_leb128 (pc : list Z) : outcome Z :=
  '(v, _, _) ← decodeSLEB128 pc None; mret v.

(** [current] is a [UINT32]: so is what is added to the 64-bit result. *)
Fixpoint read_leb128_loop (pc : list Z) (result offset : Z) : outcome Z :=
  match pc with
  | [] => Err MemFault
  | current :: pc =>
      s ← ushl 32 (Z.land current 0x7f) offset;
      let result := UINT64 (result + s) in
      if negb (Z.shiftr current 7 =? 0) then read_leb128_loop pc result (UINT32 (offset + 7))
      else Ok result
  end.
Definition Read_leb128 (pc : list Z) : outcome Z := read_leb128_loop pc 0 0.

Fixpoint read_size_loop (pc : list Z) (result : Z) : outcome Z :=
  match pc with
  | [] => Err MemFault
  | current :: pc =>
      if negb (Z.land (Z.shiftr current 7) 0x01 =? 0) then read_size_loop pc (UINT8 (result + 1)) else Ok result
  end.
Definition Read_opr_size_leb128 (pc : list Z) : outcome Z := read_size_loop pc 1.

(** ** The bytes of a number

  [leb_bytes L v]: the [L] bytes of the low [7 * L] bits of [v]. *)
Fixpoint leb_bytes (L : nat) (v : Z) : list Z :=
  match L with
  | O => []
  | S O => [v mod 128]
  | S L => (v mod 128 + 128) :: leb_bytes L (v / 128)
  end.

Section Bytes.
Lemma land_7f v : Z.land v 0x7f = v mod 128.
Proof. apply (Z.land_ones v 7). lia. Qed.
Lemma shiftr_7 v : Z.shiftr v 7 = v / 128.
Proof. now rewrite Z.shiftr_div_pow2. Qed.
Lemma lor_80 b : 0 <= b < 128 -> Z.lor b 0x80 = b + 128.
Proof. intros H. rewrite <- Z.add_lor_land, (Z.land_comm b). change 0x80 with (1 * 2 ^ 7).
  rewrite Z.land_comm. assert (Z.land b (1 * 2 ^ 7) = 0) as ->; [|lia].
  apply Z.bits_inj'. intros n Hn. rewrite Z.land_spec, Z.mul_pow2_bits by lia. rewrite Z.bits_0.
  destruct (Z.ltb_spec n 7); [rewrite (Z.testbit_neg_r 1) by lia; apply andb_false_r|].
  rewrite <- (Z.mod_small b (2 ^ 7)) by (change (2 ^ 7) with 128; lia).
  now rewrite Z.mod_pow2_bits_high by lia.
Qed.
Lemma length_leb_bytes L v : length (leb_bytes L v) = L.
Proof. revert v. induction L as [|[|L] IH]; intros v; [reflexivity..|]. change (S (length (leb_bytes (S L) (v / 128))) = S (S L)). now rewrite IH. Qed.
Lemma leb_bytes_range L v : Forall (in_u 8) (leb_bytes L v).
Proof.
  revert v. induction L as [|[|L] IH]; intros v; [constructor|..]; pose proof (Z.mod_pos_bound v 128).
  - repeat constructor; lia.
  - constructor; [unfold in_u; change (2 ^ 8) with 256; lia | apply IH].
Qed.
Lemma leb_bytes_S L v : leb_bytes (S (S L)) v = (v mod 128 + 128) :: leb_bytes (S L) (v / 128).
Proof. reflexivity. Qed.
Lemma leb_bytes_pos n v : (0 < n)%nat -> leb_bytes (S n) v = (v mod 128 + 128) :: leb_bytes n (v / 128).
Proof. destruct n; [lia | reflexivity]. Qed.

(** The low bytes, each followed by another. *)
Fixpoint leb_cont (L : nat) (v : Z) : list Z :=
  match L with O => [] | S L => (v mod 128 + 128) :: leb_cont L (v / 128) end.
Lemma leb_bytes_app L k v : (0 < k)%nat -> leb_bytes (L + k) v = leb_cont L v ++ leb_bytes k (v / 128 ^ Z.of_nat L).
Proof.
  intros Hk. revert v. induction L as [|L IH]; intros v; [cbn; now rewrite Z.div_1_r|].
  cbn [Nat.add leb_cont app]. rewrite leb_bytes_pos, IH by lia. rewrite Nat2Z.inj_succ, Z.pow_succ_r, Z.div_div by lia. reflexivity.
Qed.
Lemma leb_bytes_const n v : v = 0 \/ v = -1 -> leb_bytes (S n) v = repeat (v mod 128 + 128) n ++ [v mod 128].
Proof.
  intros H. assert (v / 128 = v) as E by (now destruct H as [-> | ->]).
  induction n as [|n IH]; [reflexivity|]. rewrite leb_bytes_S, E, IH. reflexivity.
Qed.
Lemma pow7_S n : 2 ^ (7 * Z.of_nat (S n)) = 128 * 2 ^ (7 * Z.of_nat n).
Proof. replace (7 * Z.of_nat (S n)) with (7 + 7 * Z.of_nat n) by lia. now rewrite Z.pow_add_r by lia. Qed.
Lemma pow7_S' n : 2 ^ (7 * Z.of_nat (S n) - 1) = 64 * 2 ^ (7 * Z.of_nat n).
Proof. replace (7 * Z.of_nat (S n) - 1) with (6 + 7 * Z.of_nat n) by lia. now rewrite Z.pow_add_r by lia. Qed.
Lemma pow7_pos n : 0 < 2 ^ (7 * Z.of_nat n).
Proof. apply Z.pow_pos_nonneg; lia. Qed.
End Bytes.

(** ** What the encoders write *)
Section Encoders.
Lemma byte_flag v (b : bool) : (if b then Z.lor (Z.land v 0x7f) 0x80 else Z.land v 0x7f) = v mod 128 + (if b then 128 else 0).
Proof. rewrite land_7f. pose proof (Z.mod_pos_bound v 128). destruct b; [rewrite lor_80|]; lia. Qed.

Lemma uleb_loop_run fuel v Count PadTo : (0 < fuel)%nat -> 0 <= v < 2 ^ (7 * Z.of_nat fuel) -> exists L,
  (0 < L <= fuel)%nat /\ 0 <= v < 2 ^ (7 * Z.of_nat L) /\
  uleb_loop fuel v Count PadTo =
    Ok (if Count + Z.of_nat L <? PadTo then leb_cont L v else leb_bytes L v, Count + Z.of_nat L).
Proof.
  revert v Count. induction fuel as [|fuel IH]; intros v Count Hf Hv; [lia|]. cbn [uleb_loop].
  rewrite byte_flag, shiftr_7. pose proof (Z.div_mod v 128). pose proof (Z.mod_pos_bound v 128).
  rewrite pow7_S in Hv. pose proof (pow7_pos fuel). destruct (Z.eqb_spec (v / 128) 0) as [E|E]; cbn [negb orb].
  - exists 1%nat. split; [lia|]. split; [change (2 ^ (7 * Z.of_nat 1)) with 128; lia|].
    change (Z.of_nat 1) with 1. cbn [leb_cont leb_bytes]. destruct (_ <? _); unfold mret, outcome_ret; do 3 f_equal. lia.
  - assert (0 <= v / 128) by (apply Z.div_pos; lia).
    destruct (IH (v / 128) (Count + 1)) as (L & HL & Hb & Hr).
    { destruct fuel; [cbn in *; lia | lia]. }
    { split; [lia|]. apply Z.div_lt_upper_bound; lia. }
    exists (S L). split; [lia|]. split; [rewrite pow7_S; lia|]. rewrite Hr. cbn [mbind outcome_bind].
    replace (Count + Z.of_nat (S L)) with (Count + 1 + Z.of_nat L) by lia.
    rewrite leb_bytes_pos by lia. now destruct (_ <? PadTo).
Qed.

Lemma encodeULEB128_run v PadTo : in_u 64 v -> exists L, (0 < L)%nat /\ Z.of_nat L <= Z.max 10 PadTo /\
  PadTo <= Z.of_nat L /\ 0 <= v < 2 ^ (7 * Z.of_nat L) /\ encodeULEB128 v PadTo = Ok (leb_bytes L v).
Proof.
  intros Hv. unfold encodeULEB128, UINT64. rewrite wrapu_id by exact Hv. unfold in_u in Hv.
  destruct (uleb_loop_run 10 v 0 PadTo) as (L & HL & Hb & ->).
  - lia.
  - change (2 ^ (7 * Z.of_nat 10)) with (64 * 2 ^ 64). lia.
  - cbn [mbind outcome_bind]. rewrite Z.add_0_l. destruct (Z.ltb_spec (Z.of_nat L) PadTo) as [Hp|Hp].
    + exists (L + S (Z.to_nat (PadTo - 1 - Z.of_nat L)))%nat. split; [lia|]. split; [lia|]. split; [lia|]. split.
      * split; [lia|]. pose proof (Z.pow_le_mono_r 2 (7 * Z.of_nat L)
          (7 * Z.of_nat (L + S (Z.to_nat (PadTo - 1 - Z.of_nat L))))). lia.
      * rewrite leb_bytes_app, leb_bytes_const by (try lia; left; apply Z.div_small;
          change 128 with (2 ^ 7); rewrite <- Z.pow_mul_r by lia; lia).
        replace (v / 128 ^ Z.of_nat L) with 0; [reflexivity|].
        symmetry. apply Z.div_small. change 128 with (2 ^ 7). rewrite <- Z.pow_mul_r by lia. lia.
    + exists L. auto with lia.
Qed.

(** A fact of all values of seven bits. *)
Lemma seven_bits (P : Z -> bool) : forallb P (map Z.of_nat (seq 0 128)) = true -> forall b, 0 <= b < 128 -> P b = true.
Proof.
  rewrite forallb_forall. intros H b Hb. apply H. apply in_map_iff. exists (Z.to_nat b). split; [lia|].
  apply in_seq. lia.
Qed.
(** The sign bit of a byte of [v]. *)
Lemma land_40 v : (Z.land (Z.land v 0x7f) 0x40 =? 0) = (v mod 128 <? 64).
Proof.
  rewrite land_7f. apply eqb_prop, (seven_bits (fun b => eqb (Z.land b 64 =? 0) (b <? 64))); [reflexivity|].
  apply Z.mod_pos_bound. lia.
Qed.

Lemma sleb_loop_run fuel v Count PadTo : (0 < fuel)%nat -> in_s (7 * Z.of_nat fuel) v -> exists L Value,
  (0 < L <= fuel)%nat /\ in_s (7 * Z.of_nat L) v /\ Value = v / 128 ^ Z.of_nat L /\ (Value = 0 \/ Value = -1) /\
  sleb_loop fuel v Count PadTo =
    Ok (if Count + Z.of_nat L <? PadTo then leb_cont L v else leb_bytes L v, Value, Count + Z.of_nat L).
Proof.
  unfold in_s. revert v Count. induction fuel as [|fuel IH]; intros v Count Hf Hv; [lia|]. cbn [sleb_loop].
  rewrite byte_flag, shiftr_7, land_40. pose proof (Z.div_mod v 128). pose proof (Z.mod_pos_bound v 128).
  rewrite pow7_S' in Hv. pose proof (pow7_pos fuel).
  destruct (negb (((v / 128 =? 0) && (v mod 128 <? 64)) || ((v / 128 =? -1) && negb (v mod 128 <? 64)))) eqn:E; cbn [orb].
  - assert (~ (-64 <= v < 64)) as Hn.
    { intros Hn. apply negb_true_iff, orb_false_iff in E as [E1 E2]. apply andb_false_iff in E1, E2.
      rewrite negb_false_iff in E2. rewrite Z.eqb_neq, Z.ltb_ge in *. rewrite Z.ltb_lt in E2. lia. }
    assert (0 < fuel)%nat as Hf' by (destruct fuel; [cbn in *; lia | lia]).
    destruct fuel as [|fuel']; [lia|]. rewrite pow7_S' in IH. rewrite pow7_S in Hv.
    destruct (IH (v / 128) (Count + 1)) as (L & Value & HL & Hb & HV & H01 & Hr); [lia|lia|].
    exists (S L), Value. split; [lia|]. split; [|split; [|split; [exact H01|]]].
    + rewrite pow7_S'. destruct L as [|L]; [lia|]. rewrite pow7_S' in Hb. rewrite pow7_S. lia.
    + rewrite HV, Nat2Z.inj_succ, Z.pow_succ_r, Z.div_div by lia. reflexivity.
    + rewrite Hr. cbn [mbind outcome_bind].
      replace (Count + Z.of_nat (S L)) with (Count + 1 + Z.of_nat L) by lia.
      rewrite leb_bytes_pos by lia. now destruct (_ <? PadTo).
  - assert (-64 <= v < 64 /\ (v / 128 = 0 \/ v / 128 = -1)) as [Hn Hd].
    { apply negb_false_iff, orb_true_iff in E. rewrite !andb_true_iff, negb_true_iff, !Z.eqb_eq, Z.ltb_lt, Z.ltb_ge in E. lia. }
    exists 1%nat, (v / 128). split; [lia|]. split; [change (2 ^ (7 * Z.of_nat 1 - 1)) with 64; lia|].
    split; [reflexivity|]. split; [exact Hd|]. change (Z.of_nat 1) with 1. cbn [leb_cont leb_bytes].
    destruct (_ <? PadTo); [reflexivity | now rewrite Z.add_0_r].
Qed.

Lemma in_s_mono_nat L k v : (0 < L)%nat -> in_s (7 * Z.of_nat L) v -> in_s (7 * Z.of_nat (L + k)) v.
Proof. intros HL. apply in_s_mono. lia. Qed.

Lemma encodeSLEB128_run v PadTo : in_s 64 v -> exists L, (0 < L)%nat /\ Z.of_nat L <= Z.max 10 PadTo /\
  PadTo <= Z.of_nat L /\ in_s (7 * Z.of_nat L) v /\ encodeSLEB128 v PadTo = Ok (leb_bytes L v).
Proof.
  intros Hv. unfold encodeSLEB128, INT64. rewrite wraps_id by (exact Hv || lia).
  destruct (sleb_loop_run 10 v 0 PadTo) as (L & Value & HL & Hb & HV & H01 & ->).
  - lia.
  - revert Hv. apply in_s_mono. lia.
  - cbn [mbind outcome_bind]. rewrite Z.add_0_l. destruct (Z.ltb_spec (Z.of_nat L) PadTo) as [Hp|Hp].
    + exists (L + S (Z.to_nat (PadTo - 1 - Z.of_nat L)))%nat. split; [lia|]. split; [lia|]. split; [lia|].
      split; [apply in_s_mono_nat; [lia | exact Hb]|].
      rewrite leb_bytes_app, <- HV, leb_bytes_const by (lia || exact H01). now destruct H01 as [-> | ->].
    + exists L. auto with lia.
Qed.
End Encoders.

(** ** What the decoders read *)
Section Decoders.
Lemma decoded_eq (a b m n : Z) (e : option LEB_ERROR) : a = b -> m = n -> Ok (a, m, e) = Ok (b, n, e).
Proof. now intros -> ->. Qed.
Lemma ushl_ok w x k : 0 <= k < w -> 0 <= x -> x * 2 ^ k < 2 ^ w -> ushl w x k = Ok (x * 2 ^ k).
Proof.
  intros Hk Hx Hr. unfold ushl, shift_ok. rewrite (proj2 (Z.leb_le _ _)), (proj2 (Z.ltb_lt k w)) by lia. cbn [andb].
  rewrite Z.shiftl_mul_pow2, wrapu_id by (unfold in_u; try split; nia). reflexivity.
Qed.
Lemma ushr_ok w x k : 0 <= k < w -> ushr w (x * 2 ^ k) k = Ok x.
Proof.
  intros Hk. unfold ushr, shift_ok. rewrite (proj2 (Z.leb_le _ _)), (proj2 (Z.ltb_lt k w)) by lia. cbn [andb].
  rewrite Z.shiftr_div_pow2, Z.div_mul by lia. reflexivity.
Qed.

(** The head of the bytes of [v]: its slice, and whether more follow. *)
Lemma leb_bytes_cases L v : (0 < L)%nat ->
  (L = 1%nat /\ leb_bytes L v = [v mod 128]) \/
  exists L', L = S L' /\ (0 < L')%nat /\ leb_bytes L v = (v mod 128 + 128) :: leb_bytes L' (v / 128).
Proof. intros HL. destruct L as [|[|L]]; [lia | now left | right]. exists (S L). auto with lia. Qed.
Lemma slice_last v : Z.land (v mod 128) 0x7f = v mod 128 /\ (128 <=? v mod 128) = false.
Proof. rewrite land_7f, Z.mod_mod by lia. split; [reflexivity|]. apply Z.leb_gt, Z.mod_pos_bound. lia. Qed.
Lemma slice_more v : Z.land (v mod 128 + 128) 0x7f = v mod 128 /\ (128 <=? v mod 128 + 128) = true.
Proof.
  rewrite land_7f. pose proof (Z.mod_pos_bound v 128 ltac:(lia)). split; [|apply Z.leb_le; lia].
  rewrite <- (Z.mul_1_l 128) at 2. rewrite Z_mod_plus_full. apply Z.mod_small. lia.
Qed.
Lemma shiftr_more v : (v mod 128 + 128) / 128 = 1.
Proof. pose proof (Z.mod_pos_bound v 128 ltac:(lia)). symmetry. apply (Z.div_unique _ _ _ (v mod 128)); lia. Qed.
Lemma pow7_next k : 2 ^ (7 * (k + 1)) = 128 * 2 ^ (7 * k) \/ k < 0.
Proof. destruct (Z.ltb_spec k 0); [now right | left]. replace (7 * (k + 1)) with (7 + 7 * k) by lia. now rewrite Z.pow_add_r by lia. Qed.

Lemma uleb_decode_run L v rest k Value n : (0 < L)%nat -> 0 <= v < 2 ^ (7 * Z.of_nat L) -> 0 <= k -> k + Z.of_nat L <= 10 ->
  0 <= Value -> Value + v * 2 ^ (7 * k) < 2 ^ 64 ->
  uleb_decode (leb_bytes L v ++ rest) None Value (7 * k) n = Ok (Value + v * 2 ^ (7 * k), n + Z.of_nat L, None).
Proof.
  revert v k Value n. induction L as [|L IH]; intros v k Value n HL Hv Hk HkL HV Hr; [lia|].
  pose proof (Z.div_mod v 128). pose proof (Z.mod_pos_bound v 128). assert (0 <= v / 128) by (apply Z.div_pos; lia).
  pose proof (pow2_pos (7 * k)) as Hp. destruct (pow7_next k) as [Hp1|]; [|lia].
  assert (0 <= v mod 128 * 2 ^ (7 * k) <= v * 2 ^ (7 * k)) as Hs64 by (split; [nia | apply Z.mul_le_mono_nonneg_r; lia]).
  assert (forall byte p, Z.land byte 0x7f = v mod 128 -> uleb_decode (byte :: p) None Value (7 * k) n =
    if 128 <=? byte then uleb_decode p None (Value + v mod 128 * 2 ^ (7 * k)) (7 * (k + 1)) (n + 1)
    else Ok (Value + v mod 128 * 2 ^ (7 * k), n + 1, None)) as Hstep.
  { intros byte p Hb. cbn [uleb_decode at_end]. rewrite Hb. rewrite (proj2 (Z.leb_gt 64 _)) by lia. cbn [andb].
    rewrite ushl_ok by lia. cbn [mbind outcome_bind]. rewrite ushr_ok by lia. cbn [mbind outcome_bind]. rewrite Z.eqb_refl. cbn [negb].
    unfold UINT64, UINT32. rewrite !wrapu_id by (unfold in_u; lia).
    replace (7 * k + 7) with (7 * (k + 1)) by lia. reflexivity. }
  destruct (leb_bytes_cases (S L) v HL) as [[E ->] | (L' & [= ->] & HL' & ->)].
  - cbn [app]. destruct (slice_last v) as [Hs Hm]. rewrite Hstep, Hm by exact Hs. injection E as ->.
    change (2 ^ (7 * Z.of_nat 1)) with 128 in Hv. now rewrite Z.mod_small by lia.
  - cbn [app]. destruct (slice_more v) as [Hs Hm]. rewrite Hstep, Hm by exact Hs. rewrite pow7_S in Hv.
    rewrite IH by (try lia; try nia; rewrite Hp1; nia). rewrite Hp1. apply decoded_eq; [nia | lia].
Qed.

Lemma sleb_decode_step byte p k Value n s : Z.land byte 0x7f = s -> 0 <= s -> 0 <= k <= 8 -> 0 <= Value -> Value < 2 ^ (7 * k) ->
  s < 128 -> sleb_decode (byte :: p) None Value (7 * k) n =
    if 128 <=? byte then sleb_decode p None (Value + s * 2 ^ (7 * k)) (7 * (k + 1)) (n + 1)
    else Ok (Value + (if 64 <=? s then s - 128 else s) * 2 ^ (7 * k), n + 1, None).
Proof.
  intros Hb H0 Hk HV HV1 Hs. pose proof (pow2_pos (7 * k) ltac:(lia)) as Hp. destruct (pow7_next k) as [Hp1|]; [|lia].
  pose proof (Z.pow_le_mono_r 2 (7 * (k + 1)) 63 ltac:(lia) ltac:(lia)) as Hle. change (2 ^ 63) with 9223372036854775808 in Hle.
  assert (forall x y j, 0 <= j -> 0 <= x < 2 ^ j -> Z.lor x (y * 2 ^ j) = x + y * 2 ^ j) as Hlor.
  { intros x y j Hj Hx. rewrite <- Z.add_lor_land. rewrite <- Z.shiftl_mul_pow2 by lia.
    assert (Z.land x (Z.shiftl y j) = 0) as ->; [|lia]. apply Z.bits_inj'. intros i Hi. rewrite Z.land_spec, Z.bits_0.
    destruct (Z.ltb_spec i j); [rewrite (Z.shiftl_spec_low) by lia; apply andb_false_r|].
    rewrite <- (Z.mod_small x (2 ^ j)) by lia. now rewrite Z.mod_pow2_bits_high by lia. }
  cbn [sleb_decode at_end]. rewrite Hb. rewrite (proj2 (Z.leb_gt 64 _)), (proj2 (Z.eqb_neq _ 63)) by lia. cbn [andb orb].
  assert (0 <= s * 2 ^ (7 * k) <= 127 * 2 ^ (7 * k)) as HT by (split; [nia | apply Z.mul_le_mono_nonneg_r; lia]).
  rewrite (ushl_ok 64 s (7 * k)) by (change (2 ^ 64) with 18446744073709551616; lia). cbn [mbind outcome_bind].
  assert (INT64 (Z.lor (UINT64 Value) (s * 2 ^ (7 * k))) = Value + s * 2 ^ (7 * k)) as ->.
  { unfold UINT64, INT64. rewrite wrapu_id by (unfold in_u; change (2 ^ 64) with 18446744073709551616; lia).
    rewrite Hlor by lia. apply wraps_id; [lia|]. unfold in_s. change (2 ^ (64 - 1)) with 9223372036854775808. lia. }
  unfold UINT32. rewrite !wrapu_id by (unfold in_u; lia). replace (7 * k + 7) with (7 * (k + 1)) by lia.
  destruct (128 <=? byte); [reflexivity|]. rewrite (proj2 (Z.ltb_lt _ 64)) by lia. cbn [andb].
  assert ((Z.land byte 0x40 =? 0) = (s <? 64)) as ->.
  { rewrite <- Hb. rewrite land_7f. rewrite <- land_40, <- Z.land_assoc. reflexivity. }
  replace (negb (s <? 64)) with (64 <=? s) by apply Z.leb_antisym. destruct (Z.leb_spec 64 s) as [H64|H64]; [|reflexivity].
  unfold ushl, shift_ok. rewrite (proj2 (Z.leb_le 0 _)), (proj2 (Z.ltb_lt _ 64)) by lia. cbn [andb mbind outcome_bind].
  assert (Value + s * 2 ^ (7 * k) < 2 ^ (7 * (k + 1))) as Hlt by lia.
  assert (UINT64 (Value + s * 2 ^ (7 * k)) = Value + s * 2 ^ (7 * k)) as ->
    by (apply wrapu_id; unfold in_u; change (2 ^ 64) with 18446744073709551616; lia).
  set (X := Value + s * 2 ^ (7 * k)) in *. set (j := 7 * (k + 1)) in *.
  assert (wrapu 64 (Z.shiftl (UINT64 (-1)) j) = (2 ^ (64 - j) - 1) * 2 ^ j) as ->.
  { change (UINT64 (-1)) with (2 ^ 64 - 1). rewrite Z.shiftl_mul_pow2 by lia.
    assert (2 ^ 64 = 2 ^ (64 - j) * 2 ^ j) as E64 by (rewrite <- Z.pow_add_r by lia; f_equal; lia).
    unfold wrapu. replace ((2 ^ 64 - 1) * 2 ^ j) with ((2 ^ (64 - j) - 1) * 2 ^ j + (2 ^ j - 1) * 2 ^ 64) by (rewrite E64; ring).
    rewrite Z_mod_plus_full. apply Z.mod_small. pose proof (pow2_pos (64 - j) ltac:(lia)). rewrite E64. nia. }
  rewrite Hlor by lia.
  assert (INT64 (X + (2 ^ (64 - j) - 1) * 2 ^ j) = Value + (s - 128) * 2 ^ (7 * k)) as ->; [|reflexivity].
  replace (X + (2 ^ (64 - j) - 1) * 2 ^ j) with (X - 2 ^ j + 2 ^ 64)
    by (replace (2 ^ 64) with (2 ^ (64 - j) * 2 ^ j) by (rewrite <- Z.pow_add_r by lia; f_equal; lia); ring).
  unfold INT64. rewrite (wraps_mod_congr 64 _ (X - 2 ^ j)).
  - rewrite wraps_id by (unfold in_s; change (2 ^ (64 - 1)) with 9223372036854775808; lia). rewrite Hp1. unfold X. lia.
  - rewrite <- (Z.mul_1_l (2 ^ 64)) at 1. apply Z_mod_plus_full.
Qed.

(** The tenth byte holds the sign alone. *)
Lemma sleb_decode_tenth byte p Value n : byte = 0 \/ byte = 127 -> 0 <= Value < 2 ^ 63 ->
  sleb_decode (byte :: p) None Value 63 n = Ok (if byte =? 0 then Value else Value - 2 ^ 63, n + 1, None).
Proof.
  intros Hb HV. cbn [sleb_decode at_end].
  assert (Z.land byte 0x7f = byte) as -> by (now destruct Hb as [-> | ->]).
  assert ((Z.eqb 63 63) && negb (byte =? 0) && negb (byte =? 127) = false) as -> by (now destruct Hb as [-> | ->]).
  change (64 <=? 63) with false. cbn [andb orb]. destruct Hb as [-> | ->].
  - change (ushl 64 0 63) with (@Ok Z 0). cbn [mbind outcome_bind]. change (128 <=? 0) with false. cbv iota.
    change (UINT32 (63 + 7) <? 64) with false. cbn [andb mret outcome_ret mbind outcome_bind]. rewrite Z.lor_0_r.
    unfold UINT64, INT64. rewrite wrapu_id by (unfold in_u; lia). now rewrite wraps_id by (unfold in_s; lia).
  - change (ushl 64 127 63) with (@Ok Z (2 ^ 63)). cbn [mbind outcome_bind]. change (128 <=? 127) with false. cbv iota.
    change (UINT32 (63 + 7) <? 64) with false. cbn [andb mret outcome_ret mbind outcome_bind].
    unfold UINT64, INT64. rewrite wrapu_id by (unfold in_u; lia).
    assert (Z.lor Value (2 ^ 63) = Value + 2 ^ 63) as ->.
    { rewrite <- Z.add_lor_land. assert (Z.land Value (2 ^ 63) = 0) as ->; [|lia]. apply Z.bits_inj'. intros i Hi.
      rewrite Z.land_spec, Z.bits_0, Z.pow2_bits_eqb by lia. destruct (Z.eqb_spec 63 i) as [<-|]; [|apply andb_false_r].
      rewrite <- (Z.mod_small Value (2 ^ 63)) by lia. now rewrite Z.mod_pow2_bits_high by lia. }
    rewrite wraps_unsigned by (unfold in_u; lia). change (64 - 1) with 63. rewrite (proj2 (Z.ltb_ge _ _)) by lia.
    change (127 =? 0) with false. cbv iota. apply decoded_eq; lia.
Qed.

Lemma sleb_decode_run L v rest k Value n : (0 < L)%nat -> in_s (7 * Z.of_nat L) v -> 0 <= k -> k + Z.of_nat L <= 10 ->
  0 <= Value < 2 ^ (7 * k) -> in_s 64 (Value + v * 2 ^ (7 * k)) ->
  sleb_decode (leb_bytes L v ++ rest) None Value (7 * k) n = Ok (Value + v * 2 ^ (7 * k), n + Z.of_nat L, None).
Proof.
  unfold in_s. revert v k Value n. induction L as [|L IH]; intros v k Value n HL Hv Hk HkL HV Hr; [lia|].
  pose proof (Z.div_mod v 128). pose proof (Z.mod_pos_bound v 128). rewrite pow7_S' in Hv. change (2 ^ (64 - 1)) with (2 ^ 63) in Hr.
  destruct (leb_bytes_cases (S L) v HL) as [[E ->] | (L' & [= ->] & HL' & ->)]; cbn [app].
  - injection E as ->. change (2 ^ (7 * Z.of_nat 0)) with 1 in Hv. change (Z.of_nat 1) with 1 in *. destruct (slice_last v) as [Hs Hm].
    destruct (Z.eqb_spec k 9) as [->|Hk9].
    + change (7 * 9) with 63 in *. assert (v = 0 \/ v = -1) as Hv01 by lia. rewrite sleb_decode_tenth by (lia || now destruct Hv01 as [-> | ->]; auto).
      destruct Hv01 as [-> | ->]; [change (0 mod 128 =? 0) with true | change (-1 mod 128 =? 0) with false]; apply decoded_eq; lia.
    + rewrite (sleb_decode_step _ _ k Value n (v mod 128)), Hm by (exact Hs || lia).
      apply decoded_eq; [|reflexivity]. f_equal. f_equal. destruct (Z.leb_spec 64 (v mod 128)); lia.
  - destruct (slice_more v) as [Hs Hm]. rewrite (sleb_decode_step _ _ k Value n (v mod 128)), Hm by (exact Hs || lia).
    destruct (pow7_next k) as [Hp1|]; [|lia]. pose proof (pow2_pos (7 * k)).
    assert (0 <= v mod 128 * 2 ^ (7 * k) <= 127 * 2 ^ (7 * k)) by (split; [nia | apply Z.mul_le_mono_nonneg_r; lia]).
    assert (Value + v mod 128 * 2 ^ (7 * k) + v / 128 * 2 ^ (7 * (k + 1)) = Value + v * 2 ^ (7 * k)) as Eq by (rewrite Hp1; nia).
    rewrite IH; rewrite ?Eq; try lia.
    + apply decoded_eq; lia.
    + destruct L' as [|L']; [lia|]. rewrite pow7_S in Hv. rewrite pow7_S'. lia.
Qed.

(** [Read_leb128], which computes in 32 bits, on at most five bytes. *)
Lemma read_leb128_run L v rest k result : (0 < L)%nat -> 0 <= v < 2 ^ (7 * Z.of_nat L) -> 0 <= k -> k + Z.of_nat L <= 5 ->
  0 <= result -> result + v * 2 ^ (7 * k) < 2 ^ 32 ->
  read_leb128_loop (leb_bytes L v ++ rest) result (7 * k) = Ok (result + v * 2 ^ (7 * k)).
Proof.
  revert v k result. induction L as [|L IH]; intros v k result HL Hv Hk HkL HV Hr; [lia|].
  pose proof (Z.div_mod v 128). pose proof (Z.mod_pos_bound v 128). assert (0 <= v / 128) by (apply Z.div_pos; lia).
  pose proof (pow2_pos (7 * k)) as Hp. destruct (pow7_next k) as [Hp1|]; [|lia].
  assert (0 <= v mod 128 * 2 ^ (7 * k) <= v * 2 ^ (7 * k)) as Hs32 by (split; [nia | apply Z.mul_le_mono_nonneg_r; lia]).
  destruct (leb_bytes_cases (S L) v HL) as [[E ->] | (L' & [= ->] & HL' & ->)]; cbn [app read_leb128_loop].
  - destruct (slice_last v) as [Hs Hm]. rewrite Hs. injection E as ->. change (2 ^ (7 * Z.of_nat 1)) with 128 in Hv.
    rewrite ushl_ok by lia. cbn [mbind outcome_bind]. rewrite shiftr_7, (Z.div_small (v mod 128)) by lia. cbn [Z.eqb negb].
    unfold UINT64. rewrite wrapu_id by (unfold in_u; lia). now rewrite Z.mod_small by lia.
  - destruct (slice_more v) as [Hs Hm]. rewrite Hs. rewrite ushl_ok by lia. cbn [mbind outcome_bind]. rewrite shiftr_7.
    rewrite shiftr_more.
    cbn [Z.eqb negb]. unfold UINT64, UINT32. rewrite !wrapu_id by (unfold in_u; lia).
    replace (7 * k + 7) with (7 * (k + 1)) by lia. rewrite pow7_S in Hv.
    rewrite IH by (try lia; try nia; rewrite Hp1; nia). rewrite Hp1. f_equal. nia.
Qed.

Lemma read_size_run L v rest n : (0 < L)%nat -> 0 <= n -> n + Z.of_nat L <= 256 ->
  read_size_loop (leb_bytes L v ++ rest) n = Ok (n + Z.of_nat L - 1).
Proof.
  revert v n. induction L as [|L IH]; intros v n HL Hn Hr; [lia|]. pose proof (Z.mod_pos_bound v 128 ltac:(lia)).
  destruct (leb_bytes_cases (S L) v HL) as [[E ->] | (L' & [= ->] & HL' & ->)]; cbn [app read_size_loop]; rewrite shiftr_7.
  - rewrite (Z.div_small (v mod 128)) by lia. injection E as ->. cbn. f_equal. lia.
  - rewrite shiftr_more.
    cbn [Z.land Pos.land Z.eqb negb]. unfold UINT8. rewrite wrapu_id by (unfold in_u; lia). rewrite IH by lia. f_equal. lia.
Qed.

Lemma Read_leb128_run L v rest : (0 < L)%nat -> (L <= 5)%nat -> 0 <= v < 2 ^ (7 * Z.of_nat L) -> v < 2 ^ 32 ->
  Read_leb128 (leb_bytes L v ++ rest) = Ok v.
Proof.
  intros H1 H2 H3 H4. unfold Read_leb128. change (read_leb128_loop (leb_bytes L v ++ rest) 0 0) with
    (read_leb128_loop (leb_bytes L v ++ rest) 0 (7 * 0)). rewrite read_leb128_run by (change (2 ^ (7 * 0)) with 1; lia).
  change (2 ^ (7 * 0)) with 1. f_equal. lia.
Qed.
Lemma decodeULEB128_run L v rest : (0 < L)%nat -> (L <= 10)%nat -> 0 <= v < 2 ^ (7 * Z.of_nat L) -> in_u 64 v ->
  decodeULEB128 (leb_bytes L v ++ rest) None = Ok (v, Z.of_nat L, None).
Proof.
  intros H1 H2 H3 [H4 H5]. unfold decodeULEB128. change (uleb_decode (leb_bytes L v ++ rest) None 0 0 0) with
    (uleb_decode (leb_bytes L v ++ rest) None 0 (7 * 0) 0). rewrite uleb_decode_run by (change (2 ^ (7 * 0)) with 1; lia).
  change (2 ^ (7 * 0)) with 1. apply decoded_eq; lia.
Qed.
Lemma decodeSLEB128_run L v rest : (0 < L)%nat -> (L <= 10)%nat -> in_s (7 * Z.of_nat L) v -> in_s 64 v ->
  decodeSLEB128 (leb_bytes L v ++ rest) None = Ok (v, Z.of_nat L, None).
Proof.
  intros H1 H2 H3 H4. unfold decodeSLEB128. change (sleb_decode (leb_bytes L v ++ rest) None 0 0 0) with
    (sleb_decode (leb_bytes L v ++ rest) None 0 (7 * 0) 0).
  rewrite sleb_decode_run; try (exact H3 || (change (2 ^ (7 * 0)) with 1; unfold in_s in *; lia)).
  change (2 ^ (7 * 0)) with 1. apply decoded_eq; lia.
Qed.
End Decoders.
