(* ===== verification/Winst.v ===== *)
(** * WebAssembly instructions

  [src/wasm/winst_opcode_list.h], [op_enum.h], [winst.h], [winst.cxx] (the table of
  instructions and their sizes), [reader.cxx] (splitting code into instructions), and the
  tables of the converter: [op_map.h], [op_short_long_map.h], [conv_map.cxx],
  [type_enum.h], [type_enum_base.h], [type_enum.cxx].  Printing is not modelled, nor the
  names, which it alone uses.  A pointer into the code is the number of bytes before it. *)

From S2P Require Import Prelude CInt Isa Leb128.
From Stdlib Require Import ZArith Lia.
Local Open Scope Z_scope.

(** ** [WINST_OPCODE] *)
Module WINST.
Inductive WINST_OPCODE : Set :=
  | Unreachable | Nop | Block | Loop | If | Else | Try | Catch | Throw | Rethrow | BrOnExn | End
  | Br | BrIf | BrTable | Return | Call | CallIndirect | ReturnCall | ReturnCallIndirect | Drop
  | Select | SelectT | LocalGet | LocalSet | LocalTee | GlobalGet | GlobalSet | I32Load | I64Load
  | F32Load | F64Load | I32Load8S | I32Load8U | I32Load16S | I32Load16U | I64Load8S | I64Load8U
  | I64Load16S | I64Load16U | I64Load32S | I64Load32U | I32Store | I64Store | F32Store | F64Store
  | I32Store8 | I32Store16 | I64Store8 | I64Store16 | I64Store32 | MemorySize | MemoryGrow
  | I32Const | I64Const | F32Const | F64Const | I32Eqz | I32Eq | I32Ne | I32LtS | I32LtU | I32GtS
  | I32GtU | I32LeS | I32LeU | I32GeS | I32GeU | I64Eqz | I64Eq | I64Ne | I64LtS | I64LtU | I64GtS
  | I64GtU | I64LeS | I64LeU | I64GeS | I64GeU | F32Eq | F32Ne | F32Lt | F32Gt | F32Le | F32Ge
  | F64Eq | F64Ne | F64Lt | F64Gt | F64Le | F64Ge | I32Clz | I32Ctz | I32Popcnt | I32Add | I32Sub
  | I32Mul | I32DivS | I32DivU | I32RemS | I32RemU | I32And | I32Or | I32Xor | I32Shl | I32ShrS
  | I32ShrU | I32Rotl | I32Rotr | I64Clz | I64Ctz | I64Popcnt | I64Add | I64Sub | I64Mul | I64DivS
  | I64DivU | I64RemS | I64RemU | I64And | I64Or | I64Xor | I64Shl | I64ShrS | I64ShrU | I64Rotl
  | I64Rotr | F32Abs | F32Neg | F32Ceil | F32Floor | F32Trunc | F32Nearest | F32Sqrt | F32Add
  | F32Sub | F32Mul | F32Div | F32Min | F32Max | F32Copysign | F64Abs | F64Neg | F64Ceil | F64Floor
  | F64Trunc | F64Nearest | F64Sqrt | F64Add | F64Sub | F64Mul | F64Div | F64Min | F64Max
  | F64Copysign | I32WrapI64 | I32TruncF32S | I32TruncF32U | I32TruncF64S | I32TruncF64U
  | I64ExtendI32S | I64ExtendI32U | I64TruncF32S | I64TruncF32U | I64TruncF64S | I64TruncF64U
  | F32ConvertI32S | F32ConvertI32U | F32ConvertI64S | F32ConvertI64U | F32DemoteF64
  | F64ConvertI32S | F64ConvertI32U | F64ConvertI64S | F64ConvertI64U | F64PromoteF32
  | I32ReinterpretF32 | I64ReinterpretF64 | F32ReinterpretI32 | F64ReinterpretI64.

Definition encode_8bit (o : WINST_OPCODE) : Z :=
  match o with
  | Unreachable => 0 | Nop => 1 | Block => 2 | Loop => 3 | If => 4 | Else => 5 | Try => 6
  | Catch => 7 | Throw => 8 | Rethrow => 9 | BrOnExn => 10 | End => 11 | Br => 12 | BrIf => 13
  | BrTable => 14 | Return => 15 | Call => 16 | CallIndirect => 17 | ReturnCall => 18
  | ReturnCallIndirect => 19 | Drop => 26 | Select => 27 | SelectT => 28 | LocalGet => 32
  | LocalSet => 33 | LocalTee => 34 | GlobalGet => 35 | GlobalSet => 36 | I32Load => 40
  | I64Load => 41 | F32Load => 42 | F64Load => 43 | I32Load8S => 44 | I32Load8U => 45
  | I32Load16S => 46 | I32Load16U => 47 | I64Load8S => 48 | I64Load8U => 49 | I64Load16S => 50
  | I64Load16U => 51 | I64Load32S => 52 | I64Load32U => 53 | I32Store => 54 | I64Store => 55
  | F32Store => 56 | F64Store => 57 | I32Store8 => 58 | I32Store16 => 59 | I64Store8 => 60
  | I64Store16 => 61 | I64Store32 => 62 | MemorySize => 63 | MemoryGrow => 64 | I32Const => 65
  | I64Const => 66 | F32Const => 67 | F64Const => 68 | I32Eqz => 69 | I32Eq => 70 | I32Ne => 71
  | I32LtS => 72 | I32LtU => 73 | I32GtS => 74 | I32GtU => 75 | I32LeS => 76 | I32LeU => 77
  | I32GeS => 78 | I32GeU => 79 | I64Eqz => 80 | I64Eq => 81 | I64Ne => 82 | I64LtS => 83
  | I64LtU => 84 | I64GtS => 85 | I64GtU => 86 | I64LeS => 87 | I64LeU => 88 | I64GeS => 89
  | I64GeU => 90 | F32Eq => 91 | F32Ne => 92 | F32Lt => 93 | F32Gt => 94 | F32Le => 95 | F32Ge => 96
  | F64Eq => 97 | F64Ne => 98 | F64Lt => 99 | F64Gt => 100 | F64Le => 101 | F64Ge => 102
  | I32Clz => 103 | I32Ctz => 104 | I32Popcnt => 105 | I32Add => 106 | I32Sub => 107 | I32Mul => 108
  | I32DivS => 109 | I32DivU => 110 | I32RemS => 111 | I32RemU => 112 | I32And => 113 | I32Or => 114
  | I32Xor => 115 | I32Shl => 116 | I32ShrS => 117 | I32ShrU => 118 | I32Rotl => 119
  | I32Rotr => 120 | I64Clz => 121 | I64Ctz => 122 | I64Popcnt => 123 | I64Add => 124
  | I64Sub => 125 | I64Mul => 126 | I64DivS => 127 | I64DivU => 128 | I64RemS => 129
  | I64RemU => 130 | I64And => 131 | I64Or => 132 | I64Xor => 133 | I64Shl => 134 | I64ShrS => 135
  | I64ShrU => 136 | I64Rotl => 137 | I64Rotr => 138 | F32Abs => 139 | F32Neg => 140
  | F32Ceil => 141 | F32Floor => 142 | F32Trunc => 143 | F32Nearest => 144 | F32Sqrt => 145
  | F32Add => 146 | F32Sub => 147 | F32Mul => 148 | F32Div => 149 | F32Min => 150 | F32Max => 151
  | F32Copysign => 152 | F64Abs => 153 | F64Neg => 154 | F64Ceil => 155 | F64Floor => 156
  | F64Trunc => 157 | F64Nearest => 158 | F64Sqrt => 159 | F64Add => 160 | F64Sub => 161
  | F64Mul => 162 | F64Div => 163 | F64Min => 164 | F64Max => 165 | F64Copysign => 166
  | I32WrapI64 => 167 | I32TruncF32S => 168 | I32TruncF32U => 169 | I32TruncF64S => 170
  | I32TruncF64U => 171 | I64ExtendI32S => 172 | I64ExtendI32U => 173 | I64TruncF32S => 174
  | I64TruncF32U => 175 | I64TruncF64S => 176 | I64TruncF64U => 177 | F32ConvertI32S => 178
  | F32ConvertI32U => 179 | F32ConvertI64S => 180 | F32ConvertI64U => 181 | F32DemoteF64 => 182
  | F64ConvertI32S => 183 | F64ConvertI32U => 184 | F64ConvertI64S => 185 | F64ConvertI64U => 186
  | F64PromoteF32 => 187 | I32ReinterpretF32 => 188 | I64ReinterpretF64 => 189
  | F32ReinterpretI32 => 190 | F64ReinterpretI64 => 191
  end.
End WINST.
Import WINST.

Lemma encode_8bit_inj o1 o2 : encode_8bit o1 = encode_8bit o2 -> o1 = o2.
Proof. destruct o1; vm_compute; intros H; destruct o2; (reflexivity || discriminate H). Qed.
#[export] Instance WINST_OPCODE_eq_dec : EqDecision WINST_OPCODE.
Proof.
  intros o1 o2. destruct (decide (encode_8bit o1 = encode_8bit o2)) as [E|E].
  - left. now apply encode_8bit_inj.
  - right. congruence.
Defined.

(** ** [WASM_INST] and its table *)
Inductive INST_CLASS : Set :=
  | INST_CLASS_MEM | INST_CLASS_NUM | INST_CLASS_VAR | INST_CLASS_PARM | INST_CLASS_CTRL | INST_CLASS_CONST.

Record WASM_INST : Set := mkWASM_INST {
  _encode : WINST_OPCODE;
  _size1 : VALTYPE;
  _size2 : VALTYPE;
  _class : INST_CLASS;
  _numopr : Z;
  _wasm_pc : nat;
}.
Definition Encode (i : WASM_INST) : WINST_OPCODE := _encode i.
Definition Numopr (i : WASM_INST) : Z := _numopr i.
Definition set_wasm_pc (pc : nat) (i : WASM_INST) : WASM_INST :=
  mkWASM_INST (_encode i) (_size1 i) (_size2 i) (_class i) (_numopr i) pc.

Definition WASM_META_INFO : list WASM_INST :=
  map (fun '(o, t1, t2, c, n) => mkWASM_INST o t1 t2 c n 0) [
  (Unreachable, I32, I32, INST_CLASS_CONST, 0); (Nop, I32, I32, INST_CLASS_CONST, 0);
  (Block, I32, I32, INST_CLASS_CONST, 1); (Loop, I32, I32, INST_CLASS_CONST, 1);
  (If, I32, I32, INST_CLASS_CONST, 1); (Else, I32, I32, INST_CLASS_CONST, 0);
  (Try, I32, I32, INST_CLASS_CONST, 0); (Catch, I32, I32, INST_CLASS_CONST, 0);
  (Throw, I32, I32, INST_CLASS_CONST, 0); (Rethrow, I32, I32, INST_CLASS_CONST, 0);
  (BrOnExn, I32, I32, INST_CLASS_CONST, 0); (End, I32, I32, INST_CLASS_CONST, 0);
  (Br, I32, I32, INST_CLASS_CONST, 1); (BrIf, I32, I32, INST_CLASS_CONST, 1);
  (BrTable, I32, I32, INST_CLASS_VAR, 0); (Return, I32, I32, INST_CLASS_CONST, 0);
  (Call, I32, I32, INST_CLASS_CONST, 1); (CallIndirect, I32, I32, INST_CLASS_CONST, 2);
  (ReturnCall, I32, I32, INST_CLASS_CONST, 0); (ReturnCallIndirect, I32, I32, INST_CLASS_CONST, 0);
  (Drop, I32, I32, INST_CLASS_CONST, 0); (Select, I32, I32, INST_CLASS_CONST, 0);
  (SelectT, I32, I32, INST_CLASS_CONST, 0); (LocalGet, I32, I32, INST_CLASS_CONST, 1);
  (LocalSet, I32, I32, INST_CLASS_CONST, 1); (LocalTee, I32, I32, INST_CLASS_CONST, 1);
  (GlobalGet, I32, I32, INST_CLASS_CONST, 1); (GlobalSet, I32, I32, INST_CLASS_CONST, 1);
  (I32Load, I32, I32, INST_CLASS_CONST, 2); (I64Load, I32, I32, INST_CLASS_CONST, 2);
  (F32Load, I32, I32, INST_CLASS_CONST, 2); (F64Load, I32, I32, INST_CLASS_CONST, 2);
  (I32Load8S, I32, I32, INST_CLASS_CONST, 2); (I32Load8U, I32, I32, INST_CLASS_CONST, 2);
  (I32Load16S, I32, I32, INST_CLASS_CONST, 2); (I32Load16U, I32, I32, INST_CLASS_CONST, 2);
  (I64Load8S, I32, I32, INST_CLASS_CONST, 2); (I64Load8U, I32, I32, INST_CLASS_CONST, 2);
  (I64Load16S, I32, I32, INST_CLASS_CONST, 2); (I64Load16U, I32, I32, INST_CLASS_CONST, 2);
  (I64Load32S, I32, I32, INST_CLASS_CONST, 2); (I64Load32U, I32, I32, INST_CLASS_CONST, 2);
  (I32Store, I32, I32, INST_CLASS_CONST, 2); (I64Store, I32, I32, INST_CLASS_CONST, 2);
  (F32Store, I32, I32, INST_CLASS_CONST, 2); (F64Store, I32, I32, INST_CLASS_CONST, 2);
  (I32Store8, I32, I32, INST_CLASS_CONST, 2); (I32Store16, I32, I32, INST_CLASS_CONST, 2);
  (I64Store8, I32, I32, INST_CLASS_CONST, 2); (I64Store16, I32, I32, INST_CLASS_CONST, 2);
  (I64Store32, I32, I32, INST_CLASS_CONST, 2); (MemorySize, I32, I32, INST_CLASS_CONST, 0);
  (MemoryGrow, I32, I32, INST_CLASS_CONST, 1); (I32Const, I32, I32, INST_CLASS_CONST, 1);
  (I64Const, I64, I32, INST_CLASS_CONST, 1); (F32Const, F32, I32, INST_CLASS_CONST, 1);
  (F64Const, F64, I32, INST_CLASS_CONST, 1); (I32Eqz, I32, I32, INST_CLASS_CONST, 0);
  (I32Eq, I32, I32, INST_CLASS_CONST, 0); (I32Ne, I32, I32, INST_CLASS_CONST, 0);
  (I32LtS, I32, I32, INST_CLASS_CONST, 0); (I32LtU, I32, I32, INST_CLASS_CONST, 0);
  (I32GtS, I32, I32, INST_CLASS_CONST, 0); (I32GtU, I32, I32, INST_CLASS_CONST, 0);
  (I32LeS, I32, I32, INST_CLASS_CONST, 0); (I32LeU, I32, I32, INST_CLASS_CONST, 0);
  (I32GeS, I32, I32, INST_CLASS_CONST, 0); (I32GeU, I32, I32, INST_CLASS_CONST, 0);
  (I64Eqz, I32, I32, INST_CLASS_CONST, 0); (I64Eq, I32, I32, INST_CLASS_CONST, 0);
  (I64Ne, I32, I32, INST_CLASS_CONST, 0); (I64LtS, I32, I32, INST_CLASS_CONST, 0);
  (I64LtU, I32, I32, INST_CLASS_CONST, 0); (I64GtS, I32, I32, INST_CLASS_CONST, 0);
  (I64GtU, I32, I32, INST_CLASS_CONST, 0); (I64LeS, I32, I32, INST_CLASS_CONST, 0);
  (I64LeU, I32, I32, INST_CLASS_CONST, 0); (I64GeS, I32, I32, INST_CLASS_CONST, 0);
  (I64GeU, I32, I32, INST_CLASS_CONST, 0); (F32Eq, I32, I32, INST_CLASS_CONST, 0);
  (F32Ne, I32, I32, INST_CLASS_CONST, 0); (F32Lt, I32, I32, INST_CLASS_CONST, 0);
  (F32Gt, I32, I32, INST_CLASS_CONST, 0); (F32Le, I32, I32, INST_CLASS_CONST, 0);
  (F32Ge, I32, I32, INST_CLASS_CONST, 0); (F64Eq, I32, I32, INST_CLASS_CONST, 0);
  (F64Ne, I32, I32, INST_CLASS_CONST, 0); (F64Lt, I32, I32, INST_CLASS_CONST, 0);
  (F64Gt, I32, I32, INST_CLASS_CONST, 0); (F64Le, I32, I32, INST_CLASS_CONST, 0);
  (F64Ge, I32, I32, INST_CLASS_CONST, 0); (I32Clz, I32, I32, INST_CLASS_CONST, 0);
  (I32Ctz, I32, I32, INST_CLASS_CONST, 0); (I32Popcnt, I32, I32, INST_CLASS_CONST, 0);
  (I32Add, I32, I32, INST_CLASS_CONST, 0); (I32Sub, I32, I32, INST_CLASS_CONST, 0);
  (I32Mul, I32, I32, INST_CLASS_CONST, 0); (I32DivS, I32, I32, INST_CLASS_CONST, 0);
  (I32DivU, I32, I32, INST_CLASS_CONST, 0); (I32RemS, I32, I32, INST_CLASS_CONST, 0);
  (I32RemU, I32, I32, INST_CLASS_CONST, 0); (I32And, I32, I32, INST_CLASS_CONST, 0);
  (I32Or, I32, I32, INST_CLASS_CONST, 0); (I32Xor, I32, I32, INST_CLASS_CONST, 0);
  (I32Shl, I32, I32, INST_CLASS_CONST, 0); (I32ShrS, I32, I32, INST_CLASS_CONST, 0);
  (I32ShrU, I32, I32, INST_CLASS_CONST, 0); (I32Rotl, I32, I32, INST_CLASS_CONST, 0);
  (I32Rotr, I32, I32, INST_CLASS_CONST, 0); (I64Clz, I32, I32, INST_CLASS_CONST, 0);
  (I64Ctz, I32, I32, INST_CLASS_CONST, 0); (I64Popcnt, I32, I32, INST_CLASS_CONST, 0);
  (I64Add, I32, I32, INST_CLASS_CONST, 0); (I64Sub, I32, I32, INST_CLASS_CONST, 0);
  (I64Mul, I32, I32, INST_CLASS_CONST, 0); (I64DivS, I32, I32, INST_CLASS_CONST, 0);
  (I64DivU, I32, I32, INST_CLASS_CONST, 0); (I64RemS, I32, I32, INST_CLASS_CONST, 0);
  (I64RemU, I32, I32, INST_CLASS_CONST, 0); (I64And, I32, I32, INST_CLASS_CONST, 0);
  (I64Or, I32, I32, INST_CLASS_CONST, 0); (I64Xor, I32, I32, INST_CLASS_CONST, 0);
  (I64Shl, I32, I32, INST_CLASS_CONST, 0); (I64ShrS, I32, I32, INST_CLASS_CONST, 0);
  (I64ShrU, I32, I32, INST_CLASS_CONST, 0); (I64Rotl, I32, I32, INST_CLASS_CONST, 0);
  (I64Rotr, I32, I32, INST_CLASS_CONST, 0); (F32Abs, I32, I32, INST_CLASS_CONST, 0);
  (F32Neg, I32, I32, INST_CLASS_CONST, 0); (F32Ceil, I32, I32, INST_CLASS_CONST, 0);
  (F32Floor, I32, I32, INST_CLASS_CONST, 0); (F32Trunc, I32, I32, INST_CLASS_CONST, 0);
  (F32Nearest, I32, I32, INST_CLASS_CONST, 0); (F32Sqrt, I32, I32, INST_CLASS_CONST, 0);
  (F32Add, I32, I32, INST_CLASS_CONST, 0); (F32Sub, I32, I32, INST_CLASS_CONST, 0);
  (F32Mul, I32, I32, INST_CLASS_CONST, 0); (F32Div, I32, I32, INST_CLASS_CONST, 0);
  (F32Min, I32, I32, INST_CLASS_CONST, 0); (F32Max, I32, I32, INST_CLASS_CONST, 0);
  (F32Copysign, I32, I32, INST_CLASS_CONST, 0); (F64Abs, I32, I32, INST_CLASS_CONST, 0);
  (F64Neg, I32, I32, INST_CLASS_CONST, 0); (F64Ceil, I32, I32, INST_CLASS_CONST, 0);
  (F64Floor, I32, I32, INST_CLASS_CONST, 0); (F64Trunc, I32, I32, INST_CLASS_CONST, 0);
  (F64Nearest, I32, I32, INST_CLASS_CONST, 0); (F64Sqrt, I32, I32, INST_CLASS_CONST, 0);
  (F64Add, I32, I32, INST_CLASS_CONST, 0); (F64Sub, I32, I32, INST_CLASS_CONST, 0);
  (F64Mul, I32, I32, INST_CLASS_CONST, 0); (F64Div, I32, I32, INST_CLASS_CONST, 0);
  (F64Min, I32, I32, INST_CLASS_CONST, 0); (F64Max, I32, I32, INST_CLASS_CONST, 0);
  (F64Copysign, I32, I32, INST_CLASS_CONST, 0); (I32WrapI64, I32, I32, INST_CLASS_CONST, 0);
  (I32TruncF32S, I32, I32, INST_CLASS_CONST, 0); (I32TruncF32U, I32, I32, INST_CLASS_CONST, 0);
  (I32TruncF64S, I32, I32, INST_CLASS_CONST, 0); (I32TruncF64U, I32, I32, INST_CLASS_CONST, 0);
  (I64ExtendI32S, I32, I32, INST_CLASS_CONST, 0); (I64ExtendI32U, I32, I32, INST_CLASS_CONST, 0);
  (I64TruncF32S, I32, I32, INST_CLASS_CONST, 0); (I64TruncF32U, I32, I32, INST_CLASS_CONST, 0);
  (I64TruncF64S, I32, I32, INST_CLASS_CONST, 0); (I64TruncF64U, I32, I32, INST_CLASS_CONST, 0);
  (F32ConvertI32S, I32, I32, INST_CLASS_CONST, 0); (F32ConvertI32U, I32, I32, INST_CLASS_CONST, 0);
  (F32ConvertI64S, I32, I32, INST_CLASS_CONST, 0); (F32ConvertI64U, I32, I32, INST_CLASS_CONST, 0);
  (F32DemoteF64, I32, I32, INST_CLASS_CONST, 0); (F64ConvertI32S, I32, I32, INST_CLASS_CONST, 0);
  (F64ConvertI32U, I32, I32, INST_CLASS_CONST, 0); (F64ConvertI64S, I32, I32, INST_CLASS_CONST, 0);
  (F64ConvertI64U, I32, I32, INST_CLASS_CONST, 0); (F64PromoteF32, I32, I32, INST_CLASS_CONST, 0);
  (I32ReinterpretF32, I32, I32, INST_CLASS_CONST, 0);
  (I64ReinterpretF64, I32, I32, INST_CLASS_CONST, 0);
  (F32ReinterpretI32, I32, I32, INST_CLASS_CONST, 0);
  (F64ReinterpretI64, I32, I32, INST_CLASS_CONST, 0)].

(** The tables of the converter: WebAssembly opcode, uwasm opcode, value type. *)
Definition op_map : list (WINST_OPCODE * Z * VALTYPE) := [
  (Unreachable, Opcode.UNREACH, I32); (Nop, Opcode.NOP, I32); (Block, Opcode.JMP, I32);
  (Loop, Opcode.JMP, I32); (If, Opcode.JEZ, I32); (Else, Opcode.JMP, I32); (Try, Opcode.JEZ, I32);
  (Rethrow, Opcode.JEZ, I32); (BrOnExn, Opcode.JEZ, I32); (End, Opcode.RETURN, I32);
  (Br, Opcode.JMP, I32); (BrIf, Opcode.JNZ, I32); (BrTable, Opcode.UNREACH, I32);
  (Return, Opcode.RETURN, I32); (Call, Opcode.CALL, I32); (CallIndirect, Opcode.CALL_INDIRECT, I32);
  (ReturnCall, Opcode.RETURN, I32); (ReturnCallIndirect, Opcode.RETURN, I32);
  (Drop, Opcode.NOP, I32); (Select, Opcode.SELECT, I32); (SelectT, Opcode.SELECT, I32);
  (LocalGet, Opcode.NOP, I32); (LocalSet, Opcode.MOV, I32); (LocalTee, Opcode.MOV, I32);
  (GlobalGet, Opcode.GGET, I32); (GlobalSet, Opcode.GSET, I32); (I32Load, Opcode.LOAD_RROFS, I32);
  (I64Load, Opcode.LOAD_RROFS, I64); (F32Load, Opcode.LOAD_RROFS, F32);
  (F64Load, Opcode.LOAD_RROFS, F64); (I32Load8S, Opcode.LOAD8_RROFS, I32);
  (I32Load8U, Opcode.LOAD8_U_RROFS, I32); (I32Load16S, Opcode.LOAD16_RROFS, I32);
  (I32Load16U, Opcode.LOAD16_U_RROFS, I32); (I64Load8S, Opcode.LOAD8_RROFS, I64);
  (I64Load8U, Opcode.LOAD8_U_RROFS, I64); (I64Load16S, Opcode.LOAD16_RROFS, I64);
  (I64Load16U, Opcode.LOAD16_U_RROFS, I64); (I64Load32S, Opcode.LOAD32_RROFS, I64);
  (I64Load32U, Opcode.LOAD32_U_RROFS, I64); (I32Store, Opcode.STORE, I32);
  (I64Store, Opcode.STORE, I64); (F32Store, Opcode.STORE, F32); (F64Store, Opcode.STORE, F64);
  (I32Store8, Opcode.STORE8, I32); (I32Store16, Opcode.STORE16, I32);
  (I64Store8, Opcode.STORE8, I64); (I64Store16, Opcode.STORE16, I64);
  (I64Store32, Opcode.STORE32, I64); (MemorySize, Opcode.MEMORYSIZE, I32);
  (MemoryGrow, Opcode.MEMORYGROW, I32); (I32Const, Opcode.CONST_L, I32);
  (I64Const, Opcode.CONST_L_HIGH, I64); (F32Const, Opcode.CONST_L, F32);
  (F64Const, Opcode.CONST_L_HIGH, F64); (I32Eqz, Opcode.EQZ, I32); (I32Eq, Opcode.EQ, I32);
  (I32Ne, Opcode.NE, I32); (I32LtS, Opcode.LT, I32); (I32LtU, Opcode.LT_U, I32);
  (I32GtS, Opcode.GT, I32); (I32GtU, Opcode.GT_U, I32); (I32LeS, Opcode.LE, I32);
  (I32LeU, Opcode.LE_U, I32); (I32GeS, Opcode.GE, I32); (I32GeU, Opcode.GE_U, I32);
  (I64Eqz, Opcode.EQZ, I64); (I64Eq, Opcode.EQ, I64); (I64Ne, Opcode.NE, I64);
  (I64LtS, Opcode.LT, I64); (I64LtU, Opcode.LT_U, I64); (I64GtS, Opcode.GT, I64);
  (I64GtU, Opcode.GT_U, I64); (I64LeS, Opcode.LE, I64); (I64LeU, Opcode.LE_U, I64);
  (I64GeS, Opcode.GE, I64); (I64GeU, Opcode.GE_U, I64); (F32Eq, Opcode.EQ, F32);
  (F32Ne, Opcode.NE, F32); (F32Lt, Opcode.LT, F32); (F32Gt, Opcode.GT, F32);
  (F32Le, Opcode.LE, F32); (F32Ge, Opcode.GE, F32); (F64Eq, Opcode.EQ, F64);
  (F64Ne, Opcode.NE, F64); (F64Lt, Opcode.LT, F64); (F64Gt, Opcode.GT, F64);
  (F64Le, Opcode.LE, F64); (F64Ge, Opcode.GE, F64); (I32Clz, Opcode.BUILTIN, I32);
  (I32Ctz, Opcode.BUILTIN, I32); (I32Popcnt, Opcode.BUILTIN, I32); (I32Add, Opcode.ADD, I32);
  (I32Sub, Opcode.SUB, I32); (I32Mul, Opcode.MUL, I32); (I32DivS, Opcode.DIV, I32);
  (I32DivU, Opcode.DIV_U, I32); (I32RemS, Opcode.REM, I32); (I32RemU, Opcode.REM_U, I32);
  (I32And, Opcode.AND, I32); (I32Or, Opcode.OR, I32); (I32Xor, Opcode.XOR, I32);
  (I32Shl, Opcode.SHL, I32); (I32ShrS, Opcode.SHR, I32); (I32ShrU, Opcode.SHR_U, I32);
  (I32Rotl, Opcode.ROTL, I32); (I32Rotr, Opcode.ROTR, I32); (I64Clz, Opcode.BUILTIN, I64);
  (I64Ctz, Opcode.BUILTIN, I64); (I64Popcnt, Opcode.BUILTIN, I64); (I64Add, Opcode.ADD, I64);
  (I64Sub, Opcode.SUB, I64); (I64Mul, Opcode.MUL, I64); (I64DivS, Opcode.DIV, I64);
  (I64DivU, Opcode.DIV_U, I64); (I64RemS, Opcode.REM, I64); (I64RemU, Opcode.REM_U, I64);
  (I64And, Opcode.AND, I64); (I64Or, Opcode.OR, I64); (I64Xor, Opcode.XOR, I64);
  (I64Shl, Opcode.SHL, I64); (I64ShrS, Opcode.SHR, I64); (I64ShrU, Opcode.SHR_U, I64);
  (I64Rotl, Opcode.ROTL, I64); (I64Rotr, Opcode.ROTR, I64); (F32Abs, Opcode.BUILTIN, F32);
  (F32Neg, Opcode.NEG, F32); (F32Ceil, Opcode.CEIL, F32); (F32Floor, Opcode.FLOOR, F32);
  (F32Trunc, Opcode.BUILTIN, F32); (F32Nearest, Opcode.BUILTIN, F32); (F32Sqrt, Opcode.SQRT, F32);
  (F32Add, Opcode.ADD, F32); (F32Sub, Opcode.SUB, F32); (F32Mul, Opcode.MUL, F32);
  (F32Div, Opcode.DIV, F32); (F32Min, Opcode.MIN, F32); (F32Max, Opcode.MAX, F32);
  (F32Copysign, Opcode.BUILTIN, F32); (F64Abs, Opcode.BUILTIN, F64); (F64Neg, Opcode.NEG, F64);
  (F64Ceil, Opcode.CEIL, F64); (F64Floor, Opcode.FLOOR, F64); (F64Trunc, Opcode.BUILTIN, F64);
  (F64Nearest, Opcode.BUILTIN, F64); (F64Sqrt, Opcode.SQRT, F64); (F64Add, Opcode.ADD, F64);
  (F64Sub, Opcode.SUB, F64); (F64Mul, Opcode.MUL, F64); (F64Div, Opcode.DIV, F64);
  (F64Min, Opcode.MIN, F64); (F64Max, Opcode.MAX, F64); (F64Copysign, Opcode.BUILTIN, F64);
  (I32WrapI64, Opcode.BUILTIN, I32); (I32TruncF32S, Opcode.BUILTIN, I32);
  (I32TruncF32U, Opcode.BUILTIN, I32); (I32TruncF64S, Opcode.BUILTIN, I32);
  (I32TruncF64U, Opcode.BUILTIN, I32); (I64ExtendI32S, Opcode.BUILTIN, I64);
  (I64ExtendI32U, Opcode.BUILTIN, I64); (I64TruncF32S, Opcode.BUILTIN, I64);
  (I64TruncF32U, Opcode.BUILTIN, I64); (I64TruncF64S, Opcode.BUILTIN, I64);
  (I64TruncF64U, Opcode.BUILTIN, I64); (F32ConvertI32S, Opcode.BUILTIN, F32);
  (F32ConvertI32U, Opcode.BUILTIN, F32); (F32ConvertI64S, Opcode.BUILTIN, F32);
  (F32ConvertI64U, Opcode.BUILTIN, F32); (F32DemoteF64, Opcode.BUILTIN, F32);
  (F64ConvertI32S, Opcode.BUILTIN, F64); (F64ConvertI32U, Opcode.BUILTIN, F64);
  (F64ConvertI64S, Opcode.BUILTIN, F64); (F64ConvertI64U, Opcode.BUILTIN, F64);
  (F64PromoteF32, Opcode.BUILTIN, F64); (I32ReinterpretF32, Opcode.BUILTIN, I32);
  (I64ReinterpretF64, Opcode.BUILTIN, I64); (F32ReinterpretI32, Opcode.BUILTIN, F32);
  (F64ReinterpretI64, Opcode.BUILTIN, F64)].

(** Short and long form of an instruction with an offset. *)
Definition UWASM_OP_SL_MAP : list (Z * Z) := [
  (Opcode.LOAD_RROFS, Opcode.LOAD_RROFS_L); (Opcode.LOAD8_RROFS, Opcode.LOAD8_RROFS_L);
  (Opcode.LOAD8_U_RROFS, Opcode.LOAD8_U_RROFS_L); (Opcode.LOAD16_RROFS, Opcode.LOAD16_RROFS_L);
  (Opcode.LOAD16_U_RROFS, Opcode.LOAD16_U_RROFS_L); (Opcode.LOAD32_RROFS, Opcode.LOAD32_RROFS_L);
  (Opcode.LOAD32_U_RROFS, Opcode.LOAD32_U_RROFS_L); (Opcode.STORE, Opcode.STORE_L);
  (Opcode.STORE8, Opcode.STORE8_L); (Opcode.STORE16, Opcode.STORE16_L);
  (Opcode.STORE32, Opcode.STORE32_L); (Opcode.LLOAD_ROFS, Opcode.LLOAD_ROFS_L);
  (Opcode.LLOAD8_ROFS, Opcode.LLOAD8_ROFS_L); (Opcode.LLOAD8_U_ROFS, Opcode.LLOAD8_U_ROFS_L);
  (Opcode.LLOAD16_ROFS, Opcode.LLOAD16_ROFS_L); (Opcode.LLOAD16_U_ROFS, Opcode.LLOAD16_U_ROFS_L);
  (Opcode.LLOAD32_ROFS, Opcode.LLOAD32_ROFS_L); (Opcode.LLOAD32_U_ROFS, Opcode.LLOAD32_U_ROFS_L);
  (Opcode.LSTORE, Opcode.LSTORE_L); (Opcode.LSTORE8, Opcode.LSTORE8_L);
  (Opcode.LSTORE16, Opcode.LSTORE16_L); (Opcode.LSTORE32, Opcode.LSTORE32_L)].

(** Built-in function of a WebAssembly instruction. *)
Definition WINST_OPCODE_BUILTIN : list (WINST_OPCODE * Z) := [
  (Nop, Builtin.UBT_NOP); (I64ExtendI32S, Builtin.UBT_I64EXTEND32S);
  (I64ExtendI32U, Builtin.UBT_I64EXTEND32U); (I32WrapI64, Builtin.UBT_I32WRAPI64);
  (F64ConvertI32S, Builtin.UBT_F64CVTI32S); (F64ConvertI32U, Builtin.UBT_F64CVTI32U);
  (I32TruncF64U, Builtin.UBT_I32TRUNCF64U); (I64ReinterpretF64, Builtin.UBT_I64REINTEPRETF64);
  (I32ReinterpretF32, Builtin.UBT_I32REINTEPRETF32);
  (F64ReinterpretI64, Builtin.UBT_F64REINTEPRETI64);
  (F32ReinterpretI32, Builtin.UBT_F32REINTEPRETI32); (F64Abs, Builtin.UBT_F64ABS);
  (I32TruncF64S, Builtin.UBT_I32TRUNCF64S); (Unreachable, Builtin.UBT_UNKNOWN)].

Section Reader.
Context {bd : Build}.

(** The first row with the code; a null pointer when the assertion is not compiled. *)
Definition OPCODE_inst (opcode : Z) : outcome WASM_INST :=
  match list_find (fun i => encode_8bit (Encode i) = opcode) WASM_META_INFO with
  | Some (_, i) => mret i
  | None => _ ← Is_True_Rel false; Err NullFault
  end.

Definition Read_uint8 (pc : list Z) : outcome Z :=
  match pc with [] => Err MemFault | b :: _ => Ok b end.

(** [size] starts at 0. *)
Definition Read_opr_size_valty (pc : list Z) (valty : VALTYPE) : outcome Z :=
  match valty with
  | I32 | I64 => Read_opr_size_leb128 pc
  | F32 => mret 4
  | F64 => mret 8
  | _ => _ ← Is_True false; mret 0
  end.

(** The loop over the labels of [br_table]: the number of bytes, and the place after.
  An iteration takes a byte at least, so the bytes left bound their number. *)
Fixpoint br_table_size (fuel : nat) (i vec_size n : Z) (pc : list Z) : outcome (Z * list Z) :=
  if vec_size <=? i then mret (n, pc) else
  match fuel with
  | O => Err MemFault
  | S fuel =>
      next_opr_size ← Read_opr_size_leb128 pc;
      br_table_size fuel (i + 1) vec_size (UINT32 (n + next_opr_size)) (drop (Z.to_nat next_opr_size) pc)
  end.

Definition Read_inst_size (inst : WASM_INST) (pc : list Z) : outcome Z :=
  let pc := drop 1 pc in
  n ← (if 0 <? Numopr inst then Read_opr_size_valty pc (_size1 inst) else mret 0);
  let pc := if 0 <? Numopr inst then drop (Z.to_nat n) pc else pc in
  n ← (if 1 <? Numopr inst then k ← Read_opr_size_valty pc (_size2 inst); mret (UINT32 (n + k)) else mret n);
  n ← (if decide (Encode inst = BrTable) then
         _ ← Is_True (Numopr inst =? 0);
         vec_size ← Read_leb128 pc;
         vec_size_field_len ← Read_opr_size_leb128 pc;
         let pc := drop (Z.to_nat vec_size_field_len) pc in
         '(n, pc) ← br_table_size (length pc) 0 (UINT32 vec_size) (UINT32 (n + vec_size_field_len)) pc;
         next_opr_size ← Read_opr_size_leb128 pc;
         mret (UINT32 (n + next_opr_size))
       else mret n);
  mret (UINT32 (n + 1)).

(** Bytes, little endian. *)
Fixpoint le_bytes (k : nat) (pc : list Z) : outcome Z :=
  match k, pc with
  | O, _ => mret 0
  | S _, [] => Err MemFault
  | S k, b :: pc => v ← le_bytes k pc; mret (b + 256 * v)
  end.

Definition Read_const_value (pc : list Z) (valty : VALTYPE) : outcome Z :=
  match valty with
  | I32 | I64 => v ← Read_signed_leb128 pc; mret (UINT64 v)
  | F32 => le_bytes 4 pc
  | F64 => le_bytes 8 pc
  | _ => _ ← Is_True_Rel false; Err Uninit
  end.

Definition Save_wasm_pc (pc : nat) (inst : WASM_INST) : outcome WASM_INST :=
  _ ← Is_True (Numopr inst <? 3); mret (set_wasm_pc pc inst).

(** The loop of [Read_insts]; each instruction takes a byte at least. *)
Fixpoint read_insts_loop (fuel : nat) (inst_buf : list Z) (pc : nat) : outcome (list WASM_INST) :=
  if (length inst_buf <=? pc)%nat then mret [] else
  match fuel with
  | O => Err FuelOut
  | S fuel =>
      opcode ← Read_uint8 (drop pc inst_buf);
      wasm_inst ← OPCODE_inst opcode;
      wasm_inst ← Save_wasm_pc pc wasm_inst;
      size ← Read_inst_size wasm_inst (drop pc inst_buf);
      insts ← read_insts_loop fuel inst_buf (pc + Z.to_nat size);
      mret (wasm_inst :: insts)
  end.
Definition Read_insts (inst_buf : list Z) : outcome (list WASM_INST) :=
  read_insts_loop (length inst_buf) inst_buf 0.

(** ** The tables of the converter *)
Record U_OPC_TY_PAIR : Set := mkPAIR { pr_opcode : Z; pr_valty : VALTYPE }.
Definition Get_ty_am (p : U_OPC_TY_PAIR) : outcome TY_AM := UWINST_TY_AM (pr_opcode p).
Definition Set_valty (t : VALTYPE) (p : U_OPC_TY_PAIR) : U_OPC_TY_PAIR := mkPAIR (pr_opcode p) t.
Definition Set_opcode (o : Z) (p : U_OPC_TY_PAIR) : U_OPC_TY_PAIR := mkPAIR (UINT32 o) (pr_valty p).

Definition UOPCODE_inst (opcode : Z) (type : VALTYPE) : U_OPC_TY_PAIR := mkPAIR (UINT16 opcode) type.

Definition UOPCODE_from_wasm (opcode : WINST_OPCODE) : outcome U_OPC_TY_PAIR :=
  match list_find (fun x => x.1.1 = opcode) op_map with
  | Some (_, (_, uop, type)) => mret (mkPAIR (UINT16 uop) type)
  | None => _ ← Is_True false; mret (mkPAIR 0 I32)
  end.

Definition Conv_to_long_opcode (short_opcode : Z) : outcome Z :=
  match list_find (fun x => x.1 = short_opcode) UWASM_OP_SL_MAP with
  | Some (_, (_, long)) => mret long
  | None => _ ← Is_True_Rel false; mret 0
  end.

Definition Conv_wasm_opc_to_builtin (opc : WINST_OPCODE) : outcome Z :=
  match list_find (fun x => x.1 = opc) WINST_OPCODE_BUILTIN with
  | Some (_, (_, code)) => mret code
  | None => _ ← Is_True false; mret Builtin.UBT_UNKNOWN
  end.

(** [WABT_ENUM], the numbers of [wabt::Type]. *)
Definition WABT_I32 : Z := -1.
Definition WABT_I64 : Z := -2.
Definition WABT_F32 : Z := -3.
Definition WABT_F64 : Z := -4.
Definition WABT_Void : Z := -0x40.
Definition WABT_Any : Z := 0.
Definition wabt_op_tab : list (Z * VALTYPE) := [(WABT_I32, I32); (WABT_I64, I64); (WABT_F32, F32); (WABT_F64, F64)].

(** The parameter is a [UINT32]. *)
Definition Conv_wabt_ty (wabt_enum : Z) : outcome VALTYPE :=
  match list_find (fun x => x.1 = INT32 wabt_enum) wabt_op_tab with
  | Some (_, (_, t)) => mret t
  | None => _ ← Is_True false; mret I32
  end.
Definition Conv_ty_wabt (valty : Z) : outcome Z :=
  match list_find (fun x => valty_num x.2 = valty) wabt_op_tab with
  | Some (_, (w, _)) => mret w
  | None => _ ← Is_True false; mret WABT_Void
  end.
End Reader.
