(* ===== verification/Splitting.v ===== *)
(** * Splitting code into instructions

  Reading the bytes of instructions in WebAssembly's binary format gives back the
  instructions, each at its place.  A file with its sections is never read. *)

From S2P Require Import Prelude CInt Isa Leb128 Winst.
From Stdlib Require Import ZArith Lia.
Local Open Scope Z_scope.
Import WINST.

(** ** The binary format

  An immediate of WebAssembly's binary format, and those of each instruction but
  [br_table], which has a vector of labels and one more. *)
Inductive IMM : Type :=
  | LEB (L : nat) (v : Z)
  | FIX (bs : list Z).
Definition imm_bytes (m : IMM) : list Z := match m with LEB L v => leb_bytes L v | FIX bs => bs end.
Definition imm_fits (t : VALTYPE) (m : IMM) : bool :=
  match t, m with
  | (I32 | I64), LEB L _ => (0 <? L)%nat && (L <=? 10)%nat
  | F32, FIX bs => (length bs =? 4)%nat
  | F64, FIX bs => (length bs =? 8)%nat
  | _, _ => false
  end.
Definition imms_of (o : WINST_OPCODE) : list VALTYPE :=
  match o with
  | Block | Loop | If | Br | BrIf | Call | LocalGet | LocalSet | LocalTee | GlobalGet | GlobalSet
  | MemorySize | MemoryGrow | I32Const => [I32]
  | I64Const => [I64]
  | F32Const => [F32]
  | F64Const => [F64]
  | CallIndirect | I32Load | I64Load | F32Load | F64Load | I32Load8S | I32Load8U | I32Load16S | I32Load16U
  | I64Load8S | I64Load8U | I64Load16S | I64Load16U | I64Load32S | I64Load32U
  | I32Store | I64Store | F32Store | F64Store | I32Store8 | I32Store16 | I64Store8 | I64Store16 | I64Store32 => [I32; I32]
  | _ => []
  end.

(** An instruction as the format has it.  [memory.size] and its reserved byte are left
  aside: the table gives it no immediate. *)
Record CODED : Type := mkCODED { cd_op : WINST_OPCODE; cd_imms : list IMM }.
Definition coded_bytes (c : CODED) : list Z := encode_8bit (cd_op c) :: concat (map imm_bytes (cd_imms c)).
Definition coded_ok (c : CODED) : bool :=
  match cd_op c, cd_imms c with
  | MemorySize, _ => false
  | BrTable, LEB L n :: labels =>
      (0 <? L)%nat && (L <=? 5)%nat && (n + 1 =? Z.of_nat (length labels)) && (0 <=? n) && (n <? 2 ^ (7 * Z.of_nat L)) && (n <? 2 ^ 32)
      && forallb (imm_fits I32) labels
  | BrTable, _ => false
  | o, imms => (length imms =? length (imms_of o))%nat && forallb (fun '(t, m) => imm_fits t m) (zip (imms_of o) imms)
  end.
Definition row_of (o : WINST_OPCODE) : WASM_INST :=
  match list_find (fun i => Encode i = o) WASM_META_INFO with Some (_, i) => i | None => mkWASM_INST o I32 I32 INST_CLASS_CONST 0 0 end.
Definition code_bytes (cs : list CODED) : list Z := concat (map coded_bytes cs).
Fixpoint insts_at (pc : nat) (cs : list CODED) : list WASM_INST :=
  match cs with
  | [] => []
  | c :: cs => set_wasm_pc pc (row_of (cd_op c)) :: insts_at (pc + length (coded_bytes c)) cs
  end.

Section Splitting.
Context {bd : Build}.

Lemma OPCODE_inst_run o : OPCODE_inst (encode_8bit o) = Ok (row_of o).
Proof. destruct o; vm_compute; reflexivity. Qed.

(** The table agrees with the format. *)
Definition row_imms (i : WASM_INST) : list VALTYPE :=
  if Numopr i =? 0 then [] else if Numopr i =? 1 then [_size1 i] else [_size1 i; _size2 i].
Lemma row_imms_of o : o <> MemorySize -> o <> BrTable -> Encode (row_of o) = o /\ 0 <= Numopr (row_of o) < 3 /\ row_imms (row_of o) = imms_of o.
Proof. destruct o; intros H1 H2; try (exfalso; now (apply H1 || apply H2)); vm_compute; auto using conj with lia; repeat split; congruence. Qed.

Lemma Read_opr_size_leb L v rest : (0 < L)%nat -> (L <= 10)%nat -> Read_opr_size_leb128 (leb_bytes L v ++ rest) = Ok (Z.of_nat L).
Proof. intros H1 H2. unfold Read_opr_size_leb128. rewrite read_size_run by lia. f_equal. lia. Qed.

Lemma imm_size t m rest : imm_fits t m = true ->
  Read_opr_size_valty (imm_bytes m ++ rest) t = Ok (Z.of_nat (length (imm_bytes m))) /\ (length (imm_bytes m) <= 10)%nat.
Proof.
  intros H. destruct t, m as [L v|bs]; unfold imm_fits in H; try discriminate; cbn [imm_bytes Read_opr_size_valty].
  1,2: rewrite andb_true_iff, Nat.ltb_lt, Nat.leb_le in H; destruct H as [H1 H2];
    rewrite length_leb_bytes; split; [now apply Read_opr_size_leb | exact H2].
  all: apply Nat.eqb_eq in H; rewrite H; split; [reflexivity | lia].
Qed.

Lemma drop_app_len {A} (l k : list A) : drop (length l) (l ++ k) = k.
Proof. apply drop_app_length. Qed.
Lemma drop_app_lenZ {A} (l k : list A) : drop (Z.to_nat (Z.of_nat (length l))) (l ++ k) = k.
Proof. rewrite Nat2Z.id. apply drop_app_length. Qed.

Lemma drop_leb L v rest : drop (Z.to_nat (Z.of_nat L)) (leb_bytes L v ++ rest) = rest.
Proof. rewrite Nat2Z.id. pose proof (drop_app_length (leb_bytes L v) rest) as H. now rewrite length_leb_bytes in H. Qed.

Lemma br_table_size_run labels : forallb (imm_fits I32) labels = true -> forall fuel i vec n rest,
  vec - i = Z.of_nat (length labels) -> (length labels <= fuel)%nat -> 0 <= n ->
  n + Z.of_nat (length (concat (map imm_bytes labels))) < 2 ^ 32 ->
  br_table_size fuel i vec n (concat (map imm_bytes labels) ++ rest)
    = Ok (n + Z.of_nat (length (concat (map imm_bytes labels))), rest).
Proof.
  induction labels as [|m labels IH]; intros Hf fuel i vec n rest Hvec Hfuel Hn Hlt; cbn [map concat length] in *.
  - destruct fuel; cbn [br_table_size]; rewrite (proj2 (Z.leb_le vec i)) by lia; unfold mret, outcome_ret; do 2 f_equal; lia.
  - cbn [forallb] in Hf. apply andb_true_iff in Hf as [Hm Hf]. destruct fuel as [|fuel]; [lia|]. cbn [br_table_size].
    rewrite (proj2 (Z.leb_gt vec i)) by lia. rewrite <- app_assoc.
    destruct (imm_size I32 m (concat (map imm_bytes labels) ++ rest) Hm) as [Hs Hl]. cbn [Read_opr_size_valty] in Hs.
    rewrite Hs. cbn [mbind outcome_bind]. rewrite drop_app_lenZ. rewrite length_app in *. unfold UINT32. rewrite wrapu_id by (unfold in_u; lia).
    rewrite IH by (exact Hf || lia). do 2 f_equal. lia.
Qed.

(** Every immediate takes a byte at least. *)
Lemma imms_bytes_length labels : forallb (imm_fits I32) labels = true ->
  (length labels <= length (concat (map imm_bytes labels)))%nat.
Proof.
  induction labels as [|m labels IH]; cbn [forallb map concat length]; [lia|]. intros [Hm Hf]%andb_true_iff. specialize (IH Hf).
  rewrite length_app. destruct m as [L v|bs]; unfold imm_fits in Hm; [|discriminate]. rewrite andb_true_iff, Nat.ltb_lt in Hm.
  cbn [imm_bytes]. rewrite length_leb_bytes. lia.
Qed.

Lemma Read_inst_size_operands o imms rest : o <> MemorySize -> o <> BrTable -> length imms = length (imms_of o) ->
  forallb (fun '(t, m) => imm_fits t m) (zip (imms_of o) imms) = true ->
  Read_inst_size (row_of o) (encode_8bit o :: concat (map imm_bytes imms) ++ rest)
    = Ok (Z.of_nat (length (concat (map imm_bytes imms))) + 1).
Proof.
  intros Hm Hb Hlen Hf. destruct (row_imms_of o Hm Hb) as (He & Hn & Hi). rewrite <- Hi in *.
  unfold Read_inst_size. rewrite He. destruct (decide (o = BrTable)) as [?|_]; [contradiction|]. cbn [drop]. rewrite skipn_O. unfold row_imms in *.
  assert (Numopr (row_of o) = 0 \/ Numopr (row_of o) = 1 \/ Numopr (row_of o) = 2) as [E|[E|E]] by lia; rewrite E in *;
    cbn [Z.eqb Pos.eqb Z.ltb Z.compare Pos.compare Pos.compare_cont length] in *.
  - destruct imms; [|discriminate]. reflexivity.
  - destruct imms as [|m [|]]; try discriminate. cbn [zip zip_with forallb] in Hf. rewrite andb_true_r in Hf.
    cbn [map concat]. rewrite app_nil_r. destruct (imm_size _ _ rest Hf) as [-> Hl]. cbn [mret outcome_ret mbind outcome_bind].
    unfold UINT32. now rewrite wrapu_id by (unfold in_u; lia).
  - destruct imms as [|m1 [|m2 [|]]]; try discriminate. cbn [zip zip_with forallb] in Hf. rewrite andb_true_r in Hf.
    apply andb_true_iff in Hf as [H1 H2]. cbn [map concat]. rewrite app_nil_r, <- app_assoc.
    destruct (imm_size _ _ (imm_bytes m2 ++ rest) H1) as [-> Hl1]. cbn [mret outcome_ret mbind outcome_bind]. rewrite drop_app_lenZ.
    destruct (imm_size _ _ rest H2) as [-> Hl2]. cbn [mret outcome_ret mbind outcome_bind]. rewrite length_app.
    unfold UINT32. rewrite (wrapu_id 32 (Z.of_nat _ + Z.of_nat _)), wrapu_id by (unfold in_u; lia). f_equal. lia.
Qed.

Lemma Read_inst_size_br_table L n labels rest : (0 < L)%nat -> (L <= 5)%nat -> n + 1 = Z.of_nat (length labels) -> 0 <= n < 2 ^ (7 * Z.of_nat L) ->
  n < 2 ^ 32 -> forallb (imm_fits I32) labels = true -> Z.of_nat (length (concat (map imm_bytes labels))) + 10 < 2 ^ 32 ->
  Read_inst_size (row_of BrTable) (encode_8bit BrTable :: leb_bytes L n ++ concat (map imm_bytes labels) ++ rest)
    = Ok (Z.of_nat L + Z.of_nat (length (concat (map imm_bytes labels))) + 1).
Proof.
  intros HL HL5 Hn Hnb Hn32 Hf Hlt. unfold Read_inst_size. change (Numopr (row_of BrTable)) with 0. change (Encode (row_of BrTable)) with BrTable.
  destruct (decide (BrTable = BrTable)) as [_|?]; [|congruence]. cbn [drop Z.ltb Z.compare Z.eqb mret outcome_ret mbind outcome_bind]. rewrite skipn_O, Is_True_true. cbn [mbind outcome_bind].
  rewrite Read_leb128_run by lia. cbn [mbind outcome_bind].
  rewrite Read_opr_size_leb by lia. cbn [mbind outcome_bind]. rewrite drop_leb.
  destruct (exists_last (l := labels)) as (ls & m & ->); [intros ->; cbn in Hn; lia|].
  rewrite forallb_app in Hf. apply andb_true_iff in Hf as [Hls Hm]. cbn [forallb] in Hm. rewrite andb_true_r in Hm.
  rewrite length_app in Hn. cbn [length] in Hn. rewrite map_app, concat_app in *. cbn [map concat] in *. rewrite app_nil_r in *.
  rewrite length_app in Hlt. rewrite <- app_assoc. unfold UINT32.
  rewrite !(wrapu_id 32) by (unfold in_u; lia).
  pose proof (imms_bytes_length ls Hls).
  rewrite br_table_size_run by (exact Hls || lia || (rewrite length_app; lia)). cbn [mbind outcome_bind].
  destruct (imm_size I32 m rest Hm) as [Hs Hml]. cbn [Read_opr_size_valty] in Hs. rewrite Hs. cbn [mret outcome_ret mbind outcome_bind].
  rewrite (wrapu_id 32 (_ + Z.of_nat (length (imm_bytes m)))), wrapu_id by (unfold in_u; lia). rewrite length_app. f_equal. lia.
Qed.

Lemma Read_inst_size_run c rest : coded_ok c = true -> Z.of_nat (length (coded_bytes c)) + 10 < 2 ^ 32 ->
  Read_inst_size (row_of (cd_op c)) (coded_bytes c ++ rest) = Ok (Z.of_nat (length (coded_bytes c))).
Proof.
  intros Hok Hlt. destruct c as [o imms]. unfold coded_bytes in *. cbn [cd_op cd_imms length app] in *.
  destruct (decide (o = BrTable)) as [->|Hb].
  - unfold coded_ok in Hok. cbn [cd_op cd_imms] in Hok. destruct imms as [|[L n|] labels]; try discriminate.
    rewrite !andb_true_iff, Nat.ltb_lt, Nat.leb_le, Z.leb_le, Z.eqb_eq, !Z.ltb_lt in Hok. destruct Hok as [[[[[[H1 H2] H3] H0] H4] H5] H6].
    cbn [map concat imm_bytes] in *. rewrite <- app_assoc. rewrite length_app, length_leb_bytes in *.
    rewrite Read_inst_size_br_table by (assumption || lia). f_equal. lia.
  - assert (o <> MemorySize) as Hm by (intros ->; discriminate).
    assert (length imms = length (imms_of o) /\ forallb (fun '(t, m) => imm_fits t m) (zip (imms_of o) imms) = true) as [Hl Hf].
    { unfold coded_ok in Hok. cbn [cd_op cd_imms] in Hok.
      assert ((length imms =? length (imms_of o))%nat && forallb (fun '(t, m) => imm_fits t m) (zip (imms_of o) imms) = true) as E
        by (destruct o; try exact Hok; now exfalso; (apply Hb || apply Hm)).
      apply andb_true_iff in E as [E1 E2]. apply Nat.eqb_eq in E1. auto. }
    rewrite Read_inst_size_operands by assumption. f_equal. lia.
Qed.

(** Reading code splits it into its instructions. *)
Lemma Read_insts_run cs : forallb coded_ok cs = true -> Z.of_nat (length (code_bytes cs)) + 10 < 2 ^ 32 ->
  Read_insts (code_bytes cs) = Ok (insts_at 0 cs).
Proof.
  intros Hok Hlt. unfold Read_insts.
  assert (forall fuel pre cs buf, buf = pre ++ code_bytes cs -> forallb coded_ok cs = true -> Z.of_nat (length (code_bytes cs)) + 10 < 2 ^ 32 ->
    (length (code_bytes cs) <= fuel)%nat -> read_insts_loop fuel buf (length pre) = Ok (insts_at (length pre) cs)) as Hloop.
  2: { exact (Hloop _ [] cs _ eq_refl Hok Hlt (Nat.le_refl _)). }
  clear. induction fuel as [|fuel IH]; intros pre cs buf Hbuf Hok Hlt Hfuel.
  - destruct cs as [|c cs]; [|cbn in Hfuel; lia]. subst. cbn [code_bytes map concat]. rewrite app_nil_r. cbn [read_insts_loop].
    now rewrite (proj2 (Nat.leb_le _ _)) by lia.
  - destruct cs as [|c cs].
    + subst. cbn [code_bytes map concat]. rewrite app_nil_r. cbn [read_insts_loop]. now rewrite (proj2 (Nat.leb_le _ _)) by lia.
    + cbn [code_bytes map concat] in *. fold (code_bytes cs) in *. cbn [forallb] in Hok. apply andb_true_iff in Hok as [Hc Hok].
      rewrite length_app in Hlt, Hfuel. cbn [read_insts_loop].
      assert (0 < length (coded_bytes c))%nat by (cbn; lia).
      rewrite (proj2 (Nat.leb_gt _ _)) by (subst buf; rewrite !length_app; lia).
      assert (drop (length pre) buf = coded_bytes c ++ code_bytes cs) as -> by (subst buf; apply drop_app_len).
      change (Read_uint8 (coded_bytes c ++ code_bytes cs)) with (@Ok Z (encode_8bit (cd_op c))). cbn [mbind outcome_bind].
      rewrite OPCODE_inst_run. cbn [mbind outcome_bind].
      assert ((Numopr (row_of (cd_op c)) <? 3) = true) as Hn by (destruct (cd_op c); reflexivity).
      unfold Save_wasm_pc. rewrite Hn, Is_True_true. cbn [mret outcome_ret mbind outcome_bind].
      change (Read_inst_size (set_wasm_pc (length pre) (row_of (cd_op c)))) with (Read_inst_size (row_of (cd_op c))).
      rewrite Read_inst_size_run by (exact Hc || lia). cbn [mbind outcome_bind]. rewrite Nat2Z.id, <- length_app.
      rewrite (IH (pre ++ coded_bytes c) cs) by (exact Hok || lia || (rewrite <- app_assoc; exact Hbuf)). cbn [mbind outcome_bind insts_at].
      now rewrite length_app.
Qed.

(** What an instruction with a number as its first immediate reads. *)
Lemma Read_leb128_imm o L v imms rest : (0 < L)%nat -> (L <= 5)%nat -> 0 <= v < 2 ^ (7 * Z.of_nat L) -> v < 2 ^ 32 ->
  Read_leb128 (drop 1 (coded_bytes (mkCODED o (LEB L v :: imms)) ++ rest)) = Ok v.
Proof.
  intros H1 H2 H3 H4. cbn [coded_bytes cd_op cd_imms map concat imm_bytes app drop]. rewrite skipn_O, <- app_assoc.
  now apply Read_leb128_run.
Qed.
End Splitting.

(** ** A buffer of sections: [Read_all_sections] of [reader.cxx], which nothing calls *)
Section Reader.
Context {bd : Build}.

(** "\0asm" and the version. *)
Definition MAGIC : list Z := [0; 97; 115; 109; 1; 0; 0; 0].
(** [memcmp] of eight bytes, which are read when the assertion is compiled in. *)
Definition Read_magic_number (pc : list Z) : outcome Z :=
  if release then mret 0
  else if (length pc <? 8)%nat then Err MemFault
  else _ ← Is_True (bool_decide (take 8 pc = MAGIC)); mret 0.

(** The loop reads the first byte of the buffer each time, and goes on for the section 1 only. *)
Fixpoint skip_sections (fuel : nat) (buffer : list Z) (pc : nat) : outcome nat :=
  if (length buffer <=? pc)%nat then mret pc else
  match fuel with
  | O => Err FuelOut
  | S fuel =>
      section_id ← Read_uint8 buffer;
      skip_sections fuel buffer (if section_id =? 1 then S pc else pc)
  end.
(** The whole length is read as instructions from where the loop ended: the bytes of the
  buffer, or, when it is at the end of a buffer that is not empty, bytes outside. *)
Definition Read_all_sections (fuel : nat) (full_file : bool) (buffer : list Z) : outcome Z :=
  pc ← (if full_file then _ ← Read_magic_number buffer; skip_sections fuel buffer 0 else mret 0%nat);
  _ ← (if (pc =? 0)%nat then _ ← Read_insts buffer; mret 0 else Read_uint8 (drop pc buffer));
  mret 0.

(** A buffer of instructions is read when it can be split. *)
Lemma instructions_read fuel buffer : is_ok (Read_all_sections fuel false buffer) = is_ok (Read_insts buffer).
Proof. unfold Read_all_sections. cbn [mbind outcome_bind mret outcome_ret Nat.eqb]. now destruct (Read_insts buffer). Qed.

Lemma first_section_stays fuel buffer b rest : buffer = b :: rest -> b <> 1 -> forall pc, (pc < length buffer)%nat ->
  skip_sections fuel buffer pc = Err FuelOut.
Proof.
  intros -> Hb. induction fuel as [|fuel IH]; intros pc Hpc; cbn [skip_sections]; rewrite (proj2 (Nat.leb_gt _ _)) by exact Hpc; [reflexivity|].
  cbn [Read_uint8 mbind outcome_bind]. rewrite (proj2 (Z.eqb_neq _ _) Hb). now apply IH.
Qed.

(** C39: A WebAssembly file is never read.  In a build with assertions, a full file that
  begins with the magic number of WebAssembly is read for ever: no number of iterations
  of the loop over the sections is enough.  Any other buffer stops the program. *)
Theorem full_file_not_read buffer : release = false ->
  (take 8 buffer = MAGIC -> forall fuel, Read_all_sections fuel true buffer = Err FuelOut) /\
  (take 8 buffer <> MAGIC -> forall fuel, Read_all_sections fuel true buffer =
    Err (if (length buffer <? 8)%nat then MemFault else AssertFail)).
Proof.
  intros Hr. unfold Read_all_sections, Read_magic_number, Is_True. rewrite Hr. cbn [negb andb]. split; intros E fuel.
  - rewrite (proj2 (Nat.ltb_ge _ _)); [rewrite (bool_decide_eq_true_2 _ E)|].
    + destruct buffer as [|b rest]; [discriminate|]. assert (b = 0) as -> by (apply (f_equal head) in E; cbn in E; congruence).
      cbn [negb mbind outcome_bind mret outcome_ret].
      now rewrite (first_section_stays fuel (0 :: rest) 0 rest eq_refl ltac:(lia) 0%nat ltac:(cbn; lia)).
    + apply (f_equal length) in E. rewrite length_take in E. change (length MAGIC) with 8%nat in E. lia.
  - rewrite (bool_decide_eq_false_2 _ E). now destruct (_ <? _)%nat.
Qed.

(** Without assertions a buffer that begins with 1 is walked to its end, and read beyond. *)
Lemma walked rest : forall fuel pc, (pc <= S (length rest))%nat -> (S (length rest) - pc <= fuel)%nat ->
  skip_sections fuel (1 :: rest) pc = Ok (S (length rest)).
Proof.
  induction fuel as [|fuel IH]; intros pc H1 H2; cbn [skip_sections length].
  - rewrite (proj2 (Nat.leb_le _ _)) by lia. cbn [mret outcome_ret]. f_equal. lia.
  - destruct (Nat.leb_spec (S (length rest)) pc); [cbn [mret outcome_ret]; f_equal; lia|].
    cbn [Read_uint8 mbind outcome_bind]. apply IH; cbn [Z.eqb Pos.eqb]; lia.
Qed.
Theorem first_byte_one_read_outside fuel rest : release = true -> (S (length rest) <= fuel)%nat ->
  Read_all_sections fuel true (1 :: rest) = Err MemFault.
Proof.
  intros Hr Hf. unfold Read_all_sections, Read_magic_number. rewrite Hr. cbn [mbind outcome_bind mret outcome_ret].
  rewrite walked by lia. cbn [mbind outcome_bind Nat.eqb drop]. now rewrite drop_all.
Qed.
End Reader.

(** The magic number and a section without content, in the build with assertions. *)
Lemma full_file_not_read_witness : Read_all_sections (bd := debug_check_build) 1000 true (MAGIC ++ [1; 0]) = Err FuelOut.
Proof. apply (proj1 (full_file_not_read (bd := debug_check_build) (MAGIC ++ [1; 0]) eq_refl)). reflexivity. Defined.
