(* ===== verification/LocalTable.v ===== *)
(** * Tables of the converter

  [src/wasm/local_table.h] (labels, locals), [REG_ALLOC_HELPER] and the operand stack of
  [src/wasm/converter.h] and [converter.cxx], [FILE_CONTEXT] of [src/wasm/reader.h].
  Text is a list of bytes. *)

From S2P Require Import Prelude CInt Isa Winst.
From stdpp Require Import strings pretty.
From Stdlib Require Import ZArith Lia.
Local Open Scope Z_scope.

(** [UWASM_VM_RUNTIME_WASM], an option of the build. *)
Class ConvBuild : Type := { runtime_wasm : bool }.
Definition CONST_REG_NUM : Z := 0.
Definition RET_REG_NUM {cb : ConvBuild} : Z := if runtime_wasm then 2 else 1.

(** ** Text *)
Fixpoint bytes_of (s : string) : list Z :=
  match s with EmptyString => [] | String c s => Z.of_nat (Ascii.nat_of_ascii c) :: bytes_of s end.
(** [%u]. *)
Definition decimal (n : Z) : list Z := bytes_of (pretty (Z.to_N (UINT32 n))).

(** ** An array with an element per value type *)
Record per_type (A : Type) : Type := mkPT { pt_i32 : A; pt_i64 : A; pt_f32 : A; pt_f64 : A }.
Arguments mkPT {A}.
Arguments pt_i32 {A}.
Arguments pt_i64 {A}.
Arguments pt_f32 {A}.
Arguments pt_f64 {A}.
Definition pt_all {A} (a : A) : per_type A := mkPT a a a a.
Definition pt_get {A} (t : VALTYPE) (p : per_type A) : outcome A :=
  match t with I32 => Ok (pt_i32 p) | I64 => Ok (pt_i64 p) | F32 => Ok (pt_f32 p) | F64 => Ok (pt_f64 p) | _ => Err CodeFault end.
Definition pt_set {A} (t : VALTYPE) (a : A) (p : per_type A) : per_type A :=
  match t with
  | I32 => mkPT a (pt_i64 p) (pt_f32 p) (pt_f64 p)
  | I64 => mkPT (pt_i32 p) a (pt_f32 p) (pt_f64 p)
  | F32 => mkPT (pt_i32 p) (pt_i64 p) a (pt_f64 p)
  | F64 => mkPT (pt_i32 p) (pt_i64 p) (pt_f32 p) a
  | _ => p
  end.
Definition VALTYPES : list VALTYPE := [I32; I64; F32; F64].
Definition pt_tuple {A} (p : per_type A) : A * A * A * A := (pt_i32 p, pt_i64 p, pt_f32 p, pt_f64 p).

(** ** Labels: [uvm::LABEL_TAB] *)
Definition LABEL_NOT_NEEDED : Z := 0x7FFFFFFF.
Module LABEL_TAB.
Record t : Type := mk { _labels : list Z; _label_name : list (list Z) }.
Definition empty : t := mk [] [].
Section Ops.
Context {bd : Build}.
Definition Add_named (pc : Z) (name : list Z) : M t Z := fun l =>
  match Is_True (negb (pc =? LABEL_NOT_NEEDED)) with
  | Ok _ => Ok (Z.of_nat (length (_labels l)), mk (_labels l ++ [pc]) (_label_name l ++ [name]))
  | Err f => Err f
  end.
Definition Add_block (pc block_id : Z) : M t Z := Add_named pc (bytes_of "block" ++ decimal block_id).
Definition Add (pc : Z) : M t Z := Add_named pc (bytes_of ".anonymous").
Definition Get (idx : Z) (l : t) : outcome Z :=
  _ ← Is_True (idx <? Z.of_nat (length (_labels l)));
  of_option CodeFault (_labels l !! Z.to_nat idx).
Definition Set_ (idx pc : Z) : M t unit := fun l =>
  match (_ ← Is_True (idx <? Z.of_nat (length (_labels l))); _ ← Is_True (negb (pc =? LABEL_NOT_NEEDED));
         of_option CodeFault (_labels l !! Z.to_nat idx)) with
  | Ok _ => Ok (tt, mk (<[Z.to_nat idx := pc]> (_labels l)) (_label_name l))
  | Err f => Err f
  end.
Definition Get_label_idx (name : list Z) (l : t) : Z :=
  match list_find (eq name) (_label_name l) with Some (i, _) => Z.of_nat i | None => LABEL_NOT_NEEDED end.
End Ops.
End LABEL_TAB.

(** ** Locals *)
Inductive LOCAL_KIND : Set := LOCAL | GLOBAL | TEMP | FORMAL_PARAM | CALL_PARAM | UNREACHABLE_VALUE | LOCAL_DUMMY.
#[export] Instance LOCAL_KIND_eq_dec : EqDecision LOCAL_KIND.
Proof. solve_decision. Defined.

(** [_home_local_idx] is never set. *)
Record LOCAL_TAB_ELEM : Set := mkTAB_ELEM { le_kind : LOCAL_KIND; le_val_type : VALTYPE; le_push_stmt : Z }.

(** [LOCAL_MAP_ELEM]: the register of a local. *)
Record LOCAL_MAP_ELEM : Set := mkMAP_ELEM { lm_reg_idx : Z; lm_ty : VALTYPE; lm_map_kind : LOCAL_KIND }.
Definition LOCAL_MAP_ELEM_new {bd : Build} {cb : ConvBuild} (reg_idx : Z) (ty : VALTYPE) (kind : LOCAL_KIND) : outcome LOCAL_MAP_ELEM :=
  _ ← Is_True (1 <=? reg_idx);
  mret (mkMAP_ELEM (UINT32 (reg_idx + RET_REG_NUM + CONST_REG_NUM - 1)) ty kind).

Record LOCAL_TAB : Type := mkLOCAL_TAB { _content : list LOCAL_TAB_ELEM; _max_call_param : Z }.
Definition LOCAL_TAB0 : LOCAL_TAB := mkLOCAL_TAB [] 0.
Definition tab_push_back (elem : LOCAL_TAB_ELEM) (l : LOCAL_TAB) : LOCAL_TAB :=
  mkLOCAL_TAB (_content l ++ [elem]) (_max_call_param l).
Definition Set_max_call_param (n : Z) (l : LOCAL_TAB) : LOCAL_TAB := mkLOCAL_TAB (_content l) n.
Definition tab_size (l : LOCAL_TAB) : Z := UINT32 (Z.of_nat (length (_content l))).
Definition tab_Get {bd : Build} (idx : Z) (l : LOCAL_TAB) : outcome LOCAL_TAB_ELEM :=
  _ ← Is_True (idx <? Z.of_nat (length (_content l)));
  vec_at (_content l) (Z.to_nat idx).

(** ** [REG_ALLOC_HELPER]

  The state of a register not in the map is [ALLOC_FREE]; a vector has 4096. *)
Inductive REG_ALLOC_STATE : Set := ALLOC_FREE | ALLOC_TEMP_OCCUPIED | ALLOC_WASM_LOCAL | ALLOC_RETURN_REG.
#[export] Instance REG_ALLOC_STATE_eq_dec : EqDecision REG_ALLOC_STATE.
Proof. solve_decision. Defined.
Definition REG_L_MAX : Z := 2 ^ 10 - 1.

Module REG_ALLOC.
Record regs : Type := mk { _next_reg_id : Z; _register_state : gmap Z REG_ALLOC_STATE }.
Definition t : Type := per_type regs.
Definition create : t := pt_all (mk 0 ∅).
Definition state (r : regs) (i : Z) : outcome REG_ALLOC_STATE :=
  if (0 <=? i) && (i <? 4096) then Ok (default ALLOC_FREE (_register_state r !! i)) else Err CodeFault.

Fixpoint fill (s : REG_ALLOC_STATE) (from : Z) (n : nat) (m : gmap Z REG_ALLOC_STATE) : gmap Z REG_ALLOC_STATE :=
  match n with O => m | S n => fill s (from + 1) n (<[from := s]> m) end.

Section Ops.
Context {bd : Build}.
Definition Preoccupy_registers (valty : VALTYPE) (basic local_count : Z) : M t unit := fun h =>
  match pt_get valty h with
  | Ok r =>
      if 4096 <? basic + local_count then Err CodeFault
      else Ok (tt, pt_set valty (mk (UINT32 (basic + local_count))
             (fill ALLOC_WASM_LOCAL basic (Z.to_nat local_count) (fill ALLOC_RETURN_REG 0 (Z.to_nat basic) (_register_state r)))) h)
  | Err f => Err f
  end.

Definition Get_available_reg (valty : VALTYPE) : M t Z := fun h =>
  match (r ← pt_get valty h;
         _ ← Is_True_Rel (_next_reg_id r <? REG_L_MAX);
         s ← state r (_next_reg_id r);
         _ ← Is_True (bool_decide (s = ALLOC_FREE)); mret r) with
  | Ok r => Ok (_next_reg_id r, pt_set valty
      (mk (UINT32 (_next_reg_id r + 1)) (<[_next_reg_id r := ALLOC_TEMP_OCCUPIED]> (_register_state r))) h)
  | Err f => Err f
  end.

Definition Free_register (valty : VALTYPE) (reg_id : Z) : M t unit := fun h =>
  if 126 <=? reg_id then Ok (tt, h) else
  match (r ← pt_get valty h;
         s ← state r reg_id;
         _ ← Is_True (bool_decide (ALLOC_TEMP_OCCUPIED = s));
         _ ← Is_True (reg_id =? UINT32 (_next_reg_id r - 1)); mret r) with
  | Ok r => Ok (tt, pt_set valty (mk (UINT32 (_next_reg_id r - 1)) (<[reg_id := ALLOC_FREE]> (_register_state r))) h)
  | Err f => Err f
  end.
End Ops.
End REG_ALLOC.

(** ** The operand stack: its top first *)
Record WASM_STACK_ELEM : Set := mkELEM { se_kind : LOCAL_KIND; se_val_type : VALTYPE; se_idx : Z; se_push_stmt : Z }.
Definition WASMSTK : Type := list WASM_STACK_ELEM.

(** ** [FILE_CONTEXT], as far as the conversion of a function uses it *)
Record FILE_CONTEXT : Type := mkCTX {
  fc_func_idx : Z;
  fc_last_anon_func_idx : Z;
  fc_stack_check : bool;
  fc_func_name_cache : gmap Z (list Z);
  fc_glbl_id_map : gmap Z Z;
}.
Definition Get_func_name_cache (id : Z) (c : FILE_CONTEXT) : option (list Z) := fc_func_name_cache c !! id.
Definition Set_func_name_cache {bd : Build} (id : Z) (name : list Z) (c : FILE_CONTEXT) : outcome FILE_CONTEXT :=
  _ ← Is_True (bool_decide (fc_func_name_cache c !! id = None));
  mret (mkCTX (fc_func_idx c) (fc_last_anon_func_idx c) (fc_stack_check c)
    (match fc_func_name_cache c !! id with Some _ => fc_func_name_cache c | None => <[id := name]> (fc_func_name_cache c) end)
    (fc_glbl_id_map c)).
Definition Set_global_id_map (wasm_id uwasm_id : Z) (c : FILE_CONTEXT) : FILE_CONTEXT :=
  mkCTX (fc_func_idx c) (fc_last_anon_func_idx c) (fc_stack_check c) (fc_func_name_cache c)
    (match fc_glbl_id_map c !! wasm_id with Some _ => fc_glbl_id_map c | None => <[wasm_id := uwasm_id]> (fc_glbl_id_map c) end).
Definition Get_global_uwasm_id (wasm_id : Z) (c : FILE_CONTEXT) : Z := default 0 (fc_glbl_id_map c !! wasm_id).
Definition Get_anon_func_name : M FILE_CONTEXT (list Z) := fun c =>
  Ok (bytes_of "f" ++ decimal (fc_last_anon_func_idx c),
      mkCTX (fc_func_idx c) (UINT32 (fc_last_anon_func_idx c + 1)) (fc_stack_check c) (fc_func_name_cache c) (fc_glbl_id_map c)).
(** [FILE_CONTEXT::Get_anon_global_name] counts with the functions. *)
Definition Get_anon_global_name : M FILE_CONTEXT (list Z) := fun c =>
  match Get_anon_func_name c with
  | Ok (_, c') => Ok (bytes_of "g" ++ decimal (fc_last_anon_func_idx c), c')
  | Err e => Err e
  end.
