(* ===== verification/Graph.v ===== *)
(** * The statement graph

  [src/wasm/converter.h] ([WINST_STMT], [WINST_STMT_GRAPH]) and, of
  [src/wasm/converter.cxx], [Build_block_hierarchy] and what it calls.  Statements are
  numbered; number 0 is the function.  Tracing is off. *)

From S2P Require Import Prelude CInt Isa Inst UModule StrTab TypeEncoder Encoder Leb128 Winst LocalTable.
From stdpp Require Import strings.
From Stdlib Require Import ZArith Lia.
Local Open Scope Z_scope.
Import WINST.

Definition BLOCK_INSTR_BEGIN : Z := 1.

Inductive WINST_STMT_KIND : Set := DUMMY | WINST_STMT_BLOCK | WINST_STMT_ROOT_BLOCK | WINST_STMT_INSTR.
#[export] Instance WINST_STMT_KIND_eq_dec : EqDecision WINST_STMT_KIND.
Proof. solve_decision. Defined.

(** [_parent_stmt] is indeterminate until it is set. *)
Record WINST_STMT : Type := mkSTMT {
  st_kind : WINST_STMT_KIND;
  st_id : Z;
  st_opcode : WINST_OPCODE;
  st_parent : option Z;
  st_children : list Z;
  st_begin_pc : Z;
  st_block_id : Z;
  st_begin_label : Z;
  st_end_label : Z;
  st_else_stmt_id : Z;
  st_result_cnt : Z;
  st_result_type : Z;
  st_result_reg : Z;
  st_stack_size : Z;
}.

(** The constructor with a block id. *)
Definition WINST_STMT_new (kind : WINST_STMT_KIND) (begin_pc block_id : Z) (opc : WINST_OPCODE) : WINST_STMT :=
  mkSTMT kind 0 opc None [] begin_pc block_id (UINT32 UNINIT_LABEL_IDX) (UINT32 UNINIT_LABEL_IDX) 0 0 0 0 0.

Definition Set_parent (i : Z) (s : WINST_STMT) : WINST_STMT :=
  mkSTMT (st_kind s) (st_id s) (st_opcode s) (Some i) (st_children s) (st_begin_pc s) (st_block_id s) (st_begin_label s)
    (st_end_label s) (st_else_stmt_id s) (st_result_cnt s) (st_result_type s) (st_result_reg s) (st_stack_size s).
Definition Add_children (i : Z) (s : WINST_STMT) : WINST_STMT :=
  mkSTMT (st_kind s) (st_id s) (st_opcode s) (st_parent s) (st_children s ++ [i]) (st_begin_pc s) (st_block_id s) (st_begin_label s)
    (st_end_label s) (st_else_stmt_id s) (st_result_cnt s) (st_result_type s) (st_result_reg s) (st_stack_size s).
Definition Set_id (i : Z) (s : WINST_STMT) : WINST_STMT :=
  mkSTMT (st_kind s) i (st_opcode s) (st_parent s) (st_children s) (st_begin_pc s) (st_block_id s) (st_begin_label s)
    (st_end_label s) (st_else_stmt_id s) (st_result_cnt s) (st_result_type s) (st_result_reg s) (st_stack_size s).
Definition Set_begin_label (i : Z) (s : WINST_STMT) : WINST_STMT :=
  mkSTMT (st_kind s) (st_id s) (st_opcode s) (st_parent s) (st_children s) (st_begin_pc s) (st_block_id s) i
    (st_end_label s) (st_else_stmt_id s) (st_result_cnt s) (st_result_type s) (st_result_reg s) (st_stack_size s).
Definition Set_end_label (i : Z) (s : WINST_STMT) : WINST_STMT :=
  mkSTMT (st_kind s) (st_id s) (st_opcode s) (st_parent s) (st_children s) (st_begin_pc s) (st_block_id s) (st_begin_label s)
    i (st_else_stmt_id s) (st_result_cnt s) (st_result_type s) (st_result_reg s) (st_stack_size s).
Definition Set_else_stmt (i : Z) (s : WINST_STMT) : WINST_STMT :=
  mkSTMT (st_kind s) (st_id s) (st_opcode s) (st_parent s) (st_children s) (st_begin_pc s) (st_block_id s) (st_begin_label s)
    (st_end_label s) i (st_result_cnt s) (st_result_type s) (st_result_reg s) (st_stack_size s).
Definition Set_result_cnt (i : Z) (s : WINST_STMT) : WINST_STMT :=
  mkSTMT (st_kind s) (st_id s) (st_opcode s) (st_parent s) (st_children s) (st_begin_pc s) (st_block_id s) (st_begin_label s)
    (st_end_label s) (st_else_stmt_id s) i (st_result_type s) (st_result_reg s) (st_stack_size s).
Definition Set_result_type (i : Z) (s : WINST_STMT) : WINST_STMT :=
  mkSTMT (st_kind s) (st_id s) (st_opcode s) (st_parent s) (st_children s) (st_begin_pc s) (st_block_id s) (st_begin_label s)
    (st_end_label s) (st_else_stmt_id s) (st_result_cnt s) i (st_result_reg s) (st_stack_size s).
Definition Set_result_reg (i : Z) (s : WINST_STMT) : WINST_STMT :=
  mkSTMT (st_kind s) (st_id s) (st_opcode s) (st_parent s) (st_children s) (st_begin_pc s) (st_block_id s) (st_begin_label s)
    (st_end_label s) (st_else_stmt_id s) (st_result_cnt s) (st_result_type s) i (st_stack_size s).
Definition Set_stack_size (i : Z) (s : WINST_STMT) : WINST_STMT :=
  mkSTMT (st_kind s) (st_id s) (st_opcode s) (st_parent s) (st_children s) (st_begin_pc s) (st_block_id s) (st_begin_label s)
    (st_end_label s) (st_else_stmt_id s) (st_result_cnt s) (st_result_type s) (st_result_reg s) i.
Definition Has_else (s : WINST_STMT) : bool := negb (st_else_stmt_id s =? 0).

(** ** [WINST_STMT_GRAPH] *)
Record WINST_STMT_GRAPH : Type := mkGRAPH { _stmts : list WINST_STMT; _ins_to_stmt : gmap Z Z }.
Definition graph0 : WINST_STMT_GRAPH := mkGRAPH [] ∅.

Section Graph.
Context {bd : Build} {vg : VectorGrowth}.

Definition Stmt_id (id : Z) (g : WINST_STMT_GRAPH) : outcome WINST_STMT :=
  _ ← Is_True (id <? Z.of_nat (length (_stmts g)));
  vec_at (_stmts g) (Z.to_nat id).
Definition Get_stmt_id_by_inst (ins_cnt : Z) (g : WINST_STMT_GRAPH) : outcome Z :=
  _ ← Is_True_Rel (bool_decide (is_Some (_ins_to_stmt g !! ins_cnt)));
  of_option NullFault (_ins_to_stmt g !! ins_cnt).
Definition Stmt_by_inst (ins_cnt : Z) (g : WINST_STMT_GRAPH) : outcome WINST_STMT :=
  id ← Get_stmt_id_by_inst ins_cnt g; Stmt_id id g.

(** What is done through the reference [Stmt_id(id)]. *)
Definition upd_stmt (id : Z) (f : WINST_STMT -> WINST_STMT) : M WINST_STMT_GRAPH unit := fun g =>
  match Stmt_id id g with
  | Ok s => Ok (tt, mkGRAPH (<[Z.to_nat id := f s]> (_stmts g)) (_ins_to_stmt g))
  | Err e => Err e
  end.

Definition Add_stmt (item : WINST_STMT) (ins_cnt : Z) : M WINST_STMT_GRAPH Z := fun g =>
  let id := UINT32 (Z.of_nat (length (_stmts g))) in
  Ok (id, mkGRAPH (_stmts g ++ [Set_id id item])
            (if decide (st_kind item = WINST_STMT_ROOT_BLOCK) then _ins_to_stmt g
             else match _ins_to_stmt g !! ins_cnt with Some _ => _ins_to_stmt g | None => <[ins_cnt := id]> (_ins_to_stmt g) end)).

Definition Add_stmt_to_parent (stmt : WINST_STMT) (ins_cnt parent : Z) : M WINST_STMT_GRAPH Z :=
  current ← Add_stmt stmt ins_cnt;
  _ ← upd_stmt current (Set_parent parent);
  _ ← upd_stmt parent (Add_children current);
  mret current.

(** ** Targets of branches *)
Fixpoint up_levels (n : nat) (current : Z) (g : WINST_STMT_GRAPH) : outcome Z :=
  match n with
  | O => Ok current
  | S n =>
      s ← Stmt_id current g;
      parent ← of_option Uninit (st_parent s);
      _ ← Is_True_Rel (negb (parent =? 0));
      up_levels n parent g
  end.
Definition Get_parent_stmt_for_branch (ins_cnt : Z) (g : WINST_STMT_GRAPH) (jump_cnt : Z) : outcome Z :=
  current ← Get_stmt_id_by_inst ins_cnt g;
  up_levels (Z.to_nat (UINT32 (jump_cnt + 1))) current g.

Definition Get_label_id_for_jump (ins_cnt jump_cnt : Z) (g : WINST_STMT_GRAPH) : outcome Z :=
  target ← Get_parent_stmt_for_branch ins_cnt g jump_cnt;
  s ← Stmt_id target g;
  if decide (st_opcode s = Loop) then mret (st_begin_label s)
  else if decide (st_opcode s = If /\ Has_else s = true) then e ← Stmt_id (st_else_stmt_id s) g; mret (st_begin_label e)
  else mret (st_end_label s).

(** ** [Build_block_hierarchy]

  Its state: the encoder, in which it requests labels; the label table; the graph; and
  the statements of the blocks that are open, the innermost first. *)
Record BUILD : Type := mkBUILD {
  bs_enc : U_ENCODER.t;
  bs_labels : LABEL_TAB.t;
  bs_graph : WINST_STMT_GRAPH;
  bs_work : list Z;
}.
Definition on_enc_b {A} (h : M U_ENCODER.t A) : M BUILD A := fun b =>
  match h (bs_enc b) with Ok (a, e) => Ok (a, mkBUILD e (bs_labels b) (bs_graph b) (bs_work b)) | Err f => Err f end.
Definition on_graph_b {A} (h : M WINST_STMT_GRAPH A) : M BUILD A := fun b =>
  match h (bs_graph b) with Ok (a, g) => Ok (a, mkBUILD (bs_enc b) (bs_labels b) g (bs_work b)) | Err f => Err f end.
Definition on_labels_b {A} (h : M LABEL_TAB.t A) : M BUILD A := fun b =>
  match h (bs_labels b) with Ok (a, l) => Ok (a, mkBUILD (bs_enc b) l (bs_graph b) (bs_work b)) | Err f => Err f end.
Definition set_work (w : list Z) : M BUILD unit := modify (fun b => mkBUILD (bs_enc b) (bs_labels b) (bs_graph b) w).

Definition label_name (begin : bool) (pc : Z) : list Z :=
  (if begin then bytes_of ".L_begin_"%string else bytes_of ".L_end_"%string) ++ decimal pc.
Definition Add_label (begin : bool) (pc : Z) (add_new_label : bool) : M U_ENCODER.t Z :=
  if add_new_label then U_ENCODER.Add_label (label_name begin pc) else U_ENCODER.Request_label (label_name begin pc).

Definition Finish_old_block : M BUILD Z :=
  b ← get;
  _ ← lift (Is_True (negb (bool_decide (bs_work b = []))));
  match bs_work b with
  | [] => throw Uninit
  | tos_blk :: work => _ ← set_work work; mret tos_blk
  end.

Definition Create_new_block (opc : WINST_OPCODE) (wasm_ty ins_cnt : Z) : M BUILD Z :=
  b ← get;
  stmt_id ← match bs_work b with
    | parent :: _ =>
        stmt_id ← on_graph_b (Add_stmt_to_parent (WINST_STMT_new WINST_STMT_BLOCK ins_cnt 0 opc) ins_cnt parent);
        _ ← when (bool_decide (opc = Loop \/ opc = Else))
              (l ← on_enc_b (Add_label true stmt_id false); on_graph_b (upd_stmt stmt_id (Set_begin_label l)));
        end_label_id ← on_enc_b (Add_label false stmt_id false);
        _ ← on_graph_b (upd_stmt stmt_id (Set_end_label end_label_id));
        let wasm_ty_num := INT16 (INT16 wasm_ty - 0x80) in
        _ ← (if negb (wasm_ty_num =? WABT_Void) && negb (wasm_ty_num =? -0x80) then
               _ ← on_graph_b (upd_stmt stmt_id (Set_result_cnt 1));
               t ← lift (Conv_wabt_ty (UINT32 wasm_ty_num));
               on_graph_b (upd_stmt stmt_id (Set_result_type (valty_num t)))
             else on_graph_b (upd_stmt stmt_id (Set_result_cnt 0)));
        mret stmt_id
    | [] => on_graph_b (Add_stmt (WINST_STMT_new WINST_STMT_ROOT_BLOCK ins_cnt 0 opc) ins_cnt)
    end;
  b ← get;
  _ ← set_work (stmt_id :: bs_work b);
  mret stmt_id.

Definition graph_stmt (id : Z) : M BUILD WINST_STMT := b ← get; lift (Stmt_id id (bs_graph b)).
Definition work_top : M BUILD Z := b ← get; lift (of_option Uninit (head (bs_work b))).

(** A statement of an instruction, in the innermost block. *)
Definition add_instr (o : WINST_OPCODE) (ins_cnt : Z) : M BUILD unit :=
  top ← work_top;
  _ ← on_graph_b (Add_stmt_to_parent (WINST_STMT_new WINST_STMT_INSTR ins_cnt top o) ins_cnt top);
  mret tt.

Definition build_else (ins_cnt : Z) : M BUILD unit :=
  b ← get;
  _ ← lift (Is_True (negb (bool_decide (bs_work b = []))));
  old_stmt_id ← Finish_old_block;
  old ← graph_stmt old_stmt_id;
  w ← lift (Conv_ty_wabt (st_result_type old));
  else_id ← Create_new_block Else (UINT32 (0x80 + w)) ins_cnt;
  if_stmt ← graph_stmt old_stmt_id;
  else_stmt ← graph_stmt else_id;
  _ ← on_graph_b (upd_stmt old_stmt_id (Set_else_stmt (st_id else_stmt)));
  _ ← on_graph_b (upd_stmt else_id (fun s => Set_result_type (st_result_type if_stmt)
        (Set_result_cnt (st_result_cnt if_stmt) (Set_else_stmt (st_id if_stmt) s))));
  lift (Is_True (bool_decide (st_opcode if_stmt = If))).

Definition build_end (ins_cnt : Z) : M BUILD unit :=
  b ← get;
  if bool_decide (bs_work b = []) then lift (Is_True_Rel false)
  else
    _ ← add_instr End ins_cnt;
    par_stmt_id ← Finish_old_block;
    _ ← graph_stmt par_stmt_id; mret tt.

(** An iteration.  [ins_cnt] is not incremented at an [End] without an open block. *)
Definition build_inst (buf : list Z) (inst : WASM_INST) (ins_cnt : Z) : M BUILD Z :=
  match Encode inst with
  | If | Block | Loop =>
      block_type ← lift (Read_leb128 (drop (_wasm_pc inst + 1) buf));
      _ ← Create_new_block (Encode inst) (UINT32 (INT32 block_type)) ins_cnt;
      mret (ins_cnt + 1)
  | Else => _ ← build_else ins_cnt; mret (ins_cnt + 1)
  | End => b ← get; _ ← build_end ins_cnt; mret (if bool_decide (bs_work b = []) then ins_cnt else ins_cnt + 1)
  | o => _ ← add_instr o ins_cnt; mret (ins_cnt + 1)
  end.

Fixpoint build_insts (buf : list Z) (ins : list WASM_INST) (ins_cnt : Z) : M BUILD unit :=
  match ins with
  | [] => mret tt
  | inst :: ins => ins_cnt ← build_inst buf inst ins_cnt; build_insts buf ins ins_cnt
  end.

Definition Build_block_hierarchy (buf : list Z) (ins : list WASM_INST) : M BUILD unit :=
  _ ← on_labels_b (LABEL_TAB.Add 0);
  _ ← Create_new_block Unreachable (VALTY_COUNT + 1) BLOCK_INSTR_BEGIN;
  build_insts buf ins BLOCK_INSTR_BEGIN.
End Graph.
