(* ===== verification/Converter.v ===== *)
(** * The converter

  [src/wasm/converter.cxx]: the translation of a function from WebAssembly's stack code to
  uwasm's register code.  [wabt]'s module is the list of signatures, functions, types of
  globals that the converter asks it for.  Tracing is off. *)

From S2P Require Import Prelude CInt BitField Isa Inst Ubh UModule StrTab TypeEncoder Encoder Leb128 Winst LocalTable Graph.
From stdpp Require Import strings.
From Stdlib Require Import ZArith Lia.
Local Open Scope Z_scope.
Import WINST.

(** ** What [wabt::Module] answers: types as the numbers of [wabt::Type] *)
Record WABT_SIG : Type := mkSIG { sg_params : list Z; sg_results : list Z }.
Record WABT_FUNC : Type := mkFUNC { wf_name : list Z; wf_sig : WABT_SIG; wf_locals : list Z }.
Record WABT_MODULE : Type := mkMODULE { wm_funcs : list WABT_FUNC; wm_types : list WABT_SIG; wm_globals : list Z }.
Definition GetFunc (m : WABT_MODULE) (i : Z) : outcome WABT_FUNC := of_option NullFault (wm_funcs m !! Z.to_nat i).
Definition GetFuncType (m : WABT_MODULE) (i : Z) : outcome WABT_SIG := of_option NullFault (wm_types m !! Z.to_nat i).
Definition GetGlobal (m : WABT_MODULE) (i : Z) : outcome Z := of_option NullFault (wm_globals m !! Z.to_nat i).

Definition OFFSET_S_MAX : Z := 2 ^ 8 - 1.
Definition OFFSET_M_MAX : Z := 2 ^ 22 - 1.
Definition OFFSET_L_MAX : Z := 2 ^ 32 - 1.
Definition REG_S_MAX : Z := 2 ^ 8 - 1.

(** ** The state of a conversion: the local variables of [Wasm_to_uwasm] *)
Record CONV : Type := mkCONV {
  cv_ctx : FILE_CONTEXT;
  cv_enc : U_ENCODER.t;
  cv_graph : WINST_STMT_GRAPH;
  cv_stack : WASMSTK;
  cv_local_tab : per_type LOCAL_TAB;
  cv_local_map : list LOCAL_MAP_ELEM;
  cv_regs : REG_ALLOC.t;
  cv_calls : list Z;
  cv_pc_map : gmap Z Z;
  cv_icall : gmap Z Z;
}.
Definition set_ctx x c := mkCONV x (cv_enc c) (cv_graph c) (cv_stack c) (cv_local_tab c) (cv_local_map c) (cv_regs c) (cv_calls c) (cv_pc_map c) (cv_icall c).
Definition set_enc x c := mkCONV (cv_ctx c) x (cv_graph c) (cv_stack c) (cv_local_tab c) (cv_local_map c) (cv_regs c) (cv_calls c) (cv_pc_map c) (cv_icall c).
Definition set_graph x c := mkCONV (cv_ctx c) (cv_enc c) x (cv_stack c) (cv_local_tab c) (cv_local_map c) (cv_regs c) (cv_calls c) (cv_pc_map c) (cv_icall c).
Definition set_stack x c := mkCONV (cv_ctx c) (cv_enc c) (cv_graph c) x (cv_local_tab c) (cv_local_map c) (cv_regs c) (cv_calls c) (cv_pc_map c) (cv_icall c).
Definition set_local_tab x c := mkCONV (cv_ctx c) (cv_enc c) (cv_graph c) (cv_stack c) x (cv_local_map c) (cv_regs c) (cv_calls c) (cv_pc_map c) (cv_icall c).
Definition set_local_map x c := mkCONV (cv_ctx c) (cv_enc c) (cv_graph c) (cv_stack c) (cv_local_tab c) x (cv_regs c) (cv_calls c) (cv_pc_map c) (cv_icall c).
Definition set_regs x c := mkCONV (cv_ctx c) (cv_enc c) (cv_graph c) (cv_stack c) (cv_local_tab c) (cv_local_map c) x (cv_calls c) (cv_pc_map c) (cv_icall c).
Definition set_calls x c := mkCONV (cv_ctx c) (cv_enc c) (cv_graph c) (cv_stack c) (cv_local_tab c) (cv_local_map c) (cv_regs c) x (cv_pc_map c) (cv_icall c).
Definition set_pc_map x c := mkCONV (cv_ctx c) (cv_enc c) (cv_graph c) (cv_stack c) (cv_local_tab c) (cv_local_map c) (cv_regs c) (cv_calls c) x (cv_icall c).
Definition set_icall x c := mkCONV (cv_ctx c) (cv_enc c) (cv_graph c) (cv_stack c) (cv_local_tab c) (cv_local_map c) (cv_regs c) (cv_calls c) (cv_pc_map c) x.

Abbreviation CM := (M CONV).

(** [std::map::insert] keeps an entry there is. *)
Definition insert_new (k v : Z) (m : gmap Z Z) : gmap Z Z := match m !! k with Some _ => m | None => <[k := v]> m end.

(** [std::set<UINT32>]: sorted, without duplicates. *)
Fixpoint set_insert (x : Z) (l : list Z) : list Z :=
  match l with
  | [] => [x]
  | y :: l' => if x <? y then x :: l else if x =? y then l else y :: set_insert x l'
  end.
Definition sorted_set (l : list Z) : list Z := fold_left (fun s x => set_insert x s) l [].

Section Converter.
Context {bd : Build} {vg : VectorGrowth} {cb : ConvBuild}.

Definition on_enc {A} (h : M U_ENCODER.t A) : CM A := fun c =>
  match h (cv_enc c) with Ok (a, e) => Ok (a, set_enc e c) | Err f => Err f end.
Definition on_graph {A} (h : M WINST_STMT_GRAPH A) : CM A := fun c =>
  match h (cv_graph c) with Ok (a, g) => Ok (a, set_graph g c) | Err f => Err f end.
Definition on_regs {A} (h : M REG_ALLOC.t A) : CM A := fun c =>
  match h (cv_regs c) with Ok (a, r) => Ok (a, set_regs r c) | Err f => Err f end.
Definition on_ctx {A} (h : M FILE_CONTEXT A) : CM A := fun c =>
  match h (cv_ctx c) with Ok (a, x) => Ok (a, set_ctx x c) | Err f => Err f end.
Definition graph_get {A} (h : WINST_STMT_GRAPH -> outcome A) : CM A := c ← get; lift (h (cv_graph c)).
Definition stmt_at (id : Z) : CM WINST_STMT := graph_get (Stmt_id id).
Definition upd (id : Z) (f : WINST_STMT -> WINST_STMT) : CM unit := on_graph (upd_stmt id f).
Definition tab_of (t : VALTYPE) : CM LOCAL_TAB := c ← get; lift (pt_get t (cv_local_tab c)).
Definition upd_tab (t : VALTYPE) (f : LOCAL_TAB -> LOCAL_TAB) : CM unit :=
  l ← tab_of t; modify (fun c => set_local_tab (pt_set t (f l) (cv_local_tab c)) c).
Definition push (e : WASM_STACK_ELEM) : CM unit := modify (fun c => set_stack (e :: cv_stack c) c).
Definition stack_size : CM Z := c ← get; mret (UINT32 (Z.of_nat (length (cv_stack c)))).
(** [wasm_stack.top()], undefined for an empty stack. *)
Definition stack_top : CM WASM_STACK_ELEM := c ← get; lift (of_option Uninit (head (cv_stack c))).
Definition pop : CM unit := modify (fun c => set_stack (tail (cv_stack c)) c).

Definition Get_opc_tyam (opc : Z) : outcome TY_AM := UWINST_TY_AM opc.
Definition add_inst (opc : Z) (t : VALTYPE) (content : list Z) : CM unit :=
  am ← lift (Get_opc_tyam opc); _ ← on_enc (U_ENCODER.Add_inst opc t am (map UINT32 content)); mret tt.

(** ** The stack and the registers *)
Definition Check_stack_elem_valty (rs : WASM_STACK_ELEM) (desired : VALTYPE) : outcome unit :=
  Is_True_Rel (bool_decide (se_val_type rs = desired)).

Definition Pop_wasm_stk (expect : VALTYPE) : CM WASM_STACK_ELEM :=
  c ← get;
  _ ← lift (Is_True (negb (bool_decide (cv_stack c = []))));
  elem ← stack_top;
  _ ← pop;
  if bool_decide (se_kind elem = UNREACHABLE_VALUE) then mret (mkELEM UNREACHABLE_VALUE expect 0 (se_push_stmt elem))
  else
    _ ← when (bool_decide (se_kind elem = TEMP)) (on_regs (REG_ALLOC.Free_register (se_val_type elem) (se_idx elem)));
    if bool_decide (se_val_type elem = VALTY_UNKNOWN) then mret (mkELEM UNREACHABLE_VALUE expect 0 (se_push_stmt elem))
    else if bool_decide (expect = VALTY_UNKNOWN) then mret elem
    else _ ← lift (Check_stack_elem_valty elem expect); mret elem.

(** The part that [Push_temp_reg] and [Allocate_register] share; [stmt] is what the new
  entry of the local table records. *)
Definition Allocate_register (valtype : VALTYPE) (stmt : Z) : CM Z :=
  next ← on_regs (REG_ALLOC.Get_available_reg valtype);
  l ← tab_of valtype;
  _ ← when (tab_size l + RET_REG_NUM <=? next)
        (_ ← upd_tab valtype (tab_push_back (mkTAB_ELEM TEMP valtype stmt));
         l ← tab_of valtype;
         lift (Is_True (next <? tab_size l + RET_REG_NUM)));
  mret next.

Definition Push_temp_reg (ins_cnt : Z) (valtype : VALTYPE) : CM Z :=
  next ← Allocate_register valtype ins_cnt;
  _ ← push (mkELEM TEMP valtype next ins_cnt);
  _ ← lift (Is_True_Rel (next <? 128));
  mret next.

Definition Push_unreachable_value (pc : Z) : CM unit := push (mkELEM UNREACHABLE_VALUE I32 0 pc).

Definition Push_result_to_stack (stmt : WINST_STMT) : CM unit :=
  _ ← lift (Is_True_Rel (bool_decide (st_kind stmt = WINST_STMT_BLOCK)));
  when (0 <? st_result_cnt stmt)
    (_ ← lift (Is_True_Rel (negb (st_result_reg stmt =? 0)));
     push (mkELEM TEMP (valty_of_num (st_result_type stmt)) (st_result_reg stmt) (st_begin_pc stmt))).

Fixpoint pop_n (n : nat) : CM unit :=
  match n with O => mret tt | S n => _ ← Pop_wasm_stk VALTY_UNKNOWN; pop_n n end.

Definition Pop_redundant_values (stmt : WINST_STMT) : CM unit :=
  stack_size ← stack_size;
  let original_size := st_stack_size stmt in
  _ ← lift (if stack_size <? original_size then Is_True_Rel false else Ok tt);
  let pop_all := when (original_size <? stack_size) (pop_n (Z.to_nat (stack_size - original_size))) in
  match st_opcode stmt with
  | Block | Loop => pop_all
  | If => if Has_else stmt then mret tt else pop_all
  | Else => pop_all
  | _ => lift (Is_True_Rel false)
  end.

(** ** Instructions that several cases add *)
Definition Add_mov_inst (rd rs : Z) (valty : VALTYPE) : CM unit := add_inst Opcode.MOV valty [rd; rs].
Definition Add_jump_inst (label_idx opc : Z) : CM unit := add_inst opc I32 [label_idx].
Definition Add_cond_jump_inst (rd label_idx opc : Z) : CM unit := add_inst opc I32 [rd; label_idx].
Definition Add_addi_inst (rd rs imm : Z) : CM unit := add_inst Opcode.ADD_RRI I32 [rd; rs; UINT32 imm].
Definition Add_rrr_inst (opc : Z) (valty : VALTYPE) (rd rs rt : Z) : CM unit := add_inst opc valty [rd; rs; rt].
Definition Add_const_inst (opc : Z) (valty : VALTYPE) (rd imm : Z) : CM unit := add_inst opc valty [rd; imm].

(** The move of a result before a branch; how many values were used. *)
Definition Add_mov_for_break (target_blk_stmtid : Z) (pop_stack : bool) : CM Z :=
  target_stmt ← stmt_at target_blk_stmtid;
  if 0 <? st_result_cnt target_stmt then
    let t := valty_of_num (st_result_type target_stmt) in
    c ← get;
    if bool_decide (cv_stack c = []) then mret 0
    else
      rs ← (if pop_stack then Pop_wasm_stk t else stack_top);
      _ ← lift (Check_stack_elem_valty rs t);
      _ ← Add_mov_inst (st_result_reg target_stmt) (se_idx rs) t;
      mret 1
  else mret 0.

Definition Add_end_of_block_label (parent_stmt : WINST_STMT) : CM unit :=
  end_label_id ← on_enc (Add_label false (st_id parent_stmt) true);
  _ ← lift (Is_True (end_label_id =? st_end_label parent_stmt));
  when (bool_decide (st_opcode parent_stmt = Else))
    (end_if_label_id ← on_enc (Add_label false (st_else_stmt_id parent_stmt) true);
     if_stmt ← stmt_at (st_else_stmt_id parent_stmt);
     lift (Is_True_Rel (end_if_label_id =? st_end_label if_stmt))).

Definition Get_wasm_local_ty (idx : Z) : CM LOCAL_MAP_ELEM :=
  c ← get;
  _ ← lift (Is_True (idx <? Z.of_nat (length (cv_local_map c))));
  lift (vec_at (cv_local_map c) (Z.to_nat idx)).
Definition Get_tab_idx_by_reg_idx (r : Z) : Z := r - CONST_REG_NUM - RET_REG_NUM.

(** The labels of [br_table]. *)
Fixpoint read_br_labels (fuel : nat) (i vec_size : Z) (pc : list Z) : outcome (list Z * list Z) :=
  if vec_size <=? i then mret ([], pc) else
  match fuel with
  | O => Err MemFault
  | S fuel =>
      l ← Read_leb128 pc;
      next_opr_size ← Read_opr_size_leb128 pc;
      '(ls, pc) ← read_br_labels fuel (i + 1) vec_size (drop (Z.to_nat next_opr_size) pc);
      mret (UINT32 l :: ls, pc)
  end.
Definition Read_br_table_lbl_vec (pc : list Z) : outcome (list Z) :=
  vec_size ← Read_leb128 pc;
  vec_size_field_len ← Read_opr_size_leb128 pc;
  let pc := drop (Z.to_nat vec_size_field_len) pc in
  '(ls, pc) ← read_br_labels (length pc) 0 (UINT32 vec_size) pc;
  l ← Read_leb128 pc;
  let br_labels := ls ++ [UINT32 l] in
  _ ← Is_True_Rel (UINT32 (UINT32 vec_size + 1) =? Z.of_nat (length br_labels));
  mret br_labels.

(** ** [Create_ubh_code] *)
Fixpoint add_params (types : list Z) : CM (list VALTYPE) :=
  match types with
  | [] => mret []
  | t :: types =>
      valtype ← lift (Conv_wabt_ty (UINT32 t));
      _ ← lift (Is_True (valty_num valtype <? VALTY_COUNT));
      _ ← upd_tab valtype (tab_push_back (mkTAB_ELEM FORMAL_PARAM valtype 0));
      l ← tab_of valtype;
      e ← lift (LOCAL_MAP_ELEM_new (tab_size l) valtype FORMAL_PARAM);
      _ ← modify (fun c => set_local_map (cv_local_map c ++ [e]) c);
      ts ← add_params types; mret (valtype :: ts)
  end.
Fixpoint add_locals (types : list Z) : CM unit :=
  match types with
  | [] => mret tt
  | t :: types =>
      ty ← lift (Conv_wabt_ty (UINT32 t));
      _ ← upd_tab ty (tab_push_back (mkTAB_ELEM LOCAL ty 0));
      l ← tab_of ty;
      e ← lift (LOCAL_MAP_ELEM_new (tab_size l) ty LOCAL);
      _ ← modify (fun c => set_local_map (cv_local_map c ++ [e]) c);
      add_locals types
  end.
Fixpoint preoccupy (ts : list VALTYPE) : CM unit :=
  match ts with
  | [] => mret tt
  | t :: ts => l ← tab_of t; _ ← on_regs (REG_ALLOC.Preoccupy_registers t RET_REG_NUM (tab_size l)); preoccupy ts
  end.
Fixpoint conv_types (types : list Z) : outcome (list VALTYPE) :=
  match types with [] => mret [] | t :: types => x ← Conv_wabt_ty (UINT32 t); xs ← conv_types types; mret (x :: xs) end.
Definition pt_map {A B} (f : A -> B) (p : per_type A) : per_type B := mkPT (f (pt_i32 p)) (f (pt_i64 p)) (f (pt_f32 p)) (f (pt_f64 p)).

Definition func_name_of (func : WABT_FUNC) : CM (list Z) :=
  c ← get;
  match Get_func_name_cache (fc_func_idx (cv_ctx c)) (cv_ctx c) with
  | Some name => mret name
  | None => if bool_decide (wf_name func = []) then on_ctx Get_anon_func_name else mret (wf_name func)
  end.

Definition Create_ubh_code (func : WABT_FUNC) : CM Z :=
  parm_list ← add_params (sg_params (wf_sig func));
  _ ← add_locals (wf_locals func);
  _ ← preoccupy VALTYPES;
  c ← get;
  let local_num_for_type := pt_map (fun l => UINT32 (tab_size l + RET_REG_NUM)) (cv_local_tab c) in
  ret_list ← lift (conv_types (sg_results (wf_sig func)));
  type_idx ← on_enc (U_ENCODER.Add_type ret_list parm_list);
  cur_func_name ← func_name_of func;
  func_idx ← on_enc (U_ENCODER.Request_func cur_func_name type_idx 0);
  _ ← on_enc (U_ENCODER.Start_func func_idx (pt_tuple local_num_for_type) (0, 0, 0, 0) 0);
  mret func_idx.

Definition Conv_type_idx (sg : WABT_SIG) : CM Z :=
  parm_list ← lift (conv_types (sg_params sg));
  ret_list ← lift (conv_types (sg_results sg));
  on_enc (U_ENCODER.Add_type ret_list parm_list).

(** The locals that are not parameters start as zero. *)
Fixpoint init_locals (locals : list LOCAL_MAP_ELEM) : CM unit :=
  match locals with
  | [] => mret tt
  | e :: locals =>
      _ ← lift (Is_True (bool_decide (lm_map_kind e = LOCAL)));
      _ ← match lm_ty e with
          | I32 | I64 => Add_const_inst Opcode.CONST (lm_ty e) (lm_reg_idx e) 0
          | F32 => Add_const_inst Opcode.CONST_L F32 (lm_reg_idx e) 0
          | F64 => _ ← Add_const_inst Opcode.CONST_L F64 (lm_reg_idx e) 0; Add_const_inst Opcode.CONST_L_HIGH F64 (lm_reg_idx e) 0
          | _ => mret tt
          end;
      init_locals locals
  end.
End Converter.
