(* ===== verification/Convert.v ===== *)
(** * The converter: instructions and functions

  [Wasm_to_uwasm] of [src/wasm/converter.cxx]: a definition per case of its switch, the
  loop, and the repair of the moves around calls. *)

From S2P Require Import Prelude CInt BitField Isa Inst Ubh UModule StrTab TypeEncoder Encoder Leb128 Winst LocalTable Graph Converter.
From stdpp Require Import strings.
From Stdlib Require Import ZArith Lia.
Local Open Scope Z_scope.
Import WINST.

(** How a case ends: [continue], or [break] to the instruction added after the switch. *)
Inductive CFLOW : Type :=
  | CONTINUE_LOOP
  | ADD_INST (uwasm_inst : U_OPC_TY_PAIR) (content : list Z).

Section Convert.
Context {bd : Build} {vg : VectorGrowth} {cb : ConvBuild}.
Variable module : WABT_MODULE.
(** The code of the function. *)
Variable buf : list Z.
Variable func : WABT_FUNC.
Variable func_id : Z.

(** The bytes from [wasm_inst->Pc() + 1] on. *)
Definition operand (inst : WASM_INST) : list Z := drop (_wasm_pc inst + 1) buf.
Definition read_u32 (pc : list Z) : outcome Z := v ← Read_leb128 pc; mret (UINT32 v).

(** A register for the result of a block, in [block], [loop] and [if]. *)
Definition alloc_result (cur ins_cnt : Z) : CM unit :=
  s ← stmt_at cur;
  when (0 <? st_result_cnt s)
    (reg_id ← Allocate_register (valty_of_num (st_result_type s)) ins_cnt; upd cur (Set_result_reg reg_id)).
Definition record_stack_size (id : Z) : CM unit := n ← stack_size; upd id (Set_stack_size n).

Definition conv_block (cur ins_cnt : Z) : CM CFLOW :=
  _ ← alloc_result cur ins_cnt;
  _ ← record_stack_size cur;
  mret CONTINUE_LOOP.

Definition conv_loop (cur ins_cnt : Z) : CM CFLOW :=
  label_id ← on_enc (Add_label true cur true);
  s ← stmt_at cur;
  _ ← lift (Is_True (bool_decide (st_kind s = WINST_STMT_BLOCK)));
  _ ← lift (Is_True (st_begin_label s =? label_id));
  _ ← alloc_result cur ins_cnt;
  _ ← record_stack_size cur;
  mret CONTINUE_LOOP.

Definition conv_else (u : U_OPC_TY_PAIR) (cur : Z) : CM CFLOW :=
  s ← stmt_at cur;
  _ ← Add_mov_for_break (st_id s) false;
  s ← stmt_at cur;
  _ ← add_inst (pr_opcode u) (pr_valty u) [st_end_label s];
  label_id ← on_enc (Add_label true (st_id s) true);
  _ ← lift (Is_True (bool_decide (st_kind s = WINST_STMT_BLOCK)));
  _ ← lift (Is_True (st_begin_label s =? label_id));
  mret CONTINUE_LOOP.

Definition conv_br (u : U_OPC_TY_PAIR) (inst : WASM_INST) (ins_cnt : Z) : CM CFLOW :=
  jump_cnt ← lift (read_u32 (operand inst));
  target_label_id ← graph_get (Get_label_id_for_jump ins_cnt jump_cnt);
  _ ← lift (Is_True (negb (target_label_id =? UINT32 UNINIT_LABEL_IDX)));
  target_blk_stmtid ← graph_get (fun g => Get_parent_stmt_for_branch ins_cnt g jump_cnt);
  _ ← Add_mov_for_break target_blk_stmtid false;
  mret (ADD_INST u [target_label_id]).

Definition conv_if (u : U_OPC_TY_PAIR) (cur ins_cnt : Z) : CM CFLOW :=
  rd ← Pop_wasm_stk I32;
  s ← stmt_at cur;
  _ ← when (0 <? st_result_cnt s)
        (reg_id ← Allocate_register (valty_of_num (st_result_type s)) ins_cnt;
         _ ← upd cur (Set_result_reg reg_id);
         when (Has_else s) (upd (st_else_stmt_id s) (Set_result_reg reg_id)));
  target_label_id ← (if Has_else s then e ← stmt_at (st_else_stmt_id s); mret (st_begin_label e) else mret (st_end_label s));
  _ ← lift (Check_stack_elem_valty rd I32);
  _ ← record_stack_size cur;
  _ ← when (Has_else s) (record_stack_size (st_else_stmt_id s));
  mret (ADD_INST u [se_idx rd; target_label_id]).

Definition conv_br_if (u : U_OPC_TY_PAIR) (inst : WASM_INST) (ins_cnt : Z) : CM CFLOW :=
  c ← get;
  _ ← lift (Is_True (negb (bool_decide (cv_stack c = []))));
  rd ← Pop_wasm_stk I32;
  br_cnt ← lift (read_u32 (operand inst));
  target_label_id ← graph_get (Get_label_id_for_jump ins_cnt br_cnt);
  target_blk_stmtid ← graph_get (fun g => Get_parent_stmt_for_branch ins_cnt g br_cnt);
  _ ← Add_mov_for_break target_blk_stmtid false;
  mret (ADD_INST u [se_idx rd; target_label_id]).

(** The moves before the jumps of [br_table], and the jumps. *)
Fixpoint br_table_movs (ins_cnt : Z) (targets : list Z) : CM unit :=
  match targets with
  | [] => mret tt
  | t :: targets =>
      target_blk_stmtid ← graph_get (fun g => Get_parent_stmt_for_branch ins_cnt g t);
      _ ← Add_mov_for_break target_blk_stmtid false;
      br_table_movs ins_cnt targets
  end.
Fixpoint br_table_jumps (ins_cnt rtemp : Z) (labels : list Z) : CM unit :=
  match labels with
  | [] => mret tt
  | [l] =>
      target_label_id ← graph_get (Get_label_id_for_jump ins_cnt l);
      Add_jump_inst target_label_id Opcode.JMP
  | l :: labels =>
      target_label_id ← graph_get (Get_label_id_for_jump ins_cnt l);
      _ ← Add_cond_jump_inst rtemp target_label_id Opcode.JEZ;
      _ ← Add_addi_inst rtemp rtemp (-1);
      br_table_jumps ins_cnt rtemp labels
  end.

Definition conv_br_table (inst : WASM_INST) (ins_cnt : Z) : CM CFLOW :=
  _ ← Push_temp_reg ins_cnt I32;
  rtemp ← Pop_wasm_stk I32;
  c ← get;
  _ ← lift (Is_True (negb (bool_decide (cv_stack c = []))));
  rd ← Pop_wasm_stk I32;
  br_labels ← lift (Read_br_table_lbl_vec (operand inst));
  _ ← lift (Is_True_Rel (0 <? Z.of_nat (length br_labels)));
  _ ← Add_mov_inst (se_idx rtemp) (se_idx rd) I32;
  _ ← br_table_movs ins_cnt (sorted_set br_labels);
  _ ← br_table_jumps ins_cnt (se_idx rtemp) br_labels;
  mret CONTINUE_LOOP.

Definition conv_global_get (u : U_OPC_TY_PAIR) (inst : WASM_INST) (ins_cnt : Z) : CM CFLOW :=
  global_idx ← lift (Read_leb128 (operand inst));
  c ← get;
  let uwasm_glbl_id := Get_global_uwasm_id (UINT32 global_idx) (cv_ctx c) in
  wasmty ← lift (GetGlobal module (UINT32 global_idx));
  valty ← lift (Conv_wabt_ty (UINT32 wasmty));
  rd ← Push_temp_reg ins_cnt valty;
  mret (ADD_INST (Set_valty valty u) [rd; uwasm_glbl_id]).
Definition conv_global_set (u : U_OPC_TY_PAIR) (inst : WASM_INST) : CM CFLOW :=
  global_idx ← lift (Read_leb128 (operand inst));
  c ← get;
  let uwasm_glbl_id := Get_global_uwasm_id (UINT32 global_idx) (cv_ctx c) in
  wasmty ← lift (GetGlobal module (UINT32 global_idx));
  valty ← lift (Conv_wabt_ty (UINT32 wasmty));
  rs ← Pop_wasm_stk valty;
  mret (ADD_INST (Set_valty valty u) [se_idx rs; uwasm_glbl_id]).

Definition conv_select (ins_cnt : Z) : CM CFLOW :=
  _ ← Push_temp_reg ins_cnt I32;
  rtemp ← Pop_wasm_stk I32;
  c ← get;
  _ ← lift (Is_True_Rel (3 <=? Z.of_nat (length (cv_stack c))));
  select_bool ← Pop_wasm_stk I32;
  rs ← Pop_wasm_stk VALTY_UNKNOWN;
  let valty := se_val_type rs in
  rt ← Pop_wasm_stk valty;
  rd ← Push_temp_reg ins_cnt valty;
  let label_name := bytes_of ".L_select_"%string ++ decimal ins_cnt in
  label_idx ← on_enc (U_ENCODER.Request_label label_name);
  _ ← (if rd =? se_idx rt then
         _ ← Add_cond_jump_inst (se_idx select_bool) label_idx Opcode.JNZ;
         Add_mov_inst rd (se_idx rs) valty
       else if se_idx select_bool =? rd then
         _ ← Add_mov_inst (se_idx rtemp) (se_idx select_bool) I32;
         _ ← Add_mov_inst rd (se_idx rs) valty;
         _ ← Add_cond_jump_inst (se_idx rtemp) label_idx Opcode.JEZ;
         Add_mov_inst rd (se_idx rt) valty
       else
         _ ← Add_mov_inst rd (se_idx rs) valty;
         _ ← Add_cond_jump_inst (se_idx select_bool) label_idx Opcode.JEZ;
         Add_mov_inst rd (se_idx rt) valty);
  result_label_idx ← on_enc (U_ENCODER.Add_label label_name);
  _ ← lift (Is_True_Rel (result_label_idx =? label_idx));
  mret CONTINUE_LOOP.

Definition conv_local_get (inst : WASM_INST) (ins_cnt : Z) : CM CFLOW :=
  local_idx ← lift (read_u32 (operand inst));
  rs ← Get_wasm_local_ty local_idx;
  l ← tab_of (lm_ty rs);
  tab_elem ← lift (tab_Get (UINT32 (Get_tab_idx_by_reg_idx (lm_reg_idx rs))) l);
  _ ← push (mkELEM (le_kind tab_elem) (lm_ty rs) (lm_reg_idx rs) ins_cnt);
  mret CONTINUE_LOOP.
Definition conv_local_set (u : U_OPC_TY_PAIR) (inst : WASM_INST) : CM CFLOW :=
  local_idx ← lift (read_u32 (operand inst));
  rd ← Get_wasm_local_ty local_idx;
  rs ← Pop_wasm_stk (lm_ty rd);
  mret (ADD_INST (Set_valty (se_val_type rs) u) [lm_reg_idx rd; se_idx rs]).
Definition conv_local_tee (u : U_OPC_TY_PAIR) (inst : WASM_INST) : CM CFLOW :=
  local_idx ← lift (read_u32 (operand inst));
  rd ← Get_wasm_local_ty local_idx;
  rs ← stack_top;
  _ ← lift (Check_stack_elem_valty rs (lm_ty rd));
  mret (ADD_INST (Set_valty (se_val_type rs) u) [lm_reg_idx rd; se_idx rs]).

(** [pc] of the offset: after the alignment. *)
Definition offset_pc (inst : WASM_INST) : outcome (list Z) :=
  n ← Read_opr_size_leb128 (operand inst); mret (drop (Z.to_nat n) (operand inst)).

(** The three forms of an access with an offset: short, long, and long with the address
  computed in a register. *)
Definition mem_access (u : U_OPC_TY_PAIR) (rd rs rtemp offset : Z) : CM CFLOW :=
  if (OFFSET_S_MAX <? offset) || (REG_S_MAX <? rs) || (REG_S_MAX <? rd) then
    _ ← lift (Is_True_Rel (offset <=? OFFSET_L_MAX));
    long ← lift (Conv_to_long_opcode (pr_opcode u));
    let u := Set_opcode long u in
    if OFFSET_M_MAX <=? offset then
      _ ← Add_const_inst Opcode.CONST_L I32 rtemp offset;
      _ ← Add_rrr_inst Opcode.ADD I32 rtemp rs rtemp;
      mret (ADD_INST u [rd; rtemp; 0])
    else mret (ADD_INST u [rd; rs; offset])
  else mret (ADD_INST u [rd; rs; offset]).

Definition conv_load (u : U_OPC_TY_PAIR) (inst : WASM_INST) (ins_cnt : Z) : CM CFLOW :=
  pc ← lift (offset_pc inst);
  rtemp_idx ← Push_temp_reg ins_cnt I32;
  _ ← Pop_wasm_stk I32;
  rs ← Pop_wasm_stk I32;
  rd ← Push_temp_reg ins_cnt (pr_valty u);
  offset ← lift (Read_leb128 pc);
  _ ← lift (Is_True_Rel (offset <=? OFFSET_L_MAX));
  mem_access u rd (se_idx rs) rtemp_idx offset.

Definition conv_store (u : U_OPC_TY_PAIR) (inst : WASM_INST) (ins_cnt : Z) : CM CFLOW :=
  pc ← lift (offset_pc inst);
  rtemp_idx ← Push_temp_reg ins_cnt I32;
  _ ← Pop_wasm_stk I32;
  rd ← Pop_wasm_stk (pr_valty u);
  rs ← Pop_wasm_stk I32;
  offset ← lift (Read_leb128 pc);
  _ ← lift (Is_True_Rel (offset <? 0x7FFFFFFF));
  mem_access u (se_idx rd) (se_idx rs) rtemp_idx offset.

Definition conv_const64 (u : U_OPC_TY_PAIR) (inst : WASM_INST) (ins_cnt : Z) : CM CFLOW :=
  rd ← Push_temp_reg ins_cnt (pr_valty u);
  const_value ← lift (Read_const_value (operand inst) (pr_valty u));
  _ ← add_inst Opcode.CONST_L (pr_valty u) [rd; Z.land const_value 0xFFFFFFFF];
  mret (ADD_INST u [rd; Z.shiftr const_value 32]).
Definition conv_const32 (u : U_OPC_TY_PAIR) (inst : WASM_INST) (ins_cnt : Z) : CM CFLOW :=
  rd ← Push_temp_reg ins_cnt (pr_valty u);
  const_value ← lift (Read_const_value (operand inst) (pr_valty u));
  mret (ADD_INST u [rd; Z.land const_value 0xFFFFFFFF]).

Definition conv_memory_grow (u : U_OPC_TY_PAIR) (ins_cnt : Z) : CM CFLOW :=
  rs ← Pop_wasm_stk I32;
  rd ← Push_temp_reg ins_cnt (pr_valty u);
  mret (ADD_INST u [rd; se_idx rs]).
Definition conv_memory_size (u : U_OPC_TY_PAIR) (ins_cnt : Z) : CM CFLOW :=
  rd ← Push_temp_reg ins_cnt (pr_valty u);
  mret (ADD_INST u [rd]).

(** Comparisons, binary operators. *)
Definition conv_compare (u : U_OPC_TY_PAIR) (ins_cnt : Z) : CM CFLOW :=
  rt ← Pop_wasm_stk VALTY_UNKNOWN;
  rs ← Pop_wasm_stk (se_val_type rt);
  rd ← Push_temp_reg ins_cnt I32;
  mret (ADD_INST u [rd; se_idx rs; se_idx rt]).
Definition conv_binary (u : U_OPC_TY_PAIR) (ins_cnt : Z) : CM CFLOW :=
  rt ← Pop_wasm_stk VALTY_UNKNOWN;
  rs ← Pop_wasm_stk (se_val_type rt);
  _ ← lift (Is_True_Rel (bool_decide (se_val_type rs = se_val_type rt)));
  rd ← Push_temp_reg ins_cnt (pr_valty u);
  mret (ADD_INST u [rd; se_idx rs; se_idx rt]).
Definition conv_copysign (u : U_OPC_TY_PAIR) (inst : WASM_INST) (ins_cnt : Z) : CM CFLOW :=
  rt ← Pop_wasm_stk (pr_valty u);
  rs ← Pop_wasm_stk (pr_valty u);
  rd ← Push_temp_reg ins_cnt (pr_valty u);
  code ← lift (Conv_wasm_opc_to_builtin (Encode inst));
  mret (ADD_INST u [rd; se_idx rs; UINT32 (UINT32 (Z.shiftl (se_idx rt) 16) + code)]).
Definition conv_unary (u : U_OPC_TY_PAIR) (ins_cnt : Z) : CM CFLOW :=
  rs ← Pop_wasm_stk (pr_valty u);
  rd ← Push_temp_reg ins_cnt (pr_valty u);
  mret (ADD_INST u [rd; se_idx rs]).
Definition conv_builtin (u : U_OPC_TY_PAIR) (inst : WASM_INST) (ins_cnt : Z) : CM CFLOW :=
  rs ← Pop_wasm_stk VALTY_UNKNOWN;
  rd ← Push_temp_reg ins_cnt (pr_valty u);
  code ← lift (Conv_wasm_opc_to_builtin (Encode inst));
  mret (ADD_INST u [rd; se_idx rs; code]).
Definition conv_eqz (u : U_OPC_TY_PAIR) (ins_cnt : Z) : CM CFLOW :=
  rs ← Pop_wasm_stk (pr_valty u);
  rd ← Push_temp_reg ins_cnt I32;
  mret (ADD_INST u [rd; se_idx rs]).

(** ** Calls *)

(** The arguments, the last first. *)
Fixpoint pop_params (types : list Z) : CM (list WASM_STACK_ELEM) :=
  match types with
  | [] => mret []
  | t :: types =>
      rs ← Pop_wasm_stk VALTY_UNKNOWN;
      expected ← lift (Conv_wabt_ty (UINT32 t));
      _ ← lift (Is_True_Rel (bool_decide (expected = se_val_type rs)));
      es ← pop_params types; mret (rs :: es)
  end.
(** The moves of the arguments, whose targets are repaired later; the number of
  arguments per type. *)
Fixpoint mov_params (params : list WASM_STACK_ELEM) (types : list Z) (num : per_type Z) : CM (per_type Z) :=
  match params with
  | [] => mret num
  | rs :: params =>
      let mov_inst := UOPCODE_inst Opcode.MOV (se_val_type rs) in
      n ← lift (pt_get (se_val_type rs) num);
      _ ← add_inst (pr_opcode mov_inst) (pr_valty mov_inst) [0; se_idx rs];
      t ← lift (of_option NullFault (head types));
      ty ← lift (Conv_wabt_ty (UINT32 t));
      _ ← lift (Is_True (bool_decide (ty = se_val_type rs)));
      mov_params params (tail types) (pt_set (se_val_type rs) (UINT32 (n + 1)) num)
  end.
Fixpoint raise_call_params (ts : list VALTYPE) (num : per_type Z) : CM unit :=
  match ts with
  | [] => mret tt
  | t :: ts =>
      l ← tab_of t; n ← lift (pt_get t num);
      _ ← when (_max_call_param l <? n) (upd_tab t (Set_max_call_param n));
      raise_call_params ts num
  end.
Definition inst_size : CM Z :=
  c ← get; b ← lift (U_ENCODER.Get_inst_encoder func_id (cv_enc c)); mret (UINT32 (Z.of_nat (length (U_CODE_BODY._inst_tab b)))).
Fixpoint take_results (ins_cnt : Z) (types : list Z) : CM unit :=
  match types with
  | [] => mret tt
  | t :: types =>
      valty ← lift (Conv_wabt_ty (UINT32 t));
      tmp_idx ← Push_temp_reg ins_cnt valty;
      let mov_inst := UOPCODE_inst Opcode.MOV valty in
      _ ← add_inst (pr_opcode mov_inst) (pr_valty mov_inst) [tmp_idx; 0];
      take_results ins_cnt types
  end.

Definition conv_call (u : U_OPC_TY_PAIR) (inst : WASM_INST) (ins_cnt : Z) : CM CFLOW :=
  let indirect := bool_decide (Encode inst = CallIndirect) in
  callee_idx_or_type_idx ← lift (read_u32 (operand inst));
  callee ← lift (if indirect then GetFuncType module callee_idx_or_type_idx
                 else f ← GetFunc module callee_idx_or_type_idx; mret (wf_sig f));
  callee_idx_elem ← (if indirect then Pop_wasm_stk I32 else mret (mkELEM TEMP I64 0 ins_cnt));
  params ← pop_params (reverse (sg_params callee));
  call_param_num ← mov_params (reverse params) (sg_params callee) (pt_all 0);
  _ ← raise_call_params VALTYPES call_param_num;
  call_pc ← inst_size;
  _ ← modify (fun c => set_pc_map (insert_new ins_cnt call_pc (cv_pc_map c)) (set_calls (cv_calls c ++ [call_pc]) c));
  _ ← (if indirect then
         _ ← lift (Is_True (bool_decide (se_val_type callee_idx_elem = I32)));
         sg ← lift (GetFuncType module callee_idx_or_type_idx);
         _ ← Conv_type_idx sg;
         _ ← modify (fun c => set_icall (insert_new call_pc callee_idx_or_type_idx (cv_icall c)) c);
         add_inst (pr_opcode u) (pr_valty u) [se_idx callee_idx_elem]
       else add_inst (pr_opcode u) (pr_valty u) [callee_idx_or_type_idx]);
  _ ← lift (Is_True (Z.of_nat (length (sg_results callee)) <? 2));
  _ ← take_results ins_cnt (sg_results callee);
  mret CONTINUE_LOOP.

(** ** [return], [end] *)
Fixpoint return_results (i : Z) (types : list Z) : CM unit :=
  match types with
  | [] => mret tt
  | t :: types =>
      valty ← lift (Conv_wabt_ty (UINT32 t));
      rs ← Pop_wasm_stk valty;
      let mov_inst := UOPCODE_inst Opcode.MOV (se_val_type rs) in
      _ ← add_inst (pr_opcode mov_inst) (pr_valty mov_inst) [UINT32 (i + CONST_REG_NUM); se_idx rs];
      return_results (i + 1) types
  end.
Definition conv_return (u : U_OPC_TY_PAIR) : CM CFLOW :=
  _ ← lift (Is_True (Z.of_nat (length (sg_results (wf_sig func))) <? 3));
  _ ← return_results 0 (sg_results (wf_sig func));
  mret (ADD_INST u []).

Fixpoint end_results (i : Z) (n : nat) : CM unit :=
  match n with
  | O => mret tt
  | S n =>
      rs ← Pop_wasm_stk VALTY_UNKNOWN;
      let mov_inst := UOPCODE_inst Opcode.MOV (se_val_type rs) in
      _ ← add_inst (pr_opcode mov_inst) (pr_valty mov_inst) [UINT32 (i + CONST_REG_NUM); se_idx rs];
      end_results (i + 1) n
  end.

(** The end of a block that is not the function. *)
Definition conv_block_end (u : U_OPC_TY_PAIR) (parent_id : Z) : CM CFLOW :=
  parent_stmt ← stmt_at parent_id;
  c ← get;
  if bool_decide (se_kind <$> head (cv_stack c) = Some UNREACHABLE_VALUE) then
    _ ← pop;
    _ ← Pop_redundant_values parent_stmt;
    _ ← Push_result_to_stack parent_stmt;
    _ ← Add_end_of_block_label parent_stmt;
    mret (ADD_INST u [])
  else
    let t := valty_of_num (st_result_type parent_stmt) in
    _ ← when ((0 <? st_result_cnt parent_stmt)
              && bool_decide (st_opcode parent_stmt = Block \/ st_opcode parent_stmt = Else \/ st_opcode parent_stmt = If))
          (rs ← (if bool_decide (st_opcode parent_stmt = If) && Has_else parent_stmt then stack_top else Pop_wasm_stk t);
           _ ← lift (Is_True_Rel (bool_decide (se_val_type rs = t)));
           _ ← lift (Is_True (negb (st_result_reg parent_stmt =? 0)));
           Add_mov_inst (st_result_reg parent_stmt) (se_idx rs) t);
    _ ← Add_end_of_block_label parent_stmt;
    _ ← Pop_redundant_values parent_stmt;
    _ ← Push_result_to_stack parent_stmt;
    mret CONTINUE_LOOP.

(** The stack from its first unreachable value on. *)
Fixpoint from_unreachable (stk : WASMSTK) : option WASMSTK :=
  match stk with
  | [] => None
  | e :: stk' => if bool_decide (se_kind e = UNREACHABLE_VALUE) then Some stk else from_unreachable stk'
  end.

Definition conv_func_end (u : U_OPC_TY_PAIR) (ins_cnt : Z) : CM CFLOW :=
  let res_num := length (sg_results (wf_sig func)) in
  _ ← lift (Is_True (Z.of_nat res_num <? 3));
  c ← get;
  if (res_num =? 0)%nat then mret (ADD_INST u [])
  else match from_unreachable (cv_stack c) with
  | Some stk => _ ← modify (set_stack stk); mret CONTINUE_LOOP
  | None =>
      if negb (bool_decide (cv_stack c = [])) && (length (cv_stack c) =? res_num)%nat then
        _ ← end_results 0 res_num; mret (ADD_INST u [])
      else
        prev ← graph_get (Stmt_by_inst (ins_cnt - 1));
        if bool_decide (st_opcode prev = Return) then mret CONTINUE_LOOP
        else _ ← lift (Is_True_Rel (negb (fc_stack_check (cv_ctx c)))); mret (ADD_INST u [])
  end.

Definition conv_end (u : U_OPC_TY_PAIR) (cur ins_cnt : Z) : CM CFLOW :=
  s ← stmt_at cur;
  parent_id ← lift (of_option Uninit (st_parent s));
  parent_stmt ← stmt_at parent_id;
  if bool_decide (st_kind parent_stmt = WINST_STMT_ROOT_BLOCK) then conv_func_end u ins_cnt
  else conv_block_end u parent_id.

(** ** The switch *)
Definition conv_switch (u : U_OPC_TY_PAIR) (inst : WASM_INST) (cur ins_cnt : Z) : CM CFLOW :=
  match Encode inst with
  | Block => conv_block cur ins_cnt
  | Loop => conv_loop cur ins_cnt
  | Else => conv_else u cur
  | Br => conv_br u inst ins_cnt
  | If => conv_if u cur ins_cnt
  | BrOnExn => _ ← lift (Is_True_Rel false); conv_br_if u inst ins_cnt
  | BrIf => conv_br_if u inst ins_cnt
  | BrTable => conv_br_table inst ins_cnt
  | Drop => _ ← Pop_wasm_stk VALTY_UNKNOWN; mret CONTINUE_LOOP
  | GlobalGet => conv_global_get u inst ins_cnt
  | GlobalSet => conv_global_set u inst
  | Unreachable => _ ← Push_unreachable_value ins_cnt; mret CONTINUE_LOOP
  | Select => conv_select ins_cnt
  | Nop => mret CONTINUE_LOOP
  | LocalGet => conv_local_get inst ins_cnt
  | LocalSet => conv_local_set u inst
  | LocalTee => conv_local_tee u inst
  | I32Load8S | I32Load8U | I32Load16S | I32Load16U | I64Load8S | I64Load8U | I64Load16S | I64Load16U | I64Load32S
  | I64Load32U | I32Load | I64Load | F32Load | F64Load => conv_load u inst ins_cnt
  | I32Store8 | I32Store16 | I64Store8 | I64Store16 | I64Store32 | I32Store | I64Store | F32Store | F64Store =>
      conv_store u inst ins_cnt
  | I64Const | F64Const => conv_const64 u inst ins_cnt
  | I32Const | F32Const => conv_const32 u inst ins_cnt
  | MemoryGrow => conv_memory_grow u ins_cnt
  | MemorySize => conv_memory_size u ins_cnt
  | I32LtS | I32LtU | I64LtS | I64LtU | F32Lt | F64Lt | I32LeS | I32LeU | I64LeS | I64LeU | F32Le | F64Le
  | I32GtS | I32GtU | I64GtS | I64GtU | F32Gt | F64Gt | I32GeS | I32GeU | I64GeS | I64GeU | F32Ge | F64Ge
  | I32Ne | I64Ne | F32Ne | F64Ne | I32Eq | I64Eq | F32Eq | F64Eq => conv_compare u ins_cnt
  | I32Add | I64Add | F32Add | F64Add | I32Sub | I64Sub | F32Sub | F64Sub | I32Mul | I64Mul | F32Mul | F64Mul
  | I32DivS | I64DivS | F32Div | F64Div | I32DivU | I64DivU | I32And | I64And | I32Xor | I64Xor | I32Or | I64Or
  | I32Shl | I64Shl | I32ShrU | I64ShrU | I32ShrS | I64ShrS | I32Rotl | I32Rotr | I64Rotl | I64Rotr
  | I32RemU | I64RemU | I32RemS | I64RemS => conv_binary u ins_cnt
  | F32Copysign | F64Copysign => conv_copysign u inst ins_cnt
  | F32Neg | F32Ceil | F32Floor | F32Sqrt | F64Neg | F64Ceil | F64Floor | F64Sqrt => conv_unary u ins_cnt
  | I32Clz | I32Ctz | I32Popcnt | I64Clz | I64Ctz | I64Popcnt | I32WrapI64 | I32TruncF32S | I32TruncF32U | I32TruncF64S
  | I32TruncF64U | I64ExtendI32S | I64ExtendI32U | I64TruncF32S | I64TruncF32U | I64TruncF64S | I64TruncF64U
  | F32ConvertI32S | F32ConvertI32U | F32ConvertI64S | F32ConvertI64U | F32DemoteF64 | F64ConvertI32S | F64ConvertI32U
  | F64ConvertI64S | F64ConvertI64U | F64PromoteF32 | I32ReinterpretF32 | I64ReinterpretF64 | F32ReinterpretI32
  | F64ReinterpretI64 | F32Trunc | F32Nearest | F32Abs | F64Trunc | F64Nearest | F64Abs => conv_builtin u inst ins_cnt
  | I64Eqz | I32Eqz => conv_eqz u ins_cnt
  | CallIndirect | Call => conv_call u inst ins_cnt
  | Return => conv_return u
  | End => conv_end u cur ins_cnt
  | _ => _ ← lift (Is_True false); mret CONTINUE_LOOP
  end.

(** An iteration of the loop. *)
Definition conv_inst (inst : WASM_INST) (ins_cnt : Z) : CM unit :=
  u ← lift (UOPCODE_from_wasm (Encode inst));
  cur ← graph_get (Get_stmt_id_by_inst ins_cnt);
  _ ← stmt_at cur;
  _ ← lift (Get_ty_am u);
  pc ← inst_size;
  _ ← modify (fun c => set_pc_map (insert_new ins_cnt pc (cv_pc_map c)) c);
  r ← conv_switch u inst cur ins_cnt;
  match r with
  | CONTINUE_LOOP => mret tt
  | ADD_INST u content => add_inst (pr_opcode u) (pr_valty u) content
  end.
Fixpoint conv_insts (insts : list WASM_INST) (ins_cnt : Z) : CM unit :=
  match insts with
  | [] => mret tt
  | inst :: insts => _ ← conv_inst inst ins_cnt; conv_insts insts (ins_cnt + 1)
  end.

(** ** The moves around calls

  Their registers in the window of the callee are known once all locals are. *)
Definition code_body : CM U_CODE_BODY.t := c ← get; lift (U_ENCODER.Get_inst_encoder func_id (cv_enc c)).
(** What is done through the reference [Get_inst_encoder(func_id)]. *)
Definition upd_body (f : U_CODE_BODY.t -> U_CODE_BODY.t) : CM unit := fun c =>
  match U_ENCODER.Get_inst_encoder func_id (cv_enc c) with
  | Ok b =>
      let i := Z.to_nat (UINT32 (func_id - U_ENCODER.num_imports (U_ENCODER._func_tab (cv_enc c)))) in
      Ok (tt, set_enc (U_ENCODER.set_codes (U_ENCODER._cur_func_idx (cv_enc c))
                         (<[i := f b]> (U_ENCODER._u_inst_encoder (cv_enc c))) (cv_enc c)) c)
  | Err e => Err e
  end.
Definition word_at (pc : Z) : CM Z := b ← code_body; lift (vec_at (U_CODE_BODY._inst_tab b) (Z.to_nat pc)).
Definition set_word (pc : Z) (w : Z) : CM unit :=
  upd_body (fun b => U_CODE_BODY.mk (U_CODE_BODY._ubh_code b) (<[Z.to_nat pc := w]> (U_CODE_BODY._inst_tab b))
                       (U_CODE_BODY._lab_tab b) (U_CODE_BODY._lab_name_tab b)).

(** The checks of a move, and its type; the assertions on arguments are [Is_True_Rel]. *)
Definition mov_valtype (is_true : bool -> outcome unit) (w : Z) : outcome VALTYPE :=
  _ ← is_true (U_INST32.Opcode w =? Opcode.MOV);
  am ← U_INST32.Ty_am w;
  _ ← is_true (bool_decide (am = TY_AM32_R_R));
  mret (U_INST32.Valtype w).

Fixpoint fix_params (n : nat) (mov_pc : Z) (total used : per_type Z) : CM unit :=
  match n with
  | O => mret tt
  | S n =>
      w ← word_at mov_pc;
      valtype ← lift (mov_valtype Is_True_Rel w);
      t ← lift (pt_get valtype total);
      k ← lift (pt_get valtype used);
      _ ← set_word mov_pc (fset U_INST32.R_R_r1 (UINT32 (t + RET_REG_NUM + k)) w);
      fix_params n (UINT32 (mov_pc + 1)) total (pt_set valtype (UINT32 (k + 1)) used)
  end.

Definition fix_call (pc : Z) : CM unit :=
  c ← get;
  w ← word_at pc;
  let opc := U_INST32.Opcode w in
  _ ← lift (Is_True ((opc =? Opcode.CALL) || (opc =? Opcode.CALL_INDIRECT)));
  let total := pt_map (fun l => UINT32 (RET_REG_NUM + tab_size l)) (cv_local_tab c) in
  sig ← lift (if opc =? Opcode.CALL then f ← GetFunc module (fget U_INST32.OFS_ofs w); mret (wf_sig f)
              else if opc =? Opcode.CALL_INDIRECT then i ← of_option OutOfRange (cv_icall c !! pc); GetFuncType module i
              else _ ← Is_True false; Err NullFault);
  let param_sz := length (sg_params sig) in
  _ ← fix_params param_sz (UINT32 (pc - Z.of_nat param_sz)) total (pt_all 0);
  let callee_ret_num := length (sg_results sig) in
  _ ← lift (Is_True (Z.of_nat callee_ret_num <=? 1));
  when (callee_ret_num =? 1)%nat
    (let mov_pc := UINT32 (pc + 1) in
     w ← word_at mov_pc;
     valtype ← lift (mov_valtype Is_True w);
     t ← lift (pt_get valtype total);
     set_word mov_pc (fset U_INST32.R_R_r2 t w)).
Fixpoint fix_calls (pcs : list Z) : CM unit :=
  match pcs with [] => mret tt | pc :: pcs => _ ← fix_call pc; fix_calls pcs end.

Definition finish_function : CM unit :=
  c ← get;
  _ ← fix_calls (cv_calls c);
  let locals_size := pt_map (fun l => UINT32 (tab_size l + RET_REG_NUM)) (cv_local_tab c) in
  let io_size := pt_map (fun l => UINT32 (_max_call_param l + RET_REG_NUM * 2)) (cv_local_tab c) in
  _ ← code_body;
  upd_body (U_CODE_BODY.Update_ubh_code (pt_tuple locals_size) (pt_tuple io_size) 0).
End Convert.

(** [Wasm_to_uwasm]: the context, the encoder and the code of the current function; the
  state at its end. *)
Definition conv0 (ctx : FILE_CONTEXT) (e : U_ENCODER.t) : CONV :=
  mkCONV ctx e graph0 [] (pt_all LOCAL_TAB0) [] REG_ALLOC.create [] ∅ ∅.

Section Wasm_to_uwasm.
Context {bd : Build} {vg : VectorGrowth} {cb : ConvBuild}.
Definition build_graph (buf : list Z) (instr : list WASM_INST) : CM unit := fun c =>
  match Build_block_hierarchy buf instr (mkBUILD (cv_enc c) LABEL_TAB.empty (cv_graph c) []) with
  | Ok (_, b) => Ok (tt, set_graph (bs_graph b) (set_enc (bs_enc b) c))
  | Err f => Err f
  end.
Definition Wasm_to_uwasm (module : WABT_MODULE) (instr : list WASM_INST) (inst_buf : list Z)
    (ctx : FILE_CONTEXT) (e : U_ENCODER.t) : outcome CONV :=
  func ← GetFunc module (fc_func_idx ctx);
  '(_, c) ← (func_id ← Create_ubh_code func;
             _ ← build_graph inst_buf instr;
             c ← get;
             _ ← init_locals (drop (length (sg_params (wf_sig func))) (cv_local_map c));
             _ ← conv_insts module inst_buf func func_id instr BLOCK_INSTR_BEGIN;
             finish_function module func_id) (conv0 ctx e);
  mret c.
End Wasm_to_uwasm.
