(* ===== verification/Alloc.v ===== *)
(** * Registers of the locals and of the operand stack

  While a function is converted, an entry of the operand stack stands for a local or for
  a temporary.  The locals of a type have the registers after the result registers, the
  temporaries of a type the registers after the locals, in the order of the stack.  This
  file states that as an invariant of the converter's state, and what
  [Pop_wasm_stk], [Push_temp_reg] and the local instructions do to it. *)

From S2P Require Import Prelude CInt BitField Isa Inst Ubh UModule StrTab TypeEncoder Encoder Leb128 Winst LocalTable Graph Converter.
From Stdlib Require Import ZArith Lia.
Local Open Scope Z_scope.

(** What an entry of the operand stack stands for: the value of the local [i], or a value
  in a register of its own. *)
Inductive SLOT : Set := SLocal (i : nat) | STemp (t : VALTYPE).
#[export] Instance SLOT_eq_dec : EqDecision SLOT.
Proof. solve_decision. Defined.

Fixpoint count (t : VALTYPE) (l : list VALTYPE) : Z :=
  match l with [] => 0 | u :: l => (if decide (u = t) then 1 else 0) + count t l end.
Fixpoint temps (t : VALTYPE) (ss : list SLOT) : Z :=
  match ss with [] => 0 | s :: ss => (if decide (s = STemp t) then 1 else 0) + temps t ss end.

Lemma count_nonneg t l : 0 <= count t l.
Proof. induction l as [|u l IH]; cbn; [lia|]. case_decide; lia. Qed.
Lemma count_app t l l' : count t (l ++ l') = count t l + count t l'.
Proof. induction l as [|u l IH]; cbn; [reflexivity|]. rewrite IH. lia. Qed.
Lemma count_le_length t l : count t l <= Z.of_nat (length l).
Proof. induction l as [|u l IH]; cbn [count length]; [lia|]. case_decide; lia. Qed.
Lemma temps_nonneg t ss : 0 <= temps t ss.
Proof. induction ss as [|s ss IH]; cbn; [lia|]. case_decide; lia. Qed.

Section Alloc.
Context {bd : Build} {vg : VectorGrowth} {cb : ConvBuild}.

(** The types of the locals, parameters first. *)
Variable locs : list VALTYPE.

Definition local_reg (i : nat) : Z :=
  match locs !! i with Some t => RET_REG_NUM + count t (take i locs) | None => 0 end.
(** The first register of the temporaries. *)
Definition base (t : VALTYPE) : Z := RET_REG_NUM + count t locs.
Definition slot_ty (s : SLOT) : option VALTYPE := match s with SLocal i => locs !! i | STemp t => Some t end.
Definition slot_reg (s : SLOT) (rest : list SLOT) : Z :=
  match s with SLocal i => local_reg i | STemp t => base t + temps t rest end.

(** ** Locals have registers of their own, below the temporaries *)
Lemma RET_REG_NUM_range : 1 <= RET_REG_NUM <= 2.
Proof. unfold RET_REG_NUM. destruct runtime_wasm; lia. Qed.

Lemma count_take_lt i j t : locs !! i = Some t -> (i < j)%nat -> (j <= length locs)%nat ->
  count t (take i locs) < count t (take j locs).
Proof.
  intros Hi Hij Hj. replace j with (i + (j - i))%nat by lia. rewrite <- take_take_drop, count_app.
  rewrite (drop_S _ _ _ Hi). destruct (j - i)%nat as [|k] eqn:E; [lia|]. cbn [take count].
  rewrite decide_True by reflexivity. pose proof (count_nonneg t (take k (drop (S i) locs))). lia.
Qed.

Lemma local_reg_range i t : locs !! i = Some t -> RET_REG_NUM <= local_reg i < base t.
Proof.
  intros Hi. unfold local_reg, base. rewrite Hi. pose proof (count_nonneg t (take i locs)).
  pose proof (lookup_lt_Some _ _ _ Hi) as Hl. pose proof (count_take_lt i (length locs) t Hi Hl ltac:(lia)) as Hc.
  rewrite firstn_all in Hc. lia.
Qed.

Lemma local_reg_inj i j t : locs !! i = Some t -> locs !! j = Some t -> local_reg i = local_reg j -> i = j.
Proof.
  intros Hi Hj E. unfold local_reg in E. rewrite Hi, Hj in E.
  pose proof (lookup_lt_Some _ _ _ Hi). pose proof (lookup_lt_Some _ _ _ Hj).
  destruct (Nat.lt_trichotomy i j) as [H1|[H1|H1]]; [|exact H1|].
  - pose proof (count_take_lt i j t Hi H1 ltac:(lia)). lia.
  - pose proof (count_take_lt j i t Hj H1 ltac:(lia)). lia.
Qed.

(** ** The invariant *)
Definition is_value_type (t : VALTYPE) : bool := match t with I32 | I64 | F32 | F64 => true | _ => false end.

Definition elem_is (e : WASM_STACK_ELEM) (s : SLOT) (rest : list SLOT) : Prop :=
  slot_ty s = Some (se_val_type e) /\ se_idx e = slot_reg s rest /\
  match s with SLocal _ => se_kind e = LOCAL \/ se_kind e = FORMAL_PARAM | STemp _ => se_kind e = TEMP end.
Fixpoint stack_is (stk : WASMSTK) (ss : list SLOT) : Prop :=
  match stk, ss with
  | [], [] => True
  | e :: stk, s :: ss => elem_is e s ss /\ stack_is stk ss
  | _, _ => False
  end.

(** The temporaries in use are the first ones after the locals. *)
Record regs_are (t : VALTYPE) (ss : list SLOT) (r : REG_ALLOC.regs) : Prop := {
  ra_next : REG_ALLOC._next_reg_id r = base t + temps t ss;
  ra_state : forall i, base t <= i -> default ALLOC_FREE (REG_ALLOC._register_state r !! i) =
    if i <? base t + temps t ss then ALLOC_TEMP_OCCUPIED else ALLOC_FREE;
}.
(** The table of locals of a type covers the registers in use; it starts with the locals. *)
Record tab_is (t : VALTYPE) (ss : list SLOT) (l : LOCAL_TAB) : Prop := {
  ti_covers : base t + temps t ss <= RET_REG_NUM + Z.of_nat (length (_content l));
  ti_small : Z.of_nat (length (_content l)) <= 128;
  ti_locals : forall k, Z.of_nat k < count t locs -> exists e, _content l !! k = Some e /\ (le_kind e = LOCAL \/ le_kind e = FORMAL_PARAM);
}.
Record inv (ss : list SLOT) (c : CONV) : Prop := {
  iv_types : Forall (fun t => is_value_type t = true) locs;
  iv_slots : Forall (fun s => exists t, slot_ty s = Some t /\ is_value_type t = true) ss;
  iv_stack : stack_is (cv_stack c) ss;
  iv_regs : forall t r, pt_get t (cv_regs c) = Ok r -> regs_are t ss r;
  iv_tabs : forall t l, pt_get t (cv_local_tab c) = Ok l -> tab_is t ss l;
  iv_map : forall i t, locs !! i = Some t -> exists k, cv_local_map c !! i = Some (mkMAP_ELEM (local_reg i) t k);
  iv_bound : forall t, base t + temps t ss <= 126;
}.

(** What an operation on the stack leaves alone; tables only grow. *)
Record stable (c c' : CONV) : Prop := {
  sb_ctx : cv_ctx c' = cv_ctx c;
  sb_enc : cv_enc c' = cv_enc c;
  sb_graph : cv_graph c' = cv_graph c;
  sb_map : cv_local_map c' = cv_local_map c;
  sb_calls : cv_calls c' = cv_calls c;
  sb_pcs : cv_pc_map c' = cv_pc_map c;
  sb_icall : cv_icall c' = cv_icall c;
  sb_tabs : forall t l, pt_get t (cv_local_tab c) = Ok l -> exists l', pt_get t (cv_local_tab c') = Ok l' /\
    (length (_content l) <= length (_content l'))%nat /\ _max_call_param l' = _max_call_param l;
}.
#[export] Instance stable_refl : Reflexive stable.
Proof. intros c. split; eauto. Qed.
#[export] Instance stable_trans : Transitive stable.
Proof.
  intros c1 c2 c3 [] []. split; try (etransitivity; eassumption).
  intros t l H. destruct (sb_tabs0 t l H) as (l2 & H2 & ? & E2). destruct (sb_tabs1 t l2 H2) as (l3 & H3 & ? & E3).
  exists l3. split; [exact H3|]. split; [lia | congruence].
Qed.

Lemma pt_get_set {A} t u (a : A) p r : pt_get t (pt_set u a p) = Ok r ->
  t = u /\ r = a \/ t <> u /\ pt_get t p = Ok r.
Proof. destruct t, u; cbn; intros [= <-]; auto; right; split; (discriminate || reflexivity). Qed.
Lemma pt_get_value {A} t (p : per_type A) : is_value_type t = true -> exists a, pt_get t p = Ok a.
Proof. destruct t; try discriminate; cbn; eauto. Qed.
Lemma pt_get_set_same {A} t (a : A) p : is_value_type t = true -> pt_get t (pt_set t a p) = Ok a.
Proof. now destruct t. Qed.
Lemma pt_get_set_other {A} t u (a : A) p : t <> u -> pt_get t (pt_set u a p) = pt_get t p.
Proof. destruct t, u; congruence || reflexivity. Qed.

(** ** The operations *)
Lemma temps_cons t s ss : temps t (s :: ss) = (if decide (s = STemp t) then 1 else 0) + temps t ss.
Proof. reflexivity. Qed.

Lemma regs_are_local t i ss r : regs_are t (SLocal i :: ss) r <-> regs_are t ss r.
Proof. split; intros [H1 H2]; split; rewrite ?temps_cons in *; (rewrite decide_False in * by discriminate); auto. Qed.
Lemma regs_are_other t u ss r : t <> u -> regs_are t (STemp u :: ss) r <-> regs_are t ss r.
Proof. intros Hne. split; intros [H1 H2]; split; rewrite ?temps_cons in *; (rewrite decide_False in * by congruence); auto. Qed.


Lemma base_pos t : 1 <= base t.
Proof. unfold base. pose proof RET_REG_NUM_range. pose proof (count_nonneg t locs). lia. Qed.

(** Freeing the last temporary. *)
Lemma Free_register_run t ss h r : is_value_type t = true -> pt_get t h = Ok r -> regs_are t (STemp t :: ss) r ->
  base t + temps t ss < 126 -> exists r', REG_ALLOC.Free_register t (base t + temps t ss) h = Ok (tt, pt_set t r' h) /\ regs_are t ss r'.
Proof.
  intros Ht Hr [H1 H2] Hb. rewrite temps_cons, decide_True in * by reflexivity.
  pose proof (base_pos t). pose proof (temps_nonneg t ss).
  unfold REG_ALLOC.Free_register. rewrite (proj2 (Z.leb_gt 126 _)) by lia. rewrite Hr. cbn [mbind outcome_bind].
  unfold REG_ALLOC.state. rewrite (proj2 (Z.leb_le 0 _)), (proj2 (Z.ltb_lt _ 4096)) by lia. cbn [andb].
  rewrite H2, (proj2 (Z.ltb_lt _ _)) by lia. cbn [mbind outcome_bind]. rewrite bool_decide_eq_true_2, Is_True_true by reflexivity.
  cbn [mbind outcome_bind]. rewrite H1, UINT32_id, (proj2 (Z.eqb_eq _ _)), Is_True_true by lia. cbn [mbind outcome_bind mret outcome_ret].
  eexists. split; [reflexivity|]. split; cbn [REG_ALLOC._next_reg_id REG_ALLOC._register_state]; [rewrite H1, UINT32_id by lia; lia|]. intros i Hi.
  rewrite lookup_insert. case_decide as E.
  - subst. rewrite Z.ltb_irrefl. reflexivity.
  - rewrite H2 by lia. destruct (Z.ltb_spec i (base t + temps t ss)), (Z.ltb_spec i (base t + (1 + temps t ss))); auto; lia.
Qed.

(** Taking the next register. *)
Lemma Get_available_reg_run t ss h r : is_value_type t = true -> pt_get t h = Ok r -> regs_are t ss r ->
  base t + temps t ss < 126 -> exists r', REG_ALLOC.Get_available_reg t h = Ok (base t + temps t ss, pt_set t r' h) /\
  regs_are t (STemp t :: ss) r'.
Proof.
  intros Ht Hr [H1 H2] Hb. pose proof (base_pos t). pose proof (temps_nonneg t ss).
  unfold REG_ALLOC.Get_available_reg. rewrite Hr. cbn [mbind outcome_bind]. rewrite H1.
  rewrite (proj2 (Z.ltb_lt _ REG_L_MAX)), Is_True_Rel_true by (unfold REG_L_MAX; lia). cbn [mbind outcome_bind].
  unfold REG_ALLOC.state. rewrite (proj2 (Z.leb_le 0 _)), (proj2 (Z.ltb_lt _ 4096)) by lia. cbn [andb].
  rewrite H2, Z.ltb_irrefl by lia. cbn [mbind outcome_bind]. rewrite bool_decide_eq_true_2, Is_True_true by reflexivity.
  cbn [mbind outcome_bind mret outcome_ret]. rewrite H1.
  eexists. split; [reflexivity|]. split; cbn [REG_ALLOC._next_reg_id REG_ALLOC._register_state]; rewrite temps_cons, decide_True by reflexivity.
  - rewrite UINT32_id by lia. lia.
  - intros i Hi. rewrite lookup_insert. case_decide as E.
    + subst. rewrite (proj2 (Z.ltb_lt _ _)) by lia. reflexivity.
    + rewrite H2 by lia. destruct (Z.ltb_spec i (base t + temps t ss)), (Z.ltb_spec i (base t + (1 + temps t ss))); auto; lia.
Qed.

Lemma temps_tail t s ss : temps t ss <= temps t (s :: ss).
Proof. rewrite temps_cons. case_decide; lia. Qed.

Lemma tab_is_tail t s ss l : tab_is t (s :: ss) l -> tab_is t ss l.
Proof. intros [H1 H2 H3]. pose proof (temps_tail t s ss). split; auto; lia. Qed.

(** Popping an entry gives back what it stands for. *)
Lemma Pop_wasm_stk_run s ss c t expect : inv (s :: ss) c -> slot_ty s = Some t -> expect = t \/ expect = VALTY_UNKNOWN ->
  exists e c', Pop_wasm_stk expect c = Ok (e, c') /\ elem_is e s ss /\ inv ss c' /\ stable c c' /\ cv_local_tab c' = cv_local_tab c.
Proof.
  intros [V1 V2 V3 V4 V5 V6 V7] Hs Hx. destruct (cv_stack c) as [|e stk] eqn:Estk; [destruct V3|]. destruct V3 as [He Hstk].
  inversion V2 as [|x y (u & Hu & Hv) V2' [E1 E2]]. subst x y. rewrite Hs in Hu. injection Hu as <-.
  destruct He as (Ety & Ereg & Ek). rewrite Hs in Ety. injection Ety as ->.
  assert (se_kind e <> UNREACHABLE_VALUE) as Hku by (destruct s; [destruct Ek|]; congruence).
  set (c1 := set_stack stk c).
  assert (exists c', when (bool_decide (se_kind e = TEMP)) (on_regs (REG_ALLOC.Free_register (se_val_type e) (se_idx e))) c1 = Ok (tt, c') /\
    cv_stack c' = stk /\ cv_local_tab c' = cv_local_tab c /\ stable c c' /\
    forall u r, pt_get u (cv_regs c') = Ok r -> regs_are u ss r) as (c' & Hrun & Hstk' & Htab' & Hst & Hregs).
  { destruct s as [i|u].
    - exists c1. rewrite bool_decide_eq_false_2 by (destruct Ek; congruence). split; [reflexivity|]. split; [reflexivity|].
      split; [reflexivity|]. split; [split; eauto|]. intros u r Hr. apply (regs_are_local u i). now apply V4.
    - cbn [slot_ty] in Hs. injection Hs as ->. rewrite bool_decide_eq_true_2 by exact Ek. cbn [when]. unfold on_regs.
      destruct (pt_get_value (se_val_type e) (cv_regs c) Hv) as [r Hr].
      specialize (V7 (se_val_type e)). rewrite temps_cons, decide_True in V7 by reflexivity.
      destruct (Free_register_run (se_val_type e) ss (cv_regs c) r Hv Hr (V4 _ _ Hr) ltac:(lia)) as (r' & Hf & Hr').
      change (cv_regs c1) with (cv_regs c). rewrite Ereg. cbn [slot_reg]. rewrite Hf. eexists. split; [reflexivity|].
      split; [reflexivity|]. split; [reflexivity|]. split; [split; eauto|]. intros u q Hq. apply pt_get_set in Hq as [[-> ->]|[Hne Hq]]; [exact Hr'|].
      apply (regs_are_other u (se_val_type e)); auto. }
  exists e, c'. split.
  - unfold Pop_wasm_stk. rewrite (bind_run get _ c c c eq_refl), Estk.
    rewrite (bool_decide_eq_false_2 (e :: stk = [])), Is_True_true by discriminate. rewrite (bind_run _ _ c c tt) by reflexivity.
    rewrite (bind_run stack_top _ c c e) by (unfold stack_top; rewrite (bind_run get _ c c c eq_refl), Estk; reflexivity).
    rewrite (bind_run pop _ c c1 tt) by (unfold pop; rewrite modify_run, Estk; reflexivity).
    rewrite (bool_decide_eq_false_2 _ Hku), (bind_run _ _ c1 c' tt Hrun).
    assert (se_val_type e <> VALTY_UNKNOWN) as Hvu by (intros E; rewrite E in Hv; discriminate).
    rewrite (bool_decide_eq_false_2 _ Hvu). destruct Hx as [-> | ->]; [|reflexivity]. rewrite (bool_decide_eq_false_2 _ Hvu).
    unfold Check_stack_elem_valty. rewrite bool_decide_eq_true_2, Is_True_Rel_true by reflexivity. reflexivity.
  - split; [split; auto|]. split; [|split; assumption]. split; auto.
    + now rewrite Hstk'.
    + intros u l Hl. rewrite Htab' in Hl. eapply tab_is_tail, V5, Hl.
    + destruct Hst as [_ _ _ -> _ _ _ _]. exact V6.
    + intros u. pose proof (temps_tail u s ss). specialize (V7 u). lia.
Qed.

Lemma temps_other t u ss : t <> u -> temps t (STemp u :: ss) = temps t ss.
Proof. intros H. rewrite temps_cons, decide_False by congruence. lia. Qed.
Lemma temps_same t ss : temps t (STemp t :: ss) = 1 + temps t ss.
Proof. now rewrite temps_cons, decide_True by reflexivity. Qed.

(** A new entry of the local table for a new register. *)
Lemma tab_is_push t ss l stmt : tab_is t ss l -> base t + temps t ss < 126 ->
  RET_REG_NUM + Z.of_nat (length (_content l)) <= base t + temps t ss ->
  tab_is t (STemp t :: ss) (tab_push_back (mkTAB_ELEM TEMP t stmt) l).
Proof.
  intros [H1 H2 H3] Hb Hle. pose proof RET_REG_NUM_range. split; unfold tab_push_back; cbn [_content]; rewrite ?length_app; cbn [length].
  - rewrite temps_same. lia.
  - lia.
  - intros k Hk. destruct (H3 k Hk) as (e & He & Hke). exists e. split; [|exact Hke]. now apply lookup_app_l_Some.
Qed.

Lemma tab_is_other t u ss l : t <> u -> tab_is t ss l -> tab_is t (STemp u :: ss) l.
Proof. intros Hne [H1 H2 H3]. split; rewrite ?temps_other by exact Hne; auto. Qed.

Lemma Allocate_register_run ss c t stmt : inv ss c -> is_value_type t = true -> base t + temps t ss < 126 ->
  exists c', Allocate_register t stmt c = Ok (base t + temps t ss, c') /\ stable c c' /\ cv_stack c' = cv_stack c /\
    (forall u r, pt_get u (cv_regs c') = Ok r -> regs_are u (STemp t :: ss) r) /\
    (forall u l, pt_get u (cv_local_tab c') = Ok l -> tab_is u (STemp t :: ss) l).
Proof.
  intros [V1 V2 V3 V4 V5 V6 V7] Ht Hb. pose proof (base_pos t). pose proof (temps_nonneg t ss). pose proof RET_REG_NUM_range.
  destruct (pt_get_value t (cv_regs c) Ht) as [r Hr]. destruct (pt_get_value t (cv_local_tab c) Ht) as [l Hl].
  destruct (Get_available_reg_run t ss (cv_regs c) r Ht Hr (V4 _ _ Hr) Hb) as (r' & Hg & Hr').
  set (c1 := set_regs (pt_set t r' (cv_regs c)) c).
  assert (forall u q, pt_get u (cv_regs c1) = Ok q -> regs_are u (STemp t :: ss) q) as Hregs.
  { intros u q Hq. apply pt_get_set in Hq as [[-> ->]|[Hne Hq]]; [exact Hr'|]. apply regs_are_other; auto. }
  assert (on_regs (REG_ALLOC.Get_available_reg t) c = Ok (base t + temps t ss, c1)) as Hg1 by (unfold on_regs; now rewrite Hg).
  assert (forall c2 l2, pt_get t (cv_local_tab c2) = Ok l2 -> tab_of t c2 = Ok (l2, c2)) as Htab.
  { intros c2 l2 H2. unfold tab_of. rewrite (bind_run get _ c2 c2 c2 eq_refl), H2. reflexivity. }
  pose proof (V5 t l Hl) as Hti. assert (tab_size l = Z.of_nat (length (_content l))) as Hsz
    by (unfold tab_size; apply UINT32_id; destruct Hti; lia).
  unfold Allocate_register. rewrite (bind_run _ _ _ _ _ Hg1), (bind_run _ _ _ _ _ (Htab c1 l Hl)), Hsz.
  destruct (Z.leb_spec (Z.of_nat (length (_content l)) + RET_REG_NUM) (base t + temps t ss)) as [Hle|Hgt]; cbn [when].
  - set (l' := tab_push_back (mkTAB_ELEM TEMP t stmt) l).
    set (c2 := set_local_tab (pt_set t l' (cv_local_tab c1)) c1).
    assert (upd_tab t (tab_push_back (mkTAB_ELEM TEMP t stmt)) c1 = Ok (tt, c2)) as Hu
      by (unfold upd_tab; now rewrite (bind_run _ _ _ _ _ (Htab c1 l Hl))).
    assert (pt_get t (cv_local_tab c2) = Ok l') as Hl' by (now apply pt_get_set_same).
    assert (tab_is t (STemp t :: ss) l') as Hti' by (apply tab_is_push; [exact Hti | lia | lia]).
    rewrite bind_bind, (bind_run _ _ _ _ _ Hu), bind_bind, (bind_run _ _ _ _ _ (Htab c2 l' Hl')).
    assert (tab_size l' = Z.of_nat (length (_content l'))) as ->
      by (unfold tab_size; apply UINT32_id; destruct Hti'; lia).
    rewrite (proj2 (Z.ltb_lt _ _)), Is_True_true by (destruct Hti' as [Hc _ _]; rewrite temps_same in Hc; lia).
    exists c2. split; [reflexivity|]. split; [|split; [reflexivity|split; [exact Hregs|]]].
    + split; try reflexivity. intros u q Hq. cbn [c2 set_local_tab cv_local_tab c1 set_regs].
      destruct (decide (u = t)) as [->|Hne].
      * rewrite pt_get_set_same by exact Ht. exists l'. split; [reflexivity|]. rewrite Hl in Hq. injection Hq as <-.
        cbn [l' tab_push_back _content _max_call_param]. rewrite length_app. split; [lia | reflexivity].
      * rewrite pt_get_set_other by exact Hne. eauto.
    + intros u q Hq. apply pt_get_set in Hq as [[-> ->]|[Hne Hq]]; [exact Hti'|]. apply tab_is_other; auto.
  - exists c1. split; [reflexivity|]. split; [split; eauto|]. split; [reflexivity|]. split; [exact Hregs|].
    intros u q Hq. destruct (decide (u = t)) as [->|Hne]; [|apply tab_is_other; auto].
    cbn [c1 cv_local_tab set_regs] in Hq. rewrite Hl in Hq. injection Hq as <-. destruct Hti as [T1 T2 T3].
    split; auto. rewrite temps_same. lia.
Qed.

Lemma Push_temp_reg_run ss c ins_cnt t : inv ss c -> is_value_type t = true -> base t + temps t ss < 126 ->
  exists c', Push_temp_reg ins_cnt t c = Ok (base t + temps t ss, c') /\ inv (STemp t :: ss) c' /\ stable c c'.
Proof.
  intros Hinv Ht Hb. destruct (Allocate_register_run ss c t ins_cnt Hinv Ht Hb) as (c1 & Ha & Hst & Hstk & Hregs & Htabs).
  destruct Hinv as [V1 V2 V3 V4 V5 V6 V7]. set (e := mkELEM TEMP t (base t + temps t ss) ins_cnt).
  exists (set_stack (e :: cv_stack c1) c1). split; [|split].
  - unfold Push_temp_reg. rewrite (bind_run _ _ _ _ _ Ha). unfold push. rewrite (bind_run _ _ _ _ _ (modify_run _ _)).
    rewrite (proj2 (Z.ltb_lt _ 128)), Is_True_Rel_true by lia. reflexivity.
  - split; auto.
    + constructor; [|exact V2]. now exists t.
    + cbn [cv_stack set_stack stack_is]. rewrite Hstk. split; [|exact V3]. repeat split.
    + destruct Hst as [_ _ _ Hm _ _ _ _]. cbn [cv_local_map set_stack]. rewrite Hm. exact V6.
    + intros u. destruct (decide (u = t)) as [->|Hne]; [rewrite temps_same; lia|]. now rewrite temps_other.
  - etransitivity; [exact Hst|]. split; eauto.
Qed.

(** ** Locals *)
Lemma Get_wasm_local_ty_run ss c i t : inv ss c -> locs !! i = Some t -> exists k,
  Get_wasm_local_ty (Z.of_nat i) c = Ok (mkMAP_ELEM (local_reg i) t k, c).
Proof.
  intros [V1 V2 V3 V4 V5 V6 V7] Hi. destruct (V6 i t Hi) as [k Hk]. exists k. unfold Get_wasm_local_ty.
  rewrite (bind_run get _ c c c eq_refl). rewrite (proj2 (Z.ltb_lt _ _)), Is_True_true.
  - unfold vec_at. rewrite Nat2Z.id, Hk. reflexivity.
  - apply lookup_lt_Some in Hk. lia.
Qed.

(** The entry that [local.get] pushes. *)
Lemma push_local ss c i t e : inv ss c -> locs !! i = Some t -> elem_is e (SLocal i) ss ->
  inv (SLocal i :: ss) (set_stack (e :: cv_stack c) c) /\ stable c (set_stack (e :: cv_stack c) c).
Proof.
  intros [V1 V2 V3 V4 V5 V6 V7] Hi He. assert (is_value_type t = true) as Ht by (eapply (Forall_lookup_1 _ _ _ _ V1), Hi).
  split; [|split; eauto]. split; [exact V1 | | | | | exact V6 |].
  - constructor; [|exact V2]. exists t. auto.
  - now split.
  - intros u r Hr. apply regs_are_local. auto.
  - intros u l Hl. destruct (V5 u l Hl) as [H1 H2 H3]. split; rewrite ?temps_cons, ?decide_False by discriminate; auto.
  - intros u. rewrite temps_cons, decide_False by discriminate. apply V7.
Qed.

Lemma local_tab_Get ss c i t l : inv ss c -> locs !! i = Some t -> pt_get t (cv_local_tab c) = Ok l ->
  exists e, tab_Get (UINT32 (Get_tab_idx_by_reg_idx (local_reg i))) l = Ok e /\ (le_kind e = LOCAL \/ le_kind e = FORMAL_PARAM).
Proof.
  intros [V1 V2 V3 V4 V5 V6 V7] Hi Hl. destruct (V5 t l Hl) as [H1 H2 H3]. pose proof (local_reg_range i t Hi) as Hr.
  pose proof (temps_nonneg t ss). unfold base in *.
  assert (UINT32 (Get_tab_idx_by_reg_idx (local_reg i)) = local_reg i - RET_REG_NUM) as ->.
  { unfold Get_tab_idx_by_reg_idx, CONST_REG_NUM. rewrite Z.sub_0_r. apply UINT32_id. specialize (V7 t). lia. }
  destruct (H3 (Z.to_nat (local_reg i - RET_REG_NUM)) ltac:(lia)) as (e & He & Hk). exists e. split; [|exact Hk].
  unfold tab_Get, vec_at. rewrite (proj2 (Z.ltb_lt _ _)), Is_True_true by lia. cbn [mbind outcome_bind]. now rewrite He.
Qed.
End Alloc.
