(* ===== verification/Straight.v ===== *)
(** * Straight-line code: what the converter emits

  The instructions without control flow, memory or calls: constants, locals, the total
  operators on integers.  [emit] says which instructions the converter adds for each, as
  a function of what the operand stack stands for; the theorem of this file is that
  [conv_insts] adds those, for any encoding of the immediates. *)

From S2P Require Import Prelude CInt BitField Wasm Isa Inst Expand Ubh UModule StrTab TypeEncoder Encoder Code Leb128 Winst Splitting LocalTable Graph Converter Convert Alloc.
From Stdlib Require Import ZArith Lia.
Local Open Scope Z_scope.
Import WINST.

(** ** The source

  The operators with the type of their operands and result.  The comparisons of i64 are
  not among them: the handler leaves their result in an i64 register. *)
Definition int_op (o : WINST_OPCODE) : option (VALTYPE * (Z -> Z -> Z -> Z)) :=
  let cmp f := fun (N i j : Z) => b2z (f N i j) in
  match o with
  | I32Add => Some (I32, Wasm.iadd) | I64Add => Some (I64, Wasm.iadd)
  | I32Sub => Some (I32, Wasm.isub) | I64Sub => Some (I64, Wasm.isub)
  | I32Mul => Some (I32, Wasm.imul) | I64Mul => Some (I64, Wasm.imul)
  | I32And => Some (I32, fun _ => Wasm.iand) | I64And => Some (I64, fun _ => Wasm.iand)
  | I32Or => Some (I32, fun _ => Wasm.ior) | I64Or => Some (I64, fun _ => Wasm.ior)
  | I32Xor => Some (I32, fun _ => Wasm.ixor) | I64Xor => Some (I64, fun _ => Wasm.ixor)
  | I32Eq => Some (I32, cmp (fun _ => Wasm.ieq)) | I32Ne => Some (I32, cmp (fun _ => Wasm.ine))
  | I32LtS => Some (I32, cmp Wasm.ilt_s) | I32LtU => Some (I32, cmp (fun _ => Wasm.ilt_u))
  | I32GtS => Some (I32, cmp Wasm.igt_s) | I32GtU => Some (I32, cmp (fun _ => Wasm.igt_u))
  | I32LeS => Some (I32, cmp Wasm.ile_s) | I32LeU => Some (I32, cmp (fun _ => Wasm.ile_u))
  | I32GeS => Some (I32, cmp Wasm.ige_s) | I32GeU => Some (I32, cmp (fun _ => Wasm.ige_u))
  | _ => None
  end.

Inductive SIMPLE : Type :=
  | S_Nop
  | S_Drop
  | S_Const (t : VALTYPE) (v : Z)
  | S_LocalGet (i : nat)
  | S_LocalSet (i : nat)
  | S_LocalTee (i : nat)
  | S_Op (o : WINST_OPCODE).

(** The instruction that an encoded one is, when its immediate is in range. *)
Definition leb_s (N : Z) (L : nat) (v : Z) : bool :=
  (0 <? L)%nat && (L <=? 10)%nat && bool_decide (in_s (7 * Z.of_nat L) v) && bool_decide (in_s N v).
Definition leb_u (L : nat) (v : Z) : bool :=
  (0 <? L)%nat && (L <=? 5)%nat && (0 <=? v) && (v <? 2 ^ (7 * Z.of_nat L)) && (v <? 2 ^ 32).
Definition source_of (c : CODED) : option SIMPLE :=
  match cd_imms c with
  | [] => match cd_op c with
          | Nop => Some S_Nop
          | Drop => Some S_Drop
          | o => _ ← int_op o; Some (S_Op o)
          end
  | [LEB L v] => match cd_op c with
          | I32Const => if leb_s 32 L v then Some (S_Const I32 v) else None
          | I64Const => if leb_s 64 L v then Some (S_Const I64 v) else None
          | LocalGet => if leb_u L v then Some (S_LocalGet (Z.to_nat v)) else None
          | LocalSet => if leb_u L v then Some (S_LocalSet (Z.to_nat v)) else None
          | LocalTee => if leb_u L v then Some (S_LocalTee (Z.to_nat v)) else None
          | _ => None
          end
  | _ => None
  end.

Section Straight.
Context {cb : ConvBuild}.
Variable locs : list VALTYPE.

(** ** What fits the converter

  The types are right; the registers are those an instruction can name; and a local is
  not assigned while the operand stack still stands for its old value. *)
Definition push_temp (t : VALTYPE) (ss : list SLOT) : option (list SLOT) :=
  if is_value_type t && (base locs t + temps t ss <? 126) then Some (STemp t :: ss) else None.
Definition has_type (s : SLOT) (t : VALTYPE) : bool := bool_decide (slot_ty locs s = Some t).
Definition free_of (i : nat) (ss : list SLOT) : bool := bool_decide (SLocal i ∉ ss).

Definition check1 (i : SIMPLE) (ss : list SLOT) : option (list SLOT) :=
  match i, ss with
  | S_Nop, _ => Some ss
  | S_Drop, _ :: ss => Some ss
  | S_Const ((I32 | I64) as t) _, _ => push_temp t ss
  | S_LocalGet i, _ => if bool_decide (is_Some (locs !! i)) then Some (SLocal i :: ss) else None
  | S_LocalSet i, s :: ss =>
      t ← locs !! i; if has_type s t && free_of i ss then Some ss else None
  | S_LocalTee i, s :: ss' =>
      t ← locs !! i; if has_type s t && free_of i ss' then Some ss else None
  | S_Op o, s2 :: s1 :: ss => '(t, _) ← int_op o; if has_type s1 t && has_type s2 t then push_temp t ss else None
  | _, _ => None
  end.
Fixpoint check (is_ : list SIMPLE) (ss : list SLOT) : option (list SLOT) :=
  match is_ with [] => Some ss | i :: is_ => ss ← check1 i ss; check is_ ss end.

(** ** What is emitted *)
Definition inst_for (opc : Z) (t : VALTYPE) (content : list Z) : INST :=
  mkINST opc t (match UWINST_TY_AM opc with Ok am => am | Err _ => TY_AM32 end) content.
Definition opcode_for (o : WINST_OPCODE) : Z :=
  match list_find (fun x => x.1.1 = o) op_map with Some (_, (_, uop, _)) => UINT16 uop | None => 0 end.
Definition emit1 (i : SIMPLE) (ss : list SLOT) : list INST :=
  match i, ss with
  | S_Const I64 v, _ =>
      [inst_for Opcode.CONST_L I64 [slot_reg locs (STemp I64) ss; Z.land (UINT64 v) 0xFFFFFFFF];
       inst_for Opcode.CONST_L_HIGH I64 [slot_reg locs (STemp I64) ss; Z.shiftr (UINT64 v) 32]]
  | S_Const t v, _ => [inst_for Opcode.CONST_L t [slot_reg locs (STemp t) ss; Z.land (UINT64 v) 0xFFFFFFFF]]
  | S_LocalSet i, s :: ss | S_LocalTee i, s :: ss =>
      [inst_for Opcode.MOV (default I32 (locs !! i)) [local_reg locs i; slot_reg locs s ss]]
  | S_Op o, s2 :: s1 :: ss =>
      match int_op o with
      | Some (t, _) => [inst_for (opcode_for o) t [slot_reg locs (STemp t) ss; slot_reg locs s1 ss; slot_reg locs s2 (s1 :: ss)]]
      | None => []
      end
  | _, _ => []
  end.
Fixpoint emit (is_ : list SIMPLE) (ss : list SLOT) : list INST :=
  match is_ with
  | [] => []
  | i :: is_ => emit1 i ss ++ match check1 i ss with Some ss => emit is_ ss | None => [] end
  end.

(** The most temporaries of a type in use at a time. *)
Fixpoint peak (t : VALTYPE) (is_ : list SIMPLE) (ss : list SLOT) : Z :=
  Z.max (temps t ss)
    match is_ with
    | [] => 0
    | i :: is_ => match check1 i ss with Some ss => peak t is_ ss | None => 0 end
    end.
Lemma peak_ge t is_ ss : temps t ss <= peak t is_ ss.
Proof. destruct is_; cbn [peak]; lia. Qed.
Lemma peak_cons t i is_ ss ss' : check1 i ss = Some ss' -> peak t is_ ss' <= peak t (i :: is_) ss.
Proof. intros H. cbn [peak]. rewrite H. lia. Qed.
End Straight.

(** ** Adding an instruction to the current function *)
Definition body_app (ws : list Z) (b : U_CODE_BODY.t) : U_CODE_BODY.t :=
  U_CODE_BODY.mk (U_CODE_BODY._ubh_code b) (U_CODE_BODY._inst_tab b ++ ws) (U_CODE_BODY._lab_tab b) (U_CODE_BODY._lab_name_tab b).
Fixpoint app_last (ws : list Z) (l : list U_CODE_BODY.t) : list U_CODE_BODY.t :=
  match l with [] => [] | [b] => [body_app ws b] | b :: l => b :: app_last ws l end.
Definition app_code (ws : list Z) (e : U_ENCODER.t) : U_ENCODER.t :=
  U_ENCODER.set_codes (U_ENCODER._cur_func_idx e) (app_last ws (U_ENCODER._u_inst_encoder e)) e.

Lemma body_app_app w1 w2 b : body_app (w1 ++ w2) b = body_app w2 (body_app w1 b).
Proof. unfold body_app. cbn. now rewrite app_assoc. Qed.
Lemma body_app_nil b : body_app [] b = b.
Proof. destruct b. unfold body_app. cbn. now rewrite app_nil_r. Qed.
Lemma app_last_snoc ws v b : app_last ws (v ++ [b]) = v ++ [body_app ws b].
Proof. induction v as [|a v IH]; [reflexivity|]. cbn. rewrite IH. now destruct v. Qed.
Lemma app_last_app w1 w2 l : app_last (w1 ++ w2) l = app_last w2 (app_last w1 l).
Proof.
  destruct (decide (l = [])) as [->|Hl]; [reflexivity|]. destruct (exists_last Hl) as (v & b & ->).
  now rewrite !app_last_snoc, body_app_app.
Qed.
Lemma app_last_nil l : app_last [] l = l.
Proof.
  destruct (decide (l = [])) as [->|Hl]; [reflexivity|]. destruct (exists_last Hl) as (v & b & ->).
  now rewrite app_last_snoc, body_app_nil.
Qed.
Lemma length_app_last ws l : length (app_last ws l) = length l.
Proof. induction l as [|a l IH]; [reflexivity|]. cbn. destruct l; [reflexivity|]. cbn [length] in *. now rewrite IH. Qed.

Lemma app_code_app w1 w2 e : app_code (w1 ++ w2) e = app_code w2 (app_code w1 e).
Proof. unfold app_code. now rewrite app_last_app. Qed.
Lemma app_code_nil e : app_code [] e = e.
Proof. unfold app_code. rewrite app_last_nil. now destruct e. Qed.

Section Adding.
Context {bd : Build} {vg : VectorGrowth} {cb : ConvBuild}.

(** There is a current function, and it is the one with this index. *)
Definition current_body (func_id : Z) (e : U_ENCODER.t) : Prop :=
  U_ENCODER._u_inst_encoder e <> [] /\ is_ok (U_ENCODER.Get_inst_encoder func_id e) = true.

Lemma vec_at_is_ok {A} (l : list A) i : is_ok (vec_at l i) = (i <? length l)%nat.
Proof.
  unfold vec_at. destruct (l !! i) eqn:E; cbn [is_ok]; symmetry.
  - apply Nat.ltb_lt. now apply lookup_lt_Some in E.
  - apply Nat.ltb_ge. now apply lookup_ge_None in E.
Qed.

Lemma current_body_app func_id ws e : current_body func_id e -> current_body func_id (app_code ws e).
Proof.
  intros [H1 H2]. unfold current_body, U_ENCODER.Get_inst_encoder in *.
  change (U_ENCODER._func_tab (app_code ws e)) with (U_ENCODER._func_tab e).
  change (U_ENCODER._u_inst_encoder (app_code ws e)) with (app_last ws (U_ENCODER._u_inst_encoder e)).
  rewrite length_app_last. split.
  - intros E. apply (f_equal length) in E. rewrite length_app_last in E. now destruct (U_ENCODER._u_inst_encoder e).
  - destruct (Is_True (_ <=? _)); [|discriminate]. cbn [mbind outcome_bind] in *.
    destruct (Is_True (_ <? _)); [|discriminate]. cbn [mbind outcome_bind] in *.
    rewrite vec_at_is_ok in *. now rewrite length_app_last.
Qed.

Lemma Add_inst_run i e : inst_ok i = true -> U_ENCODER._u_inst_encoder e <> [] ->
  U_ENCODER.Add_inst (i_opcode i) (i_valtype i) (i_am i) (i_content i) e = Ok (0, app_code (inst_words i) e).
Proof.
  intros Hok He. destruct (exists_last He) as (v & b & Ev). pose proof (Init_inst_run i Hok) as Hi.
  unfold U_ENCODER.Add_inst. unfold mbind, M_bind, U_ENCODER.on_codes, U_ENCODER.on_part, U_INST_ENCODER.on_Cur_code_body, app_code.
  rewrite Ev, app_last_snoc, length_app. cbn [length]. rewrite (proj2 (Nat.ltb_lt _ _)), Is_True_true, last_snoc by lia.
  assert ((if Is_32bit_am (i_am i)
      then match Init_inst32 0 (i_am i) (i_opcode i) (i_valtype i) (i_content i) with Ok inst => Ok (tt, U_CODE_BODY.Add_inst32 inst b) | Err f => Err f end
      else match Init_inst64 0 (i_am i) (i_opcode i) (i_valtype i) (i_content i) with Ok inst => Ok (tt, U_CODE_BODY.Add_inst64 inst b) | Err f => Err f end)
    = Ok (tt, body_app (inst_words i) b)) as ->
    by (unfold inst_words, body_app; destruct (Is_32bit_am (i_am i)); rewrite Hi; reflexivity).
  replace (length v + 1 - 1)%nat with (length v + 0)%nat by lia.
  apply (f_equal (fun l => Ok (0, U_ENCODER.set_codes (U_ENCODER._cur_func_idx e) l e))). exact (insert_app_r v [b] 0 _).
Qed.

Lemma add_inst_run opc t content c : inst_ok (inst_for opc t content) = true ->
  Forall (in_u 32) content -> U_ENCODER._u_inst_encoder (cv_enc c) <> [] ->
  add_inst opc t content c = Ok (tt, set_enc (app_code (inst_words (inst_for opc t content)) (cv_enc c)) c).
Proof.
  intros Hok Hc He. pose proof (Add_inst_run _ _ Hok He) as Ha. pose proof (inst_ok_inv _ Hok) as (Hm & _ & _).
  unfold add_inst, Get_opc_tyam, inst_for in *. cbn [i_opcode i_valtype i_am i_content] in *.
  destruct (UWINST_TY_AM opc) as [am|]; [|discriminate Hm]. rewrite (bind_run (lift (Ok am)) _ c c am eq_refl).
  assert (map UINT32 content = content) as ->.
  { clear - Hc. induction Hc as [|v l Hv _ IH]; [reflexivity|]. cbn [map]. rewrite IH. f_equal. now apply wrapu_id. }
  unfold on_enc, mbind, M_bind. now rewrite Ha.
Qed.
End Adding.

(** ** The cases of the switch *)
Section Cases.
Context {bd : Build} {vg : VectorGrowth} {cb : ConvBuild}.
Variable locs : list VALTYPE.

(** From [c] to [c'] the instructions [is_] were added, and the tables of locals grew. *)
Record converted (is_ : list INST) (c c' : CONV) : Prop := {
  ct_enc : cv_enc c' = app_code (code_of is_) (cv_enc c);
  ct_ctx : cv_ctx c' = cv_ctx c;
  ct_graph : cv_graph c' = cv_graph c;
  ct_map : cv_local_map c' = cv_local_map c;
  ct_calls : cv_calls c' = cv_calls c;
  ct_icall : cv_icall c' = cv_icall c;
  ct_tabs : forall t l, pt_get t (cv_local_tab c) = Ok l -> exists l', pt_get t (cv_local_tab c') = Ok l' /\
    (length (_content l) <= length (_content l'))%nat /\ _max_call_param l' = _max_call_param l;
}.

Lemma converted_stable c c' : stable c c' -> converted [] c c'.
Proof. intros []. split; auto. now rewrite app_code_nil. Qed.
Lemma converted_app is1 is2 c1 c2 c3 : converted is1 c1 c2 -> converted is2 c2 c3 -> converted (is1 ++ is2) c1 c3.
Proof.
  intros [] []. split; try congruence.
  - rewrite code_of_app, app_code_app. congruence.
  - intros t l H. destruct (ct_tabs0 t l H) as (l2 & H2 & ? & E2). destruct (ct_tabs1 t l2 H2) as (l3 & H3 & ? & E3).
    exists l3. split; [exact H3|]. split; [lia | congruence].
Qed.
Lemma converted_enc i c : converted [i] c (set_enc (app_code (inst_words i) (cv_enc c)) c).
Proof. split; try reflexivity; [|eauto]. cbn. now rewrite app_nil_r. Qed.

Lemma inv_enc ss e c : inv locs ss c -> inv locs ss (set_enc e c).
Proof. intros []. split; auto. Qed.
Lemma inv_pc_map ss p c : inv locs ss c -> inv locs ss (set_pc_map p c).
Proof. intros []. split; auto. Qed.

Lemma stable_body func_id c c' : stable c c' -> current_body func_id (cv_enc c) -> current_body func_id (cv_enc c').
Proof. intros [_ -> _ _ _ _ _ _]. auto. Qed.

(** ** Operands *)
Lemma local_reg_small ss c i t : inv locs ss c -> locs !! i = Some t -> 0 <= local_reg locs i < 126.
Proof.
  intros H Hi. pose proof (local_reg_range locs i t Hi). pose proof RET_REG_NUM_range.
  pose proof (iv_bound _ _ _ H t). pose proof (temps_nonneg t ss). lia.
Qed.
Lemma slot_reg_small s ss c t : inv locs (s :: ss) c -> slot_ty locs s = Some t -> 0 <= slot_reg locs s ss < 126.
Proof.
  intros H Hs. destruct s as [i|u]; cbn [slot_reg slot_ty] in *; [eapply local_reg_small; eauto|].
  pose proof (iv_bound _ _ _ H u) as Hb. rewrite temps_same in Hb. pose proof (base_pos locs u). pose proof (temps_nonneg u ss). lia.
Qed.

Ltac fits := unfold ffits, Expand.operand; cbn; unfold in_u in *; lia.
Lemma operands_fit_3 am a b c : am = TY_AM32S_R_R_R \/ am = TY_AM64_R_R_R ->
  0 <= a < 126 -> 0 <= b < 126 -> 0 <= c < 126 -> operands_fit am [a; b; c] = true.
Proof.
  intros Ham Ha Hb Hc. apply bool_decide_eq_true_2.
  destruct Ham as [-> | ->]; cbn [am_fields]; repeat (constructor; [fits|]); constructor.
Qed.
Lemma operands_fit_rr a b : 0 <= a < 126 -> 0 <= b < 126 -> operands_fit TY_AM32_R_R [a; b] = true.
Proof. intros Ha Hb. apply bool_decide_eq_true_2. cbn [am_fields]. repeat (constructor; [fits|]). constructor. Qed.
Lemma operands_fit_imm a v : 0 <= a < 126 -> in_u 32 v -> operands_fit TY_AM64_R_IMM [a; v] = true.
Proof.
  intros Ha Hv. apply bool_decide_eq_true_2. cbn [am_fields]. constructor; [fits|]. constructor; [|constructor].
  split; [exact Hv|]. unfold ffits, Expand.operand. cbn [fd_signed fd_w U_INST64.R_IMM_imm]. apply wraps_range. lia.
Qed.
Lemma inst_for_ok opc t content am : UWINST_TY_AM opc = Ok am -> t <> VALTY_UNKNOWN -> operands_fit am content = true ->
  inst_ok (inst_for opc t content) = true.
Proof.
  intros Ho Ht Hf. unfold inst_ok, inst_for. cbn [i_opcode i_am i_valtype i_content]. rewrite Ho, Hf, !bool_decide_eq_true_2 by auto. reflexivity.
Qed.
Lemma value_type_known t : is_value_type t = true -> t <> VALTY_UNKNOWN.
Proof. now intros H ->. Qed.

Lemma converted_trans is_ c1 c2 c3 : converted [] c1 c2 -> converted is_ c2 c3 -> converted is_ c1 c3.
Proof. apply converted_app. Qed.

(** Two operands, and a register for the result: the same as popping and pushing. *)
Lemma operands_run s2 s1 ss c t ins_cnt (tr : VALTYPE) : inv locs (s2 :: s1 :: ss) c ->
  slot_ty locs s2 = Some t -> slot_ty locs s1 = Some t -> is_value_type tr = true -> base locs tr + temps tr ss < 126 ->
  exists e2 e1 c1 c2 c3, Pop_wasm_stk VALTY_UNKNOWN c = Ok (e2, c1) /\ Pop_wasm_stk t c1 = Ok (e1, c2) /\
    Push_temp_reg ins_cnt tr c2 = Ok (slot_reg locs (STemp tr) ss, c3) /\
    se_val_type e2 = t /\ se_val_type e1 = t /\ se_idx e2 = slot_reg locs s2 (s1 :: ss) /\ se_idx e1 = slot_reg locs s1 ss /\
    0 <= se_idx e2 < 126 /\ 0 <= se_idx e1 < 126 /\ inv locs (STemp tr :: ss) c3 /\ stable c c3.
Proof.
  intros Hinv H2 H1 Htr Hb. pose proof (slot_reg_small s2 (s1 :: ss) c t Hinv H2).
  destruct (Pop_wasm_stk_run locs s2 (s1 :: ss) c t VALTY_UNKNOWN Hinv H2 (or_intror eq_refl)) as (e2 & c1 & P2 & (T2 & I2 & _) & V1 & S1 & _).
  rewrite H2 in T2. injection T2 as T2. pose proof (slot_reg_small s1 ss c1 t V1 H1).
  destruct (Pop_wasm_stk_run locs s1 ss c1 t t V1 H1 (or_introl eq_refl)) as (e1 & c2 & P1 & (T1 & I1 & _) & V2 & S2 & _).
  rewrite H1 in T1. injection T1 as T1.
  destruct (Push_temp_reg_run locs ss c2 ins_cnt tr V2 Htr Hb) as (c3 & P3 & V3 & S3).
  exists e2, e1, c1, c2, c3. rewrite I1, I2. repeat (split; [auto|]). etransitivity; [|exact S3]. etransitivity; eassumption.
Qed.

Section Inst.
Variable module : WABT_MODULE.
Variable buf : list Z.
Variable func : WABT_FUNC.
Variable func_id : Z.

(** What a case answers: nothing more, or an instruction to add. *)
Definition answers (r : CFLOW) (is_ : list INST) : Prop :=
  match r with
  | CONTINUE_LOOP => is_ = []
  | ADD_INST u content => is_ = [inst_for (pr_opcode u) (pr_valty u) content] /\
      forallb inst_ok is_ = true /\ Forall (in_u 32) content
  end.
Definition case_run (h : CM CFLOW) (ss : list SLOT) (is_ : list INST) (c : CONV) : Prop :=
  exists r c' is1 is2, h c = Ok (r, c') /\ inv locs ss c' /\ converted is1 c c' /\ answers r is2 /\ is_ = is1 ++ is2.

Lemma case_add h ss c c' u content am : h c = Ok (ADD_INST u content, c') -> inv locs ss c' -> stable c c' ->
  UWINST_TY_AM (pr_opcode u) = Ok am -> is_value_type (pr_valty u) = true -> operands_fit am content = true -> Forall (in_u 32) content ->
  case_run h ss [inst_for (pr_opcode u) (pr_valty u) content] c.
Proof.
  intros Hr Hi Hs Ha Hv Hf Hc. do 2 eexists. exists [], [inst_for (pr_opcode u) (pr_valty u) content].
  split; [exact Hr|]. split; [exact Hi|]. split; [now apply converted_stable|]. split; [|reflexivity].
  split; [reflexivity|]. split; [|exact Hc]. cbn [forallb]. rewrite andb_true_r. eapply inst_for_ok; eauto using value_type_known.
Qed.
Lemma case_nothing h ss c c' : h c = Ok (CONTINUE_LOOP, c') -> inv locs ss c' -> stable c c' -> case_run h ss [] c.
Proof.
  intros Hr Hi Hs. do 2 eexists. exists [], []. split; [exact Hr|]. split; [exact Hi|]. split; [now apply converted_stable|].
  split; reflexivity.
Qed.

Lemma in_u_small N v : 7 <= N -> 0 <= v < 126 -> in_u N v.
Proof. intros HN Hv. pose proof (Z.pow_le_mono_r 2 7 N ltac:(lia) HN). unfold in_u. lia. Qed.

Lemma pushes t ss ss' : push_temp locs t ss = Some ss' ->
  ss' = STemp t :: ss /\ is_value_type t = true /\ base locs t + temps t ss < 126.
Proof. unfold push_temp. destruct (_ && _) eqn:E; [|discriminate]. intros [= <-]. rewrite andb_true_iff, Z.ltb_lt in E. tauto. Qed.
Lemma has_type_inv s t : has_type locs s t = true -> slot_ty locs s = Some t.
Proof. apply bool_decide_eq_true_1. Qed.

(** Operators. *)
Lemma int_op_opcode o t f : int_op o = Some (t, f) ->
  UOPCODE_from_wasm o = Ok (mkPAIR (opcode_for o) t) /\ is_value_type t = true /\
  (UWINST_TY_AM (opcode_for o) = Ok TY_AM32S_R_R_R \/ UWINST_TY_AM (opcode_for o) = Ok TY_AM64_R_R_R).
Proof. destruct o; cbn [int_op]; try discriminate; intros [= <- _]; vm_compute; auto. Qed.

Lemma conv_op_run o t f s2 s1 ss c inst cur ins_cnt : int_op o = Some (t, f) -> Encode inst = o ->
  inv locs (s2 :: s1 :: ss) c -> slot_ty locs s2 = Some t -> slot_ty locs s1 = Some t -> base locs t + temps t ss < 126 ->
  case_run (conv_switch module buf func func_id (mkPAIR (opcode_for o) t) inst cur ins_cnt) (STemp t :: ss)
    [inst_for (opcode_for o) t [slot_reg locs (STemp t) ss; slot_reg locs s1 ss; slot_reg locs s2 (s1 :: ss)]] c.
Proof.
  intros Ho He Hinv H2 H1 Hb. destruct (int_op_opcode o t f Ho) as (_ & Hv & Ham).
  destruct (operands_run s2 s1 ss c t ins_cnt t Hinv H2 H1 Hv Hb) as (e2 & e1 & c1 & c2 & c' & P2 & P1 & P3 & T2 & T1 & I2 & I1 & R2 & R1 & Hinv' & Hst).
  pose proof (slot_reg_small (STemp t) ss c' t Hinv' eq_refl) as Rd. rewrite I1 in R1. rewrite I2 in R2.
  assert (operands_fit TY_AM32S_R_R_R [slot_reg locs (STemp t) ss; slot_reg locs s1 ss; slot_reg locs s2 (s1 :: ss)] = true /\
    operands_fit TY_AM64_R_R_R [slot_reg locs (STemp t) ss; slot_reg locs s1 ss; slot_reg locs s2 (s1 :: ss)] = true) as [F1 F2]
    by (split; apply operands_fit_3; auto).
  assert (Forall (in_u 32) [slot_reg locs (STemp t) ss; slot_reg locs s1 ss; slot_reg locs s2 (s1 :: ss)]) as F3
    by (repeat (constructor; [apply in_u_small; lia|]); constructor).
  assert (conv_switch module buf func func_id (mkPAIR (opcode_for o) t) inst cur ins_cnt c =
    Ok (ADD_INST (mkPAIR (opcode_for o) t) [slot_reg locs (STemp t) ss; slot_reg locs s1 ss; slot_reg locs s2 (s1 :: ss)], c')) as Hrun.
  { assert (conv_compare (mkPAIR (opcode_for o) t) ins_cnt c = Ok (ADD_INST (mkPAIR (opcode_for o) t)
        [slot_reg locs (STemp t) ss; slot_reg locs s1 ss; slot_reg locs s2 (s1 :: ss)], c') \/ t <> I32) as Hc.
    { destruct (decide (t = I32)) as [E|E]; [left|now right]. unfold conv_compare. rewrite (bind_run _ _ _ _ _ P2), T2, (bind_run _ _ _ _ _ P1).
      rewrite E in P3 at 1. rewrite (bind_run _ _ _ _ _ P3), I1, I2. reflexivity. }
    assert (conv_binary (mkPAIR (opcode_for o) t) ins_cnt c = Ok (ADD_INST (mkPAIR (opcode_for o) t)
        [slot_reg locs (STemp t) ss; slot_reg locs s1 ss; slot_reg locs s2 (s1 :: ss)], c')) as Hbin.
    { unfold conv_binary. rewrite (bind_run _ _ _ _ _ P2), T2, (bind_run _ _ _ _ _ P1), T1.
      rewrite bool_decide_eq_true_2, Is_True_Rel_true by reflexivity. rewrite (bind_run (lift (Ok tt)) _ c2 c2 tt eq_refl).
      cbn [pr_valty]. rewrite (bind_run _ _ _ _ _ P3), I1, I2. reflexivity. }
    unfold conv_switch. rewrite He. destruct o; cbn [int_op] in Ho; try discriminate; injection Ho as <- _;
      first [exact Hbin | destruct Hc as [Hc|Hc]; [exact Hc | contradiction]].
  }
  destruct Ham as [Ham|Ham]; eapply (case_add _ _ _ _ (mkPAIR (opcode_for o) t)); eauto.
Qed.

(** ** Immediates *)
Lemma read_u32_run inst L v rest : Convert.operand buf inst = leb_bytes L v ++ rest -> leb_u L v = true ->
  read_u32 (Convert.operand buf inst) = Ok v.
Proof.
  unfold leb_u. rewrite !andb_true_iff, Nat.ltb_lt, Nat.leb_le, Z.leb_le, !Z.ltb_lt. intros -> [[[[H1 H2] H3] H4] H5].
  unfold read_u32. rewrite Read_leb128_run by lia. cbn [mbind outcome_bind mret outcome_ret]. now rewrite UINT32_id by lia.
Qed.
Lemma Read_const_run N t L v rest : t = I32 \/ t = I64 -> 0 < N <= 64 -> leb_s N L v = true -> Read_const_value (leb_bytes L v ++ rest) t = Ok (UINT64 v).
Proof.
  unfold leb_s. rewrite !andb_true_iff, Nat.ltb_lt, Nat.leb_le, !bool_decide_eq_true. intros Ht HN [[[H1 H2] H3] H4].
  assert (in_s 64 v) as H5 by (revert H4; apply in_s_mono; lia).
  assert (Read_signed_leb128 (leb_bytes L v ++ rest) = Ok v) as Hr
    by (unfold Read_signed_leb128; now rewrite decodeSLEB128_run).
  unfold Read_const_value. destruct Ht as [-> | ->]; rewrite Hr; reflexivity.
Qed.

Lemma conv_const_run t v L op ss ss' c inst rest cur ins_cnt : Encode inst = op ->
  (op = I32Const /\ t = I32 /\ leb_s 32 L v = true \/ op = I64Const /\ t = I64 /\ leb_s 64 L v = true) ->
  Convert.operand buf inst = leb_bytes L v ++ rest -> inv locs ss c -> current_body func_id (cv_enc c) ->
  push_temp locs t ss = Some ss' ->
  exists u, UOPCODE_from_wasm op = Ok u /\
  case_run (conv_switch module buf func func_id u inst cur ins_cnt) ss' (emit1 locs (S_Const t v) ss) c.
Proof.
  intros He Hop Hb Hinv Hbody (-> & Hv & Hbd)%pushes.
  destruct (Push_temp_reg_run locs ss c ins_cnt t Hinv Hv Hbd) as (c' & P & V & S).
  pose proof (slot_reg_small (STemp t) ss c' t V eq_refl) as Rd. cbn [slot_reg] in Rd.
  assert (in_u 32 (Z.land (UINT64 v) 0xFFFFFFFF) /\ in_u 32 (Z.shiftr (UINT64 v) 32)) as [Lo Hi].
  { pose proof (wrapu_range 64 v ltac:(lia)) as R. fold (UINT64 v) in R. change 0xFFFFFFFF with (Z.ones 32).
    rewrite Z.land_ones, Z.shiftr_div_pow2 by lia. unfold in_u in *. split; [apply Z.mod_pos_bound; lia|].
    split; [apply Z.div_pos; lia | apply Z.div_lt_upper_bound; lia]. }
  destruct Hop as [(-> & -> & Hl)|(-> & -> & Hl)]; (eexists; split; [vm_compute; reflexivity|]); cbn [emit1 slot_reg].
  - eapply (case_add _ _ _ c' (mkPAIR Opcode.CONST_L I32)); try eassumption; try reflexivity.
    + unfold conv_switch. rewrite He. unfold conv_const32. cbn [pr_valty]. rewrite (bind_run _ _ _ _ _ P), Hb.
      rewrite (Read_const_run 32 I32) by (auto || lia). reflexivity.
    + now apply operands_fit_imm.
    + repeat (constructor; [first [exact Lo | apply in_u_small; lia]|]); constructor.
  - assert (inst_ok (inst_for Opcode.CONST_L I64 [base locs I64 + temps I64 ss; Z.land (UINT64 v) 0xFFFFFFFF]) = true) as Hok
      by (eapply inst_for_ok; [reflexivity | discriminate | now apply operands_fit_imm]).
    set (i1 := inst_for Opcode.CONST_L I64 [base locs I64 + temps I64 ss; Z.land (UINT64 v) 0xFFFFFFFF]) in *.
    exists (ADD_INST (mkPAIR Opcode.CONST_L_HIGH I64) [base locs I64 + temps I64 ss; Z.shiftr (UINT64 v) 32]),
      (set_enc (app_code (inst_words i1) (cv_enc c')) c'), [i1],
      [inst_for Opcode.CONST_L_HIGH I64 [base locs I64 + temps I64 ss; Z.shiftr (UINT64 v) 32]].
    split; [|split; [now apply inv_enc|split; [|split; [|reflexivity]]]].
    + unfold conv_switch. rewrite He. unfold conv_const64. cbn [pr_valty]. rewrite (bind_run _ _ _ _ _ P), Hb.
      rewrite (Read_const_run 64 I64) by (auto || lia). rewrite (bind_run (lift (Ok _)) _ c' c' _ eq_refl).
      unfold i1. rewrite (bind_run _ _ _ _ _ (add_inst_run Opcode.CONST_L I64 _ c' Hok
        ltac:(repeat (constructor; [first [exact Lo | apply in_u_small; lia]|]); constructor)
        ltac:(rewrite (sb_enc _ _ S); apply Hbody))). reflexivity.
    + apply (converted_trans [i1] c c'); [now apply converted_stable | apply converted_enc].
    + cbn [answers pr_opcode pr_valty]. split; [reflexivity|]. split.
      * cbn [forallb]. rewrite andb_true_r. eapply inst_for_ok; [reflexivity | discriminate | now apply operands_fit_imm].
      * repeat (constructor; [first [exact Hi | apply in_u_small; lia]|]); constructor.
Qed.

(** ** Locals *)
Lemma Z_of_to_nat L v : leb_u L v = true -> v = Z.of_nat (Z.to_nat v).
Proof. unfold leb_u. rewrite !andb_true_iff, !Z.leb_le. lia. Qed.

Lemma tab_of_run t c l : pt_get t (cv_local_tab c) = Ok l -> tab_of t c = Ok (l, c).
Proof. intros H. unfold tab_of. rewrite (bind_run get _ c c c eq_refl), H. reflexivity. Qed.

Lemma conv_local_get_run i t L v ss c inst rest ins_cnt : i = Z.to_nat v -> leb_u L v = true ->
  Convert.operand buf inst = leb_bytes L v ++ rest -> inv locs ss c -> locs !! i = Some t ->
  case_run (conv_local_get buf inst ins_cnt) (SLocal i :: ss) [] c.
Proof.
  intros -> Hl Hb Hinv Hi. pose proof (Forall_lookup_1 _ _ _ _ (iv_types _ _ _ Hinv) Hi) as Ht. cbn beta in Ht.
  destruct (Get_wasm_local_ty_run locs ss c _ t Hinv Hi) as [k Hk]. rewrite <- (Z_of_to_nat L v Hl) in Hk.
  destruct (pt_get_value t (cv_local_tab c) Ht) as [l Hlt].
  destruct (local_tab_Get locs ss c _ t l Hinv Hi Hlt) as (e & He & Hke).
  set (x := mkELEM (le_kind e) t (local_reg locs (Z.to_nat v)) ins_cnt).
  destruct (push_local locs ss c (Z.to_nat v) t x Hinv Hi) as [Hinv' Hst]; [split; [exact Hi | split; [reflexivity | exact Hke]]|].
  eapply case_nothing; [|exact Hinv'|exact Hst]. unfold conv_local_get. rewrite (read_u32_run inst L v rest Hb Hl).
  rewrite (bind_run (lift (Ok v)) _ c c v eq_refl), (bind_run _ _ _ _ _ Hk). cbn [lm_ty lm_reg_idx].
  rewrite (bind_run _ _ _ _ _ (tab_of_run t c l Hlt)), He. reflexivity.
Qed.

Lemma fits_mov i s ss c t u : inv locs (s :: ss) c -> slot_ty locs s = Some t -> locs !! i = Some u ->
  operands_fit TY_AM32_R_R [local_reg locs i; slot_reg locs s ss] = true /\
  Forall (in_u 32) [local_reg locs i; slot_reg locs s ss].
Proof.
  intros Hinv Hs Hi. pose proof (local_reg_small (s :: ss) c i u Hinv Hi). pose proof (slot_reg_small s ss c t Hinv Hs).
  split; [now apply operands_fit_rr|]. repeat (constructor; [apply in_u_small; lia|]); constructor.
Qed.

Lemma conv_local_set_run i t L v s ss c inst rest : i = Z.to_nat v -> leb_u L v = true ->
  Convert.operand buf inst = leb_bytes L v ++ rest -> inv locs (s :: ss) c -> locs !! i = Some t -> slot_ty locs s = Some t ->
  case_run (conv_local_set buf (mkPAIR Opcode.MOV I32) inst) ss [inst_for Opcode.MOV t [local_reg locs i; slot_reg locs s ss]] c.
Proof.
  intros -> Hl Hb Hinv Hi Hs. pose proof (Forall_lookup_1 _ _ _ _ (iv_types _ _ _ Hinv) Hi) as Ht. cbn beta in Ht.
  destruct (Get_wasm_local_ty_run locs (s :: ss) c _ t Hinv Hi) as [k Hk]. rewrite <- (Z_of_to_nat L v Hl) in Hk.
  destruct (Pop_wasm_stk_run locs s ss c t t Hinv Hs (or_introl eq_refl)) as (e & c' & P & (Te & Ie & _) & V & S & _).
  rewrite Hs in Te. injection Te as Te. destruct (fits_mov _ s ss c t t Hinv Hs Hi) as [F1 F2].
  eapply (case_add _ _ _ c' (mkPAIR Opcode.MOV t)); try eassumption; try reflexivity.
  unfold conv_local_set. rewrite (read_u32_run inst L v rest Hb Hl), (bind_run (lift (Ok v)) _ c c v eq_refl), (bind_run _ _ _ _ _ Hk).
  cbn [lm_ty lm_reg_idx]. rewrite (bind_run _ _ _ _ _ P), Ie, <- Te. reflexivity.
Qed.

Lemma conv_local_tee_run i t L v s ss c inst rest : i = Z.to_nat v -> leb_u L v = true ->
  Convert.operand buf inst = leb_bytes L v ++ rest -> inv locs (s :: ss) c -> locs !! i = Some t -> slot_ty locs s = Some t ->
  case_run (conv_local_tee buf (mkPAIR Opcode.MOV I32) inst) (s :: ss) [inst_for Opcode.MOV t [local_reg locs i; slot_reg locs s ss]] c.
Proof.
  intros -> Hl Hb Hinv Hi Hs. pose proof (Forall_lookup_1 _ _ _ _ (iv_types _ _ _ Hinv) Hi) as Ht. cbn beta in Ht.
  destruct (Get_wasm_local_ty_run locs (s :: ss) c _ t Hinv Hi) as [k Hk]. rewrite <- (Z_of_to_nat L v Hl) in Hk.
  destruct (fits_mov _ s ss c t t Hinv Hs Hi) as [F1 F2].
  pose proof (iv_stack _ _ _ Hinv) as Hstk. destruct (cv_stack c) as [|e stk] eqn:Estk; [destruct Hstk|]. destruct Hstk as [(Te & Ie & _) _].
  rewrite Hs in Te. injection Te as Te.
  eapply (case_add _ _ c c (mkPAIR Opcode.MOV t)); try eassumption; try reflexivity.
  unfold conv_local_tee. rewrite (read_u32_run inst L v rest Hb Hl), (bind_run (lift (Ok v)) _ c c v eq_refl), (bind_run _ _ _ _ _ Hk).
  assert (stack_top c = Ok (e, c)) as Htop by (unfold stack_top; rewrite (bind_run get _ c c c eq_refl), Estk; reflexivity).
  cbn [lm_ty lm_reg_idx]. rewrite (bind_run _ _ _ _ _ Htop). unfold Check_stack_elem_valty.
  rewrite bool_decide_eq_true_2, Is_True_Rel_true by auto. rewrite (bind_run (lift (Ok tt)) _ c c tt eq_refl), Ie, <- Te. reflexivity.
Qed.

(** ** An instruction *)
Lemma switch_run cd i ss ss' c inst rest cur ins_cnt : source_of cd = Some i -> Encode inst = cd_op cd ->
  Convert.operand buf inst = concat (map imm_bytes (cd_imms cd)) ++ rest ->
  check1 locs i ss = Some ss' -> inv locs ss c -> current_body func_id (cv_enc c) ->
  exists u, UOPCODE_from_wasm (cd_op cd) = Ok u /\ is_ok (Get_ty_am u) = true /\
    case_run (conv_switch module buf func func_id u inst cur ins_cnt) ss' (emit1 locs i ss) c.
Proof.
  intros Hsrc He Hb Hc Hinv Hbody. destruct cd as [op imms]. unfold source_of in Hsrc. cbn [cd_op cd_imms] in *.
  destruct imms as [|[L v|bs] [|]]; try discriminate; cbn [map concat imm_bytes app] in Hb; rewrite ?app_nil_r in Hb.
  - assert (op = Nop /\ i = S_Nop \/ op = Drop /\ i = S_Drop \/ exists t f, int_op op = Some (t, f) /\ i = S_Op op) as Hop.
    { destruct op; cbn in Hsrc; try discriminate; injection Hsrc as <-; auto; right; right; do 2 eexists; split; reflexivity. }
    destruct Hop as [(-> & ->)|[(-> & ->)|(t & f & Ho & ->)]]; cbn [check1 emit1] in *.
    + eexists. split; [vm_compute; reflexivity|]. split; [reflexivity|]. injection Hc as <-.
      apply (case_nothing _ _ c c); [unfold conv_switch; now rewrite He | exact Hinv | reflexivity].
    + eexists. split; [vm_compute; reflexivity|]. split; [reflexivity|]. destruct ss as [|s ss]; [discriminate|]. injection Hc as <-.
      pose proof (iv_slots _ _ _ Hinv) as Hsl. inversion Hsl as [|x y (u & Hu & _) _ [E1 E2]]. subst.
      destruct (Pop_wasm_stk_run locs s ss c u VALTY_UNKNOWN Hinv Hu (or_intror eq_refl)) as (e & c' & P & _ & V & S & _).
      apply (case_nothing _ _ c c'); [|exact V|exact S]. unfold conv_switch. rewrite He, (bind_run _ _ _ _ _ P). reflexivity.
    + destruct (int_op_opcode op t f Ho) as (Hu & Hv & Ham). eexists. split; [exact Hu|]. split; [destruct Ham as [Ham|Ham]; unfold Get_ty_am; cbn [pr_opcode]; now rewrite Ham|].
      rewrite Ho in *. cbn [mbind option_bind] in Hc. destruct ss as [|s2 [|s1 ss]]; try discriminate. destruct (has_type locs s1 t) eqn:H1; [|discriminate].
      destruct (has_type locs s2 t) eqn:H2; [|discriminate]. cbn [andb] in Hc. apply has_type_inv in H1, H2.
      apply pushes in Hc as (-> & _ & Hbd). eapply conv_op_run; eauto.
  - assert (exists N t, (op = I32Const /\ t = I32 /\ N = 32 \/ op = I64Const /\ t = I64 /\ N = 64) /\ leb_s N L v = true /\ i = S_Const t v \/
      leb_u L v = true /\ (op = LocalGet /\ i = S_LocalGet (Z.to_nat v) \/ op = LocalSet /\ i = S_LocalSet (Z.to_nat v) \/ op = LocalTee /\ i = S_LocalTee (Z.to_nat v)))
      as (N & t & Hop).
    { destruct op; try discriminate;
        (destruct (leb_s _ L v) eqn:E || destruct (leb_u L v) eqn:E); try discriminate; injection Hsrc as <-;
        first [exists 32, I32; left; now auto | exists 64, I64; left; now auto | exists 0, I32; right; now auto 10]. }
    destruct Hop as [(Hop & Hl & ->)|(Hl & Hop)].
    + destruct (conv_const_run t v L op ss ss' c inst rest cur ins_cnt He) as (u & Hu & Hrun); auto.
      { destruct Hop as [(-> & -> & ->)|(-> & -> & ->)]; auto. }
      { destruct Hop as [(_ & -> & _)|(_ & -> & _)]; exact Hc. }
      exists u. split; [exact Hu|]. split; [|exact Hrun].
      destruct Hop as [(-> & _)|(-> & _)]; vm_compute in Hu; injection Hu as <-; reflexivity.
    + destruct Hop as [(-> & ->)|[(-> & ->)|(-> & ->)]]; (eexists; split; [vm_compute; reflexivity|]; split; [reflexivity|]); cbn [check1 emit1] in *.
      * destruct (bool_decide _) eqn:E; [|discriminate]. injection Hc as <-. apply bool_decide_eq_true_1 in E as [t' Ht'].
        unfold conv_switch. rewrite He. eapply conv_local_get_run; eauto.
      * destruct ss as [|s ss]; [discriminate|]. destruct (locs !! Z.to_nat v) as [t'|] eqn:Ht'; [|discriminate]. cbn [mbind option_bind default] in *.
        destruct (has_type locs s t') eqn:E; [|discriminate]. apply has_type_inv in E. destruct (free_of _ _); [|discriminate].
        injection Hc as <-. unfold conv_switch. rewrite He. eapply conv_local_set_run; eauto.
      * destruct ss as [|s ss]; [discriminate|]. destruct (locs !! Z.to_nat v) as [t'|] eqn:Ht'; [|discriminate]. cbn [mbind option_bind default] in *.
        destruct (has_type locs s t') eqn:E; [|discriminate]. apply has_type_inv in E. destruct (free_of _ _); [|discriminate].
        injection Hc as <-. unfold conv_switch. rewrite He. eapply conv_local_tee_run; eauto.
Qed.

(** The graph has a statement for the instructions from [ins_cnt] on. *)
Definition has_stmts (g : WINST_STMT_GRAPH) (ins_cnt : Z) (n : nat) : Prop :=
  forall k, (k < n)%nat -> exists id, Get_stmt_id_by_inst (ins_cnt + Z.of_nat k) g = Ok id /\ is_ok (Stmt_id id g) = true.

Lemma inst_size_run c : current_body func_id (cv_enc c) -> exists n, inst_size func_id c = Ok (n, c).
Proof.
  intros [_ H]. unfold inst_size. rewrite (bind_run get _ c c c eq_refl).
  destruct (U_ENCODER.Get_inst_encoder _ _) as [b|]; [|discriminate]. eexists. reflexivity.
Qed.

Lemma conv_inst_run cd i ss ss' c inst rest ins_cnt : source_of cd = Some i -> Encode inst = cd_op cd ->
  Convert.operand buf inst = concat (map imm_bytes (cd_imms cd)) ++ rest ->
  check1 locs i ss = Some ss' -> inv locs ss c -> current_body func_id (cv_enc c) -> has_stmts (cv_graph c) ins_cnt 1 ->
  exists c', conv_inst module buf func func_id inst ins_cnt c = Ok (tt, c') /\ inv locs ss' c' /\ converted (emit1 locs i ss) c c'.
Proof.
  intros Hsrc He Hb Hc Hinv Hbody Hg. destruct (Hg 0%nat ltac:(lia)) as (cur & Hcur & Hst). rewrite Z.add_0_r in Hcur.
  destruct (inst_size_run c Hbody) as [pc Hpc]. set (c1 := set_pc_map (insert_new ins_cnt pc (cv_pc_map c)) c).
  destruct (switch_run cd i ss ss' c1 inst rest cur ins_cnt Hsrc He Hb Hc (inv_pc_map ss _ c Hinv) Hbody)
    as (u & Hu & Ham & (r & c2 & is1 & is2 & Hrun & V & Hconv & Hans & ->)).
  assert (conv_inst module buf func func_id inst ins_cnt c
    = match r with CONTINUE_LOOP => Ok (tt, c2) | ADD_INST u content => add_inst (pr_opcode u) (pr_valty u) content c2 end) as ->.
  { unfold conv_inst. rewrite He, Hu. rewrite (bind_run (lift (Ok u)) _ c c u eq_refl).
    assert (graph_get (Get_stmt_id_by_inst ins_cnt) c = Ok (cur, c)) as Hgg
      by (unfold graph_get; rewrite (bind_run get _ c c c eq_refl), Hcur; reflexivity).
    rewrite (bind_run _ _ _ _ _ Hgg). destruct (Stmt_id cur (cv_graph c)) as [st|] eqn:Est; [|discriminate].
    assert (stmt_at cur c = Ok (st, c)) as Hsa by (unfold stmt_at, graph_get; rewrite (bind_run get _ c c c eq_refl), Est; reflexivity).
    rewrite (bind_run _ _ _ _ _ Hsa). destruct (Get_ty_am u) as [am|]; [|discriminate]. rewrite (bind_run (lift (Ok am)) _ c c am eq_refl).
    rewrite (bind_run _ _ _ _ _ Hpc), (bind_run (modify (fun c => set_pc_map (insert_new ins_cnt pc (cv_pc_map c)) c)) _ c c1 tt eq_refl), (bind_run _ _ _ _ _ Hrun). now destruct r. }
  assert (converted is1 c c2) as Hconv' by (destruct Hconv; split; auto).
  destruct r as [|u' content]; cbn [answers] in Hans.
  - subst is2. rewrite app_nil_r. eauto.
  - destruct Hans as (-> & Hok & Hu32). cbn [forallb] in Hok. rewrite andb_true_r in Hok.
    rewrite (add_inst_run _ _ _ _ Hok Hu32) by (rewrite (ct_enc _ _ _ Hconv'); apply (current_body_app func_id), Hbody).
    eexists. split; [reflexivity|]. split; [now apply inv_enc|]. eapply converted_app; [exact Hconv' | apply converted_enc].
Qed.

Lemma operand_at pc c rest : coded_bytes c ++ rest = drop pc buf -> 
  Convert.operand buf (set_wasm_pc pc (row_of (cd_op c))) = concat (map imm_bytes (cd_imms c)) ++ rest.
Proof.
  intros H. unfold Convert.operand. cbn [set_wasm_pc _wasm_pc]. replace (pc + 1)%nat with (1 + pc)%nat by lia.
  rewrite Nat.add_comm, <- drop_drop, <- H. reflexivity.
Qed.
Lemma drop_next pc c rest : coded_bytes c ++ rest = drop pc buf -> rest = drop (pc + length (coded_bytes c)) buf.
Proof. intros H. rewrite <- drop_drop, <- H. now rewrite drop_app_length. Qed.

Lemma source_encode cd i pc : source_of cd = Some i -> Encode (set_wasm_pc pc (row_of (cd_op cd))) = cd_op cd.
Proof.
  intros H. apply (row_imms_of (cd_op cd)); intros E; destruct cd as [op imms]; cbn in E; subst op;
    unfold source_of in H; cbn in H; destruct imms as [|[] []]; discriminate.
Qed.

(** Code: each instruction at its place in the buffer. *)
Lemma conv_insts_run cds : forall is_ ss ss' c pc rest ins_cnt, map source_of cds = map Some is_ ->
  check locs is_ ss = Some ss' -> code_bytes cds ++ rest = drop pc buf ->
  inv locs ss c -> current_body func_id (cv_enc c) -> has_stmts (cv_graph c) ins_cnt (length cds) ->
  exists c', conv_insts module buf func func_id (insts_at pc cds) ins_cnt c = Ok (tt, c') /\
    inv locs ss' c' /\ converted (emit locs is_ ss) c c' /\
    forall t l, pt_get t (cv_local_tab c') = Ok l -> base locs t + peak locs t is_ ss <= RET_REG_NUM + Z.of_nat (length (_content l)).
Proof.
  induction cds as [|cd cds IH]; intros [|i is_] ss ss' c pc rest ins_cnt Hsrc Hc Hb Hinv Hbody Hg; try discriminate.
  - cbn in Hc. injection Hc as <-. exists c. split; [reflexivity|]. split; [exact Hinv|]. split; [apply converted_stable; reflexivity|].
    intros t l Hl. destruct (iv_tabs _ _ _ Hinv t l Hl) as [Hcov _ _]. cbn [peak]. pose proof (temps_nonneg t ss). lia.
  - cbn [map] in Hsrc. injection Hsrc as Hi Hsrc. cbn [check] in Hc. destruct (check1 locs i ss) as [ss1|] eqn:E1; [|discriminate].
    cbn [mbind option_bind] in Hc. unfold code_bytes in Hb. cbn [map concat] in Hb. fold (code_bytes cds) in Hb. rewrite <- app_assoc in Hb.
    destruct (conv_inst_run cd i ss ss1 c _ _ ins_cnt Hi (source_encode cd i pc Hi) (operand_at pc cd _ Hb) E1 Hinv Hbody)
      as (c1 & R1 & V1 & C1).
    { intros k Hk. apply Hg. cbn [length]. lia. }
    destruct (IH is_ ss1 ss' c1 (pc + length (coded_bytes cd))%nat rest (ins_cnt + 1) Hsrc Hc (drop_next pc cd _ Hb) V1) as (c' & R2 & V2 & C2 & K2).
    { rewrite (ct_enc _ _ _ C1). now apply current_body_app. }
    { rewrite (ct_graph _ _ _ C1). intros k Hk. replace (ins_cnt + 1 + Z.of_nat k) with (ins_cnt + Z.of_nat (S k)) by lia.
      apply Hg. cbn [length]. lia. }
    exists c'. cbn [insts_at conv_insts emit]. rewrite (bind_run _ _ _ _ _ R1), E1. split; [exact R2|]. split; [exact V2|].
    pose proof (converted_app _ _ _ _ _ C1 C2) as C. split; [exact C|]. intros t l Hl. specialize (K2 t l Hl). cbn [peak]. rewrite E1.
    destruct (pt_get t (cv_local_tab c)) as [l0|] eqn:El0.
    + destruct (ct_tabs _ _ _ C t l0 El0) as (l' & Hl' & Hlen & _). rewrite Hl in Hl'. injection Hl' as <-.
      destruct (iv_tabs _ _ _ Hinv t l0 El0) as [Hcov _ _]. lia.
    + destruct t; discriminate.
Qed.
End Inst.
End Cases.
