(* ===== verification/Creation.v ===== *)
(** * The start of a function's conversion

  [Create_ubh_code] enters the parameters and the locals in their tables and reserves
  their registers; [Build_block_hierarchy] numbers the instructions.  What they leave for
  the conversion of straight-line code. *)

From S2P Require Import Prelude CInt BitField Isa Inst Ubh UModule StrTab TypeEncoder Encoder Code Leb128 Winst Splitting LocalTable Graph Converter Convert Alloc Straight.
From stdpp Require Import strings.
From Stdlib Require Import ZArith Lia.
Local Open Scope Z_scope.

Section Creation.
Context {bd : Build} {vg : VectorGrowth} {cb : ConvBuild}.

Lemma Conv_wabt_ty_value w t : Conv_wabt_ty w = Ok t -> is_value_type t = true.
Proof.
  unfold Conv_wabt_ty, wabt_op_tab. cbn [list_find]. repeat (destruct (decide _); [now intros [= <-]|cbn [fmap option_fmap option_map prod_map]]).
  destruct (Is_True false); [now intros [= <-] | discriminate].
Qed.

(** ** The tables of the locals *)
Definition local_kind (k : LOCAL_KIND) : Prop := k = LOCAL \/ k = FORMAL_PARAM.
Record tables_for (locs : list VALTYPE) (c : CONV) : Prop := {
  tf_types : Forall (fun t => is_value_type t = true) locs;
  tf_tabs : forall t l, pt_get t (cv_local_tab c) = Ok l ->
    Z.of_nat (length (_content l)) = count t locs /\ Forall (fun e => local_kind (le_kind e)) (_content l);
  tf_map : length (cv_local_map c) = length locs;
  tf_reg : forall i t, locs !! i = Some t -> exists k, cv_local_map c !! i = Some (mkMAP_ELEM (local_reg locs i) t k);
}.

Lemma local_reg_app locs more i : (i < length locs)%nat -> local_reg (locs ++ more) i = local_reg locs i.
Proof. intros H. unfold local_reg. rewrite lookup_app_l by exact H. now rewrite take_app_le by lia. Qed.
Lemma local_reg_last locs t : local_reg (locs ++ [t]) (length locs) = RET_REG_NUM + count t locs.
Proof. unfold local_reg. now rewrite lookup_app_r, Nat.sub_diag, take_app_length by lia. Qed.

Lemma count_snoc t u locs : count t (locs ++ [u]) = count t locs + if decide (u = t) then 1 else 0.
Proof. rewrite count_app. cbn [count]. lia. Qed.

(** What the steps for a parameter or a local do: a new entry in each table. *)
Definition add_local (t : VALTYPE) (k : LOCAL_KIND) : CM unit :=
  _ ← upd_tab t (tab_push_back (mkTAB_ELEM k t 0));
  l ← tab_of t;
  e ← lift (LOCAL_MAP_ELEM_new (tab_size l) t k);
  modify (fun c => set_local_map (cv_local_map c ++ [e]) c).

(** Everything but the tables of the locals. *)
Record same_but_locals (c c' : CONV) : Prop := {
  sl_ctx : cv_ctx c' = cv_ctx c;
  sl_enc : cv_enc c' = cv_enc c;
  sl_graph : cv_graph c' = cv_graph c;
  sl_stack : cv_stack c' = cv_stack c;
  sl_regs : cv_regs c' = cv_regs c;
  sl_calls : cv_calls c' = cv_calls c;
}.
#[local] Instance same_but_locals_refl : Reflexive same_but_locals.
Proof. now intros c. Qed.
#[local] Instance same_but_locals_trans : Transitive same_but_locals.
Proof. intros c1 c2 c3 [] []. split; congruence. Qed.

Lemma add_local_run locs c t k c' : tables_for locs c -> is_value_type t = true -> local_kind k ->
  Z.of_nat (length locs) < 2 ^ 31 -> add_local t k c = Ok (tt, c') -> tables_for (locs ++ [t]) c' /\ same_but_locals c c'.
Proof.
  intros [T1 T2 T3 T4] Ht Hk Hlen Hrun. destruct (pt_get_value t (cv_local_tab c) Ht) as [l Hl].
  destruct (T2 t l Hl) as [L1 L2]. pose proof (count_nonneg t locs). pose proof (count_le_length t locs).
  set (l' := tab_push_back (mkTAB_ELEM k t 0) l). set (c1 := set_local_tab (pt_set t l' (cv_local_tab c)) c).
  assert (upd_tab t (tab_push_back (mkTAB_ELEM k t 0)) c = Ok (tt, c1)) as Hu
    by (unfold upd_tab; rewrite (bind_run _ _ _ _ _ (tab_of_run t c l Hl)); reflexivity).
  assert (pt_get t (cv_local_tab c1) = Ok l') as Hl' by (now apply pt_get_set_same).
  assert (tab_size l' = count t locs + 1) as Hsz.
  { unfold tab_size, l', tab_push_back. cbn [_content]. rewrite length_app. cbn [length]. rewrite UINT32_id; lia. }
  assert (LOCAL_MAP_ELEM_new (tab_size l') t k = Ok (mkMAP_ELEM (RET_REG_NUM + count t locs) t k)) as He.
  { unfold LOCAL_MAP_ELEM_new. rewrite Hsz, (proj2 (Z.leb_le _ _)), Is_True_true by lia. cbn [mbind outcome_bind mret outcome_ret].
    pose proof RET_REG_NUM_range. unfold CONST_REG_NUM. rewrite UINT32_id by lia. do 2 f_equal. lia. }
  unfold add_local in Hrun. rewrite (bind_run _ _ _ _ _ Hu), (bind_run _ _ _ _ _ (tab_of_run t c1 l' Hl')), He in Hrun.
  injection Hrun as <-. split; [|now split]. set (e := mkMAP_ELEM (RET_REG_NUM + count t locs) t k).
  change (cv_local_map c) with (cv_local_map c) in *. split.
  - apply Forall_app_2; auto.
  - intros u q Hq. cbn [set_local_map cv_local_tab c1 set_local_tab] in Hq. rewrite count_snoc.
    apply pt_get_set in Hq as [[-> ->]|[Hne Hq]].
    + rewrite decide_True by reflexivity. unfold l', tab_push_back. cbn [_content]. rewrite length_app. cbn [length].
      split; [lia|]. apply Forall_app_2; [exact L2|]. now constructor.
    + rewrite decide_False by congruence. destruct (T2 u q Hq). split; [lia | assumption].
  - cbn [set_local_map cv_local_map c1 set_local_tab]. rewrite !length_app, T3. reflexivity.
  - intros i u Hi. cbn [set_local_map cv_local_map c1 set_local_tab]. pose proof T3 as Hml.
    destruct (decide (i < length locs)%nat) as [Hlt|Hge].
    + rewrite lookup_app_l in Hi by exact Hlt. destruct (T4 i u Hi) as [k' Hk']. exists k'.
      rewrite local_reg_app by exact Hlt. now apply lookup_app_l_Some.
    + pose proof (lookup_lt_Some _ _ _ Hi) as Hi'. rewrite length_app in Hi'. cbn [length] in Hi'.
      assert (i = length locs) as -> by lia. rewrite lookup_app_r, Nat.sub_diag in Hi by lia. injection Hi as <-.
      exists k. rewrite local_reg_last, lookup_app_r, Hml, Nat.sub_diag by lia. reflexivity.
Qed.

Lemma add_params_cons w types c ts c' : add_params (w :: types) c = Ok (ts, c') -> exists t c1 ts',
  Conv_wabt_ty (UINT32 w) = Ok t /\ add_local t FORMAL_PARAM c = Ok (tt, c1) /\ add_params types c1 = Ok (ts', c') /\ ts = t :: ts'.
Proof.
  cbn [add_params]. intros (t & c0 & [Ht ->]%lift_Ok & H)%bind_Ok. apply bind_Ok in H as (u & c0 & [_ ->]%lift_Ok & H).
  apply bind_Ok in H as ([] & c1 & H1 & H). apply bind_Ok in H as (l & c2 & H2 & H). apply bind_Ok in H as (e & c3 & H3 & H).
  apply bind_Ok in H as ([] & c4 & H4 & H). apply bind_Ok in H as (ts' & c5 & H5 & [= <- <-]).
  exists t, c4, ts'. split; [exact Ht|]. split; [|auto]. unfold add_local.
  now rewrite (bind_run _ _ _ _ _ H1), (bind_run _ _ _ _ _ H2), (bind_run _ _ _ _ _ H3).
Qed.
Lemma add_locals_cons w types c c' : add_locals (w :: types) c = Ok (tt, c') -> exists t c1,
  Conv_wabt_ty (UINT32 w) = Ok t /\ add_local t LOCAL c = Ok (tt, c1) /\ add_locals types c1 = Ok (tt, c').
Proof.
  cbn [add_locals]. intros (t & c0 & [Ht ->]%lift_Ok & H)%bind_Ok.
  apply bind_Ok in H as ([] & c1 & H1 & H). apply bind_Ok in H as (l & c2 & H2 & H). apply bind_Ok in H as (e & c3 & H3 & H).
  apply bind_Ok in H as ([] & c4 & H4 & H). exists t, c4. split; [exact Ht|]. split; [|exact H]. unfold add_local.
  now rewrite (bind_run _ _ _ _ _ H1), (bind_run _ _ _ _ _ H2), (bind_run _ _ _ _ _ H3).
Qed.

Lemma add_params_run types : forall locs c ts c', tables_for locs c -> Z.of_nat (length locs + length types) < 2 ^ 31 ->
  add_params types c = Ok (ts, c') -> tables_for (locs ++ ts) c' /\ same_but_locals c c' /\ conv_types types = Ok ts.
Proof.
  induction types as [|w types IH]; intros locs c ts c' Ht Hlen H.
  - injection H as <- <-. rewrite app_nil_r. auto using same_but_locals_refl.
  - apply add_params_cons in H as (t & c1 & ts' & Hw & H1 & H2 & ->). cbn [length] in Hlen.
    destruct (add_local_run locs c t FORMAL_PARAM c1 Ht (Conv_wabt_ty_value _ _ Hw) (or_intror eq_refl) ltac:(lia) H1) as [T1 S1].
    destruct (IH (locs ++ [t]) c1 ts' c' T1) as (T2 & S2 & E2); [rewrite length_app; cbn [length]; lia | exact H2|].
    rewrite <- (assoc_L (++)) in T2. split; [exact T2|]. split; [etransitivity; eauto|]. cbn [conv_types]. rewrite Hw. cbn [mbind outcome_bind].
    now rewrite E2.
Qed.
Lemma add_locals_run types : forall locs c c', tables_for locs c -> Z.of_nat (length locs + length types) < 2 ^ 31 ->
  add_locals types c = Ok (tt, c') -> exists ts, tables_for (locs ++ ts) c' /\ same_but_locals c c' /\ conv_types types = Ok ts.
Proof.
  induction types as [|w types IH]; intros locs c c' Ht Hlen H.
  - injection H as <-. exists []. rewrite app_nil_r. auto using same_but_locals_refl.
  - apply add_locals_cons in H as (t & c1 & Hw & H1 & H2). cbn [length] in Hlen.
    destruct (add_local_run locs c t LOCAL c1 Ht (Conv_wabt_ty_value _ _ Hw) (or_introl eq_refl) ltac:(lia) H1) as [T1 S1].
    destruct (IH (locs ++ [t]) c1 c' T1) as (ts & T2 & S2 & E2); [rewrite length_app; cbn [length]; lia | exact H2|].
    rewrite <- (assoc_L (++)) in T2. exists (t :: ts). split; [exact T2|]. split; [etransitivity; eauto|]. cbn [conv_types]. rewrite Hw.
    cbn [mbind outcome_bind]. now rewrite E2.
Qed.

Lemma add_locals_kinds types : forall c c', add_locals types c = Ok (tt, c') ->
  exists m, cv_local_map c' = cv_local_map c ++ m /\ Forall (fun e => lm_map_kind e = LOCAL) m.
Proof.
  induction types as [|w types IH]; intros c c' H.
  - injection H as <-. exists []. now rewrite app_nil_r.
  - apply add_locals_cons in H as (t & c1 & _ & H1 & H2). destruct (IH c1 c' H2) as (m & Hm & Hk).
    unfold add_local in H1. apply bind_Ok in H1 as ([] & c2 & Hu & H1). apply bind_Ok in H1 as (l & c3 & Hl & H1).
    apply bind_Ok in H1 as (e & c4 & [He ->]%lift_Ok & [= <-]). cbn [set_local_map cv_local_map] in Hm. exists (e :: m). split.
    + unfold upd_tab in Hu. apply bind_Ok in Hu as (l0 & c5 & H5 & [= <-]). unfold tab_of in H5, Hl.
      rewrite (bind_run get _ c c c eq_refl) in H5. apply lift_Ok in H5 as [_ ->]. rewrite (bind_run get _ _ _ _ eq_refl) in Hl.
      apply lift_Ok in Hl as [_ ->]. rewrite Hm. cbn [set_local_tab cv_local_map]. now rewrite <- (assoc_L (++)).
    + constructor; [|exact Hk]. unfold LOCAL_MAP_ELEM_new in He. destruct (Is_True _); [|discriminate]. injection He as <-. reflexivity.
Qed.

(** ** The reserved registers *)
Lemma fill_lookup s n : forall from m i, i < from \/ from + Z.of_nat n <= i -> REG_ALLOC.fill s from n m !! i = m !! i.
Proof.
  induction n as [|n IH]; intros from m i Hi; cbn [REG_ALLOC.fill]; [reflexivity|].
  rewrite IH by lia. apply lookup_insert_ne. lia.
Qed.

Definition regs_reserved (ts : list VALTYPE) (locs : list VALTYPE) (h : REG_ALLOC.t) : Prop :=
  forall t r, t ∈ ts -> pt_get t h = Ok r -> regs_are locs t [] r.

Lemma Preoccupy_run locs t c c' n : is_value_type t = true -> 0 <= n -> n = count t locs ->
  (forall r, pt_get t (cv_regs c) = Ok r -> REG_ALLOC._register_state r = ∅) ->
  on_regs (REG_ALLOC.Preoccupy_registers t RET_REG_NUM n) c = Ok (tt, c') ->
  exists r, c' = set_regs (pt_set t r (cv_regs c)) c /\ regs_are locs t [] r.
Proof.
  intros Ht Hn0 Hn He H. destruct (pt_get_value t (cv_regs c) Ht) as [r Hr]. specialize (He r Hr). pose proof RET_REG_NUM_range.
  unfold on_regs, REG_ALLOC.Preoccupy_registers in H. rewrite Hr in H. destruct (Z.ltb_spec 4096 (RET_REG_NUM + n)) as [|Hle]; [discriminate|].
  injection H as <-. eexists. split; [reflexivity|]. split; cbn [REG_ALLOC._next_reg_id REG_ALLOC._register_state temps].
  - rewrite UINT32_id by lia. unfold base. lia.
  - intros i Hi. unfold base in *. rewrite Z.add_0_r, He. rewrite !fill_lookup by lia. rewrite lookup_empty.
    now rewrite (proj2 (Z.ltb_ge _ _)) by lia.
Qed.

Lemma preoccupy_run locs c c' : cv_regs c = REG_ALLOC.create -> tables_for locs c -> Z.of_nat (length locs) < 2 ^ 31 ->
  preoccupy VALTYPES c = Ok (tt, c') ->
  exists r, c' = set_regs r c /\ forall t q, pt_get t r = Ok q -> regs_are locs t [] q.
Proof.
  intros Hc [T1 T2 T3 T4] Hlen H. unfold VALTYPES in H.
  assert (forall t k c1 c2, is_value_type t = true -> cv_local_tab c1 = cv_local_tab c ->
    (forall r, pt_get t (cv_regs c1) = Ok r -> REG_ALLOC._register_state r = ∅) -> preoccupy (t :: k) c1 = Ok (tt, c2) ->
    exists r, regs_are locs t [] r /\ preoccupy k (set_regs (pt_set t r (cv_regs c1)) c1) = Ok (tt, c2)) as Hstep.
  { intros t k c1 c2 Ht Htab He Hp. destruct (pt_get_value t (cv_local_tab c1) Ht) as [l Hl]. cbn [preoccupy] in Hp.
    rewrite (bind_run _ _ _ _ _ (tab_of_run t c1 l Hl)) in Hp. apply bind_Ok in Hp as ([] & c3 & H1 & H2).
    rewrite Htab in Hl. destruct (T2 t l Hl) as [L _]. pose proof (count_nonneg t locs). pose proof (count_le_length t locs).
    assert (tab_size l = count t locs) as Hsz by (unfold tab_size; rewrite L; apply UINT32_id; lia). rewrite Hsz in H1.
    destruct (Preoccupy_run locs t c1 c3 (count t locs) Ht ltac:(lia) eq_refl He H1) as (r & -> & Hr). eauto. }
  apply Hstep in H as (r1 & R1 & H); [|reflexivity|reflexivity|intros r E; rewrite Hc in E; cbn in E; injection E as <-; reflexivity].
  apply Hstep in H as (r2 & R2 & H); [|reflexivity|reflexivity|intros r E; cbn in E; rewrite Hc in E; cbn in E; injection E as <-; reflexivity].
  apply Hstep in H as (r3 & R3 & H); [|reflexivity|reflexivity|intros r E; cbn in E; rewrite Hc in E; cbn in E; injection E as <-; reflexivity].
  apply Hstep in H as (r4 & R4 & H); [|reflexivity|reflexivity|intros r E; cbn in E; rewrite Hc in E; cbn in E; injection E as <-; reflexivity].
  injection H as <-. eexists. split; [reflexivity|]. intros t q Hq. destruct t; cbn in Hq; try discriminate; injection Hq as <-; assumption.
Qed.

Lemma on_enc_frame {A} (h : M U_ENCODER.t A) c a c' : on_enc h c = Ok (a, c') -> exists e, h (cv_enc c) = Ok (a, e) /\ c' = set_enc e c.
Proof. unfold on_enc. destruct (h (cv_enc c)) as [[x e]|]; [|discriminate]. intros [= <- <-]. eauto. Qed.
Lemma func_name_frame func c a c' : func_name_of func c = Ok (a, c') -> exists x, c' = set_ctx x c.
Proof.
  unfold func_name_of. rewrite (bind_run get _ c c c eq_refl). destruct (Get_func_name_cache _ _).
  - intros [= _ <-]. exists (cv_ctx c). now destruct c.
  - destruct (bool_decide _); [|intros [= _ <-]; exists (cv_ctx c); now destruct c].
    unfold on_ctx. destruct (Get_anon_func_name _) as [[n x]|]; [|discriminate]. intros [= _ <-]. eauto.
Qed.

Lemma tables_start c : cv_local_tab c = pt_all LOCAL_TAB0 -> cv_local_map c = [] -> tables_for [] c.
Proof.
  intros Ht Hm. split; [constructor| |now rewrite Hm|intros i t Hi; discriminate].
  rewrite Ht. intros t l Hl. destruct t; cbn in Hl; try discriminate; injection Hl as <-; split; reflexivity || constructor.
Qed.

(** The state that an operation of the converter's tables leaves is the invariant's. *)
Lemma inv_start locs c : tables_for locs c -> cv_stack c = [] -> (forall t q, pt_get t (cv_regs c) = Ok q -> regs_are locs t [] q) ->
  (forall t, base locs t <= 126) -> inv locs [] c.
Proof.
  intros [T1 T2 T3 T4] Hs Hr Hb. split; auto.
  - now rewrite Hs.
  - intros t l Hl. destruct (T2 t l Hl) as [L1 L2]. specialize (Hb t). unfold base in *. pose proof RET_REG_NUM_range. split; cbn [temps].
    + unfold base. lia.
    + lia.
    + intros k Hk. destruct (lookup_lt_is_Some_2 (_content l) k ltac:(lia)) as [e He]. exists e. split; [exact He|].
      exact (Forall_lookup_1 _ _ _ _ L2 He).
  - intros t. cbn [temps]. specialize (Hb t). lia.
Qed.

Lemma conv_types_length ws : forall ts, conv_types ws = Ok ts -> length ts = length ws.
Proof.
  induction ws as [|w ws IH]; intros ts E; cbn [conv_types] in E; [now injection E as <-|].
  destruct (Conv_wabt_ty _); [|discriminate]. cbn [mbind outcome_bind] in E. destruct (conv_types ws) as [xs|]; [|discriminate].
  injection E as <-. cbn [length]. now rewrite (IH xs eq_refl).
Qed.

Lemma Start_func_body fid l io z e e' k : U_ENCODER.Start_func fid l io z e = Ok (k, e') ->
  U_ENCODER._u_inst_encoder e' = U_ENCODER._u_inst_encoder e ++ [U_CODE_BODY.create l io z].
Proof.
  unfold U_ENCODER.Start_func. intros H. rewrite (bind_run (modify _) _ e _ tt eq_refl) in H.
  apply bind_Ok in H as (i & e1 & [= <- <-] & H). rewrite (bind_run get _ _ _ _ eq_refl) in H.
  apply bind_Ok in H as (f & e2 & [_ ->]%lift_Ok & [= _ <-]). reflexivity.
Qed.

(** What a function's conversion starts from. *)
Record created (func : WABT_FUNC) (ps ls : list VALTYPE) (c : CONV) : Prop := {
  cr_params : conv_types (sg_params (wf_sig func)) = Ok ps;
  cr_locals : conv_types (wf_locals func) = Ok ls;
  cr_tables : tables_for (ps ++ ls) c;
  cr_kinds : Forall (fun e => lm_map_kind e = LOCAL) (drop (length ps) (cv_local_map c));
  cr_graph : cv_graph c = graph0;
  cr_stack : cv_stack c = [];
  cr_calls : cv_calls c = [];
  cr_regs : forall t q, pt_get t (cv_regs c) = Ok q -> regs_are (ps ++ ls) t [] q;
  cr_body : exists v l, U_ENCODER._u_inst_encoder (cv_enc c) = v ++ [U_CODE_BODY.create l (0, 0, 0, 0) 0];
}.

Lemma Create_ubh_code_run func ctx e fid c : Z.of_nat (length (sg_params (wf_sig func)) + length (wf_locals func)) < 2 ^ 31 ->
  Create_ubh_code func (conv0 ctx e) = Ok (fid, c) -> exists ps ls, created func ps ls c.
Proof.
  intros Hlen H. unfold Create_ubh_code in H. apply bind_Ok in H as (ps & c1 & H1 & H). apply bind_Ok in H as ([] & c2 & H2 & H).
  apply bind_Ok in H as ([] & c3 & H3 & H). rewrite (bind_run get _ c3 c3 c3 eq_refl) in H. cbv beta zeta in H.
  apply bind_Ok in H as (rets & c4 & [_ ->]%lift_Ok & H). apply bind_Ok in H as (ty & c4 & (e4 & _ & ->)%on_enc_frame & H).
  apply bind_Ok in H as (name & c5 & [x5 ->]%func_name_frame & H). apply bind_Ok in H as (f & c6 & (e6 & _ & ->)%on_enc_frame & H).
  apply bind_Ok in H as (z & c7 & (e7 & Hst & ->)%on_enc_frame & [= <- <-]).
  destruct (add_params_run (sg_params (wf_sig func)) [] (conv0 ctx e) ps c1 (tables_start (conv0 ctx e) eq_refl eq_refl) ltac:(cbn [length]; lia) H1) as (T1 & S1 & E1).
  pose proof (conv_types_length _ _ E1) as Hps. cbn [app] in T1.
  destruct (add_locals_run (wf_locals func) ps c1 c2 T1 ltac:(lia) H2) as (ls & T2 & S2 & E2).
  pose proof (conv_types_length _ _ E2) as Hls. destruct (add_locals_kinds _ _ _ H2) as (m & Hm & Hk).
  destruct S1 as [A1 A2 A3 A4 A5 A6], S2 as [B1 B2 B3 B4 B5 B6].
  destruct (preoccupy_run (ps ++ ls) c2 c3 ltac:(rewrite B5, A5; reflexivity) T2 ltac:(rewrite length_app; lia) H3) as (r & -> & Hr).
  apply Start_func_body in Hst. exists ps, ls.
  split; cbn [set_enc set_ctx set_regs cv_graph cv_stack cv_calls cv_regs cv_local_map cv_enc]; try assumption.
  - destruct T2; split; assumption.
  - rewrite Hm, <- (tf_map _ _ T1), drop_app_length. exact Hk.
  - rewrite B3, A3. reflexivity.
  - rewrite B4, A4. reflexivity.
  - rewrite B6, A6. reflexivity.
  - eauto.
Qed.
End Creation.
