(* ===== verification/Building.v ===== *)
(** * The statement graph of straight-line code

  [Build_block_hierarchy] on a function without blocks: the function's statement, and
  a statement in it for every instruction. *)

From S2P Require Import Prelude CInt Isa Inst UModule StrTab TypeEncoder Encoder Leb128 Winst Splitting LocalTable Graph Converter Convert Straight.
From stdpp Require Import strings.
From Stdlib Require Import ZArith Lia.
Local Open Scope Z_scope.
Import WINST.

(** An instruction that opens or closes no block. *)
Definition plain (o : WINST_OPCODE) : bool :=
  match o with If | Block | Loop | Else | End => false | _ => true end.

Section Building.
Context {bd : Build} {vg : VectorGrowth} {cb : ConvBuild}.

(** The graph when the instructions before [n] have been seen. *)
Record flat (n : Z) (g : WINST_STMT_GRAPH) : Prop := {
  fl_root : exists s, _stmts g !! 0%nat = Some s /\ st_kind s = WINST_STMT_ROOT_BLOCK;
  fl_stmts : forall k, 1 <= k < n -> exists id s, _ins_to_stmt g !! k = Some (Z.of_nat id) /\
    _stmts g !! id = Some s /\ st_parent s = Some 0;
  fl_new : forall k, n <= k -> _ins_to_stmt g !! k = None;
  fl_length : Z.of_nat (length (_stmts g)) = n;
}.

Lemma Stmt_id_run g i s : _stmts g !! i = Some s -> Stmt_id (Z.of_nat i) g = Ok s.
Proof.
  intros H. pose proof (lookup_lt_Some _ _ _ H). unfold Stmt_id. rewrite (proj2 (Z.ltb_lt _ _)), Is_True_true by lia.
  cbn [mbind outcome_bind]. unfold vec_at. now rewrite Nat2Z.id, H.
Qed.
Lemma upd_stmt_run g i s f : _stmts g !! i = Some s ->
  upd_stmt (Z.of_nat i) f g = Ok (tt, mkGRAPH (<[i := f s]> (_stmts g)) (_ins_to_stmt g)).
Proof. intros H. unfold upd_stmt. now rewrite (Stmt_id_run g i s H), Nat2Z.id. Qed.

Lemma Add_stmt_to_parent_run n g opc : flat n g -> n < 2 ^ 32 -> exists g',
  Add_stmt_to_parent (WINST_STMT_new WINST_STMT_INSTR n 0 opc) n 0 g = Ok (n, g') /\ flat (n + 1) g'.
Proof.
  intros [(s0 & H0 & K0) Hs Hn Hl] Hb. pose proof (lookup_lt_Some _ _ _ H0) as Hpos. set (len := length (_stmts g)) in *.
  set (new := Set_id n (WINST_STMT_new WINST_STMT_INSTR n 0 opc)). set (st1 := _stmts g ++ [new]).
  set (ins := <[n := n]> (_ins_to_stmt g)).
  assert (Add_stmt (WINST_STMT_new WINST_STMT_INSTR n 0 opc) n g = Ok (n, mkGRAPH st1 ins)) as Ha.
  { unfold Add_stmt. fold len. rewrite Hl, (Hn n) by lia. unfold UINT32. rewrite wrapu_id by (unfold in_u; lia). reflexivity. }
  assert (st1 !! len = Some new) as L1 by (unfold st1; now rewrite lookup_app_r, Nat.sub_diag by (unfold len; lia)).
  assert (st1 !! 0%nat = Some s0) as L0 by (now apply lookup_app_l_Some).
  set (st2 := <[len := Set_parent 0 new]> st1).
  assert (st2 !! 0%nat = Some s0) as L2 by (unfold st2; rewrite list_lookup_insert_ne by lia; exact L0).
  set (st3 := <[0%nat := Add_children n s0]> st2). exists (mkGRAPH st3 ins). split.
  - unfold Add_stmt_to_parent. rewrite (bind_run _ _ _ _ _ Ha).
    pose proof (upd_stmt_run (mkGRAPH st1 ins) len new (Set_parent 0) L1) as Hu. rewrite Hl in Hu. rewrite (bind_run _ _ _ _ _ Hu).
    pose proof (upd_stmt_run (mkGRAPH st2 ins) 0 s0 (Add_children n) L2) as Hu2. change (Z.of_nat 0) with 0 in Hu2.
    rewrite (bind_run _ _ _ _ _ Hu2). reflexivity.
  - assert (length st2 = S len) as Hlen2 by (unfold st2, st1; rewrite length_insert, length_app; cbn [length]; unfold len; lia).
    assert (length st3 = S len) as Hlen by (unfold st3; rewrite length_insert; exact Hlen2).
    split; cbn [_stmts _ins_to_stmt].
    + exists (Add_children n s0). split; [apply list_lookup_insert_eq; lia | exact K0].
    + intros k Hk. destruct (decide (k = n)) as [->|Hne].
      * exists len, (Set_parent 0 new). rewrite Hl. unfold ins. rewrite lookup_insert_eq. split; [reflexivity|]. split; [|reflexivity].
        unfold st3. rewrite list_lookup_insert_ne by lia. apply list_lookup_insert_eq. unfold st1. rewrite length_app. cbn [length]. fold len. lia.
      * destruct (Hs k ltac:(lia)) as (id & s & E1 & E2 & E3). pose proof (lookup_lt_Some _ _ _ E2) as Hid. fold len in Hid.
        destruct (decide (id = 0%nat)) as [->|Hi].
        -- exists 0%nat, (Add_children n s0). unfold ins. rewrite lookup_insert_ne by lia. split; [exact E1|].
           split; [apply list_lookup_insert_eq; lia|]. rewrite H0 in E2. injection E2 as ->. exact E3.
        -- exists id, s. unfold ins. rewrite lookup_insert_ne by lia. split; [exact E1|]. split; [|exact E3].
           unfold st3, st2, st1. rewrite !list_lookup_insert_ne by lia. now apply lookup_app_l_Some.
    + intros k Hk. unfold ins. rewrite lookup_insert_ne by lia. apply Hn. lia.
    + lia.
Qed.

(** The state between two instructions of a function without open blocks. *)
Record flat_build (n : Z) (e : U_ENCODER.t) (b : BUILD) : Prop := {
  fb_enc : bs_enc b = e;
  fb_work : bs_work b = [0];
  fb_graph : flat n (bs_graph b);
}.

Lemma add_instr_run n e b opc : flat_build n e b -> n < 2 ^ 32 -> exists b', add_instr opc n b = Ok (tt, b') /\ flat_build (n + 1) e b'.
Proof.
  intros [He Hw Hg] Hb. destruct (Add_stmt_to_parent_run n (bs_graph b) opc Hg Hb) as (g' & Ha & Hg').
  exists (mkBUILD (bs_enc b) (bs_labels b) g' (bs_work b)). split; [|now split].
  assert (work_top b = Ok (0, b)) as Ht by (unfold work_top; rewrite (bind_run get _ b b b eq_refl), Hw; reflexivity).
  unfold add_instr. rewrite (bind_run _ _ _ _ _ Ht).
  assert (on_graph_b (Add_stmt_to_parent (WINST_STMT_new WINST_STMT_INSTR n 0 opc) n 0) b
    = Ok (n, mkBUILD (bs_enc b) (bs_labels b) g' (bs_work b))) as Hr by (unfold on_graph_b; now rewrite Ha).
  rewrite (bind_run _ _ _ _ _ Hr). reflexivity.
Qed.

Lemma build_inst_plain buf inst n : plain (Encode inst) = true ->
  build_inst buf inst n = (_ ← add_instr (Encode inst) n; mret (n + 1)).
Proof. unfold build_inst. destruct (Encode inst); try discriminate; reflexivity. Qed.

Lemma build_insts_flat buf ins : forall n e b, flat_build n e b -> n + Z.of_nat (length ins) < 2 ^ 32 ->
  Forall (fun i => plain (Encode i) = true) ins -> forall more, exists b', flat_build (n + Z.of_nat (length ins)) e b' /\
  build_insts buf (ins ++ more) n b = build_insts buf more (n + Z.of_nat (length ins)) b'.
Proof.
  induction ins as [|i ins IH]; intros n e b Hb Hn Hp more.
  - exists b. cbn [length app]. rewrite Z.add_0_r. auto.
  - inversion Hp as [|x y Hi Hp' [E1 E2]]. cbn [length] in *. destruct (add_instr_run n e b (Encode i) Hb ltac:(lia)) as (b1 & H1 & Hb1).
    destruct (IH (n + 1) e b1 Hb1 ltac:(lia) Hp' more) as (b' & Hb' & Hr). exists b'.
    replace (n + Z.of_nat (S (length ins))) with (n + 1 + Z.of_nat (length ins)) by lia. split; [exact Hb'|].
    cbn [app build_insts].
    assert (build_inst buf i n b = Ok (n + 1, b1)) as Hbi
      by (rewrite (build_inst_plain buf i n Hi), (bind_run _ _ _ _ _ H1); reflexivity).
    rewrite (bind_run _ _ _ _ _ Hbi). exact Hr.
Qed.

(** A function of plain instructions and its [end]. *)
Lemma build_graph_run buf ins last c : cv_graph c = graph0 -> Forall (fun i => plain (Encode i) = true) ins -> Encode last = End ->
  Z.of_nat (length ins) + 2 < 2 ^ 32 -> exists g, build_graph buf (ins ++ [last]) c = Ok (tt, set_graph g c) /\
  flat (Z.of_nat (length ins) + 2) g.
Proof.
  intros Hg0 Hp Hl Hn. set (root := Set_id 0 (WINST_STMT_new WINST_STMT_ROOT_BLOCK 1 0 Unreachable)).
  set (labels := LABEL_TAB.mk [0] [bytes_of ".anonymous"%string]).
  set (b1 := mkBUILD (cv_enc c) labels (mkGRAPH [root] ∅) [0]).
  assert (flat_build 1 (cv_enc c) b1) as Hb1.
  { split; try reflexivity. split; cbn [b1 bs_graph _stmts _ins_to_stmt].
    - exists root. auto.
    - lia.
    - intros k _. apply lookup_empty.
    - reflexivity. }
  destruct (build_insts_flat buf ins 1 (cv_enc c) b1 Hb1 ltac:(lia) Hp [last]) as (b2 & Hb2 & Hr).
  destruct (add_instr_run _ _ b2 End Hb2 ltac:(lia)) as (b3 & H3 & Hb3). destruct Hb3 as [E3 W3 G3].
  exists (bs_graph b3). split; [|replace (Z.of_nat (length ins) + 2) with (1 + Z.of_nat (length ins) + 1) by lia; exact G3].
  unfold build_graph, Build_block_hierarchy. rewrite Hg0.
  assert (on_labels_b (LABEL_TAB.Add 0) (mkBUILD (cv_enc c) LABEL_TAB.empty graph0 [])
    = Ok (0, mkBUILD (cv_enc c) labels graph0 [])) as H0
    by (unfold on_labels_b, LABEL_TAB.Add, LABEL_TAB.Add_named; change (negb (0 =? LABEL_NOT_NEEDED)) with true; now rewrite Is_True_true).
  rewrite (bind_run _ _ _ _ _ H0).
  assert (Create_new_block Unreachable (VALTY_COUNT + 1) BLOCK_INSTR_BEGIN (mkBUILD (cv_enc c) labels graph0 []) = Ok (0, b1)) as Hc by reflexivity.
  rewrite (bind_run _ _ _ _ _ Hc). change BLOCK_INSTR_BEGIN with 1. rewrite Hr. cbn [build_insts].
  set (n := 1 + Z.of_nat (length ins)) in *. destruct Hb2 as [E2 W2 G2].
  set (b4 := mkBUILD (bs_enc b3) (bs_labels b3) (bs_graph b3) []).
  destruct (fl_root _ _ G3) as (s0 & L0 & _). pose proof (Stmt_id_run (bs_graph b3) 0 s0 L0) as Hs0. change (Z.of_nat 0) with 0 in Hs0.
  assert (Finish_old_block b3 = Ok (0, b4)) as Hf.
  { unfold Finish_old_block. rewrite (bind_run get _ b3 b3 b3 eq_refl), W3, bool_decide_eq_false_2 by discriminate.
    cbn [negb]. rewrite Is_True_true. reflexivity. }
  assert (graph_stmt 0 b4 = Ok (s0, b4)) as Hgs by (unfold graph_stmt; rewrite (bind_run get _ b4 b4 b4 eq_refl); cbn [b4 bs_graph]; now rewrite Hs0).
  assert (build_end n b2 = Ok (tt, b4)) as Hbe.
  { unfold build_end. rewrite (bind_run get _ b2 b2 b2 eq_refl), bool_decide_eq_false_2 by (rewrite W2; discriminate).
    rewrite (bind_run _ _ _ _ _ H3), (bind_run _ _ _ _ _ Hf), (bind_run _ _ _ _ _ Hgs). reflexivity. }
  unfold build_inst. rewrite Hl.
  rewrite bind_bind, (bind_run get _ b2 b2 b2 eq_refl), bind_bind, (bind_run _ _ _ _ _ Hbe).
  change (Ok (tt, set_graph (bs_graph b3) (set_enc (bs_enc b3) c)) = Ok (tt, set_graph (bs_graph b3) c)). rewrite E3. now destruct c.
Qed.

Lemma flat_has_stmts n g k : flat n g -> 1 + Z.of_nat k <= n -> has_stmts g 1 k.
Proof.
  intros Hf Hk j Hj. destruct (fl_stmts _ _ Hf (1 + Z.of_nat j) ltac:(lia)) as (id & s & H1 & H2 & _).
  exists (Z.of_nat id). split; [|now rewrite (Stmt_id_run g id s H2)].
  unfold Get_stmt_id_by_inst. rewrite H1, bool_decide_eq_true_2, Is_True_Rel_true by eauto. reflexivity.
Qed.
End Building.
