(* ===== verification/Translation.v ===== *)
(** * The translation of a straight-line function

  [Wasm_to_uwasm] on a function without control flow, memory or calls: the registers of
  its locals are zeroed, the instructions of [emit] follow, then the move of the result
  and [RETURN]; and the function declares the registers that its code uses. *)

From S2P Require Import Prelude CInt BitField Wasm Isa Inst Expand Ubh UModule StrTab TypeEncoder Encoder Loading Code Leb128 Winst Splitting LocalTable Graph Converter Convert Alloc Straight Creation Building.
From Stdlib Require Import ZArith Lia.
Local Open Scope Z_scope.
Import WINST.

(** ** The code of a function *)
Definition init1 (t : VALTYPE) (r : Z) : list INST :=
  match t with
  | I32 | I64 => [inst_for Opcode.CONST t [r; 0]]
  | F32 => [inst_for Opcode.CONST_L F32 [r; 0]]
  | F64 => [inst_for Opcode.CONST_L F64 [r; 0]; inst_for Opcode.CONST_L_HIGH F64 [r; 0]]
  | _ => []
  end.

Section Code.
Context {cb : ConvBuild}.
Variable locs : list VALTYPE.
Fixpoint init_from (i : nat) (ts : list VALTYPE) : list INST :=
  match ts with [] => [] | t :: ts => init1 t (local_reg locs i) ++ init_from (S i) ts end.

(** The result is the operand that is left. *)
Definition result_code (ss : list SLOT) : list INST :=
  match ss with
  | [s] => [inst_for Opcode.MOV (default I32 (slot_ty locs s)) [0; slot_reg locs s []]]
  | _ => []
  end.
End Code.

(** Parameters, locals, what is on the stack at the end; the function's whole code. *)
Definition function_code {cb : ConvBuild} (ps ls : list VALTYPE) (is_ : list SIMPLE) (ss : list SLOT) : list INST :=
  init_from (ps ++ ls) (length ps) ls ++ emit (ps ++ ls) is_ [] ++ result_code (ps ++ ls) ss ++ [inst_for Opcode.RETURN I32 []].

Definition END : CODED := mkCODED End [].

Section Translation.
Context {bd : Build} {vg : VectorGrowth} {cb : ConvBuild}.

(** ** The zeros of the locals *)
Lemma operands_fit_zero a : 0 <= a < 126 -> operands_fit TY_AM32_R_IMM [a; 0] = true.
Proof.
  intros Ha. apply bool_decide_eq_true_2. cbn [am_fields]. constructor; [|constructor; [|constructor]].
  - split; unfold ffits, Expand.operand; cbn; unfold in_u in *; lia.
  - split; vm_compute; intuition discriminate.
Qed.

Lemma add_inst_converted c opc t content am : U_ENCODER._u_inst_encoder (cv_enc c) <> [] ->
  UWINST_TY_AM opc = Ok am -> is_value_type t = true -> operands_fit am content = true -> Forall (in_u 32) content ->
  exists e, add_inst opc t content c = Ok (tt, set_enc e c) /\ converted [inst_for opc t content] c (set_enc e c).
Proof.
  intros He Ha Ht Hf Hc. assert (inst_ok (inst_for opc t content) = true) as Hok by (eapply inst_for_ok; eauto using value_type_known).
  eexists. split; [now apply add_inst_run | apply converted_enc].
Qed.

Lemma converted_nonempty is_ c c' : converted is_ c c' -> U_ENCODER._u_inst_encoder (cv_enc c) <> [] ->
  U_ENCODER._u_inst_encoder (cv_enc c') <> [].
Proof.
  intros H He E. rewrite (ct_enc _ _ _ H) in E. apply (f_equal length) in E. cbn in E. rewrite length_app_last in E.
  now destruct (U_ENCODER._u_inst_encoder (cv_enc c)).
Qed.

Lemma init1_run locs t i ss c : inv locs ss c -> locs !! i = Some t -> U_ENCODER._u_inst_encoder (cv_enc c) <> [] ->
  exists e, match t with
      | I32 | I64 => Add_const_inst Opcode.CONST t (local_reg locs i) 0
      | F32 => Add_const_inst Opcode.CONST_L F32 (local_reg locs i) 0
      | F64 => _ ← Add_const_inst Opcode.CONST_L F64 (local_reg locs i) 0; Add_const_inst Opcode.CONST_L_HIGH F64 (local_reg locs i) 0
      | _ => mret tt
      end c = Ok (tt, set_enc e c) /\ converted (init1 t (local_reg locs i)) c (set_enc e c).
Proof.
  intros Hinv Hi He. pose proof (local_reg_small locs ss c i t Hinv Hi) as Hr. pose proof (Forall_lookup_1 _ _ _ _ (iv_types _ _ _ Hinv) Hi) as Ht.
  cbn beta in Ht. set (r := local_reg locs i) in *.
  assert (Forall (in_u 32) [r; 0]) as Hu by (constructor; [apply in_u_small; lia | constructor; [unfold in_u; lia | constructor]]).
  pose proof (operands_fit_zero r Hr) as F32b. pose proof (operands_fit_imm r 0 Hr ltac:(unfold in_u; lia)) as F64b.
  unfold Add_const_inst. destruct t; try discriminate; cbn [init1].
  - eapply add_inst_converted; eauto; reflexivity.
  - eapply add_inst_converted; eauto; reflexivity.
  - eapply add_inst_converted; eauto; reflexivity.
  - destruct (add_inst_converted c Opcode.CONST_L F64 [r; 0] _ He eq_refl eq_refl F64b Hu) as (e1 & R1 & C1).
    destruct (add_inst_converted (set_enc e1 c) Opcode.CONST_L_HIGH F64 [r; 0] _
      (converted_nonempty _ _ _ C1 He)
      eq_refl eq_refl F64b Hu) as (e2 & R2 & C2).
    exists e2. rewrite (bind_run _ _ _ _ _ R1), R2. split; [reflexivity|]. exact (converted_app [_] [_] _ _ _ C1 C2).
Qed.

(** The locals that are not parameters. *)
Lemma init_locals_run ps ls elems : forall i ts c, inv (ps ++ ls) [] c -> U_ENCODER._u_inst_encoder (cv_enc c) <> [] ->
  Forall (fun e => lm_map_kind e = LOCAL) elems -> length elems = length ts ->
  (forall k t, ts !! k = Some t -> (ps ++ ls) !! (i + k)%nat = Some t /\
    exists kd, elems !! k = Some (mkMAP_ELEM (local_reg (ps ++ ls) (i + k)) t kd)) ->
  exists e, init_locals elems c = Ok (tt, set_enc e c) /\ converted (init_from (ps ++ ls) i ts) c (set_enc e c).
Proof.
  induction elems as [|x elems IH]; intros i [|t ts] c Hinv He Hk Hl Hr; try discriminate.
  - exists (cv_enc c). replace (set_enc (cv_enc c) c) with c by now destruct c. split; [reflexivity|]. now apply converted_stable.
  - inversion Hk as [|? ? K Hk' [E1 E2]]. destruct (Hr 0%nat t eq_refl) as (Ht & kd & Hx). rewrite Nat.add_0_r in *.
    injection Hx as ->. destruct (init1_run (ps ++ ls) t i [] c Hinv Ht He) as (e1 & R1 & C1).
    destruct (IH (S i) ts (set_enc e1 c)) as (e & R & C).
    + now apply inv_enc.
    + eapply converted_nonempty; eauto.
    + exact Hk'.
    + now injection Hl.
    + intros k u Hu. destruct (Hr (S k) u Hu) as (A & kd' & B). rewrite Nat.add_succ_r in *. eauto.
    + exists e. split; [|exact (converted_app _ _ _ _ _ C1 C)]. cbn [init_locals lm_map_kind lm_ty lm_reg_idx] in *.
      rewrite bool_decide_eq_true_2, Is_True_true by exact K. rewrite (bind_run (lift (Ok tt)) _ c c tt eq_refl).
      now rewrite (bind_run _ _ _ _ _ R1).
Qed.

(** ** The end of the function *)
Lemma stack_values locs ss : forall stk, stack_is locs stk ss -> from_unreachable stk = None /\ length stk = length ss.
Proof.
  induction ss as [|s ss IH]; intros [|e stk] H; cbn [stack_is] in H; try easy. destruct H as [(_ & _ & Hk) H].
  destruct (IH stk H) as [IH1 IH2]. cbn [from_unreachable length]. rewrite IH1, IH2. split; [|reflexivity].
  rewrite bool_decide_eq_false_2; [reflexivity|]. intros E. rewrite E in Hk. destruct s; [destruct Hk; discriminate | discriminate].
Qed.

Section Fun.
Variable module : WABT_MODULE.
Variable buf : list Z.
Variable func : WABT_FUNC.
Variable func_id : Z.

Lemma conv_func_end_run locs ss c ins_cnt : inv locs ss c -> current_body func_id (cv_enc c) ->
  length (sg_results (wf_sig func)) = length ss -> (length ss <= 1)%nat ->
  exists c', conv_func_end func (mkPAIR Opcode.RETURN I32) ins_cnt c = Ok (ADD_INST (mkPAIR Opcode.RETURN I32) [], c') /\
    converted (result_code locs ss) c c' /\ cv_local_tab c' = cv_local_tab c.
Proof.
  intros Hinv Hb Hlen H1. unfold conv_func_end. rewrite Hlen. rewrite (proj2 (Z.ltb_lt _ _)), Is_True_true by lia.
  rewrite (bind_run (lift (Ok tt)) _ c c tt eq_refl), (bind_run get _ c c c eq_refl).
  destruct (stack_values locs ss (cv_stack c) (iv_stack _ _ _ Hinv)) as [Hu Hsz]. rewrite Hu, Hsz.
  destruct ss as [|s [|]]; [|clear H1|cbn in H1; lia]; cbn [length Nat.eqb].
  - exists c. split; [reflexivity|]. split; [now apply converted_stable | reflexivity].
  - destruct (cv_stack c) as [|x stk] eqn:Ex; [discriminate|]. rewrite bool_decide_eq_false_2 by discriminate.
    cbn [negb andb end_results].
    pose proof (iv_slots _ _ _ Hinv) as Hsl. inversion Hsl as [|? ? (t & Ht & Hv) _ [E1 E2]].
    destruct (Pop_wasm_stk_run locs s [] c t VALTY_UNKNOWN Hinv Ht (or_intror eq_refl)) as (e & c1 & P & (Te & Ie & _) & V & S & L).
    rewrite Ht in Te. injection Te as Te. pose proof (slot_reg_small locs s [] c t Hinv Ht) as Hr.
    destruct (add_inst_converted c1 Opcode.MOV t [0; slot_reg locs s []] TY_AM32_R_R) as (en & R & C); try assumption.
    { rewrite (sb_enc _ _ S). apply Hb. }
    { reflexivity. }
    { apply operands_fit_rr; lia. }
    { repeat (constructor; [apply in_u_small; lia|]); constructor. }
    exists (set_enc en c1). split; [|split; [|exact L]].
    + rewrite bind_bind, (bind_run _ _ _ _ _ P). change (UINT32 (0 + CONST_REG_NUM)) with 0. rewrite Ie, <- Te.
      rewrite bind_bind. cbn [UOPCODE_inst pr_opcode pr_valty]. rewrite (bind_run _ _ _ _ _ R). reflexivity.
    + cbn [result_code]. rewrite Ht. cbn [default from_option id]. exact (converted_trans _ _ _ _ (converted_stable _ _ S) C).
Qed.

Lemma conv_end_run locs ss c pc n : inv locs ss c -> current_body func_id (cv_enc c) -> flat (n + 1) (cv_graph c) -> 1 <= n ->
  length (sg_results (wf_sig func)) = length ss -> (length ss <= 1)%nat ->
  exists c', conv_inst module buf func func_id (set_wasm_pc pc (row_of End)) n c = Ok (tt, c') /\
    converted (result_code locs ss ++ [inst_for Opcode.RETURN I32 []]) c c' /\ cv_local_tab c' = cv_local_tab c.
Proof.
  intros Hinv Hb Hg Hn Hlen H1. destruct (fl_stmts _ _ Hg n ltac:(lia)) as (id & st & Hid & Hst & Hpar).
  destruct (fl_root _ _ Hg) as (root & Hroot & Hk). pose proof (Stmt_id_run _ _ _ Hst) as Hsi. pose proof (Stmt_id_run _ _ _ Hroot) as Hsr.
  destruct (inst_size_run func_id c Hb) as [sz Hsz]. set (c1 := set_pc_map (insert_new n sz (cv_pc_map c)) c).
  destruct (conv_func_end_run locs ss c1 n (inv_pc_map locs ss _ c Hinv) Hb Hlen H1) as (c2 & R & C & L).
  assert (graph_get (Get_stmt_id_by_inst n) c = Ok (Z.of_nat id, c)) as G1.
  { unfold graph_get. rewrite (bind_run get _ c c c eq_refl). unfold Get_stmt_id_by_inst. rewrite Hid, bool_decide_eq_true_2, Is_True_Rel_true by eauto. reflexivity. }
  assert (stmt_at (Z.of_nat id) c = Ok (st, c)) as G2 by (unfold stmt_at, graph_get; now rewrite (bind_run get _ c c c eq_refl), Hsi).
  assert (stmt_at (Z.of_nat id) c1 = Ok (st, c1)) as G3 by (unfold stmt_at, graph_get; rewrite (bind_run get _ c1 c1 c1 eq_refl); cbn [c1 set_pc_map cv_graph]; now rewrite Hsi).
  assert (stmt_at 0 c1 = Ok (root, c1)) as G4 by (unfold stmt_at, graph_get; rewrite (bind_run get _ c1 c1 c1 eq_refl); cbn [c1 set_pc_map cv_graph]; change 0 with (Z.of_nat 0); now rewrite Hsr).
  assert (conv_end func (mkPAIR Opcode.RETURN I32) (Z.of_nat id) n c1 = Ok (ADD_INST (mkPAIR Opcode.RETURN I32) [], c2)) as He.
  { unfold conv_end. rewrite (bind_run _ _ _ _ _ G3), Hpar. cbn [of_option]. rewrite (bind_run (lift (Ok 0)) _ c1 c1 0 eq_refl).
    rewrite (bind_run _ _ _ _ _ G4), bool_decide_eq_true_2 by exact Hk. exact R. }
  assert (inst_ok (inst_for Opcode.RETURN I32 []) = true) as Hok by reflexivity.
  assert (converted (result_code locs ss) c c2) as C' by (destruct C; split; auto).
  eexists. split; [|split; [eapply converted_app; [exact C' | apply converted_enc] | exact L]].
  unfold conv_inst. change (Encode (set_wasm_pc pc (row_of End))) with End. change (UOPCODE_from_wasm End) with (Ok (mkPAIR Opcode.RETURN I32)).
  rewrite (bind_run (lift (Ok _)) _ c c _ eq_refl), (bind_run _ _ _ _ _ G1), (bind_run _ _ _ _ _ G2).
  rewrite (bind_run (lift (Get_ty_am (mkPAIR Opcode.RETURN I32))) _ c c TY_AM32 eq_refl), (bind_run _ _ _ _ _ Hsz).
  rewrite (bind_run (modify (fun c => set_pc_map (insert_new n sz (cv_pc_map c)) c)) _ c c1 tt eq_refl).
  unfold conv_switch. change (Encode (set_wasm_pc pc (row_of End))) with End. rewrite (bind_run _ _ _ _ _ He).
  cbn [pr_opcode pr_valty]. apply add_inst_run; [reflexivity | constructor|]. eapply converted_nonempty; [exact C' | apply Hb].
Qed.

(** ** [finish_function], without calls *)

(** The function is the last one that has code. *)
Definition in_order (e : U_ENCODER.t) : Prop :=
  U_ENCODER.num_imports (U_ENCODER._func_tab e) <= func_id /\
  func_id - U_ENCODER.num_imports (U_ENCODER._func_tab e) + 1 = Z.of_nat (length (U_ENCODER._u_inst_encoder e)) /\
  Z.of_nat (length (U_ENCODER._u_inst_encoder e)) < 2 ^ 32.

Lemma Get_inst_encoder_last e v b : in_order e -> U_ENCODER._u_inst_encoder e = v ++ [b] ->
  U_ENCODER.Get_inst_encoder func_id e = Ok b /\
  Z.to_nat (UINT32 (func_id - U_ENCODER.num_imports (U_ENCODER._func_tab e))) = length v.
Proof.
  intros (H1 & H2 & H3) Hv. unfold U_ENCODER.Get_inst_encoder. rewrite Hv in *. rewrite length_app in *. cbn [length] in *.
  rewrite (UINT32_id (func_id - _)) by lia. split; [|lia].
  rewrite (proj2 (Z.leb_le _ _)), Is_True_true by lia. cbn [mbind outcome_bind]. rewrite (proj2 (Z.ltb_lt _ _)), Is_True_true by lia.
  cbn [mbind outcome_bind]. unfold vec_at. replace (Z.to_nat _) with (length v) by lia. now rewrite lookup_app_r, Nat.sub_diag by lia.
Qed.
Lemma in_order_body e v b : in_order e -> U_ENCODER._u_inst_encoder e = v ++ [b] -> current_body func_id e.
Proof.
  intros Ho Hv. split; [rewrite Hv; now destruct v|]. now rewrite (proj1 (Get_inst_encoder_last e v b Ho Hv)).
Qed.
Lemma in_order_app ws e : in_order e -> in_order (app_code ws e).
Proof. unfold in_order, app_code. cbn. now rewrite length_app_last. Qed.

Definition sizes (c : CONV) : (Z * Z * Z * Z) * (Z * Z * Z * Z) :=
  (pt_tuple (pt_map (fun l => UINT32 (tab_size l + RET_REG_NUM)) (cv_local_tab c)),
   pt_tuple (pt_map (fun l => UINT32 (_max_call_param l + RET_REG_NUM * 2)) (cv_local_tab c))).

Lemma finish_function_run c v b : cv_calls c = [] -> in_order (cv_enc c) -> U_ENCODER._u_inst_encoder (cv_enc c) = v ++ [b] ->
  exists c', finish_function module func_id c = Ok (tt, c') /\
    U_ENCODER.Get_inst_encoder func_id (cv_enc c') = Ok (U_CODE_BODY.Update_ubh_code (sizes c).1 (sizes c).2 0 b).
Proof.
  intros Hc Ho Hv. destruct (Get_inst_encoder_last _ v b Ho Hv) as [Hg Hi]. unfold finish_function.
  rewrite (bind_run get _ c c c eq_refl), Hc. cbn [fix_calls]. rewrite (bind_run (mret tt) _ c c tt eq_refl).
  assert (code_body func_id c = Ok (b, c)) as Hb by (unfold code_body; now rewrite (bind_run get _ c c c eq_refl), Hg).
  rewrite (bind_run _ _ _ _ _ Hb). unfold upd_body. rewrite Hg, Hi, Hv. eexists. split; [reflexivity|].
  set (e' := cv_enc _). assert (U_ENCODER._u_inst_encoder e' = v ++ [U_CODE_BODY.Update_ubh_code (sizes c).1 (sizes c).2 0 b]) as Hv'.
  { unfold e'. cbn [set_enc cv_enc U_ENCODER.set_codes U_ENCODER._u_inst_encoder]. replace (length v) with (length v + 0)%nat by lia. exact (insert_app_r v [b] 0 _). }
  eapply Get_inst_encoder_last; [|exact Hv']. destruct Ho as (O1 & O2 & O3). rewrite Hv, length_app in *. cbn [length] in *.
  unfold in_order. rewrite Hv', length_app. cbn [length]. change (U_ENCODER._func_tab e') with (U_ENCODER._func_tab (cv_enc c)). auto.
Qed.
End Fun.

(** ** The whole *)
Lemma insts_at_app cs cs' : forall pc, insts_at pc (cs ++ cs') = insts_at pc cs ++ insts_at (pc + length (code_bytes cs)) cs'.
Proof.
  induction cs as [|c cs IH]; intros pc; cbn [app insts_at code_bytes map concat length]; [now rewrite Nat.add_0_r|].
  rewrite IH. fold (code_bytes cs). now rewrite length_app, Nat.add_assoc.
Qed.
Lemma insts_at_length cs : forall pc, length (insts_at pc cs) = length cs.
Proof. induction cs as [|c cs IH]; intros pc; cbn [insts_at length]; [reflexivity|]. now rewrite IH. Qed.
Lemma conv_insts_app module buf func fid l1 l2 : forall n c c1, conv_insts module buf func fid l1 n c = Ok (tt, c1) ->
  conv_insts module buf func fid (l1 ++ l2) n c = conv_insts module buf func fid l2 (n + Z.of_nat (length l1)) c1.
Proof.
  induction l1 as [|i l1 IH]; intros n c c1 H; cbn [app conv_insts length] in *.
  - injection H as <-. now rewrite Z.add_0_r.
  - apply bind_Ok in H as ([] & c2 & H1 & H2). rewrite (bind_run _ _ _ _ _ H1), (IH _ _ _ H2). f_equal. lia.
Qed.

Lemma source_plain cds : forall is_ pc, map source_of cds = map Some is_ -> Forall (fun i => plain (Encode i) = true) (insts_at pc cds).
Proof.
  induction cds as [|cd cds IH]; intros [|i is_] pc H; try discriminate; [constructor|]. injection H as H1 H2.
  cbn [insts_at]. constructor; [|eauto]. rewrite (source_encode cd i pc H1). destruct cd as [op imms]. unfold source_of in H1.
  cbn [cd_op cd_imms] in *. destruct imms as [|[L v|] [|]]; try discriminate; now destruct op.
Qed.

Lemma declared_locals t l c : is_value_type t = true -> pt_get t (cv_local_tab c) = Ok l -> Z.of_nat (length (_content l)) <= 128 ->
  forall b, Loading.locals t (U_CODE_BODY._ubh_code (U_CODE_BODY.Update_ubh_code (sizes c).1 (sizes c).2 0 b)) = RET_REG_NUM + Z.of_nat (length (_content l)).
Proof.
  intros Ht Hl Hs b. assert (UINT32 (tab_size l + RET_REG_NUM) = RET_REG_NUM + Z.of_nat (length (_content l))) as E.
  { pose proof RET_REG_NUM_range. unfold tab_size. rewrite (UINT32_id (Z.of_nat _)) by lia. rewrite UINT32_id by lia. lia. }
  pose proof RET_REG_NUM_range. cbn [U_CODE_BODY.Update_ubh_code U_CODE_BODY._ubh_code sizes fst snd pt_tuple pt_map].
  unfold UBH_CODE.Update_ubh_code, pt_tuple, pt_map. cbn [pt_i32 pt_i64 pt_f32 pt_f64].
  destruct t; try discriminate; cbn [pt_get] in Hl; injection Hl as <-; cbn [Loading.locals];
    unfold UBH_CODE.Get_i32_local, UBH_CODE.Get_i64_local, UBH_CODE.Get_f32_local, UBH_CODE.Get_f64_local;
    repeat (rewrite fget_fset_other by reflexivity); rewrite fget_fset_same by reflexivity; rewrite E;
    unfold fkeep; cbn [fd_signed fd_w UBH_CODE._i32_local UBH_CODE._i64_local UBH_CODE._f32_local UBH_CODE._f64_local];
    apply wrapu_id; unfold in_u; lia.
Qed.

(** What the translation leaves: the code, and registers for it. *)
Definition translated (ps ls : list VALTYPE) (is_ : list SIMPLE) (ss : list SLOT) (fid : Z) (c : CONV) : Prop :=
  exists body, U_ENCODER.Get_inst_encoder fid (cv_enc c) = Ok body /\
    U_CODE_BODY._inst_tab body = code_of (function_code ps ls is_ ss) /\
    forall t, is_value_type t = true ->
      base (ps ++ ls) t + peak (ps ++ ls) t is_ [] <= Loading.locals t (U_CODE_BODY._ubh_code body).

Lemma init_start func ps ls c v l g : created func ps ls c -> (forall t, base (ps ++ ls) t <= 126) ->
  U_ENCODER._u_inst_encoder (cv_enc c) = v ++ [U_CODE_BODY.create l (0, 0, 0, 0) 0] -> let c1 := set_graph g c in
  inv (ps ++ ls) [] c1 /\ exists e, init_locals (drop (length (sg_params (wf_sig func))) (cv_local_map c1)) c1 = Ok (tt, set_enc e c1) /\
    converted (init_from (ps ++ ls) (length ps) ls) c1 (set_enc e c1).
Proof.
  intros [P1 P2 T K G S C R B] Hb Hv c1. assert (inv (ps ++ ls) [] c) as Hinv0 by (now apply inv_start).
  assert (inv (ps ++ ls) [] c1) as Hinv by (destruct Hinv0; split; auto). split; [exact Hinv|].
  rewrite <- (conv_types_length _ _ P1). change (cv_local_map c1) with (cv_local_map c). apply init_locals_run; try assumption.
  - change (cv_enc c1) with (cv_enc c). rewrite Hv. now destruct v.
  - rewrite length_drop, (tf_map _ _ T), length_app. lia.
  - intros k t Hk. assert ((ps ++ ls) !! (length ps + k)%nat = Some t) as Ht
      by (rewrite lookup_app_r by lia; now replace (length ps + k - length ps)%nat with k by lia).
    split; [exact Ht|]. destruct (tf_reg _ _ T _ _ Ht) as [kd Hkd]. exists kd. now rewrite lookup_drop.
Qed.

(** The conversion after the start, up to [finish_function]. *)
Lemma function_run module func cds is_ ss fid c0 ps ls v l0 : let buf := code_bytes (cds ++ [END]) in
  created func ps ls c0 -> current_body fid (cv_enc c0) -> (forall t, base (ps ++ ls) t <= 126) ->
  U_ENCODER._u_inst_encoder (cv_enc c0) = v ++ [U_CODE_BODY.create l0 (0, 0, 0, 0) 0] ->
  map source_of cds = map Some is_ -> check (ps ++ ls) is_ [] = Some ss ->
  length (sg_results (wf_sig func)) = length ss -> (length ss <= 1)%nat -> Z.of_nat (length cds) + 2 < 2 ^ 32 ->
  exists g c2 c4, build_graph buf (insts_at 0 (cds ++ [END])) c0 = Ok (tt, set_graph g c0) /\
    init_locals (drop (length (sg_params (wf_sig func))) (cv_local_map c0)) (set_graph g c0) = Ok (tt, c2) /\
    conv_insts module buf func fid (insts_at 0 (cds ++ [END])) BLOCK_INSTR_BEGIN c2 = Ok (tt, c4) /\
    converted (function_code ps ls is_ ss) (set_graph g c0) c4 /\
    forall t, is_value_type t = true -> exists l, pt_get t (cv_local_tab c4) = Ok l /\ Z.of_nat (length (_content l)) <= 128 /\
      base (ps ++ ls) t + peak (ps ++ ls) t is_ [] <= RET_REG_NUM + Z.of_nat (length (_content l)).
Proof.
  intros buf Hc0 Hcur Hbase Hv Hsrc Hck Hres Hss Hlen. rewrite insts_at_app. set (last := insts_at _ [END]).
  destruct (build_graph_run buf (insts_at 0 cds) (set_wasm_pc (length (code_bytes cds)) (row_of End)) c0) as (g & Hg & Hflat);
    [apply Hc0 | eapply source_plain; eauto | reflexivity | rewrite insts_at_length; lia|]. rewrite insts_at_length in Hflat.
  destruct (init_start func ps ls c0 v l0 g Hc0 Hbase Hv) as (Hinv1 & e1 & Hin & Cin). set (c2 := set_enc e1 (set_graph g c0)) in *.
  assert (current_body fid (cv_enc c2)) as Hcur2 by (rewrite (ct_enc _ _ _ Cin); now apply current_body_app).
  destruct (conv_insts_run (ps ++ ls) module buf func fid cds is_ [] ss c2 0 (coded_bytes END) 1) as (c3 & H3 & V3 & C3 & K3); try assumption.
  { unfold buf, code_bytes. rewrite map_app, concat_app. cbn [map concat]. now rewrite app_nil_r. }
  { now apply inv_enc. }
  { eapply flat_has_stmts; [exact Hflat | lia]. }
  destruct (conv_end_run module buf func fid (ps ++ ls) ss c3 (length (code_bytes cds)) (1 + Z.of_nat (length cds)) V3) as (c4 & H4 & C4 & L4); try assumption.
  { rewrite (ct_enc _ _ _ C3). now apply current_body_app. }
  { rewrite (ct_graph _ _ _ C3). change (cv_graph c2) with g. replace (1 + Z.of_nat (length cds) + 1) with (Z.of_nat (length cds) + 2) by lia. exact Hflat. }
  { lia. }
  exists g, c2, c4. split; [exact Hg|]. split; [exact Hin|]. split.
  { change BLOCK_INSTR_BEGIN with 1. rewrite (conv_insts_app _ _ _ _ _ _ _ _ _ H3), insts_at_length. unfold last. cbn [conv_insts insts_at END cd_op].
    cbn [Nat.add]. rewrite (bind_run _ _ _ _ _ H4). reflexivity. }
  split; [exact (converted_app _ _ _ _ _ Cin (converted_app _ _ _ _ _ C3 C4))|].
  intros t Ht. rewrite L4. destruct (pt_get_value t (cv_local_tab c3) Ht) as [l Hl].
  exists l. split; [exact Hl|]. split; [exact (ti_small _ _ _ _ (iv_tabs _ _ _ V3 t l Hl)) | exact (K3 t l Hl)].
Qed.

Lemma Wasm_to_uwasm_run module func cds is_ ss ctx e fid c0 ps ls : let buf := code_bytes (cds ++ [END]) in
  GetFunc module (fc_func_idx ctx) = Ok func -> Create_ubh_code func (conv0 ctx e) = Ok (fid, c0) ->
  created func ps ls c0 -> in_order fid (cv_enc c0) -> (forall t, base (ps ++ ls) t <= 126) ->
  map source_of cds = map Some is_ -> check (ps ++ ls) is_ [] = Some ss ->
  length (sg_results (wf_sig func)) = length ss -> (length ss <= 1)%nat -> Z.of_nat (length cds) + 2 < 2 ^ 32 ->
  exists c, Wasm_to_uwasm module (insts_at 0 (cds ++ [END])) buf ctx e = Ok c /\ translated ps ls is_ ss fid c.
Proof.
  intros buf Hf Hcr Hc0 Hord Hbase Hsrc Hck Hres Hss Hlen. pose proof (cr_body _ _ _ _ Hc0) as (v & l0 & Hv).
  destruct (function_run module func cds is_ ss fid c0 ps ls v l0 Hc0 (in_order_body fid _ v _ Hord Hv) Hbase Hv Hsrc Hck Hres Hss Hlen)
    as (g & c2 & c4 & Hg & Hin & Hcv & C & K).
  pose proof (ct_enc _ _ _ C) as He. change (cv_enc (set_graph g c0)) with (cv_enc c0) in He.
  set (b := body_app (code_of (function_code ps ls is_ ss)) (U_CODE_BODY.create l0 (0, 0, 0, 0) 0)).
  assert (U_ENCODER._u_inst_encoder (cv_enc c4) = v ++ [b]) as Hb4.
  { rewrite He. unfold app_code. cbn [U_ENCODER.set_codes U_ENCODER._u_inst_encoder]. now rewrite Hv, app_last_snoc. }
  assert (in_order fid (cv_enc c4)) as Hord4 by (rewrite He; now apply in_order_app).
  destruct (finish_function_run module fid c4 v b ltac:(rewrite (ct_calls _ _ _ C); apply Hc0) Hord4 Hb4) as (c' & Hfin & Hget).
  exists c'. split.
  - unfold Wasm_to_uwasm. rewrite Hf. cbn [mbind outcome_bind]. fold buf. rewrite (bind_run _ _ _ _ _ Hcr), (bind_run _ _ _ _ _ Hg).
    rewrite (bind_run get _ _ _ _ eq_refl). change (cv_local_map (set_graph g c0)) with (cv_local_map c0).
    rewrite (bind_run _ _ _ _ _ Hin), (bind_run _ _ _ _ _ Hcv), Hfin. reflexivity.
  - eexists. split; [exact Hget|]. split; [reflexivity|]. intros t Ht. destruct (K t Ht) as (l & Hl & H128 & Hle).
    now rewrite (declared_locals t l c4 Ht Hl H128).
Qed.
End Translation.
