(* ===== verification/Structured.v ===== *)
(** * Structured control flow

  The code of a function as WebAssembly structures it: straight-line instructions,
  blocks, loops, conditionals, branches and returns.  [coded] is its form in the binary;
  [check_code] says which code the converter's use of registers fits; [items] what the
  converter adds for it, instructions and labels, as a function of what the operand stack
  stands for.  The blocks have no results. *)

From S2P Require Import Prelude CInt BitField Wasm Isa Inst Expand Ubh UModule StrTab TypeEncoder Encoder Loading Code Leb128 Winst Splitting LocalTable Graph Converter Convert Alloc Straight Creation Building Translation.
From Stdlib Require Import ZArith Lia.
Local Open Scope Z_scope.
Import WINST.

(** ** Code: an instruction and what follows it *)
Inductive CODE : Type :=
  | C_End
  | C_Simple (cd : CODED) (k : CODE)
  | C_Block (b k : CODE)
  | C_Loop (b k : CODE)
  | C_If (b k : CODE)
  | C_IfElse (b1 b2 k : CODE)
  | C_Br (L : nat) (v : Z) (k : CODE)
  | C_BrIf (L : nat) (v : Z) (k : CODE)
  | C_Return (k : CODE).

(** The type of a block without results. *)
Definition VOID : IMM := LEB 1 64.
Definition ELSE : CODED := mkCODED Else [].

Fixpoint coded (p : CODE) : list CODED :=
  match p with
  | C_End => []
  | C_Simple cd k => cd :: coded k
  | C_Block b k => mkCODED Block [VOID] :: coded b ++ END :: coded k
  | C_Loop b k => mkCODED Loop [VOID] :: coded b ++ END :: coded k
  | C_If b k => mkCODED If [VOID] :: coded b ++ END :: coded k
  | C_IfElse b1 b2 k => mkCODED If [VOID] :: coded b1 ++ ELSE :: coded b2 ++ END :: coded k
  | C_Br L v k => mkCODED Br [LEB L v] :: coded k
  | C_BrIf L v k => mkCODED BrIf [LEB L v] :: coded k
  | C_Return k => mkCODED Return [] :: coded k
  end.
(** The number of instructions; the number of labels. *)
Fixpoint code_len (p : CODE) : Z :=
  match p with
  | C_End => 0
  | C_Simple _ k | C_Br _ _ k | C_BrIf _ _ k | C_Return k => 1 + code_len k
  | C_Block b k | C_Loop b k | C_If b k => 2 + code_len b + code_len k
  | C_IfElse b1 b2 k => 3 + code_len b1 + code_len b2 + code_len k
  end.
Fixpoint labels (p : CODE) : nat :=
  match p with
  | C_End => 0
  | C_Simple _ k | C_Br _ _ k | C_BrIf _ _ k | C_Return k => labels k
  | C_Block b k | C_If b k => 1 + labels b + labels k
  | C_Loop b k => 2 + labels b + labels k
  | C_IfElse b1 b2 k => 3 + labels b1 + labels b2 + labels k
  end.

Lemma code_len_coded p : Z.of_nat (length (coded p)) = code_len p.
Proof. induction p; cbn [coded code_len length]; rewrite ?length_app; cbn [length]; rewrite ?length_app; cbn [length]; lia. Qed.
Lemma code_len_nonneg p : 0 <= code_len p.
Proof. rewrite <- code_len_coded. lia. Qed.

(** ** What the converter adds: instructions, and labels before the next instruction *)
Inductive ITEM : Type := I_inst (x : INST) | I_label (i : nat).
Fixpoint item_insts (its : list ITEM) : list INST :=
  match its with [] => [] | I_inst x :: its => x :: item_insts its | I_label _ :: its => item_insts its end.
Fixpoint item_labels (its : list ITEM) : list nat :=
  match its with [] => [] | I_inst _ :: its => item_labels its | I_label i :: its => i :: item_labels its end.

Lemma item_insts_app a b : item_insts (a ++ b) = item_insts a ++ item_insts b.
Proof. induction a as [|[x|i] a IH]; cbn [app item_insts]; [reflexivity | now rewrite IH | exact IH]. Qed.
Lemma item_labels_app a b : item_labels (a ++ b) = item_labels a ++ item_labels b.
Proof. induction a as [|[x|i] a IH]; cbn [app item_labels]; [reflexivity | exact IH | now rewrite IH]. Qed.
Lemma item_insts_insts is_ : item_insts (map I_inst is_) = is_.
Proof. induction is_ as [|i is_ IH]; cbn [map item_insts]; [reflexivity | now rewrite IH]. Qed.
Lemma item_labels_insts is_ : item_labels (map I_inst is_) = [].
Proof. induction is_ as [|i is_ IH]; [reflexivity | exact IH]. Qed.

(** The operands that an instruction takes. *)
Definition takes (i : SIMPLE) : nat :=
  match i with S_Drop | S_LocalSet _ | S_LocalTee _ => 1 | S_Op _ => 2 | _ => 0 end.

(** What code that fits went through: one hypothesis for each check. *)
Ltac check_inv H :=
  repeat match type of H with
  | mbind _ ?x = Some _ => let E := fresh "Ec" in destruct x eqn:E; [|discriminate H]; cbn [mbind option_bind] in H
  | (if ?b then _ else None) = Some _ => let E := fresh "Ec" in destruct b eqn:E; [|discriminate H]
  end.

Section Structured.
Context {cb : ConvBuild}.
(** The types of the locals, parameters first, and of the results of the function. *)
Variable locs res : list VALTYPE.

(** The condition is the topmost operand, above the [h] operands of the enclosing block. *)
Definition pop_cond (h : nat) (ss : list SLOT) : option (list SLOT) :=
  match ss with s :: ss => if has_type locs s I32 && (h <=? length ss)%nat then Some ss else None | [] => None end.
Definition pop_results (h : nat) (ss : list SLOT) : option (list SLOT) :=
  match res, ss with
  | [], _ => Some ss
  | [t], s :: ss => if has_type locs s t && (h <=? length ss)%nat then Some ss else None
  | _, _ => None
  end.

(** ** What fits the converter

  [depth] blocks are open, and below the innermost one's operands there are [h] others,
  which its code leaves alone.  The value is what the stack stands for at the end; a block
  may leave operands, which are dropped, but for the first arm of a conditional. *)
Fixpoint check_code (depth h : nat) (p : CODE) (ss : list SLOT) : option (list SLOT) :=
  match p with
  | C_End => Some ss
  | C_Simple cd k =>
      i ← source_of cd;
      if (h + takes i <=? length ss)%nat then ss ← check1 locs i ss; check_code depth h k ss else None
  | C_Block b k | C_Loop b k => _ ← check_code (S depth) (length ss) b ss; check_code depth h k ss
  | C_If b k => ss ← pop_cond h ss; _ ← check_code (S depth) (length ss) b ss; check_code depth h k ss
  | C_IfElse b1 b2 k =>
      ss ← pop_cond h ss; ss1 ← check_code (S depth) (length ss) b1 ss;
      if decide (ss1 = ss) then _ ← check_code (S depth) (length ss) b2 ss; check_code depth h k ss else None
  | C_Br L v k => if leb_u L v && (Z.to_nat v <? depth)%nat then check_code depth h k ss else None
  | C_BrIf L v k => ss ← pop_cond h ss; if leb_u L v && (Z.to_nat v <? depth)%nat then check_code depth h k ss else None
  | C_Return k => ss ← pop_results h ss; check_code depth h k ss
  end.

(** The most temporaries of a type in use at a time. *)
Fixpoint peak_code (t : VALTYPE) (p : CODE) (ss : list SLOT) : Z :=
  Z.max (temps t ss)
    match p with
    | C_End => 0
    | C_Simple cd k => match i ← source_of cd; check1 locs i ss with Some ss => peak_code t k ss | None => 0 end
    | C_Block b k | C_Loop b k => Z.max (peak_code t b ss) (peak_code t k ss)
    | C_If b k => Z.max (peak_code t b (tail ss)) (peak_code t k (tail ss))
    | C_IfElse b1 b2 k => Z.max (peak_code t b1 (tail ss)) (Z.max (peak_code t b2 (tail ss)) (peak_code t k (tail ss)))
    | C_Br _ _ k => peak_code t k ss
    | C_BrIf _ _ k => peak_code t k (tail ss)
    | C_Return k => peak_code t k (drop (length res) ss)
    end.

(** ** What is emitted

  [env] are the labels that a branch goes to, those of the innermost block first; the next
  label is number [lab].  A branch out of the first arm of a conditional goes to its other
  arm, as [Get_label_id_for_jump] has it. *)
Definition cond_reg (ss : list SLOT) : Z := match ss with s :: ss => slot_reg locs s ss | [] => 0 end.
Definition jump_inst (l : nat) : INST := inst_for Opcode.JMP I32 [Z.of_nat l].
Definition cond_inst (opc : Z) (ss : list SLOT) (l : nat) : INST := inst_for opc I32 [cond_reg ss; Z.of_nat l].
Definition results_code (ss : list SLOT) : list INST :=
  match res, ss with
  | [t], s :: ss => [inst_for Opcode.MOV t [0; slot_reg locs s ss]]
  | _, _ => []
  end.
Definition target (env : list nat) (v : Z) : nat := nth (Z.to_nat v) env 0%nat.

Fixpoint items (env : list nat) (lab : nat) (p : CODE) (ss : list SLOT) : list ITEM :=
  match p with
  | C_End => []
  | C_Simple cd k =>
      match source_of cd with
      | Some i => map I_inst (emit1 locs i ss) ++ match check1 locs i ss with Some ss => items env lab k ss | None => [] end
      | None => []
      end
  | C_Block b k =>
      items (lab :: env) (S lab) b ss ++ I_label lab :: items env (S lab + labels b) k ss
  | C_Loop b k =>
      I_label lab :: items (lab :: env) (S (S lab)) b ss ++ I_label (S lab) :: items env (S (S lab) + labels b) k ss
  | C_If b k =>
      I_inst (cond_inst Opcode.JEZ ss lab) :: items (lab :: env) (S lab) b (tail ss)
        ++ I_label lab :: items env (S lab + labels b) k (tail ss)
  | C_IfElse b1 b2 k =>
      let other := (S lab + labels b1)%nat in
      I_inst (cond_inst Opcode.JEZ ss other) :: items (other :: env) (S lab) b1 (tail ss)
        ++ I_inst (jump_inst (S other)) :: I_label other :: items (S other :: env) (S (S other)) b2 (tail ss)
        ++ I_label (S other) :: I_label lab :: items env (S (S other) + labels b2) k (tail ss)
  | C_Br _ v k => I_inst (jump_inst (target env v)) :: items env lab k ss
  | C_BrIf _ v k => I_inst (cond_inst Opcode.JNZ ss (target env v)) :: items env lab k (tail ss)
  | C_Return k => map I_inst (results_code ss ++ [inst_for Opcode.RETURN I32 []]) ++ items env lab k (drop (length res) ss)
  end.

(** ** Static facts *)
Lemma pop_cond_inv h ss ss' : pop_cond h ss = Some ss' -> exists s, ss = s :: ss' /\ slot_ty locs s = Some I32 /\ (h <= length ss')%nat.
Proof.
  unfold pop_cond. destruct ss as [|s ss]; [discriminate|]. destruct (has_type locs s I32) eqn:E; [|discriminate].
  destruct (Nat.leb_spec h (length ss)); [|discriminate]. intros [= ->]. exists s. apply has_type_inv in E. auto.
Qed.
Lemma pop_results_inv h ss ss' : pop_results h ss = Some ss' ->
  res = [] /\ ss' = ss \/ exists t s, res = [t] /\ ss = s :: ss' /\ slot_ty locs s = Some t /\ (h <= length ss')%nat.
Proof.
  unfold pop_results. destruct res as [|t [|]]; [|destruct ss as [|s ss]; [discriminate|]|discriminate].
  - intros [= ->]. auto.
  - destruct (has_type locs s t) eqn:E; [|discriminate]. destruct (Nat.leb_spec h (length ss)); [|discriminate].
    intros [= ->]. right. exists t, s. apply has_type_inv in E. auto.
Qed.

Lemma peak_code_ge t p ss : temps t ss <= peak_code t p ss.
Proof. destruct p; cbn [peak_code]; lia. Qed.

Lemma seq_arms n a b c : let o := (S n + a)%nat in
  seq n (3 + a + b + c) = n :: seq (S n) a ++ o :: S o :: seq (S (S o)) b ++ seq (S (S o) + b) c.
Proof.
  intros o. replace (3 + a + b + c)%nat with (1 + (a + (2 + (b + c))))%nat by lia. rewrite !seq_app. cbn [seq app].
  replace (n + 1)%nat with (S n) by lia. fold o. now replace (o + 2)%nat with (S (S o)) by lia.
Qed.

(** The labels placed are those allotted, each once. *)
Lemma item_labels_items p : forall depth h env lab ss ss', check_code depth h p ss = Some ss' ->
  item_labels (items env lab p ss) ≡ₚ seq lab (labels p).
Proof.
  induction p as [|cd k IH|b IHb k IHk|b IHb k IHk|b IHb k IHk|b1 IH1 b2 IH2 k IHk|L v k IH|L v k IH|k IH];
    intros depth h env lab ss ss' H; cbn [check_code items labels item_labels] in *.
  - reflexivity.
  - destruct (source_of cd) as [i|]; [|discriminate]. cbn [mbind option_bind] in H. destruct (_ <=? _)%nat; [|discriminate].
    destruct (check1 locs i ss) as [ss1|]; [|discriminate]. cbn [mbind option_bind] in H.
    rewrite item_labels_app, item_labels_insts. eapply IH, H.
  - destruct (check_code (S depth) _ b ss) as [sb|] eqn:Eb; [|discriminate]. cbn [mbind option_bind] in H.
    rewrite item_labels_app. cbn [item_labels]. rewrite (IHb _ _ _ _ _ _ Eb), (IHk _ _ _ _ _ _ H).
    cbn [seq Nat.add]. rewrite seq_app. cbn [Nat.add]. symmetry. apply Permutation_middle.
  - destruct (check_code (S depth) _ b ss) as [sb|] eqn:Eb; [|discriminate]. cbn [mbind option_bind] in H.
    rewrite item_labels_app. cbn [item_labels]. rewrite (IHb _ _ _ _ _ _ Eb), (IHk _ _ _ _ _ _ H).
    cbn [seq Nat.add]. rewrite seq_app. cbn [Nat.add]. constructor. symmetry. apply Permutation_middle.
  - destruct (pop_cond h ss) as [ss1|] eqn:Ep; [|discriminate]. apply pop_cond_inv in Ep as (s & -> & _). cbn [mbind option_bind tail] in *.
    destruct (check_code (S depth) _ b ss1) as [sb|] eqn:Eb; [|discriminate]. cbn [mbind option_bind] in H.
    rewrite item_labels_app. cbn [item_labels]. rewrite (IHb _ _ _ _ _ _ Eb), (IHk _ _ _ _ _ _ H).
    cbn [seq Nat.add]. rewrite seq_app. cbn [Nat.add]. symmetry. apply Permutation_middle.
  - destruct (pop_cond h ss) as [ss1|] eqn:Ep; [|discriminate]. apply pop_cond_inv in Ep as (s & -> & _). cbn [mbind option_bind tail] in *.
    destruct (check_code (S depth) _ b1 ss1) as [s1|] eqn:E1; [|discriminate]. cbn [mbind option_bind] in H.
    destruct (decide (s1 = ss1)); [|discriminate]. destruct (check_code (S depth) _ b2 ss1) as [s2|] eqn:E2; [|discriminate]. cbn [mbind option_bind] in H.
    rewrite item_labels_app. cbn [item_labels]. rewrite item_labels_app. cbn [item_labels].
    rewrite (IH1 _ _ _ _ _ _ E1), (IH2 _ _ _ _ _ _ E2), (IHk _ _ _ _ _ _ H), seq_arms. set (o := (S lab + labels b1)%nat).
    set (x := seq (S lab) _). set (y := seq _ (labels b2)). set (z := seq _ (labels k)).
    transitivity (x ++ lab :: o :: S o :: y ++ z); [|symmetry; exact (Permutation_middle x (o :: S o :: y ++ z) lab)].
    apply Permutation_app_head. rewrite <- (Permutation_middle y (lab :: z) (S o)), <- (Permutation_middle y z lab).
    rewrite (perm_swap lab (S o)), (perm_swap lab o). reflexivity.
  - destruct (_ && _); [|discriminate]. eapply IH, H.
  - destruct (pop_cond h ss) as [ss1|] eqn:Ep; [|discriminate]. apply pop_cond_inv in Ep as (s & -> & _). cbn [mbind option_bind tail] in *.
    destruct (_ && _); [|discriminate]. eapply IH, H.
  - destruct (pop_results h ss) as [ss1|] eqn:Ep; [|discriminate]. cbn [mbind option_bind] in H.
    assert (drop (length res) ss = ss1) as -> by (apply pop_results_inv in Ep as [(-> & ->)|(t & s & -> & -> & _)]; reflexivity).
    rewrite item_labels_app, item_labels_insts. eapply IH, H.
Qed.

(** The operands below the innermost block's are left alone, and an instruction adds at
  most one. *)
Lemma suffix_tail {A} (outer : list A) s ss : outer `suffix_of` s :: ss -> (length outer <= length ss)%nat -> outer `suffix_of` ss.
Proof.
  intros [[|x k] E] Hl; [exfalso; cbn in E; subst outer; cbn in Hl; lia|]. injection E as _ ->. now exists k.
Qed.
Lemma push_temp_inv t ss ss' : push_temp locs t ss = Some ss' -> ss' = STemp t :: ss.
Proof. unfold push_temp. destruct (_ && _); [|discriminate]. now intros [= <-]. Qed.
Lemma check1_cases i ss ss' : check1 locs i ss = Some ss' ->
  exists s n, (n <= takes i)%nat /\ (ss' = drop n ss \/ ss' = s :: drop n ss) /\ (length ss' <= S (length ss))%nat.
Proof.
  intros H. destruct i as [| |t v|i|i|i|o]; cbn [check1 takes] in *.
  - injection H as <-. exists (SLocal 0), 0%nat. rewrite drop_0. auto with lia.
  - destruct ss as [|s ss]; [discriminate|]. injection H as <-. exists s, 1%nat. cbn. rewrite drop_0. auto with lia.
  - assert (ss' = STemp t :: ss) as -> by (destruct t; try discriminate; now apply push_temp_inv in H).
    exists (STemp t), 0%nat. rewrite drop_0. cbn [length]. auto with lia.
  - destruct (bool_decide _); [|discriminate]. injection H as <-. exists (SLocal i), 0%nat. rewrite drop_0. cbn [length]. auto with lia.
  - destruct ss as [|s ss]; [discriminate|]. destruct (locs !! i); [|discriminate]. cbn [mbind option_bind] in H. destruct (_ && _); [|discriminate].
    injection H as <-. exists s, 1%nat. cbn. rewrite drop_0. auto with lia.
  - destruct ss as [|s ss]; [discriminate|]. destruct (locs !! i); [|discriminate]. cbn [mbind option_bind] in H. destruct (_ && _); [|discriminate].
    injection H as <-. exists s, 1%nat. cbn. rewrite drop_0. auto with lia.
  - destruct ss as [|s2 [|s1 ss]]; try discriminate. destruct (int_op o) as [[t f]|]; [|discriminate]. cbn [mbind option_bind] in H.
    destruct (_ && _); [|discriminate]. apply push_temp_inv in H as ->. exists (STemp t), 2%nat. cbn. rewrite drop_0. auto with lia.
Qed.
Lemma suffix_drop {A} (outer : list A) n : forall ss, outer `suffix_of` ss -> (length outer + n <= length ss)%nat -> outer `suffix_of` drop n ss.
Proof.
  induction n as [|n IH]; intros ss H Hl; [now rewrite drop_0|]. destruct ss as [|s ss]; [cbn in Hl; lia|]. cbn in Hl |- *.
  apply IH; [eapply suffix_tail; [exact H | lia] | lia].
Qed.
Lemma check1_suffix outer i ss ss' : check1 locs i ss = Some ss' -> outer `suffix_of` ss -> (length outer + takes i <= length ss)%nat -> outer `suffix_of` ss'.
Proof.
  intros (s & n & Hn & Hs & _)%check1_cases Ho Hl. pose proof (suffix_drop outer n ss Ho ltac:(lia)) as Hd.
  destruct Hs as [-> | ->]; [exact Hd | now apply suffix_cons_r].
Qed.

Lemma check_code_suffix p outer : forall depth h ss ss', check_code depth h p ss = Some ss' -> (length outer <= h)%nat ->
  outer `suffix_of` ss -> outer `suffix_of` ss'.
Proof.
  induction p as [|cd k IH|b IHb k IHk|b IHb k IHk|b IHb k IHk|b1 IH1 b2 IH2 k IHk|L v k IH|L v k IH|k IH];
    intros depth h ss ss' H Hh Ho; cbn [check_code] in H.
  - now injection H as <-.
  - destruct (source_of cd) as [i|]; [|discriminate]. cbn [mbind option_bind] in H. destruct (Nat.leb_spec (h + takes i) (length ss)); [|discriminate].
    destruct (check1 locs i ss) as [ss1|] eqn:E; [|discriminate]. cbn [mbind option_bind] in H. eapply IH; eauto. eapply check1_suffix; eauto. lia.
  - destruct (check_code (S depth) _ b ss); [|discriminate]. eapply IHk; eauto.
  - destruct (check_code (S depth) _ b ss); [|discriminate]. eapply IHk; eauto.
  - destruct (pop_cond h ss) as [ss1|] eqn:Ep; [|discriminate]. apply pop_cond_inv in Ep as (s & -> & _ & Hl). cbn [mbind option_bind] in H.
    destruct (check_code (S depth) _ b ss1); [|discriminate]. eapply IHk; eauto. eapply suffix_tail; [exact Ho | lia].
  - destruct (pop_cond h ss) as [ss1|] eqn:Ep; [|discriminate]. apply pop_cond_inv in Ep as (s & -> & _ & Hl). cbn [mbind option_bind] in H.
    destruct (check_code (S depth) _ b1 ss1) as [s1|]; [|discriminate]. cbn [mbind option_bind] in H. destruct (decide (s1 = ss1)); [|discriminate].
    destruct (check_code (S depth) _ b2 ss1); [|discriminate]. eapply IHk; eauto. eapply suffix_tail; [exact Ho | lia].
  - destruct (_ && _); [|discriminate]. eapply IH; eauto.
  - destruct (pop_cond h ss) as [ss1|] eqn:Ep; [|discriminate]. apply pop_cond_inv in Ep as (s & -> & _ & Hl). cbn [mbind option_bind] in H.
    destruct (_ && _); [|discriminate]. eapply IH; eauto. eapply suffix_tail; [exact Ho | lia].
  - destruct (pop_results h ss) as [ss1|] eqn:Ep; [|discriminate]. cbn [mbind option_bind] in H. eapply IH; eauto.
    apply pop_results_inv in Ep as [(_ & ->)|(t & s & _ & -> & _ & Hl)]; [exact Ho|]. eapply suffix_tail; [exact Ho | lia].
Qed.

Lemma pop_results_length h ss ss' : pop_results h ss = Some ss' -> (length ss' <= length ss)%nat.
Proof. intros [(_ & ->)|(t & s & _ & -> & _)]%pop_results_inv; [lia | cbn; lia]. Qed.
Lemma check_code_length p : forall depth h ss ss', check_code depth h p ss = Some ss' -> Z.of_nat (length ss') <= Z.of_nat (length ss) + code_len p.
Proof.
  induction p as [|cd k IH|b IHb k IHk|b IHb k IHk|b IHb k IHk|b1 IH1 b2 IH2 k IHk|L v k IH|L v k IH|k IH];
    intros depth h ss ss' H; cbn [check_code code_len] in *;
    repeat match goal with c : CODE |- _ => lazymatch goal with _ : 0 <= code_len c |- _ => fail | _ => pose proof (code_len_nonneg c) end end; check_inv H.
  - injection H as <-. lia.
  - apply check1_cases in Ec1 as (_ & _ & _ & _ & E). specialize (IH _ _ _ _ H). lia.
  - specialize (IHk _ _ _ _ H). lia.
  - specialize (IHk _ _ _ _ H). lia.
  - apply pop_cond_inv in Ec as (s & -> & _). specialize (IHk _ _ _ _ H). cbn [length]. lia.
  - apply pop_cond_inv in Ec as (s & -> & _). specialize (IHk _ _ _ _ H). cbn [length]. lia.
  - specialize (IH _ _ _ _ H). lia.
  - apply pop_cond_inv in Ec as (s & -> & _). specialize (IH _ _ _ _ H). cbn [length]. lia.
  - apply pop_results_length in Ec. specialize (IH _ _ _ _ H). lia.
Qed.

(** What is on the stack at the end was counted. *)
Lemma check_code_peak t p : forall depth h ss ss', check_code depth h p ss = Some ss' -> temps t ss' <= peak_code t p ss.
Proof.
  induction p as [|cd k IH|b IHb k IHk|b IHb k IHk|b IHb k IHk|b1 IH1 b2 IH2 k IHk|L v k IH|L v k IH|k IH];
    intros depth h ss ss' H; cbn [check_code peak_code] in *; check_inv H.
  - injection H as <-. lia.
  - cbn [mbind option_bind]. rewrite Ec1. specialize (IH _ _ _ _ H). lia.
  - specialize (IHk _ _ _ _ H). lia.
  - specialize (IHk _ _ _ _ H). lia.
  - apply pop_cond_inv in Ec as (s & -> & _). cbn [tail]. specialize (IHk _ _ _ _ H). lia.
  - apply pop_cond_inv in Ec as (s & -> & _). cbn [tail]. specialize (IHk _ _ _ _ H). lia.
  - specialize (IH _ _ _ _ H). lia.
  - apply pop_cond_inv in Ec as (s & -> & _). cbn [tail]. specialize (IH _ _ _ _ H). lia.
  - specialize (IH _ _ _ _ H). apply pop_results_inv in Ec as [(-> & ->)|(u & s & -> & -> & _)].
    + change (drop (length []) ss) with ss. lia.
    + change (drop (length [u]) (s :: l)) with l. lia.
Qed.

(** Operands have value types. *)
Lemma push_temp_unknown t ss ss' : push_temp locs t ss = Some ss' -> temps VALTY_UNKNOWN ss' = temps VALTY_UNKNOWN ss.
Proof. unfold push_temp. destruct (is_value_type t) eqn:E; [|discriminate]. destruct (_ <? _); [|discriminate]. intros [= <-]. now destruct t. Qed.
Lemma temps_zero_tail t s ss : temps t (s :: ss) = 0 -> temps t ss = 0.
Proof. cbn [temps]. pose proof (temps_nonneg t ss). case_decide; lia. Qed.
Lemma check1_unknown i ss ss' : check1 locs i ss = Some ss' -> temps VALTY_UNKNOWN ss = 0 -> temps VALTY_UNKNOWN ss' = 0.
Proof.
  intros H H0. destruct i as [| |t v|i|i|i|o]; cbn [check1] in H; check_inv H.
  - now injection H as <-.
  - destruct ss as [|s ss]; [discriminate|]. injection H as <-. now apply temps_zero_tail in H0.
  - destruct t; try discriminate; apply push_temp_unknown in H; congruence.
  - destruct (bool_decide _); [|discriminate]. now injection H as <-.
  - destruct ss as [|s ss]; [discriminate|]. check_inv H. injection H as <-. now apply temps_zero_tail in H0.
  - destruct ss as [|s ss]; [discriminate|]. check_inv H. now injection H as <-.
  - destruct ss as [|s2 [|s1 ss]]; try discriminate. check_inv H. destruct p as [t f]. check_inv H. apply push_temp_unknown in H as ->.
    now do 2 apply temps_zero_tail in H0.
Qed.
Lemma peak_code_unknown p : forall depth h ss ss', check_code depth h p ss = Some ss' ->
  temps VALTY_UNKNOWN ss = 0 -> peak_code VALTY_UNKNOWN p ss = 0.
Proof.
  induction p as [|cd k IH|b IHb k IHk|b IHb k IHk|b IHb k IHk|b1 IH1 b2 IH2 k IHk|L v k IH|L v k IH|k IH];
    intros depth h ss ss' H H0; cbn [check_code peak_code] in *; check_inv H; rewrite H0.
  - reflexivity.
  - cbn [mbind option_bind]. rewrite Ec1. now rewrite (IH _ _ _ _ H (check1_unknown _ _ _ Ec1 H0)).
  - now rewrite (IHb _ _ _ _ Ec H0), (IHk _ _ _ _ H H0).
  - now rewrite (IHb _ _ _ _ Ec H0), (IHk _ _ _ _ H H0).
  - apply pop_cond_inv in Ec as (s & -> & _). apply temps_zero_tail in H0. cbn [tail]. now rewrite (IHb _ _ _ _ Ec0 H0), (IHk _ _ _ _ H H0).
  - apply pop_cond_inv in Ec as (s & -> & _). apply temps_zero_tail in H0. cbn [tail].
    now rewrite (IH1 _ _ _ _ Ec0 H0), (IH2 _ _ _ _ Ec2 H0), (IHk _ _ _ _ H H0).
  - now rewrite (IH _ _ _ _ H H0).
  - apply pop_cond_inv in Ec as (s & -> & _). apply temps_zero_tail in H0. cbn [tail]. now rewrite (IH _ _ _ _ H H0).
  - apply pop_results_inv in Ec as [(-> & ->)|(u & s & -> & -> & _)].
    + change (drop (length []) ss) with ss. now rewrite (IH _ _ _ _ H H0).
    + apply temps_zero_tail in H0. change (drop (length [u]) (s :: l)) with l. now rewrite (IH _ _ _ _ H H0).
Qed.
End Structured.
