(* ===== verification/Blocks.v ===== *)
(** * The statement graph of structured code

  [Build_block_hierarchy] on the code of [Structured.v]: a statement for every
  instruction, in the block around it, and labels for the blocks, requested in the order
  of the instructions. *)

From S2P Require Import Prelude CInt Isa Inst Ubh UModule StrTab TypeEncoder Encoder Labels Leb128 Winst Splitting LocalTable Graph Converter Convert Alloc Straight Building Translation Structured.
From stdpp Require Import strings pretty.
From Stdlib Require Import ZArith Lia.
Local Open Scope Z_scope.
Import WINST.

(** ** Names of labels *)
Lemma bytes_of_inj a b : bytes_of a = bytes_of b -> a = b.
Proof.
  revert b. induction a as [|x a IH]; intros [|y b] H; try discriminate; [reflexivity|]. injection H as H1 H2.
  rewrite (IH b H2). f_equal. apply Nat2Z.inj in H1. now rewrite <- (Ascii.ascii_nat_embedding x), H1, Ascii.ascii_nat_embedding.
Qed.
Lemma decimal_inj a b : 0 <= a < 2 ^ 32 -> 0 <= b < 2 ^ 32 -> decimal a = decimal b -> a = b.
Proof.
  intros Ha Hb H. unfold decimal in H. apply bytes_of_inj, (inj pretty) in H.
  rewrite !(wrapu_id 32) in H by (unfold in_u; lia). lia.
Qed.
Lemma label_name_inj x a y b : 0 <= a < 2 ^ 32 -> 0 <= b < 2 ^ 32 -> label_name x a = label_name y b -> x = y /\ a = b.
Proof.
  intros Ha Hb H. destruct x, y; try discriminate H; (split; [reflexivity|]); apply (decimal_inj a b Ha Hb);
    injection H as H; exact H.
Qed.

(** The names that the blocks of the code ask for, in order. *)
Fixpoint names (n : Z) (p : CODE) : list (list Z) :=
  match p with
  | C_End => []
  | C_Simple _ k | C_Br _ _ k | C_BrIf _ _ k | C_Return k => names (n + 1) k
  | C_Block b k | C_If b k => label_name false n :: names (n + 1) b ++ names (n + 2 + code_len b) k
  | C_Loop b k => label_name true n :: label_name false n :: names (n + 1) b ++ names (n + 2 + code_len b) k
  | C_IfElse b1 b2 k =>
      let e := n + 1 + code_len b1 in
      label_name false n :: names (n + 1) b1 ++ label_name true e :: label_name false e :: names (e + 1) b2
        ++ names (e + 2 + code_len b2) k
  end.
Lemma length_names p : forall n, length (names n p) = labels p.
Proof. induction p; intros n; cbn [names labels length]; repeat (rewrite length_app; cbn [length]); rewrite ?IHp, ?IHp1, ?IHp2, ?IHp3; lia. Qed.

Lemma names_elem p : forall n nm, nm ∈ names n p -> exists x i, nm = label_name x i /\ n <= i < n + code_len p.
Proof.
  assert (forall n m s t nm, (exists x i, nm = label_name x i /\ n <= i < n + s) -> m <= n -> n + s <= m + t ->
    exists x i, nm = label_name x i /\ m <= i < m + t) as Hw
    by (intros n m s t nm (x & i & -> & Hi) H1 H2; exists x, i; split; [reflexivity | lia]).
  induction p as [|cd k IH|b IHb k IHk|b IHb k IHk|b IHb k IHk|b1 IH1 b2 IH2 k IHk|L v k IH|L v k IH|k IH];
    intros n nm H; cbn [names code_len] in *; rewrite ?elem_of_cons, ?elem_of_app, ?elem_of_cons, ?elem_of_app in H;
    repeat match goal with c : CODE |- _ => lazymatch goal with _ : 0 <= code_len c |- _ => fail | _ => pose proof (code_len_nonneg c) end end.
  - now apply not_elem_of_nil in H.
  - eapply Hw; [exact (IH _ _ H) | lia | lia].
  - destruct H as [->|[H|H]]; [exists false, n; split; [reflexivity | lia]| |]; [eapply Hw; [exact (IHb _ _ H) | lia | lia] | eapply Hw; [exact (IHk _ _ H) | lia | lia]].
  - destruct H as [->|[->|[H|H]]]; [exists true, n; split; [reflexivity | lia]|exists false, n; split; [reflexivity | lia]| |];
      [eapply Hw; [exact (IHb _ _ H) | lia | lia] | eapply Hw; [exact (IHk _ _ H) | lia | lia]].
  - destruct H as [->|[H|H]]; [exists false, n; split; [reflexivity | lia]| |]; [eapply Hw; [exact (IHb _ _ H) | lia | lia] | eapply Hw; [exact (IHk _ _ H) | lia | lia]].
  - destruct H as [->|[H|[->|[->|[H|H]]]]];
      [exists false, n; split; [reflexivity | lia]| |eexists true, _; split; [reflexivity | lia]|eexists false, _; split; [reflexivity | lia]| |].
    + eapply Hw; [exact (IH1 _ _ H) | lia | lia].
    + eapply Hw; [exact (IH2 _ _ H) | lia | lia].
    + eapply Hw; [exact (IHk _ _ H) | lia | lia].
  - eapply Hw; [exact (IH _ _ H) | lia | lia].
  - eapply Hw; [exact (IH _ _ H) | lia | lia].
  - eapply Hw; [exact (IH _ _ H) | lia | lia].
Qed.

Lemma names_disjoint p q n m : 0 <= n -> n + code_len p <= m -> m + code_len q < 2 ^ 32 -> forall nm, nm ∈ names n p -> nm ∉ names m q.
Proof.
  intros H1 H2 H3 nm (x & i & -> & Hi)%names_elem (y & j & E & Hj)%names_elem. apply label_name_inj in E; lia.
Qed.
Lemma name_fresh p x n m : 0 <= n -> n < m \/ m + code_len p <= n -> 0 <= m -> n < 2 ^ 32 -> m + code_len p < 2 ^ 32 -> label_name x n ∉ names m p.
Proof. intros H1 H2 H0 H3 H4 (y & j & E & Hj)%names_elem. apply label_name_inj in E; lia. Qed.
Lemma label_names_differ n : 0 <= n < 2 ^ 32 -> label_name true n <> label_name false n.
Proof. intros H E. apply label_name_inj in E as [E _]; [discriminate | exact H | exact H]. Qed.

Lemma names_NoDup p : forall n, 0 <= n -> n + code_len p < 2 ^ 32 -> NoDup (names n p).
Proof.
  induction p as [|cd k IH|b IHb k IHk|b IHb k IHk|b IHb k IHk|b1 IH1 b2 IH2 k IHk|L v k IH|L v k IH|k IH];
    intros n Hn Hs; cbn [names code_len] in *;
    repeat match goal with c : CODE |- _ => lazymatch goal with _ : 0 <= code_len c |- _ => fail | _ => pose proof (code_len_nonneg c) end end;
    rewrite ?NoDup_cons, ?NoDup_app, ?NoDup_cons, ?NoDup_app; try (apply IH; lia).
  - constructor.
  - split; [rewrite not_elem_of_app; split; apply name_fresh; lia|]. split; [apply IHb; lia|]. split; [apply names_disjoint; lia | apply IHk; lia].
  - split; [rewrite not_elem_of_cons, not_elem_of_app; split; [apply label_names_differ; lia|split; apply name_fresh; lia]|].
    split; [rewrite not_elem_of_app; split; apply name_fresh; lia|]. split; [apply IHb; lia|]. split; [apply names_disjoint; lia | apply IHk; lia].
  - split; [rewrite not_elem_of_app; split; apply name_fresh; lia|]. split; [apply IHb; lia|]. split; [apply names_disjoint; lia | apply IHk; lia].
  - set (e := n + 1 + code_len b1) in *. assert (forall x y a c, 0 <= a -> a < c -> c < 2 ^ 32 -> label_name x a <> label_name y c) as Hl
      by (intros x y a c H3 H4 H5 E; apply label_name_inj in E; lia).
    split; [|split; [apply IH1; lia|split]].
    + rewrite !not_elem_of_app, !not_elem_of_cons, not_elem_of_app. repeat split; first [apply Hl; lia | apply name_fresh; lia].
    + intros nm H3. rewrite !not_elem_of_cons, not_elem_of_app. pose proof H3 as (x & i & -> & Hi)%names_elem.
      repeat split; try (apply Hl; lia); (eapply names_disjoint; [| |  | exact H3]); lia.
    + rewrite ?NoDup_cons, ?NoDup_app, ?not_elem_of_cons, ?not_elem_of_app.
      split; [split; [apply label_names_differ; lia|split; apply name_fresh; lia]|].
      split; [split; apply name_fresh; lia|]. split; [apply IH2; lia|split; [apply names_disjoint; lia | apply IHk; lia]].
Qed.

(** A number has ten digits at most, so a name twenty characters. *)
Lemma pretty_N_go_length k : forall x s, (x < 10 ^ N.of_nat k)%N -> (String.length (pretty_N_go x s) <= k + String.length s)%nat.
Proof.
  induction k as [|k IH]; intros x s Hx; [replace x with 0%N by lia; rewrite pretty_N_go_0; lia|].
  destruct (decide (x = 0%N)) as [->|Hne]; [rewrite pretty_N_go_0; lia|]. rewrite pretty_N_go_step by lia.
  rewrite Nat2N.inj_succ, N.pow_succ_r' in Hx.
  assert (x `div` 10 < 10 ^ N.of_nat k)%N as Hd by (apply N.Div0.div_lt_upper_bound; exact Hx).
  specialize (IH _ (String (pretty_N_char (x `mod` 10)) s) Hd). cbn [String.length] in IH. lia.
Qed.
Lemma length_bytes_of s : length (bytes_of s) = String.length s.
Proof. induction s as [|c s IH]; cbn; [reflexivity | now rewrite IH]. Qed.
Lemma length_label_name x n : (length (label_name x n) <= 19)%nat.
Proof.
  unfold label_name, decimal. rewrite length_app, length_bytes_of. assert (String.length (pretty (Z.to_N (UINT32 n))) <= 10)%nat as H.
  { unfold pretty, pretty_N. case_decide; [cbn; lia|]. etransitivity; [apply (pretty_N_go_length 10)|cbn; lia].
    pose proof (wrapu_range 32 n ltac:(lia)) as Hr. unfold in_u in Hr. unfold UINT32. change (10 ^ N.of_nat 10)%N with 10000000000%N. lia. }
  destruct x; cbn [bytes_of length]; change (length (bytes_of _)) with 9%nat || change (length (bytes_of _)) with 7%nat; lia.
Qed.

(** ** Labels of the function being written *)
Section Names.
Context {bd : Build} {vg : VectorGrowth}.

(** The strings of the table are these names, in this order. *)
Record named (L : list (list Z)) (t : U_STR_TAB) : Prop := {
  nd_tab : wf_tab t;
  nd_entries : length (_entry_vec t) = length L;
  nd_strings : forall i s, string_at t (Z.of_nat i) = Some s <-> exists nm, L !! i = Some nm /\ s = cstr nm;
  nd_raw : length (_raw_buf t) = length (concat (map cstr L));
}.
(** The table has room for the names. *)
Definition names_fit (L : list (list Z)) : Prop := Z.of_nat (length (concat (map cstr L))) + Z.of_nat (length L) < 2 ^ 32.

Lemma label_names_fit L : Forall (fun nm => exists x n, nm = label_name x n) L -> (length L <= 512)%nat -> names_fit L.
Proof.
  intros H Hl. unfold names_fit. assert (length (concat (map cstr L)) <= 20 * length L)%nat; [|lia].
  clear Hl. induction H as [|nm L (x & n & ->) _ IH]; cbn [map concat length]; [lia|].
  rewrite length_app. unfold cstr at 1. rewrite length_app. cbn [length]. pose proof (length_label_name x n). lia.
Qed.
Lemma names_fit_app L L' : names_fit (L ++ L') -> names_fit L.
Proof. unfold names_fit. rewrite map_app, concat_app, !length_app. lia. Qed.

Lemma named_empty : named [] str_tab0.
Proof.
  split; try reflexivity; [apply wf_tab0|]. intros i s. split; [|now intros (nm & H & _)].
  unfold string_at. cbn. now destruct (_ <? 0).
Qed.

Lemma Add_name nm L t : named L t -> names_fit (L ++ [nm]) -> exists t',
  StrTab.Add (cstr nm) t = Ok (Z.of_nat (length L), t') /\ named (L ++ [nm]) t'.
Proof.
  intros [W E S R] F. unfold names_fit in F. rewrite map_app, concat_app, !length_app in F. cbn [map concat] in F. rewrite app_nil_r in F.
  assert (has_room (length (cstr nm)) t) as Hr by (split; [rewrite R; lia | rewrite E; cbn [length] in F; lia]).
  destruct (Add_spec _ t W Hr) as (t' & Ha & [W' _ _ _ _ _]). rewrite E in Ha. exists t'. split; [exact Ha|].
  pose proof Ha as Ha'. rewrite <- E in Ha'. pose proof (Add_strings _ t t' W Hr Ha') as Hs.
  unfold StrTab.Add in Ha. injection Ha as _ <-. cbn [_entry_vec _raw_buf] in *. split; cbn [_entry_vec _raw_buf].
  - exact W'.
  - rewrite !length_app, E. reflexivity.
  - intros i s. rewrite Hs, S. split.
    + intros [(m & Hm & ->)|[-> ->]]; [exists m; split; [now apply lookup_app_l_Some | reflexivity]|].
      exists nm. rewrite E, lookup_app_r, Nat.sub_diag by lia. auto.
    + intros (m & Hm & ->). apply lookup_app_Some in Hm as [Hm|[Hge Hm]]; [eauto|]. apply list_lookup_singleton_Some in Hm as [Hi <-].
      right. split; [lia | reflexivity].
  - rewrite map_app, concat_app, !length_app, R. cbn [map concat]. now rewrite app_nil_r.
Qed.

Import U_CODE_BODY.
Definition with_tab (labs : list Z) (tab : U_STR_TAB) (b : t) : t := mk (_ubh_code b) (_inst_tab b) labs tab.

Lemma Request_new nm L b : named L (_lab_name_tab b) -> nm ∉ L -> length (_lab_tab b) = length L -> names_fit (L ++ [nm]) ->
  exists t', Request_label nm b = Ok (Z.of_nat (length L), with_tab (_lab_tab b ++ [UNINIT_LABEL_IDX]) t' b) /\ named (L ++ [nm]) t'.
Proof.
  intros Hn Hnm Hl Hf. destruct (Add_name nm L _ Hn Hf) as (t' & Ha & Hn'). exists t'. split; [|exact Hn'].
  assert (Contains (cstr nm) (_lab_name_tab b) = false) as Hc.
  { apply not_true_is_false. intros [i Hi]%Contains_iff; [|apply Hn]. pose proof (string_at_nonneg _ _ _ Hi).
    rewrite <- (Z2Nat.id i) in Hi by lia. apply (nd_strings _ _ Hn) in Hi as (m & Hm & E). apply cstr_inj in E. subst m.
    apply Hnm. eapply list_elem_of_lookup_2, Hm. }
  unfold Request_label. rewrite Hc, Ha. cbn [_entry_vec _lab_tab]. rewrite (nd_entries _ _ Hn'), !length_app, Hl.
  cbn [length]. now rewrite Nat.eqb_refl, Is_True_true.
Qed.

Lemma Request_known nm L b i : named L (_lab_name_tab b) -> NoDup L -> L !! i = Some nm -> Request_label nm b = Ok (Z.of_nat i, b).
Proof.
  intros Hn Hd Hi. pose proof (nd_tab _ _ Hn) as W.
  assert (string_at (_lab_name_tab b) (Z.of_nat i) = Some (cstr nm)) as Hs by (apply (nd_strings _ _ Hn); eauto).
  destruct (wf_found _ W _ _ Hs) as [j Hj]. unfold Request_label, Contains, Get_idx. rewrite Hj. cbn [default from_option id].
  pose proof (wf_cache _ W _ _ Hj) as Hs'. pose proof (string_at_nonneg _ _ _ Hs'). rewrite <- (Z2Nat.id j) in Hs' by lia.
  apply (nd_strings _ _ Hn) in Hs' as (m & Hm & E). apply cstr_inj in E. subst m.
  rewrite (NoDup_lookup _ _ _ _ Hd Hi Hm). do 2 f_equal. lia.
Qed.
End Names.

(** The encoder when the current function is [b], after the functions [v]. *)
Definition enc_with (e : U_ENCODER.t) (v : list U_CODE_BODY.t) (b : U_CODE_BODY.t) : U_ENCODER.t :=
  U_ENCODER.set_codes (U_ENCODER._cur_func_idx e) (v ++ [b]) e.
Lemma on_Cur_code_body_run {bd : Build} {A} (h : M U_CODE_BODY.t A) a b b' e v : h b = Ok (a, b') ->
  U_ENCODER.on_codes (U_INST_ENCODER.on_Cur_code_body h) (enc_with e v b) = Ok (a, enc_with e v b').
Proof.
  intros H. unfold U_ENCODER.on_codes, U_ENCODER.on_part, U_INST_ENCODER.on_Cur_code_body.
  change (U_ENCODER._u_inst_encoder (enc_with e v b)) with (v ++ [b]).
  rewrite (proj2 (Nat.ltb_lt _ _)), Is_True_true, last_snoc, H by (rewrite length_app; cbn [length]; lia).
  rewrite length_app. cbn [length]. replace (length v + 1 - 1)%nat with (length v + 0)%nat by lia.
  apply (f_equal (fun l => Ok (a, U_ENCODER.set_codes (U_ENCODER._cur_func_idx e) l (enc_with e v b)))). exact (insert_app_r v [b] 0 _).
Qed.

(** ** Statements *)
Definition UNSET : Z := UINT32 UNINIT_LABEL_IDX.
Definition instr_stmt (n : Z) (o : WINST_OPCODE) (parent : Z) : WINST_STMT :=
  mkSTMT WINST_STMT_INSTR n o (Some parent) [] n parent UNSET UNSET 0 0 0 0 0.
Definition block_stmt (n : Z) (o : WINST_OPCODE) (parent begin_label end_label other : Z) : WINST_STMT :=
  mkSTMT WINST_STMT_BLOCK n o (Some parent) [] n 0 begin_label end_label other 0 0 0 0.
Definition root_stmt : WINST_STMT :=
  mkSTMT WINST_STMT_ROOT_BLOCK 0 Unreachable None [] 1 0 UNSET UNSET 0 0 0 0 0.

(** A statement up to what changes: its children, and the size of the stack where it starts. *)
Definition core (s : WINST_STMT) : WINST_STMT :=
  mkSTMT (st_kind s) (st_id s) (st_opcode s) (st_parent s) [] (st_begin_pc s) (st_block_id s) (st_begin_label s)
    (st_end_label s) (st_else_stmt_id s) (st_result_cnt s) (st_result_type s) (st_result_reg s) 0.
(** The instruction number [n] has the statement [n], which is [c]. *)
Definition at_stmt (g : WINST_STMT_GRAPH) (n : Z) (c : WINST_STMT) : Prop :=
  _ins_to_stmt g !! n = Some n /\ core <$> _stmts g !! Z.to_nat n = Some c.

(** The statements of code that starts with the instruction [n] in the block [pid]; its
  labels have the names of [L] from [lab] on. *)
Fixpoint shape (g : WINST_STMT_GRAPH) (L : list (list Z)) (n pid : Z) (lab : nat) (p : CODE) : Prop :=
  match p with
  | C_End => True
  | C_Simple cd k => at_stmt g n (instr_stmt n (cd_op cd) pid) /\ shape g L (n + 1) pid lab k
  | C_Br _ _ k => at_stmt g n (instr_stmt n Br pid) /\ shape g L (n + 1) pid lab k
  | C_BrIf _ _ k => at_stmt g n (instr_stmt n BrIf pid) /\ shape g L (n + 1) pid lab k
  | C_Return k => at_stmt g n (instr_stmt n Return pid) /\ shape g L (n + 1) pid lab k
  | C_Block b k =>
      at_stmt g n (block_stmt n Block pid UNSET (Z.of_nat lab) 0) /\ L !! lab = Some (label_name false n) /\
      shape g L (n + 1) n (S lab) b /\
      at_stmt g (n + 1 + code_len b) (instr_stmt (n + 1 + code_len b) End n) /\
      shape g L (n + 2 + code_len b) pid (S lab + labels b) k
  | C_Loop b k =>
      at_stmt g n (block_stmt n Loop pid (Z.of_nat lab) (Z.of_nat (S lab)) 0) /\
      L !! lab = Some (label_name true n) /\ L !! S lab = Some (label_name false n) /\
      shape g L (n + 1) n (S (S lab)) b /\
      at_stmt g (n + 1 + code_len b) (instr_stmt (n + 1 + code_len b) End n) /\
      shape g L (n + 2 + code_len b) pid (S (S lab) + labels b) k
  | C_If b k =>
      at_stmt g n (block_stmt n If pid UNSET (Z.of_nat lab) 0) /\ L !! lab = Some (label_name false n) /\
      shape g L (n + 1) n (S lab) b /\
      at_stmt g (n + 1 + code_len b) (instr_stmt (n + 1 + code_len b) End n) /\
      shape g L (n + 2 + code_len b) pid (S lab + labels b) k
  | C_IfElse b1 b2 k =>
      let e := n + 1 + code_len b1 in let other := (S lab + labels b1)%nat in
      at_stmt g n (block_stmt n If pid UNSET (Z.of_nat lab) e) /\ L !! lab = Some (label_name false n) /\
      shape g L (n + 1) n (S lab) b1 /\
      at_stmt g e (block_stmt e Else pid (Z.of_nat other) (Z.of_nat (S other)) n) /\
      L !! other = Some (label_name true e) /\ L !! S other = Some (label_name false e) /\
      shape g L (e + 1) e (S (S other)) b2 /\
      at_stmt g (e + 1 + code_len b2) (instr_stmt (e + 1 + code_len b2) End e) /\
      shape g L (e + 2 + code_len b2) pid (S (S other) + labels b2) k
  end.

(** What is before the instruction [n] stays. *)
Record grows (n : Z) (g g' : WINST_STMT_GRAPH) : Prop := {
  gr_ins : forall k, k < n -> _ins_to_stmt g' !! k = _ins_to_stmt g !! k;
  gr_core : forall i, Z.of_nat i < n -> core <$> _stmts g' !! i = core <$> _stmts g !! i;
}.
#[export] Instance grows_refl n : Reflexive (grows n).
Proof. now split. Qed.
#[export] Instance grows_trans n : Transitive (grows n).
Proof. intros g1 g2 g3 [A1 A2] [B1 B2]. split; intros; [rewrite B1, A1 | rewrite B2, A2]; auto. Qed.
Lemma grows_le n m g g' : grows m g g' -> n <= m -> grows n g g'.
Proof. intros [A1 A2] H. split; intros; [apply A1 | apply A2]; lia. Qed.

Lemma at_stmt_grows n g g' k c : grows n g g' -> 0 <= k < n -> at_stmt g k c -> at_stmt g' k c.
Proof. intros [A1 A2] Hk [H1 H2]. split; [now rewrite A1 by lia | now rewrite A2 by lia]. Qed.
Lemma shape_mono g g' L L' p : L `prefix_of` L' -> forall n pid lab, (forall k c, n <= k < n + code_len p -> at_stmt g k c -> at_stmt g' k c) ->
  shape g L n pid lab p -> shape g' L' n pid lab p.
Proof.
  intros HL. assert (forall i nm, L !! i = Some nm -> L' !! i = Some nm) as Hi by (intros i nm H; eapply prefix_lookup_Some; eauto).
  induction p; intros n pid lab Hk H; cbn [shape code_len] in *;
    repeat match goal with c : CODE |- _ => lazymatch goal with _ : 0 <= code_len c |- _ => fail | _ => pose proof (code_len_nonneg c) end end;
    repeat match goal with H : _ /\ _ |- _ => destruct H end;
    repeat match goal with |- _ /\ _ => split end;
    first [ exact I | apply Hi; assumption | apply Hk; [lia | assumption]
          | match goal with IH : forall n pid lab, _ -> shape _ _ _ _ _ ?q -> _ |- shape _ _ _ _ _ ?q => apply IH; [intros; apply Hk; [lia | assumption] | assumption] end ].
Qed.
Lemma shape_grows m g g' L L' p n pid lab : grows m g g' -> L `prefix_of` L' -> 0 <= n -> n + code_len p <= m ->
  shape g L n pid lab p -> shape g' L' n pid lab p.
Proof. intros Hg HL Hn Hm. apply shape_mono; [exact HL|]. intros k c Hk. apply at_stmt_grows with m; [exact Hg | lia]. Qed.

Section Graphs.
Context {bd : Build} {vg : VectorGrowth} {cb : ConvBuild}.

(** The instructions before [n] have statements. *)
Record full (n : Z) (g : WINST_STMT_GRAPH) : Prop := {
  fu_length : Z.of_nat (length (_stmts g)) = n;
  fu_new : forall k, n <= k -> _ins_to_stmt g !! k = None;
}.

Lemma at_stmt_Stmt_id g n c : at_stmt g n c -> 0 <= n -> exists s, Stmt_id n g = Ok s /\ _stmts g !! Z.to_nat n = Some s /\ core s = c.
Proof.
  intros [_ H] Hn. destruct (_stmts g !! Z.to_nat n) as [s|] eqn:E; [|discriminate]. injection H as H. exists s.
  pose proof (Stmt_id_run g _ s E) as Hs. rewrite Z2Nat.id in Hs by exact Hn. auto.
Qed.

(** What is written to a statement changes the others no more than by children. *)
Lemma upd_stmt_at m g n c f : full m g -> at_stmt g n c -> 0 <= n < m -> (forall s, core (f s) = core (f (core s))) ->
  exists g', upd_stmt n f g = Ok (tt, g') /\ full m g' /\ at_stmt g' n (core (f c)) /\ grows n g g' /\
    forall k d, 0 <= k -> k <> n -> at_stmt g k d -> at_stmt g' k d.
Proof.
  intros [F1 F2] Ha Hn Hf. destruct (at_stmt_Stmt_id g n c Ha ltac:(lia)) as (s & _ & Hs & <-). destruct Ha as [Hi _].
  pose proof (upd_stmt_run g _ s f Hs) as Hu. rewrite Z2Nat.id in Hu by lia. eexists. split; [exact Hu|]. split; [|split; [|split]].
  - split; cbn [_stmts _ins_to_stmt]; [now rewrite length_insert | exact F2].
  - split; cbn [_stmts _ins_to_stmt]; [exact Hi|]. rewrite list_lookup_insert_eq by (eapply lookup_lt_Some, Hs). cbn. now rewrite Hf.
  - split; cbn [_stmts _ins_to_stmt]; [reflexivity|]. intros i Hi'. now rewrite list_lookup_insert_ne by lia.
  - intros k d Hk Hne. unfold at_stmt. cbn [_stmts _ins_to_stmt]. now rewrite list_lookup_insert_ne by lia.
Qed.

Lemma add_stmt_at item n pid g : full n g -> 0 <= pid < n -> n < 2 ^ 32 -> st_kind item <> WINST_STMT_ROOT_BLOCK -> exists g',
  Add_stmt_to_parent item n pid g = Ok (n, g') /\ full (n + 1) g' /\ grows n g g' /\ at_stmt g' n (core (Set_parent pid (Set_id n item))).
Proof.
  intros [F1 F2] Hp Hn Hk. set (new := Set_id n item). set (st1 := _stmts g ++ [new]). set (ins := <[n := n]> (_ins_to_stmt g)).
  assert (Z.to_nat n = length (_stmts g)) as En by lia.
  assert (Add_stmt item n g = Ok (n, mkGRAPH st1 ins)) as Ha.
  { unfold Add_stmt. rewrite F1, (F2 n), decide_False by (lia || exact Hk). rewrite UINT32_id by lia. reflexivity. }
  assert (st1 !! Z.to_nat n = Some new) as L1 by (unfold st1; now rewrite lookup_app_r, En, Nat.sub_diag by lia).
  destruct (lookup_lt_is_Some_2 (_stmts g) (Z.to_nat pid) ltac:(lia)) as [s0 H0].
  set (st2 := <[Z.to_nat n := Set_parent pid new]> st1).
  assert (st2 !! Z.to_nat pid = Some s0) as L2
    by (unfold st2; rewrite list_lookup_insert_ne by lia; unfold st1; now apply lookup_app_l_Some).
  set (st3 := <[Z.to_nat pid := Add_children n s0]> st2). exists (mkGRAPH st3 ins). split; [|split; [|split]].
  - unfold Add_stmt_to_parent. rewrite (bind_run _ _ _ _ _ Ha).
    pose proof (upd_stmt_run (mkGRAPH st1 ins) _ new (Set_parent pid) L1) as Hu. rewrite Z2Nat.id in Hu by lia. rewrite (bind_run _ _ _ _ _ Hu).
    pose proof (upd_stmt_run (mkGRAPH st2 ins) _ s0 (Add_children n) L2) as Hu2. rewrite Z2Nat.id in Hu2 by lia.
    rewrite (bind_run _ _ _ _ _ Hu2). reflexivity.
  - split; cbn [_stmts _ins_to_stmt].
    + unfold st3, st2, st1. rewrite !length_insert, length_app. cbn [length]. lia.
    + intros k Hk'. unfold ins. rewrite lookup_insert_ne by lia. apply F2. lia.
  - split; cbn [_stmts _ins_to_stmt].
    + intros k Hk'. unfold ins. now rewrite lookup_insert_ne by lia.
    + intros i Hi. unfold st3. destruct (decide (i = Z.to_nat pid)) as [->|Hne].
      * rewrite list_lookup_insert_eq, H0 by (eapply lookup_lt_Some, L2). reflexivity.
      * rewrite list_lookup_insert_ne by lia. unfold st2. rewrite list_lookup_insert_ne by lia. unfold st1. now rewrite lookup_app_l by lia.
  - split; cbn [_stmts _ins_to_stmt]; [unfold ins; apply lookup_insert_eq|].
    unfold st3. rewrite list_lookup_insert_ne by lia. unfold st2. rewrite list_lookup_insert_eq; [reflexivity|]. eapply lookup_lt_Some, L1.
Qed.

Lemma add_instr_at o n pid w e l g : full n g -> 0 <= pid < n -> n < 2 ^ 32 -> exists g',
  add_instr o n (mkBUILD e l g (pid :: w)) = Ok (tt, mkBUILD e l g' (pid :: w)) /\ full (n + 1) g' /\ grows n g g' /\ at_stmt g' n (instr_stmt n o pid).
Proof.
  intros Hf Hp Hn. destruct (add_stmt_at (WINST_STMT_new WINST_STMT_INSTR n pid o) n pid g Hf Hp Hn ltac:(discriminate)) as (g' & Ha & Hf' & Hg & Hat).
  exists g'. split; [|split; [exact Hf'|split; [exact Hg | exact Hat]]].
  unfold add_instr. rewrite (bind_run work_top _ _ (mkBUILD e l g (pid :: w)) pid) by reflexivity.
  rewrite (bind_run (on_graph_b _) _ _ (mkBUILD e l g' (pid :: w)) n) by (unfold on_graph_b; cbn [bs_graph]; now rewrite Ha). reflexivity.
Qed.

(** ** Blocks *)
Definition begins (o : WINST_OPCODE) : bool := bool_decide (o = Loop \/ o = Else).
Definition block_names (n : Z) (o : WINST_OPCODE) : list (list Z) :=
  (if begins o then [label_name true n] else []) ++ [label_name false n].
(** The statement of a block whose labels start with number [k]. *)
Definition opened (n : Z) (o : WINST_OPCODE) (pid : Z) (k : nat) (cnt : Z) : WINST_STMT :=
  Set_result_cnt cnt (block_stmt n o pid (if begins o then Z.of_nat k else UNSET) (if begins o then Z.of_nat (S k) else Z.of_nat k) 0).

Variable ubh : Z.
Variable enc : U_ENCODER.t.
Variable v : list U_CODE_BODY.t.
(** The encoder while the labels [L] have been requested and nothing was added. *)
Definition requested (L : list (list Z)) (tab : U_STR_TAB) : U_ENCODER.t :=
  enc_with enc v (U_CODE_BODY.mk ubh [] (replicate (length L) UNINIT_LABEL_IDX) tab).

Lemma request_run x n L tab l g w : named L tab -> label_name x n ∉ L -> names_fit (L ++ [label_name x n]) ->
  exists tab', on_enc_b (Add_label x n false) (mkBUILD (requested L tab) l g w)
    = Ok (Z.of_nat (length L), mkBUILD (requested (L ++ [label_name x n]) tab') l g w) /\ named (L ++ [label_name x n]) tab'.
Proof.
  intros Hn Hx Hf. destruct (Request_new (label_name x n) L (U_CODE_BODY.mk ubh [] (replicate (length L) UNINIT_LABEL_IDX) tab) Hn Hx) as (tab' & Hr & Hn').
  { cbn [U_CODE_BODY._lab_tab]. apply length_replicate. }
  { exact Hf. }
  exists tab'. split; [|exact Hn']. unfold on_enc_b, Add_label, U_ENCODER.Request_label. cbn [bs_enc]. unfold requested at 1.
  rewrite (on_Cur_code_body_run _ _ _ _ enc v Hr). unfold requested. rewrite length_app. cbn [length].
  rewrite replicate_add. reflexivity.
Qed.

Definition on_graph_run {A} (h : M WINST_STMT_GRAPH A) a E l g g' w : h g = Ok (a, g') ->
  on_graph_b h (mkBUILD E l g w) = Ok (a, mkBUILD E l g' w).
Proof. intros H. unfold on_graph_b. cbn [bs_graph]. now rewrite H. Qed.

(** The type of a block: void, or the number that [build_else] computes. *)
Definition result_num (ty : Z) : Z := if ty =? 64 then 0 else 1.

Lemma Create_new_block_at o ty n pid w L tab l g : begins o = true \/ o = Block \/ o = If -> ty = 64 \/ ty = 127 ->
  full n g -> 0 <= pid < n -> n < 2 ^ 32 -> named L tab -> NoDup (block_names n o) -> (forall nm, nm ∈ block_names n o -> nm ∉ L) ->
  names_fit (L ++ block_names n o) -> exists tab' g',
  Create_new_block o ty n (mkBUILD (requested L tab) l g (pid :: w))
    = Ok (n, mkBUILD (requested (L ++ block_names n o) tab') l g' (n :: pid :: w)) /\
  named (L ++ block_names n o) tab' /\ full (n + 1) g' /\ grows n g g' /\ at_stmt g' n (opened n o pid (length L) (result_num ty)).
Proof.
  intros Ho Hty Hf Hp Hn HL Hnd Hnew Hfit.
  destruct (add_stmt_at (WINST_STMT_new WINST_STMT_BLOCK n 0 o) n pid g Hf Hp Hn ltac:(discriminate)) as (g1 & Ha & F1 & G1 & A1).
  set (c0 := block_stmt n o pid UNSET UNSET 0) in *. change (core _) with c0 in A1.
  assert (exists tab1 g2, when (begins o) (l ← on_enc_b (Add_label true n false); on_graph_b (upd_stmt n (Set_begin_label l)))
      (mkBUILD (requested L tab) l g1 (pid :: w)) = Ok (tt, mkBUILD (requested (L ++ (if begins o then [label_name true n] else [])) tab1) l g2 (pid :: w)) /\
    named (L ++ (if begins o then [label_name true n] else [])) tab1 /\ full (n + 1) g2 /\ grows n g1 g2 /\
    at_stmt g2 n (block_stmt n o pid (if begins o then Z.of_nat (length L) else UNSET) UNSET 0)) as (tab1 & g2 & R2 & N2 & F2 & G2 & A2).
  { unfold block_names in *. destruct (begins o); cbn [when].
    - destruct (request_run true n L tab l g1 (pid :: w) HL) as (tab1 & R & N1); [apply Hnew; left | eapply names_fit_app; rewrite <- (assoc_L (++)); exact Hfit|].
      destruct (upd_stmt_at (n + 1) g1 n _ (Set_begin_label (Z.of_nat (length L))) F1 A1 ltac:(lia)) as (g2 & U & F2 & A2 & G2 & _); [reflexivity|].
      exists tab1, g2. rewrite (bind_run _ _ _ _ _ R), (on_graph_run _ _ _ _ _ _ _ U). auto.
    - exists tab, g1. rewrite app_nil_r. split; [reflexivity|]. split; [exact HL|]. split; [exact F1|]. split; [reflexivity | exact A1]. }
  set (L1 := L ++ (if begins o then [label_name true n] else [])) in *.
  assert (L ++ block_names n o = L1 ++ [label_name false n]) as EL by (unfold L1, block_names; now rewrite <- (assoc_L (++))).
  rewrite EL in *.
  destruct (request_run false n L1 tab1 l g2 (pid :: w) N2) as (tab2 & R3 & N3); [|exact Hfit|].
  { unfold L1. rewrite not_elem_of_app. split; [apply Hnew; unfold block_names; apply elem_of_app; right; left|].
    unfold block_names in Hnd. rewrite NoDup_app in Hnd. intros H. apply Hnd in H. apply H. left. }
  destruct (upd_stmt_at (n + 1) g2 n _ (Set_end_label (Z.of_nat (length L1))) F2 A2 ltac:(lia)) as (g3 & U3 & F3 & A3 & G3 & _); [reflexivity|].
  destruct (upd_stmt_at (n + 1) g3 n _ (Set_result_cnt (result_num ty)) F3 A3 ltac:(lia)) as (g4 & U4 & F4 & A4 & G4 & _); [reflexivity|].
  destruct (upd_stmt_at (n + 1) g4 n _ (Set_result_type 0) F4 A4 ltac:(lia)) as (g5 & U5 & F5 & A5 & G5 & _); [reflexivity|].
  assert (Z.of_nat (length L1) = if begins o then Z.of_nat (S (length L)) else Z.of_nat (length L)) as E1
    by (unfold L1; rewrite length_app; destruct (begins o); cbn [length]; lia).
  exists tab2, (if ty =? 64 then g4 else g5). split; [|split; [exact N3|]].
  - unfold Create_new_block. rewrite (bind_run get _ (mkBUILD (requested L tab) l g (pid :: w)) _ _ eq_refl). cbn [bs_work].
    rewrite !bind_bind, (bind_run _ _ _ _ _ (on_graph_run _ _ _ _ _ _ _ Ha)), bind_bind. fold (begins o). rewrite (bind_run _ _ _ _ _ R2).
    rewrite !bind_bind, (bind_run _ _ _ _ _ R3), bind_bind, (bind_run _ _ _ _ _ (on_graph_run _ _ _ _ _ _ _ U3)).
    destruct Hty as [-> | ->]; cbv zeta.
    + change (negb _ && negb _) with false. cbn [result_num Z.eqb Pos.eqb] in *. rewrite bind_bind, (bind_run _ _ _ _ _ (on_graph_run _ _ _ _ _ _ _ U4)). reflexivity.
    + change (negb _ && negb _) with true. cbn [result_num Z.eqb Pos.eqb] in *. rewrite !bind_bind, (bind_run _ _ _ _ _ (on_graph_run _ _ _ _ _ _ _ U4)).
      change (Conv_wabt_ty _) with (Ok I32). rewrite bind_bind. rewrite (bind_run (lift (Ok I32)) _ _ _ _ eq_refl).
      rewrite (bind_run _ _ _ _ _ (on_graph_run _ _ _ _ _ _ _ U5)). reflexivity.
  - assert (grows n g g4) as G by (transitivity g1; [exact G1|]; transitivity g2; [exact G2|]; transitivity g3; assumption).
    rewrite E1 in *. unfold opened, result_num in *. destruct Hty as [-> | ->]; cbn [Z.eqb Pos.eqb] in *.
    + split; [exact F4|]. split; [exact G | exact A4].
    + split; [exact F5|]. split; [transitivity g4; assumption | exact A5].
Qed.

(** The instructions that open or close a block. *)
Lemma work_nonempty (i : Z) w : bool_decide (i :: w = []) = false.
Proof. now apply bool_decide_eq_false_2. Qed.
Lemma Finish_old_block_run E l g i w : Finish_old_block (mkBUILD E l g (i :: w)) = Ok (i, mkBUILD E l g w).
Proof.
  unfold Finish_old_block. rewrite (bind_run get _ (mkBUILD E l g (i :: w)) _ _ eq_refl). cbn [bs_work].
  rewrite work_nonempty. cbn [negb]. now rewrite Is_True_true.
Qed.
Lemma graph_stmt_at E l g w n c : at_stmt g n c -> 0 <= n -> exists s,
  graph_stmt n (mkBUILD E l g w) = Ok (s, mkBUILD E l g w) /\ core s = c.
Proof.
  intros H Hn. destruct (at_stmt_Stmt_id g n c H Hn) as (s & Hs & _ & Hc). exists s. split; [|exact Hc].
  unfold graph_stmt. rewrite (bind_run get _ (mkBUILD E l g w) _ _ eq_refl). cbn [bs_graph]. now rewrite Hs.
Qed.

Lemma build_end_at buf pc n pid w E l g : full n g -> 0 <= pid < n -> n < 2 ^ 32 -> exists g',
  build_inst buf (set_wasm_pc pc (row_of End)) n (mkBUILD E l g (pid :: w)) = Ok (n + 1, mkBUILD E l g' w) /\
  full (n + 1) g' /\ grows n g g' /\ at_stmt g' n (instr_stmt n End pid).
Proof.
  intros Hf Hp Hn. destruct (add_instr_at End n pid w E l g Hf Hp Hn) as (g' & R & F & G & A). exists g'. split; [|auto].
  unfold build_inst. change (Encode (set_wasm_pc pc (row_of End))) with End. cbv iota.
  rewrite (bind_run get _ (mkBUILD E l g (pid :: w)) _ _ eq_refl). cbn [bs_work]. rewrite work_nonempty.
  assert (build_end n (mkBUILD E l g (pid :: w)) = Ok (tt, mkBUILD E l g' w)) as Hend.
  { unfold build_end. rewrite (bind_run get _ (mkBUILD E l g (pid :: w)) _ _ eq_refl). cbn [bs_work]. rewrite work_nonempty.
    rewrite (bind_run _ _ _ _ _ R), (bind_run _ _ _ _ _ (Finish_old_block_run E l g' pid w)).
    destruct (lookup_lt_is_Some_2 (_stmts g') (Z.to_nat pid)) as [s Hs]; [destruct F; lia|].
    pose proof (Stmt_id_run g' _ s Hs) as Hid. rewrite Z2Nat.id in Hid by lia.
    assert (graph_stmt pid (mkBUILD E l g' w) = Ok (s, mkBUILD E l g' w)) as Hgs
      by (unfold graph_stmt; rewrite (bind_run get _ (mkBUILD E l g' w) _ _ eq_refl); cbn [bs_graph]; now rewrite Hid).
    rewrite (bind_run _ _ _ _ _ Hgs). reflexivity. }
  rewrite (bind_run _ _ _ _ _ Hend). reflexivity.
Qed.

Lemma build_open_at buf pc o rest n pid w L tab l g : o = Block \/ o = Loop \/ o = If ->
  coded_bytes (mkCODED o [VOID]) ++ rest = drop pc buf -> full n g -> 0 <= pid < n -> n < 2 ^ 32 -> named L tab ->
  NoDup (block_names n o) -> (forall nm, nm ∈ block_names n o -> nm ∉ L) -> names_fit (L ++ block_names n o) -> exists tab' g',
  build_inst buf (set_wasm_pc pc (row_of o)) n (mkBUILD (requested L tab) l g (pid :: w))
    = Ok (n + 1, mkBUILD (requested (L ++ block_names n o) tab') l g' (n :: pid :: w)) /\
  named (L ++ block_names n o) tab' /\ full (n + 1) g' /\ grows n g g' /\ at_stmt g' n (opened n o pid (length L) 0).
Proof.
  intros Ho Hb Hf Hp Hn HL Hnd Hnew Hfit.
  destruct (Create_new_block_at o 64 n pid w L tab l g) as (tab' & g' & R & H); try assumption.
  { destruct Ho as [-> | [-> | ->]]; auto. }
  { now left. }
  exists tab', g'. split; [|exact H]. unfold build_inst.
  assert (Encode (set_wasm_pc pc (row_of o)) = o) as -> by (destruct Ho as [-> | [-> | ->]]; reflexivity).
  assert (Read_leb128 (drop (_wasm_pc (set_wasm_pc pc (row_of o)) + 1) buf) = Ok 64) as Hr.
  { cbn [set_wasm_pc _wasm_pc]. rewrite <- drop_drop, <- Hb. cbn [coded_bytes cd_imms map concat imm_bytes VOID app drop]. rewrite skipn_O, app_nil_r.
    now rewrite (Read_leb128_run 1 64) by lia. }
  rewrite Hr. destruct Ho as [-> | [-> | ->]]; rewrite (bind_run (lift (Ok 64)) _ _ _ _ eq_refl); change (UINT32 (INT32 64)) with 64;
    rewrite (bind_run _ _ _ _ _ R); reflexivity.
Qed.

Lemma build_else_at buf pc n m pid le w L tab l g : at_stmt g n (block_stmt n If pid UNSET le 0) -> full m g -> 0 <= pid < n -> n < m -> m < 2 ^ 32 ->
  named L tab -> NoDup (block_names m Else) -> (forall nm, nm ∈ block_names m Else -> nm ∉ L) -> names_fit (L ++ block_names m Else) -> exists tab' g',
  build_inst buf (set_wasm_pc pc (row_of Else)) m (mkBUILD (requested L tab) l g (n :: pid :: w))
    = Ok (m + 1, mkBUILD (requested (L ++ block_names m Else) tab') l g' (m :: pid :: w)) /\
  named (L ++ block_names m Else) tab' /\ full (m + 1) g' /\ grows n g g' /\
  at_stmt g' n (block_stmt n If pid UNSET le m) /\ at_stmt g' m (block_stmt m Else pid (Z.of_nat (length L)) (Z.of_nat (S (length L))) n) /\
  forall k c, n < k < m -> at_stmt g k c -> at_stmt g' k c.
Proof.
  intros Hif Hf Hp Hnm Hm HL Hnd Hnew Hfit.
  destruct (Create_new_block_at Else 127 m pid w L tab l g) as (tab' & g1 & R & N' & F1 & G1 & A1); try assumption; auto; [lia|].
  pose proof (at_stmt_grows m g g1 n _ G1 ltac:(lia) Hif) as Hif1.
  destruct (upd_stmt_at (m + 1) g1 n _ (Set_else_stmt m) F1 Hif1 ltac:(lia)) as (g2 & U2 & F2 & A2 & G2 & K2); [reflexivity|].
  pose proof (K2 m _ ltac:(lia) ltac:(lia) A1) as A1'.
  destruct (upd_stmt_at (m + 1) g2 m _ (fun s => Set_result_type 0 (Set_result_cnt 0 (Set_else_stmt n s))) F2 A1' ltac:(lia)) as (g3 & U3 & F3 & A3 & G3 & K3); [reflexivity|].
  exists tab', g3. split; [|split; [exact N'|split; [exact F3|split; [|split; [|split]]]]].
  - destruct (graph_stmt_at (requested L tab) l g (pid :: w) n _ Hif ltac:(lia)) as (s0 & S0 & C0).
    destruct (graph_stmt_at (requested (L ++ block_names m Else) tab') l g1 (m :: pid :: w) n _ Hif1 ltac:(lia)) as (s1 & S1 & C1).
    destruct (graph_stmt_at (requested (L ++ block_names m Else) tab') l g1 (m :: pid :: w) m _ A1 ltac:(lia)) as (s2 & S2 & C2).
    assert (st_result_type s0 = 0) as E0 by (change (st_result_type (core s0) = 0); now rewrite C0).
    assert (st_id s2 = m) as E2 by (change (st_id (core s2) = m); now rewrite C2).
    assert (st_id s1 = n /\ st_result_cnt s1 = 0 /\ st_result_type s1 = 0 /\ st_opcode s1 = If) as (E3 & E4 & E5 & E6)
      by (change (st_id (core s1) = n /\ st_result_cnt (core s1) = 0 /\ st_result_type (core s1) = 0 /\ st_opcode (core s1) = If); now rewrite C1).
    assert (build_else m (mkBUILD (requested L tab) l g (n :: pid :: w))
      = Ok (tt, mkBUILD (requested (L ++ block_names m Else) tab') l g3 (m :: pid :: w))) as Hb.
    { unfold build_else. rewrite (bind_run get _ (mkBUILD (requested L tab) l g (n :: pid :: w)) _ _ eq_refl). cbn [bs_work].
      rewrite work_nonempty. cbn [negb]. rewrite Is_True_true, (bind_run (lift (Ok tt)) _ _ _ _ eq_refl).
      rewrite (bind_run _ _ _ _ _ (Finish_old_block_run _ l g n (pid :: w))), (bind_run _ _ _ _ _ S0), E0.
      change (Conv_ty_wabt 0) with (Ok (-1)). rewrite (bind_run (lift (Ok (-1))) _ _ _ _ eq_refl). change (UINT32 (0x80 + -1)) with 127.
      rewrite (bind_run _ _ _ _ _ R), (bind_run _ _ _ _ _ S1), (bind_run _ _ _ _ _ S2), E2.
      rewrite (bind_run _ _ _ _ _ (on_graph_run _ _ _ _ _ _ _ U2)), E3, E4, E5, E6, (bind_run _ _ _ _ _ (on_graph_run _ _ _ _ _ _ _ U3)).
      rewrite bool_decide_eq_true_2, Is_True_true by reflexivity. reflexivity. }
    unfold build_inst. change (Encode (set_wasm_pc pc (row_of Else))) with Else. cbv iota. rewrite (bind_run _ _ _ _ _ Hb). reflexivity.
  - transitivity g1; [eapply grows_le; [exact G1 | lia]|]. transitivity g2; [exact G2|]. eapply grows_le; [exact G3 | lia].
  - apply K3; [lia | lia | exact A2].
  - exact A3.
  - intros k c Hk Hc. apply K3; [lia | lia|]. apply K2; [lia | lia|]. eapply at_stmt_grows; [exact G1 | lia | exact Hc].
Qed.

(** Straight-line instructions of the code are of [SIMPLE]. *)
Fixpoint simple_code (p : CODE) : Prop :=
  match p with
  | C_End => True
  | C_Simple cd k => is_Some (source_of cd) /\ simple_code k
  | C_Br _ _ k | C_BrIf _ _ k | C_Return k => simple_code k
  | C_Block b k | C_Loop b k | C_If b k => simple_code b /\ simple_code k
  | C_IfElse b1 b2 k => simple_code b1 /\ simple_code b2 /\ simple_code k
  end.

(** ** Code *)
Lemma build_insts_cons buf i ins n b n' b' : build_inst buf i n b = Ok (n', b') -> build_insts buf (i :: ins) n b = build_insts buf ins n' b'.
Proof. intros H. cbn [build_insts]. now rewrite (bind_run _ _ _ _ _ H). Qed.
Lemma build_plain_at buf i n pid w E l g : plain (Encode i) = true -> full n g -> 0 <= pid < n -> n < 2 ^ 32 -> exists g',
  build_inst buf i n (mkBUILD E l g (pid :: w)) = Ok (n + 1, mkBUILD E l g' (pid :: w)) /\
  full (n + 1) g' /\ grows n g g' /\ at_stmt g' n (instr_stmt n (Encode i) pid).
Proof.
  intros Hi Hf Hp Hn. destruct (add_instr_at (Encode i) n pid w E l g Hf Hp Hn) as (g' & R & H). exists g'. split; [|exact H].
  rewrite (build_inst_plain buf i n Hi), (bind_run _ _ _ _ _ R). reflexivity.
Qed.

Lemma source_op_plain cd i pc : source_of cd = Some i -> plain (Encode (set_wasm_pc pc (row_of (cd_op cd)))) = true.
Proof.
  intros H. pose proof (source_plain [cd] [i] pc) as P. cbn [map insts_at] in P. rewrite H in P. specialize (P eq_refl).
  now inversion P.
Qed.

(** What building the code from [g] with the labels [L] leaves. *)
Definition built (buf : list Z) (p : CODE) (n pid : Z) (w : list Z) (L : list (list Z)) (tab : U_STR_TAB) (l : LABEL_TAB.t)
    (g : WINST_STMT_GRAPH) (pc : nat) (more : list WASM_INST) : Prop :=
  exists tab' g',
    build_insts buf (insts_at pc (coded p) ++ more) n (mkBUILD (requested L tab) l g (pid :: w))
      = build_insts buf more (n + code_len p) (mkBUILD (requested (L ++ names n p) tab') l g' (pid :: w)) /\
    named (L ++ names n p) tab' /\ full (n + code_len p) g' /\ grows n g g' /\ shape g' (L ++ names n p) n pid (length L) p.

(** An instruction without a block, and the code after it. *)
Lemma built_plain buf cd k n pid w L tab l g pc more : plain (Encode (set_wasm_pc pc (row_of (cd_op cd)))) = true ->
  Encode (set_wasm_pc pc (row_of (cd_op cd))) = cd_op cd ->
  full n g -> 0 <= pid < n -> n < 2 ^ 32 ->
  (forall g', full (n + 1) g' -> built buf k (n + 1) pid w L tab l g' (pc + length (coded_bytes cd)) more) ->
  exists tab' g',
    build_insts buf (insts_at pc (cd :: coded k) ++ more) n (mkBUILD (requested L tab) l g (pid :: w))
      = build_insts buf more (n + (1 + code_len k)) (mkBUILD (requested (L ++ names (n + 1) k) tab') l g' (pid :: w)) /\
    named (L ++ names (n + 1) k) tab' /\ full (n + (1 + code_len k)) g' /\ grows n g g' /\
    at_stmt g' n (instr_stmt n (cd_op cd) pid) /\ shape g' (L ++ names (n + 1) k) (n + 1) pid (length L) k.
Proof.
  intros Hpl He Hf Hp Hn Hk. destruct (build_plain_at buf _ n pid w (requested L tab) l g Hpl Hf Hp Hn) as (g1 & R & F1 & G1 & A1).
  rewrite He in A1. destruct (Hk g1 F1) as (tab' & g' & R2 & N2 & F2 & G2 & S2). exists tab', g'.
  replace (n + (1 + code_len k)) with (n + 1 + code_len k) by lia. cbn [insts_at app]. rewrite (build_insts_cons _ _ _ _ _ _ _ R).
  split; [exact R2|]. split; [exact N2|]. split; [exact F2|]. split; [|split; [|exact S2]].
  - transitivity g1; [exact G1|]. eapply grows_le; [exact G2 | lia].
  - eapply at_stmt_grows; [exact G2 | lia | exact A1].
Qed.
Lemma code_bytes_cons c cs : code_bytes (c :: cs) = coded_bytes c ++ code_bytes cs.
Proof. reflexivity. Qed.
Lemma code_bytes_app cs cs' : code_bytes (cs ++ cs') = code_bytes cs ++ code_bytes cs'.
Proof. unfold code_bytes. now rewrite map_app, concat_app. Qed.
Lemma drop_first buf pc c cs rest : code_bytes (c :: cs) ++ rest = drop pc buf -> code_bytes cs ++ rest = drop (pc + length (coded_bytes c)) buf.
Proof. rewrite code_bytes_cons, <- (assoc_L (++)). apply drop_next. Qed.
Lemma drop_code buf pc cs rest : code_bytes cs ++ rest = drop pc buf -> rest = drop (pc + length (code_bytes cs)) buf.
Proof. intros H. rewrite <- drop_drop, <- H. now rewrite drop_app_length. Qed.

(** What a piece of code does in every place of the function. *)
Definition builds (buf : list Z) (l : LABEL_TAB.t) (b : CODE) : Prop := forall pc rest n pid w L tab g more,
  code_bytes (coded b) ++ rest = drop pc buf -> full n g -> 0 <= pid < n -> n + code_len b < 2 ^ 32 ->
  named L tab -> NoDup (L ++ names n b) -> names_fit (L ++ names n b) -> built buf b n pid w L tab l g pc more.

(** The code of the open block [blk], its end, and the code after it. *)
Lemma built_closed buf b k n blk pid w L tab l g pc rest more :
  code_bytes (coded b ++ END :: coded k) ++ rest = drop pc buf -> full n g -> 0 <= blk < n -> 0 <= pid < n ->
  n + (1 + code_len b + code_len k) < 2 ^ 32 -> named L tab ->
  NoDup (L ++ names n b ++ names (n + 1 + code_len b) k) -> names_fit (L ++ names n b ++ names (n + 1 + code_len b) k) ->
  builds buf l b -> builds buf l k -> let L' := L ++ names n b ++ names (n + 1 + code_len b) k in
  exists tab' g',
    build_insts buf (insts_at pc (coded b ++ END :: coded k) ++ more) n (mkBUILD (requested L tab) l g (blk :: pid :: w))
      = build_insts buf more (n + (1 + code_len b + code_len k)) (mkBUILD (requested L' tab') l g' (pid :: w)) /\
    named L' tab' /\ full (n + (1 + code_len b + code_len k)) g' /\ grows n g g' /\
    shape g' L' n blk (length L) b /\
    at_stmt g' (n + code_len b) (instr_stmt (n + code_len b) End blk) /\
    shape g' L' (n + 1 + code_len b) pid (length L + labels b) k.
Proof.
  intros Hb Hf Hblk Hp Hn HL Hnd Hfit IHb IHk L'. pose proof (code_len_nonneg b). pose proof (code_len_nonneg k).
  set (L2 := L ++ names n b). assert (L' = L2 ++ names (n + 1 + code_len b) k) as EL by (unfold L', L2; now rewrite <- !(assoc_L (++))).
  fold L' in Hnd, Hfit. rewrite EL in *. pose proof (proj1 (proj1 (NoDup_app _ _) Hnd)) as Hnd2. pose proof (names_fit_app _ _ Hfit) as Hfit2.
  rewrite code_bytes_app, code_bytes_cons, <- !(assoc_L (++)) in Hb. set (p1 := (pc + length (code_bytes (coded b)))%nat).
  destruct (IHb pc _ n blk (pid :: w) L tab g (insts_at p1 (END :: coded k) ++ more) Hb Hf Hblk ltac:(lia) HL Hnd2 Hfit2) as (tab2 & g2 & R2 & N2 & F2 & G2 & S2).
  destruct (build_end_at buf p1 (n + code_len b) blk (pid :: w) (requested L2 tab2) l g2 F2 ltac:(lia) ltac:(lia)) as (g3 & R3 & F3 & G3 & A3).
  pose proof (drop_next buf _ _ _ (drop_code buf _ _ _ Hb)) as Hb3. fold p1 in Hb3.
  replace (n + code_len b + 1) with (n + 1 + code_len b) in * by lia.
  destruct (IHk _ _ (n + 1 + code_len b) pid w L2 tab2 g3 more Hb3 F3 ltac:(lia) ltac:(lia) N2 Hnd Hfit) as (tab4 & g4 & R4 & N4 & F4 & G4 & S4).
  replace (n + 1 + code_len b + code_len k) with (n + (1 + code_len b + code_len k)) in * by lia.
  assert (grows (n + code_len b) g2 g4) as G24 by (transitivity g3; [exact G3 | eapply grows_le; [exact G4 | lia]]).
  exists tab4, g4. split; [|split; [exact N4|split; [exact F4|split; [|split; [|split]]]]].
  - rewrite insts_at_app, <- (assoc_L (++)). fold p1. rewrite R2.
    change (insts_at p1 (END :: coded k) ++ more) with (set_wasm_pc p1 (row_of End) :: insts_at (p1 + length (coded_bytes END)) (coded k) ++ more).
    rewrite (build_insts_cons _ _ _ _ _ _ _ R3). exact R4.
  - transitivity g2; [exact G2|]. eapply grows_le; [exact G24 | lia].
  - eapply shape_grows; [exact G24 | apply prefix_app_r; reflexivity | lia | lia | exact S2].
  - eapply at_stmt_grows; [exact G4 | lia | exact A3].
  - assert (length L + labels b = length L2)%nat as -> by (unfold L2; rewrite !length_app, length_names; lia). exact S4.
Qed.

(** A block of one arm, and the code after it. *)
Lemma built_block buf o b k n pid w L tab l g pc rest more : o = Block \/ o = Loop \/ o = If ->
  code_bytes (mkCODED o [VOID] :: coded b ++ END :: coded k) ++ rest = drop pc buf ->
  full n g -> 0 <= pid < n -> n + (2 + code_len b + code_len k) < 2 ^ 32 -> named L tab ->
  NoDup (L ++ block_names n o ++ names (n + 1) b ++ names (n + 2 + code_len b) k) ->
  names_fit (L ++ block_names n o ++ names (n + 1) b ++ names (n + 2 + code_len b) k) ->
  builds buf l b -> builds buf l k -> let L' := L ++ block_names n o ++ names (n + 1) b ++ names (n + 2 + code_len b) k in
  exists tab' g',
    build_insts buf (insts_at pc (mkCODED o [VOID] :: coded b ++ END :: coded k) ++ more) n (mkBUILD (requested L tab) l g (pid :: w))
      = build_insts buf more (n + (2 + code_len b + code_len k)) (mkBUILD (requested L' tab') l g' (pid :: w)) /\
    named L' tab' /\ full (n + (2 + code_len b + code_len k)) g' /\ grows n g g' /\
    at_stmt g' n (opened n o pid (length L) 0) /\
    shape g' L' (n + 1) n (length L + length (block_names n o)) b /\
    at_stmt g' (n + 1 + code_len b) (instr_stmt (n + 1 + code_len b) End n) /\
    shape g' L' (n + 2 + code_len b) pid (length L + length (block_names n o) + labels b) k.
Proof.
  intros Ho Hb Hf Hp Hn HL Hnd Hfit IHb IHk L'. pose proof (code_len_nonneg b). pose proof (code_len_nonneg k).
  set (L1 := L ++ block_names n o). fold L' in Hnd, Hfit.
  assert (L' = L1 ++ names (n + 1) b ++ names (n + 1 + 1 + code_len b) k) as EL by (unfold L', L1; rewrite <- !(assoc_L (++)); do 4 f_equal; lia).
  rewrite EL in *. pose proof (proj1 (proj1 (NoDup_app _ _) Hnd)) as Hnd1. pose proof (names_fit_app _ _ Hfit) as Hfit1.
  rewrite code_bytes_cons, <- (assoc_L (++)) in Hb.
  destruct (build_open_at buf pc o _ n pid w L tab l g Ho Hb Hf Hp ltac:(lia) HL) as (tab1 & g1 & R1 & N1 & F1 & G1 & A1).
  { apply NoDup_app in Hnd1. tauto. }
  { intros nm H1 H2. unfold L1 in Hnd1. apply NoDup_app in Hnd1 as (_ & Hd & _). exact (Hd nm H2 H1). }
  { exact Hfit1. }
  destruct (built_closed buf b k (n + 1) n pid w L1 tab1 l g1 _ rest more (drop_next buf _ _ _ Hb) F1 ltac:(lia) ltac:(lia) ltac:(lia) N1 Hnd Hfit IHb IHk)
    as (tab2 & g2 & R2 & N2 & F2 & G2 & S2 & A2 & S3).
  replace (n + 1 + (1 + code_len b + code_len k)) with (n + (2 + code_len b + code_len k)) in * by lia.
  replace (n + 2 + code_len b) with (n + 1 + 1 + code_len b) by lia. rewrite <- length_app. fold L1.
  exists tab2, g2. split; [|split; [exact N2|split; [exact F2|split; [|split; [|split; [exact S2|split; [exact A2 | exact S3]]]]]]].
  - change (insts_at pc (mkCODED o [VOID] :: coded b ++ END :: coded k))
      with (set_wasm_pc pc (row_of o) :: insts_at (pc + length (coded_bytes (mkCODED o [VOID]))) (coded b ++ END :: coded k)).
    cbn [app]. rewrite (build_insts_cons _ _ _ _ _ _ _ R1). exact R2.
  - transitivity g1; [exact G1|]. eapply grows_le; [exact G2 | lia].
  - eapply at_stmt_grows; [exact G2 | lia | exact A1].
Qed.

(** A conditional of two arms, and the code after it. *)
Lemma built_arms buf b1 b2 k n pid w L tab l g pc rest more : let e := n + 1 + code_len b1 in
  let L' := L ++ block_names n If ++ names (n + 1) b1 ++ block_names e Else ++ names (e + 1) b2 ++ names (e + 2 + code_len b2) k in
  let other := (S (length L) + labels b1)%nat in
  code_bytes (mkCODED If [VOID] :: coded b1 ++ ELSE :: coded b2 ++ END :: coded k) ++ rest = drop pc buf ->
  full n g -> 0 <= pid < n -> n + (3 + code_len b1 + code_len b2 + code_len k) < 2 ^ 32 -> named L tab -> NoDup L' -> names_fit L' ->
  builds buf l b1 -> builds buf l b2 -> builds buf l k ->
  exists tab' g',
    build_insts buf (insts_at pc (mkCODED If [VOID] :: coded b1 ++ ELSE :: coded b2 ++ END :: coded k) ++ more) n (mkBUILD (requested L tab) l g (pid :: w))
      = build_insts buf more (n + (3 + code_len b1 + code_len b2 + code_len k)) (mkBUILD (requested L' tab') l g' (pid :: w)) /\
    named L' tab' /\ full (n + (3 + code_len b1 + code_len b2 + code_len k)) g' /\ grows n g g' /\
    at_stmt g' n (block_stmt n If pid UNSET (Z.of_nat (length L)) e) /\
    shape g' L' (n + 1) n (S (length L)) b1 /\
    at_stmt g' e (block_stmt e Else pid (Z.of_nat other) (Z.of_nat (S other)) n) /\
    shape g' L' (e + 1) e (S (S other)) b2 /\
    at_stmt g' (e + 1 + code_len b2) (instr_stmt (e + 1 + code_len b2) End e) /\
    shape g' L' (e + 2 + code_len b2) pid (S (S other) + labels b2) k.
Proof.
  intros e L' other Hb Hf Hp Hn HL Hnd Hfit IH1 IH2 IHk. pose proof (code_len_nonneg b1). pose proof (code_len_nonneg b2). pose proof (code_len_nonneg k).
  set (L1 := L ++ block_names n If). set (L2 := L1 ++ names (n + 1) b1). set (L3 := L2 ++ block_names e Else).
  assert (L' = L3 ++ names (e + 1) b2 ++ names (e + 1 + 1 + code_len b2) k) as EL
    by (unfold L', L3, L2, L1; rewrite <- !(assoc_L (++)); do 6 f_equal; lia).
  rewrite EL in *. clear EL L'.
  pose proof (proj1 (proj1 (NoDup_app _ _) Hnd)) as Hnd3. pose proof (proj1 (proj1 (NoDup_app _ _) Hnd3)) as Hnd2. pose proof (proj1 (proj1 (NoDup_app _ _) Hnd2)) as Hnd1.
  pose proof (names_fit_app _ _ Hfit) as Hfit3. pose proof (names_fit_app _ _ Hfit3) as Hfit2. pose proof (names_fit_app _ _ Hfit2) as Hfit1.
  assert (length L1 = S (length L)) as E1 by (unfold L1; rewrite length_app; change (length (block_names n If)) with 1%nat; lia).
  assert (length L2 = other) as E2 by (unfold L2, other; rewrite length_app, length_names, E1; lia).
  assert (length L3 = S (S other)) as E3 by (unfold L3; rewrite length_app, E2; change (length (block_names e Else)) with 2%nat; lia).
  rewrite code_bytes_cons, code_bytes_app, code_bytes_cons, <- !(assoc_L (++)) in Hb.
  set (p1 := (pc + length (coded_bytes (mkCODED If [VOID])))%nat). set (p2 := (p1 + length (code_bytes (coded b1)))%nat).
  set (p3 := (p2 + length (coded_bytes ELSE))%nat).
  destruct (build_open_at buf pc If _ n pid w L tab l g ltac:(auto) Hb Hf Hp ltac:(lia) HL) as (tab1 & g1 & R1 & N1 & F1 & G1 & A1).
  { apply NoDup_app in Hnd1. tauto. }
  { intros nm H2 H3. unfold L1 in Hnd1. apply NoDup_app in Hnd1 as (_ & Hd & _). exact (Hd nm H3 H2). }
  { exact Hfit1. }
  fold L1 in R1, N1. pose proof (drop_next buf _ _ _ Hb) as Hb1. fold p1 in Hb1.
  destruct (IH1 p1 _ (n + 1) n (pid :: w) L1 tab1 g1 (insts_at p2 (ELSE :: coded b2 ++ END :: coded k) ++ more) Hb1 F1 ltac:(lia) ltac:(lia) N1 Hnd2 Hfit2)
    as (tab2 & g2 & R2 & N2 & F2 & G2 & S2). fold e in R2, F2. fold L2 in R2, N2, S2.
  assert (at_stmt g2 n (block_stmt n If pid UNSET (Z.of_nat (length L)) 0)) as A2 by (eapply at_stmt_grows; [exact G2 | lia | exact A1]).
  destruct (build_else_at buf p2 n e pid (Z.of_nat (length L)) w L2 tab2 l g2 A2 F2 Hp ltac:(lia) ltac:(lia) N2) as (tab3 & g3 & R3 & N3 & F3 & G3 & A3 & B3 & K3).
  { apply NoDup_app in Hnd3. tauto. }
  { intros nm H2 H3. unfold L3 in Hnd3. apply NoDup_app in Hnd3 as (_ & Hd & _). exact (Hd nm H3 H2). }
  { exact Hfit3. }
  fold L3 in R3, N3. rewrite E2 in B3. pose proof (drop_next buf _ _ _ (drop_code buf _ _ _ Hb1)) as Hb3. fold p2 in Hb3. fold p3 in Hb3.
  destruct (built_closed buf b2 k (e + 1) e pid w L3 tab3 l g3 p3 rest more Hb3 F3 ltac:(lia) ltac:(lia) ltac:(lia) N3 Hnd Hfit IH2 IHk)
    as (tab4 & g4 & R4 & N4 & F4 & G4 & S4 & A4 & K4). rewrite E3 in S4, K4.
  replace (e + 1 + (1 + code_len b2 + code_len k)) with (n + (3 + code_len b1 + code_len b2 + code_len k)) in * by (unfold e; lia).
  replace (e + 2 + code_len b2) with (e + 1 + 1 + code_len b2) by lia.
  exists tab4, g4. split; [|split; [exact N4|split; [exact F4|split; [|split; [|split; [|split; [|split; [exact S4|split; [exact A4 | exact K4]]]]]]]]].
  - change (insts_at pc (mkCODED If [VOID] :: coded b1 ++ ELSE :: coded b2 ++ END :: coded k))
      with (set_wasm_pc pc (row_of If) :: insts_at p1 (coded b1 ++ ELSE :: coded b2 ++ END :: coded k)).
    rewrite insts_at_app. cbn [app]. rewrite (build_insts_cons _ _ _ _ _ _ _ R1), <- (assoc_L (++)). fold p2. rewrite R2.
    change (insts_at p2 (ELSE :: coded b2 ++ END :: coded k) ++ more) with (set_wasm_pc p2 (row_of Else) :: insts_at p3 (coded b2 ++ END :: coded k) ++ more).
    rewrite (build_insts_cons _ _ _ _ _ _ _ R3). exact R4.
  - transitivity g1; [exact G1|]. transitivity g2; [eapply grows_le; [exact G2 | lia]|]. transitivity g3; [exact G3|]. eapply grows_le; [exact G4 | lia].
  - eapply at_stmt_grows; [exact G4 | lia | exact A3].
  - rewrite <- E1. eapply shape_mono; [| |exact S2].
    { unfold L3. rewrite <- !(assoc_L (++)). apply prefix_app_r. reflexivity. }
    intros j c Hj Hc. eapply at_stmt_grows; [exact G4 | lia|]. apply K3; [lia | exact Hc].
  - eapply at_stmt_grows; [exact G4 | lia | exact B3].
Qed.

Lemma build_code_run buf l p : simple_code p -> builds buf l p.
Proof.
  induction p as [|cd k IH|b IHb k IHk|b IHb k IHk|b IHb k IHk|b1 IH1 b2 IH2 k IHk|Lv v' k IH|Lv v' k IH|k IH];
    unfold builds in *; intros Hs pc rest n pid w L tab g more Hb Hf Hp Hn HL Hnd Hfit; unfold built; cbn [coded names code_len shape simple_code] in *.
  - exists tab, g. rewrite app_nil_r, Z.add_0_r. split; [reflexivity|]. split; [exact HL|]. split; [exact Hf|]. split; [reflexivity | exact I].
  - destruct Hs as [[i Hi] Hs]. pose proof (code_len_nonneg k). apply built_plain; try assumption; [eapply source_op_plain; eauto | eapply source_encode; eauto | lia|].
    intros g' F'. eapply IH; try eassumption; [eapply drop_first, Hb | lia | lia].
  - destruct Hs as [Hs1 Hs2]. destruct (built_block buf Block b k n pid w L tab l g pc rest more ltac:(auto) Hb Hf Hp Hn HL Hnd Hfit (IHb Hs1) (IHk Hs2))
      as (tab' & g' & R & N' & F' & G' & A1 & S1 & A2 & S2).
    exists tab', g'. split; [exact R|]. split; [exact N'|]. split; [exact F'|]. split; [exact G'|].
    change (length (block_names n Block)) with 1%nat in *. replace (length L + 1)%nat with (S (length L)) in * by lia.
    split; [exact A1|]. split; [now rewrite list_lookup_middle by reflexivity|]. split; [exact S1|]. split; [exact A2 | exact S2].
  - destruct Hs as [Hs1 Hs2]. destruct (built_block buf Loop b k n pid w L tab l g pc rest more ltac:(auto) Hb Hf Hp Hn HL Hnd Hfit (IHb Hs1) (IHk Hs2))
      as (tab' & g' & R & N' & F' & G' & A1 & S1 & A2 & S2).
    exists tab', g'. split; [exact R|]. split; [exact N'|]. split; [exact F'|]. split; [exact G'|].
    change (length (block_names n Loop)) with 2%nat in *. replace (length L + 2)%nat with (S (S (length L))) in * by lia.
    split; [exact A1|]. split; [now rewrite list_lookup_middle by reflexivity|].
    split; [rewrite lookup_app_r by lia; now replace (S (length L) - length L)%nat with 1%nat by lia|]. split; [exact S1|]. split; [exact A2 | exact S2].
  - destruct Hs as [Hs1 Hs2]. destruct (built_block buf If b k n pid w L tab l g pc rest more ltac:(auto) Hb Hf Hp Hn HL Hnd Hfit (IHb Hs1) (IHk Hs2))
      as (tab' & g' & R & N' & F' & G' & A1 & S1 & A2 & S2).
    exists tab', g'. split; [exact R|]. split; [exact N'|]. split; [exact F'|]. split; [exact G'|].
    change (length (block_names n If)) with 1%nat in *. replace (length L + 1)%nat with (S (length L)) in * by lia.
    split; [exact A1|]. split; [now rewrite list_lookup_middle by reflexivity|]. split; [exact S1|]. split; [exact A2 | exact S2].
  - destruct Hs as (Hs1 & Hs2 & Hs3). set (e := n + 1 + code_len b1) in *.
    destruct (built_arms buf b1 b2 k n pid w L tab l g pc rest more Hb Hf Hp Hn HL Hnd Hfit (IH1 Hs1) (IH2 Hs2) (IHk Hs3))
      as (tab' & g' & R & N' & F' & G' & A1 & S1 & A2 & S2 & A3 & S3).
    fold e in R, N', A1, S1, A2, S2, A3, S3.
    exists tab', g'. split; [exact R|]. split; [exact N'|]. split; [exact F'|]. split; [exact G'|].
    split; [exact A1|]. split; [now rewrite list_lookup_middle by reflexivity|]. split; [exact S1|]. split; [exact A2|].
    assert (forall i, (L ++ label_name false n :: names (n + 1) b1 ++ label_name true e :: label_name false e :: names (e + 1) b2 ++ names (e + 2 + code_len b2) k)
      !! (S (length L) + labels b1 + i)%nat = (label_name true e :: label_name false e :: names (e + 1) b2 ++ names (e + 2 + code_len b2) k) !! i) as Hi.
    { intros i. rewrite lookup_app_r by lia. replace (S (length L) + labels b1 + i - length L)%nat with (S (labels b1 + i)) by lia. 
      change ((label_name false n :: ?t) !! S ?j) with (t !! j). rewrite lookup_app_r by (rewrite length_names; lia). rewrite length_names. now replace (labels b1 + i - labels b1)%nat with i by lia. }
    split; [specialize (Hi 0%nat); now rewrite Nat.add_0_r in Hi|]. split; [specialize (Hi 1%nat); now rewrite Nat.add_1_r in Hi|].
    split; [exact S2|]. split; [exact A3 | exact S3].
  - pose proof (code_len_nonneg k). apply (built_plain buf (mkCODED Br [LEB Lv v']) k n pid w L tab l g pc more); try assumption; try reflexivity; [lia|].
    intros g' F'. eapply IH; try eassumption; [eapply drop_first, Hb | lia | lia].
  - pose proof (code_len_nonneg k). apply (built_plain buf (mkCODED BrIf [LEB Lv v']) k n pid w L tab l g pc more); try assumption; try reflexivity; [lia|].
    intros g' F'. eapply IH; try eassumption; [eapply drop_first, Hb | lia | lia].
  - pose proof (code_len_nonneg k). apply (built_plain buf (mkCODED Return []) k n pid w L tab l g pc more); try assumption; try reflexivity; [lia|].
    intros g' F'. eapply IH; try eassumption; [eapply drop_first, Hb | lia | lia].
Qed.
End Graphs.

(** ** A function *)
Section Function.
Context {bd : Build} {vg : VectorGrowth} {cb : ConvBuild}.

Lemma enc_with_same e v b : U_ENCODER._u_inst_encoder e = v ++ [b] -> enc_with e v b = e.
Proof. unfold enc_with. intros <-. now destruct e. Qed.

Lemma build_code_graph buf p c v b0 : simple_code p -> code_bytes (coded p ++ [END]) = buf -> cv_graph c = graph0 ->
  U_ENCODER._u_inst_encoder (cv_enc c) = v ++ [b0] -> U_CODE_BODY._inst_tab b0 = [] -> U_CODE_BODY._lab_tab b0 = [] ->
  U_CODE_BODY._lab_name_tab b0 = str_tab0 -> code_len p + 2 < 2 ^ 32 -> names_fit (names 1 p) -> exists tab g,
  build_graph buf (insts_at 0 (coded p ++ [END])) c
    = Ok (tt, set_graph g (set_enc (requested (U_CODE_BODY._ubh_code b0) (cv_enc c) v (names 1 p) tab) c)) /\
  named (names 1 p) tab /\ shape g (names 1 p) 1 0 0 p /\
  at_stmt g (1 + code_len p) (instr_stmt (1 + code_len p) End 0) /\ exists s, Stmt_id 0 g = Ok s /\ core s = root_stmt.
Proof.
  intros Hs Hb Hg Hv H1 H2 H3 Hlen Hfit. pose proof (code_len_nonneg p). set (ubh := U_CODE_BODY._ubh_code b0).
  set (labels0 := LABEL_TAB.mk [0] [bytes_of ".anonymous"%string]). set (root := Set_id 0 (WINST_STMT_new WINST_STMT_ROOT_BLOCK 1 0 Unreachable)).
  assert (cv_enc c = requested ubh (cv_enc c) v [] str_tab0) as Ee.
  { unfold requested. destruct b0; cbn in H1, H2, H3 |- *. subst. symmetry. now apply enc_with_same. }
  assert (full 1 (mkGRAPH [root] ∅)) as F0 by (split; [reflexivity | intros k _; apply lookup_empty]).
  rewrite code_bytes_app in Hb.
  destruct (build_code_run ubh (cv_enc c) v buf labels0 p Hs 0%nat (code_bytes [END]) 1 0 [] [] str_tab0 (mkGRAPH [root] ∅)
    (insts_at (0 + length (code_bytes (coded p))) [END]) Hb F0 ltac:(lia) ltac:(lia) named_empty) as (tab & g1 & R & N1 & F1 & G1 & S1).
  { apply names_NoDup; lia. }
  { exact Hfit. }
  cbn [app] in R, N1, S1.
  destruct (build_end_at buf (0 + length (code_bytes (coded p))) (1 + code_len p) 0 [] (requested ubh (cv_enc c) v (names 1 p) tab) labels0 g1 F1 ltac:(lia) ltac:(lia))
    as (g2 & R2 & F2 & G2 & A2).
  exists tab, g2. split; [|split; [exact N1|split; [|split; [exact A2|]]]].
  - unfold build_graph, Build_block_hierarchy. rewrite Hg.
    assert (on_labels_b (LABEL_TAB.Add 0) (mkBUILD (cv_enc c) LABEL_TAB.empty graph0 [])
      = Ok (0, mkBUILD (cv_enc c) labels0 graph0 [])) as H0
      by (unfold on_labels_b, LABEL_TAB.Add, LABEL_TAB.Add_named; change (negb (0 =? LABEL_NOT_NEEDED)) with true; now rewrite Is_True_true).
    rewrite (bind_run _ _ _ _ _ H0).
    assert (Create_new_block Unreachable (VALTY_COUNT + 1) BLOCK_INSTR_BEGIN (mkBUILD (cv_enc c) labels0 graph0 [])
      = Ok (0, mkBUILD (cv_enc c) labels0 (mkGRAPH [root] ∅) [0])) as Hc by reflexivity.
    rewrite (bind_run _ _ _ _ _ Hc). change BLOCK_INSTR_BEGIN with 1. rewrite insts_at_app. rewrite Ee at 1. rewrite R.
    change (insts_at ?p [END]) with [set_wasm_pc p (row_of End)]. rewrite (build_insts_cons _ _ _ _ _ _ _ R2). reflexivity.
  - eapply shape_grows; [exact G2 | reflexivity | lia | lia | exact S1].
  - assert (core <$> _stmts g2 !! 0%nat = Some root_stmt) as E0.
    { rewrite (gr_core _ _ _ G2 0) by lia. now rewrite (gr_core _ _ _ G1 0) by lia. }
    apply fmap_Some in E0 as (s & E & E0). exists s. split; [exact (Stmt_id_run g2 0 s E) | now symmetry].
Qed.
End Function.
