(* ===== verification/Jumping.v ===== *)
(** * Structured code: what the converter emits

  [conv_insts] on the code of [Structured.v] adds [items]: the instructions of the
  straight-line parts, the jumps, and the labels of the blocks where they belong. *)

From S2P Require Import Prelude CInt BitField Wasm Isa Inst Expand Ubh UModule StrTab TypeEncoder Encoder Loading Code Labels Leb128 Winst Splitting LocalTable Graph Converter Convert Alloc Straight Creation Building Translation Structured Blocks.
From Stdlib Require Import ZArith Lia.
Local Open Scope Z_scope.
Import WINST.

(** ** Adding instructions and labels to the current function *)
Definition place1 (it : ITEM) (b : U_CODE_BODY.t) : U_CODE_BODY.t :=
  match it with
  | I_inst x => body_app (inst_words x) b
  | I_label i => U_CODE_BODY.mk (U_CODE_BODY._ubh_code b) (U_CODE_BODY._inst_tab b)
      (<[i := INT32 (Z.of_nat (length (U_CODE_BODY._inst_tab b)))]> (U_CODE_BODY._lab_tab b)) (U_CODE_BODY._lab_name_tab b)
  end.
Fixpoint place (its : list ITEM) (b : U_CODE_BODY.t) : U_CODE_BODY.t :=
  match its with [] => b | it :: its => place its (place1 it b) end.
Fixpoint upd_last {A} (f : A -> A) (l : list A) : list A :=
  match l with [] => [] | [b] => [f b] | b :: l => b :: upd_last f l end.
Definition app_items (its : list ITEM) (e : U_ENCODER.t) : U_ENCODER.t :=
  U_ENCODER.set_codes (U_ENCODER._cur_func_idx e) (upd_last (place its) (U_ENCODER._u_inst_encoder e)) e.

Lemma place_app a b c : place (a ++ b) c = place b (place a c).
Proof. revert c. induction a as [|x a IH]; intros c; [reflexivity|]. cbn [app place]. apply IH. Qed.
Lemma place_insts is_ b : place (map I_inst is_) b = body_app (code_of is_) b.
Proof.
  revert b. induction is_ as [|i is_ IH]; intros b; cbn [map place place1]; [now rewrite body_app_nil|].
  now rewrite IH, <- body_app_app.
Qed.
Lemma upd_last_snoc {A} (f : A -> A) v b : upd_last f (v ++ [b]) = v ++ [f b].
Proof. induction v as [|a v IH]; [reflexivity|]. cbn. rewrite IH. now destruct v. Qed.
Lemma length_upd_last {A} (f : A -> A) l : length (upd_last f l) = length l.
Proof. induction l as [|a l IH]; [reflexivity|]. cbn. destruct l; [reflexivity|]. cbn [length] in *. now rewrite IH. Qed.
Lemma upd_last_ext {A} (f g : A -> A) l : (forall a, f a = g a) -> upd_last f l = upd_last g l.
Proof. intros H. destruct (decide (l = [])) as [->|Hl]; [reflexivity|]. destruct (exists_last Hl) as (v & b & ->). now rewrite !upd_last_snoc, H. Qed.
Lemma upd_last_id {A} (l : list A) : upd_last (fun a => a) l = l.
Proof. destruct (decide (l = [])) as [->|Hl]; [reflexivity|]. destruct (exists_last Hl) as (v & b & ->). now rewrite upd_last_snoc. Qed.
Lemma upd_last_comp {A} (f g : A -> A) l : upd_last g (upd_last f l) = upd_last (fun a => g (f a)) l.
Proof. destruct (decide (l = [])) as [->|Hl]; [reflexivity|]. destruct (exists_last Hl) as (v & b & ->). now rewrite !upd_last_snoc. Qed.

Lemma app_items_app a b e : app_items (a ++ b) e = app_items b (app_items a e).
Proof.
  unfold app_items. cbn [U_ENCODER.set_codes U_ENCODER._cur_func_idx U_ENCODER._u_inst_encoder]. rewrite upd_last_comp.
  erewrite upd_last_ext; [reflexivity|]. intros c. apply place_app.
Qed.
Lemma app_items_nil e : app_items [] e = e.
Proof. unfold app_items. cbn [place]. rewrite upd_last_id. now destruct e. Qed.
Lemma app_items_insts is_ e : app_items (map I_inst is_) e = app_code (code_of is_) e.
Proof.
  unfold app_items, app_code. f_equal. rewrite (upd_last_ext _ (body_app (code_of is_))) by apply place_insts.
  destruct (decide (U_ENCODER._u_inst_encoder e = [])) as [->|Hl]; [reflexivity|]. destruct (exists_last Hl) as (v & b & ->).
  now rewrite upd_last_snoc, app_last_snoc.
Qed.
Lemma app_items_last its e v b : U_ENCODER._u_inst_encoder e = v ++ [b] -> app_items its e = enc_with e v (place its b).
Proof. intros H. unfold app_items, enc_with. now rewrite H, upd_last_snoc. Qed.

(** ** What stays *)
Record graph_kept (lo hi : Z) (g g' : WINST_STMT_GRAPH) : Prop := {
  gk_ins : _ins_to_stmt g' = _ins_to_stmt g;
  gk_core : forall i, core <$> _stmts g' !! i = core <$> _stmts g !! i;
  gk_out : forall i, ~ (lo <= Z.of_nat i < hi) -> _stmts g' !! i = _stmts g !! i;
}.
Lemma graph_kept_refl lo hi g : graph_kept lo hi g g.
Proof. now split. Qed.
Lemma graph_kept_app lo mid hi g1 g2 g3 : lo <= mid <= hi -> graph_kept lo mid g1 g2 -> graph_kept mid hi g2 g3 -> graph_kept lo hi g1 g3.
Proof. intros Hm [A1 A2 A3] [B1 B2 B3]. split; [congruence | intros; now rewrite B2, A2 | intros i Hi; rewrite B3, A3 by lia; reflexivity]. Qed.
Lemma graph_kept_le lo hi lo' hi' g g' : lo' <= lo -> hi <= hi' -> graph_kept lo hi g g' -> graph_kept lo' hi' g g'.
Proof. intros H1 H2 [A1 A2 A3]. split; auto. intros i Hi. apply A3. lia. Qed.
Lemma at_stmt_kept lo hi g g' n c : graph_kept lo hi g g' -> at_stmt g n c -> at_stmt g' n c.
Proof. intros [A1 A2 _] [H1 H2]. split; [now rewrite A1 | now rewrite A2]. Qed.
Lemma shape_kept lo hi g g' L n pid lab p : graph_kept lo hi g g' -> shape g L n pid lab p -> shape g' L n pid lab p.
Proof. intros Hk. apply shape_mono; [reflexivity|]. intros k c _. eapply at_stmt_kept, Hk. Qed.

Section Jumping.
Context {bd : Build} {vg : VectorGrowth} {cb : ConvBuild}.
Variable locs : list VALTYPE.

(** From [c] to [c'] the items were added; of the statements [lo .. hi - 1] the recorded
  sizes of the stack changed; the tables of locals grew. *)
Record became (lo hi : Z) (its : list ITEM) (c c' : CONV) : Prop := {
  bc_enc : cv_enc c' = app_items its (cv_enc c);
  bc_ctx : cv_ctx c' = cv_ctx c;
  bc_graph : graph_kept lo hi (cv_graph c) (cv_graph c');
  bc_map : cv_local_map c' = cv_local_map c;
  bc_calls : cv_calls c' = cv_calls c;
  bc_icall : cv_icall c' = cv_icall c;
  bc_tabs : forall t l, pt_get t (cv_local_tab c) = Ok l -> exists l', pt_get t (cv_local_tab c') = Ok l' /\
    (length (_content l) <= length (_content l'))%nat /\ _max_call_param l' = _max_call_param l;
}.
Lemma converted_became lo hi is_ c c' : converted is_ c c' -> became lo hi (map I_inst is_) c c'.
Proof. intros []. split; auto; [now rewrite app_items_insts|]. rewrite ct_graph. apply graph_kept_refl. Qed.
Lemma stable_became lo hi c c' : stable c c' -> became lo hi [] c c'.
Proof. intros H. exact (converted_became lo hi [] c c' (converted_stable c c' H)). Qed.
Lemma became_refl lo hi c : became lo hi [] c c.
Proof. apply stable_became. reflexivity. Qed.
Lemma became_app lo mid hi i1 i2 c1 c2 c3 : lo <= mid <= hi -> became lo mid i1 c1 c2 -> became mid hi i2 c2 c3 -> became lo hi (i1 ++ i2) c1 c3.
Proof.
  intros Hm [] []. split; try congruence.
  - rewrite app_items_app. congruence.
  - eapply graph_kept_app; eauto.
  - intros t l H. destruct (bc_tabs0 t l H) as (l2 & H2 & ? & E2). destruct (bc_tabs1 t l2 H2) as (l3 & H3 & ? & E3).
    exists l3. split; [exact H3|]. split; [lia | congruence].
Qed.
Lemma became_le lo hi lo' hi' its c c' : lo' <= lo -> hi <= hi' -> became lo hi its c c' -> became lo' hi' its c c'.
Proof. intros H1 H2 []. split; auto. eapply graph_kept_le; eauto. Qed.
Lemma became_join lo hi i1 i2 c1 c2 c3 : lo <= hi -> became lo hi i1 c1 c2 -> became lo hi i2 c2 c3 -> became lo hi (i1 ++ i2) c1 c3.
Proof.
  intros Hle [] []. split; try congruence.
  - rewrite app_items_app. congruence.
  - destruct bc_graph0 as [A1 A2 A3], bc_graph1 as [B1 B2 B3].
    split; [congruence | intros; now rewrite B2, A2 | intros i Hi; rewrite B3, A3 by lia; reflexivity].
  - intros t l H. destruct (bc_tabs0 t l H) as (l2 & H2 & ? & E2). destruct (bc_tabs1 t l2 H2) as (l3 & H3 & ? & E3).
    exists l3. split; [exact H3|]. split; [lia | congruence].
Qed.
Lemma became_pc_map lo hi its m c c' : became lo hi its (set_pc_map m c) c' -> became lo hi its c c'.
Proof. intros []. split; auto. Qed.
Lemma became_items lo hi its c : became lo hi its c (set_enc (app_items its (cv_enc c)) c).
Proof. split; eauto. apply graph_kept_refl. Qed.

(** The tables of locals have entries for the registers that are used. *)
Definition covers (x : VALTYPE -> Z) (c : CONV) : Prop :=
  forall t l, pt_get t (cv_local_tab c) = Ok l -> x t <= RET_REG_NUM + Z.of_nat (length (_content l)).
Lemma covers_inv ss c : inv locs ss c -> covers (fun t => base locs t + temps t ss) c.
Proof. intros H t l Hl. exact (ti_covers _ _ _ _ (iv_tabs _ _ _ H t l Hl)). Qed.
Lemma covers_became x lo hi its c c' : became lo hi its c c' -> covers x c -> covers x c'.
Proof.
  intros Hb Hc t l' Hl'. destruct (pt_get t (cv_local_tab c)) as [l|] eqn:E; [|destruct t; discriminate].
  destruct (bc_tabs _ _ _ _ _ Hb t l E) as (l2 & H2 & Hle & _). rewrite Hl' in H2. injection H2 as <-. specialize (Hc t l E). lia.
Qed.
Lemma covers_max x y c : covers x c -> covers y c -> covers (fun t => Z.max (x t) (y t)) c.
Proof. intros H1 H2 t l Hl. specialize (H1 t l Hl). specialize (H2 t l Hl). lia. Qed.
Lemma covers_weaken x y c : (forall t, y t <= x t) -> covers x c -> covers y c.
Proof. intros H Hx t l Hl. specialize (Hx t l Hl). specialize (H t). lia. Qed.

(** ** The current function *)
Variable func_id : Z.
Variable L : list (list Z).
Hypothesis L_differ : NoDup L.

Record ready (e : U_ENCODER.t) : Prop := {
  rd_current : current_body func_id e;
  rd_labels : exists v b, U_ENCODER._u_inst_encoder e = v ++ [b] /\ named L (U_CODE_BODY._lab_name_tab b) /\
    length (U_CODE_BODY._lab_tab b) = length L;
}.
Lemma current_body_items its e : current_body func_id e -> current_body func_id (app_items its e).
Proof.
  intros [H1 H2]. unfold current_body, U_ENCODER.Get_inst_encoder in *.
  change (U_ENCODER._func_tab (app_items its e)) with (U_ENCODER._func_tab e).
  change (U_ENCODER._u_inst_encoder (app_items its e)) with (upd_last (place its) (U_ENCODER._u_inst_encoder e)).
  rewrite length_upd_last. split.
  - intros E. apply (f_equal length) in E. rewrite length_upd_last in E. now destruct (U_ENCODER._u_inst_encoder e).
  - destruct (Is_True (_ <=? _)); [|discriminate]. cbn [mbind outcome_bind] in *.
    destruct (Is_True (_ <? _)); [|discriminate]. cbn [mbind outcome_bind] in *.
    rewrite vec_at_is_ok in *. now rewrite length_upd_last.
Qed.
Lemma place_tab its b : U_CODE_BODY._lab_name_tab (place its b) = U_CODE_BODY._lab_name_tab b /\
  length (U_CODE_BODY._lab_tab (place its b)) = length (U_CODE_BODY._lab_tab b).
Proof.
  revert b. induction its as [|it its IH]; intros b; [now split|]. cbn [place]. destruct (IH (place1 it b)) as [E1 E2].
  rewrite E1, E2. destruct it; cbn; [easy|]. now rewrite length_insert.
Qed.
Lemma ready_items its e : ready e -> ready (app_items its e).
Proof.
  intros [H1 (v & b & Hv & Hn & Hl)]. split; [now apply current_body_items|]. exists v, (place its b).
  rewrite (app_items_last its e v b Hv). destruct (place_tab its b) as [E1 E2]. rewrite E1, E2. auto.
Qed.
Lemma ready_became lo hi its c c' : became lo hi its c c' -> ready (cv_enc c) -> ready (cv_enc c').
Proof. intros H Hr. rewrite (bc_enc _ _ _ _ _ H). now apply ready_items. Qed.

Lemma inv_items ss its c : inv locs ss c -> inv locs ss (set_enc (app_items its (cv_enc c)) c).
Proof. apply inv_enc. Qed.

(** A label that was requested is put where the code is now. *)
Lemma add_label_run x n i c : ready (cv_enc c) -> L !! i = Some (label_name x n) ->
  on_enc (Add_label x n true) c = Ok (Z.of_nat i, set_enc (app_items [I_label i] (cv_enc c)) c).
Proof.
  intros [_ (v & b & Hv & Hn & Hl)] Hi. rewrite (app_items_last _ _ v b Hv).
  pose proof (lookup_lt_Some _ _ _ Hi) as Hlt.
  assert ((label_idx ← U_CODE_BODY.Request_label (label_name x n); _ ← U_CODE_BODY.Set_label label_idx; mret label_idx) b
    = Ok (Z.of_nat i, place [I_label i] b)) as Hr.
  { rewrite (bind_run _ _ _ _ _ (Request_known _ L b i Hn L_differ Hi)).
    assert (U_CODE_BODY.Set_label (Z.of_nat i) b = Ok (tt, place [I_label i] b)) as Hs.
    { unfold U_CODE_BODY.Set_label. rewrite (proj2 (Z.ltb_lt _ _)), Is_True_true by lia. cbn [mbind outcome_bind]. unfold vec_at.
      rewrite Nat2Z.id. destruct (lookup_lt_is_Some_2 (U_CODE_BODY._lab_tab b) i ltac:(lia)) as [o ->]. reflexivity. }
    rewrite (bind_run _ _ _ _ _ Hs). reflexivity. }
  unfold on_enc, Add_label, U_ENCODER.Add_label. rewrite <- (enc_with_same _ v b Hv) at 1. now rewrite (on_Cur_code_body_run _ _ _ _ _ v Hr).
Qed.
End Jumping.
