(* ===== verification/Branching.v ===== *)
(** * Structured code: the cases of the converter's switch

  What [block], [loop], [if], [else], [end], the branches and [return] do to the state of
  a conversion. *)

From S2P Require Import Prelude CInt BitField Wasm Isa Inst Expand Ubh UModule StrTab TypeEncoder Encoder Loading Code Labels Leb128 Winst Splitting LocalTable Graph Converter Convert Alloc Straight Creation Building Translation Structured Blocks Jumping.
From Stdlib Require Import ZArith Lia.
Local Open Scope Z_scope.
Import WINST.

(** The size of the stack is recorded in the statement. *)
Definition recorded (g : WINST_STMT_GRAPH) (n : Z) (ss : list SLOT) : Prop :=
  exists s, _stmts g !! Z.to_nat n = Some s /\ st_stack_size s = Z.of_nat (length ss).
Lemma recorded_kept lo hi g g' n ss : graph_kept lo hi g g' -> 0 <= n -> ~ (lo <= n < hi) -> recorded g n ss -> recorded g' n ss.
Proof. intros [_ _ A3] Hn Ho (s & Hs & E). exists s. rewrite A3 by lia. auto. Qed.

(** ** Where branches go

  The label of a branch to the block [c]. *)
Definition leads (g : WINST_STMT_GRAPH) (c : WINST_STMT) (l : Z) : Prop :=
  match st_opcode c with
  | Loop => st_begin_label c = l
  | If => st_else_stmt_id c = 0 /\ st_end_label c = l \/
      0 < st_else_stmt_id c /\ exists d, at_stmt g (st_else_stmt_id c) d /\ st_begin_label d = l
  | _ => st_end_label c = l
  end.
(** The labels of the blocks from [pid] outwards. *)
Fixpoint env_is (g : WINST_STMT_GRAPH) (pid : Z) (env : list nat) : Prop :=
  match env with
  | [] => True
  | l :: env => 0 < pid /\ exists c parent, at_stmt g pid c /\ st_parent c = Some parent /\ st_result_cnt c = 0 /\
      leads g c (Z.of_nat l) /\ env_is g parent env
  end.
Lemma leads_kept lo hi g g' c l : graph_kept lo hi g g' -> leads g c l -> leads g' c l.
Proof.
  intros Hk. unfold leads. destruct (st_opcode c); auto. intros [H|(H & d & Hd & E)]; [now left|right]. split; [exact H|].
  exists d. split; [eapply at_stmt_kept; eauto | exact E].
Qed.
Lemma env_is_kept lo hi g g' env : graph_kept lo hi g g' -> forall pid, env_is g pid env -> env_is g' pid env.
Proof.
  intros Hk. induction env as [|l env IH]; intros pid H; [exact I|]. destruct H as (Hp & c & parent & H1 & H2 & H3 & H4 & H5).
  split; [exact Hp|]. exists c, parent. split; [eapply at_stmt_kept; eauto|]. split; [exact H2|]. split; [exact H3|].
  split; [eapply leads_kept; eauto | auto].
Qed.

Section Graph.
Context {bd : Build}.

Lemma Get_stmt_id_at g n c : at_stmt g n c -> Get_stmt_id_by_inst n g = Ok n.
Proof. intros [H _]. unfold Get_stmt_id_by_inst. rewrite H, bool_decide_eq_true_2, Is_True_Rel_true by eauto. reflexivity. Qed.
Lemma Stmt_id_at g n c : at_stmt g n c -> 0 <= n -> exists s, Stmt_id n g = Ok s /\ core s = c.
Proof. intros H Hn. destruct (at_stmt_Stmt_id g n c H Hn) as (s & H1 & _ & H2). eauto. Qed.

Lemma up_levels_run g env : forall v pid l, env_is g pid env -> env !! v = Some l -> exists tid c,
  up_levels v pid g = Ok tid /\ 0 < tid /\ at_stmt g tid c /\ st_result_cnt c = 0 /\ leads g c (Z.of_nat l).
Proof.
  induction env as [|l0 env IH]; intros v pid l H Hv; [discriminate|]. destruct H as (Hp & c & parent & H1 & H2 & H3 & H4 & H5).
  destruct v as [|v].
  - injection Hv as ->. exists pid, c. auto.
  - destruct (IH v parent l H5 Hv) as (tid & c' & R & H6). exists tid, c'. split; [|exact H6]. cbn [up_levels].
    destruct (Stmt_id_at g pid c H1 ltac:(lia)) as (s & -> & Hs). cbn [mbind outcome_bind].
    assert (st_parent s = Some parent) as -> by (rewrite <- H2, <- Hs; reflexivity). cbn [of_option mbind outcome_bind].
    assert (0 < parent) as Hpar by (destruct env as [|x env]; [discriminate|]; apply H5).
    rewrite (proj2 (Z.eqb_neq parent 0)) by lia. cbn [negb]. rewrite Is_True_Rel_true. exact R.
Qed.

(** A branch: its target block and the label. *)
Lemma jump_targets g n o pid env v l : at_stmt g n (instr_stmt n o pid) -> 0 <= n -> env_is g pid env -> env !! Z.to_nat v = Some l ->
  0 <= v -> v + 1 < 2 ^ 32 -> exists tid c, Get_parent_stmt_for_branch n g v = Ok tid /\ 0 < tid /\ at_stmt g tid c /\ st_result_cnt c = 0 /\
  Get_label_id_for_jump n v g = Ok (Z.of_nat l).
Proof.
  intros Ha Hn He Hl H0 Hv. destruct (up_levels_run g env _ pid l He Hl) as (tid & c & R & Ht & Hc & Hr & Hle).
  assert (Get_parent_stmt_for_branch n g v = Ok tid) as Hp.
  { unfold Get_parent_stmt_for_branch. rewrite (Get_stmt_id_at g n _ Ha). cbn [mbind outcome_bind]. rewrite UINT32_id by lia.
    replace (Z.to_nat (v + 1)) with (S (Z.to_nat v)) by lia. cbn [up_levels].
    destruct (Stmt_id_at g n _ Ha Hn) as (s & -> & Hs). cbn [mbind outcome_bind].
    assert (st_parent s = Some pid) as -> by (change (st_parent (core s) = Some pid); now rewrite Hs). cbn [of_option mbind outcome_bind].
    assert (0 < pid) as Hpid by (destruct env as [|x env]; [discriminate | apply He]).
    rewrite (proj2 (Z.eqb_neq pid 0)) by lia. cbn [negb]. rewrite Is_True_Rel_true. exact R. }
  exists tid, c. split; [exact Hp|]. split; [exact Ht|]. split; [exact Hc|]. split; [exact Hr|].
  unfold Get_label_id_for_jump. rewrite Hp. cbn [mbind outcome_bind]. destruct (Stmt_id_at g tid c Hc ltac:(lia)) as (s & -> & Hs). cbn [mbind outcome_bind].
  assert (st_opcode s = st_opcode c /\ st_begin_label s = st_begin_label c /\ st_end_label s = st_end_label c /\ st_else_stmt_id s = st_else_stmt_id c)
    as (E1 & E2 & E3 & E4) by (now rewrite <- Hs). unfold Has_else. rewrite E1, E2, E3, E4. unfold leads in Hle.
  destruct (decide (st_opcode c = Loop)) as [E|E]; [rewrite E in Hle; now rewrite Hle|].
  destruct (decide (st_opcode c = If)) as [E'|E'].
  - rewrite E' in Hle. destruct Hle as [[H1 H2]|(H1 & d & Hd & H2)].
    + rewrite decide_False by (rewrite H1; intros [_ ?]; discriminate). now rewrite H2.
    + rewrite decide_True by (split; [exact E' | rewrite (proj2 (Z.eqb_neq _ _)) by lia; reflexivity]).
      destruct (Stmt_id_at g _ d Hd ltac:(lia)) as (s' & -> & Hs'). cbn [mbind outcome_bind]. rewrite <- H2, <- Hs'. reflexivity.
  - rewrite decide_False by tauto. destruct (st_opcode c); try congruence; now rewrite Hle.
Qed.
End Graph.

Section Branching.
Context {bd : Build} {vg : VectorGrowth} {cb : ConvBuild}.
Variable locs res : list VALTYPE.
Variable module : WABT_MODULE.
Variable buf : list Z.
Variable func : WABT_FUNC.
Variable func_id : Z.
Variable L : list (list Z).
Hypothesis L_differ : NoDup L.

(** ** From a case to an instruction of the loop *)
Definition switch_goes (h : CM CFLOW) (ss' : list SLOT) (lo hi : Z) (its : list ITEM) (Q : WINST_STMT_GRAPH -> Prop) (c : CONV) : Prop :=
  exists r c2 its1, h c = Ok (r, c2) /\ inv locs ss' c2 /\ became lo hi its1 c c2 /\ Q (cv_graph c2) /\
    match r with
    | CONTINUE_LOOP => its = its1
    | ADD_INST u content => its = its1 ++ [I_inst (inst_for (pr_opcode u) (pr_valty u) content)] /\
        inst_ok (inst_for (pr_opcode u) (pr_valty u) content) = true /\ Forall (in_u 32) content
    end.
Definition any_graph (g : WINST_STMT_GRAPH) : Prop := True.

Lemma stmt_at_run c n d : at_stmt (cv_graph c) n d -> 0 <= n -> exists s, stmt_at n c = Ok (s, c) /\ core s = d.
Proof.
  intros H Hn. destruct (Stmt_id_at _ n d H Hn) as (s & Hs & E). exists s. split; [|exact E].
  unfold stmt_at, graph_get. now rewrite (bind_run get _ c c c eq_refl), Hs.
Qed.

Lemma conv_inst_goes o u pc n d c ss' lo hi its Q : Encode (row_of o) = o -> UOPCODE_from_wasm o = Ok u -> is_ok (Get_ty_am u) = true ->
  at_stmt (cv_graph c) n d -> 0 <= n -> current_body func_id (cv_enc c) -> lo <= hi ->
  (forall m, switch_goes (conv_switch module buf func func_id u (set_wasm_pc pc (row_of o)) n n) ss' lo hi its Q (set_pc_map m c)) ->
  exists c', conv_inst module buf func func_id (set_wasm_pc pc (row_of o)) n c = Ok (tt, c') /\
    inv locs ss' c' /\ became lo hi its c c' /\ Q (cv_graph c').
Proof.
  intros He Hu Ham Ha Hn Hb Hle Hs. destruct (inst_size_run func_id c Hb) as [sz Hsz].
  set (m := insert_new n sz (cv_pc_map c)). destruct (Hs m) as (r & c2 & its1 & Hr & Hinv & Hbc & HQ & Hcase).
  apply became_pc_map in Hbc.
  assert (conv_inst module buf func func_id (set_wasm_pc pc (row_of o)) n c
    = match r with CONTINUE_LOOP => Ok (tt, c2) | ADD_INST u content => add_inst (pr_opcode u) (pr_valty u) content c2 end) as ->.
  { unfold conv_inst. change (Encode (set_wasm_pc pc (row_of o))) with (Encode (row_of o)). rewrite He, Hu, (bind_run (lift (Ok u)) _ c c u eq_refl).
    assert (graph_get (Get_stmt_id_by_inst n) c = Ok (n, c)) as Hg
      by (unfold graph_get; rewrite (bind_run get _ c c c eq_refl), (Get_stmt_id_at _ n d Ha); reflexivity).
    destruct (stmt_at_run c n d Ha Hn) as (s & Hst & _).
    rewrite (bind_run _ _ _ _ _ Hg), (bind_run _ _ _ _ _ Hst). destruct (Get_ty_am u) as [am|]; [|discriminate].
    rewrite (bind_run (lift (Ok am)) _ c c am eq_refl), (bind_run _ _ _ _ _ Hsz).
    rewrite (bind_run (modify (fun c => set_pc_map (insert_new n sz (cv_pc_map c)) c)) _ c (set_pc_map m c) tt eq_refl), (bind_run _ _ _ _ _ Hr). now destruct r. }
  destruct r as [|u' content].
  - subst its1. eauto.
  - destruct Hcase as (-> & Hok & Hc).
    rewrite (add_inst_run _ _ _ _ Hok Hc) by (rewrite (bc_enc _ _ _ _ _ Hbc); apply (current_body_items func_id), Hb).
    eexists. split; [reflexivity|]. split; [now apply inv_enc|]. split; [|exact HQ].
    eapply became_join; [exact Hle | exact Hbc|]. apply (converted_became lo hi [_]), converted_enc.
Qed.

(** ** Opening a block *)
Lemma alloc_result_run c n d : at_stmt (cv_graph c) n d -> 0 <= n -> st_result_cnt d = 0 -> alloc_result n n c = Ok (tt, c).
Proof.
  intros Ha Hn Hr. destruct (stmt_at_run c n d Ha Hn) as (s & Hs & E). unfold alloc_result. rewrite (bind_run _ _ _ _ _ Hs).
  assert (st_result_cnt s = 0) as -> by (rewrite <- Hr, <- E; reflexivity). reflexivity.
Qed.

Lemma stack_length ss c : inv locs ss c -> length (cv_stack c) = length ss.
Proof. intros H. exact (proj2 (stack_values locs ss _ (iv_stack _ _ _ H))). Qed.
Lemma inv_graph ss g c : inv locs ss c -> inv locs ss (set_graph g c).
Proof. intros []. split; auto. Qed.
Lemma became_graph lo hi g c : graph_kept lo hi (cv_graph c) g -> became lo hi [] c (set_graph g c).
Proof. intros H. split; eauto. now rewrite app_items_nil. Qed.

Lemma record_run ss c n d : inv locs ss c -> at_stmt (cv_graph c) n d -> 0 <= n -> Z.of_nat (length ss) < 2 ^ 32 -> exists g',
  record_stack_size n c = Ok (tt, set_graph g' c) /\ graph_kept n (n + 1) (cv_graph c) g' /\ recorded g' n ss.
Proof.
  intros Hinv Ha Hn Hl. destruct (at_stmt_Stmt_id _ n d Ha Hn) as (s & _ & Hs & _).
  pose proof (upd_stmt_run (cv_graph c) _ s (Set_stack_size (UINT32 (Z.of_nat (length (cv_stack c))))) Hs) as Hu. rewrite Z2Nat.id in Hu by exact Hn.
  eexists. split; [|split].
  - unfold record_stack_size, stack_size. rewrite bind_bind, (bind_run get _ c c c eq_refl). unfold upd, on_graph.
    rewrite (bind_run (mret _) _ c c _ eq_refl), Hu. reflexivity.
  - split; cbn [_stmts _ins_to_stmt]; [reflexivity| |].
    + intros i. destruct (decide (i = Z.to_nat n)) as [->|Hne]; [|now rewrite list_lookup_insert_ne by lia].
      rewrite list_lookup_insert_eq by (eapply lookup_lt_Some, Hs). now rewrite Hs.
    + intros i Hi. now rewrite list_lookup_insert_ne by lia.
  - eexists. cbn [_stmts]. rewrite list_lookup_insert_eq by (eapply lookup_lt_Some, Hs). split; [reflexivity|].
    cbn [Set_stack_size st_stack_size]. rewrite (stack_length ss c Hinv). apply UINT32_id. lia.
Qed.

Lemma conv_block_goes ss c n pid l : inv locs ss c -> at_stmt (cv_graph c) n (block_stmt n Block pid UNSET l 0) -> 0 <= n ->
  Z.of_nat (length ss) < 2 ^ 32 -> switch_goes (conv_block n n) ss n (n + 1) [] (fun g => recorded g n ss) c.
Proof.
  intros Hinv Ha Hn Hl. destruct (record_run ss c n _ Hinv Ha Hn Hl) as (g' & R & K & Hrec).
  exists CONTINUE_LOOP, (set_graph g' c), []. split; [|split; [now apply inv_graph|split; [now apply became_graph|split; [exact Hrec | reflexivity]]]].
  unfold conv_block. rewrite (bind_run _ _ _ _ _ (alloc_result_run c n _ Ha Hn eq_refl)), (bind_run _ _ _ _ _ R). reflexivity.
Qed.

Lemma conv_loop_goes ss c n pid i l : inv locs ss c -> ready func_id L (cv_enc c) ->
  at_stmt (cv_graph c) n (block_stmt n Loop pid (Z.of_nat i) l 0) -> L !! i = Some (label_name true n) -> 0 <= n ->
  Z.of_nat (length ss) < 2 ^ 32 -> switch_goes (conv_loop n n) ss n (n + 1) [I_label i] (fun g => recorded g n ss) c.
Proof.
  intros Hinv Hr Ha Hi Hn Hl. pose proof (add_label_run func_id L L_differ true n i c Hr Hi) as Hadd.
  set (c1 := set_enc (app_items [I_label i] (cv_enc c)) c) in *. assert (inv locs ss c1) as Hinv1 by (now apply inv_enc).
  assert (at_stmt (cv_graph c1) n (block_stmt n Loop pid (Z.of_nat i) l 0)) as Ha1 by exact Ha.
  destruct (stmt_at_run c1 n _ Ha1 Hn) as (s & Hs & E).
  destruct (record_run ss c1 n _ Hinv1 Ha1 Hn Hl) as (g' & R & K & Hrec).
  exists CONTINUE_LOOP, (set_graph g' c1), [I_label i].
  split; [|split; [now apply inv_graph|split; [|split; [exact Hrec | reflexivity]]]].
  - unfold conv_loop. rewrite (bind_run _ _ _ _ _ Hadd), (bind_run _ _ _ _ _ Hs).
    assert (st_kind s = WINST_STMT_BLOCK /\ st_begin_label s = Z.of_nat i) as [E1 E2] by (split; [change (st_kind (core s) = WINST_STMT_BLOCK) | change (st_begin_label (core s) = Z.of_nat i)]; now rewrite E).
    rewrite E1, E2, bool_decide_eq_true_2, Z.eqb_refl, !Is_True_true by reflexivity. rewrite !(bind_run (lift (Ok tt)) _ c1 c1 tt eq_refl).
    rewrite (bind_run _ _ _ _ _ (alloc_result_run c1 n _ Ha1 Hn eq_refl)), (bind_run _ _ _ _ _ R). reflexivity.
  - eapply (became_join _ _ [I_label i] []); [lia | apply became_items|]. now apply became_graph.
Qed.

(** ** Jumps: labels below 512 fit the field of a conditional jump *)
Lemma operands_fit_ofs l : 0 <= l < 512 -> operands_fit TY_AM32_OFS [l] = true.
Proof. intros Hl. apply bool_decide_eq_true_2. cbn [am_fields]. constructor; [|constructor]. unfold ffits, Expand.operand; cbn; unfold in_u in *; lia. Qed.
Lemma operands_fit_r_ofs a l : 0 <= a < 126 -> 0 <= l < 512 -> operands_fit TY_AM32_R_OFS [a; l] = true.
Proof.
  intros Ha Hl. apply bool_decide_eq_true_2. cbn [am_fields]. constructor; [|constructor; [|constructor]].
  - unfold ffits, Expand.operand; cbn; unfold in_u in *; lia.
  - split; [unfold in_u; lia|]. unfold ffits, Expand.operand. cbn [fd_signed fd_w U_INST32.R_OFS_ofs].
    unfold INT32. rewrite wraps_id by (unfold in_s; cbn; lia). unfold in_s. cbn. lia.
Qed.
Lemma jump_ok l : (l < 512)%nat -> inst_ok (jump_inst l) = true /\ Forall (in_u 32) [Z.of_nat l].
Proof.
  intros Hl. split; [eapply inst_for_ok; [reflexivity | discriminate | apply operands_fit_ofs; lia]|].
  constructor; [unfold in_u; lia | constructor].
Qed.
Lemma cond_ok opc a l : opc = Opcode.JEZ \/ opc = Opcode.JNZ -> 0 <= a < 126 -> (l < 512)%nat ->
  inst_ok (inst_for opc I32 [a; Z.of_nat l]) = true /\ Forall (in_u 32) [a; Z.of_nat l].
Proof.
  intros Ho Ha Hl. split.
  - eapply inst_for_ok; [destruct Ho as [-> | ->]; reflexivity | discriminate | apply operands_fit_r_ofs; lia].
  - constructor; [apply in_u_small; lia|]. constructor; [unfold in_u; lia | constructor].
Qed.

Lemma pop_cond_run s ss c : inv locs (s :: ss) c -> slot_ty locs s = Some I32 -> exists e c',
  Pop_wasm_stk I32 c = Ok (e, c') /\ se_val_type e = I32 /\ se_idx e = cond_reg locs (s :: ss) /\ 0 <= cond_reg locs (s :: ss) < 126 /\
  inv locs ss c' /\ stable c c'.
Proof.
  intros Hinv Hs. pose proof (slot_reg_small locs s ss c I32 Hinv Hs) as Hr.
  destruct (Pop_wasm_stk_run locs s ss c I32 I32 Hinv Hs (or_introl eq_refl)) as (e & c' & P & (T & I & _) & V & S & _).
  rewrite Hs in T. injection T as T. exists e, c'. auto 10.
Qed.
Lemma stable_at c c' n d : stable c c' -> at_stmt (cv_graph c) n d -> at_stmt (cv_graph c') n d.
Proof. intros S. now rewrite (sb_graph _ _ S). Qed.

Lemma conv_if_goes s ss c n pid i : inv locs (s :: ss) c -> slot_ty locs s = Some I32 ->
  at_stmt (cv_graph c) n (block_stmt n If pid UNSET (Z.of_nat i) 0) -> 0 <= n -> (i < 512)%nat -> Z.of_nat (length ss) < 2 ^ 32 ->
  switch_goes (conv_if (mkPAIR Opcode.JEZ I32) n n) ss n (n + 1) [I_inst (cond_inst locs Opcode.JEZ (s :: ss) i)] (fun g => recorded g n ss) c.
Proof.
  intros Hinv Hs Ha Hn Hi Hl. destruct (pop_cond_run s ss c Hinv Hs) as (e & c1 & P & T & I & R & V & S).
  pose proof (stable_at c c1 n _ S Ha) as Ha1. destruct (stmt_at_run c1 n _ Ha1 Hn) as (st & Hst & E).
  destruct (record_run ss c1 n _ V Ha1 Hn Hl) as (g' & Rec & K & Hrec).
  assert (st_result_cnt st = 0 /\ st_else_stmt_id st = 0 /\ st_end_label st = Z.of_nat i) as (E1 & E2 & E3)
    by (repeat split; [change (st_result_cnt (core st) = 0) | change (st_else_stmt_id (core st) = 0) | change (st_end_label (core st) = Z.of_nat i)]; now rewrite E).
  exists (ADD_INST (mkPAIR Opcode.JEZ I32) [se_idx e; Z.of_nat i]), (set_graph g' c1), [].
  split; [|split; [now apply inv_graph|split; [|split; [exact Hrec|]]]].
  - unfold conv_if. rewrite (bind_run _ _ _ _ _ P), (bind_run _ _ _ _ _ Hst), E1. unfold Has_else. rewrite E2, E3.
    cbn [when Z.ltb Z.compare Z.eqb negb]. rewrite (bind_run (mret tt) _ c1 c1 tt eq_refl), (bind_run (mret (Z.of_nat i)) _ c1 c1 _ eq_refl).
    unfold Check_stack_elem_valty. rewrite T, bool_decide_eq_true_2, Is_True_Rel_true by reflexivity. rewrite (bind_run (lift (Ok tt)) _ c1 c1 tt eq_refl).
    rewrite (bind_run _ _ _ _ _ Rec). reflexivity.
  - eapply (became_join _ _ [] []); [lia | apply stable_became; exact S | now apply became_graph].
  - cbn [app pr_opcode pr_valty]. rewrite I. split; [reflexivity|]. apply cond_ok; auto.
Qed.

Lemma conv_if_else_goes s ss c n e pid i l o l' : inv locs (s :: ss) c -> slot_ty locs s = Some I32 ->
  at_stmt (cv_graph c) n (block_stmt n If pid UNSET (Z.of_nat i) e) -> at_stmt (cv_graph c) e (block_stmt e Else pid (Z.of_nat o) l l') -> 0 <= n < e -> (o < 512)%nat ->
  Z.of_nat (length ss) < 2 ^ 32 ->
  switch_goes (conv_if (mkPAIR Opcode.JEZ I32) n n) ss n (e + 1) [I_inst (cond_inst locs Opcode.JEZ (s :: ss) o)] (fun g => recorded g e ss) c.
Proof.
  intros Hinv Hs Ha Hb Hn Ho Hl. destruct (pop_cond_run s ss c Hinv Hs) as (x & c1 & P & T & I & R & V & S).
  pose proof (stable_at c c1 n _ S Ha) as Ha1. pose proof (stable_at c c1 e _ S Hb) as Hb1.
  destruct (stmt_at_run c1 n _ Ha1 ltac:(lia)) as (st & Hst & E). destruct (stmt_at_run c1 e _ Hb1 ltac:(lia)) as (st' & Hst' & E').
  destruct (record_run ss c1 n _ V Ha1 ltac:(lia) Hl) as (g1 & Rec & K & _).
  assert (at_stmt (cv_graph (set_graph g1 c1)) e (block_stmt e Else pid (Z.of_nat o) l l')) as Hb2 by (eapply at_stmt_kept; [exact K | exact Hb1]).
  destruct (record_run ss (set_graph g1 c1) e _ (inv_graph ss g1 c1 V) Hb2 ltac:(lia) Hl) as (g2 & Rec2 & K2 & Hrec).
  assert (st_result_cnt st = 0 /\ st_else_stmt_id st = e /\ st_begin_label st' = Z.of_nat o) as (E1 & E2 & E3)
    by (repeat split; [change (st_result_cnt (core st) = 0); now rewrite E | change (st_else_stmt_id (core st) = e); now rewrite E | change (st_begin_label (core st') = Z.of_nat o); now rewrite E']).
  exists (ADD_INST (mkPAIR Opcode.JEZ I32) [se_idx x; Z.of_nat o]), (set_graph g2 (set_graph g1 c1)), [].
  split; [|split; [now apply inv_graph, inv_graph|split; [|split; [exact Hrec|]]]].
  - unfold conv_if. rewrite (bind_run _ _ _ _ _ P), (bind_run _ _ _ _ _ Hst), E1. unfold Has_else. rewrite E2, (proj2 (Z.eqb_neq e 0)) by lia.
    cbn [when Z.ltb Z.compare negb]. rewrite (bind_run (mret tt) _ c1 c1 tt eq_refl), bind_bind, (bind_run _ _ _ _ _ Hst'), E3.
    rewrite (bind_run (mret (Z.of_nat o)) _ c1 c1 _ eq_refl).
    unfold Check_stack_elem_valty. rewrite T, bool_decide_eq_true_2, Is_True_Rel_true by reflexivity. rewrite (bind_run (lift (Ok tt)) _ c1 c1 tt eq_refl).
    rewrite (bind_run _ _ _ _ _ Rec), (bind_run _ _ _ _ _ Rec2). reflexivity.
  - eapply (became_join _ _ [] []); [lia | apply stable_became; exact S|].
    eapply (became_join _ _ [] []); [lia | |].
    + apply became_graph. eapply graph_kept_le; [| |exact K]; lia.
    + apply became_graph. eapply graph_kept_le; [| |exact K2]; lia.
  - cbn [app pr_opcode pr_valty]. rewrite I. split; [reflexivity|]. apply cond_ok; auto.
Qed.

(** ** Branches *)
Lemma graph_get_run {A} (h : WINST_STMT_GRAPH -> outcome A) a c : h (cv_graph c) = Ok a -> graph_get h c = Ok (a, c).
Proof. intros H. unfold graph_get. now rewrite (bind_run get _ c c c eq_refl), H. Qed.
Lemma mov_for_break_run tid d c : at_stmt (cv_graph c) tid d -> 0 <= tid -> st_result_cnt d = 0 -> Add_mov_for_break tid false c = Ok (0, c).
Proof.
  intros Ha Ht Hr. destruct (stmt_at_run c tid d Ha Ht) as (s & Hs & E). unfold Add_mov_for_break. rewrite (bind_run _ _ _ _ _ Hs).
  assert (st_result_cnt s = 0) as -> by (rewrite <- Hr, <- E; reflexivity). reflexivity.
Qed.
Lemma leb_u_range Lb v : leb_u Lb v = true -> 0 <= v < 2 ^ 32.
Proof. unfold leb_u. rewrite !andb_true_iff, Z.leb_le, !Z.ltb_lt. lia. Qed.

Lemma conv_br_goes ss c inst n pid env Lb v l rest : inv locs ss c -> at_stmt (cv_graph c) n (instr_stmt n Br pid) -> 0 <= n ->
  env_is (cv_graph c) pid env -> env !! Z.to_nat v = Some l -> Z.of_nat (length env) < 2 ^ 32 -> leb_u Lb v = true -> (l < 512)%nat ->
  Convert.operand buf inst = leb_bytes Lb v ++ rest ->
  switch_goes (conv_br buf (mkPAIR Opcode.JMP I32) inst n) ss n (n + 1) [I_inst (jump_inst l)] any_graph c.
Proof.
  intros Hinv Ha Hn He Hl Hd Hv H512 Hop. pose proof (leb_u_range _ _ Hv). pose proof (lookup_lt_Some _ _ _ Hl).
  destruct (jump_targets (cv_graph c) n Br pid env v l Ha Hn He Hl ltac:(lia) ltac:(lia)) as (tid & d & Hp & Ht & Hat & Hcnt & Hj).
  exists (ADD_INST (mkPAIR Opcode.JMP I32) [Z.of_nat l]), c, []. split; [|split; [exact Hinv|split; [apply became_refl|split; [exact I|]]]].
  - unfold conv_br. rewrite (read_u32_run buf inst Lb v rest Hop Hv), (bind_run (lift (Ok v)) _ c c v eq_refl).
    rewrite (bind_run _ _ _ _ _ (graph_get_run _ _ c Hj)). change (UINT32 UNINIT_LABEL_IDX) with (2 ^ 32 - 1).
    rewrite (proj2 (Z.eqb_neq _ _)) by lia. cbn [negb]. rewrite Is_True_true, (bind_run (lift (Ok tt)) _ c c tt eq_refl).
    rewrite (bind_run _ _ _ _ _ (graph_get_run (fun g => Get_parent_stmt_for_branch n g v) _ c Hp)).
    rewrite (bind_run _ _ _ _ _ (mov_for_break_run tid d c Hat ltac:(lia) Hcnt)). reflexivity.
  - cbn [app pr_opcode pr_valty]. split; [reflexivity|]. now apply jump_ok.
Qed.

Lemma conv_br_if_goes s ss c inst n pid env Lb v l rest : inv locs (s :: ss) c -> slot_ty locs s = Some I32 ->
  at_stmt (cv_graph c) n (instr_stmt n BrIf pid) -> 0 <= n ->
  env_is (cv_graph c) pid env -> env !! Z.to_nat v = Some l -> Z.of_nat (length env) < 2 ^ 32 -> leb_u Lb v = true -> (l < 512)%nat ->
  Convert.operand buf inst = leb_bytes Lb v ++ rest ->
  switch_goes (conv_br_if buf (mkPAIR Opcode.JNZ I32) inst n) ss n (n + 1) [I_inst (cond_inst locs Opcode.JNZ (s :: ss) l)] any_graph c.
Proof.
  intros Hinv Hs Ha Hn He Hl Hd Hv H512 Hop. pose proof (leb_u_range _ _ Hv). pose proof (lookup_lt_Some _ _ _ Hl).
  destruct (pop_cond_run s ss c Hinv Hs) as (x & c1 & P & T & I & R & V & S).
  pose proof (sb_graph _ _ S) as Eg. rewrite <- Eg in Ha, He.
  destruct (jump_targets (cv_graph c1) n BrIf pid env v l Ha Hn He Hl ltac:(lia) ltac:(lia)) as (tid & d & Hp & Ht & Hat & Hcnt & Hj).
  exists (ADD_INST (mkPAIR Opcode.JNZ I32) [se_idx x; Z.of_nat l]), c1, []. split; [|split; [exact V|split; [now apply stable_became|split; [exact Logic.I|]]]].
  - unfold conv_br_if. rewrite (bind_run get _ c c c eq_refl). assert (cv_stack c <> []) as Hne.
    { pose proof (stack_length _ _ Hinv) as E. intros E'. rewrite E' in E. discriminate. }
    rewrite (bool_decide_eq_false_2 _ Hne). cbn [negb]. rewrite Is_True_true, (bind_run (lift (Ok tt)) _ c c tt eq_refl), (bind_run _ _ _ _ _ P).
    rewrite (read_u32_run buf inst Lb v rest Hop Hv), (bind_run (lift (Ok v)) _ c1 c1 v eq_refl).
    rewrite (bind_run _ _ _ _ _ (graph_get_run _ _ c1 Hj)).
    rewrite (bind_run _ _ _ _ _ (graph_get_run (fun g => Get_parent_stmt_for_branch n g v) _ c1 Hp)).
    rewrite (bind_run _ _ _ _ _ (mov_for_break_run tid d c1 Hat ltac:(lia) Hcnt)). reflexivity.
  - cbn [app pr_opcode pr_valty]. rewrite I. split; [reflexivity|]. apply cond_ok; auto.
Qed.

(** ** [else] *)
Lemma conv_else_goes ss c e pid o l' : inv locs ss c -> ready func_id L (cv_enc c) ->
  at_stmt (cv_graph c) e (block_stmt e Else pid (Z.of_nat o) (Z.of_nat (S o)) l') -> L !! o = Some (label_name true e) -> 0 <= e -> (S o < 512)%nat ->
  switch_goes (conv_else (mkPAIR Opcode.JMP I32) e) ss e e [I_inst (jump_inst (S o)); I_label o] any_graph c.
Proof.
  intros Hinv Hr Ha HL He Ho. destruct (stmt_at_run c e _ Ha He) as (s & Hs & E).
  assert (st_id s = e /\ st_kind s = WINST_STMT_BLOCK /\ st_begin_label s = Z.of_nat o /\ st_end_label s = Z.of_nat (S o)) as (E1 & E2 & E3 & E4)
    by (repeat split; [change (st_id (core s) = e) | change (st_kind (core s) = WINST_STMT_BLOCK) | change (st_begin_label (core s) = Z.of_nat o) | change (st_end_label (core s) = Z.of_nat (S o))]; now rewrite E).
  destruct (jump_ok (S o) Ho) as [Hok Hfit]. pose proof Hr as [[Hne Hcur] _].
  pose proof (add_inst_run Opcode.JMP I32 [Z.of_nat (S o)] c Hok Hfit Hne) as Hadd.
  assert (app_code (inst_words (jump_inst (S o))) (cv_enc c) = app_items [I_inst (jump_inst (S o))] (cv_enc c)) as Eapp
    by (change [I_inst (jump_inst (S o))] with (map I_inst [jump_inst (S o)]); rewrite app_items_insts, code_of_cons; change (code_of []) with (@nil Z); now rewrite app_nil_r).
  fold (jump_inst (S o)) in Hadd. rewrite Eapp in Hadd. set (c1 := set_enc (app_items [I_inst (jump_inst (S o))] (cv_enc c)) c) in *.
  assert (ready func_id L (cv_enc c1)) as Hr1 by (now apply ready_items).
  pose proof (add_label_run func_id L L_differ true e o c1 Hr1 HL) as Hlab.
  set (c2 := set_enc (app_items [I_label o] (cv_enc c1)) c1) in *.
  exists CONTINUE_LOOP, c2, [I_inst (jump_inst (S o)); I_label o].
  split; [|split; [apply inv_enc, inv_enc; exact Hinv|split; [|split; [exact I | reflexivity]]]].
  - unfold conv_else. rewrite (bind_run _ _ _ _ _ Hs), E1, (bind_run _ _ _ _ _ (mov_for_break_run e _ c Ha He eq_refl)), (bind_run _ _ _ _ _ Hs), E1, E2, E3, E4.
    cbn [pr_opcode pr_valty]. rewrite (bind_run _ _ _ _ _ Hadd), (bind_run _ _ _ _ _ Hlab).
    rewrite bool_decide_eq_true_2, Z.eqb_refl, !Is_True_true by reflexivity. reflexivity.
  - eapply (became_join e e [I_inst (jump_inst (S o))] [I_label o]); [lia | apply became_items | apply became_items].
Qed.

(** ** [end] of a block *)
Lemma pop_n_run top : forall ss c, inv locs (top ++ ss) c -> exists c', pop_n (length top) c = Ok (tt, c') /\ inv locs ss c' /\ stable c c'.
Proof.
  induction top as [|s top IH]; intros ss c Hinv.
  - exists c. split; [reflexivity|]. split; [exact Hinv | reflexivity].
  - cbn [app] in Hinv. pose proof (iv_slots _ _ _ Hinv) as Hsl. inversion Hsl as [|x y (t & Ht & _) _ [E1 E2]].
    destruct (Pop_wasm_stk_run locs s (top ++ ss) c t VALTY_UNKNOWN Hinv Ht (or_intror eq_refl)) as (e & c1 & P & _ & V & S & _).
    destruct (IH ss c1 V) as (c' & R & V' & S'). exists c'. cbn [length pop_n]. rewrite (bind_run _ _ _ _ _ P).
    split; [exact R|]. split; [exact V'|]. etransitivity; eassumption.
Qed.

Lemma not_unreachable ss c : inv locs ss c -> bool_decide (se_kind <$> head (cv_stack c) = Some UNREACHABLE_VALUE) = false.
Proof.
  intros Hinv. apply bool_decide_eq_false_2. pose proof (iv_stack _ _ _ Hinv) as H.
  destruct (cv_stack c) as [|e stk], ss as [|s ss]; try easy. destruct H as [(_ & _ & Hk) _]. cbn. intros [= E]. rewrite E in Hk.
  destruct s; [destruct Hk; discriminate | discriminate].
Qed.

(** The labels at the end of a block. *)
Definition end_items (o : WINST_OPCODE) (l l2 : nat) : list ITEM :=
  if bool_decide (o = Else) then [I_label l; I_label l2] else [I_label l].

Lemma end_label_run c n d s l l2 : ready func_id L (cv_enc c) -> st_id s = n -> st_end_label s = Z.of_nat l ->
  L !! l = Some (label_name false n) -> core s = d ->
  (st_opcode s = Else -> exists c2, at_stmt (cv_graph c) (st_else_stmt_id s) c2 /\ 0 <= st_else_stmt_id s /\ st_end_label c2 = Z.of_nat l2 /\
    L !! l2 = Some (label_name false (st_else_stmt_id s))) ->
  Add_end_of_block_label s c = Ok (tt, set_enc (app_items (end_items (st_opcode s) l l2) (cv_enc c)) c).
Proof.
  intros Hr E1 E2 HL _ Helse. unfold Add_end_of_block_label, end_items. rewrite E1.
  rewrite (bind_run _ _ _ _ _ (add_label_run func_id L L_differ false n l c Hr HL)), E2, Z.eqb_refl, Is_True_true.
  set (c1 := set_enc (app_items [I_label l] (cv_enc c)) c). rewrite (bind_run (lift (Ok tt)) _ c1 c1 tt eq_refl).
  destruct (decide (st_opcode s = Else)) as [E|E].
  - rewrite !(bool_decide_eq_true_2 _ E). cbn [when]. destruct (Helse E) as (c2 & Ha & H0 & El & HL2).
    assert (ready func_id L (cv_enc c1)) as Hr1 by (now apply ready_items).
    rewrite (bind_run _ _ _ _ _ (add_label_run func_id L L_differ false _ l2 c1 Hr1 HL2)).
    set (c3 := set_enc (app_items [I_label l2] (cv_enc c1)) c1). destruct (stmt_at_run c3 _ _ (Ha : at_stmt (cv_graph c3) _ _) H0) as (s2 & Hs2 & Es2).
    rewrite (bind_run _ _ _ _ _ Hs2). assert (st_end_label s2 = Z.of_nat l2) as -> by (rewrite <- El, <- Es2; reflexivity).
    rewrite Z.eqb_refl, Is_True_Rel_true. unfold c3, c1. cbn [set_enc cv_enc lift].
    change [I_label l; I_label l2] with ([I_label l] ++ [I_label l2]). now rewrite app_items_app.
  - rewrite !(bool_decide_eq_false_2 _ E). reflexivity.
Qed.

Lemma conv_end_goes top ss c n pid o ppid lb l els l2 : inv locs (top ++ ss) c -> ready func_id L (cv_enc c) ->
  at_stmt (cv_graph c) n (instr_stmt n End pid) -> 0 <= n -> 0 <= pid ->
  at_stmt (cv_graph c) pid (block_stmt pid o ppid lb (Z.of_nat l) els) -> recorded (cv_graph c) pid ss -> L !! l = Some (label_name false pid) ->
  o = Block \/ o = Loop \/ (o = If /\ els = 0) \/
    (o = Else /\ 0 <= els /\ (exists d, at_stmt (cv_graph c) els d /\ st_end_label d = Z.of_nat l2) /\ L !! l2 = Some (label_name false els)) ->
  Z.of_nat (length (top ++ ss)) < 2 ^ 32 ->
  switch_goes (conv_end func (mkPAIR Opcode.RETURN I32) n n) ss n (n + 1) (end_items o l l2) any_graph c.
Proof.
  intros Hinv Hr Ha Hn Hp Hb (s & Hs & Hsz) HL Ho Hlen. destruct (stmt_at_run c n _ Ha Hn) as (st & Hst & E).
  assert (st_parent st = Some pid) as Ep by (change (st_parent (core st) = Some pid); now rewrite E).
  assert (stmt_at pid c = Ok (s, c)) as Hpar.
  { pose proof (Stmt_id_run (cv_graph c) _ s Hs) as Hi. rewrite Z2Nat.id in Hi by exact Hp.
    unfold stmt_at, graph_get. now rewrite (bind_run get _ c c c eq_refl), Hi. }
  assert (core s = block_stmt pid o ppid lb (Z.of_nat l) els) as Ec by (destruct Hb as [_ Hb]; rewrite Hs in Hb; exact (inj Some _ _ Hb)).
  assert (st_kind s = WINST_STMT_BLOCK /\ st_id s = pid /\ st_opcode s = o /\ st_result_cnt s = 0 /\ st_end_label s = Z.of_nat l /\ st_else_stmt_id s = els)
    as (K1 & K2 & K3 & K4 & K5 & K6).
  { change (st_kind (core s) = WINST_STMT_BLOCK /\ st_id (core s) = pid /\ st_opcode (core s) = o /\ st_result_cnt (core s) = 0 /\
      st_end_label (core s) = Z.of_nat l /\ st_else_stmt_id (core s) = els). now rewrite Ec. }
  assert (Add_end_of_block_label s c = Ok (tt, set_enc (app_items (end_items o l l2) (cv_enc c)) c)) as Hlab.
  { rewrite <- K3. eapply end_label_run; eauto. rewrite K3, K6. intros ->.
    destruct Ho as [Ho|[Ho|[[Ho _]|(_ & H0 & (d & Hd & Ed) & HL2)]]]; try discriminate. exists d. auto. }
  set (c1 := set_enc (app_items (end_items o l l2) (cv_enc c)) c) in *. assert (inv locs (top ++ ss) c1) as Hinv1 by (now apply inv_enc).
  destruct (pop_n_run top ss c1 Hinv1) as (c2 & Hpop & V2 & S2). rewrite length_app in Hlen.
  assert (Pop_redundant_values s c1 = Ok (tt, c2)) as Hred.
  { unfold Pop_redundant_values. assert (stack_size c1 = Ok (Z.of_nat (length (top ++ ss)), c1)) as Hz.
    { unfold stack_size. rewrite (bind_run get _ c1 c1 c1 eq_refl), (stack_length _ _ Hinv1), UINT32_id by (rewrite length_app; lia). reflexivity. }
    rewrite (bind_run _ _ _ _ _ Hz), Hsz, length_app. rewrite (proj2 (Z.ltb_ge (Z.of_nat (length top + length ss)) (Z.of_nat (length ss)))), (bind_run (lift (Ok tt)) _ c1 c1 tt eq_refl) by lia.
    assert (when (Z.of_nat (length ss) <? Z.of_nat (length top + length ss)) (pop_n (Z.to_nat (Z.of_nat (length top + length ss) - Z.of_nat (length ss)))) c1
      = Ok (tt, c2)) as Hall.
    { replace (Z.to_nat _) with (length top) by lia. destruct (Z.ltb_spec (Z.of_nat (length ss)) (Z.of_nat (length top + length ss))); [exact Hpop|].
      assert (top = []) as -> by (destruct top; [reflexivity | cbn in *; lia]). exact Hpop. }
    rewrite K3. unfold Has_else. rewrite K6. destruct Ho as [-> |[-> |[[-> ->]|[-> _]]]]; exact Hall. }
  exists CONTINUE_LOOP, c2, (end_items o l l2). split; [|split; [exact V2|split; [|split; [exact I | reflexivity]]]].
  - unfold conv_end. rewrite (bind_run _ _ _ _ _ Hst), Ep. cbn [of_option]. rewrite (bind_run (lift (Ok pid)) _ c c pid eq_refl), (bind_run _ _ _ _ _ Hpar).
    rewrite K1, bool_decide_eq_false_2 by discriminate. unfold conv_block_end. rewrite (bind_run _ _ _ _ _ Hpar), (bind_run get _ c c c eq_refl).
    rewrite (not_unreachable _ _ Hinv), K4. cbn [Z.ltb Z.compare andb when]. rewrite (bind_run (mret tt) _ c c tt eq_refl).
    rewrite (bind_run _ _ _ _ _ Hlab), (bind_run _ _ _ _ _ Hred). unfold Push_result_to_stack.
    rewrite K1, bool_decide_eq_true_2, Is_True_Rel_true, K4 by reflexivity. reflexivity.
  - replace (end_items o l l2) with (end_items o l l2 ++ []) by apply app_nil_r.
    eapply became_join; [lia | apply became_items | now apply stable_became].
Qed.

(** ** [return] *)
Lemma conv_return_goes ss ss' h c n : inv locs ss c -> ready func_id L (cv_enc c) -> conv_types (sg_results (wf_sig func)) = Ok res ->
  pop_results locs res h ss = Some ss' ->
  switch_goes (conv_return func (mkPAIR Opcode.RETURN I32)) ss' n (n + 1)
    (map I_inst (results_code locs res ss ++ [inst_for Opcode.RETURN I32 []])) any_graph c.
Proof.
  intros Hinv [[Hne _] _] Hty Hp. unfold conv_return. pose proof (conv_types_length _ _ Hty) as El.
  apply pop_results_inv in Hp as [(-> & ->)|(t & s & -> & -> & Hs & _)].
  - destruct (sg_results (wf_sig func)) as [|]; [|discriminate].
    exists (ADD_INST (mkPAIR Opcode.RETURN I32) []), c, []. split; [|split; [exact Hinv|split; [apply became_refl|split; [exact I|]]]].
    + cbn [length return_results]. change (Z.of_nat 0 <? 3) with true. rewrite Is_True_true. reflexivity.
    + cbn [results_code app map pr_opcode pr_valty]. split; [reflexivity|]. split; [reflexivity | constructor].
  - destruct (sg_results (wf_sig func)) as [|w [|]]; try discriminate El. cbn [conv_types] in Hty.
    destruct (Conv_wabt_ty (UINT32 w)) as [u|] eqn:Eu; [|discriminate]. injection Hty as ->.
    pose proof (iv_slots _ _ _ Hinv) as Hsl. inversion Hsl as [|x y (t' & Ht' & Hv) _ [E1 E2]]. rewrite Hs in Ht'. injection Ht' as <-.
    destruct (Pop_wasm_stk_run locs s ss' c t t Hinv Hs (or_introl eq_refl)) as (e & c1 & P & (Te & Ie & _) & V & S & _).
    rewrite Hs in Te. injection Te as Te. pose proof (slot_reg_small locs s ss' c t Hinv Hs) as Hr.
    destruct (add_inst_converted c1 Opcode.MOV t [0; slot_reg locs s ss'] TY_AM32_R_R) as (en & R & C); try assumption.
    { rewrite (sb_enc _ _ S). exact Hne. }
    { reflexivity. }
    { apply operands_fit_rr; lia. }
    { repeat (constructor; [apply in_u_small; lia|]); constructor. }
    exists (ADD_INST (mkPAIR Opcode.RETURN I32) []), (set_enc en c1), (map I_inst [inst_for Opcode.MOV t [0; slot_reg locs s ss']]).
    split; [|split; [now apply inv_enc|split; [|split; [exact I|]]]].
    + cbn [length return_results]. change (Z.of_nat 1 <? 3) with true. rewrite Is_True_true, (bind_run (lift (Ok tt)) _ c c tt eq_refl), bind_bind.
      rewrite Eu, (bind_run (lift (Ok t)) _ c c t eq_refl), bind_bind, (bind_run _ _ _ _ _ P). change (UINT32 (0 + CONST_REG_NUM)) with 0. rewrite Ie, <- Te.
      cbn [UOPCODE_inst pr_opcode pr_valty]. rewrite bind_bind, (bind_run _ _ _ _ _ R). reflexivity.
    + apply converted_became. exact (converted_trans _ _ _ _ (converted_stable _ _ S) C).
    + cbn [results_code app map pr_opcode pr_valty]. split; [reflexivity|]. split; [reflexivity | constructor].
Qed.
End Branching.
