(* ===== verification/Emission.v ===== *)
(** * Structured code: what the converter's loop emits

  [conv_insts] on the code of [Structured.v] adds [items]: the cases of [Branching.v] put
  together, by induction on the code. *)

From S2P Require Import Prelude CInt BitField Wasm Isa Inst Expand Ubh UModule StrTab TypeEncoder Encoder Loading Code Labels Leb128 Winst Splitting LocalTable Graph Converter Convert Alloc Straight Creation Building Translation Structured Blocks Jumping Branching.
From Stdlib Require Import ZArith Lia.
Local Open Scope Z_scope.
Import WINST.

Section Emission.
Context {bd : Build} {vg : VectorGrowth} {cb : ConvBuild}.
Variable locs res : list VALTYPE.
Variable module : WABT_MODULE.
Variable buf : list Z.
Variable func : WABT_FUNC.
Variable func_id : Z.
Variable L : list (list Z).
Hypothesis L_differ : NoDup L.
Hypothesis func_results : conv_types (sg_results (wf_sig func)) = Ok res.

(** ** Sequences of instructions *)
Definition bytes_at (pc : nat) (cs : list CODED) : Prop := exists rest, code_bytes cs ++ rest = drop pc buf.
Lemma bytes_at_app pc cs cs' : bytes_at pc (cs ++ cs') -> bytes_at pc cs /\ bytes_at (pc + length (code_bytes cs)) cs'.
Proof.
  intros [rest H]. rewrite code_bytes_app, <- app_assoc in H. split; [exact (ex_intro _ _ H)|]. exists rest. exact (drop_code _ _ _ _ H).
Qed.
Lemma bytes_at_cons pc cd cs : bytes_at pc (cd :: cs) -> bytes_at (pc + length (coded_bytes cd)) cs /\
  exists rest, Convert.operand buf (set_wasm_pc pc (row_of (cd_op cd))) = concat (map imm_bytes (cd_imms cd)) ++ rest.
Proof.
  intros [rest H]. split; [exists rest; exact (drop_first _ _ _ _ _ H)|]. rewrite code_bytes_cons, <- app_assoc in H. exact (ex_intro _ _ (operand_at buf pc cd _ H)).
Qed.

(** From the state [c] the instructions [cs] are converted: the items are added, the stack
  is described by [ss'], the tables of locals have entries up to [x]. *)
Definition goes (cs : list CODED) (pc : nat) (n lo hi : Z) (its : list ITEM) (ss' : list SLOT) (x : VALTYPE -> Z) (c : CONV) : Prop :=
  exists c', conv_insts module buf func func_id (insts_at pc cs) n c = Ok (tt, c') /\ inv locs ss' c' /\
    became lo hi its c c' /\ covers (fun t => base locs t + x t) c'.

Lemma goes_le cs pc n lo hi lo' hi' its ss x c : lo' <= lo -> hi <= hi' -> goes cs pc n lo hi its ss x c -> goes cs pc n lo' hi' its ss x c.
Proof. intros H1 H2 (c' & A & B & C & D). exists c'. split; [exact A|]. split; [exact B|]. split; [eapply became_le; eauto | exact D]. Qed.
Lemma goes_nil pc n lo hi ss c : inv locs ss c -> goes [] pc n lo hi [] ss (fun t => temps t ss) c.
Proof. intros Hi. exists c. split; [reflexivity|]. split; [exact Hi|]. split; [apply became_refl | now apply covers_inv]. Qed.

Lemma goes_then cs1 cs2 pc n lo mid hi i1 i2 ss2 x1 x2 c c1 : lo <= mid <= hi ->
  conv_insts module buf func func_id (insts_at pc cs1) n c = Ok (tt, c1) -> became lo mid i1 c c1 -> covers (fun t => base locs t + x1 t) c1 ->
  goes cs2 (pc + length (code_bytes cs1)) (n + Z.of_nat (length cs1)) mid hi i2 ss2 x2 c1 ->
  goes (cs1 ++ cs2) pc n lo hi (i1 ++ i2) ss2 (fun t => Z.max (x1 t) (x2 t)) c.
Proof.
  intros Hm A1 C1 D1 (c2 & A2 & B2 & C2 & D2). exists c2. split; [|split; [exact B2|split]].
  - rewrite insts_at_app, (conv_insts_app _ _ _ _ _ _ _ _ _ A1), insts_at_length. exact A2.
  - eapply became_app; eauto.
  - pose proof (covers_became _ _ _ _ _ _ C2 D1) as D1'. intros t l Hl. specialize (D1' t l Hl). specialize (D2 t l Hl). lia.
Qed.
Lemma goes_app cs1 cs2 pc n lo mid hi i1 i2 ss1 ss2 x1 x2 c : lo <= mid <= hi -> goes cs1 pc n lo mid i1 ss1 x1 c ->
  (forall c', inv locs ss1 c' -> became lo mid i1 c c' -> goes cs2 (pc + length (code_bytes cs1)) (n + Z.of_nat (length cs1)) mid hi i2 ss2 x2 c') ->
  goes (cs1 ++ cs2) pc n lo hi (i1 ++ i2) ss2 (fun t => Z.max (x1 t) (x2 t)) c.
Proof. intros Hm (c1 & A1 & B1 & C1 & D1) H. eapply goes_then; eauto. Qed.
Lemma goes_weaken cs pc n lo hi its ss x y c : (forall t, y t <= x t) -> goes cs pc n lo hi its ss x c -> goes cs pc n lo hi its ss y c.
Proof.
  intros H (c' & A & B & C & D). exists c'. split; [exact A|]. split; [exact B|]. split; [exact C|].
  eapply covers_weaken; [|exact D]. intros t. specialize (H t). cbn. lia.
Qed.

(** One instruction, given its case of the switch. *)
Lemma goes_one cd pc n lo hi its ss c Q u d : Encode (row_of (cd_op cd)) = cd_op cd -> UOPCODE_from_wasm (cd_op cd) = Ok u -> is_ok (Get_ty_am u) = true ->
  at_stmt (cv_graph c) n d -> 0 <= n -> ready func_id L (cv_enc c) -> lo <= hi ->
  (forall m, switch_goes locs (conv_switch module buf func func_id u (set_wasm_pc pc (row_of (cd_op cd))) n n) ss lo hi its Q (set_pc_map m c)) ->
  exists c', conv_insts module buf func func_id (insts_at pc [cd]) n c = Ok (tt, c') /\ inv locs ss c' /\ became lo hi its c c' /\ Q (cv_graph c').
Proof.
  intros He Hu Ham Ha Hn [Hb _] Hle Hs.
  destruct (conv_inst_goes locs module buf func func_id (cd_op cd) u pc n d c ss lo hi its Q He Hu Ham Ha Hn Hb Hle Hs) as (c' & R & H).
  exists c'. split; [|exact H]. cbn [insts_at conv_insts]. now rewrite (bind_run _ _ _ _ _ R).
Qed.
Lemma goes_of_one cd pc n lo hi its ss c (Q : WINST_STMT_GRAPH -> Prop) :
  (exists c', conv_insts module buf func func_id (insts_at pc [cd]) n c = Ok (tt, c') /\ inv locs ss c' /\ became lo hi its c c' /\ Q (cv_graph c')) ->
  goes [cd] pc n lo hi its ss (fun t => temps t ss) c.
Proof. intros (c' & A & B & C & _). exists c'. split; [exact A|]. split; [exact B|]. split; [exact C | now apply covers_inv]. Qed.

(** ** Code in its place *)
Record at_code (n pid : Z) (env : list nat) (lab : nat) (p : CODE) (ss : list SLOT) (c : CONV) : Prop := {
  ac_inv : inv locs ss c;
  ac_ready : ready func_id L (cv_enc c);
  ac_env : env_is (cv_graph c) pid env;
  ac_shape : shape (cv_graph c) L n pid lab p;
}.
(** What a conversion may meet: labels of ten bits, sizes of 32. *)
Record bounded (n pid : Z) (env : list nat) (lab : nat) (p : CODE) (ss : list SLOT) : Prop := {
  bo_pid : 0 <= pid < n;
  bo_stack : Z.of_nat (length ss) + code_len p < 2 ^ 32;
  bo_depth : Z.of_nat (length env) + code_len p < 2 ^ 32;
  bo_env : Forall (fun l => (l < 512)%nat) env;
  bo_labels : (lab + labels p <= 512)%nat;
}.
Definition emits (p : CODE) : Prop := forall h n pid env lab ss ss' pc c,
  check_code locs res (length env) h p ss = Some ss' -> at_code n pid env lab p ss c -> bounded n pid env lab p ss -> bytes_at pc (coded p) ->
  goes (coded p) pc n n (n + code_len p) (items locs res env lab p ss) ss' (fun t => peak_code locs res t p ss) c.

Lemma at_code_became n pid env lab p ss lo hi its c c' : inv locs ss c' -> became lo hi its c c' -> ready func_id L (cv_enc c) ->
  env_is (cv_graph c) pid env -> shape (cv_graph c) L n pid lab p -> at_code n pid env lab p ss c'.
Proof.
  intros Hi Hb Hr He Hs. pose proof (bc_graph _ _ _ _ _ Hb) as Hk. split; [exact Hi | | |].
  - eapply ready_became; eauto.
  - eapply env_is_kept; eauto.
  - eapply shape_kept; eauto.
Qed.

Lemma at_has_stmts g n d : at_stmt g n d -> 0 <= n -> has_stmts g n 1.
Proof.
  intros H Hn k Hk. exists n. replace (n + Z.of_nat k) with n by lia. split; [eapply Get_stmt_id_at, H|].
  destruct (Stmt_id_at g n d H Hn) as (s & -> & _). reflexivity.
Qed.
Lemma target_lookup env v : (Z.to_nat v < length env)%nat -> env !! Z.to_nat v = Some (target env v).
Proof. intros H. destruct (lookup_lt_is_Some_2 _ _ H) as [l Hl]. unfold target. now rewrite (nth_lookup_Some _ _ _ _ Hl). Qed.

(** The body of a block or an arm, and its [end]. *)
Lemma body_end_run b h n pid env lab ss sb pc c o ppid lb l els l2 hi : emits b -> check_code locs res (length env) h b ss = Some sb ->
  at_code n pid env lab b ss c -> bounded n pid env lab b ss -> bytes_at pc (coded b ++ [END]) -> h = length ss -> pid < n -> hi = n + code_len b + 1 ->
  at_stmt (cv_graph c) (n + code_len b) (instr_stmt (n + code_len b) End pid) ->
  at_stmt (cv_graph c) pid (block_stmt pid o ppid lb (Z.of_nat l) els) -> recorded (cv_graph c) pid ss -> L !! l = Some (label_name false pid) ->
  o = Block \/ o = Loop \/ (o = If /\ els = 0) \/
    (o = Else /\ 0 <= els /\ (exists d, at_stmt (cv_graph c) els d /\ st_end_label d = Z.of_nat l2) /\ L !! l2 = Some (label_name false els)) ->
  goes (coded b ++ [END]) pc n n hi (items locs res env lab b ss ++ end_items o l l2) ss (fun t => peak_code locs res t b ss) c.
Proof.
  intros IH Hck Hat Hbd Hby -> Hpn -> He Hp Hrec HL Ho. apply bytes_at_app in Hby as [Hby _]. pose proof (code_len_nonneg b).
  pose proof (bo_pid _ _ _ _ _ _ Hbd). pose proof (bo_stack _ _ _ _ _ _ Hbd). pose proof (check_code_length locs res b _ _ _ _ Hck).
  eapply goes_weaken; [|eapply goes_app with (mid := n + code_len b);
    [lia | exact (IH _ _ _ _ _ _ _ _ _ Hck Hat Hbd Hby)|]]; [intros t; exact (Z.le_max_l _ (temps t ss))|].
  intros c' Hi Hb. pose proof (bc_graph _ _ _ _ _ Hb) as Hk. destruct (check_code_suffix locs res b ss _ _ _ _ Hck ltac:(lia) ltac:(reflexivity)) as [top ->].
  assert (ready func_id L (cv_enc c')) as Hr' by (eapply ready_became; [exact Hb | apply Hat]). rewrite code_len_coded. eapply goes_of_one, (goes_one END _ _ _ _ _ _ _ any_graph);
    [reflexivity | reflexivity | reflexivity | eapply at_stmt_kept; [exact Hk | exact He] | lia | exact Hr' | lia|].
  intros m. assert (inv locs (top ++ ss) (set_pc_map m c')) as Hi' by (now apply inv_pc_map).
  eapply (conv_end_goes locs func func_id L L_differ top ss (set_pc_map m c') _ pid); try exact Hi'.
  - exact Hr'.
  - eapply at_stmt_kept; [exact Hk | exact He].
  - lia.
  - lia.
  - eapply at_stmt_kept; [exact Hk | exact Hp].
  - eapply recorded_kept; [exact Hk | lia | lia | exact Hrec].
  - exact HL.
  - destruct Ho as [Ho|[Ho|[Ho|(E & E1 & (d & Hd & E2) & E3)]]]; auto. do 3 right. split; [exact E|]. split; [exact E1|]. split; [|exact E3].
    exists d. split; [eapply at_stmt_kept; [exact Hk | exact Hd] | exact E2].
  - rewrite length_app in *. lia.
Qed.

(** ** The cases *)
Lemma emits_end : emits C_End.
Proof.
  intros h n pid env lab ss ss' pc c Hck Hat Hbd Hby. cbn [check_code coded items code_len peak_code] in *. injection Hck as <-.
  eapply goes_weaken; [|eapply goes_nil, Hat]. intros t. pose proof (temps_nonneg t ss). cbn. lia.
Qed.

Lemma emits_simple cd k : emits k -> emits (C_Simple cd k).
Proof.
  intros IH h n pid env lab ss ss' pc c Hck [Hi Hr He [Hs Hk]] [B1 B2 B3 B4 B5] [Hbk [rest Hop]]%bytes_at_cons.
  cbn [check_code coded items code_len labels] in *. pose proof (code_len_nonneg k).
  destruct (source_of cd) as [i|] eqn:Es; [|discriminate]. cbn [mbind option_bind] in Hck. destruct (_ <=? _)%nat; [|discriminate].
  destruct (check1 locs i ss) as [ss1|] eqn:E1; [|discriminate]. cbn [mbind option_bind] in Hck.
  destruct (conv_inst_run locs module buf func func_id cd i ss ss1 c _ rest n Es (source_encode cd i pc Es) Hop E1 Hi (rd_current _ _ _ Hr)) as (c1 & R & V & C);
    [eapply at_has_stmts; [exact Hs | lia]|].
  pose proof (check1_cases _ _ _ _ E1) as (_ & _ & _ & _ & Hlen).
  eapply goes_weaken; [|apply (goes_app [cd] (coded k) pc n n (n + 1) _ _ _ ss1 ss' (fun t => temps t ss) (fun t => peak_code locs res t k ss1)); [lia| |]].
  - intros t. cbn [peak_code]. rewrite Es. cbn [mbind option_bind]. rewrite E1. lia.
  - exists c1. split; [cbn [insts_at conv_insts]; now rewrite (bind_run _ _ _ _ _ R)|]. split; [exact V|].
    pose proof (converted_became n (n + 1) _ _ _ C) as Hb. split; [exact Hb|]. eapply covers_became; [exact Hb | now apply covers_inv].
  - intros c' Hi' Hb'. rewrite Z.add_assoc. cbn [code_bytes map concat length] in *. rewrite app_nil_r.
    apply (IH h (n + 1) pid); [exact Hck | eapply at_code_became; eauto | split; auto; lia | exact Hbk].
Qed.

(** The instructions [cs0] open the block [bid]. *)
Definition opens (cs0 : list CODED) (pc : nat) (n bid : Z) (its : list ITEM) (ss : list SLOT) (x : VALTYPE -> Z) (c : CONV) : Prop :=
  exists c', conv_insts module buf func func_id (insts_at pc cs0) n c = Ok (tt, c') /\ inv locs ss c' /\
    became n (bid + 1) its c c' /\ recorded (cv_graph c') bid ss /\ covers (fun t => base locs t + x t) c'.

Lemma opens_one cd pc n its ss0 ss c (Q : WINST_STMT_GRAPH -> Prop) bid : inv locs ss0 c -> (forall g, Q g -> recorded g bid ss) ->
  (exists c', conv_insts module buf func func_id (insts_at pc [cd]) n c = Ok (tt, c') /\ inv locs ss c' /\ became n (bid + 1) its c c' /\ Q (cv_graph c')) ->
  opens [cd] pc n bid its ss (fun t => temps t ss0) c.
Proof.
  intros Hi HQ (c' & A & B & C & D). exists c'. split; [exact A|]. split; [exact B|]. split; [exact C|]. split; [auto|].
  eapply covers_became; [exact C | now apply covers_inv].
Qed.

(** A block that was opened: its body, its end, and the code after it. *)
Lemma block_run cs0 b k pc n bid its0 ss x0 c pid env lab1 lab2 o lb l els l2 h ss' sb tgt : emits b -> emits k ->
  opens cs0 pc n bid its0 ss x0 c -> n + Z.of_nat (length cs0) = bid + 1 -> 0 <= pid < n -> n <= bid ->
  ready func_id L (cv_enc c) -> env_is (cv_graph c) pid env ->
  check_code locs res (S (length env)) (length ss) b ss = Some sb -> check_code locs res (length env) h k ss = Some ss' ->
  at_stmt (cv_graph c) bid (block_stmt bid o pid lb (Z.of_nat l) els) -> leads (cv_graph c) (block_stmt bid o pid lb (Z.of_nat l) els) (Z.of_nat tgt) ->
  L !! l = Some (label_name false bid) ->
  shape (cv_graph c) L (bid + 1) bid lab1 b ->
  at_stmt (cv_graph c) (bid + 1 + code_len b) (instr_stmt (bid + 1 + code_len b) End bid) -> shape (cv_graph c) L (bid + 2 + code_len b) pid lab2 k ->
  o = Block \/ o = Loop \/ (o = If /\ els = 0) \/
    (o = Else /\ 0 <= els /\ (exists d, at_stmt (cv_graph c) els d /\ st_end_label d = Z.of_nat l2) /\ L !! l2 = Some (label_name false els)) ->
  bounded (bid + 1) bid (tgt :: env) lab1 b ss -> bounded (bid + 2 + code_len b) pid env lab2 k ss ->
  bytes_at pc (cs0 ++ coded b ++ END :: coded k) ->
  goes (cs0 ++ coded b ++ END :: coded k) pc n n (bid + 2 + code_len b + code_len k)
    (its0 ++ (items locs res (tgt :: env) lab1 b ss ++ end_items o l l2) ++ items locs res env lab2 k ss) ss'
    (fun t => Z.max (x0 t) (Z.max (peak_code locs res t b ss) (peak_code locs res t k ss))) c.
Proof.
  intros IHb IHk (c1 & R1 & V1 & C1 & Hrec & K1) Hlen Hpid Hn Hr He Hckb Hckk Hbs Hle HL Hsb Hse Hsk Ho Bb Bk Hby.
  pose proof (code_len_nonneg b). pose proof (code_len_nonneg k). pose proof (bc_graph _ _ _ _ _ C1) as K.
  apply bytes_at_app in Hby as [_ Hby]. replace (coded b ++ END :: coded k) with ((coded b ++ [END]) ++ coded k) in * by (now rewrite <- app_assoc).
  pose proof (bytes_at_app _ _ _ Hby) as [Hbb Hbk].
  apply (goes_then cs0 _ pc n n (bid + 1) (bid + 2 + code_len b + code_len k) its0 _ ss' x0 _ c c1); [lia | exact R1 | exact C1 | exact K1|].
  rewrite Hlen. pose proof (ready_became _ _ _ _ _ _ _ C1 Hr) as Hr1.
  apply (goes_app _ _ _ _ (bid + 1) (bid + 2 + code_len b) _ _ _ ss ss'); [lia| |].
  - eapply (body_end_run b _ (bid + 1) bid (tgt :: env) lab1 ss sb _ c1 o pid lb l els l2); try eassumption.
    + split; [exact V1 | exact Hr1 | | eapply shape_kept; [exact K | exact Hsb]].
      split; [lia|]. exists (block_stmt bid o pid lb (Z.of_nat l) els), pid. split; [eapply at_stmt_kept; [exact K | exact Hbs]|].
      split; [reflexivity|]. split; [reflexivity|]. split; [eapply leads_kept; [exact K | exact Hle] | eapply env_is_kept; [exact K | exact He]].
    + reflexivity.
    + lia.
    + lia.
    + eapply at_stmt_kept; [exact K | exact Hse].
    + eapply at_stmt_kept; [exact K | exact Hbs].
    + destruct Ho as [Ho|[Ho|[Ho|(E & E1 & (d & Hd & E2) & E3)]]]; auto. do 3 right. split; [exact E|]. split; [exact E1|]. split; [|exact E3].
      exists d. split; [eapply at_stmt_kept; [exact K | exact Hd] | exact E2].
  - intros c2 V2 C2. pose proof (bc_graph _ _ _ _ _ C2) as K2. rewrite length_app, Nat2Z.inj_add, code_len_coded. cbn [length].
    replace (bid + 1 + (code_len b + Z.of_nat 1)) with (bid + 2 + code_len b) by lia.
    apply (IHk h (bid + 2 + code_len b) pid); [exact Hckk| |exact Bk|exact Hbk].
    eapply at_code_became; [exact V2 | exact C2 | exact Hr1 | eapply env_is_kept; [exact K | exact He] | eapply shape_kept; [exact K | exact Hsk]].
Qed.

Lemma goes_items cs pc n lo hi its its' ss x c : its = its' -> goes cs pc n lo hi its ss x c -> goes cs pc n lo hi its' ss x c.
Proof. now intros ->. Qed.

Lemma emits_block b k : emits b -> emits k -> emits (C_Block b k).
Proof.
  intros IHb IHk h n pid env lab ss ss' pc c Hck [Hi Hr He (Hs & HL & Hsb & Hse & Hsk)] [B1 B2 B3 B4 B5] Hby.
  cbn [check_code coded items code_len labels] in *. pose proof (code_len_nonneg b). pose proof (code_len_nonneg k).
  destruct (check_code locs res (S (length env)) _ b ss) as [sb|] eqn:Eb; [|discriminate]. cbn [mbind option_bind] in Hck.
  assert (Forall (fun l => (l < 512)%nat) (lab :: env)) as B4' by (constructor; [lia | exact B4]).
  eapply goes_weaken; [|eapply goes_items; [|replace (n + (2 + code_len b + code_len k)) with (n + 2 + code_len b + code_len k) by lia;
    apply (block_run [mkCODED Block [VOID]] b k pc n n [] ss (fun t => temps t ss) c pid env (S lab) (S lab + labels b) Block UNSET lab 0 0 h ss' sb lab IHb IHk)]]; try eassumption; try lia; auto.
  - intros t. cbn [peak_code]. lia.
  - cbn [app end_items bool_decide]. now rewrite <- app_assoc.
  - eapply (opens_one _ _ _ _ _ _ _ (fun g => recorded g n ss)); [exact Hi | auto|]. eapply (goes_one (mkCODED Block [VOID]) pc n n (n + 1) [] ss c (fun g => recorded g n ss)); [reflexivity | reflexivity | reflexivity | exact Hs | lia | exact Hr | lia|].
    intros m. apply (conv_block_goes locs ss (set_pc_map m c) n pid (Z.of_nat lab)); [now apply inv_pc_map | exact Hs | lia | lia].
  - exact eq_refl.
  - split; cbn [length]; auto; lia.
  - split; auto; lia.
Qed.

Lemma emits_loop b k : emits b -> emits k -> emits (C_Loop b k).
Proof.
  intros IHb IHk h n pid env lab ss ss' pc c Hck [Hi Hr He (Hs & HL & HL2 & Hsb & Hse & Hsk)] [B1 B2 B3 B4 B5] Hby.
  cbn [check_code coded items code_len labels] in *. pose proof (code_len_nonneg b). pose proof (code_len_nonneg k).
  destruct (check_code locs res (S (length env)) _ b ss) as [sb|] eqn:Eb; [|discriminate]. cbn [mbind option_bind] in Hck.
  assert (Forall (fun l => (l < 512)%nat) (lab :: env)) as B4' by (constructor; [lia | exact B4]).
  eapply goes_weaken; [|eapply goes_items; [|replace (n + (2 + code_len b + code_len k)) with (n + 2 + code_len b + code_len k) by lia;
    apply (block_run [mkCODED Loop [VOID]] b k pc n n [I_label lab] ss (fun t => temps t ss) c pid env (S (S lab)) (S (S lab) + labels b) Loop (Z.of_nat lab) (S lab) 0 0 h ss' sb lab IHb IHk)]]; try eassumption; try lia; auto.
  - intros t. cbn [peak_code]. lia.
  - cbn [app end_items bool_decide]. now rewrite <- app_assoc.
  - eapply (opens_one _ _ _ _ _ _ _ (fun g => recorded g n ss)); [exact Hi | auto|].
    eapply (goes_one (mkCODED Loop [VOID]) pc n n (n + 1) _ ss c (fun g => recorded g n ss)); [reflexivity | reflexivity | reflexivity | exact Hs | lia | exact Hr | lia|].
    intros m. apply (conv_loop_goes locs func_id L L_differ ss (set_pc_map m c) n pid lab (Z.of_nat (S lab))); [now apply inv_pc_map | exact Hr | exact Hs | exact HL | lia | lia].
  - exact eq_refl.
  - split; cbn [length]; auto; lia.
  - split; auto; lia.
Qed.

Lemma emits_if b k : emits b -> emits k -> emits (C_If b k).
Proof.
  intros IHb IHk h n pid env lab ss ss' pc c Hck [Hi Hr He (Hs & HL & Hsb & Hse & Hsk)] [B1 B2 B3 B4 B5] Hby.
  cbn [check_code coded items code_len labels] in *. pose proof (code_len_nonneg b). pose proof (code_len_nonneg k).
  destruct (pop_cond locs h ss) as [ss1|] eqn:Ep; [|discriminate]. apply pop_cond_inv in Ep as (s & -> & Hty & _). cbn [mbind option_bind tail length] in *.
  destruct (check_code locs res (S (length env)) _ b ss1) as [sb|] eqn:Eb; [|discriminate]. cbn [mbind option_bind] in Hck.
  assert (Forall (fun l => (l < 512)%nat) (lab :: env)) as B4' by (constructor; [lia | exact B4]).
  eapply goes_weaken; [|eapply goes_items; [|replace (n + (2 + code_len b + code_len k)) with (n + 2 + code_len b + code_len k) by lia;
    apply (block_run [mkCODED If [VOID]] b k pc n n [I_inst (cond_inst locs Opcode.JEZ (s :: ss1) lab)] ss1 (fun t => temps t (s :: ss1)) c pid env (S lab) (S lab + labels b) If UNSET lab 0 0 h ss' sb lab IHb IHk)]]; try eassumption; try lia; auto.
  - intros t. cbn [peak_code tail]. lia.
  - cbn [app end_items bool_decide]. now rewrite <- app_assoc.
  - eapply (opens_one _ _ _ _ _ _ _ (fun g => recorded g n ss1)); [exact Hi | auto|].
    eapply (goes_one (mkCODED If [VOID]) pc n n (n + 1) _ ss1 c (fun g => recorded g n ss1)); [reflexivity | reflexivity | reflexivity | exact Hs | lia | exact Hr | lia|].
    intros m. apply (conv_if_goes locs s ss1 (set_pc_map m c) n pid lab); [now apply inv_pc_map | exact Hty | exact Hs | lia | lia | lia].
  - left. split; reflexivity.
  - split; cbn [length]; auto; lia.
  - split; auto; lia.
Qed.

Lemma branch_target depth L' v env : leb_u L' v && (Z.to_nat v <? depth)%nat = true -> depth = length env -> Forall (fun l => (l < 512)%nat) env ->
  leb_u L' v = true /\ env !! Z.to_nat v = Some (target env v) /\ (target env v < 512)%nat.
Proof.
  intros [Hv Hd]%andb_true_iff -> Hf. apply Nat.ltb_lt in Hd. pose proof (target_lookup env v Hd) as Ht.
  split; [exact Hv|]. split; [exact Ht|]. exact (Forall_lookup_1 _ _ _ _ Hf Ht).
Qed.

(** An instruction that opens no block, and what follows it. *)
Lemma one_run cd k pc n its ss ss1 ss' h pid env lab c u d x : emits k -> Encode (row_of (cd_op cd)) = cd_op cd -> UOPCODE_from_wasm (cd_op cd) = Ok u ->
  is_ok (Get_ty_am u) = true -> inv locs ss c -> ready func_id L (cv_enc c) -> env_is (cv_graph c) pid env -> at_stmt (cv_graph c) n d -> 0 <= n ->
  shape (cv_graph c) L (n + 1) pid lab k -> check_code locs res (length env) h k ss1 = Some ss' -> bounded (n + 1) pid env lab k ss1 ->
  (forall m, switch_goes locs (conv_switch module buf func func_id u (set_wasm_pc pc (row_of (cd_op cd))) n n) ss1 n (n + 1) its any_graph (set_pc_map m c)) ->
  bytes_at pc (cd :: coded k) -> (forall t, x t = Z.max (temps t ss) (peak_code locs res t k ss1)) ->
  goes (cd :: coded k) pc n n (n + (1 + code_len k)) (its ++ items locs res env lab k ss1) ss' x c.
Proof.
  intros IH E1 E2 E3 Hi Hr He Ha Hn Hk Hck Hb Hs [Hbk _]%bytes_at_cons Hx. pose proof (code_len_nonneg k).
  destruct (goes_one cd pc n n (n + 1) its ss1 c any_graph u d E1 E2 E3 Ha Hn Hr ltac:(lia) Hs) as (c1 & R & V & C & _).
  eapply goes_weaken; [|apply (goes_then [cd] (coded k) pc n n (n + 1) _ _ _ ss' (fun t => temps t ss) (fun t => peak_code locs res t k ss1) c c1); [lia | exact R | exact C| |]].
  - intros t. now rewrite Hx.
  - eapply covers_became; [exact C | now apply covers_inv].
  - rewrite Z.add_assoc. cbn [code_bytes map concat length]. rewrite app_nil_r.
    apply (IH h (n + 1) pid); [exact Hck | eapply at_code_became; eauto | exact Hb | exact Hbk].
Qed.

Lemma emits_br L' v k : emits k -> emits (C_Br L' v k).
Proof.
  intros IHk h n pid env lab ss ss' pc c Hck [Hi Hr He (Hs & Hk)] [B1 B2 B3 B4 B5] Hby.
  cbn [check_code coded items code_len labels] in *. pose proof (code_len_nonneg k).
  destruct (leb_u L' v && _) eqn:E; [|discriminate]. destruct (branch_target _ _ _ env E eq_refl B4) as (Hv & Ht & H512).
  pose proof Hby as [_ [rest Hop]]%bytes_at_cons. cbn [cd_imms map concat imm_bytes] in Hop. rewrite app_nil_r in Hop.
  eapply (one_run (mkCODED Br [LEB L' v]) k pc n [_] ss ss ss' h pid env lab c (mkPAIR Opcode.JMP I32) _ _ IHk); try reflexivity; try eassumption; try lia.
  - split; auto; lia.
  - intros m. eapply (conv_br_goes locs buf ss (set_pc_map m c) _ n pid env L' v (target env v)); try eassumption; try lia. now apply inv_pc_map.
Qed.

Lemma emits_br_if L' v k : emits k -> emits (C_BrIf L' v k).
Proof.
  intros IHk h n pid env lab ss ss' pc c Hck [Hi Hr He (Hs & Hk)] [B1 B2 B3 B4 B5] Hby.
  cbn [check_code coded items code_len labels] in *. pose proof (code_len_nonneg k).
  destruct (pop_cond locs h ss) as [ss1|] eqn:Ep; [|discriminate]. apply pop_cond_inv in Ep as (s & -> & Hty & _). cbn [mbind option_bind tail length] in *.
  destruct (leb_u L' v && _) eqn:E; [|discriminate]. destruct (branch_target _ _ _ env E eq_refl B4) as (Hv & Ht & H512).
  pose proof Hby as [_ [rest Hop]]%bytes_at_cons. cbn [cd_imms map concat imm_bytes] in Hop. rewrite app_nil_r in Hop.
  eapply (one_run (mkCODED BrIf [LEB L' v]) k pc n [_] (s :: ss1) ss1 ss' h pid env lab c (mkPAIR Opcode.JNZ I32) _ _ IHk); try reflexivity; try eassumption; try lia.
  - split; auto; lia.
  - intros m. eapply (conv_br_if_goes locs buf s ss1 (set_pc_map m c) _ n pid env L' v (target env v)); try eassumption; try lia. now apply inv_pc_map.
Qed.

Lemma emits_return k : emits k -> emits (C_Return k).
Proof.
  intros IHk h n pid env lab ss ss' pc c Hck [Hi Hr He (Hs & Hk)] [B1 B2 B3 B4 B5] Hby.
  cbn [check_code coded items code_len labels] in *. pose proof (code_len_nonneg k).
  destruct (pop_results locs res h ss) as [ss1|] eqn:Ep; [|discriminate]. cbn [mbind option_bind] in Hck. pose proof (pop_results_length locs res _ _ _ Ep).
  assert (drop (length res) ss = ss1) as E1 by (apply pop_results_inv in Ep as [(-> & ->)|(t & s & -> & -> & _)]; reflexivity).
  rewrite E1. eapply (one_run (mkCODED Return []) k pc n _ ss ss1 ss' h pid env lab c (mkPAIR Opcode.RETURN I32) _ _ IHk); try reflexivity; try eassumption; try lia.
  - split; auto; lia.
  - intros m. eapply (conv_return_goes locs res func func_id L ss ss1 h (set_pc_map m c) n); try eassumption. now apply inv_pc_map.
  - intros t. cbn [peak_code]. now rewrite E1.
Qed.

(** The first arm of a conditional, and the [else]. *)
Lemma arm_opens b1 pc n env lab pid ss0 s ss sb c l' : let e := n + 1 + code_len b1 in let other := (S lab + labels b1)%nat in
  emits b1 -> inv locs (s :: ss) c -> ss0 = s :: ss -> slot_ty locs s = Some I32 -> ready func_id L (cv_enc c) -> env_is (cv_graph c) pid env ->
  check_code locs res (S (length env)) (length ss) b1 ss = Some sb -> sb = ss ->
  at_stmt (cv_graph c) n (block_stmt n If pid UNSET (Z.of_nat lab) e) ->
  at_stmt (cv_graph c) e (block_stmt e Else pid (Z.of_nat other) (Z.of_nat (S other)) l') -> L !! other = Some (label_name true e) ->
  shape (cv_graph c) L (n + 1) n (S lab) b1 -> 0 < n -> (S other < 512)%nat -> Z.of_nat (length ss) < 2 ^ 32 ->
  bounded (n + 1) n (other :: env) (S lab) b1 ss -> bytes_at pc (mkCODED If [VOID] :: coded b1 ++ [ELSE]) ->
  opens (mkCODED If [VOID] :: coded b1 ++ [ELSE]) pc n e
    ([I_inst (cond_inst locs Opcode.JEZ ss0 other)] ++ items locs res (other :: env) (S lab) b1 ss ++ [I_inst (jump_inst (S other)); I_label other])
    ss (fun t => Z.max (temps t ss0) (peak_code locs res t b1 ss)) c.
Proof.
  intros e other IH Hi -> Hty Hr He Hck -> Hs Hse HLo Hsh Hn Ho Hlen Hb [Hby _]%bytes_at_cons. pose proof (code_len_nonneg b1). apply bytes_at_app in Hby as [Hby _].
  destruct (goes_one (mkCODED If [VOID]) pc n n (e + 1) _ ss c (fun g => recorded g e ss) (mkPAIR Opcode.JEZ I32) _ eq_refl eq_refl eq_refl Hs ltac:(lia) Hr ltac:(lia)
    (fun m => conv_if_else_goes locs s ss (set_pc_map m c) n e pid lab _ other _ (inv_pc_map _ _ _ _ Hi) Hty Hs Hse ltac:(lia) ltac:(lia) Hlen)) as (c1 & R1 & V1 & C1 & Hrec1).
  pose proof (bc_graph _ _ _ _ _ C1) as K1. pose proof (ready_became _ _ _ _ _ _ _ C1 Hr) as Hr1.
  assert (env_is (cv_graph c1) n (other :: env)) as He1.
  { split; [exact Hn|]. exists (block_stmt n If pid UNSET (Z.of_nat lab) e), pid. split; [eapply at_stmt_kept; [exact K1 | exact Hs]|].
    split; [reflexivity|]. split; [reflexivity|]. split; [|eapply env_is_kept; [exact K1 | exact He]]. right. split; [cbn; lia|].
    exists (block_stmt e Else pid (Z.of_nat other) (Z.of_nat (S other)) l'). split; [eapply at_stmt_kept; [exact K1 | exact Hse] | reflexivity]. }
  destruct (IH (length ss) (n + 1) n (other :: env) (S lab) ss ss (pc + length (coded_bytes (mkCODED If [VOID])))%nat c1 Hck) as (c2 & R2 & V2 & C2 & D2).
  { split; [exact V1 | exact Hr1 | exact He1 | eapply shape_kept; [exact K1 | exact Hsh]]. }
  { exact Hb. }
  { exact Hby. }
  change (n + 1 + code_len b1) with e in C2. pose proof (bc_graph _ _ _ _ _ C2) as K2. pose proof (ready_became _ _ _ _ _ _ _ C2 Hr1) as Hr2.
  assert (at_stmt (cv_graph c2) e (block_stmt e Else pid (Z.of_nat other) (Z.of_nat (S other)) l')) as Hse2 by (eapply at_stmt_kept; [exact K2|]; eapply at_stmt_kept; [exact K1 | exact Hse]).
  destruct (goes_one ELSE (pc + length (coded_bytes (mkCODED If [VOID])) + length (code_bytes (coded b1)))%nat e e e _ ss c2 any_graph (mkPAIR Opcode.JMP I32) _ eq_refl eq_refl eq_refl Hse2 ltac:(lia) Hr2 ltac:(lia)
    (fun m => conv_else_goes locs func_id L L_differ ss (set_pc_map m c2) e pid other l' (inv_pc_map _ _ _ _ V2) Hr2 Hse2 HLo ltac:(lia) Ho)) as (c3 & R3 & V3 & C3 & _).
  exists c3. split; [|split; [exact V3|split; [|split]]].
  - change (mkCODED If [VOID] :: coded b1 ++ [ELSE]) with ([mkCODED If [VOID]] ++ coded b1 ++ [ELSE]).
    rewrite !insts_at_app, (conv_insts_app _ _ _ _ _ _ _ _ _ R1). cbn [insts_at length]. rewrite (conv_insts_app _ _ _ _ _ _ _ _ _ R2), insts_at_length, code_len_coded. exact R3.
  - apply (became_join _ _ _ _ c c1 c3); [lia | exact C1|]. apply (became_join _ _ _ _ c1 c2 c3); [lia | eapply became_le; [| |exact C2]; lia | eapply became_le; [| |exact C3]; lia].
  - eapply recorded_kept; [exact (bc_graph _ _ _ _ _ C3) | lia | lia|]. eapply recorded_kept; [exact K2 | lia | lia | exact Hrec1].
  - pose proof (covers_became _ _ _ _ _ _ C1 (covers_inv _ _ _ Hi)) as D0. apply (covers_became _ _ _ _ _ _ C2), (covers_became _ _ _ _ _ _ C3) in D0.
    apply (covers_became _ _ _ _ _ _ C3) in D2. intros t x Hx. specialize (D0 t x Hx). specialize (D2 t x Hx). lia.
Qed.

Lemma emits_if_else b1 b2 k : emits b1 -> emits b2 -> emits k -> emits (C_IfElse b1 b2 k).
Proof.
  intros IH1 IH2 IHk h n pid env lab ss ss' pc c Hck [Hi Hr He (Hs & HL & Hs1 & Hse & HLo & HLo2 & Hs2 & Hsend & Hsk)] [B1 B2 B3 B4 B5] Hby.
  cbn [check_code coded items code_len labels] in *. pose proof (code_len_nonneg b1). pose proof (code_len_nonneg b2). pose proof (code_len_nonneg k).
  destruct (pop_cond locs h ss) as [ss1|] eqn:Ep; [|discriminate]. apply pop_cond_inv in Ep as (s & -> & Hty & _). cbn [mbind option_bind tail length] in *.
  destruct (check_code locs res (S (length env)) _ b1 ss1) as [sb|] eqn:E1; [|discriminate]. cbn [mbind option_bind] in Hck. destruct (decide (sb = ss1)) as [->|]; [|discriminate].
  destruct (check_code locs res (S (length env)) _ b2 ss1) as [sb2|] eqn:E2; [|discriminate]. cbn [mbind option_bind] in Hck.
  set (e := n + 1 + code_len b1) in *. set (other := (S lab + labels b1)%nat) in *.
  set (cs0 := mkCODED If [VOID] :: coded b1 ++ [ELSE]).
  assert (forall X, mkCODED If [VOID] :: coded b1 ++ ELSE :: X = cs0 ++ X) as Ecs by (intros X; unfold cs0; cbn [app]; now rewrite <- app_assoc).
  rewrite Ecs in *. pose proof (bytes_at_app _ _ _ Hby) as [Hby0 _].
  eapply goes_weaken; [|eapply goes_items; [|replace (n + (3 + code_len b1 + code_len b2 + code_len k)) with (e + 2 + code_len b2 + code_len k) by lia;
    apply (block_run cs0 b2 k pc n e _ ss1 _ c pid env (S (S other)) (S (S other) + labels b2) Else (Z.of_nat other) (S other) n lab h ss' sb2 (S other) IH2 IHk
      (arm_opens b1 pc n env lab pid (s :: ss1) s ss1 ss1 c n IH1 Hi eq_refl Hty Hr He E1 eq_refl Hs Hse HLo Hs1 ltac:(lia) ltac:(lia) ltac:(lia)
        ltac:(split; cbn [length]; [lia | lia | lia | constructor; [lia | exact B4] | lia]) Hby0))]]; try eassumption; try lia; auto.
  - intros t. cbn [peak_code tail]. lia.
  - unfold end_items. rewrite bool_decide_eq_true_2 by reflexivity. cbn [app]. now rewrite <- !app_assoc.
  - unfold cs0. cbn [length]. rewrite length_app. cbn [length]. pose proof (code_len_coded b1). lia.
  - exact eq_refl.
  - do 3 right. split; [reflexivity|]. split; [lia|]. split; [|exact HL]. eexists. split; [exact Hs | reflexivity].
  - split; cbn [length]; [lia | lia | lia | constructor; [lia | exact B4] | lia].
  - split; auto; lia.
Qed.

Lemma code_run p : emits p.
Proof.
  induction p; auto using emits_end, emits_simple, emits_block, emits_loop, emits_if, emits_if_else, emits_br, emits_br_if, emits_return.
Qed.
End Emission.
