(* ===== verification/Flow.v ===== *)
(** * The translation of a function with structured control flow

  [Wasm_to_uwasm] on the code of [Structured.v]: the zeros of the locals, what
  [conv_insts] adds for the body, the move of the result and [RETURN]; the label table
  has for every label the word where it was placed. *)

From S2P Require Import Prelude CInt BitField Wasm Isa Inst Expand Ubh UModule StrTab TypeEncoder Encoder Loading Code CodeSec Labels Writing Leb128 Winst Splitting LocalTable Graph Converter Convert Alloc Straight Creation Building Translation Structured Blocks Jumping Branching Emission.
From Stdlib Require Import ZArith Lia.
Local Open Scope Z_scope.
Import WINST.

(** Everything that a function becomes: its parameters, locals, types of results, its body
  and what is on the stack at the end of it. *)
Definition function_items {cb : ConvBuild} (ps ls res : list VALTYPE) (p : CODE) (ss : list SLOT) : list ITEM :=
  map I_inst (init_from (ps ++ ls) (length ps) ls) ++ items (ps ++ ls) res [] 0 p [] ++
  map I_inst (result_code (ps ++ ls) ss ++ [inst_for Opcode.RETURN I32 []]).

(** The word of the code at which a label is placed. *)
Fixpoint label_word (i : nat) (its : list ITEM) : option nat :=
  match its with
  | [] => None
  | I_inst x :: its => k ← label_word i its; Some (length (inst_words x) + k)%nat
  | I_label j :: its => if decide (i = j) then Some 0%nat else label_word i its
  end.

Lemma place_code its : forall b, U_CODE_BODY._inst_tab (place its b) = U_CODE_BODY._inst_tab b ++ code_of (item_insts its) /\
  U_CODE_BODY._ubh_code (place its b) = U_CODE_BODY._ubh_code b.
Proof.
  induction its as [|[x|i] its IH]; intros b; cbn [place place1 item_insts].
  - now rewrite app_nil_r.
  - destruct (IH (body_app (inst_words x) b)) as [E1 E2]. rewrite E1, E2, code_of_cons, app_assoc. now split.
  - exact (IH (place1 (I_label i) b)).
Qed.
Lemma place_other its i : forall b, i ∉ item_labels its -> U_CODE_BODY._lab_tab (place its b) !! i = U_CODE_BODY._lab_tab b !! i.
Proof.
  induction its as [|[x|j] its IH]; intros b Hi; cbn [place place1 item_labels] in *; [reflexivity | now rewrite IH|].
  rewrite not_elem_of_cons in Hi. destruct Hi as [H1 H2]. rewrite IH by exact H2. cbn. now rewrite list_lookup_insert_ne by auto.
Qed.
Lemma place_label its i : forall b, NoDup (item_labels its) -> i ∈ item_labels its -> (i < length (U_CODE_BODY._lab_tab b))%nat ->
  exists k, label_word i its = Some k /\ U_CODE_BODY._lab_tab (place its b) !! i = Some (INT32 (Z.of_nat (length (U_CODE_BODY._inst_tab b) + k))).
Proof.
  induction its as [|[x|j] its IH]; intros b Hnd Hi Hl; cbn [place place1 item_labels label_word] in *.
  - now apply not_elem_of_nil in Hi.
  - destruct (IH (body_app (inst_words x) b) Hnd Hi Hl) as (k & Hk & E). rewrite Hk. exists (length (inst_words x) + k)%nat. split; [reflexivity|].
    rewrite E. cbn [body_app U_CODE_BODY._inst_tab]. now rewrite length_app, Nat.add_assoc.
  - apply NoDup_cons in Hnd as [Hj Hnd]. destruct (decide (i = j)) as [->|Hne].
    + exists 0%nat. split; [reflexivity|]. rewrite place_other by exact Hj. cbn. rewrite list_lookup_insert_eq by exact Hl. now rewrite Nat.add_0_r.
    + apply elem_of_cons in Hi as [->|Hi]; [contradiction|]. destruct (IH (place1 (I_label j) b) Hnd Hi) as (k & Hk & E); [cbn; now rewrite length_insert|].
      exists k. split; [exact Hk | exact E].
Qed.

Section Flow.
Context {bd : Build} {vg : VectorGrowth} {cb : ConvBuild}.

Lemma check_code_simple locs res p : forall depth h ss ss', check_code locs res depth h p ss = Some ss' -> simple_code p.
Proof.
  induction p as [|cd k IH|b IHb k IHk|b IHb k IHk|b IHb k IHk|b1 IH1 b2 IH2 k IHk|L v k IH|L v k IH|k IH];
    intros depth h ss ss' H; cbn [check_code simple_code] in *; [exact I|..].
  - destruct (source_of cd) as [i|]; [|discriminate]. cbn [mbind option_bind] in H. destruct (_ <=? _)%nat; [|discriminate].
    destruct (check1 locs i ss); [|discriminate]. split; eauto.
  - destruct (check_code locs res (S depth) _ b ss) eqn:E; [|discriminate]. split; eauto.
  - destruct (check_code locs res (S depth) _ b ss) eqn:E; [|discriminate]. split; eauto.
  - destruct (pop_cond locs h ss); [|discriminate]. cbn [mbind option_bind] in H.
    destruct (check_code locs res (S depth) _ b l) eqn:E; [|discriminate]. split; eauto.
  - destruct (pop_cond locs h ss); [|discriminate]. cbn [mbind option_bind] in H.
    destruct (check_code locs res (S depth) _ b1 l) eqn:E; [|discriminate]. cbn [mbind option_bind] in H. destruct (decide _); [|discriminate].
    destruct (check_code locs res (S depth) _ b2 l) eqn:E2; [|discriminate]. split; eauto.
  - destruct (_ && _); [|discriminate]. eauto.
  - destruct (pop_cond locs h ss); [|discriminate]. cbn [mbind option_bind] in H. destruct (_ && _); [|discriminate]. eauto.
  - destruct (pop_results locs res h ss); [|discriminate]. eauto.
Qed.

Lemma function_labels ps ls res p ss ss' h : check_code (ps ++ ls) res 0 h p [] = Some ss' -> item_labels (function_items ps ls res p ss) ≡ₚ seq 0 (labels p).
Proof.
  intros H. unfold function_items. rewrite !item_labels_app, !item_labels_insts, app_nil_r. cbn [app]. eapply item_labels_items, H.
Qed.

Lemma Stmt_id_lookup g s : Stmt_id 0 g = Ok s -> _stmts g !! 0%nat = Some s.
Proof.
  unfold Stmt_id. destruct (Is_True _); [|discriminate]. cbn [mbind outcome_bind]. unfold vec_at. change (Z.to_nat 0) with 0%nat.
  destruct (_stmts g !! 0%nat); [|discriminate]. now intros [= ->].
Qed.
(** The [end] of the function. *)
Lemma conv_last_run module buf func fid locs ss c pc n : inv locs ss c -> current_body fid (cv_enc c) ->
  at_stmt (cv_graph c) n (instr_stmt n End 0) -> 0 <= n -> (exists s, Stmt_id 0 (cv_graph c) = Ok s /\ core s = root_stmt) ->
  length (sg_results (wf_sig func)) = length ss -> (length ss <= 1)%nat ->
  exists c', conv_insts module buf func fid (insts_at pc [END]) n c = Ok (tt, c') /\
    became n n (map I_inst (result_code locs ss ++ [inst_for Opcode.RETURN I32 []])) c c' /\ cv_local_tab c' = cv_local_tab c.
Proof.
  intros Hinv Hb Ha Hn (root & Hr & Er) Hlen H1.
  destruct (inst_size_run fid c Hb) as [sz Hsz]. set (m := insert_new n sz (cv_pc_map c)). set (c1 := set_pc_map m c).
  destruct (conv_func_end_run func fid locs ss c1 n (inv_pc_map locs ss _ c Hinv) Hb Hlen H1) as (c2 & R & C & Lt).
  destruct (Stmt_id_at _ n _ Ha Hn) as (st & Hs & E). assert (st_parent st = Some 0) as Ep by (change (st_parent (core st) = Some 0); now rewrite E).
  assert (stmt_at n c = Ok (st, c)) as Hst by (unfold stmt_at, graph_get; now rewrite (bind_run get _ c c c eq_refl), Hs).
  assert (stmt_at n c1 = Ok (st, c1)) as Hst1 by (unfold stmt_at, graph_get; rewrite (bind_run get _ c1 c1 c1 eq_refl); change (cv_graph c1) with (cv_graph c); now rewrite Hs).
  assert (stmt_at 0 c1 = Ok (root, c1)) as Hr1 by (unfold stmt_at, graph_get; rewrite (bind_run get _ c1 c1 c1 eq_refl); change (cv_graph c1) with (cv_graph c); now rewrite Hr).
  assert (conv_end func (mkPAIR Opcode.RETURN I32) n n c1 = Ok (ADD_INST (mkPAIR Opcode.RETURN I32) [], c2)) as He.
  { unfold conv_end. rewrite (bind_run _ _ _ _ _ Hst1), Ep. cbn [of_option]. rewrite (bind_run (lift (Ok 0)) _ c1 c1 0 eq_refl), (bind_run _ _ _ _ _ Hr1).
    rewrite bool_decide_eq_true_2 by (change (st_kind (core root) = WINST_STMT_ROOT_BLOCK); now rewrite Er). exact R. }
  assert (converted (result_code locs ss) c c2) as C' by (destruct C; split; auto).
  pose proof (add_inst_run Opcode.RETURN I32 [] c2 eq_refl (Forall_nil_2 _) (converted_nonempty _ _ _ C' (proj1 Hb))) as Hadd.
  eexists. split; [|split; [apply converted_became; eapply converted_app; [exact C' | apply converted_enc] | exact Lt]].
  assert (conv_inst module buf func fid (set_wasm_pc pc (row_of End)) n c = add_inst Opcode.RETURN I32 [] c2) as Hi.
  { unfold conv_inst. change (Encode (set_wasm_pc pc (row_of End))) with End. change (UOPCODE_from_wasm End) with (Ok (mkPAIR Opcode.RETURN I32)).
    assert (graph_get (Get_stmt_id_by_inst n) c = Ok (n, c)) as Hg
      by (unfold graph_get; rewrite (bind_run get _ c c c eq_refl), (Get_stmt_id_at _ n _ Ha); reflexivity).
    rewrite (bind_run (lift (Ok _)) _ c c _ eq_refl), (bind_run _ _ _ _ _ Hg), (bind_run _ _ _ _ _ Hst).
    rewrite (bind_run (lift (Get_ty_am (mkPAIR Opcode.RETURN I32))) _ c c TY_AM32 eq_refl), (bind_run _ _ _ _ _ Hsz).
    rewrite (bind_run (modify (fun c => set_pc_map (insert_new n sz (cv_pc_map c)) c)) _ c c1 tt eq_refl).
    unfold conv_switch. change (Encode (set_wasm_pc pc (row_of End))) with End. rewrite (bind_run _ _ _ _ _ He). reflexivity. }
  rewrite Hadd in Hi. change (insts_at pc [END]) with [set_wasm_pc pc (row_of End)]. cbn [conv_insts]. now rewrite (bind_run _ _ _ _ _ Hi).
Qed.

(** ** The whole *)
Lemma in_order_items fid its e : in_order fid e -> in_order fid (app_items its e).
Proof. unfold in_order, app_items. cbn. now rewrite length_upd_last. Qed.
Lemma in_order_requested fid ubh e v b0 L tab : in_order fid e -> U_ENCODER._u_inst_encoder e = v ++ [b0] -> in_order fid (requested ubh e v L tab).
Proof. unfold in_order, requested, enc_with. cbn. intros H Hv. rewrite Hv, length_app in H. rewrite length_app. exact H. Qed.

(** The conversion after the start, up to [finish_function]. *)
Lemma flow_function_run module func p ss fid c0 ps ls res v l0 : let buf := code_bytes (coded p ++ [END]) in
  created func ps ls c0 -> in_order fid (cv_enc c0) -> (forall t, base (ps ++ ls) t <= 126) ->
  U_ENCODER._u_inst_encoder (cv_enc c0) = v ++ [U_CODE_BODY.create l0 (0, 0, 0, 0) 0] ->
  conv_types (sg_results (wf_sig func)) = Ok res -> check_code (ps ++ ls) res 0 0 p [] = Some ss ->
  length res = length ss -> (length ss <= 1)%nat -> code_len p + 2 < 2 ^ 32 -> (labels p <= 512)%nat ->
  exists c1 c2 c4 tab, build_graph buf (insts_at 0 (coded p ++ [END])) c0 = Ok (tt, c1) /\ cv_local_map c1 = cv_local_map c0 /\
    init_locals (drop (length (sg_params (wf_sig func))) (cv_local_map c0)) c1 = Ok (tt, c2) /\
    conv_insts module buf func fid (insts_at 0 (coded p ++ [END])) BLOCK_INSTR_BEGIN c2 = Ok (tt, c4) /\
    cv_enc c4 = app_items (function_items ps ls res p ss)
      (requested (U_CODE_BODY._ubh_code (U_CODE_BODY.create l0 (0, 0, 0, 0) 0)) (cv_enc c0) v (names 1 p) tab) /\ cv_calls c4 = [] /\
    forall t, is_value_type t = true -> exists l, pt_get t (cv_local_tab c4) = Ok l /\ Z.of_nat (length (_content l)) <= 128 /\
      base (ps ++ ls) t + peak_code (ps ++ ls) res t p [] <= RET_REG_NUM + Z.of_nat (length (_content l)).
Proof.
  intros buf Hc0 Hord Hbase Hv Hres Hck Hlr Hss Hlen Hlab. set (b0 := U_CODE_BODY.create l0 (0, 0, 0, 0) 0) in *. pose proof (code_len_nonneg p) as Hp0.
  assert (names_fit (names 1 p)) as Hfit.
  { apply label_names_fit; [|now rewrite length_names]. apply Forall_forall. intros nm H. apply names_elem in H as (x & i & -> & _). eauto. }
  destruct (build_code_graph buf p c0 v b0 (check_code_simple _ _ _ _ _ _ _ Hck) eq_refl (cr_graph _ _ _ _ Hc0) Hv eq_refl eq_refl eq_refl Hlen Hfit)
    as (tab & g & Hg & Hnamed & Hshape & Hend & Hroot).
  set (enc1 := requested (U_CODE_BODY._ubh_code b0) (cv_enc c0) v (names 1 p) tab) in *. set (c1 := set_graph g (set_enc enc1 c0)) in *.
  pose proof Hc0 as [P1 P2 T K G S C R B].
  assert (inv (ps ++ ls) [] c1) as Hinv1 by (apply inv_graph, inv_enc, inv_start; assumption).
  assert (in_order fid enc1) as Hord1 by (eapply in_order_requested; eauto).
  assert (NoDup (names 1 p)) as Hnd by (apply names_NoDup; lia).
  set (b1 := U_CODE_BODY.mk (U_CODE_BODY._ubh_code b0) [] (replicate (length (names 1 p)) UNINIT_LABEL_IDX) tab).
  assert (U_ENCODER._u_inst_encoder enc1 = v ++ [b1]) as Hv1 by reflexivity.
  assert (current_body fid enc1) as Hcur1 by (eapply in_order_body; eauto).
  assert (ready fid (names 1 p) enc1) as Hr1.
  { split; [exact Hcur1|]. exists v, b1. split; [exact Hv1|]. split; [exact Hnamed | apply length_replicate]. }
  destruct (init_locals_run ps ls (drop (length (sg_params (wf_sig func))) (cv_local_map c0)) (length ps) ls c1 Hinv1 (proj1 Hcur1)) as (e2 & Hin & Cin).
  { rewrite <- (conv_types_length _ _ P1). exact K. }
  { rewrite length_drop, <- (conv_types_length _ _ P1), (tf_map _ _ T), length_app. lia. }
  { intros k t Hk. assert ((ps ++ ls) !! (length ps + k)%nat = Some t) as Ht
      by (rewrite lookup_app_r by lia; now replace (length ps + k - length ps)%nat with k by lia).
    split; [exact Ht|]. destruct (tf_reg _ _ T _ _ Ht) as [kd Hkd]. exists kd. rewrite lookup_drop, <- (conv_types_length _ _ P1). exact Hkd. }
  set (c2 := set_enc e2 c1) in *. pose proof (converted_became 1 1 _ _ _ Cin) as B2.
  destruct (code_run (ps ++ ls) res module buf func fid (names 1 p) Hnd Hres p 0%nat 1 0 [] 0%nat [] ss 0%nat c2 Hck) as (c3 & R3 & V3 & C3 & K3).
  { split; [apply inv_enc; exact Hinv1 | eapply ready_became; [exact B2 | exact Hr1] | exact I | exact Hshape]. }
  { split; cbn [length]; [lia | lia | lia | constructor | lia]. }
  { exists (coded_bytes END). unfold buf. now rewrite code_bytes_app. }
  pose proof (ready_became _ _ _ _ _ _ _ C3 (ready_became _ _ _ _ _ _ _ B2 Hr1)) as Hr3. pose proof (bc_graph _ _ _ _ _ C3) as Kg.
  destruct (conv_last_run module buf func fid (ps ++ ls) ss c3 (length (code_bytes (coded p))) (1 + code_len p) V3 (rd_current _ _ _ Hr3)) as (c4 & R4 & C4 & L4).
  { eapply at_stmt_kept; [exact Kg | exact Hend]. }
  { lia. }
  { destruct Hroot as (s & Hs & Es). pose proof (Stmt_id_lookup g s Hs) as H0.
    assert (core <$> _stmts (cv_graph c3) !! 0%nat = Some root_stmt) as H3 by (rewrite (gk_core _ _ _ _ Kg); change (cv_graph c2) with g; now rewrite H0, <- Es).
    apply fmap_Some in H3 as (s3 & Hs3 & E3). exists s3. split; [exact (Stmt_id_run _ 0 s3 Hs3) | now symmetry]. }
  { rewrite <- (conv_types_length _ _ Hres). exact Hlr. }
  { exact Hss. }
  exists c1, c2, c4, tab. split; [exact Hg|]. split; [reflexivity|]. split; [exact Hin|]. split; [|split; [|split]].
  - change BLOCK_INSTR_BEGIN with 1. rewrite insts_at_app, (conv_insts_app _ _ _ _ _ _ _ _ _ R3), insts_at_length, code_len_coded. exact R4.
  - rewrite (bc_enc _ _ _ _ _ C4), (bc_enc _ _ _ _ _ C3), (bc_enc _ _ _ _ _ B2), <- !app_items_app. reflexivity.
  - rewrite (bc_calls _ _ _ _ _ C4), (bc_calls _ _ _ _ _ C3). exact C.
  - intros t Ht. destruct (pt_get_value t (cv_local_tab c4) Ht) as [l Hl]. exists l. split; [exact Hl|].
    rewrite L4 in Hl. split; [exact (ti_small _ _ _ _ (iv_tabs _ _ _ V3 t l Hl)) | exact (K3 t l Hl)].
Qed.

Lemma update_range l io sz c : in_u 320 c -> in_u 320 (UBH_CODE.Update_ubh_code l io sz c).
Proof.
  intros Hc. destruct l as [[[l0 l1] l2] l3], io as [[[i0 i1] i2] i3]. unfold UBH_CODE.Update_ubh_code.
  repeat (apply fset_range; [reflexivity | discriminate|]). exact Hc.
Qed.

(** What the translation leaves: the code, the label table, and registers for the code. *)
Definition flow_translated (ps ls res : list VALTYPE) (p : CODE) (ss : list SLOT) (fid : Z) (c : CONV) : Prop :=
  let its := function_items ps ls res p ss in
  exists body, U_ENCODER.Get_inst_encoder fid (cv_enc c) = Ok body /\
    U_CODE_BODY._inst_tab body = code_of (item_insts its) /\
    length (U_CODE_BODY._lab_tab body) = labels p /\
    (forall i, (i < labels p)%nat -> exists k, label_word i its = Some k /\ U_CODE_BODY._lab_tab body !! i = Some (INT32 (Z.of_nat k))) /\
    in_u 320 (U_CODE_BODY._ubh_code body) /\
    forall t, is_value_type t = true ->
      base (ps ++ ls) t + peak_code (ps ++ ls) res t p [] <= Loading.locals t (U_CODE_BODY._ubh_code body).

Lemma Wasm_to_uwasm_flow module func p ss ctx e fid c0 ps ls res : let buf := code_bytes (coded p ++ [END]) in
  GetFunc module (fc_func_idx ctx) = Ok func -> Create_ubh_code func (conv0 ctx e) = Ok (fid, c0) ->
  created func ps ls c0 -> in_order fid (cv_enc c0) -> (forall t, base (ps ++ ls) t <= 126) ->
  conv_types (sg_results (wf_sig func)) = Ok res -> check_code (ps ++ ls) res 0 0 p [] = Some ss ->
  length res = length ss -> (length ss <= 1)%nat -> code_len p + 2 < 2 ^ 32 -> (labels p <= 512)%nat ->
  exists c, Wasm_to_uwasm module (insts_at 0 (coded p ++ [END])) buf ctx e = Ok c /\ flow_translated ps ls res p ss fid c.
Proof.
  intros buf Hf Hcr Hc0 Hord Hbase Hres Hck Hlr Hss Hlen Hlab. pose proof (cr_body _ _ _ _ Hc0) as (v & l0 & Hv).
  destruct (flow_function_run module func p ss fid c0 ps ls res v l0 Hc0 Hord Hbase Hv Hres Hck Hlr Hss Hlen Hlab)
    as (c1 & c2 & c4 & tab & Hg & Hmap & Hin & Hcv & He & Hcalls & K).
  set (its := function_items ps ls res p ss) in *. set (ubh := U_CODE_BODY._ubh_code _) in *.
  set (b1 := U_CODE_BODY.mk ubh [] (replicate (length (names 1 p)) UNINIT_LABEL_IDX) tab).
  assert (U_ENCODER._u_inst_encoder (cv_enc c4) = v ++ [place its b1]) as Hb4.
  { rewrite He. match goal with |- U_ENCODER._u_inst_encoder (app_items its ?r) = _ => now rewrite (app_items_last its r v b1 eq_refl) end. }
  assert (in_order fid (cv_enc c4)) as Hord4 by (rewrite He; apply in_order_items; eapply in_order_requested; eauto).
  destruct (finish_function_run module fid c4 v _ Hcalls Hord4 Hb4) as (c' & Hfin & Hget).
  destruct (place_code its b1) as [Ecode _]. destruct (place_tab its b1) as [_ Elen]. exists c'. split; [|eexists; split; [exact Hget|split; [|split; [|split; [|split]]]]].
  - unfold Wasm_to_uwasm. rewrite Hf. cbn [mbind outcome_bind]. fold buf. rewrite (bind_run _ _ _ _ _ Hcr), (bind_run _ _ _ _ _ Hg).
    rewrite (bind_run get _ _ _ _ eq_refl), Hmap, (bind_run _ _ _ _ _ Hin), (bind_run _ _ _ _ _ Hcv), Hfin. reflexivity.
  - exact Ecode.
  - etransitivity; [exact Elen|]. cbn. now rewrite length_replicate, length_names.
  - intros i Hi. pose proof (function_labels ps ls res p ss ss 0%nat Hck) as Hperm. fold its in Hperm.
    destruct (place_label its i b1) as (k & Hk & E); [rewrite Hperm; apply NoDup_seq | rewrite Hperm; apply elem_of_seq; lia | cbn; rewrite length_replicate, length_names; exact Hi|].
    exists k. split; [exact Hk | exact E].
  - cbn [U_CODE_BODY.Update_ubh_code U_CODE_BODY._ubh_code]. apply update_range. rewrite (proj2 (place_code its b1)). apply create_range.
  - intros t Ht. destruct (K t Ht) as (l & Hl & H128 & Hle). now rewrite (declared_locals t l c4 Ht Hl H128).
Qed.
End Flow.
