(* ===== verification/Calls.v ===== *)
(** * The moves around calls

  [Wasm_to_uwasm] fixes the moves of arguments and results when the number of locals is
  known: [fix_params] and [fix_call] write the registers of the callee's window. *)

From S2P Require Import Prelude CInt BitField Isa Inst Ubh UModule StrTab TypeEncoder Encoder Leb128 Winst LocalTable Graph Converter Convert Alloc Straight Translation.
From Stdlib Require Import ZArith Lia.
Local Open Scope Z_scope.

Section Calls.
Context {bd : Build} {vg : VectorGrowth} {cb : ConvBuild}.
Variable func_id : Z.

(** The words of the current function. *)
Record body_is (tab : list Z) (c : CONV) : Prop := {
  bi_order : in_order func_id (cv_enc c);
  bi_words : exists v b, U_ENCODER._u_inst_encoder (cv_enc c) = v ++ [b] /\ U_CODE_BODY._inst_tab b = tab;
}.

Lemma word_at_run tab c i w : body_is tab c -> tab !! i = Some w -> word_at func_id (Z.of_nat i) c = Ok (w, c).
Proof.
  intros [Ho (v & b & Hv & <-)] Hi. unfold word_at, code_body. rewrite bind_bind, (bind_run get _ c c c eq_refl).
  rewrite (proj1 (Get_inst_encoder_last func_id _ v b Ho Hv)). rewrite (bind_run (lift (Ok b)) _ c c b eq_refl).
  unfold vec_at. now rewrite Nat2Z.id, Hi.
Qed.

Lemma set_word_run tab c i w : body_is tab c ->
  exists e, set_word func_id (Z.of_nat i) w c = Ok (tt, set_enc e c) /\ body_is (<[i := w]> tab) (set_enc e c).
Proof.
  intros [Ho (v & b & Hv & <-)]. destruct (Get_inst_encoder_last func_id _ v b Ho Hv) as [Hg Hi].
  unfold set_word, upd_body. rewrite Hg, Hi, Hv, Nat2Z.id. eexists. split; [reflexivity|].
  set (b' := U_CODE_BODY.mk _ _ _ _). set (e' := U_ENCODER.set_codes _ _ _).
  assert (U_ENCODER._u_inst_encoder e' = v ++ [b']) as Hv'.
  { unfold e'. cbn [U_ENCODER.set_codes U_ENCODER._u_inst_encoder]. replace (length v) with (length v + 0)%nat by lia. exact (insert_app_r v [b] 0 _). }
  split; [|exists v, b'; split; [exact Hv' | reflexivity]]. destruct Ho as (O1 & O2 & O3). rewrite Hv, length_app in *. cbn [length] in *.
  change (cv_enc (set_enc e' c)) with e'. unfold in_order. rewrite Hv', length_app. cbn [length].
  change (U_ENCODER._func_tab e') with (U_ENCODER._func_tab (cv_enc c)). auto.
Qed.

(** A move of a type. *)
Definition mov_word (t : VALTYPE) (w : Z) : Prop := U_INST32.Opcode w = Opcode.MOV /\ U_INST32.Valtype w = t.
Lemma mov_valtype_run t w is_true : (is_true true = Ok tt) -> mov_word t w -> mov_valtype is_true w = Ok t.
Proof.
  intros Ht [Ho Hv]. unfold mov_valtype. rewrite Ho, Z.eqb_refl, Ht. cbn [mbind outcome_bind].
  unfold U_INST32.Ty_am. rewrite Ho. change (UWINST_TY_AM Opcode.MOV) with (Ok TY_AM32_R_R). cbn [mbind outcome_bind].
  rewrite bool_decide_eq_true_2, Ht by reflexivity. cbn [mbind outcome_bind mret outcome_ret]. now rewrite Hv.
Qed.

Lemma fix_params_run (total : per_type Z) ps : forall done pos tab c used, body_is tab c ->
  Forall (fun t => is_value_type t = true) ps ->
  (forall j t, ps !! j = Some t -> exists w, tab !! (pos + j)%nat = Some w /\ mov_word t w) ->
  (forall t, is_value_type t = true -> pt_get t used = Ok (count t done)) ->
  (forall t n, pt_get t total = Ok n -> 0 <= n < 2 ^ 16) -> Z.of_nat (length done + length ps) < 2 ^ 16 ->
  Z.of_nat (pos + length ps) < 2 ^ 32 ->
  exists e tab', fix_params func_id (length ps) (Z.of_nat pos) total used c = Ok (tt, set_enc e c) /\ body_is tab' (set_enc e c) /\
    (forall j t n w, ps !! j = Some t -> pt_get t total = Ok n -> tab !! (pos + j)%nat = Some w ->
      tab' !! (pos + j)%nat = Some (fset U_INST32.R_R_r1 (n + RET_REG_NUM + count t (done ++ take j ps)) w)) /\
    (forall i, (i < pos \/ pos + length ps <= i)%nat -> tab' !! i = tab !! i).
Proof.
  induction ps as [|t ps IH]; intros done pos tab c used Hb Hty Hmov Hused Htot Hlen Hpos.
  - exists (cv_enc c), tab. replace (set_enc (cv_enc c) c) with c by now destruct c. split; [reflexivity|]. split; [exact Hb|]. split; [discriminate | auto].
  - inversion Hty as [|? ? Ht Hty' [E1 E2]]. cbn [length] in *. destruct (Hmov 0%nat t eq_refl) as (w & Hw & Hm). rewrite Nat.add_0_r in Hw.
    destruct (pt_get_value t total Ht) as [n Hn]. pose proof (Htot t n Hn) as Hnb. pose proof (count_nonneg t done). pose proof (count_le_length t done).
    pose proof RET_REG_NUM_range. set (w' := fset U_INST32.R_R_r1 (n + RET_REG_NUM + count t done) w).
    destruct (set_word_run tab c pos w' Hb) as (e1 & R1 & B1).
    assert (pos < length tab)%nat as Hlt by (now apply lookup_lt_Some in Hw).
    destruct (IH (done ++ [t]) (S pos) (<[pos := w']> tab) (set_enc e1 c) (pt_set t (count t done + 1) used) B1 Hty') as (e & tab' & R & B & Hin & Hout).
    + intros j u Hj. rewrite list_lookup_insert_ne by lia. destruct (Hmov (S j) u Hj) as (z & Hx & Hu).
      exists z. split; [|exact Hu]. now rewrite Nat.add_succ_r in Hx.
    + intros u Hu. rewrite count_app. cbn [count]. destruct (decide (t = u)) as [<-|Hne].
      * rewrite pt_get_set_same by exact Ht. f_equal; lia.
      * rewrite pt_get_set_other by congruence. rewrite Hused by exact Hu. f_equal; lia.
    + exact Htot.
    + rewrite length_app. cbn [length]. lia.
    + lia.
    + exists e, tab'. split; [|split; [exact B|split]].
      * cbn [length fix_params]. rewrite (bind_run _ _ _ _ _ (word_at_run tab c pos w Hb Hw)).
        rewrite (mov_valtype_run t w Is_True_Rel Is_True_Rel_true Hm), (bind_run (lift (Ok t)) _ c c t eq_refl).
        rewrite Hn, (bind_run (lift (Ok n)) _ c c n eq_refl), (Hused t Ht), (bind_run (lift (Ok _)) _ c c _ eq_refl).
        rewrite (UINT32_id (n + RET_REG_NUM + count t done)) by lia. fold w'. rewrite (bind_run _ _ _ _ _ R1).
        rewrite (UINT32_id (Z.of_nat pos + 1)), (UINT32_id (count t done + 1)) by lia.
        replace (Z.of_nat pos + 1) with (Z.of_nat (S pos)) by lia. exact R.
      * intros j u m z Hj Hm' Hx. destruct j as [|j].
        -- injection Hj as <-. rewrite Nat.add_0_r in *. rewrite Hw in Hx. injection Hx as <-. rewrite Hn in Hm'. injection Hm' as <-.
           rewrite Hout by lia. cbn [take]. rewrite app_nil_r. now apply list_lookup_insert_eq.
        -- rewrite Nat.add_succ_r in *. cbn [take]. change (S (pos + j)) with (S pos + j)%nat in *.
           rewrite (Hin j u m z Hj Hm') by (now rewrite list_lookup_insert_ne by lia). now rewrite <- (assoc_L (++)).
      * intros i Hi. rewrite Hout by lia. apply list_lookup_insert_ne. lia.
Qed.

(** ** A direct call *)
Definition shift_of (t : VALTYPE) (c : CONV) : outcome Z :=
  pt_get t (pt_map (fun l => UINT32 (RET_REG_NUM + tab_size l)) (cv_local_tab c)).
Lemma shift_of_run t c l : pt_get t (cv_local_tab c) = Ok l -> Z.of_nat (length (_content l)) < 1000 ->
  shift_of t c = Ok (RET_REG_NUM + Z.of_nat (length (_content l))).
Proof.
  intros Hl Hb. pose proof RET_REG_NUM_range. unfold shift_of, pt_map, tab_size.
  destruct t; cbn [pt_get] in *; try discriminate; injection Hl as <-; cbn [pt_i32 pt_i64 pt_f32 pt_f64];
    rewrite (UINT32_id (Z.of_nat _)), UINT32_id by lia; reflexivity.
Qed.

(** The moves before and after the call at [pc]. *)
Record call_at (tab : list Z) (module : WABT_MODULE) (pc : nat) (ps rs : list VALTYPE) : Prop := {
  ca_call : exists w f, tab !! pc = Some w /\ U_INST32.Opcode w = Opcode.CALL /\
    GetFunc module (fget U_INST32.OFS_ofs w) = Ok f /\ length (sg_params (wf_sig f)) = length ps /\ length (sg_results (wf_sig f)) = length rs;
  ca_place : (length ps <= pc)%nat;
  ca_args : forall j t, ps !! j = Some t -> exists w, tab !! (pc - length ps + j)%nat = Some w /\ mov_word t w;
  ca_results : forall t, rs = [t] -> exists w, tab !! S pc = Some w /\ mov_word t w;
  ca_one : (length rs <= 1)%nat;
}.
Definition small_tabs (c : CONV) : Prop := forall t l, pt_get t (cv_local_tab c) = Ok l -> Z.of_nat (length (_content l)) < 900.

Lemma shift_of_range t c n : small_tabs c -> shift_of t c = Ok n -> 1 <= n < 902.
Proof.
  intros Hs Hn. pose proof RET_REG_NUM_range. destruct (pt_get t (cv_local_tab c)) as [l|] eqn:E; [|now destruct t].
  pose proof (Hs t l E). rewrite (shift_of_run t c l E) in Hn by lia. injection Hn as <-. lia.
Qed.

Lemma fix_call_run module tab c pc ps rs : body_is tab c -> call_at tab module pc ps rs ->
  Forall (fun t => is_value_type t = true) ps -> Forall (fun t => is_value_type t = true) rs -> small_tabs c -> Z.of_nat (S pc) < 2 ^ 16 ->
  exists e tab', fix_call module func_id (Z.of_nat pc) c = Ok (tt, set_enc e c) /\ body_is tab' (set_enc e c) /\
    (forall j t n w, ps !! j = Some t -> shift_of t c = Ok n -> tab !! (pc - length ps + j)%nat = Some w ->
      tab' !! (pc - length ps + j)%nat = Some (fset U_INST32.R_R_r1 (n + local_reg ps j) w)) /\
    (forall t n w, rs = [t] -> shift_of t c = Ok n -> tab !! S pc = Some w -> tab' !! S pc = Some (fset U_INST32.R_R_r2 n w)) /\
    (forall i, (i < pc - length ps \/ i = pc \/ pc + length rs < i)%nat -> tab' !! i = tab !! i).
Proof.
  intros Hb [(w & f & Hw & Hop & Hf & Hlp & Hlr) Hpl Hargs Hres H1] Hps Hrs Hsm Hpc.
  set (total := pt_map (fun l => UINT32 (RET_REG_NUM + tab_size l)) (cv_local_tab c)).
  destruct (fix_params_run total ps [] (pc - length ps) tab c (pt_all 0) Hb Hps Hargs) as (e1 & tab1 & R1 & B1 & In1 & Out1).
  { intros t Ht. now destruct t. }
  { intros t n Hn. pose proof (shift_of_range t c n Hsm Hn). lia. }
  { cbn [length]. lia. }
  { lia. }
  assert (fix_call module func_id (Z.of_nat pc) c = (when (length rs =? 1)%nat
    (let mov_pc := UINT32 (Z.of_nat pc + 1) in
     w ← word_at func_id mov_pc;
     valtype ← lift (mov_valtype Is_True w);
     t ← lift (pt_get valtype total);
     set_word func_id mov_pc (fset U_INST32.R_R_r2 t w))) (set_enc e1 c)) as ->.
  { unfold fix_call. rewrite (bind_run get _ c c c eq_refl), (bind_run _ _ _ _ _ (word_at_run tab c pc w Hb Hw)).
    rewrite Hop. cbn [Z.eqb Opcode.CALL Pos.eqb orb]. rewrite Is_True_true, (bind_run (lift (Ok tt)) _ c c tt eq_refl).
    rewrite Hf. cbn [mbind outcome_bind mret outcome_ret]. rewrite (bind_run (lift (Ok (wf_sig f))) _ c c _ eq_refl). rewrite Hlp, Hlr.
    rewrite (UINT32_id (Z.of_nat pc - _)) by lia. replace (Z.of_nat pc - Z.of_nat (length ps)) with (Z.of_nat (pc - length ps)) by lia.
    fold total. rewrite (bind_run _ _ _ _ _ R1). rewrite (proj2 (Z.leb_le _ _)), Is_True_true by lia.
    rewrite (bind_run (lift (Ok tt)) _ _ _ tt eq_refl). reflexivity. }
  assert (forall j t n w', ps !! j = Some t -> shift_of t c = Ok n -> tab !! (pc - length ps + j)%nat = Some w' ->
    tab1 !! (pc - length ps + j)%nat = Some (fset U_INST32.R_R_r1 (n + local_reg ps j) w')) as In1'.
  { intros j t n w' Hj Hn Hw'. rewrite (In1 j t n w' Hj Hn Hw'). unfold local_reg. rewrite Hj. cbn [app]. now rewrite Z.add_assoc. }
  destruct rs as [|t [|]]; [| |cbn in H1; lia]; cbn [length Nat.eqb when].
  - exists e1, tab1. split; [reflexivity|]. split; [exact B1|]. split; [exact In1'|]. split; [discriminate|].
    intros i Hi. apply Out1. cbn [length] in Hi. lia.
  - destruct (Hres t eq_refl) as (wr & Hwr & Hm). pose proof (Forall_inv Hrs) as Ht. cbn beta in Ht.
    destruct (pt_get_value t (cv_local_tab c) Ht) as [l Hl]. pose proof (Hsm t l Hl) as Hlb.
    pose proof (shift_of_run t c l Hl ltac:(lia)) as Hsh. set (n := RET_REG_NUM + Z.of_nat (length (_content l))) in *.
    assert (tab1 !! S pc = Some wr) as Hwr1 by (rewrite Out1 by lia; exact Hwr).
    destruct (set_word_run tab1 (set_enc e1 c) (S pc) (fset U_INST32.R_R_r2 n wr) B1) as (e2 & R2 & B2).
    exists e2, (<[S pc := fset U_INST32.R_R_r2 n wr]> tab1). split; [|split; [exact B2|split; [|split]]].
    + cbv zeta. rewrite (UINT32_id (Z.of_nat pc + 1)) by lia. replace (Z.of_nat pc + 1) with (Z.of_nat (S pc)) by lia.
      rewrite (bind_run _ _ _ _ _ (word_at_run tab1 _ (S pc) wr B1 Hwr1)).
      rewrite (mov_valtype_run t wr Is_True Is_True_true Hm), (bind_run (lift (Ok t)) _ _ _ t eq_refl).
      unfold shift_of in Hsh. fold total in Hsh. rewrite Hsh, (bind_run (lift (Ok n)) _ _ _ n eq_refl). exact R2.
    + intros j u m w' Hj Hm' Hw'. pose proof (lookup_lt_Some _ _ _ Hj). rewrite list_lookup_insert_ne by lia. exact (In1' j u m w' Hj Hm' Hw').
    + intros u m w' [= <-] Hm' Hw'. rewrite Hsh in Hm'. injection Hm' as <-. rewrite Hwr in Hw'. injection Hw' as <-.
      apply list_lookup_insert_eq. now apply lookup_lt_Some in Hwr1.
    + intros i Hi. cbn [length] in Hi. rewrite list_lookup_insert_ne by lia. apply Out1. lia.
Qed.
End Calls.
