(* ===== verification/Layout.v ===== *)
(** * The layout of the file

  [U_ENCODER::Collect_write_info] chooses the sections to write, their headers and
  offsets; [U_MODULE::Set_shdr_tab] finds the same sections from the headers. *)

From S2P Require Import Prelude CInt BitField Isa Inst Ubh UModule StrTab TypeEncoder Encoder.
From Stdlib Require Import ZArith Lia.
Local Open Scope Z_scope.

Section Layout.
Context {bd : Build}.
Import U_ENCODER.

(** A header with a kind. *)
Lemma Set_kind_run h k n : sized_tag (UBH_SHDR.Get_sec_tag h) = true -> 0 <= k < 16 ->
  UBH_SHDR.Get_elem_num h = Ok n -> exists h',
  UBH_SHDR.Set_kind k h = Ok h' /\ UBH_SHDR.Get_sec_tag h' = UBH_SHDR.Get_sec_tag h /\
  UBH_SHDR.Get_elem_num h' = Ok n /\ UBH_SHDR.Get_kind h' = Ok k /\ UBH_SHDR.Get_idx h' = UBH_SHDR.Get_idx h.
Proof.
  intros Ht%sized_tag_cases Hk Hn. unfold UBH_SHDR.Set_kind.
  assert (forall s f, UBH_SHDR.Select_struct h = Ok s -> fvalid f = true -> fdisjoint UBH_SHDR.S1_sec_tag f = true ->
    UBH_SHDR.Select_struct (fset f (UINT16 k) h) = Ok s) as Hsel.
  { intros s f. unfold UBH_SHDR.Select_struct, UBH_SHDR.Get_sec_tag. intros H H1 H2. now rewrite fget_fset_other. }
  assert (UBH_SHDR.Select_struct h = Ok 1 \/ UBH_SHDR.Select_struct h = Ok 2) as Hs.
  { unfold UBH_SHDR.Select_struct. repeat destruct Ht as [<-|Ht]; auto. destruct Ht. }
  assert (UINT16 k = k) as Ek by (apply wrapu_id; split; simpl; lia).
  assert (wrapu 4 k = k /\ wrapu 12 k = k) as [E4 E12] by (split; apply wrapu_id; split; simpl; lia).
  unfold UBH_SHDR.Get_elem_num in Hn.
  destruct Hs as [Hs|Hs]; rewrite Hs in Hn |- *; cbn [mbind outcome_bind Z.eqb Pos.eqb] in *;
    eexists; (split; [reflexivity|]); unfold UBH_SHDR.Get_elem_num, UBH_SHDR.Get_kind;
    rewrite (Hsel _ _ Hs) by reflexivity; cbn [mbind outcome_bind Z.eqb Pos.eqb mret outcome_ret] in *;
    unfold UBH_SHDR.Get_idx, UBH_SHDR.Get_sec_tag; field_simpl; unfold fkeep; simpl;
    rewrite ?Ek, ?E4, ?E12; auto.
Qed.

(** The header of each section that can be written names it. *)
Lemma header_run info n off : In info SEC_INFO_ARR -> exists h,
  (shdr ← UBH_SHDR.UBH_SHDR (_shdr_tag info) n off;
   if _sec_kind info =? -1 then mret shdr else UBH_SHDR.Set_kind (_sec_kind info) shdr) = Ok h /\
  Get_sec_id_from_header h = Ok (_sec_id info) /\ UBH_SHDR.Have_sec h = true /\
  UBH_SHDR.Get_elem_num h = Ok (UINT16 n) /\ UBH_SHDR.Get_idx h = UINT32 off.
Proof.
  intros Hin.
  assert (sized_tag (_shdr_tag info) = true /\ (_sec_kind info = -1 \/ 0 <= _sec_kind info < 16)) as [Ht Hk].
  { repeat (destruct Hin as [<-|Hin]; [split; [reflexivity | cbn; unfold K_EXPORT, K_IMPORT_MODULE, K_IMPORT_NATIVE,
      MEM_DATA, K_NON_NULL_STR, K_MODULE_NAME, K_GLBL_NAME, MEM_RELOC; lia]|]). destruct Hin. }
  destruct (UBH_SHDR_run (_shdr_tag info) n off Ht) as (h & -> & Htag & Hn & Hkind & Hidx). cbn [mbind outcome_bind].
  assert (exists h', (if _sec_kind info =? -1 then mret h else UBH_SHDR.Set_kind (_sec_kind info) h) = Ok h' /\
    UBH_SHDR.Get_sec_tag h' = _shdr_tag info /\ UBH_SHDR.Get_elem_num h' = Ok (UINT16 n) /\
    UBH_SHDR.Get_kind h' = Ok (if _sec_kind info =? -1 then 0 else _sec_kind info) /\ UBH_SHDR.Get_idx h' = UINT32 off)
    as (h' & -> & Htag' & Hn' & Hkind' & Hidx').
  { destruct (Z.eqb_spec (_sec_kind info) (-1)); [exists h; auto|]. destruct Hk as [|Hk]; [contradiction|].
    rewrite <- Htag in Ht. destruct (Set_kind_run h _ _ Ht Hk Hn) as (h' & -> & T & N & K & I).
    exists h'. rewrite T, I. auto. }
  exists h'. split; [reflexivity|]. split; [|split; [|auto]].
  - unfold Get_sec_id_from_header. rewrite Htag', Hkind'.
    repeat (destruct Hin as [<-|Hin]; [reflexivity|]). destruct Hin.
  - unfold UBH_SHDR.Have_sec. rewrite Htag'. repeat (destruct Hin as [<-|Hin]; [reflexivity|]). destruct Hin.
Qed.

(** ** The sections of a module *)
Definition section_bytes (e : t) (info : SEC_INFO) (n : Z) : Z :=
  if decide (_sec_id info = S_CODE) then U_INST_ENCODER.Code_sec_size (_u_inst_encoder e)
  else UINT32 (n * _elem_size info).

(** The sections with elements, in the order of [SEC_INFO_ARR]. *)
Definition elems_of (e : t) (info : SEC_INFO) : Z := match sec_elems e (_sec_id info) with Ok n => n | Err _ => 0 end.
Definition sections_of (e : t) (infos : list SEC_INFO) : list SEC_INFO :=
  filter (fun info => elems_of e info <> 0) infos.
Definition sizes_of (e : t) (infos : list SEC_INFO) : list Z :=
  map (fun info => section_bytes e info (elems_of e info)) infos.

(** A header for a section of [n] elements at an offset. *)
Definition describes (e : t) (off : Z) (info : SEC_INFO) (h : Z) : Prop :=
  Get_sec_id_from_header h = Ok (_sec_id info) /\ UBH_SHDR.Have_sec h = true /\
  UBH_SHDR.Get_elem_num h = Ok (UINT16 (elems_of e info)) /\ UBH_SHDR.Get_idx h = UINT32 off.

Definition offset_at (sizes : list Z) (start : Z) (k : nat) : Z := start + foldr Z.add 0 (take k sizes).

Lemma sec_elems_run e info : In info SEC_INFO_ARR -> sec_elems e (_sec_id info) = Ok (elems_of e info).
Proof. intros Hin. unfold elems_of. repeat (destruct Hin as [<-|Hin]; [reflexivity|]). destruct Hin. Qed.

Lemma collect_run e infos : (forall info, In info infos -> In info SEC_INFO_ARR) -> forall w, exists w' hs,
  collect e infos w = Ok w' /\
  sec_id_vec w' = sec_id_vec w ++ zip (map _sec_id (sections_of e infos)) (sizes_of e (sections_of e infos)) /\
  ubh_shdr_vec w' = ubh_shdr_vec w ++ hs /\ length hs = length (sections_of e infos) /\
  UINT32 (wi_size w') = UINT32 (wi_size w + foldr Z.add 0 (sizes_of e (sections_of e infos))) /\
  forall k info, sections_of e infos !! k = Some info -> exists h, hs !! k = Some h /\
    describes e (offset_at (sizes_of e (sections_of e infos)) (wi_size w) k) info h.
Proof.
  induction infos as [|info infos IH]; intros Hin w.
  { exists w, []. cbn. rewrite !app_nil_r, Z.add_0_r. repeat (split; [reflexivity|]). intros k info H. now rewrite lookup_nil in H. }
  specialize (IH ltac:(intros; apply Hin; now right)). pose proof (Hin info ltac:(now left)) as Hi.
  cbn [collect]. rewrite (sec_elems_run e info Hi). cbn [mbind outcome_bind]. unfold sections_of. rewrite filter_cons.
  destruct (Z.eqb_spec (elems_of e info) 0) as [E|E].
  { rewrite (decide_False (P := elems_of e info <> 0)) by (intros H; now apply H). apply IH. }
  rewrite (decide_True (P := elems_of e info <> 0)) by exact E.
  destruct (header_run info (elems_of e info) (wi_size w) Hi) as (h & Hh & Hd).
  change (mbind ?f (UBH_SHDR.UBH_SHDR ?a ?b ?c)) with (UBH_SHDR.UBH_SHDR a b c ≫= f) in *.
  destruct (UBH_SHDR.UBH_SHDR _ _ _) as [h0|]; [|discriminate]. cbn [mbind outcome_bind] in *. rewrite Hh. cbn [mbind outcome_bind].
  fold (section_bytes e info (elems_of e info)). set (b := section_bytes e info (elems_of e info)).
  match goal with |- context [collect e infos ?w1] => destruct (IH w1) as (w' & hs & Hc & H1 & H2 & H3 & H4 & H5) end.
  cbn [sec_id_vec ubh_shdr_vec wi_size] in *.
  exists w', (h :: hs). split; [exact Hc|]. fold (sections_of e infos). cbn [map zip zip_with sizes_of length foldr].
  fold (sizes_of e (sections_of e infos)) b.
  assert (forall x y, UINT32 (UINT32 x + y) = UINT32 (x + y)) as Hu
    by (intros; unfold UINT32, wrapu; now rewrite Zplus_mod_idemp_l).
  split; [now rewrite H1, <- (assoc_L (++))|]. split; [now rewrite H2, <- (assoc_L (++))|]. split; [now rewrite H3|].
  split; [rewrite H4, Hu; f_equal; lia|].
  intros [|k] i Hk; cbn in Hk.
  - injection Hk as <-. exists h. split; [reflexivity|]. unfold offset_at. cbn [take foldr]. rewrite Z.add_0_r. exact Hd.
  - destruct (H5 k i Hk) as (h' & Hl & D1 & D2 & D3 & D4). exists h'. split; [exact Hl|].
    split; [exact D1|]. split; [exact D2|]. split; [exact D3|]. rewrite D4. unfold offset_at. cbn [take foldr].
    rewrite Hu. f_equal. lia.
Qed.

(** The loader's map of the headers. *)
Lemma section_map_run infos hs : Forall2 (fun info h =>
    Get_sec_id_from_header h = Ok (_sec_id info) /\ UBH_SHDR.Have_sec h = true) infos hs ->
  forall i rest, (forall h, In h rest -> UBH_SHDR.Have_sec h = false) ->
  section_map i (hs ++ rest) = Ok (zip (map _sec_id infos) (seqZ i (Z.of_nat (length infos)))).
Proof.
  induction 1 as [|info h infos hs [H1 H2] H IH]; intros i rest Hr.
  - cbn. induction rest as [|h rest IH] in i, Hr |- *; [reflexivity|]. cbn [app section_map].
    rewrite Hr by now left. apply IH. intros. apply Hr. now right.
  - cbn [app section_map]. rewrite H2, H1. cbn [mbind outcome_bind]. rewrite IH by exact Hr. cbn [mbind outcome_bind mret outcome_ret].
    cbn [length map]. rewrite (seqZ_cons i) by lia. cbn [zip zip_with]. do 3 f_equal. rewrite Nat2Z.inj_succ. f_equal; lia.
Qed.

(** The header of the start function stands for no section. *)
Lemma start_header_run i : exists h, UBH_SHDR.UBH_SHDR SEC_TAG.SEC_START 0 i = Ok h /\
  UBH_SHDR.Have_sec h = false /\ UBH_SHDR.Get_idx h = UINT32 i.
Proof.
  unfold UBH_SHDR.UBH_SHDR, UBH_SHDR.Set_elem_num.
  set (h0 := fset UBH_SHDR.S1_sec_tag (UINT16 SEC_TAG.SEC_START) _).
  assert (UBH_SHDR.Get_sec_tag h0 = SEC_TAG.SEC_START) as E.
  { unfold h0, UBH_SHDR.Get_sec_tag. field_simpl. reflexivity. }
  assert (UBH_SHDR.Select_struct h0 = Ok 3) as Es by (unfold UBH_SHDR.Select_struct; rewrite E; reflexivity).
  rewrite Es. cbn [mbind outcome_bind Z.eqb Pos.eqb]. exists h0. split; [reflexivity|].
  split; [unfold UBH_SHDR.Have_sec; now rewrite E|].
  unfold h0, UBH_SHDR.Get_idx. field_simpl. reflexivity.
Qed.

Lemma find_unique {B} (l : list (SECTION_ID * B)) id b : NoDup (map fst l) -> (id, b) ∈ l ->
  find (fun p => bool_decide (p.1 = id)) l = Some (id, b).
Proof.
  induction l as [|[id' b'] l IH]; intros Hd Hin; [now apply not_elem_of_nil in Hin|].
  cbn [map fst] in Hd. apply NoDup_cons in Hd as [Hn Hd]. cbn [find fst].
  apply elem_of_cons in Hin as [[= -> ->]|Hin]; [now rewrite bool_decide_true|].
  rewrite bool_decide_false; [now apply IH|]. intros ->. apply Hn. apply list_elem_of_fmap. now exists (id, b).
Qed.

Lemma sections_NoDup e : NoDup (map _sec_id (sections_of e SEC_INFO_ARR)).
Proof.
  assert (NoDup (map _sec_id SEC_INFO_ARR)) as H by (refine (bool_decide_eq_true_1 _ _); vm_compute; reflexivity).
  revert H. generalize SEC_INFO_ARR. induction l as [|info l IH]; intros H; [constructor|].
  cbn [map] in H. apply NoDup_cons in H as [Hn Hd]. unfold sections_of. rewrite filter_cons.
  destruct (decide (elems_of e info <> 0)); [|now apply IH]. cbn. apply NoDup_cons. split; [|now apply IH].
  intros (x & Hx & Hin)%list_elem_of_fmap. apply Hn, list_elem_of_fmap. exists x. split; [exact Hx|].
  now apply list_elem_of_filter in Hin as [_ Hin].
Qed.

Lemma Get_shdr_run hs s0 s infos k info h : Set_shdr_tab hs s0 = Ok s ->
  section_map 0 hs = Ok (zip (map _sec_id infos) (seqZ 0 (Z.of_nat (length infos)))) ->
  NoDup (map _sec_id infos) -> infos !! k = Some info -> hs !! k = Some h ->
  Get_shdr_by_sec_id s (_sec_id info) = Ok h.
Proof.
  intros Hs Hm Hd Hk Hh. unfold Set_shdr_tab in Hs. rewrite Hm in Hs. injection Hs as <-.
  set (m := zip _ _).
  assert (map fst m = map _sec_id infos) as Hfst by (apply fst_zip; rewrite length_map, length_seqZ; lia).
  assert ((_sec_id info, Z.of_nat k) ∈ m) as Hin.
  { apply list_elem_of_lookup. exists k. apply lookup_zip_Some. split; [now rewrite list_lookup_fmap, Hk|].
    apply lookup_seqZ. apply lookup_lt_Some in Hk. lia. }
  assert (find (fun p => bool_decide (p.1 = _sec_id info)) (rev m) = Some (_sec_id info, Z.of_nat k)) as Hf.
  { apply find_unique; rewrite ?map_rev, rev_alt.
    - rewrite Hfst. now rewrite (reverse_Permutation (map _sec_id infos)).
    - now apply elem_of_reverse. }
  unfold Get_shdr_by_sec_id, Get_shdr_idx. cbn [_sec_sec_header_map _shdr_tab].
  assert (Contains_section (mkSECTIONS hs m (_type_sec s0) (_func_sec s0) (_code_sec s0) (_glbl_sec s0) (_data_sec s0)
    (_reloc_sec s0) (_non_null_str_sec s0)) (_sec_id info) = true) as ->.
  { unfold Contains_section. cbn [_sec_sec_header_map]. apply existsb_exists. eexists.
    split; [apply list_elem_of_In, Hin|]. now apply bool_decide_eq_true_2. }
  rewrite Is_True_true. cbn [mbind outcome_bind]. rewrite Hf. cbn [mbind outcome_bind mret outcome_ret].
  apply nthZ_Ok. split; [lia|]. now rewrite Nat2Z.id.
Qed.

Lemma Contains_run s infos id :
  _sec_sec_header_map s = zip (map _sec_id infos) (seqZ 0 (Z.of_nat (length infos))) ->
  Contains_section s id = true <-> id ∈ map _sec_id infos.
Proof.
  intros Hm. unfold Contains_section.
  assert (map fst (_sec_sec_header_map s) = map _sec_id infos) as <-
    by (rewrite Hm; apply fst_zip; rewrite length_map, length_seqZ; lia).
  rewrite existsb_exists, list_elem_of_fmap. split.
  - intros (p & Hp & <-%bool_decide_eq_true_1). exists p. split; [reflexivity | apply list_elem_of_In, Hp].
  - intros (p & -> & Hp). exists p. split; [apply list_elem_of_In, Hp | now apply bool_decide_eq_true_2].
Qed.

(** What the loader finds in the headers [collect] made, followed by headers of no
  section. *)
Record found (e : t) (infos : list SEC_INFO) (s : SECTIONS) : Prop := {
  fd_contains : forall id, Contains_section s id = true <-> id ∈ map _sec_id infos;
  fd_header : forall k info, infos !! k = Some info -> exists h,
    Get_shdr_by_sec_id s (_sec_id info) = Ok h /\
    UBH_SHDR.Get_elem_num h = Ok (UINT16 (elems_of e info)) /\
    UBH_SHDR.Get_idx h = UINT32 (offset_at (sizes_of e infos) UBH_MHDR.sizeof k);
}.

Lemma found_run e infos hs rest s0 : NoDup (map _sec_id infos) -> length hs = length infos ->
  (forall k info, infos !! k = Some info -> exists h, hs !! k = Some h /\
    describes e (offset_at (sizes_of e infos) UBH_MHDR.sizeof k) info h) ->
  (forall h, In h rest -> UBH_SHDR.Have_sec h = false) ->
  exists s, Set_shdr_tab (hs ++ rest) s0 = Ok s /\ found e infos s.
Proof.
  intros Hd Hlen Hh Hrest.
  assert (Forall2 (fun info h => Get_sec_id_from_header h = Ok (_sec_id info) /\ UBH_SHDR.Have_sec h = true) infos hs) as Hall.
  { apply Forall2_same_length_lookup_2; [congruence|]. intros k info h Hk Hk'.
    destruct (Hh k info Hk) as (h' & Hh' & D1 & D2 & _). assert (h' = h) as -> by congruence. auto. }
  pose proof (section_map_run infos hs Hall 0 rest Hrest) as Hm.
  eassert (Set_shdr_tab (hs ++ rest) s0 = Ok _) as Hs by (unfold Set_shdr_tab; rewrite Hm; reflexivity).
  eexists. split; [exact Hs|]. split.
  - intros id. now apply Contains_run.
  - intros k info Hk. destruct (Hh k info Hk) as (h & Hk' & _ & _ & D3 & D4). exists h. split; [|auto].
    exact (Get_shdr_run _ _ _ _ _ _ _ Hs Hm Hd Hk (lookup_app_l_Some _ _ _ _ Hk')).
Qed.

Lemma Collect_run e w total s0 : Collect_write_info e = Ok (w, total) ->
  exists s, Set_shdr_tab (ubh_shdr_vec w) s0 = Ok s /\ found e (sections_of e SEC_INFO_ARR) s.
Proof.
  pose proof (sections_NoDup e) as Hd. pose proof (fun (info : SEC_INFO) (Hi : In info SEC_INFO_ARR) => Hi) as Hin.
  unfold Collect_write_info. revert Hd Hin. generalize SEC_INFO_ARR at 1 2 4 5. intros infos Hd Hin H.
  destruct (collect_run e infos Hin (mkWI [] [] UBH_MHDR.sizeof)) as (w' & hs & Hc & _ & H2 & H3 & _ & H5).
  rewrite Hc in H. cbn [mbind outcome_bind] in H.
  destruct (find_start _ _ _) as [start|]; [|discriminate]. cbn [mbind outcome_bind] in H.
  cbn [ubh_shdr_vec wi_size app] in H2, H5.
  assert (exists rest, ubh_shdr_vec w = hs ++ rest /\ forall h, In h rest -> UBH_SHDR.Have_sec h = false) as (rest & -> & Hrest).
  { rewrite <- H2. destruct start as [i|].
    - destruct (start_header_run i) as (h & Hh & Hs & _). rewrite Hh in H. injection H as <- _.
      exists [h]. split; [reflexivity|]. now intros h' [<-|[]].
    - injection H as <- _. exists []. split; [now rewrite app_nil_r | now intros h []]. }
  apply found_run; [exact Hd | exact H3 | exact H5 | exact Hrest].
Qed.
End Layout.
