(* ===== verification/File.v ===== *)
(** * The file as bytes

  [U_ENCODER::Write_to_file] ([src/encoder/u_encoder.cxx]) makes the bytes of a file from
  the tables of the encoder; [U_MODULE::Init_module_from_buffer] ([src/ubh/u_module.cxx])
  finds the tables in a buffer of bytes.  The mapping of the output file
  ([Write_and_mmap], zeros of the given size) and its release are not modelled.

  The loader keeps a pointer for each section.  Here a section is the list of the objects
  that its header announces, as many as the buffer holds: going beyond them is a fault. *)

From S2P Require Import Prelude CInt BitField Bytes Isa Inst Ubh UModule StrTab TypeEncoder Encoder.
From Stdlib Require Import ZArith Lia.
Local Open Scope Z_scope.

(** ** Entries that the encoder does not write *)
Module UBH_EXP_GLBL.
Definition sizeof := 8.
Definition _glbl_name_idx := Field 0 32 false.
Definition _glbl_tab_idx := Field 32 32 false.
Definition Get_glbl_name_idx (x : Z) := fget _glbl_name_idx x.
Definition Get_glbl_tab_idx (x : Z) := fget _glbl_tab_idx x.
End UBH_EXP_GLBL.

Module UBH_NAT.
Definition sizeof := 16.
Definition _byte_num := Field 0 32 false.
Definition _checksum := Field 32 32 false.
Definition _buf_off := Field 64 64 false.
Definition UBH_NAT (byte_num buf_off checksum : Z) : Z :=
  fset _buf_off buf_off (fset _checksum checksum (fset _byte_num byte_num 0)).
Definition Byte_number (x : Z) := fget _byte_num x.
Definition Buf_offset (x : Z) := fget _buf_off x.
End UBH_NAT.

(** ** The loaded module *)

(** An entry of the native section, and the bytes its buffer pointer points at. *)
Record NAT_ENTRY : Set := mkNAT { ne_nat : Z; ne_buf : list Z }.

Record MODULE : Type := mkMODULE {
  _mhdr : Z;
  _secs : SECTIONS;
  _import_sec : list Z;
  _imp_nat_sec : list Z;
  _export_sec : list Z;
  _exp_glbl_sec : list Z;
  _module_name_sec : list Z;
  _glbl_name_sec : list Z;
  _nat_sec : list NAT_ENTRY;
}.

Definition no_sections : SECTIONS := mkSECTIONS [] [] [] [] [] [] [] [] [].

Definition set_secs (s : SECTIONS) (m : MODULE) : MODULE :=
  mkMODULE (_mhdr m) s (_import_sec m) (_imp_nat_sec m) (_export_sec m) (_exp_glbl_sec m)
    (_module_name_sec m) (_glbl_name_sec m) (_nat_sec m).
Definition set_nats (v : list NAT_ENTRY) (m : MODULE) : MODULE :=
  mkMODULE (_mhdr m) (_secs m) (_import_sec m) (_imp_nat_sec m) (_export_sec m) (_exp_glbl_sec m)
    (_module_name_sec m) (_glbl_name_sec m) v.

(** The setters of the sections that are plain tables: [Set_type_sec] and the others. *)
Definition Set_sec (id : SECTION_ID) (v : list Z) (m : MODULE) : MODULE :=
  let s := _secs m in
  let 'mkSECTIONS hs map ty fn code gl da re nn := s in
  let 'mkMODULE mh _ im ina ex eg mn gn nat := m in
  match id with
  | S_TYPE => set_secs (mkSECTIONS hs map v fn code gl da re nn) m
  | S_FUNC => set_secs (mkSECTIONS hs map ty v code gl da re nn) m
  | S_GLBL => set_secs (mkSECTIONS hs map ty fn code v da re nn) m
  | S_DATA => set_secs (mkSECTIONS hs map ty fn code gl v re nn) m
  | S_RELOC => set_secs (mkSECTIONS hs map ty fn code gl da v nn) m
  | S_NN_STR => set_secs (mkSECTIONS hs map ty fn code gl da re v) m
  | S_IMPORT => mkMODULE mh s v ina ex eg mn gn nat
  | S_IMP_NAT => mkMODULE mh s im v ex eg mn gn nat
  | S_EXPORT => mkMODULE mh s im ina v eg mn gn nat
  | S_EXPORT_GLBL => mkMODULE mh s im ina ex v mn gn nat
  | S_MODULE_NAME => mkMODULE mh s im ina ex eg v gn nat
  | S_GLBL_NAME => mkMODULE mh s im ina ex eg mn v nat
  | S_CODE | S_NAT | S_COUNT => m
  end.

(** The table of a section. *)
Definition sec_table (m : MODULE) (id : SECTION_ID) : list Z :=
  match id with
  | S_TYPE => _type_sec (_secs m)
  | S_FUNC => _func_sec (_secs m)
  | S_GLBL => _glbl_sec (_secs m)
  | S_DATA => _data_sec (_secs m)
  | S_RELOC => _reloc_sec (_secs m)
  | S_NN_STR => _non_null_str_sec (_secs m)
  | S_IMPORT => _import_sec m
  | S_IMP_NAT => _imp_nat_sec m
  | S_EXPORT => _export_sec m
  | S_EXPORT_GLBL => _exp_glbl_sec m
  | S_MODULE_NAME => _module_name_sec m
  | S_GLBL_NAME => _glbl_name_sec m
  | S_CODE | S_NAT | S_COUNT => []
  end.

(** The type of a section's elements, by its size. *)
Definition elem_size (id : SECTION_ID) : nat :=
  Z.to_nat match id with
  | S_TYPE => UBH_TYPE.sizeof
  | S_IMPORT => UBH_IMPORT.sizeof
  | S_IMP_NAT => UBH_IMP_NAT.sizeof
  | S_FUNC => UBH_FUNC.sizeof
  | S_EXPORT => UBH_EXPORT.sizeof
  | S_EXPORT_GLBL => UBH_EXP_GLBL.sizeof
  | S_GLBL => UBH_GLBL.sizeof
  | S_RELOC => 4
  | S_CODE => UBH_CODE.sizeof
  | S_NAT => UBH_NAT.sizeof
  | S_DATA | S_NN_STR | S_MODULE_NAME | S_GLBL_NAME | S_COUNT => 1
  end.

(** ** Reading a file *)
Section Read.
Context {bd : Build}.

(** The loop of [Set_nat_sec] from the byte [p] of the section. *)
Fixpoint read_nats (sec : list Z) (p : Z) (n : nat) : outcome (list NAT_ENTRY) :=
  match n with
  | O => mret []
  | S n =>
      bs ← bytes_at (drop (Z.to_nat p) sec) UBH_NAT.sizeof;
      let nat_entry := of_bytes bs in
      buf ← bytes_at (drop (Z.to_nat (UBH_NAT.Buf_offset nat_entry)) sec) (UBH_NAT.Byte_number nat_entry);
      rest ← read_nats sec (p + (UBH_NAT.sizeof + UBH_NAT.Byte_number nat_entry)) n;
      mret (mkNAT nat_entry buf :: rest)
  end.
Definition Set_nat_sec (sec : list Z) (m : MODULE) : outcome MODULE :=
  n ← sec_elem_num (_secs m) S_NAT;
  v ← read_nats sec 0 (Z.to_nat n);
  mret (set_nats v m).

(** The body of the loop over the headers. *)
Definition Init_section (buffer : list Z) (h : Z) (m : MODULE) : outcome MODULE :=
  if negb (UBH_SHDR.Have_sec h) then mret m else
  let sec_pointer := drop (Z.to_nat (UBH_SHDR.Get_idx h)) buffer in
  sec_id ← Get_sec_id_from_header h;
  match sec_id with
  | S_CODE => s ← Code_section.Set_code_sec (words_from sec_pointer) (_secs m); mret (set_secs s m)
  | S_NAT => Set_nat_sec sec_pointer m
  | S_COUNT => _ ← Is_True false; mret m
  | _ => n ← UBH_SHDR.Get_elem_num h;
         mret (Set_sec sec_id (objects (elem_size sec_id) (Z.to_nat n) sec_pointer) m)
  end.
Fixpoint Init_sections (buffer : list Z) (hs : list Z) (m : MODULE) : outcome MODULE :=
  match hs with
  | [] => mret m
  | h :: hs => m ← Init_section buffer h m; Init_sections buffer hs m
  end.

(** The header and the sections; [module] starts without any. *)
Definition Read_sections (buffer : list Z) : outcome MODULE :=
  bs ← bytes_at buffer UBH_MHDR.sizeof;
  let mhdr := of_bytes bs in
  if negb (UBH_MHDR.Get_umagic mhdr =? UBH_MHDR.magic_word) then Err (Exited (-1)) else
  let n := Z.to_nat (UBH_MHDR.Get_shdr_num mhdr) in
  let hs := objects (Z.to_nat UBH_SHDR.sizeof) n (drop (Z.to_nat (UBH_MHDR.Get_shdr_off mhdr)) buffer) in
  _ ← (if decide (length hs = n) then mret tt else Err MemFault);
  s ← Set_shdr_tab hs no_sections;
  Init_sections buffer hs (mkMODULE mhdr s [] [] [] [] [] [] []).

Definition Init_module_from_buffer (buffer : list Z) : outcome (MODULE * TYPE_CACHE) :=
  m ← Read_sections buffer;
  types ← Types.Decode_type_and_cache (_secs m);
  mret (m, types).
End Read.

(** ** Writing a file *)
Section Write.
Context {bd : Build} {vg : VectorGrowth}.
Import U_ENCODER.

(** The encoder's table of a section. *)
Definition enc_table (e : t) (id : SECTION_ID) : list Z :=
  match id with
  | S_TYPE => _type_list (_u_type_encoder e)
  | S_IMPORT => _import_tab e
  | S_IMP_NAT => _imp_nat_tab e
  | S_EXPORT => _export_tab e
  | S_FUNC => _func_tab e
  | S_DATA => _const_data e
  | S_RELOC => _reloc_data e
  | S_GLBL => _glbl_tab e
  | S_MODULE_NAME => _raw_buf (_module_string_tab e)
  | S_GLBL_NAME => _raw_buf (_global_name_tab e)
  | S_NN_STR => _raw_buf (_nn_tab (_u_type_encoder e))
  | S_CODE | S_EXPORT_GLBL | S_NAT | S_COUNT => []
  end.

(** What the switch of the loop copies; [Write_to_buf] does not look at the size. *)
Definition section_source (e : t) (sec_id : SECTION_ID) (sec_size : Z) : outcome (list Z) :=
  match sec_id with
  | S_CODE => mret (table_bytes 4 (U_INST_ENCODER.Write_to_buf (_u_inst_encoder e)))
  | S_EXPORT_GLBL | S_NAT | S_COUNT => _ ← Is_True false; mret []
  | _ => bytes_at (table_bytes (elem_size sec_id) (enc_table e sec_id)) sec_size
  end.
Fixpoint Write_section (e : t) (off : Z) (sec_id_vec : list (SECTION_ID * Z)) (buf : list Z) : outcome (list Z) :=
  match sec_id_vec with
  | [] => mret buf
  | (sec_id, sec_size) :: rest =>
      src ← section_source e sec_id sec_size;
      buf ← memcpy buf off src;
      Write_section e (off + sec_size) rest buf
  end.

Definition Write_mhdr (buf : list Z) (shdr_num shdr_off : Z) : outcome (list Z) :=
  bs ← bytes_at buf UBH_MHDR.sizeof;
  let header := UBH_MHDR.Set_magic UBH_MHDR.magic_word (of_bytes bs) in
  let header := UBH_MHDR.Set_other 0 header in
  let header := UBH_MHDR.Set_shdr_num shdr_num header in
  let header := UBH_MHDR.Set_shdr_off shdr_off header in
  memcpy buf 0 (bytes_of (Z.to_nat UBH_MHDR.sizeof) header).

Definition Write_shdr (buf : list Z) (off : Z) (shdrs : list Z) : outcome (list Z) :=
  memcpy buf off (table_bytes (Z.to_nat UBH_SHDR.sizeof) shdrs).

(** The bytes of the file, and the encoder after [Finish]. *)
Definition Write_to_file (e : t) : outcome (list Z * t) :=
  fin ← Finish e;
  let e := fin.2 in
  collected ← Collect_write_info e;
  let '(w, total_size) := collected in
  let shdrs := ubh_shdr_vec w in
  let buf := replicate (Z.to_nat total_size) 0 in
  let ubh_shdr_off := UINT32 (total_size - Z.of_nat (length shdrs) * UBH_SHDR.sizeof) in
  buf ← Write_mhdr buf (Z.of_nat (length shdrs)) ubh_shdr_off;
  buf ← Write_section e UBH_MHDR.sizeof (sec_id_vec w) buf;
  buf ← Write_shdr buf ubh_shdr_off shdrs;
  mret (buf, e).
End Write.
