(* ===== verification/Saved.v ===== *)
(** * Writing a file and reading it

  The bytes that [Write_to_file] makes are, one after the other, the header, the sections
  and the section headers; and from these bytes the loader has the encoder's tables. *)

From S2P Require Import Prelude CInt BitField Bytes Isa Inst Ubh UModule StrTab TypeEncoder Encoder CodeSec Layout File.
From Stdlib Require Import ZArith Lia.
Local Open Scope Z_scope.

Section Saved.
Context {bd : Build} {vg : VectorGrowth}.
Import U_ENCODER.

(** The bytes of a section. *)
Definition source_of (e : t) (info : SEC_INFO) : list Z :=
  match _sec_id info with
  | S_CODE => table_bytes 4 (U_INST_ENCODER.Write_to_buf (_u_inst_encoder e))
  | id => table_bytes (elem_size id) (enc_table e id)
  end.
Definition content (e : t) (infos : list SEC_INFO) : list Z := concat (map (source_of e) infos).
Definition sections (e : t) : list SEC_INFO := sections_of e SEC_INFO_ARR.

(** What the fields of the format hold: elements of their size, less than [2 ^ 16] in a
  section, and a file of less than [2 ^ 26] bytes. *)
Definition table_fits (e : t) (id : SECTION_ID) : bool :=
  forallb (fun x => bool_decide (in_u (8 * Z.of_nat (elem_size id)) x)) (enc_table e id)
  && (Z.of_nat (length (enc_table e id)) <? 2 ^ 16).
Definition codes_fit (e : t) : bool :=
  forallb (fun x => bool_decide (in_u 32 x)) (U_INST_ENCODER.Write_to_buf (_u_inst_encoder e))
  && (Z.of_nat (length (_u_inst_encoder e)) <? 2 ^ 16).
Definition file_fits (e : t) : bool :=
  forallb (fun info => table_fits e (_sec_id info)) SEC_INFO_ARR && codes_fit e
  && (Z.of_nat (length (content e (sections e))) <? 2 ^ 26 - 200).

Lemma forallb_Forall' {A} (P : A -> Prop) `{HP : forall x, Decision (P x)} l :
  forallb (fun x => bool_decide (P x)) l = true -> Forall P l.
Proof.
  intros H. rewrite forallb_forall in H. apply Forall_forall. intros x Hx%list_elem_of_In.
  specialize (H x Hx). now apply bool_decide_eq_true in H.
Qed.

Lemma table_fits_run e info : file_fits e = true -> In info SEC_INFO_ARR ->
  Forall (in_u (8 * Z.of_nat (elem_size (_sec_id info)))) (enc_table e (_sec_id info)) /\
  Z.of_nat (length (enc_table e (_sec_id info))) < 2 ^ 16.
Proof.
  unfold file_fits. rewrite !andb_true_iff. intros [[H _] _] Hin. rewrite forallb_forall in H. specialize (H _ Hin).
  unfold table_fits in H. rewrite andb_true_iff, Z.ltb_lt in H. destruct H as [H1 H2]. split; [|exact H2].
  exact (forallb_Forall' _ _ H1).
Qed.

Lemma codes_fit_run e : file_fits e = true ->
  Forall (in_u 32) (U_INST_ENCODER.Write_to_buf (_u_inst_encoder e)) /\ Z.of_nat (length (_u_inst_encoder e)) < 2 ^ 16.
Proof.
  unfold file_fits, codes_fit. rewrite !andb_true_iff, Z.ltb_lt. intros [[_ [H1 H2]] _]. split; [|exact H2].
  exact (forallb_Forall' _ _ H1).
Qed.

(** ** Sizes *)
Definition elems (e : t) (info : SEC_INFO) : nat :=
  match _sec_id info with S_CODE => length (_u_inst_encoder e) | id => length (enc_table e id) end.

Lemma elems_of_eq e info : file_fits e = true -> In info SEC_INFO_ARR ->
  elems_of e info = Z.of_nat (elems e info) /\ Z.of_nat (elems e info) < 2 ^ 16.
Proof.
  intros Hf Hin. pose proof (table_fits_run e info Hf Hin) as [_ Ht]. pose proof (codes_fit_run e Hf) as [_ Hc].
  unfold elems_of, sec_elems, elems, len.
  repeat (destruct Hin as [<-|Hin]; [cbn [_sec_id enc_table mret outcome_ret] in *; split; [apply UINT32_id|]; lia|]). destruct Hin.
Qed.

(** A section is the code or a plain table. *)
Lemma info_cases info : In info SEC_INFO_ARR -> _sec_id info = S_CODE \/
  _sec_id info <> S_CODE /\ _elem_size info = Z.of_nat (elem_size (_sec_id info)) /\
  forall e, source_of e info = table_bytes (elem_size (_sec_id info)) (enc_table e (_sec_id info)) /\
    elems e info = length (enc_table e (_sec_id info)).
Proof.
  intros Hin. repeat (destruct Hin as [<-|Hin]; [first [now left | right; split; [discriminate | split; [reflexivity | split; reflexivity]]]|]).
  destruct Hin.
Qed.

Lemma source_size e info : file_fits e = true -> In info SEC_INFO_ARR ->
  Z.of_nat (length (source_of e info)) < 2 ^ 32 ->
  section_bytes e info (elems_of e info) = Z.of_nat (length (source_of e info)).
Proof.
  intros Hf Hin Hs. destruct (elems_of_eq e info Hf Hin) as [-> _]. unfold section_bytes.
  destruct (info_cases info Hin) as [Hc|(Hc & He & Hsrc)].
  - rewrite decide_True by exact Hc. revert Hs. unfold source_of. rewrite Hc, table_bytes_length. intros Hs.
    pose proof (Write_to_buf_length (_u_inst_encoder e)). rewrite Code_sec_size_eq; lia.
  - rewrite decide_False by exact Hc. destruct (Hsrc e) as [E1 E2]. rewrite E1, table_bytes_length in *. rewrite E2, He.
    rewrite UINT32_id; lia.
Qed.

Lemma sections_in e infos info : In info (sections_of e infos) -> In info infos.
Proof. unfold sections_of. intros H%list_elem_of_In. apply list_elem_of_filter in H as [_ H]. now apply list_elem_of_In. Qed.

Lemma content_cons e info infos : content e (info :: infos) = source_of e info ++ content e infos.
Proof. reflexivity. Qed.

Lemma sizes_content e infos : file_fits e = true -> (forall info, In info infos -> In info SEC_INFO_ARR) ->
  Z.of_nat (length (content e infos)) < 2 ^ 26 ->
  sizes_of e infos = map (fun info => Z.of_nat (length (source_of e info))) infos /\
  foldr Z.add 0 (sizes_of e infos) = Z.of_nat (length (content e infos)).
Proof.
  intros Hf. induction infos as [|info infos IH]; intros Hin Hl; [split; reflexivity|].
  rewrite content_cons, length_app in *. destruct (IH ltac:(intros; apply Hin; now right) ltac:(lia)) as [I1 I2].
  unfold sizes_of in *. cbn [map foldr]. rewrite (source_size e info Hf) by (first [apply Hin; now left | lia]).
  rewrite I2. split; [congruence | lia].
Qed.

(** ** Ranges of the headers *)
Lemma shdr_range t n i h : UBH_SHDR.UBH_SHDR t n i = Ok h -> in_u 64 h.
Proof.
  unfold UBH_SHDR.UBH_SHDR, UBH_SHDR.Set_elem_num. set (h0 := fset UBH_SHDR.S1_sec_tag _ _).
  assert (in_u 64 h0) as H0.
  { unfold h0. repeat (apply fset_range; [reflexivity | discriminate|]). split; [reflexivity | reflexivity]. }
  destruct (UBH_SHDR.Select_struct h0) as [s|]; [|discriminate]. cbn [mbind outcome_bind].
  destruct (s =? 1); [|destruct (s =? 2)]; intros [= <-]; try exact H0; (apply fset_range; [reflexivity | discriminate | exact H0]).
Qed.

Lemma Set_kind_range k h h' : in_u 64 h -> UBH_SHDR.Set_kind k h = Ok h' -> in_u 64 h'.
Proof.
  intros H0. unfold UBH_SHDR.Set_kind.
  destruct (UBH_SHDR.Select_struct h) as [s|]; [|discriminate]. cbn [mbind outcome_bind].
  destruct (s =? 1); [|destruct (s =? 2)].
  - intros [= <-]. apply fset_range; [reflexivity | discriminate | exact H0].
  - intros [= <-]. apply fset_range; [reflexivity | discriminate | exact H0].
  - destruct (Is_True false); [|discriminate]. cbn. now intros [= <-].
Qed.

Lemma collect_range e infos : forall w w', collect e infos w = Ok w' ->
  Forall (in_u 64) (ubh_shdr_vec w) -> in_u 32 (wi_size w) -> Forall (in_u 64) (ubh_shdr_vec w') /\ in_u 32 (wi_size w').
Proof.
  induction infos as [|info infos IH]; intros w w' H Hv Hw; [injection H as <-; auto|].
  cbn [collect] in H. destruct (sec_elems e (_sec_id info)) as [n|]; [|discriminate]. cbn [mbind outcome_bind] in H.
  destruct (n =? 0); [eapply IH; eassumption|].
  destruct (UBH_SHDR.UBH_SHDR _ _ _) as [h|] eqn:Eh; [|discriminate]. cbn [mbind outcome_bind] in H.
  pose proof (shdr_range _ _ _ _ Eh) as Hh.
  destruct (if _sec_kind info =? -1 then mret h else UBH_SHDR.Set_kind (_sec_kind info) h) as [h'|] eqn:Ek; [|discriminate].
  cbn [mbind outcome_bind] in H. apply IH in H; [exact H | | apply wrapu_range; lia].
  cbn [ubh_shdr_vec]. apply Forall_app. split; [exact Hv|]. constructor; [|constructor].
  destruct (_sec_kind info =? -1); [now injection Ek as <- | exact (Set_kind_range _ _ _ Hh Ek)].
Qed.

(** ** What is collected *)
Record collected (e : t) (w : WRITE_INFO) (total : Z) (hs rest : list Z) : Prop := {
  co_ids : sec_id_vec w = map (fun info => (_sec_id info, Z.of_nat (length (source_of e info)))) (sections e);
  co_hdrs : ubh_shdr_vec w = hs ++ rest;
  co_range : Forall (in_u 64) (hs ++ rest);
  co_length : length hs = length (sections e);
  co_rest : (length rest <= 1)%nat /\ forall h, In h rest -> UBH_SHDR.Have_sec h = false;
  co_describes : forall k info, sections e !! k = Some info -> exists h, hs !! k = Some h /\
    describes e (offset_at (sizes_of e (sections e)) UBH_MHDR.sizeof k) info h;
  co_start : exists start, find_start (_raw_buf (_module_string_tab e)) 0 (_func_tab e) = Ok start /\
    match start with Some i => exists h, rest = [h] /\ UBH_SHDR.UBH_SHDR SEC_TAG.SEC_START 0 i = Ok h | None => rest = [] end;
  co_total : total = UBH_MHDR.sizeof + Z.of_nat (length (content e (sections e))) + 8 * Z.of_nat (length (hs ++ rest));
}.

Lemma sections_length e : (length (sections e) <= 12)%nat.
Proof. unfold sections, sections_of. etransitivity; [apply length_filter|]. reflexivity. Qed.

Lemma content_bound e : file_fits e = true -> Z.of_nat (length (content e (sections e))) < 2 ^ 26 - 200.
Proof. unfold file_fits. rewrite !andb_true_iff, Z.ltb_lt. tauto. Qed.

Lemma zip_map_map {A B C} (f : A -> B) (g : A -> C) l : zip (map f l) (map g l) = map (fun a => (f a, g a)) l.
Proof. induction l as [|a l IH]; [reflexivity|]. cbn. f_equal. exact IH. Qed.

(** After the loop. *)
Lemma collected_sections e : file_fits e = true -> exists w, collect e SEC_INFO_ARR (mkWI [] [] UBH_MHDR.sizeof) = Ok w /\
  sec_id_vec w = map (fun info => (_sec_id info, Z.of_nat (length (source_of e info)))) (sections e) /\
  Forall (in_u 64) (ubh_shdr_vec w) /\ length (ubh_shdr_vec w) = length (sections e) /\
  (forall k info, sections e !! k = Some info -> exists h, ubh_shdr_vec w !! k = Some h /\
    describes e (offset_at (sizes_of e (sections e)) UBH_MHDR.sizeof k) info h) /\
  wi_size w = UBH_MHDR.sizeof + Z.of_nat (length (content e (sections e))).
Proof.
  intros Hf. pose proof (content_bound e Hf) as Hb.
  destruct (sizes_content e (sections e) Hf (fun info => sections_in e _ info) ltac:(lia)) as [Es Ef].
  destruct (collect_run e SEC_INFO_ARR (fun _ Hi => Hi) (mkWI [] [] UBH_MHDR.sizeof)) as (w & hs & Hc & H1 & H2 & H3 & H4 & H5).
  destruct (collect_range _ _ _ _ Hc) as [Hr Hs]; [constructor | cbn; unfold UBH_MHDR.sizeof, in_u; lia|].
  cbn [sec_id_vec ubh_shdr_vec wi_size app] in H1, H2, H4, H5. subst hs.
  fold (sections e) in H1, H3, H4, H5. rewrite Ef in H4. rewrite Es, zip_map_map in H1.
  rewrite (UINT32_id (UBH_MHDR.sizeof + _)) in H4 by (unfold UBH_MHDR.sizeof; lia). rewrite UINT32_id in H4 by exact Hs.
  exists w. auto 10.
Qed.

(** The loop over the sections is unfolded last. *)
Strategy 1000 [U_ENCODER.collect].

Lemma Collect_facts e w total : file_fits e = true -> Collect_write_info e = Ok (w, total) ->
  exists hs rest, collected e w total hs rest.
Proof.
  intros Hf H. destruct (collected_sections e Hf) as (w' & Hc & H1 & Hr & H3 & H5 & H4).
  pose proof (content_bound e Hf) as Hb. pose proof (sections_length e) as Hl.
  unfold Collect_write_info in H. rewrite Hc in H. clear Hc. cbn [mbind outcome_bind] in H.
  destruct (find_start _ _ _) as [start|] eqn:Estart; [|discriminate]. cbn [mbind outcome_bind] in H.
  set (shdrs := match start with Some _ => _ | None => _ end) in H.
  assert (exists rest, shdrs = Ok (ubh_shdr_vec w' ++ rest) /\ Forall (in_u 64) rest /\ (length rest <= 1)%nat /\
    (forall h, In h rest -> UBH_SHDR.Have_sec h = false) /\
    match start with Some i => exists h, rest = [h] /\ UBH_SHDR.UBH_SHDR SEC_TAG.SEC_START 0 i = Ok h | None => rest = [] end)
    as (rest & -> & Hr' & Hl' & Hn & Hst).
  { subst shdrs. destruct start as [i|].
    - destruct (start_header_run i) as (h & Hh & Hn & _). rewrite Hh. exists [h]. split; [reflexivity|].
      split; [constructor; [exact (shdr_range _ _ _ _ Hh) | constructor]|]. split; [reflexivity|]. split; [now intros h' [<-|[]] | now exists h].
    - exists []. rewrite app_nil_r. split; [reflexivity|]. split; [constructor|]. split; [cbn; lia|]. split; [now intros h' [] | reflexivity]. }
  cbn [mbind outcome_bind mret outcome_ret] in H. injection H as <- <-. exists (ubh_shdr_vec w'), rest.
  split; cbn [sec_id_vec ubh_shdr_vec]; auto.
  - now apply Forall_app.
  - now exists start.
  - rewrite H4, length_app. unfold UBH_SHDR.sizeof, UBH_MHDR.sizeof. apply UINT32_id. lia.
Qed.

(** ** Writing *)
Lemma section_source_run e info : file_fits e = true -> In info SEC_INFO_ARR ->
  section_source e (_sec_id info) (Z.of_nat (length (source_of e info))) = Ok (source_of e info).
Proof.
  intros Hf Hin. unfold source_of. repeat (destruct Hin as [<-|Hin]; [first [reflexivity | now apply bytes_at_all]|]). destruct Hin.
Qed.

Lemma Write_section_run e infos : file_fits e = true -> (forall info, In info infos -> In info SEC_INFO_ARR) -> forall pre old,
  (length (content e infos) <= length old)%nat ->
  Write_section e (Z.of_nat (length pre)) (map (fun info => (_sec_id info, Z.of_nat (length (source_of e info)))) infos) (pre ++ old)
    = Ok ((pre ++ content e infos) ++ drop (length (content e infos)) old).
Proof.
  intros Hf. induction infos as [|info infos IH]; intros Hin pre old Hl.
  { cbn. now rewrite app_nil_r. }
  rewrite content_cons, length_app in *. cbn [map Write_section].
  rewrite section_source_run by (first [exact Hf | apply Hin; now left]). cbn [mbind outcome_bind].
  rewrite memcpy_run by lia. cbn [mbind outcome_bind].
  replace (Z.of_nat (length pre) + Z.of_nat (length (source_of e info))) with (Z.of_nat (length (pre ++ source_of e info)))
    by (rewrite length_app; lia).
  rewrite IH; [|intros; apply Hin; now right | rewrite length_drop; lia].
  rewrite drop_drop, !(assoc_L (++)). reflexivity.
Qed.

(** The module header of a file. *)
Definition file_header (n off : Z) : Z :=
  UBH_MHDR.Set_shdr_off off (UBH_MHDR.Set_shdr_num n (UBH_MHDR.Set_other 0 (UBH_MHDR.Set_magic UBH_MHDR.magic_word 0))).

Lemma file_header_run n off : 0 <= n < 64 -> 0 <= off < 2 ^ 26 ->
  in_u 96 (file_header n off) /\ UBH_MHDR.Get_umagic (file_header n off) = UBH_MHDR.magic_word /\
  UBH_MHDR.Get_shdr_num (file_header n off) = n /\ UBH_MHDR.Get_shdr_off (file_header n off) = off.
Proof.
  intros Hn Ho. unfold file_header, UBH_MHDR.Get_umagic, UBH_MHDR.Get_shdr_num, UBH_MHDR.Get_shdr_off,
    UBH_MHDR.Set_shdr_off, UBH_MHDR.Set_shdr_num, UBH_MHDR.Set_other, UBH_MHDR.Set_magic.
  split; [repeat (apply fset_range; [reflexivity | discriminate|]); split; reflexivity|].
  split; [field_simpl; reflexivity|]. split; field_simpl; apply wrapu_id; split; cbn; lia.
Qed.

Lemma Write_mhdr_run buf n off : (12 <= buf)%nat ->
  Write_mhdr (replicate buf 0) n off = Ok (bytes_of 12 (file_header n off) ++ replicate (buf - 12) 0).
Proof.
  intros H. unfold Write_mhdr, bytes_at. rewrite length_replicate. change (Z.to_nat UBH_MHDR.sizeof) with 12%nat.
  rewrite decide_True by lia. cbn [mbind outcome_bind]. rewrite take_replicate, Nat.min_l by lia.
  replace (of_bytes (replicate 12 0)) with 0 by reflexivity.
  replace (replicate buf 0) with ([] ++ replicate buf 0) by reflexivity.
  change 0 with (Z.of_nat (length (@nil Z))) at 2. rewrite memcpy_run by (rewrite bytes_of_length, length_replicate; lia).
  rewrite bytes_of_length, drop_replicate. reflexivity.
Qed.

(** The bytes of the file. *)
Definition file_bytes (e : t) (shdrs : list Z) : list Z :=
  let body := content e (sections e) in
  bytes_of 12 (file_header (Z.of_nat (length shdrs)) (12 + Z.of_nat (length body))) ++ body ++ table_bytes 8 shdrs.

Lemma Write_to_file_run e e' u w total hs rest : Finish e = Ok (u, e') -> file_fits e' = true ->
  Collect_write_info e' = Ok (w, total) -> collected e' w total hs rest ->
  Write_to_file e = Ok (file_bytes e' (hs ++ rest), e') /\ Z.of_nat (length (file_bytes e' (hs ++ rest))) = total.
Proof.
  intros Hfin Hf Hc Hco. pose proof (content_bound e' Hf) as Hb. pose proof (sections_length e') as Hl.
  destruct Hco as [Hids Hh Hr Hlen [Hlr _] _ _ Ht]. change UBH_MHDR.sizeof with 12 in Ht.
  assert (length (hs ++ rest) <= 13)%nat as Hn by (rewrite length_app; lia). set (shdrs := hs ++ rest) in *.
  set (body := content e' (sections e')) in *.
  split.
  - unfold Write_to_file. rewrite Hfin, bind_ok. cbv zeta. cbn [snd]. rewrite Hc, bind_ok. cbv beta iota. rewrite Hh. fold shdrs.
    replace (UINT32 (total - Z.of_nat (length shdrs) * UBH_SHDR.sizeof)) with (12 + Z.of_nat (length body))
      by (change UBH_SHDR.sizeof with 8; rewrite UINT32_id; lia).
    rewrite Write_mhdr_run by lia. rewrite bind_ok.
    set (hd := bytes_of 12 _). assert (length hd = 12%nat) as Hhd by apply bytes_of_length.
    change UBH_MHDR.sizeof with 12. replace 12 with (Z.of_nat (length hd)) at 1 by lia. rewrite Hids.
    rewrite Write_section_run; [|exact Hf | intros info Hi; exact (sections_in _ _ _ Hi) | fold body; rewrite length_replicate; lia].
    rewrite bind_ok. fold body. unfold Write_shdr. change (Z.to_nat UBH_SHDR.sizeof) with 8%nat.
    replace (12 + Z.of_nat (length body)) with (Z.of_nat (length (hd ++ body))) by (rewrite length_app; lia).
    rewrite drop_replicate, memcpy_run by (rewrite table_bytes_length, length_replicate; lia).
    rewrite bind_ok. unfold mret, outcome_ret. rewrite drop_replicate, table_bytes_length.
    replace (Z.to_nat total - 12 - length body - 8 * length shdrs)%nat with 0%nat by lia. cbn [replicate]. rewrite app_nil_r.
    unfold file_bytes. cbv zeta. fold body hd. now rewrite <- (assoc_L (++)).
  - unfold file_bytes. rewrite !length_app, bytes_of_length, table_bytes_length. fold body. lia.
Qed.

(** ** Reading *)
Definition with_codes (v : list CODE_ENTRY) (s : SECTIONS) : SECTIONS :=
  mkSECTIONS (_shdr_tab s) (_sec_sec_header_map s) (_type_sec s) (_func_sec s) v (_glbl_sec s) (_data_sec s)
    (_reloc_sec s) (_non_null_str_sec s).
Definition code_entries (e : t) : list CODE_ENTRY := map entry_of_body (_u_inst_encoder e).
Definition put_section (e : t) (info : SEC_INFO) (m : MODULE) : MODULE :=
  if decide (_sec_id info = S_CODE) then set_secs (with_codes (code_entries e) (_secs m)) m
  else Set_sec (_sec_id info) (enc_table e (_sec_id info)) m.

(** The code bodies of [e] are those of [v], finished. *)
Definition finished_from (v : U_INST_ENCODER.t) (e : t) : Prop :=
  U_INST_ENCODER.Finish v = Ok (_u_inst_encoder e) /\ Forall (fun c => body_fits c = true) v.

(** The number of functions that the headers give. *)
Definition code_header (e : t) (m : MODULE) : Prop :=
  Contains_section (_secs m) S_CODE = true /\ sec_elem_num (_secs m) S_CODE = Ok (Z.of_nat (length (_u_inst_encoder e))).

Lemma put_section_headers e info m : code_header e m -> code_header e (put_section e info m).
Proof.
  unfold code_header, put_section. destruct m as [mh [hs map ty fn code gl da re nn] im ina ex eg mn gn nat].
  destruct (decide (_sec_id info = S_CODE)); [now cbn|]. now destruct (_sec_id info).
Qed.

Lemma Finish_length v v' off : U_INST_ENCODER.Finish_from off v = Ok v' -> length v' = length v.
Proof.
  revert v' off. induction v as [|c v IH]; intros v' off H; cbn in H; [now injection H as <-|].
  destruct (U_CODE_BODY.Finish off c) as [c'|]; [|discriminate]. cbn in H.
  destruct (U_INST_ENCODER.Finish_from _ v) as [vs|] eqn:E; [|discriminate]. injection H as <-. cbn. f_equal. exact (IH _ _ E).
Qed.

Lemma Set_code_sec_run v e m post : finished_from v e -> file_fits e = true -> code_header e m ->
  Z.of_nat (length (table_bytes 4 (U_INST_ENCODER.Write_to_buf (_u_inst_encoder e)))) < 2 ^ 32 ->
  Code_section.Set_code_sec (words_from (table_bytes 4 (U_INST_ENCODER.Write_to_buf (_u_inst_encoder e)) ++ post)) (_secs m)
    = Ok (with_codes (code_entries e) (_secs m)).
Proof.
  intros [Hv Hb] Hf [Hc Hn] Hs. destruct (codes_fit_run e Hf) as [Hw _].
  destruct (words_from_run _ post Hw) as (ws & ->).
  rewrite table_bytes_length in Hs. pose proof (Write_to_buf_length (_u_inst_encoder e)) as Hl.
  pose proof (Finish_size _ _ _ Hv) as Hsz. pose proof (Finish_length _ _ _ Hv) as Hln.
  pose proof (read_entries_run v ws [] (_u_inst_encoder e) Hb) as Hr. cbn [length] in Hr. change (4 * Z.of_nat 0) with 0 in Hr.
  specialize (Hr ltac:(lia) Hv). cbn [app] in Hr.
  unfold Code_section.Set_code_sec. rewrite Hc. cbn [negb]. rewrite Hn. cbn [mbind outcome_bind].
  rewrite Nat2Z.id, Hln, Hr. reflexivity.
Qed.

Lemma Init_section_run v e info h m pre post : finished_from v e -> file_fits e = true -> In info SEC_INFO_ARR ->
  Z.of_nat (length pre + length (source_of e info)) < 2 ^ 32 -> describes e (Z.of_nat (length pre)) info h ->
  (_sec_id info = S_CODE -> code_header e m) ->
  Init_section (pre ++ source_of e info ++ post) h m = Ok (put_section e info m).
Proof.
  intros Hv Hf Hin Hl (D1 & D2 & D3 & D4) Hc. unfold Init_section. rewrite D2. cbn [negb].
  rewrite D4, UINT32_id by lia. rewrite Nat2Z.id, drop_app_length, D1. cbn [mbind outcome_bind].
  destruct (elems_of_eq e info Hf Hin) as [En Hn]. rewrite En in D3.
  rewrite (wrapu_id 16 (Z.of_nat (elems e info)) ltac:(split; lia) : UINT16 _ = _) in D3.
  unfold put_section. destruct (info_cases info Hin) as [E|(E & _ & Hsrc)].
  - rewrite E, decide_True by reflexivity. unfold source_of in *. rewrite E in *.
    rewrite (Set_code_sec_run v e m post Hv Hf (Hc eq_refl)) by lia. reflexivity.
  - rewrite decide_False by exact E. destruct (Hsrc e) as [-> Ee]. destruct (table_fits_run e info Hf Hin) as [Ht _].
    pose proof (objects_run' (elem_size (_sec_id info)) (elems e info) (enc_table e (_sec_id info)) post Ht Ee) as Ho.
    clear Hsrc Hc D1 Ht Ee Hl.
    repeat (destruct Hin as [<-|Hin]; [first [now contradiction E | rewrite D3, bind_ok, Nat2Z.id; cbn [_sec_id] in *; now rewrite Ho]|]).
    destruct Hin.
Qed.

Lemma Init_sections_run v e infos : finished_from v e -> file_fits e = true -> (forall info, In info infos -> In info SEC_INFO_ARR) ->
  forall hs rest pre post m, length hs = length infos -> (forall h, In h rest -> UBH_SHDR.Have_sec h = false) ->
  Z.of_nat (length pre + length (content e infos)) < 2 ^ 32 ->
  (forall k info, infos !! k = Some info -> exists h, hs !! k = Some h /\
    describes e (Z.of_nat (length pre + length (content e (take k infos)))) info h) ->
  (In S_CODE (map _sec_id infos) -> code_header e m) ->
  Init_sections (pre ++ content e infos ++ post) (hs ++ rest) m = Ok (fold_left (fun m info => put_section e info m) infos m).
Proof.
  intros Hv Hf. induction infos as [|info infos IH]; intros Hin hs rest pre post m Hlen Hrest Hl Hd Hc.
  - destruct hs; [|discriminate]. cbn [app]. clear Hd Hc. induction rest as [|h rest IHr]; [reflexivity|].
    cbn [Init_sections]. unfold Init_section. rewrite Hrest by now left. cbn [negb mbind outcome_bind mret outcome_ret].
    apply IHr. intros h' Hh'. apply Hrest. now right.
  - destruct hs as [|h hs]; [discriminate|]. rewrite content_cons, length_app in *. cbn [app Init_sections fold_left].
    destruct (Hd 0%nat info eq_refl) as (h' & [= <-] & D). cbn [take content map concat length] in D. rewrite Nat.add_0_r in D.
    rewrite <- (assoc_L (++)), (Init_section_run v e info h m) by
      (first [exact Hv | exact Hf | apply Hin; now left | lia | exact D | intros E; apply Hc; cbn; now left]).
    cbn [mbind outcome_bind]. rewrite (assoc_L (++)). apply IH.
    + intros; apply Hin; now right.
    + now injection Hlen.
    + exact Hrest.
    + rewrite length_app. lia.
    + intros k i Hk. destruct (Hd (S k) i Hk) as (h' & Hh & D'). exists h'. split; [exact Hh|].
      cbn [take] in D'. rewrite content_cons, length_app, Nat.add_assoc in D'. now rewrite length_app.
    + intros Hi. apply put_section_headers, Hc. now right.
Qed.

(** The tables after all sections. *)
Lemma sec_table_put e info m id : sec_table (put_section e info m) id =
  if decide (_sec_id info = id) then enc_table e id else sec_table m id.
Proof.
  unfold put_section. destruct m as [mh [hs map ty fn code gl da re nn] im ina ex eg mn gn nat].
  destruct (decide (_sec_id info = id)) as [<-|Hn].
  - destruct (decide (_sec_id info = S_CODE)) as [->|]; [reflexivity|]. now destruct (_sec_id info).
  - destruct (decide (_sec_id info = S_CODE)) as [|]; [now destruct id|]. destruct (_sec_id info), id; first [reflexivity | congruence].
Qed.

Lemma code_sec_put e info m : _code_sec (_secs (put_section e info m)) =
  if decide (_sec_id info = S_CODE) then code_entries e else _code_sec (_secs m).
Proof.
  unfold put_section. destruct m as [mh [hs map ty fn code gl da re nn] im ina ex eg mn gn nat].
  destruct (decide (_sec_id info = S_CODE)) as [|]; [reflexivity|]. now destruct (_sec_id info).
Qed.

Lemma put_section_shdrs e info m : _shdr_tab (_secs (put_section e info m)) = _shdr_tab (_secs m) /\
  _sec_sec_header_map (_secs (put_section e info m)) = _sec_sec_header_map (_secs m) /\ _nat_sec (put_section e info m) = _nat_sec m.
Proof.
  unfold put_section. destruct m as [mh [hs map ty fn code gl da re nn] im ina ex eg mn gn nat].
  destruct (decide (_sec_id info = S_CODE)) as [|]; [now cbn|]. now destruct (_sec_id info).
Qed.

Definition put_sections (e : t) (infos : list SEC_INFO) (m : MODULE) : MODULE :=
  fold_left (fun m info => put_section e info m) infos m.

Lemma put_sections_run e infos : forall m,
  (forall id, sec_table (put_sections e infos m) id = if decide (id ∈ map _sec_id infos) then enc_table e id else sec_table m id) /\
  _code_sec (_secs (put_sections e infos m)) = (if decide (S_CODE ∈ map _sec_id infos) then code_entries e else _code_sec (_secs m)) /\
  _shdr_tab (_secs (put_sections e infos m)) = _shdr_tab (_secs m) /\
  _sec_sec_header_map (_secs (put_sections e infos m)) = _sec_sec_header_map (_secs m) /\
  _nat_sec (put_sections e infos m) = _nat_sec m.
Proof.
  induction infos as [|info infos IH]; intros m; [cbn; auto|].
  change (put_sections e (info :: infos) m) with (put_sections e infos (put_section e info m)).
  destruct (IH (put_section e info m)) as (H1 & H2 & H3 & H4 & H5). destruct (put_section_shdrs e info m) as (P1 & P2 & P3).
  assert (forall (A : Type) id (x y : A), (if decide (id ∈ map _sec_id infos) then x else if decide (_sec_id info = id) then x else y)
    = if decide (id ∈ map _sec_id (info :: infos)) then x else y) as Hd.
  { intros A id x y. cbn [map]. destruct (decide (id ∈ map _sec_id infos)) as [Hi|Hi].
    - now rewrite decide_True by now right.
    - destruct (decide (_sec_id info = id)) as [<-|Hn]; [now rewrite decide_True by left|].
      rewrite decide_False; [reflexivity|]. intros [->|]%elem_of_cons; contradiction. }
  split; [intros id; now rewrite H1, sec_table_put, Hd|]. split; [now rewrite H2, code_sec_put, Hd|].
  split; [congruence|]. split; congruence.
Qed.

Lemma put_sections_mhdr e infos : forall m, _mhdr (put_sections e infos m) = _mhdr m.
Proof.
  induction infos as [|info infos IH]; intros m; [reflexivity|].
  change (put_sections e (info :: infos) m) with (put_sections e infos (put_section e info m)). rewrite IH.
  unfold put_section. destruct m as [mh [hs map ty fn code gl da re nn] im ina ex eg mn gn nat].
  destruct (decide (_sec_id info = S_CODE)) as [|]; [reflexivity|]. now destruct (_sec_id info).
Qed.

(** A section that is not written is empty. *)
Lemma enc_table_nil e id : file_fits e = true -> id ∉ map _sec_id (sections e) -> enc_table e id = [].
Proof.
  intros Hf Hn. destruct (decide (id ∈ map _sec_id SEC_INFO_ARR)) as [Hi|Hi].
  - apply list_elem_of_fmap in Hi as (info & -> & Hi). pose proof (proj1 (list_elem_of_In _ _) Hi) as Hi'.
    destruct (info_cases info Hi') as [->|(_ & _ & Hs)]; [reflexivity|]. destruct (Hs e) as [_ Ee].
    destruct (elems_of_eq e info Hf Hi') as [E _]. apply nil_length_inv. rewrite <- Ee.
    destruct (decide (elems_of e info = 0)) as [|Hz]; [lia|]. destruct Hn. apply list_elem_of_fmap. exists info.
    split; [reflexivity|]. now apply list_elem_of_filter.
  - destruct id; try reflexivity; destruct Hi; refine (bool_decide_eq_true_1 _ _); vm_compute; reflexivity.
Qed.

Lemma codes_nil e : file_fits e = true -> S_CODE ∉ map _sec_id (sections e) -> _u_inst_encoder e = [].
Proof.
  intros Hf Hn. set (info := Build_SEC_INFO S_CODE SEC_TAG.SEC_CODE (-1) 0).
  assert (In info SEC_INFO_ARR) as Hi by (cbn; tauto). destruct (elems_of_eq e info Hf Hi) as [E _].
  apply nil_length_inv. change (length (_u_inst_encoder e)) with (elems e info).
  destruct (decide (elems_of e info = 0)) as [|Hz]; [lia|]. destruct Hn. apply list_elem_of_fmap. exists info.
  split; [reflexivity|]. apply list_elem_of_filter. split; [exact Hz | now apply list_elem_of_In].
Qed.

(** What the loader has from the file: the encoder's tables and codes, under headers that
  give their numbers of elements. *)
Record holds (e : t) (m : MODULE) : Prop := {
  ho_tables : forall id, sec_table m id = enc_table e id;
  ho_codes : _code_sec (_secs m) = code_entries e;
  ho_natives : _nat_sec m = [];
  ho_sections : forall id, Contains_section (_secs m) id = true <-> id ∈ map _sec_id (sections e);
  ho_found : found e (sections e) (_secs m);
  ho_headers : exists w total hs rest, collected e w total hs rest /\ _shdr_tab (_secs m) = hs ++ rest /\
    UBH_MHDR.Get_shdr_num (_mhdr m) = Z.of_nat (length (hs ++ rest));
  ho_numbers : forall info, info ∈ sections e -> sec_elem_num (_secs m) (_sec_id info) = Ok (Z.of_nat (elems e info));
}.

Lemma sec_elem_num_ext s s' id : _shdr_tab s = _shdr_tab s' -> _sec_sec_header_map s = _sec_sec_header_map s' ->
  sec_elem_num s id = sec_elem_num s' id /\ Contains_section s id = Contains_section s' id.
Proof.
  intros H1 H2. unfold sec_elem_num, Get_shdr_by_sec_id, Get_shdr_idx, Contains_section. now rewrite H1, H2.
Qed.

Lemma found_ext e infos s s' : _shdr_tab s' = _shdr_tab s -> _sec_sec_header_map s' = _sec_sec_header_map s ->
  found e infos s -> found e infos s'.
Proof.
  intros H1 H2 [F1 F2]. split.
  - intros id. rewrite <- F1. unfold Contains_section. now rewrite H2.
  - intros k info Hk. unfold Get_shdr_by_sec_id, Get_shdr_idx, Contains_section. rewrite H1, H2. exact (F2 k info Hk).
Qed.

Lemma found_numbers e infos s info : found e infos s -> file_fits e = true -> In info SEC_INFO_ARR -> info ∈ infos ->
  sec_elem_num s (_sec_id info) = Ok (Z.of_nat (elems e info)).
Proof.
  intros [_ Hh] Hf Hin (k & Hk)%list_elem_of_lookup. destruct (Hh k info Hk) as (h & H1 & H2 & _).
  unfold sec_elem_num. rewrite H1. cbn [mbind outcome_bind]. destruct (elems_of_eq e info Hf Hin) as [E Hn].
  rewrite H2, E. f_equal. apply wrapu_id. split; lia.
Qed.

Lemma offset_at_content e k : file_fits e = true ->
  offset_at (sizes_of e (sections e)) UBH_MHDR.sizeof k = Z.of_nat (12 + length (content e (take k (sections e)))).
Proof.
  intros Hf. pose proof (content_bound e Hf) as Hb.
  destruct (sizes_content e (sections e) Hf (fun info => sections_in e _ info) ltac:(lia)) as [-> _].
  unfold offset_at. rewrite Nat2Z.inj_add. change UBH_MHDR.sizeof with 12. change (Z.of_nat 12) with 12. f_equal.
  rewrite firstn_map. generalize (take k (sections e)). intros infos. induction infos as [|info infos IH]; [reflexivity|].
  rewrite content_cons, length_app. cbn [map foldr]. lia.
Qed.

(** Before the sections there are no tables. *)
Lemma fresh_tables hs s mh : Set_shdr_tab hs no_sections = Ok s ->
  (forall id, sec_table (mkMODULE mh s [] [] [] [] [] [] []) id = []) /\ _code_sec s = [].
Proof.
  unfold Set_shdr_tab. destruct (section_map 0 hs); [|discriminate]. intros [= <-]. split; [now intros [] | reflexivity].
Qed.

Lemma Read_sections_run v e w total hs rest : finished_from v e -> file_fits e = true -> collected e w total hs rest ->
  exists m, Read_sections (file_bytes e (hs ++ rest)) = Ok m /\ holds e m /\ _shdr_tab (_secs m) = hs ++ rest /\
    UBH_MHDR.Get_shdr_num (_mhdr m) = Z.of_nat (length (hs ++ rest)).
Proof.
  intros Hv Hf Hco. pose proof Hco as [_ _ Hr Hlen [Hl1 Hrest] Hd _ _]. pose proof (content_bound e Hf) as Hb. pose proof (sections_length e) as Hl.
  assert (length (hs ++ rest) <= 13)%nat as Hn by (rewrite length_app; lia).
  set (body := content e (sections e)) in *.
  destruct (file_header_run (Z.of_nat (length (hs ++ rest))) (12 + Z.of_nat (length body)) ltac:(lia) ltac:(lia)) as (Hhr & Hmag & Hnum & Hoff).
  set (hd := bytes_of 12 (file_header (Z.of_nat (length (hs ++ rest))) (12 + Z.of_nat (length body)))).
  assert (file_bytes e (hs ++ rest) = hd ++ body ++ table_bytes 8 (hs ++ rest)) as Eb by reflexivity.
  assert (length hd = 12%nat) as Hhd by apply bytes_of_length.
  destruct (found_run e (sections e) hs rest no_sections (sections_NoDup e) Hlen Hd Hrest) as (s & Hs & Hfound).
  set (m0 := mkMODULE (file_header (Z.of_nat (length (hs ++ rest))) (12 + Z.of_nat (length body))) s [] [] [] [] [] [] []).
  assert (Init_sections (file_bytes e (hs ++ rest)) (hs ++ rest) m0 = Ok (put_sections e (sections e) m0)) as Hi.
  { rewrite Eb. apply (Init_sections_run v); try assumption.
    - intros info Hin. exact (sections_in e _ info Hin).
    - fold body. lia.
    - intros k info Hk. destruct (Hd k info Hk) as (h & Hh & D). exists h. split; [exact Hh|].
      rewrite Hhd. now rewrite <- offset_at_content.
    - intros Hc%list_elem_of_In. split; [now apply (fd_contains _ _ _ Hfound)|].
      apply list_elem_of_fmap in Hc as (info & E & Hc). pose proof (sections_in e SEC_INFO_ARR info (proj1 (list_elem_of_In _ _) Hc)) as Hin.
      pose proof (found_numbers e _ s info Hfound Hf Hin Hc) as H. unfold elems in H. now rewrite <- E in H. }
  exists (put_sections e (sections e) m0). split.
  - set (buf := file_bytes e (hs ++ rest)) in *.
    assert (bytes_at buf UBH_MHDR.sizeof = Ok hd) as Et.
    { rewrite Eb. unfold bytes_at. change (Z.to_nat UBH_MHDR.sizeof) with 12%nat.
      rewrite decide_True by (rewrite !length_app; lia). now rewrite take_app_length' by exact Hhd. }
    assert (objects 8 (length (hs ++ rest)) (drop (Z.to_nat (12 + Z.of_nat (length body))) buf) = hs ++ rest) as Ed.
    { replace (Z.to_nat (12 + Z.of_nat (length body))) with (length hd + length body)%nat by lia.
      rewrite Eb, (assoc_L (++)), drop_app_length' by (rewrite length_app; lia).
      rewrite <- (app_nil_r (table_bytes 8 _)). exact (objects_run 8 (hs ++ rest) [] Hr). }
    pose proof (of_bytes_of 12 _ Hhr : of_bytes hd = _) as Eh.
    unfold Read_sections. rewrite Et, bind_ok. cbv zeta. rewrite Eh.
    rewrite Hmag, Z.eqb_refl. cbn [negb]. rewrite Hnum, Hoff, Nat2Z.id.
    change (Z.to_nat UBH_SHDR.sizeof) with 8%nat. rewrite Ed, decide_True by reflexivity.
    rewrite bind_ok, Hs, bind_ok. exact Hi.
  - destruct (put_sections_run e (sections e) m0) as (P1 & P2 & P3 & P4 & P5).
    assert (_shdr_tab (_secs (put_sections e (sections e) m0)) = hs ++ rest) as Etab.
    { rewrite P3. change (_secs m0) with s. unfold Set_shdr_tab in Hs. destruct (section_map 0 _); [|discriminate]. now injection Hs as <-. }
    assert (UBH_MHDR.Get_shdr_num (_mhdr (put_sections e (sections e) m0)) = Z.of_nat (length (hs ++ rest))) as Enum by now rewrite put_sections_mhdr.
    split; [|auto]. split.
    + intros id. rewrite P1. destruct (decide (id ∈ map _sec_id (sections e))) as [|Hni]; [reflexivity|]. rewrite (enc_table_nil e id Hf Hni).
      exact (proj1 (fresh_tables _ _ _ Hs) id).
    + rewrite P2. destruct (decide (S_CODE ∈ map _sec_id (sections e))) as [|Hni]; [reflexivity|]. unfold code_entries. rewrite (codes_nil e Hf Hni).
      exact (proj2 (fresh_tables _ _ (file_header 0 0) Hs)).
    + now rewrite P5.
    + intros id. destruct (sec_elem_num_ext _ s id P3 P4) as [_ ->]. apply (fd_contains _ _ _ Hfound).
    + apply (found_ext _ _ s); [exact P3 | exact P4 | exact Hfound].
    + exists w, total, hs, rest. auto.
    + intros info Hin. destruct (sec_elem_num_ext _ s (_sec_id info) P3 P4) as [-> _].
      apply (found_numbers e (sections e)); try assumption. exact (sections_in e _ info (proj1 (list_elem_of_In _ _) Hin)).
Qed.

(** A file written can be read, and holds what was written. *)
Theorem file_saved e e' u w total : Finish e = Ok (u, e') -> Collect_write_info e' = Ok (w, total) ->
  finished_from (_u_inst_encoder e) e' -> file_fits e' = true ->
  exists buf m, Write_to_file e = Ok (buf, e') /\ Z.of_nat (length buf) = total /\
    Read_sections buf = Ok m /\ holds e' m.
Proof.
  intros Hfin Hc Hv Hf. destruct (Collect_facts e' w total Hf Hc) as (hs & rest & Hco).
  destruct (Write_to_file_run e e' u w total hs rest Hfin Hf Hc Hco) as [Hw Hl].
  destruct (Read_sections_run _ e' w total hs rest Hv Hf Hco) as (m & Hm & Hh & _).
  exists (file_bytes e' (hs ++ rest)), m. auto.
Qed.
End Saved.
