(* ===== verification/Functions.v ===== *)
(** * The function table of the encoder

  What [U_ENCODER::Request_func] enters for functions with different names, and what
  it answers for a name it has: it compares the index of the name in the string
  table with the offsets that the function table keeps. *)

From S2P Require Import Prelude CInt BitField Isa Inst Expand Ubh UModule StrTab TypeEncoder Encoder Labels.
From Stdlib Require Import ZArith Lia.
Local Open Scope Z_scope.

Section Functions.
Context {bd : Build} {vg : VectorGrowth}.
Import U_ENCODER.

(** The bytes of the table: an empty string, then the names. *)
Definition names_bytes (ns : list (list Z)) : list Z := 0 :: concat (map cstr ns).
Definition name_off (ns : list (list Z)) (j : nat) : Z := Z.of_nat (length (names_bytes (take j ns))).

(** The state after the functions [ns], different and none empty, were requested. *)
Record requested (ns : list (list Z)) (e : t) : Prop := {
  rq_tab : wf_tab (_module_string_tab e);
  rq_strings : forall i s, string_at (_module_string_tab e) (Z.of_nat i) = Some s <->
    i = O /\ s = [0] \/ exists j nm, i = S j /\ ns !! j = Some nm /\ s = cstr nm;
  rq_raw : _raw_buf (_module_string_tab e) = names_bytes ns;
  rq_funcs : map UBH_FUNC.Get_name_idx (_func_tab e) = imap (fun j _ => name_off ns j) ns;
  rq_names : NoDup ns /\ Forall (fun nm => nm <> []) ns;
  rq_small : Z.of_nat (length (names_bytes ns)) <= 2 ^ 16;
}.

Lemma entry_count t n : (forall i, is_Some (string_at t (Z.of_nat i)) <-> (i < n)%nat) -> length (_entry_vec t) = n.
Proof.
  intros H. assert (forall i, is_Some (_entry_vec t !! i) <-> (i < n)%nat) as H'.
  { intros i. rewrite <- H. split.
    - intros [e He]. exists (slice_of (_raw_buf t) e). apply string_at_lookup. eauto.
    - intros [s (e & He & _)%string_at_lookup]. eauto. }
  setoid_rewrite lookup_lt_is_Some in H'.
  destruct (Nat.lt_trichotomy (length (_entry_vec t)) n) as [Hl|[Hl|Hl]]; [|exact Hl|]; apply H' in Hl; lia.
Qed.

Lemma requested_count ns e : requested ns e -> length (_entry_vec (_module_string_tab e)) = S (length ns).
Proof.
  intros [W S _ _ _ _]. apply entry_count. intros i. split.
  - intros [s [[-> _]|(j & nm & -> & Hj & _)]%S]; [lia|]. apply lookup_lt_Some in Hj. lia.
  - intros Hi. destruct i as [|j]; [exists [0]; apply S; auto|].
    destruct (lookup_lt_is_Some_2 ns j ltac:(lia)) as [nm Hj]. exists (cstr nm). apply S. right. eauto.
Qed.

Lemma cstr_not_empty nm : nm <> [] -> cstr nm <> [0].
Proof. destruct nm as [|a [|b nm]]; intros H E; [now apply H | discriminate | discriminate]. Qed.

Lemma requested_differ ns e : requested ns e -> names_differ (_module_string_tab e).
Proof.
  intros [W HS _ _ [Hd Hne] _] i j s Hi Hj.
  pose proof (string_at_nonneg _ _ _ Hi). pose proof (string_at_nonneg _ _ _ Hj).
  rewrite <- (Z2Nat.id i) in Hi by lia. rewrite <- (Z2Nat.id j) in Hj by lia.
  assert (forall k nm, ns !! k = Some nm -> cstr nm <> [0]) as Hc
    by (intros k nm Hk; apply cstr_not_empty; exact (Forall_lookup_1 _ _ _ _ Hne Hk)).
  apply HS in Hi as [[Ei ->]|(a & na & Ei & Ha & ->)], Hj as [[Ej Es]|(b & nb & Ej & Hb & Es)].
  - lia.
  - exfalso. exact (Hc _ _ Hb (eq_sym Es)).
  - exfalso. exact (Hc _ _ Ha Es).
  - apply cstr_inj in Es. subst nb. pose proof (NoDup_lookup _ _ _ _ Hd Ha Hb). lia.
Qed.

Lemma create_requested e : create = Ok e -> requested [] e.
Proof.
  intros H. unfold create in H. cbn in H. injection H as <-.
  assert (wf_tab str_tab0) as W by apply wf_tab0.
  destruct (Add_spec [0] str_tab0 W ltac:(split; reflexivity)) as (t' & Ha & [W' _ _ _ _ _]).
  pose proof (Add_strings [0] _ _ W ltac:(split; reflexivity) Ha) as Hs. injection Ha as <-.
  split; cbn [_module_string_tab _func_tab]; auto.
  - intros i s. rewrite Hs. split.
    + intros [H|[-> ->]]; [|now left]. unfold string_at in H. now destruct (Z.of_nat i <? 0).
    + intros [[-> ->]|(j & nm & _ & H & _)]; [now right | discriminate].
  - split; constructor.
  - discriminate.
Qed.

Lemma names_bytes_snoc ns nm : names_bytes (ns ++ [nm]) = names_bytes ns ++ cstr nm.
Proof. unfold names_bytes. rewrite map_app, concat_app. cbn. now rewrite app_nil_r. Qed.

Lemma name_idx_kept ty off fl : 0 <= off < 2 ^ 16 -> UBH_FUNC.Get_name_idx (UBH_FUNC.UBH_FUNC ty off fl) = off.
Proof.
  intros H. unfold UBH_FUNC.Get_name_idx, UBH_FUNC.UBH_FUNC. field_simpl. unfold fkeep. cbn. now apply wrapu_id.
Qed.

(** A new name: entered at the end. *)
Lemma name_absent ns nm e : requested ns e -> nm <> [] -> nm ∉ ns -> Contains (cstr nm) (_module_string_tab e) = false.
Proof.
  intros [W HS _ _ _ _] Hne Hnew. apply not_true_is_false. intros H. apply Contains_iff in H as [i Hi]; [|exact W].
  pose proof (string_at_nonneg _ _ _ Hi). rewrite <- (Z2Nat.id i) in Hi by lia.
  apply HS in Hi as [[_ E]|(j & nm' & _ & Hj & E)]; [now apply cstr_not_empty in E|].
  apply cstr_inj in E. subst nm'. apply Hnew. eapply list_elem_of_lookup_2, Hj.
Qed.
Lemma names_bytes_long ns : (length (names_bytes ns) > length ns)%nat.
Proof.
  unfold names_bytes. cbn [length]. induction ns as [|a ns IH]; [cbn; lia|]. cbn [map concat length].
  change (cstr a) with (a ++ [0]). rewrite !length_app. cbn [length]. lia.
Qed.
Lemma request_new ns nm ty fl e : requested ns e -> nm <> [] -> nm ∉ ns ->
  Z.of_nat (length (names_bytes (ns ++ [nm]))) <= 2 ^ 16 -> exists e',
  Inner_request_func nm ty fl e = Ok ((Z.of_nat (length ns), false), e') /\ requested (ns ++ [nm]) e'.
Proof.
  intros Hq Hne Hnew Hsz. pose proof (requested_count ns e Hq) as Hcnt. pose proof Hq as [W HS HR HF [Hd Hall] Hsm].
  pose proof (name_absent ns nm e Hq Hne Hnew) as Hc. rewrite names_bytes_snoc, length_app in Hsz. pose proof (names_bytes_long ns) as Hl.
  assert (has_room (length (cstr nm)) (_module_string_tab e)) as Hroom
    by (unfold has_room; rewrite HR, Hcnt; change (2 ^ 16) with 65536 in Hsz; change (2 ^ 32) with 4294967296; lia).
  destruct (Add_spec _ _ W Hroom) as (t' & Ha & [W' Hn _ _ _ _]).
  assert (length (cstr nm) > 0)%nat as Hpos by (unfold cstr; rewrite length_app; cbn; lia).
  assert (Get_off (Z.of_nat (S (length ns))) t' = Ok (Z.of_nat (length (names_bytes ns)))) as Hoff.
  { unfold Add in Ha. injection Ha as _ <-. unfold Get_off. cbn [_entry_vec].
    rewrite length_app, Hcnt, (proj2 (Z.ltb_lt _ _)), Is_True_true by (cbn; lia). cbn [mbind outcome_bind].
    assert (forall e0 : Z * Z, nthZ (_entry_vec (_module_string_tab e) ++ [e0]) (Z.of_nat (S (length ns))) = Ok e0) as ->.
    { intros e0. apply nthZ_Ok. split; [lia|]. rewrite Nat2Z.id, <- Hcnt. now rewrite lookup_app_r, Nat.sub_diag by lia. }
    cbn [mbind outcome_bind mret outcome_ret fst]. rewrite HR, UINT32_id; [reflexivity|].
    change (2 ^ 16) with 65536 in Hsz. lia. }
  unfold Inner_request_func. rewrite (bind_run get _ e e e eq_refl), Hc.
  eassert (on_module_names (Add (cstr nm)) e = Ok (Z.of_nat (S (length ns)), _)) as Hon
    by (unfold on_module_names, on_part; rewrite Ha, Hcnt; reflexivity).
  rewrite (bind_run _ _ _ _ _ Hon), (bind_run get _ _ _ _ eq_refl).
  rewrite (bind_run (lift _) _ _ _ _ (proj2 (lift_Ok _ _ _ _) (conj Hoff eq_refl))). eexists. split.
  { rewrite (bind_run (modify _) _ _ _ _ eq_refl), (bind_run (gets _) _ _ _ _ eq_refl). unfold mret, M_ret.
    cbn [_func_tab set_funcs set_names]. rewrite length_app. cbn [length]. do 3 f_equal.
    assert (length (_func_tab e) = length ns) as Hlf
      by (rewrite <- (length_map UBH_FUNC.Get_name_idx), HF, length_imap; reflexivity). lia. }
  split; cbn [set_funcs set_names _module_string_tab _func_tab].
  - exact W'.
  - intros i s. rewrite (Add_strings _ _ _ W Hroom Ha), HS, Hcnt. split.
    + intros [[H|(j & nm' & -> & Hj & ->)]|[-> ->]]; [now left | |]; right; do 2 eexists; (split; [reflexivity|]).
      * split; [apply lookup_app_l_Some, Hj | reflexivity].
      * split; [now rewrite lookup_app_r, Nat.sub_diag by lia | reflexivity].
    + intros [H|(j & nm' & -> & Hj & ->)]; [now left; left|].
      apply lookup_app_Some in Hj as [Hj|[Hge Hj]]; [left; right; eauto|].
      apply list_lookup_singleton_Some in Hj as [Hj <-]. right. split; [lia | reflexivity].
  - unfold Add in Ha. injection Ha as _ <-. cbn [_raw_buf]. now rewrite HR, names_bytes_snoc.
  - rewrite map_app, HF, imap_app. cbn [map imap]. f_equal.
    + apply imap_ext. intros j x Hj. unfold name_off. apply lookup_lt_Some in Hj. now rewrite take_app_le by lia.
    + rewrite name_idx_kept by lia. unfold name_off. rewrite Nat.add_0_r, take_app_length. reflexivity.
  - split.
    + apply NoDup_app. repeat split; [exact Hd | | apply NoDup_singleton].
      intros x Hx ->%list_elem_of_singleton. contradiction.
    + apply Forall_app. auto.
  - rewrite names_bytes_snoc, length_app. exact Hsz.
Qed.

(** Where the names are: each at its offset, the offsets increase by two bytes at least. *)
Lemma names_bytes_at ns j nm : ns !! j = Some nm ->
  names_bytes ns = names_bytes (take j ns) ++ cstr nm ++ concat (map cstr (drop (S j) ns)).
Proof.
  intros H. rewrite <- (take_drop j ns) at 1. rewrite (drop_S ns nm j H). unfold names_bytes.
  now rewrite map_app, concat_app.
Qed.
Lemma name_off_bounds ns j nm : ns !! j = Some nm -> 0 < name_off ns j < Z.of_nat (length (names_bytes ns)).
Proof.
  intros H. unfold name_off. rewrite (names_bytes_at ns j nm H), length_app. change (cstr nm) with (nm ++ [0]).
  unfold names_bytes at 1. rewrite !length_app. cbn [length]. lia.
Qed.
Lemma name_off_step ns j nm : ns !! j = Some nm -> name_off ns (S j) = name_off ns j + Z.of_nat (length nm) + 1.
Proof.
  intros H. unfold name_off. rewrite (take_S_r ns j nm H), names_bytes_snoc. change (cstr nm) with (nm ++ [0]).
  rewrite !length_app. cbn [length]. lia.
Qed.
Lemma name_off_steep ns j k : Forall (fun nm => nm <> []) ns -> (j + k <= length ns)%nat ->
  name_off ns j + 2 * Z.of_nat k <= name_off ns (j + k).
Proof.
  intros Hne. induction k as [|k IH]; intros Hk; [rewrite Nat.add_0_r; lia|]. specialize (IH ltac:(lia)).
  destruct (lookup_lt_is_Some_2 ns (j + k) ltac:(lia)) as [nm H]. rewrite Nat.add_succ_r, (name_off_step _ _ _ H).
  pose proof (Forall_lookup_1 _ _ _ _ Hne H) as Hn. destruct nm as [|a nm]; [now contradict Hn|]. cbn [length]. lia.
Qed.
Lemma name_off_inj ns j k : Forall (fun nm => nm <> []) ns -> (j < length ns)%nat -> (k < length ns)%nat ->
  name_off ns j = name_off ns k -> j = k.
Proof.
  intros Hne Hj Hk E. destruct (Nat.lt_trichotomy j k) as [H|[H|H]]; [|exact H|].
  - pose proof (name_off_steep ns j (k - j) Hne ltac:(lia)) as P. replace (j + (k - j))%nat with k in P by lia. lia.
  - pose proof (name_off_steep ns k (j - k) Hne ltac:(lia)) as P. replace (k + (j - k))%nat with j in P by lia. lia.
Qed.

(** The search for an entry. *)
Lemma find_func_spec i l n :
  match find_func i l n with
  | Some k => exists j, k = i + Z.of_nat j /\ map UBH_FUNC.Get_name_idx l !! j = Some n
  | None => forall j, map UBH_FUNC.Get_name_idx l !! j <> Some n
  end.
Proof.
  revert i. induction l as [|f l IH]; intros i; cbn [find_func map]; [intros j; discriminate|].
  destruct (Z.eqb_spec (UBH_FUNC.Get_name_idx f) n) as [<-|Hn]; [exists O; split; [lia | reflexivity]|].
  specialize (IH (i + 1)). destruct (find_func _ _ _) as [k|].
  - destruct IH as (j & -> & H). exists (S j). split; [lia | exact H].
  - intros [|j]; [now intros [= E] | apply IH].
Qed.

(** A name that was requested before: the answer is the function whose name is stored at
  the offset equal to the index of this name. *)
Lemma request_again ns nm i ty fl e : requested ns e -> ns !! i = Some nm ->
  (forall j, (j < length ns)%nat -> name_off ns j = Z.of_nat (S i) -> Inner_request_func nm ty fl e = Ok ((Z.of_nat j, true), e)) /\
  ((forall j, (j < length ns)%nat -> name_off ns j <> Z.of_nat (S i)) ->
    Inner_request_func nm ty fl e = match Is_True false with Ok _ => Ok ((UINT32 (-1), true), e) | Err f => Err f end).
Proof.
  intros Hq Hi. pose proof Hq as [W HS HR HF [Hd Hall] Hsm]. pose proof (requested_differ ns e Hq) as Hdiff.
  assert (string_at (_module_string_tab e) (Z.of_nat (S i)) = Some (cstr nm)) as Hs by (apply HS; right; eauto).
  assert (Get_idx (cstr nm) (_module_string_tab e) = Z.of_nat (S i)) as Hx.
  { unfold Get_idx. destruct (wf_found _ W _ _ Hs) as [j Hj]. rewrite Hj. cbn [default].
    exact (Hdiff _ _ _ (wf_cache _ W _ _ Hj) Hs). }
  assert (Contains (cstr nm) (_module_string_tab e) = true) as Hc by (apply (Contains_iff _ _ W); eauto).
  assert (forall j x, map UBH_FUNC.Get_name_idx (_func_tab e) !! j = Some x <-> (j < length ns)%nat /\ name_off ns j = x) as HL.
  { intros j x. rewrite HF, list_lookup_imap. split.
    - destruct (ns !! j) eqn:Ej; [|discriminate]. intros [= <-]. split; [now apply lookup_lt_Some in Ej | reflexivity].
    - intros [Hj <-]. now destruct (lookup_lt_is_Some_2 ns j Hj) as [y ->]. }
  unfold Inner_request_func. rewrite (bind_run get _ e e e eq_refl), Hc, Hx.
  pose proof (find_func_spec 0 (_func_tab e) (Z.of_nat (S i))) as Hf. destruct (find_func _ _ _) as [k|]; split.
  - intros j Hj Ej. destruct Hf as (j' & -> & [Hj' Ej']%HL). now rewrite (name_off_inj ns j j' Hall Hj Hj' (eq_trans Ej (eq_sym Ej'))).
  - intros Hno. destruct Hf as (j' & _ & [Hj' Ej']%HL). now destruct (Hno j' Hj').
  - intros j Hj Ej. destruct (Hf j). now apply HL.
  - intros _. unfold mbind, M_bind, lift. now destruct (Is_True false) as [[]|].
Qed.

(** Requesting the functions of a list, one after the other: the answers. *)
Fixpoint request_all (ns : list (list Z)) (ty fl : Z) : M t (list (Z * bool)) :=
  match ns with
  | [] => mret []
  | nm :: ns => r ← Inner_request_func nm ty fl; rs ← request_all ns ty fl; mret (r :: rs)
  end.

Lemma request_all_run ns ty fl : forall pre e, requested pre e -> NoDup (pre ++ ns) -> Forall (fun nm => nm <> []) ns ->
  Z.of_nat (length (names_bytes (pre ++ ns))) <= 2 ^ 16 ->
  exists e', request_all ns ty fl e = Ok (map (fun j => (Z.of_nat j, false)) (seq (length pre) (length ns)), e') /\ requested (pre ++ ns) e'.
Proof.
  induction ns as [|nm ns IH]; intros pre e Hq Hd Hne Hsz.
  - exists e. rewrite app_nil_r. auto.
  - apply Forall_cons in Hne as [Hn Hne]. replace (pre ++ nm :: ns) with ((pre ++ [nm]) ++ ns) in * by now rewrite <- (assoc_L (++)).
    assert (nm ∉ pre) as Hnew.
    { apply NoDup_app in Hd as (Hd & _ & _). apply NoDup_app in Hd as (_ & Hx & _). intros H. apply (Hx nm H). now left. }
    destruct (request_new pre nm ty fl e Hq Hn Hnew) as (e1 & H1 & Hq1).
    { revert Hsz. generalize (pre ++ [nm]). intros l Hsz. etransitivity; [|exact Hsz]. apply Nat2Z.inj_le.
      unfold names_bytes. rewrite map_app, concat_app. cbn [length]. rewrite length_app. lia. }
    destruct (IH (pre ++ [nm]) e1 Hq1 Hd Hne Hsz) as (e' & H2 & Hq').
    exists e'. split; [|exact Hq']. cbn [request_all length seq map].
    rewrite (bind_run _ _ _ _ _ H1), (bind_run _ _ _ _ _ H2), length_app. cbn [length]. now rewrite Nat.add_1_r.
Qed.

(** The entries, in the order of the requests. *)
Lemma requested_entry ns e i nm : requested ns e -> ns !! i = Some nm -> exists f, _func_tab e !! i = Some f /\
  UBH_FUNC.Get_name_idx f = name_off ns i /\
  take (length (cstr nm)) (drop (Z.to_nat (UBH_FUNC.Get_name_idx f)) (_raw_buf (_module_string_tab e))) = cstr nm.
Proof.
  intros [_ _ HR HF _ _] Hi. assert (map UBH_FUNC.Get_name_idx (_func_tab e) !! i = Some (name_off ns i)) as H
    by (now rewrite HF, list_lookup_imap, Hi).
  apply list_lookup_fmap_Some in H as (f & E & Hf). exists f. split; [exact Hf|]. split; [now symmetry|].
  rewrite <- E, HR, (names_bytes_at ns i nm Hi). unfold name_off. rewrite Nat2Z.id.
  now rewrite drop_app_length, take_app_length.
Qed.
End Functions.
