(* ===== verification/SysCalls.v ===== *)
(** * Functions of the runtime

  [src/runtime/u_runtime.h], [src/runtime/u_runtime.cxx]: the functions that a program
  calls outside its module, the table of their names, and the calls of native code
  through libffi; [src/interpreter/uwasm_malloc.cxx], the heap of the program.  Tracing is
  off; the build is for 64 bits, without [DIRECT_ACC_MEM].

  The C library, the operating system, libffi, native code and the vendored dlmalloc are
  the fields of [Host]: an answer depends on what was asked before.  Output is what the
  machine's [_host] records. *)

From S2P Require Import Prelude CInt BitField CFloat Isa Ubh Memory UModule Encoder Machine LocalTable File.
From stdpp Require Import strings.
From Stdlib Require Import ZArith Lia.
Local Open Scope Z_scope.

(** The first register of the parameters in each build. *)
Definition RUNTIME_PARM_REG {cb : ConvBuild} (x : Z) : Z :=
  if runtime_wasm then x + RET_REG_NUM + CONST_REG_NUM else x + 1.
Definition RUNTIME_Z_BASE_REG {cb : ConvBuild} (x : Z) : Z :=
  if runtime_wasm then x + RET_REG_NUM + CONST_REG_NUM else x.

(** ** [FUNC_INFO] *)

(** The functions whose addresses are kept in the table of names. *)
Inductive SYSCALL : Set :=
  | VM_SYSCALL_zero | VM_SYSCALL_one | VM_SYSCALL_trap | VM_SYSCALL_putchar | VM_SYSCALL_malloc
  | VM_SYSCALL_free | VM_SYSCALL_proc_exit | VM_SYSCALL_uwasm_putlong | VM_SYSCALL_uwasm_putchar
  | VM_SYSCALL_uwasm_printfi | VM_SYSCALL_uwasm_getint | VM_SYSCALL_uwasm_getchar
  | VM_SYSCALL_uwasm_scanfv | VM_SYSCALL_uwasm_putfloat | VM_SYSCALL_uwasm_putdouble
  | VM_SYSCALL_uwasm_putstr | VM_SYSCALL_uwasm_randii | VM_SYSCALL_uwasm_rand
  | VM_SYSCALL_uwasm_assert_true | VM_SYSCALL_uwasm_putint | VM_SYSCALL_clock_gettime
  | VM_SYSCALL_clock_time_get | VM_SYSCALL_pthread_create | VM_SYSCALL_pthread_join
  | VM_SYSCALL_fd_write | VM_SYSCALL_args_get | VM_SYSCALL_args_sizes_get.

(** The address of native code: in the native section, or found by [dlsym]. *)
Inductive NATIVE_PTR : Set :=
  | InSection (nat_idx nat_off : Z)
  | Symbol (name : list Z).
(** [ffi_cif]: native types of the result and of the parameters. *)
Record CIF : Set := mkCIF { cif_ret : Z; cif_params : list Z }.

Inductive FUNC_TYPE : Set :=
  | FUNC_IS_UWASM
  | FUNC_IS_NATIVE (native_ptr : NATIVE_PTR) (cif : CIF)
  | FUNC_IS_SYSCALL (syscall_ptr : SYSCALL).
Record FUNC_INFO : Set := mkINFO {
  fi_func_idx : Z;
  fi_ntype_ofs : Z;
  fi_type : FUNC_TYPE;
}.
Definition FUNC_INFO_new (idx : Z) : FUNC_INFO := mkINFO idx 0 FUNC_IS_UWASM.
Definition Init_native (off : Z) (ptr : NATIVE_PTR) (cif : CIF) (i : FUNC_INFO) : FUNC_INFO :=
  mkINFO (fi_func_idx i) off (FUNC_IS_NATIVE ptr cif).
Definition Init_syscall (ptr : SYSCALL) (i : FUNC_INFO) : FUNC_INFO :=
  mkINFO (fi_func_idx i) (fi_ntype_ofs i) (FUNC_IS_SYSCALL ptr).

(** An argument of native code: the contents of a register, or an address. *)
Inductive FFI_ARG : Set := RegArg (t : VALTYPE) (v : Z) | PtrArg (offset : option Z).

(** ** The host *)
Class Host : Type := {
  h_putchar : list HOST_CALL -> Z -> Z;
  h_scan_char : list HOST_CALL -> option Z;
  h_scan_int : list HOST_CALL -> option Z;
  h_scanf : list HOST_CALL -> list Z -> Z -> BLOCK -> outcome BLOCK;
  h_random : list HOST_CALL -> Z -> Z -> Z;
  h_clock_gettime : list HOST_CALL -> Z -> Z * (Z * Z);     (** result, seconds, nanoseconds *)
  h_pthread_create : list HOST_CALL -> list Z -> NATIVE_PTR -> BLOCK -> Z * BLOCK;
  h_writev : list HOST_CALL -> Z -> list (list Z) -> Z;
  h_dlsym : list Z -> bool;
  h_ffi_prep_cif : CIF -> bool;
  (** the cells written from the address of the result on, and the memory *)
  h_ffi_call : list HOST_CALL -> NATIVE_PTR -> CIF -> list FFI_ARG -> BLOCK -> list Z * BLOCK;
  h_realloc : option BLOCK -> Z -> REALLOC;
  (** dlmalloc, in the block from an offset on *)
  create_mspace_with_base : Z -> Z -> BLOCK -> BLOCK;
  mspace_malloc : Z -> Z -> BLOCK -> option Z * BLOCK;
  mspace_free : Z -> Z -> BLOCK -> BLOCK;
}.

(** ** Memory *)
Definition bytes_in (b : BLOCK) (off n : Z) : outcome (list Z) :=
  if n <=? 0 then mret [] else
  if in_block b off (Z.to_nat n) then mret (map (fun k => byte_at b (off + k)) (seqZ 0 n)) else Err MemFault.

(** A C string; every character takes one of the block's bytes, so that [b_size b] of them
  are enough. *)
Fixpoint chars_at (fuel : nat) (b : BLOCK) (off : Z) : outcome (list Z) :=
  match fuel with
  | O => Err MemFault
  | S fuel =>
      c ← load 1 off b;
      if c =? 0 then mret [] else rest ← chars_at fuel b (off + 1); mret (c :: rest)
  end.
Definition cstr_at (b : BLOCK) (off : Z) : outcome (list Z) := chars_at (S (Z.to_nat (b_size b))) b off.

Section Calls.
Context {bd : Build} {pf : Platform} {cb : ConvBuild} {host : Host}.
(** [_str_args] of the machine, and the table [_func_infos]. *)
Context (string_args : list (list Z)) (func_infos : list (option FUNC_INFO)).

(** A call to the host. *)
Definition ask {A} (c : HOST_CALL) (answer : list HOST_CALL -> A) : MM A :=
  h ← gets _host;
  _ ← modify (set_host (c :: h));
  mret (answer h).
(** A step on the memory block. *)
Definition on_mem {A} (f : BLOCK -> outcome (A * BLOCK)) : MM A := fun m =>
  match (b ← of_option NullFault (_mem m); f b) with
  | Ok (a, b) => Ok (a, set_mem b m)
  | Err e => Err e
  end.
Definition mem_get {A} (f : BLOCK -> outcome A) : MM A := fun m =>
  lift (b ← of_option NullFault (_mem m); f b) m.

Definition sys_putchar : MM unit :=
  charval ← reg_get I32 (RUNTIME_PARM_REG 0);
  ret ← ask (mkHOST Putchar [charval] []) (fun h => h_putchar h charval);
  reg_set I32 0 ret.
Definition sys_putlong : MM unit :=
  i64_val ← reg_get I64 (RUNTIME_Z_BASE_REG 0);
  ask (mkHOST Printf [i64_val] [LocalTable.bytes_of "%lld"]) (fun _ => tt).
Definition sys_putfloat : MM unit :=
  f32_val ← reg_get F32 (RUNTIME_Z_BASE_REG 0);
  ask (mkHOST Printf [f32_val] [LocalTable.bytes_of "%f"]) (fun _ => tt).
Definition sys_putdouble : MM unit :=
  f64_val ← reg_get F64 (RUNTIME_Z_BASE_REG 0);
  ask (mkHOST Printf [f64_val] [LocalTable.bytes_of "%lf"]) (fun _ => tt).
Definition sys_putstr : MM unit :=
  str ← Get_base_addr (RUNTIME_Z_BASE_REG 0);
  text ← mem_get (fun b => cstr_at b str);
  ask (mkHOST Printf [] [LocalTable.bytes_of "%s"; text]) (fun _ => tt).
Definition sys_putchar_ : MM unit :=
  ch ← reg_get I32 (RUNTIME_PARM_REG 0);
  ask (mkHOST Putchar [ch] []) (fun _ => tt).
Definition sys_putint : MM unit :=
  val ← reg_get I32 (RUNTIME_PARM_REG 0);
  ask (mkHOST Printf [val] [LocalTable.bytes_of "%d"]) (fun _ => tt).
Definition sys_printfi : MM unit :=
  fmt ← Get_base_addr (RUNTIME_Z_BASE_REG 0);
  value ← reg_get I32 (RUNTIME_PARM_REG 1);
  text ← mem_get (fun b => cstr_at b fmt);
  ask (mkHOST Printf [value] [text]) (fun _ => tt).
Definition sys_scanfv : MM unit :=
  fmt ← Get_base_addr (RUNTIME_Z_BASE_REG 0);
  valueptr ← Get_base_addr (RUNTIME_Z_BASE_REG 1);
  text ← mem_get (fun b => cstr_at b fmt);
  h ← gets _host;
  _ ← ask (mkHOST Scanf [valueptr] [text]) (fun _ => tt);
  on_mem (fun b => b ← h_scanf h text valueptr b; mret (tt, b)).
Definition sys_randii : MM unit :=
  min ← reg_get I32 (RUNTIME_PARM_REG 0);
  max ← reg_get I32 (RUNTIME_PARM_REG 1);
  r ← ask (mkHOST Random [min; max] []) (fun h => h_random h min max);
  reg_set I32 0 r.
Definition sys_rand : MM unit :=
  r ← ask (mkHOST Random [- 2 ^ 31; 2 ^ 31 - 1] []) (fun h => h_random h (- 2 ^ 31) (2 ^ 31 - 1));
  reg_set I32 0 r.
(** [scanf] sets its argument when it returns 1. *)
Definition sys_getchar : MM unit :=
  r ← ask (mkHOST Scanf [] [LocalTable.bytes_of "%c"]) h_scan_char;
  _ ← lift (Is_True (bool_decide (is_Some r)));
  reschar ← lift (of_option Uninit r);
  reg_set I32 0 (if char_signed then wraps 8 reschar else UINT8 reschar).
Definition sys_getint : MM unit :=
  r ← ask (mkHOST Scanf [] [LocalTable.bytes_of "%d"]) h_scan_int;
  _ ← lift (Is_True (bool_decide (is_Some r)));
  reg_set I32 0 (default 0 r).
Definition sys_assert_true : MM unit :=
  given ← reg_get I32 (RUNTIME_PARM_REG 0);
  lift (Is_True_Rel (negb (given =? 0))).
Definition sys_proc_exit : MM unit :=
  exitval ← reg_get I32 (RUNTIME_PARM_REG 0);
  throw (Exited exitval).
(** The parameter is printed before the exit. *)
Definition sys_trap : MM unit :=
  _ ← reg_get I32 (RUNTIME_PARM_REG 0);
  throw (Exited 6).

(** ** The heap *)

(** [UVM_heap_malloc] and [UVM_heap_free]; their [assert]s are in every build.  A null
  pointer of [mspace_malloc] is no offset below the size of the heap. *)
Definition UVM_heap_malloc (pbase size : Z) : MM Z :=
  m ← get;
  mem ← on_mem (fun b => Ok (mspace_malloc pbase (UINT64 size) b));
  p ← lift (of_option AssertFail mem);
  if UINT64 (p - pbase) <? _hea_size m then mret (INT32 (p - pbase)) else throw AssertFail.
Definition UVM_heap_free (pbase mem : Z) : MM unit :=
  m ← get;
  if UINT64 mem <? _hea_size m then on_mem (fun b => Ok (tt, mspace_free pbase (pbase + mem) b)) else throw AssertFail.

Definition U_malloc (size : Z) : MM Z :=
  m ← get;
  offset ← UVM_heap_malloc (_hea_off m) size;
  mret (INT32 (_hea_off m + offset)).
Definition U_free (mem : Z) : MM unit :=
  m ← get;
  UVM_heap_free (_hea_off m) (INT32 (_hea_off m + mem)).

Definition sys_malloc : MM unit :=
  malloc_size ← reg_get I64 (RUNTIME_PARM_REG 0);
  mem ← U_malloc malloc_size;
  reg_set I32 0 mem.
Definition sys_free : MM unit :=
  mem ← reg_get I32 (RUNTIME_Z_BASE_REG 0);
  U_free mem.

(** ** Arguments of the program *)
Definition sys_args_sizes_get : MM unit :=
  nargs ← Get_base_addr (RUNTIME_Z_BASE_REG 0);
  data_size ← Get_base_addr (RUNTIME_Z_BASE_REG 1);
  let total_size := UINT32 (Z.of_nat (length string_args)) in
  let total_len := fold_left (fun n arg => UINT32 (n + (Z.of_nat (length arg) + 1))) string_args 0 in
  _ ← mem_store 4 nargs total_size;
  mem_store 4 data_size total_len.

(** The loop: argument [i] and those after it. *)
Fixpoint put_args (args_ptr base_addr data_chunk i total_len : Z) (args : list (list Z)) : MM unit :=
  match args with
  | [] => mret tt
  | one_arg :: args =>
      let size := Z.of_nat (length one_arg) in
      _ ← mem_store 4 (args_ptr + 4 * i) (UINT32 (base_addr + total_len));
      _ ← on_mem (fun b => b ← copy_in (data_chunk + total_len) one_arg b; mret (tt, b));
      _ ← mem_store 1 (data_chunk + total_len + size) 0;
      put_args args_ptr base_addr data_chunk (i + 1) (UINT32 (total_len + (size + 1))) args
  end.
Definition sys_args_get : MM unit :=
  args_ptr ← Get_base_addr (RUNTIME_Z_BASE_REG 0);
  base_addr ← reg_get I32 (RUNTIME_Z_BASE_REG 1);
  data_chunk ← Get_base_addr (RUNTIME_Z_BASE_REG 1);
  put_args args_ptr (UINT32 base_addr) data_chunk 0 0 string_args.

(** ** [fd_write] *)

(** The buffers from element [i] of [iovs] on; [writev] reads them. *)
Fixpoint read_iovs (iovs i : Z) (n : nat) : MM (list (list Z)) :=
  match n with
  | O => mret []
  | S n =>
      ptr ← mem_load 4 (iovs + 8 * i);
      buf_len ← mem_load 4 (iovs + 8 * i + 4);
      m ← get;
      _ ← lift (Is_True (UINT32 (ptr + buf_len) <? _mem_size m));
      data ← mem_get (fun b => bytes_in b ptr buf_len);
      rest ← read_iovs iovs (i + 1) n;
      mret (data :: rest)
  end.
Definition sys_fd_write : MM unit :=
  fd ← reg_get I32 (RUNTIME_PARM_REG 0);
  iovs ← Get_base_addr (RUNTIME_PARM_REG 1);
  iovs_len ← reg_get I32 (RUNTIME_PARM_REG 2);
  result_addr ← Get_base_addr (RUNTIME_PARM_REG 3);
  real_iovs ← read_iovs iovs 0 (Z.to_nat (UINT32 iovs_len));
  res ← ask (mkHOST Writev [fd] real_iovs) (fun h => h_writev h fd real_iovs);
  _ ← mem_store 4 result_addr res;
  reg_set I32 0 0.

(** ** Clocks *)
Definition sys_clock_gettime : MM unit :=
  clockid ← reg_get I32 (RUNTIME_PARM_REG 0);
  base_addr ← Get_base_addr (RUNTIME_PARM_REG 1);
  r ← ask (mkHOST Clock_gettime [clockid] []) (fun h => h_clock_gettime h clockid);
  let '(ret, (sec, nsec)) := r in
  _ ← mem_store 8 base_addr sec;
  _ ← mem_store 8 (base_addr + 8) nsec;
  reg_set I32 0 ret.

(** The clocks that the switch names: [CLOCK_REALTIME], [CLOCK_MONOTONIC] and those of the
  processor time of the process and of the thread. *)
Definition known_clock (clockid : Z) : bool := (0 <=? clockid) && (clockid <=? 3).
(** The time is computed in [long double], which has the bits of an [INT64]. *)
Definition sys_clock_time_get : MM unit :=
  clockid ← reg_get I32 (RUNTIME_PARM_REG 0);
  precision ← reg_get I64 (RUNTIME_PARM_REG 0);
  base_addr ← Get_base_addr (RUNTIME_PARM_REG 1);
  _ ← ask (mkHOST Clock_gettime [clockid] []) (fun h => h_clock_gettime h clockid);
  result ← (if known_clock clockid then
              r ← ask (mkHOST Clock_gettime [clockid] []) (fun h => h_clock_gettime h clockid);
              let '(_, (sec, nsec)) := r in mret (INT64 (sec * 1000000000 + nsec))
            else _ ← lift (Is_True false); mret 0);
  _ ← mem_store 8 base_addr result;
  reg_set I32 0 0.

(** ** The table of functions *)
Definition Get_func_info (func_idx : Z) : outcome (option FUNC_INFO) :=
  if negb release && (Z.of_nat (length func_infos) <=? func_idx) then mret None
  else nthZ func_infos func_idx.
Definition Get_native_ptr (i : FUNC_INFO) : outcome NATIVE_PTR :=
  match fi_type i with
  | FUNC_IS_NATIVE ptr _ => mret ptr
  | _ => _ ← Is_True false; Err NullFault
  end.

(** ** Threads *)
Definition sys_pthread_create : MM unit :=
  thread ← Get_base_addr (RUNTIME_PARM_REG 0);
  attr ← Get_base_addr (RUNTIME_PARM_REG 1);
  start_routine ← Get_base_addr (RUNTIME_PARM_REG 2);
  arg ← Get_base_addr (RUNTIME_PARM_REG 3);
  routine_func_idx ← mem_load 4 start_routine;
  func_info ← lift (Get_func_info routine_func_idx);
  info ← lift (of_option NullFault func_info);
  routine ← lift (Get_native_ptr info);
  h ← gets _host;
  _ ← ask (mkHOST Pthread_create [thread; attr; routine_func_idx; arg] []) (fun _ => tt);
  ret ← on_mem (fun b => Ok (h_pthread_create h [thread; attr; arg] routine b));
  reg_set I32 0 ret.
Definition sys_pthread_join : MM unit :=
  thread ← reg_get I32 (RUNTIME_PARM_REG 0);
  ask (mkHOST Pthread_join [UINT32 thread] []) (fun _ => tt).

(** ** Native functions *)
Definition NTYPE_PTR_num : Z := ntype_num NTYPE_PTR.
Definition valty_of (v : Z) : option VALTYPE :=
  if v =? 0 then Some I32 else if v =? 1 then Some I64 else if v =? 2 then Some F32
  else if v =? 3 then Some F64 else None.

(** [param_idx]: the next register of each type. *)
Definition next_reg (t : VALTYPE) (idx : list Z) : Z := nth (Z.to_nat (valty_num t)) idx 0.
Definition bump (t : VALTYPE) (idx : list Z) : list Z := alter (fun n => n + 1) (Z.to_nat (valty_num t)) idx.

(** The loop over the parameters: [ntypes] is [ntype_arr]. *)
Fixpoint ffi_args (params ntypes : list Z) (param_idx : list Z) : MM (list FFI_ARG) :=
  match params, ntypes with
  | [], _ => mret []
  | _ :: _, [] => throw CodeFault
  | param_type :: params, param_ntype :: ntypes =>
      if param_ntype =? NTYPE_PTR_num then
        _ ← lift (Is_True (param_type =? 0));
        let reg_idx := next_reg I32 param_idx in
        off ← reg_get I32 reg_idx;
        p ← (if negb (off =? 0) then a ← Get_base_addr reg_idx; mret (Some a) else mret None);
        rest ← ffi_args params ntypes (bump I32 param_idx);
        mret (PtrArg p :: rest)
      else
        match valty_of param_type with
        | Some t =>
            v ← reg_get t (next_reg t param_idx);
            rest ← ffi_args params ntypes (bump t param_idx);
            mret (RegArg t v :: rest)
        | None => _ ← lift (Is_True false); throw NullFault
        end
  end.

(** The registers from [i] on get the values. *)
Fixpoint set_cells (t : VALTYPE) (i : Z) (vals : list Z) : MM unit :=
  match vals with
  | [] => mret tt
  | v :: vals => _ ← reg_set t i v; set_cells t (i + 1) vals
  end.

(** A pointer that native code returned, as an offset from the memory or from the stack. *)
Definition pointer_offset (ret_addr : Z) : MM Z :=
  m ← get;
  b ← lift (of_option NullFault (_mem m));
  sp ← Get_sp;
  if 0 <=? ret_addr - (b_addr b + sp)
  then sta ← lift (of_option NullFault (_sta_off m)); mret (INT32 (ret_addr - (b_addr b + sta)))
  else mret (INT32 (ret_addr - b_addr b)).

Definition Ffi_call (func_info : FUNC_INFO) (native_ptr : NATIVE_PTR) (cif : CIF) : MM unit :=
  m ← get;
  func ← lift (Get_func (_sections m) (INT32 (fi_func_idx func_info)));
  let type_idx := UBH_FUNC.Get_type_idx func in
  let ntype_arr := drop (Z.to_nat (fi_ntype_ofs func_info)) (_non_null_str_sec (_sections m)) in
  rets ← lift (nthZ (_ret_tab (_types m)) type_idx);
  params ← lift (nthZ (_param_tab (_types m)) type_idx);
  ret_ntype ← lift (nthZ ntype_arr 0);
  r ← match rets with
      | [] => mret (None, ntype_arr, [0; 0; 0; 0])
      | ret_type :: _ =>
          _ ← (if ret_ntype =? NTYPE_PTR_num then lift (Is_True (ret_type =? 0)) else mret tt);
          match valty_of ret_type with
          | Some t => mret (Some t, drop 1 ntype_arr, bump t [0; 0; 0; 0])
          | None => throw CodeFault
          end
      end;
  let '(ret, ntypes, param_idx) := r in
  args ← ffi_args params ntypes param_idx;
  h ← gets _host;
  _ ← ask (mkHOST Ffi_native (fi_func_idx func_info :: map (fun a => match a with RegArg _ v => v | PtrArg o => default 0 o end) args) [])
        (fun _ => tt);
  cells ← on_mem (fun b => Ok (h_ffi_call h native_ptr cif args b));
  match ret with
  | None => mret tt
  | Some t =>
      if ret_ntype =? NTYPE_PTR_num then
        off ← pointer_offset (nth 0 cells 0);
        reg_set I32 0 off
      else set_cells t 0 cells
  end.

(** ** The call of a function outside the module *)
Definition sys_call (s : SYSCALL) : MM unit :=
  match s with
  | VM_SYSCALL_zero => reg_set I32 0 0
  | VM_SYSCALL_one => reg_set I32 0 1
  | VM_SYSCALL_trap => sys_trap
  | VM_SYSCALL_putchar => sys_putchar
  | VM_SYSCALL_malloc => sys_malloc
  | VM_SYSCALL_free => sys_free
  | VM_SYSCALL_proc_exit => sys_proc_exit
  | VM_SYSCALL_uwasm_putlong => sys_putlong
  | VM_SYSCALL_uwasm_putchar => sys_putchar_
  | VM_SYSCALL_uwasm_printfi => sys_printfi
  | VM_SYSCALL_uwasm_getint => sys_getint
  | VM_SYSCALL_uwasm_getchar => sys_getchar
  | VM_SYSCALL_uwasm_scanfv => sys_scanfv
  | VM_SYSCALL_uwasm_putfloat => sys_putfloat
  | VM_SYSCALL_uwasm_putdouble => sys_putdouble
  | VM_SYSCALL_uwasm_putstr => sys_putstr
  | VM_SYSCALL_uwasm_randii => sys_randii
  | VM_SYSCALL_uwasm_rand => sys_rand
  | VM_SYSCALL_uwasm_assert_true => sys_assert_true
  | VM_SYSCALL_uwasm_putint => sys_putint
  | VM_SYSCALL_clock_gettime => sys_clock_gettime
  | VM_SYSCALL_clock_time_get => sys_clock_time_get
  | VM_SYSCALL_pthread_create => sys_pthread_create
  | VM_SYSCALL_pthread_join => sys_pthread_join
  | VM_SYSCALL_fd_write => sys_fd_write
  | VM_SYSCALL_args_get => sys_args_get
  | VM_SYSCALL_args_sizes_get => sys_args_sizes_get
  end.

(** [Call_sys_call]; outside the release build ([SKIP_EXTERNAL_FUNCTION]) a function
  without an entry is skipped. *)
Definition Call_external (func_idx : Z) : MM unit :=
  m ← get;
  _ ← lift (Get_func (_sections m) (INT32 func_idx));
  func_info ← lift (Get_func_info func_idx);
  match func_info with
  | None => if release then throw (Exited (-1)) else mret tt
  | Some info =>
      match fi_type info with
      | FUNC_IS_SYSCALL s => sys_call s
      | FUNC_IS_NATIVE ptr cif => Ffi_call info ptr cif
      | FUNC_IS_UWASM => lift (Is_True false)
      end
  end.

Definition uwasm_runtime : Runtime := {|
  Call_sys_call := Call_external;
  heap_initialize := fun hea_off hea_size b => Ok (create_mspace_with_base hea_off hea_size b);
  mem_realloc := h_realloc;
|}.
End Calls.

(** ** The table of names, and the functions of a module *)

(** [_name_ptr_cache]: the names are different. *)
Definition name_ptr_cache : list (list Z * SYSCALL) := [
  (LocalTable.bytes_of "zero", VM_SYSCALL_zero);
  (LocalTable.bytes_of "one", VM_SYSCALL_one);
  (LocalTable.bytes_of "trap", VM_SYSCALL_trap);
  (LocalTable.bytes_of "putchar", VM_SYSCALL_putchar);
  (LocalTable.bytes_of "malloc", VM_SYSCALL_malloc);
  (LocalTable.bytes_of "free", VM_SYSCALL_free);
  (LocalTable.bytes_of "proc_exit", VM_SYSCALL_proc_exit);
  (LocalTable.bytes_of "uwasm_putlong", VM_SYSCALL_uwasm_putlong);
  (LocalTable.bytes_of "uwasm_putchar", VM_SYSCALL_uwasm_putchar);
  (LocalTable.bytes_of "uwasm_printfi", VM_SYSCALL_uwasm_printfi);
  (LocalTable.bytes_of "uwasm_getint", VM_SYSCALL_uwasm_getint);
  (LocalTable.bytes_of "uwasm_getchar", VM_SYSCALL_uwasm_getchar);
  (LocalTable.bytes_of "uwasm_scanfv", VM_SYSCALL_uwasm_scanfv);
  (LocalTable.bytes_of "uwasm_putfloat", VM_SYSCALL_uwasm_putfloat);
  (LocalTable.bytes_of "uwasm_putdouble", VM_SYSCALL_uwasm_putdouble);
  (LocalTable.bytes_of "uwasm_putstr", VM_SYSCALL_uwasm_putstr);
  (LocalTable.bytes_of "uwasm_randii", VM_SYSCALL_uwasm_randii);
  (LocalTable.bytes_of "uwasm_rand", VM_SYSCALL_uwasm_rand);
  (LocalTable.bytes_of "uwasm_exit", VM_SYSCALL_proc_exit);
  (LocalTable.bytes_of "uwasm_assert_true", VM_SYSCALL_uwasm_assert_true);
  (LocalTable.bytes_of "uwasm_putint", VM_SYSCALL_uwasm_putint);
  (LocalTable.bytes_of "clock_gettime", VM_SYSCALL_clock_gettime);
  (LocalTable.bytes_of "clock_time_get", VM_SYSCALL_clock_time_get);
  (LocalTable.bytes_of "pthread_create", VM_SYSCALL_pthread_create);
  (LocalTable.bytes_of "pthread_join", VM_SYSCALL_pthread_join);
  (LocalTable.bytes_of "fd_write", VM_SYSCALL_fd_write);
  (LocalTable.bytes_of "args_get", VM_SYSCALL_args_get);
  (LocalTable.bytes_of "args_sizes_get", VM_SYSCALL_args_sizes_get);
  (LocalTable.bytes_of "env.uwasm_putlong", VM_SYSCALL_uwasm_putlong);
  (LocalTable.bytes_of "env.uwasm_putfloat", VM_SYSCALL_uwasm_putfloat);
  (LocalTable.bytes_of "env.uwasm_putdouble", VM_SYSCALL_uwasm_putdouble);
  (LocalTable.bytes_of "env.uwasm_putstr", VM_SYSCALL_uwasm_putstr);
  (LocalTable.bytes_of "wasi_snapshot_preview1.clock_gettime", VM_SYSCALL_clock_gettime);
  (LocalTable.bytes_of "wasi_snapshot_preview1.pthread_create", VM_SYSCALL_pthread_create);
  (LocalTable.bytes_of "wasi_snapshot_preview1.pthread_join", VM_SYSCALL_pthread_join);
  (LocalTable.bytes_of "wasi_snapshot_preview1.fd_write", VM_SYSCALL_fd_write);
  (LocalTable.bytes_of "wasi_snapshot_preview1.proc_exit", VM_SYSCALL_proc_exit)
].
Definition find_name (name : list Z) : option SYSCALL :=
  snd <$> find (fun p => bool_decide (p.1 = name)) name_ptr_cache.
Definition ffi_native_call : list (list Z) := [LocalTable.bytes_of "putchar"].

(** The C string at the start of a list of bytes. *)
Fixpoint cstr_prefix (l : list Z) : outcome (list Z) :=
  match l with
  | [] => Err CodeFault
  | c :: l => if c =? 0 then mret [] else rest ← cstr_prefix l; mret (c :: rest)
  end.
Definition Get_module_name (m : MODULE) (idx : Z) : outcome (list Z) :=
  cstr_prefix (drop (Z.to_nat idx) (_module_name_sec m)).

Section Cache.
Context {bd : Build} {host : Host}.
Variable u_module : MODULE.
Variable types : TYPE_CACHE.

Definition ffi_type (ntype : Z) : outcome Z :=
  _ ← Is_True (ntype <? ntype_num NTYPE_NUM);
  if ntype <? ntype_num NTYPE_NUM then mret ntype else Err CodeFault.

Definition Create_cif (type_idx ntype_off : Z) : outcome CIF :=
  let ntype_arr := drop (Z.to_nat ntype_off) (_non_null_str_sec (_secs u_module)) in
  rets ← nthZ (_ret_tab types) type_idx;
  params ← nthZ (_param_tab types) type_idx;
  r ← match rets with
      | [_] => b ← nthZ ntype_arr 0; t ← ffi_type b; mret (t, drop 1 ntype_arr)
      | [] => mret (ntype_num NTYPE_V, ntype_arr)
      | _ => _ ← Is_True false; Err NullFault
      end;
  let '(ret_type, ntype_arr) := r in
  param_arr ← Types.map_outcome (fun i => b ← nthZ ntype_arr i; ffi_type b) (seqZ 0 (Z.of_nat (length params)));
  let cif := mkCIF ret_type param_arr in
  _ ← Is_True (h_ffi_prep_cif cif);
  mret cif.

Definition Set_func_info (func_idx : Z) (info : FUNC_INFO) (infos : list (option FUNC_INFO))
  : outcome (list (option FUNC_INFO)) :=
  if func_idx <? Z.of_nat (length infos) then mret (<[Z.to_nat func_idx := Some info]> infos) else Err CodeFault.

(** One entry of the import section. *)
Definition cache_import (i : Z) (infos : list (option FUNC_INFO)) : outcome (list (option FUNC_INFO)) :=
  imp_nat_entry ← nthZ (_imp_nat_sec u_module) i;
  let func_idx := UBH_IMP_NAT.Get_func_idx imp_nat_entry in
  func ← Get_func (_secs u_module) (INT32 func_idx);
  let ntype_off := UBH_IMP_NAT.Get_ntype_off imp_nat_entry in
  let func_info := FUNC_INFO_new func_idx in
  func_name ← Get_module_name u_module (INT32 (UBH_FUNC.Get_name_idx func));
  match find_name func_name with
  | Some ptr => Set_func_info func_idx (Init_syscall ptr func_info) infos
  | None =>
      if negb (UBH_IMP_NAT.Get_nat_off imp_nat_entry =? 16777215) then
        _ ← nthZ (_nat_sec u_module) (UBH_IMP_NAT.Get_nat_idx imp_nat_entry);
        let ptr := InSection (UBH_IMP_NAT.Get_nat_idx imp_nat_entry) (UBH_IMP_NAT.Get_nat_off imp_nat_entry) in
        cif ← Create_cif (UBH_FUNC.Get_type_idx func) ntype_off;
        Set_func_info func_idx (Init_native ntype_off ptr cif func_info) infos
      else if existsb (fun n => bool_decide (n = func_name)) ffi_native_call then
        _ ← Is_True (h_dlsym func_name);
        cif ← Create_cif (UBH_FUNC.Get_type_idx func) ntype_off;
        Set_func_info func_idx (Init_native ntype_off (Symbol func_name) cif func_info) infos
      else if release then Set_func_info func_idx (Init_syscall VM_SYSCALL_trap func_info) infos
      else mret infos
  end.
Fixpoint cache_imports (is_ : list Z) (infos : list (option FUNC_INFO)) : outcome (list (option FUNC_INFO)) :=
  match is_ with
  | [] => mret infos
  | i :: is_ => infos ← cache_import i infos; cache_imports is_ infos
  end.

(** [SEC_FUNC] is a section tag, 3: as the section identifier that is asked for it is
  [S_DATA]. *)
Definition Init_cache : outcome (list (option FUNC_INFO)) :=
  if negb (Contains_section (_secs u_module) S_IMP_NAT) then mret [] else
  n ← sec_elem_num (_secs u_module) S_DATA;
  num ← sec_elem_num (_secs u_module) S_IMP_NAT;
  cache_imports (seqZ 0 num) (replicate (Z.to_nat n) None).
End Cache.

(** ** The heap's other functions, which nothing here calls *)
Section Heap.
Context {host : Host}.
(** dlmalloc's other functions, in the block from an offset on. *)
Variable mspace_realloc : Z -> Z -> Z -> BLOCK -> option Z * BLOCK.
Variable mspace_calloc : Z -> Z -> Z -> BLOCK -> option Z * BLOCK.
Variable destroy_mspace : Z -> BLOCK -> BLOCK.

Definition UVM_heap_finalize (pbase : Z) : MM unit := on_mem (fun b => Ok (tt, destroy_mspace pbase b)).
Definition UVM_heap_realloc (pbase mem size : Z) : MM Z :=
  m ← get;
  newm ← on_mem (fun b => Ok (mspace_realloc pbase (pbase + mem) (UINT64 size) b));
  p ← lift (of_option AssertFail newm);
  if UINT64 (p - pbase) <? _hea_size m then mret (INT32 (p - pbase)) else throw AssertFail.
Definition UVM_heap_clloc (pbase memb size : Z) : MM Z :=
  m ← get;
  mem ← on_mem (fun b => Ok (mspace_calloc pbase (UINT64 memb) (UINT64 size) b));
  p ← lift (of_option AssertFail mem);
  if UINT64 (p - pbase) <? _hea_size m then mret (INT32 (p - pbase)) else throw AssertFail.

(** What the three ways to allocate have in common. *)
Definition allocates (pbase : Z) (alloc : BLOCK -> option Z * BLOCK) : MM Z :=
  m ← get;
  mem ← on_mem (fun b => Ok (alloc b));
  p ← lift (of_option AssertFail mem);
  if UINT64 (p - pbase) <? _hea_size m then mret (INT32 (p - pbase)) else throw AssertFail.
Lemma allocate_same pbase mem memb size :
  UVM_heap_malloc pbase size = allocates pbase (mspace_malloc pbase (UINT64 size)) /\
  UVM_heap_realloc pbase mem size = allocates pbase (mspace_realloc pbase (pbase + mem) (UINT64 size)) /\
  UVM_heap_clloc pbase memb size = allocates pbase (mspace_calloc pbase (UINT64 memb) (UINT64 size)).
Proof. auto. Qed.

(** An allocation gives an offset inside the heap, or stops; only the memory changes. *)
Lemma allocated_inside pbase alloc m v m' : _hea_size m <= 2 ^ 31 -> allocates pbase alloc m = Ok (v, m') ->
  0 <= v < _hea_size m /\ exists b p b', _mem m = Some b /\ alloc b = (Some p, b') /\ UINT64 (p - pbase) = v /\ m' = set_mem b' m.
Proof.
  intros Hh H. unfold allocates in H. rewrite (bind_run get _ m m m eq_refl) in H. apply bind_Ok in H as (o & m1 & H1 & H). unfold on_mem in H1.
  destruct (_mem m) as [b|]; [|discriminate]. cbn [of_option mbind outcome_bind] in H1. destruct (alloc b) as [o' b'] eqn:E. injection H1 as <- <-.
  apply bind_Ok in H as (p & m2 & [Hp ->]%lift_Ok & H). destruct o' as [p'|]; [|discriminate]. injection Hp as ->.
  destruct (Z.ltb_spec (UINT64 (p - pbase)) (_hea_size m)) as [Hlt|]; [|discriminate]. injection H as <- <-.
  pose proof (wrapu_range 64 (p - pbase) ltac:(lia)) as Hr. unfold in_u in Hr. change (wrapu 64 (p - pbase)) with (UINT64 (p - pbase)) in Hr.
  assert (INT32 (p - pbase) = UINT64 (p - pbase)) as ->.
  { unfold INT32, UINT64 in *. rewrite <- (wraps_wrapu 32), <- (wrapu_wrapu_le 32 64), wraps_wrapu by lia. apply wraps_id; [lia|]. unfold in_s. cbn in *. lia. }
  split; [lia|]. exists b, p, b'. auto.
Qed.
End Heap.
