(* ===== verification/System.v ===== *)
(** * The execution system

  [src/runtime/exec_system.h], [src/runtime/exec_system.cxx]: a module loaded from a
  file, the function that starts, and the interface for programs that embed the machine
  ([UVM_*]); the part of [src/main.cxx] that runs a file with options.  The options are
  already numbers: the command line and the interactive commands are text.

  There is one system; its module starts without sections, and a handle is not looked
  at. *)

From S2P Require Import Prelude CInt BitField CFloat Isa Inst Ubh Memory UModule StrTab TypeEncoder Encoder File Machine Handlers Exec LocalTable SysCalls.
From Stdlib Require Import ZArith Lia.
Local Open Scope Z_scope.

Record SYSTEM : Type := mkSYSTEM {
  sy_module : MODULE;
  _machine : UWASM_MACHINE;
  _string_args : list (list Z);
  _func_infos : list (option FUNC_INFO);      (** the table of [U_RUNTIME] *)
}.

Section System.
Context {bd : Build} {pf : Platform} {cb : ConvBuild} {host : Host} {fe : FloatEnv}.

(** An operation of the machine. *)
Definition on_machine (f : MM unit) (s : SYSTEM) : outcome SYSTEM :=
  r ← f (_machine s); mret (mkSYSTEM (sy_module s) r.2 (_string_args s) (_func_infos s)).
Definition sy_runtime (s : SYSTEM) : Runtime := uwasm_runtime (_string_args s) (_func_infos s).

(** The sections and the types in the machine. *)
Definition set_module (secs : SECTIONS) (types : TYPE_CACHE) (m : UWASM_MACHINE) : UWASM_MACHINE :=
  mkMACHINE (_reg_i32 m) (_reg_i64 m) (_reg_f32 m) (_reg_f64 m) (_ctx_stack m) secs types (_codes m)
    (_mem m) (_sta_off m) (_mem_size m) (_hea_off m) (_hea_size m) (_global_start m) (_current m) (_host m).

Definition Load_from_buffer (buffer : list Z) (s : SYSTEM) : outcome SYSTEM :=
  r ← Init_module_from_buffer buffer;
  let '(m, types) := r in
  mret (mkSYSTEM m (set_module (_secs m) types (_machine s)) (_string_args s) (_func_infos s)).
(** [content]: the bytes of the file, if it can be read. *)
Definition Load_from_file (content : option (list Z)) (s : SYSTEM) : outcome SYSTEM :=
  buffer ← of_option (Exited 1) content;
  s ← Load_from_buffer buffer s;
  infos ← Init_cache (sy_module s) (_types (_machine s));
  mret (mkSYSTEM (sy_module s) (_machine s) (_string_args s) infos).

Definition Init_memory_of (mem_p : option BLOCK) (mem_size : Z) (s : SYSTEM) : outcome (Z * SYSTEM) :=
  r ← Init_memory (rt := sy_runtime s) mem_p mem_size (_machine s);
  mret (r.1, mkSYSTEM (sy_module s) r.2 (_string_args s) (_func_infos s)).
Definition Set_cur_func (func_idx : Z) : SYSTEM -> outcome SYSTEM := on_machine (Init_env func_idx).
Definition Exec_continue (fuel : nat) (s : SYSTEM) : outcome SYSTEM :=
  m ← Exec_start (rt := sy_runtime s) fuel (_machine s);
  mret (mkSYSTEM (sy_module s) m (_string_args s) (_func_infos s)).
Definition Debug_next_instr (count : nat) (s : SYSTEM) : outcome SYSTEM :=
  m ← Control_start (rt := sy_runtime s) count (_machine s);
  mret (mkSYSTEM (sy_module s) m (_string_args s) (_func_infos s)).
Definition Debug_set_reg (t : VALTYPE) (index value : Z) : SYSTEM -> outcome SYSTEM :=
  on_machine (reg_set t index value).
Definition Set_string_args (args : list (list Z)) (s : SYSTEM) : SYSTEM :=
  mkSYSTEM (sy_module s) (_machine s) args (_func_infos s).

(** ** The function that starts *)

(** [strcmp] is zero for a string without zeros and the bytes of the table. *)
Fixpoint strcmp_eq (name s : list Z) : outcome bool :=
  match s with
  | [] => Err CodeFault
  | c :: s =>
      match name with
      | [] => mret (c =? 0)
      | d :: name => if c =? d then strcmp_eq name s else mret false
      end
  end.
Definition name_at (m : MODULE) (func : Z) (name : list Z) : outcome bool :=
  strcmp_eq name (drop (Z.to_nat (UBH_FUNC.Get_name_idx func)) (_module_name_sec m)).

Definition not_here (func : Z) : bool :=
  negb (Z.land (UBH_FUNC.Get_flags func) F_EXTERN =? 0) || negb (Z.land (UBH_FUNC.Get_flags func) F_IMPORT_WASM =? 0).

(** The headers from the first on; [f] looks into one of them and stops the loop with
  [Some]. *)
Fixpoint each_header (f : Z -> outcome (option Z)) (m : MODULE) (is_ : list Z) : outcome (option Z) :=
  match is_ with
  | [] => mret None
  | i :: is_ =>
      shdr ← nthZ (_shdr_tab (_secs m)) i;
      r ← f shdr;
      match r with Some func_idx => mret (Some func_idx) | None => each_header f m is_ end
  end.
Definition header_indices (m : MODULE) : list Z := seqZ 0 (UBH_MHDR.Get_shdr_num (_mhdr m)).

Definition start_header (m : MODULE) (shdr : Z) : outcome (option Z) :=
  if UBH_SHDR.Get_sec_tag shdr =? SEC_TAG.SEC_START then
    let func_idx := UINT16 (UBH_SHDR.Get_idx shdr) in
    _ ← Get_func (_secs m) func_idx;
    mret (Some func_idx)
  else mret None.

(** The functions of the indices, until one is of this module. *)
Fixpoint first_here (m : MODULE) (fids : list Z) : outcome (option Z) :=
  match fids with
  | [] => mret None
  | fid :: fids =>
      func ← Get_func (_secs m) fid;
      if not_here func then first_here m fids else mret (Some fid)
  end.
Definition func_header (search : list Z -> outcome (option Z)) (shdr : Z) : outcome (option Z) :=
  if UBH_SHDR.Get_sec_tag shdr =? SEC_TAG.SEC_FUNC then
    elem_num ← UBH_SHDR.Get_elem_num shdr;
    search (seqZ 0 (UINT16 elem_num))
  else mret None.

Definition Search_start (m : MODULE) : outcome Z :=
  r ← each_header (start_header m) m (header_indices m);
  match r with
  | Some func_idx => mret func_idx
  | None =>
      r ← each_header (func_header (first_here m)) m (header_indices m);
      match r with
      | Some fid => mret fid
      | None => _ ← Is_True false; mret 0
      end
  end.

(** The functions of the indices, until one has the name and is of this module. *)
Fixpoint first_named (m : MODULE) (func_name : list Z) (fids : list Z) : outcome (option Z) :=
  match fids with
  | [] => mret None
  | fid :: fids =>
      func ← Get_func (_secs m) fid;
      same ← name_at m func func_name;
      if negb same then first_named m func_name fids
      else if not_here func then _ ← Is_True_Rel false; first_named m func_name fids
      else mret (Some fid)
  end.
(** Only the first section of functions is searched. *)
Fixpoint func_header_named (m : MODULE) (func_name : list Z) (is_ : list Z) : outcome (option Z) :=
  match is_ with
  | [] => mret None
  | i :: is_ =>
      shdr ← nthZ (_shdr_tab (_secs m)) i;
      if UBH_SHDR.Get_sec_tag shdr =? SEC_TAG.SEC_FUNC then
        elem_num ← UBH_SHDR.Get_elem_num shdr;
        first_named m func_name (seqZ 0 (UINT16 elem_num))
      else func_header_named m func_name is_
  end.
Definition Search_start_by_name (func_name : list Z) (m : MODULE) : outcome Z :=
  r ← func_header_named m func_name (header_indices m);
  match r with
  | Some fid => mret fid
  | None => _ ← Is_True_Rel false; mret 0
  end.

(** ** The interface for embedding *)
Record EXPORT_FUNC : Set := mkEXPORT_FUNC {
  name_offset : Z;
  name_size : Z;
  func_index : Z;
  type_index : Z;
  param_count : Z;
  return_count : Z;
}.

Definition UVM_load := Load_from_buffer.
Definition UVM_init_memory := Init_memory_of.
Definition UVM_get_func_name (name_off : Z) (s : SYSTEM) : outcome (list Z) :=
  Get_module_name (sy_module s) (INT32 name_off).

(** The body of the loop; the offset of the names from the start of the file is that of
  their section. *)
Definition export_func (s : SYSTEM) (string_tbl_base_ofst i : Z) : outcome EXPORT_FUNC :=
  let m := sy_module s in
  export_entry ← nthZ (_export_sec m) i;
  let func_idx := UBH_EXPORT.Get_func_idx export_entry in
  func ← Get_func (_secs m) (INT32 func_idx);
  name ← Get_module_name m (INT32 (UBH_FUNC.Get_name_idx func));
  m_type ← Get_type (_secs m) (INT32 (UBH_FUNC.Get_type_idx func));
  params ← nthZ (_param_tab (_types (_machine s))) (UBH_FUNC.Get_type_idx func);
  mret (mkEXPORT_FUNC (UINT32 (string_tbl_base_ofst + UBH_FUNC.Get_name_idx func)) (UINT32 (Z.of_nat (length name)))
    func_idx (UBH_FUNC.Get_type_idx func) (UINT16 (Z.of_nat (length params))) (UBH_TYPE.Get_ret_num m_type)).
Definition UVM_get_export_funcs (s : SYSTEM) : outcome (list EXPORT_FUNC) :=
  let m := sy_module s in
  number ← sec_elem_num (_secs m) S_EXPORT;
  names ← Get_shdr_by_sec_id (_secs m) S_MODULE_NAME;
  Types.map_outcome (export_func s (UINT32 (UBH_SHDR.Get_idx names))) (seqZ 0 number).

(** [vector::at] of the cached types of a function. *)
Definition valty_at (tab : list (list Z)) (func_idx index : Z) (s : SYSTEM) : outcome Z :=
  func ← Get_func (_secs (sy_module s)) (INT32 func_idx);
  types ← nthZ tab (UBH_FUNC.Get_type_idx func);
  vec_at types (Z.to_nat (UINT8 index)).
Definition UVM_get_param_type (func_idx index : Z) (s : SYSTEM) : outcome Z :=
  valty_at (_param_tab (_types (_machine s))) func_idx index s.
Definition UVM_get_return_type (func_idx index : Z) (s : SYSTEM) : outcome Z :=
  valty_at (_ret_tab (_types (_machine s))) func_idx index s.

Definition UVM_set_func (func_idx : Z) : SYSTEM -> outcome SYSTEM := on_machine (Init_env func_idx).
Definition UVM_set_reg (t : VALTYPE) (reg v : Z) : SYSTEM -> outcome SYSTEM := on_machine (reg_set t reg v).
Definition UVM_get_reg (t : VALTYPE) (reg : Z) (s : SYSTEM) : outcome Z :=
  r ← reg_get t reg (_machine s); mret r.1.
Definition UVM_execute := Exec_continue.

(** ** Running a file with options *)

(** The bits of a value and its type ([MULTI_VALTY_VALUE]). *)
Definition ARG_VALUE : Type := VALTYPE * Z.
Record OPTIONS : Type := mkOPTIONS {
  o_file : option (list Z);           (** the bytes of the file *)
  o_func : Z;                         (** -1: none is given *)
  o_func_name : option (list Z);
  o_args : list ARG_VALUE;
  o_string_args : list (list Z);
  o_sreg : list (Z * Z);
  o_check_ret : option ARG_VALUE;
}.

(** [Set_value_from_argval]: the next register of the type. *)
Fixpoint set_args (next_reg_to_set : list Z) (args : list ARG_VALUE) (s : SYSTEM) : outcome SYSTEM :=
  match args with
  | [] => mret s
  | (kind, value) :: args =>
      s ← Debug_set_reg kind (next_reg kind next_reg_to_set) value s;
      set_args (bump kind next_reg_to_set) args s
  end.
Fixpoint set_sregs (sreg : list (Z * Z)) (s : SYSTEM) : outcome SYSTEM :=
  match sreg with
  | [] => mret s
  | (index, value) :: sreg => s ← Debug_set_reg I32 index (INT32 value) s; set_sregs sreg s
  end.

(** The bits of a register of the type, as [Check_return_value] compares them. *)
Definition value_bits (t : VALTYPE) (v : Z) : Z := wrapu (if bool_decide (t = I32 \/ t = F32) then 32 else 64) v.
Definition Check_return_value (value : ARG_VALUE) (s : SYSTEM) : outcome unit :=
  let '(kind, v) := value in
  r ← reg_get kind 0 (_machine s);
  Is_True_Rel (value_bits kind r.1 =? value_bits kind v).

Definition MEM_SIZE : Z := 1024 * 1024 * 128.
Definition first_arg_regs : list Z := replicate 4 (CONST_REG_NUM + RET_REG_NUM).

(** [Start_vm_non_interactive] after the options are read: the file, the memory, the
  function, the arguments, the run and the check. *)
Definition start_function (o : OPTIONS) (s : SYSTEM) : outcome Z :=
  match o_func_name o with
  | Some name => Search_start_by_name name (sy_module s)
  | None => if o_func o <? 0 then Search_start (sy_module s) else mret (o_func o)
  end.
Definition prepare (mem_p : option BLOCK) (o : OPTIONS) (s : SYSTEM) : outcome SYSTEM :=
  s ← Load_from_file (o_file o) s;
  r ← Init_memory_of mem_p MEM_SIZE s;
  let s := r.2 in
  start_func ← start_function o s;
  s ← Set_cur_func (UINT32 start_func) s;
  let s := Set_string_args (o_string_args o) s in
  s ← set_args first_arg_regs (o_args o) s;
  set_sregs (o_sreg o) s.
Definition Start_vm_non_interactive (fuel : nat) (mem_p : option BLOCK) (o : OPTIONS) (s : SYSTEM) : outcome SYSTEM :=
  s ← prepare mem_p o s;
  s ← Exec_continue fuel s;
  _ ← match o_check_ret o with Some value => Check_return_value value s | None => mret tt end;
  mret s.
End System.
