(* ===== verification/Tracing.v ===== *)
(** * Trace options

  [src/trace/u_trace.h], [src/trace/u_trace.cxx]: the level of each kind of trace, which
  the command line and the commands of the interactive mode set. *)

From S2P Require Import Prelude CInt UModule.
From Stdlib Require Import ZArith Lia.
Local Open Scope Z_scope.

(** [TRACE_KIND]. *)
Definition TP_BIN_READ : Z := 1.
Definition TP_BIN_WRITE : Z := 2.
Definition TP_EXEC : Z := 3.
Definition TRACE_KIND_MAX : Z := 10.
Definition TRACE_ENABLE_LEVEL : Z := 1.
Definition TRACE_UNABLE_LEVEL : Z := 0.

Module TRACE_OPT_INFO.
Record t : Type := mk { _global_lvl : Z; _kind_to_level : list Z }.
Definition trace0 : t := mk TRACE_ENABLE_LEVEL (replicate (Z.to_nat TRACE_KIND_MAX) 0).

Section Ops.
Context {bd : Build}.
Definition Get (tk : Z) (i : t) : outcome Z := nthZ (_kind_to_level i) tk.
(** A kind beyond the array is stopped by the assertion; without it the store is outside. *)
Definition Set_ (tk level : Z) (i : t) : outcome t :=
  _ ← Is_True (tk <? TRACE_KIND_MAX);
  _ ← nthZ (_kind_to_level i) tk;
  mret (mk (_global_lvl i) (<[Z.to_nat tk := level]> (_kind_to_level i))).
Definition Level (i : t) : Z := _global_lvl i.
End Ops.
End TRACE_OPT_INFO.

Section Tracing.
Context {bd : Build}.
Import TRACE_OPT_INFO.
Definition Tracing (tc : Z) (i : t) : outcome bool := l ← Get tc i; mret (Level i <=? l).
Definition Set_tracing_opt (kind level : Z) (i : t) : outcome (Z * t) := i ← Set_ kind level i; mret (level, i).

(** [-nt]: three kinds are turned off. *)
Definition Set_no_trace (i : t) : outcome t :=
  '(_, i) ← Set_tracing_opt TP_EXEC TRACE_UNABLE_LEVEL i;
  '(_, i) ← Set_tracing_opt TP_BIN_READ TRACE_UNABLE_LEVEL i;
  '(_, i) ← Set_tracing_opt TP_BIN_WRITE TRACE_UNABLE_LEVEL i;
  mret i.

(** The array has an element for each kind. *)
Definition trace_ok (i : t) : Prop := length (_kind_to_level i) = Z.to_nat TRACE_KIND_MAX.
Lemma trace0_ok : trace_ok trace0.
Proof. reflexivity. Qed.

Definition with_level (kind level : Z) (i : t) : t := mk (_global_lvl i) (<[Z.to_nat kind := level]> (_kind_to_level i)).
Lemma with_level_ok kind level i : trace_ok i -> trace_ok (with_level kind level i).
Proof. unfold trace_ok. cbn [with_level _kind_to_level]. now rewrite length_insert. Qed.

Lemma Set_tracing_opt_run kind level i : trace_ok i -> 0 <= kind < TRACE_KIND_MAX ->
  Set_tracing_opt kind level i = Ok (level, with_level kind level i).
Proof.
  intros Hi Hk. unfold Set_tracing_opt, Set_. rewrite (proj2 (Z.ltb_lt _ _)), Is_True_true by lia. cbn [mbind outcome_bind].
  assert (exists x, nthZ (_kind_to_level i) kind = Ok x) as [x ->]; [|reflexivity].
  unfold trace_ok, TRACE_KIND_MAX in *. destruct (lookup_lt_is_Some_2 (_kind_to_level i) (Z.to_nat kind)) as [x Hx]; [lia|].
  exists x. apply nthZ_Ok. split; [lia | exact Hx].
Qed.
Lemma Set_no_trace_run i : trace_ok i ->
  Set_no_trace i = Ok (with_level TP_BIN_WRITE 0 (with_level TP_BIN_READ 0 (with_level TP_EXEC 0 i))).
Proof.
  intros Hi. unfold Set_no_trace, TRACE_UNABLE_LEVEL.
  rewrite (Set_tracing_opt_run TP_EXEC) by (auto using with_level_ok || (split; reflexivity || discriminate)). cbn [mbind outcome_bind].
  rewrite (Set_tracing_opt_run TP_BIN_READ) by (auto using with_level_ok || (split; reflexivity || discriminate)). cbn [mbind outcome_bind].
  now rewrite (Set_tracing_opt_run TP_BIN_WRITE) by (auto using with_level_ok || (split; reflexivity || discriminate)).
Qed.

(** What is traced afterwards. *)
Theorem level_set kind level i k : trace_ok i -> 0 <= kind < TRACE_KIND_MAX -> 0 <= k ->
  exists i', Set_tracing_opt kind level i = Ok (level, i') /\ trace_ok i' /\
    Tracing k i' = if decide (k = kind) then Ok (Level i <=? level) else Tracing k i.
Proof.
  intros Hi Hk H0. eexists. split; [now apply Set_tracing_opt_run|]. split; [now apply with_level_ok|]. unfold Tracing, Get, Level.
  cbn [with_level _kind_to_level _global_lvl]. unfold trace_ok, TRACE_KIND_MAX in *. unfold nthZ. case_decide as E.
  - subst k. rewrite list_lookup_insert_eq by lia. now rewrite (proj2 (Z.ltb_ge kind 0)) by lia.
  - rewrite list_lookup_insert_ne by lia. reflexivity.
Qed.
(** A kind that does not exist is refused by the assertion. *)
Lemma kind_refused kind level i : release = false -> TRACE_KIND_MAX <= kind -> Set_tracing_opt kind level i = Err AssertFail.
Proof.
  intros Hr Hk. unfold Set_tracing_opt, Set_. rewrite (proj2 (Z.ltb_ge _ _)) by exact Hk. unfold Is_True. now rewrite Hr.
Qed.
End Tracing.
