(* ===== verification/Command.v ===== *)
(** * The command line

  [src/main.cxx]: the table of option names, the loop over the arguments of
  [Start_vm_non_interactive], and the values written as text.

  Strings are lists of bytes without zeros; [argv] has a null pointer after the last
  argument.  The decimal conversions of floats ([strtof], [strtod]) are given by a
  parameter; trace options have no effect here. *)

From S2P Require Import Prelude CInt BitField CFloat Isa Memory LocalTable File Machine SysCalls System UModule Tracing.
From stdpp Require Import strings.
From Stdlib Require Import ZArith Lia.
Local Open Scope Z_scope.

(** ** Options *)
Module OPTION.
Inductive t : Set :=
  | NEXT | CONTINUE | QUIT | TRACE | INTERACT | HELP | SET_REG | PRINT_REG | OPEN_FILE | SET_FUNC | PRINT | NO_TRACE
  | RUN_INSTR_CNT | CHECK_RET | SET_FUNC_NAME | ADD_RUN_ARG | ADD_STRING_ARG | BREAKPOINT_SET | BREAKPOINT_COND_SET
  | BREAKPOINT_DISABLE | WATCHPOINT_SET | EXAMINE_MEM | PRINT_PC | PRINT_FUNC | PRINT_CALLSTACK | CHANGE_CURRENT_FRAME
  | PRINT_CURRENT_FRAME | NOPT.
#[export] Instance t_eq_dec : EqDecision t.
Proof. solve_decision. Defined.
End OPTION.
Import OPTION.

(** [option_map], as [main] fills it: [insert] keeps the first entry of a name. *)
Definition Add_option (opt_enum : OPTION.t) (names : list string) (option_map : list (list Z * OPTION.t)) : list (list Z * OPTION.t) :=
  option_map ++ map (fun n => (LocalTable.bytes_of n, opt_enum)) names.
Definition main_options : list (list Z * OPTION.t) :=
  fold_left (fun om p => Add_option p.1 p.2 om) [
    (NEXT, ["n"]); (CONTINUE, ["c"]); (QUIT, ["q"; "quit"; "exit"]); (TRACE, ["t"; "trace"; "-t"; "--trace"]);
    (INTERACT, ["i"; "-i"]); (HELP, ["h"; "-h"; "--help"]); (SET_REG, ["sreg"; "-sreg"]);
    (RUN_INSTR_CNT, ["runcount"; "rc"; "rn"; "runc"; "runn"]); (PRINT_REG, ["preg"; "-preg"]);
    (OPEN_FILE, ["file"; "-f"; "--file"]); (SET_FUNC, ["func"; "-func"]); (SET_FUNC_NAME, ["func_name"; "-func_name"]);
    (CHECK_RET, ["check_ret"; "-check_ret"]); (ADD_RUN_ARG, ["arg"; "-arg"; "--arg"]);
    (ADD_STRING_ARG, ["sarg"; "-s"; "-sarg"; "--sarg"]); (NO_TRACE, ["ntrace"; "-nt"]); (PRINT_CALLSTACK, ["bt"; "backtrace"]);
    (PRINT_CURRENT_FRAME, ["pf"; "pframe"]); (CHANGE_CURRENT_FRAME, ["f"; "frame"]); (PRINT, ["p"; "print"])]%string [].
Definition Parse_option (opt : list Z) : OPTION.t :=
  match find (fun p => bool_decide (p.1 = opt)) main_options with Some p => p.2 | None => NOPT end.

(** ** Numbers *)

(** [strtol(s, NULL, 0)]. *)
Definition is_space (c : Z) : bool := (c =? 32) || ((9 <=? c) && (c <=? 13)).
Fixpoint skip_space (s : list Z) : list Z :=
  match s with c :: s' => if is_space c then skip_space s' else s | [] => [] end.
Definition digit (base c : Z) : option Z :=
  let d := if (48 <=? c) && (c <=? 57) then c - 48
           else if (97 <=? c) && (c <=? 122) then c - 87
           else if (65 <=? c) && (c <=? 90) then c - 55 else base in
  if d <? base then Some d else None.
Fixpoint digits (base acc : Z) (s : list Z) : Z :=
  match s with
  | [] => acc
  | c :: s => match digit base c with Some d => digits base (acc * base + d) s | None => acc end
  end.
Definition magnitude (s : list Z) : Z :=
  match s with
  | 48 :: x :: h :: rest => if ((x =? 120) || (x =? 88)) && bool_decide (is_Some (digit 16 h)) then digits 16 0 (h :: rest) else digits 8 0 s
  | 48 :: _ => digits 8 0 s
  | _ => digits 10 0 s
  end.
Definition LONG_MAX : Z := 2 ^ 63 - 1.
Definition LONG_MIN : Z := - 2 ^ 63.
Definition strtol (s : list Z) : Z :=
  let v := match skip_space s with 45 :: s => - magnitude s | 43 :: s => magnitude s | s => magnitude s end in
  Z.max LONG_MIN (Z.min LONG_MAX v).

(** The bits of the number that a text begins with. *)
Class FloatText : Type := { strtof : list Z -> Z; strtod : list Z -> Z }.

Section Command.
Context {bd : Build} {cb : ConvBuild} {ft : FloatText}.

(** [Read_cmd_line_value]; a value of another kind is not set. *)
Definition Read_cmd_line_value (arg1 arg2 : list Z) : outcome (option ARG_VALUE) :=
  match valty_of (INT32 (strtol arg1)) with
  | Some I32 => mret (Some (I32, INT32 (UINT64 (strtol arg2))))
  | Some I64 => mret (Some (I64, INT64 (UINT64 (strtol arg2))))
  | Some F32 => mret (Some (F32, strtof arg2))
  | Some F64 => mret (Some (F64, strtod arg2))
  | _ => _ ← Is_True_Rel false; mret None
  end.

(** ** The loop over the arguments *)
Record CMD_LINE : Type := mkCMD {
  file_path : option (list Z);
  start_func : Z;
  start_func_name : option (list Z);
  arguments_list : list (option ARG_VALUE);
  arguments_list_string : list (list Z);
  cmd_sreg : list (Z * Z);
  check_ret_value : option ARG_VALUE;
  trace_info : TRACE_OPT_INFO.t;            (** a global of [u_trace.cxx] *)
}.
Definition cmd0 : CMD_LINE := mkCMD None (-1) None [] [] [] None TRACE_OPT_INFO.trace0.

(** [argv[i]]: a string, or the null pointer at the end. *)
Definition argv_at (argv : list (list Z)) (i : nat) : outcome (option (list Z)) :=
  if (length argv <? i)%nat then Err OutOfRange else mret (argv !! i).
Definition text_at (argv : list (list Z)) (i : nat) : outcome (list Z) :=
  p ← argv_at argv i; of_option NullFault p.

(** One option, the one at [i]: what it changes and the next place. *)
Definition read_option (argv : list (list Z)) (i : nat) (c : CMD_LINE) : outcome (CMD_LINE * nat) :=
  let 'mkCMD fp sf fn al sl sr cr ti := c in
  name ← text_at argv i;
  val ← argv_at argv (i + 1);
  match Parse_option name with
  | OPEN_FILE => mret (mkCMD val sf fn al sl sr cr ti, i + 2)%nat
  | TRACE =>
      a ← text_at argv (i + 1); b ← text_at argv (i + 2);
      '(_, ti) ← Set_tracing_opt (UINT32 (strtol a)) (UINT32 (strtol b)) ti; mret (mkCMD fp sf fn al sl sr cr ti, i + 3)%nat
  | SET_REG =>
      a ← text_at argv (i + 1); b ← text_at argv (i + 2);
      mret (mkCMD fp sf fn al sl (sr ++ [(UINT32 (strtol a), UINT32 (strtol b))]) cr ti, i + 3)%nat
  | SET_FUNC => a ← text_at argv (i + 1); mret (mkCMD fp (strtol a) fn al sl sr cr ti, i + 2)%nat
  | SET_FUNC_NAME => mret (mkCMD fp sf val al sl sr cr ti, i + 2)%nat
  | CHECK_RET =>
      a ← text_at argv (i + 1); b ← text_at argv (i + 2);
      v ← Read_cmd_line_value a b; mret (mkCMD fp sf fn al sl sr v ti, i + 3)%nat
  | ADD_RUN_ARG =>
      a ← text_at argv (i + 1); b ← text_at argv (i + 2);
      v ← Read_cmd_line_value a b; mret (mkCMD fp sf fn (al ++ [v]) sl sr cr ti, i + 3)%nat
  | ADD_STRING_ARG => a ← text_at argv (i + 1); mret (mkCMD fp sf fn al (sl ++ [a]) sr cr ti, i + 2)%nat
  | NO_TRACE => ti ← Set_no_trace ti; mret (mkCMD fp sf fn al sl sr cr ti, i + 1)%nat
  | _ => Err (Exited 0)
  end.
(** Every option takes an argument at least, so that [length argv] iterations are enough. *)
Fixpoint read_options (fuel : nat) (argv : list (list Z)) (i : nat) (c : CMD_LINE) : outcome CMD_LINE :=
  if (length argv <=? i)%nat then mret c else
  match fuel with
  | O => Err FuelOut
  | S fuel => r ← read_option argv i c; read_options fuel argv r.2 r.1
  end.
Definition Read_command_line (argv : list (list Z)) : outcome CMD_LINE :=
  _ ← (if (length argv =? 2)%nat then
         a ← text_at argv 1; if bool_decide (Parse_option a = HELP) then Err (Exited 0) else mret tt
       else mret tt);
  c ← read_options (length argv) argv 1 cmd0;
  _ ← Is_True (bool_decide (is_Some (file_path c)));
  if bool_decide (is_Some (file_path c)) then mret c else Err (Exited (-1)).

Definition Is_interactive_mode (argv : list (list Z)) : bool :=
  existsb (fun a => bool_decide (Parse_option a = INTERACT)) argv.

(** An argument of no kind would be looked up outside the table of next registers. *)
Definition options_of (files : list Z -> option (list Z)) (c : CMD_LINE) : outcome OPTIONS :=
  args ← UModule.Types.map_outcome (of_option CodeFault) (arguments_list c);
  mret (mkOPTIONS (path ← file_path c; files path) (start_func c) (start_func_name c) args
          (arguments_list_string c) (cmd_sreg c) (check_ret_value c)).

(** [Start_vm_non_interactive(argc, argv)]. *)
Definition run_command_line {pf : UModule.Platform} {host : Host} {fe : FloatEnv} (fuel : nat) (mem_p : option BLOCK)
  (files : list Z -> option (list Z)) (argv : list (list Z)) (s : SYSTEM) : outcome SYSTEM :=
  c ← Read_command_line argv;
  o ← options_of files c;
  Start_vm_non_interactive fuel mem_p o s.
End Command.
