(* ===== verification/Options.v ===== *)
(** * The command line, written and read

  Numbers written in decimal are read back, and a command line that is written for some
  options is read as those options. *)

From S2P Require Import Prelude CInt BitField CFloat Isa Memory LocalTable File Machine SysCalls System UModule Tracing Command.
From stdpp Require Import strings pretty.
From Stdlib Require Import ZArith Lia.
Local Open Scope Z_scope.

(** ** Numbers *)
Definition number_text (z : Z) : list Z := if z <? 0 then 45 :: LocalTable.bytes_of (pretty (Z.to_N (- z))) else LocalTable.bytes_of (pretty (Z.to_N z)).

Lemma digit_char (x : N) : (x < 10)%N -> LocalTable.bytes_of (String (pretty_N_char x) "") = [48 + Z.of_N x] /\ digit 10 (48 + Z.of_N x) = Some (Z.of_N x).
Proof.
  intros H. assert (x = 0 \/ x = 1 \/ x = 2 \/ x = 3 \/ x = 4 \/ x = 5 \/ x = 6 \/ x = 7 \/ x = 8 \/ x = 9)%N as Hx by lia.
  repeat (destruct Hx as [-> | Hx]; [split; reflexivity|]). subst x. split; reflexivity.
Qed.
Lemma bytes_of_cons c s : LocalTable.bytes_of (String c s) = LocalTable.bytes_of (String c "") ++ LocalTable.bytes_of s.
Proof. reflexivity. Qed.

Lemma digits_go (x : N) : forall s, digits 10 0 (LocalTable.bytes_of (pretty_N_go x s)) = digits 10 (Z.of_N x) (LocalTable.bytes_of s) /\
  (x <> 0%N -> exists c r, LocalTable.bytes_of (pretty_N_go x s) = c :: r /\ 49 <= c <= 57).
Proof.
  induction (N.lt_wf_0 x) as [x _ IH]. intros s. destruct (decide (x = 0%N)) as [->|Hx].
  { split; [reflexivity | congruence]. }
  rewrite pretty_N_go_step by lia. pose proof (N.Div0.div_mod x 10). pose proof (N.mod_lt x 10 ltac:(lia)) as Hm.
  destruct (digit_char (x mod 10) Hm) as [D1 D2].
  destruct (IH (x / 10)%N ltac:(apply N.div_lt; lia) (String (pretty_N_char (x mod 10)) s)) as [H1 H2]. split.
  - rewrite H1, bytes_of_cons, D1. cbn [app digits]. rewrite D2. f_equal. lia.
  - intros _. destruct (decide (x / 10 = 0)%N) as [E|E]; [|apply H2, E].
    rewrite E. change (pretty_N_go 0 ?s) with s. rewrite bytes_of_cons, D1. eexists _, _. split; [reflexivity|]. lia.
Qed.

Lemma pretty_digits (x : N) : exists c r, LocalTable.bytes_of (pretty x) = c :: r /\ 48 <= c <= 57 /\ magnitude (c :: r) = Z.of_N x.
Proof.
  unfold pretty, pretty_N. destruct (decide (x = 0%N)) as [->|Hx].
  - exists 48, []. split; [reflexivity|]. split; [lia | reflexivity].
  - destruct (digits_go x "") as [H1 H2]. destruct (H2 Hx) as (c & r & E & Hc). exists c, r. split; [exact E|]. split; [lia|].
    rewrite E in H1. cbn [LocalTable.bytes_of] in H1. change (digits 10 (Z.of_N x) []) with (Z.of_N x) in H1. rewrite <- H1.
    unfold magnitude. assert (c <> 48) by lia. destruct c as [|c|c]; try lia. repeat (destruct c as [c|c|]; try reflexivity). congruence.
Qed.

Lemma strtol_digits c r : 48 <= c <= 57 -> strtol (c :: r) = Z.max LONG_MIN (Z.min LONG_MAX (magnitude (c :: r))).
Proof.
  intros H. unfold strtol. cbn [skip_space]. assert (is_space c = false) as -> by (unfold is_space; lia).
  destruct c as [|c|c]; try lia. repeat (destruct c as [c|c|]; try reflexivity; try lia).
Qed.
Lemma strtol_minus c r : 48 <= c <= 57 -> strtol (45 :: c :: r) = Z.max LONG_MIN (Z.min LONG_MAX (- magnitude (c :: r))).
Proof. reflexivity. Qed.

Lemma strtol_number z : in_s 64 z -> strtol (number_text z) = z.
Proof.
  intros Hz. change (- 2 ^ 63 <= z < 2 ^ 63) in Hz. unfold number_text. destruct (Z.ltb_spec z 0) as [Hn|Hn].
  - destruct (pretty_digits (Z.to_N (- z))) as (c & r & -> & Hc & Hm). rewrite strtol_minus, Hm by exact Hc. unfold LONG_MIN, LONG_MAX. lia.
  - destruct (pretty_digits (Z.to_N z)) as (c & r & -> & Hc & Hm). rewrite strtol_digits, Hm by exact Hc. unfold LONG_MIN, LONG_MAX. lia.
Qed.

(** ** Options *)
Section Options.
Context {bd : Build} {cb : ConvBuild} {ft : FloatText}.

(** A value as it is written: numbers in decimal, floats as any text. *)
Inductive VALUE_TEXT : Type := VI32 (v : Z) | VI64 (v : Z) | VF32 (s : list Z) | VF64 (s : list Z).
Definition value_ok (v : VALUE_TEXT) : bool :=
  match v with VI32 v => bool_decide (in_s 32 v) | VI64 v => bool_decide (in_s 64 v) | _ => true end.
Definition value_words (v : VALUE_TEXT) : list (list Z) :=
  match v with
  | VI32 v => [number_text 0; number_text v] | VI64 v => [number_text 1; number_text v]
  | VF32 s => [number_text 2; s] | VF64 s => [number_text 3; s]
  end.
Definition value_of (v : VALUE_TEXT) : ARG_VALUE :=
  match v with VI32 v => (I32, v) | VI64 v => (I64, v) | VF32 s => (F32, strtof s) | VF64 s => (F64, strtod s) end.

Inductive ITEM : Type :=
  | IFile (path : list Z) | IFunc (n : Z) | IName (name : list Z) | IArg (v : VALUE_TEXT) | IString (s : list Z)
  | IReg (r v : Z) | ICheck (v : VALUE_TEXT) | INoTrace | ITrace (kind level : Z).
Definition item_ok (i : ITEM) : bool :=
  match i with
  | IFunc n => bool_decide (in_s 64 n)
  | IArg v | ICheck v => value_ok v
  | IReg r v => bool_decide (in_u 32 r) && bool_decide (in_u 32 v)
  | ITrace kind level => (0 <=? kind) && (kind <? TRACE_KIND_MAX) && bool_decide (in_u 32 level)
  | _ => true
  end.
Definition item_words (i : ITEM) : list (list Z) :=
  match i with
  | IFile path => [LocalTable.bytes_of "-f"; path]
  | IFunc n => [LocalTable.bytes_of "-func"; number_text n]
  | IName name => [LocalTable.bytes_of "-func_name"; name]
  | IArg v => LocalTable.bytes_of "-arg" :: value_words v
  | IString s => [LocalTable.bytes_of "-s"; s]
  | IReg r v => [LocalTable.bytes_of "-sreg"; number_text r; number_text v]
  | ICheck v => LocalTable.bytes_of "-check_ret" :: value_words v
  | INoTrace => [LocalTable.bytes_of "-nt"]
  | ITrace kind level => [LocalTable.bytes_of "-t"; number_text kind; number_text level]
  end.
Definition item_means (c : CMD_LINE) (i : ITEM) : CMD_LINE :=
  let 'mkCMD fp sf fn al sl sr cr ti := c in
  match i with
  | IFile path => mkCMD (Some path) sf fn al sl sr cr ti
  | IFunc n => mkCMD fp n fn al sl sr cr ti
  | IName name => mkCMD fp sf (Some name) al sl sr cr ti
  | IArg v => mkCMD fp sf fn (al ++ [Some (value_of v)]) sl sr cr ti
  | IString s => mkCMD fp sf fn al (sl ++ [s]) sr cr ti
  | IReg r v => mkCMD fp sf fn al sl (sr ++ [(r, v)]) cr ti
  | ICheck v => mkCMD fp sf fn al sl sr (Some (value_of v)) ti
  | INoTrace => mkCMD fp sf fn al sl sr cr (with_level TP_BIN_WRITE 0 (with_level TP_BIN_READ 0 (with_level TP_EXEC 0 ti)))
  | ITrace kind level => mkCMD fp sf fn al sl sr cr (with_level kind level ti)
  end.

Lemma argv_at_run argv i w : argv !! i = Some w -> argv_at argv i = Ok (Some w) /\ text_at argv i = Ok w.
Proof.
  intros H. pose proof (lookup_lt_Some _ _ _ H). unfold text_at, argv_at.
  rewrite (proj2 (Nat.ltb_ge _ _)) by lia. now rewrite H.
Qed.
Lemma lookup_after {A} (pre w post : list A) k a : w !! k = Some a -> (pre ++ w ++ post) !! (length pre + k)%nat = Some a.
Proof.
  intros H. rewrite lookup_app_r by lia. replace (length pre + k - length pre)%nat with k by lia. now apply lookup_app_l_Some.
Qed.

Lemma read_value v : value_ok v = true -> exists a b, value_words v = [a; b] /\ Read_cmd_line_value a b = Ok (Some (value_of v)).
Proof.
  intros H. destruct v as [v|v|s|s]; cbn [value_words value_of value_ok] in *; do 2 eexists; (split; [reflexivity|]); unfold Read_cmd_line_value;
    rewrite (strtol_number _) by (split; reflexivity || discriminate).
  - apply bool_decide_eq_true_1 in H. rewrite strtol_number by (split; unfold in_s in H; cbn in *; lia).
    change (valty_of (INT32 0)) with (Some I32). cbv iota. unfold INT32, UINT64. rewrite <- wraps_wrapu, wrapu_wrapu_le, wraps_wrapu by lia. now rewrite wraps_id by (lia || assumption).
  - apply bool_decide_eq_true_1 in H. rewrite strtol_number by exact H.
    change (valty_of (INT32 1)) with (Some I64). cbv iota. unfold INT64, UINT64. rewrite wraps_wrapu by lia. now rewrite wraps_id by (lia || assumption).
  - reflexivity.
  - reflexivity.
Qed.

Lemma read_item pre post i c : item_ok i = true -> trace_ok (trace_info c) ->
  read_option (pre ++ item_words i ++ post) (length pre) c = Ok (item_means c i, length (pre ++ item_words i)).
Proof.
  intros Hok Htr. set (argv := pre ++ item_words i ++ post).
  assert (forall k w, item_words i !! k = Some w -> argv_at argv (length pre + k) = Ok (Some w) /\ text_at argv (length pre + k) = Ok w) as Hat.
  { intros k w Hk. apply argv_at_run. now apply lookup_after. }
  destruct (item_words i) as [|name ws] eqn:Ew; [destruct i as [| | |[]| | |[]| |]; discriminate|].
  destruct (Hat 0%nat name eq_refl) as [_ H0]. rewrite Nat.add_0_r in H0.
  destruct c as [fp sf fn al sl sr cr ti]. rewrite length_app. unfold read_option. rewrite H0. cbn [mbind outcome_bind].
  destruct i as [path|n|nm|v|s|r v|v| |kind level]; cbn [item_words item_ok item_means] in *; injection Ew as <- <-.
  - destruct (Hat 1%nat _ eq_refl) as [-> _]. reflexivity.
  - destruct (Hat 1%nat _ eq_refl) as [-> ->]. cbn -[strtol number_text]. apply bool_decide_eq_true_1 in Hok. now rewrite strtol_number.
  - destruct (Hat 1%nat _ eq_refl) as [-> _]. reflexivity.
  - destruct (read_value v Hok) as (a & b & E & R). rewrite E in *. destruct (Hat 1%nat _ eq_refl) as [-> ->]. destruct (Hat 2%nat _ eq_refl) as [_ ->].
    cbn -[Read_cmd_line_value]. rewrite R. reflexivity.
  - destruct (Hat 1%nat _ eq_refl) as [-> ->]. reflexivity.
  - destruct (Hat 1%nat _ eq_refl) as [-> ->]. destruct (Hat 2%nat _ eq_refl) as [_ ->]. cbn -[strtol number_text UINT32].
    apply andb_true_iff in Hok as [O1 O2]. apply bool_decide_eq_true_1 in O1, O2. unfold UINT32.
    rewrite !strtol_number by (unfold in_u in *; split; cbn in *; lia). now rewrite !wrapu_id.
  - destruct (read_value v Hok) as (a & b & E & R). rewrite E in *. destruct (Hat 1%nat _ eq_refl) as [-> ->]. destruct (Hat 2%nat _ eq_refl) as [_ ->].
    cbn -[Read_cmd_line_value]. rewrite R. reflexivity.
  - unfold argv_at. assert ((length argv <? length pre + 1)%nat = false) as ->.
    2: { change (Parse_option (LocalTable.bytes_of "-nt")) with NO_TRACE. cbn [mbind outcome_bind mret outcome_ret].
      rewrite Set_no_trace_run by exact Htr. reflexivity. }
    apply Nat.ltb_ge. unfold argv. rewrite !length_app. cbn. lia.
  - destruct (Hat 1%nat _ eq_refl) as [-> ->]. destruct (Hat 2%nat _ eq_refl) as [_ ->].
    rewrite !andb_true_iff, bool_decide_eq_true in Hok. destruct Hok as [[O1%Z.leb_le O2%Z.ltb_lt] O3].
    change (Parse_option (LocalTable.bytes_of "-t")) with TRACE. cbn [mbind outcome_bind mret outcome_ret]. unfold UINT32, TRACE_KIND_MAX, in_u in *.
    rewrite !strtol_number by (split; cbn in *; lia). rewrite !wrapu_id by (unfold in_u; cbn in *; lia).
    rewrite Set_tracing_opt_run by (exact Htr || (unfold TRACE_KIND_MAX; lia)). reflexivity.
Qed.
Lemma item_means_trace c i : trace_ok (trace_info c) -> trace_ok (trace_info (item_means c i)).
Proof. destruct c as [fp sf fn al sl sr cr ti]. intros H. destruct i; cbn [item_means trace_info] in *; auto using with_level_ok. Qed.

Lemma read_options_run items : forall pre c fuel, trace_ok (trace_info c) -> forallb item_ok items = true -> (length items <= fuel)%nat ->
  read_options fuel (pre ++ concat (map item_words items)) (length pre) c = Ok (fold_left item_means items c).
Proof.
  induction items as [|i items IH]; intros pre c fuel Htr Hok Hf; cbn [map concat fold_left forallb length] in *.
  - rewrite app_nil_r. destruct fuel; cbn [read_options]; now rewrite Nat.leb_refl.
  - apply andb_true_iff in Hok as [O1 O2]. destruct fuel as [|fuel]; [lia|]. cbn [read_options].
    assert (exists w ws, item_words i = w :: ws) as (w & ws & Ew) by (destruct i as [| | |[]| | |[]| |]; do 2 eexists; reflexivity).
    rewrite (proj2 (Nat.leb_gt _ _)) by (rewrite !length_app, Ew; cbn; lia).
    rewrite read_item by assumption. cbn [mbind outcome_bind fst snd]. rewrite (assoc_L (++)). apply IH; [now apply item_means_trace | exact O2 | lia].
Qed.

Lemma item_words_length i : (1 <= length (item_words i))%nat.
Proof. destruct i; cbn; lia. Qed.
Lemma words_length items : (length items <= length (concat (map item_words items)))%nat.
Proof.
  induction items as [|i items IH]; cbn; [lia|]. rewrite length_app. pose proof (item_words_length i). lia.
Qed.
Lemma words_file items path : IFile path ∈ items -> (2 <= length (concat (map item_words items)))%nat.
Proof.
  intros (l1 & l2 & ->)%list_elem_of_split. rewrite map_app, concat_app, length_app. cbn [map concat]. rewrite length_app. cbn [item_words length]. lia.
Qed.
Lemma path_kept items : forall c, is_Some (file_path c) -> is_Some (file_path (fold_left item_means items c)).
Proof.
  induction items as [|i items IH]; intros c Hc; cbn [fold_left]; [exact Hc|]. apply IH. destruct c as [fp sf fn al sl sr cr ti].
  destruct i; cbn in *; eauto.
Qed.
Lemma path_given items path : IFile path ∈ items -> forall c, is_Some (file_path (fold_left item_means items c)).
Proof.
  intros (l1 & l2 & ->)%list_elem_of_split c. rewrite fold_left_app. cbn [fold_left]. apply path_kept. destruct (fold_left _ _ _). cbn. eauto.
Qed.

(** C30: The command line.  A command line that is written for some options, among them a
  file, numbers in decimal and in the range of their type, is read as these options: the
  last file, function, name and expected value, all arguments, strings and register
  values in order, and the last level of each kind of trace.  The loop over the arguments ends within as many iterations as there
  are arguments. *)
Theorem command_line_round_trip prog items path : forallb item_ok items = true -> IFile path ∈ items ->
  Read_command_line (prog :: concat (map item_words items)) = Ok (fold_left item_means items cmd0).
Proof.
  intros Hok Hp. pose proof (words_file items path Hp) as H2. pose proof (words_length items) as Hl. unfold Read_command_line.
  destruct (Nat.eqb_spec (length (prog :: concat (map item_words items))) 2) as [E|_]; [cbn in E; lia|]. cbn [mbind outcome_bind].
  pose proof (read_options_run items [prog] cmd0 (length (prog :: concat (map item_words items))) trace0_ok Hok ltac:(cbn; lia)) as H.
  cbn [app length] in H. cbn [length]. rewrite bind_ok, H. cbn [mbind outcome_bind].
  rewrite bool_decide_true by (eapply path_given, Hp). rewrite Is_True_true. reflexivity.
Qed.
End Options.

Section Witness.
#[local] Instance no_floats : FloatText := {| strtof := fun _ => 0; strtod := fun _ => 0 |}.
Definition sample_items : list ITEM := [
  INoTrace; IFile (LocalTable.bytes_of "sum.uwm"); IArg (VI32 (-5)); IArg (VI64 (2 ^ 40)); IString (LocalTable.bytes_of "x y"); IReg 3 4294967295; ITrace 3 2;
  ICheck (VI32 12); IName (LocalTable.bytes_of "main")].
Lemma command_line_round_trip_witness :
  Read_command_line (bd := release_build) (LocalTable.bytes_of "uvm" :: concat (map item_words sample_items)) =
    Ok (mkCMD (Some (LocalTable.bytes_of "sum.uwm")) (-1) (Some (LocalTable.bytes_of "main")) [Some (I32, -5); Some (I64, 1099511627776)]
      [LocalTable.bytes_of "x y"] [(3, 4294967295)] (Some (I32, 12)) (TRACE_OPT_INFO.mk 1 [0; 0; 0; 2; 0; 0; 0; 0; 0; 0])).
Proof.
  apply (command_line_round_trip (bd := release_build) (LocalTable.bytes_of "uvm") sample_items (LocalTable.bytes_of "sum.uwm")).
  - vm_compute. reflexivity.
  - right. left.
Defined.
End Witness.
