(* ===== verification/Debugger.v ===== *)
(** * The debugger

  [src/interpreter/exec_debug.h], [src/interpreter/exec_debug.cxx]: breakpoints, watch
  points and the frame looked at; the execution loops of
  [src/interpreter/exec_unit.cxx] with breakpoints; the places of instructions in the file
  ([Bind_expand_pc], [Map_to_ubh_pc], [Map_to_expand_pc] of [src/ubh/u_module.cxx]); the
  commands of the interactive mode ([Parse_dbg_cmd] of [src/main.cxx]), with their
  arguments already read.

  Expanded instructions are numbered from 0 for every module, so that the places of a
  module loaded before are dropped when another one is loaded.

  What is printed is recorded as lines.  The commands that print the module and the
  setting of trace options are not modelled. *)

From S2P Require Import Prelude CInt BitField CFloat Isa Inst Ubh Memory UModule Encoder File Machine Handlers Exec LocalTable SysCalls System Tracing.
From Stdlib Require Import ZArith Lia.
Local Open Scope Z_scope.

(** ** Places of instructions *)
Record PC_MAPS : Type := mkMAPS {
  _exp_to_pc_map : gmap Z (Z * Z);        (** function and word of an expanded instruction *)
  _pc_to_exp_map : gmap (Z * Z) Z;
}.
Definition no_maps : PC_MAPS := mkMAPS ∅ ∅.

Section Maps.
Context {bd : Build}.

(** [insert] keeps what is there. *)
Definition Bind_expand_pc (exp func_id ubh_pc : Z) (m : PC_MAPS) : PC_MAPS :=
  match _exp_to_pc_map m !! exp with
  | Some _ => m
  | None => mkMAPS (<[exp := (func_id, ubh_pc)]> (_exp_to_pc_map m)) (_pc_to_exp_map m)
  end.
Definition Map_to_expand_pc (m : PC_MAPS) (func_id ubh_pc : Z) : outcome Z :=
  _ ← Is_True_Rel (bool_decide (is_Some (_pc_to_exp_map m !! (func_id, ubh_pc))));
  of_option OutOfRange (_pc_to_exp_map m !! (func_id, ubh_pc)).
Definition Map_to_ubh_pc (m : PC_MAPS) (exp : Z) : outcome (Z * Z) :=
  _ ← Is_True_Rel (bool_decide (is_Some (_exp_to_pc_map m !! exp)));
  of_option OutOfRange (_exp_to_pc_map m !! exp).

(** What [Expand_code] binds: the loops of [Expansion.expand_insts] and
  [Expansion.expand_funcs] with the calls of [Bind_expand_pc] only, which a release
  build leaves out. *)
Fixpoint bind_insts (fuel : nat) (words : list Z) (i : Z) (p code_sz : nat) (inst_num : Z) (m : PC_MAPS) : outcome (Z * PC_MAPS) :=
  if decide (p = code_sz) then mret (inst_num, m) else
  match fuel with
  | O => Err CodeFault
  | S fuel =>
      q ← U_INST_ITER.incr words p;
      bind_insts fuel words i q code_sz (inst_num + 1) (Bind_expand_pc inst_num i (UINT32 (Z.of_nat p)) m)
  end.
Fixpoint bind_funcs (s : SECTIONS) (i : Z) (funcs : list Z) (inst_num : Z) (m : PC_MAPS) : outcome (Z * PC_MAPS) :=
  match funcs with
  | [] => mret (inst_num, m)
  | func :: funcs =>
      if UBH_FUNC.Is_set_flag F_EXTERN func then bind_funcs s (i + 1) funcs inst_num m else
      idx ← UBH_FUNC.Get_code_idx func;
      entry ← Get_code s idx;
      let code_sz := Z.to_nat (UBH_CODE.Get_code_size (ce_code entry)) in
      r ← bind_insts (S code_sz) (ce_insts entry) i 0 code_sz inst_num m;
      bind_funcs s (i + 1) funcs r.1 r.2
  end.
Definition bind_code (s : SECTIONS) (m : PC_MAPS) : outcome PC_MAPS :=
  if release then mret m else
  func_num ← sec_elem_num s S_FUNC;
  funcs ← Types.map_outcome (Get_func s) (seqZ 0 func_num);
  r ← bind_funcs s 0 funcs 0 m;
  mret r.2.
End Maps.

(** ** The state of the debugger *)
Record UWASM_BP : Set := mkBP { _bp_id : Z; bp_func_id : Z; bp_pc : Z; _inst_pc : Z }.
Record UWASM_WP : Set := mkWP { _wp_id : Z; _ofst : Z }.
(** [_current_dbg_frame] points into the machine. *)
Inductive FRAME_PTR : Set := CurEnv | OnStack (i : Z).
(** The lines printed. *)
Inductive LINE : Set :=
  | FrameLine (id : Z) (func_name : list Z) (func_id ubh_pc : Z) (exp : option Z)
  | BreakLine (bp : UWASM_BP)
  | WorkingLine.

Record UWASM_DEBUG : Type := mkDEBUG {
  _breakpoints : list UWASM_BP;
  _breakpoints_cache : gset Z;
  _watchpoints : list UWASM_WP;
  _watchpoints_cache : gset Z;
  dbg_machine : bool;                     (** [_machine] is set *)
  dbg_cur_pc : option Z;
  _current_dbg_frame : option FRAME_PTR;
  _current_dbg_id : Z;
  _bp_count : Z;
  _wp_count : Z;
  dbg_output : list LINE;
}.
Definition debug0 : UWASM_DEBUG := mkDEBUG [] ∅ [] ∅ false None None 0 0 0 [].
Definition Init (d : UWASM_DEBUG) : UWASM_DEBUG :=
  mkDEBUG (_breakpoints d) (_breakpoints_cache d) (_watchpoints d) (_watchpoints_cache d) true (dbg_cur_pc d)
    (_current_dbg_frame d) (_current_dbg_id d) (_bp_count d) (_wp_count d) (dbg_output d).
Definition set_frame (f : FRAME_PTR) (id : Z) (d : UWASM_DEBUG) : UWASM_DEBUG :=
  mkDEBUG (_breakpoints d) (_breakpoints_cache d) (_watchpoints d) (_watchpoints_cache d) (dbg_machine d) (dbg_cur_pc d)
    (Some f) id (_bp_count d) (_wp_count d) (dbg_output d).
Definition set_cur_pc (p : option Z) (d : UWASM_DEBUG) : UWASM_DEBUG :=
  mkDEBUG (_breakpoints d) (_breakpoints_cache d) (_watchpoints d) (_watchpoints_cache d) (dbg_machine d) p
    (_current_dbg_frame d) (_current_dbg_id d) (_bp_count d) (_wp_count d) (dbg_output d).
Definition print (l : LINE) (d : UWASM_DEBUG) : UWASM_DEBUG :=
  mkDEBUG (_breakpoints d) (_breakpoints_cache d) (_watchpoints d) (_watchpoints_cache d) (dbg_machine d) (dbg_cur_pc d)
    (_current_dbg_frame d) (_current_dbg_id d) (_bp_count d) (_wp_count d) (dbg_output d ++ [l]).

Section Debug.
Context {bd : Build}.

Definition Add_breakpoint (func_id ubh_pc inst_pc : Z) (d : UWASM_DEBUG) : outcome UWASM_DEBUG :=
  _ ← Is_True (dbg_machine d);
  mret (mkDEBUG (_breakpoints d ++ [mkBP (_bp_count d) func_id ubh_pc inst_pc]) ({[inst_pc]} ∪ _breakpoints_cache d)
    (_watchpoints d) (_watchpoints_cache d) (dbg_machine d) (dbg_cur_pc d) (_current_dbg_frame d) (_current_dbg_id d)
    (UINT32 (_bp_count d + 1)) (_wp_count d) (dbg_output d)).
Definition Add_watchpoint (ofst : Z) (d : UWASM_DEBUG) : outcome UWASM_DEBUG :=
  _ ← Is_True (dbg_machine d);
  mret (mkDEBUG (_breakpoints d) (_breakpoints_cache d) (_watchpoints d ++ [mkWP (_wp_count d) ofst]) ({[ofst]} ∪ _watchpoints_cache d)
    (dbg_machine d) (dbg_cur_pc d) (_current_dbg_frame d) (_current_dbg_id d)
    (_bp_count d) (UINT32 (_wp_count d + 1)) (dbg_output d)).
Definition Is_ofst_watched (ofst : Z) (d : UWASM_DEBUG) : bool := bool_decide (ofst ∈ _watchpoints_cache d).
(** The pc may be null. *)
Definition Is_inst_breakable (exp : option Z) (d : UWASM_DEBUG) : bool :=
  match exp with Some p => bool_decide (p ∈ _breakpoints_cache d) | None => false end.
Definition Is_valid_breakpoint (exp : option Z) : bool := true.
Definition Load_file_and_module (d : UWASM_DEBUG) : UWASM_DEBUG :=
  mkDEBUG (_breakpoints d) (_breakpoints_cache d) (_watchpoints d) (_watchpoints_cache d) (dbg_machine d) None
    None 0 (_bp_count d) (_wp_count d) (dbg_output d).

(** The module that names the functions, and the maps of places. *)
Context (u_module : MODULE) (maps : PC_MAPS).

(** [Vector().at(i)]. *)
Definition stack_at (i : Z) (m : UWASM_MACHINE) : outcome EXEC_CONTEXT :=
  if (0 <=? i) && (i <? CONTEXT_STACK.st_size (_ctx_stack m))
  then mret (default ctx0 (CONTEXT_STACK.st_vec (_ctx_stack m) !! i)) else Err OutOfRange.
Definition frame_of (f : FRAME_PTR) (m : UWASM_MACHINE) : outcome EXEC_CONTEXT :=
  match f with CurEnv => mret (_current m) | OnStack i => stack_at i m end.
Definition TopIdx (m : UWASM_MACHINE) : Z := UINT32 (CONTEXT_STACK._sta_top_idx (_ctx_stack m)).

(** [ctx] is not looked at: the frame printed is the one chosen last. *)
Definition Print_one_frame (id : Z) (m : UWASM_MACHINE) (d : UWASM_DEBUG) : outcome UWASM_DEBUG :=
  f ← of_option NullFault (_current_dbg_frame d);
  frame ← frame_of f m;
  let func_id := UINT32 (_func_idx frame) in
  let exp := _pc frame in
  r ← (match exp with Some p => Map_to_ubh_pc maps p | None => _ ← Is_True_Rel false; Err OutOfRange end);
  func ← Get_func (_sections m) (INT32 func_id);
  func_name ← Get_module_name u_module (INT32 (UBH_FUNC.Get_name_idx func));
  mret (print (FrameLine id func_name func_id r.2 exp) d).

(** It has no [return]: its result is not used. *)
Definition Change_current_frame (id : Z) (m : UWASM_MACHINE) (d : UWASM_DEBUG) : outcome UWASM_DEBUG :=
  _ ← Is_True (dbg_machine d);
  if id =? 0 then Print_one_frame 0 m (set_frame CurEnv 0 d)
  else if TopIdx m <? id then
    _ ← Is_True (id <? UINT32 (CONTEXT_STACK._capacity (_ctx_stack m))); mret d
  else
    let top := TopIdx m in
    let target := INT32 (top - id) in
    _ ← Is_True ((0 <=? target) && (UINT32 target <=? top));
    _ ← stack_at target m;
    Print_one_frame id m (set_frame (OnStack target) id d).

Definition Print_current_frame (m : UWASM_MACHINE) (d : UWASM_DEBUG) : outcome UWASM_DEBUG :=
  Print_one_frame (_current_dbg_id d) m d.

(** The frames from [i] on, [n] of them. *)
Fixpoint print_frames (n : nat) (i : Z) (m : UWASM_MACHINE) (d : UWASM_DEBUG) : outcome UWASM_DEBUG :=
  match n with
  | O => mret d
  | S n =>
      let top := TopIdx m in
      let target := INT32 (top - i) in
      _ ← Is_True ((0 <=? target) && (UINT32 target <=? top));
      _ ← stack_at target m;
      d ← Print_one_frame i m d;
      print_frames n (i + 1) m d
  end.
Definition Print_callstack (m : UWASM_MACHINE) (d : UWASM_DEBUG) : outcome UWASM_DEBUG :=
  d ← Print_one_frame 0 m d;
  print_frames (Z.to_nat (TopIdx m)) 1 m d.

(** The first breakpoint at the instruction, or the first of all. *)
Definition breakpoint_at (exp : Z) (bps : list UWASM_BP) : nat :=
  match list_find (fun bp => _inst_pc bp = exp) bps with Some (i, _) => i | None => O end.
Definition On_breakpoint (exp : option Z) (m : UWASM_MACHINE) (d : UWASM_DEBUG) : outcome UWASM_DEBUG :=
  match exp with
  | Some p =>
      if negb (Is_inst_breakable exp d) then mret d else
      d ← Change_current_frame 0 m d;
      let d := set_cur_pc exp d in
      bp ← vec_at (_breakpoints d) (breakpoint_at p (_breakpoints d));
      mret (print (BreakLine bp) d)
  | None => mret d
  end.

(** ** The loops with breakpoints *)
Context {pf : Platform} {rt : Runtime} {fe : FloatEnv}.

Definition breaks (exp : option Z) (d : UWASM_DEBUG) : bool :=
  negb release && negb (_bp_count d =? 0) && Is_inst_breakable exp d && Is_valid_breakpoint exp.

(** [Exec_start]: before an instruction. *)
Fixpoint exec_loop (fuel : nat) (d : UWASM_DEBUG) (m : UWASM_MACHINE) : outcome (UWASM_DEBUG * UWASM_MACHINE) :=
  match fuel with
  | O => Err FuelOut
  | S fuel =>
      let inst := _pc (_current m) in
      if breaks inst d then d ← On_breakpoint inst m d; mret (d, m) else
      match exec_one m with
      | Ok (true, m) => Ok (d, m)
      | Ok (false, m) => exec_loop fuel d m
      | Err f => Err f
      end
  end.
Definition Exec_start_dbg (fuel : nat) (d : UWASM_DEBUG) (m : UWASM_MACHINE) := exec_loop fuel (Init d) m.

(** [Control_start]: after an instruction that ends by [break], before the pc is
  incremented. *)
Fixpoint control_loop (instr_count : nat) (d : UWASM_DEBUG) (m : UWASM_MACHINE) : outcome (UWASM_DEBUG * UWASM_MACHINE) :=
  match instr_count with
  | O => Ok (d, m)
  | S n =>
      let pc := _pc (_current m) in
      match (inst ← Get_inst; switch inst) m with
      | Ok (EXEC_END, m) => Ok (d, m)
      | Ok (CONTINUE, m) => control_loop n d m
      | Ok (BREAK, m) =>
          if breaks pc d then d ← On_breakpoint pc m d; mret (d, m) else
          match Inc_pc m with Ok (_, m) => control_loop n d m | Err f => Err f end
      | Err f => Err f
      end
  end.
Definition Control_start_dbg (instr_count : nat) (d : UWASM_DEBUG) (m : UWASM_MACHINE) := control_loop instr_count (Init d) m.
End Debug.

(** ** The interactive mode *)
Section Session.
Context {bd : Build} {pf : Platform} {cb : ConvBuild} {host : Host} {fe : FloatEnv}.

Inductive COMMAND : Type :=
  | Next | Continue | Quit
  | Trace (kind level : Z)
  | SetReg (index value : Z)
  | OpenFile (content : option (list Z)) (mem_p : option BLOCK)
  | SetFunc (func : Z)
  | RunInstrCnt (count : nat)
  | AddRunArg (a : ARG_VALUE)
  | AddStringArg (s : list Z)
  | BreakpointSet (func_id pc : Z)
  | WatchpointSet (ofst : Z)
  | PrintWorking | PrintCallstack
  | ChangeCurrentFrame (id : Z)
  | PrintCurrentFrame
  | Other.                                 (** nothing of the state changes *)

Record SESSION : Type := mkSESSION {
  ss_system : SYSTEM;
  ss_debug : UWASM_DEBUG;
  ss_maps : PC_MAPS;
  is_ready : bool;
  next_reg_to_set : list Z;
  ss_trace : TRACE_OPT_INFO.t;
}.
(** [Start_vm_interactive]. *)
Definition session0 (s : SYSTEM) : SESSION := mkSESSION s (Init debug0) no_maps false first_arg_regs TRACE_OPT_INFO.trace0.

Definition with_system (s : SYSTEM) (ss : SESSION) : SESSION :=
  mkSESSION s (ss_debug ss) (ss_maps ss) (is_ready ss) (next_reg_to_set ss) (ss_trace ss).
Definition with_debug (d : UWASM_DEBUG) (ss : SESSION) : SESSION :=
  mkSESSION (ss_system ss) d (ss_maps ss) (is_ready ss) (next_reg_to_set ss) (ss_trace ss).
(** A run of the machine under the debugger. *)
Definition ran_to (r : UWASM_DEBUG * UWASM_MACHINE) (ss : SESSION) : SESSION :=
  let s := ss_system ss in
  mkSESSION (mkSYSTEM (sy_module s) r.2 (_string_args s) (_func_infos s)) r.1 (ss_maps ss) (is_ready ss) (next_reg_to_set ss) (ss_trace ss).
Definition continue_run (fuel : nat) (ss : SESSION) : outcome SESSION :=
  let s := ss_system ss in
  r ← Exec_start_dbg (rt := sy_runtime s) (sy_module s) (ss_maps ss) fuel (ss_debug ss) (_machine s); mret (ran_to r ss).
Definition next_run (count : nat) (ss : SESSION) : outcome SESSION :=
  let s := ss_system ss in
  r ← Control_start_dbg (rt := sy_runtime s) (sy_module s) (ss_maps ss) count (ss_debug ss) (_machine s); mret (ran_to r ss).

Definition Parse_dbg_cmd (fuel : nat) (c : COMMAND) (ss : SESSION) : outcome SESSION :=
  let s := ss_system ss in
  let d := ss_debug ss in
  match c with
  | Next => if is_ready ss then next_run 1 ss else mret ss
  | Continue => if is_ready ss then continue_run fuel ss else mret ss
  | Quit => Err (Exited 0)
  | Trace kind level =>
      '(_, t) ← Set_tracing_opt (UINT32 kind) (UINT32 level) (ss_trace ss);
      mret (mkSESSION s d (ss_maps ss) (is_ready ss) (next_reg_to_set ss) t)
  | SetReg index value => s ← Debug_set_reg I32 (UINT32 index) (INT32 value) s; mret (with_system s ss)
  | OpenFile content mem_p =>
      s ← Load_from_file content s;
      r ← Init_memory_of mem_p MEM_SIZE s;
      maps ← (if r.1 =? Data.NUM_SUCC then bind_code (_secs (sy_module s)) no_maps else mret (ss_maps ss));
      mret (mkSESSION r.2 d maps (is_ready ss) (next_reg_to_set ss) (ss_trace ss))
  | SetFunc func =>
      s ← Set_cur_func (UINT32 func) s;
      mret (mkSESSION s d (ss_maps ss) true (next_reg_to_set ss) (ss_trace ss))
  | RunInstrCnt count => next_run count ss
  | AddRunArg (kind, value) =>
      s ← Debug_set_reg kind (next_reg kind (next_reg_to_set ss)) value s;
      mret (mkSESSION s d (ss_maps ss) (is_ready ss) (bump kind (next_reg_to_set ss)) (ss_trace ss))
  | AddStringArg a => mret (with_system (Set_string_args (_string_args s ++ [a]) s) ss)
  | BreakpointSet func_id pc =>
      exp ← Map_to_expand_pc (ss_maps ss) (UINT32 func_id) (UINT32 pc);
      d ← Add_breakpoint (UINT32 func_id) (UINT32 pc) exp d; mret (with_debug d ss)
  | WatchpointSet ofst => d ← Add_watchpoint (UINT32 ofst) d; mret (with_debug d ss)
  | PrintWorking => mret (with_debug (print WorkingLine d) ss)
  | PrintCallstack => d ← Print_callstack (sy_module s) (ss_maps ss) (_machine s) d; mret (with_debug d ss)
  | ChangeCurrentFrame id => d ← Change_current_frame (sy_module s) (ss_maps ss) (UINT32 id) (_machine s) d; mret (with_debug d ss)
  | PrintCurrentFrame => d ← Print_current_frame (sy_module s) (ss_maps ss) (_machine s) d; mret (with_debug d ss)
  | Other => mret ss
  end.
Fixpoint run_commands (fuel : nat) (cs : list COMMAND) (ss : SESSION) : outcome SESSION :=
  match cs with
  | [] => mret ss
  | c :: cs => ss ← Parse_dbg_cmd fuel c ss; run_commands fuel cs ss
  end.
End Session.
