(* ===== verification/Sample.v ===== *)
(** * A sample module

  A module of two functions, written with the encoder and taken through the loader
  to the machine: [main] adds the numbers from [n] down to 1 with calls to [add].
  The concrete states are what the theorems of the other files are applied to. *)

From S2P Require Import Prelude CInt BitField CFloat Isa Inst Expand Ubh Memory UModule StrTab TypeEncoder Encoder File Machine Handlers Exec Frames Windows Safety.
From Stdlib Require Import ZArith Lia.
Local Open Scope Z_scope.

(** Host functions that do nothing, a heap left alone, [realloc] in place. *)
#[export] Instance sample_runtime : Runtime := {|
  Call_sys_call := fun _ => mret tt;
  heap_initialize := fun _ _ b => Ok b;
  mem_realloc := fun _ _ => RInPlace;
|}.
#[export] Instance sample_runtime_frame : RuntimeFrame sample_runtime.
Proof. intros callee. apply frames_ret. exact _. Qed.
#[export] Instance never_moves : VectorGrowth := fun _ _ => false.
#[export] Existing Instance x86_platform.
#[export] Existing Instance debug_check_build.

Section Program.
Import U_ENCODER.

Definition main_name : list Z := START_FUNC_NAME.
Definition add_name : list Z := [97; 100; 100].
Definition loop_name : list Z := [108].

Definition emit (insts : list (Z * TY_AM * list Z)) : M U_ENCODER.t unit :=
  fold_left (fun (h : M U_ENCODER.t unit) i =>
    let '(op, am, content) := i in _ ← h; _ ← Add_inst op I32 am content; mret tt) insts (mret tt).

(** [main] has three i32 locals (the sum, the counter and a spare one) and passes
  two arguments; [add] has none and works on its arguments. *)
Definition program (n : Z) : M U_ENCODER.t unit :=
  main_ty ← Add_type [I32] [];
  add_ty ← Add_type [I32] [I32; I32];
  main ← Request_func main_name main_ty 0;
  add ← Request_func add_name add_ty 0;
  _ ← Start_func main (3, 0, 0, 0) (2, 0, 0, 0) 16;
  _ ← emit [(Opcode.CONST, TY_AM32_R_IMM, [0; 0]); (Opcode.CONST, TY_AM32_R_IMM, [1; n])];
  loop ← Add_label loop_name;
  _ ← emit [(Opcode.ADDS_I, TY_AM32S_R_R_IMM, [3; 0; 0]);
            (Opcode.ADDS_I, TY_AM32S_R_R_IMM, [4; 1; 0]);
            (Opcode.CALL, TY_AM32_OFS, [add]);
            (Opcode.ADDS_I, TY_AM32S_R_R_IMM, [0; 3; 0]);
            (Opcode.ADD_RI, TY_AM32_R_IMM, [1; 2 ^ 32 - 1]);
            (Opcode.JNZ, TY_AM32_R_OFS, [1; loop]);
            (Opcode.RETURN, TY_AM32, [])];
  _ ← Start_func add (0, 0, 0, 0) (2, 0, 0, 0) 0;
  emit [(Opcode.ADD_RR, TY_AM32_R_R, [0; 1]); (Opcode.RETURN, TY_AM32, [])].

(** The sections of the written file. *)
Definition written (e : U_ENCODER.t) : outcome SECTIONS :=
  f ← Write_to_file e;
  m ← Read_sections f.1;
  mret (_secs m).

Definition sample_block (size : Z) : BLOCK := mkBLOCK 4096 size true (fun _ => 0) ∅.

(** Loading, the machine, [Init_memory] and [Init_env]. *)
Definition start (h : M U_ENCODER.t unit) (mem_size : Z) : outcome UWASM_MACHINE :=
  e ← create;
  r ← h e;
  secs ← written r.2;
  types ← Types.Decode_type_and_cache secs;
  let m := UWASM_MACHINE_new secs types (mkCODES ∅ ∅ ∅ ∅ ∅ 0) in
  r ← Init_memory (Some (sample_block mem_size)) mem_size m;
  r ← Init_env 0 r.2;
  mret r.2.

Definition run (h : M U_ENCODER.t unit) (fuel : nat) : outcome Z :=
  m ← start h 65536;
  m ← Exec_start fuel m;
  r ← Get_ret_val m; mret r.1.
End Program.
