(* ===== verification/Reachable.v ===== *)
(** * Reachable states

  The states a program goes through: load, [Init_memory], [Init_env], then steps of
  the loop.  The theorems on execution, stated for every module, entry function,
  memory and host.  [Sample.v]'s module gives the concrete states. *)

From S2P Require Import Prelude CInt BitField CFloat Isa Inst Expand Ubh Memory UModule StrTab TypeEncoder Encoder Machine Handlers Exec Frames Windows Safety Loading Sample.
From Stdlib Require Import ZArith Lia.
Local Open Scope Z_scope.

Section Reachable.
Context {bd : Build} {pf : Platform} {rt : Runtime} {rf : RuntimeFrame rt} {fe : FloatEnv}.

(** A module that was loaded, started at a function, and ran [n] steps. *)
Inductive reachable (secs : SECTIONS) (func : Z) (n : nat) (m : UWASM_MACHINE) : Prop :=
  reachable_intro types codes mem_p mem_size ret m0 m1 :
    Types.Decode_type_and_cache secs = Ok types ->
    Init_memory mem_p mem_size (UWASM_MACHINE_new secs types codes) = Ok (ret, m0) ->
    Init_env func m0 = Ok (tt, m1) ->
    steps n m1 m ->
    reachable secs func n m.

Lemma reachable_windows secs func n m : reachable secs func n m -> windows_ok m.
Proof.
  intros [types codes mem_p mem_size ret m0 m1 Ht Hm He Hs].
  apply Init_memory_win in Hm.
  pose proof (UWASM_MACHINE_new_windows secs types codes (Decode_wf _ _ Ht)) as H0.
  apply (windows_pre_frame _ m0 Hm) in H0.
  eapply steps_windows; [exact Hs|]. eapply Init_env_run; [exact H0 | | exact He].
  now rewrite (we_stack _ _ Hm).
Qed.

(** Running the loop body [n] times. *)
Fixpoint exec_n (n : nat) (m : UWASM_MACHINE) : outcome UWASM_MACHINE :=
  match n with
  | O => Ok m
  | S n => match exec_one m with Ok (false, m) => exec_n n m | Ok (true, _) => Err FuelOut | Err f => Err f end
  end.
Lemma exec_n_steps n m m' : exec_n n m = Ok m' -> steps n m m'.
Proof.
  revert m. induction n as [|n IH]; intros m H; simpl in H; [injection H as <-; constructor|].
  destruct (exec_one m) as [[[] m1]|] eqn:E; try discriminate.
  apply exec_one_step in E. econstructor; eauto.
Qed.
End Reachable.

(** ** States of the sample program *)
Definition from_ok {A} (d : A) (o : outcome A) : A := match o with Ok a => a | Err _ => d end.
Lemma from_ok_eq {A} (d : A) o : is_ok o = true -> o = Ok (from_ok d o).
Proof. now destruct o. Qed.

Definition no_secs : SECTIONS := mkSECTIONS [] [] [] [] [] [] [] [] [].
Definition no_machine : UWASM_MACHINE := UWASM_MACHINE_new no_secs (mkTYPES [] [] [] []) (mkCODES ∅ ∅ ∅ ∅ ∅ 0).
Definition sample_secs : SECTIONS :=
  from_ok no_secs (e ← U_ENCODER.create; r ← program 3 e; written r.2).
Definition sample_new : UWASM_MACHINE :=
  UWASM_MACHINE_new sample_secs (from_ok (mkTYPES [] [] [] []) (Types.Decode_type_and_cache sample_secs))
    (mkCODES ∅ ∅ ∅ ∅ ∅ 0).
Definition sample_loaded : UWASM_MACHINE :=
  (from_ok (0, no_machine) (Init_memory (Some (sample_block 65536)) 65536 sample_new)).2.
Definition sample_start : UWASM_MACHINE := (from_ok (tt, no_machine) (Init_env 0 sample_loaded)).2.
Definition sample_after (n : nat) : UWASM_MACHINE := from_ok no_machine (exec_n n sample_start).

Lemma sample_reachable n : is_ok (exec_n n sample_start) = true -> reachable sample_secs 0 n (sample_after n).
Proof.
  intros H. apply (reachable_intro _ _ _ _ (from_ok (mkTYPES [] [] [] []) (Types.Decode_type_and_cache sample_secs))
    (mkCODES ∅ ∅ ∅ ∅ ∅ 0) (Some (sample_block 65536)) 65536 0 sample_loaded sample_start).
  - now apply from_ok_eq.
  - rewrite (from_ok_eq (0, no_machine) (Init_memory _ _ _)) by (vm_compute; reflexivity).
    unfold sample_loaded, sample_new. destruct (from_ok _ (Init_memory _ _ _)) as [z m] eqn:E.
    assert (z = 0) as ->; [|reflexivity].
    transitivity (from_ok (0, no_machine) (Init_memory (Some (sample_block 65536)) 65536 sample_new)).1; [unfold sample_new; now rewrite E | vm_compute; reflexivity].
  - rewrite (from_ok_eq (tt, no_machine) (Init_env _ _)) by (vm_compute; reflexivity).
    unfold sample_start. now destruct (from_ok _ (Init_env _ _)) as [[] m].
  - now apply exec_n_steps, from_ok_eq.
Qed.

(** Any program of the encoder, started as the sample is. *)
Lemma start_reachable h size n m : (s ← start h size; exec_n n s) = Ok m -> exists secs, reachable secs 0 n m.
Proof.
  unfold start. intros (s & (e & _ & (r & _ & H)%outcome_bind_inv)%outcome_bind_inv & Hn)%outcome_bind_inv.
  apply outcome_bind_inv in H as (secs & _ & (types & Ht & H)%outcome_bind_inv).
  apply outcome_bind_inv in H as (r1 & Hm & (r2 & He & [= <-])%outcome_bind_inv).
  destruct r1 as [ret m0], r2 as [[] m1]. exists secs.
  exact (reachable_intro _ _ _ _ _ _ _ _ _ _ _ Ht Hm He (exec_n_steps _ _ _ Hn)).
Qed.
