(* ===== verification/Typed.v ===== *)
(** * Register files hold values of their type

  Whatever the program does, the cells of the register file of a type hold values
  of that type: signed 32-bit and 64-bit integers, and bit patterns of the width of
  the floats. *)

From S2P Require Import Prelude CInt BitField CFloat Isa Inst Expand Ubh Memory UModule Machine Handlers Exec Frames Windows Safety Loading Sample Reachable.
From Stdlib Require Import ZArith Lia.
Local Open Scope Z_scope.

Definition in_type (t : VALTYPE) (v : Z) : Prop :=
  match t with I32 => in_s 32 v | I64 => in_s 64 v | F32 => in_u 32 v | _ => in_u 64 v end.

Definition regs_typed (m : UWASM_MACHINE) : Prop :=
  forall t k v, REGISTER.cells (regs t m) !! k = Some v -> in_type t v.

(** As a relation between states, to follow computations with [frame_tac]. *)
Definition typed_step (m m' : UWASM_MACHINE) : Prop := regs_typed m -> regs_typed m'.
#[export] Instance typed_step_refl : Reflexive typed_step.
Proof. now intros m H. Qed.
#[export] Instance typed_step_trans : Transitive typed_step.
Proof. intros m1 m2 m3 H1 H2 H. auto. Qed.

(** A host function keeps the register files typed. *)
Class RuntimeTyped (rt : Runtime) : Prop :=
  call_typed : forall callee, frames typed_step (Call_sys_call callee).

Lemma reg_norm_in_type t v : in_type t (reg_norm t v).
Proof.
  destruct t; cbn [in_type reg_norm]; (apply (wraps_range 32); lia) || (apply (wraps_range 64); lia)
    || (apply (wrapu_range 32); lia) || (apply (wrapu_range 64); lia).
Qed.

Lemma in_type_norm t v : in_type t v -> reg_norm t v = v.
Proof.
  destruct t; cbn [in_type reg_norm]; intros H; (apply (wraps_id 32); [lia | exact H])
    || (apply (wraps_id 64); [lia | exact H]) || (apply (wrapu_id 32), H) || (apply (wrapu_id 64), H).
Qed.

Lemma cells_typed (m m' : UWASM_MACHINE) :
  (forall t, REGISTER.cells (regs t m') = REGISTER.cells (regs t m)) -> typed_step m m'.
Proof. intros H Hm t k v. rewrite H. apply Hm. Qed.

Section Primitives.
Context {bd : Build}.

Lemma typed_reg_get t i : frames typed_step (reg_get t i).
Proof. intros m a m' [_ ->]%lift_Ok. reflexivity. Qed.

Lemma in_type_tnum t u v : tnum u = tnum t -> in_type t v -> in_type u v.
Proof. destruct t, u; cbn; auto; discriminate. Qed.

Lemma typed_reg_set t i v : frames typed_step (reg_set t i v).
Proof.
  intros m a m'. unfold reg_set, REGISTER.Set_. destruct (_ && _); [|discriminate].
  intros [= _ <-] Hm u k w. rewrite regs_set. destruct (decide (tnum u = tnum t)) as [E|]; [|apply Hm].
  cbn [REGISTER.cells]. intros [[_ <-]|[_ H]]%lookup_insert_Some.
  - eapply in_type_tnum; [exact E | apply reg_norm_in_type].
  - eapply in_type_tnum; [exact E | exact (Hm t k w H)].
Qed.

Lemma typed_get : frames typed_step (@get UWASM_MACHINE).
Proof. intros m a m' [= _ <-]. reflexivity. Qed.
Lemma typed_modify f : (forall m t, REGISTER.cells (regs t (f m)) = REGISTER.cells (regs t m)) ->
  frames typed_step (modify f).
Proof. intros H m a m' [= _ <-]. apply cells_typed. intros t. apply H. Qed.
Lemma typed_update_current f : frames typed_step (update_current f).
Proof. apply typed_modify. now intros m []. Qed.
Lemma typed_update_regs t f : (forall r, REGISTER.cells (f r) = REGISTER.cells r) -> frames typed_step (update_regs t f).
Proof. intros H. apply typed_modify. intros m u. rewrite regs_set. destruct (decide _) as [E|]; [|reflexivity].
  rewrite H. f_equal. destruct t, u; try discriminate E; reflexivity. Qed.
Lemma typed_Set_pc pc : frames typed_step (Set_pc pc).
Proof. apply typed_update_current. Qed.
Lemma typed_Inc_pc : frames typed_step Inc_pc.
Proof. apply typed_update_current. Qed.
Lemma typed_Get_label l : frames typed_step (Get_label l).
Proof. intros m a m' [_ ->]%lift_Ok. reflexivity. Qed.
Lemma typed_mem_load n o : frames typed_step (mem_load n o).
Proof. intros m a m' [_ ->]%lift_Ok. reflexivity. Qed.
Lemma typed_Get_sp : frames typed_step Get_sp.
Proof. intros m a m' [_ ->]%lift_Ok. reflexivity. Qed.
Lemma typed_Get_ofst_addr o b : frames typed_step (Get_ofst_addr o b).
Proof. intros m a m' [_ ->]%lift_Ok. reflexivity. Qed.
Lemma typed_global_load32 o : frames typed_step (global_load32 o).
Proof. intros m a m' [_ ->]%lift_Ok. reflexivity. Qed.
Lemma typed_Get_inst : frames typed_step Get_inst.
Proof. intros m a m' H. apply Get_inst_frame in H as ->. reflexivity. Qed.
Lemma typed_mem_store n o v : frames typed_step (mem_store n o v).
Proof.
  intros m a m'. unfold mem_store. destruct (_ ≫= _); [|discriminate]. intros [= _ <-]. now apply cells_typed; intros [].
Qed.
Lemma typed_global_store32 o v : frames typed_step (global_store32 o v).
Proof.
  intros m a m'. unfold global_store32. destruct (_ ≫= _) as [[g old]|]; [|discriminate].
  intros [= _ <-]. now apply cells_typed; intros [].
Qed.
Lemma typed_Put_inst e : frames typed_step (Put_inst e).
Proof.
  intros m a m'. unfold Put_inst. destruct (_pc _); [|discriminate]. intros [= _ <-]. now apply cells_typed; intros [].
Qed.
End Primitives.

#[export] Hint Resolve typed_reg_get typed_reg_set typed_get typed_Set_pc typed_Inc_pc typed_Get_label
  typed_mem_load typed_Get_sp typed_Get_ofst_addr typed_global_load32 typed_mem_store typed_global_store32
  typed_Put_inst typed_Get_inst typed_update_current : monad.

Section Handlers.
Context {bd : Build} {pf : Platform} {rt : Runtime} {fe : FloatEnv} {tt' : RuntimeTyped rt}.

Lemma typed_Get_base_addr i : frames typed_step (Get_base_addr i).
Proof. unfold Get_base_addr. frame_tac. Qed.

Lemma typed_Grow_memory n : frames typed_step (Grow_memory n).
Proof.
  intros s a s'. unfold Grow_memory. intros H. minv.
  destruct (_ || _); [minv; reflexivity|].
  destruct (mem_realloc _ _); minv; try reflexivity; now apply cells_typed; intros [].
Qed.

Lemma typed_push : frames typed_step push_context.
Proof.
  intros m a m'. unfold push_context. destruct (CONTEXT_STACK.Push _ _); [|discriminate].
  intros [= _ <-]. now apply cells_typed; intros [].
Qed.

Lemma typed_Allocate_stack f : frames typed_step (Allocate_stack f).
Proof.
  intros m a m'. unfold Allocate_stack. destruct (_ ≫= _); [|discriminate].
  destruct (0 <? _); [apply typed_update_current | intros [= _ <-]; reflexivity].
Qed.

Lemma typed_advance t n : frames typed_step (advance t n).
Proof.
  unfold advance. apply frames_bind; [exact _ | now apply typed_update_regs | intros _].
  apply typed_modify. now intros m [].
Qed.
Lemma typed_alloc t n : frames typed_step (alloc t n).
Proof. apply typed_update_regs. intros r. unfold REGISTER.Alloc. now destruct (_ <? _). Qed.
End Handlers.

#[export] Hint Resolve typed_Get_base_addr typed_Grow_memory typed_push typed_Allocate_stack typed_advance
  typed_alloc : monad.

(** [typed_tac] : as [frame_tac], with conditional parts and changes of the state. *)
Ltac typed_tac := repeat first
  [ apply frames_bind; [exact _ | | let a := fresh "a" in intros a]
  | progress cbv beta zeta
  | solve [eauto 3 with monad typeclass_instances]
  | apply frames_if
  | apply typed_update_regs; reflexivity
  | apply typed_modify; now intros m []
  | match goal with |- frames _ (when ?b _) => unfold when end
  | match goal with |- frames _ (match ?x with _ => _ end) => destruct x end ].

Section Execution.
Context {bd : Build} {pf : Platform} {rt : Runtime} {fe : FloatEnv} {tt' : RuntimeTyped rt}.

Lemma typed_Func_epilogue : frames typed_step Func_epilogue.
Proof. unfold Func_epilogue. typed_tac. Qed.

Lemma typed_Func_prologue callee : frames typed_step (Func_prologue callee).
Proof.
  unfold Func_prologue, advance_window, alloc_window, enter_code. pose proof typed_Func_epilogue.
  pose proof call_typed. typed_tac.
Qed.

Lemma typed_Init_env f : frames typed_step (Init_env f).
Proof. unfold Init_env, enter_code. typed_tac. Qed.

Lemma typed_exec_op op inst : frames typed_step (exec_op op inst).
Proof.
  pose proof typed_Func_epilogue. pose proof typed_Func_prologue.
  destruct op; cbv beta iota delta [exec_op continue_ break_]; frame_tac.
Qed.

Lemma typed_exec_one : frames typed_step exec_one.
Proof.
  unfold exec_one. apply frames_bind; [exact _ | apply typed_Get_inst | intros inst].
  apply frames_bind; [exact _ | | intros []; typed_tac].
  unfold switch. destruct (opcode_long _); [apply typed_exec_op | unfold break_; typed_tac].
Qed.

Lemma typed_steps n m m' : steps n m m' -> typed_step m m'.
Proof.
  induction 1 as [|n m m1 m2 Hs _ IH]; [reflexivity|]. etransitivity; [|exact IH].
  apply exec_one_step in Hs. exact (typed_exec_one _ _ _ Hs).
Qed.

Lemma typed_Init_memory mem_p mem_size : frames typed_step (Init_memory mem_p mem_size).
Proof. unfold Init_memory. typed_tac. Qed.

Lemma typed_new secs types codes : regs_typed (UWASM_MACHINE_new secs types codes).
Proof. intros [] k v; cbn; rewrite lookup_empty; discriminate. Qed.

Lemma reachable_typed secs func n m : reachable secs func n m -> regs_typed m.
Proof.
  intros [types codes mem_p mem_size ret m0 m1 _ Hm He Hs].
  apply (typed_steps _ _ _ Hs), (typed_Init_env _ _ _ _ He), (typed_Init_memory _ _ _ _ _ Hm), typed_new.
Qed.

(** What a register reads is of its type. *)
Lemma reg_get_typed t i m v m' : regs_typed m -> reg_get t i m = Ok (v, m') -> in_type t v.
Proof.
  intros Hm H. unfold reg_get in H. apply lift_Ok in H as [H _]. unfold REGISTER.Get in H.
  destruct (_ && _); [|discriminate]. destruct (REGISTER.cells (regs t m) !! _) as [w|] eqn:E.
  - injection H as <-. exact (Hm t _ _ E).
  - destruct (_ <? INITIAL_REG_SIZE); [|discriminate]. injection H as <-.
    destruct t; split; reflexivity || discriminate.
Qed.
End Execution.

(** The sample program's host. *)
#[export] Instance sample_runtime_typed : RuntimeTyped sample_runtime.
Proof. intros callee. apply frames_ret. exact _. Qed.
