(* ===== verification/Hosted.v ===== *)
(** * Functions of the runtime and the machine

  A function of the runtime reads and writes registers of the current window, the memory
  and what is recorded of the host; so it keeps what the machine asks of host functions:
  the frame of the caller ([RuntimeFrame]) and the types of registers ([RuntimeTyped]). *)

From S2P Require Import Prelude CInt BitField CFloat Isa Inst Expand Ubh Memory UModule Encoder Machine Handlers Exec Frames Windows Safety Typed LocalTable File SysCalls.
From Stdlib Require Import ZArith Lia.
Local Open Scope Z_scope.

Section Relation.
Context {bd : Build} {pf : Platform} {cb : ConvBuild} {host : Host}.
Context (string_args : list (list Z)) (func_infos : list (option FUNC_INFO)).

(** What holds from a state to the next when a register, the memory or the record of the
  host changes. *)
Context (R : UWASM_MACHINE -> UWASM_MACHINE -> Prop) {R_refl : Reflexive R} {R_trans : Transitive R}.
Context (R_set : forall t i v, frames R (reg_set t i v)) (R_mem : forall b m, R m (set_mem b m))
  (R_host : forall h m, R m (set_host h m)).

Lemma hosted_reg_get t i : frames R (reg_get t i).
Proof. intros m a m' [_ ->]%lift_Ok. reflexivity. Qed.
Lemma hosted_get : frames R (@get UWASM_MACHINE).
Proof. intros m a m' [= _ <-]. reflexivity. Qed.
Lemma hosted_mem_load n o : frames R (mem_load n o).
Proof. intros m a m' [_ ->]%lift_Ok. reflexivity. Qed.
Lemma hosted_Get_sp : frames R Get_sp.
Proof. intros m a m' [_ ->]%lift_Ok. reflexivity. Qed.
Lemma hosted_mem_get {A} (f : BLOCK -> outcome A) : frames R (mem_get f).
Proof. intros m a m' [_ ->]%lift_Ok. reflexivity. Qed.
Lemma hosted_mem_store n o v : frames R (mem_store n o v).
Proof. intros m a m'. unfold mem_store. destruct (_ ≫= _); [|discriminate]. intros [= _ <-]. apply R_mem. Qed.
Lemma hosted_on_mem {A} (f : BLOCK -> outcome (A * BLOCK)) : frames R (on_mem f).
Proof. intros m a m'. unfold on_mem. destruct (_ ≫= _) as [[x b]|]; [|discriminate]. intros [= _ <-]. apply R_mem. Qed.
Lemma hosted_set_host h : frames R (modify (set_host h)).
Proof. intros m a m' [= _ <-]. apply R_host. Qed.

#[local] Hint Resolve hosted_reg_get hosted_get hosted_mem_load hosted_Get_sp hosted_mem_get hosted_mem_store
  hosted_on_mem hosted_set_host R_set : monad.

Lemma hosted_ask {A} c (answer : list HOST_CALL -> A) : frames R (ask c answer).
Proof. unfold ask. frame_tac. Qed.
Lemma hosted_Get_base_addr i : frames R (Get_base_addr i).
Proof. unfold Get_base_addr. frame_tac. Qed.
#[local] Hint Resolve hosted_ask hosted_Get_base_addr : monad.

Lemma hosted_put_args args : forall p b d i n, frames R (put_args p b d i n args).
Proof. induction args as [|arg args IH]; intros; cbn [put_args]; frame_tac. Qed.
Lemma hosted_read_iovs n : forall iovs i, frames R (read_iovs iovs i n).
Proof. induction n as [|n IH]; intros; cbn [read_iovs]; frame_tac. Qed.
Lemma hosted_ffi_args params : forall ntypes idx, frames R (ffi_args params ntypes idx).
Proof. induction params as [|p params IH]; intros [|n ntypes] idx; cbn [ffi_args]; frame_tac. Qed.
Lemma hosted_set_cells t vals : forall i, frames R (set_cells t i vals).
Proof. induction vals as [|v vals IH]; intros i; cbn [set_cells]; frame_tac. Qed.
#[local] Hint Resolve hosted_put_args hosted_read_iovs hosted_ffi_args hosted_set_cells : monad.

Lemma hosted_sys_call s : frames R (sys_call string_args func_infos s).
Proof. destruct s; cbn [sys_call]; frame_tac. Qed.
Lemma hosted_Ffi_call i p c : frames R (Ffi_call i p c).
Proof. frame_tac. Qed.
#[local] Hint Resolve hosted_sys_call hosted_Ffi_call : monad.

Lemma hosted_call callee : frames R (Call_external string_args func_infos callee).
Proof. unfold Call_external. frame_tac. Qed.
End Relation.

Section Instances.
Context {bd : Build} {pf : Platform} {cb : ConvBuild} {host : Host}.
Context (string_args : list (list Z)) (func_infos : list (option FUNC_INFO)).

#[export] Instance uwasm_runtime_frame : RuntimeFrame (uwasm_runtime string_args func_infos).
Proof.
  intros callee. apply (hosted_call string_args func_infos env_frame).
  - apply frames_reg_set.
  - intros b m. constructor; try reflexivity; intros []; reflexivity.
  - intros h m. constructor; try reflexivity; intros []; reflexivity.
Qed.

#[export] Instance uwasm_runtime_typed : RuntimeTyped (uwasm_runtime string_args func_infos).
Proof.
  intros callee. apply (hosted_call string_args func_infos typed_step).
  - apply typed_reg_set.
  - intros b m. apply cells_typed. now intros [].
  - intros h m. apply cells_typed. now intros [].
Qed.
End Instances.

(** ** A call of a function outside the module *)
Section External.
Context {bd : Build} {rt : Runtime} {rf : RuntimeFrame rt}.

(** The function runs between [m1] and [m2], in the window past the caller's locals. *)
Record called_outside (callee : Z) (m m1 m2 m' : UWASM_MACHINE) : Prop := {
  co_run : Call_sys_call callee m1 = Ok (tt, m2);
  co_memory : _mem m1 = _mem m /\ _mem m' = _mem m2;
  co_args : forall t i v, reg_get t (shs (_types m) (_func_idx (_current m)) t + i) m = Ok (v, m) -> reg_get t i m1 = Ok (v, m1);
  co_results : forall t i v, reg_get t i m2 = Ok (v, m2) -> reg_get t (shs (_types m) (_func_idx (_current m)) t + i) m' = Ok (v, m');
  co_current : _current m' = ctx_set_pc (option_map (fun p => p + 1) (_pc (_current m))) (_current m);
  co_stack : stack_frames (_ctx_stack m') = stack_frames (_ctx_stack m);
  co_windows : windows_ok m';
  co_fp : forall t, REGISTER._fp (regs t m') = REGISTER._fp (regs t m);
}.

Lemma epilogue_mem m m' : Func_epilogue m = Ok (tt, m') -> _mem m' = _mem m.
Proof.
  intros H. unfold Func_epilogue in H.
  apply bind_Ok in H as (m0 & s0 & [= <- <-] & H).
  apply bind_Ok in H as (f & s1 & [Htop ->]%lift_Ok & H).
  apply bind_Ok in H as ([] & s2 & [= <-] & H).
  apply bind_Ok in H as (s & s3 & [Hpop ->]%lift_Ok & H).
  apply bind_Ok in H as ([] & s4 & [= <-] & H).
  apply bind_Ok in H as (v & s5 & [Hv ->]%lift_Ok & H).
  apply bind_Ok in H as ([] & s6 & [= <-] & H).
  destruct (65535 <? v); cbn [when] in H; [|now injection H as <-].
  apply bind_Ok in H as ([] & s7 & [= <-] & H). apply bind_Ok in H as ([] & s8 & [= <-] & H). now injection H as <-.
Qed.
Lemma advance_window_mem v : frames (fun m m' => _mem m' = _mem m) (advance_window v).
Proof.
  assert (Transitive (fun m m' : UWASM_MACHINE => _mem m' = _mem m)) by (intros ? ? ? ? ?; congruence).
  assert (Reflexive (fun m m' : UWASM_MACHINE => _mem m' = _mem m)) by (intros ?; reflexivity).
  assert (forall t n, frames (fun m m' => _mem m' = _mem m) (advance t n)) as Ha.
  { intros t n m a m' H1. unfold advance in H1. apply bind_Ok in H1 as ([] & m1 & [= <-] & [= _ <-]). now destruct t. }
  assert (forall b t n, frames (fun m m' => _mem m' = _mem m) (when b (advance t n))) as Hw.
  { intros [] t n; [apply Ha|]. cbn. intros m a m' [= _ <-]. reflexivity. }
  unfold advance_window. destruct (65535 <? v); [|apply Ha].
  repeat first [apply Hw | apply Ha | apply frames_bind; [assumption| |intros []]].
Qed.

Lemma external_call callee m m' : windows_ok m -> is_external m callee = true -> Func_prologue callee m = Ok (tt, m') ->
  exists m1 m2, called_outside callee m m1 m2 m'.
Proof.
  intros Hok He H. unfold Func_prologue, update_current in H.
  apply bind_Ok in H as (m0 & s0 & [= <- <-] & H).
  apply bind_Ok in H as ([] & m1 & H1 & H). unfold push_context in H1.
  destruct (CONTEXT_STACK.Push _ _) as [s|] eqn:Hpush; [|discriminate]. injection H1 as <-.
  apply bind_Ok in H as ([] & m2 & [= <-] & H).
  apply bind_Ok in H as (v & m2' & [Hv ->]%lift_Ok & H).
  apply bind_Ok in H as ([] & m3 & H3 & H).
  destruct (call_windows _ _ _ _ _ Hok Hpush Hv H3) as (Hpre & Hf & Ht & Hfr & Hsz & Hfp).
  pose proof (advance_window_mem _ _ _ _ H3) as Hmem.
  destruct (cells_win_ops callee v) as (_ & _ & Av & _ & _). pose proof (Av _ _ _ H3) as Hc3.
  apply bind_Ok in H as (func & m3' & [Ef ->]%lift_Ok & H).
  unfold is_external in He. change (Get_func (_sections m) (INT32 callee) = Ok func) in Ef. rewrite Ef in He. rewrite He in H.
  apply bind_Ok in H as ([] & m4 & H4 & H). apply bind_Ok in H as ([] & m5 & H5 & H).
  pose proof (call_frame callee _ _ _ H4) as Hfr4. pose proof (env_frame_win _ _ Hfr4) as Hwe.
  apply (windows_pre_frame _ m4) in Hpre as Hpre4; [|exact Hwe].
  destruct (Func_epilogue_windows _ _ Hpre4 H5) as [Hok5 (fs & E1 & E2)].
  rewrite (ef_stack _ _ Hfr4), Hfr in E1. injection E1 as E1 <-.
  destruct (epilogue_rest _ _ H5) as (Hc5 & Hs5 & Ht5). pose proof (epilogue_mem _ _ H5) as Hm5.
  assert (windows_ok m') as Hok'.
  { eapply windows_ok_frame; [|exact Hok5]. eapply frames_win_weaken; [apply frames_Inc_pc | exact H]. }
  injection H as <-.
  set (m' := set_current _ m5) in *. assert (forall t, regs t m' = regs t m5) as Hregs by (intros []; reflexivity).
  assert (forall t, REGISTER._fp (regs t m5) = REGISTER._fp (regs t m)) as Hfp5.
  { intros t. now rewrite (w_cur _ (w_pre _ Hok5)), <- E1, (w_cur _ (w_pre _ Hok)). }
  exists m3, m4. split.
  - exact H4.
  - split; [exact Hmem | exact Hm5].
  - intros t i w. apply callee_register; [apply Hfp | | rewrite <- Hsz; lia]. intros u. rewrite Hc3. now destruct u.
  - intros t i w Hw.
    assert (_types m5 = _types m) as Ety by now rewrite Ht5, (ef_types _ _ Hfr4), Ht.
    pose proof (caller_register t i w m4 m5) as Hcr. rewrite Ety, <- E1 in Hcr.
    assert (reg_get t (shs (_types m) (_func_idx (_current m)) t + i) m5 = Ok (w, m5)) as Hg.
    { apply Hcr; [|exact Hc5 | apply Hs5 | exact Hw]. now rewrite (ef_fp _ _ Hfr4), Hfp, Hfp5. }
    apply lift_Ok in Hg as [Hg _]. unfold reg_get. rewrite Hregs, Hg. reflexivity.
  - cbn. now rewrite <- E1.
  - cbn. exact E2.
  - exact Hok'.
  - intros t. now rewrite Hregs.
Qed.
End External.
