(* ===== verification/Imports.v ===== *)
(** * Imports and the functions of the runtime

  [U_RUNTIME::Init_cache] enters for every native import the function of the runtime with
  its name; a call of the import runs that function. *)

From S2P Require Import Prelude CInt BitField Isa Ubh Memory UModule Encoder Machine LocalTable File SysCalls.
From Stdlib Require Import ZArith Lia.
Local Open Scope Z_scope.

Section Imports.
Context {bd : Build} {pf : Platform} {cb : ConvBuild} {host : Host}.
Variable u_module : MODULE.
Variable types : TYPE_CACHE.

(** Import [i] is of function [f], whose name is that of a function of the runtime. *)
Record import_named (i f : Z) (s : SYSCALL) : Prop := {
  in_entry : exists ent, nthZ (_imp_nat_sec u_module) i = Ok ent /\ UBH_IMP_NAT.Get_func_idx ent = f;
  in_func : exists func name, Get_func (_secs u_module) (INT32 f) = Ok func /\
    Get_module_name u_module (INT32 (UBH_FUNC.Get_name_idx func)) = Ok name /\ find_name name = Some s;
}.

Lemma cache_import_named i f s infos : import_named i f s ->
  cache_import u_module types i infos = Set_func_info f (Init_syscall s (FUNC_INFO_new f)) infos.
Proof.
  intros [(ent & He & Hf) (func & name & Hg & Hn & Hs)]. unfold cache_import. rewrite He, bind_ok. cbv zeta. rewrite Hf.
  now rewrite Hg, bind_ok, Hn, bind_ok, Hs.
Qed.

Definition syscall_info (f : Z) (s : SYSCALL) : FUNC_INFO := mkINFO f 0 (FUNC_IS_SYSCALL s).

(** The imports [is_], of the functions [fs]. *)
Lemma cache_imports_named : forall is_ fs ss infos, Forall2 (fun i p => import_named i p.1 p.2) is_ (zip fs ss) ->
  length ss = length fs -> Forall (fun f => 0 <= f < Z.of_nat (length infos)) fs -> NoDup fs ->
  exists infos', cache_imports u_module types is_ infos = Ok infos' /\ length infos' = length infos /\
    (forall k f s, fs !! k = Some f -> ss !! k = Some s -> nthZ infos' f = Ok (Some (syscall_info f s))) /\
    forall f, f ∉ fs -> nthZ infos' f = nthZ infos f.
Proof.
  induction is_ as [|i is_ IH]; intros fs ss infos H Hl Hr Hd.
  - destruct fs, ss; try discriminate; [|inversion H]. exists infos. repeat (split; [reflexivity|]). split; [|auto]. intros k f s Hk. now rewrite lookup_nil in Hk.
  - destruct fs as [|f fs], ss as [|s ss]; try discriminate; [inversion H|]. cbn [zip zip_with] in H.
    pose proof (Forall2_cons_1 _ _ _ _ _ H) as [Hi H']. cbn [fst snd] in Hi.
    apply Forall_cons in Hr as [Hf Hr]. apply NoDup_cons in Hd as [Hn Hd].
    cbn [cache_imports]. rewrite (cache_import_named i f s infos Hi). unfold Set_func_info.
    rewrite (proj2 (Z.ltb_lt _ _)) by apply Hf. cbn [mbind outcome_bind mret outcome_ret].
    destruct (IH fs ss (<[Z.to_nat f := Some (syscall_info f s)]> infos)) as (infos' & H1 & H2 & H3 & H4); [exact H' | now injection Hl | now rewrite length_insert | exact Hd|].
    exists infos'. split; [exact H1|]. split; [now rewrite H2, length_insert|]. split.
    + intros [|k] f' s' Hk Hs; cbn in Hk, Hs; [|now apply (H3 k)]. injection Hk as <-. injection Hs as <-. rewrite (H4 f Hn).
      apply nthZ_Ok. split; [lia|]. apply list_lookup_insert_eq. lia.
    + intros f' Hf'. apply not_elem_of_cons in Hf' as [Hne Hf']. rewrite (H4 f' Hf'). unfold nthZ.
      destruct (Z.ltb_spec f' 0); [reflexivity|]. now rewrite list_lookup_insert_ne by lia.
Qed.

Lemma Init_cache_run is_num n fs ss : Contains_section (_secs u_module) S_IMP_NAT = true ->
  sec_elem_num (_secs u_module) S_DATA = Ok n -> sec_elem_num (_secs u_module) S_IMP_NAT = Ok is_num ->
  Forall2 (fun i p => import_named i p.1 p.2) (seqZ 0 is_num) (zip fs ss) -> length ss = length fs ->
  Forall (fun f => 0 <= f < n) fs -> NoDup fs ->
  exists infos, Init_cache u_module types = Ok infos /\ Z.of_nat (length infos) = Z.max 0 n /\
    (forall k f s, fs !! k = Some f -> ss !! k = Some s -> nthZ infos f = Ok (Some (syscall_info f s))) /\
    forall f, f ∉ fs -> 0 <= f < n -> nthZ infos f = Ok None.
Proof.
  intros Hc Hn Hi H Hl Hr Hd. unfold Init_cache. rewrite Hc. cbn [negb]. rewrite Hn, bind_ok, Hi, bind_ok.
  destruct (cache_imports_named (seqZ 0 is_num) fs ss (replicate (Z.to_nat n) None) H Hl) as (infos & H1 & H2 & H3 & H4);
    [|exact Hd|].
  - rewrite length_replicate. eapply Forall_impl; [exact Hr|]. intros f Hf. cbn in *. lia.
  - rewrite length_replicate in H2. exists infos. split; [exact H1|]. split; [lia|]. split; [exact H3|].
    intros f Hf Hlt. rewrite (H4 f Hf). apply nthZ_Ok. split; [lia|]. apply lookup_replicate. split; [reflexivity | lia].
Qed.

(** A call runs the function that is entered. *)
Lemma Call_external_run args infos f s m func : nthZ infos f = Ok (Some (syscall_info f s)) ->
  Get_func (_sections m) (INT32 f) = Ok func -> Call_external args infos f m = sys_call args infos s m.
Proof.
  intros Hi Hf. unfold Call_external. rewrite (bind_run get _ m m m eq_refl).
  rewrite (bind_run (lift (Get_func _ _)) _ m m func) by (apply lift_Ok; auto).
  assert (Get_func_info infos f = Ok (Some (syscall_info f s))) as Hg.
  { unfold Get_func_info. apply nthZ_Ok in Hi as Hi'. destruct Hi' as [H0 Hk%lookup_lt_Some].
    rewrite (proj2 (Z.leb_gt _ _)) by lia. now rewrite andb_false_r. }
  rewrite (bind_run (lift _) _ m m (Some (syscall_info f s))) by (apply lift_Ok; auto). reflexivity.
Qed.

Lemma Call_external_inv args infos f s m r : nthZ infos f = Ok (Some (syscall_info f s)) ->
  Call_external args infos f m = Ok r -> sys_call args infos s m = Ok r.
Proof.
  intros Hi H. pose proof H as H0. unfold Call_external in H0. apply bind_Ok in H0 as (m0 & m0' & [= <- <-] & H0).
  apply bind_Ok in H0 as (func & m1 & [Hf ->]%lift_Ok & _). now rewrite <- (Call_external_run args infos f s m func Hi Hf).
Qed.

(** Without a data section, or with one of fewer bytes than the module has functions. *)
Lemma Init_cache_no_data : Contains_section (_secs u_module) S_IMP_NAT = true ->
  Contains_section (_secs u_module) S_DATA = false -> is_ok (Init_cache u_module types) = false.
Proof.
  intros Hc Hd. unfold Init_cache. rewrite Hc. cbn [negb]. unfold sec_elem_num, Get_shdr_by_sec_id, Get_shdr_idx. rewrite Hd.
  destruct (Is_True false) as [|]; [|reflexivity]. cbn [mbind outcome_bind].
  destruct (find (fun p => bool_decide (p.1 = S_DATA)) _) as [p|] eqn:Ef; [|reflexivity]. apply List.find_some in Ef as [Hin%in_rev Hp].
  unfold Contains_section in Hd. rewrite (proj2 (existsb_exists _ _)) in Hd by eauto. discriminate.
Qed.

Lemma Init_cache_small n is_num f s : Contains_section (_secs u_module) S_IMP_NAT = true ->
  sec_elem_num (_secs u_module) S_DATA = Ok n -> sec_elem_num (_secs u_module) S_IMP_NAT = Ok is_num -> 0 < is_num ->
  import_named 0 f s -> 0 <= n <= f -> Init_cache u_module types = Err CodeFault.
Proof.
  intros Hc Hn Hi Hp Him Hf. unfold Init_cache. rewrite Hc. cbn [negb]. rewrite Hn, bind_ok, Hi, bind_ok.
  rewrite seqZ_cons by lia. cbn [cache_imports]. rewrite (cache_import_named 0 f s _ Him). unfold Set_func_info.
  rewrite length_replicate. now rewrite (proj2 (Z.ltb_ge _ _)) by lia.
Qed.
End Imports.
