(* ===== verification/Arguments.v ===== *)
(** * The arguments of the program

  [args_sizes_get] and [args_get] of [src/runtime/u_runtime.cxx]: what they leave in the
  memory of the program.  A region of the memory holds the table of pointers, another
  the strings. *)

From S2P Require Import Prelude CInt Isa Memory UModule Machine Encoder LocalTable File SysCalls.
From Stdlib Require Import ZArith Lia.
Local Open Scope Z_scope.

(** ** Strings in a block *)

(** The bytes of a block that two accesses share are the same. *)
Definition same_on (b b' : BLOCK) (i n : Z) : Prop := forall j, i <= j < i + n -> byte_at b' j = byte_at b j.
Definition same_shape (b b' : BLOCK) : Prop := b_size b' = b_size b /\ b_live b' = b_live b.

#[export] Instance same_shape_refl : Reflexive same_shape.
Proof. split; reflexivity. Qed.
#[export] Instance same_shape_trans : Transitive same_shape.
Proof. intros a b c [H1 H2] [H3 H4]. split; congruence. Qed.

Lemma in_block_shape b b' i n : same_shape b b' -> in_block b' i n = in_block b i n.
Proof. intros [H1 H2]. unfold in_block. now rewrite H1, H2. Qed.
Lemma load_same b b' i n : same_shape b b' -> same_on b b' i (Z.of_nat n) -> load n i b' = load n i b.
Proof.
  intros Hs H. unfold load. rewrite (in_block_shape b b' i n Hs). destruct (in_block b i n); [|reflexivity].
  f_equal. now apply le_read_ext.
Qed.
Lemma load_byte b i : b_live b = true -> 0 <= i < b_size b -> load 1 i b = Ok (byte_at b i).
Proof.
  intros Hl Hi. unfold load, in_block. rewrite Hl. destruct (Z.leb_spec 0 i); [|lia]. destruct (Z.leb_spec (i + Z.of_nat 1) (b_size b)); [|lia].
  cbn [andb le_read]. f_equal. lia.
Qed.

(** [l] followed by a zero is at [i]. *)
Definition string_at (b : BLOCK) (i : Z) (l : list Z) : Prop :=
  (forall k c, l !! k = Some c -> byte_at b (i + Z.of_nat k) = c) /\ byte_at b (i + Z.of_nat (length l)) = 0.

Lemma chars_at_run b : b_live b = true -> forall l fuel i, string_at b i l -> Forall (fun c => c <> 0) l ->
  0 <= i -> i + Z.of_nat (length l) < b_size b -> (length l < fuel)%nat -> chars_at fuel b i = Ok l.
Proof.
  intros Hl. induction l as [|c l IH]; intros [|fuel] i [H1 H2] Hz Hi Hr Hf; cbn [length] in *; try lia; cbn [chars_at].
  - rewrite load_byte by (assumption || lia). replace (i + Z.of_nat 0) with i in H2 by lia. now rewrite H2.
  - rewrite load_byte by (assumption || lia). pose proof (H1 O c eq_refl) as Hc. replace (i + Z.of_nat 0) with i in Hc by lia.
    rewrite Hc, bind_ok. apply Forall_cons in Hz as [Hc0 Hz]. destruct (Z.eqb_spec c 0); [contradiction|].
    rewrite (IH fuel (i + 1)); [reflexivity| |exact Hz|lia..]. split.
    + intros k d Hk. specialize (H1 (S k) d Hk). now replace (i + 1 + Z.of_nat k) with (i + Z.of_nat (S k)) by lia.
    + now replace (i + 1 + Z.of_nat (length l)) with (i + Z.of_nat (S (length l))) by lia.
Qed.
Lemma cstr_at_run b i l : b_live b = true -> string_at b i l -> Forall (fun c => c <> 0) l ->
  0 <= i -> i + Z.of_nat (length l) < b_size b -> cstr_at b i = Ok l.
Proof. intros. unfold cstr_at. apply chars_at_run; try assumption. lia. Qed.
Lemma string_at_same b b' i l : same_on b b' i (Z.of_nat (length l) + 1) -> string_at b i l -> string_at b' i l.
Proof.
  intros H [H1 H2]. split.
  - intros k c Hk. rewrite H; [now apply H1|]. apply lookup_lt_Some in Hk. lia.
  - rewrite H; [exact H2 | lia].
Qed.

(** ** Steps on the memory *)
Section Steps.
Context {bd : Build}.

Lemma mem_store_run n i v b m : _mem m = Some b -> b_live b = true -> 0 <= i -> i + Z.of_nat n <= b_size b ->
  mem_store n i v m = Ok (tt, set_mem (le_write i v n b) m).
Proof.
  intros Hm Hl Hi Hn. unfold mem_store. rewrite Hm. cbn [of_option]. rewrite bind_ok. unfold store, in_block. rewrite Hl.
  destruct (Z.leb_spec 0 i); [|lia]. now destruct (Z.leb_spec (i + Z.of_nat n) (b_size b)); [|lia].
Qed.
Lemma copied_string i l b m : _mem m = Some b -> b_live b = true -> 0 <= i -> i + Z.of_nat (length l) <= b_size b ->
  on_mem (fun b => b ← copy_in i l b; mret (tt, b)) m = Ok (tt, set_mem (put_bytes i l b) m).
Proof.
  intros Hm Hl Hi Hn. unfold on_mem. rewrite Hm. cbn [of_option]. rewrite bind_ok. unfold copy_in, in_block. rewrite Hl.
  destruct (Z.leb_spec 0 i); [|lia]. destruct (Z.leb_spec (i + Z.of_nat (length l)) (b_size b)); [|lia]. now destruct l.
Qed.
End Steps.

Lemma set_mem_twice b b' m : set_mem b (set_mem b' m) = set_mem b m.
Proof. reflexivity. Qed.

(** ** The layout of the arguments *)

(** The bytes that the first strings take, with their zeros. *)
Fixpoint args_bytes (args : list (list Z)) : Z :=
  match args with [] => 0 | a :: args => Z.of_nat (length a) + 1 + args_bytes args end.

Lemma args_bytes_nonneg args : 0 <= args_bytes args.
Proof. induction args as [|a args IH]; cbn [args_bytes]; lia. Qed.
Lemma args_bytes_take args k a : args !! k = Some a ->
  args_bytes (take k args) + Z.of_nat (length a) + 1 <= args_bytes args.
Proof.
  revert k. induction args as [|c args IH]; intros [|k] H; try discriminate; cbn [take args_bytes].
  - injection H as ->. pose proof (args_bytes_nonneg args). lia.
  - specialize (IH k H). lia.
Qed.
Lemma total_len_run args : forall n, 0 <= n -> n + args_bytes args < 2 ^ 32 ->
  fold_left (fun n arg => UINT32 (n + (Z.of_nat (length arg) + 1))) args n = n + args_bytes args.
Proof.
  induction args as [|a args IH]; intros n Hn H; cbn [fold_left args_bytes] in *; [lia|].
  pose proof (args_bytes_nonneg args). unfold UINT32. rewrite wrapu_id by (split; lia).
  rewrite IH by lia. lia.
Qed.

(** The table at [p] holds a pointer to each string; they are at [q], one after the other. *)
Definition args_stored (args : list (list Z)) (p q : Z) (b : BLOCK) : Prop :=
  forall k a, args !! k = Some a ->
    load 4 (p + 4 * Z.of_nat k) b = Ok (q + args_bytes (take k args)) /\ string_at b (q + args_bytes (take k args)) a.

(** Room for both, in a block whose offsets are pointers, the table before the strings or after. *)
Record args_room (args : list (list Z)) (p q : Z) (b : BLOCK) : Prop := {
  ar_live : b_live b = true;
  ar_table : 0 <= p /\ p + 4 * Z.of_nat (length args) <= b_size b;
  ar_strings : 0 <= q /\ q + args_bytes args <= b_size b;
  ar_apart : p + 4 * Z.of_nat (length args) <= q \/ q + args_bytes args <= p;
  ar_size : b_size b < 2 ^ 32;
}.

Lemma args_room_shape args p q b b' : same_shape b b' -> args_room args p q b -> args_room args p q b'.
Proof. intros [H1 H2] [A1 A2 A3 A4 A5]. split; rewrite ?H1, ?H2; assumption. Qed.
Lemma args_room_tail a args p q b : args_room (a :: args) p q b ->
  args_room args (p + 4) (q + (Z.of_nat (length a) + 1)) b.
Proof.
  intros [A1 A2 A3 A4 A5]. cbn [length args_bytes] in *. pose proof (args_bytes_nonneg args).
  split; try assumption; lia.
Qed.

(** What writing the arguments leaves alone. *)
Definition args_elsewhere (args : list (list Z)) (p q : Z) (b b' : BLOCK) : Prop :=
  forall j, (j < p \/ p + 4 * Z.of_nat (length args) <= j) -> (j < q \/ q + args_bytes args <= j) -> byte_at b' j = byte_at b j.

(** The three writes of one argument. *)
Definition put_arg (a : list Z) (p q : Z) (b : BLOCK) : BLOCK :=
  le_write (q + Z.of_nat (length a)) 0 1 (put_bytes q a (le_write p q 4 b)).

Lemma put_arg_shape a p q b : same_shape b (put_arg a p q b).
Proof.
  unfold same_shape, put_arg. destruct (le_write_frame (q + Z.of_nat (length a)) 0 1 (put_bytes q a (le_write p q 4 b))) as (-> & -> & _).
  destruct (put_bytes_frame q a (le_write p q 4 b)) as (-> & -> & _). destruct (le_write_frame p q 4 b) as (-> & -> & _). split; reflexivity.
Qed.
Lemma put_arg_other a p q b j : (j < p \/ p + 4 <= j) -> (j < q \/ q + Z.of_nat (length a) + 1 <= j) ->
  byte_at (put_arg a p q b) j = byte_at b j.
Proof.
  intros H1 H2. unfold put_arg. rewrite byte_at_write_other by lia. rewrite byte_at_put_bytes.
  destruct (Z.leb_spec q j), (Z.ltb_spec j (q + Z.of_nat (length a))); cbn [andb]; try lia; apply byte_at_write_other; lia.
Qed.
Lemma put_arg_string a p q b : Forall (in_u 8) a -> string_at (put_arg a p q b) q a.
Proof.
  intros Ha. unfold put_arg. split.
  - intros k c Hk. pose proof (lookup_lt_Some _ _ _ Hk). rewrite byte_at_write_other by lia. rewrite byte_at_put_bytes.
    destruct (Z.leb_spec q (q + Z.of_nat k)), (Z.ltb_spec (q + Z.of_nat k) (q + Z.of_nat (length a))); cbn [andb]; try lia.
    replace (Z.to_nat (q + Z.of_nat k - q)) with k by lia. erewrite nth_lookup_Some by exact Hk.
    apply wrapu_id. now apply (Forall_lookup_1 _ _ _ _ Ha Hk).
  - cbn [le_write]. now rewrite byte_at_set_same.
Qed.
Lemma put_arg_pointer a p q b : b_live b = true -> 0 <= p -> p + 4 <= b_size b -> 0 <= q < 2 ^ 32 ->
  (p + 4 <= q \/ q + Z.of_nat (length a) + 1 <= p) -> load 4 p (put_arg a p q b) = Ok q.
Proof.
  intros Hl Hp Hb Hq Ha. unfold load. rewrite (in_block_shape b _ p 4 (put_arg_shape a p q b)). unfold in_block. rewrite Hl.
  destruct (Z.leb_spec 0 p); [|lia]. destruct (Z.leb_spec (p + Z.of_nat 4) (b_size b)); [|lia]. cbn [andb]. f_equal.
  transitivity (le_read (le_write p q 4 b) p 4); [|rewrite le_read_write_same; apply wrapu_id; split; lia].
  apply le_read_ext. intros j Hj. unfold put_arg. rewrite byte_at_write_other by lia. rewrite byte_at_put_bytes.
  destruct (Z.leb_spec q j), (Z.ltb_spec j (q + Z.of_nat (length a))); cbn [andb]; try lia; reflexivity.
Qed.

(** ** The loop, and the two functions *)
Section Run.
Context {bd : Build} {cb : ConvBuild}.

Lemma put_args_run args : Forall (Forall (in_u 8)) args -> forall P Q i n b m, 0 <= n -> 0 <= Q ->
  _mem m = Some b -> args_room args (P + 4 * i) (Q + n) b ->
  exists b', put_args P Q Q i n args m = Ok (tt, set_mem b' m) /\ same_shape b b' /\
    args_stored args (P + 4 * i) (Q + n) b' /\ args_elsewhere args (P + 4 * i) (Q + n) b b'.
Proof.
  induction args as [|a args IH]; intros Ha P Q i n b m Hn HQ Hm Hr.
  - exists b. split; [|split; [reflexivity|split; [intros k a; now rewrite lookup_nil | intros j _ _; reflexivity]]].
    destruct m; cbn in Hm |- *. unfold set_mem, set_memory. cbn. now rewrite Hm.
  - apply Forall_cons in Ha as [Ha Has]. pose proof (args_room_tail _ _ _ _ _ Hr) as Hr'. destruct Hr as [A1 A2 A3 A4 A5].
    cbn [length args_bytes] in *. pose proof (args_bytes_nonneg args) as Hnn.
    cbn [put_args]. cbv zeta. unfold UINT32. rewrite (wrapu_id 32 (Q + n)) by (split; lia).
    rewrite (bind_run _ _ _ _ _ (mem_store_run 4 (P + 4 * i) (Q + n) b m Hm A1 ltac:(lia) ltac:(lia))).
    destruct (le_write_frame (P + 4 * i) (Q + n) 4 b) as (F1 & F2 & _).
    rewrite (bind_run _ _ _ _ _ (copied_string (Q + n) a (le_write (P + 4 * i) (Q + n) 4 b) (set_mem _ m) eq_refl
      ltac:(now rewrite F2) ltac:(lia) ltac:(rewrite F1; lia))).
    destruct (put_bytes_frame (Q + n) a (le_write (P + 4 * i) (Q + n) 4 b)) as (G1 & G2 & _).
    rewrite (bind_run _ _ _ _ _ (mem_store_run 1 (Q + n + Z.of_nat (length a)) 0 (put_bytes (Q + n) a (le_write (P + 4 * i) (Q + n) 4 b)) (set_mem _ _) eq_refl
      ltac:(now rewrite G2, F2) ltac:(lia) ltac:(rewrite G1, F1; lia))).
    fold (put_arg a (P + 4 * i) (Q + n) b). rewrite !set_mem_twice. rewrite wrapu_id by (split; lia).
    pose proof (put_arg_shape a (P + 4 * i) (Q + n) b) as Hs.
    destruct (IH Has P Q (i + 1) (n + (Z.of_nat (length a) + 1)) (put_arg a (P + 4 * i) (Q + n) b) (set_mem (put_arg a (P + 4 * i) (Q + n) b) m))
      as (b' & H1 & H2 & H3 & H4); [lia | exact HQ | reflexivity| |].
    { replace (P + 4 * (i + 1)) with (P + 4 * i + 4) by lia. replace (Q + (n + (Z.of_nat (length a) + 1))) with (Q + n + (Z.of_nat (length a) + 1)) by lia.
      eapply args_room_shape; [exact Hs | exact Hr']. }
    rewrite set_mem_twice in H1. exists b'. split; [exact H1|]. split; [now transitivity (put_arg a (P + 4 * i) (Q + n) b)|]. split.
    + intros [|k] c Hk; cbn [lookup list_lookup take args_bytes] in *.
      * injection Hk as <-. rewrite !Z.mul_0_r, !Z.add_0_r. split.
        -- rewrite (load_same (put_arg a (P + 4 * i) (Q + n) b) b' (P + 4 * i) 4 H2); [apply put_arg_pointer; (assumption || lia)|].
           intros j Hj. apply H4; lia.
        -- apply (string_at_same (put_arg a (P + 4 * i) (Q + n) b)); [|now apply put_arg_string]. intros j Hj. apply H4; lia.
      * destruct (H3 k c Hk) as [E1 E2]. split.
        -- replace (P + 4 * i + 4 * Z.of_nat (S k)) with (P + 4 * (i + 1) + 4 * Z.of_nat k) by lia. rewrite E1. f_equal. lia.
        -- now replace (Q + n + (Z.of_nat (length a) + 1 + args_bytes (take k args))) with (Q + (n + (Z.of_nat (length a) + 1)) + args_bytes (take k args)) by lia.
    + intros j Hj1 Hj2. cbn [length args_bytes] in *. rewrite H4 by lia. apply put_arg_other; lia.
Qed.

Lemma args_get_run args p q b m : Forall (Forall (in_u 8)) args ->
  Get_base_addr (RUNTIME_Z_BASE_REG 0) m = Ok (p, m) -> Get_base_addr (RUNTIME_Z_BASE_REG 1) m = Ok (q, m) ->
  reg_get I32 (RUNTIME_Z_BASE_REG 1) m = Ok (q, m) -> _mem m = Some b -> args_room args p q b ->
  exists b', sys_args_get args m = Ok (tt, set_mem b' m) /\ same_shape b b' /\ args_stored args p q b' /\ args_elsewhere args p q b b'.
Proof.
  intros Ha Hp Hq Hr Hm Hroom. unfold sys_args_get. rewrite (bind_run _ _ _ _ _ Hp), (bind_run _ _ _ _ _ Hr), (bind_run _ _ _ _ _ Hq).
  pose proof Hroom as [_ _ A3 _ A5]. pose proof (args_bytes_nonneg args). unfold UINT32. rewrite wrapu_id by (split; lia).
  destruct (put_args_run args Ha p q 0 0 b m) as (b' & H1 & H2 & H3 & H4); [lia..|exact Hm | now rewrite Z.mul_0_r, !Z.add_0_r |].
  rewrite Z.mul_0_r, !Z.add_0_r in H3, H4. now exists b'.
Qed.

Lemma args_sizes_get_run args p q b m :
  Get_base_addr (RUNTIME_Z_BASE_REG 0) m = Ok (p, m) -> Get_base_addr (RUNTIME_Z_BASE_REG 1) m = Ok (q, m) ->
  _mem m = Some b -> b_live b = true -> 0 <= p -> p + 4 <= b_size b -> 0 <= q -> q + 4 <= b_size b -> (p + 4 <= q \/ q + 4 <= p) ->
  Z.of_nat (length args) < 2 ^ 32 -> args_bytes args < 2 ^ 32 ->
  exists b', sys_args_sizes_get args m = Ok (tt, set_mem b' m) /\ same_shape b b' /\
    load 4 p b' = Ok (Z.of_nat (length args)) /\ load 4 q b' = Ok (args_bytes args).
Proof.
  intros Hp Hq Hm Hl P0 P1 Q0 Q1 Hd Hn Hb. unfold sys_args_sizes_get.
  rewrite (bind_run _ _ _ _ _ Hp), (bind_run _ _ _ _ _ Hq). cbv zeta. rewrite total_len_run by lia.
  unfold UINT32. rewrite wrapu_id by (split; lia).
  rewrite (bind_run _ _ _ _ _ (mem_store_run 4 p _ b m Hm Hl P0 P1)).
  destruct (le_write_frame p (Z.of_nat (length args)) 4 b) as (F1 & F2 & _).
  rewrite (mem_store_run 4 q _ (le_write p (Z.of_nat (length args)) 4 b) (set_mem _ m) eq_refl) by (rewrite ?F1, ?F2; assumption).
  rewrite set_mem_twice. set (b1 := le_write p _ 4 b) in *. exists (le_write q (0 + args_bytes args) 4 b1). split; [reflexivity|].
  destruct (le_write_frame q (0 + args_bytes args) 4 b1) as (G1 & G2 & _). split; [split; congruence|].
  assert (forall i, 0 <= i -> i + 4 <= b_size b -> in_block (le_write q (0 + args_bytes args) 4 b1) i 4 = true) as Hin.
  { intros i H0 H1. unfold in_block. rewrite G1, G2, F1, F2, Hl. cbn [andb]. destruct (Z.leb_spec 0 i); [|lia]. now destruct (Z.leb_spec (i + Z.of_nat 4) (b_size b)); [|lia]. }
  unfold load. rewrite !Hin by assumption. pose proof (args_bytes_nonneg args). split; f_equal.
  - rewrite le_read_write_other by lia. unfold b1. rewrite le_read_write_same. apply wrapu_id. split; lia.
  - rewrite le_read_write_same. apply wrapu_id. split; lia.
Qed.
End Run.
