(* ===== verification/HostCalls.v ===== *)
(** * Calls outside the module: theorems

  What a call of an import of the runtime does, from the names in the module to the
  function that runs and back; what some of the functions leave in the memory.  The
  instances are in the run of a module that imports [one] and in small memories. *)

From S2P Require Import Prelude CInt BitField CFloat Isa Inst Expand Ubh Memory UModule StrTab TypeEncoder Encoder Machine Handlers Exec Frames Windows Safety Loading LocalTable File Sample Reachable SysCalls Typed Hosted Imports Arguments.
From stdpp Require Import strings.
From Stdlib Require Import ZArith Lia.
Local Open Scope Z_scope.

Section Theorems.
Context {bd : Build} {pf : Platform} {cb : ConvBuild} {host : Host} {fe : FloatEnv}.

Lemma heap_malloc_run pbase size m b p b' : _mem m = Some b -> mspace_malloc pbase (UINT64 size) b = (Some p, b') ->
  0 <= p - pbase < _hea_size m /\ _hea_size m < 2 ^ 31 -> UVM_heap_malloc pbase size m = Ok (p - pbase, set_mem b' m).
Proof.
  intros Hm Hp [H1 H2]. change (2 ^ 31) with 2147483648 in *. unfold UVM_heap_malloc. rewrite (bind_run get _ m m m eq_refl).
  assert (on_mem (fun b => Ok (mspace_malloc pbase (UINT64 size) b)) m = Ok (Some p, set_mem b' m)) as Ho.
  { unfold on_mem. rewrite Hm. cbn [of_option]. now rewrite bind_ok, Hp. }
  rewrite (bind_run _ _ _ _ _ Ho). rewrite (bind_run (lift _) _ _ _ p) by (apply lift_Ok; auto).
  unfold UINT64, INT32. rewrite wrapu_id, wraps_id by (lia || (split; cbn; lia)). now rewrite (proj2 (Z.ltb_lt _ _)) by lia.
Qed.

(** C25: Imports are bound by name.  When the imports of a module have names of functions
  of the runtime, and fewer of them than the data section has bytes, [Init_cache] enters
  for each its function; then in every state that a run of the module reaches a call of
  the import runs just that function, with the arguments in its first registers, and
  leaves the caller its results, its windows, its context and the next instruction. *)
Theorem import_called u_module types num n fs ss : Contains_section (_secs u_module) S_IMP_NAT = true ->
  sec_elem_num (_secs u_module) S_DATA = Ok n -> sec_elem_num (_secs u_module) S_IMP_NAT = Ok num ->
  Forall2 (fun i p => import_named u_module i p.1 p.2) (seqZ 0 num) (zip fs ss) -> length ss = length fs ->
  Forall (fun f => 0 <= f < n) fs -> NoDup fs ->
  exists infos, Init_cache u_module types = Ok infos /\
  forall args func steps_ m m' k f s, reachable (rt := uwasm_runtime args infos) (_secs u_module) func steps_ m ->
    fs !! k = Some f -> ss !! k = Some s -> is_external m f = true ->
    Func_prologue (rt := uwasm_runtime args infos) f m = Ok (tt, m') ->
    exists m1 m2, sys_call args infos s m1 = Ok (tt, m2) /\
      called_outside (rt := uwasm_runtime args infos) f m m1 m2 m'.
Proof.
  intros Hc Hn Hi H Hl Hr Hd.
  destruct (Init_cache_run u_module types num n fs ss Hc Hn Hi H Hl Hr Hd) as (infos & H1 & _ & H3 & _).
  exists infos. split; [exact H1|]. intros args func nst m m' k f s Hm Hf Hs He Hp. apply reachable_windows in Hm.
  destruct (external_call f m m' Hm He Hp) as (m1 & m2 & Hco). exists m1, m2. split; [|exact Hco].
  eapply Call_external_inv; [exact (H3 k f s Hf Hs) | exact (co_run _ _ _ _ _ Hco)].
Qed.

(** The table of functions has as many entries as the data section has bytes: an
  import whose index is not below that number is written past its end, and without a
  data section no module with imports is accepted. *)
Theorem import_table_size u_module types : Contains_section (_secs u_module) S_IMP_NAT = true ->
  (Contains_section (_secs u_module) S_DATA = false -> is_ok (Init_cache u_module types) = false) /\
  forall n num f s, sec_elem_num (_secs u_module) S_DATA = Ok n -> sec_elem_num (_secs u_module) S_IMP_NAT = Ok num ->
    0 < num -> import_named u_module 0 f s -> 0 <= n <= f -> Init_cache u_module types = Err CodeFault.
Proof. intros Hc. split; [apply Init_cache_no_data, Hc|]. intros. eapply Init_cache_small; eauto. Qed.

(** C26: The arguments of the program.  When [args_get] has room for the table of pointers
  and for the strings, it stores at the table's entry [k] a pointer to a C string that is
  argument [k], the strings one after the other, and writes nowhere else. *)
Theorem program_arguments args p q b m : Forall (Forall (fun c => 0 < c < 256)) args ->
  Get_base_addr (RUNTIME_Z_BASE_REG 0) m = Ok (p, m) -> Get_base_addr (RUNTIME_Z_BASE_REG 1) m = Ok (q, m) ->
  reg_get I32 (RUNTIME_Z_BASE_REG 1) m = Ok (q, m) -> _mem m = Some b -> args_room args p q b ->
  exists b', sys_args_get args m = Ok (tt, set_mem b' m) /\ args_elsewhere args p q b b' /\
    forall k a, args !! k = Some a -> exists ptr, load 4 (p + 4 * Z.of_nat k) b' = Ok ptr /\ cstr_at b' ptr = Ok a /\
      ptr = q + args_bytes (take k args).
Proof.
  intros Ha Hp Hq Hr Hm Hroom.
  assert (Forall (Forall (in_u 8)) args) as Ha8.
  { eapply Forall_impl; [exact Ha|]. intros a Hx. eapply Forall_impl; [exact Hx|]. intros c Hc. cbn in Hc. split; cbn; lia. }
  destruct (args_get_run args p q b m Ha8 Hp Hq Hr Hm Hroom) as (b' & H1 & [S1 S2] & H3 & H4).
  exists b'. split; [exact H1|]. split; [exact H4|]. intros k a Hk. destruct (H3 k a Hk) as [Hld Hstr].
  eexists. split; [exact Hld|]. split; [|reflexivity]. destruct Hroom as [A1 A2 A3 A4 A5].
  pose proof (args_bytes_take args k a Hk). pose proof (args_bytes_nonneg (take k args)).
  apply cstr_at_run; [congruence | exact Hstr| |lia | lia].
  eapply Forall_impl; [exact (Forall_lookup_1 _ _ _ _ Ha Hk)|]. intros c Hc. cbn in *. lia.
Qed.

(** C27: The heap.  What [malloc] returns is the address that dlmalloc gave.  [free] adds
  the start of the heap to it twice: dlmalloc is asked to free an address that is too
  great by two times the start of the heap, or the call stops. *)
Theorem heap_malloc_free size m b p b' : _mem m = Some b -> mspace_malloc (_hea_off m) (UINT64 size) b = (Some p, b') ->
  0 <= _hea_off m <= p -> p < _hea_off m + _hea_size m -> 2 * _hea_off m + _hea_size m < 2 ^ 31 ->
  U_malloc size m = Ok (p, set_mem b' m) /\
  U_free p (set_mem b' m) =
    if _hea_off m + p <? _hea_size m
    then Ok (tt, set_mem (mspace_free (_hea_off m) (p + 2 * _hea_off m) b') m) else Err AssertFail.
Proof.
  intros Hm Hp H1 H2 H3. change (2 ^ 31) with 2147483648 in *. split.
  - unfold U_malloc. rewrite (bind_run get _ m m m eq_refl).
    rewrite (bind_run _ _ _ _ _ (heap_malloc_run (_hea_off m) size m b p b' Hm Hp ltac:(lia))).
    replace (_hea_off m + (p - _hea_off m)) with p by lia. unfold mret, M_ret. do 2 f_equal.
    apply wraps_id; [lia | split; cbn; lia].
  - unfold U_free. rewrite (bind_run get _ _ _ _ eq_refl). cbn [_hea_off set_mem set_memory].
    unfold UVM_heap_free. rewrite (bind_run get _ _ _ _ eq_refl). cbn [_hea_size set_mem set_memory].
    unfold INT32. rewrite (wraps_id 32 (_hea_off m + p)) by (lia || (split; cbn; lia)). unfold UINT64. rewrite wrapu_id by (split; cbn; lia).
    destruct (_ <? _); [|reflexivity]. unfold on_mem. cbn [_mem set_mem set_memory of_option]. rewrite bind_ok.
    replace (_hea_off m + (_hea_off m + p)) with (p + 2 * _hea_off m) by lia. reflexivity.
Qed.
End Theorems.

(** ** Instances *)

(** A host that does nothing; [malloc] gives the start of the heap and 64 bytes. *)
#[local] Instance sample_host : Host := {|
  h_putchar := fun _ c => c; h_scan_char := fun _ => None; h_scan_int := fun _ => None;
  h_scanf := fun _ _ _ b => Ok b; h_random := fun _ lo _ => lo; h_clock_gettime := fun _ _ => (0, (0, 0));
  h_pthread_create := fun _ _ _ b => (0, b); h_writev := fun _ _ _ => 0; h_dlsym := fun _ => false;
  h_ffi_prep_cif := fun _ => true; h_ffi_call := fun _ _ _ _ b => ([], b); h_realloc := fun _ _ => RInPlace;
  create_mspace_with_base := fun _ _ b => b;
  mspace_malloc := fun base size b => (Some (base + 64), b); mspace_free := fun _ _ b => b;
|}.
#[local] Instance sample_conv : ConvBuild := {| runtime_wasm := true|}.

(** [main] calls the import [one], which is function 1, and returns its result. *)
Section HostProgram.
Import U_ENCODER.
Definition host_program : M U_ENCODER.t unit :=
  ty ← Add_type [I32] [];
  main ← Request_func main_name ty 0;
  one ← Request_native_func 0 (LocalTable.bytes_of "one") ty NTYPE_I4 [];
  _ ← Set_data_section (replicate 16 0);
  _ ← Start_func main (1, 0, 0, 0) (2, 0, 0, 0) 16;
  emit [(Opcode.CALL, TY_AM32_OFS, [one]); (Opcode.ADDS_I, TY_AM32S_R_R_IMM, [0; 1; 0]); (Opcode.RETURN, TY_AM32, [])].
End HostProgram.

Definition no_module : MODULE := mkMODULE 0 no_secs [] [] [] [] [] [] [].
Definition host_module : MODULE :=
  from_ok no_module (e ← U_ENCODER.create; r ← host_program e; f ← Write_to_file r.2; Read_sections f.1).
Definition host_types : TYPE_CACHE := from_ok (mkTYPES [] [] [] []) (Types.Decode_type_and_cache (_secs host_module)).
Definition host_infos : list (option FUNC_INFO) := from_ok [] (Init_cache host_module host_types).
Lemma host_named : import_named host_module 0 1 VM_SYSCALL_one.
Proof.
  split.
  - exists (from_ok 0 (nthZ (_imp_nat_sec host_module) 0)). split; vm_compute; reflexivity.
  - exists (from_ok 0 (Get_func (_secs host_module) 1)), (LocalTable.bytes_of "one"). repeat split; vm_compute; reflexivity.
Qed.

Definition host_runtime : Runtime := uwasm_runtime [] host_infos.
Definition host_new : UWASM_MACHINE := UWASM_MACHINE_new (_secs host_module) host_types (mkCODES ∅ ∅ ∅ ∅ ∅ 0).
Definition host_loaded : Z * UWASM_MACHINE :=
  from_ok (0, no_machine) (Init_memory (rt := host_runtime) (Some (sample_block 65536)) 65536 host_new).
Definition host_start : UWASM_MACHINE := (from_ok (tt, no_machine) (Init_env 0 host_loaded.2)).2.
Definition host_called : UWASM_MACHINE := (from_ok (tt, no_machine) (Func_prologue (rt := host_runtime) 1 host_start)).2.

Lemma host_reachable : reachable (rt := host_runtime) (_secs host_module) 0 0 host_start.
Proof.
  apply (reachable_intro (_secs host_module) 0 0 host_start host_types (mkCODES ∅ ∅ ∅ ∅ ∅ 0) (Some (sample_block 65536)) 65536 host_loaded.1 host_loaded.2 host_start).
  - apply from_ok_eq. vm_compute. reflexivity.
  - rewrite <- surjective_pairing. apply from_ok_eq. vm_compute. reflexivity.
  - rewrite (from_ok_eq (tt, no_machine) (Init_env _ _)) by (vm_compute; reflexivity).
    unfold host_start. now destruct (from_ok _ (Init_env _ _)) as [[] m].
  - constructor.
Qed.

Lemma import_called_witness : reg_get I32 1 host_called = Ok (1, host_called) /\
  exists m1 m2, sys_call [] host_infos VM_SYSCALL_one m1 = Ok (tt, m2) /\
    called_outside (rt := host_runtime) 1 host_start m1 m2 host_called.
Proof.
  split; [vm_compute; reflexivity|].
  destruct (import_called host_module host_types 1 16 [1] [VM_SYSCALL_one]) as (infos & H & Hcall).
  - vm_compute. reflexivity.
  - vm_compute. reflexivity.
  - vm_compute. reflexivity.
  - constructor; [exact host_named | constructor].
  - reflexivity.
  - constructor; [lia | constructor].
  - apply NoDup_singleton.
  - assert (infos = host_infos) as -> by (unfold host_infos; now rewrite H).
    apply (Hcall [] 0 O host_start host_called O 1 VM_SYSCALL_one host_reachable).
    + reflexivity.
    + reflexivity.
    + vm_compute. reflexivity.
    + rewrite (from_ok_eq (tt, no_machine) (Func_prologue _ _)) by (vm_compute; reflexivity).
      unfold host_called, host_runtime. now destruct (from_ok _ (Func_prologue _ _)) as [[] m].
Defined.

(** A module with one byte of data, of which function 1 is an import. *)
Definition small_program : M U_ENCODER.t unit :=
  ty ← U_ENCODER.Add_type [I32] []; _ ← U_ENCODER.Request_func main_name ty 0;
  _ ← U_ENCODER.Request_native_func 0 (LocalTable.bytes_of "one") ty NTYPE_I4 [];
  U_ENCODER.Set_data_section [7].
Definition small_module : MODULE :=
  from_ok no_module (e ← U_ENCODER.create; r ← small_program e; f ← Write_to_file r.2; Read_sections f.1).

Lemma import_table_size_witness : Init_cache small_module host_types = Err CodeFault.
Proof.
  destruct (import_table_size small_module host_types) as [_ H].
  - vm_compute. reflexivity.
  - apply (H 1 1 1 VM_SYSCALL_one).
    + vm_compute. reflexivity.
    + vm_compute. reflexivity.
    + lia.
    + split.
      * exists (from_ok 0 (nthZ (_imp_nat_sec small_module) 0)). split; vm_compute; reflexivity.
      * exists (from_ok 0 (Get_func (_secs small_module) 1)), (LocalTable.bytes_of "one"). repeat split; vm_compute; reflexivity.
    + lia.
Defined.

(** Registers 2 and 3 hold the parameters; the table is at 100, the strings at 200. *)
Definition args_machine : UWASM_MACHINE :=
  (from_ok (tt, no_machine) ((_ ← reg_set I32 2 100; reg_set I32 3 200) host_start)).2.

Lemma program_arguments_witness : exists b', sys_args_get [[97]; [98; 99]] args_machine = Ok (tt, set_mem b' args_machine) /\
  args_elsewhere [[97]; [98; 99]] 100 200 (from_ok (sample_block 0) (of_option NullFault (_mem args_machine))) b' /\
  forall k a, [[97]; [98; 99]] !! k = Some a -> exists ptr, load 4 (100 + 4 * Z.of_nat k) b' = Ok ptr /\ cstr_at b' ptr = Ok a /\
    ptr = 200 + args_bytes (take k [[97]; [98; 99]]).
Proof.
  apply (program_arguments [[97]; [98; 99]] 100 200 (from_ok (sample_block 0) (of_option NullFault (_mem args_machine))) args_machine).
  - repeat constructor; lia.
  - vm_compute. reflexivity.
  - vm_compute. reflexivity.
  - vm_compute. reflexivity.
  - vm_compute. reflexivity.
  - split; vm_compute; repeat split; try congruence. left. congruence.
Defined.

Lemma heap_malloc_free_witness :
  U_malloc 10 host_start = Ok (4096 + 64, set_mem (from_ok (sample_block 0) (of_option NullFault (_mem host_start))) host_start) /\
  is_ok (U_free (4096 + 64) (set_mem (from_ok (sample_block 0) (of_option NullFault (_mem host_start))) host_start)) = true.
Proof.
  destruct (heap_malloc_free 10 host_start (from_ok (sample_block 0) (of_option NullFault (_mem host_start))) (4096 + 64)
    (from_ok (sample_block 0) (of_option NullFault (_mem host_start)))) as [H1 H2].
  - vm_compute. reflexivity.
  - vm_compute. reflexivity.
  - vm_compute. split; congruence.
  - vm_compute. reflexivity.
  - vm_compute. reflexivity.
  - split; [exact H1|]. rewrite H2. vm_compute. reflexivity.
Defined.
