(* ===== verification/Debugging.v ===== *)
(** * The debugger: theorems

  The loops with breakpoints against the step relation, what a breakpoint does to the
  run, which frames are shown, and what a session of commands can reach. *)

From S2P Require Import Prelude CInt BitField CFloat Isa Inst Expand Ubh Memory UModule Encoder File Machine Handlers Exec Frames Windows Safety Sample Reachable LocalTable SysCalls System Debugger HostCalls.
From Stdlib Require Import ZArith Lia.
Local Open Scope Z_scope.

Section Loops.
Context {bd : Build} {pf : Platform} {rt : Runtime} {fe : FloatEnv} (u_module : MODULE) (maps : PC_MAPS).

(** [n] steps, none of them from a breakpoint. *)
Inductive quiet (d : UWASM_DEBUG) : nat -> UWASM_MACHINE -> UWASM_MACHINE -> Prop :=
  | quiet_0 m : quiet d 0 m m
  | quiet_S n m m1 m2 : breaks (_pc (_current m)) d = false -> step m m1 -> quiet d n m1 m2 -> quiet d (S n) m m2.

Lemma exec_loop_steps fuel d m d' m' : exec_loop u_module maps fuel d m = Ok (d', m') <->
  exists n m1, (n < fuel)%nat /\ quiet d n m m1 /\
    (breaks (_pc (_current m1)) d = true /\ m' = m1 /\ On_breakpoint u_module maps (_pc (_current m1)) m1 d = Ok d' \/
     breaks (_pc (_current m1)) d = false /\ stops m1 m' /\ d' = d).
Proof.
  revert m. induction fuel as [|fuel IH]; intros m; cbn [exec_loop].
  - split; [discriminate|]. intros (n & _ & Hn & _). lia.
  - destruct (breaks (_pc (_current m)) d) eqn:Eb.
    + split.
      * intros H. destruct (On_breakpoint _ _ _ _ _) as [d1|] eqn:Eo; [|discriminate]. injection H as <- <-.
        exists O, m. split; [lia|]. split; [constructor|]. left. auto.
      * intros (n & m1 & Hn & Hq & H). destruct Hq as [m|n m m2 m3 Hb]; [|congruence].
        destruct H as [(_ & -> & ->)|(Hb & _)]; [reflexivity | congruence].
    + destruct (exec_one m) as [[[] m1]|f] eqn:E.
      * apply exec_one_stops in E as E'. split.
        -- intros [= <- <-]. exists O, m. split; [lia|]. split; [constructor|]. right. auto.
        -- intros (n & m2 & Hn & Hq & H). destruct Hq as [m|n m m3 m4 Hb Hs Hq].
           ++ destruct H as [(Hb & _)|(_ & Hst & ->)]; [congruence|]. apply exec_one_stops in Hst. congruence.
           ++ apply exec_one_step in Hs. congruence.
      * apply exec_one_step in E as E'. rewrite IH. split.
        -- intros (n & m2 & Hn & Hq & H). exists (S n), m2. split; [lia|]. split; [econstructor; eauto | exact H].
        -- intros (n & m2 & Hn & Hq & H). destruct Hq as [m|n m m3 m4 Hb Hs Hq].
           ++ destruct H as [(Hb & _)|(_ & Hst & _)]; [congruence|]. apply exec_one_stops in Hst. congruence.
           ++ apply exec_one_step in Hs. assert (m3 = m1) as -> by congruence. exists n, m4. split; [lia|]. auto.
      * split; [discriminate|]. intros (n & m2 & Hn & Hq & H). destruct Hq as [m|n m m3 m4 Hb Hs Hq].
        -- destruct H as [(Hb & _)|(_ & Hst & _)]; [congruence|]. apply exec_one_stops in Hst. congruence.
        -- apply exec_one_step in Hs. congruence.
Qed.

(** Without breakpoints the loops are those of [Exec.v]. *)
Lemma exec_loop_plain d : (forall pc, breaks pc d = false) -> forall fuel m,
  exec_loop u_module maps fuel d m = (m' ← Exec_start fuel m; mret (d, m')).
Proof.
  intros Hq. induction fuel as [|fuel IH]; intros m; [reflexivity|]. cbn [exec_loop Exec_start]. rewrite Hq.
  destruct (exec_one m) as [[[] m1]|f]; [reflexivity | apply IH | reflexivity].
Qed.
Lemma control_loop_plain d : (forall pc, breaks pc d = false) -> forall n m,
  control_loop u_module maps n d m = (m' ← Control_start n m; mret (d, m')).
Proof.
  intros Hq. induction n as [|n IH]; intros m; [reflexivity|]. cbn [control_loop Control_start]. unfold exec_one, mbind, M_bind.
  destruct (Get_inst m) as [[inst m0]|]; [|reflexivity]. destruct (switch inst m0) as [[[] m1]|]; [apply IH | | reflexivity | reflexivity].
  rewrite Hq. destruct (Inc_pc m1) as [[u m2]|]; [apply IH | reflexivity].
Qed.
Lemma no_breaks d pc : _bp_count d = 0 -> breaks pc d = false.
Proof. unfold breaks. intros ->. now rewrite andb_false_r. Qed.


(** C31: Breakpoints.  The loop with breakpoints ends in a state exactly when that state is
  reached by steps none of which is from a breakpoint, fewer than the iterations allowed,
  and it is at a breakpoint, which is reported and not executed, or its instruction stops.
  Without breakpoints both loops are the plain ones. *)
Theorem breakpoints_stop d m :
  (forall fuel d' m', Exec_start_dbg u_module maps fuel d m = Ok (d', m') <->
    exists n m1, (n < fuel)%nat /\ quiet (Init d) n m m1 /\
      (breaks (_pc (_current m1)) (Init d) = true /\ m' = m1 /\ On_breakpoint u_module maps (_pc (_current m1)) m1 (Init d) = Ok d' \/
       breaks (_pc (_current m1)) (Init d) = false /\ stops m1 m' /\ d' = Init d)) /\
  (_bp_count d = 0 -> forall fuel n,
    Exec_start_dbg u_module maps fuel d m = (m' ← Exec_start fuel m; mret (Init d, m')) /\
    Control_start_dbg u_module maps n d m = (m' ← Control_start n m; mret (Init d, m'))).
Proof.
  split; [intros; apply exec_loop_steps|]. intros H fuel n.
  split; [apply exec_loop_plain | apply control_loop_plain]; intros pc; now apply no_breaks.
Qed.

End Loops.

(** ** Frames *)
Section FramesShown.
Context {bd : Build} (u_module : MODULE) (maps : PC_MAPS).

(** What is printed of the frame chosen last. *)
Definition frame_data (m : UWASM_MACHINE) (d : UWASM_DEBUG) : outcome (list Z * Z * Z * option Z) :=
  f ← of_option NullFault (_current_dbg_frame d);
  frame ← frame_of f m;
  r ← (match _pc frame with Some p => Map_to_ubh_pc maps p | None => _ ← Is_True_Rel false; Err OutOfRange end);
  func ← Get_func (_sections m) (INT32 (UINT32 (_func_idx frame)));
  name ← Get_module_name u_module (INT32 (UBH_FUNC.Get_name_idx func));
  mret (name, UINT32 (_func_idx frame), r.2, _pc frame).
Lemma Print_one_frame_data id m d :
  Print_one_frame u_module maps id m d = ('(name, f, u, e) ← frame_data m d; mret (print (FrameLine id name f u e) d)).
Proof.
  unfold Print_one_frame, frame_data. destruct (_current_dbg_frame d) as [f|]; [|reflexivity]. cbn [of_option mbind outcome_bind].
  destruct (frame_of f m) as [c|]; [|reflexivity]. cbn [mbind outcome_bind].
  destruct (match _pc c with Some q => _ | None => _ end) as [r|]; [|reflexivity]. cbn [mbind outcome_bind].
  destruct (Get_func _ _) as [fn|]; [|reflexivity]. cbn [mbind outcome_bind].
  now destruct (Get_module_name _ _).
Qed.
Lemma Print_one_frame_inv id m d d' : Print_one_frame u_module maps id m d = Ok d' ->
  exists name f u e, frame_data m d = Ok (name, f, u, e) /\ d' = print (FrameLine id name f u e) d.
Proof.
  rewrite Print_one_frame_data. destruct (frame_data m d) as [[[[name f] u] e]|]; [|discriminate]. intros [= <-]. eauto 10.
Qed.

Lemma print_frames_lines n : forall i m d d' name f u e, frame_data m d = Ok (name, f, u, e) ->
  print_frames u_module maps n i m d = Ok d' ->
  dbg_output d' = dbg_output d ++ map (fun j => FrameLine j name f u e) (seqZ i (Z.of_nat n)).
Proof.
  induction n as [|n IH]; intros i m d d' name f u e Hd H; cbn [print_frames] in H.
  - injection H as <-. cbn. now rewrite app_nil_r.
  - destruct (Is_True _); [|discriminate]. cbn [mbind outcome_bind] in H.
    destruct (stack_at _ _); [|discriminate]. cbn [mbind outcome_bind] in H.
    destruct (Print_one_frame u_module maps i m d) as [d1|] eqn:E; [|discriminate]. cbn [mbind outcome_bind] in H.
    destruct (Print_one_frame_inv _ _ _ _ E) as (name' & f' & u' & e' & E1 & ->). rewrite Hd in E1. injection E1 as <- <- <- <-.
    rewrite (IH _ _ (print (FrameLine i name f u e) d) _ name f u e Hd H). cbn [print dbg_output]. rewrite <- (assoc_L (++)). f_equal.
    rewrite (seqZ_cons i (Z.of_nat (S n))) by lia. cbn [map app]. do 2 f_equal. f_equal; lia.
Qed.

Lemma frames_from_lookup vec n i : (i < n)%nat -> frames_from vec n !! i = Some (default ctx0 (vec !! Z.of_nat (n - 1 - i))).
Proof.
  revert i. induction n as [|n IH]; intros i Hi; [lia|]. destruct i as [|i]; cbn [frames_from lookup list_lookup].
  - now replace (S n - 1 - 0)%nat with n by lia.
  - change (frames_from vec n !! i = Some (default ctx0 (vec !! Z.of_nat (S n - 1 - S i)))). rewrite IH by lia. now replace (S n - 1 - S i)%nat with (n - 1 - i)%nat by lia.
Qed.

(** C38: The frames shown.  The frame [id] that is chosen is the context [id] places above
  the caller's: the context of the direct caller cannot be chosen.  The call stack is
  printed as many times the frame chosen last, under the numbers from 0 on, whatever the
  contexts on the stack are. *)
Theorem call_stack_shown m d : wf_stack (_ctx_stack m) -> 0 <= CONTEXT_STACK._sta_top_idx (_ctx_stack m) ->
  (forall id d', 0 < id <= CONTEXT_STACK._sta_top_idx (_ctx_stack m) -> Change_current_frame u_module maps id m d = Ok d' ->
    exists f c, _current_dbg_frame d' = Some f /\ frame_of f m = Ok c /\ stack_frames (_ctx_stack m) !! Z.to_nat id = Some c) /\
  (forall d', Print_callstack u_module maps m d = Ok d' -> exists name f u e, frame_data m d = Ok (name, f, u, e) /\
    dbg_output d' = dbg_output d ++ map (fun i => FrameLine i name f u e) (seqZ 0 (CONTEXT_STACK._sta_top_idx (_ctx_stack m) + 1))).
Proof.
  intros [Hs Hc Ht] H0. set (top := CONTEXT_STACK._sta_top_idx (_ctx_stack m)) in *. unfold DEFAULT_STACK_SIZE in *.
  assert (TopIdx m = top) as Etop by (apply wrapu_id; split; cbn; lia). split.
  - intros id d' Hid H. unfold Change_current_frame in H. destruct (Is_True (dbg_machine d)); [|discriminate]. cbn [mbind outcome_bind] in H.
    destruct (Z.eqb_spec id 0) as [|_]; [lia|]. rewrite Etop in H. destruct (Z.ltb_spec top id) as [|_]; [lia|].
    assert (INT32 (top - id) = top - id) as Ei by (apply wraps_id; [lia | split; cbn; lia]). rewrite Ei in H.
    destruct (Is_True _); [|discriminate]. cbn [mbind outcome_bind] in H.
    destruct (stack_at (top - id) m) as [c|] eqn:Ec; [|discriminate]. cbn [mbind outcome_bind] in H.
    destruct (Print_one_frame_inv _ _ _ _ H) as (name & f & u & e & _ & ->).
    exists (OnStack (top - id)), c. split; [reflexivity|]. split; [exact Ec|].
    unfold stack_at in Ec. destruct (_ && _); [|discriminate]. injection Ec as <-. unfold stack_frames. fold top.
    rewrite frames_from_lookup by lia. now replace (Z.of_nat (Z.to_nat (top + 1) - 1 - Z.to_nat id)) with (top - id) by lia.
  - intros d' H. unfold Print_callstack in H. destruct (Print_one_frame u_module maps 0 m d) as [d1|] eqn:E; [|discriminate]. cbn [mbind outcome_bind] in H.
    destruct (Print_one_frame_inv _ _ _ _ E) as (name & f & u & e & E1 & ->). exists name, f, u, e. split; [exact E1|].
    rewrite Etop in H. rewrite (print_frames_lines _ _ _ (print (FrameLine 0 name f u e) d) _ name f u e E1 H). cbn [print dbg_output]. rewrite <- (assoc_L (++)). f_equal.
    rewrite (seqZ_cons 0 (top + 1)) by lia. cbn [map app]. do 2 f_equal. f_equal; lia.
Qed.
End FramesShown.

(** ** Sessions *)
Section Sessions.
Context {bd : Build} {pf : Platform} {cb : ConvBuild} {host : Host} {fe : FloatEnv}.

Lemma Print_one_frame_count u_module maps id m d d' : Print_one_frame u_module maps id m d = Ok d' -> _bp_count d' = _bp_count d.
Proof. intros (name & f & u & e & _ & ->)%Print_one_frame_inv. reflexivity. Qed.
Lemma print_frames_count u_module maps n : forall i m d d', print_frames u_module maps n i m d = Ok d' -> _bp_count d' = _bp_count d.
Proof.
  induction n as [|n IH]; intros i m d d' H; cbn [print_frames] in H; [now injection H as <-|].
  destruct (Is_True _); [|discriminate]. cbn [mbind outcome_bind] in H. destruct (stack_at _ _); [|discriminate]. cbn [mbind outcome_bind] in H.
  destruct (Print_one_frame _ _ _ _ _) as [d1|] eqn:E; [|discriminate]. cbn [mbind outcome_bind] in H.
  rewrite (IH _ _ _ _ H). eapply Print_one_frame_count, E.
Qed.
Lemma Change_frame_count u_module maps id m d d' : Change_current_frame u_module maps id m d = Ok d' -> _bp_count d' = _bp_count d.
Proof.
  unfold Change_current_frame. intros H. destruct (Is_True (dbg_machine d)); [|discriminate]. cbn [mbind outcome_bind] in H.
  destruct (id =? 0); [now apply Print_one_frame_count in H|]. destruct (_ <? id).
  - destruct (Is_True _); [|discriminate]. now injection H as <-.
  - destruct (Is_True _); [|discriminate]. cbn [mbind outcome_bind] in H. destruct (stack_at _ _); [|discriminate].
    now apply Print_one_frame_count in H.
Qed.

Lemma Bind_pc_to_exp e f p m : _pc_to_exp_map (Bind_expand_pc e f p m) = _pc_to_exp_map m.
Proof. unfold Bind_expand_pc. now destruct (_ !! _). Qed.
Lemma bind_insts_pc_to_exp fuel words i n : forall p k m r, bind_insts fuel words i p n k m = Ok r -> _pc_to_exp_map r.2 = _pc_to_exp_map m.
Proof.
  induction fuel as [|fuel IH]; intros p k m r H; cbn [bind_insts] in H; case_decide; try discriminate; try (now injection H as <-).
  destruct (U_INST_ITER.incr words p); [|discriminate]. cbn [mbind outcome_bind] in H. rewrite (IH _ _ _ _ H). apply Bind_pc_to_exp.
Qed.
Lemma bind_funcs_pc_to_exp s funcs : forall i k m r, bind_funcs s i funcs k m = Ok r -> _pc_to_exp_map r.2 = _pc_to_exp_map m.
Proof.
  induction funcs as [|f funcs IH]; intros i k m r H; cbn [bind_funcs] in H; [now injection H as <-|].
  destruct (UBH_FUNC.Is_set_flag F_EXTERN f); [eapply IH, H|]. destruct (UBH_FUNC.Get_code_idx f); [|discriminate]. cbn [mbind outcome_bind] in H.
  destruct (Get_code s _); [|discriminate]. cbn [mbind outcome_bind] in H.
  destruct (bind_insts _ _ _ _ _ _ _) as [r1|] eqn:E; [|discriminate]. cbn [mbind outcome_bind] in H. rewrite (IH _ _ _ _ H).
  eapply bind_insts_pc_to_exp, E.
Qed.
Lemma bind_code_pc_to_exp s m m' : bind_code s m = Ok m' -> _pc_to_exp_map m' = _pc_to_exp_map m.
Proof.
  unfold bind_code. destruct release; [now intros [= <-]|]. intros H. destruct (sec_elem_num _ _); [|discriminate]. cbn [mbind outcome_bind] in H.
  destruct (Types.map_outcome _ _); [|discriminate]. cbn [mbind outcome_bind] in H. destruct (bind_funcs _ _ _ _ _) as [r|] eqn:E; [|discriminate].
  injection H as <-. eapply bind_funcs_pc_to_exp, E.
Qed.

(** No breakpoint was set, and none can be. *)
Definition unbroken (ss : SESSION) : Prop := _bp_count (ss_debug ss) = 0 /\ _pc_to_exp_map (ss_maps ss) = ∅.

Lemma set_breakpoint_fails fuel f pc ss : unbroken ss -> is_ok (Parse_dbg_cmd fuel (BreakpointSet f pc) ss) = false.
Proof.
  intros [_ Hm]. cbn [Parse_dbg_cmd]. unfold Map_to_expand_pc. rewrite Hm, lookup_empty.
  destruct (Is_True_Rel _); reflexivity.
Qed.
Lemma continue_plain fuel ss : unbroken ss -> continue_run fuel ss =
  (s ← Exec_continue fuel (ss_system ss); mret (with_system s (with_debug (Init (ss_debug ss)) ss))).
Proof.
  intros [Hb _]. unfold continue_run, Exec_continue, Exec_start_dbg. rewrite exec_loop_plain by (intros pc; now apply no_breaks).
  destruct (Exec_start fuel _); reflexivity.
Qed.
Lemma next_plain n ss : unbroken ss -> next_run n ss =
  (s ← Debug_next_instr n (ss_system ss); mret (with_system s (with_debug (Init (ss_debug ss)) ss))).
Proof.
  intros [Hb _]. unfold next_run, Debug_next_instr, Control_start_dbg. rewrite control_loop_plain by (intros pc; now apply no_breaks).
  destruct (Control_start n _); reflexivity.
Qed.

Lemma command_unbroken fuel c ss ss' : unbroken ss -> Parse_dbg_cmd fuel c ss = Ok ss' -> unbroken ss'.
Proof.
  intros Hu H. pose proof Hu as [Hb Hm]. destruct c; cbn [Parse_dbg_cmd] in H.
  - destruct (is_ready ss); [|now injection H as <-]. rewrite next_plain in H by exact Hu.
    destruct (Debug_next_instr _ _); [|discriminate]. injection H as <-. now split.
  - destruct (is_ready ss); [|now injection H as <-]. rewrite continue_plain in H by exact Hu.
    destruct (Exec_continue _ _); [|discriminate]. injection H as <-. now split.
  - discriminate.
  - destruct (Tracing.Set_tracing_opt _ _ _) as [[l t]|]; [|discriminate]. injection H as <-. now split.
  - destruct (Debug_set_reg _ _ _ _); [|discriminate]. injection H as <-. now split.
  - destruct (Load_from_file _ _) as [s1|]; [|discriminate]. cbn [mbind outcome_bind] in H.
    destruct (Init_memory_of _ _ _) as [[r s2]|]; [|discriminate]. cbn [mbind outcome_bind fst snd] in H.
    destruct (r =? Data.NUM_SUCC).
    + destruct (bind_code _ _) as [m1|] eqn:E; [|discriminate]. injection H as <-. split; [exact Hb|]. cbn. now rewrite (bind_code_pc_to_exp _ _ _ E).
    + injection H as <-. now split.
  - destruct (Set_cur_func _ _); [|discriminate]. injection H as <-. now split.
  - rewrite next_plain in H by exact Hu. destruct (Debug_next_instr _ _); [|discriminate]. injection H as <-. now split.
  - destruct a as [k v]. destruct (Debug_set_reg _ _ _ _); [|discriminate]. injection H as <-. now split.
  - injection H as <-. now split.
  - pose proof (set_breakpoint_fails fuel func_id pc ss Hu) as F. cbn [Parse_dbg_cmd] in F. rewrite H in F. discriminate.
  - unfold Add_watchpoint in H. destruct (Is_True _); [|discriminate]. injection H as <-. now split.
  - injection H as <-. now split.
  - unfold Print_callstack in H. destruct (Print_one_frame _ _ _ _ _) as [d1|] eqn:E; [|discriminate]. cbn [mbind outcome_bind] in H.
    destruct (print_frames _ _ _ _ _ _) as [d2|] eqn:E2; [|discriminate]. injection H as <-. split; [|exact Hm]. cbn [with_debug ss_debug].
    rewrite (print_frames_count _ _ _ _ _ _ _ E2), (Print_one_frame_count _ _ _ _ _ _ E). exact Hb.
  - destruct (Change_current_frame _ _ _ _ _) as [d1|] eqn:E; [|discriminate]. injection H as <-. split; [|exact Hm]. cbn [with_debug ss_debug].
    rewrite (Change_frame_count _ _ _ _ _ _ E). exact Hb.
  - unfold Print_current_frame in H. destruct (Print_one_frame _ _ _ _ _) as [d1|] eqn:E; [|discriminate]. injection H as <-. split; [|exact Hm]. cbn [with_debug ss_debug].
    rewrite (Print_one_frame_count _ _ _ _ _ _ E). exact Hb.
  - now injection H as <-.
Qed.

(** C33: Sessions.  Whatever commands were given from the start of the interactive mode, no
  breakpoint is set and the command that sets one stops the program, because the map it
  looks in is never filled; so the commands that run the machine are the plain loops. *)
Theorem session_without_breakpoints fuel cs s ss : run_commands fuel cs (session0 s) = Ok ss ->
  unbroken ss /\ (forall f pc, is_ok (Parse_dbg_cmd fuel (BreakpointSet f pc) ss) = false) /\
  (forall n, Parse_dbg_cmd fuel (RunInstrCnt n) ss =
    (s ← Debug_next_instr n (ss_system ss); mret (with_system s (with_debug (Init (ss_debug ss)) ss)))) /\
  (is_ready ss = true -> forall fuel', Parse_dbg_cmd fuel' Continue ss =
    (s ← Exec_continue fuel' (ss_system ss); mret (with_system s (with_debug (Init (ss_debug ss)) ss)))).
Proof.
  intros H. assert (unbroken ss) as Hu.
  { assert (unbroken (session0 s)) as H0 by (split; reflexivity). revert H0 H. generalize (session0 s).
    induction cs as [|c cs IH]; intros ss0 H0 H; cbn [run_commands] in H; [now injection H as <-|].
    destruct (Parse_dbg_cmd fuel c ss0) as [ss1|] eqn:E; [|discriminate]. cbn [mbind outcome_bind] in H.
    apply (IH ss1); [|exact H]. eapply command_unbroken; eauto. }
  split; [exact Hu|]. split; [intros f pc; now apply set_breakpoint_fails|]. split.
  - intros n. cbn [Parse_dbg_cmd]. now apply next_plain.
  - intros Hr fuel'. cbn [Parse_dbg_cmd]. rewrite Hr. now apply continue_plain.
Qed.
End Sessions.

(** ** Instances, in the sample program *)
Section Witnesses.
#[local] Existing Instance sample_host.
#[local] Existing Instance sample_conv.

Definition dbg_module : MODULE := from_ok no_module (e ← U_ENCODER.create; r ← program 3 e; f ← Write_to_file r.2; Read_sections f.1).
Definition dbg_maps : PC_MAPS := from_ok no_maps (bind_code sample_secs no_maps).
Definition dbg_there : Z := default 0 (_pc (_current (sample_after 2))).
Definition dbg_set (pc : Z) : UWASM_DEBUG := from_ok debug0 (Add_breakpoint 0 0 pc (Init debug0)).
Definition dbg_run (pc : Z) : UWASM_DEBUG * UWASM_MACHINE :=
  from_ok (debug0, no_machine) (Exec_start_dbg dbg_module dbg_maps 100 (dbg_set pc) sample_start).

Lemma breakpoints_stop_witness : length (dbg_output (dbg_run dbg_there).1) = 2%nat /\
  (exists n m1, (n < 100)%nat /\ quiet (Init (dbg_set dbg_there)) n sample_start m1 /\ breaks (_pc (_current m1)) (dbg_set dbg_there) = true) /\
  is_ok (Exec_start_dbg dbg_module dbg_maps 100 debug0 sample_start) = true.
Proof.
  split; [vm_compute; reflexivity|]. split.
  - destruct (proj1 (breakpoints_stop dbg_module dbg_maps (dbg_set dbg_there) sample_start) 100%nat (dbg_run dbg_there).1 (dbg_run dbg_there).2) as [H _].
    destruct H as (n & m1 & Hn & Hq & [(Hb & _) | (_ & _ & Hd)]).
    + rewrite <- surjective_pairing. unfold dbg_run. apply from_ok_eq. vm_compute. reflexivity.
    + exists n, m1. auto.
    + exfalso. apply (f_equal dbg_output) in Hd. revert Hd. vm_compute. discriminate.
  - destruct (proj2 (breakpoints_stop dbg_module dbg_maps debug0 sample_start) eq_refl 100%nat 0%nat) as [-> _].
    vm_compute. reflexivity.
Defined.




(** Inside a call of [add] from [add], which [main] has called. *)
Definition dbg_called : UWASM_MACHINE := (from_ok (tt, no_machine) (Func_prologue 1 (sample_after 5))).2.
Definition dbg_chosen : UWASM_DEBUG := from_ok debug0 (Change_current_frame dbg_module dbg_maps 1 dbg_called (Init debug0)).
Definition dbg_lines : list LINE := dbg_output (from_ok debug0 (Print_callstack dbg_module dbg_maps dbg_called dbg_chosen)).
Lemma call_stack_shown_witness :
  (exists f c, _current_dbg_frame dbg_chosen = Some f /\ frame_of f dbg_called = Ok c /\ stack_frames (_ctx_stack dbg_called) !! 1%nat = Some c) /\
  length dbg_lines = 4%nat.
Proof.
  split.
  - destruct (call_stack_shown dbg_module dbg_maps dbg_called (Init debug0)) as [H _].
    + split; vm_compute; [reflexivity | reflexivity | split; congruence].
    + vm_compute. congruence.
    + apply (H 1 dbg_chosen); [split; vm_compute; congruence|]. unfold dbg_chosen. apply from_ok_eq. vm_compute. reflexivity.
  - vm_compute. reflexivity.
Defined.

Definition dbg_system : SYSTEM := mkSYSTEM no_module no_machine [] [].
Definition dbg_bytes : list Z := from_ok [] (e ← U_ENCODER.create; r ← program 3 e; f ← Write_to_file r.2; mret f.1).
Definition dbg_commands : list COMMAND := [OpenFile (Some dbg_bytes) (Some (sample_block MEM_SIZE)); SetFunc 0; Debugger.Trace 3 1; RunInstrCnt 3; WatchpointSet 8; Next; Continue].
Definition dbg_session : SESSION := from_ok (session0 (dbg_system)) (run_commands 100 dbg_commands (session0 (dbg_system))).
Lemma session_without_breakpoints_witness : unbroken dbg_session /\ is_ok (Parse_dbg_cmd 100 (BreakpointSet 0 2) dbg_session) = false /\
  (exists d', exists s', Debug_next_instr 2 (ss_system dbg_session) = Ok s' /\
    Parse_dbg_cmd 100 (RunInstrCnt 2) dbg_session = Ok (with_system s' (with_debug d' dbg_session))).
Proof.
  destruct (session_without_breakpoints 100 dbg_commands dbg_system dbg_session) as (H1 & H2 & H3 & _).
  - unfold dbg_session. apply from_ok_eq. vm_compute. reflexivity.
  - split; [exact H1|]. split; [apply H2|]. exists (Init (ss_debug dbg_session)), (from_ok dbg_system (Debug_next_instr 2 (ss_system dbg_session))).
    assert (is_ok (Debug_next_instr 2 (ss_system dbg_session)) = true) as E by (vm_compute; reflexivity).
    rewrite (from_ok_eq dbg_system _ E) at 1. split; [reflexivity|]. rewrite (H3 2%nat). now destruct (Debug_next_instr 2 (ss_system dbg_session)).
Defined.
End Witnesses.
