(* ===== verification/Starting.v ===== *)
(** * The function that starts a written file

  [Search_start] and [Search_start_by_name] on the module that the loader has from a file
  of the encoder: the headers, the table of functions and the names are the encoder's. *)

From S2P Require Import Prelude CInt BitField Bytes CFloat Isa Inst Ubh Memory UModule StrTab TypeEncoder Encoder Code CodeSec Layout File Saved Machine Handlers Exec LocalTable SysCalls System.
From Stdlib Require Import ZArith Lia.
Local Open Scope Z_scope.

Section Starting.
Context {bd : Build} {vg : VectorGrowth}.
Import U_ENCODER.

(** ** Names *)
Lemma strcmp_eq_prefix name l : Forall (fun c => c <> 0) name -> take (length name + 1) l = cstr name ->
  strcmp_eq name l = Ok true.
Proof.
  unfold cstr. revert l. induction name as [|d name IH]; intros [|c l] Hn H; cbn [length Nat.add take app] in H; try discriminate.
  - injection H as ->. reflexivity.
  - apply Forall_cons in Hn as [_ Hn]. injection H as -> H. cbn [strcmp_eq]. rewrite Z.eqb_refl. now apply IH.
Qed.

(** What the loop of the encoder finds. *)
Lemma find_start_run raw funcs : forall i r, find_start raw i funcs = Ok r ->
  match r with
  | Some j => exists k f, j = i + Z.of_nat k /\ funcs !! k = Some f /\ name_is START_FUNC_NAME raw (UBH_FUNC.Get_name_idx f) = Ok true
  | None => True
  end.
Proof.
  induction funcs as [|f funcs IH]; intros i r H; cbn [find_start] in H; [now injection H as <-|].
  destruct (name_is _ _ _) as [[]|] eqn:E; cbn [mbind outcome_bind] in H; [|specialize (IH _ _ H)|discriminate].
  - injection H as <-. exists O, f. repeat split; auto; lia.
  - destruct r as [j|]; [|exact I]. destruct IH as (k & g & -> & Hk & Hg). exists (S k), g. repeat split; auto; lia.
Qed.
Lemma name_is_at m f : name_is START_FUNC_NAME (_module_name_sec m) (UBH_FUNC.Get_name_idx f) = Ok true ->
  name_at m f START_FUNC_NAME = Ok true.
Proof.
  unfold name_is, name_at. destruct (vec_at _ _); [|discriminate]. rewrite bind_ok. intros H.
  pose proof (f_equal (fun o => match o with Ok b => b | Err _ => false end) H) as Hb. cbv beta iota in Hb. clear H. apply bool_decide_eq_true in Hb as H. apply strcmp_eq_prefix; [repeat constructor; discriminate | exact H].
Qed.

(** ** Headers *)
Lemma func_tag h id : Get_sec_id_from_header h = Ok id ->
  (UBH_SHDR.Get_sec_tag h =? SEC_TAG.SEC_FUNC) = bool_decide (id = S_FUNC).
Proof.
  unfold Get_sec_id_from_header. destruct (Z.eqb_spec (UBH_SHDR.Get_sec_tag h) SEC_TAG.SEC_TYPE) as [E|_]; [rewrite E; now intros [= <-]|].
  destruct (_ =? SEC_TAG.SEC_FUNC); [now intros [= <-]|]. intros H. symmetry. apply bool_decide_eq_false. intros ->. revert H.
  repeat (match goal with |- context [if ?b then _ else _] => destruct b end; try discriminate);
  destruct (UBH_SHDR.Get_kind h); try discriminate; cbn [mbind outcome_bind];
  repeat (match goal with |- context [if ?b then _ else _] => destruct b end; try discriminate);
  destruct (Is_True false); discriminate.
Qed.

Lemma each_header_skip f m is1 is2 : Forall (fun i => exists h, nthZ (_shdr_tab (_secs m)) i = Ok h /\ f h = Ok None) is1 ->
  each_header f m (is1 ++ is2) = each_header f m is2.
Proof.
  induction 1 as [|i is1 (h & Hi & Hf) _ IH]; [reflexivity|]. cbn [app each_header]. rewrite Hi, bind_ok, Hf, bind_ok. exact IH.
Qed.
Lemma each_header_at f m n k h x : (k < n)%nat -> _shdr_tab (_secs m) !! k = Some h -> f h = Ok (Some x) ->
  (forall j g, (j < k)%nat -> _shdr_tab (_secs m) !! j = Some g -> f g = Ok None) ->
  each_header f m (seqZ 0 (Z.of_nat n)) = Ok (Some x).
Proof.
  intros Hk Hh Hf Hb. replace (Z.of_nat n) with (Z.of_nat k + Z.of_nat (n - k)) by lia.
  rewrite seqZ_app by lia. rewrite each_header_skip.
  - rewrite seqZ_cons by lia. cbn [each_header]. replace (nthZ _ (0 + Z.of_nat k)) with (Ok h).
    + now rewrite bind_ok, Hf, bind_ok.
    + symmetry. apply nthZ_Ok. split; [lia|]. now replace (Z.to_nat (0 + Z.of_nat k)) with k by lia.
  - apply Forall_forall. intros i Hi. apply elem_of_seqZ in Hi.
    destruct (_shdr_tab (_secs m) !! Z.to_nat i) as [g|] eqn:E; [|apply lookup_ge_None in E; apply lookup_lt_Some in Hh; lia].
    exists g. split; [apply nthZ_Ok; split; [lia | exact E]|]. apply (Hb (Z.to_nat i) g); [lia | exact E].
Qed.
Lemma each_header_none f m n : (n <= length (_shdr_tab (_secs m)))%nat ->
  (forall j g, _shdr_tab (_secs m) !! j = Some g -> f g = Ok None) -> each_header f m (seqZ 0 (Z.of_nat n)) = Ok None.
Proof.
  intros Hn Hb. rewrite <- (app_nil_r (seqZ 0 _)), each_header_skip; [reflexivity|]. apply Forall_forall. intros i Hi.
  apply elem_of_seqZ in Hi. destruct (_shdr_tab (_secs m) !! Z.to_nat i) as [g|] eqn:E; [|apply lookup_ge_None in E; lia].
  exists g. split; [apply nthZ_Ok; split; [lia | exact E] | eapply Hb, E].
Qed.

(** ** The functions of the module *)
Section Held.
Variable e : t.
Variable m : MODULE.
Hypothesis fits : file_fits e = true.
Hypothesis held : holds e m.

Let func_info : SEC_INFO := Build_SEC_INFO S_FUNC SEC_TAG.SEC_FUNC (-1) UBH_FUNC.sizeof.

Lemma func_info_in : In func_info SEC_INFO_ARR.
Proof. cbn. tauto. Qed.
Lemma held_funcs : _func_sec (_secs m) = _func_tab e.
Proof. exact (ho_tables e m held S_FUNC). Qed.
Lemma held_names : _module_name_sec m = _raw_buf (_module_string_tab e).
Proof. exact (ho_tables e m held S_MODULE_NAME). Qed.
Lemma funcs_number : Z.of_nat (length (_func_tab e)) < 2 ^ 16.
Proof. exact (proj2 (table_fits_run e func_info fits func_info_in)). Qed.
Lemma Get_func_held i f : _func_tab e !! i = Some f -> Get_func (_secs m) (Z.of_nat i) = Ok f.
Proof. intros H. unfold Get_func. rewrite held_funcs. apply nthZ_Ok. split; [lia|]. now rewrite Nat2Z.id. Qed.

Lemma func_info_listed : _func_tab e <> [] -> func_info ∈ sections e.
Proof.
  intros Hne. destruct (elems_of_eq e func_info fits func_info_in) as [El _]. apply list_elem_of_filter.
  split; [|apply list_elem_of_In, func_info_in]. rewrite El. change (elems e func_info) with (length (_func_tab e)). destruct (_func_tab e); [contradiction | discriminate].
Qed.
Lemma held_funcs_num : _func_tab e <> [] -> sec_elem_num (_secs m) S_FUNC = Ok (Z.of_nat (length (_func_sec (_secs m)))).
Proof. intros Hne. rewrite held_funcs. exact (ho_numbers e m held func_info (func_info_listed Hne)). Qed.

(** The headers of sections are not that of the start function; one is of functions. *)
Lemma sections_before hs rest w total : collected e w total hs rest -> forall j g, hs !! j = Some g ->
  start_header m g = Ok None /\ exists info, sections e !! j = Some info /\
  (UBH_SHDR.Get_sec_tag g =? SEC_TAG.SEC_FUNC) = bool_decide (_sec_id info = S_FUNC) /\ UBH_SHDR.Get_elem_num g = Ok (UINT16 (elems_of e info)).
Proof.
  intros [_ _ _ Hl _ Hd _ _] j g Hg. pose proof (lookup_lt_Some _ _ _ Hg) as Hj. rewrite Hl in Hj.
  apply lookup_lt_is_Some in Hj as [info Hi]. destruct (Hd j info Hi) as (h & Hh & (D1 & D2 & D3 & _)).
  rewrite Hg in Hh. injection Hh as <-. split.
  - unfold start_header. unfold UBH_SHDR.Have_sec in D2. now destruct (_ =? SEC_TAG.SEC_START).
  - exists info. split; [exact Hi|]. split; [now apply func_tag | exact D3].
Qed.
Lemma start_tags h i : UBH_SHDR.UBH_SHDR SEC_TAG.SEC_START 0 i = Ok h ->
  (UBH_SHDR.Get_sec_tag h =? SEC_TAG.SEC_START) = true /\ (UBH_SHDR.Get_sec_tag h =? SEC_TAG.SEC_FUNC) = false /\ UBH_SHDR.Get_idx h = UINT32 i.
Proof.
  intros H. destruct (start_header_run i) as (h' & H1 & H2 & H3). rewrite H in H1. injection H1 as <-.
  unfold UBH_SHDR.Have_sec in H2. apply negb_false_iff in H2. split; [exact H2|]. split; [|exact H3].
  apply Z.eqb_eq in H2. rewrite H2. reflexivity.
Qed.

(** The header of the functions, and no other before it. *)
Lemma func_header_place w total hs rest : collected e w total hs rest -> _func_tab e <> [] -> exists k h, hs !! k = Some h /\
  (UBH_SHDR.Get_sec_tag h =? SEC_TAG.SEC_FUNC) = true /\ UBH_SHDR.Get_elem_num h = Ok (Z.of_nat (length (_func_tab e))) /\
  forall j g, (j < k)%nat -> hs !! j = Some g -> (UBH_SHDR.Get_sec_tag g =? SEC_TAG.SEC_FUNC) = false.
Proof.
  intros Hco Hne. destruct (elems_of_eq e func_info fits func_info_in) as [El Hb].
  assert (elems e func_info = length (_func_tab e)) as Eel by reflexivity.
  pose proof (func_info_listed Hne) as Hin.
  apply list_elem_of_lookup in Hin as [k Hk]. pose proof (lookup_lt_Some _ _ _ Hk) as Hlt. rewrite <- (co_length _ _ _ _ _ Hco) in Hlt.
  apply lookup_lt_is_Some in Hlt as [h Hh]. exists k, h. split; [exact Hh|].
  destruct (sections_before hs rest w total Hco k h Hh) as (_ & info & Hi & Ht & He). rewrite Hk in Hi. injection Hi as <-.
  split; [exact Ht|]. split; [rewrite He, El, Eel; f_equal; apply wrapu_id; pose proof funcs_number; split; [lia | cbn in *; lia]|].
  intros j g Hj Hg. destruct (sections_before hs rest w total Hco j g Hg) as (_ & info & Hi & Ht' & _). rewrite Ht'. apply bool_decide_eq_false.
  intros E. pose proof (NoDup_lookup (map _sec_id (sections e)) j k S_FUNC (sections_NoDup e)) as Hu.
  rewrite !list_lookup_fmap, Hi, Hk in Hu. cbn [fmap option_fmap option_map] in Hu. rewrite E in Hu. specialize (Hu eq_refl eq_refl). lia.
Qed.

(** The function of the encoder's header. *)
Lemma Search_start_main i : find_start (_raw_buf (_module_string_tab e)) 0 (_func_tab e) = Ok (Some i) ->
  Search_start m = Ok i /\ exists f, _func_tab e !! Z.to_nat i = Some f /\ name_at m f START_FUNC_NAME = Ok true.
Proof.
  intros Hs. destruct (find_start_run _ _ _ _ Hs) as (k & f & -> & Hk & Hn). rewrite <- held_names in Hn. apply name_is_at in Hn.
  pose proof (lookup_lt_Some _ _ _ Hk) as Hlt. pose proof funcs_number as Hb. split; [|exists f; split; [now replace (Z.to_nat (0 + Z.of_nat k)) with k by lia | exact Hn]].
  destruct (ho_headers e m held) as (w & total & hs & rest & Hco & Hsh & Hnum).
  destruct (co_start _ _ _ _ _ Hco) as (st & Hst & Hrest). rewrite Hs in Hst. injection Hst as <-. destruct Hrest as (h & -> & Hh).
  destruct (start_tags _ _ Hh) as (T1 & _ & T3). unfold Search_start, header_indices. rewrite Hnum.
  rewrite (each_header_at (start_header m) m _ (length hs) h (Z.of_nat k)); [reflexivity| | | |].
  - rewrite length_app. cbn. lia.
  - now rewrite Hsh, lookup_app_r, Nat.sub_diag by lia.
  - unfold start_header. rewrite T1, T3. replace (UINT16 (UINT32 (0 + Z.of_nat k))) with (Z.of_nat k); [now rewrite (Get_func_held _ _ Hk)|].
    unfold UINT16, UINT32. rewrite !wrapu_id; [lia|split; cbn in *; lia..| ]. rewrite wrapu_id; split; cbn in *; lia.
  - intros j g Hj. rewrite Hsh, lookup_app_l by lia. intros Hg. exact (proj1 (sections_before hs [h] w total Hco j g Hg)).
Qed.

Lemma first_here_run i f n : _func_tab e !! i = Some f -> not_here f = false -> (i < n <= length (_func_tab e))%nat ->
  (forall j g, (j < i)%nat -> _func_tab e !! j = Some g -> not_here g = true) ->
  first_here m (seqZ 0 (Z.of_nat n)) = Ok (Some (Z.of_nat i)).
Proof.
  intros Hi Hf Hn Hb. replace (Z.of_nat n) with (Z.of_nat i + Z.of_nat (n - i)) by lia. rewrite seqZ_app by lia.
  assert (forall l, first_here m (seqZ 0 (Z.of_nat i) ++ l) = first_here m l) as Hskip.
  { intros l. assert (Forall (fun j => exists g, Get_func (_secs m) j = Ok g /\ not_here g = true) (seqZ 0 (Z.of_nat i))) as H.
    { apply Forall_forall. intros j Hj. apply elem_of_seqZ in Hj. destruct (lookup_lt_is_Some_2 (_func_tab e) (Z.to_nat j) ltac:(lia)) as [g Hg].
      exists g. split; [rewrite <- (Z2Nat.id j) by lia; now apply Get_func_held | apply (Hb (Z.to_nat j)); [lia | exact Hg]]. }
    induction H as [|j js (g & Hg & Hng) _ IH]; [reflexivity|]. cbn [app first_here]. now rewrite Hg, bind_ok, Hng. }
  rewrite Hskip, seqZ_cons by lia. cbn [first_here]. replace (0 + Z.of_nat i) with (Z.of_nat i) by lia.
  now rewrite (Get_func_held i f Hi), bind_ok, Hf.
Qed.

Lemma Search_start_first i f : find_start (_raw_buf (_module_string_tab e)) 0 (_func_tab e) = Ok None ->
  _func_tab e !! i = Some f -> not_here f = false -> (forall j g, (j < i)%nat -> _func_tab e !! j = Some g -> not_here g = true) ->
  Search_start m = Ok (Z.of_nat i).
Proof.
  intros Hs Hi Hf Hb. pose proof (lookup_lt_Some _ _ _ Hi) as Hlt. pose proof funcs_number as Hfn.
  destruct (ho_headers e m held) as (w & total & hs & rest & Hco & Hsh & Hnum).
  destruct (co_start _ _ _ _ _ Hco) as (st & Hst & Hrest). rewrite Hs in Hst. injection Hst as <-. subst rest. rewrite app_nil_r in *.
  destruct (func_header_place w total hs [] Hco ltac:(intros E; now rewrite E in Hi)) as (k & h & Hk & T & He & Hbefore).
  unfold Search_start, header_indices. rewrite Hnum. rewrite (each_header_none (start_header m)); [| now rewrite Hsh|].
  - rewrite bind_ok. rewrite (each_header_at _ m _ k h (Z.of_nat i)); [reflexivity| | | |].
    + now apply lookup_lt_Some in Hk.
    + now rewrite Hsh.
    + unfold func_header. rewrite T, He, bind_ok. unfold UINT16. rewrite wrapu_id by (split; cbn in *; lia). now apply (first_here_run i f).
    + intros j g Hj Hg. rewrite Hsh in Hg. unfold func_header. now rewrite (Hbefore j g Hj Hg).
  - intros j g Hg. rewrite Hsh in Hg. exact (proj1 (sections_before hs [] w total Hco j g Hg)).
Qed.

Lemma first_named_run name i f n : _func_tab e !! i = Some f -> not_here f = false -> name_at m f name = Ok true ->
  (i < n <= length (_func_tab e))%nat ->
  (forall j g, (j < i)%nat -> _func_tab e !! j = Some g -> name_at m g name = Ok false) ->
  first_named m name (seqZ 0 (Z.of_nat n)) = Ok (Some (Z.of_nat i)).
Proof.
  intros Hi Hf Hname Hn Hb. replace (Z.of_nat n) with (Z.of_nat i + Z.of_nat (n - i)) by lia. rewrite seqZ_app by lia.
  assert (forall l, first_named m name (seqZ 0 (Z.of_nat i) ++ l) = first_named m name l) as Hskip.
  { intros l. assert (Forall (fun j => exists g, Get_func (_secs m) j = Ok g /\ name_at m g name = Ok false) (seqZ 0 (Z.of_nat i))) as H.
    { apply Forall_forall. intros j Hj. apply elem_of_seqZ in Hj. destruct (lookup_lt_is_Some_2 (_func_tab e) (Z.to_nat j) ltac:(lia)) as [g Hg].
      exists g. split; [rewrite <- (Z2Nat.id j) by lia; now apply Get_func_held | apply (Hb (Z.to_nat j)); [lia | exact Hg]]. }
    induction H as [|j js (g & Hg & Hng) _ IH]; [reflexivity|]. cbn [app first_named]. now rewrite Hg, bind_ok, Hng, bind_ok. }
  rewrite Hskip, seqZ_cons by lia. cbn [first_named]. replace (0 + Z.of_nat i) with (Z.of_nat i) by lia.
  now rewrite (Get_func_held i f Hi), bind_ok, Hname, bind_ok, Hf.
Qed.
Lemma func_header_named_at name n k h r : (k < n)%nat -> _shdr_tab (_secs m) !! k = Some h ->
  (UBH_SHDR.Get_sec_tag h =? SEC_TAG.SEC_FUNC) = true -> UBH_SHDR.Get_elem_num h = Ok r ->
  (forall j g, (j < k)%nat -> _shdr_tab (_secs m) !! j = Some g -> (UBH_SHDR.Get_sec_tag g =? SEC_TAG.SEC_FUNC) = false) ->
  func_header_named m name (seqZ 0 (Z.of_nat n)) = first_named m name (seqZ 0 (UINT16 r)).
Proof.
  intros Hk Hh Ht He Hb. replace (Z.of_nat n) with (Z.of_nat k + Z.of_nat (n - k)) by lia. rewrite seqZ_app by lia.
  assert (forall l, func_header_named m name (seqZ 0 (Z.of_nat k) ++ l) = func_header_named m name l) as Hskip.
  { intros l. assert (Forall (fun j => exists g, nthZ (_shdr_tab (_secs m)) j = Ok g /\ (UBH_SHDR.Get_sec_tag g =? SEC_TAG.SEC_FUNC) = false) (seqZ 0 (Z.of_nat k))) as H.
    { apply Forall_forall. intros j Hj. apply elem_of_seqZ in Hj. apply lookup_lt_Some in Hh as Hlt.
      destruct (lookup_lt_is_Some_2 (_shdr_tab (_secs m)) (Z.to_nat j) ltac:(lia)) as [g Hg].
      exists g. split; [apply nthZ_Ok; split; [lia | exact Hg] | apply (Hb (Z.to_nat j)); [lia | exact Hg]]. }
    induction H as [|j js (g & Hg & Hng) _ IH]; [reflexivity|]. cbn [app func_header_named]. now rewrite Hg, bind_ok, Hng. }
  rewrite Hskip, seqZ_cons by lia. cbn [func_header_named]. replace (nthZ _ (0 + Z.of_nat k)) with (Ok h).
  - now rewrite bind_ok, Ht, He, bind_ok.
  - symmetry. apply nthZ_Ok. split; [lia|]. now replace (Z.to_nat (0 + Z.of_nat k)) with k by lia.
Qed.

Lemma Search_start_named name i f : _func_tab e !! i = Some f -> not_here f = false -> name_at m f name = Ok true ->
  (forall j g, (j < i)%nat -> _func_tab e !! j = Some g -> name_at m g name = Ok false) ->
  Search_start_by_name name m = Ok (Z.of_nat i).
Proof.
  intros Hi Hf Hname Hb. pose proof (lookup_lt_Some _ _ _ Hi) as Hlt. pose proof funcs_number as Hfn.
  destruct (ho_headers e m held) as (w & total & hs & rest & Hco & Hsh & Hnum).
  destruct (func_header_place w total hs rest Hco ltac:(intros E; now rewrite E in Hi)) as (k & h & Hk & T & He & Hbefore).
  unfold Search_start_by_name, header_indices. rewrite Hnum. pose proof (lookup_lt_Some _ _ _ Hk) as Hkl.
  rewrite (func_header_named_at name _ k h (Z.of_nat (length (_func_tab e)))).
  - unfold UINT16. rewrite wrapu_id by (split; cbn in *; lia). now rewrite (first_named_run name i f).
  - rewrite length_app. lia.
  - now rewrite Hsh, lookup_app_l by lia.
  - exact T.
  - exact He.
  - intros j g Hj. rewrite Hsh, lookup_app_l by lia. now apply Hbefore.
Qed.
End Held.
End Starting.
