(* ===== verification/Written.v ===== *)
(** * The functions of a written file: theorems

  The loader finds the functions that an encoder had when it wrote the file: each body of
  the encoder is finished and written, and its entry is that of the body it stands for. *)

From S2P Require Import Prelude CInt BitField Isa Inst Expand Ubh Memory UModule StrTab TypeEncoder Encoder Loading Code CodeSec Layout File Saved Machine Handlers Starting.
From stdpp Require Import strings.
From Stdlib Require Import ZArith Lia.
Local Open Scope Z_scope.

(** ** What the code of a function stands for *)
Definition stands_for_body {bd : Build} (b : BODY) (c : U_CODE_BODY.t) : Prop :=
  body_ok b = true /\ forall off, 0 <= off < 2 ^ 32 -> exists c', U_CODE_BODY.Finish off c = Ok c' /\ entry_of b (entry_of_body c').
Definition function_is {bd : Build} (e : U_ENCODER.t) (i : nat) (f : Z) (b : option BODY) : Prop :=
  match b with
  | None => UBH_FUNC.Is_set_flag F_EXTERN f = true
  | Some b => UBH_FUNC.Is_set_flag F_EXTERN f = false /\ fget UBH_FUNC._code_idx f = Z.of_nat i - U_ENCODER.num_imports (U_ENCODER._func_tab e) /\
      exists c, U_ENCODER.Get_inst_encoder (Z.of_nat i) e = Ok c /\ stands_for_body b c
  end.
(** The functions of an encoder, one body for each. *)
Record functions_are {bd : Build} (e : U_ENCODER.t) (bs : list (option BODY)) : Prop := {
  fa_length : length bs = length (U_ENCODER._func_tab e);
  fa_function : forall i f b, U_ENCODER._func_tab e !! i = Some f -> bs !! i = Some b -> function_is e i f b;
}.

Lemma functions_single {bd : Build} e f b : U_ENCODER._func_tab e = [f] -> function_is e 0 f b -> functions_are e [b].
Proof. intros E H. split; rewrite E; [reflexivity|]. intros [|i] f' b' Hf Hb; [|discriminate]. injection Hf as <-. injection Hb as <-. exact H. Qed.

Section Written.
Context {bd : Build} {vg : VectorGrowth}.
Import U_ENCODER.

(** [Finish] finishes each body at its place. *)
Lemma Finish_from_lookup v : forall off v' k c, 0 <= off < 2 ^ 32 -> U_INST_ENCODER.Finish_from off v = Ok v' -> v !! k = Some c ->
  exists off' c', 0 <= off' < 2 ^ 32 /\ U_CODE_BODY.Finish off' c = Ok c' /\ v' !! k = Some c'.
Proof.
  induction v as [|c0 v IH]; intros off v' k c Ho H Hk; [discriminate|]. cbn [U_INST_ENCODER.Finish_from] in H.
  destruct (U_CODE_BODY.Finish off c0) as [c1|] eqn:E; [|discriminate]. cbn [mbind outcome_bind] in H.
  destruct (U_INST_ENCODER.Finish_from _ v) as [v1|] eqn:Ev; [|discriminate]. injection H as <-. destruct k as [|k]; cbn [lookup list_lookup] in *.
  - injection Hk as <-. eauto.
  - eapply IH; [|exact Ev | exact Hk]. apply (wrapu_range 32). lia.
Qed.
Lemma Finish_functions e u e' : Finish e = Ok (u, e') -> _func_tab e' = _func_tab e.
Proof.
  unfold Finish. intros H. apply bind_Ok in H as (? & e1 & H1 & H). apply bind_Ok in H as (? & e2 & H2 & H). apply bind_Ok in H as (? & e3 & H3 & H4).
  unfold on_codes, on_module_names, on_global_names, on_nn, on_part in *.
  repeat match goal with H : (match ?x with _ => _ end) = Ok _ |- _ => destruct x as [[? ?]|]; [injection H as _ <-|discriminate H] end.
  reflexivity.
Qed.

Lemma code_idx_range f : 0 <= fget UBH_FUNC._code_idx f < 2 ^ 16.
Proof. exact (fget_fits UBH_FUNC._code_idx eq_refl f). Qed.
(** The body that the index of a function gives. *)
Lemma Get_inst_encoder_at e i f c : fget UBH_FUNC._code_idx f = Z.of_nat i - num_imports (_func_tab e) -> Get_inst_encoder (Z.of_nat i) e = Ok c ->
  _u_inst_encoder e !! Z.to_nat (fget UBH_FUNC._code_idx f) = Some c.
Proof.
  unfold Get_inst_encoder. intros Hi H. rewrite <- Hi in H. destruct (Is_True (num_imports _ <=? _)) as [[]|]; [|discriminate H]. cbn [mbind outcome_bind] in H.
  destruct (Is_True _) as [[]|]; [|discriminate H]. cbn [mbind outcome_bind] in H. rewrite UINT32_id in H.
  - unfold vec_at in H. destruct (_ !! _) as [c'|]; [now injection H as -> | discriminate].
  - pose proof (code_idx_range f). lia.
Qed.

Lemma Get_code_held e m f c : holds e m -> _u_inst_encoder e !! Z.to_nat (fget UBH_FUNC._code_idx f) = Some c ->
  Get_code (_secs m) (fget UBH_FUNC._code_idx f) = Ok (entry_of_body c).
Proof.
  intros Hh Hk. unfold Get_code. rewrite (ho_codes e m Hh). unfold code_entries. apply nthZ_Ok. split; [apply code_idx_range|].
  rewrite list_lookup_fmap. unfold U_INST_ENCODER.t in *. now rewrite Hk.
Qed.

(** The loader's view of the functions. *)
Lemma functions_matched e e' u w total buf m bs : Finish e = Ok (u, e') -> Collect_write_info e' = Ok (w, total) ->
  finished_from (_u_inst_encoder e) e' -> file_fits e' = true -> Write_to_file e = Ok (buf, e') -> Read_sections buf = Ok m ->
  functions_are e bs -> _func_tab e <> [] ->
  holds e' m /\ sec_elem_num (_secs m) S_FUNC = Ok (Z.of_nat (length (_func_sec (_secs m)))) /\
  Forall2 (func_matches (_secs m)) (_func_sec (_secs m)) bs.
Proof.
  intros Hfin Hc Hv Hf Hw Hr [Hl Hfs] Hne. destruct (file_saved e e' u w total Hfin Hc Hv Hf) as (buf' & m' & H1 & _ & H2 & Hh).
  assert (buf' = buf) as -> by congruence. assert (m' = m) as -> by congruence. pose proof (Finish_functions _ _ _ Hfin) as Et.
  split; [exact Hh|]. split; [apply (held_funcs_num e' m Hf Hh); now rewrite Et|]. rewrite (held_funcs e' m Hh), Et.
  apply Forall2_same_length_lookup_2; [now symmetry|]. intros i f b Hi Hb. specialize (Hfs i f b Hi Hb). destruct b as [b|]; [|exact Hfs].
  destruct Hfs as (Hx & Hidx & c & Hget & Hok & Hfinish). split; [exact Hx|]. split; [exact Hok|].
  destruct (Finish_from_lookup _ 0 _ _ c ltac:(lia) (proj1 Hv) (Get_inst_encoder_at e i f c Hidx Hget)) as (off & c' & Ho & Hc' & Hk).
  destruct (Hfinish off Ho) as (c'' & Hc'' & Hent). assert (c'' = c') as -> by congruence. exists (entry_of_body c'). split; [|exact Hent]. now apply Get_code_held with (e := e').
Qed.

(** The numbers of registers are those of the body. *)
Lemma Finish_locals off c c' t : U_CODE_BODY.Finish off c = Ok c' -> locals t (U_CODE_BODY._ubh_code c') = locals t (U_CODE_BODY._ubh_code c).
Proof.
  unfold U_CODE_BODY.Finish. destruct (U_CODE_BODY.check_labels _) as [[]|]; [|discriminate]. intros [= <-]. cbn [U_CODE_BODY._ubh_code].
  destruct t; cbn [locals]; unfold UBH_CODE.Get_i32_local, UBH_CODE.Get_i64_local, UBH_CODE.Get_f32_local, UBH_CODE.Get_f64_local,
    UBH_CODE.Set_label_tab_off, UBH_CODE.Set_inst_tab_off, UBH_CODE.Set_code_size, UBH_CODE.Set_label_num; field_simpl; reflexivity.
Qed.
End Written.
