(* ===== verification/Linker.v ===== *)
(** * The static linker

  [src/static_linker/u_sld.h], [src/static_linker/u_sld.cxx]: native code is taken from a
  shared object and put into a file as its native section; the imports with the names of
  its functions get their places in it.

  The reader of ELF files (ELFIO) is not part of the sources: what it has read from the
  shared object is given, as its sections and symbols.  The command line is not modelled. *)

From S2P Require Import Prelude CInt BitField Bytes Isa Ubh UModule Encoder LocalTable File SysCalls.
From stdpp Require Import strings.
From Stdlib Require Import ZArith Lia.
Local Open Scope Z_scope.

(** ** What ELFIO gives *)
Record ELF_SYMBOL : Set := mkSYM { sym_name : list Z; sym_value : Z; sym_type : Z }.
Record ELF_SECTION : Set := mkSEC {
  es_type : Z;
  es_name : list Z;
  es_offset : Z;
  es_data : list Z;
  es_symbols : list ELF_SYMBOL;      (** of a section of symbols *)
}.
Definition SHT_PROGBITS : Z := 1.
Definition SHT_SYMTAB : Z := 2.
Definition STT_FUNC : Z := 2.
Definition SECTION_ALIGN : Z := 8.

(** ** [U_SLD] *)

(** The module is read from [_buf] and its entries are objects in it. *)
Record U_SLD : Type := mkSLD {
  _u_module : MODULE;
  _buf : list Z;
  _text_sec : option ELF_SECTION;
  _name_import_cache : gmap (list Z) Z;
}.

Section Linker.
Context {bd : Build}.

(** The loop over the imports. *)
Fixpoint import_names (m : MODULE) (is_ : list Z) (cache : gmap (list Z) Z) : outcome (gmap (list Z) Z) :=
  match is_ with
  | [] => mret cache
  | i :: is_ =>
      imp_nat_entry ← nthZ (_imp_nat_sec m) i;
      func ← Get_func (_secs m) (INT32 (UBH_IMP_NAT.Get_func_idx imp_nat_entry));
      func_name ← Get_module_name m (INT32 (UBH_FUNC.Get_name_idx func));
      import_names m is_ (<[func_name := i]> cache)
  end.
(** The buffer keeps offsets: [Set_keep_off]. *)
Definition Open_ubh_file (buf : list Z) : outcome U_SLD :=
  r ← Init_module_from_buffer buf;
  let m := r.1 in
  if negb (Contains_section (_secs m) S_IMP_NAT) then mret (mkSLD m buf None ∅) else
  num ← sec_elem_num (_secs m) S_IMP_NAT;
  cache ← import_names m (seqZ 0 num) ∅;
  mret (mkSLD m buf None cache).

(** A new value of an import's entry. *)
Definition Put_imp_nat (i v : Z) (s : U_SLD) : outcome U_SLD :=
  h ← Get_shdr_by_sec_id (_secs (_u_module s)) S_IMP_NAT;
  _ ← nthZ (_imp_nat_sec (_u_module s)) i;
  buf ← memcpy (_buf s) (UBH_SHDR.Get_idx h + UBH_IMP_NAT.sizeof * i) (Bytes.bytes_of (Z.to_nat UBH_IMP_NAT.sizeof) v);
  mret (mkSLD (Set_sec S_IMP_NAT (<[Z.to_nat i := v]> (_imp_nat_sec (_u_module s))) (_u_module s)) buf
          (_text_sec s) (_name_import_cache s)).

(** One symbol. *)
Definition match_symbol (sym : ELF_SYMBOL) (s : U_SLD) : outcome U_SLD :=
  if negb (sym_type sym =? STT_FUNC) then mret s else
  match _name_import_cache s !! sym_name sym with
  | Some i =>
      import_native_entry ← nthZ (_imp_nat_sec (_u_module s)) i;
      text ← of_option NullFault (_text_sec s);
      Put_imp_nat i (UBH_IMP_NAT.Set_nat_off (sym_value sym - es_offset text)
                       (UBH_IMP_NAT.Set_nat_idx 0 import_native_entry)) s
  | None => mret s
  end.
Fixpoint match_symbols (syms : list ELF_SYMBOL) (s : U_SLD) : outcome U_SLD :=
  match syms with
  | [] => mret s
  | sym :: syms => s ← match_symbol sym s; match_symbols syms s
  end.

(** The last section that is the text. *)
Definition is_text (sec : ELF_SECTION) : bool :=
  (es_type sec =? SHT_PROGBITS) && bool_decide (es_name sec = LocalTable.bytes_of ".text").
Definition find_text (secs : list ELF_SECTION) : option ELF_SECTION :=
  fold_left (fun t sec => if is_text sec then Some sec else t) secs None.
(** An empty table of symbols ends the search. *)
Fixpoint match_sections (secs : list ELF_SECTION) (s : U_SLD) : outcome U_SLD :=
  match secs with
  | [] => mret s
  | sec :: secs =>
      if es_type sec =? SHT_SYMTAB then
        match es_symbols sec with
        | [] => mret s
        | syms => s ← match_symbols syms s; match_sections secs s
        end
      else match_sections secs s
  end.
(** [elf]: the sections of the shared object, if it can be read. *)
Definition Open_so_file (elf : option (list ELF_SECTION)) (s : U_SLD) : outcome U_SLD :=
  secs ← of_option (Exited (-1)) elf;
  let text := match find_text secs with Some t => Some t | None => _text_sec s end in
  match_sections secs (mkSLD (_u_module s) (_buf s) text (_name_import_cache s)).

(** The size of the text in the file. *)
Definition aligned_size (size : Z) : Z :=
  let n := UINT32 size in
  if n mod SECTION_ALIGN =? 0 then n else UINT32 (n + (SECTION_ALIGN - n mod SECTION_ALIGN)).

(** The bytes of the linked file. *)
Definition Link (s : U_SLD) : outcome (list Z) :=
  text ← of_option NullFault (_text_sec s);
  let buf_len := Z.of_nat (length (_buf s)) in
  let text_size := Z.of_nat (length (es_data text)) in
  let aligned_ts_size := aligned_size text_size in
  let nw_buf_size := buf_len + UBH_NAT.sizeof + aligned_ts_size + UBH_SHDR.sizeof in
  let nw_buf := replicate (Z.to_nat nw_buf_size) 0 in
  let shdr_num := UBH_MHDR.Get_shdr_num (_mhdr (_u_module s)) in
  let shdr_off := UINT64 (buf_len - UBH_SHDR.sizeof * shdr_num) in
  old ← bytes_at (_buf s) shdr_off;
  nw_buf ← memcpy nw_buf 0 old;
  nw_buf ← memcpy nw_buf shdr_off (replicate (Z.to_nat (nw_buf_size - shdr_off)) 0);
  let binary_entry := UBH_NAT.UBH_NAT aligned_ts_size UBH_NAT.sizeof 0 in
  nw_buf ← memcpy nw_buf shdr_off (Bytes.bytes_of (Z.to_nat UBH_NAT.sizeof) binary_entry);
  nw_buf ← memcpy nw_buf (shdr_off + UBH_NAT.sizeof) (es_data text);
  let nw_shdr_off := UINT32 (shdr_off + UBH_NAT.sizeof + aligned_ts_size) in
  let p := shdr_off + UBH_NAT.sizeof + aligned_ts_size in
  nw_buf ← memcpy nw_buf p (table_bytes (Z.to_nat UBH_SHDR.sizeof) (take (Z.to_nat shdr_num) (_shdr_tab (_secs (_u_module s)))));
  bin_shdr ← UBH_SHDR.UBH_SHDR SEC_TAG.SEC_BIN 1 (UINT32 shdr_off);
  nw_buf ← memcpy nw_buf (p + shdr_num * UBH_SHDR.sizeof) (Bytes.bytes_of (Z.to_nat UBH_SHDR.sizeof) bin_shdr);
  bs ← bytes_at nw_buf UBH_MHDR.sizeof;
  let mhdr := UBH_MHDR.Set_shdr_off nw_shdr_off (of_bytes bs) in
  let mhdr := UBH_MHDR.Set_shdr_num (UBH_MHDR.Get_shdr_num mhdr + 1) mhdr in
  memcpy nw_buf 0 (Bytes.bytes_of (Z.to_nat UBH_MHDR.sizeof) mhdr).

(** [main]: both files, and the linked one. *)
Definition link_files (buf : list Z) (elf : option (list ELF_SECTION)) : outcome (list Z) :=
  s ← Open_ubh_file buf;
  s ← Open_so_file elf s;
  Link s.
End Linker.
