(* ===== verification/Linked.v ===== *)
(** * Linked files

  The linker on a file of the encoder: an import's entry is changed in place, so that the
  file is that of an encoder with this table of imports; and the file with the native
  section has, besides it, the sections there were. *)

From S2P Require Import Prelude CInt BitField Bytes Isa Ubh UModule StrTab TypeEncoder Encoder Code CodeSec Layout File Saved LocalTable SysCalls Linker.
From Stdlib Require Import ZArith Lia.
Local Open Scope Z_scope.

(** Writing over bytes in the middle. *)
Lemma memcpy_middle a old src c : length src = length old -> memcpy (a ++ old ++ c) (Z.of_nat (length a)) src = Ok (a ++ src ++ c).
Proof.
  intros H. rewrite memcpy_run by (rewrite length_app; lia). rewrite H, drop_app_length. now rewrite <- (assoc_L (++)).
Qed.
Lemma memcpy_at a old src c off : off = Z.of_nat (length a) -> length src = length old ->
  memcpy (a ++ old ++ c) off src = Ok (a ++ src ++ c).
Proof. intros ->. apply memcpy_middle. Qed.

Lemma alter_at {A} (f : A -> A) (l : list A) (i : nat) x : l !! i = Some x -> alter f i l = <[i := f x]> l.
Proof. revert i. induction l as [|y l IH]; intros [|i] H; try discriminate; cbn; [now injection H as -> | f_equal; now apply IH]. Qed.

Section Linked.
Context {bd : Build} {vg : VectorGrowth}.
Import U_ENCODER.

(** ** The table of imports *)
Definition patched (tab : list Z) (e : t) : t := set_imp_nat tab e.
Definition imp_info : SEC_INFO := Build_SEC_INFO S_IMP_NAT SEC_TAG.SEC_IMPORT K_IMPORT_NATIVE UBH_IMP_NAT.sizeof.

Lemma imp_info_in : In imp_info SEC_INFO_ARR.
Proof. cbn. tauto. Qed.

Section Patched.
Variable e : t.
Variable tab : list Z.
Hypothesis same_number : length tab = length (_imp_nat_tab e).

Lemma patched_elems info : elems_of (patched tab e) info = elems_of e info.
Proof. unfold elems_of. destruct (_sec_id info); try reflexivity. cbn. unfold len. now rewrite same_number. Qed.
Lemma patched_sections : sections (patched tab e) = sections e.
Proof. unfold sections, sections_of. apply list_filter_iff. intros info. now rewrite patched_elems. Qed.
Lemma patched_source info : _sec_id info <> S_IMP_NAT -> source_of (patched tab e) info = source_of e info.
Proof. unfold source_of. destruct (_sec_id info); try reflexivity. contradiction. Qed.
Lemma patched_source_length info : length (source_of (patched tab e) info) = length (source_of e info).
Proof.
  destruct (decide (_sec_id info = S_IMP_NAT)) as [E|E]; [|now rewrite patched_source]. unfold source_of. rewrite E.
  rewrite !table_bytes_length. cbn [enc_table]. change (_imp_nat_tab (patched tab e)) with tab. now rewrite same_number.
Qed.
Lemma patched_content infos : S_IMP_NAT ∉ map _sec_id infos -> content (patched tab e) infos = content e infos.
Proof.
  induction infos as [|info infos IH]; intros H; [reflexivity|]. cbn [map] in H. apply not_elem_of_cons in H as [H1 H2].
  rewrite !content_cons, IH by exact H2. now rewrite patched_source by congruence.
Qed.
Lemma patched_content_length infos : length (content (patched tab e) infos) = length (content e infos).
Proof. induction infos as [|info infos IH]; [reflexivity|]. now rewrite !content_cons, !length_app, IH, patched_source_length. Qed.

Lemma patched_fits : file_fits e = true -> Forall (in_u 96) tab -> file_fits (patched tab e) = true.
Proof.
  unfold file_fits. rewrite !andb_true_iff. intros [[H1 H2] H3] Ht. rewrite patched_sections, patched_content_length.
  split; [split; [|exact H2]|exact H3]. rewrite forallb_forall in H1 |- *. intros info Hi.
  specialize (H1 info Hi). destruct (decide (_sec_id info = S_IMP_NAT)) as [E|E].
  - rewrite E in *. unfold table_fits in *. rewrite andb_true_iff in *. cbn [enc_table] in *.
    change (_imp_nat_tab (patched tab e)) with tab. rewrite same_number. split; [|apply H1].
    apply forallb_forall. intros x Hx. apply bool_decide_eq_true. rewrite Forall_forall in Ht. now apply Ht, list_elem_of_In.
  - unfold table_fits in *. destruct (_sec_id info); try exact H1. contradiction.
Qed.
End Patched.

(** The bytes of the table's section in the content. *)
Lemma content_split e k info : sections e !! k = Some info ->
  content e (sections e) = content e (take k (sections e)) ++ source_of e info ++ content e (drop (S k) (sections e)).
Proof.
  intros H. rewrite <- (take_drop_middle _ _ _ H) at 1. unfold content. now rewrite map_app, concat_app.
Qed.
Lemma others_around e k info : sections e !! k = Some info -> _sec_id info = S_IMP_NAT ->
  (S_IMP_NAT ∉ map _sec_id (take k (sections e))) /\ (S_IMP_NAT ∉ map _sec_id (drop (S k) (sections e))).
Proof.
  intros H E. pose proof (sections_NoDup e) as Hd. fold (sections e) in Hd. rewrite <- (take_drop_middle _ _ _ H) in Hd.
  rewrite map_app in Hd. cbn [map] in Hd. rewrite E in Hd. apply NoDup_app in Hd as (_ & Hd & H2). apply NoDup_cons in H2 as [H2 _].
  split; [|exact H2]. intros Hin. exact (Hd _ Hin ltac:(now left)).
Qed.

(** Changing one entry changes its bytes in the file. *)
Lemma file_bytes_put e tab i v k shdrs : length tab = length (_imp_nat_tab e) -> (i < length tab)%nat -> sections e !! k = Some imp_info ->
  memcpy (file_bytes (patched tab e) shdrs) (Z.of_nat (12 + length (content e (take k (sections e)))) + UBH_IMP_NAT.sizeof * Z.of_nat i) (Bytes.bytes_of 12 v)
  = Ok (file_bytes (patched (<[i := v]> tab) e) shdrs).
Proof.
  intros Hl Hi Hk. destruct (others_around e k imp_info Hk eq_refl) as [Ho1 Ho2].
  assert (length (<[i := v]> tab) = length (_imp_nat_tab e)) as Hl' by now rewrite length_insert.
  unfold file_bytes. cbv zeta. rewrite !patched_sections by assumption. rewrite (patched_content_length e tab Hl), (patched_content_length e _ Hl').
  set (hd := Bytes.bytes_of 12 _). assert (length hd = 12%nat) as Hhd by apply bytes_of_length.
  assert (forall tab', length tab' = length (_imp_nat_tab e) -> content (patched tab' e) (sections e) =
    content e (take k (sections e)) ++ table_bytes 12 tab' ++ content e (drop (S k) (sections e))) as Hc.
  { intros tab' Ht. rewrite <- (patched_sections e tab' Ht) at 1. rewrite <- (patched_sections e tab' Ht) in Hk.
    rewrite (content_split _ _ _ Hk), (patched_sections e tab' Ht), !patched_content by assumption. reflexivity. }
  rewrite !Hc by assumption. destruct (lookup_lt_is_Some_2 tab i Hi) as [x Hx].
  rewrite <- (take_drop_middle tab i x Hx) at 1. rewrite insert_take_drop by exact Hi. rewrite !table_bytes_app, !table_bytes_cons.
  rewrite <- !(assoc_L (++)).
  set (a := content e (take k (sections e))). set (b := table_bytes 12 (take i tab)).
  rewrite !(assoc_L (++) hd), !(assoc_L (++) (hd ++ a)). apply memcpy_at; [|now rewrite !bytes_of_length].
  rewrite !length_app, Hhd. unfold b. rewrite table_bytes_length, length_take_le by lia. unfold UBH_IMP_NAT.sizeof. lia.
Qed.

(** ** The linker's state *)

(** [m]: the module read from the file of [e] with the headers [shdrs]; the imports are
  [tab] now. *)
Record linking (e : t) (m : MODULE) (shdrs tab : list Z) (s : U_SLD) : Prop := {
  lk_module : _u_module s = Set_sec S_IMP_NAT tab m;
  lk_buf : _buf s = file_bytes (patched tab e) shdrs;
  lk_tab : length tab = length (_imp_nat_tab e) /\ Forall (in_u 96) tab;
}.

Lemma Set_imp_same tab m : _secs (Set_sec S_IMP_NAT tab m) = _secs m /\ _imp_nat_sec (Set_sec S_IMP_NAT tab m) = tab /\
  _mhdr (Set_sec S_IMP_NAT tab m) = _mhdr m.
Proof. now destruct m as [mh [hs map ty fn code gl da re nn] im ina ex eg mn gn nat]. Qed.
Lemma Set_imp_twice tab tab' m : Set_sec S_IMP_NAT tab' (Set_sec S_IMP_NAT tab m) = Set_sec S_IMP_NAT tab' m.
Proof. now destruct m as [mh [hs map ty fn code gl da re nn] im ina ex eg mn gn nat]. Qed.

Lemma Put_imp_nat_run e m shdrs tab s i v : file_fits e = true -> holds e m -> linking e m shdrs tab s -> (i < length tab)%nat -> in_u 96 v ->
  exists s', Put_imp_nat (Z.of_nat i) v s = Ok s' /\ linking e m shdrs (<[i := v]> tab) s' /\
    _text_sec s' = _text_sec s /\ _name_import_cache s' = _name_import_cache s.
Proof.
  intros Hf Hm [L1 L2 [L3 L4]] Hi Hv. destruct (Set_imp_same tab m) as (S1 & S2 & _).
  assert (imp_info ∈ sections e) as Hin.
  { apply list_elem_of_filter. split; [|apply list_elem_of_In, imp_info_in]. destruct (elems_of_eq e imp_info Hf imp_info_in) as [-> _].
    change (elems e imp_info) with (length (_imp_nat_tab e)). lia. }
  apply list_elem_of_lookup in Hin as [k Hk]. destruct (fd_header _ _ _ (ho_found e m Hm) k imp_info Hk) as (h & H1 & _ & H3).
  rewrite offset_at_content in H3 by exact Hf. pose proof (content_bound e Hf) as Hb.
  assert (length (content e (take k (sections e))) <= length (content e (sections e)))%nat as Hle
    by (rewrite (content_split e k imp_info Hk), !length_app; lia).
  rewrite UINT32_id in H3 by lia.
  change (_sec_id imp_info) with S_IMP_NAT in H1. unfold Put_imp_nat. rewrite L1, S1, H1, bind_ok, S2. destruct (lookup_lt_is_Some_2 tab i Hi) as [x Hx].
  assert (nthZ tab (Z.of_nat i) = Ok x) as -> by (apply nthZ_Ok; split; [lia | now rewrite Nat2Z.id]).
  rewrite bind_ok, H3, L2. change (Z.to_nat UBH_IMP_NAT.sizeof) with 12%nat. rewrite (file_bytes_put e tab i v k shdrs L3 Hi Hk), bind_ok, Nat2Z.id.
  eexists. split; [reflexivity|]. split; [|split; reflexivity]. split; cbn [_u_module _buf].
  - apply Set_imp_twice.
  - reflexivity.
  - split; [now rewrite length_insert|]. apply Forall_insert; assumption.
Qed.

(** ** Symbols *)

(** The table after a symbol, and after some: of the imports by name. *)
Definition entry_at (off value ent : Z) : Z := UBH_IMP_NAT.Set_nat_off (value - off) (UBH_IMP_NAT.Set_nat_idx 0 ent).
Definition link_symbol (cache : gmap (list Z) Z) (off : Z) (tab : list Z) (sym : ELF_SYMBOL) : list Z :=
  if negb (sym_type sym =? STT_FUNC) then tab else
  match cache !! sym_name sym with
  | Some i => alter (entry_at off (sym_value sym)) (Z.to_nat i) tab
  | None => tab
  end.
Definition link_symbols (cache : gmap (list Z) Z) (off : Z) (syms : list ELF_SYMBOL) (tab : list Z) : list Z :=
  fold_left (link_symbol cache off) syms tab.

(** The names are those of entries. *)
Definition cache_fits (cache : gmap (list Z) Z) (n : nat) : Prop := forall name i, cache !! name = Some i -> 0 <= i < Z.of_nat n.

Lemma entry_at_range off value ent : in_u 96 ent -> in_u 96 (entry_at off value ent).
Proof.
  intros H. unfold entry_at, UBH_IMP_NAT.Set_nat_off, UBH_IMP_NAT.Set_nat_idx.
  repeat (apply fset_range; [reflexivity | discriminate|]). exact H.
Qed.

Lemma match_symbol_run e m shdrs tab s sym text : file_fits e = true -> holds e m -> linking e m shdrs tab s ->
  _text_sec s = Some text -> cache_fits (_name_import_cache s) (length tab) ->
  exists s', match_symbol sym s = Ok s' /\ linking e m shdrs (link_symbol (_name_import_cache s) (es_offset text) tab sym) s' /\
    _text_sec s' = _text_sec s /\ _name_import_cache s' = _name_import_cache s.
Proof.
  intros Hf Hm Hl Ht Hc. unfold match_symbol, link_symbol. destruct (negb (_ =? STT_FUNC)); [now exists s|].
  destruct (_name_import_cache s !! sym_name sym) as [i|] eqn:E; [|now exists s].
  pose proof (Hc _ _ E) as Hi. destruct (lookup_lt_is_Some_2 tab (Z.to_nat i) ltac:(lia)) as [x Hx].
  destruct (Set_imp_same tab m) as (_ & S2 & _). rewrite (lk_module _ _ _ _ _ Hl), S2.
  assert (nthZ tab i = Ok x) as -> by (apply nthZ_Ok; split; [lia | exact Hx]).
  rewrite bind_ok, Ht. cbn [of_option]. rewrite bind_ok. fold (entry_at (es_offset text) (sym_value sym) x).
  assert (in_u 96 x) as Hr by exact (Forall_lookup_1 _ _ _ _ (proj2 (lk_tab _ _ _ _ _ Hl)) Hx).
  destruct (Put_imp_nat_run e m shdrs tab s (Z.to_nat i) _ Hf Hm Hl ltac:(lia) (entry_at_range (es_offset text) (sym_value sym) x Hr)) as (s' & H1 & H2 & H3 & H4).
  rewrite Z2Nat.id in H1 by lia. exists s'. split; [exact H1|]. split; [|split; [congruence | exact H4]].
  rewrite (alter_at _ tab (Z.to_nat i) x Hx). exact H2.
Qed.

Lemma link_symbol_length cache off tab sym : length (link_symbol cache off tab sym) = length tab.
Proof. unfold link_symbol. destruct (negb _); [reflexivity|]. destruct (cache !! _); [apply length_alter | reflexivity]. Qed.
Lemma link_symbols_length cache off syms : forall tab, length (link_symbols cache off syms tab) = length tab.
Proof.
  induction syms as [|sym syms IH]; intros tab; [reflexivity|].
  change (link_symbols cache off (sym :: syms) tab) with (link_symbols cache off syms (link_symbol cache off tab sym)).
  now rewrite IH, link_symbol_length.
Qed.

Lemma match_symbols_run e m shdrs text syms : file_fits e = true -> holds e m -> forall tab s, linking e m shdrs tab s ->
  _text_sec s = Some text -> cache_fits (_name_import_cache s) (length tab) ->
  exists s', match_symbols syms s = Ok s' /\ linking e m shdrs (link_symbols (_name_import_cache s) (es_offset text) syms tab) s' /\
    _text_sec s' = _text_sec s /\ _name_import_cache s' = _name_import_cache s.
Proof.
  intros Hf Hm. induction syms as [|sym syms IH]; intros tab s Hl Ht Hc; [now exists s|].
  destruct (match_symbol_run e m shdrs tab s sym text Hf Hm Hl Ht Hc) as (s1 & H1 & H2 & H3 & H4).
  destruct (IH _ s1 H2) as (s' & G1 & G2 & G3 & G4); [congruence | now rewrite H4, link_symbol_length|].
  exists s'. cbn [match_symbols]. rewrite H1, bind_ok. split; [exact G1|]. rewrite H4 in G2. split; [exact G2|]. split; congruence.
Qed.

(** The symbols that are looked at: until a table without any. *)
Fixpoint searched (secs : list ELF_SECTION) : list ELF_SYMBOL :=
  match secs with
  | [] => []
  | sec :: secs =>
      if es_type sec =? SHT_SYMTAB then match es_symbols sec with [] => [] | syms => syms ++ searched secs end else searched secs
  end.

Lemma match_sections_run e m shdrs text secs : file_fits e = true -> holds e m -> forall tab s, linking e m shdrs tab s ->
  _text_sec s = Some text -> cache_fits (_name_import_cache s) (length tab) ->
  exists s', match_sections secs s = Ok s' /\ linking e m shdrs (link_symbols (_name_import_cache s) (es_offset text) (searched secs) tab) s' /\
    _text_sec s' = Some text.
Proof.
  intros Hf Hm. induction secs as [|sec secs IH]; intros tab s Hl Ht Hc; [now exists s|]. cbn [match_sections searched].
  destruct (_ =? SHT_SYMTAB); [|now apply IH]. destruct (es_symbols sec) as [|sym syms] eqn:E; [now exists s|]. rewrite <- E.
  destruct (match_symbols_run e m shdrs text (es_symbols sec) Hf Hm tab s Hl Ht Hc) as (s1 & H1 & H2 & H3 & H4).
  destruct (IH _ s1 H2) as (s' & G1 & G2 & G3); [congruence | now rewrite H4, link_symbols_length|].
  rewrite H1, bind_ok. exists s'. split; [exact G1|]. split; [|exact G3].
  unfold link_symbols in *. rewrite fold_left_app. rewrite H4 in G2. exact G2.
Qed.

(** What the entry of an import is after the last symbol of its name. *)
Lemma entry_at_fields off value x : UBH_IMP_NAT.Get_func_idx (entry_at off value x) = UBH_IMP_NAT.Get_func_idx x /\
  UBH_IMP_NAT.Get_nat_idx (entry_at off value x) = 0 /\ UBH_IMP_NAT.Get_nat_off (entry_at off value x) = wrapu 24 (value - off).
Proof.
  unfold entry_at, UBH_IMP_NAT.Set_nat_off, UBH_IMP_NAT.Set_nat_idx, UBH_IMP_NAT.Get_func_idx, UBH_IMP_NAT.Get_nat_idx, UBH_IMP_NAT.Get_nat_off.
  repeat split; field_simpl; reflexivity.
Qed.
Lemma link_symbol_at cache off tab sym i x : cache_fits cache (length tab) -> tab !! Z.to_nat i = Some x -> exists y, link_symbol cache off tab sym !! Z.to_nat i = Some y /\
  UBH_IMP_NAT.Get_func_idx y = UBH_IMP_NAT.Get_func_idx x /\
  (sym_type sym = STT_FUNC -> cache !! sym_name sym = Some i -> y = entry_at off (sym_value sym) x) /\
  (0 <= i -> (sym_type sym = STT_FUNC -> cache !! sym_name sym <> Some i) -> y = x).
Proof.
  intros Hc Hx. unfold link_symbol. destruct (Z.eqb_spec (sym_type sym) STT_FUNC) as [Et|Et]; cbn [negb]; [|now exists x].
  destruct (cache !! sym_name sym) as [j|] eqn:E; [|exists x; repeat split; auto; discriminate]. pose proof (Hc _ _ E).
  destruct (decide (Z.to_nat j = Z.to_nat i)) as [Ej|Ej].
  - exists (entry_at off (sym_value sym) x). rewrite Ej, list_lookup_alter_eq, Hx. split; [reflexivity|]. split; [apply entry_at_fields|].
    split; [auto|]. intros Hi H1. destruct (H1 Et). f_equal. lia.
  - exists x. rewrite list_lookup_alter_ne by congruence. split; [exact Hx|]. split; [reflexivity|]. split; [|auto]. intros _ [= ->]. contradiction.
Qed.
Lemma link_symbols_at cache off syms i : 0 <= i -> forall tab x, cache_fits cache (length tab) -> tab !! Z.to_nat i = Some x ->
  exists y, link_symbols cache off syms tab !! Z.to_nat i = Some y /\ UBH_IMP_NAT.Get_func_idx y = UBH_IMP_NAT.Get_func_idx x /\
  ((forall sym, sym ∈ syms -> sym_type sym = STT_FUNC -> cache !! sym_name sym <> Some i) -> y = x).
Proof.
  intros Hi. induction syms as [|sym syms IH]; intros tab x Hc Hx; [now exists x|].
  destruct (link_symbol_at cache off tab sym i x Hc Hx) as (y & H1 & H2 & _ & H4).
  destruct (IH (link_symbol cache off tab sym) y) as (z & G1 & G2 & G3); [now rewrite link_symbol_length | exact H1|].
  exists z. split; [exact G1|]. split; [congruence|]. intros H. rewrite G3; [apply H4; [exact Hi | apply H; now left]|].
  intros sym' Hs'. apply H. now right.
Qed.
Lemma link_symbols_last cache off tab before sym after i ent : cache_fits cache (length tab) -> sym_type sym = STT_FUNC ->
  cache !! sym_name sym = Some i -> tab !! Z.to_nat i = Some ent ->
  (forall sym', sym' ∈ after -> sym_type sym' = STT_FUNC -> cache !! sym_name sym' <> Some i) ->
  exists x, link_symbols cache off (before ++ sym :: after) tab !! Z.to_nat i = Some (entry_at off (sym_value sym) x) /\
    UBH_IMP_NAT.Get_func_idx x = UBH_IMP_NAT.Get_func_idx ent.
Proof.
  intros Hc Ht Hi Hent Hafter. pose proof (proj1 (Hc _ _ Hi)) as H0.
  destruct (link_symbols_at cache off before i H0 tab ent Hc Hent) as (x & H1 & H2 & _). exists x. split; [|exact H2].
  assert (link_symbols cache off (before ++ sym :: after) tab =
    link_symbols cache off after (link_symbol cache off (link_symbols cache off before tab) sym)) as -> by (unfold link_symbols; now rewrite fold_left_app).
  assert (cache_fits cache (length (link_symbols cache off before tab))) as Hc1 by now rewrite link_symbols_length.
  destruct (link_symbol_at cache off _ sym i x Hc1 H1) as (y & G1 & _ & G3 & _). rewrite <- (G3 Ht Hi).
  destruct (link_symbols_at cache off after i H0 (link_symbol cache off (link_symbols cache off before tab) sym) y) as (z & K1 & _ & K3);
    [now rewrite link_symbol_length | exact G1|]. rewrite K1. now rewrite (K3 Hafter).
Qed.

(** ** The names of the imports *)
Lemma import_names_run m is_ : forall cache cache', import_names m is_ cache = Ok cache' -> forall name,
  (exists i, cache' !! name = Some i /\ i ∈ is_) \/ cache' !! name = cache !! name.
Proof.
  induction is_ as [|i is_ IH]; intros cache cache' H name; cbn [import_names] in H; [injection H as <-; now right|].
  destruct (nthZ _ i); [|discriminate]. rewrite bind_ok in H. destruct (Get_func _ _); [|discriminate]. rewrite bind_ok in H.
  destruct (Get_module_name _ _) as [nm|]; [|discriminate]. rewrite bind_ok in H.
  destruct (IH _ _ H name) as [(j & Hj & Hin)|Hr]; [left; exists j; split; [exact Hj | now right]|].
  destruct (decide (nm = name)) as [->|Hne]; [|right; now rewrite lookup_insert_ne in Hr].
  left. exists i. rewrite lookup_insert_eq in Hr. split; [exact Hr | now left].
Qed.
Lemma import_names_fit m n cache : import_names m (seqZ 0 (Z.of_nat n)) ∅ = Ok cache -> cache_fits cache n.
Proof.
  intros H name i Hi. destruct (import_names_run _ _ _ _ H name) as [(j & Hj & Hin)|Hr].
  - assert (j = i) as -> by congruence. apply elem_of_seqZ in Hin. lia.
  - rewrite Hr, lookup_empty in Hi. discriminate.
Qed.

(** ** The linked file *)
Lemma aligned_size_run n : 0 <= n < 2 ^ 26 -> n <= aligned_size n < n + 8.
Proof.
  intros H. change (2 ^ 26) with 67108864 in H. unfold aligned_size. change SECTION_ALIGN with 8. rewrite (UINT32_id n) by lia.
  pose proof (Z.mod_pos_bound n 8 ltac:(lia)). destruct (Z.eqb_spec (n mod 8) 0); [lia|]. rewrite UINT32_id by lia. lia.
Qed.

(** The header after the linker changed it. *)
Definition linked_header (n off off' : Z) : Z :=
  let mhdr := UBH_MHDR.Set_shdr_off off' (file_header n off) in
  UBH_MHDR.Set_shdr_num (UBH_MHDR.Get_shdr_num mhdr + 1) mhdr.
Lemma linked_header_run n off off' : 0 <= n < 63 -> 0 <= off < 2 ^ 26 -> 0 <= off' < 2 ^ 26 ->
  in_u 96 (linked_header n off off') /\ UBH_MHDR.Get_umagic (linked_header n off off') = UBH_MHDR.magic_word /\
  UBH_MHDR.Get_shdr_num (linked_header n off off') = n + 1 /\ UBH_MHDR.Get_shdr_off (linked_header n off off') = off'.
Proof.
  intros Hn Ho Ho'. destruct (file_header_run n off ltac:(lia) Ho) as (H1 & H2 & H3 & H4). unfold linked_header. cbv zeta.
  assert (UBH_MHDR.Get_shdr_num (UBH_MHDR.Set_shdr_off off' (file_header n off)) = n) as ->.
  { rewrite <- H3 at 2. unfold UBH_MHDR.Get_shdr_num, UBH_MHDR.Set_shdr_off. field_simpl. reflexivity. }
  unfold UBH_MHDR.Get_umagic, UBH_MHDR.Get_shdr_num, UBH_MHDR.Get_shdr_off, UBH_MHDR.Set_shdr_num, UBH_MHDR.Set_shdr_off in *.
  split; [do 2 (apply fset_range; [reflexivity | discriminate|]); exact H1|].
  split; [field_simpl; exact H2|]. split; field_simpl; apply wrapu_id; split; cbn; lia.
Qed.

(** The native section: an entry, the code and zeros. *)
Definition nat_entry_of (td : list Z) : Z := UBH_NAT.UBH_NAT (aligned_size (Z.of_nat (length td))) UBH_NAT.sizeof 0.
Definition padded (td : list Z) : list Z := td ++ replicate (Z.to_nat (aligned_size (Z.of_nat (length td))) - length td) 0.
Definition native_bytes (td : list Z) : list Z := Bytes.bytes_of 16 (nat_entry_of td) ++ padded td.

Lemma padded_length td : Z.of_nat (length td) < 2 ^ 26 -> Z.of_nat (length (padded td)) = aligned_size (Z.of_nat (length td)).
Proof. intros H. pose proof (aligned_size_run (Z.of_nat (length td)) ltac:(lia)). unfold padded. rewrite length_app, length_replicate. lia. Qed.

Definition linked_bytes (e : t) (shdrs td : list Z) (bin : Z) : list Z :=
  let body := content e (sections e) in
  let off := 12 + Z.of_nat (length body) in
  Bytes.bytes_of 12 (linked_header (Z.of_nat (length shdrs)) off (off + 16 + aligned_size (Z.of_nat (length td))))
  ++ body ++ native_bytes td ++ table_bytes 8 (shdrs ++ [bin]).

Lemma replicate_split {A} (x : A) n k : (k <= n)%nat -> replicate n x = replicate k x ++ replicate (n - k) x.
Proof. intros H. rewrite <- replicate_add. f_equal. lia. Qed.
Lemma memcpy_zeros pre n off src : off = Z.of_nat (length pre) -> (length src <= n)%nat ->
  memcpy (pre ++ replicate n 0) off src = Ok ((pre ++ src) ++ replicate (n - length src) 0).
Proof. intros -> H. rewrite memcpy_run by (now rewrite length_replicate). now rewrite drop_replicate. Qed.

Lemma table_bytes_snoc size tab x : table_bytes size (tab ++ [x]) = table_bytes size tab ++ Bytes.bytes_of size x.
Proof. rewrite table_bytes_app. f_equal. apply app_nil_r. Qed.
Lemma memcpy_fresh n src : (length src <= n)%nat -> memcpy (replicate n 0) 0 src = Ok (src ++ replicate (n - length src) 0).
Proof. exact (memcpy_zeros [] n 0 src eq_refl). Qed.

Lemma Link_run e s text shdrs bin : file_fits e = true -> (length shdrs <= 13)%nat ->
  _buf s = file_bytes e shdrs -> _text_sec s = Some text -> UBH_MHDR.Get_shdr_num (_mhdr (_u_module s)) = Z.of_nat (length shdrs) ->
  _shdr_tab (_secs (_u_module s)) = shdrs ->
  Z.of_nat (length (es_data text)) < 2 ^ 26 ->
  12 + Z.of_nat (length (content e (sections e))) + 16 + aligned_size (Z.of_nat (length (es_data text))) < 2 ^ 26 ->
  UBH_SHDR.UBH_SHDR SEC_TAG.SEC_BIN 1 (12 + Z.of_nat (length (content e (sections e)))) = Ok bin ->
  Link s = Ok (linked_bytes e shdrs (es_data text) bin).
Proof.
  intros Hf Hn Hbuf Ht Hnum Htab Htd Hroom Hbin. set (td := es_data text) in *.
  pose proof (aligned_size_run (Z.of_nat (length td)) ltac:(lia)) as Hal. pose proof (padded_length td Htd) as Hpad.
  set (body := content e (sections e)) in *. set (n := length shdrs) in *. set (al := aligned_size (Z.of_nat (length td))) in *.
  set (hd := Bytes.bytes_of 12 (file_header (Z.of_nat n) (12 + Z.of_nat (length body)))).
  assert (file_bytes e shdrs = hd ++ body ++ table_bytes 8 shdrs) as Eb by reflexivity.
  assert (length hd = 12%nat) as Hhd by apply bytes_of_length.
  assert (length (_buf s) = (12 + length body + 8 * n)%nat) as Hlen by (rewrite Hbuf, Eb, !length_app, table_bytes_length; lia).
  unfold Link. rewrite Ht. cbn [of_option]. rewrite bind_ok. cbv zeta. fold td al. rewrite Hnum, Htab, Hlen.
  change UBH_SHDR.sizeof with 8. change UBH_NAT.sizeof with 16. 
  replace (Z.of_nat (12 + length body + 8 * n) - 8 * Z.of_nat n) with (12 + Z.of_nat (length body)) by lia.
  unfold UINT64. rewrite wrapu_id by (split; lia).
  assert (bytes_at (_buf s) (12 + Z.of_nat (length body)) = Ok (hd ++ body)) as ->.
  { unfold bytes_at. rewrite decide_True by lia. rewrite Hbuf, Eb, (assoc_L (++)). f_equal. apply take_app_length'. rewrite length_app. lia. }
  rewrite bind_ok. set (M := (16 + Z.to_nat al + 8 * n + 8)%nat).
  assert (length (hd ++ body) = (12 + length body)%nat) as Hhb by (rewrite length_app; lia).
  replace (Z.to_nat (Z.of_nat (12 + length body + 8 * n) + 16 + al + 8)) with (length (hd ++ body) + M)%nat by lia.
  replace (Z.to_nat (Z.of_nat (12 + length body + 8 * n) + 16 + al + 8 - (12 + Z.of_nat (length body)))) with M by lia.
  rewrite memcpy_fresh by lia. rewrite bind_ok.
  replace (length (hd ++ body) + M - length (hd ++ body))%nat with M by lia.
  rewrite (memcpy_zeros (hd ++ body) M) by (rewrite ?length_replicate; lia).
  rewrite bind_ok, length_replicate, Nat.sub_diag. cbn [replicate]. rewrite app_nil_r.
  change (Z.to_nat 16) with 16%nat. change (UBH_NAT.UBH_NAT al 16 0) with (nat_entry_of td).
  set (nat := Bytes.bytes_of 16 (nat_entry_of td)). assert (length nat = 16%nat) as Hnat by apply bytes_of_length.
  rewrite memcpy_zeros by lia. rewrite bind_ok, memcpy_zeros by (rewrite ?length_app; lia). rewrite bind_ok.
  set (K := (M - length nat - length td)%nat).
  rewrite (replicate_split 0 K (Z.to_nat al - length td)), (assoc_L (++)) by lia.
  assert ((((hd ++ body) ++ nat) ++ td) ++ replicate (Z.to_nat al - length td) 0 = (hd ++ body) ++ native_bytes td) as ->.
  { unfold native_bytes, padded. fold al nat. now rewrite <- !(assoc_L (++)). }
  change (Z.to_nat 8) with 8%nat. rewrite Nat2Z.id, take_ge by lia.
  assert (length (native_bytes td) = (16 + Z.to_nat al)%nat) as Hnb by (unfold native_bytes; rewrite length_app, bytes_of_length; lia).
  rewrite memcpy_zeros by (rewrite ?(length_app _ (native_bytes td)), ?table_bytes_length; fold n; lia). rewrite bind_ok.
  rewrite (UINT32_id (12 + Z.of_nat (length body))), (UINT32_id (12 + Z.of_nat (length body) + 16 + al)) by lia. rewrite Hbin, bind_ok.
  rewrite memcpy_zeros by (rewrite ?(length_app _ (table_bytes _ _)), ?(length_app _ (native_bytes td)), ?table_bytes_length, ?bytes_of_length; fold n; lia).
  rewrite bind_ok, table_bytes_length, bytes_of_length. fold n.
  replace (K - (Z.to_nat al - length td) - 8 * n - 8)%nat with O by lia. cbn [replicate]. rewrite app_nil_r.
  rewrite <- (assoc_L (++) _ (table_bytes 8 shdrs)), <- table_bytes_snoc.
  set (tail := table_bytes 8 _). assert (bytes_at (((hd ++ body) ++ native_bytes td) ++ tail) UBH_MHDR.sizeof = Ok hd) as ->.
  { unfold bytes_at. change (Z.to_nat UBH_MHDR.sizeof) with 12%nat. rewrite decide_True by (rewrite !length_app; lia).
    rewrite <- !(assoc_L (++)). now rewrite take_app_length' by exact Hhd. }
  rewrite bind_ok. destruct (file_header_run (Z.of_nat n) (12 + Z.of_nat (length body)) ltac:(lia) ltac:(lia)) as (Hhr & _).
  unfold hd at 2 3. rewrite (of_bytes_of 12 _ Hhr). change (Z.to_nat UBH_MHDR.sizeof) with 12%nat.
  fold (linked_header (Z.of_nat n) (12 + Z.of_nat (length body)) (12 + Z.of_nat (length body) + 16 + al)).
  rewrite <- !(assoc_L (++)). rewrite <- (app_nil_l (hd ++ _)).
  rewrite (memcpy_at [] hd _ _ 0) by (reflexivity || now rewrite !bytes_of_length). reflexivity.
Qed.

(** ** Reading it *)

(** The header of the native section after the others. *)
Lemma bin_header_run off : exists bin, UBH_SHDR.UBH_SHDR SEC_TAG.SEC_BIN 1 off = Ok bin /\ in_u 64 bin /\
  Get_sec_id_from_header bin = Ok S_NAT /\ UBH_SHDR.Have_sec bin = true /\ UBH_SHDR.Get_elem_num bin = Ok 1 /\ UBH_SHDR.Get_idx bin = UINT32 off.
Proof.
  destruct (UBH_SHDR_run SEC_TAG.SEC_BIN 1 off eq_refl) as (h & Hh & Htag & Hn & Hkind & Hidx). exists h. split; [exact Hh|].
  split; [exact (shdr_range _ _ _ _ Hh)|]. split; [unfold Get_sec_id_from_header; now rewrite Htag|].
  split; [unfold UBH_SHDR.Have_sec; now rewrite Htag|]. split; [exact Hn | exact Hidx].
Qed.

Lemma section_map_snoc hs bin id : Get_sec_id_from_header bin = Ok id -> UBH_SHDR.Have_sec bin = true ->
  forall i m, section_map i hs = Ok m -> section_map i (hs ++ [bin]) = Ok (m ++ [(id, i + Z.of_nat (length hs))]).
Proof.
  intros Hb Hs. induction hs as [|h hs IH]; intros i m H; cbn [app section_map length] in *.
  - injection H as <-. rewrite Hs, Hb, bind_ok. cbn. do 3 f_equal. lia.
  - replace (i + Z.of_nat (S (length hs))) with (i + 1 + Z.of_nat (length hs)) by lia. destruct (UBH_SHDR.Have_sec h); [|now apply IH].
    destruct (Get_sec_id_from_header h); [|discriminate]. rewrite bind_ok in *.
    destruct (section_map (i + 1) hs) as [m1|] eqn:E1; [|discriminate]. rewrite (IH _ m1 E1), bind_ok. rewrite bind_ok in H.
    unfold mret, outcome_ret in *. now injection H as <-.
Qed.

(** The headers [s] with that of the native section after them. *)
Record extended (s s' : SECTIONS) (bin : Z) : Prop := {
  ex_tab : _shdr_tab s' = _shdr_tab s ++ [bin];
  ex_map : _sec_sec_header_map s' = _sec_sec_header_map s ++ [(S_NAT, Z.of_nat (length (_shdr_tab s)))];
}.

Lemma Set_shdr_extended shdrs bin s0 s : Get_sec_id_from_header bin = Ok S_NAT -> UBH_SHDR.Have_sec bin = true ->
  Set_shdr_tab shdrs s0 = Ok s -> exists s', Set_shdr_tab (shdrs ++ [bin]) s0 = Ok s' /\ extended s s' bin.
Proof.
  intros Hb Hh H. unfold Set_shdr_tab in *. destruct (section_map 0 shdrs) as [m|] eqn:E; [|discriminate]. injection H as <-.
  rewrite (section_map_snoc shdrs bin S_NAT Hb Hh 0 m E), bind_ok. eexists. split; [reflexivity|]. split; reflexivity.
Qed.
Lemma extended_contains s s' bin id : extended s s' bin -> Contains_section s' id = true <-> Contains_section s id = true \/ id = S_NAT.
Proof.
  intros [_ Hm]. unfold Contains_section. rewrite Hm, existsb_app, orb_true_iff. cbn [existsb fst]. rewrite orb_false_r, bool_decide_eq_true.
  split; (intros [H|H]; [now left | now right]).
Qed.
Lemma extended_header s s' bin id h : extended s s' bin -> id <> S_NAT -> Get_shdr_by_sec_id s id = Ok h -> Get_shdr_by_sec_id s' id = Ok h.
Proof.
  intros Hx Hne H. pose proof (extended_contains s s' bin id Hx) as Hc. destruct Hx as [Ht Hm].
  unfold Get_shdr_by_sec_id, Get_shdr_idx in *.
  assert (Contains_section s' id = Contains_section s id) as ->.
  { apply eq_true_iff_eq. rewrite Hc. split; [intros [?|?]; [assumption | contradiction] | now left]. }
  rewrite Hm, rev_unit. cbn [find fst]. rewrite bool_decide_eq_false_2 by congruence.
  destruct (Is_True _); [|discriminate]. rewrite bind_ok in *. destruct (find _ _) as [[x i]|]; [|discriminate].
  cbn [mret outcome_ret] in *. rewrite bind_ok in *. apply nthZ_Ok in H as [H0 H1]. apply nthZ_Ok. split; [exact H0|].
  rewrite Ht. now apply lookup_app_l_Some.
Qed.
Lemma extended_native s s' bin : extended s s' bin -> Get_shdr_by_sec_id s' S_NAT = Ok bin.
Proof.
  intros Hx. pose proof (proj2 (extended_contains s s' bin S_NAT Hx) (or_intror eq_refl)) as Hc. destruct Hx as [Ht Hm].
  unfold Get_shdr_by_sec_id, Get_shdr_idx. rewrite Hc, Is_True_true, bind_ok, Hm, rev_unit. cbn [find fst].
  rewrite bool_decide_eq_true_2 by reflexivity. cbn [mret outcome_ret]. rewrite bind_ok. apply nthZ_Ok. split; [lia|].
  now rewrite Nat2Z.id, Ht, lookup_app_r, Nat.sub_diag by lia.
Qed.

Lemma nat_entry_run td : Z.of_nat (length td) < 2 ^ 26 -> in_u 128 (nat_entry_of td) /\
  UBH_NAT.Byte_number (nat_entry_of td) = aligned_size (Z.of_nat (length td)) /\ UBH_NAT.Buf_offset (nat_entry_of td) = UBH_NAT.sizeof.
Proof.
  intros H. pose proof (aligned_size_run (Z.of_nat (length td)) ltac:(lia)).
  unfold nat_entry_of, UBH_NAT.UBH_NAT, UBH_NAT.Byte_number, UBH_NAT.Buf_offset.
  split; [repeat (apply fset_range; [reflexivity | discriminate|]); split; reflexivity|].
  split; field_simpl; [apply wrapu_id; split; cbn; lia | reflexivity].
Qed.

Lemma Set_nat_sec_run td post m : Z.of_nat (length td) < 2 ^ 26 -> sec_elem_num (_secs m) S_NAT = Ok 1 ->
  Set_nat_sec (native_bytes td ++ post) m = Ok (set_nats [mkNAT (nat_entry_of td) (padded td)] m).
Proof.
  intros Htd Hn. destruct (nat_entry_run td Htd) as (R & B & O). pose proof (padded_length td Htd) as Hp.
  unfold Set_nat_sec. rewrite Hn, bind_ok. change (Z.to_nat 1) with 1%nat. cbn [read_nats].
  change (drop (Z.to_nat 0) (native_bytes td ++ post)) with (native_bytes td ++ post).
  unfold native_bytes. rewrite <- (assoc_L (++)).
  assert (forall l, bytes_at (Bytes.bytes_of 16 (nat_entry_of td) ++ l) UBH_NAT.sizeof = Ok (Bytes.bytes_of 16 (nat_entry_of td))) as E1.
  { intros l. unfold bytes_at. change (Z.to_nat UBH_NAT.sizeof) with 16%nat. rewrite decide_True by (rewrite length_app, bytes_of_length; lia).
    now rewrite take_app_length' by now rewrite bytes_of_length. }
  rewrite E1, bind_ok. cbv zeta. rewrite (of_bytes_of 16 _ R), B, O. change (Z.to_nat UBH_NAT.sizeof) with 16%nat.
  rewrite drop_app_length' by now rewrite bytes_of_length.
  assert (bytes_at (padded td ++ post) (aligned_size (Z.of_nat (length td))) = Ok (padded td)) as ->.
  { unfold bytes_at. rewrite decide_True by (rewrite length_app; lia). f_equal. apply take_app_length'. lia. }
  reflexivity.
Qed.

Lemma Init_sections_app buf hs1 hs2 m : Init_sections buf (hs1 ++ hs2) m = (m1 ← Init_sections buf hs1 m; Init_sections buf hs2 m1).
Proof.
  revert m. induction hs1 as [|h hs1 IH]; intros m; [reflexivity|]. cbn [app Init_sections].
  destruct (Init_section buf h m); [|reflexivity]. rewrite !bind_ok. apply IH.
Qed.

(** What the loader has from a linked file. *)
Record linked_holds (e : t) (td : list Z) (m : MODULE) : Prop := {
  lh_tables : forall id, sec_table m id = enc_table e id;
  lh_codes : _code_sec (_secs m) = code_entries e;
  lh_natives : _nat_sec m = [mkNAT (nat_entry_of td) (padded td)];
  lh_sections : forall id, Contains_section (_secs m) id = true <-> id ∈ map _sec_id (sections e) \/ id = S_NAT;
  lh_numbers : forall info, info ∈ sections e -> sec_elem_num (_secs m) (_sec_id info) = Ok (Z.of_nat (elems e info));
}.

Lemma sec_id_not_native e info : info ∈ sections e -> _sec_id info <> S_NAT.
Proof.
  intros H%list_elem_of_In%sections_in. intros E. repeat (destruct H as [<-|H]; [discriminate E|]). destruct H.
Qed.

Section Reading.
Variable v : U_INST_ENCODER.t.
Variable e : t.
Variables hs rest td : list Z.
Variable bin : Z.
Hypothesis finished : finished_from v e.
Hypothesis fits : file_fits e = true.
Hypothesis headers : length hs = length (sections e) /\ (length (hs ++ rest) <= 13)%nat /\ Forall (in_u 64) (hs ++ rest) /\
  (forall h, In h rest -> UBH_SHDR.Have_sec h = false).
Hypothesis described : forall k info, sections e !! k = Some info -> exists h, hs !! k = Some h /\
  describes e (Z.of_nat (12 + length (content e (take k (sections e))))) info h.
Hypothesis text_small : Z.of_nat (length td) < 2 ^ 26.
Hypothesis room : 12 + Z.of_nat (length (content e (sections e))) + 16 + aligned_size (Z.of_nat (length td)) < 2 ^ 26.
Hypothesis native_header : UBH_SHDR.UBH_SHDR SEC_TAG.SEC_BIN 1 (12 + Z.of_nat (length (content e (sections e)))) = Ok bin.

Let buf : list Z := linked_bytes e (hs ++ rest) td bin.
Let off : Z := 12 + Z.of_nat (length (content e (sections e))).

Lemma headers_found : exists s s', Set_shdr_tab (hs ++ rest) no_sections = Ok s /\ Set_shdr_tab ((hs ++ rest) ++ [bin]) no_sections = Ok s' /\
  extended s s' bin /\ found e (sections e) s.
Proof.
  destruct headers as (H1 & H2 & H3 & H4).
  destruct (found_run e (sections e) hs rest no_sections (sections_NoDup e) H1) as (s & Hs & Hf); [|exact H4|].
  { intros k info Hk. destruct (described k info Hk) as (h & Hh & D). exists h. split; [exact Hh|]. now rewrite offset_at_content. }
  destruct (bin_header_run (12 + Z.of_nat (length (content e (sections e))))) as (b & Hb & _ & B2 & B3 & _).
  rewrite native_header in Hb. injection Hb as <-.
  destruct (Set_shdr_extended (hs ++ rest) bin no_sections s B2 B3 Hs) as (s' & Hs' & Hx). exists s, s'. auto.
Qed.

(** Without the native section. *)
Lemma linked_sections s s' mh hd post : extended s s' bin -> found e (sections e) s -> length hd = 12%nat ->
  Init_sections (hd ++ content e (sections e) ++ post) (hs ++ rest) (mkMODULE mh s' [] [] [] [] [] [] []) =
    Ok (put_sections e (sections e) (mkMODULE mh s' [] [] [] [] [] [] [])) /\
  forall id k, id <> S_NAT -> sec_elem_num s id = Ok k -> sec_elem_num s' id = Ok k.
Proof.
  intros Hx Hf Hhd. destruct headers as (H1 & H2 & H3 & H4). pose proof (content_bound e fits) as Hb.
  assert (forall id k, id <> S_NAT -> sec_elem_num s id = Ok k -> sec_elem_num s' id = Ok k) as Hnum.
  { intros id k Hne. unfold sec_elem_num. destruct (Get_shdr_by_sec_id s id) as [h|] eqn:E; [|discriminate].
    now rewrite (extended_header s s' bin id h Hx Hne E). }
  split; [|exact Hnum]. apply (Init_sections_run v); try assumption.
  - intros info Hin. exact (sections_in e _ info Hin).
  - lia.
  - rewrite Hhd. intros k info Hk. destruct (described k info Hk) as (h & Hh & D). rewrite Nat2Z.inj_add in *. now exists h.
  - intros Hc%list_elem_of_In. apply list_elem_of_fmap in Hc as (info & E & Hc). split.
    + apply (extended_contains s s' bin S_CODE Hx). left. apply (fd_contains _ _ _ Hf). apply list_elem_of_fmap. now exists info.
    + pose proof (sections_in e SEC_INFO_ARR info (proj1 (list_elem_of_In _ _) Hc)) as Hin.
      pose proof (found_numbers e _ s info Hf fits Hin Hc) as H. unfold elems in H. rewrite <- E in H. now apply Hnum.
Qed.

Lemma linked_read : exists m', Read_sections buf = Ok m' /\ linked_holds e td m'.
Proof.
  destruct headers as (H1 & H2 & H3 & H4). destruct headers_found as (s & s' & Hs & Hs' & Hx & Hf).
  pose proof (content_bound e fits) as Hb. set (body := content e (sections e)) in *. set (n := length (hs ++ rest)) in *.
  destruct (bin_header_run (12 + Z.of_nat (length body))) as (b & Hbin & B1 & B2 & B3 & B4 & B5). rewrite native_header in Hbin. injection Hbin as <-.
  set (al := aligned_size (Z.of_nat (length td))) in *. pose proof (aligned_size_run (Z.of_nat (length td)) ltac:(lia)) as Hal. fold al in Hal.
  destruct (linked_header_run (Z.of_nat n) off (off + 16 + al)) as (R1 & R2 & R3 & R4); [lia | unfold off; fold body; lia..|].
  set (mh := linked_header (Z.of_nat n) off (off + 16 + al)) in *. set (hd := Bytes.bytes_of 12 mh).
  assert (buf = hd ++ body ++ native_bytes td ++ table_bytes 8 ((hs ++ rest) ++ [bin])) as Eb by reflexivity.
  assert (length hd = 12%nat) as Hhd by apply bytes_of_length.
  set (m0 := mkMODULE mh s' [] [] [] [] [] [] []).
  destruct (linked_sections s s' mh hd (native_bytes td ++ table_bytes 8 ((hs ++ rest) ++ [bin])) Hx Hf Hhd) as [Hi Hnum].
  fold body in Hi. rewrite <- Eb in Hi. fold m0 in Hi.
  destruct (put_sections_run e (sections e) m0) as (P1 & P2 & P3 & P4 & P5).
  set (m1 := put_sections e (sections e) m0) in *.
  assert (sec_elem_num (_secs m1) S_NAT = Ok 1) as Hn1.
  { destruct (sec_elem_num_ext (_secs m1) s' S_NAT P3 P4) as [-> _]. unfold sec_elem_num. now rewrite (extended_native s s' bin Hx), bind_ok. }
  exists (set_nats [mkNAT (nat_entry_of td) (padded td)] m1). split.
  - assert (bytes_at buf UBH_MHDR.sizeof = Ok hd) as Et.
    { rewrite Eb. unfold bytes_at. change (Z.to_nat UBH_MHDR.sizeof) with 12%nat.
      rewrite decide_True by (rewrite !length_app; lia). now rewrite take_app_length' by exact Hhd. }
    assert (length (native_bytes td) = (16 + Z.to_nat al)%nat) as Hnb
      by (pose proof (padded_length td text_small); unfold native_bytes; rewrite length_app, bytes_of_length; lia).
    assert (objects 8 (S n) (drop (Z.to_nat (off + 16 + al)) buf) = (hs ++ rest) ++ [bin]) as Ed.
    { replace (Z.to_nat (off + 16 + al)) with (length (hd ++ body ++ native_bytes td)) by (rewrite !length_app; unfold off; fold body; lia).
      rewrite Eb, !(assoc_L (++) hd), !(assoc_L (++) (hd ++ body)), drop_app_length.
      rewrite <- (app_nil_r (table_bytes 8 _)). apply objects_run'; [|rewrite length_app; cbn; lia].
      apply Forall_app. split; [exact H3 | now constructor]. }
    pose proof (of_bytes_of 12 _ R1 : of_bytes hd = _) as Eh.
    unfold Read_sections. rewrite Et, bind_ok. cbv zeta. rewrite Eh, R2, Z.eqb_refl. cbn [negb]. rewrite R3, R4.
    replace (Z.to_nat (Z.of_nat n + 1)) with (S n) by lia. change (Z.to_nat UBH_SHDR.sizeof) with 8%nat.
    rewrite Ed, decide_True by (rewrite length_app; cbn; lia). rewrite bind_ok, Hs', bind_ok.
    fold m0. rewrite Init_sections_app, Hi, bind_ok. cbn [Init_sections]. unfold Init_section. rewrite B3. cbn [negb].
    rewrite B5, UINT32_id by lia. rewrite B2, bind_ok.
    replace (drop (Z.to_nat (12 + Z.of_nat (length body))) buf) with (native_bytes td ++ table_bytes 8 ((hs ++ rest) ++ [bin])).
    + rewrite Set_nat_sec_run by assumption. reflexivity.
    + rewrite Eb, (assoc_L (++)). symmetry. apply drop_app_length'. rewrite length_app. lia.
  - split; cbn [_secs _nat_sec set_nats].
    + intros id. change (sec_table (set_nats [mkNAT (nat_entry_of td) (padded td)] m1) id) with (sec_table m1 id). rewrite P1.
      destruct (decide (id ∈ map _sec_id (sections e))) as [|Hni]; [reflexivity|]. rewrite (enc_table_nil e id fits Hni).
      exact (proj1 (fresh_tables _ _ mh Hs') id).
    + rewrite P2. destruct (decide (S_CODE ∈ map _sec_id (sections e))) as [|Hni]; [reflexivity|]. unfold code_entries. rewrite (codes_nil e fits Hni).
      exact (proj2 (fresh_tables _ _ mh Hs')).
    + reflexivity.
    + intros id. change (_secs (set_nats _ m1)) with (_secs m1). destruct (sec_elem_num_ext (_secs m1) s' id P3 P4) as [_ ->].
      rewrite (extended_contains s s' bin id Hx). now rewrite (fd_contains _ _ _ Hf).
    + intros info Hin. change (_secs (set_nats _ m1)) with (_secs m1). destruct (sec_elem_num_ext (_secs m1) s' (_sec_id info) P3 P4) as [-> _].
      apply Hnum; [now apply (sec_id_not_native e)|].
      apply (found_numbers e (sections e)); try assumption. exact (sections_in e _ info (proj1 (list_elem_of_In _ _) Hin)).
Qed.
End Reading.

(** ** Both files *)

(** The state after the file of the encoder is opened. *)
Lemma Open_ubh_run e m shdrs s : file_fits e = true -> holds e m -> Read_sections (file_bytes e shdrs) = Ok m -> Open_ubh_file (file_bytes e shdrs) = Ok s ->
  linking e m shdrs (_imp_nat_tab e) s /\ cache_fits (_name_import_cache s) (length (_imp_nat_tab e)).
Proof.
  intros Hf Hm Hr H. unfold Open_ubh_file, Init_module_from_buffer in H. rewrite Hr, bind_ok in H.
  destruct (Types.Decode_type_and_cache _) as [types|]; [|discriminate]. rewrite !bind_ok in H. cbv zeta in H. cbn [fst] in H.
  pose proof (ho_tables e m Hm S_IMP_NAT) as Himp. cbn [sec_table enc_table] in Himp.
  assert (forall cache, linking e m shdrs (_imp_nat_tab e) (mkSLD m (file_bytes e shdrs) None cache)) as Hl.
  { intros cache. split; cbn [_u_module _buf].
    - rewrite <- Himp. now destruct m as [mh [hs map ty fn code gl da re nn] im ina ex eg mn gn nat].
    - now destruct e.
    - split; [reflexivity | exact (proj1 (table_fits_run e imp_info Hf imp_info_in))]. }
  destruct (Contains_section (_secs m) S_IMP_NAT) eqn:Ec; cbn [negb] in H.
  - apply (ho_sections e m Hm) in Ec. apply list_elem_of_fmap in Ec as (info & Ei & Hin).
    assert (info = imp_info) as ->.
    { pose proof (sections_in e _ info (proj1 (list_elem_of_In _ _) Hin)) as Hi. repeat (destruct Hi as [<-|Hi]; [discriminate Ei || reflexivity|]). destruct Hi. }
    pose proof (ho_numbers e m Hm imp_info Hin) as Hn. cbn [_sec_id imp_info] in Hn. rewrite Hn, bind_ok in H.
    change (elems e imp_info) with (length (_imp_nat_tab e)) in H.
    destruct (import_names m _ ∅) as [cache|] eqn:En; [|discriminate]. injection H as <-. split; [apply Hl | exact (import_names_fit m _ cache En)].
  - injection H as <-. split; [apply Hl|]. intros name i Hi. cbn in Hi. now rewrite lookup_empty in Hi.
Qed.

(** The linked file: the sections of the file with the imports changed, and the code. *)
Lemma link_files_run v e m w total hs rest s elf text : finished_from v e -> file_fits e = true -> collected e w total hs rest ->
  holds e m -> _shdr_tab (_secs m) = hs ++ rest -> UBH_MHDR.Get_shdr_num (_mhdr m) = Z.of_nat (length (hs ++ rest)) ->
  Read_sections (file_bytes e (hs ++ rest)) = Ok m -> Open_ubh_file (file_bytes e (hs ++ rest)) = Ok s -> find_text elf = Some text ->
  Z.of_nat (length (es_data text)) < 2 ^ 26 ->
  12 + Z.of_nat (length (content e (sections e))) + 16 + aligned_size (Z.of_nat (length (es_data text))) < 2 ^ 26 ->
  exists out m', link_files (file_bytes e (hs ++ rest)) (Some elf) = Ok out /\ Read_sections out = Ok m' /\
    linked_holds (patched (link_symbols (_name_import_cache s) (es_offset text) (searched elf) (_imp_nat_tab e)) e) (es_data text) m'.
Proof.
  intros Hv Hf Hco Hm Hsh Hnum Hr Ho Ht Htd Hroom. destruct (Open_ubh_run e m (hs ++ rest) s Hf Hm Hr Ho) as [Hl Hc].
  unfold link_files, Open_so_file. rewrite Ho, bind_ok. cbn [of_option]. rewrite bind_ok, Ht.
  assert (linking e m (hs ++ rest) (_imp_nat_tab e) (mkSLD (_u_module s) (_buf s) (Some text) (_name_import_cache s))) as Hl' by (destruct Hl; now split).
  destruct (match_sections_run e m (hs ++ rest) text elf Hf Hm _ _ Hl' eq_refl Hc) as (s' & H1 & H2 & H3). rewrite H1, bind_ok.
  cbn [_name_import_cache] in H2. set (tab := link_symbols _ _ _ _) in *. destruct H2 as [L1 L2 [L3 L4]].
  destruct (Set_imp_same tab m) as (S1 & _ & S3). pose proof (sections_length e) as Hsl. destruct Hco as [_ _ Hrange Hlen [Hrl Hrest] Hd _ _].
  assert (length (hs ++ rest) <= 13)%nat as Hn by (rewrite length_app; lia).
  pose proof (patched_sections e tab L3) as Es. pose proof (patched_content_length e tab L3) as Ec.
  pose proof (patched_fits e tab L3 Hf L4) as Hf'.
  destruct (bin_header_run (12 + Z.of_nat (length (content e (sections e))))) as (bin & Hbin & _).
  rewrite (Link_run (patched tab e) s' text (hs ++ rest) bin); try assumption; try (rewrite Es, Ec; assumption); try (rewrite L1, ?S1, ?S3; assumption).
  assert (exists m', Read_sections (linked_bytes (patched tab e) (hs ++ rest) (es_data text) bin) = Ok m' /\ linked_holds (patched tab e) (es_data text) m')
    as (m' & Hm' & Hh'); [|eauto].
  apply (linked_read v); try assumption; rewrite ?Es, ?Ec; try assumption; [auto|].
  intros k info Hk. destruct (Hd k info Hk) as (h & Hh & D1 & D2 & D3 & D4). exists h. split; [exact Hh|]. rewrite Ec.
  rewrite offset_at_content in D4 by exact Hf. split; [exact D1|]. split; [exact D2|]. split; [now rewrite patched_elems|exact D4].
Qed.
End Linked.
