(* ===== verification/Ops.v ===== *)
(** * What the integer instructions compute

  Tables of the operators that the two- and three-register instructions stand for,
  in the numerics of [Wasm.v], and the handlers against the tables. *)

From S2P Require Import Prelude CInt BitField CFloat Wasm Isa Inst Expand Ubh Memory UModule Machine Handlers Exec Frames Windows Safety Loading Reachable Typed.
From Stdlib Require Import ZArith Lia.
Local Open Scope Z_scope.

(** The width of an integer type, and the unsigned reading of a register. *)
Definition width (t : VALTYPE) : Z := match t with I32 | F32 => 32 | _ => 64 end.
Definition unsigned (t : VALTYPE) (v : Z) : Z := wrapu (width t) v.
Definition is_int (t : VALTYPE) : bool := match t with I32 | I64 => true | _ => false end.

(** From [m] to [m'] only the register [i] of type [t] changed, and holds [v]. *)
Record wrote (t : VALTYPE) (i v : Z) (m m' : UWASM_MACHINE) : Prop := {
  wr_value : REGISTER.Get i (regs t m') = Ok v;
  wr_others : forall u j, u <> VALTY_UNKNOWN -> (u, j) <> (t, i) ->
    REGISTER.Get j (regs u m') = REGISTER.Get j (regs u m);
  wr_frame : env_frame m m';
  wr_mem : _mem m' = _mem m /\ _pc (_current m') = _pc (_current m) /\ _global_start m' = _global_start m;
  wr_linear : _mem_size m' = _mem_size m /\ _hea_off m' = _hea_off m /\ _hea_size m' = _hea_size m;
}.

Section Registers.
Context {bd : Build}.

Lemma reg_set_wrote t i v m m' : t <> VALTY_UNKNOWN -> reg_set t i v m = Ok (tt, m') ->
  wrote t i (reg_norm t v) m m'.
Proof.
  intros Ht H. pose proof (frames_reg_set t i v m tt m' H) as Hf.
  unfold reg_set, REGISTER.Set_ in H. destruct (_ && _) eqn:E; [|discriminate]. injection H as <-.
  split; [| |exact Hf|destruct t; auto|destruct t; auto].
  - rewrite regs_set_same. unfold REGISTER.Get. cbn [REGISTER._fp REGISTER._cur_mem_size REGISTER.cells].
    rewrite E. now rewrite lookup_insert_eq.
  - intros u j Hu Hne. rewrite regs_set. destruct (decide (tnum u = tnum t)) as [Et|]; [|reflexivity].
    assert (u = t) as -> by (destruct t, u; try discriminate Et; congruence).
    unfold REGISTER.Get. cbn [REGISTER._fp REGISTER._cur_mem_size REGISTER.cells].
    rewrite lookup_insert_ne; [reflexivity|]. intros Ej. apply Hne. f_equal. lia.
Qed.

(** A write to a register that the current function declares succeeds. *)
Lemma reg_set_declared t i v m : windows_ok m -> 0 <= i < rnum (_types m) (_func_idx (_current m)) t ->
  exists m', reg_set t i v m = Ok (tt, m').
Proof. intros Hw Hi. destruct (window_access m t i v Hw Hi) as (_ & m' & H & _). eauto. Qed.

Lemma reg_get_Ok t i v m m' : reg_get t i m = Ok (v, m') <-> REGISTER.Get i (regs t m) = Ok v /\ m' = m.
Proof. unfold reg_get. apply lift_Ok. Qed.
End Registers.

(** ** Total binary operators *)
(** The operator of an instruction with two sources, by its type. *)
Definition binop (op : U_OPCODE_LONG) : option (VALTYPE * (Z -> Z -> Z -> Z)) :=
  let cmp f := fun (N i j : Z) => b2z (f N i j) in
  match op with
  | ADD_I32_AM32S_R_R_R_L | ADD_I32_AM64_R_R_R_L => Some (I32, Wasm.iadd)
  | ADD_I64_AM32S_R_R_R_L | ADD_I64_AM64_R_R_R_L => Some (I64, Wasm.iadd)
  | SUB_I32_AM32S_R_R_R_L | SUB_I32_AM64_R_R_R_L => Some (I32, Wasm.isub)
  | SUB_I64_AM32S_R_R_R_L | SUB_I64_AM64_R_R_R_L => Some (I64, Wasm.isub)
  | MUL_I32_AM64_R_R_R_L => Some (I32, Wasm.imul)
  | MUL_I64_AM64_R_R_R_L => Some (I64, Wasm.imul)
  | AND_I32_AM64_R_R_R_L => Some (I32, fun _ => Wasm.iand)
  | AND_I64_AM64_R_R_R_L => Some (I64, fun _ => Wasm.iand)
  | OR_I32_AM64_R_R_R_L => Some (I32, fun _ => Wasm.ior)
  | OR_I64_AM64_R_R_R_L => Some (I64, fun _ => Wasm.ior)
  | XOR_I32_AM64_R_R_R_L => Some (I32, fun _ => Wasm.ixor)
  | XOR_I64_AM64_R_R_R_L => Some (I64, fun _ => Wasm.ixor)
  | EQ_I32_AM64_R_R_R_L => Some (I32, cmp (fun _ => Wasm.ieq))
  | EQ_I64_AM64_R_R_R_L => Some (I64, cmp (fun _ => Wasm.ieq))
  | NE_I32_AM64_R_R_R_L => Some (I32, cmp (fun _ => Wasm.ine))
  | NE_I64_AM64_R_R_R_L => Some (I64, cmp (fun _ => Wasm.ine))
  | LT_I32_AM64_R_R_R_L => Some (I32, cmp Wasm.ilt_s)
  | LT_I64_AM64_R_R_R_L => Some (I64, cmp Wasm.ilt_s)
  | LT_U_I32_AM64_R_R_R_L => Some (I32, cmp (fun _ => Wasm.ilt_u))
  | LT_U_I64_AM64_R_R_R_L => Some (I64, cmp (fun _ => Wasm.ilt_u))
  | GT_I32_AM64_R_R_R_L => Some (I32, cmp Wasm.igt_s)
  | GT_I64_AM64_R_R_R_L => Some (I64, cmp Wasm.igt_s)
  | GT_U_I32_AM64_R_R_R_L => Some (I32, cmp (fun _ => Wasm.igt_u))
  | GT_U_I64_AM64_R_R_R_L => Some (I64, cmp (fun _ => Wasm.igt_u))
  | LE_I32_AM64_R_R_R_L => Some (I32, cmp Wasm.ile_s)
  | LE_I64_AM64_R_R_R_L => Some (I64, cmp Wasm.ile_s)
  | LE_U_I32_AM64_R_R_R_L => Some (I32, cmp (fun _ => Wasm.ile_u))
  | LE_U_I64_AM64_R_R_R_L => Some (I64, cmp (fun _ => Wasm.ile_u))
  | GE_I32_AM64_R_R_R_L => Some (I32, cmp Wasm.ige_s)
  | GE_I64_AM64_R_R_R_L => Some (I64, cmp Wasm.ige_s)
  | GE_U_I32_AM64_R_R_R_L => Some (I32, cmp (fun _ => Wasm.ige_u))
  | GE_U_I64_AM64_R_R_R_L => Some (I64, cmp (fun _ => Wasm.ige_u))
  | _ => None
  end.

(** The C++ expression of the handler of an operator. *)
Definition binop_code (op : U_OPCODE_LONG) (a b : Z) : Z :=
  match op with
  | ADD_I32_AM32S_R_R_R_L | ADD_I32_AM64_R_R_R_L => sadd 32 a b
  | ADD_I64_AM32S_R_R_R_L | ADD_I64_AM64_R_R_R_L => sadd 64 a b
  | SUB_I32_AM32S_R_R_R_L | SUB_I32_AM64_R_R_R_L => ssub 32 a b
  | SUB_I64_AM32S_R_R_R_L | SUB_I64_AM64_R_R_R_L => ssub 64 a b
  | MUL_I32_AM64_R_R_R_L => smul 32 a b
  | MUL_I64_AM64_R_R_R_L => smul 64 a b
  | AND_I32_AM64_R_R_R_L | AND_I64_AM64_R_R_R_L => Z.land a b
  | OR_I32_AM64_R_R_R_L | OR_I64_AM64_R_R_R_L => Z.lor a b
  | XOR_I32_AM64_R_R_R_L | XOR_I64_AM64_R_R_R_L => Z.lxor a b
  | EQ_I32_AM64_R_R_R_L | EQ_I64_AM64_R_R_R_L => b2z (a =? b)
  | NE_I32_AM64_R_R_R_L | NE_I64_AM64_R_R_R_L => b2z (negb (a =? b))
  | LT_I32_AM64_R_R_R_L | LT_I64_AM64_R_R_R_L => b2z (a <? b)
  | LT_U_I32_AM64_R_R_R_L => b2z (UINT32 a <? UINT32 b)
  | LT_U_I64_AM64_R_R_R_L => b2z (UINT64 a <? UINT64 b)
  | GT_I32_AM64_R_R_R_L | GT_I64_AM64_R_R_R_L => b2z (b <? a)
  | GT_U_I32_AM64_R_R_R_L => b2z (UINT32 b <? UINT32 a)
  | GT_U_I64_AM64_R_R_R_L => b2z (UINT64 b <? UINT64 a)
  | LE_I32_AM64_R_R_R_L | LE_I64_AM64_R_R_R_L => b2z (a <=? b)
  | LE_U_I32_AM64_R_R_R_L => b2z (UINT32 a <=? UINT32 b)
  | LE_U_I64_AM64_R_R_R_L => b2z (UINT64 a <=? UINT64 b)
  | GE_I32_AM64_R_R_R_L | GE_I64_AM64_R_R_R_L => b2z (b <=? a)
  | GE_U_I32_AM64_R_R_R_L => b2z (UINT32 b <=? UINT32 a)
  | GE_U_I64_AM64_R_R_R_L => b2z (UINT64 b <=? UINT64 a)
  | _ => 0
  end.

Lemma binop_int op t f : binop op = Some (t, f) -> is_int t = true.
Proof. destruct op; cbn; intros [= <- _]; reflexivity. Qed.

Lemma binop_value op t f a b : binop op = Some (t, f) -> in_type t a -> in_type t b ->
  reg_norm t (binop_code op a b) = wraps (width t) (f (width t) (unsigned t a) (unsigned t b)).
Proof.
  unfold unsigned. destruct op; cbn [binop]; try discriminate; intros [= <- <-] Ha Hb;
    cbn [binop_code width reg_norm in_type] in *; unfold INT32, INT64.
  all: try (rewrite Wasm.iadd_sadd by lia; unfold sadd; rewrite wraps_wraps by lia; reflexivity).
  all: try (rewrite Wasm.isub_ssub by lia; unfold ssub; rewrite wraps_wraps by lia; reflexivity).
  all: try (rewrite Wasm.imul_smul by lia; unfold smul; rewrite wraps_wraps by lia; reflexivity).
  all: try (rewrite Wasm.iand_land by lia; reflexivity).
  all: try (rewrite Wasm.ior_lor by lia; reflexivity).
  all: try (rewrite Wasm.ixor_lxor by lia; reflexivity).
  all: do 2 f_equal; unfold Wasm.ieq, Wasm.ine, Wasm.ilt_s, Wasm.ilt_u, Wasm.igt_s, Wasm.igt_u,
    Wasm.ile_s, Wasm.ile_u, Wasm.ige_s, Wasm.ige_u, UINT32, UINT64;
    rewrite ?Wasm.unsigned_eqb, ?Wasm.signed_unsigned by (lia || assumption); reflexivity.
Qed.


(** The operators stay in the range of the type. *)
Lemma in_u_bitwise N f g x y : 0 <= N -> (forall x y i, 0 <= i -> Z.testbit (f x y) i = g (Z.testbit x i) (Z.testbit y i)) ->
  g false false = false -> (0 <= x -> 0 <= y -> 0 <= f x y) -> in_u N x -> in_u N y -> in_u N (f x y).
Proof.
  intros HN Hf Hg H0 Hx Hy. apply in_u_testbit; [lia | apply H0; [apply Hx | apply Hy]|].
  intros i Hi. rewrite Hf, (testbit_in_u N x), (testbit_in_u N y) by (assumption || lia). exact Hg.
Qed.

Lemma binop_range op t f x y : binop op = Some (t, f) -> in_u (width t) x -> in_u (width t) y -> in_u (width t) (f (width t) x y).
Proof.
  assert (forall N b, 0 < N -> in_u N (b2z b)) as Hb.
  { intros N b HN. pose proof (Z.pow_gt_1 2 N). destruct b; split; cbn; lia. }
  intros H Hx Hy. assert (0 < width t) as HN by (destruct t; reflexivity).
  destruct op; cbn [binop] in H; try discriminate; injection H as <- <-; try (apply Hb; lia);
    try (apply wrapu_range; reflexivity || discriminate).
  all: first
    [ apply (in_u_bitwise _ Z.land andb); try assumption; try reflexivity; try lia; intros;
        [now apply Z.land_spec | apply Z.land_nonneg; auto]
    | apply (in_u_bitwise _ Z.lor orb); try assumption; try reflexivity; try lia; intros;
        [now apply Z.lor_spec | apply Z.lor_nonneg; auto]
    | apply (in_u_bitwise _ Z.lxor xorb); try assumption; try reflexivity; try lia; intros;
        [now apply Z.lxor_spec | apply Z.lxor_nonneg; tauto] ].
Qed.

(** ** Division *)
Definition divop (op : U_OPCODE_LONG) : option (VALTYPE * (Z -> Z -> Z -> option Z)) :=
  match op with
  | DIV_I32_AM64_R_R_R_L => Some (I32, Wasm.idiv_s)
  | DIV_I64_AM64_R_R_R_L => Some (I64, Wasm.idiv_s)
  | REM_I32_AM64_R_R_R_L => Some (I32, Wasm.irem_s)
  | REM_I64_AM64_R_R_R_L => Some (I64, Wasm.irem_s)
  | DIV_U_I32_AM64_R_R_R_L => Some (I32, fun _ => Wasm.idiv_u)
  | DIV_U_I64_AM64_R_R_R_L => Some (I64, fun _ => Wasm.idiv_u)
  | REM_U_I32_AM64_R_R_R_L => Some (I32, fun _ => Wasm.irem_u)
  | REM_U_I64_AM64_R_R_R_L => Some (I64, fun _ => Wasm.irem_u)
  | _ => None
  end.

Definition divop_code (op : U_OPCODE_LONG) (a b : Z) : outcome Z :=
  match op with
  | DIV_I32_AM64_R_R_R_L | DIV_U_I32_AM64_R_R_R_L => sdiv 32 a b
  | DIV_I64_AM64_R_R_R_L | DIV_U_I64_AM64_R_R_R_L => sdiv 64 a b
  | REM_I32_AM64_R_R_R_L | REM_U_I32_AM64_R_R_R_L => srem 32 a b
  | REM_I64_AM64_R_R_R_L | REM_U_I64_AM64_R_R_R_L => srem 64 a b
  | _ => Err AssertFail
  end.

(** What the code computes, said with the operators of WebAssembly: for the unsigned
  forms, too, the signed quotient and remainder.  The remainder traps where the
  quotient overflows, which WebAssembly's does not. *)
Definition irem_trap (N i j : Z) : option Z :=
  if (Wasm.signed N i =? - 2 ^ (N - 1)) && (Wasm.signed N j =? -1) then None else Wasm.irem_s N i j.
Definition div_done (op : U_OPCODE_LONG) : Z -> Z -> Z -> option Z :=
  match op with
  | REM_I32_AM64_R_R_R_L | REM_I64_AM64_R_R_R_L | REM_U_I32_AM64_R_R_R_L | REM_U_I64_AM64_R_R_R_L => irem_trap
  | _ => Wasm.idiv_s
  end.

(** Where this agrees with the operator of the instruction. *)
Definition div_agrees (op : U_OPCODE_LONG) (t : VALTYPE) (a b : Z) : bool :=
  match op with
  | DIV_I32_AM64_R_R_R_L | DIV_I64_AM64_R_R_R_L => true
  | REM_I32_AM64_R_R_R_L | REM_I64_AM64_R_R_R_L => negb ((a =? - 2 ^ (width t - 1)) && (b =? -1))
  | _ => (0 <=? a) && (0 <=? b)
  end.

(** What the C++ quotient [c] is for the operator's [o]. *)
Definition quotient_is (N : Z) (o : option Z) (c : outcome Z) : Prop :=
  match o with Some q => exists r, c = Ok r /\ wrapu N r = q | None => c = Err DivTrap end.

Lemma idiv_s_value N a b : 0 < N -> in_s N a -> in_s N b ->
  quotient_is N (Wasm.idiv_s N (wrapu N a) (wrapu N b)) (sdiv N a b).
Proof.
  intros HN Ha Hb. rewrite <- (Wasm.idiv_s_sdiv N HN a b Ha Hb). destruct (Wasm.idiv_s _ _ _) as [q|] eqn:E; [|reflexivity].
  exists (wraps N q). split; [reflexivity|]. rewrite wrapu_wraps by lia. apply wrapu_id. unfold Wasm.idiv_s in E.
  destruct (_ =? 0); [discriminate|]. destruct (_ =? _); [discriminate|]. injection E as <-. apply wrapu_range. lia.
Qed.

Lemma irem_s_value N a b : 0 < N -> in_s N a -> in_s N b -> ~ (a = - 2 ^ (N - 1) /\ b = -1) ->
  quotient_is N (Wasm.irem_s N (wrapu N a) (wrapu N b)) (srem N a b).
Proof.
  intros HN Ha Hb Hov. rewrite <- (Wasm.irem_s_srem N HN a b Ha Hb Hov).
  destruct (Wasm.irem_s _ _ _) as [q|] eqn:E; [|reflexivity].
  exists (wraps N q). split; [reflexivity|]. rewrite wrapu_wraps by lia. apply wrapu_id. unfold Wasm.irem_s in E.
  destruct (_ =? 0); [discriminate|]. injection E as <-. apply wrapu_range. lia.
Qed.

Lemma irem_trap_value N a b : 0 < N -> in_s N a -> in_s N b ->
  quotient_is N (irem_trap N (wrapu N a) (wrapu N b)) (srem N a b).
Proof.
  intros HN Ha Hb. unfold irem_trap. rewrite !Wasm.signed_unsigned by assumption.
  destruct (_ && _) eqn:E.
  - unfold srem, quotient_is. now rewrite E, orb_true_r.
  - apply irem_s_value; try assumption. intros [-> ->]. now rewrite !Z.eqb_refl in E.
Qed.

(** Below half of the range the signed and the unsigned operators are the same. *)
Lemma signed_small N a : 0 < N -> in_s N a -> 0 <= a -> Wasm.signed N a = a /\ wrapu N a = a.
Proof.
  intros HN Ha H0. pose proof (pow2_half N HN). assert (wrapu N a = a) as E by (apply wrapu_id; unfold in_u, in_s in *; lia).
  split; [|exact E]. rewrite <- E at 1. now apply Wasm.signed_unsigned.
Qed.

Lemma idiv_s_unsigned N a b : 0 < N -> in_s N a -> in_s N b -> 0 <= a -> 0 <= b ->
  Wasm.idiv_s N a b = Wasm.idiv_u a b /\ irem_trap N a b = Wasm.irem_u a b.
Proof.
  intros HN Ha Hb Ha0 Hb0. destruct (signed_small N a HN Ha Ha0) as [Sa _], (signed_small N b HN Hb Hb0) as [Sb _].
  pose proof (pow2_half N HN) as Hp. pose proof (pow2_pos (N - 1) ltac:(lia)).
  unfold irem_trap, Wasm.idiv_s, Wasm.irem_s, Wasm.idiv_u, Wasm.irem_u. rewrite Sa, Sb.
  rewrite (proj2 (Z.eqb_neq a (- 2 ^ (N - 1)))) by lia. cbn [andb]. destruct (Z.eqb_spec b 0) as [|Hb1]; [now split|].
  unfold in_s in *. rewrite Z.quot_div_nonneg, Z.rem_mod_nonneg by lia.
  pose proof (Z.div_pos a b ltac:(lia) ltac:(lia)). pose proof (Z.mod_pos_bound a b ltac:(lia)).
  pose proof (Z.div_mod a b ltac:(lia)). assert (a / b <= a) by (apply Z.div_le_upper_bound; nia).
  rewrite (proj2 (Z.eqb_neq (a / b) (2 ^ (N - 1)))) by lia. rewrite !Z.mod_small by lia. split; [reflexivity|]. f_equal. lia.
Qed.

Lemma unsigned_norm t r : is_int t = true -> unsigned t (reg_norm t r) = wrapu (width t) r.
Proof. destruct t; try discriminate; intros _; unfold unsigned, reg_norm, INT32, INT64, width; apply wrapu_wraps; lia. Qed.

Lemma in_type_s t a : is_int t = true -> in_type t a -> in_s (width t) a.
Proof. now destruct t. Qed.

Lemma divop_value op t f a b : divop op = Some (t, f) -> in_type t a -> in_type t b ->
  quotient_is (width t) (div_done op (width t) (unsigned t a) (unsigned t b)) (divop_code op a b).
Proof.
  unfold unsigned. destruct op; cbn [divop]; try discriminate; intros [= <- <-] Ha Hb;
    cbn [div_done divop_code width in_type] in *;
    first [ apply idiv_s_value; assumption || reflexivity | apply irem_trap_value; assumption || reflexivity ].
Qed.

Lemma divop_agrees op t f a b : divop op = Some (t, f) -> in_type t a -> in_type t b -> div_agrees op t a b = true ->
  div_done op (width t) (unsigned t a) (unsigned t b) = f (width t) (unsigned t a) (unsigned t b).
Proof.
  assert (forall N, 0 < N -> in_s N a -> in_s N b -> negb ((a =? - 2 ^ (N - 1)) && (b =? -1)) = true ->
    irem_trap N (wrapu N a) (wrapu N b) = Wasm.irem_s N (wrapu N a) (wrapu N b)) as Hrem.
  { intros N HN Ha Hb H. unfold irem_trap. rewrite !Wasm.signed_unsigned by assumption. now destruct (_ && _). }
  assert (forall N, 0 < N -> in_s N a -> in_s N b -> (0 <=? a) && (0 <=? b) = true ->
    Wasm.idiv_s N (wrapu N a) (wrapu N b) = Wasm.idiv_u (wrapu N a) (wrapu N b) /\
    irem_trap N (wrapu N a) (wrapu N b) = Wasm.irem_u (wrapu N a) (wrapu N b)) as Hpos.
  { intros N HN Ha Hb H. rewrite andb_true_iff, !Z.leb_le in H. destruct H as [H0 H1].
    rewrite (proj2 (signed_small N a HN Ha H0)), (proj2 (signed_small N b HN Hb H1)). now apply idiv_s_unsigned. }
  unfold unsigned. destruct op; cbn [divop]; try discriminate; intros [= <- <-] Ha Hb;
    cbn [div_done div_agrees width in_type] in *; intros Hag;
    first [ reflexivity | now apply Hrem | now apply Hpos ].
Qed.

(** ** Shifts: the count is in a register of type i32 for both types *)
Definition shiftop (op : U_OPCODE_LONG) : option (VALTYPE * (Z -> Z -> Z -> Z)) :=
  match op with
  | SHL_I32_AM64_R_R_R_L => Some (I32, Wasm.ishl)
  | SHL_I64_AM64_R_R_R_L => Some (I64, Wasm.ishl)
  | SHR_I32_AM64_R_R_R_L => Some (I32, Wasm.ishr_s)
  | SHR_I64_AM64_R_R_R_L => Some (I64, Wasm.ishr_s)
  | SHR_U_I32_AM64_R_R_R_L => Some (I32, fun N i j => Wasm.ishr_u N i j)
  | SHR_U_I64_AM64_R_R_R_L => Some (I64, fun N i j => Wasm.ishr_u N i j)
  | _ => None
  end.

Definition shiftop_code (op : U_OPCODE_LONG) (a k : Z) : outcome Z :=
  match op with
  | SHL_I32_AM64_R_R_R_L => sshl 32 a (UINT32 k)
  | SHL_I64_AM64_R_R_R_L => sshl 64 a (UINT32 k)
  | SHR_I32_AM64_R_R_R_L => sshr 32 a (UINT32 k)
  | SHR_I64_AM64_R_R_R_L => sshr 64 a (UINT32 k)
  | SHR_U_I32_AM64_R_R_R_L => ushr 32 (UINT32 a) (UINT32 k)
  | SHR_U_I64_AM64_R_R_R_L => ushr 64 (UINT64 a) (UINT32 k)
  | _ => Err AssertFail
  end.

Lemma shift_range f N x k : 0 < N -> In f [Wasm.ishl; Wasm.ishr_s; fun N i j => Wasm.ishr_u N i j] -> in_u N x -> 0 <= k < N ->
  in_u N (f N x k).
Proof.
  intros HN Hf Hx Hk. destruct Hf as [<-|[<-|[<-|[]]]]; try (apply wrapu_range; lia).
  unfold Wasm.ishr_u. rewrite Z.mod_small by lia. pose proof (pow2_pos k ltac:(lia)). destruct Hx as [H1 H2].
  split; [apply Z.div_pos; lia|]. apply Z.div_lt_upper_bound; nia.
Qed.

Lemma shiftop_value op t f a k : shiftop op = Some (t, f) -> in_type t a ->
  if unsigned I32 k <? width t
  then exists r, shiftop_code op a k = Ok r /\
    unsigned t (reg_norm t r) = f (width t) (unsigned t a) (unsigned I32 k)
  else shiftop_code op a k = Err ShiftRange.
Proof.
  intros H Ha. assert (is_int t = true /\ In f [Wasm.ishl; Wasm.ishr_s; fun N i j => Wasm.ishr_u N i j]) as [Hi Hf]
    by (destruct op; cbn in H; try discriminate; injection H as <- <-; cbn; auto).
  assert (0 < width t) as HN by (destruct t; reflexivity).
  change (unsigned I32 k) with (UINT32 k).
  pose proof (wrapu_range 32 k ltac:(lia)) as [Hk0 _]. fold (UINT32 k) in Hk0.
  destruct (Z.ltb_spec (UINT32 k) (width t)) as [Hk|Hk].
  - assert (exists r, shiftop_code op a k = Ok r /\
      wrapu (width t) r = wrapu (width t) (f (width t) (unsigned t a) (UINT32 k))) as (r & Hr & Hv).
    { destruct op; cbn in H; try discriminate; injection H as <- <-; cbn [shiftop_code width in_type] in *; unfold unsigned;
        first [ rewrite <- Wasm.ishl_sshl by (assumption || lia) | rewrite <- Wasm.ishr_s_sshr by (assumption || lia)
              | unfold UINT32 at 1; rewrite <- Wasm.ishr_u_ushr by (assumption || lia)
              | unfold UINT64 at 1; rewrite <- Wasm.ishr_u_ushr by (assumption || lia) ];
        eexists; (split; [reflexivity|]); rewrite ?wrapu_wraps by lia; reflexivity. }
    exists r. split; [exact Hr|]. rewrite unsigned_norm, Hv by exact Hi. apply wrapu_id.
    apply shift_range; auto. apply wrapu_range. lia.
  - destruct op; cbn in H; try discriminate; injection H as <- <-; cbn [shiftop_code width] in *;
      unfold sshl, sshr, ushr, shift_ok; rewrite (proj2 (Z.ltb_ge _ _)), andb_false_r by lia; reflexivity.
Qed.

(** ** Conditional jumps *)
Definition jump2 (op : U_OPCODE_LONG) : option (VALTYPE * (Z -> Z -> Z -> bool)) :=
  match op with
  | JEQ_I32_AM32S_R_R_OFS_L | JEQ_I32_AM64_R_R_OFS_L => Some (I32, fun _ => Wasm.ieq)
  | JEQ_I64_AM32S_R_R_OFS_L | JEQ_I64_AM64_R_R_OFS_L => Some (I64, fun _ => Wasm.ieq)
  | JNE_I32_AM32S_R_R_OFS_L | JNE_I32_AM64_R_R_OFS_L => Some (I32, fun _ => Wasm.ine)
  | JNE_I64_AM32S_R_R_OFS_L | JNE_I64_AM64_R_R_OFS_L => Some (I64, fun _ => Wasm.ine)
  | JLT_I32_AM32S_R_R_OFS_L | JLT_I32_AM64_R_R_OFS_L => Some (I32, Wasm.ilt_s)
  | JLT_I64_AM32S_R_R_OFS_L | JLT_I64_AM64_R_R_OFS_L => Some (I64, Wasm.ilt_s)
  | JLE_I32_AM32S_R_R_OFS_L | JLE_I32_AM64_R_R_OFS_L => Some (I32, Wasm.ile_s)
  | JLE_I64_AM32S_R_R_OFS_L | JLE_I64_AM64_R_R_OFS_L => Some (I64, Wasm.ile_s)
  | JGT_I32_AM32S_R_R_OFS_L | JGT_I32_AM64_R_R_OFS_L => Some (I32, Wasm.igt_s)
  | JGT_I64_AM32S_R_R_OFS_L | JGT_I64_AM64_R_R_OFS_L => Some (I64, Wasm.igt_s)
  | JGE_I32_AM32S_R_R_OFS_L | JGE_I32_AM64_R_R_OFS_L => Some (I32, Wasm.ige_s)
  | JGE_I64_AM32S_R_R_OFS_L | JGE_I64_AM64_R_R_OFS_L => Some (I64, Wasm.ige_s)
  | JLT_U_I32_AM32S_R_R_OFS_L | JLT_U_I32_AM64_R_R_OFS_L => Some (I32, fun _ => Wasm.ilt_u)
  | JLT_U_I64_AM32S_R_R_OFS_L | JLT_U_I64_AM64_R_R_OFS_L => Some (I64, fun _ => Wasm.ilt_u)
  | JLE_U_I32_AM32S_R_R_OFS_L | JLE_U_I32_AM64_R_R_OFS_L => Some (I32, fun _ => Wasm.ile_u)
  | JLE_U_I64_AM32S_R_R_OFS_L | JLE_U_I64_AM64_R_R_OFS_L => Some (I64, fun _ => Wasm.ile_u)
  | JGT_U_I32_AM32S_R_R_OFS_L | JGT_U_I32_AM64_R_R_OFS_L => Some (I32, fun _ => Wasm.igt_u)
  | JGT_U_I64_AM32S_R_R_OFS_L | JGT_U_I64_AM64_R_R_OFS_L => Some (I64, fun _ => Wasm.igt_u)
  | JGE_U_I32_AM32S_R_R_OFS_L | JGE_U_I32_AM64_R_R_OFS_L => Some (I32, fun _ => Wasm.ige_u)
  | JGE_U_I64_AM32S_R_R_OFS_L | JGE_U_I64_AM64_R_R_OFS_L => Some (I64, fun _ => Wasm.ige_u)
  | _ => None
  end.
Definition jump1 (op : U_OPCODE_LONG) : option (VALTYPE * (Z -> Z -> bool)) :=
  match op with
  | JEZ_I32_AM32_R_OFS_L => Some (I32, fun _ i => Wasm.ieqz i)
  | JEZ_I64_AM32_R_OFS_L => Some (I64, fun _ i => Wasm.ieqz i)
  | JNZ_I32_AM32_R_OFS_L => Some (I32, fun _ i => negb (Wasm.ieqz i))
  | JNZ_I64_AM32_R_OFS_L => Some (I64, fun _ i => negb (Wasm.ieqz i))
  | JLZ_I32_AM32_R_OFS_L => Some (I32, fun N i => Wasm.ilt_s N i 0)
  | JLZ_I64_AM32_R_OFS_L => Some (I64, fun N i => Wasm.ilt_s N i 0)
  | JLEZ_I32_AM32_R_OFS_L => Some (I32, fun N i => Wasm.ile_s N i 0)
  | JLEZ_I64_AM32_R_OFS_L => Some (I64, fun N i => Wasm.ile_s N i 0)
  | JGZ_I32_AM32_R_OFS_L => Some (I32, fun N i => Wasm.igt_s N i 0)
  | JGZ_I64_AM32_R_OFS_L => Some (I64, fun N i => Wasm.igt_s N i 0)
  | JGEZ_I32_AM32_R_OFS_L => Some (I32, fun N i => Wasm.ige_s N i 0)
  | JGEZ_I64_AM32_R_OFS_L => Some (I64, fun N i => Wasm.ige_s N i 0)
  | _ => None
  end.

Lemma signed_zero N : 0 < N -> Wasm.signed N 0 = 0.
Proof.
  intros HN. unfold Wasm.signed. pose proof (pow2_pos (N - 1) ltac:(lia)).
  now rewrite (proj2 (Z.ltb_lt _ _)) by lia.
Qed.

(** ** Loads and stores: relative to a register or to the stack pointer *)
Inductive BASE : Set := Mem | Stack.
Definition load_op (op : U_OPCODE_LONG) : option (BASE * VALTYPE * nat * bool) :=
  match op with
  | LOAD_I32_AM32S_R_R_IMM_L | LOAD_I32_AM64_R_R_IMM_L => Some (Mem, I32, 4%nat, true)
  | LLOAD_I32_AM32_R_IMM_L | LLOAD_I32_AM64_R_IMM_L => Some (Stack, I32, 4%nat, true)
  | LOAD_I64_AM32S_R_R_IMM_L | LOAD_I64_AM64_R_R_IMM_L => Some (Mem, I64, 8%nat, true)
  | LLOAD_I64_AM32_R_IMM_L | LLOAD_I64_AM64_R_IMM_L => Some (Stack, I64, 8%nat, true)
  | LOAD_F32_AM32S_R_R_IMM_L | LOAD_F32_AM64_R_R_IMM_L => Some (Mem, F32, 4%nat, false)
  | LLOAD_F32_AM32_R_IMM_L | LLOAD_F32_AM64_R_IMM_L => Some (Stack, F32, 4%nat, false)
  | LOAD_F64_AM32S_R_R_IMM_L | LOAD_F64_AM64_R_R_IMM_L => Some (Mem, F64, 8%nat, false)
  | LLOAD_F64_AM32_R_IMM_L | LLOAD_F64_AM64_R_IMM_L => Some (Stack, F64, 8%nat, false)
  | LOAD8_I32_AM32S_R_R_IMM_L | LOAD8_I32_AM64_R_R_IMM_L => Some (Mem, I32, 1%nat, true)
  | LLOAD8_I32_AM32_R_IMM_L | LLOAD8_I32_AM64_R_IMM_L => Some (Stack, I32, 1%nat, true)
  | LOAD8_I64_AM32S_R_R_IMM_L | LOAD8_I64_AM64_R_R_IMM_L => Some (Mem, I64, 1%nat, true)
  | LLOAD8_I64_AM32_R_IMM_L | LLOAD8_I64_AM64_R_IMM_L => Some (Stack, I64, 1%nat, true)
  | LOAD8_U_I32_AM32S_R_R_IMM_L | LOAD8_U_I32_AM64_R_R_IMM_L => Some (Mem, I32, 1%nat, false)
  | LLOAD8_U_I32_AM32_R_IMM_L | LLOAD8_U_I32_AM64_R_IMM_L => Some (Stack, I32, 1%nat, false)
  | LOAD8_U_I64_AM32S_R_R_IMM_L | LOAD8_U_I64_AM64_R_R_IMM_L => Some (Mem, I64, 1%nat, false)
  | LLOAD8_U_I64_AM32_R_IMM_L | LLOAD8_U_I64_AM64_R_IMM_L => Some (Stack, I64, 1%nat, false)
  | LOAD16_I32_AM32S_R_R_IMM_L | LOAD16_I32_AM64_R_R_IMM_L => Some (Mem, I32, 2%nat, true)
  | LLOAD16_I32_AM32_R_IMM_L | LLOAD16_I32_AM64_R_IMM_L => Some (Stack, I32, 2%nat, true)
  | LOAD16_I64_AM32S_R_R_IMM_L | LOAD16_I64_AM64_R_R_IMM_L => Some (Mem, I64, 2%nat, true)
  | LLOAD16_I64_AM32_R_IMM_L | LLOAD16_I64_AM64_R_IMM_L => Some (Stack, I64, 2%nat, true)
  | LOAD16_U_I32_AM32S_R_R_IMM_L | LOAD16_U_I32_AM64_R_R_IMM_L => Some (Mem, I32, 2%nat, false)
  | LLOAD16_U_I32_AM32_R_IMM_L | LLOAD16_U_I32_AM64_R_IMM_L => Some (Stack, I32, 2%nat, false)
  | LOAD16_U_I64_AM32S_R_R_IMM_L | LOAD16_U_I64_AM64_R_R_IMM_L => Some (Mem, I64, 2%nat, false)
  | LLOAD16_U_I64_AM32_R_IMM_L | LLOAD16_U_I64_AM64_R_IMM_L => Some (Stack, I64, 2%nat, false)
  | LOAD32_I64_AM32S_R_R_IMM_L | LOAD32_I64_AM64_R_R_IMM_L => Some (Mem, I64, 4%nat, true)
  | LLOAD32_I64_AM32_R_IMM_L | LLOAD32_I64_AM64_R_IMM_L => Some (Stack, I64, 4%nat, true)
  | LOAD32_U_I64_AM32S_R_R_IMM_L | LOAD32_U_I64_AM64_R_R_IMM_L => Some (Mem, I64, 4%nat, false)
  | LLOAD32_U_I64_AM32_R_IMM_L | LLOAD32_U_I64_AM64_R_IMM_L => Some (Stack, I64, 4%nat, false)
  | _ => None
  end.
Definition store_op (op : U_OPCODE_LONG) : option (BASE * VALTYPE * nat) :=
  match op with
  | STORE_I32_AM32S_R_R_IMM_L | STORE_I32_AM64_R_R_IMM_L => Some (Mem, I32, 4%nat)
  | LSTORE_I32_AM32_R_IMM_L | LSTORE_I32_AM64_R_IMM_L => Some (Stack, I32, 4%nat)
  | STORE_I64_AM32S_R_R_IMM_L | STORE_I64_AM64_R_R_IMM_L => Some (Mem, I64, 8%nat)
  | LSTORE_I64_AM32_R_IMM_L | LSTORE_I64_AM64_R_IMM_L => Some (Stack, I64, 8%nat)
  | STORE_F32_AM32S_R_R_IMM_L | STORE_F32_AM64_R_R_IMM_L => Some (Mem, F32, 4%nat)
  | LSTORE_F32_AM32_R_IMM_L | LSTORE_F32_AM64_R_IMM_L => Some (Stack, F32, 4%nat)
  | STORE_F64_AM32S_R_R_IMM_L | STORE_F64_AM64_R_R_IMM_L => Some (Mem, F64, 8%nat)
  | LSTORE_F64_AM32_R_IMM_L | LSTORE_F64_AM64_R_IMM_L => Some (Stack, F64, 8%nat)
  | STORE8_I32_AM32S_R_R_IMM_L | STORE8_I32_AM64_R_R_IMM_L => Some (Mem, I32, 1%nat)
  | LSTORE8_I32_AM32_R_IMM_L | LSTORE8_I32_AM64_R_IMM_L => Some (Stack, I32, 1%nat)
  | STORE8_I64_AM32S_R_R_IMM_L | STORE8_I64_AM64_R_R_IMM_L => Some (Mem, I64, 1%nat)
  | LSTORE8_I64_AM32_R_IMM_L | LSTORE8_I64_AM64_R_IMM_L => Some (Stack, I64, 1%nat)
  | STORE16_I32_AM32S_R_R_IMM_L | STORE16_I32_AM64_R_R_IMM_L => Some (Mem, I32, 2%nat)
  | LSTORE16_I32_AM32_R_IMM_L | LSTORE16_I32_AM64_R_IMM_L => Some (Stack, I32, 2%nat)
  | STORE16_I64_AM32S_R_R_IMM_L | STORE16_I64_AM64_R_R_IMM_L => Some (Mem, I64, 2%nat)
  | LSTORE16_I64_AM32_R_IMM_L | LSTORE16_I64_AM64_R_IMM_L => Some (Stack, I64, 2%nat)
  | STORE32_I64_AM32S_R_R_IMM_L | STORE32_I64_AM64_R_R_IMM_L => Some (Mem, I64, 4%nat)
  | LSTORE32_I64_AM32_R_IMM_L | LSTORE32_I64_AM64_R_IMM_L => Some (Stack, I64, 4%nat)
  | _ => None
  end.

Section Memory.
Context {bd : Build} {pf : Platform}.

Definition base_of_op (b : BASE) (inst : AM_EXPAND) : MM Z :=
  match b with Mem => Get_base_addr (Get_rs inst) | Stack => Get_sp end.

(** A byte loaded with sign is a [char]. *)
Definition extend (n : nat) (sx : bool) (v : Z) : Z :=
  if sx then match n with 1%nat => INT8 v | _ => wraps (8 * Z.of_nat n) v end else v.

Lemma base_frame b inst m a m' : base_of_op b inst m = Ok (a, m') -> m' = m.
Proof.
  destruct b; cbn [base_of_op]; [|unfold Get_sp; now intros [_ ->]%lift_Ok].
  unfold Get_base_addr. intros H. apply bind_Ok in H as (p & m1 & [_ ->]%reg_get_Ok & H).
  rewrite (bind_run get _ m m m eq_refl) in H. destruct mem_check; minv; [reflexivity|].
  destruct (0 <? p); minv; reflexivity.
Qed.
End Memory.

(** [run_handler] unfolds a handler that reads two values and runs the reads. *)
Ltac run_handler Ha Hb :=
  match goal with |- (_ ← ?h; _) _ = _ => unfold_head h end;
  try match goal with |- (_ ← ?h; _) _ = _ => progress unfold_head h end;
  unfold mbind, M_bind; rewrite ?Ha, ?Hb;
  first [reflexivity
    | cbn [divop_code shiftop_code]; match goal with |- context [lift ?x ?m] => destruct (lift x m) as [[? ?]|]; reflexivity end].

Section Handlers.
Context {bd : Build} {pf : Platform} {rt : Runtime} {fe : FloatEnv}.

(** The shape of these handlers. *)
Lemma binop_run op t f inst m a b : binop op = Some (t, f) ->
  reg_get t (Get_rs inst) m = Ok (a, m) -> reg_get t (Get_rt inst) m = Ok (b, m) ->
  exec_op op inst m = (_ ← reg_set t (Get_rd inst) (binop_code op a b); mret BREAK) m.
Proof.
  destruct op; cbn [binop]; try discriminate; intros [= <- <-] Ha Hb;
    cbv beta iota delta [exec_op break_]; run_handler Ha Hb.
Qed.

Lemma divop_run op t f inst m a b : divop op = Some (t, f) ->
  reg_get t (Get_rs inst) m = Ok (a, m) -> reg_get t (Get_rt inst) m = Ok (b, m) ->
  exec_op op inst m = (q ← lift (divop_code op a b); _ ← reg_set t (Get_rd inst) q; mret BREAK) m.
Proof.
  destruct op; cbn [divop]; try discriminate; intros [= <- <-] Ha Hb;
    cbv beta iota delta [exec_op break_]; run_handler Ha Hb.
Qed.

Lemma shiftop_run op t f inst m a k : shiftop op = Some (t, f) ->
  reg_get t (Get_rs inst) m = Ok (a, m) -> reg_get I32 (Get_rt inst) m = Ok (k, m) ->
  exec_op op inst m = (r ← lift (shiftop_code op a k); _ ← reg_set t (Get_rd inst) r; mret BREAK) m.
Proof.
  destruct op; cbn [shiftop]; try discriminate; intros [= <- <-] Ha Hb;
    cbv beta iota delta [exec_op break_]; run_handler Ha Hb.
Qed.

(** Where a conditional jump goes. *)
Definition goes (c : bool) (inst : AM_EXPAND) : MM FLOW := continue_ (jump_if c inst).

Lemma jump2_run op t f inst m a b : jump2 op = Some (t, f) -> in_type t a -> in_type t b ->
  reg_get t (Get_rd inst) m = Ok (a, m) -> reg_get t (Get_rs inst) m = Ok (b, m) ->
  exec_op op inst m = goes (f (width t) (unsigned t a) (unsigned t b)) inst m.
Proof.
  unfold unsigned, goes. destruct op; cbn [jump2]; try discriminate; intros [= <- <-] Ha' Hb' Ha Hb; cbn [width in_type] in *;
    unfold Wasm.ieq, Wasm.ine, Wasm.ilt_s, Wasm.ilt_u, Wasm.igt_s, Wasm.igt_u, Wasm.ile_s, Wasm.ile_u, Wasm.ige_s, Wasm.ige_u;
    rewrite ?Wasm.unsigned_eqb, ?Wasm.signed_unsigned by (lia || assumption);
    cbv beta iota delta [exec_op continue_]; run_handler Ha Hb.
Qed.

Lemma jump1_run op t f inst m a : jump1 op = Some (t, f) -> in_type t a ->
  reg_get t (Get_rd inst) m = Ok (a, m) -> exec_op op inst m = goes (f (width t) (unsigned t a)) inst m.
Proof.
  unfold unsigned, goes. destruct op; cbn [jump1]; try discriminate; intros [= <- <-] Ha' Ha; cbn [width in_type] in *;
    unfold Wasm.ieqz, Wasm.ilt_s, Wasm.igt_s, Wasm.ile_s, Wasm.ige_s;
    rewrite ?Wasm.unsigned_zero, ?Wasm.signed_unsigned, ?signed_zero by (lia || assumption);
    cbv beta iota delta [exec_op continue_]; run_handler Ha Ha.
Qed.

Lemma load_type op b t n sx : load_op op = Some (b, t, n, sx) -> t <> VALTY_UNKNOWN.
Proof. destruct op; cbn [load_op]; try discriminate; intros [= <- <- <- <-]; discriminate. Qed.

Lemma load_run op b t n sx inst m a v : load_op op = Some (b, t, n, sx) ->
  base_of_op b inst m = Ok (a, m) -> mem_load n (a + Get_imm inst) m = Ok (v, m) ->
  exists w, reg_norm t w = reg_norm t (extend n sx v) /\
  exec_op op inst m = (_ ← reg_set t (Get_rd inst) w; mret BREAK) m.
Proof.
  destruct op; cbn [load_op]; try discriminate; intros [= <- <- <- <-] Ha Hv; cbn [base_of_op extend] in *;
    (eexists; split; [|cbv beta iota delta [exec_op break_]; run_handler Ha Hv]); reflexivity.
Qed.

Lemma load_fault op b t n sx inst m a f : load_op op = Some (b, t, n, sx) ->
  base_of_op b inst m = Ok (a, m) -> mem_load n (a + Get_imm inst) m = Err f -> exec_op op inst m = Err f.
Proof.
  destruct op; cbn [load_op]; try discriminate; intros [= <- <- <- <-] Ha Hv; cbn [base_of_op] in *;
    cbv beta iota delta [exec_op break_]; run_handler Ha Hv.
Qed.

Lemma store_run op b t n inst m a v : store_op op = Some (b, t, n) ->
  base_of_op b inst m = Ok (a, m) -> reg_get t (Get_rd inst) m = Ok (v, m) ->
  exec_op op inst m = (_ ← mem_store n (a + Get_imm inst) v; mret BREAK) m.
Proof.
  destruct op; cbn [store_op]; try discriminate; intros [= <- <- <-] Ha Hv; cbn [base_of_op] in *;
    cbv beta iota delta [exec_op break_]; run_handler Ha Hv.
Qed.
End Handlers.
