(* ===== verification/Execution.v ===== *)
(** * Execution: the theorems

  What holds of every run: the loop against the step relation, the register
  windows, calls and returns. *)

From S2P Require Import Prelude CInt BitField CFloat Isa Inst Expand Ubh Memory UModule StrTab TypeEncoder Encoder Machine Handlers Exec Frames Windows Safety Loading Sample Reachable.
From Stdlib Require Import ZArith Lia.
Local Open Scope Z_scope.

Section Execution.
Context {bd : Build} {pf : Platform} {rt : Runtime} {rf : RuntimeFrame rt} {fe : FloatEnv}.

(** C4: The register windows stay in place.  In every state a program reaches, the
  four frame pointers of the register files are those of the current context, every
  saved context is linked to the one above it by the window shift of its function,
  and the windows of all active functions lie inside the register files. *)
Theorem windows_in_place secs func n m : reachable secs func n m -> windows_ok m.
Proof. apply reachable_windows. Qed.

(** C5: In every state a program reaches, reading a register that the current
  function declares (a local or a passing register) never leaves the register
  file, and writing one succeeds and is read back. *)
Theorem declared_registers_accessible secs func n m t i v : reachable secs func n m ->
  0 <= i < rnum (_types m) (_func_idx (_current m)) t ->
  reg_get t i m <> Err RegFault /\
  exists m', reg_set t i v m = Ok (tt, m') /\ reg_get t i m' = Ok (reg_norm t v, m').
Proof. intros H. apply window_access. eapply reachable_windows, H. Qed.

(** C6: A call passes its arguments: the callee's register [i] is the caller's
  register [shift + i], where the shift is the caller's number of locals. *)
Theorem call_passes_arguments secs func n m callee m' t i v : reachable secs func n m ->
  is_external m callee = false -> Func_prologue callee m = Ok (tt, m') ->
  reg_get t (shs (_types m) (_func_idx (_current m)) t + i) m = Ok (v, m) ->
  _func_idx (_current m') = callee /\ reg_get t i m' = Ok (v, m').
Proof.
  intros H He Hp Hr. apply reachable_windows in H. split; [|now apply (call_args callee m)].
  pose proof (Func_prologue_inv _ _ _ H Hp) as Hc. rewrite He in Hc. apply Hc.
Qed.

(** C7: A call and its return restore the caller: whatever the callee did for [k]
  steps, if the context stack is as the call left it, the return gives back the
  caller's context, context stack and register windows. *)
Theorem call_return_restores secs func n m callee m1 k m2 m3 : reachable secs func n m ->
  is_external m callee = false -> Func_prologue callee m = Ok (tt, m1) -> steps k m1 m2 ->
  stack_frames (_ctx_stack m2) = stack_frames (_ctx_stack m1) ->
  Func_epilogue m2 = Ok (tt, m3) ->
  _current m3 = _current m /\ stack_frames (_ctx_stack m3) = stack_frames (_ctx_stack m) /\
  forall t, REGISTER._fp (regs t m3) = REGISTER._fp (regs t m).
Proof.
  intros H He Hp Hs Hst H3. apply reachable_windows in H.
  now destruct (frame_restored _ _ _ _ _ _ H He Hp Hs Hst H3) as (_ & H').
Qed.

(** C8: A return passes the results: what the returning function holds in its
  register [i] is, after the return to a function (not to the entry frame), in the
  caller's register [shift + i]. *)
Theorem return_passes_results secs func n m m' t i v : reachable secs func n m ->
  Func_epilogue m = Ok (tt, m') -> stack_frames (_ctx_stack m') <> [] ->
  reg_get t i m = Ok (v, m) ->
  reg_get t (shs (_types m') (_func_idx (_current m')) t + i) m' = Ok (v, m').
Proof. intros H. apply return_results. eapply reachable_windows, H. Qed.

(** C9: The depth of calls.  In every state a program reaches at most 1024 contexts
  are saved, and a call with 1024 of them writes outside the context stack (which
  [Push] would enlarge one push later). *)
Theorem call_depth_limit secs func n m callee : reachable secs func n m ->
  Z.of_nat (length (stack_frames (_ctx_stack m))) <= DEFAULT_STACK_SIZE /\
  (Z.of_nat (length (stack_frames (_ctx_stack m))) = DEFAULT_STACK_SIZE ->
   Func_prologue callee m = Err StackFault).
Proof.
  intros [Hpre _]%reachable_windows. split; [now apply frames_bounded|].
  apply call_depth, Hpre.
Qed.

(** The execution loop implements the step relation: with [fuel] iterations it
  ends in a state exactly when that state is reached by fewer steps and an
  instruction that stops. *)
Theorem Exec_start_refines fuel m m' : Exec_start fuel m = Ok m' <->
  exists n m1, (n < fuel)%nat /\ steps n m m1 /\ stops m1 m'.
Proof. apply Exec_start_steps. Qed.

(** The stepping loop of the debugger: [Control_start] with a count ends after
  exactly that many steps, or where [Exec_start] ends if that comes first. *)
Theorem Control_start_refines count m m' : Control_start count m = Ok m' <->
  steps count m m' \/ Exec_start count m = Ok m'.
Proof.
  revert m. induction count as [|c IH]; intros m; simpl.
  - split; [intros [= <-]; left; constructor | intros [H|[=]]; inversion H; reflexivity].
  - destruct (exec_one m) as [[[] m1]|f] eqn:E.
    + apply exec_one_stops in E as E'. split; [now right|]. intros [H|H]; [|exact H].
      inversion H as [|? ? m2 ? Hs]; subst. apply exec_one_step in Hs. congruence.
    + apply exec_one_step in E as E'. rewrite IH. split; (intros [H|H]; [left|now right]).
      * econstructor; eauto.
      * inversion H as [|? ? m2 ? Hs Hss]; subst. apply exec_one_step in Hs.
        assert (m2 = m1) as -> by congruence. exact Hss.
    + split; [discriminate|]. intros [H|[=]]. inversion H as [|? ? m2 ? Hs]; subst.
      apply exec_one_step in Hs. congruence.
Qed.

(** A run has one outcome: the loop's result, an end or a fault, does not depend
  on the number of iterations allowed, once they are enough for it. *)
Theorem Exec_start_stable f1 f2 m r1 r2 :
  Exec_start f1 m = r1 -> Exec_start f2 m = r2 -> r1 <> Err FuelOut -> r2 <> Err FuelOut -> r1 = r2.
Proof.
  intros H1 H2 N1 N2. destruct (Nat.le_ge_cases f1 f2) as [H|H].
  - rewrite <- H2. symmetry. now apply (Exec_start_mono f1).
  - rewrite <- H1. now apply (Exec_start_mono f2).
Qed.

(** No instruction other than a call or a return changes the context stack, the
  module, the windows of the registers, the current function, its label table or
  the stack pointer. *)
Theorem only_calls_move_frames op inst m flow m' :
  is_call op = false -> is_return op = false -> exec_op op inst m = Ok (flow, m') -> env_frame m m'.
Proof. intros Hc Hr. now apply frames_exec_op. Qed.
End Execution.

(** ** Instances, in the run of the sample program *)
Section Witnesses.
Lemma windows_in_place_witness : windows_ok (sample_after 5).
Proof. apply (windows_in_place sample_secs 0 5), sample_reachable. vm_compute. reflexivity. Defined.

Lemma declared_registers_accessible_witness :
  reg_get I32 1 (sample_after 2) <> Err RegFault /\
  exists m', reg_set I32 1 7 (sample_after 2) = Ok (tt, m') /\ reg_get I32 1 m' = Ok (7, m').
Proof.
  apply (declared_registers_accessible sample_secs 0 2 _ I32 1 7).
  - apply sample_reachable. vm_compute. reflexivity.
  - vm_compute. split; congruence.
Defined.

Definition sample_called : UWASM_MACHINE := (from_ok (tt, no_machine) (Func_prologue 1 (sample_after 4))).2.

Lemma call_passes_arguments_witness :
  _func_idx (_current sample_called) = 1 /\ reg_get I32 1 sample_called = Ok (3, sample_called).
Proof.
  apply (call_passes_arguments sample_secs 0 4 (sample_after 4) 1 sample_called I32 1 3).
  - apply sample_reachable. vm_compute. reflexivity.
  - vm_compute. reflexivity.
  - vm_compute. reflexivity.
  - vm_compute. reflexivity.
Defined.

Definition sample_added : UWASM_MACHINE := from_ok no_machine (exec_n 1 sample_called).
Definition sample_returned : UWASM_MACHINE := (from_ok (tt, no_machine) (Func_epilogue sample_added)).2.

Lemma call_return_restores_witness :
  _current sample_returned = _current (sample_after 4) /\
  stack_frames (_ctx_stack sample_returned) = stack_frames (_ctx_stack (sample_after 4)) /\
  forall t, REGISTER._fp (regs t sample_returned) = REGISTER._fp (regs t (sample_after 4)).
Proof.
  apply (call_return_restores sample_secs 0 4 (sample_after 4) 1 sample_called 1 sample_added sample_returned).
  - apply sample_reachable. vm_compute. reflexivity.
  - vm_compute. reflexivity.
  - vm_compute. reflexivity.
  - apply exec_n_steps. vm_compute. reflexivity.
  - vm_compute. reflexivity.
  - vm_compute. reflexivity.
Defined.

Definition sample_resumed : UWASM_MACHINE := (from_ok (tt, no_machine) (Func_epilogue (sample_after 6))).2.

Lemma return_passes_results_witness :
  reg_get I32 (shs (_types sample_resumed) (_func_idx (_current sample_resumed)) I32 + 0) sample_resumed
  = Ok (3, sample_resumed).
Proof.
  apply (return_passes_results sample_secs 0 6 (sample_after 6) sample_resumed I32 0 3).
  - apply sample_reachable. vm_compute. reflexivity.
  - vm_compute. reflexivity.
  - vm_compute. discriminate.
  - vm_compute. reflexivity.
Defined.

Lemma call_depth_limit_witness :
  Z.of_nat (length (stack_frames (_ctx_stack (sample_after 5)))) <= DEFAULT_STACK_SIZE.
Proof. apply (call_depth_limit sample_secs 0 5 _ 1), sample_reachable. vm_compute. reflexivity. Defined.

Definition sample_const : UWASM_MACHINE :=
  (from_ok (BREAK, no_machine) (exec_op CONST_I32_AM32_R_IMM_L (mkAM_EXPAND 80 0 0 5) sample_start)).2.

Lemma only_calls_move_frames_witness : env_frame sample_start sample_const.
Proof.
  apply (only_calls_move_frames CONST_I32_AM32_R_IMM_L (mkAM_EXPAND 80 0 0 5) sample_start BREAK sample_const).
  - reflexivity.
  - reflexivity.
  - vm_compute. reflexivity.
Defined.
End Witnesses.
