(* ===== verification/Format.v ===== *)
(** * The module format: the theorems

  What is written is read back: instructions, labels, functions, the code section,
  type signatures, names and section headers. *)

From S2P Require Import Prelude CInt BitField CFloat Isa Inst Expand Ubh Memory UModule DataSegs StrTab TypeEncoder Encoder Code CodeSec Labels Writing Layout File Saved Functions Machine Handlers Exec Frames Windows Safety Loading Sample Reachable.
From Stdlib Require Import ZArith Lia.
Local Open Scope Z_scope.

Section Format.
Context {bd : Build} {pf : Platform} {vg : VectorGrowth}.

(** C17: An instruction whose operands fit the fields of its address mode is encoded
  without a failing check, to a word of the width of the address mode, and the loader
  expands that word to the instruction's opcode, type and operands. *)
Theorem instruction_round_trip o am t content e :
  UWINST_TY_AM o = Ok am -> t <> VALTY_UNKNOWN -> operands_fit am content = true -> exists w,
  (if Is_32bit_am am then Init_inst32 0 am o t content else Init_inst64 0 am o t content) = Ok w /\
  in_u (if Is_32bit_am am then 32 else 64) w /\
  Is_32bit (fget U_INST32._opcode w) = Is_32bit_am am /\
  Expand_inst (Is_32bit_am am) w e = Ok (am_expand am o t content e).
Proof.
  intros Ho Ht Hc. exists (encoded am o t content). split; [|split; [apply encoded_range | split]].
  - destruct (Is_32bit_am am) eqn:E; [now apply Init_inst32_run | now apply Init_inst64_run].
  - rewrite encoded_opcode by now apply (in_u_opcode o am). now apply width_of_opcode.
  - now apply Expand_encoded.
Qed.

(** C16: A function written by calls of [Add_inst], [Request_label] and [Add_label]:
  the calls succeed, [Finish] accepts the body when every label asked for was added,
  and the entry it leaves is the one of the instructions given, with each label's
  entry at the word where the instruction after it starts. *)
Theorem written_function ops e v l io sz off :
  U_ENCODER._u_inst_encoder e = v ++ [U_CODE_BODY.create l io sz] ->
  calls_fit ops = true -> labels_set (calls_meaning ops) ->
  Z.of_nat (sum_list_with op_words ops) < 2 ^ 20 -> Z.of_nat (sum_list_with op_labels ops) < 2 ^ 12 ->
  0 <= off < 2 ^ 32 -> exists e' c c' labs,
  perform_all ops e = Ok (tt, e') /\ U_ENCODER._u_inst_encoder e' = v ++ [c] /\
  U_CODE_BODY.Finish off c = Ok c' /\
  entry_of (mkBODY (calls_meaning ops).1 labs) (entry_of_body c') /\ labels_ok (calls_meaning ops) labs c'.
Proof.
  intros He Hfit Hset Hw Hl Ho. unfold calls_fit in Hfit. rewrite !andb_true_iff, !Z.ltb_lt in Hfit.
  destruct Hfit as [[[Hok H1] H2] H3].
  destruct (perform_all_sizes ops e v _ _ He (stands_for_create l io sz)) as (e' & c & Hp & He' & Hm & Hu & Hi & Hn).
  { apply calls_fit_ok; auto; cbn; lia. }
  cbn [U_CODE_BODY.create U_CODE_BODY._inst_tab U_CODE_BODY._lab_tab length Nat.add] in Hi, Hn.
  destruct (entry_of_written _ c off Hm Hset) as (c' & labs & Hf & Hent & Hlabs & _); auto; [|lia|lia|].
  - rewrite Hu. apply create_range.
  - exists e', c, c', labs. auto.
Qed.

(** C15: The loader's expansion of a whole module.  When each function of the section
  is external or its code entry is that of some instructions and labels, loading
  succeeds; the functions' instructions, expanded, are one after the other in the
  table; each function's base and label entries are the places of its first and of
  the labelled instructions; the end is the number of instructions. *)
Theorem module_expanded s bs : sec_elem_num s S_FUNC = Ok (Z.of_nat (length (_func_sec s))) ->
  Forall2 (func_matches s) (_func_sec s) bs -> words_num bs < 2 ^ 32 ->
  exists c, Expansion.Expand_code s = Ok c /\ code_loaded bs c.
Proof. apply Expand_code_run. Qed.

(** The code section: what [Write_to_buf] writes after [Finish] has the size
  announced for it, and [Set_code_sec] reads from it the code, instructions and
  labels of every function. *)
Theorem code_section_round_trip v v' s : Forall (fun c => body_fits c = true) v ->
  bodies_size v < 2 ^ 32 -> U_INST_ENCODER.Finish v = Ok v' ->
  Contains_section s S_CODE = true -> sec_elem_num s S_CODE = Ok (Z.of_nat (length v)) ->
  4 * Z.of_nat (length (U_INST_ENCODER.Write_to_buf v')) = U_INST_ENCODER.Code_sec_size v' /\
  exists s', Code_section.Set_code_sec (U_INST_ENCODER.Write_to_buf v') s = Ok s' /\
    _code_sec s' = map entry_of_body v' /\ _func_sec s' = _func_sec s /\ _type_sec s' = _type_sec s.
Proof.
  intros Hv Hsz Hf Hc Hn. pose proof (read_entries_run v [] [] v' Hv Hsz Hf) as Hr. rewrite app_nil_r in Hr.
  pose proof (Finish_size _ _ _ Hf) as Hsz'.
  split.
  - rewrite Code_sec_size_eq by lia. apply Write_to_buf_length.
  - unfold Code_section.Set_code_sec. rewrite Hc, Hn. cbn [negb mbind outcome_bind]. rewrite Nat2Z.id.
    change (4 * Z.of_nat (@length Z [])) with 0 in Hr. cbn [app] in Hr. rewrite Hr. eexists. split; [reflexivity|]. auto.
Qed.

(** C14: A file that is written can be read.  When the tables of the encoder fit the fields
  of the format, [Write_to_file] makes exactly as many bytes as announced, and the loader
  has from them the encoder's tables, entry by entry, the code, instructions and labels of
  every function, and for each section that is not empty its number of elements. *)
Theorem file_round_trip e e' u w total : U_ENCODER.Finish e = Ok (u, e') ->
  U_ENCODER.Collect_write_info e' = Ok (w, total) ->
  finished_from (U_ENCODER._u_inst_encoder e) e' -> file_fits e' = true ->
  exists buf m, Write_to_file e = Ok (buf, e') /\ Z.of_nat (length buf) = total /\
    Read_sections buf = Ok m /\ holds e' m.
Proof. apply file_saved. Qed.

(** The sections of the file.  [Collect_write_info] writes a header for each table
  that has elements; the loader finds exactly these by their identifiers, each at the
  offset after the sections before it, with its number of elements modulo 2^16. *)
Theorem sections_found e w total s0 : U_ENCODER.Collect_write_info e = Ok (w, total) ->
  exists s, Set_shdr_tab (U_ENCODER.ubh_shdr_vec w) s0 = Ok s /\
  (forall id, Contains_section s id = true <-> id ∈ map U_ENCODER._sec_id (sections_of e U_ENCODER.SEC_INFO_ARR)) /\
  forall k info, sections_of e U_ENCODER.SEC_INFO_ARR !! k = Some info -> exists h,
    Get_shdr_by_sec_id s (U_ENCODER._sec_id info) = Ok h /\
    UBH_SHDR.Get_elem_num h = Ok (UINT16 (elems_of e info)) /\
    UBH_SHDR.Get_idx h = UINT32 (offset_at (sizes_of e (sections_of e U_ENCODER.SEC_INFO_ARR)) UBH_MHDR.sizeof k).
Proof. intros H. destruct (Collect_run e w total s0 H) as (s & Hs & [F1 F2]). exists s. auto. Qed.

(** A function signature.  [Add_type] enters the types of results and parameters,
  in the bits of the entry or, from 14 types on, as a string; what it returns is the
  index of an entry that the loader decodes to the same lists and counts, also after
  more strings were added. *)
Theorem signature_round_trip rets params st : encodable rets params -> wf_tab (_nn_tab st) -> type_room st ->
  exists i st' ty, TypeEncoder.Add_type rets params st = Ok (i, st') /\ wf_tab (_nn_tab st') /\
    nthZ (_type_list st') i = Ok ty /\ _type_list st `prefix_of` _type_list st' /\
    forall raw, _raw_buf (_nn_tab st') `prefix_of` raw ->
      Types.Decode_type raw ty = Ok (tl_of rets, tl_of params).
Proof.
  intros He Hw Hr. destruct (Add_type_run rets params st He Hw Hr) as (i & st' & ty & H1 & H2 & H3 & H4 & _ & H5).
  exists i, st', ty. auto.
Qed.

(** C34: The string table.  [Request] gives an entry that holds the string, keeps every
  entry there was, gives the same entry when asked again, and [Get_off] is where the
  string starts in the bytes written to the file. *)
Theorem string_kept buf tab : wf_tab tab -> has_room (length buf) tab -> exists i tab' off,
  Request buf tab = Ok (i, tab') /\ wf_tab tab' /\ Request buf tab' = Ok (i, tab') /\
  Get_off i tab' = Ok off /\ slice_of (_raw_buf tab') (off, Z.of_nat (length buf)) = buf /\
  (forall j s, string_at tab j = Some s -> string_at tab' j = Some s) /\ _raw_buf tab `prefix_of` _raw_buf tab'.
Proof.
  intros Hw Hr. destruct (Request_spec buf tab Hw Hr) as (i & tab' & H1 & [A1 A2 A3 _ A5 _] & H2).
  destruct (Get_off_spec tab' i buf A1 A2) as (off & H3 & _ & _ & H4). exists i, tab', off. auto 10.
Qed.

(** C40: The order of the map of strings is a strict total order on byte strings, as
  [std::map] requires, for either signedness of [char]. *)
Theorem COMPARATOR_strict_total :
  (forall s, COMPARATOR s s = false) /\
  (forall s1 s2 s3, COMPARATOR s1 s2 = true -> COMPARATOR s2 s3 = true -> COMPARATOR s1 s3 = true) /\
  (forall s1 s2, Forall (in_u 8) s1 -> Forall (in_u 8) s2 ->
    s1 = s2 \/ COMPARATOR s1 s2 = true \/ COMPARATOR s2 s1 = true).
Proof.
  split; [exact COMPARATOR_irrefl | split; [exact COMPARATOR_trans|]]. intros s1 s2 H1 H2.
  destruct (COMPARATOR s1 s2) eqn:E1; [auto|]. destruct (COMPARATOR s2 s1) eqn:E2; [auto|].
  left. now apply COMPARATOR_total.
Qed.

(** [Finish] accepts a function exactly when every label asked for was added (in a
  build with assertions). *)
Theorem Finish_checks_labels ops e v l io sz off : release = false ->
  U_ENCODER._u_inst_encoder e = v ++ [U_CODE_BODY.create l io sz] -> calls_fit ops = true ->
  exists e' c, perform_all ops e = Ok (tt, e') /\ U_ENCODER._u_inst_encoder e' = v ++ [c] /\
    (is_ok (U_CODE_BODY.Finish off c) = true <-> labels_set (calls_meaning ops)).
Proof.
  intros Hrel He Hfit. unfold calls_fit in Hfit. rewrite !andb_true_iff, !Z.ltb_lt in Hfit.
  destruct Hfit as [[[Hok H1] H2] H3].
  destruct (perform_all_sizes ops e v _ _ He (stands_for_create l io sz)) as (e' & c & Hp & He' & [_ Hm _] & _).
  { apply calls_fit_ok; auto; cbn; lia. }
  exists e', c. split; [exact Hp|]. split; [exact He'|]. rewrite (Finish_labels off c _ Hrel Hm).
  unfold labels_set. fold (calls_meaning ops). unfold map_Forall. setoid_rewrite lookup_fmap. split.
  - intros H name k Hk. destruct k as [k|]; [eauto|]. exfalso. apply (H name UNINIT_LABEL_IDX); [|reflexivity].
    now rewrite Hk.
  - intros H name o Ho. destruct (_ !! name) as [k|] eqn:E; [|discriminate]. destruct (H _ _ E) as [j ->].
    injection Ho as <-. unfold UNINIT_LABEL_IDX. lia.
Qed.

(** C36: Functions requested by name.  Requests of different names are answered by the
  indexes 0, 1, ...; the entry at an index has the offset of its name, and at this
  offset the name is in the string table.  When a name is asked for again, its index
  among the strings, which is one more than that of its function, is compared with the
  offsets: the answer is the function whose name is at the offset equal to that index;
  when there is none, an assertion stops the program or, in a release build, the answer
  is 2^32 - 1.  So the first function is found again and every later one never is. *)
Theorem functions_requested e0 ns ty fl : U_ENCODER.create = Ok e0 -> NoDup ns -> Forall (fun nm => nm <> []) ns ->
  Z.of_nat (length (names_bytes ns)) <= 2 ^ 16 -> exists e,
  request_all ns ty fl e0 = Ok (map (fun j => (Z.of_nat j, false)) (seq 0 (length ns)), e) /\
  length (U_ENCODER._func_tab e) = length ns /\
  forall i nm, ns !! i = Some nm ->
    (exists f, U_ENCODER._func_tab e !! i = Some f /\ UBH_FUNC.Get_name_idx f = name_off ns i /\
      take (length (cstr nm)) (drop (Z.to_nat (UBH_FUNC.Get_name_idx f)) (_raw_buf (U_ENCODER._module_string_tab e))) = cstr nm) /\
    forall ty' fl',
    (forall j, (j < length ns)%nat -> name_off ns j = Z.of_nat (S i) ->
      U_ENCODER.Inner_request_func nm ty' fl' e = Ok ((Z.of_nat j, true), e)) /\
    ((forall j, (j < length ns)%nat -> name_off ns j <> Z.of_nat (S i)) ->
      U_ENCODER.Inner_request_func nm ty' fl' e =
        if release then Ok ((UINT32 (-1), true), e) else Err AssertFail) /\
    (i = O -> U_ENCODER.Inner_request_func nm ty' fl' e = Ok ((0, true), e)) /\
    (i <> O -> forall e', U_ENCODER.Inner_request_func nm ty' fl' e <> Ok ((Z.of_nat i, true), e')).
Proof.
  intros H0 Hd Hne Hsz. destruct (request_all_run ns ty fl [] e0 (create_requested e0 H0) Hd Hne Hsz) as (e & He & Hq).
  cbn [app length] in He, Hq. exists e. split; [exact He|]. split.
  { rewrite <- (length_map UBH_FUNC.Get_name_idx), (rq_funcs _ _ Hq), length_imap. reflexivity. }
  intros i nm Hi. split; [exact (requested_entry ns e i nm Hq Hi)|]. intros ty' fl'.
  destruct (request_again ns nm i ty' fl' e Hq Hi) as [A1 A2]. pose proof (lookup_lt_Some _ _ _ Hi) as Hlt.
  assert (name_off ns 0 = 1) as E0 by reflexivity. split; [exact A1|]. split; [|split].
  - intros Hno. rewrite (A2 Hno). unfold Is_True. now destruct release.
  - intros ->. apply (A1 O); [exact Hlt | exact E0].
  - intros Hi0 e' E. pose proof (name_off_steep ns 0 i Hne ltac:(lia)) as P. cbn [Nat.add] in P.
    destruct (decide (Exists (fun j => name_off ns j = Z.of_nat (S i)) (seq 0 (length ns)))) as [(j & Hj%elem_of_seq & Ej)%Exists_exists|Hno].
    + rewrite (A1 j ltac:(lia) Ej) in E. injection E as E _. apply Nat2Z.inj in E. subst j. lia.
    + rewrite A2 in E.
      * pose proof (name_off_bounds ns i nm Hi) as B. unfold Is_True in E. destruct release; [|discriminate]. injection E as E _.
        change (UINT32 (-1)) with 4294967295 in E. change (2 ^ 16) with 65536 in Hsz. lia.
      * intros j Hj Ej. apply Hno, Exists_exists. exists j. split; [apply elem_of_seq; lia | exact Ej].
Qed.

(** C37: The caches of the loader.  [Decode_type_and_cache] keeps for every type the lists
  that its entry decodes to, and for every function the numbers of registers the
  machine uses: none for an external function; otherwise, for each type, the window
  shift is the number of locals and the register number that of locals and passing
  registers together. *)
Theorem caches_decoded s ty : Types.Decode_type_and_cache s = Ok ty ->
  (forall i n, sec_elem_num s S_TYPE = Ok n -> 0 <= i < n -> exists t r p,
    Get_type s i = Ok t /\ Types.Decode_type (_non_null_str_sec s) t = Ok (r, p) /\
    nthZ (_ret_tab ty) i = Ok (Types.tl_list r) /\ nthZ (_param_tab ty) i = Ok (Types.tl_list p)) /\
  (forall i n f, sec_elem_num s S_FUNC = Ok n -> 0 <= i < n -> Get_func s i = Ok f ->
    (UBH_FUNC.Is_set_flag F_EXTERN f = true -> forall t, rnum ty i t = 0 /\ shs ty i t = 0) /\
    (forall e, UBH_FUNC.Is_set_flag F_EXTERN f = false -> Get_code s (fget UBH_FUNC._code_idx f) = Ok e ->
      forall t, rnum ty i t = locals t (ce_code e) + ios t (ce_code e) /\ shs ty i t = locals t (ce_code e))).
Proof.
  intros H. destruct (Decode_tables s ty H) as [Ht Hf]. split; [exact Ht|]. intros i n f Hn Hi Hg.
  destruct (Hf i n Hn Hi) as (f' & rn & sh & Hg' & Hr & H1 & H2). assert (f' = f) as -> by congruence.
  unfold rnum, shs. split.
  - intros Hx t. unfold Types.Func_regs in Hr. rewrite Hx in Hr. injection Hr as <- <-.
    rewrite (tab16_Ok _ _ _ _ H1), (tab16_Ok _ _ _ _ H2). destruct t; split; reflexivity.
  - intros e Hx He t. destruct (Func_regs_run s f e Hx He) as (rn' & sh' & Hr' & Hc).
    assert (rn' = rn /\ sh' = sh) as [-> ->] by (split; congruence).
    rewrite (tab16_Ok _ _ _ _ H1), (tab16_Ok _ _ _ _ H2). apply Hc.
Qed.

(** C35: Data segments.  For a data section of segments that end before the end of the
  memory, the loader leaves in each byte what the last segment covering it holds, and
  in the others what they were. *)
Theorem data_segments_copied segs mem_size b : Forall (seg_ok mem_size) segs -> 0 <= mem_size <= 2 ^ 32 ->
  b_live b = true -> mem_size <= b_size b -> Z.of_nat (length (data_section segs)) < 2 ^ 32 -> exists b',
  Data.Init_mem_with_data_segs mem_size (data_section segs) (Z.of_nat (length (data_section segs))) b = Ok b' /\
  forall j, byte_at b' j = overlay segs j (byte_at b j).
Proof.
  intros Hok [H0 Hm] Hl Hsz Hlen. destruct (Init_mem_run segs mem_size b Hok H0 Hm Hl Hsz Hlen) as (b' & H1 & _ & _ & H2).
  exists b'. auto.
Qed.
End Format.

(** ** Instances *)
Section Witnesses.
Lemma instruction_round_trip_witness : exists w,
  Init_inst32 0 TY_AM32S_R_R_IMM Opcode.ADDS_I I32 [3; 0; 7] = Ok w /\ in_u 32 w /\
  Is_32bit (fget U_INST32._opcode w) = true /\
  Expand_inst true w (mkAM_EXPAND 0 0 0 0) =
    Ok (am_expand TY_AM32S_R_R_IMM Opcode.ADDS_I I32 [3; 0; 7] (mkAM_EXPAND 0 0 0 0)).
Proof.
  apply (instruction_round_trip Opcode.ADDS_I TY_AM32S_R_R_IMM I32 [3; 0; 7] (mkAM_EXPAND 0 0 0 0)).
  - vm_compute. reflexivity.
  - discriminate.
  - vm_compute. reflexivity.
Defined.

(** A loop that jumps back to a label and forward to another. *)
Definition inst32 (o : Z) (am : TY_AM) (content : list Z) : INST := mkINST o I32 am content.
Definition sample_calls : list CALL := [
  CALL_Add_inst (inst32 Opcode.CONST TY_AM32_R_IMM [0; 5]);
  CALL_Add_label [97];
  CALL_Add_inst (inst32 Opcode.ADD_RI TY_AM32_R_IMM [0; 2 ^ 32 - 1]);
  CALL_Request_label [98];
  CALL_Add_inst (inst32 Opcode.JNZ TY_AM32_R_OFS [0; 0]);
  CALL_Add_label [98];
  CALL_Add_inst (inst32 Opcode.RETURN TY_AM32 []) ].
Definition sample_body : U_CODE_BODY.t := U_CODE_BODY.create (1, 0, 0, 0) (0, 0, 0, 0) 16.
Definition sample_encoder : U_ENCODER.t :=
  U_ENCODER.mk 0 [] [] [] (mkTYPE_ENCODER [] str_tab0) [] [] [sample_body] [] [] str_tab0 str_tab0.

Lemma sample_labels_set : labels_set (calls_meaning sample_calls).
Proof.
  intros name k H. destruct k; [eauto|]. apply elem_of_map_to_list in H. vm_compute in H.
  repeat (apply elem_of_cons in H as [H|H]; [discriminate H|]). now apply not_elem_of_nil in H.
Qed.

Lemma written_function_witness : exists e' c c' labs,
  perform_all sample_calls sample_encoder = Ok (tt, e') /\ U_ENCODER._u_inst_encoder e' = [] ++ [c] /\
  U_CODE_BODY.Finish 0 c = Ok c' /\
  entry_of (mkBODY (calls_meaning sample_calls).1 labs) (entry_of_body c') /\ labels_ok (calls_meaning sample_calls) labs c'.
Proof.
  apply (written_function sample_calls sample_encoder [] (1, 0, 0, 0) (0, 0, 0, 0) 16 0).
  - reflexivity.
  - vm_compute. reflexivity.
  - exact sample_labels_set.
  - vm_compute. reflexivity.
  - vm_compute. reflexivity.
  - split; vm_compute; congruence.
Defined.

Lemma Finish_checks_labels_witness : exists e' c,
  perform_all sample_calls sample_encoder = Ok (tt, e') /\ U_ENCODER._u_inst_encoder e' = [] ++ [c] /\
  (is_ok (U_CODE_BODY.Finish 0 c) = true <-> labels_set (calls_meaning sample_calls)).
Proof.
  apply (Finish_checks_labels sample_calls sample_encoder [] (1, 0, 0, 0) (0, 0, 0, 0) 16 0).
  - reflexivity.
  - reflexivity.
  - vm_compute. reflexivity.
Defined.

(** The two functions of the sample module. *)
Definition sample_bodies : list (option BODY) := [
  Some (mkBODY [
    inst32 Opcode.CONST TY_AM32_R_IMM [0; 0]; inst32 Opcode.CONST TY_AM32_R_IMM [1; 3];
    inst32 Opcode.ADDS_I TY_AM32S_R_R_IMM [3; 0; 0]; inst32 Opcode.ADDS_I TY_AM32S_R_R_IMM [4; 1; 0];
    inst32 Opcode.CALL TY_AM32_OFS [1]; inst32 Opcode.ADDS_I TY_AM32S_R_R_IMM [0; 3; 0];
    inst32 Opcode.ADD_RI TY_AM32_R_IMM [1; 2 ^ 32 - 1]; inst32 Opcode.JNZ TY_AM32_R_OFS [1; 0];
    inst32 Opcode.RETURN TY_AM32 [] ] [2%nat]);
  Some (mkBODY [inst32 Opcode.ADD_RR TY_AM32_R_R [0; 1]; inst32 Opcode.RETURN TY_AM32 []] []) ].

Definition sample_entry (i : nat) : CODE_ENTRY := nth i (_code_sec sample_secs) (mkCODE 0 [] []).

Lemma module_expanded_witness : exists c, Expansion.Expand_code sample_secs = Ok c /\ code_loaded sample_bodies c.
Proof.
  apply (module_expanded sample_secs sample_bodies).
  - vm_compute. reflexivity.
  - assert (_func_sec sample_secs = [65536; 281474977103873]) as -> by (vm_compute; reflexivity).
    constructor; [|constructor; [|constructor]]; (split; [vm_compute; reflexivity|]; split; [vm_compute; reflexivity|]).
    + exists (sample_entry 0). split; [vm_compute; reflexivity | vm_compute; repeat split].
    + exists (sample_entry 1). split; [vm_compute; reflexivity | vm_compute; repeat split].
  - vm_compute. reflexivity.
Defined.

Definition two_bodies : list U_CODE_BODY.t := [
  U_CODE_BODY.mk (U_CODE_BODY._ubh_code sample_body) [1; 2; 3] [0; 2] str_tab0;
  U_CODE_BODY.mk (U_CODE_BODY._ubh_code sample_body) [7] [] str_tab0 ].

Lemma code_section_round_trip_witness : exists v',
  U_INST_ENCODER.Finish two_bodies = Ok v' /\
  4 * Z.of_nat (length (U_INST_ENCODER.Write_to_buf v')) = U_INST_ENCODER.Code_sec_size v' /\
  exists s', Code_section.Set_code_sec (U_INST_ENCODER.Write_to_buf v') sample_secs = Ok s' /\
    _code_sec s' = map entry_of_body v' /\ _func_sec s' = _func_sec sample_secs /\ _type_sec s' = _type_sec sample_secs.
Proof.
  exists (from_ok [] (U_INST_ENCODER.Finish two_bodies)). split; [vm_compute; reflexivity|].
  apply (code_section_round_trip two_bodies (from_ok [] (U_INST_ENCODER.Finish two_bodies)) sample_secs).
  - repeat constructor.
  - vm_compute. reflexivity.
  - vm_compute. reflexivity.
  - vm_compute. reflexivity.
  - vm_compute. reflexivity.
Defined.

Definition sample_written : U_ENCODER.t :=
  from_ok sample_encoder (e ← U_ENCODER.create; r ← program 3 e; r ← U_ENCODER.Finish r.2; mret r.2).
Definition sample_info : U_ENCODER.WRITE_INFO * Z :=
  from_ok (U_ENCODER.mkWI [] [] 0, 0) (U_ENCODER.Collect_write_info sample_written).

Lemma sections_found_witness : exists s, Set_shdr_tab (U_ENCODER.ubh_shdr_vec sample_info.1) no_secs = Ok s /\
  (forall id, Contains_section s id = true <->
    id ∈ map U_ENCODER._sec_id (sections_of sample_written U_ENCODER.SEC_INFO_ARR)) /\
  forall k info, sections_of sample_written U_ENCODER.SEC_INFO_ARR !! k = Some info -> exists h,
    Get_shdr_by_sec_id s (U_ENCODER._sec_id info) = Ok h /\
    UBH_SHDR.Get_elem_num h = Ok (UINT16 (elems_of sample_written info)) /\
    UBH_SHDR.Get_idx h = UINT32 (offset_at (sizes_of sample_written
      (sections_of sample_written U_ENCODER.SEC_INFO_ARR)) UBH_MHDR.sizeof k).
Proof. apply (sections_found sample_written sample_info.1 sample_info.2 no_secs). vm_compute. reflexivity. Defined.

(** The sample's encoder before [Finish]. *)
Definition sample_built : U_ENCODER.t := from_ok sample_encoder (e ← U_ENCODER.create; r ← program 3 e; mret r.2).

Lemma file_round_trip_witness : exists buf m, Write_to_file sample_built = Ok (buf, sample_written) /\
  Z.of_nat (length buf) = 268 /\ Read_sections buf = Ok m /\ holds sample_written m.
Proof.
  apply (file_round_trip sample_built sample_written tt sample_info.1 268).
  - vm_compute. reflexivity.
  - vm_compute. reflexivity.
  - split; [vm_compute; reflexivity|]. apply (forallb_Forall' (fun c => body_fits c = true)). vm_compute. reflexivity.
  - vm_compute. reflexivity.
Defined.

(** Fifteen types: the string form. *)
Lemma signature_round_trip_witness : exists i st' ty,
  TypeEncoder.Add_type [F64] (repeat I64 14) (mkTYPE_ENCODER [] str_tab0) = Ok (i, st') /\ wf_tab (_nn_tab st') /\
  nthZ (_type_list st') i = Ok ty /\ [] `prefix_of` _type_list st' /\
  forall raw, _raw_buf (_nn_tab st') `prefix_of` raw ->
    Types.Decode_type raw ty = Ok (tl_of [F64], tl_of (repeat I64 14)).
Proof.
  apply (signature_round_trip [F64] (repeat I64 14) (mkTYPE_ENCODER [] str_tab0)).
  - split; [repeat constructor; discriminate | repeat constructor; discriminate | cbn; lia | cbn; lia].
  - exact wf_tab0.
  - split; vm_compute; reflexivity.
Defined.

Lemma string_kept_witness : exists i tab' off,
  Request [97; 0] str_tab0 = Ok (i, tab') /\ wf_tab tab' /\ Request [97; 0] tab' = Ok (i, tab') /\
  Get_off i tab' = Ok off /\ slice_of (_raw_buf tab') (off, 2) = [97; 0] /\
  (forall j s, string_at str_tab0 j = Some s -> string_at tab' j = Some s) /\ [] `prefix_of` _raw_buf tab'.
Proof.
  apply (string_kept [97; 0] str_tab0).
  - exact wf_tab0.
  - split; vm_compute; reflexivity.
Defined.

(** Functions a, b and c: asking for c again answers b, asking for b stops. *)
Definition three_names : list (list Z) := [[97]; [98]; [99]].
Lemma functions_requested_witness : exists e,
  request_all three_names 0 0 (from_ok sample_encoder U_ENCODER.create) = Ok ([(0, false); (1, false); (2, false)], e) /\
  U_ENCODER.Inner_request_func [97] 0 0 e = Ok ((0, true), e) /\
  U_ENCODER.Inner_request_func [98] 0 0 e = Err AssertFail /\
  U_ENCODER.Inner_request_func [99] 0 0 e = Ok ((1, true), e).
Proof.
  destruct (functions_requested (from_ok sample_encoder U_ENCODER.create) three_names 0 0) as (e & H1 & _ & H2).
  - vm_compute. reflexivity.
  - refine (bool_decide_eq_true_1 _ _). vm_compute. reflexivity.
  - repeat constructor; discriminate.
  - vm_compute. discriminate.
  - exists e. split; [exact H1|]. split; [|split].
    + apply (proj2 (H2 0%nat [97] eq_refl) 0 0). reflexivity.
    + apply (proj2 (H2 1%nat [98] eq_refl) 0 0). intros [|[|[|j]]] Hj E; [discriminate E..|]. cbn in Hj. lia.
    + apply (proj1 (proj2 (H2 2%nat [99] eq_refl) 0 0) 1%nat); [cbn; lia | reflexivity].
Defined.

Lemma caches_decoded_witness : exists ty, Types.Decode_type_and_cache sample_secs = Ok ty /\
  rnum ty 0 I32 = 5 /\ shs ty 0 I32 = 3.
Proof.
  exists (from_ok (mkTYPES [] [] [] []) (Types.Decode_type_and_cache sample_secs)).
  assert (Types.Decode_type_and_cache sample_secs = Ok (from_ok (mkTYPES [] [] [] []) (Types.Decode_type_and_cache sample_secs))) as H
    by (vm_compute; reflexivity).
  split; [exact H|]. destruct (caches_decoded _ _ H) as [_ Hf].
  destruct (Hf 0 2 65536 ltac:(vm_compute; reflexivity) ltac:(lia) ltac:(vm_compute; reflexivity)) as [_ Hc].
  destruct (Hc (sample_entry 0) ltac:(vm_compute; reflexivity) ltac:(vm_compute; reflexivity) I32) as [H1 H2].
  split; [rewrite H1 | rewrite H2]; vm_compute; reflexivity.
Defined.

(** Two segments, the second over the end of the first. *)
Definition sample_segs : list SEGMENT := [mkSEG 8 [1; 2; 3; 4]; mkSEG 10 [9; 9]].
Lemma data_segments_copied_witness : exists b',
  Data.Init_mem_with_data_segs 65536 (data_section sample_segs) (Z.of_nat (length (data_section sample_segs)))
    (sample_block 65536) = Ok b' /\
  forall j, byte_at b' j = overlay sample_segs j (byte_at (sample_block 65536) j).
Proof.
  apply (data_segments_copied sample_segs 65536 (sample_block 65536)).
  - repeat constructor; vm_compute; congruence.
  - lia.
  - reflexivity.
  - reflexivity.
  - vm_compute. reflexivity.
Defined.
End Witnesses.
