(* ===== verification/Instructions.v ===== *)
(** * Instructions: the theorems

  The integer instructions against the numerics of WebAssembly, conditional jumps,
  loads and stores, and the addresses they check, in every state a program reaches. *)

From S2P Require Import Prelude CInt BitField CFloat Wasm Isa Inst Expand Ubh Memory UModule StrTab TypeEncoder Encoder Machine Handlers Exec Frames Windows Safety Loading Sample Reachable Typed Ops.
From Stdlib Require Import ZArith Lia.
Local Open Scope Z_scope.

Section Instructions.
Context {bd : Build} {pf : Platform} {rt : Runtime} {rf : RuntimeFrame rt} {rty : RuntimeTyped rt} {fe : FloatEnv}.

(** C18: Total integer operators.  Addition, subtraction, multiplication, the bitwise
  operators and the comparisons, signed and unsigned, on both widths, succeed and
  leave in the destination, and only there, the value that WebAssembly defines. *)
Theorem integer_operators secs func n m op t f inst a b : reachable secs func n m ->
  binop op = Some (t, f) ->
  REGISTER.Get (Get_rs inst) (regs t m) = Ok a -> REGISTER.Get (Get_rt inst) (regs t m) = Ok b ->
  0 <= Get_rd inst < rnum (_types m) (_func_idx (_current m)) t ->
  exists m' v, exec_op op inst m = Ok (BREAK, m') /\ wrote t (Get_rd inst) v m m' /\
    unsigned t v = f (width t) (unsigned t a) (unsigned t b).
Proof.
  intros H Hop Ha Hb Hd. pose proof (binop_int _ _ _ Hop) as Hi.
  assert (in_type t a /\ in_type t b) as [Ta Tb].
  { split; eapply reg_get_typed; try (eapply reachable_typed; exact H); apply reg_get_Ok; eauto. }
  destruct (reg_set_declared t (Get_rd inst) (binop_code op a b) m (reachable_windows _ _ _ _ H) Hd) as (m' & Hs).
  rewrite (binop_run op t f inst m a b Hop) by (now apply reg_get_Ok). rewrite (bind_run _ _ _ _ _ Hs).
  exists m', (reg_norm t (binop_code op a b)). split; [reflexivity|].
  split; [apply reg_set_wrote; [now destruct t | exact Hs]|].
  rewrite (binop_value op t f a b Hop Ta Tb). unfold unsigned at 1.
  assert (0 < width t) by (destruct t; reflexivity).
  rewrite wrapu_wraps by lia. apply wrapu_id. apply (binop_range op t f); [exact Hop | |]; apply wrapu_range; lia.
Qed.

(** C19: Division and remainder, on all operands.  What is done is the signed quotient or
  remainder, for the unsigned forms, too; the program stops for a divisor of zero and
  for the least value over -1, also in a remainder.  This is what WebAssembly defines
  for the signed forms, but that remainder, and for the unsigned forms where both
  operands are below half of the range. *)
Theorem division_operators secs func n m op t f inst a b : reachable secs func n m ->
  divop op = Some (t, f) ->
  REGISTER.Get (Get_rs inst) (regs t m) = Ok a -> REGISTER.Get (Get_rt inst) (regs t m) = Ok b ->
  0 <= Get_rd inst < rnum (_types m) (_func_idx (_current m)) t ->
  let i := unsigned t a in let j := unsigned t b in
  match div_done op (width t) i j with
  | Some q => exists m' v, exec_op op inst m = Ok (BREAK, m') /\ wrote t (Get_rd inst) v m m' /\ unsigned t v = q
  | None => exec_op op inst m = Err DivTrap
  end /\
  (div_agrees op t a b = true -> div_done op (width t) i j = f (width t) i j).
Proof.
  intros H Hop Ha Hb Hd i j.
  assert (is_int t = true) as Hi by (destruct op; cbn in Hop; try discriminate; now injection Hop as <- _).
  assert (in_type t a /\ in_type t b) as [Ta Tb].
  { split; eapply reg_get_typed; try (eapply reachable_typed; exact H); apply reg_get_Ok; eauto. }
  split; [|exact (divop_agrees op t f a b Hop Ta Tb)].
  pose proof (divop_value op t f a b Hop Ta Tb : quotient_is _ (div_done op (width t) i j) _) as Hv.
  rewrite (divop_run op t f inst m a b Hop) by (now apply reg_get_Ok).
  destruct (div_done _ _ i j) as [q|]; cbn [quotient_is] in Hv; [|unfold mbind, M_bind; now rewrite Hv].
  destruct Hv as (r & Hr & Hq).
  destruct (reg_set_declared t (Get_rd inst) r m (reachable_windows _ _ _ _ H) Hd) as (m' & Hs).
  exists m', (reg_norm t r). split; [unfold mbind, M_bind; rewrite Hr; cbn [lift]; now rewrite Hs|].
  split; [apply reg_set_wrote; [now destruct t | exact Hs] | now rewrite unsigned_norm].
Qed.

(** C20: Shifts.  The count, read from a register of type i32 also for the 64-bit forms,
  gives below the width the value that WebAssembly defines; a larger count, which
  WebAssembly takes modulo the width, is undefined behaviour. *)
Theorem shift_operators secs func n m op t f inst a k : reachable secs func n m ->
  shiftop op = Some (t, f) ->
  REGISTER.Get (Get_rs inst) (regs t m) = Ok a -> REGISTER.Get (Get_rt inst) (regs I32 m) = Ok k ->
  0 <= Get_rd inst < rnum (_types m) (_func_idx (_current m)) t ->
  if unsigned I32 k <? width t
  then exists m' v, exec_op op inst m = Ok (BREAK, m') /\ wrote t (Get_rd inst) v m m' /\
    unsigned t v = f (width t) (unsigned t a) (unsigned I32 k)
  else exec_op op inst m = Err ShiftRange.
Proof.
  intros H Hop Ha Hk Hd.
  assert (in_type t a) as Ta by (eapply reg_get_typed; [eapply reachable_typed; exact H | apply reg_get_Ok; eauto]).
  pose proof (shiftop_value op t f a k Hop Ta) as Hv.
  rewrite (shiftop_run op t f inst m a k Hop) by (now apply reg_get_Ok).
  destruct (_ <? _); [|unfold mbind, M_bind; now rewrite Hv]. destruct Hv as (r & Hr & Hq).
  destruct (reg_set_declared t (Get_rd inst) r m (reachable_windows _ _ _ _ H) Hd) as (m' & Hs).
  exists m', (reg_norm t r). split; [unfold mbind, M_bind; rewrite Hr; cbn [lift]; now rewrite Hs|].
  split; [|exact Hq]. apply reg_set_wrote; [|exact Hs]. intros ->. now destruct op.
Qed.

(** C21: Conditional jumps on integers.  The pc becomes the label's place when the
  condition, signed or unsigned, holds of the registers, and the next instruction
  otherwise; nothing else changes. *)
Theorem conditional_jumps secs func n m op t f inst a b l p : reachable secs func n m ->
  jump2 op = Some (t, f) ->
  REGISTER.Get (Get_rd inst) (regs t m) = Ok a -> REGISTER.Get (Get_rs inst) (regs t m) = Ok b ->
  Get_label (Get_ofs inst) m = Ok (l, m) -> _pc (_current m) = Some p ->
  exec_op op inst m = Ok (CONTINUE, set_current (ctx_set_pc
    (if f (width t) (unsigned t a) (unsigned t b) then l else Some (p + 1)) (_current m)) m).
Proof.
  intros H Hop Ha Hb Hl Hp.
  assert (in_type t a /\ in_type t b) as [Ta Tb].
  { split; eapply reg_get_typed; try (eapply reachable_typed; exact H); apply reg_get_Ok; eauto. }
  rewrite (jump2_run op t f inst m a b Hop Ta Tb) by (now apply reg_get_Ok).
  unfold goes, continue_, jump_if, Jmp_am32_ofs. destruct (f _ _ _).
  - now rewrite (bind_run _ _ _ _ _ (bind_run _ _ _ _ _ Hl)).
  - unfold mbind, M_bind, Inc_pc, update_current, modify. now rewrite Hp.
Qed.

(** Conditional jumps that compare a register with zero. *)
Theorem zero_jumps secs func n m op t f inst a l p : reachable secs func n m ->
  jump1 op = Some (t, f) -> REGISTER.Get (Get_rd inst) (regs t m) = Ok a ->
  Get_label (Get_ofs inst) m = Ok (l, m) -> _pc (_current m) = Some p ->
  exec_op op inst m = Ok (CONTINUE, set_current (ctx_set_pc
    (if f (width t) (unsigned t a) then l else Some (p + 1)) (_current m)) m).
Proof.
  intros H Hop Ha Hl Hp.
  assert (in_type t a) as Ta by (eapply reg_get_typed; [eapply reachable_typed; exact H | apply reg_get_Ok; eauto]).
  rewrite (jump1_run op t f inst m a Hop Ta) by (now apply reg_get_Ok).
  unfold goes, continue_, jump_if, Jmp_am32_ofs. destruct (f _ _).
  - now rewrite (bind_run _ _ _ _ _ (bind_run _ _ _ _ _ Hl)).
  - unfold mbind, M_bind, Inc_pc, update_current, modify. now rewrite Hp.
Qed.

(** ** Memory *)
Lemma base_after_store b i1 i2 m a n o v m1 : base_of_op b i1 m = Ok (a, m) -> Get_rs i2 = Get_rs i1 ->
  mem_store n o v m = Ok (tt, m1) -> base_of_op b i2 m1 = Ok (a, m1).
Proof.
  intros Ha Hrs Hs. unfold mem_store in Hs. destruct (_ ≫= _) as [blk|]; [|discriminate]. injection Hs as <-.
  destruct b; cbn [base_of_op] in *.
  - rewrite Hrs. unfold Get_base_addr, mbind, M_bind, reg_get in *. cbn [regs set_mem set_memory _reg_i32] in *.
    destruct (REGISTER.Get _ _) as [p|]; [|discriminate]. cbn [lift get set_mem set_memory _mem_size _sta_off] in *.
    destruct mem_check.
    + destruct (Is_True_Rel _) as [[]|]; [|discriminate]. cbn in *. now injection Ha as <-.
    + destruct (Is_True _) as [[]|]; [|discriminate]. cbn [lift] in *. destruct (0 <? p); [now injection Ha as <-|].
      destruct (_sta_off m); cbn in *; [now injection Ha as <- | discriminate].
  - unfold Get_sp in *. cbn [set_mem set_memory _current] in *. destruct (_sp _); [|discriminate]. now injection Ha as <-.
Qed.

(** C22: A value that a store instruction wrote is what a load instruction of the same
  width and address reads: the low bytes of the register, extended by the sign or by
  zero as the load says. *)
Theorem stored_value_is_loaded secs func n m ops opl bs t t' k sx i1 i2 a v m1 : reachable secs func n m ->
  store_op ops = Some (bs, t, k) -> load_op opl = Some (bs, t', k, sx) ->
  Get_rs i2 = Get_rs i1 -> Get_imm i2 = Get_imm i1 ->
  base_of_op bs i1 m = Ok (a, m) -> REGISTER.Get (Get_rd i1) (regs t m) = Ok v ->
  0 <= Get_rd i2 < rnum (_types m) (_func_idx (_current m)) t' ->
  exec_op ops i1 m = Ok (BREAK, m1) ->
  exists m2, exec_op opl i2 m1 = Ok (BREAK, m2) /\
    wrote t' (Get_rd i2) (reg_norm t' (extend k sx (wrapu (8 * Z.of_nat k) v))) m1 m2.
Proof.
  intros H Hops Hopl Hrs Himm Ha Hv Hd He.
  rewrite (store_run ops bs t k i1 m a v Hops Ha) in He by now apply reg_get_Ok.
  apply bind_Ok in He as ([] & m1' & Hs & [= ->]).
  pose proof (frames_mem_store _ _ _ _ _ _ Hs) as Hf.
  pose proof (windows_ok_frame _ _ (env_frame_win _ _ Hf) (reachable_windows _ _ _ _ H)) as Hw.
  pose proof (base_after_store bs i1 i2 m a _ _ _ _ Ha Hrs Hs) as Ha'.
  assert (mem_load k (a + Get_imm i2) m1 = Ok (wrapu (8 * Z.of_nat k) v, m1)) as Hl.
  { unfold mem_store in Hs. destruct (_mem m) as [b|] eqn:Em; [|discriminate]. cbn in Hs.
    destruct (store k (a + Get_imm i1) v b) as [b'|] eqn:Eb; [|discriminate]. injection Hs as <-.
    unfold mem_load. cbn. rewrite Himm. now rewrite (load_store_same _ _ _ _ _ Eb). }
  destruct (load_run opl bs t' k sx i2 m1 a _ Hopl Ha' Hl) as (w & Hn & Hr). rewrite Hr.
  destruct (reg_set_declared t' (Get_rd i2) w m1 Hw) as (m2 & Hset).
  { now rewrite (ef_types _ _ Hf), (ef_func _ _ Hf). }
  exists m2. split; [now rewrite (bind_run _ _ _ _ _ Hset)|]. rewrite <- Hn.
  apply reg_set_wrote; [|exact Hset]. exact (load_type _ _ _ _ _ Hopl).
Qed.

(** What [Get_base_addr] gives for a negative or null address in range: the top of the
  stack is added, but not in the checked build. *)
Lemma Get_base_addr_below i a sta m : in_type I32 a -> REGISTER.Get i (regs I32 m) = Ok a -> _sta_off m = Some sta ->
  - _mem_size m < a <= 0 -> Get_base_addr i m = Ok (if mem_check then a else sta + a, m).
Proof.
  intros [T1 T2] Ha Hsta Hr. unfold Get_base_addr, mbind, M_bind, reg_get. rewrite Ha. cbn [lift get].
  assert (UINT32 (INT32 (Z.abs a)) = Z.abs a) as ->.
  { unfold UINT32, INT32. rewrite wrapu_wraps by lia. apply wrapu_id. split; [lia|].
    change (2 ^ (32 - 1)) with 2147483648 in *. change (2 ^ 32) with 4294967296. lia. }
  rewrite (proj2 (Z.ltb_lt (Z.abs _) _)), Is_True_Rel_true, Is_True_true by lia. cbn [lift].
  destruct mem_check; [reflexivity|]. now rewrite (proj2 (Z.ltb_ge 0 _)), Hsta by lia.
Qed.

(** C24: The address of a stack variable.  [Llda] leaves its distance from the top of the
  stack, a negative number, in a register; a load through that register then reads, in
  the unchecked build, the bytes of the variable.  In the checked build the check lets
  the address pass, for its absolute value, and the load is before the memory. *)
Theorem stack_variable secs func n m opl t k sx i1 i2 sp sta v : reachable secs func n m ->
  _sp (_current m) = Some sp -> _sta_off m = Some sta ->
  0 <= Get_rd i1 < rnum (_types m) (_func_idx (_current m)) I32 ->
  load_op opl = Some (Mem, t, k, sx) -> Get_rs i2 = Get_rd i1 ->
  0 <= Get_rd i2 < rnum (_types m) (_func_idx (_current m)) t ->
  let a := sp + Get_ofs i1 - sta in
  - _mem_size m < a <= 0 -> - 2 ^ 31 <= a ->
  mem_load k (sp + Get_ofs i1 + Get_imm i2) m = Ok (v, m) ->
  exists m1, exec_op LLDA_I32_AM32_R_OFS_L i1 m = Ok (BREAK, m1) /\ wrote I32 (Get_rd i1) a m m1 /\
  if mem_check then a + Get_imm i2 < 0 -> exec_op opl i2 m1 = Err MemFault
  else exists m2, exec_op opl i2 m1 = Ok (BREAK, m2) /\ wrote t (Get_rd i2) (reg_norm t (extend k sx v)) m1 m2.
Proof.
  intros H Hsp Hsta Hd Hop Hrs Hd2 a Ha Hmin Hv. pose proof (reachable_windows _ _ _ _ H) as Hw.
  assert (in_type I32 a) as Ta by (unfold in_type, in_s; change (2 ^ (32 - 1)) with (2 ^ 31); lia).
  assert (INT32 a = a) as Ea by (apply INT32_id; unfold in_type, in_s in Ta; lia).
  destruct (reg_set_declared I32 (Get_rd i1) a m Hw Hd) as (m1 & Hs).
  pose proof (reg_set_wrote I32 _ _ _ _ ltac:(discriminate) Hs) as W. cbn [reg_norm] in W. rewrite Ea in W.
  exists m1. split; [|split; [exact W|]].
  { cbv beta iota delta [exec_op break_ Llda_i32_am32_r_ofs]. unfold mbind, M_bind, Get_ofst_addr at 1.
    rewrite Hsp, Hsta. cbn [of_option mbind outcome_bind mret outcome_ret lift]. fold a. now rewrite !Ea, Hs. }
  pose proof (wr_frame _ _ _ _ _ W) as F. destruct (wr_mem _ _ _ _ _ W) as (Em & _ & _), (wr_linear _ _ _ _ _ W) as (Es & _ & _).
  assert (base_of_op Mem i2 m1 = Ok (if mem_check then a else sta + a, m1)) as Hb.
  { cbn [base_of_op]. rewrite Hrs. apply Get_base_addr_below; [exact Ta | exact (wr_value _ _ _ _ _ W) | now rewrite (ef_sta _ _ F) | lia]. }
  destruct mem_check.
  - intros Hneg. apply (load_fault opl Mem t k sx i2 m1 _ MemFault Hop Hb). unfold mem_load in *. rewrite Em.
    destruct (_mem m) as [blk|]; [|discriminate]. cbn [of_option mbind outcome_bind]. unfold load, in_block.
    now rewrite (proj2 (Z.leb_gt 0 _)), andb_false_r by lia.
  - assert (mem_load k (sta + a + Get_imm i2) m1 = Ok (v, m1)) as Hl.
    { replace (sta + a + Get_imm i2) with (sp + Get_ofs i1 + Get_imm i2) by (unfold a; lia). unfold mem_load in *. rewrite Em.
      now destruct (x ← _; load _ _ x); [injection Hv as -> |]. }
    destruct (load_run opl Mem t k sx i2 m1 _ v Hop Hb Hl) as (w & Ew & Hrun).
    destruct (reg_set_declared t (Get_rd i2) w m1) as (m2 & Hs2).
    { exact (windows_ok_frame _ _ (env_frame_win _ _ F) Hw). }
    { now rewrite (ef_types _ _ F), (ef_func _ _ F). }
    exists m2. split; [rewrite Hrun; now rewrite (bind_run _ _ _ _ _ Hs2)|]. rewrite <- Ew.
    apply reg_set_wrote; [|exact Hs2]. exact (load_type _ _ _ _ _ Hop).
Qed.

(** What [Grow_memory] does for a size of whole pages. *)
Definition resized (size : Z) (live : bool) (bsize : Z) (b : BLOCK) (m : UWASM_MACHINE) : UWASM_MACHINE :=
  set_memory (Some (mkBLOCK (b_addr b) bsize live (b_init b) (b_bytes b))) (_sta_off m) size (_hea_off m) (_hea_size m) m.

Lemma Grow_memory_run m b size : _mem m = Some b -> _mem_size m <= size -> size mod MEM_PAGE_SIZE = 0 ->
  Grow_memory size m = match mem_realloc (Some b) size with
    | RNull => Ok (UINT32 (-1), m)
    | RInPlace => Ok (size, resized size (b_live b) size b m)
    | RMoved => Ok (size, resized size false (b_size b) b m)
    end.
Proof.
  intros Hb Hsz Hmod. unfold Grow_memory. rewrite (bind_run get _ m m m eq_refl), Hmod, Z.eqb_refl, Hb.
  rewrite (proj2 (Z.leb_le _ size)), (proj2 (Z.ltb_ge size _)), Is_True_true by exact Hsz.
  rewrite !(bind_run (lift (Ok tt)) _ m m tt eq_refl). cbn [negb orb option_map]. now destruct (mem_realloc _ _).
Qed.

Lemma Grow_then_set m m1 size v i : windows_ok m -> Grow_memory size m = Ok (v, m1) ->
  0 <= i < rnum (_types m) (_func_idx (_current m)) I32 ->
  exists m', reg_set I32 i v m1 = Ok (tt, m') /\ wrote I32 i (INT32 v) m1 m'.
Proof.
  intros Hw H1 Hd. pose proof (frames_Grow_memory size m v m1 H1) as Hf.
  destruct (reg_set_declared I32 i v m1) as (m' & Hm').
  - exact (windows_ok_frame _ _ (env_frame_win _ _ Hf) Hw).
  - now rewrite (ef_types _ _ Hf), (ef_func _ _ Hf).
  - exists m'. split; [exact Hm'|]. now apply (reg_set_wrote I32).
Qed.

(** The handler calls [Grow_memory] with the size of all pages. *)
Lemma Memorygrow_run inst m pages old : _mem_size m = old * MEM_PAGE_SIZE -> 0 <= old ->
  REGISTER.Get (Get_rs inst) (regs I32 m) = Ok pages -> 0 <= pages -> old + pages < 65535 ->
  Memorygrow_am32_r_r inst m = (result ← Grow_memory ((old + pages) * MEM_PAGE_SIZE); reg_set I32 (Get_rd inst) result) m.
Proof.
  intros Hsz Hold Hp Hp0 Hlim. unfold MEM_PAGE_SIZE in *. unfold Memorygrow_am32_r_r. rewrite (bind_run get _ m m m eq_refl).
  unfold MEM_PAGE_SIZE. rewrite Hsz, Z.mod_mul, Z.div_mul, Z.eqb_refl, Is_True_true by lia.
  rewrite (bind_run (lift (Ok tt)) _ m m tt eq_refl), (bind_run _ _ _ _ _ (proj2 (reg_get_Ok _ _ _ _ _) (conj Hp eq_refl))).
  change (UINT32_MAX / 65536) with 65535. rewrite (UINT32_id pages), (UINT32_id (pages + old)) by lia.
  rewrite !(proj2 (Z.ltb_lt _ 65535)), Is_True_true by lia. rewrite !(bind_run (lift (Ok tt)) _ m m tt eq_refl).
  replace ((pages + old) * 65536) with ((old + pages) * 65536) by lia. now rewrite UINT32_id by lia.
Qed.

Lemma resized_load size live bsize b m i v m' : wrote I32 i v (resized size live bsize b m) m' -> forall k ofs,
  mem_load k ofs m' = if live && (0 <=? ofs) && (ofs + Z.of_nat k <=? bsize) then Ok (le_read b ofs k, m') else Err MemFault.
Proof.
  intros Hwr k ofs. destruct (wr_mem _ _ _ _ _ Hwr) as (Hm & _). unfold mem_load. rewrite Hm. cbn [resized set_memory _mem of_option mbind outcome_bind].
  unfold load, in_block. cbn [b_live b_size]. destruct (live && _ && _); [|reflexivity]. cbn [lift]. do 2 f_equal.
  apply le_read_ext. reflexivity.
Qed.

(** C23: Growing the memory by whole pages.  On failure of [realloc] the result is -1 and
  neither the memory nor its size changes; otherwise the memory size is set to the new
  number of bytes and this number is the result (not the old number of pages).  Bytes
  are kept when [realloc] works in place; when it moves the block, every later access
  is to the released one.  No other register changes. *)
Theorem memory_grow secs func n m inst pages old b : reachable secs func n m ->
  _mem m = Some b -> b_live b = true -> _mem_size m = old * MEM_PAGE_SIZE -> 0 <= old ->
  REGISTER.Get (Get_rs inst) (regs I32 m) = Ok pages -> 0 <= pages -> old + pages < 65535 ->
  0 <= Get_rd inst < rnum (_types m) (_func_idx (_current m)) I32 ->
  let size := (old + pages) * MEM_PAGE_SIZE in
  exists m', Memorygrow_am32_r_r inst m = Ok (tt, m') /\
  (forall u j, u <> VALTY_UNKNOWN -> (u, j) <> (I32, Get_rd inst) ->
    REGISTER.Get j (regs u m') = REGISTER.Get j (regs u m)) /\
  match mem_realloc (Some b) size with
  | RNull => REGISTER.Get (Get_rd inst) (regs I32 m') = Ok (-1) /\ _mem m' = Some b /\ _mem_size m' = _mem_size m
  | RInPlace => REGISTER.Get (Get_rd inst) (regs I32 m') = Ok (INT32 size) /\ _mem_size m' = size /\
      forall k i, 0 <= i -> i + Z.of_nat k <= size -> mem_load k i m' = Ok (le_read b i k, m')
  | RMoved => REGISTER.Get (Get_rd inst) (regs I32 m') = Ok (INT32 size) /\ _mem_size m' = size /\
      forall k i, mem_load k i m' = Err MemFault
  end.
Proof.
  intros H Hb Hlive Hsz Hold Hp Hp0 Hlim Hd size. pose proof (reachable_windows _ _ _ _ H) as Hw.
  rewrite (Memorygrow_run inst m pages old Hsz Hold Hp Hp0 Hlim). fold size.
  pose proof (Grow_memory_run m b size Hb) as Hg.
  specialize (Hg ltac:(unfold size, MEM_PAGE_SIZE in *; lia) ltac:(unfold size; apply Z.mod_mul; discriminate)).
  destruct (mem_realloc (Some b) size); (destruct (Grow_then_set _ _ _ _ _ Hw Hg Hd) as (m' & Hs & Hwr));
    exists m'; (split; [now rewrite (bind_run _ _ _ _ _ Hg)|]);
    (split; [exact (wr_others _ _ _ _ _ Hwr)|]); (split; [exact (wr_value _ _ _ _ _ Hwr)|]);
    destruct (wr_linear _ _ _ _ _ Hwr) as (Hms & _ & _).
  - split; [rewrite <- Hb; apply (wr_mem _ _ _ _ _ Hwr) | exact Hms].
  - split; [exact Hms|]. intros k i H0 H1. rewrite (resized_load _ _ _ _ _ _ _ _ Hwr), Hlive.
    now rewrite (proj2 (Z.leb_le 0 i)), (proj2 (Z.leb_le _ size)) by lia.
  - split; [exact Hms|]. intros k i. now rewrite (resized_load _ _ _ _ _ _ _ _ Hwr).
Qed.
End Instructions.

(** ** Instances, in the run of the sample program *)

Section Witnesses.
(** Registers 0 and 1 hold 0 and 3 after two instructions. *)
Definition rrr (rd rs rt : Z) : AM_EXPAND := mkAM_EXPAND 0 rd rs rt.
Lemma sample_two : reachable sample_secs 0 2 (sample_after 2).
Proof. apply sample_reachable. vm_compute. reflexivity. Qed.

Ltac sample_eval :=
  lazymatch goal with
  | |- reachable _ _ _ _ => apply sample_two
  | |- _ /\ _ => vm_compute; split; congruence
  | |- _ <= _ => vm_compute; congruence
  | |- _ => vm_compute; reflexivity
  end.

Lemma integer_operators_witness : exists m' v,
  exec_op SUB_I32_AM64_R_R_R_L (rrr 2 0 1) (sample_after 2) = Ok (BREAK, m') /\
  wrote I32 2 v (sample_after 2) m' /\ unsigned I32 v = 2 ^ 32 - 3.
Proof.
  apply (integer_operators sample_secs 0 2 (sample_after 2) SUB_I32_AM64_R_R_R_L I32 Wasm.isub (rrr 2 0 1) 0 3); sample_eval.
Defined.

(** The program with the counter started at -4, once around the loop: registers 0 and 1 hold -4 and -5. *)
Definition negative : UWASM_MACHINE := from_ok no_machine (s ← start (program (2 ^ 32 - 4)) 65536; exec_n 9 s).
Lemma negative_reachable : exists secs, reachable secs 0 9 negative.
Proof. apply (start_reachable (program (2 ^ 32 - 4)) 65536). vm_compute. reflexivity. Qed.

(** 3 / 3, 3 / 0, and the unsigned division of the bits of -4 by those of -5, which is 1 in WebAssembly. *)
Lemma division_operators_witness :
  (exists m' v, exec_op DIV_I32_AM64_R_R_R_L (rrr 2 1 1) (sample_after 2) = Ok (BREAK, m') /\
    wrote I32 2 v (sample_after 2) m' /\ unsigned I32 v = 1) /\
  exec_op DIV_I32_AM64_R_R_R_L (rrr 2 1 0) (sample_after 2) = Err DivTrap /\
  exists m' v, exec_op DIV_U_I32_AM64_R_R_R_L (rrr 2 0 1) negative = Ok (BREAK, m') /\
    wrote I32 2 v negative m' /\ unsigned I32 v = 0.
Proof.
  split; [|split].
  - refine (proj1 (division_operators sample_secs 0 2 (sample_after 2) DIV_I32_AM64_R_R_R_L I32 Wasm.idiv_s (rrr 2 1 1) 3 3 _ _ _ _ _)); sample_eval.
  - refine (proj1 (division_operators sample_secs 0 2 (sample_after 2) DIV_I32_AM64_R_R_R_L I32 Wasm.idiv_s (rrr 2 1 0) 3 0 _ _ _ _ _)); sample_eval.
  - destruct negative_reachable as [secs H].
    refine (proj1 (division_operators secs 0 9 negative DIV_U_I32_AM64_R_R_R_L I32 (fun _ => Wasm.idiv_u) (rrr 2 0 1) (-4) (-5) H _ _ _ _)); sample_eval.
Defined.

Lemma shift_operators_witness : exists m' v,
  exec_op SHL_I32_AM64_R_R_R_L (rrr 2 1 1) (sample_after 2) = Ok (BREAK, m') /\
  wrote I32 2 v (sample_after 2) m' /\ unsigned I32 v = 24.
Proof.
  apply (shift_operators sample_secs 0 2 (sample_after 2) SHL_I32_AM64_R_R_R_L I32 Wasm.ishl (rrr 2 1 1) 3 3); sample_eval.
Defined.

Lemma conditional_jumps_witness :
  exec_op JLT_U_I32_AM64_R_R_OFS_L (rrr 0 1 0) (sample_after 2) =
    Ok (CONTINUE, set_current (ctx_set_pc (Some 2) (_current (sample_after 2))) (sample_after 2)).
Proof.
  apply (conditional_jumps sample_secs 0 2 (sample_after 2) JLT_U_I32_AM64_R_R_OFS_L I32 (fun _ => Wasm.ilt_u)
    (rrr 0 1 0) 0 3 (Some 2) 2); sample_eval.
Defined.

Lemma zero_jumps_witness :
  exec_op JEZ_I32_AM32_R_OFS_L (rrr 1 0 0) (sample_after 2) =
    Ok (CONTINUE, set_current (ctx_set_pc (Some 3) (_current (sample_after 2))) (sample_after 2)).
Proof.
  apply (zero_jumps sample_secs 0 2 (sample_after 2) JEZ_I32_AM32_R_OFS_L I32 (fun _ i => Wasm.ieqz i)
    (rrr 1 0 0) 3 (Some 2) 2); sample_eval.
Defined.

(** The byte of register 1, at the address 3 of register 1 plus 100. *)
Definition sample_stored : UWASM_MACHINE :=
  (from_ok (BREAK, no_machine) (exec_op STORE8_I32_AM64_R_R_IMM_L (rrr 1 1 100) (sample_after 2))).2.
Lemma stored_value_is_loaded_witness : exists m2,
  exec_op LOAD8_U_I32_AM64_R_R_IMM_L (rrr 2 1 100) sample_stored = Ok (BREAK, m2) /\
  wrote I32 2 3 sample_stored m2.
Proof.
  apply (stored_value_is_loaded sample_secs 0 2 (sample_after 2) STORE8_I32_AM64_R_R_IMM_L LOAD8_U_I32_AM64_R_R_IMM_L
    Mem I32 I32 1 false (rrr 1 1 100) (rrr 2 1 100) 3 3 sample_stored); sample_eval.
Defined.

(** The stack pointer is 16 below the top; the variable at 4 holds 0. *)
Lemma stack_variable_witness : exists m1,
  exec_op LLDA_I32_AM32_R_OFS_L (rrr 2 0 4) (sample_after 2) = Ok (BREAK, m1) /\
  REGISTER.Get 2 (regs I32 m1) = Ok (-12) /\ exec_op LOAD_I32_AM64_R_R_IMM_L (rrr 1 2 0) m1 = Err MemFault.
Proof.
  destruct (stack_variable sample_secs 0 2 (sample_after 2) LOAD_I32_AM64_R_R_IMM_L I32 4 true (rrr 2 0 4) (rrr 1 2 0)
    (65536 - 16) 65536 0) as (m1 & H1 & H2 & H3); [sample_eval..|].
  exists m1. split; [exact H1|]. split; [exact (wr_value _ _ _ _ _ H2)|]. apply H3. reflexivity.
Defined.

Lemma memory_grow_witness : exists m', Memorygrow_am32_r_r (rrr 2 1 0) (sample_after 2) = Ok (tt, m') /\
  REGISTER.Get (Get_rd (rrr 2 1 0)) (regs I32 m') = Ok (INT32 ((1 + 3) * MEM_PAGE_SIZE)) /\
  _mem_size m' = (1 + 3) * MEM_PAGE_SIZE.
Proof.
  destruct (memory_grow sample_secs 0 2 (sample_after 2) (rrr 2 1 0) 3 1 (default (sample_block 0) (_mem (sample_after 2))))
    as (m' & H1 & _ & H2); try sample_eval.
  assert (forall b z, mem_realloc b z = RInPlace) as Hr by reflexivity. rewrite Hr in H2.
  exists m'. exact (conj H1 (conj (proj1 H2) (proj1 (proj2 H2)))).
Defined.
End Witnesses.
