(* ===== verification/Running.v ===== *)
(** * Straight-line code: what the emitted instructions compute

  The semantics of the source on locals and operand stack, and the machine running the
  instructions of [emit]: registers follow locals and operands. *)

From S2P Require Import Prelude CInt BitField CFloat Wasm Isa Inst Expand Ubh Memory UModule StrTab TypeEncoder Encoder Machine Handlers Exec Frames Windows Safety Loading Sample Reachable Typed Ops Code Leb128 Winst Splitting LocalTable Graph Converter Convert Alloc Straight.
From Stdlib Require Import ZArith Lia.
Local Open Scope Z_scope.

(** ** The source: values are unsigned, the top of the stack first *)
Definition run1 (i : SIMPLE) (s : list Z * list Z) : option (list Z * list Z) :=
  let '(vals, stk) := s in
  match i, stk with
  | S_Nop, _ => Some (vals, stk)
  | S_Drop, _ :: stk => Some (vals, stk)
  | S_Const t v, _ => Some (vals, wrapu (width t) v :: stk)
  | S_LocalGet i, _ => v ← vals !! i; Some (vals, v :: stk)
  | S_LocalSet i, v :: stk => Some (<[i := v]> vals, stk)
  | S_LocalTee i, v :: _ => Some (<[i := v]> vals, stk)
  | S_Op o, v2 :: v1 :: stk => '(t, f) ← int_op o; Some (vals, f (width t) v1 v2 :: stk)
  | _, _ => None
  end.
Fixpoint run (is_ : list SIMPLE) (s : list Z * list Z) : option (list Z * list Z) :=
  match is_ with [] => Some s | i :: is_ => s ← run1 i s; run is_ s end.

(** ** Registers *)
Definition reg_holds (m : UWASM_MACHINE) (t : VALTYPE) (r v : Z) : Prop :=
  exists x, REGISTER.Get r (regs t m) = Ok x /\ unsigned t x = v.

(** One instruction: it wrote [v] to a register and went on. *)
Record one_write (t : VALTYPE) (r v : Z) (m m' : UWASM_MACHINE) : Prop := {
  ow_value : REGISTER.Get r (regs t m') = Ok (reg_norm t v);
  ow_others : forall u j, u <> VALTY_UNKNOWN -> (u, j) <> (t, r) -> REGISTER.Get j (regs u m') = REGISTER.Get j (regs u m);
  ow_codes : _codes m' = _codes m;
  ow_types : _types m' = _types m;
  ow_func : _func_idx (_current m') = _func_idx (_current m);
  ow_pc : _pc (_current m') = option_map (fun p => p + 1) (_pc (_current m));
  ow_frame : env_frame m m';
}.

Section Running.
Context {bd : Build} {pf : Platform} {rt : Runtime} {rf : RuntimeFrame rt} {rty : RuntimeTyped rt} {fe : FloatEnv}.

(** What the machine keeps throughout. *)
Definition good (m : UWASM_MACHINE) : Prop := windows_ok m /\ regs_typed m.
Lemma good_steps n m m' : steps n m m' -> good m -> good m'.
Proof. intros H [H1 H2]. split; [eapply steps_windows; eauto | eapply typed_steps; eauto]. Qed.

Definition declares (m : UWASM_MACHINE) (t : VALTYPE) (r : Z) : Prop := 0 <= r < rnum (_types m) (_func_idx (_current m)) t.

Lemma step_write m p x e op t r v : good m -> t <> VALTY_UNKNOWN -> declares m t r ->
  _pc (_current m) = Some p -> _expanded_table (_codes m) !! p = Some (inst_expand x e) ->
  opcode_long (Get_opcode_l (inst_expand x e)) = Some op ->
  exec_op op (inst_expand x e) m = (_ ← reg_set t r v; mret BREAK) m ->
  exists m', step m m' /\ one_write t r v m m'.
Proof.
  intros [Hw _] Ht Hd Hp Hx Ho He. destruct (reg_set_declared t r v m Hw Hd) as (m1 & Hs).
  pose proof (reg_set_wrote t r v m m1 Ht Hs) as [W1 W2 W3 (W4 & W5 & W6) _].
  exists (set_current (ctx_set_pc (option_map (fun p => p + 1) (_pc (_current m1))) (_current m1)) m1). split.
  - eapply (step_break _ _ m1); [unfold Get_inst; rewrite Hp; cbn [of_option mbind outcome_bind]; rewrite Hx; reflexivity| |reflexivity].
    unfold switch. rewrite Ho, He, (bind_run _ _ _ _ _ Hs). reflexivity.
  - assert (_codes m1 = _codes m) as Hc.
    { unfold reg_set in Hs. destruct (REGISTER.Set_ _ _ _); [|discriminate]. injection Hs as <-. now destruct t. }
    split; try assumption.
    + exact (ef_types _ _ W3).
    + exact (ef_func _ _ W3).
    + cbn [set_current _current ctx_set_pc _pc]. now rewrite W5.
    + transitivity m1; [exact W3|]. constructor; reflexivity || intros []; reflexivity.
Qed.

Lemma holds_other m m' t r v u j w : one_write t r v m m' -> u <> VALTY_UNKNOWN -> (u, j) <> (t, r) ->
  reg_holds m u j w -> reg_holds m' u j w.
Proof. intros H Hu Hne (x & Hx & Hv). exists x. split; [|exact Hv]. now rewrite (ow_others _ _ _ _ _ H u j Hu Hne). Qed.
Lemma holds_written m m' t r v : one_write t r v m m' -> reg_holds m' t r (unsigned t (reg_norm t v)).
Proof. intros H. exists (reg_norm t v). split; [apply (ow_value _ _ _ _ _ H) | reflexivity]. Qed.

(** ** Locals and operands in registers *)
Variable locs : list VALTYPE.
Context {cb : ConvBuild}.
Hypothesis locs_types : Forall (fun t => is_value_type t = true) locs.

Definition locals_hold (vals : list Z) (m : UWASM_MACHINE) : Prop :=
  forall i t, locs !! i = Some t -> exists v, vals !! i = Some v /\ reg_holds m t (local_reg locs i) v.
Fixpoint stack_holds (ss : list SLOT) (stk : list Z) (m : UWASM_MACHINE) : Prop :=
  match ss, stk with
  | [], [] => True
  | s :: ss, v :: stk =>
      (exists t, slot_ty locs s = Some t /\ is_value_type t = true /\ reg_holds m t (slot_reg locs s ss) v) /\ stack_holds ss stk m
  | _, _ => False
  end.
Lemma local_not_temp i t u ss : locs !! i = Some t -> (t, local_reg locs i) <> (u, base locs u + temps u ss).
Proof.
  intros Hi [= -> E]. pose proof (local_reg_range locs i u Hi). pose proof (temps_nonneg u ss). lia.
Qed.

(** Registers below a temporary are not touched by writing it. *)
Lemma stack_holds_temp ss stk m m' t v k : one_write t (base locs t + k) v m m' -> temps t ss <= k ->
  stack_holds ss stk m -> stack_holds ss stk m'.
Proof.
  intros Hw. revert stk. induction ss as [|s ss IH]; intros [|w stk] Hk H; cbn [stack_holds] in *; try easy.
  destruct H as [(u & Hs & Hv & Hr) H]. pose proof (temps_tail t s ss). split; [|apply IH; [lia | exact H]].
  exists u. split; [exact Hs|]. split; [exact Hv|]. eapply holds_other; [exact Hw | intros ->; discriminate | | exact Hr].
  destruct s as [i|u']; cbn [slot_reg slot_ty] in *; intros [= -> E].
  - pose proof (local_reg_range locs i t Hs). pose proof (temps_nonneg t ss). lia.
  - injection Hs as ->. rewrite temps_same in Hk. lia.
Qed.

(** Nor are the operands that do not stand for a local by assigning it. *)
Lemma stack_holds_local ss stk m m' i t v : locs !! i = Some t -> one_write t (local_reg locs i) v m m' -> SLocal i ∉ ss ->
  stack_holds ss stk m -> stack_holds ss stk m'.
Proof.
  intros Hi Hw. revert stk. induction ss as [|s ss IH]; intros [|w stk] Hn H; cbn [stack_holds] in *; try easy.
  rewrite not_elem_of_cons in Hn. destruct Hn as [Hn1 Hn2]. destruct H as [(u & Hs & Hv & Hr) H]. split; [|apply IH; assumption].
  exists u. split; [exact Hs|]. split; [exact Hv|]. eapply holds_other; [exact Hw | intros ->; discriminate | | exact Hr].
  destruct s as [j|u']; cbn [slot_reg slot_ty] in *; intros [= -> E].
  - apply Hn1. f_equal. eapply local_reg_inj; eauto.
  - injection Hs as ->. pose proof (local_reg_range locs i t Hi). pose proof (temps_nonneg t ss). lia.
Qed.

Lemma locals_hold_temp vals m m' t v ss : one_write t (base locs t + temps t ss) v m m' -> locals_hold vals m -> locals_hold vals m'.
Proof.
  intros Hw H i u Hi. destruct (H i u Hi) as (w & Hv & Hr). exists w. split; [exact Hv|].
  pose proof (Forall_lookup_1 _ _ _ _ locs_types Hi) as Hu. cbn beta in Hu.
  eapply holds_other; [exact Hw | intros ->; discriminate | now apply local_not_temp | exact Hr].
Qed.
Lemma locals_hold_assign vals m m' t v w i : locs !! i = Some t -> one_write t (local_reg locs i) v m m' ->
  unsigned t (reg_norm t v) = w -> locals_hold vals m -> locals_hold (<[i := w]> vals) m'.
Proof.
  intros Hi Hw <- H j u Hj. destruct (H j u Hj) as (x & Hv & Hr).
  pose proof (Forall_lookup_1 _ _ _ _ locs_types Hj) as Hu. cbn beta in Hu.
  destruct (decide (j = i)) as [->|Hne].
  - rewrite Hi in Hj. injection Hj as <-. eexists. split; [apply list_lookup_insert_eq; now apply lookup_lt_Some in Hv|].
    eapply holds_written, Hw.
  - exists x. split; [now rewrite list_lookup_insert_ne by auto|].
    eapply holds_other; [exact Hw | intros ->; discriminate | | exact Hr].
    intros [= -> E]. apply Hne. eapply local_reg_inj; eauto.
Qed.

(** ** The instructions *)
Lemma int_op_long o t f : int_op o = Some (t, f) -> exists op, binop op = Some (t, f) /\
  opcode_long (UINT32 (Opcode_to_opcode_l (opcode_for o) t)) = Some op.
Proof. destruct o; cbn [int_op]; try discriminate; intros [= <- <-]; eexists; (split; [|vm_compute; reflexivity]); reflexivity. Qed.

Lemma get_holds m t r v : good m -> reg_holds m t r v -> exists x, reg_get t r m = Ok (x, m) /\ in_type t x /\ unsigned t x = v.
Proof.
  intros [_ Ht] (x & Hx & Hv). exists x. assert (reg_get t r m = Ok (x, m)) as Hg by (apply reg_get_Ok; auto).
  split; [exact Hg|]. split; [eapply reg_get_typed; eauto | exact Hv].
Qed.

(** An instruction of [emit] in the table. *)
Definition expands (m : UWASM_MACHINE) (p : Z) (x : INST) : Prop :=
  exists e, _expanded_table (_codes m) !! p = Some (inst_expand x e).

Lemma op_runs m p o t f rd rs1 rs2 v1 v2 : good m -> int_op o = Some (t, f) -> declares m t rd ->
  0 <= rd < 126 -> 0 <= rs1 < 126 -> 0 <= rs2 < 126 -> _pc (_current m) = Some p ->
  expands m p (inst_for (opcode_for o) t [rd; rs1; rs2]) -> reg_holds m t rs1 v1 -> reg_holds m t rs2 v2 ->
  exists m' v, step m m' /\ one_write t rd v m m' /\ unsigned t (reg_norm t v) = f (width t) v1 v2.
Proof.
  intros Hg Ho Hd Hrd H1 H2 Hp [e He] Hr1 Hr2. destruct (int_op_opcode o t f Ho) as (_ & Hv & Ham).
  destruct (int_op_long o t f Ho) as (op & Hb & Hl).
  destruct (get_holds m t rs1 v1 Hg Hr1) as (x1 & G1 & T1 & U1). destruct (get_holds m t rs2 v2 Hg Hr2) as (x2 & G2 & T2 & U2).
  set (i := inst_expand (inst_for (opcode_for o) t [rd; rs1; rs2]) e) in *.
  assert (Get_opcode_l i = UINT32 (Opcode_to_opcode_l (opcode_for o) t) /\ Get_rd i = rd /\ Get_rs i = rs1 /\ Get_rt i = rs2) as (E0 & E1 & E2 & E3).
  { unfold i, inst_expand, inst_for. cbn [i_am i_opcode i_valtype i_content].
    destruct Ham as [Ham|Ham]; rewrite Ham; cbn; rewrite (UINT32_id rd), (UINT32_id rs1), (UINT32_id rs2) by lia; auto. }
  rewrite <- E2 in G1. rewrite <- E3 in G2. pose proof (binop_run op t f i m x1 x2 Hb G1 G2) as Hrun. rewrite E1 in Hrun.
  destruct (step_write m p (inst_for (opcode_for o) t [rd; rs1; rs2]) e op t rd (binop_code op x1 x2) Hg (value_type_known t Hv) Hd Hp He) as (m' & Hs & Hw).
  - fold i. rewrite E0. exact Hl.
  - exact Hrun.
  - exists m', (binop_code op x1 x2). split; [exact Hs|]. split; [exact Hw|].
    rewrite (binop_value op t f x1 x2 Hb T1 T2), U1, U2. unfold unsigned at 1.
    assert (0 < width t) by (destruct t; reflexivity). rewrite wrapu_wraps by lia. apply wrapu_id.
    apply (binop_range op t f); [exact Hb | rewrite <- U1 | rewrite <- U2]; apply wrapu_range; lia.
Qed.

Lemma mov_runs m p t rd rs v : good m -> is_value_type t = true -> declares m t rd -> 0 <= rd < 126 -> 0 <= rs < 126 ->
  _pc (_current m) = Some p -> expands m p (inst_for Opcode.MOV t [rd; rs]) -> reg_holds m t rs v ->
  exists m' w, step m m' /\ one_write t rd w m m' /\ unsigned t (reg_norm t w) = v.
Proof.
  intros Hg Hv Hd Hrd Hrs Hp [e He] Hr. destruct (get_holds m t rs v Hg Hr) as (x & G & T & U).
  set (i := inst_expand (inst_for Opcode.MOV t [rd; rs]) e) in *.
  assert (Get_rd i = rd /\ Get_rs i = rs) as (E1 & E2) by (unfold i, inst_expand, inst_for; change (UWINST_TY_AM Opcode.MOV) with (Ok TY_AM32_R_R); cbn; rewrite (UINT32_id rd), (UINT32_id rs) by lia; auto).
  assert (exists op, opcode_long (Get_opcode_l i) = Some op /\ exec_op op i m = (_ ← reg_set t rd x; mret BREAK) m) as (op & Hl & Hrun).
  { destruct t; try discriminate Hv; (eexists; split; [reflexivity|]); cbv beta iota delta [exec_op break_];
      [unfold Mov_i32_am32_r_r | unfold Mov_i64_am32_r_r | unfold Mov_f32_am32_r_r | unfold Mov_f64_am32_r_r];
      rewrite bind_bind, E2, (bind_run _ _ _ _ _ G), E1; reflexivity. }
  destruct (step_write m p (inst_for Opcode.MOV t [rd; rs]) e op t rd x Hg (value_type_known t Hv) Hd Hp He Hl Hrun) as (m' & Hs & Hw).
  exists m', x. split; [exact Hs|]. split; [exact Hw|]. now rewrite in_type_norm.
Qed.

Lemma const_i32_runs m p rd v : good m -> declares m I32 rd -> 0 <= rd < 126 -> _pc (_current m) = Some p ->
  expands m p (inst_for Opcode.CONST_L I32 [rd; Z.land (UINT64 v) 0xFFFFFFFF]) ->
  exists m' w, step m m' /\ one_write I32 rd w m m' /\ unsigned I32 (reg_norm I32 w) = wrapu 32 v.
Proof.
  intros Hg Hd Hrd Hp [e He]. set (lo := Z.land (UINT64 v) 0xFFFFFFFF) in *.
  assert (lo = wrapu 32 v) as Elo.
  { unfold lo. change 0xFFFFFFFF with (Z.ones 32). rewrite Z.land_ones by lia. apply (wrapu_wrapu_le 32 64 v). lia. }
  destruct (step_write m p (inst_for Opcode.CONST_L I32 [rd; lo]) e CONST_L_I32_AM64_R_IMM_L I32 rd (INT32 (UINT32 lo)) Hg
    ltac:(discriminate) Hd Hp He eq_refl) as (m' & Hs & Hw).
  { cbv beta iota delta [exec_op break_]. unfold Const_l_i32_am64_r_imm, inst_expand, inst_for.
    change (UWINST_TY_AM Opcode.CONST_L) with (Ok TY_AM64_R_IMM). cbn. now rewrite (UINT32_id rd) by lia. }
  exists m', (INT32 (UINT32 lo)). split; [exact Hs|]. split; [exact Hw|].
  rewrite unsigned_norm by reflexivity. unfold INT32, UINT32, width. rewrite wrapu_wraps by lia. rewrite Elo, !wrapu_wrapu_le by lia. reflexivity.
Qed.

(** A constant of 64 bits: the low half, then the high half over it. *)
Lemma halves v : let n := UINT64 v in
  Z.lor (Z.land (INT64 (INT32 (UINT32 (Z.land n 0xFFFFFFFF)))) 0xFFFFFFFF) (UINT64 (Z.shiftl (UINT32 (Z.shiftr n 32)) 32)) = n.
Proof.
  cbv zeta. set (n := UINT64 v). assert (in_u 64 n) as Hn by (apply wrapu_range; lia). change 0xFFFFFFFF with (Z.ones 32).
  rewrite <- !wrapu_land by lia. unfold INT64, INT32, UINT32. rewrite wrapu_wrapu by lia.
  assert (wrapu 32 (wraps 64 (wraps 32 (wrapu 32 n))) = wrapu 32 n) as ->.
  { rewrite <- (wrapu_wrapu_le 32 64) by lia. rewrite wrapu_wraps, wrapu_wrapu_le, wrapu_wraps, wrapu_wrapu by lia. reflexivity. }
  assert (in_u 32 (Z.shiftr n 32)) as Hh.
  { rewrite Z.shiftr_div_pow2 by lia. unfold in_u in *. split; [apply Z.div_pos; lia | apply Z.div_lt_upper_bound; lia]. }
  rewrite (wrapu_id 32 (Z.shiftr n 32)) by exact Hh.
  assert (UINT64 (Z.shiftl (Z.shiftr n 32) 32) = Z.shiftl (Z.shiftr n 32) 32) as ->.
  { apply wrapu_id. rewrite Z.shiftl_mul_pow2 by lia. unfold in_u in *. lia. }
  rewrite wrapu_land by lia. apply Z.bits_inj'. intros k Hk. rewrite Z.lor_spec, Z.land_spec.
  destruct (Z.ltb_spec k 32) as [Hlt|Hge].
  - rewrite Z.ones_spec_low, Z.shiftl_spec_low, andb_true_r, orb_false_r by lia. reflexivity.
  - rewrite Z.ones_spec_high, Z.shiftl_spec, Z.shiftr_spec by lia. rewrite andb_false_r, Z.sub_add. reflexivity.
Qed.

(** What [n] instructions without control flow leave. *)
Record ran (n : nat) (m m' : UWASM_MACHINE) : Prop := {
  rn_steps : steps n m m';
  rn_codes : _codes m' = _codes m;
  rn_types : _types m' = _types m;
  rn_func : _func_idx (_current m') = _func_idx (_current m);
  rn_pc : forall p, _pc (_current m) = Some p -> _pc (_current m') = Some (p + Z.of_nat n);
  rn_frame : env_frame m m';
}.
Lemma ran_0 m : ran 0 m m.
Proof. split; auto using steps_0; [|reflexivity]. intros p ->. f_equal. lia. Qed.
Lemma ran_1 t r v m m' : step m m' -> one_write t r v m m' -> ran 1 m m'.
Proof.
  intros Hs [W1 W2 W3 W4 W5 W6 W7]. split; auto; [eapply steps_S; [exact Hs | constructor]|].
  intros p Hp. rewrite W6, Hp. reflexivity.
Qed.
Lemma ran_app n1 n2 m1 m2 m3 : ran n1 m1 m2 -> ran n2 m2 m3 -> ran (n1 + n2) m1 m3.
Proof.
  intros [A1 A2 A3 A4 A5 A6] [B1 B2 B3 B4 B5 B6]. split; try congruence; [eapply steps_app; eauto| |etransitivity; eassumption].
  intros p Hp. rewrite (B5 _ (A5 _ Hp)). f_equal. lia.
Qed.

Lemma const_i64_runs m p rd v : good m -> declares m I64 rd -> 0 <= rd < 126 -> _pc (_current m) = Some p ->
  expands m p (inst_for Opcode.CONST_L I64 [rd; Z.land (UINT64 v) 0xFFFFFFFF]) ->
  expands m (p + 1) (inst_for Opcode.CONST_L_HIGH I64 [rd; Z.shiftr (UINT64 v) 32]) ->
  exists m1 m' w1 w, step m m1 /\ one_write I64 rd w1 m m1 /\ step m1 m' /\ one_write I64 rd w m1 m' /\
    unsigned I64 (reg_norm I64 w) = wrapu 64 v.
Proof.
  intros Hg Hd Hrd Hp [e He] [e' He']. set (lo := Z.land (UINT64 v) 0xFFFFFFFF) in *. set (hi := Z.shiftr (UINT64 v) 32) in *.
  destruct (step_write m p (inst_for Opcode.CONST_L I64 [rd; lo]) e CONST_L_I64_AM64_R_IMM_L I64 rd (INT32 (UINT32 lo)) Hg
    ltac:(discriminate) Hd Hp He eq_refl) as (m1 & Hs1 & Hw1).
  { cbv beta iota delta [exec_op break_]. unfold Const_l_i64_am64_r_imm, inst_expand, inst_for.
    change (UWINST_TY_AM Opcode.CONST_L) with (Ok TY_AM64_R_IMM). cbn. now rewrite (UINT32_id rd) by lia. }
  assert (good m1) as Hg1 by (eapply good_steps; [eapply steps_S; [exact Hs1 | constructor] | exact Hg]).
  pose proof Hw1 as [W1 W2 W3 W4 W5 W6 _]. rewrite Hp in W6. cbn [option_map] in W6.
  set (w := Z.lor (Z.land (reg_norm I64 (INT32 (UINT32 lo))) 4294967295) (UINT64 (Z.shiftl (UINT32 hi) 32))).
  destruct (step_write m1 (p + 1) (inst_for Opcode.CONST_L_HIGH I64 [rd; hi]) e' CONST_L_HIGH_I64_AM64_R_IMM_L I64 rd w Hg1
    ltac:(discriminate)) as (m' & Hs & Hw).
  - unfold declares. rewrite W4, W5. exact Hd.
  - exact W6.
  - rewrite W3. exact He'.
  - reflexivity.
  - cbv beta iota delta [exec_op break_]. unfold Const_l_high_i64_am64_r_imm, inst_expand, inst_for.
    change (UWINST_TY_AM Opcode.CONST_L_HIGH) with (Ok TY_AM64_R_IMM). cbn [i_am i_opcode i_valtype i_content am_expand].
    match goal with |- context [reg_get I64 ?r] => change r with (UINT32 rd) end.
    match goal with |- context [reg_set I64 ?r] => change r with (UINT32 rd) end.
    rewrite (UINT32_id rd) by lia.
    rewrite bind_bind, (bind_run _ _ m1 m1 (reg_norm I64 (INT32 (UINT32 lo)))) by (apply reg_get_Ok; auto). reflexivity.
  - exists m1, m', (INT32 (UINT32 lo)), w. repeat (split; [assumption|]). unfold w. cbn [reg_norm].
    pose proof (halves v) as H. cbv zeta in H. fold lo in H. fold hi in H. rewrite H.
    unfold unsigned, INT64, UINT64, width. rewrite wrapu_wraps, wrapu_wrapu by lia. reflexivity.
Qed.

(** ** Code *)
Definition code_at (m : UWASM_MACHINE) (p : Z) (is_ : list INST) : Prop :=
  forall k x, is_ !! k = Some x -> expands m (p + Z.of_nat k) x.
Lemma code_at_app m p is1 is2 : code_at m p (is1 ++ is2) -> code_at m p is1 /\ code_at m (p + Z.of_nat (length is1)) is2.
Proof.
  intros H. split; intros k x Hk.
  - apply H. now apply lookup_app_l_Some.
  - rewrite <- Z.add_assoc, <- Nat2Z.inj_add. apply H. rewrite lookup_app_r by lia. now replace (length is1 + k - length is1)%nat with k by lia.
Qed.
Lemma code_at_ran m m' n p is_ : ran n m m' -> code_at m p is_ -> code_at m' p is_.
Proof. intros Hr H k x Hk. unfold expands. rewrite (rn_codes _ _ _ Hr). exact (H k x Hk). Qed.
Lemma code_at_one m p x : code_at m p [x] -> expands m p x.
Proof. intros H. specialize (H 0%nat x eq_refl). now rewrite Z.add_0_r in H. Qed.

(** Locals and operands of the source are in the machine's registers. *)
Definition follows (ss : list SLOT) (s : list Z * list Z) (m : UWASM_MACHINE) : Prop :=
  locals_hold s.1 m /\ stack_holds ss s.2 m.

Lemma follows_temp ss vals stk m m' t w : one_write t (base locs t + temps t ss) w m m' -> is_value_type t = true ->
  follows ss (vals, stk) m -> follows (STemp t :: ss) (vals, unsigned t (reg_norm t w) :: stk) m'.
Proof.
  intros Hw Hv [Hl Hs]. split; cbn [fst snd stack_holds] in *; [eapply locals_hold_temp; eauto|]. split.
  - exists t. split; [reflexivity|]. split; [exact Hv|]. cbn [slot_reg]. eapply holds_written, Hw.
  - eapply stack_holds_temp; eauto. lia.
Qed.
Lemma follows_assign ss vals stk m m' t i w v : locs !! i = Some t -> one_write t (local_reg locs i) w m m' ->
  SLocal i ∉ ss -> unsigned t (reg_norm t w) = v -> follows ss (vals, stk) m -> follows ss (<[i := v]> vals, stk) m'.
Proof.
  intros Hi Hw Hn Hv [Hl Hs]. split; cbn [fst snd] in *; [eapply locals_hold_assign; eauto | eapply stack_holds_local; eauto].
Qed.

(** The registers an instruction can name, and those that are declared. *)
Definition small (ss : list SLOT) : Prop := forall t, base locs t + temps t ss <= 126.
Lemma small_tail s ss : small (s :: ss) -> small ss.
Proof. intros H t. pose proof (temps_tail t s ss). specialize (H t). lia. Qed.
Lemma check1_small i ss ss' : check1 locs i ss = Some ss' -> small ss -> small ss'.
Proof.
  assert (forall t ss ss', push_temp locs t ss = Some ss' -> small ss -> small ss') as Hpush.
  { intros t s1 s2 (-> & _ & Hb)%pushes Hs u. destruct (decide (u = t)) as [-> | Hne]; [rewrite temps_same; lia|].
    rewrite temps_other by exact Hne. apply Hs. }
  intros H Hs. destruct i as [| |t v|i|i|i|o]; cbn [check1] in H.
  - now injection H as <-.
  - destruct ss as [|s ss]; [discriminate|]. injection H as <-. eapply small_tail, Hs.
  - destruct t; try discriminate; eapply Hpush; eauto.
  - destruct (bool_decide _); [|discriminate]. injection H as <-. intros t. rewrite temps_cons, decide_False by discriminate. apply Hs.
  - destruct ss as [|s ss]; [discriminate|]. destruct (locs !! i); [|discriminate]. cbn [mbind option_bind] in H.
    destruct (_ && _); [|discriminate]. injection H as <-. eapply small_tail, Hs.
  - destruct ss as [|s ss]; [discriminate|]. destruct (locs !! i); [|discriminate]. cbn [mbind option_bind] in H.
    destruct (_ && _); [|discriminate]. now injection H as <-.
  - destruct ss as [|s2 [|s1 ss]]; try discriminate. destruct (int_op o) as [[t f]|]; [|discriminate]. cbn [mbind option_bind] in H.
    destruct (_ && _); [|discriminate]. eapply Hpush; [exact H|]. eapply small_tail, small_tail, Hs.
Qed.

Lemma local_small i t ss : small ss -> locs !! i = Some t -> 0 <= local_reg locs i < 126.
Proof.
  intros Hs Hi. pose proof (local_reg_range locs i t Hi). pose proof RET_REG_NUM_range. pose proof (temps_nonneg t ss). specialize (Hs t). lia.
Qed.
Lemma slot_small s ss t : small (s :: ss) -> slot_ty locs s = Some t -> 0 <= slot_reg locs s ss < 126.
Proof.
  intros Hs Ht. destruct s as [i|u]; cbn [slot_reg slot_ty] in *; [eapply local_small; eauto|].
  specialize (Hs u). rewrite temps_same in Hs. pose proof (base_pos locs u). pose proof (temps_nonneg u ss). lia.
Qed.

Definition declared (ss : list SLOT) (m : UWASM_MACHINE) : Prop :=
  forall t, base locs t + temps t ss <= rnum (_types m) (_func_idx (_current m)) t.
Lemma declares_local i t ss m : declared ss m -> locs !! i = Some t -> declares m t (local_reg locs i).
Proof.
  intros Hd Hi. pose proof (local_reg_range locs i t Hi). pose proof RET_REG_NUM_range. pose proof (temps_nonneg t ss).
  specialize (Hd t). unfold declares. lia.
Qed.
Lemma declares_temp t ss m : declared (STemp t :: ss) m -> declares m t (base locs t + temps t ss).
Proof.
  intros Hd. specialize (Hd t). rewrite temps_same in Hd. pose proof (base_pos locs t). pose proof (temps_nonneg t ss).
  unfold declares. lia.
Qed.

(** What running an instruction of the source means for the machine. *)
Definition simulates (i : SIMPLE) (ss ss' : list SLOT) (m : UWASM_MACHINE) (s' : list Z * list Z) : Prop :=
  exists m', ran (length (emit1 locs i ss)) m m' /\ follows ss' s' m'.

Lemma const_simulates t v ss ss' vals stk m p : good m -> small ss -> declared ss' m ->
  check1 locs (S_Const t v) ss = Some ss' -> follows ss (vals, stk) m -> _pc (_current m) = Some p ->
  code_at m p (emit1 locs (S_Const t v) ss) -> simulates (S_Const t v) ss ss' m (vals, wrapu (width t) v :: stk).
Proof.
  intros Hg Hsm Hd Hc Hf Hp Hx. unfold simulates. destruct t; cbn [check1] in Hc; try discriminate;
    apply pushes in Hc as (-> & Hv & Hb); pose proof (declares_temp _ _ _ Hd) as Hdt; cbn [emit1 slot_reg] in *.
  - assert (0 <= base locs I32 + temps I32 ss < 126) as Hr by (unfold declares in Hdt; lia).
    destruct (const_i32_runs m p _ v Hg Hdt Hr Hp (code_at_one _ _ _ Hx)) as (m' & w & Hs & Hw & Hval).
    exists m'. split; [eapply ran_1; eauto|]. cbn [width]. rewrite <- Hval. eapply follows_temp; eauto.
  - assert (0 <= base locs I64 + temps I64 ss < 126) as Hr by (unfold declares in Hdt; lia).
    pose proof (Hx 0%nat _ eq_refl) as X0. rewrite Z.add_0_r in X0.
    destruct (const_i64_runs m p _ v Hg Hdt Hr Hp X0 (Hx 1%nat _ eq_refl)) as (m1 & m' & w1 & w & Hs1 & Hw1 & Hs & Hw & Hval).
    exists m'. split; [apply (ran_app 1 1 m m1 m'); eapply ran_1; eauto|]. cbn [width]. rewrite <- Hval.
    destruct Hf as [Hl Hst]. eapply follows_temp; [exact Hw | exact Hv|]. split; cbn [fst snd] in *.
    + eapply locals_hold_temp; eauto.
    + eapply stack_holds_temp; eauto. lia.
Qed.

Lemma stack_holds_inv s ss v stk m t : stack_holds (s :: ss) (v :: stk) m -> slot_ty locs s = Some t ->
  is_value_type t = true /\ reg_holds m t (slot_reg locs s ss) v /\ stack_holds ss stk m.
Proof. intros [(u & Hu & Hv & Hr) H] Ht. rewrite Ht in Hu. injection Hu as <-. auto. Qed.

Lemma assign_simulates i t s ss v (stk : list Z) m p : good m -> small (s :: ss) -> declared (s :: ss) m -> locs !! i = Some t ->
  slot_ty locs s = Some t -> stack_holds (s :: ss) (v :: stk) m -> _pc (_current m) = Some p ->
  code_at m p [inst_for Opcode.MOV t [local_reg locs i; slot_reg locs s ss]] ->
  exists m' w, ran 1 m m' /\ one_write t (local_reg locs i) w m m' /\ unsigned t (reg_norm t w) = v.
Proof.
  intros Hg Hsm Hd Hi Hs Hst Hp Hx. destruct (stack_holds_inv s ss v stk m t Hst Hs) as (Hv & Hr & _).
  destruct (mov_runs m p t _ _ v Hg Hv (declares_local i t _ m Hd Hi) (local_small i t _ Hsm Hi) (slot_small s ss t Hsm Hs) Hp
    (code_at_one _ _ _ Hx) Hr) as (m' & w & Hstep & Hw & Hval).
  exists m', w. split; [eapply ran_1; eauto|]. auto.
Qed.

(** [local.tee] keeps the operand; it is the assigned local's value now. *)
Lemma follows_tee i t s ss v (vals stk : list Z) m m' w : locs !! i = Some t -> slot_ty locs s = Some t -> SLocal i ∉ ss ->
  one_write t (local_reg locs i) w m m' -> unsigned t (reg_norm t w) = v -> follows (s :: ss) (vals, v :: stk) m ->
  follows (s :: ss) (<[i := v]> vals, v :: stk) m'.
Proof.
  intros Hi Hs Hn Hw Hv [Hl Hst]. cbn [fst snd] in *. destruct (stack_holds_inv s ss v stk m t Hst Hs) as (Ht & Hr & Hst').
  split; cbn [fst snd stack_holds]; [eapply locals_hold_assign; eauto|]. split; [|eapply stack_holds_local; eauto].
  exists t. split; [exact Hs|]. split; [exact Ht|]. destruct (decide (s = SLocal i)) as [->|Hne].
  - cbn [slot_reg]. rewrite <- Hv. eapply holds_written, Hw.
  - eapply holds_other; [exact Hw | intros ->; discriminate | | exact Hr]. intros [= E].
    destruct s as [j|u]; cbn [slot_reg slot_ty] in *.
    + apply Hne. f_equal. eapply local_reg_inj; eauto.
    + injection Hs as ->. pose proof (local_reg_range locs i t Hi). pose proof (temps_nonneg t ss). lia.
Qed.

Lemma op_simulates o t s2 s1 ss ss' vals stk v1 v2 f m p : good m -> small (s2 :: s1 :: ss) -> declared ss' m ->
  int_op o = Some (t, f) -> slot_ty locs s1 = Some t -> slot_ty locs s2 = Some t -> push_temp locs t ss = Some ss' ->
  follows (s2 :: s1 :: ss) (vals, v2 :: v1 :: stk) m -> _pc (_current m) = Some p ->
  code_at m p (emit1 locs (S_Op o) (s2 :: s1 :: ss)) ->
  simulates (S_Op o) (s2 :: s1 :: ss) ss' m (vals, f (width t) v1 v2 :: stk).
Proof.
  intros Hg Hsm Hd Ho H1 H2 (-> & Hv & Hb)%pushes [Hl Hst] Hp Hx. cbn [fst snd] in *.
  pose proof (declares_temp _ _ _ Hd) as Hdt.
  assert (0 <= base locs t + temps t ss < 126) as Hr by (unfold declares in Hdt; lia).
  destruct (stack_holds_inv s2 (s1 :: ss) v2 (v1 :: stk) m t Hst H2) as (_ & R2 & Hst').
  destruct (stack_holds_inv s1 ss v1 stk m t Hst' H1) as (_ & R1 & Hst'').
  cbn [emit1] in Hx. rewrite Ho in Hx. unfold simulates. cbn [emit1]. rewrite Ho. cbn [slot_reg] in Hx.
  destruct (op_runs m p o t f _ _ _ v1 v2 Hg Ho Hdt Hr (slot_small s1 ss t (small_tail _ _ Hsm) H1) (slot_small s2 _ t Hsm H2)
    Hp (code_at_one _ _ _ Hx) R1 R2) as (m' & w & Hs & Hw & Hval).
  exists m'. split; [eapply ran_1; eauto|]. rewrite <- Hval. eapply follows_temp; [exact Hw | exact Hv|]. split; assumption.
Qed.

Lemma emit1_simulates i ss ss' s s' m p : good m -> small ss -> declared ss m -> declared ss' m ->
  check1 locs i ss = Some ss' -> run1 i s = Some s' -> follows ss s m -> _pc (_current m) = Some p ->
  code_at m p (emit1 locs i ss) -> simulates i ss ss' m s'.
Proof.
  intros Hg Hsm Hd Hd' Hc Hrun Hf Hp Hx. destruct s as [vals stk].
  destruct i as [| |t v|i|i|i|o]; cbn [run1 check1] in *.
  - injection Hc as <-. injection Hrun as <-. exists m. split; [apply ran_0 | exact Hf].
  - destruct ss as [|s ss]; [discriminate|]. injection Hc as <-. destruct stk as [|v stk]; [discriminate|]. injection Hrun as <-.
    destruct Hf as [Hl [_ Hst]]. exists m. split; [apply ran_0 | split; assumption].
  - injection Hrun as <-. eapply const_simulates; eauto.
  - destruct (bool_decide _) eqn:E; [|discriminate]. injection Hc as <-. apply bool_decide_eq_true_1 in E as [t Ht].
    destruct Hf as [Hl Hst]. destruct (Hl i t Ht) as (v & Hv & Hr). cbn [fst snd] in *. rewrite Hv in Hrun. injection Hrun as <-.
    exists m. split; [apply ran_0|]. split; [exact Hl|]. split; [|exact Hst]. exists t.
    pose proof (Forall_lookup_1 _ _ _ _ locs_types Ht). auto.
  - destruct ss as [|s ss]; [discriminate|]. destruct (locs !! i) as [t|] eqn:Ht; [|discriminate]. cbn [mbind option_bind] in Hc.
    destruct (has_type locs s t) eqn:E; [|discriminate]. apply has_type_inv in E. destruct (free_of i ss) eqn:Ef; [|discriminate].
    injection Hc as <-. apply bool_decide_eq_true_1 in Ef. destruct stk as [|v stk]; [discriminate|]. injection Hrun as <-.
    unfold simulates. cbn [emit1] in *. rewrite Ht in *. cbn [default] in *. unfold from_option, id in Hx.
    destruct (assign_simulates i t s ss v stk m p Hg Hsm Hd Ht E (proj2 Hf) Hp Hx) as (m' & w & Hr & Hw & Hv).
    exists m'. split; [exact Hr|]. eapply follows_assign; eauto. destruct Hf as [Hl [_ Hst]]. split; assumption.
  - destruct ss as [|s ss]; [discriminate|]. destruct (locs !! i) as [t|] eqn:Ht; [|discriminate]. cbn [mbind option_bind] in Hc.
    destruct (has_type locs s t) eqn:E; [|discriminate]. apply has_type_inv in E. destruct (free_of i ss) eqn:Ef; [|discriminate].
    injection Hc as <-. apply bool_decide_eq_true_1 in Ef. destruct stk as [|v stk]; [discriminate|]. injection Hrun as <-.
    unfold simulates. cbn [emit1] in *. rewrite Ht in *. cbn [default] in *. unfold from_option, id in Hx.
    destruct (assign_simulates i t s ss v stk m p Hg Hsm Hd Ht E (proj2 Hf) Hp Hx) as (m' & w & Hr & Hw & Hv).
    exists m'. split; [exact Hr|]. eapply follows_tee; eauto.
  - destruct ss as [|s2 [|s1 ss]]; try discriminate. destruct stk as [|v2 [|v1 stk]]; try discriminate.
    destruct (int_op o) as [[t f]|] eqn:Ho; [|discriminate]. cbn [mbind option_bind] in *. injection Hrun as <-.
    destruct (has_type locs s1 t) eqn:H1; [|discriminate]. destruct (has_type locs s2 t) eqn:H2; [|discriminate]. cbn [andb] in Hc.
    apply has_type_inv in H1, H2. eapply op_simulates; eauto.
Qed.

(** Code that fits does not get stuck. *)
Lemma check1_run1 i ss ss' s m : check1 locs i ss = Some ss' -> follows ss s m -> exists s', run1 i s = Some s'.
Proof.
  intros Hc [Hl Hst]. destruct s as [vals stk]. cbn [fst snd] in *. destruct i as [| |t v|i|i|i|o]; cbn [run1 check1] in *; eauto.
  - destruct ss as [|s ss]; [discriminate|]. destruct stk as [|v stk]; [destruct Hst|]. eauto.
  - destruct (bool_decide _) eqn:E; [|discriminate]. apply bool_decide_eq_true_1 in E as [t Ht].
    destruct (Hl i t Ht) as (v & -> & _). cbn. eauto.
  - destruct ss as [|s ss]; [discriminate|]. destruct stk as [|v stk]; [destruct Hst|]. eauto.
  - destruct ss as [|s ss]; [discriminate|]. destruct stk as [|v stk]; [destruct Hst|]. eauto.
  - destruct ss as [|s2 [|s1 ss]]; try discriminate. destruct stk as [|v2 [|v1 stk]]; try (destruct Hst as [_ []]); try destruct Hst.
    destruct (int_op o) as [[t f]|]; [|discriminate]. cbn. eauto.
Qed.

Lemma declared_peak is_ ss m : (forall t, base locs t + peak locs t is_ ss <= rnum (_types m) (_func_idx (_current m)) t) -> declared ss m.
Proof. intros H t. specialize (H t). pose proof (peak_ge locs t is_ ss). lia. Qed.

Lemma emit_simulates is_ : forall ss ss' s m p, good m -> small ss ->
  (forall t, base locs t + peak locs t is_ ss <= rnum (_types m) (_func_idx (_current m)) t) ->
  check locs is_ ss = Some ss' -> follows ss s m -> _pc (_current m) = Some p -> code_at m p (emit locs is_ ss) ->
  exists m' s', run is_ s = Some s' /\ ran (length (emit locs is_ ss)) m m' /\ follows ss' s' m'.
Proof.
  induction is_ as [|i is_ IH]; intros ss ss' s m p Hg Hsm Hd Hc Hf Hp Hx.
  - injection Hc as <-. exists m, s. split; [reflexivity|]. split; [apply ran_0 | exact Hf].
  - cbn [check run] in *. destruct (check1 locs i ss) as [ss1|] eqn:E1; [|discriminate]. cbn [mbind option_bind] in Hc.
    destruct (check1_run1 i ss ss1 s m E1 Hf) as [s1 Hr1]. rewrite Hr1. cbn [mbind option_bind].
    cbn [emit] in *. rewrite E1 in *. apply code_at_app in Hx as [X1 X2].
    assert (forall t, base locs t + peak locs t is_ ss1 <= rnum (_types m) (_func_idx (_current m)) t) as Hd1.
    { intros t. pose proof (peak_cons locs t i is_ ss ss1 E1). specialize (Hd t). lia. }
    destruct (emit1_simulates i ss ss1 s s1 m p Hg Hsm (declared_peak _ _ _ Hd) (declared_peak _ _ _ Hd1) E1 Hr1 Hf Hp X1)
      as (m1 & Hran & Hf1).
    destruct (IH ss1 ss' s1 m1 (p + Z.of_nat (length (emit1 locs i ss)))) as (m' & s' & Hrun & Hran' & Hf').
    + eapply good_steps; [apply Hran | exact Hg].
    + eapply check1_small; eauto.
    + intros t. rewrite (rn_types _ _ _ Hran), (rn_func _ _ _ Hran). apply Hd1.
    + exact Hc.
    + exact Hf1.
    + apply (rn_pc _ _ _ Hran _ Hp).
    + eapply code_at_ran; eauto.
    + exists m', s'. split; [exact Hrun|]. split; [|exact Hf']. rewrite length_app. eapply ran_app; eauto.
Qed.
End Running.
