(* ===== verification/Compiled.v ===== *)
(** * A translated straight-line function, running

  From its first instruction, with the arguments in the registers of the parameters,
  the code of [function_code] computes the function and leaves its result in register 0,
  at [RETURN]. *)

From S2P Require Import Prelude CInt BitField CFloat Wasm Isa Inst Expand Ubh Memory UModule StrTab TypeEncoder Encoder Machine Handlers Exec Frames Windows Safety Loading Sample Reachable Typed Ops Code Leb128 Winst Splitting LocalTable Graph Converter Convert Alloc Straight Creation Building Translation Running.
From Stdlib Require Import ZArith Lia.
Local Open Scope Z_scope.

Section Compiled.
Context {bd : Build} {pf : Platform} {rt : Runtime} {rf : RuntimeFrame rt} {rty : RuntimeTyped rt} {fe : FloatEnv} {cb : ConvBuild}.

(** A register got a value; no other register changed. *)
Record sets (t : VALTYPE) (r v : Z) (m m' : UWASM_MACHINE) : Prop := {
  st_holds : reg_holds m' t r v;
  st_others : forall u j, u <> VALTY_UNKNOWN -> (u, j) <> (t, r) -> REGISTER.Get j (regs u m') = REGISTER.Get j (regs u m);
}.
Lemma sets_write t r w v m m' : one_write t r w m m' -> unsigned t (reg_norm t w) = v -> sets t r v m m'.
Proof. intros H <-. split; [eapply holds_written, H | apply (ow_others _ _ _ _ _ H)]. Qed.
Lemma sets_twice t r w v m m1 m' : one_write t r w m m1 -> sets t r v m1 m' -> sets t r v m m'.
Proof.
  intros H [S1 S2]. split; [exact S1|]. intros u j Hu Hne. rewrite (S2 u j Hu Hne). exact (ow_others _ _ _ _ _ H u j Hu Hne).
Qed.
Lemma sets_other t r v m m' u j w : sets t r v m m' -> u <> VALTY_UNKNOWN -> (u, j) <> (t, r) -> reg_holds m u j w -> reg_holds m' u j w.
Proof. intros H Hu Hne (x & Hx & Hv). exists x. split; [|exact Hv]. now rewrite (st_others _ _ _ _ _ H u j Hu Hne). Qed.

(** An instruction with an immediate operand, zero. *)
Lemma zero_step opc t r m p op w : good m -> is_value_type t = true -> declares m t r -> 0 <= r < 126 -> _pc (_current m) = Some p ->
  expands m p (inst_for opc t [r; 0]) ->
  (forall e, Get_opcode_l (inst_expand (inst_for opc t [r; 0]) e) = UINT32 (Opcode_to_opcode_l opc t)) ->
  opcode_long (UINT32 (Opcode_to_opcode_l opc t)) = Some op ->
  (forall e, exec_op op (inst_expand (inst_for opc t [r; 0]) e) m = (_ ← reg_set t r w; mret BREAK) m) ->
  exists m', ran 1 m m' /\ one_write t r w m m'.
Proof.
  intros Hg Ht Hd Hr Hp [e Hx] Hl Ho He.
  destruct (step_write m p (inst_for opc t [r; 0]) e op t r w Hg (value_type_known t Ht) Hd Hp Hx) as (m' & Hs & Hw).
  - now rewrite Hl.
  - apply He.
  - exists m'. split; [eapply ran_1; eauto | exact Hw].
Qed.

Lemma ran_declares n m m' t r : ran n m m' -> declares m t r -> declares m' t r.
Proof. intros H. unfold declares. now rewrite (rn_types _ _ _ H), (rn_func _ _ _ H). Qed.
Lemma ran_good n m m' : ran n m m' -> good m -> good m'.
Proof. intros H. eapply good_steps, H. Qed.

Ltac zero_tac r := cbv beta iota delta [exec_op break_];
  unfold Const_i32_am32_r_imm, Const_i64_am32_r_imm, Const_l_f32_am64_r_imm, inst_expand, inst_for;
  change (UWINST_TY_AM Opcode.CONST) with (Ok TY_AM32_R_IMM); change (UWINST_TY_AM Opcode.CONST_L) with (Ok TY_AM64_R_IMM); cbn;
  now rewrite (UINT32_id r) by lia.

Ltac zero_tac2 r G := cbv beta iota delta [exec_op break_];
  unfold Const_l_f64_am64_r_imm, Const_l_high_f64_am64_r_imm, inst_expand, inst_for;
  change (UWINST_TY_AM Opcode.CONST_L_HIGH) with (Ok TY_AM64_R_IMM); change (UWINST_TY_AM Opcode.CONST_L) with (Ok TY_AM64_R_IMM);
  cbn [i_am i_opcode i_valtype i_content am_expand];
  match goal with |- context [reg_get F64 ?r'] => change r' with (UINT32 r) end;
  match goal with |- context [reg_set F64 ?r'] => change r' with (UINT32 r) end;
  rewrite (UINT32_id r), bind_bind, (bind_run _ _ _ _ _ G) by lia; reflexivity.

(** The two halves of an f64; both instructions read the register they write. *)
Lemma zero_f64_runs r m p x : good m -> declares m F64 r -> 0 <= r < 126 -> _pc (_current m) = Some p ->
  code_at m p (init1 F64 r) -> reg_holds m F64 r x -> exists m', ran 2 m m' /\ sets F64 r 0 m m'.
Proof.
  intros Hg Hd Hr Hp Hc Hx. pose proof (Hc 0%nat _ eq_refl) as X0. rewrite Z.add_0_r in X0. pose proof (Hc 1%nat _ eq_refl) as X1.
  destruct (get_holds m F64 r x Hg Hx) as (v & G & T & _).
  set (w := Z.lor (Z.land (UINT64 v) (Z.shiftl 4294967295 32)) 0).
  destruct (zero_step Opcode.CONST_L F64 r m p CONST_L_F64_AM64_R_IMM_L w Hg eq_refl Hd Hr Hp X0) as (m1 & R1 & W1); try reflexivity.
  { intros e. zero_tac2 r G. }
  pose proof (ran_good _ _ _ R1 Hg) as Hg1. destruct (get_holds m1 F64 r _ Hg1 (holds_written _ _ _ _ _ W1)) as (v1 & G1 & T1 & U1).
  destruct (zero_step Opcode.CONST_L_HIGH F64 r m1 (p + 1) CONST_L_HIGH_F64_AM64_R_IMM_L
    (Z.lor (Z.land (UINT64 v1) 4294967295) 0) Hg1 eq_refl (ran_declares _ _ _ _ _ R1 Hd) Hr (rn_pc _ _ _ R1 _ Hp)) as (m' & R & W); try reflexivity.
  { unfold expands. rewrite (rn_codes _ _ _ R1). exact X1. }
  { intros e. zero_tac2 r G1. }
  exists m'. split; [exact (ran_app 1 1 _ _ _ R1 R)|]. eapply sets_twice; [exact W1|]. eapply sets_write; [exact W|].
  unfold unsigned in U1 at 1. cbn [width] in U1. fold (UINT64 v1) in U1. rewrite U1. unfold unsigned, reg_norm, w, UINT64, width.
  rewrite !Z.lor_0_r, !wrapu_wrapu by lia. rewrite !wrapu_land, <- !Z.land_assoc by lia.
  etransitivity; [|apply (Z.land_0_r v)]. f_equal.
Qed.

(** A local is set to zero. *)
Lemma init1_runs t r m p : good m -> is_value_type t = true -> (t = F64 -> exists x, reg_holds m F64 r x) -> declares m t r -> 0 <= r < 126 -> _pc (_current m) = Some p ->
  code_at m p (init1 t r) -> exists m', ran (length (init1 t r)) m m' /\ sets t r 0 m m'.
Proof.
  intros Hg Ht Hf Hd Hr Hp Hc. pose proof (Hc 0%nat) as X. rewrite Z.add_0_r in X.
  destruct t; try discriminate; cbn [init1 length] in *; specialize (X _ eq_refl).
  - destruct (zero_step Opcode.CONST I32 r m p CONST_I32_AM32_R_IMM_L 0 Hg Ht Hd Hr Hp X) as (m' & R & W); try reflexivity.
    { intros e. zero_tac r. }
    exists m'. split; [exact R|]. now apply (sets_write _ _ 0).
  - destruct (zero_step Opcode.CONST I64 r m p CONST_I64_AM32_R_IMM_L 0 Hg Ht Hd Hr Hp X) as (m' & R & W); try reflexivity.
    { intros e. zero_tac r. }
    exists m'. split; [exact R|]. now apply (sets_write _ _ 0).
  - destruct (zero_step Opcode.CONST_L F32 r m p CONST_L_F32_AM64_R_IMM_L 0 Hg Ht Hd Hr Hp X) as (m' & R & W); try reflexivity.
    { intros e. zero_tac r. }
    exists m'. split; [exact R|]. now apply (sets_write _ _ 0).
  - destruct (Hf eq_refl) as [x Hx]. exact (zero_f64_runs r m p x Hg Hd Hr Hp Hc Hx).
Qed.

(** The locals from [i] on. *)
Section Locals.
Variables ps ls : list VALTYPE.
Abbreviation locs := (ps ++ ls).
Hypothesis locs_types : Forall (fun t => is_value_type t = true) locs.

(** The first [n] locals have their values. *)
Definition first_hold (n : nat) (vals : list Z) (m : UWASM_MACHINE) : Prop :=
  forall i t, (i < n)%nat -> locs !! i = Some t -> exists v, vals !! i = Some v /\ reg_holds m t (local_reg locs i) v.
(** The registers of f64 locals hold anything. *)
Definition f64_readable (m : UWASM_MACHINE) : Prop :=
  forall i, locs !! i = Some F64 -> exists x, reg_holds m F64 (local_reg locs i) x.

Lemma init_runs : forall ts i vals m p, good m -> (forall k t, ts !! k = Some t -> locs !! (i + k)%nat = Some t) ->
  length vals = i -> (i + length ts = length locs)%nat -> f64_readable m -> small locs [] -> declared locs [] m ->
  _pc (_current m) = Some p -> code_at m p (init_from locs i ts) -> first_hold i vals m ->
  exists m', ran (length (init_from locs i ts)) m m' /\ locals_hold locs (vals ++ repeat 0 (length ts)) m'.
Proof.
  induction ts as [|t ts IH]; intros i vals m p Hg Hts Hi Hlen Hf Hsm Hd Hp Hc Hh.
  - exists m. split; [apply ran_0|]. cbn [repeat length]. rewrite app_nil_r. intros j t Hj. apply Hh; [|exact Hj].
    apply lookup_lt_Some in Hj. cbn [length] in Hlen. lia.
  - cbn [init_from] in *. apply code_at_app in Hc as [X1 X2]. pose proof (Hts 0%nat t eq_refl) as Ht. rewrite Nat.add_0_r in Ht.
    pose proof (Forall_lookup_1 _ _ _ _ locs_types Ht) as Hv. cbn beta in Hv.
    destruct (init1_runs t (local_reg locs i) m p Hg Hv) as (m1 & R1 & S1); try assumption.
    { intros ->. exact (Hf i Ht). }
    { eapply declares_local; eauto. }
    { eapply local_small; eauto. }
    destruct (IH (S i) (vals ++ [0]) m1 (p + Z.of_nat (length (init1 t (local_reg locs i))))) as (m' & R & H).
    + eapply ran_good; eauto.
    + intros k u Hk. rewrite Nat.add_succ_l, <- Nat.add_succ_r. now apply Hts.
    + rewrite length_app. cbn [length]. lia.
    + cbn [length] in Hlen. lia.
    + intros j Hj. destruct (decide (j = i)) as [->|Hne].
      * rewrite Hj in Ht. injection Ht as <-. exists 0. apply S1.
      * destruct (Hf j Hj) as [x Hx]. exists x. eapply sets_other; [exact S1 | discriminate | | exact Hx].
        intros [= <- E]. apply Hne. eapply local_reg_inj; eauto.
    + exact Hsm.
    + intros u. rewrite (rn_types _ _ _ R1), (rn_func _ _ _ R1). apply Hd.
    + apply (rn_pc _ _ _ R1 _ Hp).
    + eapply code_at_ran; eauto.
    + intros j u Hj Hu. destruct (decide (j = i)) as [->|Hne].
      * rewrite Hu in Ht. injection Ht as ->. exists 0. split; [rewrite lookup_app_r, Hi, Nat.sub_diag by lia; reflexivity | apply S1].
      * destruct (Hh j u ltac:(lia) Hu) as (v & Hj1 & Hj2). exists v. split; [now apply lookup_app_l_Some|].
        pose proof (Forall_lookup_1 _ _ _ _ locs_types Hu) as Huv. cbn beta in Huv.
        eapply sets_other; [exact S1 | intros ->; discriminate | | exact Hj2]. intros [= -> E]. apply Hne. eapply local_reg_inj; eauto.
    + exists m'. rewrite length_app. split; [eapply ran_app; eauto|]. rewrite <- (assoc_L (++)) in H. exact H.
Qed.

(** Code that fits keeps to the registers. *)
Lemma check_small is_ : forall ss ss', check locs is_ ss = Some ss' -> small locs ss -> small locs ss'.
Proof.
  induction is_ as [|i is_ IH]; intros ss ss' H Hs; cbn [check] in H; [now injection H as <-|].
  destruct (check1 locs i ss) as [ss1|] eqn:E; [|discriminate]. eapply IH; [exact H|]. eapply check1_small; eauto.
Qed.
Lemma check_declared is_ m : forall ss ss', (forall t, base locs t + peak locs t is_ ss <= rnum (_types m) (_func_idx (_current m)) t) ->
  check locs is_ ss = Some ss' -> declared locs ss' m.
Proof.
  induction is_ as [|i is_ IH]; intros ss ss' Hd H; cbn [check] in H; [injection H as <-; now apply declared_peak in Hd|].
  destruct (check1 locs i ss) as [ss1|] eqn:E; [|discriminate]. apply (IH ss1 ss'); [|exact H].
  intros t. pose proof (peak_cons locs t i is_ ss ss1 E). specialize (Hd t). lia.
Qed.

(** The result goes to register 0. *)
Lemma result_runs ss stk m p : good m -> small locs ss -> declared locs ss m -> stack_holds locs ss stk m -> (length ss <= 1)%nat ->
  _pc (_current m) = Some p -> code_at m p (result_code locs ss) ->
  exists m', ran (length (result_code locs ss)) m m' /\
    (forall s t, ss = [s] -> slot_ty locs s = Some t -> exists v, stk = [v] /\ reg_holds m' t 0 v).
Proof.
  intros Hg Hsm Hd Hst H1 Hp Hc. destruct ss as [|s [|]]; [|clear H1|cbn in H1; lia].
  - exists m. split; [apply ran_0|]. discriminate.
  - destruct stk as [|v [|]]; [destruct Hst| |destruct Hst as [_ []]]. pose proof Hst as [(t & Ht & Hv & Hr) _].
    cbn [result_code] in *. rewrite Ht in *. cbn [default from_option id length] in *. pose proof (slot_small locs s [] t Hsm Ht) as Hrs.
    assert (declares m t 0) as Hd0.
    { unfold declares. specialize (Hd t). pose proof (base_pos locs t). pose proof (temps_nonneg t [s]). lia. }
    destruct (mov_runs m p t 0 _ v Hg Hv Hd0 ltac:(lia) Hrs Hp (code_at_one _ _ _ Hc) Hr) as (m' & w & Hs & Hw & Hval).
    exists m'. split; [eapply ran_1; eauto|]. intros s' u [= <-] Hu. rewrite Ht in Hu. injection Hu as <-.
    exists v. split; [reflexivity|]. rewrite <- Hval. eapply holds_written, Hw.
Qed.

Lemma function_runs is_ ss args m p : good m -> (forall t, base locs t <= 126) ->
  (forall t, base locs t + peak locs t is_ [] <= rnum (_types m) (_func_idx (_current m)) t) ->
  check locs is_ [] = Some ss -> (length ss <= 1)%nat -> length args = length ps -> first_hold (length ps) args m -> f64_readable m ->
  _pc (_current m) = Some p -> code_at m p (function_code ps ls is_ ss) ->
  exists m' n vals stk, length (function_code ps ls is_ ss) = S n /\ ran n m m' /\ expands m' (p + Z.of_nat n) (inst_for Opcode.RETURN I32 []) /\
    run is_ (args ++ repeat 0 (length ls), []) = Some (vals, stk) /\
    forall s t, ss = [s] -> slot_ty locs s = Some t -> exists v, stk = [v] /\ reg_holds m' t 0 v.
Proof.
  intros Hg Hb Hd Hck H1 Hla Hargs Hf Hp Hc. unfold function_code in *.
  apply code_at_app in Hc as [X1 Hc]. apply code_at_app in Hc as [X2 Hc]. apply code_at_app in Hc as [X3 X4].
  assert (small locs []) as Hsm by (intros t; cbn [temps]; specialize (Hb t); lia).
  pose proof (declared_peak locs _ _ _ Hd) as Hd0.
  destruct (init_runs ls (length ps) args m p Hg) as (m1 & R1 & Hl1); try assumption.
  { intros k t Hk. rewrite lookup_app_r by lia. now replace (length ps + k - length ps)%nat with k by lia. }
  { now rewrite length_app. }
  destruct (emit_simulates locs locs_types is_ [] ss (args ++ repeat 0 (length ls), []) m1 (p + Z.of_nat (length (init_from locs (length ps) ls))))
    as (m2 & [vals stk] & Hrun & R2 & [_ Hst]); try assumption.
  { eapply ran_good; eauto. }
  { intros t. rewrite (rn_types _ _ _ R1), (rn_func _ _ _ R1). apply Hd. }
  { split; [exact Hl1 | exact I]. }
  { apply (rn_pc _ _ _ R1 _ Hp). }
  { eapply code_at_ran; eauto. }
  pose proof (ran_app _ _ _ _ _ R1 R2) as R12.
  destruct (result_runs ss stk m2 (p + Z.of_nat (length (init_from locs (length ps) ls)) + Z.of_nat (length (emit locs is_ []))))
    as (m3 & R3 & Hres); try assumption.
  { eapply ran_good; eauto. }
  { eapply check_small; eauto. }
  { apply (check_declared is_ m2 [] ss); [|exact Hck]. intros t. rewrite (rn_types _ _ _ R12), (rn_func _ _ _ R12). apply Hd. }
  { rewrite (rn_pc _ _ _ R12 _ Hp). f_equal. lia. }
  { eapply code_at_ran; eauto. }
  exists m3, (length (init_from locs (length ps) ls) + (length (emit locs is_ []) + length (result_code locs ss)))%nat, vals, stk.
  split; [rewrite !length_app; cbn [length]; lia|]. pose proof (ran_app _ _ _ _ _ R12 R3) as R123. rewrite <- Nat.add_assoc in R123.
  split; [exact R123|]. split; [|split; [exact Hrun | exact Hres]].
  apply code_at_one. eapply code_at_ran; [exact R123|]. 
  replace (p + Z.of_nat (length (init_from locs (length ps) ls) + (length (emit locs is_ []) + length (result_code locs ss))))
    with (p + Z.of_nat (length (init_from locs (length ps) ls)) + Z.of_nat (length (emit locs is_ [])) + Z.of_nat (length (result_code locs ss))) by lia.
  exact X4.
Qed.
End Locals.
End Compiled.
