(* ===== verification/Loops.v ===== *)
(** * Structured code: what it computes

  The semantics of the code of [Structured.v], as WebAssembly has it, and the machine
  running the items that the converter adds for it: jumps go where branches go, the
  registers follow locals and operands. *)

From S2P Require Import Prelude CInt BitField CFloat Wasm Isa Inst Expand Ubh Memory UModule StrTab TypeEncoder Encoder Machine Handlers Exec Frames Windows Safety Loading Sample Reachable Typed Ops Code Leb128 Winst Splitting LocalTable Graph Converter Convert Alloc Straight Creation Building Translation Running Compiled Structured.
From Stdlib Require Import ZArith Lia.
Local Open Scope Z_scope.

(** ** The source

  A block is entered with an empty operand stack; when it is left, the operands below it
  are there again.  [R_jump n] is a branch out of [n] blocks more. *)
Inductive RESULT : Type :=
  | R_next (vals stk : list Z)
  | R_jump (n : nat) (vals : list Z)
  | R_return (rs : list Z)
  | R_fuel
  | R_stuck.

Definition leave (r : RESULT) (next : list Z -> RESULT) : RESULT :=
  match r with
  | R_next vals _ | R_jump 0 vals => next vals
  | R_jump (S n) vals => R_jump n vals
  | r => r
  end.
(** A loop goes on while its body branches to it. *)
Fixpoint iterate (f : nat) (body : list Z -> RESULT) (vals : list Z) : RESULT :=
  match f with
  | O => R_fuel
  | S f => match body vals with R_jump 0 vals => iterate f body vals | r => r end
  end.

(** [nres] results; each loop that is entered makes at most [fuel] iterations. *)
Fixpoint eval (nres fuel : nat) (p : CODE) (vals stk : list Z) : RESULT :=
  match p with
  | C_End => R_next vals stk
  | C_Simple cd k =>
      match i ← source_of cd; run1 i (vals, stk) with Some (vals, stk) => eval nres fuel k vals stk | None => R_stuck end
  | C_Block b k => leave (eval nres fuel b vals []) (fun vals => eval nres fuel k vals stk)
  | C_Loop b k => leave (iterate fuel (fun vals => eval nres fuel b vals []) vals) (fun vals => eval nres fuel k vals stk)
  | C_If b k =>
      match stk with
      | c :: stk => if c =? 0 then eval nres fuel k vals stk else leave (eval nres fuel b vals []) (fun vals => eval nres fuel k vals stk)
      | [] => R_stuck
      end
  | C_IfElse b1 b2 k =>
      match stk with
      | c :: stk => leave (if c =? 0 then eval nres fuel b2 vals [] else eval nres fuel b1 vals []) (fun vals => eval nres fuel k vals stk)
      | [] => R_stuck
      end
  | C_Br _ v _ => R_jump (Z.to_nat v) vals
  | C_BrIf _ v k =>
      match stk with c :: stk => if c =? 0 then eval nres fuel k vals stk else R_jump (Z.to_nat v) vals | [] => R_stuck end
  | C_Return _ => if (nres <=? length stk)%nat then R_return (take nres stk) else R_stuck
  end.

(** A branch to the block [d] levels out; no conditional with two arms has one in its first
  arm, which the converter would take to the other arm. *)
Fixpoint jumps (d : nat) (p : CODE) : bool :=
  match p with
  | C_End => false
  | C_Simple _ k | C_Return k => jumps d k
  | C_Block b k | C_Loop b k | C_If b k => jumps (S d) b || jumps d k
  | C_IfElse b1 b2 k => jumps (S d) b1 || jumps (S d) b2 || jumps d k
  | C_Br _ v k | C_BrIf _ v k => (Z.to_nat v =? d)%nat || jumps d k
  end.
Fixpoint safe (p : CODE) : bool :=
  match p with
  | C_End => true
  | C_Simple _ k | C_Return k | C_Br _ _ k | C_BrIf _ _ k => safe k
  | C_Block b k | C_Loop b k | C_If b k => safe b && safe k
  | C_IfElse b1 b2 k => negb (jumps 0 b1) && safe b1 && safe b2 && safe k
  end.

Lemma leave_jump r next d vals : leave r next = R_jump d vals ->
  (exists v, r = R_jump (S d) v) \/ exists v, next v = R_jump d vals.
Proof.
  destruct r as [v s|[|n] v| | |]; cbn [leave]; eauto; intros H; try discriminate. injection H as -> ->. eauto.
Qed.
Lemma iterate_jump f body : forall vals d v, iterate f body vals = R_jump d v -> exists v' v'', body v' = R_jump d v''.
Proof.
  induction f as [|f IH]; intros vals d v H; cbn [iterate] in H; [discriminate|].
  destruct (body vals) as [|[|n] v1| | |] eqn:E; try discriminate; [eauto|]. injection H as <- <-. eauto.
Qed.
Lemma eval_jumps nres fuel p : forall vals stk d vals', eval nres fuel p vals stk = R_jump d vals' -> jumps d p = true.
Proof.
  induction p as [|cd k IH|b IHb k IHk|b IHb k IHk|b IHb k IHk|b1 IH1 b2 IH2 k IHk|L v k IH|L v k IH|k IH];
    intros vals stk d vals' H; cbn [eval jumps] in *; rewrite ?orb_true_iff.
  - discriminate.
  - destruct (i ← source_of cd; run1 i (vals, stk)) as [[v s]|]; [eauto | discriminate].
  - apply leave_jump in H as [(v & H)|(v & H)]; eauto.
  - apply leave_jump in H as [(v & H)|(v & H)]; [|eauto]. apply iterate_jump in H as (v1 & v2 & H). eauto.
  - destruct stk as [|c stk]; [discriminate|]. destruct (c =? 0); [eauto|]. apply leave_jump in H as [(v & H)|(v & H)]; eauto.
  - destruct stk as [|c stk]; [discriminate|]. apply leave_jump in H as [(v & H)|(v & H)]; [destruct (c =? 0)|]; eauto.
  - injection H as -> _. left. apply Nat.eqb_refl.
  - destruct stk as [|c stk]; [discriminate|]. destruct (c =? 0); [eauto|]. injection H as -> _. left. apply Nat.eqb_refl.
  - destruct (_ <=? _)%nat; discriminate.
Qed.

(** An instruction does not see the operands below those that it takes. *)
Lemma run1_app i vals stk out : (takes i <= length stk)%nat ->
  run1 i (vals, stk ++ out) = '(v, s) ← run1 i (vals, stk); Some (v, s ++ out).
Proof.
  intros H. destruct i as [| |t v|i|i|i|o]; cbn [run1 takes] in *.
  - reflexivity.
  - destruct stk as [|x stk]; [cbn in H; lia | reflexivity].
  - reflexivity.
  - now destruct (vals !! i).
  - destruct stk as [|x stk]; [cbn in H; lia | reflexivity].
  - destruct stk as [|x stk]; [cbn in H; lia | reflexivity].
  - destruct stk as [|x [|y stk]]; try (cbn in H; lia). now destruct (int_op o) as [[t f]|].
Qed.

Section Loops.
Context {bd : Build} {pf : Platform} {rt : Runtime} {rf : RuntimeFrame rt} {rty : RuntimeTyped rt} {fe : FloatEnv} {cb : ConvBuild}.

(** What [n] instructions leave, wherever they go. *)
Record moved (n : nat) (m m' : UWASM_MACHINE) : Prop := {
  mv_steps : steps n m m';
  mv_codes : _codes m' = _codes m;
  mv_types : _types m' = _types m;
  mv_func : _func_idx (_current m') = _func_idx (_current m);
  mv_frame : env_frame m m';
}.
Lemma moved_0 m : moved 0 m m.
Proof. split; auto using steps_0. reflexivity. Qed.
Lemma moved_app n1 n2 m1 m2 m3 : moved n1 m1 m2 -> moved n2 m2 m3 -> moved (n1 + n2) m1 m3.
Proof. intros [A1 A2 A3 A4 A5] [B1 B2 B3 B4 B5]. split; try congruence; [eapply steps_app; eauto | etransitivity; eassumption]. Qed.
Lemma ran_moved n m m' : ran n m m' -> moved n m m'.
Proof. intros []. now split. Qed.
Lemma moved_good n m m' : moved n m m' -> good m -> good m'.
Proof. intros H. eapply good_steps, H. Qed.

(** ** Labels and code *)
Definition labels_are (m : UWASM_MACHINE) (tab : list Z) : Prop :=
  exists f, _label_tab (_current m) = Some f /\ _lab_tab (_codes m) !! f = Some tab.
Lemma labels_moved n m m' tab : moved n m m' -> labels_are m tab -> labels_are m' tab.
Proof. intros H (f & H1 & H2). exists f. now rewrite (ef_label _ _ (mv_frame _ _ _ H)), (mv_codes _ _ _ H). Qed.

Fixpoint items_at (m : UWASM_MACHINE) (tab : list Z) (p : Z) (its : list ITEM) : Prop :=
  match its with
  | [] => True
  | I_inst x :: its => expands m p x /\ items_at m tab (p + 1) its
  | I_label i :: its => tab !! i = Some p /\ items_at m tab p its
  end.
Definition its_len (its : list ITEM) : Z := Z.of_nat (length (item_insts its)).
Lemma its_len_app a b : its_len (a ++ b) = its_len a + its_len b.
Proof. unfold its_len. rewrite item_insts_app, length_app. lia. Qed.
Lemma its_len_insts is_ : its_len (map I_inst is_) = Z.of_nat (length is_).
Proof. unfold its_len. now rewrite item_insts_insts. Qed.
Lemma its_len_inst x its : its_len (I_inst x :: its) = 1 + its_len its.
Proof. unfold its_len. cbn [item_insts length]. lia. Qed.
Lemma its_len_label i its : its_len (I_label i :: its) = its_len its.
Proof. reflexivity. Qed.
Lemma items_at_app m tab a : forall p b, items_at m tab p (a ++ b) -> items_at m tab p a /\ items_at m tab (p + its_len a) b.
Proof.
  induction a as [|[x|i] a IH]; intros p b H; cbn [app items_at] in *.
  - change (its_len []) with 0. now rewrite Z.add_0_r.
  - rewrite its_len_inst, Z.add_assoc. destruct H as [H1 H2]. destruct (IH _ _ H2). auto.
  - rewrite its_len_label. destruct H as [H1 H2]. destruct (IH _ _ H2). auto.
Qed.
Lemma items_at_moved n m m' tab : moved n m m' -> forall its p, items_at m tab p its -> items_at m' tab p its.
Proof.
  intros Hm. induction its as [|[x|i] its IH]; intros p H; cbn [items_at] in *; [exact I| |]; destruct H as [H1 H2]; (split; [|auto]).
  - unfold expands. now rewrite (mv_codes _ _ _ Hm).
  - exact H1.
Qed.
Lemma items_at_code m tab is_ : forall p, items_at m tab p (map I_inst is_) -> code_at m p is_.
Proof.
  induction is_ as [|i is_ IH]; intros p H k x Hk; [discriminate|]. destruct H as [H1 H2]. destruct k as [|k].
  - injection Hk as <-. now rewrite Z.add_0_r.
  - replace (p + Z.of_nat (S k)) with (p + 1 + Z.of_nat k) by lia. exact (IH _ H2 k x Hk).
Qed.

(** ** Jumps *)
Lemma nthZ_nat {A} (l : list A) i x : l !! i = Some x -> nthZ l (Z.of_nat i) = Ok x.
Proof. intros H. apply nthZ_Ok. rewrite Nat2Z.id. split; [lia | exact H]. Qed.
Lemma Get_label_run m tab l x : labels_are m tab -> tab !! l = Some x -> Get_label (Z.of_nat l) m = Ok (Some x, m).
Proof.
  intros (f & H1 & H2) Hx. unfold Get_label. rewrite H1. cbn [of_option mbind outcome_bind]. rewrite H2. cbn [of_option mbind outcome_bind].
  rewrite (nthZ_nat _ _ _ Hx). reflexivity.
Qed.

Definition at_pc (x : Z) (m : UWASM_MACHINE) : UWASM_MACHINE := set_current (ctx_set_pc (Some x) (_current m)) m.
Lemma at_pc_moved x m : step m (at_pc x m) -> moved 1 m (at_pc x m).
Proof. intros H. split; try reflexivity; [eapply steps_S; [exact H | constructor]|]. constructor; reflexivity || intros []; reflexivity. Qed.
Lemma at_pc_regs x m t : regs t (at_pc x m) = regs t m.
Proof. now destruct t. Qed.
Lemma holds_at_pc x m t r v : reg_holds m t r v -> reg_holds (at_pc x m) t r v.
Proof. unfold reg_holds. now rewrite at_pc_regs. Qed.

Lemma jmp_step m q l x tab : _pc (_current m) = Some q -> expands m q (jump_inst l) -> labels_are m tab -> tab !! l = Some x ->
  (length tab <= 512)%nat -> moved 1 m (at_pc x m).
Proof.
  intros Hp [e He] Hl Hx Ht. pose proof (lookup_lt_Some _ _ _ Hx). apply at_pc_moved.
  eapply (step_continue _ (inst_expand (jump_inst l) e)).
  - unfold Get_inst. rewrite Hp. cbn [of_option mbind outcome_bind]. now rewrite He.
  - assert (Get_ofs (inst_expand (jump_inst l) e) = Z.of_nat l) as Eo.
    { unfold jump_inst, inst_expand, inst_for. change (UWINST_TY_AM Opcode.JMP) with (Ok TY_AM32_OFS). cbn. now rewrite UINT32_id by lia. }
    assert (switch (inst_expand (jump_inst l) e) m = continue_ (Jmp_am32_ofs (inst_expand (jump_inst l) e)) m) as -> by reflexivity.
    unfold continue_, Jmp_am32_ofs. rewrite Eo, bind_bind, (bind_run _ _ _ _ _ (Get_label_run m tab l x Hl Hx)). reflexivity.
Qed.
Lemma cond_step (zero : bool) r m q l x tab v : good m -> _pc (_current m) = Some q -> 0 <= r < 126 ->
  expands m q (inst_for (if zero then Opcode.JEZ else Opcode.JNZ) I32 [r; Z.of_nat l]) -> labels_are m tab -> tab !! l = Some x ->
  (length tab <= 512)%nat -> reg_holds m I32 r v -> let y := if Bool.eqb (v =? 0) zero then x else q + 1 in moved 1 m (at_pc y m).
Proof.
  intros Hg Hp Hr [e He] Hl Hx Ht Hv y. pose proof (lookup_lt_Some _ _ _ Hx). destruct (get_holds m I32 r v Hg Hv) as (w & G & T & U).
  set (i := inst_expand (inst_for (if zero then Opcode.JEZ else Opcode.JNZ) I32 [r; Z.of_nat l]) e) in *.
  assert (Get_ofs i = Z.of_nat l /\ Get_rd i = r) as (Eo & Er).
  { unfold i, inst_expand, inst_for. destruct zero; [change (UWINST_TY_AM Opcode.JEZ) with (Ok TY_AM32_R_OFS) | change (UWINST_TY_AM Opcode.JNZ) with (Ok TY_AM32_R_OFS)];
      cbn; rewrite (UINT32_id r), (UINT32_id (Z.of_nat l)) by lia; auto. }
  assert (exists op f, opcode_long (Get_opcode_l i) = Some op /\ jump1 op = Some (I32, f) /\ f 32 v = Bool.eqb (v =? 0) zero) as (op & f & Ho & Hj & Hf).
  { unfold i. destruct zero; (do 2 eexists; split; [reflexivity|]; split; [reflexivity|]); unfold Wasm.ieqz; now destruct (v =? 0). }
  apply at_pc_moved. eapply (step_continue _ i).
  - unfold Get_inst. rewrite Hp. cbn [of_option mbind outcome_bind]. now rewrite He.
  - rewrite <- Er in G. unfold switch. rewrite Ho, (jump1_run op I32 f i m w Hj T G), U. cbn [width]. rewrite Hf.
    unfold goes, continue_, jump_if, Jmp_am32_ofs, y. rewrite Eo. destruct (Bool.eqb (v =? 0) zero).
    + rewrite bind_bind, (bind_run _ _ _ _ _ (Get_label_run m tab l x Hl Hx)). reflexivity.
    + unfold mbind, M_bind, Inc_pc, update_current, modify. rewrite Hp. reflexivity.
Qed.

Variable locs res : list VALTYPE.
Hypothesis locs_types : Forall (fun t => is_value_type t = true) locs.

(** ** Answers *)
Lemma stack_holds_length ss stk m : stack_holds locs ss stk m -> length ss = length stk.
Proof. revert stk. induction ss as [|s ss IH]; intros [|v stk] H; cbn [stack_holds] in H; try easy. cbn. f_equal. apply IH, H. Qed.
Lemma stack_holds_drop a : forall x b y m, stack_holds locs (a ++ b) (x ++ y) m -> length b = length y -> stack_holds locs b y m.
Proof.
  induction a as [|s a IH]; intros x b y m H Hl.
  - destruct x as [|v x]; [exact H|]. apply stack_holds_length in H. cbn [app length] in H. rewrite length_app in H. lia.
  - destruct x as [|v x]; [apply stack_holds_length in H; cbn [app length] in H; rewrite length_app in H; lia|]. eapply IH; [apply H | exact Hl].
Qed.
Lemma stack_holds_regs ss : forall stk m m', (forall t, regs t m' = regs t m) -> stack_holds locs ss stk m -> stack_holds locs ss stk m'.
Proof.
  intros stk m m' E. revert stk. induction ss as [|s ss IH]; intros [|v stk] H; cbn [stack_holds] in *; try easy.
  destruct H as [(t & H1 & H2 & H3) H]. split; [|auto]. exists t. unfold reg_holds in *. now rewrite E.
Qed.
Lemma locals_hold_regs vals m m' : (forall t, regs t m' = regs t m) -> locals_hold locs vals m -> locals_hold locs vals m'.
Proof. intros E H i t Hi. destruct (H i t Hi) as (v & H1 & H2). exists v. unfold reg_holds in *. now rewrite E. Qed.
Lemma follows_at_pc ss s x m : follows locs ss s m -> follows locs ss s (at_pc x m).
Proof. intros [H1 H2]. split; [eapply locals_hold_regs | eapply stack_holds_regs]; eauto using at_pc_regs. Qed.
Lemma follows_drop outer ss vals stk out m : outer `suffix_of` ss -> length out = length outer -> follows locs ss (vals, stk ++ out) m ->
  follows locs outer (vals, out) m.
Proof. intros [a ->] Hl [H1 H2]. split; [exact H1|]. cbn [snd] in *. eapply stack_holds_drop; [exact H2 | auto]. Qed.
Lemma follows_tail s ss vals v stk m : follows locs (s :: ss) (vals, v :: stk) m -> follows locs ss (vals, stk) m.
Proof. intros [H1 [_ H2]]. now split. Qed.

(** The results are in register 0. *)
Definition returned (rs : list Z) (m : UWASM_MACHINE) : Prop :=
  length rs = length res /\ forall t, res = [t] -> exists v, rs = [v] /\ reg_holds m t 0 v.

(** What the machine does, from [m], when the source gives [r]; [qe] is the end of the
  code, [ss] is what the stack stands for there; below the innermost block's operands
  there are those of [outer], with the values [out]; [env] are the labels of the blocks. *)
Definition answer (bound : nat) (qe : Z) (ss : list SLOT) (env : list nat) (tab : list Z) (outer : list SLOT) (out : list Z)
    (r : RESULT) (m : UWASM_MACHINE) : Prop :=
  match r with
  | R_next vals stk => exists n m', moved n m m' /\ _pc (_current m') = Some qe /\ follows locs ss (vals, stk ++ out) m'
  | R_jump d vals => exists n m' l x, (0 < n)%nat /\ moved n m m' /\ env !! d = Some l /\ tab !! l = Some x /\
      _pc (_current m') = Some x /\ follows locs outer (vals, out) m'
  | R_return rs => exists n m' q, moved n m m' /\ _pc (_current m') = Some q /\ expands m' q (inst_for Opcode.RETURN I32 []) /\ returned rs m'
  | R_fuel => exists n m', (bound <= n)%nat /\ steps n m m'
  | R_stuck => False
  end.

Lemma answer_moved n b qe ss env tab outer out r m m1 : moved n m m1 -> answer b qe ss env tab outer out r m1 -> answer (n + b) qe ss env tab outer out r m.
Proof.
  intros Hm. destruct r as [vals stk|d vals|rs| |]; cbn [answer].
  - intros (k & m' & H1 & H2 & H3). exists (n + k)%nat, m'. split; [eapply moved_app; eauto | auto].
  - intros (k & m' & l & x & H0 & H1 & H2). exists (n + k)%nat, m', l, x. split; [lia|]. split; [eapply moved_app; eauto | auto].
  - intros (k & m' & q & H1 & H2). exists (n + k)%nat, m', q. split; [eapply moved_app; eauto | auto].
  - intros (k & m' & H1 & H2). exists (n + k)%nat, m'. split; [lia | eapply steps_app; [apply Hm | exact H2]].
  - auto.
Qed.
Lemma answer_le b b' qe ss env tab outer out r m : (b <= b')%nat -> answer b' qe ss env tab outer out r m -> answer b qe ss env tab outer out r m.
Proof. intros H. destruct r; cbn [answer]; auto. intros (k & m' & H1 & H2). exists k, m'. split; [lia | exact H2]. Qed.
Lemma answer_after n b qe ss env tab outer out r m m1 : moved n m m1 -> answer b qe ss env tab outer out r m1 -> answer b qe ss env tab outer out r m.
Proof. intros H1 H2. eapply answer_le; [|eapply answer_moved; eauto]. lia. Qed.

(** The end of a block, or a branch to it, and what is there. *)
Lemma answer_leave b qe ss env tab outer out qb sb l ss0 stk0 r next m x : answer b qb sb (l :: env) tab ss0 (stk0 ++ out) r m -> tab !! l = Some x ->
  outer `suffix_of` ss0 -> ss0 `suffix_of` sb -> length out = length outer -> length (stk0 ++ out) = length ss0 ->
  (forall n m1 vals, moved n m m1 -> _pc (_current m1) = Some qb -> follows locs ss0 (vals, stk0 ++ out) m1 -> answer b qe ss env tab outer out (next vals) m1) ->
  (forall n m1 vals, moved n m m1 -> _pc (_current m1) = Some x -> follows locs ss0 (vals, stk0 ++ out) m1 -> r = R_jump 0 vals -> answer b qe ss env tab outer out (next vals) m1) ->
  answer b qe ss env tab outer out (leave r next) m.
Proof.
  intros H Hx Ho Hs Hl Hl0 Hnext Hjump. destruct r as [vals stk|[|d] vals|rs| |]; cbn [answer leave] in *.
  - destruct H as (n & m1 & H1 & H2 & H3). eapply answer_after; [exact H1|]. eapply Hnext; [exact H1 | exact H2|].
    eapply follows_drop; [exact Hs | exact Hl0 | exact H3].
  - destruct H as (n & m1 & l' & x' & H0 & H1 & [= <-] & H3 & H4 & H5). rewrite Hx in H3. injection H3 as <-.
    eapply answer_after; [exact H1|]. eapply Hjump; [exact H1 | exact H4 | exact H5 | reflexivity].
  - destruct H as (n & m1 & l' & x' & H0 & H1 & H2 & H3 & H4 & H5). exists n, m1, l', x'. repeat (split; [assumption|]).
    eapply follows_drop; [exact Ho | exact Hl | exact H5].
  - exact H.
  - exact H.
  - exact H.
Qed.

(** Code that fits keeps to the registers that an instruction can name. *)
Lemma check_code_small p : forall depth h ss ss', check_code locs res depth h p ss = Some ss' -> small locs ss -> small locs ss'.
Proof.
  induction p as [|cd k IH|b IHb k IHk|b IHb k IHk|b IHb k IHk|b1 IH1 b2 IH2 k IHk|L v k IH|L v k IH|k IH];
    intros depth h ss ss' H Hs; cbn [check_code] in H; check_inv H.
  - now injection H as <-.
  - eapply IH; [exact H|]. eapply check1_small; eauto.
  - eapply IHk; eauto.
  - eapply IHk; eauto.
  - apply pop_cond_inv in Ec as (s & -> & _). eapply IHk; [exact H|]. eapply small_tail; eauto.
  - apply pop_cond_inv in Ec as (s & -> & _). eapply IHk; [exact H|]. eapply small_tail; eauto.
  - eauto.
  - apply pop_cond_inv in Ec as (s & -> & _). eapply IH; [exact H|]. eapply small_tail; eauto.
  - eapply IH; [exact H|]. apply pop_results_inv in Ec as [(_ & ->)|(t & s & _ & -> & _)]; [exact Hs | eapply small_tail; eauto].
Qed.

(** ** Code in the machine *)
Record here (env : list nat) (tab : list Z) (lab : nat) (p : CODE) (ss : list SLOT) (vals stk : list Z) (outer : list SLOT) (out : list Z)
    (q : Z) (m : UWASM_MACHINE) : Prop := {
  hr_outer : outer `suffix_of` ss;
  hr_out : length out = length outer;
  hr_good : good m;
  hr_small : small locs ss;
  hr_regs : forall t, base locs t + peak_code locs res t p ss <= rnum (_types m) (_func_idx (_current m)) t;
  hr_follows : follows locs ss (vals, stk ++ out) m;
  hr_pc : _pc (_current m) = Some q;
  hr_labels : labels_are m tab;
  hr_tab : (length tab <= 512)%nat;
  hr_env : Forall (fun l => is_Some (tab !! l)) env;
  hr_items : items_at m tab q (items locs res env lab p ss);
  hr_safe : safe p = true;
}.
Definition simulated (p : CODE) : Prop := forall fuel h env tab lab ss ss' vals stk outer out q m,
  check_code locs res (length env) h p ss = Some ss' -> length outer = h -> here env tab lab p ss vals stk outer out q m ->
  answer fuel (q + its_len (items locs res env lab p ss)) ss' env tab outer out (eval (length res) fuel p vals stk) m.

Lemma stack_lengths env tab lab p ss vals stk outer out q m : here env tab lab p ss vals stk outer out q m ->
  length ss = (length stk + length outer)%nat /\ length (stk ++ out) = length ss.
Proof.
  intros H. pose proof (stack_holds_length _ _ _ (proj2 (hr_follows _ _ _ _ _ _ _ _ _ _ _ H))) as E. cbn [snd] in E.
  pose proof (hr_out _ _ _ _ _ _ _ _ _ _ _ H). rewrite length_app in *. lia.
Qed.
Lemma declared_here env tab lab p ss vals stk outer out q m : here env tab lab p ss vals stk outer out q m -> declared locs ss m.
Proof. intros H t. pose proof (hr_regs _ _ _ _ _ _ _ _ _ _ _ H t). pose proof (peak_code_ge locs res t p ss). lia. Qed.

(** Going on with other code, after some instructions. *)
Lemma here_next env tab lab p ss vals stk outer out q m n m1 env1 lab1 p1 ss1 vals1 stk1 outer1 out1 q1 :
  here env tab lab p ss vals stk outer out q m -> moved n m m1 -> _pc (_current m1) = Some q1 -> follows locs ss1 (vals1, stk1 ++ out1) m1 ->
  outer1 `suffix_of` ss1 -> length out1 = length outer1 -> small locs ss1 -> (forall t, peak_code locs res t p1 ss1 <= peak_code locs res t p ss) ->
  Forall (fun l => is_Some (tab !! l)) env1 -> items_at m tab q1 (items locs res env1 lab1 p1 ss1) -> safe p1 = true ->
  here env1 tab lab1 p1 ss1 vals1 stk1 outer1 out1 q1 m1.
Proof.
  intros [H1 H2 H3 H4 H5 H6 H7 H8 H9 H10 H11 H12] Hm Hp Hf Ho Hl Hs Hpk He Hi Hsf. split; try assumption.
  - eapply moved_good; eauto.
  - intros t. rewrite (mv_types _ _ _ Hm), (mv_func _ _ _ Hm). specialize (H5 t). specialize (Hpk t). lia.
  - eapply labels_moved; eauto.
  - eapply items_at_moved; eauto.
Qed.

Lemma simulated_end : simulated C_End.
Proof.
  intros fuel h env tab lab ss ss' vals stk outer out q m Hck _ Hh. cbn [check_code items eval answer] in *. injection Hck as <-.
  exists 0%nat, m. split; [apply moved_0|]. unfold its_len. cbn [item_insts length]. rewrite Z.add_0_r. split; [apply Hh | apply Hh].
Qed.

Lemma simulated_simple cd k : simulated k -> simulated (C_Simple cd k).
Proof.
  intros IH fuel h env tab lab ss ss' vals stk outer out q m Hck Hlen Hh. pose proof (stack_lengths _ _ _ _ _ _ _ _ _ _ _ Hh) as [Hl _].
  pose proof Hh as [H1 H2 H3 H4 H5 H6 H7 H8 H9 H10 H11 H12]. cbn [check_code eval items peak_code safe] in *.
  destruct (source_of cd) as [i|] eqn:Es; [|discriminate]. cbn [mbind option_bind] in *. destruct (Nat.leb_spec (h + takes i) (length ss)); [|discriminate].
  destruct (check1 locs i ss) as [ss1|] eqn:E1; [|discriminate]. cbn [mbind option_bind] in *.
  destruct (check1_run1 locs i ss ss1 (vals, stk ++ out) m E1 H6) as [s1 Hr]. pose proof Hr as Hr'. rewrite run1_app in Hr by lia.
  destruct (run1 i (vals, stk)) as [[v1 k1]|]; [|discriminate]. cbn [mbind option_bind] in Hr. injection Hr as <-.
  apply items_at_app in H11 as [X1 X2]. rewrite its_len_insts in X2.
  assert (declared locs ss1 m) as Hd1 by (intros t; specialize (H5 t); pose proof (peak_code_ge locs res t k ss1); lia).
  destruct (emit1_simulates locs locs_types i ss ss1 (vals, stk ++ out) (v1, k1 ++ out) m q H3 H4 (declared_here _ _ _ _ _ _ _ _ _ _ _ Hh) Hd1 E1 Hr' H6 H7 (items_at_code _ _ _ _ X1))
    as (m1 & R & Hf). pose proof (ran_moved _ _ _ R) as Hm.
  eapply answer_after; [exact Hm|]. rewrite its_len_app, its_len_insts, Z.add_assoc. apply (IH fuel h); [exact Hck | exact Hlen|].
  eapply here_next; [exact Hh | exact Hm | apply (rn_pc _ _ _ R _ H7) | exact Hf | | exact H2 | | | exact H10 | exact X2 | exact H12].
  - eapply check1_suffix; [exact E1 | exact H1 | lia].
  - eapply check1_small; eauto.
  - intros t. cbn [peak_code]. rewrite Es. cbn [mbind option_bind]. rewrite E1. lia.
Qed.

(** A body that is entered, and what follows it. *)
Lemma body_sim b fuel env tab lab l ss sb vals stk outer out q m qe ss' next : simulated b ->
  check_code locs res (S (length env)) (length ss) b ss = Some sb -> here (l :: env) tab lab b ss vals [] ss (stk ++ out) q m ->
  outer `suffix_of` ss -> length out = length outer -> tab !! l = Some (q + its_len (items locs res (l :: env) lab b ss)) ->
  (forall n m1 vals, moved n m m1 -> _pc (_current m1) = Some (q + its_len (items locs res (l :: env) lab b ss)) ->
    follows locs ss (vals, stk ++ out) m1 -> answer fuel qe ss' env tab outer out (next vals) m1) ->
  answer fuel qe ss' env tab outer out (leave (eval (length res) fuel b vals []) next) m.
Proof.
  intros IH Hck Hb Ho Hl Ht Hk. pose proof (IH fuel (length ss) (l :: env) tab lab ss sb vals [] ss (stk ++ out) q m Hck eq_refl Hb) as Ha.
  eapply (answer_leave _ _ _ _ _ _ _ _ sb l ss stk); try eassumption.
  - exact (check_code_suffix locs res b ss _ _ _ _ Hck (le_n _) (reflexivity _)).
  - apply Hb.
  - intros. eapply Hk; eauto.
Qed.

Lemma simulated_block b k : simulated b -> simulated k -> simulated (C_Block b k).
Proof.
  intros IHb IHk fuel h env tab lab ss ss' vals stk outer out q m Hck Hlen Hh. pose proof (stack_lengths _ _ _ _ _ _ _ _ _ _ _ Hh) as [_ Hl].
  pose proof Hh as [H1 H2 H3 H4 H5 H6 H7 H8 H9 H10 H11 H12]. cbn [check_code eval items safe] in *. apply andb_true_iff in H12 as [Sb Sk].
  destruct (check_code locs res (S (length env)) _ b ss) as [sb|] eqn:Eb; [|discriminate]. cbn [mbind option_bind] in Hck.
  apply items_at_app in H11 as [X1 [Xl X2]]. rewrite its_len_app, its_len_label, Z.add_assoc.
  eapply body_sim; [exact IHb | exact Eb | | exact H1 | exact H2 | exact Xl|].
  - eapply (here_next _ _ _ _ _ _ _ _ _ _ _ 0 m); [exact Hh | apply moved_0 | exact H7 | exact H6 | reflexivity | exact Hl | exact H4 | | | exact X1 | exact Sb].
    + intros t. cbn [peak_code]. lia.
    + constructor; [eauto | exact H10].
  - intros n m1 v1 Hm Hp Hf. apply (IHk fuel h); [exact Hck | exact Hlen|].
    eapply here_next; [exact Hh | exact Hm | exact Hp | exact Hf | exact H1 | exact H2 | exact H4 | | exact H10 | exact X2 | exact Sk].
    intros t. cbn [peak_code]. lia.
Qed.

(** The loop goes round [f] times at most. *)
Lemma iterate_sim b fuel env tab lab l ss sb stk outer out q qe m0 ss' next : simulated b ->
  check_code locs res (S (length env)) (length ss) b ss = Some sb ->
  (forall n m vals, moved n m0 m -> _pc (_current m) = Some q -> follows locs ss (vals, stk ++ out) m ->
    here (l :: env) tab lab b ss vals [] ss (stk ++ out) q m) ->
  outer `suffix_of` ss -> length out = length outer -> length (stk ++ out) = length ss -> tab !! l = Some q ->
  (forall n m1 vals, moved n m0 m1 -> _pc (_current m1) = Some (q + its_len (items locs res (l :: env) lab b ss)) ->
    follows locs ss (vals, stk ++ out) m1 -> answer fuel qe ss' env tab outer out (next vals) m1) ->
  forall f n m vals, (f <= fuel)%nat -> moved n m0 m -> _pc (_current m) = Some q -> follows locs ss (vals, stk ++ out) m ->
  answer f qe ss' env tab outer out (leave (iterate f (fun vals => eval (length res) fuel b vals []) vals) next) m.
Proof.
  intros IH Hck Hb Ho Hl Hl0 Ht Hk. induction f as [|f IHf]; intros n m vals Hf Hm Hp Hfo.
  - cbn [iterate leave answer]. exists 0%nat, m. split; [lia | apply steps_0].
  - pose proof (IH fuel (length ss) (l :: env) tab lab ss sb vals [] ss (stk ++ out) q m Hck eq_refl (Hb n m vals Hm Hp Hfo)) as Ha.
    cbn [iterate]. destruct (eval (length res) fuel b vals []) as [v1 s1|[|d] v1|rs| |] eqn:E; cbn [leave answer] in *.
    + destruct Ha as (k & m1 & A1 & A2 & A3). eapply answer_after; [exact A1|]. apply (answer_le _ fuel); [lia|].
      eapply Hk; [eapply moved_app; eauto | exact A2|]. eapply follows_drop; [|exact Hl0 | exact A3].
      exact (check_code_suffix locs res b ss _ _ _ _ Hck (le_n _) (reflexivity _)).
    + destruct Ha as (k & m1 & l' & x' & A0 & A1 & [= <-] & A3 & A4 & A5). rewrite Ht in A3. injection A3 as <-.
      apply (answer_le _ (k + f)); [lia|]. eapply answer_moved; [exact A1|]. eapply IHf; [lia | eapply moved_app; eauto | exact A4 | exact A5].
    + destruct Ha as (k & m1 & l' & x' & A0 & A1 & A2 & A3 & A4 & A5). exists k, m1, l', x'. repeat (split; [assumption|]).
      eapply follows_drop; [exact Ho | exact Hl | exact A5].
    + exact Ha.
    + destruct Ha as (k & m1 & A1 & A2). exists k, m1. split; [lia | exact A2].
    + exact Ha.
Qed.

Lemma simulated_loop b k : simulated b -> simulated k -> simulated (C_Loop b k).
Proof.
  intros IHb IHk fuel h env tab lab ss ss' vals stk outer out q m Hck Hlen Hh. pose proof (stack_lengths _ _ _ _ _ _ _ _ _ _ _ Hh) as [_ Hl].
  pose proof Hh as [H1 H2 H3 H4 H5 H6 H7 H8 H9 H10 H11 H12]. cbn [check_code eval items safe] in *. apply andb_true_iff in H12 as [Sb Sk].
  destruct (check_code locs res (S (length env)) _ b ss) as [sb|] eqn:Eb; [|discriminate]. cbn [mbind option_bind] in Hck.
  destruct H11 as [Xt H11]. apply items_at_app in H11 as [X1 [Xl X2]]. rewrite its_len_label, its_len_app, its_len_label, Z.add_assoc.
  eapply iterate_sim; [exact IHb | exact Eb | | exact H1 | exact H2 | exact Hl | exact Xt | | reflexivity | apply moved_0 | exact H7 | exact H6].
  - intros n m1 v1 Hm Hp Hf.
    eapply here_next; [exact Hh | exact Hm | exact Hp | exact Hf | reflexivity | exact Hl | exact H4 | | | exact X1 | exact Sb].
    + intros t. cbn [peak_code]. lia.
    + constructor; [eauto | exact H10].
  - intros n m1 v1 Hm Hp Hf. apply (IHk fuel h); [exact Hck | exact Hlen|].
    eapply here_next; [exact Hh | exact Hm | exact Hp | exact Hf | exact H1 | exact H2 | exact H4 | | exact H10 | exact X2 | exact Sk].
    intros t. cbn [peak_code]. lia.
Qed.

(** The condition is popped, and the jump taken or not. *)
Lemma pop_cond_step (zero : bool) h env tab lab p ss ss1 vals stk outer out q m l x : here env tab lab p ss vals stk outer out q m ->
  pop_cond locs h ss = Some ss1 -> length outer = h -> tab !! l = Some x ->
  expands m q (cond_inst locs (if zero then Opcode.JEZ else Opcode.JNZ) ss l) ->
  exists v stk1, stk = v :: stk1 /\ ss1 = tail ss /\ outer `suffix_of` ss1 /\ small locs ss1 /\ length (stk1 ++ out) = length ss1 /\
    let m1 := at_pc (if Bool.eqb (v =? 0) zero then x else q + 1) m in moved 1 m m1 /\ follows locs ss1 (vals, stk1 ++ out) m1.
Proof.
  intros Hh Hp Hlen Hx He. pose proof (stack_lengths _ _ _ _ _ _ _ _ _ _ _ Hh) as [Hl Hl2]. apply pop_cond_inv in Hp as (s & -> & Hty & Hle).
  pose proof Hh as [H1 H2 H3 H4 H5 H6 H7 H8 H9 H10 H11 H12]. destruct stk as [|v stk1]; [cbn [length] in Hl; lia|]. exists v, stk1. split; [reflexivity|]. split; [reflexivity|].
  split; [eapply suffix_tail; [exact H1 | lia]|]. split; [eapply small_tail; eauto|]. split; [cbn [app length] in Hl2; lia|].
  pose proof H6 as [_ [(t & Ht & _ & Hr) _]]. rewrite Hty in Ht. injection Ht as <-. pose proof (slot_small locs s ss1 I32 H4 Hty) as Hs.
  intros m1. split.
  - exact (cond_step zero _ m q l x tab v H3 H7 Hs He H8 Hx H9 Hr).
  - apply follows_at_pc. eapply follows_tail. exact H6.
Qed.

Lemma simulated_if b k : simulated b -> simulated k -> simulated (C_If b k).
Proof.
  intros IHb IHk fuel h env tab lab ss ss' vals stk outer out q m Hck Hlen Hh. pose proof Hh as [H1 H2 H3 H4 H5 H6 H7 H8 H9 H10 H11 H12].
  cbn [check_code eval items safe] in *. apply andb_true_iff in H12 as [Sb Sk].
  destruct (pop_cond locs h ss) as [ss1|] eqn:Ep; [|discriminate]. cbn [mbind option_bind] in Hck.
  destruct (check_code locs res (S (length env)) _ b ss1) as [sb|] eqn:Eb; [|discriminate]. cbn [mbind option_bind] in Hck.
  destruct H11 as [Xc H11]. apply items_at_app in H11 as [X1 [Xl X2]].
  destruct (pop_cond_step true h env tab lab _ ss ss1 vals stk outer out q m lab _ Hh Ep Hlen Xl Xc) as (v & stk1 & -> & -> & Ho & Hs & Hl & Hm & Hf).
  rewrite its_len_inst, its_len_app, its_len_label, !Z.add_assoc. eapply answer_after; [exact Hm|].
  assert (forall n m1 v1, moved n m m1 -> _pc (_current m1) = Some (q + 1 + its_len (items locs res (lab :: env) (S lab) b (tail ss))) -> follows locs (tail ss) (v1, stk1 ++ out) m1 ->
    answer fuel (q + 1 + its_len (items locs res (lab :: env) (S lab) b (tail ss)) + its_len (items locs res env (S lab + labels b) k (tail ss))) ss' env tab outer out (eval (length res) fuel k v1 stk1) m1) as Hk.
  { intros n m1 v1 Hm1 Hp Hf1. apply (IHk fuel h); [exact Hck | exact Hlen|].
    eapply here_next; [exact Hh | exact Hm1 | exact Hp | exact Hf1 | exact Ho | exact H2 | exact Hs | | exact H10 | exact X2 | exact Sk].
    intros t. cbn [peak_code]. lia. }
  destruct (v =? 0) eqn:Ev; cbn [Bool.eqb] in *.
  - apply (Hk 1%nat); [exact Hm | reflexivity | exact Hf].
  - eapply body_sim; [exact IHb | exact Eb | | exact Ho | exact H2 | exact Xl|].
    + eapply here_next; [exact Hh | exact Hm | reflexivity | exact Hf | reflexivity | exact Hl | exact Hs | | | exact X1 | exact Sb].
      * intros t. cbn [peak_code]. lia.
      * constructor; [eauto | exact H10].
    + intros n m1 v1 Hm1 Hp Hf1. apply (Hk (1 + n)%nat); [eapply moved_app; eauto | exact Hp | exact Hf1].
Qed.

Lemma simulated_br L v k : simulated (C_Br L v k).
Proof.
  intros fuel h env tab lab ss ss' vals stk outer out q m Hck Hlen Hh. pose proof Hh as [H1 H2 H3 H4 H5 H6 H7 H8 H9 H10 H11 H12].
  cbn [check_code eval items] in *. destruct (leb_u L v && _) eqn:E; [|discriminate]. apply andb_true_iff in E as [_ E]. apply Nat.ltb_lt in E.
  destruct (lookup_lt_is_Some_2 _ _ E) as [l Hl]. destruct (Forall_lookup_1 _ _ _ _ H10 Hl) as [x Hx].
  assert (target env v = l) as Et by (unfold target; now apply nth_lookup_Some). rewrite Et in H11. destruct H11 as [Xc _].
  exists 1%nat, (at_pc x m), l, x. split; [lia|]. split; [eapply jmp_step; eauto|]. split; [exact Hl|]. split; [exact Hx|]. split; [reflexivity|].
  apply follows_at_pc. eapply follows_drop; eauto.
Qed.

Lemma simulated_br_if L v k : simulated k -> simulated (C_BrIf L v k).
Proof.
  intros IHk fuel h env tab lab ss ss' vals stk outer out q m Hck Hlen Hh. pose proof Hh as [H1 H2 H3 H4 H5 H6 H7 H8 H9 H10 H11 H12].
  cbn [check_code eval items safe] in *. destruct (pop_cond locs h ss) as [ss1|] eqn:Ep; [|discriminate]. cbn [mbind option_bind] in Hck.
  destruct (leb_u L v && _) eqn:E; [|discriminate]. apply andb_true_iff in E as [_ E]. apply Nat.ltb_lt in E.
  destruct (lookup_lt_is_Some_2 _ _ E) as [l Hl]. destruct (Forall_lookup_1 _ _ _ _ H10 Hl) as [x Hx].
  assert (target env v = l) as Et by (unfold target; now apply nth_lookup_Some). rewrite Et in H11 |- *. destruct H11 as [Xc X2].
  destruct (pop_cond_step false h env tab lab _ ss ss1 vals stk outer out q m l x Hh Ep Hlen Hx Xc) as (c & stk1 & -> & -> & Ho & Hs & Hl2 & Hm & Hf).
  rewrite its_len_inst, Z.add_assoc. destruct (c =? 0) eqn:Ec; cbn [Bool.eqb] in *.
  - eapply answer_after; [exact Hm|]. apply (IHk fuel h); [exact Hck | exact Hlen|].
    eapply here_next; [exact Hh | exact Hm | reflexivity | exact Hf | exact Ho | exact H2 | exact Hs | | exact H10 | exact X2 | exact H12].
    intros t. cbn [peak_code]. lia.
  - exists 1%nat, (at_pc x m), l, x. split; [lia|]. split; [exact Hm|]. split; [exact Hl|]. split; [exact Hx|]. split; [reflexivity|].
    eapply follows_drop; eauto.
Qed.

Lemma simulated_if_else b1 b2 k : simulated b1 -> simulated b2 -> simulated k -> simulated (C_IfElse b1 b2 k).
Proof.
  intros IH1 IH2 IHk fuel h env tab lab ss ss' vals stk outer out q m Hck Hlen Hh. pose proof Hh as [H1 H2 H3 H4 H5 H6 H7 H8 H9 H10 H11 H12].
  cbn [check_code eval items safe] in *. rewrite !andb_true_iff, negb_true_iff in H12. destruct H12 as [[[Hj S1] S2] Sk].
  destruct (pop_cond locs h ss) as [ss1|] eqn:Ep; [|discriminate]. cbn [mbind option_bind] in Hck.
  destruct (check_code locs res (S (length env)) _ b1 ss1) as [sb|] eqn:E1; [|discriminate]. cbn [mbind option_bind] in Hck. destruct (decide (sb = ss1)) as [->|]; [|discriminate].
  destruct (check_code locs res (S (length env)) _ b2 ss1) as [sb2|] eqn:E2; [|discriminate]. cbn [mbind option_bind] in Hck.
  set (other := (S lab + labels b1)%nat) in *. destruct H11 as [Xc H11]. apply items_at_app in H11 as [X1 [Xj [Xo H11]]]. apply items_at_app in H11 as [X2 [Xe [_ Xk]]].
  set (A := items locs res (other :: env) (S lab) b1 (tail ss)) in *. set (B := items locs res (S other :: env) (S (S other)) b2 (tail ss)) in *.
  destruct (pop_cond_step true h env tab lab _ ss ss1 vals stk outer out q m other _ Hh Ep Hlen Xo Xc) as (v & stk1 & -> & -> & Ho & Hs & Hl & Hm & Hf).
  rewrite its_len_inst, its_len_app, its_len_inst, its_len_label, its_len_app, !its_len_label, !Z.add_assoc. eapply answer_after; [exact Hm|].
  assert (forall n m1 v1, moved n m m1 -> _pc (_current m1) = Some (q + 1 + its_len A + 1 + its_len B) -> follows locs (tail ss) (v1, stk1 ++ out) m1 ->
    answer fuel (q + 1 + its_len A + 1 + its_len B + its_len (items locs res env (S (S other) + labels b2) k (tail ss))) ss' env tab outer out (eval (length res) fuel k v1 stk1) m1) as Hk.
  { intros n m1 v1 Hm1 Hp Hf1. apply (IHk fuel h); [exact Hck | exact Hlen|].
    eapply here_next; [exact Hh | exact Hm1 | exact Hp | exact Hf1 | exact Ho | exact H2 | exact Hs | | exact H10 | exact Xk | exact Sk].
    intros t. cbn [peak_code]. lia. }
  destruct (v =? 0) eqn:Ev; cbn [Bool.eqb] in *.
  - eapply body_sim; [exact IH2 | exact E2 | | exact Ho | exact H2 | exact Xe|].
    + eapply here_next; [exact Hh | exact Hm | reflexivity | exact Hf | reflexivity | exact Hl | exact Hs | | | exact X2 | exact S2].
      * intros t. cbn [peak_code]. lia.
      * constructor; [eauto | exact H10].
    + intros n m1 v1 Hm1 Hp Hf1. apply (Hk (1 + n)%nat); [eapply moved_app; eauto | exact Hp | exact Hf1].
  - set (m1 := at_pc (q + 1) m) in *.
    assert (here (other :: env) tab (S lab) b1 (tail ss) vals [] (tail ss) (stk1 ++ out) (q + 1) m1) as Hb.
    { eapply here_next; [exact Hh | exact Hm | reflexivity | exact Hf | reflexivity | exact Hl | exact Hs | | | exact X1 | exact S1].
      - intros t. cbn [peak_code]. lia.
      - constructor; [eauto | exact H10]. }
    pose proof (IH1 fuel (length (tail ss)) (other :: env) tab (S lab) (tail ss) (tail ss) vals [] (tail ss) (stk1 ++ out) (q + 1) m1 E1 eq_refl Hb) as Ha.
    eapply (answer_leave _ _ _ _ _ _ _ _ (tail ss) other (tail ss) stk1); [exact Ha | exact Xo | exact Ho | reflexivity | exact H2 | exact Hl | |].
    + intros n m2 v1 Hm2 Hp Hf2. pose proof (moved_app _ _ _ _ _ Hm Hm2) as Hm'.
      assert (moved 1 m2 (at_pc (q + 1 + its_len A + 1 + its_len B) m2)) as Hjmp.
      { eapply (jmp_step _ (q + 1 + its_len A)); [exact Hp | | eapply labels_moved; eauto | exact Xe | exact H9]. unfold expands. rewrite (mv_codes _ _ _ Hm'). exact Xj. }
      eapply answer_after; [exact Hjmp|]. apply (Hk (1 + n + 1)%nat); [eapply moved_app; eauto | reflexivity | now apply follows_at_pc].
    + intros n m2 v1 _ _ _ E. apply eval_jumps in E. congruence.
Qed.

Lemma simulated_return k : simulated (C_Return k).
Proof.
  intros fuel h env tab lab ss ss' vals stk outer out q m Hck Hlen Hh. pose proof (stack_lengths _ _ _ _ _ _ _ _ _ _ _ Hh) as [Hl _].
  pose proof (declared_here _ _ _ _ _ _ _ _ _ _ _ Hh) as Hd. pose proof Hh as [H1 H2 H3 H4 H5 H6 H7 H8 H9 H10 H11 H12].
  cbn [check_code eval items] in *. destruct (pop_results locs res h ss) as [ss1|] eqn:Ep; [|discriminate]. clear Hck.
  apply items_at_app in H11 as [X%items_at_code _]. apply code_at_app in X as [X1 X2]. apply code_at_one in X2.
  apply pop_results_inv in Ep as [(E & ->)|(t & s & E & -> & Hty & Hle)].
  - rewrite E in *. cbn [length Nat.leb take answer results_code] in *. exists 0%nat, m, q. split; [apply moved_0|]. split; [exact H7|].
    split; [rewrite Z.add_0_r in X2; exact X2|]. split; [now rewrite E|]. intros t' Ht'. rewrite E in Ht'. discriminate.
  - destruct stk as [|v stk1]; [cbn [length] in Hl; lia|]. rewrite E in *. cbn [length Nat.leb take results_code] in *.
    pose proof H6 as [_ [(t' & Ht & Hv & Hr) _]]. rewrite Hty in Ht. injection Ht as <-. pose proof (slot_small locs s ss1 t H4 Hty) as Hs.
    assert (declares m t 0) as Hd0.
    { unfold declares. specialize (Hd t). pose proof (base_pos locs t). pose proof (temps_nonneg t (s :: ss1)). lia. }
    destruct (mov_runs m q t 0 _ v H3 Hv Hd0 ltac:(lia) Hs H7 (code_at_one _ _ _ X1) Hr) as (m' & w & Hst & Hw & Hval). pose proof (ran_1 _ _ _ _ _ Hst Hw) as R.
    cbn [answer]. exists 1%nat, m', (q + 1). split; [exact (ran_moved _ _ _ R)|]. split; [exact (rn_pc _ _ _ R _ H7)|]. split.
    + unfold expands. rewrite (rn_codes _ _ _ R). exact X2.
    + split; [now rewrite E|]. intros u Hu. rewrite E in Hu. injection Hu as <-. exists v. split; [reflexivity|]. rewrite <- Hval. eapply holds_written, Hw.
Qed.

Lemma code_simulated p : simulated p.
Proof.
  induction p; auto using simulated_end, simulated_simple, simulated_block, simulated_loop, simulated_if, simulated_if_else, simulated_br, simulated_br_if, simulated_return.
Qed.

End Loops.

(** ** Functions: parameters, then locals that are zero *)
Definition run_function (nres fuel : nat) (p : CODE) (args : list Z) (nlocals : nat) : RESULT :=
  match eval nres fuel p (args ++ repeat 0 nlocals) [] with R_next _ stk => R_return stk | r => r end.
(** The operands that are left have the types of the results. *)
Definition ends_with (locs res : list VALTYPE) (ss : list SLOT) : Prop := map (slot_ty locs) ss = map Some res /\ (length ss <= 1)%nat.
