(* ===== verification/Loaded.v ===== *)
(** * A translated function, finished and loaded

  The items of a function as the loader sees them: the instructions, and for every label
  the instruction that it stands before.  What [Finish] makes of a translated function is
  the entry of this body, and the loader's expansion of the entry puts the items in place. *)

From S2P Require Import Prelude CInt BitField CFloat Wasm Isa Inst Expand Ubh Memory UModule StrTab TypeEncoder Encoder Machine Handlers Exec Frames Windows Safety Loading Sample Reachable Typed Ops Code CodeSec Labels Writing Leb128 Winst Splitting LocalTable Graph Converter Convert Alloc Straight Creation Building Translation Running Compiled Structured Blocks Jumping Branching Emission Flow Loops.
From Stdlib Require Import ZArith Lia.
Local Open Scope Z_scope.

(** ** Labels as numbers of instructions *)
Fixpoint label_pos (i : nat) (its : list ITEM) : option nat :=
  match its with
  | [] => None
  | I_inst _ :: its => S <$> label_pos i its
  | I_label j :: its => if decide (i = j) then Some 0%nat else label_pos i its
  end.
(** A function with the labels [0 .. n - 1]. *)
Definition its_labs (n : nat) (its : list ITEM) : list nat := map (fun i => default 0%nat (label_pos i its)) (seq 0 n).
Definition body_of (n : nat) (its : list ITEM) : BODY := mkBODY (item_insts its) (its_labs n its).

Lemma label_pos_None i its : i ∉ item_labels its -> label_pos i its = None.
Proof.
  induction its as [|[x|j] its IH]; intros H; cbn [label_pos item_labels] in *; [reflexivity | now rewrite IH|].
  rewrite not_elem_of_cons in H. rewrite decide_False by tauto. apply IH. tauto.
Qed.
Lemma label_pos_Some i its : i ∈ item_labels its -> exists k, label_pos i its = Some k /\ (k <= length (item_insts its))%nat.
Proof.
  induction its as [|[x|j] its IH]; intros H; cbn [label_pos item_labels item_insts length] in *.
  - now apply not_elem_of_nil in H.
  - destruct (IH H) as (k & -> & Hk). exists (S k). split; [reflexivity | lia].
  - destruct (decide (i = j)) as [->|Hne]; [exists 0%nat; split; [reflexivity | lia]|].
    apply elem_of_cons in H as [H|H]; [contradiction | now apply IH].
Qed.
Lemma label_word_pos i its w : label_word i its = Some w -> exists k, label_pos i its = Some k /\ w = word_off (item_insts its) k.
Proof.
  revert w. induction its as [|[x|j] its IH]; intros w H; cbn [label_word label_pos item_insts] in *.
  - discriminate.
  - destruct (label_word i its) as [w'|]; [|discriminate]. injection H as <-. destruct (IH w' eq_refl) as (k & -> & ->).
    exists (S k). split; [reflexivity|]. unfold word_off. cbn [take]. now rewrite code_of_cons, length_app.
  - destruct (decide (i = j)); [injection H as <-; exists 0%nat; now split | auto].
Qed.
Lemma its_labs_lookup n its i k : (i < n)%nat -> label_pos i its = Some k -> its_labs n its !! i = Some k.
Proof. intros Hi Hk. unfold its_labs. rewrite list_lookup_fmap, lookup_seq_lt by exact Hi. cbn [fmap option_fmap option_map Nat.add]. now rewrite Hk. Qed.
Lemma length_its_labs n its : length (its_labs n its) = n.
Proof. unfold its_labs. now rewrite length_map, length_seq. Qed.

(** ** The instructions are encodable *)
Section Encodable.
Context {cb : ConvBuild}.
Variable locs res : list VALTYPE.
Hypothesis locs_types : Forall (fun t => is_value_type t = true) locs.
Abbreviation ok_insts := (Forall (fun x => inst_ok x = true)).

Lemma halves_range v : in_u 32 (Z.land (UINT64 v) 0xFFFFFFFF) /\ in_u 32 (Z.shiftr (UINT64 v) 32).
Proof.
  pose proof (wrapu_range 64 v ltac:(lia)) as R. fold (UINT64 v) in R. change 0xFFFFFFFF with (Z.ones 32).
  rewrite Z.land_ones, Z.shiftr_div_pow2 by lia. unfold in_u in *. split; [apply Z.mod_pos_bound; lia|].
  split; [apply Z.div_pos; lia | apply Z.div_lt_upper_bound; lia].
Qed.
Lemma mov_ok t a b : is_value_type t = true -> 0 <= a < 126 -> 0 <= b < 126 -> inst_ok (inst_for Opcode.MOV t [a; b]) = true.
Proof. intros Ht Ha Hb. eapply inst_for_ok; [reflexivity | now apply value_type_known | now apply operands_fit_rr]. Qed.

Lemma emit1_ok i ss ss' : check1 locs i ss = Some ss' -> small locs ss -> small locs ss' -> ok_insts (emit1 locs i ss).
Proof.
  intros H Hs Hs'. destruct i as [| |t v|i|i|i|o]; cbn [check1 emit1] in *; try constructor.
  - destruct (halves_range v) as [Lo Hi].
    assert (forall u, push_temp locs u ss = Some ss' -> 0 <= slot_reg locs (STemp u) ss < 126) as Hr
      by (intros u Hu; apply push_temp_inv in Hu as ->; exact (slot_small locs (STemp u) ss u Hs' eq_refl)).
    destruct t; try discriminate; specialize (Hr _ H); repeat constructor; (eapply inst_for_ok; [reflexivity | discriminate | now apply operands_fit_imm]).
  - destruct ss as [|s ss]; [constructor|]. destruct (locs !! i) as [t|] eqn:E; [|discriminate]. cbn [mbind option_bind] in H.
    destruct (has_type locs s t && _) eqn:Eh; [|discriminate]. apply andb_true_iff in Eh as [Eh%has_type_inv _].
    pose proof (Forall_lookup_1 _ _ _ _ locs_types E) as Ht. constructor; [|constructor].
    apply mov_ok; [exact Ht | eapply local_small; eauto | eapply slot_small; eauto].
  - destruct ss as [|s ss]; [constructor|]. destruct (locs !! i) as [t|] eqn:E; [|discriminate]. cbn [mbind option_bind] in H.
    destruct (has_type locs s t && _) eqn:Eh; [|discriminate]. apply andb_true_iff in Eh as [Eh%has_type_inv _].
    pose proof (Forall_lookup_1 _ _ _ _ locs_types E) as Ht. constructor; [|constructor].
    apply mov_ok; [exact Ht | eapply local_small; eauto | eapply slot_small; eauto].
  - destruct ss as [|s2 [|s1 ss]]; try constructor. destruct (int_op o) as [[t f]|] eqn:Eo; [|discriminate]. cbn [mbind option_bind] in H.
    destruct (has_type locs s1 t && has_type locs s2 t) eqn:Eh; [|discriminate]. apply andb_true_iff in Eh as [E1%has_type_inv E2%has_type_inv].
    destruct (int_op_opcode o t f Eo) as (_ & Ht & Ham). apply push_temp_inv in H as ->.
    pose proof (slot_small locs _ _ _ Hs' eq_refl). pose proof (slot_small locs _ _ _ Hs E2). pose proof (slot_small locs _ _ _ (small_tail _ _ _ Hs) E1).
    constructor; [|constructor]. destruct Ham as [Ham|Ham]; (eapply inst_for_ok; [exact Ham | now apply value_type_known | apply operands_fit_3; auto]).
Qed.

Lemma target_small env v depth L : leb_u L v && (Z.to_nat v <? depth)%nat = true -> depth = length env -> Forall (fun l => (l < 512)%nat) env -> (target env v < 512)%nat.
Proof.
  intros [_ Hd%Nat.ltb_lt]%andb_true_iff -> Hf. destruct (lookup_lt_is_Some_2 _ _ Hd) as [l Hl]. unfold target.
  rewrite (nth_lookup_Some _ _ _ _ Hl). exact (Forall_lookup_1 _ _ _ _ Hf Hl).
Qed.
Lemma cond_inst_ok opc s ss l : opc = Opcode.JEZ \/ opc = Opcode.JNZ -> slot_ty locs s = Some I32 -> small locs (s :: ss) -> (l < 512)%nat ->
  inst_ok (cond_inst locs opc (s :: ss) l) = true.
Proof. intros Ho Ht Hs Hl. apply cond_ok; [exact Ho | exact (slot_small locs s ss I32 Hs Ht) | exact Hl]. Qed.
Lemma ret_ok : inst_ok (inst_for Opcode.RETURN I32 []) = true.
Proof. reflexivity. Qed.

(** Operands have types of values. *)
Definition slots_typed (ss : list SLOT) : Prop := Forall (fun s => exists t, slot_ty locs s = Some t /\ is_value_type t = true) ss.
Lemma push_typed t ss ss' : push_temp locs t ss = Some ss' -> slots_typed ss -> slots_typed ss'.
Proof. intros (-> & Ht & _)%pushes H. constructor; [exists t; auto | exact H]. Qed.
Lemma check1_typed i ss ss' : check1 locs i ss = Some ss' -> slots_typed ss -> slots_typed ss'.
Proof.
  intros H Hs. assert (forall n, slots_typed (drop n ss)) as Hd by (intros n; now apply Forall_drop).
  destruct i as [| |t v|i|i|i|o]; cbn [check1] in H.
  - now injection H as <-.
  - destruct ss as [|s ss]; [discriminate|]. injection H as <-. exact (Hd 1%nat).
  - destruct t; try discriminate; eapply push_typed; eauto.
  - destruct (bool_decide _) eqn:E; [|discriminate]. apply bool_decide_eq_true_1 in E as [t Ht]. injection H as <-.
    constructor; [|exact Hs]. exists t. split; [exact Ht | exact (Forall_lookup_1 _ _ _ _ locs_types Ht)].
  - destruct ss as [|s ss]; [discriminate|]. destruct (locs !! i); [|discriminate]. cbn [mbind option_bind] in H. destruct (_ && _); [|discriminate].
    injection H as <-. exact (Hd 1%nat).
  - destruct ss as [|s ss]; [discriminate|]. destruct (locs !! i); [|discriminate]. cbn [mbind option_bind] in H. destruct (_ && _); [|discriminate].
    now injection H as <-.
  - destruct ss as [|s2 [|s1 ss]]; try discriminate. destruct (int_op o) as [[t f]|]; [|discriminate]. cbn [mbind option_bind] in H.
    destruct (_ && _); [|discriminate]. eapply push_typed; [exact H | exact (Hd 2%nat)].
Qed.
Lemma typed_tail s ss : slots_typed (s :: ss) -> slots_typed ss.
Proof. now inversion 1. Qed.

Lemma items_ok p : forall h env lab ss ss', check_code locs res (length env) h p ss = Some ss' -> small locs ss -> slots_typed ss ->
  Forall (fun l => (l < 512)%nat) env -> (lab + labels p <= 512)%nat -> ok_insts (item_insts (items locs res env lab p ss)) /\ slots_typed ss'.
Proof.
  assert (forall n env, (n < 512)%nat -> Forall (fun l => (l < 512)%nat) env -> Forall (fun l => (l < 512)%nat) (n :: env)) as Hcons by (now constructor).
  induction p as [|cd k IH|b IHb k IHk|b IHb k IHk|b IHb k IHk|b1 IH1 b2 IH2 k IHk|L v k IH|L v k IH|k IH];
    intros h env lab ss ss' H Hs Ht He Hl; cbn [check_code items labels item_insts] in *; check_inv H.
  - injection H as <-. split; [constructor | exact Ht].
  - cbn [mbind option_bind] in *. rewrite item_insts_app, item_insts_insts, Forall_app. pose proof (check1_small locs _ _ _ Ec1 Hs) as Hs1.
    destruct (IH _ _ _ _ _ H Hs1 (check1_typed _ _ _ Ec1 Ht) He Hl) as [A B]. split; [|exact B]. split; [eapply emit1_ok; eauto | exact A].
  - destruct (IHb _ (lab :: env) (S lab) _ _ Ec Hs Ht (Hcons lab env ltac:(lia) He) ltac:(lia)) as [A _].
    destruct (IHk _ _ (S lab + labels b)%nat _ _ H Hs Ht He ltac:(lia)) as [B C]. rewrite item_insts_app. cbn [item_insts]. split; [now apply Forall_app | exact C].
  - destruct (IHb _ (lab :: env) (S (S lab)) _ _ Ec Hs Ht (Hcons lab env ltac:(lia) He) ltac:(lia)) as [A _].
    destruct (IHk _ _ (S (S lab) + labels b)%nat _ _ H Hs Ht He ltac:(lia)) as [B C]. rewrite item_insts_app. cbn [item_insts]. split; [now apply Forall_app | exact C].
  - apply pop_cond_inv in Ec as (s & -> & Hty & _). cbn [tail]. pose proof (small_tail locs _ _ Hs) as Hs'. pose proof (typed_tail _ _ Ht) as Ht'.
    destruct (IHb _ (lab :: env) (S lab) _ _ Ec0 Hs' Ht' (Hcons lab env ltac:(lia) He) ltac:(lia)) as [A _].
    destruct (IHk _ _ (S lab + labels b)%nat _ _ H Hs' Ht' He ltac:(lia)) as [B C]. split; [|exact C].
    constructor; [apply cond_inst_ok; auto; lia|]. rewrite item_insts_app. cbn [item_insts]. now apply Forall_app.
  - apply pop_cond_inv in Ec as (s & -> & Hty & _). cbn [tail]. pose proof (small_tail locs _ _ Hs) as Hs'. pose proof (typed_tail _ _ Ht) as Ht'.
    destruct (IH1 _ ((S lab + labels b1)%nat :: env) (S lab) _ _ Ec0 Hs' Ht' (Hcons (S lab + labels b1)%nat env ltac:(lia) He) ltac:(lia)) as [A _].
    destruct (IH2 _ (S (S lab + labels b1) :: env) (S (S (S lab + labels b1))) _ _ Ec2 Hs' Ht' (Hcons (S (S lab + labels b1)) env ltac:(lia) He) ltac:(lia)) as [B _].
    destruct (IHk _ _ (S (S (S lab + labels b1)) + labels b2)%nat _ _ H Hs' Ht' He ltac:(lia)) as [C D]. split; [|exact D].
    constructor; [apply cond_inst_ok; auto; lia|]. rewrite item_insts_app. cbn [item_insts]. apply Forall_app. split; [exact A|].
    constructor; [apply jump_ok; lia|]. rewrite item_insts_app. cbn [item_insts]. now apply Forall_app.
  - destruct (IH _ _ _ _ _ H Hs Ht He Hl) as [A B]. split; [|exact B]. constructor; [apply jump_ok; eapply target_small; eauto | exact A].
  - apply pop_cond_inv in Ec as (s & -> & Hty & _). cbn [tail]. pose proof (small_tail locs _ _ Hs) as Hs'. pose proof (typed_tail _ _ Ht) as Ht'.
    destruct (IH _ _ _ _ _ H Hs' Ht' He Hl) as [A B]. split; [|exact B]. constructor; [apply cond_inst_ok; auto; eapply target_small; eauto | exact A].
  - rewrite item_insts_app, item_insts_insts, !Forall_app. apply pop_results_inv in Ec as [(E & ->)|(t & s & E & -> & Hty & _)].
    + rewrite E in *. destruct (IH _ _ _ _ _ H Hs Ht He Hl) as [A B]. split; [|exact B]. split; [split; [constructor | repeat constructor; apply ret_ok]|]. exact A.
    + destruct (IH _ _ _ _ _ H (small_tail locs _ _ Hs) (typed_tail _ _ Ht) He Hl) as [A B]. rewrite E in *. split; [|exact B]. split; [|exact A].
      split; [|repeat constructor; apply ret_ok]. constructor; [|constructor]. inversion Ht as [|x y (u & Hu & Hv) _ [E1 E2]].
      rewrite Hty in Hu. injection Hu as <-. apply mov_ok; [exact Hv | lia | exact (slot_small locs _ _ _ Hs Hty)].
Qed.
End Encodable.

(** ** The whole function *)
Section Function.
Context {bd : Build} {vg : VectorGrowth} {cb : ConvBuild}.
Variables ps ls res : list VALTYPE.
Abbreviation locs := (ps ++ ls).
Hypothesis locs_types : Forall (fun t => is_value_type t = true) locs.
Hypothesis locs_small : forall t, base locs t <= 126.

Lemma init1_ok t r : is_value_type t = true -> 0 <= r < 126 -> Forall (fun x => inst_ok x = true) (init1 t r).
Proof.
  intros Ht Hr. pose proof (operands_fit_zero r Hr). pose proof (operands_fit_imm r 0 Hr ltac:(unfold in_u; lia)).
  destruct t; try discriminate; cbn [init1]; repeat constructor; (eapply inst_for_ok; [reflexivity | discriminate | assumption]).
Qed.
Lemma init_from_ok : forall ts i, (forall k t, ts !! k = Some t -> locs !! (i + k)%nat = Some t) -> Forall (fun x => inst_ok x = true) (init_from locs i ts).
Proof.
  assert (small locs []) as Hs by (intros t; cbn [temps]; specialize (locs_small t); lia).
  induction ts as [|t ts IH]; intros i H; cbn [init_from]; [constructor|]. pose proof (H 0%nat t eq_refl) as Ht. rewrite Nat.add_0_r in Ht.
  apply Forall_app. split; [apply init1_ok; [exact (Forall_lookup_1 _ _ _ _ locs_types Ht) | eapply local_small; eauto]|].
  apply IH. intros k u Hu. rewrite Nat.add_succ_l, <- Nat.add_succ_r. exact (H (S k) u Hu).
Qed.

Variable p : CODE.
Variable ss : list SLOT.
Hypothesis fits : check_code locs res 0 0 p [] = Some ss.
Hypothesis few_labels : (labels p <= 512)%nat.
Hypothesis one_result : (length ss <= 1)%nat.
Abbreviation its := (function_items ps ls res p ss).

Lemma function_ok : Forall (fun x => inst_ok x = true) (item_insts its).
Proof.
  assert (small locs []) as Hs by (intros t; cbn [temps]; specialize (locs_small t); lia).
  destruct (items_ok locs res locs_types p 0%nat [] 0%nat [] ss fits Hs (Forall_nil_2 _) (Forall_nil_2 _) few_labels) as [A B].
  unfold function_items. rewrite !item_insts_app, !item_insts_insts, !Forall_app. split; [|split; [exact A|split; [|repeat constructor]]].
  - apply init_from_ok. intros k t Hk. rewrite lookup_app_r by lia. now replace (length ps + k - length ps)%nat with k by lia.
  - destruct ss as [|s [|]] eqn:E; cbn [result_code]; [constructor| |cbn [length] in one_result; lia].
    inversion B as [|x y (t & Ht & Hv) _ [E1 E2]]. rewrite Ht. cbn [default from_option id]. constructor; [|constructor].
    assert (small locs [s]) as Hs1 by (eapply (check_code_small locs res p 0%nat 0%nat []); eauto).
    exact (mov_ok t 0 _ Hv ltac:(lia) (slot_small locs s [] t Hs1 Ht)).
Qed.

(** The labels stand before instructions. *)
Lemma label_pos_app i A C : i ∈ item_labels A -> label_pos i (A ++ C) = label_pos i A.
Proof.
  induction A as [|[x|j] A IH]; intros H; cbn [app label_pos item_labels] in *; [now apply not_elem_of_nil in H | now rewrite IH|].
  destruct (decide (i = j)); [reflexivity|]. apply elem_of_cons in H as [H|H]; [contradiction | auto].
Qed.
Lemma function_labels_in i : i ∈ item_labels its <-> (i < labels p)%nat.
Proof. rewrite (function_labels ps ls res p ss ss 0%nat fits), elem_of_seq. lia. Qed.
Lemma function_label_pos i : (i < labels p)%nat -> exists k, label_pos i its = Some k /\ (k < length (item_insts its))%nat.
Proof.
  intros Hi%function_labels_in. unfold function_items in *. rewrite (assoc_L (++)) in *. set (A := map I_inst _ ++ items _ _ _ _ _ _) in *.
  assert (i ∈ item_labels A) as HA by (rewrite item_labels_app, item_labels_insts, app_nil_r in Hi; exact Hi).
  rewrite label_pos_app by exact HA. destruct (label_pos_Some i A HA) as (k & Hk & Hl). exists k. split; [exact Hk|].
  rewrite item_insts_app, item_insts_insts, !length_app. cbn [length]. lia.
Qed.
Lemma function_body_ok : body_ok (body_of (labels p) its) = true.
Proof.
  unfold body_ok, body_of. cbn [b_insts b_labs]. rewrite !andb_true_iff, !forallb_forall, Nat.ltb_lt. split; [split|].
  - intros x Hx. pose proof function_ok as H. rewrite Forall_forall in H. now apply H, list_elem_of_In.
  - unfold function_items. rewrite !item_insts_app, !item_insts_insts, !length_app. cbn [length]. lia.
  - intros k Hk. apply in_map_iff in Hk as (i & <- & Hi). apply in_seq in Hi. destruct (function_label_pos i ltac:(lia)) as (j & -> & Hj).
    now apply Nat.ltb_lt.
Qed.

(** [Finish] accepts the translated function, and its entry is the one of the items. *)
Lemma finish_translated body off : U_CODE_BODY._inst_tab body = code_of (item_insts its) -> length (U_CODE_BODY._lab_tab body) = labels p ->
  (forall i, (i < labels p)%nat -> exists k, label_word i its = Some k /\ U_CODE_BODY._lab_tab body !! i = Some (INT32 (Z.of_nat k))) ->
  in_u 320 (U_CODE_BODY._ubh_code body) -> Z.of_nat (length (code_of (item_insts its))) < 2 ^ 20 -> 0 <= off < 2 ^ 32 ->
  exists body', U_CODE_BODY.Finish off body = Ok body' /\ entry_of (body_of (labels p) its) (entry_of_body body').
Proof.
  intros Hi Hl Hlab Hu Hsz Ho.
  assert (U_CODE_BODY._lab_tab body = map (fun k => Z.of_nat (word_off (item_insts its) k)) (its_labs (labels p) its)) as Etab.
  { apply list_eq. intros i. rewrite list_lookup_fmap. destruct (decide (i < labels p)%nat) as [Hlt|Hge].
    - destruct (Hlab i Hlt) as (w & Hw & ->). destruct (label_word_pos _ _ _ Hw) as (k & Hk & ->).
      rewrite (its_labs_lookup _ _ _ _ Hlt Hk). cbn [fmap option_fmap option_map]. f_equal.
      destruct (function_label_pos i Hlt) as (k' & Hk' & Hlt'). rewrite Hk in Hk'. injection Hk' as <-.
      pose proof (word_off_lt _ _ Hlt'). unfold INT32. rewrite wraps_id by (unfold in_s; cbn; lia). reflexivity.
    - rewrite (lookup_ge_None_2 (U_CODE_BODY._lab_tab body)) by lia. rewrite (lookup_ge_None_2 (its_labs _ _)) by (rewrite length_its_labs; lia). reflexivity. }
  assert (body_fits body = true) as Hfit.
  { unfold body_fits. rewrite !andb_true_iff, bool_decide_eq_true, !Z.ltb_lt, Hi, Hl. auto with lia. }
  assert (exists body', U_CODE_BODY.Finish off body = Ok body') as [body' Hf].
  { unfold U_CODE_BODY.Finish. rewrite check_labels_Ok; [eexists; reflexivity|]. rewrite Etab. apply Forall_map, Forall_forall. intros k _.
    unfold UNINIT_LABEL_IDX. lia. }
  exists body'. split; [exact Hf|]. destruct (Finish_body off body body' Hfit Ho Hf) as [(T1 & T2 & _) _ F1 F2 _ _].
  unfold entry_of, entry_of_body, body_of. cbn [ce_insts ce_labels ce_code b_insts b_labs]. rewrite T1, T2, F1, F2, Hi, Hl, length_its_labs.
  split; [reflexivity|]. split; [|auto]. rewrite Etab, map_map. apply map_ext_in. intros k Hk. apply wrapu_id. unfold in_u.
  apply in_map_iff in Hk as (i & <- & Hi2). apply in_seq in Hi2. destruct (function_label_pos i ltac:(lia)) as (j & -> & Hj).
  pose proof (word_off_lt _ _ Hj). cbn [default from_option id]. lia.
Qed.
End Function.

(** ** Loaded *)
Section Loaded.
Context {bd : Build} {pf : Platform}.

Lemma items_in_place m tab : forall its q, code_at m q (item_insts its) -> NoDup (item_labels its) ->
  (forall i k, label_pos i its = Some k -> tab !! i = Some (q + Z.of_nat k)) -> items_at m tab q its.
Proof.
  induction its as [|[x|j] its IH]; intros q Hc Hnd Hl; cbn [items_at item_insts item_labels label_pos] in *; [exact I| |].
  - split; [specialize (Hc 0%nat x eq_refl); now rewrite Z.add_0_r in Hc|]. apply IH; [|exact Hnd|].
    + intros k y Hk. specialize (Hc (S k) y Hk). now replace (q + 1 + Z.of_nat k) with (q + Z.of_nat (S k)) by lia.
    + intros i k Hk. rewrite (Hl i (S k)) by (now rewrite Hk). f_equal. lia.
  - apply NoDup_cons in Hnd as [Hj Hnd]. split; [rewrite (Hl j 0%nat) by (now rewrite decide_True); f_equal; lia|].
    apply IH; [exact Hc | exact Hnd|]. intros i k Hk. apply Hl. rewrite decide_False; [exact Hk|]. intros ->. rewrite label_pos_None in Hk by exact Hj. discriminate.
Qed.

(** The function number [f] of loaded code is in its place, with its label table. *)
Lemma items_loaded bs m f n its : code_loaded bs (_codes m) -> bs !! f = Some (Some (body_of n its)) ->
  NoDup (item_labels its) -> (forall i, i ∈ item_labels its -> (i < n)%nat) ->
  exists tab, _lab_tab (_codes m) !! Z.of_nat f = Some tab /\ length tab = n /\ items_at m tab (base_of bs f) its.
Proof.
  intros [_ _ C3 C4] Hf Hnd Hn. eexists. split; [exact (C3 f _ Hf)|]. split; [rewrite length_map; apply length_its_labs|].
  apply items_in_place; [|exact Hnd|].
  - intros k x Hk. eexists. exact (C4 f _ k x Hf Hk).
  - intros i k Hk. rewrite list_lookup_fmap. cbn [body_of b_labs].
    assert (i < n)%nat as Hi by (apply Hn; destruct (decide (i ∈ item_labels its)) as [|Hni]; [assumption|]; rewrite label_pos_None in Hk by exact Hni; discriminate).
    now rewrite (its_labs_lookup _ _ _ _ Hi Hk).
Qed.
End Loaded.
