(* ===== verification/Ending.v ===== *)
(** * From the start of a program to its end

  What [prepare] ([System.v]) leaves: the entry function in its frame above the entry
  context, whose pc is before the break instruction, with the arguments in the registers
  of the parameters.  A function that gets to [RETURN] from there ends the program: the
  return restores the entry context, the same window, and the next instruction is the
  break. *)

From S2P Require Import Prelude CInt BitField CFloat Isa Inst Expand Ubh Memory UModule StrTab TypeEncoder Encoder Machine Handlers Exec Frames Windows Safety Loading Sample Reachable Typed Ops Code LocalTable Graph Converter Convert Alloc Straight Creation Building Translation Running Compiled File SysCalls System Hosted.
From Stdlib Require Import ZArith Lia.
Local Open Scope Z_scope.

(** ** The break instruction *)
Definition ends_in_break (c : CODE_CACHE) : Prop :=
  exists brk, _expanded_table c !! (_end_pc c + 1) = Some brk /\ opcode_long (Get_opcode_l brk) = Some BREAK_AM32_L.

Lemma Expand_code_break {bd : Build} {pf : Platform} s c : Expansion.Expand_code s = Ok c -> ends_in_break c.
Proof.
  unfold Expansion.Expand_code. intros H. destruct (sec_elem_num s S_FUNC) as [n|]; [|discriminate]. cbn [mbind outcome_bind] in H.
  destruct (Types.map_outcome _ _) as [funcs|]; [|discriminate]. cbn [mbind outcome_bind] in H.
  destruct (Expansion.total_code_size s funcs 0) as [z|]; [|discriminate]. cbn [mbind outcome_bind] in H.
  destruct (Expansion.expand_funcs s 0 funcs Expansion.pass0) as [st|]; [|discriminate]. cbn [mbind outcome_bind] in H.
  injection H as <-. eexists. cbn [_expanded_table _end_pc]. split; [apply lookup_insert_eq | reflexivity].
Qed.

Section Ending.
Context {bd : Build} {pf : Platform} {fe : FloatEnv}.

(** [Init_memory] keeps the code or puts that of the sections. *)
Definition code_kept (m m' : UWASM_MACHINE) : Prop :=
  _sections m' = _sections m /\ (_codes m' = _codes m \/ Expansion.Expand_code (_sections m) = Ok (_codes m')).
#[local] Instance code_kept_refl : Reflexive code_kept.
Proof. split; [reflexivity | now left]. Qed.
#[local] Instance code_kept_trans : Transitive code_kept.
Proof. intros m1 m2 m3 [S1 H1] [S2 H2]. split; [congruence|]. rewrite S1 in H2. destruct H2 as [H2|H2]; [rewrite H2; exact H1 | now right]. Qed.

Lemma Init_memory_codes {rt : Runtime} mem_p mem_size : frames code_kept (Init_memory mem_p mem_size).
Proof.
  assert (forall f, (forall m : UWASM_MACHINE, (_sections (f m), _codes (f m)) = (_sections m, _codes m)) -> frames code_kept (modify f)) as Hmod.
  { intros f H m a m' [= _ <-]. injection (H m) as H1 H2. split; [exact H1 | left; exact H2]. }
  intros m a m' H. unfold Init_memory in H.
  apply bind_Ok in H as ([] & m1 & H1 & H). apply (Hmod _ (fun _ => eq_refl)) in H1. etransitivity; [exact H1|]. clear H1.
  apply bind_Ok in H as (m0 & s0 & [= <- <-] & H).
  apply bind_Ok in H as ([[ret mem] codes] & s1 & [E ->]%lift_Ok & H).
  apply bind_Ok in H as ([] & m2 & H1 & H). apply (Hmod _ (fun _ => eq_refl)) in H1. etransitivity; [exact H1|]. destruct H1 as [Hsec _].
  apply bind_Ok in H as ([] & m3 & H1 & H). assert (code_kept m2 m3) as Hc.
  { destruct codes as [c|]; injection H1 as <-; [|reflexivity]. split; [reflexivity|]. right. cbn [_codes _sections set_codes set_mem]. unfold Data.Prepare_before_run in E.
    destruct (Data.Fix_up_reloc _ _ _) as [[r0 mem0]|]; [|discriminate]. cbn [mbind outcome_bind] in E.
    destruct (negb (r0 =? Data.NUM_SUCC)); [discriminate|].
    destruct (Expansion.Expand_code (_sections m1)) as [c'|] eqn:Ec; [|discriminate]. injection E as _ _ <-. rewrite Hsec. exact Ec. }
  etransitivity; [exact Hc|]. clear Hc H1 E Hsec. revert H. generalize m3, a, m'. clear - Hmod.
  change (frames code_kept (if negb (ret =? Data.NUM_SUCC) then mret ret else
    if mem_size =? 0 then mret ret else
    hea_off ← lift (if Contains_section (_sections m1) S_DATA then sec_elem_num (_sections m1) S_DATA else mret 0);
    _ ← lift (Is_True (page_round_up hea_off <=? mem_size));
    hea_size ← lift (heap_size (UINT32 (mem_size - page_round_up hea_off)));
    _ ← modify (fun m => set_memory (_mem m) (Some mem_size) mem_size (page_round_up hea_off) hea_size m);
    _ ← (if Contains_section (_sections m1) S_GLBL then g ← lift (init_globals (_sections m1)); modify (set_globals (Some g)) else mret tt);
    b ← lift (of_option NullFault mem);
    b ← lift (heap_initialize (page_round_up hea_off) hea_size b);
    _ ← modify (set_mem b);
    mret ret)).
  repeat first
    [ apply frames_bind; [exact _ | | let a := fresh "a" in intros a]
    | apply Hmod; reflexivity
    | apply frames_lift; exact _ | apply frames_ret; exact _
    | apply frames_if ].
Qed.

(** ** The entry function in its frame *)

(** The context below the entry function, with the window of the entry function. *)
Record at_entry (func : Z) (m : UWASM_MACHINE) : Prop := {
  ae_good : good m;
  ae_func : _func_idx (_current m) = func;
  ae_fp : forall t, ctx_fp t (_current m) = 0;
  ae_stack : exists entry, stack_frames (_ctx_stack m) = [entry] /\ _pc entry = Some (_end_pc (_codes m)) /\
    _func_idx entry = func /\ forall t, ctx_fp t entry = 0;
  ae_label : _label_tab (_current m) = Some func;
}.

Lemma at_entry_frame func m m' : good m' -> env_frame m m' -> at_entry func m -> at_entry func m'.
Proof.
  intros Hg F [_ H2 H3 (e & H4 & H5 & H6 & H7) H8]. split; [exact Hg | | | |].
  - now rewrite (ef_func _ _ F).
  - intros t. now rewrite (ef_ctx_fp _ _ F).
  - exists e. rewrite (ef_stack _ _ F), (ef_end_pc _ _ F). auto.
  - now rewrite (ef_label _ _ F).
Qed.

(** What the last steps of [Init_env] leave alone. *)
Record tail_eq (m m' : UWASM_MACHINE) : Prop := {
  te_codes : _codes m' = _codes m;
  te_types : _types m' = _types m;
  te_stack : _ctx_stack m' = _ctx_stack m;
  te_pc : _pc (_current m') = _pc (_current m);
  te_func : _func_idx (_current m') = _func_idx (_current m);
  te_fp : forall t, ctx_fp t (_current m') = ctx_fp t (_current m);
  te_label : _label_tab (_current m') = _label_tab (_current m);
}.
#[local] Instance tail_eq_refl : Reflexive tail_eq.
Proof. now intros m; split. Qed.
#[local] Instance tail_eq_trans : Transitive tail_eq.
Proof. intros m1 m2 m3 [] []. split; intros; etransitivity; eauto. Qed.

Lemma tail_alloc b t n : frames tail_eq (when b (alloc t n)).
Proof. destruct b; [|apply frames_ret; exact _]. intros m a m' [= _ <-]. split; destruct t; reflexivity || (intros []; reflexivity). Qed.
Lemma tail_Allocate_stack f : frames tail_eq (Allocate_stack f).
Proof.
  intros m a m'. unfold Allocate_stack. destruct (_ ≫= _); [|discriminate].
  destruct (0 <? _); intros [= _ <-]; [|reflexivity]. split; reflexivity.
Qed.

Lemma Init_env_entry func m m' : windows_pre m -> regs_typed m -> stack_frames (_ctx_stack m) = [] ->
  (forall t, ctx_fp t (_current m) = 0) -> Init_env func m = Ok (tt, m') ->
  at_entry func m' /\ _codes m' = _codes m /\ _types m' = _types m /\
  (exists p, _expanded_func_base (_codes m) !! func = Some p /\ _pc (_current m') = Some p) /\
  exists v, nthZ (_reg_num_tab (_types m)) func = Ok v.
Proof.
  intros Hpre Hty Hidle Hfp H. pose proof (Init_env_run _ _ _ Hpre Hidle H) as Hw. pose proof (typed_Init_env _ _ _ _ H Hty) as Ht.
  unfold Init_env, enter_code in H.
  apply bind_Ok in H as ([] & m1 & [= <-] & H). apply bind_Ok in H as (? & ? & [= <- <-] & H).
  apply bind_Ok in H as ([] & m2 & [= <-] & H).
  apply bind_Ok in H as ([] & m3 & Hp & H). unfold push_context in Hp.
  destruct (CONTEXT_STACK.Push _ _) as [s|] eqn:Hpush; [|discriminate]. injection Hp as <-.
  apply bind_Ok in H as ([] & m4 & [= <-] & H).
  apply bind_Ok in H as ([] & m5 & H5 & H).
  apply bind_Ok in H5 as ([] & m6 & [= <-] & H5). apply bind_Ok in H5 as (? & ? & [= <- <-] & H5).
  apply bind_Ok in H5 as (p & m6 & [Hbase ->]%lift_Ok & [= <-]).
  apply bind_Ok in H as ([] & m6 & [= <-] & H).
  apply bind_Ok in H as (v & m6 & [Hv ->]%lift_Ok & H).
  match type of H with _ ?m = _ => set (m6 := m) in *; assert (frames tail_eq (fun s => (_ ← when (negb (arr16 v 0 =? 0)) (alloc I32 (arr16 v 0));
    _ ← when (negb (arr16 v 1 =? 0)) (alloc I64 (arr16 v 1)); _ ← when (negb (arr16 v 2 =? 0)) (alloc F32 (arr16 v 2));
    _ ← when (negb (arr16 v 3 =? 0)) (alloc F64 (arr16 v 3)); Allocate_stack func) s)) as Htail end.
  { repeat first [apply frames_bind; [exact _ | apply tail_alloc | intros _] | apply tail_Allocate_stack]. }
  apply Htail in H as [E1 E2 E3 E4 E5 E6 E7]. clear Htail.
  pose proof (fun c => Push_wf c _ (w_stack _ Hpre)) as HP. cbn [_current set_current _ctx_stack] in Hpush.
  match type of Hpush with CONTEXT_STACK.Push ?c _ = _ => set (entry := c) in *; specialize (HP entry) end.
  destruct (_ <? _); [|congruence]. destruct HP as (s' & Es & _ & Efs).
  rewrite Hpush in Es. injection Es as <-. rewrite Hidle in Efs.
  split; [split; [split; assumption | | | |]|split; [|split; [|split]]].
  - rewrite E5. reflexivity.
  - intros t. rewrite E6. transitivity (ctx_fp t (_current m)); [now destruct t | apply Hfp].
  - exists entry. rewrite E3. split; [exact Efs|]. rewrite E1. split; [reflexivity|]. split; [reflexivity|].
    intros t. transitivity (ctx_fp t (_current m)); [now destruct t | apply Hfp].
  - rewrite E7. reflexivity.
  - exact E1.
  - exact E2.
  - exists p. split; [|rewrite E4; reflexivity]. cbn in Hbase. now destruct (_expanded_func_base (_codes m) !! func); [injection Hbase as <-|discriminate].
  - exists v. exact Hv.
Qed.

(** ** The return from the entry function *)
Lemma entry_top s c : wf_stack s -> stack_frames s = [c] -> CONTEXT_STACK.Top s = Ok c /\ exists s', CONTEXT_STACK.Pop s = Ok s'.
Proof.
  intros Hw Hs. pose proof (stack_frames_length s Hw) as Hl. rewrite Hs in Hl. cbn [length] in Hl.
  assert (CONTEXT_STACK._sta_top_idx s = 0) as Ht by (pose proof (ws_top _ Hw); lia). split.
  - assert (is_ok (CONTEXT_STACK.Top s) = true) as Ho by (unfold CONTEXT_STACK.Top; now rewrite Ht, (ws_size _ Hw)).
    destruct (CONTEXT_STACK.Top s) as [c'|] eqn:E; [|discriminate]. destruct (Top_frames _ _ Hw E) as [fs Hfs].
    rewrite Hs in Hfs. now injection Hfs as -> <-.
  - unfold CONTEXT_STACK.Pop. rewrite Ht, Is_True_true. eexists. reflexivity.
Qed.

(** The epilogue gives back the entry context and leaves every register. *)
Lemma entry_epilogue func m v : at_entry func m -> nthZ (_fp_shs_tab (_types m)) func = Ok v ->
  exists m', Func_epilogue m = Ok (tt, m') /\ _pc (_current m') = Some (_end_pc (_codes m)) /\ _codes m' = _codes m /\
    forall t j, REGISTER.Get j (regs t m') = REGISTER.Get j (regs t m).
Proof.
  intros [[Hw _] Hf Hfp (e & Hs & Hpc & Hef & Hefp) _] Hv. pose proof (w_pre _ Hw) as Hpre.
  destruct (entry_top _ e (w_stack _ Hpre) Hs) as (Ht & s' & Hp).
  assert (exists m', Func_epilogue m = Ok (tt, m') /\ _codes m' = _codes m) as (m' & H & Hc).
  { unfold Func_epilogue, mbind, M_bind, get, modify, lift. rewrite Ht, Hp. cbn [set_current set_ctx_stack _types]. rewrite Hef, Hv.
    destruct (65535 <? v); (eexists; split; [reflexivity|]; reflexivity). }
  destruct (Func_epilogue_windows _ _ Hpre H) as [Hw' (fs & E1 & E2)]. rewrite Hs in E1. injection E1 as E1 _.
  destruct (epilogue_rest _ _ H) as (Hcells & Hsz & _).
  exists m'. split; [exact H|]. split; [now rewrite <- E1|]. split; [exact Hc|]. intros t j. unfold REGISTER.Get.
  rewrite (Hcells t), (w_cur _ (w_pre _ Hw') t), (w_cur _ Hpre t), <- E1, Hefp, Hfp. specialize (Hsz t). unfold Windows.sizes in Hsz. now rewrite Hsz.
Qed.

Context {rt : Runtime}.
(** [RETURN] and the break: the program ends with the registers of the function. *)
Lemma return_ends func m p v : at_entry func m -> ends_in_break (_codes m) -> nthZ (_fp_shs_tab (_types m)) func = Ok v ->
  _pc (_current m) = Some p -> expands m p (inst_for Opcode.RETURN I32 []) ->
  exists m1, step m m1 /\ stops m1 m1 /\ forall t j, REGISTER.Get j (regs t m1) = REGISTER.Get j (regs t m).
Proof.
  intros Ha (brk & Hb & Hop) Hv Hp [e Hx]. destruct (entry_epilogue func m v Ha Hv) as (m' & H & Hpc & Hc & Hr).
  exists (set_current (ctx_set_pc (option_map (fun p => p + 1) (_pc (_current m'))) (_current m')) m'). split; [|split].
  - eapply (step_break _ _ m'); [unfold Get_inst; rewrite Hp; cbn [of_option mbind outcome_bind]; rewrite Hx; reflexivity| |reflexivity].
    change (switch _) with (break_ Func_epilogue). unfold break_. now rewrite (bind_run _ _ _ _ _ H).
  - apply (stops_intro _ brk).
    + unfold Get_inst. cbn [set_current _current ctx_set_pc _pc _codes]. rewrite Hpc, Hc. cbn [option_map of_option mbind outcome_bind]. now rewrite Hb.
    + unfold switch. rewrite Hop. reflexivity.
  - intros t j. rewrite <- Hr. now destruct t.
Qed.
End Ending.

(** ** The arguments and the start *)
Section Start.
Context {bd : Build} {pf : Platform} {cb : ConvBuild} {host : Host} {fe : FloatEnv}.

(** Between [Init_env], after which the state is [m0], and the first step. *)
Record begun (func p : Z) (m0 m : UWASM_MACHINE) : Prop := {
  bg_entry : at_entry func m;
  bg_pc : _pc (_current m) = Some p;
  bg_codes : _codes m = _codes m0;
  bg_types : _types m = _types m0;
}.

Lemma reg_set_begun func p m0 t i v m m' : t <> VALTY_UNKNOWN -> begun func p m0 m -> reg_set t i v m = Ok (tt, m') ->
  begun func p m0 m' /\ wrote t i (reg_norm t v) m m'.
Proof.
  intros Ht [B1 B2 B3 B4] H. pose proof (reg_set_wrote t i v m m' Ht H) as W. split; [|exact W].
  pose proof (wr_frame _ _ _ _ _ W) as F. destruct (ae_good _ _ B1) as [Hw Hty]. split.
  - apply (at_entry_frame func m); [|exact F | exact B1]. split; [|exact (typed_reg_set _ _ _ _ _ _ H Hty)].
    apply (windows_ok_frame m); [now apply env_frame_win | exact Hw].
  - rewrite (proj1 (proj2 (wr_mem _ _ _ _ _ W))). exact B2.
  - rewrite <- B3. unfold reg_set in H. destruct (REGISTER.Set_ _ _ _); [|discriminate]. injection H as <-. now destruct t.
  - now rewrite (ef_types _ _ F).
Qed.

(** An argument as WebAssembly has it. *)
Definition arg_value (a : ARG_VALUE) : Z := wrapu (width a.1) a.2.

Lemma arg_norm t v : is_value_type t = true -> unsigned t (reg_norm t v) = arg_value (t, v).
Proof.
  unfold arg_value. cbn [fst snd]. destruct t; try discriminate; intros _; unfold unsigned, reg_norm, INT32, INT64, UINT32, UINT64, width;
    first [apply wrapu_wraps | apply wrapu_wrapu]; lia.
Qed.
Lemma next_bump t u idx : is_value_type t = true -> is_value_type u = true -> length idx = 4%nat ->
  next_reg u (bump t idx) = next_reg u idx + (if decide (t = u) then 1 else 0).
Proof.
  intros Ht Hu Hl. destruct idx as [|a [|b [|c [|d [|]]]]]; try discriminate Hl.
  destruct t; try discriminate Ht; destruct u; try discriminate Hu; case_decide; try congruence; cbv -[Z.add]; lia.
Qed.

Lemma set_args_begun ps ls func p m0 : Forall (fun t => is_value_type t = true) (ps ++ ls) -> forall args done vals idx s s',
  ps = done ++ map fst args -> length idx = 4%nat ->
  (forall t, is_value_type t = true -> next_reg t idx = RET_REG_NUM + count t done) -> length vals = length done ->
  begun func p m0 (_machine s) -> first_hold ps ls (length done) vals (_machine s) -> set_args idx args s = Ok s' ->
  begun func p m0 (_machine s') /\ first_hold ps ls (length ps) (vals ++ map arg_value args) (_machine s').
Proof.
  intros Hty. induction args as [|[t v] args IH]; intros done vals idx s s' Hps Hl Hidx Hv Hb Hh H; cbn [set_args] in H.
  - injection H as <-. split; [exact Hb|]. cbn [map] in *. rewrite app_nil_r in *. now subst ps.
  - destruct (Debug_set_reg t (next_reg t idx) v s) as [s1|] eqn:E; [|discriminate]. cbn [mbind outcome_bind] in H.
    unfold Debug_set_reg, on_machine in E. destruct (reg_set _ _ _ _) as [[[] m1]|] eqn:Er; [|discriminate]. injection E as <-.
    assert (locs_t : (ps ++ ls) !! length done = Some t).
    { rewrite Hps, <- (assoc_L (++)). cbn [map fst app]. rewrite lookup_app_r by lia. now rewrite Nat.sub_diag. }
    pose proof (Forall_lookup_1 _ _ _ _ Hty locs_t) as Hvt. cbn beta in Hvt. rewrite (Hidx t Hvt) in Er.
    destruct (reg_set_begun func p m0 t _ v _ m1 (value_type_known t Hvt) Hb Er) as [Hb1 W].
    assert (RET_REG_NUM + count t done = local_reg (ps ++ ls) (length done)) as Er'.
    { unfold local_reg. rewrite locs_t. rewrite Hps, <- (assoc_L (++)). now rewrite take_app_length. }
    rewrite Er' in W. change (vals ++ map arg_value ((t, v) :: args)) with (vals ++ [arg_value (t, v)] ++ map arg_value args). rewrite (assoc_L (++)).
    refine (IH (done ++ [t]) (vals ++ [arg_value (t, v)]) (bump t idx) _ s' _ _ _ _ _ _ H); try assumption.
    + rewrite <- (assoc_L (++)). exact Hps.
    + unfold bump. now rewrite length_alter.
    + intros u Hu. rewrite next_bump, Hidx, count_app by assumption. cbn [count]. lia.
    + rewrite !length_app. cbn [length]. lia.
    + rewrite length_app. cbn [length _machine]. intros i u Hi Hu. destruct (decide (i = length done)) as [->|Hne].
      * rewrite Hu in locs_t. injection locs_t as ->. exists (arg_value (t, v)).
        split; [rewrite lookup_app_r, Hv, Nat.sub_diag by lia; reflexivity|].
        exists (reg_norm t v). split; [apply (wr_value _ _ _ _ _ W) | now apply arg_norm].
      * destruct (Hh i u ltac:(lia) Hu) as (w & Hw & (x & Hx & Hxw)). exists w. split; [now apply lookup_app_l_Some|].
        exists x. split; [|exact Hxw]. rewrite <- Hx. pose proof (Forall_lookup_1 _ _ _ _ Hty Hu) as Huv. cbn beta in Huv.
        apply (wr_others _ _ _ _ _ W); [now apply value_type_known|]. intros [= -> Eq]. apply Hne. eapply local_reg_inj; eauto.
Qed.

Definition no_types : TYPE_CACHE := mkTYPES [] [] [] [].
Definition no_codes : CODE_CACHE := mkCODES ∅ ∅ ∅ ∅ ∅ 0.

Lemma shs_tab s ty i v : Types.Decode_type_and_cache s = Ok ty -> nthZ (_reg_num_tab ty) i = Ok v -> exists w, nthZ (_fp_shs_tab ty) i = Ok w.
Proof.
  unfold Types.Decode_type_and_cache. intros H. destruct (sec_elem_num s S_TYPE) as [tn|]; [|discriminate]. cbn [mbind outcome_bind] in H.
  destruct (sec_elem_num s S_FUNC) as [fn|]; [|discriminate]. cbn [mbind outcome_bind] in H.
  destruct (Types.map_outcome _ (seqZ 0 tn)) as [types|]; [|discriminate]. cbn [mbind outcome_bind] in H.
  destruct (Types.map_outcome _ (seqZ 0 fn)) as [regs|]; [|discriminate]. injection H as <-. cbn [_reg_num_tab _fp_shs_tab].
  intros [Hi Hk]%nthZ_Ok. rewrite list_lookup_fmap in Hk. destruct (regs !! Z.to_nat i) as [[a b]|] eqn:E; [|discriminate].
  exists b. apply nthZ_Ok. split; [exact Hi|]. now rewrite list_lookup_fmap, E.
Qed.

(** What [prepare] does, step by step. *)
Lemma prepare_steps mem_p o s0 s : prepare mem_p o s0 = Ok s -> o_sreg o = [] ->
  exists buf md types r m1 f s2, o_file o = Some buf /\ Read_sections buf = Ok md /\ Types.Decode_type_and_cache (_secs md) = Ok types /\
    (exists rt, Init_memory (rt := rt) mem_p MEM_SIZE (set_module (_secs md) types (_machine s0)) = Ok (r, m1)) /\
    (forall sx, sy_module sx = md -> start_function o sx = Ok f) /\
    Init_env (UINT32 f) m1 = Ok (tt, _machine s2) /\ set_args first_arg_regs (o_args o) s2 = Ok s.
Proof.
  unfold prepare. intros H Ho.
  destruct (Load_from_file (o_file o) s0) as [s1|] eqn:E; [|discriminate]. cbn [mbind outcome_bind] in H.
  unfold Load_from_file in E. destruct (o_file o) as [buf|]; [|discriminate]. cbn [of_option mbind outcome_bind] in E.
  unfold Load_from_buffer in E. destruct (Init_module_from_buffer buf) as [[m types]|] eqn:Eb; [|discriminate]. cbn [mbind outcome_bind mret outcome_ret] in E.
  unfold Init_module_from_buffer in Eb. destruct (Read_sections buf) as [m'|] eqn:Er; [|discriminate]. cbn [mbind outcome_bind] in Eb.
  destruct (Types.Decode_type_and_cache (_secs m')) as [ty|] eqn:Ed; [|discriminate]. injection Eb as -> ->.
  destruct (Init_cache _ _) as [infos|]; [|discriminate]. injection E as <-.
  match type of H with context [Init_memory_of mem_p MEM_SIZE ?s] => destruct (Init_memory_of mem_p MEM_SIZE s) as [[r s1]|] eqn:Em; [|discriminate] end.
  cbn [mbind outcome_bind snd] in H. unfold Init_memory_of in Em. destruct (Init_memory _ _ _) as [[r' m1]|] eqn:Ei; [|discriminate]. injection Em as -> <-.
  destruct (start_function _ _) as [f|] eqn:Ef; [|discriminate]. cbn [mbind outcome_bind] in H.
  unfold Set_cur_func, on_machine in H. cbn [_machine] in H. destruct (Init_env _ _) as [[[] m2]|] eqn:Ee; [|discriminate]. cbn [mbind outcome_bind mret outcome_ret snd] in H.
  destruct (set_args _ _ _) as [s3|] eqn:Es; [|discriminate]. cbn [mbind outcome_bind] in H. rewrite Ho in H. injection H as <-.
  cbn [_machine] in Ei. exists buf, m, types, r, m1, f. eexists. split; [reflexivity|]. split; [exact Er|]. split; [exact Ed|]. split; [exact (ex_intro _ _ Ei)|].
  split; [|split; [|exact Es]; exact Ee]. intros sx Hx. rewrite <- Ef. unfold start_function. now rewrite Hx.
Qed.

Lemma prepare_begun mem_p o s0 s ps ls : prepare mem_p o s0 = Ok s ->
  _machine s0 = UWASM_MACHINE_new no_sections no_types no_codes -> o_sreg o = [] ->
  map fst (o_args o) = ps -> Forall (fun t => is_value_type t = true) (ps ++ ls) ->
  exists buf md f p m0 v, let func := UINT32 f in o_file o = Some buf /\ Read_sections buf = Ok md /\
    (forall sx, sy_module sx = md -> start_function o sx = Ok f) /\
    Types.Decode_type_and_cache (_secs md) = Ok (_types (_machine s)) /\ Expansion.Expand_code (_secs md) = Ok (_codes (_machine s)) /\
    begun func p m0 (_machine s) /\ first_hold ps ls (length ps) (map arg_value (o_args o)) (_machine s) /\
    ends_in_break (_codes (_machine s)) /\ nthZ (_fp_shs_tab (_types (_machine s))) func = Ok v /\
    _expanded_func_base (_codes (_machine s)) !! func = Some p.
Proof.
  intros H H0 Ho Hps Hty. destruct (prepare_steps mem_p o s0 s H Ho) as (buf & md & types & r & m1 & f & s2 & Hbuf & Hmd & Hd & [rt Hm] & Hfn & He & Ha).
  set (func := UINT32 f) in *.
  rewrite H0 in Hm. set (m0 := set_module _ _ _) in Hm.
  pose proof (Init_memory_win _ _ _ _ _ Hm) as Hwe. pose proof (typed_Init_memory _ _ _ _ _ Hm (typed_new _ _ _)) as Ht1.
  pose proof (windows_pre_frame _ _ Hwe (UWASM_MACHINE_new_windows (_secs md) types no_codes (Decode_wf _ _ Hd))) as Hp1.
  pose proof (Init_memory_codes _ _ _ _ _ Hm) as [_ Hc1].
  destruct (Init_env_entry func m1 (_machine s2) Hp1 Ht1) as (A1 & A2 & A3 & (p & Hb & A4) & (v & Hv)); [| |exact He|].
  { rewrite (we_stack _ _ Hwe). reflexivity. }
  { intros t. rewrite (we_ctx _ _ Hwe). now destruct t. }
  assert (Expansion.Expand_code (_secs md) = Ok (_codes m1)) as Hexp by (destruct Hc1 as [E|E]; [rewrite E in Hb; discriminate | exact E]).
  pose proof (Expand_code_break _ _ Hexp) as Hbrk.
  destruct (set_args_begun ps ls func p (_machine s2) Hty (o_args o) [] [] first_arg_regs s2 s) as [Hbg Hh].
  - now rewrite Hps.
  - reflexivity.
  - intros t Hvt. cbn [count]. destruct t; try discriminate Hvt; cbv -[RET_REG_NUM Z.add]; lia.
  - reflexivity.
  - split; [exact A1 | exact A4 | reflexivity | reflexivity].
  - intros i t Hi. cbn [length] in Hi. lia.
  - exact Ha.
  - assert (_types m1 = types) as Ety by (rewrite (we_types _ _ Hwe); reflexivity). rewrite Ety in Hv.
    destruct (shs_tab (_secs md) types func v Hd Hv) as [w Hw]. exists buf, md, f, p, (_machine s2), w. cbv zeta. fold func.
    rewrite (bg_codes _ _ _ _ Hbg), (bg_types _ _ _ _ Hbg), A2, A3, Ety. auto 10.
Qed.

(** In the first frame every register below 16384 can be read. *)
Lemma entry_readable func m t r : at_entry func m -> 0 <= r < INITIAL_REG_SIZE -> exists x, reg_holds m t r x.
Proof.
  intros [[Hw _] _ Hfp _ _] Hr. pose proof (w_pre _ Hw) as Hpre. pose proof (w_size _ Hpre t) as Hs. unfold Windows.sizes in Hs.
  unfold reg_holds, REGISTER.Get. rewrite (w_cur _ Hpre t), Hfp, Z.add_0_l.
  rewrite (proj2 (Z.leb_le 0 r)), (proj2 (Z.ltb_lt r (REGISTER._cur_mem_size (regs t m)))) by lia. cbn [andb].
  destruct (REGISTER.cells (regs t m) !! r) as [v|]; [eauto|]. rewrite (proj2 (Z.ltb_lt r INITIAL_REG_SIZE)) by lia. eauto.
Qed.

(** The check of the return value. *)
Lemma check_return t x r s : REGISTER.Get 0 (regs t (_machine s)) = Ok r ->
  is_ok (Check_return_value (t, x) s) = release || (value_bits t x =? unsigned t r).
Proof.
  intros Hr. unfold Check_return_value, reg_get. rewrite Hr. cbn [lift mbind outcome_bind fst].
  assert (value_bits t r = unsigned t r) as -> by (now destruct t).
  rewrite Z.eqb_sym. unfold Is_True_Rel, Is_True. now destruct (value_bits t x =? unsigned t r), release.
Qed.

(** A straight-line program, from [prepare] to its end. *)
Lemma program_runs mem_p o s0 s ps ls is_ ss p : prepare mem_p o s0 = Ok s ->
  _machine s0 = UWASM_MACHINE_new no_sections no_types no_codes -> o_sreg o = [] ->
  map fst (o_args o) = ps -> Forall (fun t => is_value_type t = true) (ps ++ ls) -> (forall t, base (ps ++ ls) t <= 126) ->
  (forall t, base (ps ++ ls) t + peak (ps ++ ls) t is_ [] <= rnum (_types (_machine s)) (_func_idx (_current (_machine s))) t) ->
  check (ps ++ ls) is_ [] = Some ss -> (length ss <= 1)%nat ->
  _pc (_current (_machine s)) = Some p -> code_at (_machine s) p (function_code ps ls is_ ss) ->
  exists m' vals stk, run is_ (map arg_value (o_args o) ++ repeat 0 (length ls), []) = Some (vals, stk) /\
    (forall fuel, (length (function_code ps ls is_ ss) < fuel)%nat -> Exec_start (rt := sy_runtime s) fuel (_machine s) = Ok m') /\
    forall sl t, ss = [sl] -> slot_ty (ps ++ ls) sl = Some t -> exists v, stk = [v] /\ reg_holds m' t 0 v.
Proof.
  intros H H0 Ho Hps Hty Hb Hd Hck H1 Hp Hc.
  destruct (prepare_begun mem_p o s0 s ps ls H H0 Ho Hps Hty) as (_ & _ & f & q & m0 & v & _ & _ & _ & _ & _ & [B1 B2 B3 B4] & Hh & Hbrk & Hv & _).
  set (func := UINT32 f) in *.
  pose proof (ae_good _ _ B1) as Hg.
  destruct (function_runs (rt := sy_runtime s) ps ls Hty is_ ss (map arg_value (o_args o)) (_machine s) p Hg Hb Hd Hck H1) as
    (m1 & n & vals & stk & Hn & R & Hx & Hrun & Hres); try assumption.
  { now rewrite length_map, <- Hps, length_map. }
  { intros i Hi. apply (entry_readable func); [exact B1|]. pose proof (local_reg_range (ps ++ ls) i F64 Hi) as Hr.
    pose proof RET_REG_NUM_range. specialize (Hb F64). unfold INITIAL_REG_SIZE. lia. }
  pose proof (at_entry_frame func _ m1 (good_steps _ _ _ (rn_steps _ _ _ R) Hg) (rn_frame _ _ _ R) B1) as A1.
  destruct (return_ends (rt := sy_runtime s) func m1 (p + Z.of_nat n) v A1) as (m2 & S2 & E2 & Hsame); try assumption.
  { now rewrite (rn_codes _ _ _ R). }
  { now rewrite (rn_types _ _ _ R). }
  { exact (rn_pc _ _ _ R _ Hp). }
  exists m2, vals, stk. split; [exact Hrun|]. split.
  - intros fuel Hf. apply Exec_start_steps. exists (n + 1)%nat, m2. split; [lia|]. split; [|exact E2].
    eapply steps_app; [exact (rn_steps _ _ _ R)|]. eapply steps_S; [exact S2 | constructor].
  - intros sl t Hs Ht. destruct (Hres sl t Hs Ht) as (w & Hw & (r & Hr & Hu)). exists w. split; [exact Hw|].
    exists r. split; [now rewrite Hsame | exact Hu].
Qed.
End Start.
