(* ===== verification/Conversion.v ===== *)
(** * Theorems on the conversion of WebAssembly functions

  The reader and the converter: reading code, translating a function without control
  flow, what the translation computes, the registers of operands, calls. *)

From S2P Require Import Prelude CInt BitField CFloat Wasm Isa Inst Expand Ubh Memory UModule StrTab TypeEncoder Encoder Machine Handlers Exec Frames Windows Safety Loading Sample Reachable Typed Ops Code Leb128 Winst Splitting LocalTable Graph Converter Convert Alloc Straight Creation Building Translation Running Compiled Calls.
From stdpp Require Import strings.
From Stdlib Require Import ZArith Lia.
Local Open Scope Z_scope.
Import WINST.

Section Conversion.
Context {bd : Build} {vg : VectorGrowth} {cb : ConvBuild}.

Lemma source_coded cd i : source_of cd = Some i -> coded_ok cd = true.
Proof.
  intros H. destruct cd as [op imms]. unfold source_of in H. unfold coded_ok. cbn [cd_op cd_imms] in *.
  destruct imms as [|[L v|] [|]]; try discriminate.
  - destruct op; try discriminate; reflexivity.
  - assert (imm_fits I32 (LEB L v) = true /\ imm_fits I64 (LEB L v) = true) as [F1 F2].
    { cbn [imm_fits]. rewrite !andb_true_iff, Nat.ltb_lt, Nat.leb_le. assert (0 < L /\ L <= 10)%nat; [|tauto].
      destruct op; try discriminate;
        (destruct (leb_s _ L v) eqn:E || destruct (leb_u L v) eqn:E); try discriminate;
        unfold leb_s, leb_u in E; rewrite !andb_true_iff, Nat.ltb_lt, Nat.leb_le in E; lia. }
    destruct op; try discriminate; cbn [imms_of length zip zip_with forallb]; rewrite ?F1, ?F2; reflexivity.
Qed.
Lemma sources_coded cds is_ : map source_of cds = map Some is_ -> forallb coded_ok cds = true.
Proof.
  revert is_. induction cds as [|cd cds IH]; intros [|i is_] H; try discriminate; [reflexivity|]. injection H as H1 H2.
  cbn [forallb]. now rewrite (source_coded cd i H1), (IH is_ H2).
Qed.
Lemma code_bytes_length cds : (length cds <= length (code_bytes cds))%nat.
Proof.
  induction cds as [|c cds IH]; [cbn; lia|]. cbn [code_bytes map concat length]. fold (code_bytes cds). rewrite length_app. cbn [coded_bytes length]. lia.
Qed.
Lemma Create_ubh_code_created func ctx e fid c ps ls : conv_types (sg_params (wf_sig func)) = Ok ps -> conv_types (wf_locals func) = Ok ls ->
  Z.of_nat (length ps + length ls) < 2 ^ 31 -> Create_ubh_code func (conv0 ctx e) = Ok (fid, c) -> created func ps ls c.
Proof.
  intros Hp Hl Hlen H. pose proof (conv_types_length _ _ Hp) as Ep. pose proof (conv_types_length _ _ Hl) as El.
  destruct (Create_ubh_code_run func ctx e fid c ltac:(lia) H) as (ps' & ls' & Hc).
  pose proof (cr_params _ _ _ _ Hc) as E1. pose proof (cr_locals _ _ _ _ Hc) as E2. congruence.
Qed.

(** The translation of a function without control flow, memory and calls, from its
  bytes: reading splits them, the conversion succeeds, and the code that it leaves in the
  encoder is exactly the zeros of the locals, the instructions for the body, the move of
  the result and [RETURN]; the function declares at least the registers that the code
  names.  The immediates are in any LEB128 encoding, the body's types are right, at most
  126 registers of a type are in use, and no local is assigned while the operand stack
  holds its old value. *)
Theorem straight_line_translation module func cds is_ ss ctx e fid c0 ps ls : let buf := code_bytes (cds ++ [END]) in
  GetFunc module (fc_func_idx ctx) = Ok func ->
  conv_types (sg_params (wf_sig func)) = Ok ps -> conv_types (wf_locals func) = Ok ls ->
  Create_ubh_code func (conv0 ctx e) = Ok (fid, c0) -> in_order fid (cv_enc c0) ->
  (forall t, base (ps ++ ls) t <= 126) -> Z.of_nat (length ps + length ls) < 2 ^ 31 -> Z.of_nat (length buf) + 10 < 2 ^ 32 ->
  map source_of cds = map Some is_ -> check (ps ++ ls) is_ [] = Some ss ->
  length (sg_results (wf_sig func)) = length ss -> (length ss <= 1)%nat ->
  exists instr c, Read_insts buf = Ok instr /\ Wasm_to_uwasm module instr buf ctx e = Ok c /\
    exists body, U_ENCODER.Get_inst_encoder fid (cv_enc c) = Ok body /\
      U_CODE_BODY._inst_tab body = code_of (function_code ps ls is_ ss) /\
      forall t, is_value_type t = true ->
        base (ps ++ ls) t + peak (ps ++ ls) t is_ [] <= Loading.locals t (U_CODE_BODY._ubh_code body).
Proof.
  intros buf Hf Hp Hl Hcr Hord Hbase Hlen Hbuf Hsrc Hck Hres Hss. exists (insts_at 0 (cds ++ [END])).
  pose proof (Create_ubh_code_created func ctx e fid c0 ps ls Hp Hl Hlen Hcr) as Hc0. pose proof (code_bytes_length (cds ++ [END])) as Hn.
  rewrite length_app in Hn. cbn [length] in Hn. fold buf in Hn.
  destruct (Wasm_to_uwasm_run module func cds is_ ss ctx e fid c0 ps ls Hf Hcr Hc0 Hord Hbase Hsrc Hck Hres Hss ltac:(lia)) as (c & Hw & Ht).
  exists c. split; [|split; [exact Hw | exact Ht]]. apply Read_insts_run; [|exact Hbuf].
  rewrite forallb_app, (sources_coded cds is_ Hsrc). reflexivity.
Qed.

(** The operands below have other registers than the next temporary. *)
Lemma stack_below locs ss : forall stk t k, stack_is locs stk ss -> temps t ss <= k ->
  forall e, e ∈ stk -> se_val_type e = t -> se_idx e <> base locs t + k.
Proof.
  induction ss as [|s ss IH]; intros [|x stk] t k H Hk e He Ht; cbn [stack_is] in H; try easy.
  pose proof (temps_tail t s ss). apply elem_of_cons in He as [->|He]; [|eapply IH; try eassumption; [apply H | lia]].
  destruct H as [(Hty & -> & _) _]. rewrite Ht in Hty. destruct s as [i|u]; cbn [slot_ty slot_reg] in *.
  - pose proof (local_reg_range locs i t Hty). pose proof (temps_nonneg t ss). lia.
  - injection Hty as ->. rewrite temps_same in Hk. lia.
Qed.

(** C11: The registers of operands.  [Push_temp_reg] gives a register that no local and no
  operand on the stack has; popping gives the same register back and frees it. *)
Theorem operand_registers_distinct locs ss c t ins_cnt : inv locs ss c -> is_value_type t = true -> base locs t + temps t ss < 126 ->
  exists r c', Push_temp_reg ins_cnt t c = Ok (r, c') /\ inv locs (STemp t :: ss) c' /\
    (forall i, locs !! i = Some t -> local_reg locs i <> r) /\
    (forall e, e ∈ cv_stack c -> se_val_type e = t -> se_idx e <> r) /\
    exists e c'', Pop_wasm_stk t c' = Ok (e, c'') /\ se_idx e = r /\ inv locs ss c''.
Proof.
  intros Hinv Ht Hb. destruct (Push_temp_reg_run locs ss c ins_cnt t Hinv Ht Hb) as (c' & Hp & Hinv' & _).
  exists (base locs t + temps t ss), c'. split; [exact Hp|]. split; [exact Hinv'|]. pose proof (temps_nonneg t ss). split; [|split].
  - intros i Hi. pose proof (local_reg_range locs i t Hi). lia.
  - apply (stack_below locs ss (cv_stack c)); [exact (iv_stack _ _ _ Hinv) | lia].
  - destruct (Pop_wasm_stk_run locs (STemp t) ss c' t t Hinv' eq_refl (or_introl eq_refl)) as (e & c'' & Hpop & (_ & He & _) & Hinv'' & _).
    exists e, c''. auto.
Qed.

Lemma row_of_encode o : Encode (row_of o) = o.
Proof. destruct o; vm_compute; reflexivity. Qed.
Lemma insts_at_lookup cs k c : cs !! k = Some c -> exists i, insts_at 0 cs !! k = Some i /\ Encode i = cd_op c /\
  drop (_wasm_pc i) (code_bytes cs) = coded_bytes c ++ code_bytes (drop (S k) cs).
Proof.
  intros Hk. pose proof (take_drop_middle cs k c Hk) as Hcs. pose proof (lookup_lt_Some _ _ _ Hk).
  exists (set_wasm_pc (length (code_bytes (take k cs))) (row_of (cd_op c))). split; [|split; [apply row_of_encode|]].
  - transitivity (insts_at 0 (take k cs ++ c :: drop (S k) cs) !! k); [now rewrite Hcs|]. rewrite insts_at_app.
    rewrite lookup_app_r, insts_at_length, length_take, Nat.min_l, Nat.sub_diag by (rewrite ?insts_at_length, ?length_take; lia). reflexivity.
  - transitivity (drop (length (code_bytes (take k cs))) (code_bytes (take k cs ++ c :: drop (S k) cs))); [now rewrite Hcs|].
    unfold code_bytes at 2. rewrite map_app, concat_app. cbn [map concat]. apply drop_app_length.
Qed.

Lemma mov_word_keep t f v w : f = U_INST32.R_R_r1 \/ f = U_INST32.R_R_r2 -> mov_word t w -> mov_word t (fset f v w).
Proof.
  intros Hf [H1 H2]. unfold mov_word, U_INST32.Opcode, U_INST32.Valtype in *.
  destruct Hf as [-> | ->]; now rewrite !fget_fset_other by reflexivity.
Qed.

(** C13: LEB128.  What the encoder writes for a number, padded or not, the decoder reads
  back, and it takes just those bytes: unsigned and signed numbers of 64 bits. *)
Theorem leb128_round_trip v w PadTo rest : in_u 64 v -> in_s 64 w -> PadTo <= 10 ->
  (exists bs, encodeULEB128 v PadTo = Ok bs /\ PadTo <= Z.of_nat (length bs) <= 10 /\
    decodeULEB128 (bs ++ rest) None = Ok (v, Z.of_nat (length bs), None)) /\
  (exists bs, encodeSLEB128 w PadTo = Ok bs /\ PadTo <= Z.of_nat (length bs) <= 10 /\
    decodeSLEB128 (bs ++ rest) None = Ok (w, Z.of_nat (length bs), None)).
Proof.
  intros Hv Hw Hp. split.
  - destruct (encodeULEB128_run v PadTo Hv) as (L & H1 & H2 & H3 & H4 & ->). exists (leb_bytes L v). rewrite length_leb_bytes.
    split; [reflexivity|]. split; [lia|]. apply decodeULEB128_run; (exact Hv || lia).
  - destruct (encodeSLEB128_run w PadTo Hw) as (L & H1 & H2 & H3 & H4 & ->). exists (leb_bytes L w). rewrite length_leb_bytes.
    split; [reflexivity|]. split; [lia|]. apply decodeSLEB128_run; (assumption || lia).
Qed.

(** C12: Reading a function's bytes splits them into its instructions, each with its place,
  for all instructions of the format but [memory.size]; no immediate is taken for an
  instruction, whatever its bytes are. *)
Theorem code_split_into_instructions cs : forallb coded_ok cs = true -> Z.of_nat (length (code_bytes cs)) + 10 < 2 ^ 32 ->
  exists instr, Read_insts (code_bytes cs) = Ok instr /\ length instr = length cs /\
    forall k c, cs !! k = Some c -> exists i, instr !! k = Some i /\ Encode i = cd_op c /\
      drop (_wasm_pc i) (code_bytes cs) = coded_bytes c ++ code_bytes (drop (S k) cs).
Proof.
  intros Hok Hlen. exists (insts_at 0 cs). split; [now apply Read_insts_run|]. split; [apply insts_at_length|].
  intros k c Hk. apply (insts_at_lookup cs k c Hk).
Qed.

(** C10: The moves around a direct call.  After [fix_call] the move of the argument [j]
  writes the register that is, in the window of the callee, the register of its parameter
  [j], and the move of the result reads the callee's register 0; nothing else changes.
  The window starts at the number of registers that the caller declares as its locals. *)
Theorem call_moves_in_window module func_id tab c pc ps rs : body_is func_id tab c -> call_at tab module pc ps rs ->
  Forall (fun t => is_value_type t = true) ps -> Forall (fun t => is_value_type t = true) rs -> small_tabs c -> Z.of_nat (S pc) < 2 ^ 16 ->
  Z.of_nat (length ps) <= 100 ->
  exists c' tab', fix_call module func_id (Z.of_nat pc) c = Ok (tt, c') /\ body_is func_id tab' c' /\
    (forall j t n w, ps !! j = Some t -> shift_of t c = Ok n -> tab !! (pc - length ps + j)%nat = Some w ->
      exists w', tab' !! (pc - length ps + j)%nat = Some w' /\ mov_word t w' /\
        fget U_INST32.R_R_r1 w' = n + local_reg ps j /\ fget U_INST32.R_R_r2 w' = fget U_INST32.R_R_r2 w) /\
    (forall t n w, rs = [t] -> shift_of t c = Ok n -> tab !! S pc = Some w ->
      exists w', tab' !! S pc = Some w' /\ mov_word t w' /\
        fget U_INST32.R_R_r2 w' = n + 0 /\ fget U_INST32.R_R_r1 w' = fget U_INST32.R_R_r1 w) /\
    (forall i, (i < pc - length ps \/ i = pc \/ pc + length rs < i)%nat -> tab' !! i = tab !! i).
Proof.
  intros Hb Hc Hps Hrs Hsm Hpc H100. destruct (fix_call_run func_id module tab c pc ps rs Hb Hc Hps Hrs Hsm Hpc) as (e & tab' & R & B & In & Res & Out).
  exists (set_enc e c), tab'. split; [exact R|]. split; [exact B|]. split; [|split; [|exact Out]].
  - intros j t n w Hj Hn Hw. eexists. split; [exact (In j t n w Hj Hn Hw)|].
    destruct (ca_args _ _ _ _ _ Hc j t Hj) as (w0 & Hw0 & Hm). rewrite Hw in Hw0. injection Hw0 as <-.
    pose proof (shift_of_range t c n Hsm Hn). pose proof (local_reg_range ps j t Hj). pose proof (count_le_length t ps). pose proof RET_REG_NUM_range.
    split; [apply mov_word_keep; auto|]. rewrite fget_fset_same, fget_fset_other by reflexivity. split; [|reflexivity].
    apply wrapu_id. unfold in_u, base in *. cbn [fd_w U_INST32.R_R_r1]. lia.
  - intros t n w Hr Hn Hw. eexists. split; [exact (Res t n w Hr Hn Hw)|].
    destruct (ca_results _ _ _ _ _ Hc t Hr) as (w0 & Hw0 & Hm). rewrite Hw in Hw0. injection Hw0 as <-.
    pose proof (shift_of_range t c n Hsm Hn). split; [apply mov_word_keep; auto|]. rewrite fget_fset_same, fget_fset_other by reflexivity.
    split; [|reflexivity]. rewrite Z.add_0_r. apply wrapu_id. unfold in_u. cbn [fd_w U_INST32.R_R_r2]. lia.
Qed.
End Conversion.

(** ** Running the translation *)
Section Execution.
Context {bd : Build} {pf : Platform} {rt : Runtime} {rf : RuntimeFrame rt} {rty : RuntimeTyped rt} {fe : FloatEnv} {cb : ConvBuild}.

(** What a translated function computes.  In a state that the machine reaches, at the
  first instruction of the code of [straight_line_translation], with the arguments in the
  registers of the parameters: the machine runs to [RETURN], the function's semantics has
  a result, and register 0 of the result's type holds it.  (The two instructions that zero
  a local of type f64 read its register first, so it must have been written before.) *)
Theorem straight_line_execution secs func n m ps ls is_ ss args p : reachable secs func n m ->
  Forall (fun t => is_value_type t = true) (ps ++ ls) -> (forall t, base (ps ++ ls) t <= 126) ->
  (forall t, base (ps ++ ls) t + peak (ps ++ ls) t is_ [] <= rnum (_types m) (_func_idx (_current m)) t) ->
  check (ps ++ ls) is_ [] = Some ss -> (length ss <= 1)%nat -> length args = length ps ->
  (forall i t, ps !! i = Some t -> exists v, args !! i = Some v /\ reg_holds m t (local_reg ps i) v) ->
  f64_readable ps ls m -> _pc (_current m) = Some p -> code_at m p (function_code ps ls is_ ss) ->
  exists m' k vals stk, steps k m m' /\ S k = length (function_code ps ls is_ ss) /\
    _pc (_current m') = Some (p + Z.of_nat k) /\ expands m' (p + Z.of_nat k) (inst_for Opcode.RETURN I32 []) /\
    run is_ (args ++ repeat 0 (length ls), []) = Some (vals, stk) /\
    forall s t, ss = [s] -> slot_ty (ps ++ ls) s = Some t -> exists v, stk = [v] /\ reg_holds m' t 0 v.
Proof.
  intros Hr Hty Hb Hd Hck H1 Hla Hargs Hf Hp Hc.
  assert (good m) as Hg by (split; [eapply reachable_windows | eapply reachable_typed]; exact Hr).
  assert (first_hold ps ls (length ps) args m) as Hfirst.
  { intros i t Hi Ht. rewrite lookup_app_l in Ht by exact Hi. rewrite local_reg_app by exact Hi. auto. }
  destruct (function_runs ps ls Hty is_ ss args m p Hg Hb Hd Hck H1 Hla Hfirst Hf Hp Hc) as (m' & k & vals & stk & Hk & R & Hx & Hrun & Hres).
  exists m', k, vals, stk. split; [apply R|]. split; [congruence|]. split; [exact (rn_pc _ _ _ R _ Hp)|]. auto.
Qed.
End Execution.

(** ** Concrete functions *)
Section Witnesses.
#[local] Instance wasm_option : ConvBuild := {| runtime_wasm := true |}.
Definition file_context : FILE_CONTEXT := mkCTX 0 0 false ∅ ∅.
(** [wabt]'s numbers of i32 and i64. *)
Definition wi32 : Z := -1.
Definition wi64 : Z := -2.

(** [(func $main (result i32) (local i32 i64) i32.const 5 local.set 0 local.get 0 i32.const 7 i32.add)] *)
Definition twelve_module : WABT_MODULE := mkMODULE [mkFUNC main_name (mkSIG [] [wi32]) [wi32; wi64]] [] [].
Definition twelve_code : list CODED :=
  [mkCODED I32Const [LEB 1 5]; mkCODED LocalSet [LEB 1 0]; mkCODED LocalGet [LEB 2 0]; mkCODED I32Const [LEB 3 7]; mkCODED I32Add []].
Definition twelve : list SIMPLE := [S_Const I32 5; S_LocalSet 0; S_LocalGet 0; S_Const I32 7; S_Op I32Add].
Definition no_enc : U_ENCODER.t := U_ENCODER.mk (-1) [] [] [] (mkTYPE_ENCODER [] str_tab0) [] [] [] [] [] str_tab0 str_tab0.
Definition start_enc : U_ENCODER.t := from_ok no_enc U_ENCODER.create.
Definition no_conv : CONV := conv0 file_context no_enc.
Definition twelve_created : Z * CONV :=
  from_ok (0, no_conv) (Create_ubh_code (mkFUNC main_name (mkSIG [] [wi32]) [wi32; wi64]) (conv0 file_context start_enc)).
Definition twelve_bytes : list Z := code_bytes (twelve_code ++ [END]).

Lemma bases_small ls : forallb (fun t => base ls t <=? 126) [I32; I64; F32; F64; VALTY_UNKNOWN] = true -> forall t, base ls t <= 126.
Proof. intros H t. rewrite forallb_forall in H. apply Z.leb_le, H. destruct t; cbn; auto 10. Qed.

Lemma straight_line_translation_witness : exists instr c, Read_insts twelve_bytes = Ok instr /\
  Wasm_to_uwasm twelve_module instr twelve_bytes file_context start_enc = Ok c /\
  exists body, U_ENCODER.Get_inst_encoder 0 (cv_enc c) = Ok body /\
    U_CODE_BODY._inst_tab body = code_of (function_code [] [I32; I64] twelve [STemp I32]) /\
    forall t, is_value_type t = true ->
      base [I32; I64] t + peak [I32; I64] t twelve [] <= Loading.locals t (U_CODE_BODY._ubh_code body).
Proof.
  refine (straight_line_translation twelve_module (mkFUNC main_name (mkSIG [] [wi32]) [wi32; wi64]) twelve_code twelve [STemp I32] file_context start_enc
    0 twelve_created.2 [] [I32; I64] _ _ _ _ _ _ _ _ _ _ _ _); try (vm_compute; reflexivity).
  - vm_compute. intuition congruence.
  - apply bases_small. vm_compute. reflexivity.
Defined.
(** The module with that function, loaded. *)
Definition secs_of (module : WABT_MODULE) (bytes : list Z) : outcome SECTIONS :=
  instr ← Read_insts bytes;
  c ← Wasm_to_uwasm module instr bytes file_context start_enc;
  r ← U_ENCODER.Finish (cv_enc c);
  written r.2.
Definition started (secs : SECTIONS) : outcome UWASM_MACHINE :=
  types ← Types.Decode_type_and_cache secs;
  r ← Init_memory (Some (sample_block 65536)) 65536 (UWASM_MACHINE_new secs types (mkCODES ∅ ∅ ∅ ∅ ∅ 0));
  r ← Init_env 0 r.2;
  mret r.2.
Lemma started_reachable secs m n m' : started secs = Ok m -> exec_n n m = Ok m' -> reachable secs 0 n m'.
Proof.
  unfold started. intros H Hn. destruct (Types.Decode_type_and_cache secs) as [types|] eqn:Et; [|discriminate]. cbn [mbind outcome_bind] in H.
  destruct (Init_memory _ _ _) as [[ret m0]|] eqn:Em; [|discriminate]. cbn [mbind outcome_bind snd] in H.
  destruct (Init_env 0 m0) as [[[] m1]|] eqn:Ee; [|discriminate]. cbn [mbind outcome_bind mret outcome_ret snd] in H. injection H as H. subst m1.
  eapply reachable_intro; [exact Et | exact Em | exact Ee | now apply exec_n_steps].
Qed.
Definition twelve_secs : SECTIONS := from_ok no_secs (secs_of twelve_module twelve_bytes).
Definition twelve_start : UWASM_MACHINE := from_ok no_machine (started twelve_secs).

(** Instructions in a table, decided. *)
#[local] Instance AM_EXPAND_eq_dec : EqDecision AM_EXPAND.
Proof. solve_decision. Defined.
Definition expands_at (m : UWASM_MACHINE) (p : Z) (x : INST) : bool :=
  match _expanded_table (_codes m) !! p with Some y => bool_decide (y = inst_expand x y) | None => false end.
Definition code_at_b (m : UWASM_MACHINE) (p : Z) (is_ : list INST) : bool :=
  forallb (fun k => match is_ !! k with Some x => expands_at m (p + Z.of_nat k) x | None => true end) (seq 0 (length is_)).
Lemma code_at_check m p is_ : code_at_b m p is_ = true -> code_at m p is_.
Proof.
  intros H k x Hk. unfold code_at_b in H. rewrite forallb_forall in H. specialize (H k). rewrite Hk in H.
  assert (expands_at m (p + Z.of_nat k) x = true) as E by (apply H, in_seq; apply lookup_lt_Some in Hk; lia).
  unfold expands_at in E. destruct (_expanded_table (_codes m) !! _) as [y|] eqn:Ey; [|discriminate]. apply bool_decide_eq_true_1 in E. exists y. congruence.
Qed.

Lemma straight_line_execution_witness : exists m' k vals stk, steps k twelve_start m' /\
  S k = length (function_code [] [I32; I64] twelve [STemp I32]) /\
  _pc (_current m') = Some (0 + Z.of_nat k) /\ expands m' (0 + Z.of_nat k) (inst_for Opcode.RETURN I32 []) /\
  run twelve ([] ++ repeat 0 2, []) = Some (vals, stk) /\
  forall s t, [STemp I32] = [s] -> slot_ty [I32; I64] s = Some t -> exists v, stk = [v] /\ reg_holds m' t 0 v.
Proof.
  refine (straight_line_execution twelve_secs 0 0 twelve_start [] [I32; I64] twelve [STemp I32] [] 0 _ _ _ _ _ _ _ _ _ _ _).
  - apply (started_reachable _ twelve_start); vm_compute; reflexivity.
  - repeat constructor.
  - apply bases_small. vm_compute. reflexivity.
  - intros t. destruct t; vm_compute; congruence.
  - vm_compute. reflexivity.
  - cbn. lia.
  - reflexivity.
  - discriminate.
  - intros [|[|i]]; discriminate.
  - vm_compute. reflexivity.
  - apply code_at_check. vm_compute. reflexivity.
Defined.
Lemma twelve_inv : inv [I32; I64] [] twelve_created.2.
Proof.
  destruct (Create_ubh_code_created (mkFUNC main_name (mkSIG [] [wi32]) [wi32; wi64]) file_context start_enc 0 twelve_created.2 [] [I32; I64])
    as [_ _ T _ _ S _ R _]; try (vm_compute; reflexivity).
  apply inv_start; [exact T | exact S | exact R |]. apply bases_small. vm_compute. reflexivity.
Qed.

(** With the local 0 on the stack. *)
Definition twelve_pushed : CONV := set_stack [mkELEM LOCAL I32 (local_reg [I32; I64] 0) 1] twelve_created.2.
Lemma operand_registers_distinct_witness : exists r c', Push_temp_reg 2 I32 twelve_pushed = Ok (r, c') /\ inv [I32; I64] [STemp I32; SLocal 0] c' /\
  (forall i, [I32; I64] !! i = Some I32 -> local_reg [I32; I64] i <> r) /\
  (forall e, e ∈ cv_stack twelve_pushed -> se_val_type e = I32 -> se_idx e <> r) /\
  exists e c'', Pop_wasm_stk I32 c' = Ok (e, c'') /\ se_idx e = r /\ inv [I32; I64] [SLocal 0] c''.
Proof.
  apply (operand_registers_distinct [I32; I64] [SLocal 0] twelve_pushed I32 2).
  - exact (proj1 (push_local [I32; I64] [] twelve_created.2 0 I32 (mkELEM LOCAL I32 (local_reg [I32; I64] 0) 1) twelve_inv eq_refl
      (conj eq_refl (conj eq_refl (or_introl eq_refl))))).
  - reflexivity.
  - vm_compute. reflexivity.
Defined.

Lemma leb128_round_trip_witness :
  (exists bs, encodeULEB128 300 4 = Ok bs /\ 4 <= Z.of_nat (length bs) <= 10 /\
    decodeULEB128 (bs ++ [11]) None = Ok (300, Z.of_nat (length bs), None)) /\
  (exists bs, encodeSLEB128 (-300) 4 = Ok bs /\ 4 <= Z.of_nat (length bs) <= 10 /\
    decodeSLEB128 (bs ++ [11]) None = Ok (-300, Z.of_nat (length bs), None)).
Proof. apply (leb128_round_trip 300 (-300) 4 [11]); vm_compute; intuition congruence. Defined.

(** The immediate of [i32.const 11] is the byte of [end]. *)
Definition eleven : list CODED := [mkCODED I32Const [LEB 1 11]; mkCODED BrTable [LEB 1 1; LEB 1 0; LEB 2 0]; END].
Lemma code_split_into_instructions_witness : exists instr, Read_insts (code_bytes eleven) = Ok instr /\ length instr = length eleven /\
  forall k c, eleven !! k = Some c -> exists i, instr !! k = Some i /\ Encode i = cd_op c /\
    drop (_wasm_pc i) (code_bytes eleven) = coded_bytes c ++ code_bytes (drop (S k) eleven).
Proof. apply (code_split_into_instructions eleven); vm_compute; reflexivity. Defined.

(** [(func $main (result i32) i32.const 1 i32.const 2 call 1)], before the moves are fixed. *)
Definition caller_module : WABT_MODULE :=
  mkMODULE [mkFUNC main_name (mkSIG [] [wi32]) []; mkFUNC add_name (mkSIG [wi32; wi32] [wi32]) []] [] [].
Definition caller_bytes : list Z := [0x41; 1; 0x41; 2; 0x10; 1; 0x0b].
Definition caller_state : CONV :=
  from_ok no_conv (func ← GetFunc caller_module 0;
    instr ← Read_insts caller_bytes;
    '(_, c) ← (fid ← Create_ubh_code func;
               _ ← build_graph caller_bytes instr;
               conv_insts caller_module caller_bytes func fid instr BLOCK_INSTR_BEGIN) (conv0 file_context start_enc);
    mret c).
Definition caller_words : list Z :=
  match U_ENCODER._u_inst_encoder (cv_enc caller_state) with b :: _ => U_CODE_BODY._inst_tab b | [] => [] end.
Lemma caller_body : body_is 0 caller_words caller_state.
Proof.
  split; [vm_compute; intuition congruence|]. exists [], (from_ok (U_CODE_BODY.create (0, 0, 0, 0) (0, 0, 0, 0) 0)
    (vec_at (U_ENCODER._u_inst_encoder (cv_enc caller_state)) 0)). split; vm_compute; reflexivity.
Qed.
Lemma caller_call : call_at caller_words caller_module 6 [I32; I32] [I32].
Proof.
  split.
  - exists 1027, (mkFUNC add_name (mkSIG [wi32; wi32] [wi32]) []). vm_compute. auto 10.
  - cbn. lia.
  - intros [|[|j]] t H; [| |discriminate]; injection H as <-; eexists; (split; [vm_compute; reflexivity|]); now split.
  - intros t [= <-]. eexists. split; [vm_compute; reflexivity|]. now split.
  - cbn. lia.
Qed.
Lemma small_tabs_check c :
  forallb (fun t => match pt_get t (cv_local_tab c) with Ok l => Z.of_nat (length (_content l)) <? 900 | Err _ => true end)
    [I32; I64; F32; F64; VALTY_UNKNOWN] = true -> small_tabs c.
Proof.
  intros H t l Hl. rewrite forallb_forall in H. specialize (H t). rewrite Hl in H. apply Z.ltb_lt, H. destruct t; cbn; auto 10.
Qed.
Lemma caller_small : small_tabs caller_state.
Proof. apply small_tabs_check. vm_compute. reflexivity. Qed.
Lemma call_moves_in_window_witness : exists c' (tab' : list Z), fix_call caller_module 0 (Z.of_nat 6) caller_state = Ok (tt, c') /\
  exists w4 w5 w7, tab' !! 4%nat = Some w4 /\ tab' !! 5%nat = Some w5 /\ tab' !! 7%nat = Some w7 /\
    fget U_INST32.R_R_r1 w4 = 4 + 2 /\ fget U_INST32.R_R_r1 w5 = 4 + 3 /\ fget U_INST32.R_R_r2 w7 = 4 + 0.
Proof.
  pose proof (call_moves_in_window caller_module 0 caller_words caller_state 6 [I32; I32] [I32] caller_body caller_call
    ltac:(repeat constructor) ltac:(repeat constructor) caller_small eq_refl ltac:(cbn; lia)) as (c' & tab' & H & _ & In & Res & _).
  exists c', tab'. split; [exact H|]. assert (shift_of I32 caller_state = Ok 4) as Hs by (vm_compute; reflexivity).
  destruct (In 0%nat I32 4 8388626 eq_refl Hs ltac:(vm_compute; reflexivity)) as (w4 & W4 & _ & R4 & _).
  destruct (In 1%nat I32 4 12582930 eq_refl Hs ltac:(vm_compute; reflexivity)) as (w5 & W5 & _ & R5 & _).
  destruct (Res I32 4 2066 eq_refl Hs ltac:(vm_compute; reflexivity)) as (w7 & W7 & _ & R7 & _).
  exists w4, w5, w7. repeat (split; [assumption|]). exact R7.
Defined.

(** ** Where the code departs from WebAssembly *)
Definition code_words_of (p r l bytes : list Z) : outcome (list Z) :=
  instr ← Read_insts bytes;
  c ← Wasm_to_uwasm (mkMODULE [mkFUNC main_name (mkSIG p r) l] [] []) instr bytes file_context start_enc;
  b ← U_ENCODER.Get_inst_encoder 0 (cv_enc c);
  mret (U_CODE_BODY._inst_tab b).

(** [local.get] stands for the local, not for its value: [local.get 0 i32.const 5
  local.set 0] returns the new value of the local, in register 2, not the argument. *)
Lemma local_get_is_a_reference : code_words_of [wi32] [wi32] [] [0x20; 0; 0x41; 5; 0x21; 0; 0x0b] =
  Ok (code_of [inst_for Opcode.CONST_L I32 [3; 5]; inst_for Opcode.MOV I32 [2; 3];
               inst_for Opcode.MOV I32 [0; 2]; inst_for Opcode.RETURN I32 []]).
Proof. vm_compute. reflexivity. Qed.

(** The result of a loop is not moved to the register it is read from:
  [loop (result i32) i32.const 7 end]. *)
Lemma loop_result_not_moved : code_words_of [] [wi32] [] [0x03; 0x7f; 0x41; 7; 0x0b; 0x0b] =
  Ok (code_of [inst_for Opcode.CONST_L I32 [3; 7]; inst_for Opcode.MOV I32 [0; 2]; inst_for Opcode.RETURN I32 []]).
Proof. vm_compute. reflexivity. Qed.

(** The table has no immediate for [memory.size], so its reserved byte is an instruction. *)
Lemma memory_size_misread : (map Encode <$> match Read_insts [0x3f; 0; 0x0b] with Ok l => Some l | Err _ => None end) =
  Some [MemorySize; Unreachable; End].
Proof. vm_compute. reflexivity. Qed.

(** A branch to the label of the function, [local.get 0 br_if 0], is refused. *)
Lemma branch_to_function_refused : code_words_of [wi32] [] [] [0x20; 0; 0x0d; 0; 0x0b] = Err AssertFail.
Proof. vm_compute. reflexivity. Qed.
End Witnesses.
