(* ===== verification/Deployed.v ===== *)
(** * Files that are run and linked: theorems

  The function that starts a written file, the run of a file to its end, and the linked
  file, with instances in the sample programs. *)

From S2P Require Import Prelude CInt BitField Bytes CFloat Isa Inst Expand Ubh Memory UModule StrTab TypeEncoder Encoder Code CodeSec Layout File Saved Machine Handlers Exec Frames Windows Safety LocalTable SysCalls System Starting Linker Linked Sample Reachable Ops Leb128 Winst Splitting Graph Converter Convert Alloc Straight Creation Building Translation Running Compiled Ending HostCalls Format Conversion.
From stdpp Require Import strings.
From Stdlib Require Import ZArith Lia.
Local Open Scope Z_scope.

Section Theorems.
Context {bd : Build} {vg : VectorGrowth}.
Import U_ENCODER.

(** C28: The function that starts a file.  From the file that is written the loader's
  [Search_start] answers the function of the encoder's start header, which is named
  "main"; without such a function the first that is neither extern nor imported.
  [Search_start_by_name] answers the first function of the name, if it is of the module. *)
Theorem start_function_found e e' u w total : Finish e = Ok (u, e') -> Collect_write_info e' = Ok (w, total) ->
  finished_from (_u_inst_encoder e) e' -> file_fits e' = true ->
  exists buf m, Write_to_file e = Ok (buf, e') /\ Read_sections buf = Ok m /\
  (forall i, find_start (_raw_buf (_module_string_tab e')) 0 (_func_tab e') = Ok (Some i) ->
    Search_start m = Ok i /\ exists f, _func_tab e' !! Z.to_nat i = Some f /\ name_at m f START_FUNC_NAME = Ok true) /\
  (forall i f, find_start (_raw_buf (_module_string_tab e')) 0 (_func_tab e') = Ok None -> _func_tab e' !! i = Some f ->
    not_here f = false -> (forall j g, (j < i)%nat -> _func_tab e' !! j = Some g -> not_here g = true) -> Search_start m = Ok (Z.of_nat i)) /\
  (forall name i f, _func_tab e' !! i = Some f -> not_here f = false -> name_at m f name = Ok true ->
    (forall j g, (j < i)%nat -> _func_tab e' !! j = Some g -> name_at m g name = Ok false) -> Search_start_by_name name m = Ok (Z.of_nat i)).
Proof.
  intros Hfin Hc Hv Hf. destruct (file_saved e e' u w total Hfin Hc Hv Hf) as (buf & m & H1 & _ & H2 & Hh).
  exists buf, m. split; [exact H1|]. split; [exact H2|]. split; [|split].
  - intros i. now apply Search_start_main.
  - intros i f. now apply (Search_start_first e').
  - intros name i f. now apply (Search_start_named e').
Qed.

(** A straight-line program ends, with the right value.  A file is loaded and its start
  function has the code that the converter makes of a function of constants, locals and
  total integer operators; the arguments of the command line have the types of its
  parameters.  Then the run comes to the break instruction after as many iterations as the
  function has instructions and one more; register 0 holds the result that the function
  has in WebAssembly for these arguments; and the check of the return value passes exactly
  when it is the expected one (in the release build it always passes). *)
Theorem straight_line_program_ends {pf : Platform} {cb : ConvBuild} {host : Host} {fe : FloatEnv} mem_p o s0 s ps ls is_ ss p :
  prepare mem_p o s0 = Ok s -> _machine s0 = UWASM_MACHINE_new no_sections no_types no_codes -> o_sreg o = [] ->
  map fst (o_args o) = ps -> Forall (fun t => is_value_type t = true) (ps ++ ls) -> (forall t, base (ps ++ ls) t <= 126) ->
  (forall t, base (ps ++ ls) t + peak (ps ++ ls) t is_ [] <= rnum (_types (_machine s)) (_func_idx (_current (_machine s))) t) ->
  check (ps ++ ls) is_ [] = Some ss -> (length ss <= 1)%nat ->
  _pc (_current (_machine s)) = Some p -> code_at (_machine s) p (function_code ps ls is_ ss) ->
  let enough fuel := (length (function_code ps ls is_ ss) < fuel)%nat in
  exists s' vals stk, run is_ (map arg_value (o_args o) ++ repeat 0 (length ls), []) = Some (vals, stk) /\
    (forall fuel, enough fuel -> Exec_continue fuel s = Ok s') /\
    forall sl t, ss = [sl] -> slot_ty (ps ++ ls) sl = Some t -> exists v, stk = [v] /\
      (exists r, UVM_get_reg t 0 s' = Ok r /\ wrapu (width t) r = v) /\
      forall fuel x, enough fuel -> o_check_ret o = Some (t, x) ->
        is_ok (Start_vm_non_interactive fuel mem_p o s0) = release || (value_bits t x =? v).
Proof.
  intros H H0 Ho Hps Hty Hb Hd Hck H1 Hp Hc enough.
  destruct (program_runs mem_p o s0 s ps ls is_ ss p H H0 Ho Hps Hty Hb Hd Hck H1 Hp Hc) as (m' & vals & stk & Hrun & Hex & Hres).
  assert (Hcont : forall fuel, enough fuel -> Exec_continue fuel s = Ok (mkSYSTEM (sy_module s) m' (_string_args s) (_func_infos s))).
  { intros fuel Hf. unfold Exec_continue. now rewrite (Hex fuel Hf). }
  eexists. exists vals, stk. split; [exact Hrun|]. split; [exact Hcont|].
  intros sl t Hs Ht. destruct (Hres sl t Hs Ht) as (v & Hv & (r & Hr & Hu)). exists v. split; [exact Hv|]. split.
  - exists r. split; [|exact Hu]. unfold UVM_get_reg, reg_get. cbn [_machine]. now rewrite Hr.
  - intros fuel x Hf Hx. unfold Start_vm_non_interactive. rewrite H. cbn [mbind outcome_bind]. rewrite (Hcont fuel Hf), Hx. cbn [mbind outcome_bind].
    rewrite <- Hu, <- (check_return t x r (mkSYSTEM (sy_module s) m' (_string_args s) (_func_infos s)) Hr).
    now destruct (Check_return_value _ _).
Qed.

(** C29: The linked file.  The linker reads a written file and a shared object, puts the
  place of each function symbol into the import of its name, and writes a file that the
  loader reads: its tables, functions and code are those of the first file with these
  imports, and its native section is one entry with the text of the shared object. *)
Theorem linked_file e e' u w total buf s elf text : Finish e = Ok (u, e') -> Collect_write_info e' = Ok (w, total) ->
  finished_from (_u_inst_encoder e) e' -> file_fits e' = true ->
  Write_to_file e = Ok (buf, e') -> Open_ubh_file buf = Ok s -> find_text elf = Some text ->
  Z.of_nat (length (es_data text)) < 2 ^ 26 -> total + 16 + aligned_size (Z.of_nat (length (es_data text))) < 2 ^ 26 ->
  let imports := link_symbols (_name_import_cache s) (es_offset text) (searched elf) (_imp_nat_tab e') in
  exists out m, link_files buf (Some elf) = Ok out /\ Read_sections out = Ok m /\
    linked_holds (patched imports e') (es_data text) m /\
    forall before after sym i ent, searched elf = before ++ sym :: after -> sym_type sym = STT_FUNC ->
      _name_import_cache s !! sym_name sym = Some i -> _imp_nat_tab e' !! Z.to_nat i = Some ent ->
      (forall sym', sym' ∈ after -> sym_type sym' = STT_FUNC -> _name_import_cache s !! sym_name sym' <> Some i) ->
      exists ent', nthZ (_imp_nat_sec m) i = Ok ent' /\ UBH_IMP_NAT.Get_func_idx ent' = UBH_IMP_NAT.Get_func_idx ent /\
        UBH_IMP_NAT.Get_nat_idx ent' = 0 /\ UBH_IMP_NAT.Get_nat_off ent' = wrapu 24 (sym_value sym - es_offset text).
Proof.
  intros Hfin Hc Hv Hf Hw Ho Ht Htd Hroom imports. destruct (Collect_facts e' w total Hf Hc) as (hs & rest & Hco).
  destruct (Write_to_file_run e e' u w total hs rest Hfin Hf Hc Hco) as [Hw' Hl]. rewrite Hw in Hw'. injection Hw' as ->.
  destruct (Read_sections_run _ e' w total hs rest Hv Hf Hco) as (m0 & Hm0 & Hh & Hsh & Hnum).
  pose proof (co_total _ _ _ _ _ Hco) as Htot. change UBH_MHDR.sizeof with 12 in Htot.
  destruct (link_files_run _ e' m0 w total hs rest s elf text Hv Hf Hco Hh Hsh Hnum Hm0 Ho Ht Htd ltac:(lia)) as (out & m & H1 & H2 & H3).
  fold imports in H3. exists out, m. split; [exact H1|]. split; [exact H2|]. split; [exact H3|].
  intros before after sym i ent Hs Hty Hi Hent Hlast.
  assert (cache_fits (_name_import_cache s) (length (_imp_nat_tab e'))) as Hcf by (eapply Open_ubh_run; eauto).
  destruct (link_symbols_last (_name_import_cache s) (es_offset text) (_imp_nat_tab e') before sym after i ent Hcf Hty Hi Hent Hlast) as (x & Hx & Hfi).
  rewrite <- Hs in Hx. fold imports in Hx. exists (entry_at (es_offset text) (sym_value sym) x). split.
  - apply nthZ_Ok. split; [exact (proj1 (Hcf _ _ Hi))|]. pose proof (lh_tables _ _ _ H3 S_IMP_NAT) as E. cbn in E. now rewrite E.
  - destruct (entry_at_fields (es_offset text) (sym_value sym) x) as (F1 & F2 & F3). rewrite F1, Hfi. auto.
Qed.
End Theorems.

(** ** Instances *)
Section Witnesses.
Lemma start_function_found_witness : exists buf m, Write_to_file sample_built = Ok (buf, sample_written) /\ Read_sections buf = Ok m /\
  Search_start m = Ok 0.
Proof.
  destruct (start_function_found sample_built sample_written tt sample_info.1 268) as (buf & m & H1 & H2 & H3 & _).
  - vm_compute. reflexivity.
  - vm_compute. reflexivity.
  - split; [vm_compute; reflexivity|]. apply (forallb_Forall' (fun c => body_fits c = true)). vm_compute. reflexivity.
  - vm_compute. reflexivity.
  - exists buf, m. split; [exact H1|]. split; [exact H2|]. apply (H3 0). vm_compute. reflexivity.
Defined.

(** [(func $main (param i32 i32) (result i32) local.get 0 local.get 1 i32.add)], with the
  arguments 5 and 7. *)
#[local] Existing Instance sample_host.
#[local] Existing Instance wasm_option.
Definition sum_module : WABT_MODULE := mkMODULE [mkFUNC main_name (mkSIG [wi32; wi32] [wi32]) []] [] [].
Definition sum_bytes : list Z :=
  code_bytes ([mkCODED WINST.LocalGet [LEB 1 0]; mkCODED WINST.LocalGet [LEB 1 1]; mkCODED WINST.I32Add []] ++ [END]).
Definition sum_file : list Z := from_ok [] (
  instr ← Read_insts sum_bytes;
  c ← Wasm_to_uwasm sum_module instr sum_bytes file_context start_enc;
  f ← Write_to_file (cv_enc c);
  mret f.1).
Definition sum_options : OPTIONS := mkOPTIONS (Some sum_file) (-1) None [(I32, 5); (I32, 7)] [] [] (Some (I32, 12)).
Definition new_system : SYSTEM := mkSYSTEM no_module (UWASM_MACHINE_new no_sections no_types no_codes) [] [].
Definition sum_prepared : SYSTEM := from_ok new_system (prepare (Some (sample_block MEM_SIZE)) sum_options new_system).

Lemma straight_line_program_ends_witness : is_ok (Start_vm_non_interactive 10 (Some (sample_block MEM_SIZE)) sum_options new_system) = true.
Proof.
  destruct (straight_line_program_ends (Some (sample_block MEM_SIZE)) sum_options new_system sum_prepared [I32; I32] []
    [S_LocalGet 0; S_LocalGet 1; S_Op WINST.I32Add] [STemp I32] 0) as (s' & vals & stk & Hrun & _ & H).
  - apply from_ok_eq. vm_compute. reflexivity.
  - reflexivity.
  - reflexivity.
  - reflexivity.
  - repeat constructor.
  - apply bases_small. vm_compute. reflexivity.
  - intros t. destruct t; vm_compute; congruence.
  - vm_compute. reflexivity.
  - cbn. lia.
  - vm_compute. reflexivity.
  - apply code_at_check. vm_compute. reflexivity.
  - vm_compute in Hrun. injection Hrun as _ <-. destruct (H (STemp I32) I32 eq_refl eq_refl) as (v & [= <-] & _ & Hcheck).
    rewrite (Hcheck 10%nat 12); [reflexivity | apply Nat.ltb_lt; vm_compute; reflexivity | reflexivity].
Defined.

(** The program that imports [one], and a shared object with that function in its text. *)
Definition host_built : U_ENCODER.t := from_ok sample_encoder (e ← U_ENCODER.create; r ← host_program e; mret r.2).
Definition host_written : U_ENCODER.t := from_ok sample_encoder (r ← U_ENCODER.Finish host_built; mret r.2).
Definition host_info : U_ENCODER.WRITE_INFO * Z := from_ok (U_ENCODER.mkWI [] [] 0, 0) (U_ENCODER.Collect_write_info host_written).
Definition host_bytes : list Z := from_ok [] (r ← Write_to_file host_built; mret r.1).
Definition host_sld : U_SLD := from_ok (mkSLD no_module [] None ∅) (Open_ubh_file host_bytes).
Definition one_object : list ELF_SECTION := [
  mkSEC SHT_PROGBITS (LocalTable.bytes_of ".text") 4096 [144; 184; 1; 0; 0; 0; 195] [];
  mkSEC SHT_SYMTAB (LocalTable.bytes_of ".symtab") 8192 [] [mkSYM (LocalTable.bytes_of "two") 4200 STT_FUNC; mkSYM (LocalTable.bytes_of "one") 4097 STT_FUNC] ].

Lemma linked_file_witness : exists out m, link_files host_bytes (Some one_object) = Ok out /\ Read_sections out = Ok m /\
  exists ent, nthZ (_imp_nat_sec m) 0 = Ok ent /\ UBH_IMP_NAT.Get_func_idx ent = 1 /\ UBH_IMP_NAT.Get_nat_idx ent = 0 /\ UBH_IMP_NAT.Get_nat_off ent = 1.
Proof.
  destruct (linked_file host_built host_written tt host_info.1 host_info.2 host_bytes host_sld one_object (nth 0 one_object (mkSEC 0 [] 0 [] [])))
    as (out & m & H1 & H2 & _ & H4).
  - vm_compute. reflexivity.
  - vm_compute. reflexivity.
  - split; [vm_compute; reflexivity|]. apply (forallb_Forall' (fun c => body_fits c = true)). vm_compute. reflexivity.
  - vm_compute. reflexivity.
  - vm_compute. reflexivity.
  - vm_compute. reflexivity.
  - vm_compute. reflexivity.
  - vm_compute. reflexivity.
  - vm_compute. reflexivity.
  - exists out, m. split; [exact H1|]. split; [exact H2|].
    apply (H4 [mkSYM (LocalTable.bytes_of "two") 4200 STT_FUNC] [] (mkSYM (LocalTable.bytes_of "one") 4097 STT_FUNC) 0
      (from_ok 0 (nthZ (U_ENCODER._imp_nat_tab host_written) 0))).
    + reflexivity.
    + reflexivity.
    + vm_compute. reflexivity.
    + vm_compute. reflexivity.
    + intros sym Hs. now apply not_elem_of_nil in Hs.
Defined.
End Witnesses.
