(* ===== verification/Programs.v ===== *)
(** * Functions and programs with structured control flow: theorems

  The translation of a function with blocks, loops, conditionals, branches and returns
  ([Flow.v]), what the machine does with its code ([Loops.v]), and a program from its
  start to its end. *)

From S2P Require Import Prelude CInt BitField CFloat Wasm Isa Inst Expand Ubh Memory UModule StrTab TypeEncoder Encoder Machine Handlers Exec Frames Windows Safety Loading Sample Reachable Typed Ops Code CodeSec Leb128 Winst Splitting LocalTable Graph Converter Convert Alloc Straight Creation Building Translation Running Compiled File Layout Saved SysCalls System Hosted Starting Written Ending HostCalls Structured Blocks Jumping Branching Emission Flow Loops Loaded Conversion Deployed.
From stdpp Require Import strings.
From Stdlib Require Import ZArith Lia.
Local Open Scope Z_scope.
Import WINST.

Section Functions.
Context {bd : Build} {pf : Platform} {rt : Runtime} {rf : RuntimeFrame rt} {rty : RuntimeTyped rt} {fe : FloatEnv} {cb : ConvBuild}.
Variables ps ls res : list VALTYPE.
Abbreviation locs := (ps ++ ls).
Hypothesis locs_types : Forall (fun t => is_value_type t = true) locs.

(** What the machine does with a function whose source gives [r]. *)
Definition function_answer (fuel : nat) (r : RESULT) (m : UWASM_MACHINE) : Prop :=
  match r with
  | R_return rs => exists n m' q, moved n m m' /\ _pc (_current m') = Some q /\ expands m' q (inst_for Opcode.RETURN I32 []) /\ returned res rs m'
  | R_fuel => exists n m', (fuel <= n)%nat /\ steps n m m'
  | _ => False
  end.
Lemma function_answer_after fuel r n m m1 : moved n m m1 -> function_answer fuel r m1 -> function_answer fuel r m.
Proof.
  intros Hm. destruct r; cbn [function_answer]; auto.
  - intros (k & m' & q & H1 & H2). exists (n + k)%nat, m', q. split; [eapply moved_app; eauto | exact H2].
  - intros (k & m' & H1 & H2). exists (n + k)%nat, m'. split; [lia | eapply steps_app; [apply Hm | exact H2]].
Qed.

(** The end of the function: the result goes to register 0. *)
Lemma end_answer fuel ss stk m q : good m -> small locs ss -> declared locs ss m -> stack_holds locs ss stk m -> ends_with locs res ss ->
  _pc (_current m) = Some q -> code_at m q (result_code locs ss ++ [inst_for Opcode.RETURN I32 []]) -> function_answer fuel (R_return stk) m.
Proof.
  intros Hg Hs Hd Hst [Hty H1] Hp [X1 X2]%code_at_app. apply code_at_one in X2.
  destruct (result_runs ps ls ss stk m q Hg Hs Hd Hst H1 Hp X1) as (m' & R & Hres). cbn [function_answer].
  eexists _, m', _. split; [exact (ran_moved _ _ _ R)|]. split; [exact (rn_pc _ _ _ R _ Hp)|].
  split; [unfold expands; rewrite (rn_codes _ _ _ R); exact X2|]. pose proof (f_equal length Hty) as El. rewrite !length_map in El.
  split; [rewrite <- El; symmetry; eapply stack_holds_length; exact Hst|]. intros t ->. destruct ss as [|s [|]]; try discriminate El.
  injection Hty as Ht. exact (Hres s t eq_refl Ht).
Qed.

Lemma flow_runs p ss args m q tab fuel : good m -> (forall t, base locs t <= 126) ->
  (forall t, base locs t + peak_code locs res t p [] <= rnum (_types m) (_func_idx (_current m)) t) ->
  check_code locs res 0 0 p [] = Some ss -> safe p = true -> ends_with locs res ss -> length args = length ps ->
  first_hold ps ls (length ps) args m -> f64_readable ps ls m -> _pc (_current m) = Some q -> labels_are m tab -> (length tab <= 512)%nat ->
  items_at m tab q (function_items ps ls res p ss) ->
  function_answer fuel (run_function (length res) fuel p args (length ls)) m.
Proof.
  intros Hg Hb Hd Hck Hsafe Hend Hla Hargs Hf Hp Hlab Htab Hit. unfold function_items in Hit.
  apply items_at_app in Hit as [X1 Hit]. apply items_at_app in Hit as [X2 X3]. rewrite its_len_insts in X2, X3.
  assert (small locs []) as Hsm by (intros t; cbn [temps]; specialize (Hb t); lia).
  assert (declared locs [] m) as Hd0 by (intros t; specialize (Hd t); pose proof (peak_code_ge locs res t p []); lia).
  destruct (init_runs ps ls locs_types ls (length ps) args m q Hg) as (m1 & R1 & Hl1); try assumption.
  { intros k t Hk. rewrite lookup_app_r by lia. now replace (length ps + k - length ps)%nat with k by lia. }
  { now rewrite length_app. }
  { exact (items_at_code _ _ _ _ X1). }
  pose proof (ran_moved _ _ _ R1) as M1. set (q1 := q + Z.of_nat (length (init_from locs (length ps) ls))) in *.
  set (vals := args ++ repeat 0 (length ls)) in *.
  assert (here locs res [] tab 0 p [] vals [] [] [] q1 m1) as Hh.
  { split; try assumption; try reflexivity.
    - eapply moved_good; eauto.
    - intros t. rewrite (mv_types _ _ _ M1), (mv_func _ _ _ M1). apply Hd.
    - split; [exact Hl1 | exact I].
    - exact (rn_pc _ _ _ R1 _ Hp).
    - eapply labels_moved; eauto.
    - constructor.
    - eapply items_at_moved; eauto. }
  pose proof (code_simulated locs res locs_types p fuel 0%nat [] tab 0%nat [] ss vals [] [] [] q1 m1 Hck eq_refl Hh) as Ha.
  eapply function_answer_after; [exact M1|]. unfold run_function. fold vals.
  destruct (eval (length res) fuel p vals []) as [v1 stk|d v1|rs| |] eqn:E; cbn [answer function_answer] in *; try exact Ha.
  - destruct Ha as (n & m2 & M2 & Hp2 & Hf2). rewrite app_nil_r in Hf2. eapply (function_answer_after fuel (R_return stk)); [exact M2|].
    pose proof (moved_app _ _ _ _ _ M1 M2) as M12. eapply (end_answer fuel ss stk m2).
    + eapply moved_good; [exact M12 | exact Hg].
    + eapply check_code_small; [exact Hck | exact Hsm].
    + intros t. rewrite (mv_types _ _ _ M12), (mv_func _ _ _ M12). specialize (Hd t). pose proof (check_code_peak locs res t p _ _ _ _ Hck). lia.
    + apply Hf2.
    + exact Hend.
    + exact Hp2.
    + eapply items_at_code, (items_at_moved _ m); [exact M12 | exact X3].
  - destruct Ha as (n & m2 & l & x & _ & _ & Hl & _). discriminate Hl.
Qed.
End Functions.

(** ** Translation *)
Section Translation.
Context {bd : Build} {vg : VectorGrowth} {cb : ConvBuild}.

Lemma structured_coded locs res p : forall depth h ss ss', check_code locs res depth h p ss = Some ss' -> forallb coded_ok (coded p) = true.
Proof.
  assert (forall o L v, (o = Br \/ o = BrIf) -> leb_u L v = true -> coded_ok (mkCODED o [LEB L v]) = true) as Hbr.
  { intros o L v Ho Hv. unfold leb_u in Hv. rewrite !andb_true_iff, Nat.ltb_lt, Nat.leb_le in Hv.
    assert (imm_fits I32 (LEB L v) = true) as F by (cbn [imm_fits]; rewrite !andb_true_iff, Nat.ltb_lt, Nat.leb_le; lia).
    unfold coded_ok. cbn [cd_op cd_imms]. destruct Ho as [-> | ->]; cbn [imms_of length zip zip_with forallb]; rewrite F; reflexivity. }
  induction p as [|cd k IH|b IHb k IHk|b IHb k IHk|b IHb k IHk|b1 IH1 b2 IH2 k IHk|L v k IH|L v k IH|k IH];
    intros depth h ss ss' H; cbn [check_code coded forallb] in *; check_inv H; rewrite ?forallb_app; cbn [forallb]; rewrite ?forallb_app; cbn [forallb].
  - reflexivity.
  - rewrite (source_coded cd s Ec). exact (IH _ _ _ _ H).
  - rewrite (IHb _ _ _ _ Ec), (IHk _ _ _ _ H). reflexivity.
  - rewrite (IHb _ _ _ _ Ec), (IHk _ _ _ _ H). reflexivity.
  - rewrite (IHb _ _ _ _ Ec0), (IHk _ _ _ _ H). reflexivity.
  - rewrite (IH1 _ _ _ _ Ec0), (IH2 _ _ _ _ Ec2), (IHk _ _ _ _ H). reflexivity.
  - apply andb_true_iff in Ec as [Ec _]. rewrite (Hbr Br L v), (IH _ _ _ _ H) by auto. reflexivity.
  - apply andb_true_iff in Ec0 as [Ec0 _]. rewrite (Hbr BrIf L v), (IH _ _ _ _ H) by auto. reflexivity.
  - rewrite (IH _ _ _ _ H). reflexivity.
Qed.

(** C2: The translation of a function with structured control flow, from its bytes: blocks,
  loops, conditionals, branches and returns around constants, locals and total integer
  operators.  Reading splits the bytes; the conversion succeeds; the code that it leaves is
  that of [function_items]: a label and a jump for each place that the structure goes to;
  the function declares at least the registers that the code names; and the code stands for
  the body whose labels are before the instructions that follow them in [function_items]:
  wherever it is written in the code section, [Finish] makes of it that body's entry. *)
Theorem structured_translation module func p ss ctx e fid c0 ps ls res : let buf := code_bytes (coded p ++ [END]) in
  let its := function_items ps ls res p ss in
  GetFunc module (fc_func_idx ctx) = Ok func ->
  conv_types (sg_params (wf_sig func)) = Ok ps -> conv_types (wf_locals func) = Ok ls -> conv_types (sg_results (wf_sig func)) = Ok res ->
  Create_ubh_code func (conv0 ctx e) = Ok (fid, c0) -> in_order fid (cv_enc c0) ->
  (forall t, base (ps ++ ls) t <= 126) -> Z.of_nat (length ps + length ls) < 2 ^ 31 -> Z.of_nat (length buf) + 10 < 2 ^ 32 ->
  check_code (ps ++ ls) res 0 0 p [] = Some ss -> length res = length ss -> (length ss <= 1)%nat ->
  (labels p <= 512)%nat -> Z.of_nat (length (code_of (item_insts its))) < 2 ^ 20 ->
  exists instr c, Read_insts buf = Ok instr /\ Wasm_to_uwasm module instr buf ctx e = Ok c /\
    exists body, U_ENCODER.Get_inst_encoder fid (cv_enc c) = Ok body /\
      U_CODE_BODY._inst_tab body = code_of (item_insts its) /\
      (forall t, is_value_type t = true ->
        base (ps ++ ls) t + peak_code (ps ++ ls) res t p [] <= Loading.locals t (U_CODE_BODY._ubh_code body)) /\
      stands_for_body (body_of (labels p) its) body.
Proof.
  intros buf its Hf Hp Hl Hres Hcr Hord Hbase Hlen Hbuf Hck Hlr Hss Hlab Hsz.
  pose proof (Create_ubh_code_created func ctx e fid c0 ps ls Hp Hl Hlen Hcr) as Hc0.
  assert (Forall (fun t => is_value_type t = true) (ps ++ ls)) as Hty by (destruct Hc0 as [_ _ T _ _ S _ R _]; exact (iv_types _ _ _ (inv_start _ _ T S R Hbase))).
  pose proof (code_bytes_length (coded p ++ [END])) as Hn. rewrite length_app in Hn. cbn [length] in Hn. fold buf in Hn. pose proof (code_len_coded p) as Ecl.
  destruct (Wasm_to_uwasm_flow module func p ss ctx e fid c0 ps ls res Hf Hcr Hc0 Hord Hbase Hres Hck Hlr Hss ltac:(lia) Hlab) as (c & Hw & body & B1 & B2 & B3 & B4 & B5 & B6).
  exists (insts_at 0 (coded p ++ [END])), c. split; [|split; [exact Hw|]].
  - apply Read_insts_run; [|exact Hbuf]. rewrite forallb_app, (structured_coded _ _ _ _ _ _ _ Hck). reflexivity.
  - exists body. split; [exact B1|]. split; [exact B2|]. split; [exact B6|]. split; [now apply function_body_ok|].
    intros off Ho. now apply finish_translated.
Qed.
End Translation.

(** ** Execution *)
Section Execution.
Context {bd : Build} {pf : Platform} {rt : Runtime} {rf : RuntimeFrame rt} {rty : RuntimeTyped rt} {fe : FloatEnv} {cb : ConvBuild}.

Lemma function_in_place bs f m ps ls res p ss : code_loaded bs (_codes m) -> bs !! f = Some (Some (body_of (labels p) (function_items ps ls res p ss))) ->
  check_code (ps ++ ls) res 0 0 p [] = Some ss -> _label_tab (_current m) = Some (Z.of_nat f) ->
  exists tab, labels_are m tab /\ length tab = labels p /\ items_at m tab (base_of bs f) (function_items ps ls res p ss).
Proof.
  intros Hc Hf Hck Hl. pose proof (function_labels ps ls res p ss ss 0%nat Hck) as Hperm.
  destruct (items_loaded bs m f _ _ Hc Hf) as (tab & H1 & H2 & H3).
  - rewrite Hperm. apply NoDup_seq.
  - intros i Hi. rewrite Hperm, elem_of_seq in Hi. lia.
  - exists tab. split; [exists (Z.of_nat f); auto | auto].
Qed.

(** C3: What a translated function with structured control flow computes.  In a state that
  the machine reaches, at the start of the loaded body of [structured_translation], with
  the arguments in the registers of the parameters: when the function returns in
  WebAssembly's semantics, the machine comes to [RETURN] with the result in register 0;
  when a loop goes on for [fuel] iterations, the machine makes at least [fuel] steps; and
  nothing else happens, no step fails.  Each branch goes out of blocks and second arms to
  the end and of loops to the start; [safe] excludes branches out of the first arm of a
  conditional with two to its end, which the converter takes to the other arm. *)
Theorem structured_execution secs func n m ps ls res p ss args bs f fuel : reachable secs func n m ->
  Forall (fun t => is_value_type t = true) (ps ++ ls) -> (forall t, base (ps ++ ls) t <= 126) ->
  (forall t, base (ps ++ ls) t + peak_code (ps ++ ls) res t p [] <= rnum (_types m) (_func_idx (_current m)) t) ->
  check_code (ps ++ ls) res 0 0 p [] = Some ss -> safe p = true -> ends_with (ps ++ ls) res ss -> (labels p <= 512)%nat ->
  length args = length ps -> (forall i t, ps !! i = Some t -> exists v, args !! i = Some v /\ reg_holds m t (local_reg ps i) v) ->
  f64_readable ps ls m -> code_loaded bs (_codes m) -> bs !! f = Some (Some (body_of (labels p) (function_items ps ls res p ss))) ->
  _label_tab (_current m) = Some (Z.of_nat f) -> _pc (_current m) = Some (base_of bs f) ->
  match run_function (length res) fuel p args (length ls) with
  | R_return rs => exists m' k q, steps k m m' /\ _pc (_current m') = Some q /\ expands m' q (inst_for Opcode.RETURN I32 []) /\
      length rs = length res /\ forall t, res = [t] -> exists v, rs = [v] /\ reg_holds m' t 0 v
  | R_fuel => exists m' k, (fuel <= k)%nat /\ steps k m m'
  | _ => False
  end.
Proof.
  intros Hr Hty Hb Hd Hck Hsafe Hend Hlab Hla Hargs Hf Hc Hbs Hl Hp.
  assert (good m) as Hg by (split; [eapply reachable_windows | eapply reachable_typed]; exact Hr).
  assert (first_hold ps ls (length ps) args m) as Hfirst.
  { intros i t Hi Ht. rewrite lookup_app_l in Ht by exact Hi. rewrite local_reg_app by exact Hi. auto. }
  destruct (function_in_place bs f m ps ls res p ss Hc Hbs Hck Hl) as (tab & T1 & T2 & T3).
  pose proof (flow_runs ps ls res Hty p ss args m _ tab fuel Hg Hb Hd Hck Hsafe Hend Hla Hfirst Hf Hp T1 ltac:(lia) T3) as Ha.
  destruct (run_function _ _ _ _ _); cbn [function_answer] in Ha; try exact Ha.
  - destruct Ha as (k & m' & q & M & H1 & H2 & H3). exists m', k, q. split; [apply M | auto].
  - destruct Ha as (k & m' & H1 & H2). exists m', k. auto.
Qed.
End Execution.

(** ** Programs *)
Section Programs.
Context {bd : Build} {pf : Platform} {cb : ConvBuild} {host : Host} {fe : FloatEnv}.

Lemma steps_fuel_out {rt : Runtime} k m m' : steps k m m' -> forall fuel, (fuel <= k)%nat -> Exec_start fuel m = Err FuelOut.
Proof.
  induction 1 as [m|k m m1 m2 Hs Hk IH]; intros fuel Hf; [now replace fuel with 0%nat by lia|]. destruct fuel as [|fuel]; [reflexivity|].
  cbn [Exec_start]. rewrite (proj2 (exec_one_step m m1) Hs). apply IH. lia.
Qed.

(** The registers that a function of the file has. *)
Definition has_registers (secs : SECTIONS) (func : Z) (need : VALTYPE -> Z) : Prop :=
  exists f e, Get_func secs func = Ok f /\ Get_code secs (fget UBH_FUNC._code_idx f) = Ok e /\
    forall t, is_value_type t = true -> need t <= locals t (ce_code e).

(** What the loader made of the function that starts. *)
Lemma registers_declared secs ty bs f b need : Types.Decode_type_and_cache secs = Ok ty -> sec_elem_num secs S_FUNC = Ok (Z.of_nat (length (_func_sec secs))) ->
  Forall2 (func_matches secs) (_func_sec secs) bs -> bs !! f = Some (Some b) -> has_registers secs (Z.of_nat f) need ->
  forall t, is_value_type t = true -> need t <= rnum ty (Z.of_nat f) t.
Proof.
  intros Hd Hn Hm Hf (fn & e & Hg & He & Hneed) t Ht. destruct (Decode_tables secs ty Hd) as [_ Hfs].
  assert (f < length (_func_sec secs))%nat as Hlt by (rewrite (Forall2_length _ _ _ Hm); eapply lookup_lt_Some; exact Hf).
  destruct (Hfs (Z.of_nat f) _ Hn ltac:(lia)) as (fn' & rn & sh & Hg' & Hr & H1 & _). assert (fn' = fn) as -> by congruence.
  apply nthZ_Ok in Hg as [_ Hg]. rewrite Nat2Z.id in Hg. destruct (Forall2_lookup_l _ _ _ _ _ Hm Hg) as (b' & Hb' & Hx).
  rewrite Hf in Hb'. injection Hb' as <-. destruct Hx as (Hext & _).
  destruct (Func_regs_run secs fn e Hext He) as (rn' & sh' & Hr' & Hc). assert (rn' = rn) as -> by congruence.
  unfold rnum. rewrite (tab16_Ok _ _ _ _ H1), (proj1 (Hc t)). specialize (Hneed t Ht). pose proof (proj2 (counts_range t (ce_code e))). lia.
Qed.

Lemma count_unknown l : Forall (fun t => is_value_type t = true) l -> count VALTY_UNKNOWN l = 0.
Proof. induction 1 as [|u l Hu _ IH]; cbn [count]; [reflexivity|]. rewrite IH. now destruct u. Qed.

Lemma written_registers {vg : VectorGrowth} e e' u m k f b bs body need : U_ENCODER.Finish e = Ok (u, e') -> finished_from (U_ENCODER._u_inst_encoder e) e' ->
  holds e' m -> functions_are e bs -> U_ENCODER._func_tab e' !! k = Some f -> bs !! k = Some (Some b) -> U_ENCODER.Get_inst_encoder (Z.of_nat k) e = Ok body ->
  (forall t, is_value_type t = true -> need t <= locals t (U_CODE_BODY._ubh_code body)) -> has_registers (_secs m) (Z.of_nat k) need.
Proof.
  intros Hfin Hv Hh [_ Hfs] Hk Hb Hget Hneed. pose proof Hk as Hk'. rewrite (Finish_functions _ _ _ Hfin) in Hk'.
  destruct (Hfs k f _ Hk' Hb) as (_ & Hidx & _). pose proof (Get_inst_encoder_at e k f body Hidx Hget) as Hbody.
  destruct (Finish_from_lookup _ 0 _ _ body ltac:(lia) (proj1 Hv) Hbody) as (off & c' & _ & Hc' & Hcode).
  exists f, (entry_of_body c'). split; [now apply Get_func_held with (e := e')|]. split; [now apply Get_code_held with (e := e')|].
  intros t Ht. cbn [entry_of_body ce_code]. rewrite (Finish_locals _ _ _ _ Hc'). auto.
Qed.

Section Program.
Variables (mem_p : option BLOCK) (o : OPTIONS) (s0 s : SYSTEM) (buf : list Z) (md : MODULE).
Variables (ps ls res : list VALTYPE) (p : CODE) (ss : list SLOT) (bs : list (option BODY)) (start : Z).
Abbreviation locs := (ps ++ ls).
Abbreviation func := (UINT32 start).
Hypothesis prepared : prepare mem_p o s0 = Ok s.
Hypothesis new : _machine s0 = UWASM_MACHINE_new no_sections no_types no_codes.
Hypothesis no_sregs : o_sreg o = [].
Hypothesis file : o_file o = Some buf.
Hypothesis read : Read_sections buf = Ok md.
Hypothesis funcs_num : sec_elem_num (_secs md) S_FUNC = Ok (Z.of_nat (length (_func_sec (_secs md)))).
Hypothesis funcs_match : Forall2 (func_matches (_secs md)) (_func_sec (_secs md)) bs.
Hypothesis words_fit : words_num bs < 2 ^ 32.
Hypothesis starts : start_function o (mkSYSTEM md (_machine s0) [] []) = Ok start.
Hypothesis body : bs !! Z.to_nat func = Some (Some (body_of (labels p) (function_items ps ls res p ss))).
Hypothesis registers : has_registers (_secs md) func (fun t => base locs t + peak_code locs res t p []).
Hypothesis args_types : map fst (o_args o) = ps.
Hypothesis types : Forall (fun t => is_value_type t = true) locs.
Hypothesis bases : forall t, base locs t <= 126.
Hypothesis checked : check_code locs res 0 0 p [] = Some ss.
Hypothesis branches : safe p = true.
Hypothesis ends : ends_with locs res ss.
Hypothesis labels_fit : (labels p <= 512)%nat.

Lemma func_nat : Z.of_nat (Z.to_nat func) = func.
Proof. apply Z2Nat.id, (wrapu_range 32 start). lia. Qed.
Lemma registers_all ty : Types.Decode_type_and_cache (_secs md) = Ok ty ->
  forall t, base locs t + peak_code locs res t p [] <= rnum ty func t.
Proof.
  intros Hd. pose proof registers as Hreg. rewrite <- func_nat in Hreg |- *.
  pose proof (registers_declared _ ty bs (Z.to_nat func) _ _ Hd funcs_num funcs_match body Hreg) as H.
  intros t. destruct (is_value_type t) eqn:Et; [exact (H t Et)|]. specialize (H F64 eq_refl). cbn beta in H.
  assert (t = VALTY_UNKNOWN) as -> by (destruct t; now try discriminate Et).
  rewrite (peak_code_unknown _ _ _ _ _ _ _ checked) by reflexivity.
  pose proof (count_nonneg F64 locs). pose proof (peak_code_ge locs res F64 p []). cbn [temps] in *.
  pose proof (count_unknown _ types) as Hc.
  change (rnum ty (Z.of_nat (Z.to_nat func)) VALTY_UNKNOWN) with (rnum ty (Z.of_nat (Z.to_nat func)) F64). unfold base in *. lia.
Qed.

(** A structured program, from [prepare] on. *)
Lemma structured_runs fuel :
  match run_function (length res) fuel p (map arg_value (o_args o)) (length ls) with
  | R_return rs => exists m' k, (forall fuel, (k < fuel)%nat -> Exec_start (rt := sy_runtime s) fuel (_machine s) = Ok m') /\ returned res rs m'
  | R_fuel => forall k, (k <= fuel)%nat -> Exec_start (rt := sy_runtime s) k (_machine s) = Err FuelOut
  | _ => False
  end.
Proof.
  destruct (prepare_begun mem_p o s0 s ps ls prepared new no_sregs args_types types) as
    (buf' & md' & f & q & m0 & v & Hbuf & Hmd & Hf & Hty & Hexp & [B1 B2 B3 B4] & Hh & Hbrk & Hv & Hbase).
  assert (buf' = buf) as -> by congruence. assert (md' = md) as -> by congruence.
  assert (f = start) as -> by (specialize (Hf (mkSYSTEM md (_machine s0) [] []) eq_refl); congruence).
  destruct (Expand_code_run _ _ funcs_num funcs_match words_fit) as (c & Hc' & Hc). assert (c = _codes (_machine s)) as -> by congruence.
  pose proof (ae_good _ _ B1) as Hg. pose proof (ae_label _ _ B1) as Hlab. pose proof (registers_all _ Hty) as Hd.
  rewrite <- (ae_func _ _ B1) in Hd.
  rewrite <- func_nat in Hbase, Hlab.
  rewrite (cl_base _ _ Hc _ _ body) in Hbase. injection Hbase as <-.
  destruct (function_in_place bs _ _ ps ls res p ss Hc body checked Hlab) as (tab & T1 & T2 & T3).
  assert (length (map arg_value (o_args o)) = length ps) as Hla by (now rewrite length_map, <- args_types, length_map).
  assert (f64_readable ps ls (_machine s)) as Hf64.
  { intros i Hi. apply (entry_readable func); [exact B1|]. pose proof (local_reg_range locs i F64 Hi) as Hr.
    pose proof RET_REG_NUM_range. pose proof (bases F64). unfold INITIAL_REG_SIZE. lia. }
  pose proof (flow_runs (rt := sy_runtime s) ps ls res types p ss _ _ _ tab fuel Hg bases Hd checked branches ends Hla Hh Hf64 B2 T1 ltac:(lia) T3) as Ha.
  destruct (run_function _ _ _ _ _) as [? ?|? ?|rs| |]; cbn [function_answer] in Ha; try exact Ha.
  - destruct Ha as (k & m1 & q & M & Hq & Hx & Hlr & Hres).
    pose proof (at_entry_frame func _ m1 (moved_good _ _ _ M Hg) (mv_frame _ _ _ M) B1) as A1.
    destruct (return_ends (rt := sy_runtime s) func m1 q v A1) as (m2 & S2 & E2 & Hsame); try assumption.
    { now rewrite (mv_codes _ _ _ M). }
    { now rewrite (mv_types _ _ _ M). }
    exists m2, (k + 1)%nat. split; [|split; [exact Hlr|]].
    + intros n Hn. apply Exec_start_steps. exists (k + 1)%nat, m2. split; [exact Hn|]. split; [|exact E2].
      eapply steps_app; [exact (mv_steps _ _ _ M)|]. eapply steps_S; [exact S2 | constructor].
    + intros t Ht. destruct (Hres t Ht) as (w & Hw & (r & Hr & Hu)). exists w. split; [exact Hw|]. exists r. split; [now rewrite Hsame | exact Hu].
  - destruct Ha as (k & m1 & Hk & Hs). intros n Hn. eapply steps_fuel_out; [exact Hs | lia].
Qed.

(** The program's end, for the file that is read. *)
Lemma read_program_ends : let source fuel := run_function (length res) fuel p (map arg_value (o_args o)) (length ls) in
  (forall fuel, (exists rs, source fuel = R_return rs) \/ source fuel = R_fuel) /\
  (forall fuel rs, source fuel = R_return rs -> length rs = length res /\ exists s' k,
    (forall n, (k < n)%nat -> Exec_continue n s = Ok s') /\
    forall t, res = [t] -> exists v, rs = [v] /\ (exists r, UVM_get_reg t 0 s' = Ok r /\ wrapu (width t) r = v) /\
      forall n x, (k < n)%nat -> o_check_ret o = Some (t, x) ->
        is_ok (Start_vm_non_interactive n mem_p o s0) = release || (value_bits t x =? v)) /\
  (forall fuel, source fuel = R_fuel -> forall n, (n <= fuel)%nat -> Exec_continue n s = Err FuelOut).
Proof.
  intros source. pose proof structured_runs as Hall.
  split; [|split].
  - intros fuel. specialize (Hall fuel). fold (source fuel) in Hall. destruct (source fuel); try (now destruct Hall); eauto.
  - intros fuel rs E. specialize (Hall fuel). fold (source fuel) in Hall. rewrite E in Hall. destruct Hall as (m' & k & Hex & Hlr & Hres).
    assert (forall n, (k < n)%nat -> Exec_continue n s = Ok (mkSYSTEM (sy_module s) m' (_string_args s) (_func_infos s))) as Hcont
      by (intros n Hn; unfold Exec_continue; now rewrite (Hex n Hn)).
    split; [exact Hlr|]. eexists. exists k. split; [exact Hcont|]. intros t Ht. destruct (Hres t Ht) as (v & Hv & (r & Hr & Hu)). exists v. split; [exact Hv|]. split.
    + exists r. split; [|exact Hu]. unfold UVM_get_reg, reg_get. cbn [_machine]. now rewrite Hr.
    + intros n x Hn Hx. unfold Start_vm_non_interactive. rewrite prepared. cbn [mbind outcome_bind]. rewrite (Hcont n Hn), Hx. cbn [mbind outcome_bind].
      rewrite <- Hu, <- (check_return t x r (mkSYSTEM (sy_module s) m' (_string_args s) (_func_infos s)) Hr).
      now destruct (Check_return_value _ _).
  - intros fuel E n Hn. specialize (Hall fuel). fold (source fuel) in Hall. rewrite E in Hall. unfold Exec_continue. now rewrite (Hall n Hn).
Qed.
End Program.

(** C1: A program with structured control flow, from the converter to its end.  An encoder
  whose functions are those of [bs] is written to a file; the function that starts, the
  one named "main", is what the converter makes of a function of blocks, loops,
  conditionals, branches, returns, constants, locals and total integer operators
  ([structured_translation]); the file is loaded, with arguments of the types of its
  parameters.  In WebAssembly's semantics the function returns, or it goes round a loop as
  often as one likes; it does nothing else.  When it returns, the run comes to the break
  instruction, after [k] iterations of the machine; register 0 holds the result; and the
  check of the return value passes exactly when it is the expected one (in the release
  build it always passes).  When it has not returned after [fuel] iterations of a loop, the
  run has not ended after [fuel] iterations of the machine. *)
Theorem structured_program_ends {vg : VectorGrowth} mem_p o s0 s e e' u w total buf bs start body ps ls res p ss :
  U_ENCODER.Finish e = Ok (u, e') -> U_ENCODER.Collect_write_info e' = Ok (w, total) -> finished_from (U_ENCODER._u_inst_encoder e) e' ->
  file_fits e' = true -> Write_to_file e = Ok (buf, e') -> functions_are e bs -> words_num bs < 2 ^ 32 ->
  U_ENCODER.find_start (_raw_buf (U_ENCODER._module_string_tab e')) 0 (U_ENCODER._func_tab e') = Ok (Some start) ->
  bs !! Z.to_nat start = Some (Some (body_of (labels p) (function_items ps ls res p ss))) ->
  U_ENCODER.Get_inst_encoder start e = Ok body ->
  (forall t, is_value_type t = true -> base (ps ++ ls) t + peak_code (ps ++ ls) res t p [] <= locals t (U_CODE_BODY._ubh_code body)) ->
  Forall (fun t => is_value_type t = true) (ps ++ ls) -> (forall t, base (ps ++ ls) t <= 126) ->
  check_code (ps ++ ls) res 0 0 p [] = Some ss -> safe p = true -> ends_with (ps ++ ls) res ss -> (labels p <= 512)%nat ->
  o_file o = Some buf -> o_func_name o = None -> o_func o < 0 -> map fst (o_args o) = ps -> o_sreg o = [] ->
  _machine s0 = UWASM_MACHINE_new no_sections no_types no_codes -> prepare mem_p o s0 = Ok s ->
  let source fuel := run_function (length res) fuel p (map arg_value (o_args o)) (length ls) in
  (forall fuel, (exists rs, source fuel = R_return rs) \/ source fuel = R_fuel) /\
  (forall fuel rs, source fuel = R_return rs -> length rs = length res /\ exists s' k,
    (forall n, (k < n)%nat -> Exec_continue n s = Ok s') /\
    forall t, res = [t] -> exists v, rs = [v] /\ (exists r, UVM_get_reg t 0 s' = Ok r /\ wrapu (width t) r = v) /\
      forall n x, (k < n)%nat -> o_check_ret o = Some (t, x) ->
        is_ok (Start_vm_non_interactive n mem_p o s0) = release || (value_bits t x =? v)) /\
  (forall fuel, source fuel = R_fuel -> forall n, (n <= fuel)%nat -> Exec_continue n s = Err FuelOut).
Proof.
  intros Hfin Hc Hv Hf Hw Hfs Hwords Hst Hbs Hget Hregs Hty Hb Hck Hsafe Hend Hlab Hfile Hname Hfn Hps Ho H0 H.
  destruct (prepare_begun mem_p o s0 s ps ls H H0 Ho Hps Hty) as (buf' & md & start' & _ & _ & _ & Hbuf & Hmd & Hs & _).
  assert (buf' = buf) as -> by congruence.
  pose proof (Finish_functions _ _ _ Hfin) as Et. destruct (find_start_run _ _ _ _ Hst) as (k & f & Ek & Hk & _). rewrite Z.add_0_l in Ek. subst start.
  rewrite Nat2Z.id in Hbs.
  assert (U_ENCODER._func_tab e <> []) as Hne by (intros E; rewrite Et, E in Hk; discriminate).
  destruct (functions_matched e e' u w total buf md bs Hfin Hc Hv Hf Hw Hmd Hfs Hne) as (Hh & Hn & Hm).
  pose proof (proj1 (Search_start_main e' md Hf Hh (Z.of_nat k) Hst)) as Hsm.
  assert (UINT32 (Z.of_nat k) = Z.of_nat k) as Eu.
  { apply UINT32_id. pose proof (funcs_number e' Hf). apply lookup_lt_Some in Hk. lia. }
  eapply (read_program_ends mem_p o s0 s buf md ps ls res p ss bs (Z.of_nat k)); try assumption.
  - unfold start_function. rewrite Hname, (proj2 (Z.ltb_lt _ _) Hfn). exact Hsm.
  - now rewrite Eu, Nat2Z.id.
  - rewrite Eu. eapply written_registers; eauto.
Qed.
End Programs.

(** ** A concrete function

  [(func $main (param i32) (result i32) (local i32)
     block
       loop
         local.get 0
         if    local.get 1  local.get 0  i32.add  local.set 1
               local.get 0  i32.const -1  i32.add  local.set 0  br 1
         else  local.get 1  return
         end
       end
     end
     local.get 1)], the sum of the numbers up to its argument. *)
Section Witnesses.
#[local] Existing Instance sample_host.
#[local] Existing Instance wasm_option.
Definition get (i : Z) : CODE -> CODE := C_Simple (mkCODED LocalGet [LEB 1 i]).
Definition set (i : Z) : CODE -> CODE := C_Simple (mkCODED LocalSet [LEB 1 i]).
Definition add : CODE -> CODE := C_Simple (mkCODED I32Add []).
Definition upto_code : CODE :=
  C_Block (C_Loop (get 0 (C_IfElse
      (get 1 (get 0 (add (set 1 (get 0 (C_Simple (mkCODED I32Const [LEB 1 (-1)]) (add (set 0 (C_Br 1 1 C_End)))))))))
      (get 1 (C_Return C_End)) C_End)) C_End) (get 1 C_End).
Definition upto_func : WABT_FUNC := mkFUNC main_name (mkSIG [wi32] [wi32]) [wi32].
Definition upto_module : WABT_MODULE := Converter.mkMODULE [upto_func] [] [].
Definition upto_bytes : list Z := code_bytes (coded upto_code ++ [END]).
Definition upto_created : Z * CONV := from_ok (0, no_conv) (Create_ubh_code upto_func (conv0 file_context start_enc)).
Definition upto_items : list ITEM := function_items [I32] [I32] [I32] upto_code [SLocal 1].

Example upto_ten : run_function 1 20 upto_code [4] 1 = R_return [10].
Proof. vm_compute. reflexivity. Qed.

Lemma structured_translation_witness : exists instr c, Read_insts upto_bytes = Ok instr /\
  Wasm_to_uwasm upto_module instr upto_bytes file_context start_enc = Ok c /\
  exists body, U_ENCODER.Get_inst_encoder 0 (cv_enc c) = Ok body /\
    U_CODE_BODY._inst_tab body = code_of (item_insts upto_items) /\
    (forall t, is_value_type t = true ->
      base [I32; I32] t + peak_code [I32; I32] [I32] t upto_code [] <= Loading.locals t (U_CODE_BODY._ubh_code body)) /\
    stands_for_body (body_of (labels upto_code) upto_items) body.
Proof.
  refine (structured_translation upto_module upto_func upto_code [SLocal 1] file_context start_enc 0 upto_created.2 [I32] [I32] [I32]
    _ _ _ _ _ _ _ _ _ _ _ _ _ _); try (vm_compute; reflexivity).
  - vm_compute. intuition congruence.
  - apply bases_small. vm_compute. reflexivity.
  - apply Nat.leb_le. vm_compute. reflexivity.
Defined.

(** The module with this function, loaded, with 0 for the argument. *)
Definition upto_secs : SECTIONS := from_ok no_secs (secs_of upto_module upto_bytes).
Definition upto_start : UWASM_MACHINE := from_ok no_machine (started upto_secs).
Definition upto_body : BODY := body_of (labels upto_code) upto_items.
Lemma upto_matches : Forall2 (func_matches upto_secs) (_func_sec upto_secs) [Some upto_body].
Proof.
  assert (_func_sec upto_secs = [from_ok 0 (Get_func upto_secs 0)]) as -> by (vm_compute; reflexivity).
  constructor; [|constructor]. split; [vm_compute; reflexivity|]. split; [vm_compute; reflexivity|].
  exists (from_ok (mkCODE 0 [] []) (Get_code upto_secs 0)). split; [vm_compute; reflexivity | vm_compute; repeat split].
Qed.
Lemma upto_loaded m : Expansion.Expand_code upto_secs = Ok (_codes m) -> code_loaded [Some upto_body] (_codes m).
Proof.
  intros H. destruct (Expand_code_run upto_secs [Some upto_body]) as (c & Hc & Hl); [vm_compute; reflexivity | exact upto_matches | vm_compute; reflexivity|].
  congruence.
Qed.

Lemma structured_execution_witness : exists m' k q, steps k upto_start m' /\ _pc (_current m') = Some q /\
  expands m' q (inst_for Opcode.RETURN I32 []) /\ length [0] = length [I32] /\
  forall t, [I32] = [t] -> exists v, [0] = [v] /\ reg_holds m' t 0 v.
Proof.
  refine (structured_execution upto_secs 0 0 upto_start [I32] [I32] [I32] upto_code [SLocal 1] [0] [Some upto_body] 0 1
    _ _ _ _ _ _ _ _ _ _ _ _ _ _ _).
  - apply (started_reachable _ upto_start); vm_compute; reflexivity.
  - repeat constructor.
  - apply bases_small. vm_compute. reflexivity.
  - intros t. destruct t; vm_compute; congruence.
  - vm_compute. reflexivity.
  - reflexivity.
  - split; [reflexivity | cbn; lia].
  - apply Nat.leb_le. vm_compute. reflexivity.
  - reflexivity.
  - intros [|i] t; [intros [= <-] | discriminate]. exists 0. split; [reflexivity|]. exists 0. split; vm_compute; reflexivity.
  - intros [|[|i]]; discriminate.
  - apply upto_loaded. vm_compute. reflexivity.
  - reflexivity.
  - vm_compute. reflexivity.
  - vm_compute. reflexivity.
Defined.

(** The file with this function, run with the argument 4. *)
Definition upto_enc : U_ENCODER.t := from_ok no_enc (
  instr ← Read_insts upto_bytes;
  c ← Wasm_to_uwasm upto_module instr upto_bytes file_context start_enc;
  mret (cv_enc c)).
Definition upto_encoded : U_CODE_BODY.t := from_ok (U_CODE_BODY.create (0, 0, 0, 0) (0, 0, 0, 0) 0) (U_ENCODER.Get_inst_encoder 0 upto_enc).
Definition upto_written : U_ENCODER.t := from_ok no_enc (r ← U_ENCODER.Finish upto_enc; mret r.2).
Definition upto_info : U_ENCODER.WRITE_INFO * Z := from_ok (U_ENCODER.mkWI [] [] 0, 0) (U_ENCODER.Collect_write_info upto_written).
Definition upto_file : list Z := from_ok [] (r ← Write_to_file upto_enc; mret r.1).
Definition upto_options : OPTIONS := mkOPTIONS (Some upto_file) (-1) None [(I32, 4)] [] [] (Some (I32, 10)).
Definition upto_prepared : SYSTEM := from_ok new_system (prepare (Some (sample_block MEM_SIZE)) upto_options new_system).
Lemma upto_translated : stands_for_body upto_body upto_encoded.
Proof.
  split; [vm_compute; reflexivity|]. intros off Hoff. refine (finish_translated [I32] [I32] [I32] upto_code [SLocal 1] _ _ _ upto_encoded off _ _ _ _ _ Hoff).
  - vm_compute. reflexivity.
  - apply Nat.leb_le. vm_compute. reflexivity.
  - cbn. lia.
  - vm_compute. reflexivity.
  - vm_compute. reflexivity.
  - assert (forallb (fun i => match label_word i upto_items with
        | Some k => bool_decide (U_CODE_BODY._lab_tab upto_encoded !! i = Some (INT32 (Z.of_nat k))) | None => false end)
      (seq 0 (labels upto_code)) = true) as H by (vm_compute; reflexivity).
    intros i Hi. rewrite forallb_forall in H. specialize (H i). fold upto_items.
    destruct (label_word i upto_items) as [k|]; [|discriminate H; apply in_seq; lia].
    exists k. split; [reflexivity|]. apply bool_decide_eq_true_1 in H; [exact H | apply in_seq; lia].
  - split; vm_compute; congruence.
  - vm_compute. reflexivity.
Qed.
Lemma upto_functions : functions_are upto_enc [Some upto_body].
Proof.
  apply (functions_single _ (from_ok 0 (vec_at (U_ENCODER._func_tab upto_enc) 0))); [vm_compute; reflexivity|].
  split; [vm_compute; reflexivity|]. split; [vm_compute; reflexivity|].
  exists upto_encoded. split; [vm_compute; reflexivity | exact upto_translated].
Qed.

Lemma structured_program_ends_witness : exists k, forall n, (k < n)%nat -> is_ok (Start_vm_non_interactive n (Some (sample_block MEM_SIZE)) upto_options new_system) = true.
Proof.
  destruct (structured_program_ends (Some (sample_block MEM_SIZE)) upto_options new_system upto_prepared upto_enc upto_written tt
    upto_info.1 upto_info.2 upto_file [Some upto_body] 0 upto_encoded [I32] [I32] [I32] upto_code [SLocal 1]) as (_ & H & _).
  - vm_compute. reflexivity.
  - vm_compute. reflexivity.
  - split; [vm_compute; reflexivity|]. apply (forallb_Forall' (fun c => body_fits c = true)). vm_compute. reflexivity.
  - vm_compute. reflexivity.
  - vm_compute. reflexivity.
  - exact upto_functions.
  - vm_compute. reflexivity.
  - vm_compute. reflexivity.
  - reflexivity.
  - vm_compute. reflexivity.
  - intros t. destruct t; vm_compute; congruence.
  - repeat constructor.
  - apply bases_small. vm_compute. reflexivity.
  - vm_compute. reflexivity.
  - reflexivity.
  - split; [reflexivity | cbn; lia].
  - apply Nat.leb_le. vm_compute. reflexivity.
  - reflexivity.
  - reflexivity.
  - reflexivity.
  - reflexivity.
  - reflexivity.
  - reflexivity.
  - apply from_ok_eq. vm_compute. reflexivity.
  - destruct (H 20%nat [10] ltac:(vm_compute; reflexivity)) as (_ & s' & k & _ & Hres). exists k. intros n Hn.
    destruct (Hres I32 eq_refl) as (v & [= <-] & _ & Hcheck). now rewrite (Hcheck n 10 Hn).
Defined.

(** ** Where the code departs from WebAssembly

  A branch out of the first arm of a conditional goes to the other arm:
  [(func $main (param i32) (result i32)
     local.get 0
     if br 0 else i32.const 1 local.set 0 end
     local.get 0)] with the argument 5 gives 5, and the program ends with 1. *)
Definition then_code : CODE :=
  get 0 (C_IfElse (C_Br 1 0 C_End) (C_Simple (mkCODED I32Const [LEB 1 1]) (set 0 C_End)) (get 0 C_End)).
Definition then_file : list Z :=
  let bytes := code_bytes (coded then_code ++ [END]) in
  from_ok [] (instr ← Read_insts bytes;
    c ← Wasm_to_uwasm (Converter.mkMODULE [mkFUNC main_name (mkSIG [wi32] [wi32]) []] [] []) instr bytes file_context start_enc;
    r ← Write_to_file (cv_enc c); mret r.1).
Lemma then_branch_enters_else : run_function 1 1 then_code [5] 0 = R_return [5] /\ safe then_code = false /\
  is_ok (Start_vm_non_interactive 20 (Some (sample_block MEM_SIZE)) (mkOPTIONS (Some then_file) (-1) None [(I32, 5)] [] [] (Some (I32, 5))) new_system) = false /\
  is_ok (Start_vm_non_interactive 20 (Some (sample_block MEM_SIZE)) (mkOPTIONS (Some then_file) (-1) None [(I32, 5)] [] [] (Some (I32, 1))) new_system) = true.
Proof. vm_compute. auto. Qed.
End Witnesses.
